(* ===== verification/_CoqProject ===== *)
-Q . S2P
Prelude.v
Bytes.v
PhysBitmap.v
KrtlMem.v
BootstrapArena.v
MemoryMap.v
Physmemmgmt.v
PmmSparse.v
PmmDense.v
PmmOps.v
PmmProps.v
Pte.v
Heap.v
HeapSpec.v
HeapProps.v
Alloc.v
Vmr.v
VmrSpec.v
VmrProps.v
PageTable.v
PageTableSpec.v
PageTableProps.v
MmioProps.v
KrtlString.v
Keycodes.v
Keyboard.v
Timer.v
Spinlock.v
Interrupts.v
Descriptors.v
Apic.v
Acpi.v
AcpiProps.v
PcieProps.v
Devices.v
DevicesProps.v
PairProps.v
Builtin.v
BuiltinProps.v
Fonts.v
Console.v
ConsoleProps.v
ConsoleSpec.v
ConsoleFormat.v
ConsoleThms.v
DirectMap.v
DirectMapSpec.v
DirectMapProps.v
DirectMapRegions.v
DirectMapInit.v
DirectMapThms.v
Nmi.v
NmiProps.v
NmiThms.v
Smp.v
SmpSpec.v
InitMem.v
InitMemProps.v
SmpAp.v
SmpThms.v
SmpTop.v
Meltdown.v
MeltdownThms.v
ImgCrc.v
Gpt.v
GptProps.v
RoutineLib.v
RoutineLibProps.v
Imgtool.v
Loader.v
LoaderProps.v
LoaderThms.v
Bootelvt.v
BootelvtProps.v
BootelvtThms.v
KernelStart.v
KernelStartProps.v
Processor.v
BootChain.v
