(* ===== verification/Prelude.v ===== *)
(** * Ych kernel verification library

    Ych is an x86-64 kernel (src/Kernel) started by a UEFI loader (src/Boot)
    that hands over the structures of src/BootContract; src/Tools holds the disk
    image tool.  The library models the program's own logic as executable
    functions and proves what it guarantees.

    ** How the program fits together

    The loader (YchBoot.c) reads boot elevate and the kernel, picks a video mode
    and leaves an information pack and the memory map; boot elevate
    (Bootelvt.asm) builds the first page tables and calls KrKernelStart, whose
    head sorts the map into a canonical one (KrInitMemmap.c) in the bootstrap
    arena (BootstrapArena.c) and opens the text display
    (DisplaywideTextProtocol.c).  KrInitMem then starts the memory managers: the
    direct map (DmapInit.h), the page bitmaps (Physmemmgmt.c), the region lists
    and nodes (Virtmemmgmt.c, RegionNodeAllocator.h) and the heap (Krnlheap.c),
    which lives in a demand-paged region (PTE.c, PageFault.c); MMIO.c maps
    devices through it.  ACPI.c and KrInitACPI.c read the firmware's tables, APIC.c and
    IOAPIC.c set up the interrupt controllers, PCIe.c finds devices, Device.c,
    Driver.c and Pair.c keep and pair them with drivers, KrInitSMP.c starts the
    other processors.  Interrupts reach handlers through per-processor vector
    tables (PerCpu.c, KrInitInt.c); vectors are handed out by IRQAldist.c; the
    timer queue (PerCpu.c, Timer.c) and the keyboard (PS2Keyboard.c,
    KeyboardHub.c) are driven by interrupts, and the boot processor ends in the
    loop that prints keyboard events.  NMI.c stops the other processors for
    Krnlmeltdown.c.  Spinlocks (Spinlock.asm) protect shared state.

    ** Files

    - Prelude: machine integers, outcomes, bit lemmas, tactics, string literals;
      Bytes: little-endian fields in a store of bytes.
    - PhysBitmap, Physmemmgmt (model), PmmSparse, PmmDense, PmmOps
      (specifications), PmmProps (theorems): Memory/Physmemmgmt.c.
    - KrtlMem: KRTL/Krnlmem.c and the alignment helpers; KrtlString:
      KRTL/Krnlstring.c and Krnlchar.c.
    - BootstrapArena: Memory/BootstrapArena.c; MemoryMap: Init/KrInitMemmap.c.
    - Pte: entry and address encoders of Memory/PTE.c, CPU/PAT.c.
    - Heap, HeapSpec, HeapProps: Memory/Krnlheap.c; Alloc: the interface of an
      allocator that its clients are proved against.
    - Vmr, VmrSpec, VmrProps: the region lists of Memory/Virtmemmgmt.c and
      PrivateVMM/RegionNodeAllocator.h.
    - PageTable, PageTableSpec, PageTableProps: the table walk of PTE.c,
      VmMapStatic, Intmgmt/PageFault.c; MmioProps: Memory/MMIO.c.
    - Keycodes, Keyboard: HumanInterface/Keycodes.c, KeyboardHub.c,
      Devdriv/Keyboard/PS2Scancodes.h, PS2Keyboard.c.
    - Timer: the timer queue of CPU/PerCpu.c and Intmgmt/Timer.c.
    - Spinlock: CPU/Spinlock.asm as instruction steps of several processors.
    - Interrupts: vector tables of CPU/PerCpu.c, CPU/Interrupt.c,
      Intmgmt/IRQAldist.c, IOAPIC.c; Descriptors: CPU/GDT.c, IDT.c,
      Init/KrInitGDT.c, KrInitInt.c, ISRs.h.
    - Apic: CPU/APIC.c, Stall.c, Devdriv/Timer/AcpiPmTimer.c.
    - Acpi (model), AcpiProps, PcieProps: ACPI/ACPI.c, PCIe.c, Init/KrInitACPI.c.
    - Devices, DevicesProps, PairProps: Devdriv/Device.c, Driver.c, Pair.c;
      Builtin, BuiltinProps: Init/KrInitDrivers.c, BlockDevice/NVMe.c, the
      registration of the timer and the keyboard, and KrKernelStart.c from there to the
      pairing of the devices.
    - Fonts, Console, ConsoleProps, ConsoleSpec, ConsoleFormat, ConsoleThms:
      Earlyvideo/DisplaywideTextProtocol.c and Dwtpfonts.
    - DirectMap, DirectMapSpec, DirectMapProps, DirectMapRegions, DirectMapInit,
      DirectMapThms: Memory/PrivateVMM/DmapInit.h.
    - Nmi, NmiProps, NmiThms: Intmgmt/NMI.c; Meltdown, MeltdownThms:
      Core/Krnlmeltdown.c, Assert.h and the exception handler.
    - InitMem, InitMemProps: Init/KrInitMem.c with KrInitVirtmemmgmt and
      KrVmmInitCpu.
    - Smp, SmpSpec, SmpAp, SmpThms, SmpTop: Init/KrInitSMP.c,
      KrApplicationProcessorStart.c, BootstrapAP.s.
    - ImgCrc, Gpt, GptProps, RoutineLib, RoutineLibProps, Imgtool: src/Tools.
    - Loader, LoaderProps, LoaderThms: Boot/YchBoot.c, Utilities.h and
      BootContract; Bootelvt, BootelvtProps, BootelvtThms: Boot/Bootelvt.asm.
    - KernelStart, KernelStartProps: the head of Init/KrKernelStart.c and its main
      loop, the latter access by access with HiPopKeyboardEvent; BootChain: loader, boot elevate and head together.
    - Processor: CPU/Identify.c, MSR.c, Atomic.asm, KRTL/Krnlmem.asm.

    ** Conventions

    A definition has the name of the C function it models; a part of a longer
    function has a name of its own and its lines are those of the part.  Unsigned integers
    are [Z] values with the wrap-around of their width written out ([u8] to
    [u64]); signed overflow and other undefined operations are named where they
    occur.  A component's variables are the fields of one record that every
    operation takes and returns.  Linked structures and shared objects live in
    stores keyed by address, so aliasing is visible.  A call yields an
    [outcome]: [Done], [Melt code] for Krnlmeltdown, [Hang] for a processor that
    spins or halts for ever, [Fault] for an access outside an object.  Loops
    that are not structural take fuel, and running out of it is [Hang]; every
    theorem about them proves [Done] (or a meltdown) from a fuel bound such as the number of
    nodes, pages or modes plus one, so [Hang] is excluded and not assumed away.
    Firmware services, hardware answers and the steps of other processors are
    parameters; the theorems hold for all that keep the stated contract.

    ** What the theorems show

    - Boot: the loader hands over the pack, the files and the map, or returns an
      error with boot services running; boot elevate's tables map exactly the
      low memory, the kernel and the frame buffer; the head of the kernel then
      has the canonical map, arena and screen the contract promises.
    - Memory start-up: the bootstrap tables become a direct map, and KrInitMem
      ends with every manager ready, composed from the theorems of each.
    - Physical pages: every reachable state keeps the kernel image, low memory and
      unusable memory unavailable; acquisition returns available pages from any
      valid hint and marks exactly those, distinct ones if the request does not
      exceed what there is; release restores them; no operation faults,
      hangs or melts down.
    - Bitmap, memory map, arena: exact range updates, sorting, coverage of the
      usable memory, disjoint blocks.
    - Page tables: [pt_wf] says the tables form a tree below the root.
      VmMapStatic, the page fault handler and MmioMapDevice preserve it and make
      the processor's own walk ([mmu_translate]) yield exactly the intended
      frames and rights, without changing any other translation; three
      available pages ahead per mapped page are shown to be enough.
    - Regions: insertion keeps the list sorted and disjoint; queries are exact.
    - Heap: acquisition and release refine a first-fit block list; live blocks
      are disjoint in every reachable heap.
    - Strings and key codes: the formatter renders format strings; numbers read
      back; the translations are inverse.
    - Console: the operations refine a screen of coloured cells and stay inside
      the frame buffers, given memory for one text row below the last full one.
    - Keyboard, timer, main loop: the handler decodes scan code streams.  Timers
      never fire early, under any sequence of interrupts and SetTimer calls, and late by
      exactly the handlers' latencies and the counts SetTimer restarts.  Events are printed in
      order under any interleaving of interrupts with the accesses of the
      loop; those that arrive between the load and the store of the count stay
      in the queue.
    - Spinlocks and interrupts: mutual exclusion over all interleavings and
      progress; an IRQ set-up routes to the first free vector in turn; the
      tables dispatch every vector.
    - ACPI, PCI Express, devices: tables are accepted exactly when valid, if none
      has a zero byte after its signature and their lengths are at least those
      of the headers; with a configuration window of all 256 buses the
      enumeration finds the functions that answer, the tree holds them, pairing
      binds each to its first driver; NVMe controllers get the NVMe driver.
    - APIC: messages are those of the configuration; calibration ends.
    - Processors: NMIs collect every acknowledgement, start-up brings up every
      processor in any order of steps that keeps the deadlines of the waits, a
      meltdown reaches its halt with the others stopped and shows its report, on a
      console that is idle and has room for it.
    - Disk image tool: the checksum is the CRC-32 remainder, the image written is
      a valid GUID partition table for disks of 128 MiB to 2^32 blocks of
      a multiple of 512 and at most a third of a MiB, the command line reaches the routine.

    Examples named after a defect evaluate inputs on which the code departs from
    its intention; several theorems carry a hypothesis for that reason (a spare text
    row, a nonempty address space, a predecessor that is not free, a bound on the
    blocks of a disk), which their comments state.

    ** What is not modelled

    Port and volatile accesses and instructions such as HLT appear only as the
    outcome or store they act on; the register save code of ISRs.asm and the
    descriptor loads are taken as done.  Table memory, allocator slots and region nodes are
    separate stores, so their pages are assumed distinct, as the page manager makes
    them.  KrKernelStart is modelled in parts (head, memory start-up, drivers to
    pairing, main loop): its components keep states of their own, so the whole
    is not one function, and the progress messages of the head are left out.  StrStr and
    MemCpy of blstd.h are not called.  The NVMe driver drives no hardware. *)
From Stdlib Require Import ZArith Lia Btauto.
From Stdlib Require Ascii String.
From stdpp Require Export base numbers list gmap.
#[export] Set Default Goal Selector "!".
Open Scope Z_scope.

(** ** Machine integers *)

(** The unsigned C types of Krnlych.h (BYTE, WORD, DWORD, QWORD and their
    logical aliases) are [Z] values kept reduced by these wrap functions. *)
Definition u8 (x : Z) : Z := x mod 2 ^ 8.
Definition u16 (x : Z) : Z := x mod 2 ^ 16.
Definition u32 (x : Z) : Z := x mod 2 ^ 32.
Definition u64 (x : Z) : Z := x mod 2 ^ 64.

Create HintDb ych.
Create Rewrite HintDb ych_rw.

Ltac zify_div := Z.div_mod_to_equations.

(** Arithmetic closer: [lia] after the division equations are introduced. *)
Ltac zlia := solve [lia | zify_div; lia | zify_div; nia].

Lemma u8_small x : 0 <= x < 2 ^ 8 -> u8 x = x.
Proof. apply Z.mod_small. Qed.
Lemma u16_small x : 0 <= x < 2 ^ 16 -> u16 x = x.
Proof. apply Z.mod_small. Qed.
Lemma u32_small x : 0 <= x < 2 ^ 32 -> u32 x = x.
Proof. apply Z.mod_small. Qed.
Lemma u64_small x : 0 <= x < 2 ^ 64 -> u64 x = x.
Proof. apply Z.mod_small. Qed.
Lemma u8_range x : 0 <= u8 x < 2 ^ 8.
Proof. apply Z.mod_pos_bound; lia. Qed.
Lemma u32_range x : 0 <= u32 x < 2 ^ 32.
Proof. apply Z.mod_pos_bound; lia. Qed.
Lemma u64_range x : 0 <= u64 x < 2 ^ 64.
Proof. apply Z.mod_pos_bound; lia. Qed.

(** ** Outcomes of kernel code *)

(** [Done a]: the call returned [a].  [Melt code]: Krnlmeltdown was entered
    with that code and does not return.  [Hang]: the processor spins or halts
    for ever.  [Fault]: an access outside the object the C code designates
    (out of bounds index, null dereference, division by zero). *)
Inductive outcome (A : Type) : Type :=
  | Done (a : A)
  | Melt (code : Z)
  | Hang
  | Fault.
Arguments Done {_} _.
Arguments Melt {_} _.
Arguments Hang {_}.
Arguments Fault {_}.

#[export] Instance outcome_ret : MRet outcome := fun A a => Done a.
#[export] Instance outcome_bind : MBind outcome := fun A B f m =>
  match m with
  | Done a => f a
  | Melt c => Melt c
  | Hang => Hang
  | Fault => Fault
  end.

(** A read or an indexed write that the C code performs unchecked. *)
Definition checked {A} (o : option A) : outcome A :=
  match o with Some a => Done a | None => Fault end.

Lemma bind_Done {A B} (a : A) (f : A -> outcome B) : (x ← Done a; f x) = f a.
Proof. done. Qed.
Lemma bind_Done_inv {A B} (m : outcome A) (f : A -> outcome B) b :
  (x ← m; f x) = Done b -> exists a, m = Done a /\ f a = Done b.
Proof. destruct m; naive_solver. Qed.
#[export] Hint Rewrite @bind_Done : ych_rw.
#[export] Hint Resolve u8_range u32_range u64_range : ych.

(** Case analysis on the boolean comparisons the definitions are written with. *)
Ltac zcase :=
  match goal with
  | |- context [?a <? ?b] => destruct (Z.ltb_spec a b)
  | |- context [?a <=? ?b] => destruct (Z.leb_spec a b)
  | |- context [?a =? ?b] => destruct (Z.eqb_spec a b)
  | |- context [?a >? ?b] => rewrite (Z.gtb_ltb a b); destruct (Z.ltb_spec b a)
  | |- context [?a >=? ?b] => rewrite (Z.geb_leb a b); destruct (Z.leb_spec b a)
  end.
Ltac zcase_in H :=
  match type of H with
  | context [?a <? ?b] => destruct (Z.ltb_spec a b)
  | context [?a <=? ?b] => destruct (Z.leb_spec a b)
  | context [?a =? ?b] => destruct (Z.eqb_spec a b)
  | context [?a >? ?b] => rewrite (Z.gtb_ltb a b) in H; destruct (Z.ltb_spec b a)
  | context [?a >=? ?b] => rewrite (Z.geb_leb a b) in H; destruct (Z.leb_spec b a)
  end.

(** ** Bits and bytes *)

Lemma testbit_u8 x i : 0 <= i -> Z.testbit (u8 x) i = (i <? 8) && Z.testbit x i.
Proof.
  intros Hi. unfold u8. rewrite Z.testbit_mod_pow2 by lia. done.
Qed.
Lemma testbit_u32 x i : 0 <= i -> Z.testbit (u32 x) i = (i <? 32) && Z.testbit x i.
Proof. intros Hi. unfold u32. by rewrite Z.testbit_mod_pow2 by lia. Qed.
Lemma testbit_u64 x i : 0 <= i -> Z.testbit (u64 x) i = (i <? 64) && Z.testbit x i.
Proof. intros Hi. unfold u64. by rewrite Z.testbit_mod_pow2 by lia. Qed.

Lemma testbit_one_shiftl k i :
  0 <= k -> 0 <= i -> Z.testbit (Z.shiftl 1 k) i = (i =? k).
Proof.
  intros Hk Hi. rewrite Z.shiftl_spec by lia.
  zcase; [subst; by rewrite Z.sub_diag|].
  destruct (decide (i < k)); [apply Z.testbit_neg_r; lia|].
  by rewrite Z.bits_above_log2; [..|simpl; lia].
Qed.

(** A value below [2^n] has no bit at or above [n]. *)
Lemma testbit_above x n i : 0 <= x < 2 ^ n -> n <= i -> Z.testbit x i = false.
Proof.
  intros Hx Hi. destruct (decide (0 <= n)) as [Hn|Hn].
  - rewrite <- (Z.mod_small x (2 ^ n)) by lia. apply Z.mod_pow2_bits_high. lia.
  - rewrite Z.pow_neg_r in Hx by lia. lia.
Qed.

(** Extensionality on an n-bit range. *)
Lemma bits_inj_below n x y :
  0 <= x < 2 ^ n -> 0 <= y < 2 ^ n ->
  (forall i, 0 <= i < n -> Z.testbit x i = Z.testbit y i) -> x = y.
Proof.
  intros Hx Hy H. apply Z.bits_inj'. intros i Hi.
  destruct (decide (i < n)); [apply H; lia|].
  rewrite (testbit_above x n), (testbit_above y n) by lia. done.
Qed.

Lemma nonneg_bits_bound n x :
  0 <= n -> 0 <= x -> (forall i, n <= i -> Z.testbit x i = false) -> x < 2 ^ n.
Proof.
  intros Hn Hx H. destruct (decide (x = 0)) as [->|]; [lia|].
  apply Z.log2_lt_pow2; [lia|].
  destruct (decide (Z.log2 x < n)) as [|Hl]; [done|].
  specialize (H (Z.log2 x) ltac:(lia)). rewrite Z.bit_log2 in H by lia. done.
Qed.

(** [byte_write v k s] is the C byte update [v |= 1 << k] when [s] holds and
    [v &= ~(1 << k)] otherwise. *)
Definition byte_write (v k : Z) (s : bool) : Z :=
  if s then u8 (Z.lor v (Z.shiftl 1 k)) else u8 (Z.land v (Z.lnot (Z.shiftl 1 k))).

Lemma testbit_byte_write v k s i :
  0 <= k < 8 -> 0 <= i < 8 ->
  Z.testbit (byte_write v k s) i = if i =? k then s else Z.testbit v i.
Proof.
  intros Hk Hi. unfold byte_write.
  destruct s; rewrite testbit_u8 by lia.
  all: rewrite ?Z.lor_spec, ?Z.land_spec, ?Z.lnot_spec, testbit_one_shiftl by lia.
  all: repeat zcase; try lia; simpl; btauto.
Qed.

Lemma byte_write_range v k s : 0 <= byte_write v k s < 2 ^ 8.
Proof. destruct s; apply u8_range. Qed.

(** ** Power-of-two masks *)

Lemma ones_pow2 k : 2 ^ k - 1 = Z.ones k.
Proof. rewrite Z.ones_equiv. lia. Qed.

Lemma land_ones_mod x k : 0 <= k -> Z.land x (2 ^ k - 1) = x mod 2 ^ k.
Proof. intros Hk. rewrite ones_pow2. by apply Z.land_ones. Qed.

(** [x & ~(2^k - 1)] on 64-bit words rounds down to a multiple of [2^k]. *)
Lemma land_mask_down x k :
  0 <= x < 2 ^ 64 -> 0 <= k ->
  Z.land x (u64 (Z.lnot (2 ^ k - 1))) = x / 2 ^ k * 2 ^ k.
Proof.
  intros Hx Hk. rewrite <- Z.shiftr_div_pow2, <- Z.shiftl_mul_pow2, <- Z.ldiff_ones_r by lia.
  rewrite ones_pow2. apply Z.bits_inj'. intros i Hi.
  rewrite Z.land_spec, Z.ldiff_spec, testbit_u64, Z.lnot_spec by lia.
  zcase; [btauto|]. rewrite (testbit_above x 64 i) by lia. done.
Qed.

(** Clearing and setting single flag bits of a word. *)
Definition has_flag (x f : Z) : bool := negb (Z.land x f =? 0).

Lemma has_flag_pow2 x k : 0 <= k -> has_flag x (2 ^ k) = Z.testbit x k.
Proof.
  intros Hk. unfold has_flag.
  assert (Z.land x (2 ^ k) = if Z.testbit x k then 2 ^ k else 0) as ->.
  { apply Z.bits_inj'. intros i Hi. rewrite Z.land_spec, Z.pow2_bits_eqb by lia.
    destruct (Z.eqb_spec k i) as [<-|].
    - destruct (Z.testbit x k); [by rewrite Z.pow2_bits_eqb, Z.eqb_refl by lia|by rewrite Z.bits_0].
    - rewrite andb_false_r. destruct (Z.testbit x k); [|by rewrite Z.bits_0].
      rewrite Z.pow2_bits_eqb by lia. symmetry. by apply Z.eqb_neq. }
  destruct (Z.testbit x k); [|done].
  destruct (Z.eqb_spec (2 ^ k) 0); [|done]. pose proof (Z.pow_pos_nonneg 2 k). lia.
Qed.

(** ** String literals as bytes *)

(** The bytes of a string literal, without and with the terminator, and as a
    line of output. *)
Definition txt (s : String.string) : list Z := (fun c => Z.of_N (Ascii.N_of_ascii c)) <$> String.list_ascii_of_string s.
Definition cstr (s : String.string) : list Z := txt s ++ [0].
Definition line (s : String.string) : list Z := txt s ++ [10].
