(* ===== verification/Bytes.v ===== *)
(** * Packed little-endian structures and sparse byte memories *)
From Stdlib Require Import ZArith Lia.
From stdpp Require Import base numbers list gmap.
From S2P Require Import Prelude.
Open Scope Z_scope.

(** ** Integers as bytes *)

(** [n] bytes of a little-endian integer. *)
Fixpoint le_bytes (n : nat) (x : Z) : list Z :=
  match n with O => [] | S n' => x mod 256 :: le_bytes n' (x / 256) end.

(** The number in some bytes. *)
Definition le_value (l : list Z) : Z := foldr (fun b a => b + 256 * a) 0 l.
Lemma le_value_range l : Forall (fun b => 0 <= b < 256) l -> 0 <= le_value l < 2 ^ (8 * Z.of_nat (length l)).
Proof.
  induction 1 as [|b l Hb _ IH]; [done|]. cbn [le_value foldr length]. fold (le_value l).
  replace (8 * Z.of_nat (S (length l))) with (8 + 8 * Z.of_nat (length l)) by lia. rewrite Z.pow_add_r by lia. lia.
Qed.
Lemma le_value_inj l l' : Forall (fun b => 0 <= b < 256) l -> Forall (fun b => 0 <= b < 256) l' -> length l = length l' -> le_value l = le_value l' -> l = l'.
Proof.
  intros Hl. induction Hl as [|b l Hb Hl IH] in l' |- *; intros H' Hlen E; destruct H' as [|b' l' Hb' Hl']; try done.
  cbn [le_value foldr length] in *. fold (le_value l) in E. fold (le_value l') in E. assert (b = b') as -> by zlia. f_equal. apply IH; [done|lia|lia].
Qed.


(** ** Memories *)

Fixpoint write_at (m : gmap Z Z) (off : Z) (data : list Z) : gmap Z Z :=
  match data with [] => m | b :: data => <[off := b]> (write_at m (off + 1) data) end.

(** ** Reading back *)

Definition byte (b : Z) : Prop := 0 <= b < 256.
Definition rd (m : gmap Z Z) (off n : Z) : list Z := (fun i => default 0 (m !! i)) <$> seqZ off n.
Definition slice (l : list Z) (a n : nat) : list Z := take n (drop a l).

Lemma write_at_lookup data m off i :
  write_at m off data !! i = if decide (off <= i < off + Z.of_nat (length data)) then data !! Z.to_nat (i - off) else m !! i.
Proof.
  induction data as [|b data IH] in off |- *; cbn [write_at length].
  { by rewrite decide_False by lia. }
  destruct (decide (i = off)) as [->|Hne].
  - by rewrite lookup_insert_eq, decide_True, Z.sub_diag by lia.
  - rewrite lookup_insert_ne, IH by done. destruct (decide (off + 1 <= i < off + 1 + Z.of_nat (length data))).
    + rewrite decide_True by lia. replace (Z.to_nat (i - off)) with (S (Z.to_nat (i - (off + 1)))) by lia. done.
    + by rewrite decide_False by lia.
Qed.
Lemma write_at_snoc m off a b : write_at (write_at m off a) (off + Z.of_nat (length a)) b = write_at m off (a ++ b).
Proof.
  apply map_eq. intros i. rewrite !write_at_lookup, length_app. destruct (decide (off + Z.of_nat (length a) <= i < _)).
  - rewrite decide_True, lookup_app_r by lia. f_equal. lia.
  - destruct (decide (off <= i < off + Z.of_nat (length a))); [|by rewrite decide_False by lia].
    by rewrite decide_True, lookup_app_l by lia.
Qed.
Lemma rd_ext m m' off n : (forall i, off <= i < off + n -> m !! i = m' !! i) -> rd m off n = rd m' off n.
Proof. intros H. apply list_fmap_ext. intros k x Hx. apply lookup_seqZ in Hx as [-> ?]. by rewrite H by lia. Qed.
Lemma rd_other data m p off n : off + n <= p \/ p + Z.of_nat (length data) <= off -> rd (write_at m p data) off n = rd m off n.
Proof. intros H. apply rd_ext. intros i Hi. rewrite write_at_lookup. by rewrite decide_False by lia. Qed.
Lemma rd_same data m p : rd (write_at m p data) p (Z.of_nat (length data)) = data.
Proof.
  apply list_eq. intros k. unfold rd. rewrite list_lookup_fmap. destruct (decide (k < length data)%nat) as [Hk|Hk].
  - rewrite (proj2 (lookup_seqZ p (Z.of_nat (length data)) k (p + Z.of_nat k))) by lia. cbn. rewrite write_at_lookup, decide_True by lia.
    replace (Z.to_nat (p + Z.of_nat k - p)) with k by lia. destruct (data !! k) eqn:E; [done|]. apply lookup_ge_None in E. lia.
  - rewrite (lookup_seqZ_ge p) by lia. cbn. symmetry. apply lookup_ge_None. lia.
Qed.
Lemma rd_written data m p k : Z.of_nat (length data) = k -> rd (write_at m p data) p k = data.
Proof. intros <-. apply rd_same. Qed.
Lemma rd_app m off a b : 0 <= a -> 0 <= b -> rd m off (a + b) = rd m off a ++ rd m (off + a) b.
Proof. intros Ha Hb. unfold rd. by rewrite seqZ_app, fmap_app by lia. Qed.
Lemma rd_empty off n : rd ∅ off n = replicate (Z.to_nat n) 0.
Proof.
  apply list_eq. intros k. unfold rd. rewrite list_lookup_fmap. destruct (decide (k < Z.to_nat n)%nat).
  - rewrite lookup_replicate_2 by done. by rewrite (proj2 (lookup_seqZ off n k (off + Z.of_nat k))) by lia.
  - rewrite (lookup_seqZ_ge off) by lia. cbn. symmetry. apply lookup_replicate_None. lia.
Qed.
Lemma rd_length m off n : length (rd m off n) = Z.to_nat n.
Proof. unfold rd. by rewrite length_fmap, length_seqZ. Qed.
Lemma rd_slice m off n a k : Z.of_nat (a + k) <= n -> slice (rd m off n) a k = rd m (off + Z.of_nat a) (Z.of_nat k).
Proof.
  intros H. unfold slice. replace n with (Z.of_nat a + (Z.of_nat k + (n - Z.of_nat (a + k)))) by lia. rewrite rd_app by lia.
  rewrite drop_app_ge, rd_length by (rewrite rd_length; lia). replace (a - Z.to_nat (Z.of_nat a))%nat with 0%nat by lia. cbn [drop].
  rewrite drop_0, rd_app by lia. rewrite take_app_le, take_ge by (rewrite rd_length; lia). done.
Qed.

Lemma rd_write_slice data m p k n : 0 <= k -> 0 <= n -> k + n <= Z.of_nat (length data) ->
  rd (write_at m p data) (p + k) n = slice data (Z.to_nat k) (Z.to_nat n).
Proof.
  intros Hk Hn Hl. rewrite <- (rd_same data m p) at 2. rewrite rd_slice by lia. by rewrite !Z2Nat.id.
Qed.

Lemma le_bytes_length n x : length (le_bytes n x) = n.
Proof. induction n in x |- *; cbn; auto. Qed.
Lemma le_bytes_byte n x : Forall byte (le_bytes n x).
Proof. induction n in x |- *; constructor; [unfold byte; zlia|done]. Qed.
Lemma le_value_bytes n x : 0 <= x < 2 ^ (8 * Z.of_nat n) -> le_value (le_bytes n x) = x.
Proof.
  induction n as [|n IH] in x |- *; intros Hx; [change (2 ^ (8 * Z.of_nat 0)) with 1 in Hx; cbn; lia|].
  cbn [le_bytes le_value foldr]. fold (le_value (le_bytes n (x / 256))). rewrite IH; [zlia|].
  replace (8 * Z.of_nat (S n)) with (8 + 8 * Z.of_nat n) in Hx by lia. rewrite Z.pow_add_r in Hx by lia. change (2 ^ 8) with 256 in Hx.
  split; [zlia|]. apply Z.div_lt_upper_bound; lia.
Qed.


(** ** Fields *)

Definition num (l : list Z) (a n : nat) : Z := le_value (slice l a n).
(** Splitting a packed structure at a field. *)
Lemma slice_here l r n : length l = n -> slice (l ++ r) 0 n = l.
Proof. intros <-. unfold slice. rewrite drop_0. apply take_app_length. Qed.
Lemma slice_skip l r a n : (length l <= a)%nat -> slice (l ++ r) a n = slice r (a - length l) n.
Proof. intros H. unfold slice. by rewrite drop_app_ge by lia. Qed.
Lemma slice_all l n : length l = n -> slice l 0 n = l.
Proof. intros <-. unfold slice. by rewrite drop_0, take_ge. Qed.
Ltac split_forall := repeat match goal with H : Forall _ (_ :: _) |- _ => apply Forall_cons in H as [? H] end.
Ltac field_len := rewrite ?le_bytes_length; lia.
(** Finds a field behind the ones before it. *)
Ltac find_field :=
  repeat (rewrite slice_skip by field_len); rewrite ?le_bytes_length;
  repeat match goal with H : length ?l = _ |- context [length ?l] => rewrite H end; cbn [Nat.sub];
  first [rewrite slice_here by field_len | rewrite slice_all by field_len]; try reflexivity; try (apply le_value_bytes; lia).

