(* ===== verification/PhysBitmap.v ===== *)
(** * Page status bitmaps (Kernel/Source/Memory/Physmemmgmt.c)

    The two page bitmaps of the physical memory manager are byte lists;
    [KrSetPhysicalPageStatus] is the routine that writes a page range with a
    byte-wise head, 64/32/16/8 bit bulk stores and a byte-wise tail.  The file
    proves it equal to the per-page specification [bits_set]. *)
From Stdlib Require Import ZArith Lia Btauto.
From stdpp Require Import base numbers list.
From S2P Require Import Prelude.
Open Scope Z_scope.

Definition PAGE_FREE : Z := 0.
Definition PAGE_ALLOCATED : Z := 1.

(** ** Reading and writing a bitmap *)

(** Bit of page [p], as the code reads it: [bm[p / 8] & (1 << (p % 8))]. *)
Definition bit_at (bm : list Z) (p : Z) : bool :=
  match bm !! Z.to_nat (p / 8) with
  | Some b => Z.testbit b (p mod 8)
  | None => false
  end.

Definition read_byte (bm : list Z) (i : Z) : outcome Z := checked (bm !! Z.to_nat i).

Definition store_byte (bm : list Z) (i v : Z) : outcome (list Z) :=
  if i <? Z.of_nat (length bm) then Done (<[Z.to_nat i := v]> bm) else Fault.

(** Little-endian store of the [w] low bytes of [v] at byte index [i]. *)
Fixpoint store_le (w : nat) (bm : list Z) (i v : Z) : outcome (list Z) :=
  match w with
  | O => Done bm
  | S w' => bm' ← store_byte bm i (u8 v); store_le w' bm' (i + 1) (Z.shiftr v 8)
  end.

(** ** KrSetPhysicalPageStatus *)

(** [for (; BitOffset < 8 && N; BitOffset++, N--, iCurrent++)]: the byte value
    and the counters when the loop ends. *)
Fixpoint status_head (fuel : nat) (Value BitOffset N : Z) (Status : bool) : Z * Z :=
  match fuel with
  | O => (Value, N)
  | S fuel' =>
      if (BitOffset <? 8) && negb (N =? 0)
      then status_head fuel' (byte_write Value BitOffset Status) (BitOffset + 1) (N - 1) Status
      else (Value, N)
  end.

(** [while (N >= 8 * w) { store w bytes; pRegion += w; N -= 8 * w; }] *)
Fixpoint status_bulk (fuel : nat) (w : nat) (fill : Z) (bm : list Z) (pRegion N : Z)
    : outcome (list Z * Z * Z) :=
  match fuel with
  | O => Done (bm, pRegion, N)
  | S fuel' =>
      if N >=? 8 * Z.of_nat w
      then bm' ← store_le w bm pRegion fill;
           status_bulk fuel' w fill bm' (pRegion + Z.of_nat w) (N - 8 * Z.of_nat w)
      else Done (bm, pRegion, N)
  end.

(** [for (BitOffset = 0; N; BitOffset++, N--, iCurrent++)]. *)
Fixpoint status_tail (fuel : nat) (Value BitOffset N : Z) (Status : bool) : Z :=
  match fuel with
  | O => Value
  | S fuel' =>
      if negb (N =? 0)
      then status_tail fuel' (byte_write Value BitOffset Status) (BitOffset + 1) (N - 1) Status
      else Value
  end.

(** The bitmap after the call, and the returned BOOL. *)
Definition KrSetPhysicalPageStatus (NrPages : Z) (pBitmap : list Z) (idStart N Status : Z)
    : outcome (list Z * bool) :=
  let st := negb (Status =? 0) in
  if u64 (idStart + N) >? NrPages then Done (pBitmap, false)
  else
    let iCurrent := idStart in
    let pRegion := iCurrent / 8 in
    let BitOffset := iCurrent mod 8 in
    '(bm, pRegion, N) ←
      (if negb (BitOffset =? 0) then
         Value ← read_byte pBitmap pRegion;
         let '(Value, N) := status_head 8 Value BitOffset N st in
         bm ← store_byte pBitmap pRegion Value;
         Done (bm, pRegion + 1, N)
       else Done (pBitmap, pRegion, N));
    '(bm, pRegion, N) ← status_bulk (Z.to_nat N) 8 (if st then 0xFFFFFFFFFFFFFFFF else 0) bm pRegion N;
    '(bm, pRegion, N) ← status_bulk (Z.to_nat N) 4 (if st then 0xFFFFFFFF else 0) bm pRegion N;
    '(bm, pRegion, N) ← status_bulk (Z.to_nat N) 2 (if st then 0xFFFF else 0) bm pRegion N;
    '(bm, pRegion, N) ← status_bulk (Z.to_nat N) 1 (if st then 0xFF else 0x00) bm pRegion N;
    if negb (N =? 0) then
      Value ← read_byte bm pRegion;
      bm ← store_byte bm pRegion (status_tail 8 Value 0 N st);
      Done (bm, true)
    else Done (bm, true).

(** ** Specification *)

Definition bytes_ok (bm : list Z) : Prop := Forall (fun b => 0 <= b < 2 ^ 8) bm.

(** [bm'] is [bm] with exactly the pages of [[lo, hi)] set to [s]. *)
Record bits_set (bm bm' : list Z) (s : bool) (lo hi : Z) : Prop := {
  bs_length : length bm' = length bm;
  bs_bytes : bytes_ok bm -> bytes_ok bm';
  bs_bits : forall p, 0 <= p -> bit_at bm' p = if (lo <=? p) && (p <? hi) then s else bit_at bm p
}.

Lemma bits_set_refl bm s lo : bits_set bm bm s lo lo.
Proof. split; [done..|]. intros p Hp. repeat zcase; naive_solver lia. Qed.

Lemma bits_set_trans bm1 bm2 bm3 s lo mid hi :
  lo <= mid <= hi ->
  bits_set bm1 bm2 s lo mid -> bits_set bm2 bm3 s mid hi -> bits_set bm1 bm3 s lo hi.
Proof.
  intros Hm [L1 B1 H1] [L2 B2 H2]. split; [congruence|auto|].
  intros p Hp. rewrite H2, H1 by done. repeat zcase; simpl; done || lia.
Qed.

Lemma bit_at_store bm i v p :
  0 <= i < Z.of_nat (length bm) -> 0 <= p ->
  bit_at (<[Z.to_nat i := v]> bm) p = if p / 8 =? i then Z.testbit v (p mod 8) else bit_at bm p.
Proof.
  intros Hi Hp. unfold bit_at. pose proof (Z.div_pos p 8 ltac:(lia) ltac:(lia)).
  zcase.
  - subst i. rewrite list_lookup_insert_eq by lia. done.
  - rewrite list_lookup_insert_ne by lia. done.
Qed.

Lemma store_byte_ok bm i v :
  0 <= i < Z.of_nat (length bm) -> store_byte bm i v = Done (<[Z.to_nat i := v]> bm).
Proof. intros Hi. unfold store_byte. zcase; [done|lia]. Qed.

Lemma bytes_ok_insert bm i v : bytes_ok bm -> 0 <= v < 2 ^ 8 -> bytes_ok (<[i := v]> bm).
Proof. intros H Hv. by apply Forall_insert. Qed.

Lemma read_byte_ok bm i :
  0 <= i < Z.of_nat (length bm) ->
  exists b, read_byte bm i = Done b /\ bm !! Z.to_nat i = Some b.
Proof.
  intros Hi. destruct (lookup_lt_is_Some_2 bm (Z.to_nat i)) as [b Hb]; [lia|].
  exists b. unfold read_byte. by rewrite Hb.
Qed.

(** Writing a whole byte whose bits agree with the status on a bit window. *)
Lemma byte_store_bits_set bm i v b s lo hi :
  0 <= i < Z.of_nat (length bm) -> bm !! Z.to_nat i = Some b -> 0 <= v < 2 ^ 8 ->
  8 * i <= lo -> hi <= 8 * i + 8 ->
  (forall k, 0 <= k < 8 -> Z.testbit v k =
     if (lo - 8 * i <=? k) && (k <? hi - 8 * i) then s else Z.testbit b k) ->
  bits_set bm (<[Z.to_nat i := v]> bm) s lo hi.
Proof.
  intros Hi Hb Hv Hlo Hhi Hk. split; [apply length_insert|by intros; apply bytes_ok_insert|].
  intros p Hp. rewrite bit_at_store by done.
  pose proof (Z.div_mod p 8 ltac:(lia)). pose proof (Z.mod_pos_bound p 8 ltac:(lia)).
  destruct (Z.eqb_spec (p / 8) i).
  - rewrite Hk by lia. unfold bit_at. subst i. rewrite Hb. repeat zcase; simpl; done || lia.
  - destruct (Z.leb_spec lo p), (Z.ltb_spec p hi); simpl; try done. nia.
Qed.

Lemma bits_set_empty bm bm' s lo hi lo' :
  hi <= lo -> bits_set bm bm' s lo hi -> bits_set bm bm' s lo' lo'.
Proof.
  intros Hle [L B H]. split; [done..|]. intros p Hp. rewrite H by done.
  repeat zcase; simpl; done || lia.
Qed.

(** ** The three phases *)

Lemma status_head_spec fuel : forall v off n s,
  0 <= off -> 0 <= n -> 8 - off <= Z.of_nat fuel -> 0 <= v < 2 ^ 8 ->
  let '(v', n') := status_head fuel v off n s in
  0 <= v' < 2 ^ 8 /\ n' = n - Z.min n (Z.max 0 (8 - off)) /\
  forall k, 0 <= k < 8 -> Z.testbit v' k =
    if (off <=? k) && (k <? off + n) then s else Z.testbit v k.
Proof.
  induction fuel as [|fuel IH]; intros v off n s Hoff Hn Hf Hv; simpl.
  - split_and!; [lia..|]. intros k Hk. repeat zcase; simpl; done || lia.
  - destruct (Z.ltb_spec off 8), (Z.eqb_spec n 0); simpl.
    all: try (split_and!; [lia..|]; intros k Hk; repeat zcase; simpl; done || lia).
    specialize (IH (byte_write v off s) (off + 1) (n - 1) s ltac:(lia) ltac:(lia) ltac:(lia)
                  (byte_write_range v off s)).
    destruct (status_head _ _ _ _ _) as [v' n']. destruct IH as (Hr & -> & Hb).
    split_and!; [lia..|]. intros k Hk. rewrite Hb, testbit_byte_write by lia.
    repeat zcase; simpl; done || lia.
Qed.

Lemma status_tail_spec fuel : forall v off n s,
  0 <= off -> 0 <= n -> n <= Z.of_nat fuel -> off + n <= 8 -> 0 <= v < 2 ^ 8 ->
  0 <= status_tail fuel v off n s < 2 ^ 8 /\
  forall k, 0 <= k < 8 -> Z.testbit (status_tail fuel v off n s) k =
    if (off <=? k) && (k <? off + n) then s else Z.testbit v k.
Proof.
  induction fuel as [|fuel IH]; intros v off n s Hoff Hn Hf Hb Hv; simpl.
  - split_and!; [lia..|]. intros k Hk. repeat zcase; simpl; done || lia.
  - destruct (Z.eqb_spec n 0); simpl.
    { split_and!; [lia..|]; intros k Hk; repeat zcase; simpl; done || lia. }
    destruct (IH (byte_write v off s) (off + 1) (n - 1) s) as (Hr & Hbits);
      [lia..|apply byte_write_range|].
    split; [done|]. intros k Hk. rewrite Hbits, testbit_byte_write by lia.
    repeat zcase; simpl; done || lia.
Qed.

(** All bits of the stored word below [8 * w] equal the status. *)
Definition fill_ok (w : nat) (fill : Z) (s : bool) : Prop :=
  forall k, 0 <= k < 8 * Z.of_nat w -> Z.testbit fill k = s.

Lemma store_le_spec w : forall bm i fill s,
  0 <= i -> i + Z.of_nat w <= Z.of_nat (length bm) -> fill_ok w fill s ->
  exists bm', store_le w bm i fill = Done bm' /\ bits_set bm bm' s (8 * i) (8 * i + 8 * Z.of_nat w).
Proof.
  induction w as [|w IH]; intros bm i fill s Hi Hl Hf.
  - exists bm. split; [done|]. replace (8 * i + 8 * Z.of_nat 0) with (8 * i) by lia. apply bits_set_refl.
  - cbn [store_le]. rewrite store_byte_ok, bind_Done by lia.
    set (bm1 := <[_ := _]> bm).
    assert (length bm1 = length bm) as Hl1 by apply length_insert.
    destruct (IH bm1 (i + 1) (Z.shiftr fill 8) s) as (bm' & -> & Hs); [lia..| |].
    { intros k Hk. rewrite Z.shiftr_spec by lia. apply Hf. lia. }
    exists bm'. split; [done|].
    apply (bits_set_trans bm bm1 bm' s _ (8 * i + 8) _); [lia| |].
    + destruct (lookup_lt_is_Some_2 bm (Z.to_nat i)) as [b Hb]; [lia|].
      apply (byte_store_bits_set bm i _ b); [lia|done|apply u8_range|lia..|].
      intros k Hk. rewrite testbit_u8 by lia. rewrite Hf by lia. repeat zcase; simpl; done || lia.
    + replace (8 * i + 8) with (8 * (i + 1)) by lia.
      replace (8 * i + 8 * Z.of_nat (S w)) with (8 * (i + 1) + 8 * Z.of_nat w) by lia. done.
Qed.

Lemma status_bulk_spec fuel w : forall fill bm i n s,
  (0 < w)%nat -> 0 <= i -> 0 <= n -> n <= Z.of_nat fuel ->
  8 * i + n <= 8 * Z.of_nat (length bm) -> fill_ok w fill s ->
  exists bm' i' n', status_bulk fuel w fill bm i n = Done (bm', i', n') /\
    0 <= n' < 8 * Z.of_nat w /\ i <= i' /\ 8 * i' + n' = 8 * i + n /\ bits_set bm bm' s (8 * i) (8 * i').
Proof.
  induction fuel as [|fuel IH]; intros fill bm i n s Hw Hi Hn Hf Hl Hfill; simpl.
  - exists bm, i, n. split_and!; [done|lia..|apply bits_set_refl].
  - zcase; [|exists bm, i, n; split_and!; [done|lia..|apply bits_set_refl]].
    destruct (store_le_spec w bm i fill s) as (bm1 & -> & Hs); [lia..|done|]. rewrite bind_Done.
    destruct (IH fill bm1 (i + Z.of_nat w) (n - 8 * Z.of_nat w) s)
      as (bm' & i' & n' & -> & Hn' & Hi' & He & Hs'); [lia..| |done|].
    { rewrite (bs_length _ _ _ _ _ Hs). lia. }
    exists bm', i', n'. split_and!; [done|lia..|].
    eapply (bits_set_trans bm bm1 bm' s _ (8 * i + 8 * Z.of_nat w)); [lia|done|].
    replace (8 * i + 8 * Z.of_nat w) with (8 * (i + Z.of_nat w)) by lia. done.
Qed.

Lemma fill_ones w : fill_ok w (Z.ones (8 * Z.of_nat w)) true.
Proof. intros k Hk. apply Z.ones_spec_low. lia. Qed.
Lemma fill_zero w : fill_ok w 0 false.
Proof. intros k Hk. apply Z.bits_0. Qed.

Lemma fill_status w (st : bool) :
  fill_ok w (if st then Z.ones (8 * Z.of_nat w) else 0) st.
Proof. destruct st; [apply fill_ones|apply fill_zero]. Qed.

(** Four bulk loops in a row leave fewer than eight pages. *)
Lemma status_bulks_spec bm i n (st : bool) :
  0 <= i -> 0 <= n -> 8 * i + n <= 8 * Z.of_nat (length bm) ->
  exists bm' i' n',
    ('(bm, i, n) ← status_bulk (Z.to_nat n) 8 (if st then 0xFFFFFFFFFFFFFFFF else 0) bm i n;
     '(bm, i, n) ← status_bulk (Z.to_nat n) 4 (if st then 0xFFFFFFFF else 0) bm i n;
     '(bm, i, n) ← status_bulk (Z.to_nat n) 2 (if st then 0xFFFF else 0) bm i n;
     status_bulk (Z.to_nat n) 1 (if st then 0xFF else 0x00) bm i n) = Done (bm', i', n') /\
    0 <= n' < 8 /\ i <= i' /\ 8 * i' + n' = 8 * i + n /\ bits_set bm bm' st (8 * i) (8 * i').
Proof.
  intros Hi Hn Hl.
  destruct (status_bulk_spec (Z.to_nat n) 8 _ bm i n st ltac:(lia) Hi Hn ltac:(lia) Hl (fill_status 8 st))
    as (b1 & i1 & n1 & E1 & Hn1 & Hi1 & He1 & S1). change (Z.ones (8 * Z.of_nat 8)) with 0xFFFFFFFFFFFFFFFF in E1. rewrite E1, bind_Done.
  pose proof (bs_length _ _ _ _ _ S1) as L1.
  destruct (status_bulk_spec (Z.to_nat n1) 4 _ b1 i1 n1 st ltac:(lia) ltac:(lia) ltac:(lia) ltac:(lia)
              ltac:(lia) (fill_status 4 st)) as (b2 & i2 & n2 & E2 & Hn2 & Hi2 & He2 & S2).
  change (Z.ones (8 * Z.of_nat 4)) with 0xFFFFFFFF in E2. rewrite E2, bind_Done. pose proof (bs_length _ _ _ _ _ S2) as L2.
  destruct (status_bulk_spec (Z.to_nat n2) 2 _ b2 i2 n2 st ltac:(lia) ltac:(lia) ltac:(lia) ltac:(lia)
              ltac:(lia) (fill_status 2 st)) as (b3 & i3 & n3 & E3 & Hn3 & Hi3 & He3 & S3).
  change (Z.ones (8 * Z.of_nat 2)) with 0xFFFF in E3. rewrite E3, bind_Done. pose proof (bs_length _ _ _ _ _ S3) as L3.
  destruct (status_bulk_spec (Z.to_nat n3) 1 _ b3 i3 n3 st ltac:(lia) ltac:(lia) ltac:(lia) ltac:(lia)
              ltac:(lia) (fill_status 1 st)) as (b4 & i4 & n4 & E4 & Hn4 & Hi4 & He4 & S4).
  change (Z.ones (8 * Z.of_nat 1)) with 0xFF in E4. exists b4, i4, n4. split_and!; [exact E4|lia..|].
  eapply bits_set_trans; [|exact S1|]; [lia|].
  eapply bits_set_trans; [|exact S2|]; [lia|].
  eapply bits_set_trans; [|exact S3|exact S4]; lia.
Qed.

Definition set_status_pre (NrPages : Z) (bm : list Z) (idStart N : Z) : Prop :=
  0 <= idStart /\ 0 <= N /\ idStart + N <= NrPages /\
  NrPages <= 8 * Z.of_nat (length bm) /\ NrPages < 2 ^ 64 /\ bytes_ok bm.

Lemma status_bulks_tail {B} (m1 m2 m3 m4 : list Z -> Z -> Z -> outcome (list Z * Z * Z))
    (k : list Z -> Z -> Z -> outcome B) bm i n x :
  ('(bm, i, n) ← m1 bm i n; '(bm, i, n) ← m2 bm i n; '(bm, i, n) ← m3 bm i n; m4 bm i n) = Done x ->
  ('(bm, i, n) ← m1 bm i n; '(bm, i, n) ← m2 bm i n; '(bm, i, n) ← m3 bm i n;
   '(bm, i, n) ← m4 bm i n; k bm i n) = k x.1.1 x.1.2 x.2.
Proof.
  destruct (m1 bm i n) as [[[? ?] ?]| | |]; try done. simpl.
  destruct (m2 _ _ _) as [[[? ?] ?]| | |]; try done. simpl.
  destruct (m3 _ _ _) as [[[? ?] ?]| | |]; try done. simpl.
  intros ->. by destruct x as [[? ?] ?].
Qed.

(** The tail store after the bulk loops. *)
Lemma status_last bm i n (st : bool) :
  0 <= i -> 0 <= n < 8 -> 8 * i + n <= 8 * Z.of_nat (length bm) -> bytes_ok bm ->
  exists bm',
    (if negb (n =? 0) then
      Value ← read_byte bm i;
      bm ← store_byte bm i (status_tail 8 Value 0 n st);
      Done (bm, true)
    else Done (bm, true)) = Done (bm', true) /\ bits_set bm bm' st (8 * i) (8 * i + n).
Proof.
  intros Hi Hn Hl Hbm. destruct (Z.eqb_spec n 0) as [->|Hn0]; cbn [negb].
  { exists bm. split; [done|]. rewrite Z.add_0_r. apply bits_set_refl. }
  destruct (read_byte_ok bm i) as (b & -> & Hb); [lia|]. rewrite bind_Done.
  pose proof (Forall_lookup_1 _ _ _ _ Hbm Hb) as Hbr. simpl in Hbr.
  destruct (status_tail_spec 8 b 0 n st) as (Hr & Hk); [lia..|].
  rewrite store_byte_ok, bind_Done by lia. eexists. split; [done|].
  apply (byte_store_bits_set bm i _ b); [lia|done|lia..|].
  intros k Hk'. rewrite Hk by lia. f_equal; f_equal. repeat zcase; simpl; done || lia.
Qed.

(** The unaligned head: it stops at a byte boundary or when no page is left. *)
Lemma status_first bm idStart N (st : bool) :
  0 <= idStart -> 0 <= N -> idStart + N <= 8 * Z.of_nat (length bm) -> bytes_ok bm ->
  exists bm1 i1 n1 mid,
    (if negb (idStart mod 8 =? 0) then
       Value ← read_byte bm (idStart / 8);
       let '(Value, N) := status_head 8 Value (idStart mod 8) N st in
       bm ← store_byte bm (idStart / 8) Value;
       Done (bm, idStart / 8 + 1, N)
     else Done (bm, idStart / 8, N)) = Done (bm1, i1, n1) /\ 0 <= i1 /\ 0 <= n1 /\
    8 * i1 + n1 <= 8 * Z.of_nat (length bm) /\
    idStart <= mid <= idStart + N /\ bits_set bm bm1 st idStart mid /\
    (n1 = 0 /\ mid = idStart + N \/ mid = 8 * i1 /\ 8 * i1 + n1 = idStart + N).
Proof.
  intros Hs HN Hlen Hbm.
  pose proof (Z.div_mod idStart 8 ltac:(lia)) as Hdm.
  pose proof (Z.mod_pos_bound idStart 8 ltac:(lia)) as Hmod.
  pose proof (Z.div_pos idStart 8 Hs ltac:(lia)) as Hdiv.
  destruct (Z.eqb_spec (idStart mod 8) 0) as [H0|H0]; cbn [negb].
  { exists bm, (idStart / 8), N, idStart. split_and!; [done|lia..|apply bits_set_refl|right; lia]. }
  destruct (read_byte_ok bm (idStart / 8)) as (b & -> & Hb); [lia|]. rewrite bind_Done.
  pose proof (Forall_lookup_1 _ _ _ _ Hbm Hb) as Hbr. simpl in Hbr.
  pose proof (status_head_spec 8 b (idStart mod 8) N st ltac:(lia) ltac:(lia) ltac:(lia) Hbr) as Hh.
  destruct (status_head _ _ _ _ _) as [v n']. destruct Hh as (Hr & -> & Hk).
  rewrite store_byte_ok, bind_Done by lia.
  exists (<[Z.to_nat (idStart / 8) := v]> bm), (idStart / 8 + 1),
    (N - Z.min N (Z.max 0 (8 - idStart mod 8))), (idStart + Z.min N (8 - idStart mod 8)).
  split_and!; [done|lia..| |lia].
  apply (byte_store_bits_set bm _ _ b); [lia|done|lia..|].
  intros k Hk'. rewrite Hk by lia. repeat zcase; simpl; done || lia.
Qed.

Lemma set_status_spec NrPages bm idStart N Status :
  set_status_pre NrPages bm idStart N ->
  exists bm', KrSetPhysicalPageStatus NrPages bm idStart N Status = Done (bm', true) /\
    bits_set bm bm' (negb (Status =? 0)) idStart (idStart + N).
Proof.
  intros (Hs & HN & Hle & Hlen & Hnr & Hbm). unfold KrSetPhysicalPageStatus.
  set (st := negb (Status =? 0)). rewrite u64_small by lia.
  rewrite Z.gtb_ltb. destruct (Z.ltb_spec NrPages (idStart + N)); [lia|].
  destruct (status_first bm idStart N st Hs HN ltac:(lia) Hbm)
    as (bm1 & i1 & n1 & mid & -> & Hi1 & Hn1 & Hl1 & Hmid & S1 & Hend).
  rewrite bind_Done. pose proof (bs_length _ _ _ _ _ S1) as L1.
  destruct (status_bulks_spec bm1 i1 n1 st Hi1 Hn1 ltac:(lia))
    as (b2 & i2 & n2 & E & Hn2 & Hi2 & He & S2).
  erewrite (status_bulks_tail
    (fun bm i n => status_bulk (Z.to_nat n) 8 (if st then 0xFFFFFFFFFFFFFFFF else 0) bm i n)
    (fun bm i n => status_bulk (Z.to_nat n) 4 (if st then 0xFFFFFFFF else 0) bm i n)
    (fun bm i n => status_bulk (Z.to_nat n) 2 (if st then 0xFFFF else 0) bm i n)
    (fun bm i n => status_bulk (Z.to_nat n) 1 (if st then 0xFF else 0x00) bm i n)); [|exact E].
  cbn [fst snd]. pose proof (bs_length _ _ _ _ _ S2) as L2.
  destruct (status_last b2 i2 n2 st) as (b3 & -> & S3); [lia|lia|lia| |].
  { eapply bs_bytes; [exact S2|]. eapply bs_bytes; [exact S1|done]. }
  exists b3. split; [done|].
  destruct Hend as [[-> ->]|[-> Hend]].
  - assert (i2 = i1 /\ n2 = 0) as [-> ->] by lia.
    rewrite Z.add_0_r in S3.
    apply (bits_set_empty _ _ _ _ _ (idStart + N)) in S2; [|lia].
    apply (bits_set_empty _ _ _ _ _ (idStart + N)) in S3; [|lia].
    eapply bits_set_trans; [|exact S1|]; [lia|]. eapply bits_set_trans; [|exact S2|exact S3]; lia.
  - rewrite <- Hend. eapply bits_set_trans; [|exact S1|]; [lia|].
    eapply bits_set_trans; [|exact S2|]; [lia|]. rewrite <- He. exact S3.
Qed.

(** KrSetPhysicalPageStatus, with its byte-wise head, its 64, 32, 16 and 8
    bit bulk stores and its byte-wise tail, implements the per-page
    specification: on an in-range request it returns TRUE and sets the bits of
    exactly the pages [[idStart, idStart + N)] to the status, never leaving the
    bitmap; on a range that ends above NrPages it returns FALSE and changes
    nothing. *)
Theorem set_page_status_refines (NrPages : Z) (bm : list Z) (idStart N Status : Z)
    (Hs : 0 <= idStart) (HN : 0 <= N) (Hov : idStart + N < 2 ^ 64)
    (Hlen : NrPages <= 8 * Z.of_nat (length bm)) (Hnr : NrPages < 2 ^ 64) (Hbm : bytes_ok bm) :
  exists bm' r, KrSetPhysicalPageStatus NrPages bm idStart N Status = Done (bm', r) /\
    r = (idStart + N <=? NrPages) /\
    if r then bits_set bm bm' (negb (Status =? 0)) idStart (idStart + N) else bm' = bm.
Proof.
  destruct (Z.leb_spec (idStart + N) NrPages).
  - destruct (set_status_spec NrPages bm idStart N Status) as (bm' & E & H'); [by split_and!|].
    by exists bm', true.
  - exists bm, false. split; [|done]. unfold KrSetPhysicalPageStatus. rewrite u64_small by lia.
    rewrite Z.gtb_ltb. destruct (Z.ltb_spec NrPages (idStart + N)); [done|lia].
Qed.

Example set_page_status_refines_witness :
  exists bm' r, KrSetPhysicalPageStatus 160 (replicate 20 0) 3 150 1 = Done (bm', r) /\
    r = (3 + 150 <=? 160) /\
    if r then bits_set (replicate 20 0) bm' true 3 (3 + 150) else bm' = replicate 20 0.
Proof.
  apply (set_page_status_refines 160 (replicate 20 0) 3 150 1); try (vm_compute; congruence || lia).
  apply Forall_replicate. lia.
Defined.
