(* ===== verification/KrtlMem.v ===== *)
(** * Buffer and character routines of the kernel runtime
    (Kernel/Source/KRTL/Krnlmem.c, Krnlchar.c) *)
From Stdlib Require Import ZArith Lia.
From stdpp Require Import base numbers list.
From S2P Require Import Prelude.
Open Scope Z_scope.

(** ** Buffers *)

(** A buffer is the byte list the pointer designates; a store past its end is
    a [Fault]. *)
Fixpoint set_buffer_loop (N : nat) (pDest : list Z) (i : nat) (Value : Z) : outcome (list Z) :=
  match N with
  | O => Done pDest
  | S N' =>
      if decide (i < length pDest)%nat
      then set_buffer_loop N' (<[i := Value]> pDest) (S i) Value
      else Fault
  end.

Definition KrtlContiguousSetBuffer (pDest : list Z) (Value N : Z) : outcome (list Z) :=
  set_buffer_loop (Z.to_nat N) pDest 0 Value.

Definition KrtlContiguousZeroBuffer (pDest : list Z) (N : Z) : outcome (list Z) :=
  KrtlContiguousSetBuffer pDest 0x00 N.

(** [while ( *pLeftBytes++ == *pRightBytes++ && N--); return !N;]
    The value returned is the counter when the loop stops. *)
Fixpoint buffer_equal_loop (pLeft pRight : list Z) (N : Z) : outcome Z :=
  match pLeft, pRight with
  | l :: pLeft', r :: pRight' =>
      if l =? r then
        (if N =? 0 then Done (u64 (N - 1)) else buffer_equal_loop pLeft' pRight' (N - 1))
      else Done N
  | _, _ => Fault
  end.

Definition KrtlBufferEqual (pLHS pRHS : list Z) (N : Z) : outcome bool :=
  N' ← buffer_equal_loop pLHS pRHS N; Done (N' =? 0).

(** ** Alignment *)

Definition KrtlIsPowerOfTwoAligned (Address PowerOfTwoAlignment : Z) : bool :=
  Z.land Address (u32 (PowerOfTwoAlignment - 1)) =? 0.

Definition KrtlAlignUpToPowerOfTwo (Address PowerOfTwoAlignment : Z) : Z :=
  Z.land (u64 (Address + u32 (PowerOfTwoAlignment - 1))) (u64 (Z.lnot (PowerOfTwoAlignment - 1))).

(** ** Characters *)

Definition KrtlIsCharDigit (Ch : Z) : bool := (Ch >=? 48) && (Ch <=? 57).
Definition KrtlIsCharUpper (Ch : Z) : bool := (Ch >=? 65) && (Ch <=? 90).
Definition KrtlIsCharLower (Ch : Z) : bool := (Ch >=? 97) && (Ch <=? 122).
Definition KrtlIsCharAlpha (Ch : Z) : bool := KrtlIsCharLower Ch || KrtlIsCharUpper Ch.
Definition KrtlIsCharPunct (Ch : Z) : bool :=
  ((Ch >=? 33) && (Ch <=? 47)) || ((Ch >=? 58) && (Ch <=? 64)) ||
  ((Ch >=? 91) && (Ch <=? 96)) || ((Ch >=? 123) && (Ch <=? 126)).
Definition KrtlIsCharPrint (Ch : Z) : bool :=
  KrtlIsCharAlpha Ch || KrtlIsCharDigit Ch || KrtlIsCharPunct Ch || (Ch =? 32).

(** ** Lemmas *)

Lemma set_buffer_loop_spec n : forall buf i v,
  (i + n <= length buf)%nat ->
  set_buffer_loop n buf i v = Done (take i buf ++ replicate n v ++ drop (i + n) buf).
Proof.
  induction n as [|n IH]; intros buf i v Hl; cbn [set_buffer_loop replicate].
  - rewrite Nat.add_0_r. simpl. by rewrite take_drop.
  - rewrite decide_True by lia. rewrite IH by (rewrite length_insert; lia).
    f_equal. rewrite drop_insert_lt by lia.
    replace (S i + n)%nat with (i + S n)%nat by lia.
    rewrite (take_S_r _ _ v) by (apply list_lookup_insert_eq; lia).
    rewrite take_insert_ge by lia. by rewrite <- app_assoc.
Qed.

(** KrtlContiguousZeroBuffer zeroes exactly the first [N] bytes. *)
Lemma zero_buffer_spec buf N :
  0 <= N <= Z.of_nat (length buf) ->
  KrtlContiguousZeroBuffer buf N = Done (replicate (Z.to_nat N) 0 ++ drop (Z.to_nat N) buf).
Proof.
  intros HN. unfold KrtlContiguousZeroBuffer, KrtlContiguousSetBuffer.
  by rewrite set_buffer_loop_spec by lia.
Qed.

Lemma buffer_equal_loop_spec l : forall r N,
  0 <= N -> N < 2 ^ 64 -> N < Z.of_nat (length l) -> N < Z.of_nat (length r) ->
  exists N', buffer_equal_loop l r N = Done N' /\
    (N' = 0 <-> take (Z.to_nat N) l = take (Z.to_nat N) r /\ l !! Z.to_nat N <> r !! Z.to_nat N).
Proof.
  induction l as [|x l IH]; intros r N HN HN' Hl Hr; [simpl in *; lia|].
  destruct r as [|y r]; [simpl in *; lia|]. cbn [buffer_equal_loop].
  destruct (Z.eqb_spec x y) as [->|Hne].
  - destruct (Z.eqb_spec N 0) as [->|HN0].
    + exists (u64 (0 - 1)). split; [done|]. split; [done|]. intros [_ H]. by destruct H.
    + simpl in Hl, Hr. destruct (IH r (N - 1)) as (N' & -> & HN''); [lia..|].
      exists N'. split; [done|]. rewrite HN''.
      replace (Z.to_nat N) with (S (Z.to_nat (N - 1))) by lia. cbn.
      split; intros [H1 H2]; (split; [congruence|done]).
  - exists N. split; [done|]. split.
    + intros ->. split; [done|]. intros [= ?]. done.
    + intros [H _]. destruct (decide (N = 0)) as [|HN0]; [done|].
      replace (Z.to_nat N) with (S (Z.to_nat (N - 1))) in H by lia. cbn in H. congruence.
Qed.

Lemma align_up_eq addr k :
  0 <= addr -> 0 <= k < 32 -> addr + 2 ^ k <= 2 ^ 64 ->
  KrtlAlignUpToPowerOfTwo addr (2 ^ k) = (addr + (2 ^ k - 1)) / 2 ^ k * 2 ^ k.
Proof.
  intros Ha Hk Hb. unfold KrtlAlignUpToPowerOfTwo.
  assert (0 < 2 ^ k < 2 ^ 32) by (split; [apply Z.pow_pos_nonneg|apply Z.pow_lt_mono_r]; lia).
  rewrite (u32_small (2 ^ k - 1)), (u64_small (addr + _)) by lia.
  rewrite land_mask_down; lia.
Qed.

Lemma is_aligned_eq addr k :
  0 <= k < 32 -> KrtlIsPowerOfTwoAligned addr (2 ^ k) = (addr mod 2 ^ k =? 0).
Proof.
  intros Hk. unfold KrtlIsPowerOfTwoAligned.
  assert (0 < 2 ^ k < 2 ^ 32) by (split; [apply Z.pow_pos_nonneg|apply Z.pow_lt_mono_r]; lia).
  rewrite u32_small by lia. by rewrite land_ones_mod by lia.
Qed.

(** The aligned address is the least multiple of the alignment that is not
    below the argument. *)
Lemma align_up_bounds addr k :
  0 <= addr -> 0 <= k < 32 -> addr + 2 ^ k <= 2 ^ 64 ->
  let a := KrtlAlignUpToPowerOfTwo addr (2 ^ k) in
  addr <= a < addr + 2 ^ k /\ a mod 2 ^ k = 0.
Proof.
  intros Ha Hk Hb. rewrite align_up_eq by done. cbv zeta.
  assert (0 < 2 ^ k) by (apply Z.pow_pos_nonneg; lia).
  rewrite Z.mod_mul by lia. split; [|done].
  pose proof (Z.div_mod (addr + (2 ^ k - 1)) (2 ^ k) ltac:(lia)).
  pose proof (Z.mod_pos_bound (addr + (2 ^ k - 1)) (2 ^ k) ltac:(lia)). lia.
Qed.

(** KrtlBufferEqual does not decide equality of the first [N] bytes: on
    buffers of more than [N] bytes it answers TRUE iff the first [N] bytes agree
    and the bytes at index [N], one past the compared range, differ. *)
Theorem buffer_equal_iff (l r : list Z) (N : Z)
    (HN : 0 <= N < 2 ^ 64) (Hl : N < Z.of_nat (length l)) (Hr : N < Z.of_nat (length r)) :
  exists b, KrtlBufferEqual l r N = Done b /\
    (b = true <-> take (Z.to_nat N) l = take (Z.to_nat N) r /\ l !! Z.to_nat N <> r !! Z.to_nat N).
Proof.
  destruct (buffer_equal_loop_spec l r N) as (N' & E & H); [lia..|].
  unfold KrtlBufferEqual. rewrite E. exists (N' =? 0). split; [done|].
  rewrite Z.eqb_eq. exact H.
Qed.

Example buffer_equal_iff_witness :
  exists b, KrtlBufferEqual [1; 2; 3; 0] [1; 2; 3; 0] 3 = Done b /\
    (b = true <-> take 3 [1; 2; 3; 0] = take 3 [1; 2; 3; 0] /\
       [1; 2; 3; 0] !! 3%nat <> [1; 2; 3; 0] !! 3%nat).
Proof. apply (buffer_equal_iff [1; 2; 3; 0] [1; 2; 3; 0] 3); simpl; lia. Defined.

(** Equal buffers compare as different, a proper prefix as equal. *)
Example buffer_equal_same : KrtlBufferEqual [65; 80; 73; 67; 0] [65; 80; 73; 67; 0] 4 = Done false.
Proof. vm_compute. reflexivity. Qed.
Example buffer_equal_prefix : KrtlBufferEqual [65; 80; 73; 67; 44] [65; 80; 73; 67; 0] 4 = Done true.
Proof. vm_compute. reflexivity. Qed.
