(* ===== verification/BootstrapArena.v ===== *)
(** * Bootstrap arena (Kernel/Source/Memory/BootstrapArena.c)

    A bump allocator over three byte pointers.  Addresses are 64-bit values;
    the null pointer is 0. *)
From Stdlib Require Import ZArith Lia.
From stdpp Require Import base numbers list.
From S2P Require Import Prelude.
Open Scope Z_scope.

Definition KR_BOOTSTRAP_ARENA_ALIGNMENT : Z := 16.

(** The three globals g_pBootstrapArenaBase, g_pBootstrapArenaPtr and
    g_pBootstrapArenaEnd. *)
Record Arena := mkArena { ArenaBase : Z; ArenaPtr : Z; ArenaEnd : Z }.

Definition KrInitBootstrapArena (a : Arena) (pBase szArena : Z) : Arena * bool :=
  if (szArena =? 0) ||
     (negb (ArenaBase a =? 0) || negb (ArenaPtr a =? 0) || negb (ArenaEnd a =? 0))
  then (a, false)
  else (mkArena pBase pBase (u64 (pBase + szArena)), true).

Definition KrBootstrapArenaAlign (a : Arena) (Alignment : Z) : Arena * bool :=
  let pAligned := Z.land (u64 (ArenaPtr a + Alignment - 1)) (u64 (Z.lnot (u64 (Alignment - 1)))) in
  if pAligned >? ArenaEnd a then (a, false)
  else (mkArena (ArenaBase a) pAligned (ArenaEnd a), true).

(** The returned pointer, 0 for NULLPTR. *)
Definition KrBootstrapArenaAcquire (a : Arena) (N : Z) : Arena * Z :=
  let N := Z.land (u64 (N + KR_BOOTSTRAP_ARENA_ALIGNMENT - 1))
                  (u64 (Z.lnot (KR_BOOTSTRAP_ARENA_ALIGNMENT - 1))) in
  if (N =? 0) || (u64 (ArenaPtr a + N) >? ArenaEnd a) then (a, 0)
  else (mkArena (ArenaBase a) (u64 (ArenaPtr a + N)) (ArenaEnd a), ArenaPtr a).

Definition KrBootstrapArenaRelease (a : Arena) (pPtr : Z) : Arena := a.

Definition KrBootstrapArenaGetSpaceLeft (a : Arena) : Z :=
  if negb (ArenaPtr a =? 0) then u64 (ArenaEnd a - ArenaPtr a) else 0.

(** ** Invariant *)

Record arena_wf (a : Arena) : Prop := {
  aw_base : 0 < ArenaBase a;
  aw_ptr : ArenaBase a <= ArenaPtr a <= ArenaEnd a;
  aw_end : ArenaEnd a < 2 ^ 64
}.

(** The size the arena really consumes for a request. *)
Definition rounded (N : Z) : Z := (N + 15) / 16 * 16.

Lemma rounded_spec N : N <= rounded N < N + 16 /\ rounded N mod 16 = 0.
Proof.
  unfold rounded. rewrite Z.mod_mul by lia.
  pose proof (Z.div_mod (N + 15) 16 ltac:(lia)). pose proof (Z.mod_pos_bound (N + 15) 16 ltac:(lia)). lia.
Qed.

Lemma arena_size_eq N :
  0 <= N < 2 ^ 64 - 15 ->
  Z.land (u64 (N + KR_BOOTSTRAP_ARENA_ALIGNMENT - 1)) (u64 (Z.lnot (KR_BOOTSTRAP_ARENA_ALIGNMENT - 1))) = rounded N.
Proof.
  intros HN. unfold KR_BOOTSTRAP_ARENA_ALIGNMENT. rewrite (u64_small (N + 16 - 1)) by lia.
  change (16 - 1) with (2 ^ 4 - 1). rewrite land_mask_down by lia.
  unfold rounded. do 2 f_equal; lia.
Qed.

(** Exact outcome of a request that does not overflow the address space. *)
Lemma arena_acquire_eq a N :
  arena_wf a -> 0 <= N -> ArenaPtr a + N < 2 ^ 64 - 15 ->
  KrBootstrapArenaAcquire a N =
    if bool_decide (0 < N /\ ArenaPtr a + rounded N <= ArenaEnd a)
    then (mkArena (ArenaBase a) (ArenaPtr a + rounded N) (ArenaEnd a), ArenaPtr a)
    else (a, 0).
Proof.
  intros [H1 H2 H3] HN Hov. unfold KrBootstrapArenaAcquire.
  rewrite arena_size_eq by lia. destruct (rounded_spec N) as [Hr Hr'].
  assert (N = 0 -> rounded N = 0) by (intros ->; done).
  rewrite (u64_small (_ + _)) by lia. rewrite Z.gtb_ltb.
  destruct (Z.eqb_spec (rounded N) 0), (Z.ltb_spec (ArenaEnd a) (ArenaPtr a + rounded N)); simpl;
    case_bool_decide; try done; lia.
Qed.

(** A request issued by [reqs] one after another; failed ones return 0. *)
Fixpoint arena_run (a : Arena) (reqs : list Z) : Arena * list (Z * Z) :=
  match reqs with
  | [] => (a, [])
  | n :: reqs' =>
      let '(a1, p) := KrBootstrapArenaAcquire a n in
      let '(a2, out) := arena_run a1 reqs' in (a2, (p, n) :: out)
  end.

Definition granted (out : list (Z * Z)) : list (Z * Z) := filter (fun pn => pn.1 <> 0) out.

(** Two blocks (address, size) share no byte. *)
Definition disjoint_blocks (b1 b2 : Z * Z) : Prop :=
  b1.1 + b1.2 <= b2.1 \/ b2.1 + b2.2 <= b1.1.

Lemma arena_acquire_wf a N :
  arena_wf a -> 0 <= N -> ArenaPtr a + N < 2 ^ 64 - 15 ->
  arena_wf (KrBootstrapArenaAcquire a N).1 /\
  ArenaPtr a <= ArenaPtr (KrBootstrapArenaAcquire a N).1 /\
  ArenaBase (KrBootstrapArenaAcquire a N).1 = ArenaBase a /\
  ArenaEnd (KrBootstrapArenaAcquire a N).1 = ArenaEnd a /\
  ((KrBootstrapArenaAcquire a N).2 <> 0 ->
   (KrBootstrapArenaAcquire a N).2 = ArenaPtr a /\
   ArenaPtr a + N <= ArenaPtr (KrBootstrapArenaAcquire a N).1).
Proof.
  intros Hwf HN Hov. rewrite arena_acquire_eq by done. pose proof Hwf as [H1 H2 H3].
  destruct (rounded_spec N) as [Hr Hr']. case_bool_decide; simpl.
  - split_and!; [split; simpl; lia|lia..|done|done|]. intros _. lia.
  - split_and!; [done|lia..|done|done|]. by intros [].
Qed.

Lemma arena_run_spec reqs : forall a,
  arena_wf a -> Forall (fun n => 0 <= n < 2 ^ 64 - 16 - ArenaEnd a) reqs ->
  arena_wf (arena_run a reqs).1 /\
  Forall (fun pn => ArenaPtr a <= pn.1 /\ pn.1 + pn.2 <= ArenaEnd a) (granted (arena_run a reqs).2) /\
  ForallOrdPairs disjoint_blocks (granted (arena_run a reqs).2).
Proof.
  induction reqs as [|n reqs IH]; intros a Hwf Hreq; simpl.
  { split_and!; [done|constructor..]. }
  apply Forall_cons in Hreq as [Hn Hreq]. pose proof Hwf as [H1 H2 H3].
  destruct (arena_acquire_wf a n Hwf ltac:(lia) ltac:(lia)) as (Hwf' & Hle & _ & He & Hp).
  destruct (KrBootstrapArenaAcquire a n) as [a1 p]. simpl in *.
  rewrite <- He in Hreq. destruct (IH a1 Hwf' Hreq) as (Hw & Hin & Hd).
  destruct (arena_run a1 reqs) as [a2 out]. simpl in *. split; [done|].
  assert (Forall (fun pn => ArenaPtr a <= pn.1 /\ pn.1 + pn.2 <= ArenaEnd a) (granted out)) as Hin'.
  { eapply Forall_impl; [exact Hin|]. intros pn Hpn. cbn in *. lia. }
  unfold granted. rewrite filter_cons. simpl. case_decide as Hp0; [|by split].
  destruct (Hp Hp0) as [-> Hlt]. split.
  - constructor; [|exact Hin']. simpl. pose proof (aw_ptr _ Hwf'). lia.
  - constructor; [|exact Hd]. eapply Forall_impl; [exact Hin|].
    intros pn Hpn. left. cbn in *. lia.
Qed.

(** the bootstrap arena hands out pairwise disjoint blocks inside the
    arena: for every sequence of requests that does not overflow the address
    space, the granted blocks (returned address and requested size) lie between
    the cursor and the arena's end and no two of them overlap, and the
    base <= cursor <= end invariant holds at the end. *)
Theorem arena_blocks_disjoint (a : Arena) (reqs : list Z)
    (Hwf : arena_wf a) (Hreq : Forall (fun n => 0 <= n < 2 ^ 64 - 16 - ArenaEnd a) reqs) :
  arena_wf (arena_run a reqs).1 /\
  Forall (fun pn => ArenaPtr a <= pn.1 /\ pn.1 + pn.2 <= ArenaEnd a) (granted (arena_run a reqs).2) /\
  ForallOrdPairs disjoint_blocks (granted (arena_run a reqs).2).
Proof. by apply arena_run_spec. Qed.

Example arena_blocks_disjoint_witness :
  ForallOrdPairs disjoint_blocks (granted (arena_run (mkArena 4096 4096 8192) [100; 5000; 33]).2).
Proof.
  refine (proj2 (proj2 (arena_blocks_disjoint (mkArena 4096 4096 8192) [100; 5000; 33] _ _))).
  - split; simpl; lia.
  - repeat constructor; simpl; lia.
Defined.
