(* ===== verification/MemoryMap.v ===== *)
(** * Firmware memory map (Kernel/Source/Init/KrInitMemmap.c, the region type
    predicates of Kernel/Source/Memory/Physmemmgmt.c and the descriptors of
    BootContract/Include/BootContract/Structures.h)

    The boot loader hands over an array of descriptors.  [KrInitMemmap] copies
    it into the bootstrap arena, sorts it by physical base and builds the
    canonical map of merged usable regions. *)
From Stdlib Require Import ZArith Lia Sorted Permutation String.
From stdpp Require Import base numbers list sorting.
From S2P Require Import Prelude BootstrapArena.
Open Scope Z_scope.

(** ** Descriptors *)

Record KrMemoryDescriptor := mkDesc {
  PhysicalBase : Z;
  PageCount : Z;
  Attributes : Z;
  Type_ : Z;
  Pad : Z
}.

Record KrMemoryMapInfo := mkInfo { MemoryMapSize : Z; EntryCount : Z; PageSize : Z }.

Definition KR_PAGE_SIZE : Z := 4096.
Definition KR_MEMORY_TYPE_LOADER_CODE : Z := 1.
Definition KR_MEMORY_TYPE_LOADER_DATA : Z := 2.
Definition KR_MEMORY_TYPE_BOOT_SERVICES_CODE : Z := 3.
Definition KR_MEMORY_TYPE_BOOT_SERVICES_DATA : Z := 4.
Definition KR_MEMORY_TYPE_CONVENTIONAL_MEMORY : Z := 7.
Definition KR_MEMORY_TYPE_ACPI_RECLAIM_MEMORY : Z := 9.

Definition KrIsUsableMemoryRegionType (dwType : Z) : bool :=
  (dwType =? KR_MEMORY_TYPE_LOADER_CODE) || (dwType =? KR_MEMORY_TYPE_LOADER_DATA) ||
  (dwType =? KR_MEMORY_TYPE_BOOT_SERVICES_CODE) || (dwType =? KR_MEMORY_TYPE_BOOT_SERVICES_DATA) ||
  (dwType =? KR_MEMORY_TYPE_CONVENTIONAL_MEMORY) || (dwType =? KR_MEMORY_TYPE_ACPI_RECLAIM_MEMORY).

Definition KrMemoryRegionTypeToString (dwType : Z) : string :=
  match dwType with
  | 0 => "KR_MEMORY_TYPE_RESERVED"
  | 1 => "KR_MEMORY_TYPE_LOADER_CODE"
  | 2 => "KR_MEMORY_TYPE_LOADER_DATA"
  | 3 => "KR_MEMORY_TYPE_BOOT_SERVICES_CODE"
  | 4 => "KR_MEMORY_TYPE_BOOT_SERVICES_DATA"
  | 5 => "KR_MEMORY_TYPE_RUNTIME_SERVICES_CODE"
  | 6 => "KR_MEMORY_TYPE_RUNTIME_SERVICES_DATA"
  | 7 => "KR_MEMORY_TYPE_CONVENTIONAL_MEMORY"
  | 8 => "KR_MEMORY_TYPE_UNUSABLE_MEMORY"
  | 9 => "KR_MEMORY_TYPE_ACPI_RECLAIM_MEMORY"
  | 10 => "KR_MEMORY_TYPE_ACPI_MEMORY_NVS"
  | 11 => "KR_MEMORY_TYPE_MMIO"
  | 12 => "KR_MEMORY_TYPE_MMIO_PORT_SPACE"
  | 13 => "KR_MEMORY_TYPE_PAL_CODE"
  | 14 => "KR_MEMORY_TYPE_PERSISTENT_MEMORY"
  | _ => "(NULLPTR)"
  end%string.

(** ** Sorting *)

Definition read_desc (Array : list KrMemoryDescriptor) (i : Z) : outcome KrMemoryDescriptor :=
  if (0 <=? i) && (i <? Z.of_nat (length Array)) then checked (Array !! Z.to_nat i) else Fault.

Definition KrSwapMemdescs (Array : list KrMemoryDescriptor) (l r : Z)
    : outcome (list KrMemoryDescriptor) :=
  Temp ← read_desc Array l;
  R ← read_desc Array r;
  Done (<[Z.to_nat r := Temp]> (<[Z.to_nat l := R]> Array)).

(** [for (UINT j = Start; j < Limit; j++)], [n] iterations left; [i] is the INT. *)
Fixpoint part_loop (n : nat) (Array : list KrMemoryDescriptor) (j i Pivot : Z)
    : outcome (list KrMemoryDescriptor * Z) :=
  match n with
  | O => Done (Array, i)
  | S n' =>
      d ← read_desc Array j;
      if PhysicalBase d <? Pivot
      then Array' ← KrSwapMemdescs Array (i + 1) j; part_loop n' Array' (j + 1) (i + 1) Pivot
      else part_loop n' Array (j + 1) i Pivot
  end.

Definition KrPartDescarray (Array : list KrMemoryDescriptor) (Start Limit : Z)
    : outcome (list KrMemoryDescriptor * Z) :=
  p ← read_desc Array Limit;
  '(Array', i) ← part_loop (Z.to_nat (Limit - Start)) Array Start (Start - 1) (PhysicalBase p);
  Array'' ← KrSwapMemdescs Array' (i + 1) Limit;
  Done (Array'', u32 (i + 1)).

(** Each round of the [while] loop recurses on the shorter side and continues
    with the longer one; [Hang] stands for exhausted fuel. *)
Fixpoint KrQuicksortMemmap (fuel : nat) (Map : list KrMemoryDescriptor) (Start Limit : Z)
    : outcome (list KrMemoryDescriptor) :=
  match fuel with
  | O => Hang
  | S fuel' =>
      if Start <? Limit then
        '(Map1, pi) ← KrPartDescarray Map Start Limit;
        if u32 (pi - Start) <? u32 (Limit - pi) then
          Map2 ← KrQuicksortMemmap fuel' Map1 Start (u32 (pi - 1));
          KrQuicksortMemmap fuel' Map2 (u32 (pi + 1)) Limit
        else
          Map2 ← KrQuicksortMemmap fuel' Map1 (u32 (pi + 1)) Limit;
          KrQuicksortMemmap fuel' Map2 Start (u32 (pi - 1))
      else Done Map
  end.

(** ** Canonical map *)

(** The inner [while (j < EntryCount)]: the page count gathered and the
    descriptors from index [j] on. *)
Fixpoint peek_ahead (PageSize base count : Z) (rest : list KrMemoryDescriptor)
    : Z * list KrMemoryDescriptor :=
  match rest with
  | [] => (count, [])
  | d :: rest' =>
      if negb (KrIsUsableMemoryRegionType (Type_ d)) ||
         negb (u64 (base + u64 (count * PageSize)) =? PhysicalBase d)
      then (count, rest)
      else peek_ahead PageSize base (u64 (count + PageCount d)) rest'
  end.

(** The outer loop over the descriptors from index [i] on. *)
Fixpoint canonical (fuel : nat) (PageSize : Z) (rest : list KrMemoryDescriptor)
    : list KrMemoryDescriptor :=
  match fuel, rest with
  | S fuel', d :: rest' =>
      if negb (KrIsUsableMemoryRegionType (Type_ d)) then canonical fuel' PageSize rest'
      else
        let '(count, rest'') := peek_ahead PageSize (PhysicalBase d) (PageCount d) rest' in
        mkDesc (PhysicalBase d) count 0 KR_MEMORY_TYPE_CONVENTIONAL_MEMORY 0
          :: canonical fuel' PageSize rest''
  | _, _ => []
  end.

Record MemmapState := mkMemmap {
  MapArena : Arena;
  MapInfo : KrMemoryMapInfo;
  MemoryMap : list KrMemoryDescriptor;
  CanonicalMemoryMap : list KrMemoryDescriptor
}.

(** [firmware] is the array at pMemmapInfo->PhysicalAddress. *)
Definition KrInitMemmap (a : Arena) (info : KrMemoryMapInfo) (firmware : list KrMemoryDescriptor)
    : outcome MemmapState :=
  let '(a, _) := KrBootstrapArenaAlign a 16 in
  let '(a, pMap) := KrBootstrapArenaAcquire a (MemoryMapSize info) in
  if pMap =? 0 then Fault
  else
    Map ← KrQuicksortMemmap (S (length firmware)) firmware 0 (u32 (EntryCount info - 1));
    let '(a, _) := KrBootstrapArenaAlign a 16 in
    let '(a, pCanon) := KrBootstrapArenaAcquire a (MemoryMapSize info) in
    if pCanon =? 0 then Fault
    else Done (mkMemmap a info Map (canonical (length Map) (PageSize info) (take (Z.to_nat (EntryCount info)) Map))).

(** ** Partition *)

Lemma read_desc_mid l1 x l2 i :
  i = Z.of_nat (length l1) -> read_desc (l1 ++ x :: l2) i = Done x.
Proof.
  intros ->. unfold read_desc. rewrite length_app. simpl.
  destruct (Z.leb_spec 0 (Z.of_nat (length l1))); [|lia].
  destruct (Z.ltb_spec (Z.of_nat (length l1)) (Z.of_nat (length l1 + S (length l2)))); [|lia].
  simpl. rewrite Nat2Z.id, list_lookup_middle by done. done.
Qed.

Lemma swap_same l1 x l2 i :
  i = Z.of_nat (length l1) -> KrSwapMemdescs (l1 ++ x :: l2) i i = Done (l1 ++ x :: l2).
Proof.
  intros Hi. unfold KrSwapMemdescs. rewrite !(read_desc_mid l1 x l2 i Hi), !bind_Done.
  rewrite list_insert_insert_eq. subst i. by rewrite Nat2Z.id, list_insert_id by (by apply list_lookup_middle).
Qed.

Lemma swap_two l1 x l2 y l3 i j :
  i = Z.of_nat (length l1) -> j = Z.of_nat (length l1 + S (length l2)) ->
  KrSwapMemdescs (l1 ++ x :: l2 ++ y :: l3) i j = Done (l1 ++ y :: l2 ++ x :: l3).
Proof.
  intros Hi Hj. unfold KrSwapMemdescs. rewrite (read_desc_mid l1 x _ i Hi), bind_Done.
  replace (l1 ++ x :: l2 ++ y :: l3) with ((l1 ++ x :: l2) ++ y :: l3) at 1
    by (by rewrite <- app_assoc).
  rewrite (read_desc_mid (l1 ++ x :: l2) y l3 j), bind_Done by (rewrite length_app; simpl; lia).
  subst i j. rewrite !Nat2Z.id. f_equal.
  rewrite insert_app_r_alt, Nat.sub_diag by lia. simpl.
  rewrite insert_app_r_alt by lia. f_equal.
  replace (_ + _ - _)%nat with (S (length l2)) by lia. simpl. f_equal.
  rewrite insert_app_r_alt, Nat.sub_diag by lia. done.
Qed.

(** Swapping the first element of [B] with the element after it. *)
Lemma swap_step A B x rest i j :
  i = Z.of_nat (length A) -> j = Z.of_nat (length A + length B) ->
  exists B', B' ≡ₚ B /\
    KrSwapMemdescs (A ++ B ++ x :: rest) i j = Done ((A ++ [x]) ++ B' ++ rest).
Proof.
  intros Hi Hj. destruct B as [|b B].
  - exists []. split; [done|]. simpl in *. replace j with i by lia.
    rewrite swap_same by done. by rewrite <- app_assoc.
  - exists (B ++ [b]). split; [by rewrite <- Permutation_cons_append|].
    simpl. rewrite (swap_two A b B x rest i j) by (simpl in Hj; lia).
    by rewrite <- !app_assoc.
Qed.

Definition below (Pivot : Z) (d : KrMemoryDescriptor) : Prop := PhysicalBase d < Pivot.
Definition not_below (Pivot : Z) (d : KrMemoryDescriptor) : Prop := Pivot <= PhysicalBase d.

(** [pre] lies before Start, [A] is the part below the pivot, [B] the part not
    below it; [todo] is still to be looked at. *)
Lemma part_loop_spec todo : forall pre A B post j i Pivot,
  i = Z.of_nat (length pre + length A) - 1 ->
  j = Z.of_nat (length pre + length A + length B) ->
  Forall (below Pivot) A -> Forall (not_below Pivot) B ->
  exists A' B',
    part_loop (length todo) (pre ++ A ++ B ++ todo ++ post) j i Pivot =
      Done (pre ++ (A ++ A') ++ B' ++ post, Z.of_nat (length pre + length (A ++ A')) - 1) /\
    Forall (below Pivot) (A ++ A') /\ Forall (not_below Pivot) B' /\
    A ++ B ++ todo ≡ₚ (A ++ A') ++ B' /\
    (forall m s, B = [] -> todo = m :: s -> below Pivot m -> exists A1, A' = m :: A1).
Proof.
  induction todo as [|x todo IH]; intros pre A B post j i Pivot Hi Hj HA HB.
  - exists [], B. rewrite !app_nil_r. cbn [length part_loop]. subst i. by split_and!.
  - cbn [length part_loop].
    replace (pre ++ A ++ B ++ (x :: todo) ++ post) with ((pre ++ A ++ B) ++ x :: todo ++ post)
      by (by rewrite <- !app_assoc).
    rewrite read_desc_mid, bind_Done by (rewrite !length_app; lia).
    destruct (Z.ltb_spec (PhysicalBase x) Pivot).
    + destruct (swap_step (pre ++ A) B x (todo ++ post) (i + 1) j) as (B1 & HB1 & E);
        [rewrite length_app; lia..|].
      replace ((pre ++ A ++ B) ++ x :: todo ++ post) with ((pre ++ A) ++ B ++ x :: todo ++ post)
        by (by rewrite <- !app_assoc).
      rewrite E, bind_Done. pose proof (Permutation_length HB1) as HlB.
      destruct (IH pre (A ++ [x]) B1 post (j + 1) (i + 1) Pivot) as (A' & B' & E' & HA' & HB' & Hp & _).
      * rewrite length_app. simpl. lia.
      * rewrite length_app. simpl. lia.
      * apply Forall_app. split; [done|]. by repeat constructor.
      * by rewrite HB1.
      * exists (x :: A'), B'. rewrite <- !app_assoc in *. simpl in *. rewrite E'.
        split_and!; [done..| |intros m s _ [= -> ->] _; by exists A'].
        rewrite <- Hp. f_equiv. rewrite HB1. by rewrite Permutation_middle.
    + replace ((pre ++ A ++ B) ++ x :: todo ++ post) with (pre ++ A ++ (B ++ [x]) ++ todo ++ post)
        by (by rewrite <- !app_assoc).
      destruct (IH pre A (B ++ [x]) post (j + 1) i Pivot) as (A' & B' & E' & HA' & HB' & Hp & _).
      * done.
      * rewrite length_app. simpl. lia.
      * done.
      * apply Forall_app. split; [done|]. by repeat constructor.
      * exists A', B'. rewrite E'. split_and!; [done..| |].
        { rewrite <- Hp. by rewrite <- !app_assoc. }
        intros m s _ [= -> ->]. unfold below. lia.
Qed.

(** The pivot ends between the two parts, at the returned index. *)
Lemma partition_spec pre seg p post :
  Z.of_nat (length pre + length seg) < 2 ^ 32 ->
  exists A B,
    KrPartDescarray (pre ++ seg ++ p :: post) (Z.of_nat (length pre)) (Z.of_nat (length pre + length seg)) =
      Done (pre ++ A ++ p :: B ++ post, Z.of_nat (length pre + length A)) /\
    Forall (below (PhysicalBase p)) A /\ Forall (not_below (PhysicalBase p)) B /\ seg ≡ₚ A ++ B /\
    (forall m s, seg = m :: s -> below (PhysicalBase p) m -> exists A1, A = m :: A1).
Proof.
  intros Hl. unfold KrPartDescarray.
  assert (read_desc (pre ++ seg ++ p :: post) (Z.of_nat (length pre + length seg)) = Done p) as ->.
  { rewrite app_assoc. apply read_desc_mid. by rewrite length_app. }
  rewrite bind_Done. replace (Z.to_nat _) with (length seg) by lia.
  destruct (part_loop_spec seg pre [] [] (p :: post) (Z.of_nat (length pre)) (Z.of_nat (length pre) - 1)
              (PhysicalBase p)) as (A & B & E & HA & HB & Hp & Hhd); [simpl; lia|simpl; lia|constructor..|].
  simpl in *. rewrite E, bind_Done.
  pose proof (Permutation_length Hp) as Hlp. rewrite length_app in Hlp.
  destruct (swap_step (pre ++ A) B p post (Z.of_nat (length pre + length A) - 1 + 1)
              (Z.of_nat (length pre + length seg))) as (B' & HB' & E').
  { rewrite length_app. lia. }
  { rewrite length_app. lia. }
  rewrite <- !app_assoc in E'. rewrite E', bind_Done. exists A, B'.
  rewrite u32_small by lia. split_and!; [|done|by rewrite HB'|by rewrite HB'|intros m s; by apply Hhd].
  simpl. f_equal. f_equal. lia.
Qed.

(** ** Sorting *)

Definition base_le (d1 d2 : KrMemoryDescriptor) : Prop := PhysicalBase d1 <= PhysicalBase d2.

(** What the sort needs of the segment starting at index 0: its first element
    is strictly below every other one, so that no pivot ends at index 0. *)
Definition head_min (seg : list KrMemoryDescriptor) : Prop :=
  match seg with
  | [] => False
  | m :: s => Forall (fun d => PhysicalBase m < PhysicalBase d) s
  end.

Lemma sorted_pivot A p B :
  StronglySorted base_le A -> StronglySorted base_le B ->
  Forall (below (PhysicalBase p)) A -> Forall (not_below (PhysicalBase p)) B ->
  StronglySorted base_le (A ++ p :: B).
Proof.
  intros SA SB HA HB. induction SA as [|a A SA IH Ha]; simpl; [by constructor|].
  apply Forall_cons in HA as [Hap HA]. constructor; [by apply IH|].
  apply Forall_app. split; [done|]. unfold below, not_below, base_le in *. constructor; [lia|].
  eapply Forall_impl; [exact HB|]. simpl. lia.
Qed.

Lemma quicksort_spec fuel : forall pre seg post,
  (length seg < fuel)%nat -> Z.of_nat (length pre + length seg) < 2 ^ 32 ->
  (pre = [] -> head_min seg) ->
  exists seg',
    KrQuicksortMemmap fuel (pre ++ seg ++ post) (Z.of_nat (length pre))
      (Z.of_nat (length pre + length seg) - 1) = Done (pre ++ seg' ++ post) /\
    seg ≡ₚ seg' /\ StronglySorted base_le seg'.
Proof.
  induction fuel as [|fuel IH]; intros pre seg post Hf Hl Hmin; [lia|].
  cbn [KrQuicksortMemmap].
  destruct (Z.ltb_spec (Z.of_nat (length pre)) (Z.of_nat (length pre + length seg) - 1)) as [Hlt|Hge].
  2:{ exists seg. split_and!; [done..|]. destruct seg as [|d [|]]; [constructor|repeat constructor|].
      simpl in Hge. lia. }
  destruct seg as [|p seg _] using rev_ind; [simpl in Hlt; lia|].
  rewrite length_app in *. cbn [length] in *.
  replace (Z.of_nat (length pre + (length seg + 1)) - 1) with (Z.of_nat (length pre + length seg)) by lia.
  rewrite <- app_assoc. simpl.
  destruct (partition_spec pre seg p post) as (A & B & -> & HA & HB & Hp & Hhd); [lia|].
  rewrite bind_Done. pose proof (Permutation_length Hp) as HlAB. rewrite length_app in HlAB.
  assert (pre = [] -> head_min A) as HminA.
  { intros ->. specialize (Hmin eq_refl). destruct seg as [|m s]; [simpl in Hlt; lia|].
    simpl in Hmin. apply Forall_app in Hmin as [Hs Hmp]. apply Forall_cons in Hmp as [Hmp _].
    destruct (Hhd m s eq_refl Hmp) as [A1 ->]. simpl in Hp. apply Permutation_cons_inv in Hp.
    rewrite Hp in Hs. by apply Forall_app in Hs as [??]. }
  assert (0 < Z.of_nat (length pre + length A)) as Hpos.
  { destruct pre; [|simpl; lia]. specialize (HminA eq_refl). destruct A; [done|simpl; lia]. }
  rewrite !u32_small by lia.
  replace (Z.of_nat (length pre + length A) + 1) with (Z.of_nat (length (pre ++ A ++ [p])))
    by (rewrite !length_app; simpl; lia).
  replace (Z.of_nat (length pre + length seg)) with (Z.of_nat (length (pre ++ A ++ [p]) + length B) - 1)
    by (rewrite !length_app; simpl; lia).
  destruct (IH pre A (p :: B ++ post)) as (A' & EA & HpA & SA); [lia|lia|done|].
  destruct (IH (pre ++ A ++ [p]) B post) as (B' & EB & HpB & SB);
    [lia|rewrite !length_app; simpl; lia|by destruct pre, A|].
  destruct (IH pre A (p :: B' ++ post)) as (A2 & EA2 & HpA2 & SA2); [lia|lia|done|].
  destruct (IH (pre ++ A' ++ [p]) B post) as (B2 & EB2 & HpB2 & SB2);
    [lia|rewrite !length_app, <- HpA; simpl; lia|by destruct pre, A'|].
  assert (length (pre ++ A' ++ [p]) = length (pre ++ A ++ [p])) as Hlen
    by (rewrite !length_app, HpA; done).
  rewrite Hlen in EB2. rewrite <- !app_assoc in EB, EB2. simpl in EB, EB2.
  destruct (_ <? _).
  - rewrite EA, bind_Done, EB2. exists (A' ++ p :: B2). split_and!.
    + by rewrite <- app_assoc.
    + rewrite <- HpA, <- HpB2, Hp, <- app_assoc. f_equiv. by rewrite Permutation_app_comm.
    + apply sorted_pivot; [done..|by rewrite <- HpA|by rewrite <- HpB2].
  - rewrite EB, bind_Done, EA2. exists (A2 ++ p :: B'). split_and!.
    + by rewrite <- app_assoc.
    + rewrite <- HpA2, <- HpB, Hp, <- app_assoc. f_equiv. by rewrite Permutation_app_comm.
    + apply sorted_pivot; [done..|by rewrite <- HpA2|by rewrite <- HpB].
Qed.

(** The memory map sort of KrInitMemmap terminates without leaving the
    array and returns a permutation of the map sorted by physical base, when
    the first descriptor lies strictly below all the others (as the firmware
    maps starting at address 0 do); without this the pivot can end at index 0
    and the code computes the bound [pi - 1] of an unsigned 0. *)
Theorem quicksort_sorts (Map : list KrMemoryDescriptor)
    (Hlen : Z.of_nat (length Map) < 2 ^ 32) (Hmin : head_min Map) :
  exists Map', KrQuicksortMemmap (S (length Map)) Map 0 (Z.of_nat (length Map) - 1) = Done Map' /\
    Map ≡ₚ Map' /\ StronglySorted base_le Map'.
Proof.
  destruct (quicksort_spec (S (length Map)) [] Map []) as (Map' & E & Hp & Hs); [lia|done|done|].
  exists Map'. rewrite !app_nil_r in E. done.
Qed.

Definition sample_map : list KrMemoryDescriptor :=
  [mkDesc 0 16 0 7 0; mkDesc 0x9000000 4 0 2 0; mkDesc 0x100000 0x800 0 7 0; mkDesc 0xF0000000 1 0 11 0;
   mkDesc 0x900000 2 0 1 0].

Example quicksort_sorts_witness :
  exists Map', KrQuicksortMemmap 6 sample_map 0 4 = Done Map' /\ sample_map ≡ₚ Map' /\
    StronglySorted base_le Map'.
Proof. apply (quicksort_sorts sample_map); [done|]. repeat constructor. Defined.

(** A last descriptor below all the others makes the unsigned bound wrap. *)
Example quicksort_underflow :
  KrQuicksortMemmap 10 [mkDesc 0x2000 1 0 7 0; mkDesc 0x3000 1 0 7 0; mkDesc 0x1000 1 0 7 0] 0 2 = Fault.
Proof. vm_compute. reflexivity. Qed.

(** ** Canonical map *)

Definition usable (d : KrMemoryDescriptor) : Prop := KrIsUsableMemoryRegionType (Type_ d) = true.

Section Canonical.
  Context (ps : Z) (Hps : 0 < ps).

  (** Byte [a] lies in the region of [d]. *)
Definition in_region (a : Z) (d : KrMemoryDescriptor) : Prop :=
    PhysicalBase d <= a < PhysicalBase d + PageCount d * ps.

  (** A descriptor whose region does not wrap around the address space. *)
Definition region_ok (d : KrMemoryDescriptor) : Prop :=
    0 <= PhysicalBase d /\ 0 <= PageCount d /\ PhysicalBase d + PageCount d * ps < 2 ^ 64.

Lemma peek_ahead_spec rest : forall base count,
    0 <= base -> 0 <= count -> base + count * ps < 2 ^ 64 -> Forall region_ok rest ->
    exists merged count' rest',
      peek_ahead ps base count rest = (count', rest') /\ rest = merged ++ rest' /\
      Forall usable merged /\ count <= count' /\
      forall a, base <= a < base + count' * ps <->
        base <= a < base + count * ps \/ exists d, d ∈ merged /\ in_region a d.
Proof using Hps.
    induction rest as [|d rest IH]; intros base count Hb Hc Hov Hok; simpl.
    { exists [], count, []. split_and!; [done..|lia|]. set_solver. }
    apply Forall_cons in Hok as [(Hd1 & Hd2 & Hd3) Hok].
    destruct (KrIsUsableMemoryRegionType (Type_ d)) eqn:Hu; cbn [negb orb].
    2:{ exists [], count, (d :: rest). split_and!; [done..|lia|]. set_solver. }
    rewrite (u64_small (count * ps)), (u64_small (base + _)) by nia.
    destruct (Z.eqb_spec (base + count * ps) (PhysicalBase d)) as [E|]; cbn [negb].
    2:{ exists [], count, (d :: rest). split_and!; [done..|lia|]. set_solver. }
    assert (0 <= count + PageCount d < 2 ^ 64) by nia. rewrite u64_small by lia.
    destruct (IH base (count + PageCount d)) as (merged & count' & rest' & -> & -> & Hm & Hle & Ha);
      [lia|lia|nia|done|].
    exists (d :: merged), count', rest'. split_and!; [done..|by constructor|lia|].
    intros a. rewrite Ha.
    assert (base <= a < base + (count + PageCount d) * ps <->
            base <= a < base + count * ps \/ in_region a d) as ->
      by (unfold in_region; rewrite <- E; nia).
    set_solver.
  Qed.

Lemma canonical_spec fuel : forall rest,
    (length rest <= fuel)%nat -> Forall region_ok rest ->
    forall a, (exists c, c ∈ canonical fuel ps rest /\ in_region a c) <->
              (exists d, d ∈ rest /\ usable d /\ in_region a d).
Proof using Hps.
    induction fuel as [|fuel IH]; intros rest Hf Hok a.
    { destruct rest; [set_solver|simpl in Hf; lia]. }
    destruct rest as [|d rest]; [set_solver|]. simpl in Hf.
    apply Forall_cons in Hok as [Hd Hok]. simpl. unfold usable.
    destruct (KrIsUsableMemoryRegionType (Type_ d)) eqn:Hu; cbn [negb].
    2:{ rewrite IH by (done || lia). set_solver by congruence. }
    destruct Hd as (Hd1 & Hd2 & Hd3).
    destruct (peek_ahead_spec rest (PhysicalBase d) (PageCount d) Hd1 Hd2 Hd3 Hok)
      as (merged & count' & rest' & -> & -> & Hm & Hle & Ha).
    apply Forall_app in Hok as [_ Hok]. rewrite length_app in Hf.
    specialize (Ha a). specialize (IH rest' ltac:(lia) Hok a).
    set (c0 := mkDesc _ _ _ _ _).
    assert (in_region a c0 <-> in_region a d \/ exists d', d' ∈ merged /\ in_region a d') as H0 by exact Ha.
    rewrite Forall_forall in Hm. setoid_rewrite elem_of_cons. setoid_rewrite elem_of_app.
    unfold usable in *. naive_solver.
  Qed.
End Canonical.

(** C39: the canonical map built by KrInitMemmap covers exactly the usable
    memory: a byte lies in some canonical region iff it lies in some firmware
    region of a usable type, whatever runs of adjacent regions were merged (no
    region of the firmware map wraps around the 64-bit address space). *)
Theorem canonical_covers (ps : Z) (Map : list KrMemoryDescriptor)
    (Hps : 0 < ps) (Hok : Forall (region_ok ps) Map) (a : Z) :
  (exists c, c ∈ canonical (length Map) ps Map /\ in_region ps a c) <->
  (exists d, d ∈ Map /\ usable d /\ in_region ps a d).
Proof. by apply canonical_spec. Qed.

Example canonical_covers_witness :
  (exists c, c ∈ canonical 5 4096 sample_map /\ in_region 4096 0x1000 c) <->
  (exists d, d ∈ sample_map /\ usable d /\ in_region 4096 0x1000 d).
Proof.
  apply (canonical_covers 4096 sample_map); [lia|].
  repeat constructor; simpl; lia.
Defined.
