(* ===== verification/Physmemmgmt.v ===== *)
(** * Physical memory manager (Kernel/Source/Memory/Physmemmgmt.c)

    The state of the page allocator with its two bitmaps, one definition per
    operation, in the order of the C file.  Every operation that takes the
    manager's spinlock is modelled with it: acquiring a held lock is [Hang]. *)
From Stdlib Require Import ZArith Lia Sorted.
From stdpp Require Import base numbers list.
From S2P Require Import Prelude PhysBitmap KrtlMem BootstrapArena MemoryMap.
Open Scope Z_scope.

(** ** State *)

Definition IVLDPGID : Z := 0xFFFFFFFF.
Definition PAGE_ACQ_SPARSE : Z := 1.
Definition PAGE_ACQ_DENSE : Z := 2.
Definition PAGE_ACQ_BASE_OUT_ONLY : Z := 4.
Definition PAGE_ACQ_FOR_USER : Z := 8.
Definition PAGE_TYPE_BOOKKEEPING : Z := 4.
Definition PAGE_TYPE_RESERVED : Z := 5.
Definition PAGE_FLAG_PINNED : Z := 1.
Definition PAGE_FLAG_USER : Z := 2.
Definition PMM_INIT_STAGE_NONE : Z := 0.
Definition PMM_INIT_STAGE_BASIC : Z := 1.
Definition PMM_INIT_STAGE_BOOKKEEPING : Z := 2.
Definition KR_MDCODE_PINNED_PAGE_RELINQUISHED : Z := 0x2008.

Record KrPhysicalPageMeta := mkMeta { RefCount : Z; Auxiliary : Z; Flags : Z; PType : Z }.

(** g_StatePMM and sg_PmSpinlock.  [Metas] is the array at VaddrMetaArray. *)
Record Pmm := mkPmm {
  InitStage : Z;
  PaddrMetaArray : Z;
  VaddrMetaArray : Z;
  PaddrHighest : Z;
  pAdvisoryBitmap : list Z;
  pPrimaryBitmap : list Z;
  BitmapSize : Z;
  NrPages : Z;
  TotalPages : Z;
  UnusablePages : Z;
  AcquiredPages : Z;
  AcquireHint : Z;
  Metas : list KrPhysicalPageMeta;
  sg_PmSpinlock : bool
}.

Definition set_primary (s : Pmm) (bm : list Z) : Pmm :=
  mkPmm (InitStage s) (PaddrMetaArray s) (VaddrMetaArray s) (PaddrHighest s) (pAdvisoryBitmap s)
    bm (BitmapSize s) (NrPages s) (TotalPages s) (UnusablePages s) (AcquiredPages s)
    (AcquireHint s) (Metas s) (sg_PmSpinlock s).
Definition set_metas (s : Pmm) (m : list KrPhysicalPageMeta) : Pmm :=
  mkPmm (InitStage s) (PaddrMetaArray s) (VaddrMetaArray s) (PaddrHighest s) (pAdvisoryBitmap s)
    (pPrimaryBitmap s) (BitmapSize s) (NrPages s) (TotalPages s) (UnusablePages s)
    (AcquiredPages s) (AcquireHint s) m (sg_PmSpinlock s).
Definition set_lock (s : Pmm) (l : bool) : Pmm :=
  mkPmm (InitStage s) (PaddrMetaArray s) (VaddrMetaArray s) (PaddrHighest s) (pAdvisoryBitmap s)
    (pPrimaryBitmap s) (BitmapSize s) (NrPages s) (TotalPages s) (UnusablePages s)
    (AcquiredPages s) (AcquireHint s) (Metas s) l.
Definition set_acquired (s : Pmm) (n : Z) : Pmm :=
  mkPmm (InitStage s) (PaddrMetaArray s) (VaddrMetaArray s) (PaddrHighest s) (pAdvisoryBitmap s)
    (pPrimaryBitmap s) (BitmapSize s) (NrPages s) (TotalPages s) (UnusablePages s) n
    (AcquireHint s) (Metas s) (sg_PmSpinlock s).
Definition set_hint (s : Pmm) (h : Z) : Pmm :=
  mkPmm (InitStage s) (PaddrMetaArray s) (VaddrMetaArray s) (PaddrHighest s) (pAdvisoryBitmap s)
    (pPrimaryBitmap s) (BitmapSize s) (NrPages s) (TotalPages s) (UnusablePages s)
    (AcquiredPages s) h (Metas s) (sg_PmSpinlock s).
Definition set_advisory (s : Pmm) (bm : list Z) (unusable : Z) : Pmm :=
  mkPmm (InitStage s) (PaddrMetaArray s) (VaddrMetaArray s) (PaddrHighest s) bm
    (pPrimaryBitmap s) (BitmapSize s) (NrPages s) (TotalPages s) unusable (AcquiredPages s)
    (AcquireHint s) (Metas s) (sg_PmSpinlock s).

Definition AcquireOrWaitSpinlock (s : Pmm) : outcome Pmm :=
  if sg_PmSpinlock s then Hang else Done (set_lock s true).
Definition RelinquishSpinlock (s : Pmm) : Pmm := set_lock s false.

(** ** Small operations *)

Definition KrIsValidPageID (s : Pmm) (PageID : Z) : bool :=
  negb (PageID =? IVLDPGID) && (PageID <? NrPages s).

Definition KrIsPhysicalPageReserved (s : Pmm) (PageID : Z) : outcome bool :=
  if negb (KrIsValidPageID s PageID) then Done false
  else b ← read_byte (pAdvisoryBitmap s) (PageID / 8);
       Done (has_flag b (Z.shiftl 1 (PageID mod 8))).

Definition KrGetPhysicalPageAddress (s : Pmm) (PageID : Z) : Z :=
  if negb (KrIsValidPageID s PageID) then 0 else u32 (PageID * KR_PAGE_SIZE).

Definition KrGetPhysicalPageID (s : Pmm) (PhysAddr : Z) : Z :=
  if PhysAddr >? PaddrHighest s then IVLDPGID else u32 (PhysAddr / KR_PAGE_SIZE).

Definition KrGetPageMeta (s : Pmm) (PageID : Z) : outcome KrPhysicalPageMeta :=
  checked (Metas s !! Z.to_nat PageID).

(** Store through the pointer returned by KrGetPageMeta. *)
Definition put_meta (s : Pmm) (PageID : Z) (m : KrPhysicalPageMeta) : outcome Pmm :=
  if PageID <? Z.of_nat (length (Metas s)) then Done (set_metas s (<[Z.to_nat PageID := m]> (Metas s)))
  else Fault.

(** [for (ID = 0; ID < StartID + N; ID++)], as the code has it. *)
Fixpoint bulk_loop (n : nat) (s : Pmm) (ID : Z) (m : KrPhysicalPageMeta) : outcome Pmm :=
  match n with
  | O => Done s
  | S n' => s ← put_meta s ID m; bulk_loop n' s (ID + 1) m
  end.
Definition KrBulkSetPagesMeta (s : Pmm) (StartID N : Z) (m : KrPhysicalPageMeta) : outcome Pmm :=
  bulk_loop (Z.to_nat (u32 (StartID + N))) s 0 m.

Definition KrSetPhysicalPageAcquisitionHint (s : Pmm) (PageID : Z) : Pmm * bool :=
  if negb (KrIsValidPageID s PageID) then (s, false) else (set_hint s PageID, true).

Definition KrReservePhysicalPage (s : Pmm) (PageID : Z) : outcome (Pmm * bool) :=
  if negb (KrIsValidPageID s PageID) then Done (s, false)
  else
    let Index := PageID / 8 in
    let Offset := PageID mod 8 in
    p ← read_byte (pPrimaryBitmap s) Index;
    if negb (has_flag p (Z.shiftl 1 Offset)) then Done (s, false)
    else
      a ← read_byte (pAdvisoryBitmap s) Index;
      adv ← store_byte (pAdvisoryBitmap s) Index (byte_write a Offset true);
      let s := set_advisory s adv (u64 (UnusablePages s + 1)) in
      if InitStage s >=? PMM_INIT_STAGE_BOOKKEEPING then
        m ← KrGetPageMeta s PageID;
        s ← put_meta s PageID (mkMeta (RefCount m) (Auxiliary m) (Z.lor (Flags m) PAGE_FLAG_PINNED) (PType m));
        Done (s, true)
      else Done (s, true).

(** ** PmAcquirePages *)

(** PageID, uNoAcquired and the array behind pOutIDs during the hunt. *)
Record hunt := mkHunt { hPage : Z; hNo : Z; hOut : list Z }.

Definition store_id (pOutIDs : list Z) (i v : Z) : outcome (list Z) :=
  if i <? Z.of_nat (length pOutIDs) then Done (<[Z.to_nat i := v]> pOutIDs) else Fault.

Definition read_id (pOutIDs : list Z) (i : Z) : outcome Z := checked (pOutIDs !! Z.to_nat i).

(** One iteration of the inner loop body. *)
Definition hunt_page (s : Pmm) (method : Z) (i BitOffset : Z) (h : hunt) : outcome hunt :=
  RegionData ← read_byte (pPrimaryBitmap s) i;
  unavailable ← (if has_flag RegionData (Z.shiftl 1 BitOffset) then Done true
                 else KrIsPhysicalPageReserved s (hPage h));
  if unavailable : bool then
    Done (mkHunt (hPage h) (if has_flag method PAGE_ACQ_DENSE then 0 else hNo h) (hOut h))
  else if has_flag method PAGE_ACQ_BASE_OUT_ONLY then
    out ← (if hNo h =? 0 then store_id (hOut h) 0 (hPage h) else Done (hOut h));
    Done (mkHunt (hPage h) (u32 (hNo h + 1)) out)
  else
    out ← store_id (hOut h) (hNo h) (hPage h);
    Done (mkHunt (hPage h) (u32 (hNo h + 1)) out).

(** [for (BitOffset = PageID % 8; BitOffset < 8 && uNoAcquired < uToAcquire; BitOffset++, PageID++)] *)
Fixpoint hunt_region (fuel : nat) (s : Pmm) (method uToAcquire i BitOffset : Z) (h : hunt)
    : outcome hunt :=
  match fuel with
  | O => Done h
  | S fuel' =>
      if (BitOffset <? 8) && (hNo h <? uToAcquire) then
        h ← hunt_page s method i BitOffset h;
        hunt_region fuel' s method uToAcquire i (BitOffset + 1)
          (mkHunt (u32 (hPage h + 1)) (hNo h) (hOut h))
      else Done h
  end.

(** The loop over the bitmap bytes; [fuel] bytes are left. *)
Fixpoint hunt_regions (fuel : nat) (s : Pmm) (method uToAcquire : Z) (bIsReroll : bool)
    (InitialSearchID i : Z) (h : hunt) : outcome hunt :=
  match fuel with
  | O => Done h
  | S fuel' =>
      if (i <? BitmapSize s) && (hNo h <? uToAcquire) &&
         (if bIsReroll then hPage h <? InitialSearchID else true)
      then
        h ← hunt_region 8 s method uToAcquire i (hPage h mod 8) h;
        hunt_regions fuel' s method uToAcquire bIsReroll InitialSearchID (i + 1) h
      else Done h
  end.

Definition hunt_pass (s : Pmm) (method uToAcquire : Z) (bIsReroll : bool) (InitialSearchID : Z)
    (h : hunt) : outcome hunt :=
  hunt_regions (Z.to_nat (BitmapSize s - hPage h / 8)) s method uToAcquire bIsReroll InitialSearchID
    (hPage h / 8) h.

(** The label Hunt and the single wraparound. *)
Definition hunt_both (s : Pmm) (method uToAcquire InitialSearchID : Z) (pOutIDs : list Z)
    : outcome hunt :=
  h ← hunt_pass s method uToAcquire false InitialSearchID (mkHunt InitialSearchID 0 pOutIDs);
  if negb (InitialSearchID =? 0) && (hNo h <? uToAcquire) then
    hunt_pass s method uToAcquire true InitialSearchID
      (mkHunt 0 (if has_flag method PAGE_ACQ_DENSE then 0 else hNo h) (hOut h))
  else Done h.

(** [for (UINT i = uNoAcquired; i < uToAcquire; i++) pOutIDs[i] = IVLDPGID;] *)
Fixpoint pad_out (n : nat) (pOutIDs : list Z) (i : Z) : outcome (list Z) :=
  match n with
  | O => Done pOutIDs
  | S n' => out ← store_id pOutIDs i IVLDPGID; pad_out n' out (i + 1)
  end.

(** [for (j = i + 1; j < uNoAcquired && pOutIDs[i] + 1 == pOutIDs[j]; j++);] *)
Fixpoint run_end (fuel : nat) (pOutIDs : list Z) (uNoAcquired i j : Z) : outcome Z :=
  match fuel with
  | O => Done j
  | S fuel' =>
      if j <? uNoAcquired then
        a ← read_id pOutIDs i;
        b ← read_id pOutIDs j;
        if u32 (a + 1) =? b then run_end fuel' pOutIDs uNoAcquired i (j + 1) else Done j
      else Done j
  end.

(** Status and bookkeeping of [n] pages from [start]. *)
Definition claim_run (s : Pmm) (start n : Z) (meta : KrPhysicalPageMeta) : outcome Pmm :=
  '(bm, _) ← KrSetPhysicalPageStatus (NrPages s) (pPrimaryBitmap s) start n PAGE_ALLOCATED;
  let s := set_primary s bm in
  if InitStage s >=? PMM_INIT_STAGE_BOOKKEEPING then KrBulkSetPagesMeta s start n meta else Done s.

(** [for (UINT i = 0; i < uNoAcquired;) { ...; i = j; }] *)
Fixpoint claim_runs (fuel : nat) (s : Pmm) (pOutIDs : list Z) (uNoAcquired i : Z)
    (meta : KrPhysicalPageMeta) : outcome Pmm :=
  match fuel with
  | O => Done s
  | S fuel' =>
      if i <? uNoAcquired then
        j ← run_end (Z.to_nat (uNoAcquired - i)) pOutIDs uNoAcquired i (i + 1);
        start ← read_id pOutIDs i;
        s ← claim_run s start (u32 (j - i)) meta;
        claim_runs fuel' s pOutIDs uNoAcquired j meta
      else Done s
  end.

Definition bad_method (m : Z) : bool :=
  (has_flag m PAGE_ACQ_SPARSE && has_flag m PAGE_ACQ_DENSE) ||
  (has_flag m PAGE_ACQ_SPARSE && has_flag m PAGE_ACQ_BASE_OUT_ONLY).

(** The state, the array behind pOutIDs and the returned count. *)
Definition PmAcquirePages (s : Pmm) (pOutIDs : list Z) (uToAcquire PageType method HintID : Z)
    : outcome (Pmm * list Z * Z) :=
  if uToAcquire =? 0 then Done (s, pOutIDs, 0)
  else if bad_method method then Done (s, pOutIDs, 0)
  else
    s ← AcquireOrWaitSpinlock s;
    let PageID :=
      if HintID =? IVLDPGID
      then (if AcquireHint s =? IVLDPGID then 0 else AcquireHint s)
      else HintID in
    if negb (KrIsValidPageID s PageID) then Done (RelinquishSpinlock s, pOutIDs, 0)
    else
      h ← hunt_both s method uToAcquire PageID pOutIDs;
      if hNo h =? 0 then Done (RelinquishSpinlock s, hOut h, 0)
      else
        out ← (if negb (has_flag method PAGE_ACQ_BASE_OUT_ONLY)
               then pad_out (Z.to_nat (uToAcquire - hNo h)) (hOut h) (hNo h)
               else Done (hOut h));
        let meta := mkMeta 1 0 (if has_flag method PAGE_ACQ_FOR_USER then PAGE_FLAG_USER else 0) PageType in
        s ← (if has_flag method PAGE_ACQ_DENSE
             then base ← read_id out 0; claim_run s base (hNo h) meta
             else claim_runs (Z.to_nat (hNo h)) s out (hNo h) 0 meta);
        let s := set_acquired s (u64 (AcquiredPages s + hNo h)) in
        last ← (if has_flag method PAGE_ACQ_BASE_OUT_ONLY
                then base ← read_id out 0; Done (u32 (base + hNo h))
                else e ← read_id out (hNo h - 1); Done (u32 (e + 1)));
        Done (RelinquishSpinlock (set_hint s last), out, hNo h).

Definition PmAcquirePage (s : Pmm) (PageType HintID : Z) : outcome (Pmm * Z) :=
  '(s, out, dwAcquired) ← PmAcquirePages s [IVLDPGID] 1 PageType PAGE_ACQ_SPARSE HintID;
  PageID ← read_id out 0;
  Done (s, if negb (dwAcquired =? 0) then PageID else IVLDPGID).

(** ** PmRelinquishPage *)

(** The code after the reference count has dropped to zero (or before the
    bookkeeping stage): clear the primary bit. *)
Definition relinquish_bit (s : Pmm) (PageID : Z) : outcome (Pmm * bool) :=
  let Index := PageID / 8 in
  if Index >=? BitmapSize s then Done (s, false)
  else
    let BitOffset := PageID mod 8 in
    RegionData ← read_byte (pPrimaryBitmap s) Index;
    if has_flag RegionData (Z.shiftl 1 BitOffset) then
      bm ← store_byte (pPrimaryBitmap s) Index (byte_write RegionData BitOffset false);
      Done (set_acquired (set_primary s bm) (u64 (AcquiredPages s - 1)), true)
    else Done (s, false).

Definition PmRelinquishPage (s : Pmm) (PageID : Z) : outcome (Pmm * bool) :=
  reserved ← KrIsPhysicalPageReserved s PageID;
  if reserved : bool then Done (s, false)
  else
    s ← AcquireOrWaitSpinlock s;
    '(s, r) ←
      (if InitStage s >=? PMM_INIT_STAGE_BOOKKEEPING then
         m ← KrGetPageMeta s PageID;
         if has_flag (Flags m) PAGE_FLAG_PINNED then Melt KR_MDCODE_PINNED_PAGE_RELINQUISHED
         else if RefCount m =? 0 then Done (s, false)
         else
           let rc := u16 (RefCount m - 1) in
           s ← put_meta s PageID (mkMeta rc (Auxiliary m) (Flags m) (PType m));
           if negb (rc =? 0) then Done (s, true) else relinquish_bit s PageID
       else relinquish_bit s PageID);
    Done (RelinquishSpinlock s, r).

(** ** Initialization *)

Definition pmm_zero : Pmm := mkPmm 0 0 0 0 [] [] 0 0 0 0 0 0 [] false.

(** First pass over the firmware map. *)
Definition discover_step (s : Pmm) (d : KrMemoryDescriptor) : Pmm :=
  let total := u64 (TotalPages s + PageCount d) in
  let '(highest, unusable) :=
    if KrIsUsableMemoryRegionType (Type_ d) then
      let AddrRegionEnd := u64 (PhysicalBase d + u64 (PageCount d * KR_PAGE_SIZE)) in
      (if AddrRegionEnd >? PaddrHighest s then AddrRegionEnd else PaddrHighest s, UnusablePages s)
    else (PaddrHighest s, u64 (UnusablePages s + PageCount d)) in
  mkPmm (InitStage s) (PaddrMetaArray s) (VaddrMetaArray s) highest (pAdvisoryBitmap s)
    (pPrimaryBitmap s) (BitmapSize s) (NrPages s) total unusable (AcquiredPages s) (AcquireHint s)
    (Metas s) (sg_PmSpinlock s).

(** Second pass: mark a canonical region as free in the bitmap. *)
Fixpoint mark_free (NrPages : Z) (bm : list Z) (hint : Z) (ds : list KrMemoryDescriptor)
    : outcome (list Z * Z) :=
  match ds with
  | [] => Done (bm, hint)
  | d :: ds' =>
      let idPage := PhysicalBase d / KR_PAGE_SIZE in
      let hint := if (hint =? 0) || (hint =? IVLDPGID) then u32 idPage else hint in
      '(bm, _) ← KrSetPhysicalPageStatus NrPages bm (u32 idPage) (PageCount d) PAGE_FREE;
      mark_free NrPages bm hint ds'
  end.

(** [kbase] and [ksize] are LoadInfo.AddrPhysicalBase and ReserveSize. *)
Definition KrInitPhysmemmgmt (s : Pmm) (a : Arena) (map canon : list KrMemoryDescriptor)
    (kbase ksize : Z) : outcome (Pmm * Arena * bool) :=
  if InitStage s >? PMM_INIT_STAGE_NONE then Done (s, a, false)
  else
    let s := foldl discover_step s map in
    let nr := u32 (u64 (PaddrHighest s + KR_PAGE_SIZE - 1) / KR_PAGE_SIZE) in
    let bmsize := u32 (nr + 7) / 8 in
    let '(a, pAdv) := KrBootstrapArenaAcquire a bmsize in
    let s := mkPmm (InitStage s) (PaddrMetaArray s) (VaddrMetaArray s) (PaddrHighest s) []
               (pPrimaryBitmap s) bmsize nr (TotalPages s) (UnusablePages s) (AcquiredPages s)
               (AcquireHint s) (Metas s) (sg_PmSpinlock s) in
    if pAdv =? 0 then Done (s, a, false)
    else
      bm ← KrtlContiguousSetBuffer (replicate (Z.to_nat bmsize) 0) 0xFF bmsize;
      '(bm, hint) ← mark_free nr bm (AcquireHint s) canon;
      '(bm, _) ← KrSetPhysicalPageStatus nr bm (u32 (kbase / KR_PAGE_SIZE)) (ksize / KR_PAGE_SIZE) PAGE_ALLOCATED;
      '(bm, _) ← KrSetPhysicalPageStatus nr bm 0 (1024 * 1024 / KR_PAGE_SIZE) PAGE_ALLOCATED;
      let s := set_hint (set_advisory s bm (UnusablePages s)) hint in
      let '(a, pPrim) := KrBootstrapArenaAcquire a bmsize in
      if pPrim =? 0 then Done (s, a, false)
      else
        let s := set_primary s bm in
        Done (mkPmm PMM_INIT_STAGE_BASIC (PaddrMetaArray s) (VaddrMetaArray s) (PaddrHighest s)
                (pAdvisoryBitmap s) (pPrimaryBitmap s) (BitmapSize s) (NrPages s) (TotalPages s)
                (UnusablePages s) (AcquiredPages s) (AcquireHint s) (Metas s) (sg_PmSpinlock s),
              a, true).

(** The loop over the eight bits of a primary bitmap byte. *)
Fixpoint mark_reserved_byte (n : nat) (s : Pmm) (PagesState i j : Z) : outcome Pmm :=
  match n with
  | O => Done s
  | S n' =>
      s ← (if has_flag PagesState (Z.shiftl 1 j) then
             let ID := u32 (i * 8 + j) in
             m ← KrGetPageMeta s ID;
             put_meta s ID (mkMeta 1 (Auxiliary m) (Flags m) PAGE_TYPE_RESERVED)
           else Done s);
      mark_reserved_byte n' s PagesState i (j + 1)
  end.

Fixpoint mark_reserved (n : nat) (s : Pmm) (i : Z) : outcome Pmm :=
  match n with
  | O => Done s
  | S n' =>
      PagesState ← read_byte (pPrimaryBitmap s) i;
      s ← mark_reserved_byte 8 s PagesState i 0;
      mark_reserved n' s (i + 1)
  end.

Fixpoint relinquish_range (n : nat) (s : Pmm) (ID : Z) : outcome Pmm :=
  match n with
  | O => Done s
  | S n' => '(s, _) ← PmRelinquishPage s ID; relinquish_range n' s (ID + 1)
  end.

Definition SIZEOF_META : Z := 6.

(** [phys_to_virt] is KrPhysToVirt; the array holds as many entries as fit in
    the acquired pages.  A request for no page leaves BasePage unset. *)
Definition KrInitPhysMetaArray (phys_to_virt : Z -> Z) (s : Pmm) : outcome (Pmm * bool) :=
  if (InitStage s <? PMM_INIT_STAGE_BASIC) || (InitStage s >? PMM_INIT_STAGE_BOOKKEEPING)
  then Done (s, false)
  else
    let MetasPerPhysicalPage := KR_PAGE_SIZE / SIZEOF_META in
    let Needed := u32 (u64 (TotalPages s + MetasPerPhysicalPage - 1) / MetasPerPhysicalPage) in
    '(s, out, n) ← PmAcquirePages s [IVLDPGID] Needed PAGE_TYPE_BOOKKEEPING
                     (Z.lor PAGE_ACQ_DENSE PAGE_ACQ_BASE_OUT_ONLY) IVLDPGID;
    BasePage ← read_id out 0;
    if n <? Needed then
      s ← relinquish_range (Z.to_nat n) s BasePage; Done (s, false)
    else if n =? 0 then Fault
    else
      let pa := KrGetPhysicalPageAddress s BasePage in
      let metas := replicate (Z.to_nat (u32 (n * KR_PAGE_SIZE) / SIZEOF_META)) (mkMeta 0 0 0 0) in
      let s := mkPmm (InitStage s) pa (phys_to_virt pa) (PaddrHighest s) (pAdvisoryBitmap s)
                 (pPrimaryBitmap s) (BitmapSize s) (NrPages s) (TotalPages s) (UnusablePages s)
                 (AcquiredPages s) (AcquireHint s) metas (sg_PmSpinlock s) in
      s ← mark_reserved (Z.to_nat (BitmapSize s)) s 0;
      Done (s, true).

(** ** Well-formed manager states *)

(** Page [p] is available in the primary bitmap. *)
Definition page_free (s : Pmm) (p : Z) : bool := negb (bit_at (pPrimaryBitmap s) p).

Record pmm_wf (s : Pmm) : Prop := {
  pw_nr : 0 <= NrPages s /\ NrPages s + 7 < 2 ^ 32;
  pw_size : BitmapSize s = (NrPages s + 7) / 8;
  pw_prim_len : Z.of_nat (length (pPrimaryBitmap s)) = BitmapSize s;
  pw_adv_len : Z.of_nat (length (pAdvisoryBitmap s)) = BitmapSize s;
  pw_prim_bytes : bytes_ok (pPrimaryBitmap s);
  pw_adv_bytes : bytes_ok (pAdvisoryBitmap s);
  pw_padding : forall p, NrPages s <= p < 8 * BitmapSize s -> bit_at (pPrimaryBitmap s) p = true;
  pw_reserved : forall p, 0 <= p < NrPages s ->
    bit_at (pAdvisoryBitmap s) p = true -> bit_at (pPrimaryBitmap s) p = true;
  pw_hint : 0 <= AcquireHint s < 2 ^ 32;
  pw_metas : PMM_INIT_STAGE_BOOKKEEPING <= InitStage s -> NrPages s <= Z.of_nat (length (Metas s))
}.

Lemma pw_size_bounds s : pmm_wf s -> NrPages s <= 8 * BitmapSize s < NrPages s + 8 /\ 0 <= BitmapSize s.
Proof. intros Hwf. pose proof (pw_nr _ Hwf). rewrite (pw_size _ Hwf). zlia. Qed.

Lemma valid_id s p : pmm_wf s -> KrIsValidPageID s p = (p <? NrPages s).
Proof.
  intros Hwf. pose proof (pw_nr _ Hwf). unfold KrIsValidPageID, IVLDPGID.
  destruct (Z.eqb_spec p 0xFFFFFFFF), (Z.ltb_spec p (NrPages s)); try done; lia.
Qed.

Lemma byte_of_page s p :
  pmm_wf s -> 0 <= p < 8 * BitmapSize s ->
  exists b a, read_byte (pPrimaryBitmap s) (p / 8) = Done b /\
    read_byte (pAdvisoryBitmap s) (p / 8) = Done a /\
    has_flag b (Z.shiftl 1 (p mod 8)) = bit_at (pPrimaryBitmap s) p /\
    has_flag a (Z.shiftl 1 (p mod 8)) = bit_at (pAdvisoryBitmap s) p /\
    0 <= b < 2 ^ 8 /\ 0 <= a < 2 ^ 8.
Proof.
  intros Hwf Hp. assert (0 <= p / 8 < BitmapSize s) by zlia.
  pose proof (pw_prim_len _ Hwf). pose proof (pw_adv_len _ Hwf).
  destruct (read_byte_ok (pPrimaryBitmap s) (p / 8)) as (b & Eb & Lb); [lia|].
  destruct (read_byte_ok (pAdvisoryBitmap s) (p / 8)) as (a & Ea & La); [lia|].
  pose proof (Z.mod_pos_bound p 8 ltac:(lia)). exists b, a.
  rewrite !Z.shiftl_1_l, !has_flag_pow2 by lia. unfold bit_at. rewrite Lb, La.
  pose proof (Forall_lookup_1 _ _ _ _ (pw_prim_bytes _ Hwf) Lb) as Hb.
  pose proof (Forall_lookup_1 _ _ _ _ (pw_adv_bytes _ Hwf) La) as Ha.
  simpl in Ha, Hb. split_and!; done || lia.
Qed.

(** In a well-formed state the reservation test is decided by the primary bit. *)
Lemma unavailable_eq s p :
  pmm_wf s -> 0 <= p < 8 * BitmapSize s ->
  exists b, read_byte (pPrimaryBitmap s) (p / 8) = Done b /\
    (if has_flag b (Z.shiftl 1 (p mod 8)) then Done true else KrIsPhysicalPageReserved s p) =
      Done (negb (page_free s p)).
Proof.
  intros Hwf Hp. destruct (byte_of_page s p Hwf Hp) as (b & a & Eb & Ea & Fb & Fa & _).
  exists b. split; [done|]. unfold page_free. rewrite Fb, negb_involutive.
  destruct (bit_at (pPrimaryBitmap s) p) eqn:Hb; [done|].
  unfold KrIsPhysicalPageReserved. rewrite valid_id by done.
  destruct (Z.ltb_spec p (NrPages s)); [|done]. cbn [negb]. rewrite Ea, bind_Done, Fa.
  destruct (bit_at (pAdvisoryBitmap s) p) eqn:Ha; [|done].
  rewrite (pw_reserved _ Hwf p) in Hb by (done || lia). done.
Qed.

(** ** The hunt as a scan over pages *)

Section Scan.
  Context (s : Pmm) (method uToAcquire : Z) (Hwf : pmm_wf s).

Fixpoint scan (fuel : nat) (h : hunt) : outcome hunt :=
    match fuel with
    | O => Done h
    | S fuel' =>
        if hNo h <? uToAcquire then
          h ← hunt_page s method (hPage h / 8) (hPage h mod 8) h;
          scan fuel' (mkHunt (u32 (hPage h + 1)) (hNo h) (hOut h))
        else Done h
    end.

Lemma hunt_page_hPage i off h h' : hunt_page s method i off h = Done h' -> hPage h' = hPage h.
Proof using Type.
    unfold hunt_page. intros H.
    apply bind_Done_inv in H as (b & _ & H). apply bind_Done_inv in H as (u & _ & H).
    destruct u; [by simplify_eq|].
    destruct (has_flag method _); apply bind_Done_inv in H as (o & _ & H); by simplify_eq.
  Qed.

Lemma scan_stop n h : uToAcquire <= hNo h -> scan n h = Done h.
Proof using Type. intros Hn. destruct n; simpl; [done|]. by destruct (Z.ltb_spec (hNo h) uToAcquire); [lia|]. Qed.

Lemma scan_app a b h : scan (a + b) h = (h1 ← scan a h; scan b h1).
Proof using Type.
    revert h. induction a as [|a IH]; intros h; simpl; [done|].
    destruct (Z.ltb_spec (hNo h) uToAcquire).
    - destruct (hunt_page _ _ _ _ _); simpl; [apply IH|done..].
    - by rewrite bind_Done, scan_stop.
  Qed.

Lemma scan_page n h h' :
    scan n h = Done h' -> 0 <= hPage h -> hPage h + Z.of_nat n < 2 ^ 32 ->
    uToAcquire <= hNo h' \/ hPage h' = hPage h + Z.of_nat n.
Proof using Type.
    revert h. induction n as [|n IH]; intros h; cbn [scan].
    { intros [= ->]. lia. }
    destruct (Z.ltb_spec (hNo h) uToAcquire); [|intros [= ->]; lia].
    intros (h1 & E1 & E2)%bind_Done_inv Hp Hl. pose proof (hunt_page_hPage _ _ _ _ E1) as Ep.
    rewrite u32_small in E2 by lia. destruct (IH _ E2) as [|E]; simpl in *; lia.
  Qed.

Lemma region_scan n : forall i off h,
    0 <= i -> 0 <= off <= 8 -> off + Z.of_nat n = 8 -> hPage h = 8 * i + off -> 8 * i + 8 < 2 ^ 32 ->
    hunt_region n s method uToAcquire i off h = scan n h.
Proof using Type.
    induction n as [|n IH]; intros i off h Hi Hoff Hn Hp Hl; [done|]. cbn [hunt_region scan].
    destruct (Z.ltb_spec off 8); [|lia]. simpl.
    destruct (Z.ltb_spec (hNo h) uToAcquire); [|done].
    replace (hPage h / 8) with i by zlia. replace (hPage h mod 8) with off by zlia.
    destruct (hunt_page s method i off h) as [h1| | |] eqn:E; [|done..].
    rewrite !bind_Done. pose proof (hunt_page_hPage _ _ _ _ E).
    apply IH; simpl; try lia. rewrite u32_small; lia.
  Qed.

  (** The extra fuel of [hunt_region] is not used. *)
Lemma region_fuel n m i off h :
    8 <= off + Z.of_nat n -> (n <= m)%nat ->
    hunt_region m s method uToAcquire i off h = hunt_region n s method uToAcquire i off h.
Proof using Type.
    revert m off h. induction n as [|n IH]; intros m off h Hn Hm.
    - destruct m; [done|]. cbn [hunt_region]. destruct (Z.ltb_spec off 8); [lia|done].
    - destruct m as [|m]; [lia|]. cbn [hunt_region]. destruct (_ && _); [|done].
      destruct (hunt_page _ _ _ _ _); [|done..]. rewrite !bind_Done. apply IH; lia.
  Qed.

  (** The number of bitmap bytes a pass looks at. *)
Definition pass_bytes (bIsReroll : bool) (InitialSearchID : Z) : Z :=
    if bIsReroll then Z.min (BitmapSize s) ((InitialSearchID + 7) / 8) else BitmapSize s.

Lemma regions_scan n : forall rr init i h,
    Z.of_nat n = BitmapSize s - i -> 0 <= i -> 0 <= hPage h - 8 * i < 8 ->
    (rr = true -> hPage h = 8 * i) ->
    hunt_regions n s method uToAcquire rr init i h =
      scan (Z.to_nat (8 * pass_bytes rr init - hPage h)) h.
Proof using Hwf.
    pose proof (pw_size_bounds _ Hwf) as Hs. pose proof (pw_nr _ Hwf) as Hnr.
    induction n as [|n IH]; intros rr init i h Hn Hi Hp Hrr.
    { assert (8 * pass_bytes rr init - hPage h <= 0) by (unfold pass_bytes; destruct rr; lia).
      by replace (Z.to_nat _) with 0%nat by lia. }
    cbn [hunt_regions]. destruct (Z.ltb_spec i (BitmapSize s)); [|lia]. cbn [andb].
    destruct (Z.ltb_spec (hNo h) uToAcquire); cbn [andb]; [|by rewrite scan_stop].
    assert ((if rr then hPage h <? init else true) = (i <? pass_bytes rr init)) as ->.
    { unfold pass_bytes. destruct rr; [|by destruct (Z.ltb_spec i (BitmapSize s)); [|lia]].
      specialize (Hrr eq_refl).
      destruct (Z.ltb_spec (hPage h) init), (Z.ltb_spec i (Z.min (BitmapSize s) ((init + 7) / 8)));
        try done; zlia. }
    destruct (Z.ltb_spec i (pass_bytes rr init)) as [Hlt|Hge].
    2:{ replace (Z.to_nat _) with 0%nat by (destruct rr; [specialize (Hrr eq_refl)|unfold pass_bytes in Hge]; lia). done. }
    assert (hPage h mod 8 = hPage h - 8 * i) as Hmod by zlia.
    rewrite (region_fuel (Z.to_nat (8 * (i + 1) - hPage h))) by lia.
    rewrite region_scan by lia.
    replace (Z.to_nat (8 * pass_bytes rr init - hPage h))
      with (Z.to_nat (8 * (i + 1) - hPage h) + Z.to_nat (8 * pass_bytes rr init - 8 * (i + 1)))%nat by lia.
    rewrite scan_app. destruct (scan _ h) as [h1| | |] eqn:E; [|done..]. rewrite !bind_Done.
    apply scan_page in E as [Hd|Hd]; [| |lia|lia].
    - rewrite scan_stop by done. destruct n; [done|]. cbn [hunt_regions].
      by destruct (Z.ltb_spec (hNo h1) uToAcquire); [lia|]; rewrite andb_false_r.
    - rewrite IH; [|lia..]. do 2 f_equal. lia.
  Qed.

Lemma pass_scan rr init h :
    0 <= hPage h < 8 * BitmapSize s -> (rr = true -> hPage h = 0) ->
    hunt_pass s method uToAcquire rr init h = scan (Z.to_nat (8 * pass_bytes rr init - hPage h)) h.
Proof using Hwf.
    intros Hp Hrr. unfold hunt_pass. apply regions_scan; [zlia|zlia|zlia|].
    intros H. specialize (Hrr H). rewrite Hrr. done.
  Qed.
End Scan.

(** ** Sparse acquisition *)

(** The available pages of [[lo, lo + n)], in order. *)
Definition frees (s : Pmm) (lo n : Z) : list Z := filter (fun p => page_free s p = true) (seqZ lo n).

(** [out] with [a] written from slot [k] on. *)
Definition splice (out : list Z) (k : nat) (a : list Z) : list Z :=
  take k out ++ a ++ drop (k + length a) out.

Lemma splice_nil out k : splice out k [] = out.
Proof. unfold splice. simpl. by rewrite Nat.add_0_r, take_drop. Qed.

Lemma splice_splice out k a b :
  (k + length a <= length out)%nat -> splice (splice out k a) (k + length a) b = splice out k (a ++ b).
Proof.
  intros H. unfold splice. rewrite length_app, (app_assoc (take k out) a (drop _ out)).
  assert (length (take k out ++ a) = (k + length a)%nat) as Hl by (rewrite length_app, length_take; lia).
  rewrite take_app_length' by lia. rewrite (drop_app_add' _ _ (k + length a)%nat) by done.
  rewrite drop_drop, <- !app_assoc. do 4 f_equal. lia.
Qed.

Lemma splice_length out k a : (k + length a <= length out)%nat -> length (splice out k a) = length out.
Proof. intros H. unfold splice. rewrite !length_app, length_take, length_drop. lia. Qed.

Lemma store_id_splice out k v :
  0 <= k < Z.of_nat (length out) -> store_id out k v = Done (splice out (Z.to_nat k) [v]).
Proof.
  intros Hk. unfold store_id. destruct (Z.ltb_spec k (Z.of_nat (length out))); [|lia].
  f_equal. unfold splice. simpl. rewrite insert_take_drop by lia. by rewrite Nat.add_1_r.
Qed.

Lemma frees_cons s lo n :
  0 < n -> frees s lo n = (if page_free s lo then [lo] else []) ++ frees s (lo + 1) (n - 1).
Proof.
  intros Hn. unfold frees. rewrite seqZ_cons by lia. rewrite filter_cons.
  unfold Z.succ, Z.pred. destruct (page_free s lo); by case_decide.
Qed.

Lemma elem_of_frees s p lo n : p ∈ frees s lo n <-> lo <= p < lo + n /\ page_free s p = true.
Proof. unfold frees. rewrite list_elem_of_filter, elem_of_seqZ. tauto. Qed.

Lemma frees_NoDup s lo n : NoDup (frees s lo n).
Proof. apply NoDup_filter, NoDup_seqZ. Qed.

(** A sparse request: neither DENSE nor BASE_OUT_ONLY. *)
Definition sparse_method (m : Z) : Prop :=
  has_flag m PAGE_ACQ_DENSE = false /\ has_flag m PAGE_ACQ_BASE_OUT_ONLY = false.

Lemma hunt_page_sparse s m h :
  pmm_wf s -> sparse_method m -> 0 <= hPage h < 8 * BitmapSize s ->
  0 <= hNo h < Z.of_nat (length (hOut h)) -> hNo h + 1 < 2 ^ 32 ->
  hunt_page s m (hPage h / 8) (hPage h mod 8) h =
    Done (if page_free s (hPage h)
          then mkHunt (hPage h) (hNo h + 1) (splice (hOut h) (Z.to_nat (hNo h)) [hPage h])
          else h).
Proof.
  intros Hwf [Hd Hb] Hp Hk Hov. unfold hunt_page.
  destruct (unavailable_eq s (hPage h) Hwf Hp) as (b & -> & E). rewrite bind_Done, E, bind_Done.
  rewrite Hd, Hb. destruct (page_free s (hPage h)); simpl; [|by destruct h].
  rewrite store_id_splice by done. simpl. by rewrite u32_small by lia.
Qed.

Lemma scan_sparse s m uTo n : forall h,
  pmm_wf s -> sparse_method m -> 0 <= hPage h -> hPage h + Z.of_nat n <= 8 * BitmapSize s ->
  0 <= hNo h <= uTo -> uTo <= Z.of_nat (length (hOut h)) -> uTo < 2 ^ 32 ->
  let t := take (Z.to_nat (uTo - hNo h)) (frees s (hPage h) (Z.of_nat n)) in
  exists page', scan s m uTo n h =
    Done (mkHunt page' (hNo h + Z.of_nat (length t)) (splice (hOut h) (Z.to_nat (hNo h)) t)).
Proof.
  induction n as [|n IH]; intros h Hwf Hm Hp Hl Hk Ho Hu t; cbn [scan].
  { exists (hPage h). subst t. change (frees s (hPage h) (Z.of_nat 0)) with (@nil Z).
    rewrite take_nil. cbn [length]. rewrite splice_nil, Z.add_0_r. by destruct h. }
  subst t. destruct (Z.ltb_spec (hNo h) uTo) as [Hlt|].
  2:{ exists (hPage h). replace (Z.to_nat _) with 0%nat by lia.
      rewrite splice_nil, Z.add_0_r. by destruct h. }
  rewrite hunt_page_sparse, bind_Done by (done || lia).
  rewrite frees_cons by lia. replace (Z.of_nat (S n) - 1) with (Z.of_nat n) by lia.
  pose proof (pw_size_bounds _ Hwf). pose proof (pw_nr _ Hwf).
  assert (Z.of_nat (length (splice (hOut h) (Z.to_nat (hNo h)) [hPage h])) = Z.of_nat (length (hOut h)))
    as Hsl by (rewrite splice_length; simpl; lia).
  destruct (page_free s (hPage h)); simpl; rewrite u32_small by lia.
  - destruct (IH (mkHunt (hPage h + 1) (hNo h + 1) (splice (hOut h) (Z.to_nat (hNo h)) [hPage h])))
      as (p' & E); [done..|simpl; lia|simpl; lia|simpl; lia|simpl; lia|done|].
    exists p'. simpl in E. rewrite E. replace (Z.to_nat (uTo - hNo h)) with (S (Z.to_nat (uTo - (hNo h + 1)))) by lia.
    simpl. f_equal. f_equal; [lia|].
    replace (Z.to_nat (hNo h + 1)) with (Z.to_nat (hNo h) + length [hPage h])%nat by (simpl; lia).
    rewrite splice_splice by (simpl; lia). done.
  - destruct (IH (mkHunt (hPage h + 1) (hNo h) (hOut h))) as (p' & E); [done..|simpl; lia|simpl; lia|done|done|done|].
    exists p'. simpl in E. by rewrite E.
Qed.

(** The pages a sparse hunt from [start] selects. *)
Definition sparse_found (s : Pmm) (start uTo : Z) : list Z :=
  take (Z.to_nat uTo)
    (frees s start (NrPages s - start) ++
     (if start =? 0 then [] else frees s 0 (Z.min (NrPages s) ((start + 7) / 8 * 8)))).

Lemma frees_app s lo n m : 0 <= n -> 0 <= m -> frees s lo (n + m) = frees s lo n ++ frees s (lo + n) m.
Proof. intros. unfold frees. by rewrite seqZ_app, filter_app by lia. Qed.

(** Nothing is available above the last page. *)
Lemma frees_padding s lo n :
  pmm_wf s -> 0 <= lo <= NrPages s -> 0 <= n -> lo + n <= 8 * BitmapSize s ->
  frees s lo n = frees s lo (Z.min n (NrPages s - lo)).
Proof.
  intros Hwf Hlo Hn Hl. destruct (Z.le_ge_cases n (NrPages s - lo)); [by rewrite Z.min_l by lia|].
  rewrite Z.min_r by lia.
  replace n with (NrPages s - lo + (n - (NrPages s - lo))) at 1 by lia.
  rewrite frees_app by lia. enough (frees s (lo + (NrPages s - lo)) (n - (NrPages s - lo)) = []) as -> by (by rewrite app_nil_r).
  destruct (frees s (lo + _) _) as [|p l] eqn:E; [done|].
  assert (p ∈ frees s (lo + (NrPages s - lo)) (n - (NrPages s - lo))) as Hp by (rewrite E; set_solver).
  apply elem_of_frees in Hp as [Hr Hf]. unfold page_free in Hf.
  rewrite (pw_padding _ Hwf p) in Hf by lia. done.
Qed.

Lemma hunt_both_sparse s m uTo start out :
  pmm_wf s -> sparse_method m -> 0 <= start < NrPages s ->
  0 <= uTo < 2 ^ 32 -> uTo <= Z.of_nat (length out) ->
  let t := sparse_found s start uTo in
  exists page', hunt_both s m uTo start out = Done (mkHunt page' (Z.of_nat (length t)) (splice out 0 t)).
Proof.
  intros Hwf Hm Hst Hu Ho t. subst t. unfold hunt_both, sparse_found.
  pose proof (pw_size_bounds _ Hwf) as Hs.
  rewrite pass_scan by (simpl; done || lia). cbn [pass_bytes hPage].
  destruct (scan_sparse s m uTo (Z.to_nat (8 * BitmapSize s - start)) (mkHunt start 0 out))
    as (p1 & E); [done|done|simpl; lia..|].
  rewrite E, bind_Done. clear E. cbn [hPage hNo hOut].
  rewrite !Z2Nat.id, Z.sub_0_r, Z.add_0_l by lia.
  rewrite (frees_padding s start) by (done || lia). rewrite Z.min_r by lia.
  set (f1 := frees s start (NrPages s - start)).
  change (Z.to_nat 0) with 0%nat.
  destruct (Z.eqb_spec start 0) as [->|Hs0]; cbn [negb andb].
  { exists p1. by rewrite app_nil_r. }
  destruct (Z.ltb_spec (Z.of_nat (length (take (Z.to_nat uTo) f1))) uTo) as [Hlt|Hge].
  2:{ exists p1. rewrite length_take in Hge. rewrite take_app_le by lia. done. }
  rewrite (proj1 Hm). rewrite length_take in Hlt.
  rewrite take_ge by lia. rewrite pass_scan by (simpl; done || lia). cbn [pass_bytes hPage].
  rewrite Z.sub_0_r.
  set (lim := 8 * Z.min (BitmapSize s) ((start + 7) / 8)).
  destruct (scan_sparse s m uTo (Z.to_nat lim) (mkHunt 0 (Z.of_nat (length f1)) (splice out 0 f1)))
    as (p2 & E); [done|done|simpl; lia|simpl; lia|simpl; lia| |lia|].
  { simpl. rewrite splice_length; lia. }
  exists p2. rewrite E. clear E. cbn [hPage hNo hOut].
  rewrite Z2Nat.id by (unfold lim; zlia). rewrite frees_padding by (done || (unfold lim; zlia)).
  replace (Z.min lim (NrPages s - 0)) with (Z.min (NrPages s) ((start + 7) / 8 * 8)) by (unfold lim; lia).
  set (f2 := frees s 0 _). rewrite take_app, (take_ge f1) by lia.
  replace (Z.to_nat uTo - length f1)%nat with (Z.to_nat (uTo - Z.of_nat (length f1))) by lia.
  f_equal. f_equal.
  - rewrite length_app. lia.
  - rewrite Nat2Z.id. apply (splice_splice out 0 f1). lia.
Qed.

(** ** Claiming the selected pages *)

(** [s'] is [s] with exactly the pages of [l] marked allocated; the other
    fields agree, except for the bookkeeping array in the bookkeeping stage. *)
Record claimed (s s' : Pmm) (l : list Z) : Prop := {
  cl_state : s' = set_metas (set_primary s (pPrimaryBitmap s')) (Metas s');
  cl_length : length (pPrimaryBitmap s') = length (pPrimaryBitmap s);
  cl_bytes : bytes_ok (pPrimaryBitmap s) -> bytes_ok (pPrimaryBitmap s');
  cl_bits : forall p, 0 <= p ->
    bit_at (pPrimaryBitmap s') p = bool_decide (p ∈ l) || bit_at (pPrimaryBitmap s) p;
  cl_metas_len : length (Metas s') = length (Metas s);
  cl_metas : InitStage s < PMM_INIT_STAGE_BOOKKEEPING -> Metas s' = Metas s
}.

Lemma claimed_refl s : claimed s s [].
Proof. split; try done. by destruct s. Qed.

Lemma claimed_trans s1 s2 s3 l1 l2 :
  claimed s1 s2 l1 -> claimed s2 s3 l2 -> claimed s1 s3 (l1 ++ l2).
Proof.
  intros [E1 L1 B1 H1 M1 N1] [E2 L2 B2 H2 M2 N2].
  assert (InitStage s2 = InitStage s1) as Est by (by rewrite E1).
  split; [|congruence|auto| |congruence|].
  - rewrite E2 at 1. rewrite E1 at 1. done.
  - intros p Hp. rewrite H2, H1 by done.
    repeat case_bool_decide; simpl; try done; set_solver.
  - intros Hs. rewrite N2, N1; [done..|]. by rewrite Est.
Qed.

Lemma claimed_wf s s' l : pmm_wf s -> claimed s s' l -> pmm_wf s'.
Proof.
  intros [W1 W2 W3 W4 W5 W6 W7 W8 W9 W10] [E L B H M N].
  assert (forall p, 0 <= p -> bit_at (pPrimaryBitmap s) p = true -> bit_at (pPrimaryBitmap s') p = true) as Hm.
  { intros p Hp Hb. by rewrite H, Hb, orb_true_r by done. }
  rewrite E. split; simpl; try done.
  - congruence.
  - auto.
  - intros p Hp. apply Hm; [lia|auto].
  - intros p Hp Ha. apply Hm; [lia|auto].
  - intros Hs. rewrite M. auto.
Qed.

Lemma bulk_loop_ok n m : forall s ID,
  0 <= ID -> ID + Z.of_nat n <= Z.of_nat (length (Metas s)) ->
  exists ms, bulk_loop n s ID m = Done (set_metas s ms) /\ length ms = length (Metas s).
Proof.
  induction n as [|n IH]; intros s ID Hi Hl; cbn [bulk_loop].
  { exists (Metas s). by destruct s. }
  unfold put_meta. destruct (Z.ltb_spec ID (Z.of_nat (length (Metas s)))); [|lia]. rewrite bind_Done.
  destruct (IH (set_metas s (<[Z.to_nat ID:=m]> (Metas s))) (ID + 1)) as (ms & -> & Hms); [lia| |].
  { simpl. rewrite length_insert. lia. }
  exists ms. split; [done|]. rewrite Hms. apply length_insert.
Qed.

Lemma claim_run_spec s start n m :
  pmm_wf s -> 0 <= start -> 0 <= n -> start + n <= NrPages s ->
  exists s', claim_run s start n m = Done s' /\ claimed s s' (seqZ start n).
Proof.
  intros Hwf Hs Hn Hl. pose proof (pw_size_bounds _ Hwf). pose proof (pw_nr _ Hwf).
  pose proof (pw_prim_len _ Hwf).
  destruct (set_status_spec (NrPages s) (pPrimaryBitmap s) start n PAGE_ALLOCATED)
    as (bm & E & [BL BB BT]); [split_and!; try lia; apply Hwf|].
  assert (claimed s (set_primary s bm) (seqZ start n)) as Hcl.
  { split; try done. intros p Hp. simpl. rewrite BT by done. change (negb (PAGE_ALLOCATED =? 0)) with true.
    destruct (Z.leb_spec start p), (Z.ltb_spec p (start + n)); simpl; case_bool_decide as Hb;
      rewrite elem_of_seqZ in Hb; done || lia. }
  unfold claim_run. rewrite E, bind_Done. simpl.
  destruct (Z.geb_spec (InitStage s) PMM_INIT_STAGE_BOOKKEEPING) as [Hst|Hst].
  2:{ by exists (set_primary s bm). }
  unfold KrBulkSetPagesMeta. rewrite u32_small by lia.
  pose proof (pw_metas _ Hwf ltac:(lia)).
  destruct (bulk_loop_ok (Z.to_nat (start + n)) m (set_primary s bm) 0) as (ms & -> & Hms); [lia|simpl; lia|].
  eexists. split; [done|]. destruct Hcl as [C1 C2 C3 C4 C5 C6]. split; try done. intros; lia.
Qed.

Lemma seqZ_1 a : seqZ a 1 = [a].
Proof. by rewrite seqZ_cons, seqZ_nil by lia. Qed.
Lemma seqZ_2 a : seqZ a 2 = [a; a + 1].
Proof. rewrite seqZ_cons by lia. change (Z.pred 2) with 1. by rewrite seqZ_1. Qed.

(** The value after a successor is not the same successor again. *)
Definition no_repeat_run (l : list Z) : Prop := forall k a,
  l !! k = Some a -> l !! S k = Some (a + 1) -> l !! S (S k) <> Some (a + 1).

Lemma read_id_ok out i a : out !! Z.to_nat i = Some a -> read_id out i = Done a.
Proof. intros H. unfold read_id. by rewrite H. Qed.

Lemma run_end_spec fuel out uNo i a :
  0 <= i < uNo -> uNo <= Z.of_nat (length out) -> uNo - i <= Z.of_nat fuel ->
  no_repeat_run (take (Z.to_nat uNo) out) -> out !! Z.to_nat i = Some a -> 0 <= a < 2 ^ 32 - 1 ->
  run_end fuel out uNo i (i + 1) = Done (i + 1) \/
  (run_end fuel out uNo i (i + 1) = Done (i + 2) /\ i + 2 <= uNo /\ out !! S (Z.to_nat i) = Some (a + 1)).
Proof.
  intros Hi Hl Hf Hr Ha Hab. destruct fuel as [|fuel]; [lia|]. cbn [run_end].
  destruct (Z.ltb_spec (i + 1) uNo); [|by left].
  rewrite (read_id_ok out i a Ha), bind_Done.
  destruct (lookup_lt_is_Some_2 out (S (Z.to_nat i))) as [b Hb]; [lia|].
  rewrite (read_id_ok out (i + 1) b) by (rewrite <- Hb; f_equal; lia).
  rewrite bind_Done, u32_small by lia.
  destruct (Z.eqb_spec (a + 1) b) as [<-|]; [right|by left].
  split_and!; [|lia|done]. replace (i + 1 + 1) with (i + 2) by lia.
  destruct fuel as [|fuel]; [done|]. cbn [run_end].
  destruct (Z.ltb_spec (i + 2) uNo); [|done].
  rewrite (read_id_ok out i a Ha), bind_Done.
  destruct (lookup_lt_is_Some_2 out (S (S (Z.to_nat i)))) as [c Hc]; [lia|].
  rewrite (read_id_ok out (i + 2) c) by (rewrite <- Hc; f_equal; lia).
  rewrite bind_Done, u32_small by lia. destruct (Z.eqb_spec (a + 1) c) as [<-|]; [|done].
  exfalso. apply (Hr (Z.to_nat i) a); rewrite lookup_take_lt by lia; done.
Qed.

Lemma claim_runs_spec fuel m out uNo : forall s i,
  pmm_wf s -> 0 <= i <= uNo -> uNo <= Z.of_nat (length out) -> uNo < 2 ^ 32 -> uNo - i <= Z.of_nat fuel ->
  no_repeat_run (take (Z.to_nat uNo) out) ->
  Forall (fun p => 0 <= p < NrPages s) (take (Z.to_nat uNo) out) ->
  exists s', claim_runs fuel s out uNo i m = Done s' /\
    claimed s s' (drop (Z.to_nat i) (take (Z.to_nat uNo) out)).
Proof.
  induction fuel as [|fuel IH]; intros s i Hwf Hi Hl Hu Hf Hr Hall.
  { exists s. split; [done|]. rewrite drop_ge by (rewrite length_take; lia). apply claimed_refl. }
  cbn [claim_runs]. destruct (Z.ltb_spec i uNo).
  2:{ exists s. split; [done|]. rewrite drop_ge by (rewrite length_take; lia). apply claimed_refl. }
  destruct (lookup_lt_is_Some_2 out (Z.to_nat i)) as [a Ha]; [lia|].
  assert (take (Z.to_nat uNo) out !! Z.to_nat i = Some a) as Ha' by (rewrite lookup_take_lt by lia; done).
  pose proof (Forall_lookup_1 _ _ _ _ Hall Ha') as Hab. simpl in Hab. pose proof (pw_nr _ Hwf).
  pose proof (drop_S _ _ _ Ha') as Hd.
  assert (exists n, 0 <= n /\ i + n <= uNo /\ 0 < n /\
    run_end (Z.to_nat (uNo - i)) out uNo i (i + 1) = Done (i + n) /\ a + n <= NrPages s /\
    drop (Z.to_nat i) (take (Z.to_nat uNo) out) = seqZ a n ++ drop (Z.to_nat (i + n)) (take (Z.to_nat uNo) out))
    as (n & Hn0 & Hn1 & Hn2 & -> & Hn3 & ->).
  { destruct (run_end_spec (Z.to_nat (uNo - i)) out uNo i a) as [E|(E & H2 & Hb)]; [lia..|done|done|lia| |].
    - exists 1. rewrite E, Hd. split_and!; [lia..|done|lia|]. rewrite seqZ_1.
      simpl. do 2 f_equal. lia.
    - exists 2. assert (take (Z.to_nat uNo) out !! S (Z.to_nat i) = Some (a + 1)) as Hb'
        by (rewrite lookup_take_lt by lia; done).
      pose proof (Forall_lookup_1 _ _ _ _ Hall Hb') as Hbb. simpl in Hbb.
      rewrite E, Hd, (drop_S _ _ _ Hb'). split_and!; [lia..|done|lia|].
      rewrite seqZ_2. simpl. do 3 f_equal. lia. }
  rewrite bind_Done, (read_id_ok _ _ _ Ha), bind_Done.
  replace (i + n - i) with n by lia. rewrite u32_small by lia.
  destruct (claim_run_spec s a n m) as (s1 & -> & Hc); [done|lia..|]. rewrite bind_Done.
  destruct (IH s1 (i + n)) as (s2 & -> & Hc2); [by eapply claimed_wf|lia..|done| |].
  { rewrite (cl_state _ _ _ Hc). done. }
  exists s2. split; [done|]. by eapply claimed_trans.
Qed.

(** ** The selected pages are fit for claiming *)

Lemma sorted_lookup_lt l i j a b :
  StronglySorted Z.lt l -> l !! i = Some a -> l !! j = Some b -> (i < j)%nat -> a < b.
Proof.
  intros Hs. revert i j. induction Hs as [|x l Hs IH Hx]; intros i j Hi Hj Hij; [done|].
  destruct j as [|j]; [lia|]. destruct i as [|i]; simpl in *.
  - simplify_eq. by apply (Forall_lookup_1 _ _ _ _ Hx Hj).
  - eapply IH; [done..|lia].
Qed.

Lemma seqZ_sorted lo n : StronglySorted Z.lt (seqZ lo n).
Proof.
  destruct (decide (0 <= n)); [|rewrite seqZ_nil by lia; constructor].
  revert lo. pattern n. apply natlike_ind; [..|done]; clear.
  - intros lo. constructor.
  - intros n Hn IH lo. rewrite seqZ_cons by lia. rewrite Z.pred_succ. constructor; [apply IH|].
    apply Forall_forall. intros x Hx%elem_of_seqZ. lia.
Qed.

Lemma sorted_filter (P : Z -> Prop) `{!forall x, Decision (P x)} l :
  StronglySorted Z.lt l -> StronglySorted Z.lt (filter P l).
Proof.
  induction 1 as [|x l Hs IH Hx]; [constructor|]. rewrite filter_cons. case_decide; [|done].
  constructor; [done|]. apply Forall_forall. intros y [_ Hy]%list_elem_of_filter.
  rewrite Forall_forall in Hx. auto.
Qed.

Lemma frees_sorted s lo n : StronglySorted Z.lt (frees s lo n).
Proof. apply sorted_filter, seqZ_sorted. Qed.

Lemma frees_no_repeat s lo n L :
  0 <= lo -> no_repeat_run (frees s lo n ++ frees s 0 L).
Proof.
  intros Hlo k a Ha Hb Hc. set (f1 := frees s lo n) in *. set (f2 := frees s 0 L) in *.
  destruct (decide (S (S k) < length f1)%nat) as [H|H].
  { rewrite lookup_app_l in Hb, Hc by lia.
    pose proof (sorted_lookup_lt f1 _ _ _ _ (frees_sorted _ _ _) Hb Hc). lia. }
  rewrite (lookup_app_r f1 f2 (S (S k))) in Hc by lia.
  destruct (decide (S k < length f1)%nat) as [H'|H'].
  2:{ rewrite lookup_app_r in Hb by lia.
      pose proof (sorted_lookup_lt f2 _ _ _ _ (frees_sorted _ _ _) Hb Hc). lia. }
  rewrite lookup_app_l in Ha by lia. replace (S (S k) - length f1)%nat with 0%nat in Hc by lia.
  assert (a ∈ f1) as [Ha1 Ha2]%elem_of_frees by (by eapply list_elem_of_lookup_2).
  assert (a + 1 ∈ f2) as [Hb1 Hb2]%elem_of_frees by (by eapply list_elem_of_lookup_2).
  assert (a ∈ f2) as [i Hi]%list_elem_of_lookup_1 by (apply elem_of_frees; split; [lia|done]).
  destruct i as [|i]; [simplify_eq; lia|].
  pose proof (sorted_lookup_lt f2 _ _ _ _ (frees_sorted _ _ _) Hc Hi). lia.
Qed.

Lemma no_repeat_take n l : no_repeat_run l -> no_repeat_run (take n l).
Proof.
  intros H k a Ha Hb Hc. apply lookup_take_Some in Ha as [Ha _], Hb as [Hb _], Hc as [Hc _].
  exact (H k a Ha Hb Hc).
Qed.

Lemma sparse_found_no_repeat s start uTo : 0 <= start -> no_repeat_run (sparse_found s start uTo).
Proof.
  intros H. apply no_repeat_take. destruct (start =? 0); [|by apply frees_no_repeat].
  change (@nil Z) with (frees s 0 0). by apply frees_no_repeat.
Qed.

Lemma sparse_found_elem s start uTo p :
  0 <= start < NrPages s -> p ∈ sparse_found s start uTo ->
  0 <= p < NrPages s /\ page_free s p = true.
Proof.
  intros Hst Hp. apply (subseteq_take _ _) in Hp. apply elem_of_app in Hp as [Hp|Hp].
  - apply elem_of_frees in Hp. split; [lia|tauto].
  - destruct (start =? 0); [set_solver|]. apply elem_of_frees in Hp. split; [lia|tauto].
Qed.

Lemma pad_out_spec n : forall out i,
  0 <= i -> i + Z.of_nat n <= Z.of_nat (length out) ->
  pad_out n out i = Done (splice out (Z.to_nat i) (replicate n IVLDPGID)).
Proof.
  induction n as [|n IH]; intros out i Hi Hl; cbn [pad_out].
  { by rewrite splice_nil. }
  rewrite store_id_splice, bind_Done by lia. rewrite IH by (rewrite ?splice_length; simpl; lia).
  replace (Z.to_nat (i + 1)) with (Z.to_nat i + length [IVLDPGID])%nat by (simpl; lia).
  by rewrite splice_splice by (simpl; lia).
Qed.

(** The page the search starts from. *)
Definition search_start (s : Pmm) (HintID : Z) : Z :=
  if HintID =? IVLDPGID then (if AcquireHint s =? IVLDPGID then 0 else AcquireHint s) else HintID.

(** What a successful acquisition of the pages [t] leaves behind. *)
Record acquired_spec (s s' : Pmm) (t : list Z) : Prop := {
  as_wf : pmm_wf s';
  as_free : forall p, 0 <= p -> page_free s' p = page_free s p && negb (bool_decide (p ∈ t));
  as_advisory : pAdvisoryBitmap s' = pAdvisoryBitmap s;
  as_nr : NrPages s' = NrPages s /\ InitStage s' = InitStage s;
  as_count : AcquiredPages s' = u64 (AcquiredPages s + Z.of_nat (length t));
  as_hint : forall e, last t = Some e -> AcquireHint s' = e + 1;
  as_unlocked : sg_PmSpinlock s' = false;
  as_total : TotalPages s' = TotalPages s
}.
