(* ===== verification/PmmSparse.v ===== *)
(** * Sparse page acquisition: the contract of PmAcquirePages and PmAcquirePage *)
From Stdlib Require Import ZArith Lia Sorted.
From stdpp Require Import base numbers list.
From S2P Require Import Prelude PhysBitmap KrtlMem BootstrapArena MemoryMap Physmemmgmt.
Open Scope Z_scope.

Lemma bad_method_sparse m : sparse_method m -> bad_method m = false.
Proof. intros [H1 H2]. unfold bad_method. by rewrite H1, H2, !andb_false_r. Qed.

Lemma bad_method_dense m : has_flag m PAGE_ACQ_SPARSE = false -> bad_method m = false.
Proof. intros H1. unfold bad_method. by rewrite H1. Qed.

Lemma set_lock_wf s l : pmm_wf s -> pmm_wf (set_lock s l).
Proof. by intros []. Qed.

(** The bookkeeping after the pages were claimed. *)
Lemma acquired_of_claimed s s1 t n hint :
  pmm_wf s -> claimed (set_lock s true) s1 t -> n = Z.of_nat (length t) ->
  0 <= hint < 2 ^ 32 -> (forall e, last t = Some e -> hint = e + 1) ->
  acquired_spec s (RelinquishSpinlock (set_hint (set_acquired s1 (u64 (AcquiredPages s1 + n))) hint)) t.
Proof.
  intros Hwf Hcl -> Hh Hl. pose proof (claimed_wf _ _ _ (set_lock_wf s true Hwf) Hcl) as Hwf1.
  pose proof (cl_state _ _ _ Hcl) as E.
  assert (pAdvisoryBitmap s1 = pAdvisoryBitmap s /\ NrPages s1 = NrPages s /\
          InitStage s1 = InitStage s /\ AcquiredPages s1 = AcquiredPages s /\ TotalPages s1 = TotalPages s) as (E1 & E2 & E3 & E4 & E5)
    by (rewrite E; done).
  split; simpl; try done.
  - by destruct Hwf1.
  - intros p Hp. unfold page_free. simpl. rewrite (cl_bits _ _ _ Hcl) by done. simpl.
    rewrite negb_orb. apply andb_comm.
  - by rewrite E4.
Qed.

Lemma sparse_found_length s start uTo : 0 <= uTo -> Z.of_nat (length (sparse_found s start uTo)) <= uTo.
Proof. intros H. unfold sparse_found. rewrite length_take. lia. Qed.

Lemma acquire_sparse_spec s out uTo ty m HintID :
  pmm_wf s -> sg_PmSpinlock s = false -> sparse_method m ->
  0 < uTo < 2 ^ 32 -> uTo <= Z.of_nat (length out) ->
  0 <= search_start s HintID < NrPages s ->
  let t := sparse_found s (search_start s HintID) uTo in
  exists s', PmAcquirePages s out uTo ty m HintID =
      Done (s', if bool_decide (t = []) then out
                else splice out 0 (t ++ replicate (Z.to_nat uTo - length t) IVLDPGID),
            Z.of_nat (length t)) /\
    if bool_decide (t = []) then s' = s else acquired_spec s s' t.
Proof.
  intros Hwf Hlock Hm Hu Ho Hst t. pose proof (sparse_found_length s (search_start s HintID) uTo ltac:(lia)) as Hlen.
  fold t in Hlen. unfold PmAcquirePages. destruct (Z.eqb_spec uTo 0); [lia|].
  rewrite bad_method_sparse by done. unfold AcquireOrWaitSpinlock. rewrite Hlock, bind_Done.
  change (if HintID =? IVLDPGID then _ else HintID) with (search_start s HintID).
  pose proof (set_lock_wf s true Hwf) as Hwf'.
  rewrite valid_id by done. destruct (Z.ltb_spec (search_start s HintID) (NrPages (set_lock s true))) as [_|Hbad];
    [|simpl in Hbad; lia].
  cbn [negb]. destruct (hunt_both_sparse (set_lock s true) m uTo (search_start s HintID) out)
    as (p' & E); [done|done|done|lia|done|].
  change (sparse_found (set_lock s true) (search_start s HintID) uTo) with t in E.
  rewrite E, bind_Done. cbn [hNo hOut]. clear E.
  destruct (Z.eqb_spec (Z.of_nat (length t)) 0) as [H0|H0].
  { assert (t = []) as -> by (destruct t; [done|simpl in H0; lia]).
    exists s. rewrite bool_decide_true by done. rewrite splice_nil. split; [|done].
    do 3 f_equal. unfold RelinquishSpinlock. destruct s; simpl in *. by subst. }
  rewrite (bool_decide_false (t = [])) by (intros ->; done).
  destruct Hm as [Hd Hb]. rewrite Hd, Hb. cbn [negb].
  rewrite pad_out_spec by (rewrite ?splice_length; lia). rewrite bind_Done, Nat2Z.id.
  rewrite (splice_splice out 0 t) by lia.
  replace (Z.to_nat (uTo - Z.of_nat (length t))) with (Z.to_nat uTo - length t)%nat by lia.
  set (out' := splice out 0 _).
  assert (take (length t) out' = t) as Htake.
  { unfold out', splice. simpl. by rewrite <- app_assoc, take_app_length. }
  assert (length out' = length out) as Hlo.
  { unfold out'. apply splice_length. rewrite length_app, length_replicate. lia. }
  set (meta := mkMeta _ _ _ _).
  destruct (claim_runs_spec (length t) meta out' (Z.of_nat (length t)) (set_lock s true) 0)
    as (s1 & E & Hcl); [done|lia|lia|lia|lia| | |].
  { rewrite Nat2Z.id, Htake. apply sparse_found_no_repeat. lia. }
  { rewrite Nat2Z.id, Htake. apply Forall_forall. intros p Hp.
    by eapply sparse_found_elem in Hp as [? _]. }
  rewrite Nat2Z.id, Htake in Hcl. simpl in Hcl. rewrite E, bind_Done.
  destruct (last t) as [e|] eqn:Hlast; [|by apply last_None in Hlast; subst t; rewrite Hlast in H0].
  assert (read_id out' (Z.of_nat (length t) - 1) = Done e) as ->.
  { apply read_id_ok. rewrite last_lookup in Hlast.
    transitivity (take (length t) out' !! pred (length t)); [|by rewrite Htake].
    rewrite lookup_take_lt by lia. f_equal. lia. }
  rewrite !bind_Done. assert (e ∈ t) as He by (rewrite last_lookup in Hlast; by eapply list_elem_of_lookup_2).
  apply sparse_found_elem in He as [Her _]; [|done]. pose proof (pw_nr _ Hwf).
  rewrite u32_small by lia. eexists. split; [done|].
  apply acquired_of_claimed; [done..|lia|]. intros e' He'. congruence.
Qed.
