(* ===== verification/PmmDense.v ===== *)
(** * Dense page acquisition: contiguous runs *)
From Stdlib Require Import ZArith Lia Sorted.
From stdpp Require Import base numbers list.
From S2P Require Import Prelude PhysBitmap KrtlMem BootstrapArena MemoryMap Physmemmgmt PmmSparse.
Open Scope Z_scope.

(** Every page of [[b, b + n)] is available. *)
Definition all_free (s : Pmm) (b n : Z) : Prop := forall q, b <= q < b + n -> page_free s q = true.

Definition base_only (m : Z) : bool := has_flag m PAGE_ACQ_BASE_OUT_ONLY.

(** What the output array holds while a streak of [c] pages starts at [base]. *)
Definition dense_out (m : Z) (out : list Z) (base c : Z) : Prop :=
  if base_only m then out !! 0%nat = Some base else take (Z.to_nat c) out = seqZ base c.

(** The slots the caller has to provide. *)
Definition dense_slots (m uTo : Z) (out : list Z) : Prop :=
  if base_only m then (0 < length out)%nat else uTo <= Z.of_nat (length out).

Definition dense_method (m : Z) : Prop :=
  has_flag m PAGE_ACQ_DENSE = true /\ has_flag m PAGE_ACQ_SPARSE = false.

Section Dense.
  Context (s : Pmm) (m uTo : Z) (Hwf : pmm_wf s) (Hm : dense_method m) (Hu : 0 < uTo < 2 ^ 32).

  (** Invariant of a pass that started at page [lo]. *)
Record dense_inv (lo : Z) (h : hunt) : Prop := {
    di_lo : 0 <= lo <= hPage h;
    di_no : 0 <= hNo h <= uTo /\ hNo h <= hPage h - lo;
    di_free : all_free s (hPage h - hNo h) (hNo h);
    di_max : hNo h = hPage h - lo \/ page_free s (hPage h - hNo h - 1) = false;
    di_none : hNo h < uTo -> forall b, lo <= b -> b + uTo <= hPage h -> ~ all_free s b uTo;
    di_first : forall b, lo <= b -> b + uTo < hPage h -> ~ all_free s b uTo;
    di_out : 0 < hNo h -> dense_out m (hOut h) (hPage h - hNo h) (hNo h);
    di_slots : dense_slots m uTo (hOut h)
  }.

Lemma hunt_page_dense h :
    0 <= hPage h < 8 * BitmapSize s -> 0 <= hNo h < uTo -> dense_slots m uTo (hOut h) ->
    exists out, hunt_page s m (hPage h / 8) (hPage h mod 8) h =
        Done (if page_free s (hPage h) then mkHunt (hPage h) (hNo h + 1) out
              else mkHunt (hPage h) 0 (hOut h)) /\
      (length out = length (hOut h)) /\
      out = (if base_only m then (if hNo h =? 0 then <[0%nat := hPage h]> (hOut h) else hOut h)
             else <[Z.to_nat (hNo h) := hPage h]> (hOut h)).
Proof using Hwf Hm Hu.
    intros Hp Hk Hs. unfold hunt_page, dense_slots, base_only in *.
    destruct (unavailable_eq s (hPage h) Hwf Hp) as (b & -> & E). rewrite bind_Done, E, bind_Done.
    rewrite (proj1 Hm). rewrite u32_small by lia.
    destruct (page_free s (hPage h)); cbn [negb]; [|eexists; split; [done|]; split; [|done]].
    2:{ destruct (has_flag m _), (hNo h =? 0); by rewrite ?length_insert. }
    destruct (has_flag m PAGE_ACQ_BASE_OUT_ONLY); [destruct (hNo h =? 0)|].
    all: unfold store_id; repeat match goal with
      | |- context [?a <? Z.of_nat ?n] => destruct (Z.ltb_spec a (Z.of_nat n)); [|lia] end.
    all: eexists; split; [done|]; rewrite ?length_insert; done.
  Qed.

Lemma dense_inv_step lo h :
    dense_inv lo h -> hNo h < uTo -> hPage h < 8 * BitmapSize s ->
    exists h1, hunt_page s m (hPage h / 8) (hPage h mod 8) h = Done h1 /\ hPage h1 = hPage h /\
      dense_inv lo (mkHunt (hPage h + 1) (hNo h1) (hOut h1)).
Proof using Hwf Hm Hu.
    intros [D1 D2 D3 D4 D5 D5' D6 D7] Hlt Hp.
    destruct (hunt_page_dense h) as (out & -> & Hlen & Hout); [lia|lia|done|].
    eexists. split; [done|]. destruct (page_free s (hPage h)) eqn:Hf; (split; [done|]); split; cbn [hPage hNo hOut].
    - lia.
    - lia.
    - intros q Hq. destruct (decide (q = hPage h)) as [->|]; [done|]. apply D3. lia.
    - destruct D4 as [D4|D4]; [left; lia|right]. rewrite <- D4. f_equal. lia.
    - intros Hlt' b Hb He Hall. destruct (decide (b + uTo <= hPage h)); [by apply (D5 Hlt b)|].
      destruct D4 as [D4|D4]; [lia|]. rewrite Hall in D4; [done|lia].
    - intros b Hb He. apply D5; lia.
    - intros _. unfold dense_out, dense_slots, base_only in *.
      replace (hPage h + 1 - (hNo h + 1)) with (hPage h - hNo h) by lia. subst out.
      destruct (has_flag m _).
      + destruct (Z.eqb_spec (hNo h) 0) as [H0|H0]; [|apply D6; lia].
        rewrite list_lookup_insert_eq by lia. f_equal. lia.
      + replace (Z.to_nat (hNo h + 1)) with (S (Z.to_nat (hNo h))) by lia.
        rewrite (take_S_r _ _ (hPage h)) by (apply list_lookup_insert_eq; lia).
        rewrite take_insert_ge by lia. rewrite (seqZ_app _ (hNo h) 1), seqZ_1 by lia. f_equal.
        * destruct (decide (hNo h = 0)) as [->|]; [done|apply D6; lia].
        * f_equal. lia.
    - unfold dense_slots in *. by rewrite Hlen.
    - lia.
    - lia.
    - intros q Hq. lia.
    - right. rewrite <- Hf. f_equal. lia.
    - intros _ b Hb He Hall. destruct (decide (b + uTo <= hPage h)); [by apply (D5 Hlt b)|].
      rewrite Hall in Hf; [done|lia].
    - intros b Hb He. apply D5; lia.
    - lia.
    - done.
  Qed.

Lemma scan_dense n : forall lo h,
    dense_inv lo h -> hPage h + Z.of_nat n <= 8 * BitmapSize s ->
    exists h', scan s m uTo n h = Done h' /\ dense_inv lo h' /\
      hPage h' <= hPage h + Z.of_nat n /\ (hNo h' = uTo \/ hPage h' = hPage h + Z.of_nat n).
Proof using Hwf Hm Hu.
    pose proof (pw_size_bounds _ Hwf). pose proof (pw_nr _ Hwf).
    induction n as [|n IH]; intros lo h Hi Hl; cbn [scan].
    { exists h. split_and!; [done..|lia|right; lia]. }
    destruct (Z.ltb_spec (hNo h) uTo).
    2:{ exists h. split_and!; [done..|lia|left]. destruct (di_no _ _ Hi). lia. }
    destruct (dense_inv_step lo h) as (h1 & -> & E & Hi1); [done..|lia|]. rewrite bind_Done.
    pose proof (di_lo _ _ Hi).
    rewrite E, u32_small by lia. destruct (IH lo _ Hi1) as (h' & -> & Hi' & Hle & Hd); [simpl; lia|].
    exists h'. simpl in *. split_and!; [done..|lia|lia].
  Qed.

Lemma dense_inv_start lo out : 0 <= lo -> dense_slots m uTo out -> dense_inv lo (mkHunt lo 0 out).
Proof using Hu.
    intros Hlo Hs. split; simpl; try lia; try done.
    - intros q Hq. lia.
  Qed.

  (** The two passes together. *)
Lemma hunt_both_dense start out :
    0 <= start < NrPages s -> dense_slots m uTo out ->
    exists h lo, hunt_both s m uTo start out = Done h /\ dense_inv lo h /\ hPage h <= 8 * BitmapSize s /\
      (hNo h < uTo -> forall b, 0 <= b -> (start <= b \/ b + uTo <= start) -> b + uTo <= NrPages s ->
         ~ all_free s b uTo) /\
      (forall b, start <= b -> b + uTo <= NrPages s -> all_free s b uTo -> hNo h = uTo /\ hPage h - uTo <= b).
Proof using Hwf Hm Hu.
    intros Hst Hs. pose proof (pw_size_bounds _ Hwf) as Hsz. unfold hunt_both.
    rewrite pass_scan by (simpl; done || lia). cbn [pass_bytes hPage].
    destruct (scan_dense (Z.to_nat (8 * BitmapSize s - start)) start (mkHunt start 0 out))
      as (h1 & -> & Hi1 & Hle1 & Hd1); [apply dense_inv_start; [lia|done]|simpl; lia|].
    rewrite bind_Done. cbn [hPage] in *.
    assert (forall b, start <= b -> b + uTo <= NrPages s -> all_free s b uTo -> hNo h1 = uTo /\ hPage h1 - uTo <= b) as Hfirst.
    { intros b Hb He Hall. pose proof (di_no _ _ Hi1). destruct (decide (hNo h1 < uTo)) as [Hlt|Hge].
      - exfalso. apply (di_none _ _ Hi1 Hlt b); [lia|lia|done].
      - split; [lia|]. destruct (decide (hPage h1 - uTo <= b)) as [|Hn]; [done|]. exfalso. apply (di_first _ _ Hi1 b); [lia|lia|done]. }
    destruct (Z.eqb_spec start 0) as [->|Hs0]; cbn [negb andb].
    { exists h1, 0. split_and!; [done..|lia| |done]. intros Hlt b Hb _ He.
      apply (di_none _ _ Hi1); lia. }
    destruct (Z.ltb_spec (hNo h1) uTo) as [Hlt|Hge].
    2:{ exists h1, start. split_and!; [done..|lia|lia|done]. }
    rewrite (proj1 Hm). rewrite pass_scan by (simpl; done || lia). cbn [pass_bytes hPage].
    set (lim := 8 * Z.min (BitmapSize s) ((start + 7) / 8)).
    assert (start <= lim <= 8 * BitmapSize s) by (unfold lim; zlia).
    destruct (scan_dense (Z.to_nat (lim - 0)) 0 (mkHunt 0 0 (hOut h1)))
      as (h2 & -> & Hi2 & Hle2 & Hd2); [apply dense_inv_start; [lia|apply Hi1]|simpl; lia|].
    exists h2, 0. simpl in *. split_and!; [done..|lia| |intros b Hb He Hall; destruct (Hfirst b Hb He Hall); lia]. intros Hlt2 b Hb [Hb'|Hb'] He.
    - apply (di_none _ _ Hi1); lia.
    - apply (di_none _ _ Hi2); lia.
  Qed.
End Dense.

Lemma free_below_nr s p : pmm_wf s -> 0 <= p < 8 * BitmapSize s -> page_free s p = true -> p < NrPages s.
Proof.
  intros Hwf Hp Hf. destruct (decide (p < NrPages s)) as [|Hn]; [done|].
  unfold page_free in Hf. rewrite (pw_padding _ Hwf p) in Hf by lia. done.
Qed.

Lemma last_seqZ b n e : 0 < n -> last (seqZ b n) = Some e -> e = b + n - 1.
Proof.
  intros Hn. rewrite last_lookup, length_seqZ. intros [H1 _]%lookup_seqZ. lia.
Qed.

(** The array of a successful dense request. *)
Definition dense_result (m uTo : Z) (out : list Z) (base c : Z) : Prop :=
  out !! 0%nat = Some base /\
  (base_only m = false -> take (Z.to_nat uTo) out = seqZ base c ++ replicate (Z.to_nat (uTo - c)) IVLDPGID).

(** The padding phase keeps the streak. *)
Lemma dense_pad m uTo out base c :
  0 < c <= uTo -> dense_slots m uTo out -> dense_out m out base c ->
  exists out', (if negb (base_only m) then pad_out (Z.to_nat (uTo - c)) out c else Done out) = Done out' /\
    dense_result m uTo out' base c /\
    (base_only m = false -> out' !! Z.to_nat (c - 1) = Some (base + c - 1)).
Proof.
  unfold dense_slots, dense_out, dense_result. destruct (base_only m); intros Hc Hs Ho; cbn [negb].
  { exists out. done. }
  rewrite pad_out_spec by lia. eexists. split; [done|].
  set (pad := replicate _ _). unfold splice. rewrite Ho.
  assert (forall k, (k < Z.to_nat c)%nat ->
    (seqZ base c ++ pad ++ drop (Z.to_nat c + length pad) out) !! k = Some (base + Z.of_nat k)) as Hk.
  { intros k Hk. rewrite lookup_app_l by (rewrite length_seqZ; lia). apply lookup_seqZ. lia. }
  split; [split|].
  - rewrite Hk by lia. f_equal. lia.
  - intros _. rewrite app_assoc. apply take_app_length'.
    unfold pad. rewrite length_app, length_seqZ, length_replicate. lia.
  - intros _. rewrite Hk by lia. f_equal. lia.
Qed.

Lemma acquire_dense_spec s out uTo ty m HintID :
  pmm_wf s -> sg_PmSpinlock s = false -> dense_method m ->
  0 < uTo < 2 ^ 32 -> dense_slots m uTo out -> 0 <= search_start s HintID < NrPages s ->
  exists s' out' base c, PmAcquirePages s out uTo ty m HintID = Done (s', out', c) /\
    0 <= c <= uTo /\
    (c = 0 -> s' = s) /\
    (0 < c -> 0 <= base /\ base + c <= NrPages s /\ all_free s base c /\
       dense_result m uTo out' base c /\ acquired_spec s s' (seqZ base c)) /\
    (c < uTo -> forall b, 0 <= b -> (search_start s HintID <= b \/ b + uTo <= search_start s HintID) ->
       b + uTo <= NrPages s -> ~ all_free s b uTo) /\
    (forall b, search_start s HintID <= b -> b + uTo <= NrPages s -> all_free s b uTo -> c = uTo /\ base <= b).
Proof.
  intros Hwf Hlock Hm Hu Ho Hst. unfold PmAcquirePages. destruct (Z.eqb_spec uTo 0); [lia|].
  rewrite bad_method_dense by apply Hm. unfold AcquireOrWaitSpinlock. rewrite Hlock, bind_Done.
  change (if HintID =? IVLDPGID then _ else HintID) with (search_start s HintID).
  pose proof (set_lock_wf s true Hwf) as Hwf'.
  rewrite valid_id by done. destruct (Z.ltb_spec (search_start s HintID) (NrPages (set_lock s true))) as [_|Hbad];
    [|simpl in Hbad; lia].
  cbn [negb]. destruct (hunt_both_dense (set_lock s true) m uTo Hwf' Hm Hu (search_start s HintID) out)
    as (h & lo & -> & Hi & Hpage & Hnone & Hfirst); [done|done|]. rewrite bind_Done.
  pose proof (di_no _ _ _ _ _ Hi) as Hc. pose proof (di_lo _ _ _ _ _ Hi) as Hlo.
  destruct (Z.eqb_spec (hNo h) 0) as [H0|H0].
  { exists s, (hOut h), 0, 0. split_and!; [|lia..|done|lia| |intros b Hb He Hall; destruct (Hfirst b Hb He Hall); lia].
    - do 3 f_equal. unfold RelinquishSpinlock. destruct s; simpl in *. by subst.
    - intros _. rewrite H0 in Hnone. apply Hnone. lia. }
  set (base := hPage h - hNo h) in *.
  destruct (dense_pad m uTo (hOut h) base (hNo h)) as (out' & E & Hres & Hlast);
    [lia|apply Hi|apply Hi; lia|].
  change (has_flag m PAGE_ACQ_BASE_OUT_ONLY) with (base_only m). rewrite E, bind_Done. clear E.
  rewrite (proj1 Hm). rewrite (read_id_ok out' 0 base) by apply Hres. rewrite !bind_Done.
  assert (all_free s base (hNo h)) as Hfree by exact (di_free _ _ _ _ _ Hi).
  assert (base + hNo h <= NrPages s) as Hend.
  { pose proof (free_below_nr _ (base + hNo h - 1) Hwf' ltac:(lia)) as Hnr.
    change (NrPages (set_lock s true)) with (NrPages s) in Hnr. enough (base + hNo h - 1 < NrPages s) by lia.
    apply Hnr. apply Hfree. lia. }
  cbv zeta. set (meta := mkMeta _ _ _ _).
  destruct (claim_run_spec (set_lock s true) base (hNo h) meta) as (s1 & -> & Hcl);
    [done|lia|lia|simpl; lia|]. rewrite !bind_Done.
  pose proof (pw_nr _ Hwf).
  exists (RelinquishSpinlock (set_hint (set_acquired s1 (u64 (AcquiredPages s1 + hNo h))) (base + hNo h))),
    out', base, (hNo h).
  split_and!; [|lia|lia|lia| | |].
  - destruct (base_only m) eqn:Hb.
    + rewrite u32_small by lia. done.
    + rewrite (read_id_ok out' _ (base + hNo h - 1)) by (by apply Hlast). rewrite bind_Done.
      replace (base + hNo h - 1 + 1) with (base + hNo h) by lia. by rewrite u32_small by lia.
  - intros _. split_and!; [lia|lia|done|done|].
    apply acquired_of_claimed; [done..|rewrite length_seqZ; lia|lia|].
    intros e He. apply last_seqZ in He; lia.
  - exact Hnone.
  - intros b Hb He Hall. destruct (Hfirst b Hb He Hall). unfold base. lia.
Qed.
