(* ===== verification/PmmOps.v ===== *)
(** * Page relinquishing, reservation and initialization: lemmas *)
From Stdlib Require Import ZArith Lia Btauto.
From stdpp Require Import base numbers list.
From S2P Require Import Prelude PhysBitmap KrtlMem BootstrapArena MemoryMap Physmemmgmt PmmSparse.
Open Scope Z_scope.
#[local] Arguments byte_write _ _ _ : simpl never.

Definition page_reserved (s : Pmm) (p : Z) : bool := bit_at (pAdvisoryBitmap s) p.

Lemma reserved_eq s p :
  pmm_wf s -> 0 <= p < NrPages s -> KrIsPhysicalPageReserved s p = Done (page_reserved s p).
Proof.
  intros Hwf Hp. pose proof (pw_size_bounds _ Hwf).
  destruct (byte_of_page s p Hwf) as (b & a & _ & Ea & _ & Fa & _); [lia|].
  unfold KrIsPhysicalPageReserved. rewrite valid_id by done.
  destruct (Z.ltb_spec p (NrPages s)); [|lia]. cbn [negb]. by rewrite Ea, bind_Done, Fa.
Qed.

(** Writing one bit of a byte of the bitmap. *)
Lemma bit_at_byte_write bm p b v q :
  bm !! Z.to_nat (p / 8) = Some b -> 0 <= p -> 0 <= q ->
  bit_at (<[Z.to_nat (p / 8) := byte_write b (p mod 8) v]> bm) q = if q =? p then v else bit_at bm q.
Proof.
  intros Hb Hp Hq. apply lookup_lt_Some in Hb as Hl.
  rewrite bit_at_store by zlia. pose proof (Z.mod_pos_bound p 8 ltac:(lia)).
  pose proof (Z.mod_pos_bound q 8 ltac:(lia)).
  destruct (Z.eqb_spec (q / 8) (p / 8)) as [E|E].
  - rewrite testbit_byte_write by lia.
    destruct (Z.eqb_spec (q mod 8) (p mod 8)), (Z.eqb_spec q p); try done; try zlia.
    unfold bit_at. by rewrite E, Hb.
  - destruct (Z.eqb_spec q p) as [->|]; done.
Qed.

Lemma store_byte_bitmap p b v (bm : list Z) :
  0 <= p < 8 * Z.of_nat (length bm) -> bm !! Z.to_nat (p / 8) = Some b ->
  store_byte bm (p / 8) (byte_write b (p mod 8) v) =
    Done (<[Z.to_nat (p / 8) := byte_write b (p mod 8) v]> bm).
Proof. intros Hp Hb. apply store_byte_ok. zlia. Qed.

(** The state after a page bit is cleared. *)
Record relinquished (s s' : Pmm) (p : Z) : Prop := {
  rl_wf : pmm_wf s';
  rl_free : forall q, 0 <= q -> page_free s' q = (q =? p) || page_free s q;
  rl_advisory : pAdvisoryBitmap s' = pAdvisoryBitmap s;
  rl_nr : NrPages s' = NrPages s /\ InitStage s' = InitStage s;
  rl_count : AcquiredPages s' = u64 (AcquiredPages s - 1);
  rl_hint : AcquireHint s' = AcquireHint s;
  rl_unlocked : sg_PmSpinlock s' = false;
  rl_total : TotalPages s' = TotalPages s
}.

Lemma relinquish_spec s p :
  pmm_wf s -> sg_PmSpinlock s = false -> InitStage s < PMM_INIT_STAGE_BOOKKEEPING -> 0 <= p < NrPages s ->
  exists s', PmRelinquishPage s p = Done (s', negb (page_reserved s p) && negb (page_free s p)) /\
    if negb (page_reserved s p) && negb (page_free s p) then relinquished s s' p else s' = s.
Proof.
  intros Hwf Hlock Hst Hp. unfold PmRelinquishPage. rewrite reserved_eq by done. rewrite bind_Done.
  destruct (page_reserved s p) eqn:Hr; cbn [negb andb]; [by exists s|].
  unfold AcquireOrWaitSpinlock. rewrite Hlock, bind_Done. cbn [set_lock InitStage].
  destruct (Z.geb_spec (InitStage s) PMM_INIT_STAGE_BOOKKEEPING); [lia|].
  pose proof (pw_size_bounds _ Hwf). pose proof (pw_prim_len _ Hwf).
  unfold relinquish_bit. cbn [set_lock BitmapSize pPrimaryBitmap].
  destruct (Z.geb_spec (p / 8) (BitmapSize s)); [zlia|].
  destruct (byte_of_page s p Hwf) as (b & a & Eb & _ & Fb & _ & Hb & _); [lia|].
  rewrite Eb, bind_Done, Fb. unfold page_free at 1 2. rewrite negb_involutive.
  destruct (bit_at (pPrimaryBitmap s) p) eqn:Hbit.
  2:{ rewrite bind_Done. exists s. split; [|done]. unfold RelinquishSpinlock. destruct s; simpl in *. by subst. }
  assert (pPrimaryBitmap s !! Z.to_nat (p / 8) = Some b) as Lb.
  { unfold read_byte in Eb. destruct (_ !! _); naive_solver. }
  rewrite store_byte_bitmap by (done || lia). rewrite !bind_Done.
  eexists. split; [done|]. split; simpl; try done.
  - destruct Hwf as [W1 W2 W3 W4 W5 W6 W7 W8 W9 W10]. split; simpl; try done.
    + by rewrite length_insert.
    + apply bytes_ok_insert; [done|apply byte_write_range].
    + intros q Hq. rewrite bit_at_byte_write by (done || lia).
      destruct (Z.eqb_spec q p); [lia|auto].
    + intros q Hq Ha. rewrite bit_at_byte_write by (done || lia).
      destruct (Z.eqb_spec q p) as [->|]; [|auto]. unfold page_reserved in Hr. congruence.
  - intros q Hq. unfold page_free. simpl. rewrite bit_at_byte_write by (done || lia).
    by destruct (q =? p).
Qed.

(** Reservation: an acquired page becomes reserved, anything else is refused. *)
Record reserved_by (s s' : Pmm) (p : Z) : Prop := {
  rv_wf : pmm_wf s';
  rv_primary : pPrimaryBitmap s' = pPrimaryBitmap s;
  rv_reserved : forall q, 0 <= q -> page_reserved s' q = (q =? p) || page_reserved s q;
  rv_nr : NrPages s' = NrPages s /\ InitStage s' = InitStage s;
  rv_unusable : UnusablePages s' = u64 (UnusablePages s + 1);
  rv_unlocked : sg_PmSpinlock s' = sg_PmSpinlock s;
  rv_hint : AcquireHint s' = AcquireHint s
}.

Lemma reserve_spec s p :
  pmm_wf s -> InitStage s < PMM_INIT_STAGE_BOOKKEEPING -> 0 <= p ->
  exists s' r, KrReservePhysicalPage s p = Done (s', r) /\
    r = (p <? NrPages s) && negb (page_free s p) /\
    if r then reserved_by s s' p else s' = s.
Proof.
  intros Hwf Hst Hp. unfold KrReservePhysicalPage. rewrite valid_id by done.
  destruct (Z.ltb_spec p (NrPages s)) as [Hlt|]; cbn [negb andb]; [|by exists s, false].
  pose proof (pw_size_bounds _ Hwf). pose proof (pw_adv_len _ Hwf).
  destruct (byte_of_page s p Hwf) as (b & a & Eb & Ea & Fb & Fa & _); [lia|].
  rewrite Eb, bind_Done, Fb. unfold page_free. rewrite negb_involutive.
  destruct (bit_at (pPrimaryBitmap s) p) eqn:Hbit; cbn [negb]; [|by exists s, false].
  rewrite Ea, bind_Done. assert (pAdvisoryBitmap s !! Z.to_nat (p / 8) = Some a) as La.
  { unfold read_byte in Ea. destruct (pAdvisoryBitmap s !! _); naive_solver. }
  rewrite store_byte_bitmap by (done || lia). rewrite bind_Done. cbn [set_advisory InitStage].
  destruct (Z.geb_spec (InitStage s) PMM_INIT_STAGE_BOOKKEEPING); [lia|].
  eexists _, true. split; [done|]. split; [done|]. split; simpl; try done.
  - destruct Hwf as [W1 W2 W3 W4 W5 W6 W7 W8 W9 W10]. split; simpl; try done.
    + by rewrite length_insert.
    + apply bytes_ok_insert; [done|apply byte_write_range].
    + intros q Hq. rewrite bit_at_byte_write by (done || lia).
      destruct (Z.eqb_spec q p) as [->|]; auto.
  - intros q Hq. unfold page_reserved. simpl. rewrite bit_at_byte_write by (done || lia).
    by destruct (q =? p).
Qed.

(** ** Initialization *)

(** Page [p] belongs to a canonical region. *)
Definition in_canon (p : Z) (ds : list KrMemoryDescriptor) : bool :=
  existsb (fun d => (PhysicalBase d / KR_PAGE_SIZE <=? p) &&
                    (p <? PhysicalBase d / KR_PAGE_SIZE + PageCount d)) ds.

(** The region lies below page [nr]. *)
Definition canon_fits (nr : Z) (d : KrMemoryDescriptor) : Prop :=
  0 <= PhysicalBase d /\ 0 <= PageCount d /\ PhysicalBase d / KR_PAGE_SIZE + PageCount d <= nr.

Definition bitmap_ok (nr : Z) (bm : list Z) : Prop :=
  bytes_ok bm /\ nr <= 8 * Z.of_nat (length bm) /\ nr + 7 < 2 ^ 32.

(** The search hint after the canonical regions [ds] were marked: the first
    page of the first region that does not start at page 0. *)
Fixpoint init_hint (hint : Z) (ds : list KrMemoryDescriptor) : Z :=
  match ds with
  | [] => hint
  | d :: ds' => init_hint (if (hint =? 0) || (hint =? IVLDPGID) then PhysicalBase d / KR_PAGE_SIZE else hint) ds'
  end.

Lemma mark_free_spec nr ds : forall bm hint,
  bitmap_ok nr bm -> Forall (canon_fits nr) ds -> 0 <= hint < 2 ^ 32 ->
  exists bm', mark_free nr bm hint ds = Done (bm', init_hint hint ds) /\ bitmap_ok nr bm' /\
    length bm' = length bm /\ 0 <= init_hint hint ds < 2 ^ 32 /\
    forall p, 0 <= p -> bit_at bm' p = bit_at bm p && negb (in_canon p ds).
Proof.
  induction ds as [|d ds IH]; intros bm hint Hbm Hds Hh; cbn [mark_free init_hint].
  { exists bm. split_and!; try done; try lia. intros p _. by rewrite andb_true_r. }
  apply Forall_cons in Hds as [(Hd1 & Hd2 & Hd3) Hds]. pose proof Hbm as (B1 & B2 & B3).
  assert (0 <= PhysicalBase d / KR_PAGE_SIZE) by (unfold KR_PAGE_SIZE; zlia).
  rewrite (u32_small (PhysicalBase d / KR_PAGE_SIZE)) by lia.
  destruct (set_status_spec nr bm (PhysicalBase d / KR_PAGE_SIZE) (PageCount d) PAGE_FREE)
    as (bm1 & -> & [S1 S2 S3]); [split_and!; done || lia|]. rewrite bind_Done.
  set (hint1 := (if (hint =? 0) || (hint =? IVLDPGID) then PhysicalBase d / KR_PAGE_SIZE else hint)).
  assert (0 <= hint1 < 2 ^ 32) as Hh1 by (unfold hint1; destruct (_ || _); lia).
  destruct (IH bm1 hint1) as (bm' & -> & Hok & Hl & Hh' & Hbits); [|done|done|].
  { split_and!; [auto|by rewrite S1|done]. }
  exists bm'. split_and!; try done; try lia. intros p Hp.
  rewrite Hbits, S3 by done. change (negb (PAGE_FREE =? 0)) with false. simpl.
  destruct (PhysicalBase d / KR_PAGE_SIZE <=? p), (p <? _), (bit_at bm p), (in_canon p ds); done.
Qed.

(** The number of pages computed by the discovery pass. *)
Definition discovered (map : list KrMemoryDescriptor) : Pmm := foldl discover_step pmm_zero map.
Definition init_pages (map : list KrMemoryDescriptor) : Z :=
  u32 (u64 (PaddrHighest (discovered map) + KR_PAGE_SIZE - 1) / KR_PAGE_SIZE).

Lemma discover_frame map : forall s,
  let s' := foldl discover_step s map in
  InitStage s' = InitStage s /\ pPrimaryBitmap s' = pPrimaryBitmap s /\ AcquireHint s' = AcquireHint s /\
  AcquiredPages s' = AcquiredPages s /\ Metas s' = Metas s /\ sg_PmSpinlock s' = sg_PmSpinlock s.
Proof.
  induction map as [|d map IH]; intros s; [done|]. cbn [foldl].
  destruct (IH (discover_step s d)) as (-> & -> & -> & -> & -> & ->).
  unfold discover_step. by destruct (KrIsUsableMemoryRegionType _).
Qed.

Lemma bit_at_all_ones n p : 0 <= p < 8 * Z.of_nat n -> bit_at (replicate n 0xFF) p = true.
Proof.
  intros Hp. unfold bit_at. rewrite lookup_replicate_2 by zlia.
  change 255 with (Z.ones 8). apply Z.ones_spec_low. apply Z.mod_pos_bound. lia.
Qed.

Lemma set_buffer_fill n v : KrtlContiguousSetBuffer (replicate (Z.to_nat n) 0) v n = Done (replicate (Z.to_nat n) v).
Proof.
  unfold KrtlContiguousSetBuffer. rewrite set_buffer_loop_spec by (rewrite length_replicate; lia).
  simpl. rewrite drop_ge by (rewrite length_replicate; lia). by rewrite app_nil_r.
Qed.

(** The kernel's own pages. *)
Definition in_kernel (p kbase ksize : Z) : bool :=
  (kbase / KR_PAGE_SIZE <=? p) && (p <? kbase / KR_PAGE_SIZE + ksize / KR_PAGE_SIZE).

Record init_input (map canon : list KrMemoryDescriptor) (kbase ksize : Z) : Prop := {
  ii_nr : 256 <= init_pages map /\ init_pages map + 7 < 2 ^ 32;
  ii_canon : Forall (canon_fits (init_pages map)) canon;
  ii_kernel : 0 <= kbase /\ 0 <= ksize /\ kbase / KR_PAGE_SIZE + ksize / KR_PAGE_SIZE <= init_pages map
}.

(** The bitmap phase of the initialization. *)
Lemma init_bitmap map canon kbase ksize bmsize :
  init_input map canon kbase ksize -> bmsize = (init_pages map + 7) / 8 ->
  exists bm, let hint := init_hint 0 canon in
    (bm ← KrtlContiguousSetBuffer (replicate (Z.to_nat bmsize) 0) 0xFF bmsize;
     '(bm, hint) ← mark_free (init_pages map) bm 0 canon;
     '(bm, _) ← KrSetPhysicalPageStatus (init_pages map) bm (u32 (kbase / KR_PAGE_SIZE)) (ksize / KR_PAGE_SIZE) PAGE_ALLOCATED;
     '(bm, _) ← KrSetPhysicalPageStatus (init_pages map) bm 0 (1024 * 1024 / KR_PAGE_SIZE) PAGE_ALLOCATED;
     Done (bm, hint)) = Done (bm, hint) /\
    bytes_ok bm /\ Z.of_nat (length bm) = bmsize /\ 0 <= hint < 2 ^ 32 /\
    forall p, 0 <= p < 8 * bmsize ->
      bit_at bm p = negb (in_canon p canon && negb (in_kernel p kbase ksize) && (256 <=? p)).
Proof.
  intros [[N1 N2] Hc (K1 & K2 & K3)] Hsz. set (nr := init_pages map) in *.
  assert (0 <= bmsize /\ nr <= 8 * bmsize) as [Hb0 Hb1] by (subst bmsize; zlia).
  rewrite set_buffer_fill, bind_Done.
  destruct (mark_free_spec nr canon (replicate (Z.to_nat bmsize) 0xFF) 0)
    as (b1 & -> & (O1 & O2 & O3) & L1 & Hh & Hb); [split_and!| done|lia|].
  { apply Forall_replicate. lia. }
  { rewrite length_replicate. lia. }
  { lia. }
  rewrite bind_Done. rewrite length_replicate in L1.
  assert (0 <= kbase / KR_PAGE_SIZE /\ 0 <= ksize / KR_PAGE_SIZE) as [? ?] by (unfold KR_PAGE_SIZE; zlia).
  rewrite u32_small by lia.
  destruct (set_status_spec nr b1 (kbase / KR_PAGE_SIZE) (ksize / KR_PAGE_SIZE) PAGE_ALLOCATED)
    as (b2 & -> & [S1 S2 S3]); [split_and!; done || lia|]. rewrite bind_Done.
  destruct (set_status_spec nr b2 0 256 PAGE_ALLOCATED) as (b3 & E3 & [T1 T2 T3]).
  { split_and!; try lia. auto. }
  change (1024 * 1024 / KR_PAGE_SIZE) with 256. rewrite E3, bind_Done. exists b3. cbv zeta.
  split_and!; [done|auto|rewrite T1, S1, L1; lia|lia|lia|].
  intros p Hp. rewrite T3, S3, Hb by lia. rewrite bit_at_all_ones by lia.
  change (negb (PAGE_ALLOCATED =? 0)) with true. unfold in_kernel.
  destruct (Z.leb_spec 0 p); [|lia]. rewrite Z.add_0_l, (Z.leb_antisym p 256).
  destruct (p <? 256), (_ && (p <? _)), (in_canon p canon); done.
Qed.

(** Both bitmap allocations of the initialization succeed. *)
Definition arena_fits (a : Arena) (bmsize : Z) : Prop :=
  let '(a1, p1) := KrBootstrapArenaAcquire a bmsize in
  p1 <> 0 /\ (KrBootstrapArenaAcquire a1 bmsize).2 <> 0.

(** The state a successful initialization leaves. *)
Record initialized (s : Pmm) (map canon : list KrMemoryDescriptor) (kbase ksize : Z) : Prop := {
  in_wf : pmm_wf s;
  in_stage : InitStage s = PMM_INIT_STAGE_BASIC;
  in_unlocked : sg_PmSpinlock s = false;
  in_nr : NrPages s = init_pages map;
  in_free : forall p, 0 <= p < NrPages s ->
    page_free s p = in_canon p canon && negb (in_kernel p kbase ksize) && (256 <=? p);
  in_reserved : forall p, 0 <= p < NrPages s -> page_reserved s p = negb (page_free s p);
  in_acquired : AcquiredPages s = 0;
  in_hint : AcquireHint s = init_hint 0 canon;
  in_total : TotalPages s = TotalPages (discovered map)
}.

(** The arena behind the two bitmaps. *)
Definition after_bitmaps (a : Arena) (bmsize : Z) : Arena := (KrBootstrapArenaAcquire (KrBootstrapArenaAcquire a bmsize).1 bmsize).1.

Lemma in_canon_bound nr p canon : Forall (canon_fits nr) canon -> in_canon p canon = true -> p < nr.
Proof.
  intros Hf H. unfold in_canon in H. apply existsb_exists in H as (d & Hd & H).
  apply list_elem_of_In in Hd. rewrite Forall_forall in Hf. destruct (Hf d Hd) as (_ & _ & ?).
  apply andb_true_iff in H as [_ H%Z.ltb_lt]. lia.
Qed.

Lemma init_spec a map canon kbase ksize :
  init_input map canon kbase ksize -> arena_fits a ((init_pages map + 7) / 8) ->
  exists s, KrInitPhysmemmgmt pmm_zero a map canon kbase ksize = Done (s, after_bitmaps a ((init_pages map + 7) / 8), true) /\
    initialized s map canon kbase ksize.
Proof.
  intros Hin Har. destruct (init_bitmap map canon kbase ksize _ Hin eq_refl)
    as (bm & E & Hby & Hlen & Hh & Hbits).
  destruct Hin as [[N1 N2] Hc _]. unfold KrInitPhysmemmgmt. cbn [pmm_zero InitStage]. simpl (0 >? _).
  cbv iota. fold pmm_zero. fold (discovered map). fold (init_pages map).
  destruct (discover_frame map pmm_zero) as (F1 & F2 & F3 & F4 & F5 & F6).
  fold (discovered map) in F1, F2, F3, F4, F5, F6.
  rewrite (u32_small (init_pages map + 7)) by lia. set (bmsize := (init_pages map + 7) / 8) in *.
  unfold after_bitmaps. unfold arena_fits in Har. destruct (KrBootstrapArenaAcquire a bmsize) as [a1 p1] eqn:A1.
  destruct Har as [Hp1 Hp2]. destruct (KrBootstrapArenaAcquire a1 bmsize) as [a2 p2] eqn:A2. simpl in Hp2.
  destruct (Z.eqb_spec p1 0); [done|]. cbn [AcquireHint]. rewrite F3. cbn [pmm_zero AcquireHint].
  apply bind_Done_inv in E as (b0 & -> & E). rewrite bind_Done.
  apply bind_Done_inv in E as ([b1 h1] & -> & E). rewrite bind_Done.
  apply bind_Done_inv in E as ([b2 r2] & -> & E). rewrite bind_Done.
  apply bind_Done_inv in E as ([b3 r3] & -> & E). rewrite bind_Done.
  injection E as -> ->.
  destruct (Z.eqb_spec p2 0); [done|]. cbn [fst]. rewrite A2. eexists. split; [done|].
  assert (init_pages map <= 8 * bmsize) by (unfold bmsize; zlia).
  assert (forall p, 0 <= p < 8 * bmsize -> page_free (set_primary pmm_zero bm) p =
            in_canon p canon && negb (in_kernel p kbase ksize) && (256 <=? p)) as Hfree.
  { intros p Hp. unfold page_free. simpl. by rewrite Hbits, negb_involutive by lia. }
  split; try done; simpl.
  - split; simpl; try done; try lia. intros p Hp. rewrite Hbits by lia.
    destruct (in_canon p canon) eqn:Hi; [|done]. apply (in_canon_bound _ _ _ Hc) in Hi. lia.
  - intros p Hp. apply Hfree. lia.
  - intros p Hp. unfold page_reserved, page_free. simpl. by rewrite negb_involutive.
Qed.
