(* ===== verification/PmmProps.v ===== *)
(** * Properties of the physical memory manager *)
From Stdlib Require Import ZArith Lia Sorted.
From stdpp Require Import base numbers list.
From S2P Require Import Prelude PhysBitmap KrtlMem BootstrapArena MemoryMap Physmemmgmt PmmSparse PmmDense PmmOps.
Open Scope Z_scope.

(** ** A checker for concrete states *)

Definition pmm_wfb (s : Pmm) : bool :=
  (0 <=? NrPages s) && (NrPages s + 7 <? 2 ^ 32) && (BitmapSize s =? (NrPages s + 7) / 8) &&
  (Z.of_nat (length (pPrimaryBitmap s)) =? BitmapSize s) &&
  (Z.of_nat (length (pAdvisoryBitmap s)) =? BitmapSize s) &&
  forallb (fun b => (0 <=? b) && (b <? 256)) (pPrimaryBitmap s) &&
  forallb (fun b => (0 <=? b) && (b <? 256)) (pAdvisoryBitmap s) &&
  forallb (fun p => implb (NrPages s <=? p) (bit_at (pPrimaryBitmap s) p)) (seqZ 0 (8 * BitmapSize s)) &&
  forallb (fun p => implb (bit_at (pAdvisoryBitmap s) p) (bit_at (pPrimaryBitmap s) p)) (seqZ 0 (NrPages s)) &&
  (0 <=? AcquireHint s) && (AcquireHint s <? 2 ^ 32) && (InitStage s <? PMM_INIT_STAGE_BOOKKEEPING).

Lemma forallb_bytes bm : forallb (fun b => (0 <=? b) && (b <? 256)) bm = true -> bytes_ok bm.
Proof.
  intros H. apply Forall_forall. intros b Hb. rewrite forallb_forall in H.
  specialize (H b ltac:(by apply list_elem_of_In)). lia.
Qed.

Lemma forallb_seqZ f n p : forallb f (seqZ 0 n) = true -> 0 <= p < n -> f p = true.
Proof.
  intros H Hp. rewrite forallb_forall in H. apply H. apply list_elem_of_In, elem_of_seqZ. lia.
Qed.

Lemma pmm_wfb_sound s : pmm_wfb s = true -> pmm_wf s.
Proof.
  unfold pmm_wfb. rewrite !andb_true_iff, !Z.eqb_eq, !Z.leb_le, !Z.ltb_lt.
  intros (((((((((((H1 & H2) & H3) & H4) & H5) & H6) & H7) & H8) & H9) & H10) & H11) & H12).
  split; try done; try lia; try (by apply forallb_bytes).
  - intros p Hp. apply (forallb_seqZ _ _ p) in H8; [|lia].
    cbn beta in H8. by rewrite (proj2 (Z.leb_le (NrPages s) p)) in H8 by lia.
  - intros p Hp Ha. apply (forallb_seqZ _ _ p) in H9; [|done]. cbn beta in H9. by rewrite Ha in H9.
Qed.

(** Twenty pages: 0 and 1 reserved, 2 acquired, the others available. *)
Definition sample_pmm : Pmm :=
  mkPmm PMM_INIT_STAGE_BASIC 0 0 (20 * 4096) [0x03; 0x00; 0xF0] [0x07; 0x00; 0xF0] 3 20 20 2 1 8 [] false.

Lemma sample_wf : pmm_wf sample_pmm.
Proof. apply pmm_wfb_sound. vm_compute. reflexivity. Defined.

(** ** Acquisition *)

Definition free_count (s : Pmm) : Z := Z.of_nat (length (frees s 0 (NrPages s))).

(** The available pages in the order of a search from [start]. *)
Definition from_start (s : Pmm) (start : Z) : list Z := frees s start (NrPages s - start) ++ frees s 0 start.
(** The search looks at whole bytes of the bitmap when it comes round, so it finds the pages
    between its start and the end of that byte a second time. *)
Definition rescanned (s : Pmm) (start : Z) : list Z := frees s start (Z.min (NrPages s) ((start + 7) / 8 * 8) - start).

Lemma rescanned_aligned s start : start mod 8 = 0 -> rescanned s start = [].
Proof.
  intros Ha. unfold rescanned. replace ((start + 7) / 8 * 8) with start by zlia.
  destruct (frees s start _) as [|p l] eqn:E; [done|]. assert (p ∈ p :: l) as Hp by by left.
  rewrite <- E in Hp. apply elem_of_frees in Hp as [Hp _]. lia.
Qed.

Lemma sparse_found_order s start uTo : 0 <= start < NrPages s ->
  sparse_found s start uTo = take (Z.to_nat uTo) (from_start s start ++ rescanned s start).
Proof.
  intros Hs. unfold sparse_found, from_start, rescanned. f_equal. rewrite <- (assoc_L (++)). f_equal.
  destruct (Z.eqb_spec start 0) as [->|Hne].
  { change ((0 + 7) / 8 * 8) with 0. rewrite Z.min_r by lia. reflexivity. }
  assert (start <= (start + 7) / 8 * 8) by zlia. set (e := Z.min _ _). assert (start <= e) by lia.
  replace e with (start + (e - start)) at 1 by lia. by rewrite frees_app by lia.
Qed.

Lemma from_start_NoDup s start : 0 <= start -> NoDup (from_start s start).
Proof.
  intros Hs. apply NoDup_app. split_and!; [apply frees_NoDup| |apply frees_NoDup].
  intros p [H1 _]%elem_of_frees [H2 _]%elem_of_frees. lia.
Qed.

Lemma from_start_length s start : 0 <= start <= NrPages s -> Z.of_nat (length (from_start s start)) = free_count s.
Proof.
  intros Hs. unfold free_count, from_start. replace (NrPages s) with (start + (NrPages s - start)) at 2 by lia.
  rewrite frees_app, !length_app by lia. rewrite Z.add_0_l. lia.
Qed.

(** C6: the contract of a sparse PmAcquirePages call from any hint.  The slots of pOutIDs
    get the available pages in the order of the search, as many as requested or as there are:
    they were available, the first [free_count] of them are distinct, and later ones exist only if the
    request exceeds the available pages and the search starts inside a byte of the bitmap, whose
    rest it then finds a second time.  The remaining requested slots hold IVLDPGID and later slots are
    untouched; exactly those pages become unavailable, AcquiredPages grows by the number of slots
    filled, the next hint is the page after the last one, and the lock is
    released.  So a request for no more than the available pages gets that many distinct pages. *)
Theorem acquire_sparse_contract (s : Pmm) (out : list Z) (uTo ty m HintID : Z)
    (Hwf : pmm_wf s) (Hlock : sg_PmSpinlock s = false) (Hm : sparse_method m)
    (Hu : 0 < uTo < 2 ^ 32) (Ho : uTo <= Z.of_nat (length out))
    (Hst : 0 <= search_start s HintID < NrPages s) :
  let again := rescanned s (search_start s HintID) in
  exists s' out' t, PmAcquirePages s out uTo ty m HintID = Done (s', out', Z.of_nat (length t)) /\
    Z.of_nat (length t) = Z.min uTo (free_count s + Z.of_nat (length again)) /\
    NoDup (take (Z.to_nat (free_count s)) t) /\ drop (Z.to_nat (free_count s)) t `prefix_of` again /\
    (search_start s HintID mod 8 = 0 -> again = []) /\
    (uTo <= free_count s -> NoDup t /\ Z.of_nat (length t) = uTo) /\
    Forall (fun p => 0 <= p < NrPages s /\ page_free s p = true) t /\
    (t = [] -> s' = s /\ out' = out) /\
    (t <> [] -> acquired_spec s s' t /\
       out' = t ++ replicate (Z.to_nat uTo - length t) IVLDPGID ++ drop (Z.to_nat uTo) out).
Proof.
  intros again. destruct (acquire_sparse_spec s out uTo ty m HintID) as (s' & E & Hs'); [done..|].
  set (t := sparse_found _ _ _) in *. eexists s', _, t. split; [exact E|].
  pose proof (sparse_found_order s _ uTo Hst) as Ht. fold t again in Ht. set (all := from_start s (search_start s HintID)) in *.
  pose proof (from_start_length s (search_start s HintID) ltac:(lia)) as Hall. fold all in Hall.
  pose proof (from_start_NoDup s (search_start s HintID) ltac:(lia)) as Hnd. fold all in Hnd.
  assert (Z.of_nat (length t) = Z.min uTo (free_count s + Z.of_nat (length again))) as Hl by (rewrite Ht, length_take, length_app; lia).
  assert (Z.to_nat (free_count s) = length all) as Hfc by lia.
  assert (forall k, (k <= length all)%nat -> NoDup (take k (all ++ again))) as Htk.
  { intros k Hk. rewrite take_app_le by done. rewrite <- (take_drop k all), NoDup_app in Hnd. apply Hnd. }
  split_and!; [done| | |by apply rescanned_aligned| | | |].
  - rewrite Hfc, Ht, take_take. apply Htk. lia.
  - rewrite Hfc, Ht, skipn_firstn_comm, drop_app_length. apply prefix_take.
  - intros Hle. split; [rewrite Ht; apply Htk|]; lia.
  - apply Forall_forall. intros p Hp. by eapply sparse_found_elem.
  - intros H0. by rewrite bool_decide_true in Hs' |- *.
  - intros H0. rewrite bool_decide_false in Hs' |- * by done. split; [done|].
    unfold splice. simpl. rewrite <- app_assoc. do 3 f_equal.
    rewrite length_app, length_replicate. lia.
Qed.

Example acquire_sparse_contract_witness :
  exists s' out' t, PmAcquirePages sample_pmm [0;0;0] 3 1 PAGE_ACQ_SPARSE 5 = Done (s', out', Z.of_nat (length t)) /\
    Z.of_nat (length t) = Z.min 3 (free_count sample_pmm + Z.of_nat (length [5; 6; 7])) /\
    NoDup (take (Z.to_nat (free_count sample_pmm)) t) /\ drop (Z.to_nat (free_count sample_pmm)) t `prefix_of` [5; 6; 7] /\
    (5 mod 8 = 0 -> [5; 6; 7] = []) /\
    (3 <= free_count sample_pmm -> NoDup t /\ Z.of_nat (length t) = 3) /\
    Forall (fun p => 0 <= p < 20 /\ page_free sample_pmm p = true) t /\
    (t = [] -> s' = sample_pmm /\ out' = [0;0;0]) /\
    (t <> [] -> acquired_spec sample_pmm s' t /\ out' = t ++ replicate (3 - length t) IVLDPGID ++ []).
Proof.
  apply (acquire_sparse_contract sample_pmm [0;0;0] 3 1 PAGE_ACQ_SPARSE 5).
  - exact sample_wf.
  - reflexivity.
  - split; reflexivity.
  - lia.
  - simpl; lia.
  - vm_compute; split; [discriminate|reflexivity].
Defined.

(** A dense PmAcquirePages call (with or without BASE_OUT_ONLY) returns a
    count [c] not above the request; for [c > 0] the pages
    [[base, base + c)] are valid and were all available, slot 0 holds [base]
    (and without BASE_OUT_ONLY the requested slots are that run followed by
    IVLDPGID), and exactly that run becomes unavailable; for [c = 0] the state is
    unchanged.  A request that is not satisfied in full means that no available
    run of that size exists on either side of the search start; among the runs
    behind it the first one is taken. *)
Theorem acquire_dense_contract (s : Pmm) (out : list Z) (uTo ty m HintID : Z)
    (Hwf : pmm_wf s) (Hlock : sg_PmSpinlock s = false) (Hm : dense_method m)
    (Hu : 0 < uTo < 2 ^ 32) (Ho : dense_slots m uTo out)
    (Hst : 0 <= search_start s HintID < NrPages s) :
  exists s' out' base c, PmAcquirePages s out uTo ty m HintID = Done (s', out', c) /\
    0 <= c <= uTo /\
    (c = 0 -> s' = s) /\
    (0 < c -> 0 <= base /\ base + c <= NrPages s /\ all_free s base c /\
       dense_result m uTo out' base c /\ acquired_spec s s' (seqZ base c)) /\
    (c < uTo -> forall b, 0 <= b -> (search_start s HintID <= b \/ b + uTo <= search_start s HintID) ->
       b + uTo <= NrPages s -> ~ all_free s b uTo) /\
    (forall b, search_start s HintID <= b -> b + uTo <= NrPages s -> all_free s b uTo -> c = uTo /\ base <= b).
Proof. by apply acquire_dense_spec. Qed.

Example acquire_dense_contract_witness :
  exists s' out' base c, PmAcquirePages sample_pmm [0] 4 1 (Z.lor PAGE_ACQ_DENSE PAGE_ACQ_BASE_OUT_ONLY) 4 =
      Done (s', out', c) /\
    0 <= c <= 4 /\
    (c = 0 -> s' = sample_pmm) /\
    (0 < c -> 0 <= base /\ base + c <= 20 /\ all_free sample_pmm base c /\
       dense_result 6 4 out' base c /\ acquired_spec sample_pmm s' (seqZ base c)) /\
    (c < 4 -> forall b, 0 <= b -> (4 <= b \/ b + 4 <= 4) -> b + 4 <= 20 -> ~ all_free sample_pmm b 4) /\
    (forall b, 4 <= b -> b + 4 <= 20 -> all_free sample_pmm b 4 -> c = 4 /\ base <= b).
Proof.
  apply (acquire_dense_contract sample_pmm [0] 4 1 6 4).
  - exact sample_wf.
  - reflexivity.
  - split; reflexivity.
  - lia.
  - vm_compute. lia.
  - vm_compute; split; [discriminate|reflexivity].
Defined.

(** The page a single-page request returns. *)
Lemma acquire_page_spec s ty HintID :
  pmm_wf s -> sg_PmSpinlock s = false -> 0 <= search_start s HintID < NrPages s ->
  exists s' id, PmAcquirePage s ty HintID = Done (s', id) /\
    match sparse_found s (search_start s HintID) 1 with
    | [] => s' = s /\ id = IVLDPGID
    | p :: _ => id = p /\ acquired_spec s s' [p]
    end.
Proof.
  intros Hwf Hlock Hst. unfold PmAcquirePage.
  destruct (acquire_sparse_spec s [IVLDPGID] 1 ty PAGE_ACQ_SPARSE HintID) as (s' & -> & Hs');
    [done|done|done|lia|simpl; lia|done|].
  rewrite bind_Done. pose proof (sparse_found_length s (search_start s HintID) 1 ltac:(lia)) as Hl.
  destruct (sparse_found s (search_start s HintID) 1) as [|p [|]]; [| |simpl in Hl; lia].
  - rewrite bool_decide_true in Hs' |- * by done. simpl. by exists s', IVLDPGID.
  - rewrite bool_decide_false in Hs' |- * by done. simpl. by exists s', p.
Qed.

Lemma sparse_found_nil s start :
  0 <= start < NrPages s -> sparse_found s start 1 = [] <->
  (forall p, 0 <= p < NrPages s -> page_free s p = false).
Proof.
  intros Hst. split.
  - intros H p Hp. destruct (page_free s p) eqn:Hf; [|done]. unfold sparse_found in H.
    assert (p ∈ frees s start (NrPages s - start) ++
      (if start =? 0 then [] else frees s 0 (Z.min (NrPages s) ((start + 7) / 8 * 8)))) as Hin.
    { apply elem_of_app. destruct (decide (start <= p)); [left; apply elem_of_frees; split; [lia|done]|].
      right. destruct (Z.eqb_spec start 0); [lia|]. apply elem_of_frees. split; [zlia|done]. }
    destruct (_ ++ _); [by apply not_elem_of_nil in Hin|done].
  - intros H. destruct (sparse_found s start 1) as [|p l] eqn:E; [done|].
    assert (p ∈ sparse_found s start 1) as Hp by (rewrite E; by constructor).
    apply sparse_found_elem in Hp as [Hr Hf]; [|done]. rewrite H in Hf; done.
Qed.

(** PmAcquirePage with a valid search start returns IVLDPGID, without
    changing the manager, exactly when no page is available; otherwise it
    returns an available page and makes it, and nothing else, unavailable. *)
Theorem acquire_page_iff (s : Pmm) (ty HintID : Z)
    (Hwf : pmm_wf s) (Hlock : sg_PmSpinlock s = false) (Hst : 0 <= search_start s HintID < NrPages s) :
  exists s' id, PmAcquirePage s ty HintID = Done (s', id) /\
    (id = IVLDPGID <-> forall p, 0 <= p < NrPages s -> page_free s p = false) /\
    (id = IVLDPGID -> s' = s) /\
    (id <> IVLDPGID -> 0 <= id < NrPages s /\ page_free s id = true /\ acquired_spec s s' [id]).
Proof.
  destruct (acquire_page_spec s ty HintID Hwf Hlock Hst) as (s' & id & E & H).
  exists s', id. split; [done|]. pose proof (sparse_found_nil s _ Hst) as Hnil.
  pose proof (sparse_found_elem s (search_start s HintID) 1) as Hel.
  destruct (sparse_found s _ 1) as [|p l].
  - destruct H as [-> ->]. split_and!; try done. split; [|done]. intros _. by apply Hnil.
  - destruct H as [-> Ha]. destruct (Hel p Hst) as [Hr Hf]; [by constructor|].
    assert (p <> IVLDPGID) by (pose proof (pw_nr _ Hwf); unfold IVLDPGID; lia).
    split_and!; try done. split; [done|]. intros Hn. by apply Hnil in Hn.
Qed.

Example acquire_page_iff_witness :
  exists s' id, PmAcquirePage sample_pmm 1 IVLDPGID = Done (s', id) /\
    (id = IVLDPGID <-> forall p, 0 <= p < 20 -> page_free sample_pmm p = false) /\
    (id = IVLDPGID -> s' = sample_pmm) /\
    (id <> IVLDPGID -> 0 <= id < 20 /\ page_free sample_pmm id = true /\ acquired_spec sample_pmm s' [id]).
Proof.
  apply (acquire_page_iff sample_pmm 1 IVLDPGID); [exact sample_wf|reflexivity|].
  vm_compute; split; [discriminate|reflexivity].
Defined.

(** ** Relinquishing *)

(** C29: PmRelinquishPage of a valid page before the bookkeeping stage answers
    TRUE exactly for pages that are acquired and not reserved, and then frees
    that page and nothing else and decrements AcquiredPages; in every other case
    the manager is unchanged.  The lock is free again afterwards. *)
Theorem relinquish_contract (s : Pmm) (p : Z)
    (Hwf : pmm_wf s) (Hlock : sg_PmSpinlock s = false)
    (Hst : InitStage s < PMM_INIT_STAGE_BOOKKEEPING) (Hp : 0 <= p < NrPages s) :
  exists s' r, PmRelinquishPage s p = Done (s', r) /\
    (r = true <-> page_reserved s p = false /\ page_free s p = false) /\
    (if r then relinquished s s' p else s' = s) /\ sg_PmSpinlock s' = false.
Proof.
  destruct (relinquish_spec s p Hwf Hlock Hst Hp) as (s' & E & H). eexists s', _. split; [done|].
  destruct (page_reserved s p), (page_free s p); simpl in *;
    (split_and!; [naive_solver|done|by subst || by apply H]).
Qed.

Example relinquish_contract_witness :
  exists s' r, PmRelinquishPage sample_pmm 2 = Done (s', r) /\
    (r = true <-> page_reserved sample_pmm 2 = false /\ page_free sample_pmm 2 = false) /\
    (if r then relinquished sample_pmm s' 2 else s' = sample_pmm) /\ sg_PmSpinlock s' = false.
Proof. apply (relinquish_contract sample_pmm 2); [exact sample_wf|reflexivity|reflexivity|simpl; lia]. Defined.

(** relinquishing the page PmAcquirePage returned undoes it: the call answers
    TRUE, every page is available exactly when it was before, and AcquiredPages
    has its former value. *)
Theorem acquire_relinquish_roundtrip (s s1 : Pmm) (ty HintID id : Z)
    (Hwf : pmm_wf s) (Hlock : sg_PmSpinlock s = false)
    (Hst : InitStage s < PMM_INIT_STAGE_BOOKKEEPING) (Hacq : 0 <= AcquiredPages s < 2 ^ 64)
    (Hstart : 0 <= search_start s HintID < NrPages s)
    (E : PmAcquirePage s ty HintID = Done (s1, id)) (Hid : id <> IVLDPGID) :
  exists s2, PmRelinquishPage s1 id = Done (s2, true) /\
    (forall p, 0 <= p -> page_free s2 p = page_free s p) /\ AcquiredPages s2 = AcquiredPages s.
Proof.
  destruct (acquire_page_spec s ty HintID Hwf Hlock Hstart) as (s' & id' & E' & H).
  rewrite E' in E. injection E as -> ->. pose proof (sparse_found_elem s (search_start s HintID) 1) as Hel.
  destruct (sparse_found s _ 1) as [|p l]; [by destruct H|]. destruct H as [-> Ha].
  destruct (Hel p Hstart) as [Hr Hf]; [by constructor|]. pose proof Ha as [A1 A2 A3 [A4 A5] A6 A7 A8].
  assert (page_reserved s p = false) as Hres.
  { unfold page_reserved. destruct (bit_at (pAdvisoryBitmap s) p) eqn:Hb; [|done].
    unfold page_free in Hf. by rewrite (pw_reserved _ Hwf p) in Hf. }
  assert (page_free s1 p = false) as Hf1.
  { rewrite A2, bool_decide_true by (lia || by constructor). by rewrite andb_false_r. }
  destruct (relinquish_spec s1 p) as (s2 & E2 & H2); [done|done|by rewrite A5|by rewrite A4|].
  assert (page_reserved s1 p = false) as Hres1 by (unfold page_reserved; rewrite A3; done).
  rewrite Hres1, Hf1 in E2, H2. simpl in *. exists s2. split; [done|]. split.
  - intros q Hq. rewrite (rl_free _ _ _ H2), A2 by done.
    destruct (Z.eqb_spec q p) as [->|Hne]; [by rewrite Hf|].
    rewrite bool_decide_false by (by intros [?|?%not_elem_of_nil]%elem_of_cons). by rewrite andb_true_r.
  - rewrite (rl_count _ _ _ H2), A6. simpl. unfold u64.
    rewrite Zminus_mod_idemp_l. replace (_ + 1 - 1) with (AcquiredPages s) by lia. by apply Z.mod_small.
Qed.

Definition sample_after : Pmm :=
  Eval vm_compute in match PmAcquirePage sample_pmm 1 IVLDPGID with Done (s, _) => s | _ => sample_pmm end.

Example acquire_relinquish_roundtrip_witness :
  PmAcquirePage sample_pmm 1 IVLDPGID = Done (sample_after, 8) /\
  exists s2, PmRelinquishPage sample_after 8 = Done (s2, true) /\
    (forall p, 0 <= p -> page_free s2 p = page_free sample_pmm p) /\ AcquiredPages s2 = 1.
Proof.
  split; [vm_compute; reflexivity|].
  apply (acquire_relinquish_roundtrip sample_pmm sample_after 1 IVLDPGID 8).
  - exact sample_wf.
  - reflexivity.
  - reflexivity.
  - vm_compute; split; [discriminate|reflexivity].
  - vm_compute; split; [discriminate|reflexivity].
  - vm_compute; reflexivity.
  - discriminate.
Defined.

(** ** Reachable states *)

(** A call of one of the manager's operations by correct clients: page IDs are
    valid, the output array is large enough, one acquisition method is chosen. *)
Inductive pmm_step : Pmm -> Pmm -> Prop :=
  | step_acquire s out uTo ty m HintID s' out' n :
      sparse_method m /\ uTo <= Z.of_nat (length out) \/ dense_method m /\ dense_slots m uTo out ->
      0 <= uTo < 2 ^ 32 -> 0 <= HintID < 2 ^ 32 ->
      PmAcquirePages s out uTo ty m HintID = Done (s', out', n) -> pmm_step s s'
  | step_relinquish s p s' r :
      0 <= p < NrPages s -> PmRelinquishPage s p = Done (s', r) -> pmm_step s s'
  | step_reserve s p s' r :
      0 <= p -> KrReservePhysicalPage s p = Done (s', r) -> pmm_step s s'
  | step_hint s p s' r :
      0 <= p -> KrSetPhysicalPageAcquisitionHint s p = (s', r) -> pmm_step s s'.

Inductive pmm_reach (s0 : Pmm) : Pmm -> Prop :=
  | reach_refl : pmm_reach s0 s0
  | reach_step s s' : pmm_reach s0 s -> pmm_step s s' -> pmm_reach s0 s'.

(** The facts every operation keeps. *)
Record pmm_good (s : Pmm) : Prop := {
  pg_wf : pmm_wf s;
  pg_unlocked : sg_PmSpinlock s = false;
  pg_stage : InitStage s < PMM_INIT_STAGE_BOOKKEEPING
}.

(** Pages reserved in [s] stay reserved in [s']. *)
Definition keeps_reserved (s s' : Pmm) : Prop :=
  NrPages s' = NrPages s /\ forall p, 0 <= p -> page_reserved s p = true -> page_reserved s' p = true.

Lemma search_start_nonneg s HintID : pmm_wf s -> 0 <= HintID -> 0 <= search_start s HintID.
Proof.
  intros Hwf Hh. pose proof (pw_hint _ Hwf). unfold search_start. repeat case_match; lia.
Qed.

Lemma good_of_acquired s s' t : pmm_good s -> acquired_spec s s' t -> pmm_good s' /\ keeps_reserved s s'.
Proof.
  intros [G1 G2 G3] [A1 A2 A3 [A4 A5] A6 A7 A8]. split; [split; [done|done|lia]|].
  split; [done|]. intros p _. unfold page_reserved. by rewrite A3.
Qed.

Lemma acquire_bad_start s out uTo ty m HintID :
  pmm_good s -> 0 < uTo -> bad_method m = false -> NrPages s <= search_start s HintID ->
  PmAcquirePages s out uTo ty m HintID = Done (s, out, 0).
Proof.
  intros [G1 G2 G3] Hu Hm Hs. unfold PmAcquirePages. destruct (Z.eqb_spec uTo 0); [lia|].
  rewrite Hm. unfold AcquireOrWaitSpinlock. rewrite G2, bind_Done.
  change (if HintID =? IVLDPGID then _ else HintID) with (search_start s HintID).
  rewrite valid_id by (by apply set_lock_wf). cbn [set_lock NrPages].
  destruct (Z.ltb_spec (search_start s HintID) (NrPages s)); [lia|]. cbn [negb].
  do 3 f_equal. unfold RelinquishSpinlock. destruct s; simpl in *. by subst.
Qed.

Lemma good_refl s : pmm_good s -> pmm_good s /\ keeps_reserved s s.
Proof. by intros. Qed.

(** Each call returns and keeps the facts. *)
Lemma acquire_good s out uTo ty m HintID :
  pmm_good s -> sparse_method m /\ uTo <= Z.of_nat (length out) \/ dense_method m /\ dense_slots m uTo out ->
  0 <= uTo < 2 ^ 32 -> 0 <= HintID < 2 ^ 32 ->
  exists s' out' n, PmAcquirePages s out uTo ty m HintID = Done (s', out', n) /\
    pmm_good s' /\ keeps_reserved s s'.
Proof.
  intros Hg Hm Hu Hh. pose proof Hg as [G1 G2 G3].
  destruct (decide (uTo = 0)) as [->|]; [exists s, out, 0; split; [done|by apply good_refl]|].
  assert (bad_method m = false) as Hb.
  { destruct Hm as [[Hm _]|[[_ Hm] _]]; [by apply bad_method_sparse|by apply bad_method_dense]. }
  pose proof (search_start_nonneg s HintID G1 ltac:(lia)).
  destruct (decide (search_start s HintID < NrPages s)) as [Hs|Hs].
  2:{ exists s, out, 0. split; [apply acquire_bad_start; done || lia|by apply good_refl]. }
  destruct Hm as [[Hm Ho]|[Hm Ho]].
  - destruct (acquire_sparse_spec s out uTo ty m HintID) as (s' & E & Hs'); [done..|lia|done|lia|].
    eexists s', _, _. split; [exact E|]. case_bool_decide; [subst; by apply good_refl|].
    by eapply good_of_acquired.
  - destruct (acquire_dense_spec s out uTo ty m HintID) as (s' & out' & b & c & E & Hc & H0 & H1 & _);
      [done..|lia|done|lia|]. exists s', out', c. split; [done|].
    destruct (decide (c = 0)) as [Hc0|]; [rewrite (H0 Hc0); by apply good_refl|].
    eapply good_of_acquired; [done|]. apply H1. lia.
Qed.

Lemma relinquish_good s p :
  pmm_good s -> 0 <= p < NrPages s ->
  exists s' r, PmRelinquishPage s p = Done (s', r) /\ pmm_good s' /\ keeps_reserved s s'.
Proof.
  intros Hg Hp. pose proof Hg as [G1 G2 G3].
  destruct (relinquish_spec s p G1 G2 G3 Hp) as (s' & E & H). eexists s', _. split; [exact E|].
  destruct (_ && _); [|subst; by apply good_refl]. destruct H as [A1 A2 A3 [A4 A5] A6 A7 A8].
  split; [split; [done|done|lia]|]. split; [done|]. intros q _. unfold page_reserved. by rewrite A3.
Qed.

Lemma reserve_good s p :
  pmm_good s -> 0 <= p ->
  exists s' r, KrReservePhysicalPage s p = Done (s', r) /\ pmm_good s' /\ keeps_reserved s s'.
Proof.
  intros Hg Hp. pose proof Hg as [G1 G2 G3].
  destruct (reserve_spec s p G1 G3 Hp) as (s' & r & E & _ & H). exists s', r. split; [done|].
  destruct r; [|subst; by apply good_refl]. destruct H as [A1 A2 A3 [A4 A5] A6 A7].
  split; [split; [done|congruence|lia]|]. split; [done|]. intros q Hq Hr. by rewrite A3, Hr, orb_true_r.
Qed.

Lemma step_good s s' : pmm_step s s' -> pmm_good s -> pmm_good s' /\ keeps_reserved s s'.
Proof.
  intros [? out uTo ty m HintID ? out' n Hm Hu Hh E|? p ? r Hp E|? p ? r Hp E|? p ? r Hp E] Hg.
  - destruct (acquire_good _ out uTo ty m HintID Hg Hm Hu Hh) as (s2 & o2 & n2 & E2 & H). rewrite E in E2. by simplify_eq.
  - destruct (relinquish_good _ p Hg Hp) as (s2 & r2 & E2 & H). rewrite E in E2. by simplify_eq.
  - destruct (reserve_good _ p Hg Hp) as (s2 & r2 & E2 & H). rewrite E in E2. by simplify_eq.
  - unfold KrSetPhysicalPageAcquisitionHint in E. pose proof Hg as [G1 G2 G3].
    rewrite valid_id in E by done. destruct (Z.ltb_spec p (NrPages s0)); simplify_eq/=; [|by apply good_refl].
    split; [|done]. split; [|done|done]. pose proof (pw_nr _ G1). destruct G1. split; simpl; try done. lia.
Qed.

Lemma reach_good s0 s : pmm_good s0 -> pmm_reach s0 s -> pmm_good s /\ keeps_reserved s0 s.
Proof.
  intros Hg. induction 1 as [|s s' _ [IH1 [IH2 IH3]] Hst]; [by apply good_refl|].
  destruct (step_good _ _ Hst IH1) as [H1 [H2 H3]]. split; [done|]. split; [congruence|auto].
Qed.

Lemma initialized_good s map canon kbase ksize : initialized s map canon kbase ksize -> pmm_good s.
Proof. intros [I1 I2 I3 I4 I5 I6 I7 _ _]. split; [done|done|by rewrite I2]. Qed.

(** C33: KrInitPhysmemmgmt on a map whose canonical regions and kernel area fit
    below the highest usable page succeeds (when the arena has room for two
    bitmaps) and leaves a well-formed, unlocked manager at the basic stage in
    which a page is available iff it lies in a canonical region, outside the
    kernel's area and above the first MiB; all other pages are reserved. *)
Theorem init_contract (a : Arena) (map canon : list KrMemoryDescriptor) (kbase ksize : Z)
    (Hin : init_input map canon kbase ksize) (Har : arena_fits a ((init_pages map + 7) / 8)) :
  exists s a', KrInitPhysmemmgmt pmm_zero a map canon kbase ksize = Done (s, a', true) /\
    initialized s map canon kbase ksize.
Proof. destruct (init_spec a map canon kbase ksize Hin Har) as (s & E & H). by eexists s, _. Qed.

Definition init_map : list KrMemoryDescriptor :=
  [mkDesc 0 160 0 7 0; mkDesc 0xA0000 96 0 0 0; mkDesc 0x100000 512 0 7 0; mkDesc 0x300000 88 0 2 0].
Definition init_canon : list KrMemoryDescriptor := Eval vm_compute in canonical 4 4096 init_map.
Definition init_arena : Arena := mkArena 0x8000 0x8000 0x10000.

Lemma init_map_input : init_input init_map init_canon 0x180000 0x40000.
Proof.
  split; [vm_compute; split; [discriminate|reflexivity]| |split_and!; vm_compute; discriminate].
  repeat (apply Forall_cons; split; [split_and!; vm_compute; discriminate|]). constructor.
Defined.

Example init_contract_witness :
  exists s a', KrInitPhysmemmgmt pmm_zero init_arena init_map init_canon 0x180000 0x40000 = Done (s, a', true) /\
    initialized s init_map init_canon 0x180000 0x40000.
Proof.
  apply (init_contract init_arena init_map init_canon 0x180000 0x40000); [exact init_map_input|].
  vm_compute. split; discriminate.
Defined.

(** C5: in every state reachable from an initialized manager by any sequence of
    acquisitions, relinquishments, reservations and hint changes, the manager is
    well formed and unlocked, and the pages of the kernel's area, of the first
    MiB and of memory outside the canonical map are unavailable and reserved: no
    sequence of calls ever hands them out. *)
Theorem reserved_memory_safe (s0 s : Pmm) (map canon : list KrMemoryDescriptor) (kbase ksize p : Z)
    (Hinit : initialized s0 map canon kbase ksize) (Hreach : pmm_reach s0 s)
    (Hp : 0 <= p < NrPages s0)
    (Hres : in_kernel p kbase ksize = true \/ p < 256 \/ in_canon p canon = false) :
  pmm_wf s /\ sg_PmSpinlock s = false /\ page_free s p = false /\ page_reserved s p = true.
Proof.
  destruct (reach_good s0 s (initialized_good _ _ _ _ _ Hinit) Hreach) as [[G1 G2 G3] [K1 K2]].
  assert (page_free s0 p = false) as Hf.
  { rewrite (in_free _ _ _ _ _ Hinit) by done. destruct Hres as [->|[H| ->]]; try by rewrite ?andb_false_r.
    destruct (Z.leb_spec 256 p); [lia|]. by rewrite andb_false_r. }
  assert (page_reserved s p = true) as Hr.
  { apply K2; [lia|]. by rewrite (in_reserved _ _ _ _ _ Hinit), Hf by done. }
  split_and!; try done. unfold page_free. unfold page_reserved in Hr.
  rewrite (pw_reserved _ G1 p) by (done || lia). done.
Qed.

(** After a page is acquired and another one given back. *)
Example reserved_memory_safe_witness :
  exists s0 s1 s2 out n r, PmAcquirePages s0 [0; 0] 2 1 PAGE_ACQ_SPARSE IVLDPGID = Done (s1, out, n) /\ PmRelinquishPage s1 0x200 = Done (s2, r) /\
    page_free s2 0x180 = false /\ page_reserved s2 0x180 = true.
Proof.
  destruct (init_spec init_arena init_map init_canon 0x180000 0x40000 init_map_input) as (s & _ & Hs);
    [vm_compute; split; discriminate|]. assert (NrPages s = 856) as Hnr by (rewrite (in_nr _ _ _ _ _ Hs); vm_compute; reflexivity).
  destruct (acquire_good s [0; 0] 2 1 PAGE_ACQ_SPARSE IVLDPGID (initialized_good _ _ _ _ _ Hs)) as (s1 & out & n & E1 & Hg1 & Hn1 & _);
    [left; split; [split; reflexivity|cbn; lia]|lia|unfold IVLDPGID; lia|].
  destruct (relinquish_good s1 0x200 Hg1) as (s2 & r & E2 & _ & _); [lia|].
  exists s, s1, s2, out, n, r. split; [exact E1|]. split; [exact E2|].
  refine (proj2 (proj2 (reserved_memory_safe s s2 init_map init_canon 0x180000 0x40000 0x180 Hs _ _ _))).
  - apply (reach_step _ s1); [apply (reach_step _ s); [constructor|]|].
    + apply (step_acquire s [0; 0] 2 1 PAGE_ACQ_SPARSE IVLDPGID s1 out n); [left; split; [split; reflexivity|cbn; lia]|lia|unfold IVLDPGID; lia|exact E1].
    + apply (step_relinquish s1 0x200 s2 r); [lia|exact E2].
  - lia.
  - left. reflexivity.
Defined.

(** C34: in every reachable state each operation called with valid arguments
    returns: none of them faults, spins on the lock for ever or melts down. *)
Theorem pmm_operations_return (s0 s : Pmm) (Hg : pmm_good s0) (Hreach : pmm_reach s0 s) :
  (forall out uTo ty m HintID,
     sparse_method m /\ uTo <= Z.of_nat (length out) \/ dense_method m /\ dense_slots m uTo out ->
     0 <= uTo < 2 ^ 32 -> 0 <= HintID < 2 ^ 32 ->
     exists r, PmAcquirePages s out uTo ty m HintID = Done r) /\
  (forall p, 0 <= p < NrPages s0 -> exists r, PmRelinquishPage s p = Done r) /\
  (forall p, 0 <= p -> exists r, KrReservePhysicalPage s p = Done r).
Proof.
  destruct (reach_good s0 s Hg Hreach) as [Hs [Hnr _]]. split_and!.
  - intros out uTo ty m HintID Hm Hu Hh.
    destruct (acquire_good s out uTo ty m HintID Hs Hm Hu Hh) as (s' & o & n & E & _). by eexists.
  - intros p Hp. rewrite <- Hnr in Hp. destruct (relinquish_good s p Hs Hp) as (s' & r & E & _). by eexists.
  - intros p Hp. destruct (reserve_good s p Hs Hp) as (s' & r & E & _). by eexists.
Qed.

Lemma sample_good : pmm_good sample_pmm.
Proof. split; [exact sample_wf|reflexivity|reflexivity]. Defined.

Example pmm_operations_return_witness :
  exists r, PmRelinquishPage sample_pmm 2 = Done r.
Proof.
  apply (proj1 (proj2 (pmm_operations_return sample_pmm sample_pmm sample_good (reach_refl _)))).
  vm_compute. split; [discriminate|reflexivity].
Defined.

(** ** Addresses of pages *)

(** C40: KrGetPhysicalPageAddress computes the byte address of a valid page in
    32-bit arithmetic: below 4 GiB the address is [4096 * PageID] and
    KrGetPhysicalPageID inverts it; from page [2 ^ 20] on the returned address is
    a different page's address. *)
Theorem page_address_below_4g (s : Pmm) (p : Z)
    (Hwf : pmm_wf s) (Hp : 0 <= p < NrPages s) (Hend : NrPages s * KR_PAGE_SIZE <= PaddrHighest s + 4095) :
  (p < 2 ^ 20 -> KrGetPhysicalPageAddress s p = p * KR_PAGE_SIZE /\
     KrGetPhysicalPageID s (KrGetPhysicalPageAddress s p) = p) /\
  (2 ^ 20 <= p -> KrGetPhysicalPageAddress s p <> p * KR_PAGE_SIZE).
Proof.
  unfold KrGetPhysicalPageAddress, KrGetPhysicalPageID. rewrite valid_id by done.
  destruct (Z.ltb_spec p (NrPages s)); [|lia]. cbn [negb]. unfold KR_PAGE_SIZE in *.
  pose proof (pw_nr _ Hwf). split; intros H20.
  - rewrite (u32_small (p * 4096)) by lia. split; [done|].
    rewrite Z.gtb_ltb. destruct (Z.ltb_spec (PaddrHighest s) (p * 4096)); [lia|].
    rewrite Z.div_mul by lia. apply u32_small. lia.
  - pose proof (u32_range (p * 4096)). lia.
Qed.

Example page_address_below_4g_witness :
  (7 < 2 ^ 20 -> KrGetPhysicalPageAddress sample_pmm 7 = 7 * KR_PAGE_SIZE /\
     KrGetPhysicalPageID sample_pmm (KrGetPhysicalPageAddress sample_pmm 7) = 7) /\
  (2 ^ 20 <= 7 -> KrGetPhysicalPageAddress sample_pmm 7 <> 7 * KR_PAGE_SIZE).
Proof.
  apply (page_address_below_4g sample_pmm 7); [exact sample_wf|vm_compute; split; [discriminate|reflexivity]|].
  vm_compute. discriminate.
Defined.

(** ** Behaviours outside the contracts *)

Definition outcome_map {A B} (f : A -> B) (o : outcome A) : outcome B := a ← o; Done (f a).

(** A search that starts inside a bitmap byte looks at the whole byte again
    after the wraparound, so page 6 is returned twice. *)
Definition unaligned_pmm : Pmm :=
  mkPmm PMM_INIT_STAGE_BASIC 0 0 (8 * 4096) [0x03] [0xBF] 1 8 8 2 5 6 [] false.
Example acquire_duplicates :
  outcome_map (fun r => (r.1.2, r.2)) (PmAcquirePages unaligned_pmm [0; 0] 2 1 PAGE_ACQ_SPARSE IVLDPGID) =
    Done ([6; 6], 2).
Proof. vm_compute. reflexivity. Qed.

(** After the last page was acquired the default hint is NrPages, which is not
    a valid start: the next default request fails although a page is available. *)
Definition last_page_pmm : Pmm :=
  mkPmm PMM_INIT_STAGE_BASIC 0 0 (8 * 4096) [0x03] [0x7B] 1 8 8 2 3 7 [] false.
Example acquire_hint_stuck :
  outcome_map (fun r => (page_free r.1 2, r.2))
    ('(s, _) ← PmAcquirePage last_page_pmm 1 IVLDPGID; PmAcquirePage s 1 IVLDPGID) = Done (true, IVLDPGID).
Proof. vm_compute. reflexivity. Qed.

(** A padding bit above NrPages can be relinquished, and its page ID is then
    handed out. *)
Definition full_pmm : Pmm :=
  mkPmm PMM_INIT_STAGE_BASIC 0 0 (6 * 4096) [0x03] [0xFF] 1 6 6 2 4 0 [] false.
Example relinquish_padding :
  outcome_map snd ('(s, _) ← PmRelinquishPage full_pmm 7; PmAcquirePage s 1 IVLDPGID) = Done 7.
Proof. vm_compute. reflexivity. Qed.

(** The bookkeeping array is sized by TotalPages but indexed by page ID: a map
    with a hole makes the initialization write outside the array. *)
Definition hole_pmm : Pmm :=
  mkPmm PMM_INIT_STAGE_BASIC 0 0 (1600 * 4096) (replicate 4 0x00 ++ replicate 196 0xFF)
    (replicate 4 0x00 ++ replicate 196 0xFF) 200 1600 40 8 0 0 [] false.
Example meta_array_overrun : KrInitPhysMetaArray (fun p => p) hole_pmm = Fault.
Proof. vm_compute. reflexivity. Qed.

(** A successful initialization of the array leaves the stage at BASIC, so the
    bookkeeping branches stay disabled. *)
Example meta_array_stage :
  outcome_map (fun r => (InitStage r.1, r.2)) (KrInitPhysMetaArray (fun p => p) sample_pmm) =
    Done (PMM_INIT_STAGE_BASIC, true).
Proof. vm_compute. reflexivity. Qed.

(** In the bookkeeping stage an acquisition of page 8 rewrites the entries of all
    lower pages as well. *)
Definition booked_pmm : Pmm :=
  mkPmm PMM_INIT_STAGE_BOOKKEEPING 0 0 (20 * 4096) [0x03; 0x00; 0xF0] [0x07; 0x00; 0xF0] 3 20 20 2 1 8
    (replicate 20 (mkMeta 0 0 0 0)) false.
Example bulk_meta_overwrites :
  outcome_map (fun r => Metas r.1 !! 3%nat) (PmAcquirePage booked_pmm 1 IVLDPGID) =
    Done (Some (mkMeta 1 0 0 1)).
Proof. vm_compute. reflexivity. Qed.

(** ** The array of page metadata (KrInitPhysMetaArray) *)

(** The loops change nothing but the array. *)
Lemma put_meta_ok s ID m : 0 <= ID < Z.of_nat (length (Metas s)) -> exists M, put_meta s ID m = Done (set_metas s M) /\ length M = length (Metas s).
Proof.
  intros H. unfold put_meta. rewrite (proj2 (Z.ltb_lt _ _)) by lia. eexists. split; [done|]. by rewrite length_insert.
Qed.
Lemma set_metas_twice s M M' : set_metas (set_metas s M) M' = set_metas s M'.
Proof. by destruct s. Qed.
Lemma set_metas_same s : set_metas s (Metas s) = s.
Proof. by destruct s. Qed.

Lemma mark_reserved_byte_spec n : forall s b i j, 0 <= i -> 0 <= j -> j + Z.of_nat n <= 8 -> 8 * i + 8 <= Z.of_nat (length (Metas s)) -> 8 * i + 8 <= 2 ^ 32 ->
  exists M, mark_reserved_byte n s b i j = Done (set_metas s M) /\ length M = length (Metas s).
Proof.
  induction n as [|n IH]; intros s b i j Hi Hj Hn Hl Hb; cbn [mark_reserved_byte]; [exists (Metas s); by rewrite set_metas_same|].
  assert (exists M, (if has_flag b (Z.shiftl 1 j) then m ← KrGetPageMeta s (u32 (i * 8 + j));
             put_meta s (u32 (i * 8 + j)) (mkMeta 1 (Auxiliary m) (Flags m) PAGE_TYPE_RESERVED) else Done s) = Done (set_metas s M) /\
            length M = length (Metas s)) as (M & -> & HM).
  { destruct (has_flag b _); [|exists (Metas s); by rewrite set_metas_same]. rewrite u32_small by lia. unfold KrGetPageMeta.
    destruct (lookup_lt_is_Some_2 (Metas s) (Z.to_nat (i * 8 + j))) as [m ->]; [lia|]. cbn [checked]. rewrite bind_Done. apply put_meta_ok. lia. }
  rewrite bind_Done. destruct (IH (set_metas s M) b i (j + 1)) as (M2 & -> & HM2); [lia|lia|lia| |lia|].
  { change (Metas (set_metas s M)) with M. lia. }
  exists M2. rewrite set_metas_twice. split; [done|]. change (Metas (set_metas s M)) with M in HM2. lia.
Qed.
Lemma mark_reserved_spec n : forall s i, 0 <= i -> i + Z.of_nat n <= Z.of_nat (length (pPrimaryBitmap s)) ->
  8 * Z.of_nat (length (pPrimaryBitmap s)) <= Z.of_nat (length (Metas s)) -> 8 * Z.of_nat (length (pPrimaryBitmap s)) <= 2 ^ 32 ->
  exists M, mark_reserved n s i = Done (set_metas s M) /\ length M = length (Metas s).
Proof.
  induction n as [|n IH]; intros s i Hi Hn Hl Hb; cbn [mark_reserved]; [exists (Metas s); by rewrite set_metas_same|].
  destruct (read_byte_ok (pPrimaryBitmap s) i) as (b & -> & _); [lia|]. rewrite bind_Done.
  destruct (mark_reserved_byte_spec 8 s b i 0) as (M & -> & HM); [lia..|]. rewrite bind_Done.
  destruct (IH (set_metas s M) (i + 1)) as (M2 & -> & HM2); [lia|cbn; lia|cbn; lia|cbn; lia|].
  exists M2. rewrite set_metas_twice. split; [done|]. change (Metas (set_metas s M)) with M in HM2. lia.
Qed.

(** The pages the array takes, and the entries they hold. *)
Definition meta_pages (total : Z) : Z := (total + 681) / 682.
Definition meta_entries (total : Z) : Z := meta_pages total * 4096 / 6.

Record meta_placed (s s' : Pmm) (base n : Z) : Prop := {
  mp_good : pmm_good s';
  mp_stage : InitStage s' = InitStage s;
  mp_nr : NrPages s' = NrPages s;
  mp_free : forall p, 0 <= p -> page_free s' p = page_free s p && negb (bool_decide (base <= p < base + n));
  mp_run : 0 <= base /\ base + n <= NrPages s /\ all_free s base n;
  mp_reserved : pAdvisoryBitmap s' = pAdvisoryBitmap s;
  mp_hint : AcquireHint s' = base + n
}.

(** With a run of free pages behind the hint, and a memory map whose holes do
    not make the array too short, the array is placed in the first such run. *)
Lemma meta_array_spec f s b :
  pmm_good s -> InitStage s = PMM_INIT_STAGE_BASIC -> 0 < TotalPages s < 2 ^ 29 -> 8 * BitmapSize s <= meta_entries (TotalPages s) ->
  0 <= search_start s IVLDPGID <= b -> b + meta_pages (TotalPages s) <= NrPages s -> all_free s b (meta_pages (TotalPages s)) -> NrPages s <= 2 ^ 20 ->
  exists s' base, KrInitPhysMetaArray f s = Done (s', true) /\ meta_placed s s' base (meta_pages (TotalPages s)) /\ base <= b.
Proof.
  intros Hg Hst Ht Hm Hb Hbn Hall Hnr. pose proof Hg as [Hwf Hl _]. unfold KrInitPhysMetaArray.
  rewrite Hst. change ((PMM_INIT_STAGE_BASIC <? PMM_INIT_STAGE_BASIC) || (PMM_INIT_STAGE_BASIC >? PMM_INIT_STAGE_BOOKKEEPING)) with false. cbv iota.
  change (KR_PAGE_SIZE / SIZEOF_META) with 682. rewrite u64_small by lia.
  replace (TotalPages s + 682 - 1) with (TotalPages s + 681) by lia. fold (meta_pages (TotalPages s)).
  assert (0 < meta_pages (TotalPages s) < 2 ^ 20) as Hn by (unfold meta_pages; zlia). rewrite u32_small by lia.
  set (n := meta_pages (TotalPages s)) in *.
  destruct (acquire_dense_spec s [IVLDPGID] n PAGE_TYPE_BOOKKEEPING (Z.lor PAGE_ACQ_DENSE PAGE_ACQ_BASE_OUT_ONLY) IVLDPGID)
    as (s1 & out & base & c & -> & Hc & _ & Hpos & _ & Hf); [done|done|split; reflexivity|lia|vm_compute; lia|lia|].
  destruct (Hf b ltac:(lia) Hbn Hall) as [-> Hbase]. destruct (Hpos ltac:(lia)) as (P1 & P2 & P3 & [P4 _] & [A1 A2 A3 [A4 A5] A6 A7 A8]).
  rewrite bind_Done, (read_id_ok out 0 base) by exact P4. rewrite bind_Done, Z.ltb_irrefl, (proj2 (Z.eqb_neq n 0)) by lia.
  assert (AcquireHint s1 = base + n) as Hh.
  { destruct (last (seqZ base n)) as [e|] eqn:El.
    - rewrite (A7 e eq_refl). apply last_seqZ in El; lia.
    - apply last_None in El. pose proof (length_seqZ base n) as Hlz. rewrite El in Hlz. cbn in Hlz. lia. }
  pose proof (pw_size_bounds _ A1) as Hsz. pose proof (pw_prim_len _ A1) as Hpl. pose proof (pw_size _ A1) as Hs1. pose proof (pw_size _ Hwf) as Hs0. rewrite A4 in Hsz, Hs1.
  cbv zeta. cbn [BitmapSize].
  assert (u32 (n * KR_PAGE_SIZE) = n * 4096) as -> by (unfold KR_PAGE_SIZE; apply u32_small; lia).
  set (metas := replicate _ _). assert (Z.of_nat (length metas) = meta_entries (TotalPages s)) as Hlen.
  { unfold metas. rewrite length_replicate. change SIZEOF_META with 6. unfold meta_entries. fold n. rewrite Z2Nat.id; [done|zlia]. }
  set (s2 := mkPmm _ _ _ _ _ _ _ _ _ _ _ _ metas _).
  destruct (mark_reserved_spec (Z.to_nat (BitmapSize s1)) s2 0) as (M & -> & HM); [lia|cbn [pPrimaryBitmap s2]; lia| | |].
  { cbn [pPrimaryBitmap Metas s2]. rewrite Hlen. lia. }
  { cbn [pPrimaryBitmap s2]. lia. }
  rewrite bind_Done. exists (set_metas s2 M), base. split; [done|]. split; [|lia]. split; try done.
  - destruct A1 as [W1 W2 W3 W4 W5 W6 W7 W8 W9 W10]. split; [|done|cbn; by rewrite A5, Hst].
    split; first [exact W1|exact W2|exact W3|exact W4|exact W5|exact W6|exact W7|exact W8|exact W9|cbn; by rewrite A5, Hst].
  - intros p Hp. change (page_free (set_metas s2 M) p) with (page_free s1 p). rewrite A2 by done. f_equal. f_equal.
    apply bool_decide_ext. apply elem_of_seqZ.
Qed.
