(* ===== verification/Pte.v ===== *)
(** * Page table entries (Kernel/Source/Memory/PTE.c, Kernel/Source/CPU/PAT.c,
    the PAT setup of Kernel/Source/Memory/Virtmemmgmt.c and the macro of
    Kernel/Include/Memory/Vmmdef/MakeVirt.h)

    Entries are 64-bit words.  The file proves the encoder against a decoder
    that reads the fields at the positions the processor does. *)
From Stdlib Require Import ZArith Lia Btauto String.
From stdpp Require Import base numbers list.
From S2P Require Import Prelude.
Open Scope Z_scope.
#[local] Arguments Z.testbit _ _ : simpl never.

(** ** Data *)

Definition PTE_PRESENT : Z := Z.shiftl 1 0.
Definition PTE_WRITABLE : Z := Z.shiftl 1 1.
Definition PTE_USER : Z := Z.shiftl 1 2.
Definition PTE_PWT : Z := Z.shiftl 1 3.
Definition PTE_PCD : Z := Z.shiftl 1 4.
Definition PTE_NONPT_PS : Z := Z.shiftl 1 7.
Definition PTE_PT_PAT : Z := Z.shiftl 1 7.
Definition PTE_GLOBAL : Z := Z.shiftl 1 8.
Definition PTE_NONPT_PAT : Z := Z.shiftl 1 12.
Definition PTE_NX : Z := Z.shiftl 1 63.
Definition PTE_PHYSADDR_MASK : Z := 0x000FFFFFFFFFF000.
Definition KR_PTE2_ENCODE_FAILURE_DUE_TO_ALIGNMENT : Z := 0xFFFFFFFFFFFFFFFF.

Inductive KrTypePTE :=
  | PML4_ENTRY | PDPT_ENTRY | PDP1GB_ENTRY | PD_ENTRY | PD2MB_ENTRY | PT_ENTRY | INVALID_PTE_TYPE.
#[export] Instance KrTypePTE_eq_dec : EqDecision KrTypePTE.
Proof. solve_decision. Defined.

Inductive KrVirtualAddressMode := VADDR_SMALL | VADDR_LARGE | VADDR_HUGE.

Record KrVirtualAddress := mkVirt { vPML4 : Z; vPDPT : Z; vPD : Z; vPT : Z; vOffset : Z }.

Record KrPatSelect := mkPat { PWT : bool; PCD : bool; PAT : bool }.

(** ** Type predicates *)

Definition KrPteTypeToString (Type_ : KrTypePTE) : string :=
  match Type_ with
  | PML4_ENTRY => "PML4E" | PDPT_ENTRY => "PDPTE" | PDP1GB_ENTRY => "PDP1GBE"
  | PD_ENTRY => "PDE" | PD2MB_ENTRY => "PD2MBE" | PT_ENTRY => "PTE"
  | INVALID_PTE_TYPE => "IVLDPTETYPE"
  end%string.

Definition KrGetParentPteType (Type_ : KrTypePTE) : KrTypePTE :=
  match Type_ with
  | PML4_ENTRY => INVALID_PTE_TYPE
  | PDP1GB_ENTRY | PDPT_ENTRY => PML4_ENTRY
  | PD2MB_ENTRY | PD_ENTRY => PDPT_ENTRY
  | PT_ENTRY => PD_ENTRY
  | INVALID_PTE_TYPE => INVALID_PTE_TYPE
  end.

Definition KrIsLeafPteType (Type_ : KrTypePTE) : bool :=
  match Type_ with PDP1GB_ENTRY | PD2MB_ENTRY | PT_ENTRY => true | _ => false end.

Definition KrGetPteTypeAlignment (Type_ : KrTypePTE) : Z :=
  match Type_ with
  | PML4_ENTRY | PDPT_ENTRY | PD_ENTRY | PT_ENTRY => 0x1000
  | PDP1GB_ENTRY => 0x40000000
  | PD2MB_ENTRY => 0x200000
  | INVALID_PTE_TYPE => 0
  end.

(** ** Encoding *)

Definition KrMakeFlagsForPTEv2 (eType : KrTypePTE) (qwBaseFlags : Z) (PatSelect : KrPatSelect) : Z :=
  let f := Z.land qwBaseFlags
             (u64 (Z.lnot (Z.lor (Z.lor PTE_PWT PTE_PCD) (Z.lor (Z.shiftl 1 7) (Z.shiftl 1 12))))) in
  let f := match eType with PDP1GB_ENTRY | PD2MB_ENTRY => Z.lor f PTE_NONPT_PS | _ => f end in
  let f := if PWT PatSelect then Z.lor f PTE_PWT else f in
  let f := if PCD PatSelect then Z.lor f PTE_PCD else f in
  if PAT PatSelect then
    match eType with
    | PDP1GB_ENTRY | PD2MB_ENTRY => Z.lor f PTE_NONPT_PAT
    | PT_ENTRY => Z.lor f PTE_PT_PAT
    | _ => f
    end
  else f.

(** [nx_unsupported] is [KrIsVirtmemmgmtInitialized() && !bNoExecuteSupport];
    the second component tells whether the failure counter was incremented. *)
Definition PteEncodeEntry (nx_unsupported : bool) (Type_ : KrTypePTE) (PhysAddrBase qwBaseFlags : Z)
    (PatSelect : KrPatSelect) : Z * bool :=
  let AlignmentRequirement := KrGetPteTypeAlignment Type_ in
  if negb (Z.land PhysAddrBase (u64 (AlignmentRequirement - 1)) =? 0)
  then (KR_PTE2_ENCODE_FAILURE_DUE_TO_ALIGNMENT, true)
  else
    let flags := if nx_unsupported then Z.land qwBaseFlags (u64 (Z.lnot PTE_NX)) else qwBaseFlags in
    (Z.lor (KrMakeFlagsForPTEv2 Type_ flags PatSelect) PhysAddrBase, false).

(** ** Virtual addresses *)

Definition KrMakeVirtual (AddressMode : KrVirtualAddressMode) (v : KrVirtualAddress) : Z :=
  let Address := if has_flag (vPML4 v) (Z.shiftl 1 9) then 0xFFFF000000000000 else 0 in
  let Address := Z.lor Address (Z.shiftl (Z.land (vPML4 v) 0x1FF) 39) in
  let Address := Z.lor Address (Z.shiftl (Z.land (vPDPT v) 0x1FF) 30) in
  match AddressMode with
  | VADDR_HUGE => Z.lor Address (Z.land (vOffset v) 0x3FFFFFFF)
  | VADDR_LARGE =>
      Z.lor (Z.lor Address (Z.shiftl (Z.land (vPD v) 0x1FF) 21))
            (Z.shiftl (Z.land (vOffset v) 0x1FFFFF) 12)
  | VADDR_SMALL =>
      Z.lor (Z.lor (Z.lor Address (Z.shiftl (Z.land (vPD v) 0x1FF) 21))
                   (Z.shiftl (Z.land (vPT v) 0x1FF) 12))
            (Z.land (vOffset v) 0xFFF)
  end.

Definition KrUnmakeVirtual (AddressMode : KrVirtualAddressMode) (Address : Z) : KrVirtualAddress :=
  let PML4 := Z.land (Z.shiftr Address 39) 0x1FF in
  let PDPT := Z.land (Z.shiftr Address 30) 0x1FF in
  match AddressMode with
  | VADDR_SMALL =>
      mkVirt PML4 PDPT (Z.land (Z.shiftr Address 21) 0x1FF) (Z.land (Z.shiftr Address 12) 0x1FF)
        (Z.land (Z.shiftr Address 0) 0xFFF)
  | VADDR_LARGE =>
      mkVirt PML4 PDPT (Z.land (Z.shiftr Address 21) 0x1FF) 0 (Z.land (Z.shiftr Address 12) 0x1FFFFF)
  | VADDR_HUGE => mkVirt PML4 PDPT 0 0 (Z.land (Z.shiftr Address 21) 0x3FFFFFFF)
  end.

(** The macro KR_MAKE_VIRTUAL. *)
Definition KR_MAKE_VIRTUAL (IndexPML4 IndexPDPT IndexPD IndexPT Offset : Z) : Z :=
  Z.lor (Z.lor (Z.lor (Z.lor
    (Z.lor (Z.land (u64 (- Z.land (Z.shiftr IndexPML4 8) 1)) 0xFFFF000000000000)
           (Z.shiftl (Z.land IndexPML4 0x1FF) 39))
    (Z.shiftl (Z.land IndexPDPT 0x1FF) 30))
    (Z.shiftl (Z.land IndexPD 0x1FF) 21))
    (Z.shiftl (Z.land IndexPT 0x1FF) 12))
    Offset.

(** ** Memory types *)

Record KrPatMsrState := mkPatMsr { PA_UC : Z; PA_WC : Z; PA_WT : Z; PA_WP : Z; PA_WB : Z; PA_UCM : Z }.

Definition KR_PAT_UNCACHEABLE : Z := 0.
Definition KR_PAT_WRITE_COMBINING : Z := 1.
Definition KR_PAT_WRITE_THROUGH : Z := 4.
Definition KR_PAT_WRITE_PROTECTED : Z := 5.
Definition KR_PAT_WRITE_BACK : Z := 6.
Definition KR_PAT_UNCACHED : Z := 7.

Definition g_PatSelectTable : list KrPatSelect :=
  [mkPat false false false; mkPat true false false; mkPat false true false; mkPat true true false;
   mkPat false false true; mkPat true false true; mkPat false true true; mkPat true true true].

Definition KrSelectPat (st : KrPatMsrState) (MemType : Z) : outcome KrPatSelect :=
  let Target :=
    if MemType =? KR_PAT_UNCACHEABLE then PA_UC st
    else if MemType =? KR_PAT_WRITE_COMBINING then PA_WC st
    else if MemType =? KR_PAT_WRITE_THROUGH then PA_WT st
    else if MemType =? KR_PAT_WRITE_PROTECTED then PA_WP st
    else if MemType =? KR_PAT_WRITE_BACK then PA_WB st
    else if MemType =? KR_PAT_UNCACHED then PA_UCM st
    else 0 in
  checked (g_PatSelectTable !! Z.to_nat Target).

(** The PAT part of KrVmmInitCpu: the MSR value and the PatMsrState fields. *)
Definition KrVmmInitPat : Z * KrPatMsrState :=
  let hi := Z.lor (Z.lor (Z.lor (Z.shiftl KR_PAT_UNCACHEABLE 56) (Z.shiftl KR_PAT_UNCACHED 48))
                         (Z.shiftl KR_PAT_WRITE_PROTECTED 40)) (Z.shiftl KR_PAT_WRITE_COMBINING 32) in
  let lo := Z.lor (Z.lor (Z.lor (Z.shiftl KR_PAT_UNCACHEABLE 24) (Z.shiftl KR_PAT_UNCACHED 16))
                         (Z.shiftl KR_PAT_WRITE_THROUGH 8)) (Z.shiftl KR_PAT_WRITE_BACK 0) in
  (Z.lor hi lo, mkPatMsr 3 4 1 5 0 2).

(** ** Bit lemmas *)

Lemma testbit_shift1 k i : 0 <= k -> 0 <= i -> Z.testbit (Z.shiftl 1 k) i = (i =? k).
Proof. apply testbit_one_shiftl. Qed.

(** An [n]-bit field placed at bit [k]. *)
Lemma testbit_field x n k i :
  0 <= n -> 0 <= k -> 0 <= i ->
  Z.testbit (Z.shiftl (Z.land x (Z.ones n)) k) i = (k <=? i) && (i <? k + n) && Z.testbit x (i - k).
Proof.
  intros Hn Hk Hi. rewrite Z.shiftl_spec by lia.
  destruct (Z.leb_spec k i); [|by rewrite Z.testbit_neg_r by lia].
  rewrite Z.land_spec, Z.testbit_ones_nonneg by lia.
  destruct (Z.ltb_spec (i - k) n), (Z.ltb_spec i (k + n)); try lia; simpl; by rewrite ?andb_true_r, ?andb_false_r.
Qed.

Lemma testbit_land_ones x n i :
  0 <= n -> 0 <= i -> Z.testbit (Z.land x (Z.ones n)) i = (i <? n) && Z.testbit x i.
Proof.
  intros Hn Hi. rewrite Z.land_spec, Z.testbit_ones_nonneg by lia. apply andb_comm.
Qed.

Lemma testbit_clear x m i :
  0 <= i -> Z.testbit (Z.land x (u64 (Z.lnot m))) i = (i <? 64) && Z.testbit x i && negb (Z.testbit m i).
Proof. intros Hi. rewrite Z.land_spec, testbit_u64, Z.lnot_spec by lia. btauto. Qed.

Definition large_type (T : KrTypePTE) : bool :=
  match T with PDP1GB_ENTRY | PD2MB_ENTRY => true | _ => false end.

(** Bit [i] of the sanitized flags. *)
Lemma flags_bits T f ps i :
  0 <= i < 64 ->
  Z.testbit (KrMakeFlagsForPTEv2 T f ps) i =
    if i =? 3 then PWT ps
    else if i =? 4 then PCD ps
    else if i =? 7 then large_type T || (bool_decide (T = PT_ENTRY) && PAT ps)
    else if i =? 12 then large_type T && PAT ps
    else Z.testbit f i.
Proof.
  intros Hi. unfold KrMakeFlagsForPTEv2, PTE_PWT, PTE_PCD, PTE_NONPT_PS, PTE_NONPT_PAT, PTE_PT_PAT.
  destruct T, ps as [[] [] []]; cbn [PWT PCD PAT large_type];
    rewrite ?Z.lor_spec, testbit_clear, ?Z.lor_spec, ?testbit_shift1 by lia;
    destruct (Z.ltb_spec i 64); try lia;
    destruct (Z.eqb_spec i 3), (Z.eqb_spec i 4), (Z.eqb_spec i 7), (Z.eqb_spec i 12);
    subst; try lia; simpl; btauto.
Qed.

Lemma u64_lnot_ok m : 0 <= u64 m. Proof. apply u64_range. Qed.

(** ** What the processor reads from a leaf entry *)

Definition entry_bit (e k : Z) : bool := Z.testbit e k.
Definition leaf_bits (T : KrTypePTE) : Z :=
  match T with PDP1GB_ENTRY => 30 | PD2MB_ENTRY => 21 | _ => 12 end.

(** Page frame address: bits from the page size up to 51. *)
Definition mmu_frame (T : KrTypePTE) (e : Z) : Z :=
  Z.shiftl (Z.land (Z.shiftr e (leaf_bits T)) (Z.ones (52 - leaf_bits T))) (leaf_bits T).

(** Index into the PAT MSR. *)
Definition mmu_pat_index (T : KrTypePTE) (e : Z) : Z :=
  (if entry_bit e (if large_type T then 12 else 7) then 4 else 0) +
  (if entry_bit e 4 then 2 else 0) + (if entry_bit e 3 then 1 else 0).

Definition select_index (ps : KrPatSelect) : Z :=
  (if PAT ps then 4 else 0) + (if PCD ps then 2 else 0) + (if PWT ps then 1 else 0).

Definition mmu_memory_type (msr : Z) (T : KrTypePTE) (e : Z) : Z :=
  Z.land (Z.shiftr msr (8 * mmu_pat_index T e)) 0xFF.

(** Flags outside the address field. *)
Definition flags_ok (f : Z) : Prop :=
  0 <= f < 2 ^ 64 /\ forall i, 12 <= i < 52 -> Z.testbit f i = false.

Record leaf_ok (T : KrTypePTE) (e p f : Z) (nx_unsupported : bool) (ps : KrPatSelect) : Prop := {
  lo_frame : mmu_frame T e = p;
  lo_pat : mmu_pat_index T e = select_index ps;
  lo_size : large_type T = true -> entry_bit e 7 = true;
  lo_present : entry_bit e 0 = entry_bit f 0;
  lo_writable : entry_bit e 1 = entry_bit f 1;
  lo_user : entry_bit e 2 = entry_bit f 2;
  lo_global : entry_bit e 8 = entry_bit f 8;
  lo_nx : entry_bit e 63 = entry_bit f 63 && negb nx_unsupported
}.

(** The bits of a successfully encoded entry. *)
Lemma encode_bits nxu T p f ps i :
  0 <= i < 64 -> p mod KrGetPteTypeAlignment T = 0 -> T <> INVALID_PTE_TYPE ->
  (PteEncodeEntry nxu T p f ps).2 = false /\
  Z.testbit (PteEncodeEntry nxu T p f ps).1 i =
    Z.testbit (KrMakeFlagsForPTEv2 T (if nxu then Z.land f (u64 (Z.lnot PTE_NX)) else f) ps) i || Z.testbit p i.
Proof.
  intros Hi Hal HT. unfold PteEncodeEntry.
  assert (Z.land p (u64 (KrGetPteTypeAlignment T - 1)) = 0) as ->.
  { destruct T; try done; cbn [KrGetPteTypeAlignment] in *.
    1,2,4,6: change (u64 _) with (2 ^ 12 - 1); by rewrite land_ones_mod.
    - change (u64 _) with (2 ^ 30 - 1). by rewrite land_ones_mod.
    - change (u64 _) with (2 ^ 21 - 1). by rewrite land_ones_mod. }
  cbn [negb Z.eqb]. split; [done|]. cbn [fst]. apply Z.lor_spec.
Qed.

Lemma aligned_low_bits p k i : 0 <= i < k -> p mod 2 ^ k = 0 -> Z.testbit p i = false.
Proof.
  intros Hi H. rewrite <- (Z.mod_pow2_bits_low p k i) by lia. rewrite H. apply Z.bits_0.
Qed.

Lemma mmu_frame_bits T e i :
  0 <= i -> Z.testbit (mmu_frame T e) i = (leaf_bits T <=? i) && (i <? 52) && Z.testbit e i.
Proof.
  intros Hi. unfold mmu_frame. assert (0 <= leaf_bits T <= 52) by (destruct T; simpl; lia).
  rewrite testbit_field by lia.
  destruct (Z.leb_spec (leaf_bits T) i); [|done]. rewrite Z.shiftr_spec by lia.
  replace (leaf_bits T + (52 - leaf_bits T)) with 52 by lia. do 2 f_equal. lia.
Qed.

Lemma encode_leaf nxu T p f ps :
  KrIsLeafPteType T = true -> 0 <= p < 2 ^ 52 -> p mod KrGetPteTypeAlignment T = 0 -> flags_ok f ->
  (PteEncodeEntry nxu T p f ps).2 = false /\ leaf_ok T (PteEncodeEntry nxu T p f ps).1 p f nxu ps.
Proof.
  intros HT Hp Hal [Hf Hfa].
  assert (T <> INVALID_PTE_TYPE) as HT' by (by intros ->).
  assert (KrGetPteTypeAlignment T = 2 ^ leaf_bits T /\ 12 <= leaf_bits T <= 30 /\
          (large_type T = true -> 21 <= leaf_bits T)) as (Ea & Hlb & Hlg) by (destruct T; done || (split_and!; done)).
  rewrite Ea in Hal. assert (forall i, 0 <= i < leaf_bits T -> Z.testbit p i = false) as Hlow
    by (intros i Hi; by eapply aligned_low_bits).
  assert (forall i, 0 <= i < 64 -> Z.testbit (PteEncodeEntry nxu T p f ps).1 i =
    if i =? 3 then PWT ps else if i =? 4 then PCD ps
    else if i =? 7 then large_type T || (bool_decide (T = PT_ENTRY) && PAT ps)
    else if i =? 12 then (large_type T && PAT ps) || Z.testbit p i
    else (Z.testbit f i && negb (nxu && (i =? 63))) || Z.testbit p i) as Hb.
  { intros i Hi. destruct (encode_bits nxu T p f ps i Hi) as [_ ->]; [by rewrite Ea|done|].
    rewrite flags_bits by lia. destruct (Z.eqb_spec i 3) as [->|]; [rewrite Hlow by lia; btauto|].
    destruct (Z.eqb_spec i 4) as [->|]; [rewrite Hlow by lia; btauto|].
    destruct (Z.eqb_spec i 7) as [->|]; [rewrite Hlow by lia; btauto|].
    destruct (Z.eqb_spec i 12) as [->|]; [done|]. f_equal. destruct nxu; [|btauto].
    unfold PTE_NX. rewrite testbit_clear, testbit_shift1 by lia. destruct (Z.ltb_spec i 64); [|lia]. btauto. }
  split; [apply (encode_bits nxu T p f ps 0); [lia|by rewrite Ea|done]|].
  split; unfold entry_bit.
  - apply Z.bits_inj'. intros i Hi. rewrite mmu_frame_bits by done.
    destruct (Z.leb_spec (leaf_bits T) i); simpl; [|by rewrite Hlow by lia].
    destruct (Z.ltb_spec i 52); simpl; [|by rewrite (testbit_above p 52) by lia].
    rewrite Hb by lia. destruct (Z.eqb_spec i 3); [lia|]. destruct (Z.eqb_spec i 4); [lia|].
    destruct (Z.eqb_spec i 7); [lia|]. destruct (Z.eqb_spec i 12) as [->|].
    + destruct (large_type T); [lia|done].
    + rewrite Hfa by lia. done.
  - unfold mmu_pat_index, select_index, entry_bit. rewrite !Hb by (destruct (large_type T); lia).
    destruct T; try done; simpl; rewrite ?Hlow by (simpl; lia); by destruct (PAT ps), (PCD ps), (PWT ps).
  - intros Hl. rewrite Hb by lia. simpl. by rewrite Hl.
  - rewrite Hb, Hlow by lia. simpl. btauto.
  - rewrite Hb, Hlow by lia. simpl. btauto.
  - rewrite Hb, Hlow by lia. simpl. btauto.
  - rewrite Hb, Hlow by lia. simpl. btauto.
  - rewrite Hb by lia. simpl. rewrite (testbit_above p 52) by lia. btauto.
Qed.

(** PteEncodeEntry against the processor's view: for a leaf type, an address
    aligned to the page size and below the 52-bit limit, and flags outside the
    address field, the entry decodes to that page frame, the selected PAT index,
    the page-size bit of large entries, and the requested present, writable,
    user, global and no-execute bits (the last dropped without NX support); a
    misaligned address yields the failure value and counts it. *)
Theorem pte_encode_decodes (nxu : bool) (T : KrTypePTE) (p f : Z) (ps : KrPatSelect)
    (HT : KrIsLeafPteType T = true) (Hp : 0 <= p < 2 ^ 52) (Hf : flags_ok f) :
  let '(e, failed) := PteEncodeEntry nxu T p f ps in
  if p mod KrGetPteTypeAlignment T =? 0
  then failed = false /\ leaf_ok T e p f nxu ps
  else failed = true /\ e = KR_PTE2_ENCODE_FAILURE_DUE_TO_ALIGNMENT.
Proof.
  destruct (PteEncodeEntry nxu T p f ps) as [e failed] eqn:E.
  destruct (Z.eqb_spec (p mod KrGetPteTypeAlignment T) 0) as [Hal|Hal].
  - pose proof (encode_leaf nxu T p f ps HT Hp Hal Hf) as H. by rewrite E in H.
  - unfold PteEncodeEntry in E.
    assert (Z.land p (u64 (KrGetPteTypeAlignment T - 1)) = p mod KrGetPteTypeAlignment T) as Hl.
    { destruct T; try done; cbn [KrGetPteTypeAlignment].
      - change (u64 _) with (2 ^ 30 - 1). by rewrite land_ones_mod.
      - change (u64 _) with (2 ^ 21 - 1). by rewrite land_ones_mod.
      - change (u64 _) with (2 ^ 12 - 1). by rewrite land_ones_mod. }
    rewrite Hl in E. destruct (Z.eqb_spec (p mod KrGetPteTypeAlignment T) 0); [done|]. by simplify_eq/=.
Qed.

Lemma flags_ok_intro f : 0 <= f < 2 ^ 64 -> Z.land f PTE_PHYSADDR_MASK = 0 -> flags_ok f.
Proof.
  intros Hf H. split; [done|]. intros i Hi.
  assert (Z.testbit (Z.land f PTE_PHYSADDR_MASK) i = false) as Hb by (rewrite H; apply Z.bits_0).
  change PTE_PHYSADDR_MASK with (Z.shiftl (Z.land (-1) (Z.ones 40)) 12) in Hb.
  rewrite Z.land_spec, testbit_field in Hb by lia.
  destruct (Z.leb_spec 12 i), (Z.ltb_spec i (12 + 40)); try lia.
  rewrite Z.bits_m1 in Hb by lia. simpl in Hb. by rewrite andb_true_r in Hb.
Qed.

Example pte_encode_decodes_witness :
  let f := Z.lor PTE_PRESENT (Z.lor PTE_WRITABLE PTE_NX) in
  let '(e, failed) := PteEncodeEntry true PD2MB_ENTRY 0x40200000 f (mkPat true false true) in
  if 0x40200000 mod KrGetPteTypeAlignment PD2MB_ENTRY =? 0
  then failed = false /\ leaf_ok PD2MB_ENTRY e 0x40200000 f true (mkPat true false true)
  else failed = true /\ e = KR_PTE2_ENCODE_FAILURE_DUE_TO_ALIGNMENT.
Proof.
  apply (pte_encode_decodes true PD2MB_ENTRY 0x40200000 (Z.lor PTE_PRESENT (Z.lor PTE_WRITABLE PTE_NX))
           (mkPat true false true)); [reflexivity|lia|].
  apply flags_ok_intro; [vm_compute; split; [discriminate|reflexivity]|reflexivity].
Defined.

(** The memory types the PAT MSR can name. *)
Definition pat_memory_types : list Z :=
  [KR_PAT_UNCACHEABLE; KR_PAT_WRITE_COMBINING; KR_PAT_WRITE_THROUGH; KR_PAT_WRITE_PROTECTED;
   KR_PAT_WRITE_BACK; KR_PAT_UNCACHED].

(** End-to-end memory typing: with the PAT MSR and the selector table
    KrVmmInitCpu sets up, an aligned leaf entry encoded with
    [KrSelectPat(MemType)] makes the processor look up exactly [MemType] in the
    MSR, for each of the six memory types and each leaf size. *)
Theorem pat_memory_type (nxu : bool) (T : KrTypePTE) (p f MemType : Z)
    (HT : KrIsLeafPteType T = true) (Hp : 0 <= p < 2 ^ 52) (Hal : p mod KrGetPteTypeAlignment T = 0)
    (Hf : flags_ok f) (Hm : In MemType pat_memory_types) :
  exists ps, KrSelectPat KrVmmInitPat.2 MemType = Done ps /\
    mmu_memory_type KrVmmInitPat.1 T (PteEncodeEntry nxu T p f ps).1 = MemType.
Proof.
  assert (exists ps, KrSelectPat KrVmmInitPat.2 MemType = Done ps /\
            Z.land (Z.shiftr KrVmmInitPat.1 (8 * select_index ps)) 0xFF = MemType) as (ps & E & H).
  { simpl in Hm. destruct_or? Hm; subst; try done; eexists; (split; [reflexivity|reflexivity]). }
  exists ps. split; [done|]. destruct (encode_leaf nxu T p f ps HT Hp Hal Hf) as [_ L].
  unfold mmu_memory_type. by rewrite (lo_pat _ _ _ _ _ _ L).
Qed.

Example pat_memory_type_witness :
  exists ps, KrSelectPat KrVmmInitPat.2 KR_PAT_WRITE_COMBINING = Done ps /\
    mmu_memory_type KrVmmInitPat.1 PT_ENTRY (PteEncodeEntry false PT_ENTRY 0x5000 3 ps).1 = KR_PAT_WRITE_COMBINING.
Proof.
  apply (pat_memory_type false PT_ENTRY 0x5000 3 KR_PAT_WRITE_COMBINING); [reflexivity|lia|reflexivity| |].
  - apply flags_ok_intro; [lia|reflexivity].
  - simpl. tauto.
Defined.

(** ** Virtual address composition *)

Lemma testbit_virt_small p4 p3 p2 p1 off i :
  0 <= i ->
  Z.testbit (Z.lor (Z.lor (Z.lor (Z.lor (Z.lor 0 (Z.shiftl (Z.land p4 (Z.ones 9)) 39))
               (Z.shiftl (Z.land p3 (Z.ones 9)) 30)) (Z.shiftl (Z.land p2 (Z.ones 9)) 21))
               (Z.shiftl (Z.land p1 (Z.ones 9)) 12)) (Z.land off (Z.ones 12))) i =
  if i <? 12 then Z.testbit off i
  else if i <? 21 then Z.testbit p1 (i - 12)
  else if i <? 30 then Z.testbit p2 (i - 21)
  else if i <? 39 then Z.testbit p3 (i - 30)
  else (i <? 48) && Z.testbit p4 (i - 39).
Proof.
  intros Hi. rewrite !Z.lor_spec, !testbit_field, testbit_land_ones, Z.bits_0 by lia.
  destruct (Z.ltb_spec i 12), (Z.ltb_spec i 21), (Z.ltb_spec i 30), (Z.ltb_spec i 39), (Z.ltb_spec i 48);
    try lia; repeat match goal with
    | |- context [?a <=? i] => first [rewrite (proj2 (Z.leb_le a i)) by lia|rewrite (proj2 (Z.leb_gt a i)) by lia]
    | |- context [i <? ?a] => first [rewrite (proj2 (Z.ltb_lt i a)) by lia|rewrite (proj2 (Z.ltb_ge i a)) by lia]
    end; simpl; btauto.
Qed.

Lemma make_unmake_small a :
  0 <= a < 2 ^ 64 -> KrMakeVirtual VADDR_SMALL (KrUnmakeVirtual VADDR_SMALL a) = a mod 2 ^ 48.
Proof.
  intros Ha. unfold KrMakeVirtual, KrUnmakeVirtual. cbn [vPML4 vPDPT vPD vPT vOffset].
  change 0x1FF with (Z.ones 9). change 0xFFF with (Z.ones 12).
  assert (has_flag (Z.land (Z.shiftr a 39) (Z.ones 9)) (Z.shiftl 1 9) = false) as ->.
  { change (Z.shiftl 1 9) with (2 ^ 9). rewrite has_flag_pow2, testbit_land_ones by lia. done. }
  apply Z.bits_inj'. intros i Hi. rewrite testbit_virt_small, Z.testbit_mod_pow2 by lia.
  rewrite !Z.shiftr_0_r.
  destruct (Z.ltb_spec i 12); [rewrite testbit_land_ones by lia|].
  { destruct (Z.ltb_spec i 12), (Z.ltb_spec i 48); try lia. done. }
  repeat match goal with |- context [if i <? ?k then _ else _] => destruct (Z.ltb_spec i k) end.
  all: rewrite testbit_land_ones, Z.shiftr_spec by lia.
  all: destruct (Z.ltb_spec i 48); try lia; cbn [andb].
  all: try match goal with |- context [?x <? 9] => destruct (Z.ltb_spec x 9); [|lia] end.
  all: cbn [andb]; try done; f_equal; lia.
Qed.

(** Canonical 48-bit addresses: bits 47 to 63 agree. *)
Definition canonical_address (a : Z) : Prop := 0 <= a < 2 ^ 47 \/ 2 ^ 64 - 2 ^ 47 <= a < 2 ^ 64.

Lemma canonical_high_bits a i :
  2 ^ 64 - 2 ^ 47 <= a < 2 ^ 64 -> 47 <= i < 64 -> Z.testbit a i = true.
Proof.
  intros Ha Hi. rewrite <- (Z.mod_small a (2 ^ 64)) by lia.
  replace a with (Z.lnot (2 ^ 64 - 1 - a) + 1 * 2 ^ 64) by (unfold Z.lnot; lia).
  rewrite Z_mod_plus_full, Z.testbit_mod_pow2, Z.lnot_spec by lia.
  rewrite (testbit_above _ 47) by lia. by rewrite (proj2 (Z.ltb_lt i 64)) by lia.
Qed.

Lemma make_virtual_macro a :
  canonical_address a ->
  let v := KrUnmakeVirtual VADDR_SMALL a in
  KR_MAKE_VIRTUAL (vPML4 v) (vPDPT v) (vPD v) (vPT v) (vOffset v) = a.
Proof.
  intros Ha v. assert (0 <= a < 2 ^ 64) as Ha' by (destruct Ha; lia).
  set (sign := if Z.testbit a 47 then 0xFFFF000000000000 else 0).
  assert (KR_MAKE_VIRTUAL (vPML4 v) (vPDPT v) (vPD v) (vPT v) (vOffset v) =
          Z.lor sign (KrMakeVirtual VADDR_SMALL v)) as ->.
  { unfold KR_MAKE_VIRTUAL, KrMakeVirtual.
    assert (has_flag (vPML4 v) (Z.shiftl 1 9) = false) as ->.
    { change (Z.shiftl 1 9) with (2 ^ 9). rewrite has_flag_pow2 by lia. unfold v. simpl vPML4.
      change 0x1FF with (Z.ones 9). by rewrite testbit_land_ones by lia. }
    rewrite Z.lor_0_l, <- !Z.lor_assoc. f_equal.
    - replace (Z.land (Z.shiftr (vPML4 v) 8) 1) with (Z.b2z (Z.testbit a 47)); [by destruct (Z.testbit a 47)|].
      unfold v. simpl vPML4. change 0x1FF with (Z.ones 9). change 1 with (Z.ones 1).
      apply Z.bits_inj'. intros i Hi. rewrite testbit_land_ones, Z.shiftr_spec, testbit_land_ones, Z.shiftr_spec by lia.
      destruct (Z.ltb_spec i 1).
      + replace i with 0 by lia. rewrite Z.b2z_bit0. done.
      + rewrite (testbit_above _ 1); [done|destruct (Z.testbit a 47); simpl; lia|lia].
    - do 4 f_equal. unfold v. simpl vOffset. change 0xFFF with (Z.ones 12).
      rewrite <- Z.land_assoc. by rewrite Z.land_diag. }
  unfold v. rewrite make_unmake_small by done.
  apply (bits_inj_below 64).
  { split; [apply Z.lor_nonneg; split; [unfold sign; destruct (Z.testbit a 47); lia|apply Z.mod_pos_bound; lia]|].
    apply nonneg_bits_bound; [lia| |].
    { apply Z.lor_nonneg; split; [unfold sign; destruct (Z.testbit a 47); lia|apply Z.mod_pos_bound; lia]. }
    intros i Hi. rewrite Z.lor_spec, (testbit_above sign 64), (testbit_above (a mod 2 ^ 48) 64);
      [done|pose proof (Z.mod_pos_bound a (2 ^ 48)); lia|lia|unfold sign; destruct (Z.testbit a 47); lia|lia]. }
  { done. }
  intros i Hi. rewrite Z.lor_spec, Z.testbit_mod_pow2 by lia. unfold sign.
  destruct Ha as [Ha|Ha].
  - rewrite (testbit_above a 47 47), Z.bits_0 by lia.
    destruct (Z.ltb_spec i 48); [done|]. by rewrite (testbit_above a 47) by lia.
  - rewrite (canonical_high_bits a 47) by lia.
    change 0xFFFF000000000000 with (Z.shiftl (Z.land (-1) (Z.ones 16)) 48). rewrite testbit_field by lia.
    destruct (Z.ltb_spec i 48).
    + rewrite (proj2 (Z.leb_gt 48 i)) by lia. done.
    + rewrite (canonical_high_bits a i), (proj2 (Z.leb_le 48 i)), (proj2 (Z.ltb_lt i (48 + 16))), Z.bits_m1 by lia. done.
Qed.

(** splitting a canonical address into 4 KiB page-table indices and
    composing it again with the KR_MAKE_VIRTUAL macro gives the address back;
    the function KrMakeVirtual, whose sign test looks at bit 9 of the index
    instead of bit 8, returns the address truncated to 48 bits, which is the
    address itself only in the lower half. *)
Theorem virtual_address_roundtrip (a : Z) (Ha : canonical_address a) :
  let v := KrUnmakeVirtual VADDR_SMALL a in
  KR_MAKE_VIRTUAL (vPML4 v) (vPDPT v) (vPD v) (vPT v) (vOffset v) = a /\
  KrMakeVirtual VADDR_SMALL v = a mod 2 ^ 48 /\
  (KrMakeVirtual VADDR_SMALL v = a <-> a < 2 ^ 47).
Proof.
  assert (0 <= a < 2 ^ 64) as Ha' by (destruct Ha; lia). split; [by apply make_virtual_macro|].
  rewrite make_unmake_small by done. split; [done|]. destruct Ha as [Ha|Ha].
  - rewrite Z.mod_small by lia. lia.
  - pose proof (Z.mod_pos_bound a (2 ^ 48) ltac:(lia)). lia.
Qed.

Example virtual_address_roundtrip_witness :
  let v := KrUnmakeVirtual VADDR_SMALL 0xFFFFFFFF80001234 in
  KR_MAKE_VIRTUAL (vPML4 v) (vPDPT v) (vPD v) (vPT v) (vOffset v) = 0xFFFFFFFF80001234 /\
  KrMakeVirtual VADDR_SMALL v = 0xFFFFFFFF80001234 mod 2 ^ 48 /\
  (KrMakeVirtual VADDR_SMALL v = 0xFFFFFFFF80001234 <-> 0xFFFFFFFF80001234 < 2 ^ 47).
Proof. apply (virtual_address_roundtrip 0xFFFFFFFF80001234). right. lia. Defined.

(** The large and huge modes do not invert each other. *)
Example virtual_large_mismatch :
  KrMakeVirtual VADDR_LARGE (KrUnmakeVirtual VADDR_LARGE 0x0000000000A01234) <> 0x0000000000A01234.
Proof. vm_compute. discriminate. Qed.
