(* ===== verification/Heap.v ===== *)
(** * Kernel heap (Kernel/Source/Memory/Krnlheap.c)

    The heap is a doubly linked list of block headers laid out in the heap's
    virtual range.  The store keeps the headers by address and, separately, the
    16-bit distance words the allocator writes in front of each payload; the
    invariant of HeapSpec.v shows that the two never overlap. *)
From Stdlib Require Import ZArith Lia.
From stdpp Require Import base numbers list gmap.
From S2P Require Import Prelude KrtlMem Pte.
Open Scope Z_scope.

(** ** State *)

Definition HEAP_MIN_PAYLOAD_SIZE : Z := 32.
Definition HEAP_DEFAULT_ALIGNMENT : Z := 0x10.
Definition SIZEOF_HEADER : Z := 25.
Definition SIZEOF_OFFSET : Z := 2.
Definition MAX_offset_to_meta : Z := 0xFFFF.

(** The packed struct HeapHeader; null pointers are 0. *)
Record HeapHeader := mkHdr { pPrev : Z; pNext : Z; PayloadSize : Z; bFree : bool }.

Record Heap := mkHeap {
  HeapInitialized : bool;
  RootHeader : Z;
  VaddrHeapSt : Z;
  VaddrHeapNd : Z;
  hdrs : gmap Z HeapHeader;
  words : gmap Z Z
}.

Definition set_hdrs (h : Heap) (m : gmap Z HeapHeader) : Heap :=
  mkHeap (HeapInitialized h) (RootHeader h) (VaddrHeapSt h) (VaddrHeapNd h) m (words h).
Definition set_words (h : Heap) (m : gmap Z Z) : Heap :=
  mkHeap (HeapInitialized h) (RootHeader h) (VaddrHeapSt h) (VaddrHeapNd h) (hdrs h) m.

(** Dereference of a header pointer. *)
Definition rd (h : Heap) (p : Z) : outcome HeapHeader :=
  if p =? 0 then Fault else checked (hdrs h !! p).
(** Store of a whole header at [p]. *)
Definition wr (h : Heap) (p : Z) (x : HeapHeader) : outcome Heap :=
  if p =? 0 then Fault else Done (set_hdrs h (<[p := x]> (hdrs h))).

Definition with_prev (x : HeapHeader) (p : Z) : HeapHeader := mkHdr p (pNext x) (PayloadSize x) (bFree x).
Definition with_next (x : HeapHeader) (p : Z) : HeapHeader := mkHdr (pPrev x) p (PayloadSize x) (bFree x).
Definition with_size (x : HeapHeader) (n : Z) : HeapHeader := mkHdr (pPrev x) (pNext x) n (bFree x).
Definition with_free (x : HeapHeader) (b : bool) : HeapHeader := mkHdr (pPrev x) (pNext x) (PayloadSize x) b.

(** ** Operations *)

Definition KRNL_PML4_IDX : Z := 511.
Definition KRNL_HEAP_PDPT_IDX : Z := 0.
Definition KRNL_MMIO_PDPT_IDX : Z := 256.

Definition heap_zero : Heap := mkHeap false 0 0 0 ∅ ∅.

(** [HeapVMR] is the pointer VmAcquireRegion returned for the heap's range. *)
Definition HeapInit (h : Heap) (HeapVMR : Z) : outcome (Heap * bool) :=
  if HeapInitialized h then Done (h, false)
  else
    let st := KR_MAKE_VIRTUAL KRNL_PML4_IDX KRNL_HEAP_PDPT_IDX 0 0 0 in
    let nd := u64 (st + u64 (KR_MAKE_VIRTUAL KRNL_PML4_IDX KRNL_MMIO_PDPT_IDX 0 0 0 - st)) in
    let h := mkHeap false (RootHeader h) st nd (hdrs h) (words h) in
    if HeapVMR =? 0 then Done (h, false)
    else
      let h := mkHeap false st st nd (hdrs h) (words h) in
      h ← wr h st (mkHdr 0 0 (u64 (nd - st - SIZEOF_HEADER)) true);
      Done (mkHeap true (RootHeader h) (VaddrHeapSt h) (VaddrHeapNd h) (hdrs h) (words h), true).

Definition HeapHeaderPayloadAddress (pHeader : Z) : Z := u64 (pHeader + SIZEOF_HEADER).

Fixpoint HeapLocateFreeFrom (fuel : nat) (h : Heap) (pRef : Z) : outcome Z :=
  match fuel with
  | O => Hang
  | S fuel' =>
      if pRef =? 0 then Done 0
      else x ← rd h pRef; if bFree x then Done pRef else HeapLocateFreeFrom fuel' h (pNext x)
  end.

Fixpoint HeapLocateFreeOfSizeFrom (fuel : nat) (h : Heap) (pRef N : Z) : outcome Z :=
  match fuel with
  | O => Hang
  | S fuel' =>
      if pRef =? 0 then Done 0
      else
        x ← rd h pRef;
        if bFree x && (PayloadSize x >=? N) then Done pRef
        else HeapLocateFreeOfSizeFrom fuel' h (pNext x) N
  end.

(** The aligned payload address inside a block and its distance from the
    unaligned one (ErrorTolerance). *)
Definition aligned_payload (pRef Alignment : Z) : Z * Z :=
  let orig := HeapHeaderPayloadAddress pRef in
  let al := KrtlAlignUpToPowerOfTwo orig Alignment in
  let err := u64 (al - orig) in
  if err <? SIZEOF_OFFSET then
    let al := KrtlAlignUpToPowerOfTwo (u64 (al + u64 (SIZEOF_OFFSET - err))) Alignment in
    (al, u64 (al - orig))
  else (al, err).

(** The located header (0 for none) and the aligned payload address. *)
Fixpoint HeapLocateAlignedFreeOfSizeFrom (fuel : nat) (h : Heap) (pRef N Alignment : Z)
    : outcome (Z * Z) :=
  match fuel with
  | O => Hang
  | S fuel' =>
      if pRef =? 0 then Done (0, 0)
      else
        x ← rd h pRef;
        let '(al, err) := aligned_payload pRef Alignment in
        if bFree x && (u64 (PayloadSize x - err) >=? N) then Done (pRef, al)
        else HeapLocateAlignedFreeOfSizeFrom fuel' h (pNext x) N Alignment
  end.

Definition HeapCanSplitAt (h : Heap) (pRef Offset : Z) : outcome bool :=
  x ← rd h pRef;
  let AddrAbsNd := u64 (pRef + SIZEOF_HEADER + PayloadSize x) in
  if Offset >? u64 (AddrAbsNd - pRef) then Done false
  else
    let AddrInTrench := u64 (pRef + Offset) in
    let Difference := u64 (AddrAbsNd - AddrInTrench) in
    Done (Difference >=? HEAP_MIN_PAYLOAD_SIZE + SIZEOF_HEADER).

Definition HeapTrySplitAt (h : Heap) (pRef Offset : Z) : outcome (Heap * bool) :=
  can ← HeapCanSplitAt h pRef Offset;
  if negb can then Done (h, false)
  else
    x ← rd h pRef;
    let AddrAbsNd := u64 (pRef + SIZEOF_HEADER + PayloadSize x) in
    let AddrInto := u64 (pRef + Offset) in
    let EndToCutDiff := u64 (AddrAbsNd - AddrInto) in
    h ← wr h AddrInto (mkHdr pRef (pNext x) (u64 (EndToCutDiff - SIZEOF_HEADER)) true);
    h ← (if negb (pNext x =? 0) then n ← rd h (pNext x); wr h (pNext x) (with_prev n AddrInto) else Done h);
    x ← rd h pRef;
    h ← wr h pRef (with_next x AddrInto);
    x ← rd h pRef;
    h ← wr h pRef (with_size x (u64 (PayloadSize x - EndToCutDiff)));
    Done (h, true).

Definition HeapAlignedAcquire (fuel : nat) (h : Heap) (N Alignment : Z) : outcome (Heap * Z) :=
  if (N =? 0) || (Alignment =? 0) || negb (Z.land Alignment (u32 (Alignment - 1)) =? 0)
  then Done (h, 0)
  else
    let N := if N <? HEAP_MIN_PAYLOAD_SIZE then HEAP_MIN_PAYLOAD_SIZE else N in
    let N := KrtlAlignUpToPowerOfTwo N Alignment in
    '(pHeader, al) ← HeapLocateAlignedFreeOfSizeFrom fuel h (RootHeader h) N Alignment;
    if pHeader =? 0 then Done (h, 0)
    else
      let ResultDistToHeader := u64 (al - pHeader) in
      if ResultDistToHeader >? MAX_offset_to_meta then Done (h, 0)
      else
        let h := set_words h (<[u64 (al - SIZEOF_OFFSET) := u16 ResultDistToHeader]> (words h)) in
        '(h, _) ← HeapTrySplitAt h pHeader (u64 (u64 (al + N) - pHeader));
        x ← rd h pHeader;
        h ← wr h pHeader (with_free x false);
        Done (h, al).

Definition HeapAcquire (fuel : nat) (h : Heap) (N : Z) : outcome (Heap * Z) :=
  HeapAlignedAcquire fuel h N HEAP_DEFAULT_ALIGNMENT.

(** Both reacquire functions return NULLPTR in the code. *)
Definition HeapAlignedReAcquire (h : Heap) (Ptr N Alignment : Z) : Heap * Z := (h, 0).
Definition HeapReAcquire (h : Heap) (Ptr N : Z) : Heap * Z :=
  HeapAlignedReAcquire h Ptr N HEAP_DEFAULT_ALIGNMENT.

Definition HeapRelinquish (h : Heap) (Ptr : Z) : outcome (Heap * bool) :=
  if (Ptr <? VaddrHeapSt h) || (Ptr >=? VaddrHeapNd h) then Done (h, false)
  else
    OffsetToHeader ← checked (words h !! u64 (Ptr - SIZEOF_OFFSET));
    let pHeader := u64 (Ptr - OffsetToHeader) in
    x ← rd h pHeader;
    if bFree x then Done (h, false)
    else
      h ← wr h pHeader (with_free x true);
      let pMyPrev := pPrev x in
      let pMyNext := pNext x in
      prev_free ← (if negb (pMyPrev =? 0) then p ← rd h pMyPrev; Done (bFree p) else Done false);
      '(h, pHeader) ←
        (if prev_free : bool then
           p ← rd h pMyPrev;
           x ← rd h pHeader;
           h ← wr h pMyPrev (with_size p (u64 (PayloadSize p + u64 (PayloadSize x + SIZEOF_HEADER))));
           p ← rd h pMyPrev;
           h ← wr h pMyPrev (with_next p pMyNext);
           n ← rd h pMyNext;
           h ← wr h pMyNext (with_prev n pMyPrev);
           Done (h, pMyPrev)
         else Done (h, pHeader));
      next_free ← (if negb (pMyNext =? 0) then n ← rd h pMyNext; Done (bFree n) else Done false);
      if next_free : bool then
        n ← rd h pMyNext;
        x ← rd h pHeader;
        h ← wr h pHeader (with_size x (u64 (PayloadSize x + u64 (PayloadSize n + SIZEOF_HEADER))));
        x ← rd h pHeader;
        h ← wr h pHeader (with_next x (pNext n));
        h ← (if negb (pNext n =? 0) then nn ← rd h (pNext n); wr h (pNext n) (with_prev nn pHeader) else Done h);
        Done (h, true)
      else Done (h, true).

(** ** Concrete runs *)

Definition heap_fuel : nat := 50.
Definition heap_start : Heap :=
  match HeapInit heap_zero 1 with Done (h, _) => h | _ => heap_zero end.

(** An alignment larger than the block: the unsigned subtraction underflows and
    the returned payload lies beyond the 64-byte free block at the end. *)
Definition tiny_heap : Heap :=
  mkHeap true 0x1000 0x1000 0x1059 {[0x1000 := mkHdr 0 0 64 true]} ∅.
Example heap_alignment_overrun :
  exists h, HeapAlignedAcquire heap_fuel tiny_heap 32 4096 = Done (h, 0x2000).
Proof. eexists. vm_compute. reflexivity. Qed.

(** Freeing the last block when its predecessor is free dereferences the null
    next pointer. *)
Definition end_heap : Heap :=
  mkHeap true 0x1000 0x1000 0x10B2
    {[0x1000 := mkHdr 0 0x1059 64 true; 0x1059 := mkHdr 0x1000 0 64 false]} {[0x107E := 0x27]}.
Example heap_free_last_faults : HeapRelinquish end_heap 0x1080 = Fault.
Proof. vm_compute. reflexivity. Qed.
