(* ===== verification/HeapSpec.v ===== *)
(** * The heap as a list of blocks: invariant and refinement

    [heap_rep h bs] relates the pointer structure of Heap.v to a list of
    contiguous blocks that tile the heap's range. *)
From Stdlib Require Import ZArith Lia.
From stdpp Require Import base numbers list gmap.
From S2P Require Import Prelude KrtlMem Pte Heap.
Open Scope Z_scope.

(** ** Abstract blocks *)

(** [b_use] is the payload pointer and size of an allocated block. *)
Record block := mkBlk { b_addr : Z; b_size : Z; b_use : option (Z * Z) }.

Definition b_free (b : block) : bool := match b_use b with None => true | Some _ => false end.
Definition b_end (b : block) : Z := b_addr b + SIZEOF_HEADER + b_size b.

(** The blocks tile [[a, nd)]. *)
Fixpoint laid (a nd : Z) (bs : list block) : Prop :=
  match bs with
  | [] => a = nd
  | b :: bs' => b_addr b = a /\ HEAP_MIN_PAYLOAD_SIZE <= b_size b /\ laid (b_end b) nd bs'
  end.

Definition hd_addr (bs : list block) (nxt : Z) : Z := match bs with [] => nxt | b :: _ => b_addr b end.
Definition last_addr (bs : list block) (prev : Z) : Z := match last bs with Some b => b_addr b | None => prev end.

(** The headers of [bs] form a doubly linked chain between [prev] and [nxt]. *)
Fixpoint chain (m : gmap Z HeapHeader) (prev : Z) (bs : list block) (nxt : Z) : Prop :=
  match bs with
  | [] => True
  | b :: bs' =>
      m !! b_addr b = Some (mkHdr prev (hd_addr bs' nxt) (b_size b) (b_free b)) /\
      chain m (b_addr b) bs' nxt
  end.

(** Payload and distance word of an allocated block. *)
Definition use_ok (w : gmap Z Z) (b : block) : Prop :=
  match b_use b with
  | None => True
  | Some (p, n) =>
      b_addr b + SIZEOF_HEADER + SIZEOF_OFFSET <= p /\ 0 < n /\ p + n <= b_end b /\
      p - b_addr b <= MAX_offset_to_meta /\ w !! (p - SIZEOF_OFFSET) = Some (p - b_addr b)
  end.

Record heap_rep (h : Heap) (bs : list block) : Prop := {
  hr_root : RootHeader h = VaddrHeapSt h;
  hr_range : 0 < VaddrHeapSt h /\ VaddrHeapNd h < 2 ^ 64;
  hr_laid : laid (VaddrHeapSt h) (VaddrHeapNd h) bs;
  hr_nonempty : bs <> [];
  hr_chain : chain (hdrs h) 0 bs 0;
  hr_words : Forall (use_ok (words h)) bs
}.

(** Arithmetic about block bounds, with the sizes unfolded. *)
Ltac heap_lia :=
  cbv beta delta [b_end SIZEOF_HEADER SIZEOF_OFFSET HEAP_MIN_PAYLOAD_SIZE MAX_offset_to_meta] in *;
  cbn [b_addr b_size b_use] in *; lia.

(** ** Layout lemmas *)

Lemma laid_app a nd l r : laid a nd (l ++ r) <-> exists mid, laid a mid l /\ laid mid nd r.
Proof.
  revert a. induction l as [|b l IH]; intros a; simpl.
  - split; [by intros H; exists a|by intros (? & -> & ?)].
  - rewrite IH. split; [intros (? & ? & mid & ? & ?)|intros (mid & (? & ? & ?) & ?)]; naive_solver.
Qed.

Lemma laid_range a nd bs : laid a nd bs -> a <= nd /\ Forall (fun b => a <= b_addr b /\ b_end b <= nd /\ HEAP_MIN_PAYLOAD_SIZE <= b_size b) bs.
Proof.
  revert a. induction bs as [|b bs IH]; intros a; simpl; [intros ->; split; [lia|constructor]|].
  intros (E & Hs & Hl). apply IH in Hl as [H1 H2].
  unfold b_end, SIZEOF_HEADER, HEAP_MIN_PAYLOAD_SIZE in *. split; [lia|]. constructor; [lia|].
  eapply Forall_impl; [exact H2|]. intros x. simpl. lia.
Qed.

Lemma laid_mid a nd l b r :
  laid a nd (l ++ b :: r) ->
  laid a (b_addr b) l /\ HEAP_MIN_PAYLOAD_SIZE <= b_size b /\ laid (b_end b) nd r.
Proof. intros (mid & H1 & H2 & H3 & H4)%laid_app. by subst. Qed.

(** Addresses of a tiled range. *)
Lemma laid_addr_in a nd bs x : laid a nd bs -> In x (map b_addr bs) -> a <= x < nd.
Proof.
  intros [_ H]%laid_range (b & <- & Hb%list_elem_of_In)%in_map_iff. rewrite Forall_forall in H.
  specialize (H b Hb). unfold b_end, SIZEOF_HEADER, HEAP_MIN_PAYLOAD_SIZE in H. simpl in H. lia.
Qed.

(** ** Chain lemmas *)

Lemma chain_app m prev l r nxt :
  chain m prev (l ++ r) nxt <-> chain m prev l (hd_addr r nxt) /\ chain m (last_addr l prev) r nxt.
Proof.
  revert prev. induction l as [|b l IH]; intros prev; simpl; [unfold last_addr; simpl; tauto|].
  rewrite IH. assert (hd_addr (l ++ r) nxt = hd_addr l (hd_addr r nxt)) as -> by (by destruct l).
  assert (last_addr (b :: l) prev = last_addr l (b_addr b)) as ->.
  { unfold last_addr. rewrite last_cons. by destruct (last l). }
  tauto.
Qed.

Lemma chain_insert m prev bs nxt a x :
  ~ In a (map b_addr bs) -> chain m prev bs nxt -> chain (<[a := x]> m) prev bs nxt.
Proof.
  revert prev. induction bs as [|b bs IH]; intros prev; simpl; [done|]. intros Hn [H1 H2].
  split; [|apply IH; tauto]. rewrite lookup_insert_ne by (intros ->; tauto). done.
Qed.

(** Changing the predecessor of the first block. *)
Lemma chain_new_prev m prev prev' c r nxt x :
  chain m prev (c :: r) nxt -> m !! b_addr c = Some x -> ~ In (b_addr c) (map b_addr r) ->
  chain (<[b_addr c := with_prev x prev']> m) prev' (c :: r) nxt.
Proof.
  simpl. intros [H1 H2] Hx Hn. rewrite H1 in Hx. simplify_eq. split.
  - by rewrite lookup_insert_eq.
  - by apply chain_insert.
Qed.

Lemma use_ok_insert w b a v :
  use_ok w b -> (forall p n, b_use b = Some (p, n) -> a <> p - SIZEOF_OFFSET) -> use_ok (<[a := v]> w) b.
Proof.
  unfold use_ok. destruct (b_use b) as [[p n]|]; [|done]. intros (?&?&?&?&?) Ha.
  split_and!; try done. rewrite lookup_insert_ne by (by eapply Ha). done.
Qed.

Lemma rd_ok h p x : 0 < p -> hdrs h !! p = Some x -> rd h p = Done x.
Proof. intros Hp Hx. unfold rd. destruct (Z.eqb_spec p 0); [lia|]. by rewrite Hx. Qed.
Lemma wr_ok h p x : 0 < p -> wr h p x = Done (set_hdrs h (<[p := x]> (hdrs h))).
Proof. intros Hp. unfold wr. by destruct (Z.eqb_spec p 0); [lia|]. Qed.

(** ** Locating a block *)

(** The fit test of HeapLocateAlignedFreeOfSizeFrom on a block. *)
Definition fits (N Alignment : Z) (b : block) : bool :=
  b_free b && (u64 (b_size b - (aligned_payload (b_addr b) Alignment).2) >=? N).

Lemma locate_spec N Al bs : forall fuel h prev,
  (length bs < fuel)%nat -> chain (hdrs h) prev bs 0 -> Forall (fun b => 0 < b_addr b) bs ->
  (HeapLocateAlignedFreeOfSizeFrom fuel h (hd_addr bs 0) N Al = Done (0, 0) /\
     Forall (fun b => fits N Al b = false) bs) \/
  exists l b r, bs = l ++ b :: r /\ fits N Al b = true /\ Forall (fun b => fits N Al b = false) l /\
    HeapLocateAlignedFreeOfSizeFrom fuel h (hd_addr bs 0) N Al =
      Done (b_addr b, (aligned_payload (b_addr b) Al).1).
Proof.
  induction bs as [|b bs IH]; intros fuel h prev Hf Hc Hpos.
  { left. destruct fuel; [simpl in Hf; lia|]. done. }
  destruct fuel as [|fuel]; [simpl in Hf; lia|]. cbn [HeapLocateAlignedFreeOfSizeFrom hd_addr].
  apply Forall_cons in Hpos as [Hb Hpos]. destruct Hc as [H1 H2].
  destruct (Z.eqb_spec (b_addr b) 0); [lia|]. rewrite (rd_ok h _ _ Hb H1), bind_Done.
  cbn [bFree PayloadSize pNext].
  assert (fits N Al b = b_free b && (u64 (b_size b - (aligned_payload (b_addr b) Al).2) >=? N)) as Ef by done.
  destruct (aligned_payload (b_addr b) Al) as [al err] eqn:Ea. cbn [fst snd] in Ef. rewrite <- Ef.
  destruct (fits N Al b) eqn:Hfit.
  - right. exists [], b, bs. rewrite Ea. done.
  - destruct (IH fuel h (b_addr b)) as [[E Hall]|(l & c & r & -> & Hc & Hl & E)]; [simpl in Hf; lia|done|done| |].
    + left. rewrite E. split; [done|]. by constructor.
    + right. exists (b :: l), c, r. split_and!; [done|done|by constructor|]. exact E.
Qed.

(** ** Updating one block, replacing one block by two *)

Lemma chain_mid m prev l b r nxt :
  chain m prev (l ++ b :: r) nxt ->
  m !! b_addr b = Some (mkHdr (last_addr l prev) (hd_addr r nxt) (b_size b) (b_free b)) /\
  chain m prev l (b_addr b) /\ chain m (b_addr b) r nxt.
Proof. intros [H1 [H2 H3]]%chain_app. done. Qed.

Lemma chain_update m prev l b b' r nxt :
  chain m prev (l ++ b :: r) nxt -> b_addr b' = b_addr b ->
  ~ In (b_addr b) (map b_addr l) -> ~ In (b_addr b) (map b_addr r) ->
  chain (<[b_addr b := mkHdr (last_addr l prev) (hd_addr r nxt) (b_size b') (b_free b')]> m)
    prev (l ++ b' :: r) nxt.
Proof.
  intros [H1 [H2 H3]]%chain_app Ea Hl Hr. apply chain_app. simpl. rewrite Ea in *. split_and!.
  - by apply chain_insert.
  - by rewrite lookup_insert_eq.
  - by apply chain_insert.
Qed.

(** The addresses around a block of a tiled range. *)
Lemma laid_fresh a nd l b r x :
  laid a nd (l ++ b :: r) -> b_addr b <= x < b_end b ->
  ~ In x (map b_addr l) /\ ~ In x (map b_addr r).
Proof.
  intros (H1 & H2 & H3)%laid_mid Hx. split; intros Hin.
  - apply (laid_addr_in _ _ _ _ H1) in Hin. lia.
  - apply (laid_addr_in _ _ _ _ H3) in Hin. lia.
Qed.

Lemma laid_bounds a nd l b r : laid a nd (l ++ b :: r) -> a <= b_addr b /\ b_end b <= nd /\ HEAP_MIN_PAYLOAD_SIZE <= b_size b.
Proof.
  intros H. pose proof (laid_mid _ _ _ _ _ H) as (H1 & H2 & H3).
  apply laid_range in H1 as [? _], H3 as [? _]. lia.
Qed.

Lemma laid_split a nd l b r n u1 u2 :
  laid a nd (l ++ b :: r) -> HEAP_MIN_PAYLOAD_SIZE <= n -> HEAP_MIN_PAYLOAD_SIZE <= b_size b - n - SIZEOF_HEADER ->
  laid a nd (l ++ mkBlk (b_addr b) n u1 :: mkBlk (b_addr b + SIZEOF_HEADER + n) (b_size b - n - SIZEOF_HEADER) u2 :: r).
Proof.
  intros (mid & H1 & H2 & H3 & H4)%laid_app Hn Hr. apply laid_app. exists mid. split; [done|].
  simpl. unfold b_end in *. simpl. split_and!; try done.
  replace (_ + (b_size b - n - SIZEOF_HEADER)) with (b_addr b + SIZEOF_HEADER + b_size b) by lia. done.
Qed.

Section Split.
Context (h : Heap) (l r : list block) (b : block) (off : Z).
Context (Hrange : 0 < VaddrHeapSt h /\ VaddrHeapNd h < 2 ^ 64).
Context (Hlaid : laid (VaddrHeapSt h) (VaddrHeapNd h) (l ++ b :: r)).
Context (Hchain : chain (hdrs h) 0 (l ++ b :: r) 0).
Context (Hoff : SIZEOF_HEADER + HEAP_MIN_PAYLOAD_SIZE <= off <= SIZEOF_HEADER + b_size b).

(** There is room for another header and a minimal payload after [off]. *)
Definition can_split : bool := b_size b - (off - SIZEOF_HEADER) >=? HEAP_MIN_PAYLOAD_SIZE + SIZEOF_HEADER.

Lemma split_facts :
  0 < b_addr b /\ b_end b < 2 ^ 64 /\
  hdrs h !! b_addr b = Some (mkHdr (last_addr l 0) (hd_addr r 0) (b_size b) (b_free b)) /\
  u64 (b_addr b + SIZEOF_HEADER + b_size b) = b_end b.
Proof using Hrange Hlaid Hchain Hoff.
  pose proof (laid_bounds _ _ _ _ _ Hlaid) as (? & ? & ?).
  unfold b_end, SIZEOF_HEADER, HEAP_MIN_PAYLOAD_SIZE in *.
  split_and!; [lia..|apply (chain_mid _ _ _ _ _ _ Hchain)|by rewrite u64_small by lia].
Qed.

Lemma can_split_eq : HeapCanSplitAt h (b_addr b) off = Done can_split.
Proof using Hrange Hlaid Hchain Hoff.
  destruct split_facts as (Hp & He & Hl & Hu). unfold HeapCanSplitAt.
  rewrite (rd_ok _ _ _ Hp Hl), bind_Done. cbn [PayloadSize]. rewrite Hu.
  unfold can_split, b_end, SIZEOF_HEADER, HEAP_MIN_PAYLOAD_SIZE in *.
  rewrite !(u64_small (_ - b_addr b)) by lia. rewrite Z.gtb_ltb.
  destruct (Z.ltb_spec (b_addr b + 25 + b_size b - b_addr b) off); [lia|].
  rewrite (u64_small (b_addr b + off)) by lia. rewrite u64_small by lia. f_equal.
  destruct (Z.geb_spec (b_addr b + 25 + b_size b - (b_addr b + off)) (32 + 25)),
    (Z.geb_spec (b_size b - (off - 25)) (32 + 25)); try done; lia.
Qed.

Lemma try_split_spec :
  exists m, HeapTrySplitAt h (b_addr b) off = Done (set_hdrs h m, can_split) /\
    if can_split then
      chain m 0 (l ++ mkBlk (b_addr b) (off - SIZEOF_HEADER) (b_use b)
                   :: mkBlk (b_addr b + off) (b_size b - off) None :: r) 0
    else m = hdrs h.
Proof using Hrange Hlaid Hchain Hoff.
  unfold HeapTrySplitAt. rewrite can_split_eq, bind_Done.
  destruct can_split eqn:Hcan; cbn [negb]; [|exists (hdrs h); split; [by destruct h|done]].
  unfold can_split in Hcan. apply Z.geb_le in Hcan.
  destruct split_facts as (Hp & He & Hl & Hu). rewrite (rd_ok _ _ _ Hp Hl), bind_Done.
  cbn [PayloadSize pNext]. rewrite Hu. pose proof He as He'.
  unfold b_end, SIZEOF_HEADER, HEAP_MIN_PAYLOAD_SIZE in He', Hcan, Hoff.
  assert (u64 (b_addr b + off) = b_addr b + off) as -> by (apply u64_small; lia).
  assert (u64 (b_end b - (b_addr b + off)) = b_size b - off + SIZEOF_HEADER) as ->.
  { unfold b_end, SIZEOF_HEADER. rewrite u64_small; lia. }
  assert (u64 (b_size b - off + SIZEOF_HEADER - SIZEOF_HEADER) = b_size b - off) as ->.
  { unfold SIZEOF_HEADER. rewrite u64_small; lia. }
  set (cut := b_addr b + off). rewrite wr_ok, bind_Done by (unfold cut; lia).
  destruct (laid_fresh _ _ _ _ _ cut Hlaid) as [Fl Fr].
  { unfold cut, b_end, SIZEOF_HEADER. lia. }
  destruct (laid_fresh _ _ _ _ _ (b_addr b) Hlaid) as [Gl Gr]; [unfold b_end, SIZEOF_HEADER; lia|].
  pose proof (chain_mid _ _ _ _ _ _ Hchain) as (_ & Cl & Cr).
  assert (cut <> b_addr b) as Hne by (unfold cut; lia).
  set (m1 := <[cut := mkHdr (b_addr b) (hd_addr r 0) (b_size b - off) true]> (hdrs h)).
  assert (exists m2, (if negb (hd_addr r 0 =? 0)
            then n ← rd (set_hdrs h m1) (hd_addr r 0); wr (set_hdrs h m1) (hd_addr r 0) (with_prev n cut)
            else Done (set_hdrs h m1)) = Done (set_hdrs h m2) /\
          m2 !! b_addr b = hdrs h !! b_addr b /\ m2 !! cut = m1 !! cut /\
          chain m2 0 l (b_addr b) /\ chain m2 cut r 0) as (m2 & -> & M1 & M2 & M3 & M4).
  { destruct r as [|c r'].
    - exists m1. split; [done|]. unfold m1. rewrite lookup_insert_ne by done. split_and!; try done.
      by apply chain_insert.
    - pose proof (laid_mid _ _ _ _ _ Hlaid) as (_ & _ & Lr).
      assert (b_end b <= b_addr c) as Hc by (destruct Lr as [-> _]; lia).
      assert (0 < b_addr c) as Hcp by (unfold b_end, SIZEOF_HEADER in Hc; lia).
      cbn [hd_addr]. destruct (Z.eqb_spec (b_addr c) 0); [lia|]. cbn [negb].
      destruct Cr as [Cr1 Cr2].
      assert (hdrs h !! b_addr c = Some (mkHdr (b_addr b) (hd_addr r' 0) (b_size c) (b_free c))) as Hcl by done.
      assert (m1 !! b_addr c = hdrs h !! b_addr c) as Ec.
      { unfold m1. apply lookup_insert_ne. intros E. apply Fr. left. done. }
      rewrite (rd_ok _ _ (mkHdr (b_addr b) (hd_addr r' 0) (b_size c) (b_free c))) by (exact Hcp || (cbn [hdrs set_hdrs]; by rewrite Ec)).
      rewrite bind_Done, wr_ok by lia.
      eexists. split; [done|]. cbn [hdrs set_hdrs].
      assert (b_addr c <> b_addr b) as Nc by (intros E; apply Gr; left; done).
      assert (b_addr c <> cut) as Nc' by (intros E; apply Fr; left; done).
      split_and!.
      + rewrite lookup_insert_ne by done. unfold m1. by rewrite lookup_insert_ne.
      + by rewrite lookup_insert_ne.
      + apply chain_insert; [|by apply chain_insert]. intros Hin.
        apply laid_mid in Hlaid as (Ll & _ & _). apply (laid_addr_in _ _ _ _ Ll) in Hin.
        unfold b_end, SIZEOF_HEADER in Hc. lia.
      + destruct (laid_fresh _ _ [] c r' (b_addr c) Lr) as [_ Fc].
        { unfold b_end, SIZEOF_HEADER. destruct Lr as (_ & Hs & _). unfold HEAP_MIN_PAYLOAD_SIZE in Hs. lia. }
        split; [by rewrite lookup_insert_eq|]. apply chain_insert; [done|].
        apply chain_insert; [|done]. intros Hin. apply Fr. by right. }
  rewrite bind_Done. rewrite Hl in M1.
  rewrite (rd_ok (set_hdrs h m2) _ _ Hp M1), bind_Done, wr_ok, bind_Done by lia. cbn [set_hdrs hdrs with_next pPrev PayloadSize bFree].
  rewrite (rd_ok _ _ (mkHdr (last_addr l 0) cut (b_size b) (b_free b))) by (done || by apply lookup_insert_eq).
  rewrite bind_Done, wr_ok, bind_Done by lia. cbn [set_hdrs hdrs with_size pPrev pNext PayloadSize bFree].
  rewrite insert_insert_eq. eexists. split; [done|].
  assert (u64 (b_size b - (b_size b - off + SIZEOF_HEADER)) = off - SIZEOF_HEADER) as ->.
  { unfold SIZEOF_HEADER. rewrite u64_small; lia. }
  apply chain_app. split; [by apply chain_insert|]. simpl. split_and!.
  - by rewrite lookup_insert_eq.
  - rewrite lookup_insert_ne by done. rewrite M2. unfold m1. by rewrite lookup_insert_eq.
  - by apply chain_insert.
Qed.
End Split.

(** ** Acquisition *)

Lemma aligned_payload_spec a k :
  0 < a -> a + 57 < 2 ^ 64 -> 0 <= k <= 4 ->
  exists err, aligned_payload a (2 ^ k) = (a + SIZEOF_HEADER + err, err) /\
    SIZEOF_OFFSET <= err <= 17 /\ (a + SIZEOF_HEADER + err) mod 2 ^ k = 0.
Proof.
  intros Ha Hb Hk. unfold aligned_payload, HeapHeaderPayloadAddress, SIZEOF_HEADER, SIZEOF_OFFSET.
  rewrite (u64_small (a + 25)) by lia.
  assert (2 ^ k <= 16) by (change 16 with (2 ^ 4); apply Z.pow_le_mono_r; lia).
  assert (0 < 2 ^ k) by (apply Z.pow_pos_nonneg; lia).
  destruct (align_up_bounds (a + 25) k ltac:(lia) ltac:(lia) ltac:(lia)) as [A1 A2].
  set (al := KrtlAlignUpToPowerOfTwo (a + 25) (2 ^ k)) in *. rewrite (u64_small (al - (a + 25))) by lia.
  destruct (Z.ltb_spec (al - (a + 25)) 2).
  - rewrite (u64_small (2 - _)) by lia.
    replace (al + (2 - (al - (a + 25)))) with (a + 27) by lia. rewrite (u64_small (a + 27)) by lia.
    destruct (align_up_bounds (a + 27) k ltac:(lia) ltac:(lia) ltac:(lia)) as [B1 B2].
    set (al2 := KrtlAlignUpToPowerOfTwo (a + 27) (2 ^ k)) in *. rewrite u64_small by lia.
    exists (al2 - (a + 25)). split_and!; [f_equal; lia|lia|lia|by replace (a + 25 + _) with al2 by lia].
  - exists (al - (a + 25)). split_and!; [f_equal; lia|lia|lia|by replace (a + 25 + _) with al by lia].
Qed.

(** The payload size a request is rounded to. *)
Definition request_size (N k : Z) : Z := KrtlAlignUpToPowerOfTwo (Z.max N HEAP_MIN_PAYLOAD_SIZE) (2 ^ k).

Lemma request_size_spec N k :
  0 < N < 2 ^ 63 -> 0 <= k <= 4 ->
  N <= request_size N k /\ HEAP_MIN_PAYLOAD_SIZE <= request_size N k < 2 ^ 63 + 64 /\
  request_size N k mod 2 ^ k = 0.
Proof.
  intros HN Hk. unfold request_size, HEAP_MIN_PAYLOAD_SIZE.
  assert (2 ^ k <= 16) by (change 16 with (2 ^ 4); apply Z.pow_le_mono_r; lia).
  destruct (align_up_bounds (Z.max N 32) k ltac:(lia) ltac:(lia) ltac:(lia)). lia.
Qed.

(** The blocks that replace a free block when [n] bytes at [p] are taken. *)
Definition alloc_blocks (b : block) (p n : Z) : list block :=
  if b_end b - (p + n) >=? HEAP_MIN_PAYLOAD_SIZE + SIZEOF_HEADER
  then [mkBlk (b_addr b) (p + n - b_addr b - SIZEOF_HEADER) (Some (p, n));
        mkBlk (p + n) (b_end b - (p + n) - SIZEOF_HEADER) None]
  else [mkBlk (b_addr b) (b_size b) (Some (p, n))].

Lemma use_ok_others w a nd l b r x v :
  laid a nd (l ++ b :: r) -> b_addr b + SIZEOF_HEADER <= x < b_end b ->
  Forall (use_ok w) (l ++ b :: r) -> Forall (use_ok (<[x := v]> w)) l /\ Forall (use_ok (<[x := v]> w)) r.
Proof.
  intros (L1 & L2 & L3)%laid_mid Hx [Hl Hr]%Forall_app. apply Forall_cons in Hr as [_ Hr].
  apply laid_range in L1 as [_ R1], L3 as [_ R3].
  unfold SIZEOF_HEADER in *. split; apply Forall_forall; intros c Hc.
  - rewrite Forall_forall in R1, Hl. specialize (R1 c Hc). specialize (Hl c Hc). simpl in R1.
    apply use_ok_insert; [done|]. intros p n Hu. unfold use_ok in Hl. rewrite Hu in Hl.
    unfold SIZEOF_OFFSET, SIZEOF_HEADER in *. lia.
  - rewrite Forall_forall in R3, Hr. specialize (R3 c Hc). specialize (Hr c Hc). simpl in R3.
    apply use_ok_insert; [done|]. intros p n Hu. unfold use_ok in Hr. rewrite Hu in Hr.
    unfold SIZEOF_OFFSET, SIZEOF_HEADER in *. lia.
Qed.

Lemma laid_same_addr a nd l b b' r :
  b_addr b' = b_addr b -> b_size b' = b_size b -> laid a nd (l ++ b :: r) -> laid a nd (l ++ b' :: r).
Proof.
  intros E1 E2. rewrite !laid_app. intros (mid & H1 & H2). exists mid. split; [done|].
  simpl in *. unfold b_end in *. by rewrite E1, E2.
Qed.

Lemma heap_positive h bs : heap_rep h bs -> Forall (fun b => 0 < b_addr b) bs.
Proof.
  intros Hr. destruct (laid_range _ _ _ (hr_laid _ _ Hr)) as [_ H]. pose proof (hr_range _ _ Hr).
  eapply Forall_impl; [exact H|]. intros b. simpl. lia.
Qed.

(** Taking [n] bytes at [p] of the free block [b]: the code after the search. *)
Lemma take_block_spec h l b r p n :
  heap_rep h (l ++ b :: r) -> b_use b = None ->
  b_addr b + SIZEOF_HEADER + SIZEOF_OFFSET <= p <= b_addr b + SIZEOF_HEADER + 17 ->
  HEAP_MIN_PAYLOAD_SIZE <= n -> p + n <= b_end b ->
  exists h',
    ('(h1, _) ← HeapTrySplitAt (set_words h (<[p - SIZEOF_OFFSET := p - b_addr b]> (words h)))
                  (b_addr b) (p + n - b_addr b);
     x ← rd h1 (b_addr b);
     h2 ← wr h1 (b_addr b) (with_free x false);
     Done (h2, p)) = Done (h', p) /\
    heap_rep h' (l ++ alloc_blocks b p n ++ r).
Proof.
  intros [R1 R2 R3 R4 R5 R6] Hu Hp Hn Hend. set (w := <[_ := _]> _).
  pose proof (laid_bounds _ _ _ _ _ R3) as (B1 & B2 & B3).
  destruct (try_split_spec (set_words h w) l r b (p + n - b_addr b) R2 R3 R5) as (m & -> & Hm).
  { unfold b_end, SIZEOF_HEADER, HEAP_MIN_PAYLOAD_SIZE, SIZEOF_OFFSET in *. lia. }
  rewrite bind_Done. destruct (laid_fresh _ _ _ _ _ (b_addr b) R3) as [Gl Gr].
  { unfold b_end, SIZEOF_HEADER, HEAP_MIN_PAYLOAD_SIZE in *. lia. }
  assert (0 < b_addr b) as Hpos by lia.
  destruct (use_ok_others (words h) _ _ l b r (p - SIZEOF_OFFSET) (p - b_addr b) R3) as [Wl Wr].
  { unfold SIZEOF_OFFSET, SIZEOF_HEADER, HEAP_MIN_PAYLOAD_SIZE in *. lia. }
  { done. }
  assert (forall size, b_addr b + SIZEOF_HEADER + size >= p + n ->
            use_ok w (mkBlk (b_addr b) size (Some (p, n)))) as Wb.
  { intros size Hsize. unfold use_ok, b_end. simpl. unfold w. rewrite lookup_insert_eq.
    unfold SIZEOF_OFFSET, SIZEOF_HEADER, MAX_offset_to_meta, HEAP_MIN_PAYLOAD_SIZE in *. split_and!; try lia. done. }
  unfold can_split in Hm. unfold alloc_blocks.
  assert ((b_size b - (p + n - b_addr b - SIZEOF_HEADER) >=? HEAP_MIN_PAYLOAD_SIZE + SIZEOF_HEADER) =
          (b_end b - (p + n) >=? HEAP_MIN_PAYLOAD_SIZE + SIZEOF_HEADER)) as E.
  { f_equal. unfold b_end. lia. }
  rewrite E in Hm. destruct (Z.geb_spec (b_end b - (p + n)) (HEAP_MIN_PAYLOAD_SIZE + SIZEOF_HEADER)) as [Hs|Hs].
  - pose proof (chain_mid _ _ _ _ _ _ Hm) as (Hl & _ & _). cbn [b_addr b_size b_use] in Hl.
    rewrite (rd_ok (set_hdrs (set_words h w) m) _ _ Hpos Hl), bind_Done, wr_ok, bind_Done by lia.
    eexists. split; [done|]. cbn [with_free pPrev pNext PayloadSize set_hdrs hdrs app].
    set (b1 := mkBlk (b_addr b) (p + n - b_addr b - SIZEOF_HEADER) (b_use b)) in *.
    set (b2 := mkBlk (b_addr b + _) _ None) in Hm.
    assert (b2 = mkBlk (p + n) (b_end b - (p + n) - SIZEOF_HEADER) None) as E2.
    { unfold b2, b_end. f_equal; lia. }
    rewrite <- E2. split; cbn [set_hdrs set_words RootHeader VaddrHeapSt VaddrHeapNd hdrs words]; try done.
    + pose proof (laid_split _ _ l b r (p + n - b_addr b - SIZEOF_HEADER) (Some (p, n)) None R3) as Hls.
      rewrite E2. unfold b_end, SIZEOF_HEADER, SIZEOF_OFFSET, HEAP_MIN_PAYLOAD_SIZE in *.
      replace (p + n) with (b_addr b + 25 + (p + n - b_addr b - 25)) at 2 by lia.
      replace (b_addr b + 25 + b_size b - (p + n) - 25) with (b_size b - (p + n - b_addr b - 25) - 25) by lia.
      apply Hls; lia.
    + by destruct l.
    + apply (chain_update m 0 l b1 (mkBlk (b_addr b) (p + n - b_addr b - SIZEOF_HEADER) (Some (p, n))) (b2 :: r) 0);
        [done|done|done|].
      simpl. intros [Hin|Hin]; [|done].
      unfold SIZEOF_OFFSET, SIZEOF_HEADER, HEAP_MIN_PAYLOAD_SIZE in *. lia.
    + apply Forall_app. split; [done|]. constructor; [apply Wb; lia|]. by constructor.
  - cbn [hdrs set_words] in Hm. subst m. pose proof (chain_mid _ _ _ _ _ _ R5) as (Hl & _ & _).
    rewrite (rd_ok (set_hdrs (set_words h w) (hdrs h)) _ _ Hpos Hl), bind_Done, wr_ok, bind_Done by lia.
    eexists. split; [done|]. cbn [with_free pPrev pNext PayloadSize set_hdrs hdrs app].
    split; cbn [set_hdrs set_words RootHeader VaddrHeapSt VaddrHeapNd hdrs words]; try done.
    + by apply (laid_same_addr _ _ l b).
    + by destruct l.
    + by apply (chain_update (hdrs h) 0 l b (mkBlk (b_addr b) (b_size b) (Some (p, n))) r 0).
    + apply Forall_app. split; [done|]. constructor; [apply Wb; unfold b_end in Hend; lia|done].
Qed.

Lemma fits_spec bs h b N k :
  heap_rep h bs -> b ∈ bs -> 0 <= k <= 4 -> HEAP_MIN_PAYLOAD_SIZE <= N ->
  exists err, aligned_payload (b_addr b) (2 ^ k) = (b_addr b + SIZEOF_HEADER + err, err) /\
    SIZEOF_OFFSET <= err <= 17 /\ (b_addr b + SIZEOF_HEADER + err) mod 2 ^ k = 0 /\
    fits N (2 ^ k) b = b_free b && (b_size b - err >=? N) /\
    0 < b_addr b /\ b_end b < 2 ^ 64 /\ HEAP_MIN_PAYLOAD_SIZE <= b_size b.
Proof.
  intros Hr Hb Hk HN. destruct (laid_range _ _ _ (hr_laid _ _ Hr)) as [_ H].
  rewrite Forall_forall in H. specialize (H b Hb). simpl in H. pose proof (hr_range _ _ Hr).
  unfold b_end, SIZEOF_HEADER, HEAP_MIN_PAYLOAD_SIZE in *.
  destruct (aligned_payload_spec (b_addr b) k) as (err & E & He & Ha); [lia|lia|done|].
  unfold SIZEOF_HEADER in *.
  exists err. split_and!; try done; try lia. unfold fits. rewrite E. cbn [snd].
  unfold SIZEOF_OFFSET in *. by rewrite u64_small by lia.
Qed.

Lemma heap_acquire_spec (h : Heap) (bs : list block) (N k : Z) (fuel : nat)
    (Hr : heap_rep h bs) (HN : 0 < N < 2 ^ 63) (Hk : 0 <= k <= 4) (Hf : (length bs < fuel)%nat) :
  let n := request_size N k in
  (exists h' p l b r, HeapAlignedAcquire fuel h N (2 ^ k) = Done (h', p) /\
     bs = l ++ b :: r /\ b_use b = None /\ p mod 2 ^ k = 0 /\ N <= n /\
     b_addr b + SIZEOF_HEADER + SIZEOF_OFFSET <= p /\ p + n <= b_end b /\
     heap_rep h' (l ++ alloc_blocks b p n ++ r)) \/
  (HeapAlignedAcquire fuel h N (2 ^ k) = Done (h, 0) /\
     Forall (fun b => b_use b = None -> b_size b < n + 17) bs).
Proof.
  intros n. destruct (request_size_spec N k HN Hk) as (N1 & N2 & N3). fold n in N1, N2, N3.
  assert (2 ^ k <= 16) by (change 16 with (2 ^ 4); apply Z.pow_le_mono_r; lia).
  assert (0 < 2 ^ k) by (apply Z.pow_pos_nonneg; lia).
  unfold HeapAlignedAcquire. destruct (Z.eqb_spec N 0); [lia|]. destruct (Z.eqb_spec (2 ^ k) 0); [lia|].
  rewrite (u32_small (2 ^ k - 1)), land_ones_mod, Z_mod_same_full by lia. cbn [negb orb Z.eqb].
  replace (if N <? HEAP_MIN_PAYLOAD_SIZE then HEAP_MIN_PAYLOAD_SIZE else N) with (Z.max N HEAP_MIN_PAYLOAD_SIZE)
    by (destruct (Z.ltb_spec N HEAP_MIN_PAYLOAD_SIZE); lia).
  fold (request_size N k). fold n. rewrite (hr_root _ _ Hr).
  assert (VaddrHeapSt h = hd_addr bs 0) as ->.
  { pose proof (hr_laid _ _ Hr). pose proof (hr_nonempty _ _ Hr). destruct bs as [|b bs]; [done|]. simpl in *. naive_solver. }
  destruct (locate_spec n (2 ^ k) bs fuel h 0 Hf (hr_chain _ _ Hr) (heap_positive _ _ Hr))
    as [[-> Hall]|(l & b & r & -> & Hfit & _ & ->)]; rewrite bind_Done.
  - right. split; [done|]. apply Forall_forall. intros b Hb Hu. rewrite Forall_forall in Hall.
    specialize (Hall b Hb). simpl in Hall. destruct (fits_spec bs h b n k Hr Hb Hk) as (err & _ & He & _ & E & _); [lia|].
    rewrite E in Hall. unfold b_free in Hall. rewrite Hu in Hall. destruct (Z.geb_spec (b_size b - err) n); [done|lia].
  - left. destruct (fits_spec _ h b n k Hr ltac:(set_solver) Hk) as (err & Ea & He & Hal & E & Hpos & Hlt & Hmin); [lia|].
    rewrite E in Hfit. apply andb_true_iff in Hfit as [Hfree Hsz%Z.geb_le].
    assert (b_use b = None) as Hu by (unfold b_free in Hfree; by destruct (b_use b)).
    rewrite Ea. cbn [fst]. destruct (Z.eqb_spec (b_addr b) 0); [lia|].
    set (p := b_addr b + SIZEOF_HEADER + err) in *.
    assert (p + n <= b_end b) as Hend by (unfold p, b_end; lia).
    assert (p - b_addr b = SIZEOF_HEADER + err) as Hpd by (unfold p; lia).
    unfold SIZEOF_HEADER, SIZEOF_OFFSET, HEAP_MIN_PAYLOAD_SIZE in He, Hpd, N2.
    rewrite (u64_small (p - b_addr b)), Z.gtb_ltb by lia.
    destruct (Z.ltb_spec MAX_offset_to_meta (p - b_addr b)) as [Hbad|_]; [unfold MAX_offset_to_meta in Hbad; lia|].
    rewrite (u64_small (p - SIZEOF_OFFSET)), (u16_small (p - b_addr b)) by (unfold SIZEOF_OFFSET; lia).
    rewrite (u64_small (p + n)), (u64_small (p + n - b_addr b)) by lia.
    destruct (take_block_spec h l b r p n Hr Hu) as (h' & -> & Hr'); [unfold p, SIZEOF_OFFSET; lia|apply N2|done|].
    exists h', p, l, b, r. split_and!; try done. unfold p, SIZEOF_OFFSET. lia.
Qed.

(** ** Relinquishing *)

Definition freed (b : block) : block := mkBlk (b_addr b) (b_size b) None.
Definition merge (a b : block) : block := mkBlk (b_addr a) (b_size a + SIZEOF_HEADER + b_size b) None.

(** The block list after the block [b] between [l] and [r] is freed. *)
Definition merge_prev (l : list block) (b : block) : list block * block :=
  match last l with
  | Some a => if b_free a then (removelast l, merge a b) else (l, b)
  | None => (l, b)
  end.
Definition merge_next (b : block) (r : list block) : block * list block :=
  match r with
  | c :: r' => if b_free c then (merge b c, r') else (b, r)
  | [] => (b, r)
  end.
Definition free_blocks (l : list block) (b : block) (r : list block) : list block :=
  let '(l1, b1) := merge_prev l (freed b) in
  let '(b2, r2) := merge_next b1 r in
  l1 ++ b2 :: r2.

Lemma laid_merge a nd l x y r : laid a nd (l ++ x :: y :: r) -> laid a nd (l ++ merge x y :: r).
Proof.
  rewrite !laid_app. intros (mid & H1 & H2 & H3 & H4 & H5 & H6). exists mid. split; [done|].
  unfold merge. simpl. split_and!; [done|heap_lia|].
  unfold b_end in *. simpl in *. rewrite H4 in H6.
  replace (_ + (b_size x + SIZEOF_HEADER + b_size y)) with (b_addr x + SIZEOF_HEADER + b_size x + SIZEOF_HEADER + b_size y) by lia.
  done.
Qed.

(** The predecessor field of the first header of [r] set to [p]. *)
Definition set_head_prev (m : gmap Z HeapHeader) (r : list block) (p : Z) : gmap Z HeapHeader :=
  match r with
  | c :: _ => match m !! b_addr c with Some x => <[b_addr c := with_prev x p]> m | None => m end
  | [] => m
  end.

Lemma merge_chain m a0 nd prev l x y r nxt :
  laid a0 nd (l ++ x :: y :: r) -> chain m prev (l ++ x :: y :: r) nxt ->
  chain (set_head_prev (<[b_addr x := mkHdr (last_addr l prev) (hd_addr r nxt) (b_size (merge x y)) true]> m)
           r (b_addr x)) prev (l ++ merge x y :: r) nxt.
Proof.
  intros Hlaid Hc. pose proof (laid_merge _ _ _ _ _ _ Hlaid) as Hlm.
  destruct (laid_fresh _ _ _ _ _ (b_addr x) Hlm) as [Fl Fr].
  { apply laid_bounds in Hlm as (_ & _ & ?). unfold merge in *. heap_lia. }
  pose proof (chain_mid _ _ _ _ _ _ Hc) as (_ & Cl & Cyr). destruct Cyr as [_ Cr].
  set (m1 := <[b_addr x := _]> m).
  assert (chain m1 prev l (b_addr x)) as Cl1 by (by apply chain_insert).
  assert (chain m1 (b_addr y) r nxt) as Cr1 by (by apply chain_insert).
  assert (m1 !! b_addr x = Some (mkHdr (last_addr l prev) (hd_addr r nxt) (b_size (merge x y)) true)) as Hx
    by (apply lookup_insert_eq).
  destruct r as [|c r]; cbn [set_head_prev].
  - apply chain_app. split; [done|]. simpl. done.
  - destruct Cr1 as [Hc1 Cr1]. rewrite Hc1. apply chain_app.
    pose proof (laid_mid _ _ _ _ _ Hlm) as (Ll & _ & Lr).
    assert (b_addr c <> b_addr x) as Nx by (intros E; apply Fr; by left).
    assert (HEAP_MIN_PAYLOAD_SIZE <= b_size c) as Hsc by (destruct Lr as (_ & ? & _); done).
    destruct (laid_fresh _ _ [] c r (b_addr c) Lr) as [_ Fc].
    { unfold b_end, SIZEOF_HEADER, HEAP_MIN_PAYLOAD_SIZE in *. lia. }
    simpl. split_and!.
    + apply chain_insert; [|done]. intros Hin. apply (laid_addr_in _ _ _ _ Ll) in Hin.
      destruct Lr as [E _]. apply laid_bounds in Hlm as (_ & _ & ?). unfold merge in *. heap_lia.
    + by rewrite lookup_insert_ne.
    + by rewrite lookup_insert_eq.
    + by apply chain_insert.
Qed.

(** Merging keeps everything but the two blocks. *)
Lemma merge_rep h l x y r :
  heap_rep h (l ++ x :: y :: r) -> b_use x = None ->
  heap_rep (set_hdrs h (set_head_prev
    (<[b_addr x := mkHdr (last_addr l 0) (hd_addr r 0) (b_size (merge x y)) true]> (hdrs h)) r (b_addr x)))
    (l ++ merge x y :: r).
Proof.
  intros [R1 R2 R3 R4 R5 R6] Hu. split; simpl; try done.
  - by apply laid_merge.
  - by destruct l.
  - by eapply merge_chain.
  - apply Forall_app in R6 as [Wl [_ [_ Wr]%Forall_cons]%Forall_cons]. apply Forall_app. split; [done|].
    by constructor.
Qed.

(** Header facts at a block of a represented heap. *)
Lemma rep_header h l b r :
  heap_rep h (l ++ b :: r) ->
  0 < b_addr b /\ b_end b < 2 ^ 64 /\ HEAP_MIN_PAYLOAD_SIZE <= b_size b /\
  rd h (b_addr b) = Done (mkHdr (last_addr l 0) (hd_addr r 0) (b_size b) (b_free b)).
Proof.
  intros [R1 R2 R3 R4 R5 R6]. pose proof (laid_bounds _ _ _ _ _ R3) as (? & ? & ?).
  split_and!; [lia..|]. apply rd_ok; [lia|]. apply (chain_mid _ _ _ _ _ _ R5).
Qed.

Lemma free_mark_rep h l b r :
  heap_rep h (l ++ b :: r) ->
  heap_rep (set_hdrs h (<[b_addr b := mkHdr (last_addr l 0) (hd_addr r 0) (b_size b) true]> (hdrs h)))
    (l ++ freed b :: r).
Proof.
  intros [R1 R2 R3 R4 R5 R6]. pose proof (laid_bounds _ _ _ _ _ R3) as (_ & _ & Hs).
  destruct (laid_fresh _ _ _ _ _ (b_addr b) R3) as [Fl Fr].
  { unfold b_end, SIZEOF_HEADER, HEAP_MIN_PAYLOAD_SIZE in *. lia. }
  split; simpl; try done.
  - by apply (laid_same_addr _ _ l b).
  - by destruct l.
  - by apply (chain_update (hdrs h) 0 l b (freed b) r 0).
  - apply Forall_app in R6 as [Wl [_ Wr]%Forall_cons]. apply Forall_app. split; [done|]. by constructor.
Qed.

(** The store both merge branches of HeapRelinquish compute. *)
Definition merged_store (h : Heap) (l : list block) (x y : block) (r : list block) : gmap Z HeapHeader :=
  set_head_prev (<[b_addr x := mkHdr (last_addr l 0) (hd_addr r 0) (b_size (merge x y)) true]> (hdrs h))
    r (b_addr x).

Lemma merged_size x y :
  HEAP_MIN_PAYLOAD_SIZE <= b_size x -> HEAP_MIN_PAYLOAD_SIZE <= b_size y -> 0 < b_addr x ->
  b_end y < 2 ^ 64 -> b_addr y = b_end x ->
  u64 (b_size x + u64 (b_size y + SIZEOF_HEADER)) = b_size (merge x y).
Proof.
  intros Hx Hy Ha He E. unfold merge. rewrite (u64_small (b_size y + SIZEOF_HEADER)) by heap_lia. rewrite u64_small; heap_lia.
Qed.

(** Facts shared by the two merges: the headers of [x], [y] and of the block
    after them, before and after the store of the merged header. *)
Lemma merge_facts h l x y r :
  heap_rep h (l ++ x :: y :: r) -> b_use x = None ->
  0 < b_addr x /\ 0 < b_addr y /\
  rd h (b_addr x) = Done (mkHdr (last_addr l 0) (b_addr y) (b_size x) true) /\
  rd h (b_addr y) = Done (mkHdr (b_addr x) (hd_addr r 0) (b_size y) (b_free y)) /\
  u64 (b_size x + u64 (b_size y + SIZEOF_HEADER)) = b_size (merge x y) /\
  forall c r' v, r = c :: r' ->
    0 < b_addr c /\ rd (set_hdrs h (<[b_addr x := v]> (hdrs h))) (b_addr c) =
      Done (mkHdr (b_addr y) (hd_addr r' 0) (b_size c) (b_free c)).
Proof.
  intros Hr Hu. destruct (rep_header h l x (y :: r) Hr) as (X1 & X2 & X3 & X4).
  assert (l ++ x :: y :: r = (l ++ [x]) ++ y :: r) as E1 by (by rewrite <- app_assoc).
  assert (last_addr (l ++ [x]) 0 = b_addr x) as L1 by (unfold last_addr; by rewrite last_snoc).
  pose proof Hr as Hr'. rewrite E1 in Hr'. destruct (rep_header h _ y r Hr') as (Y1 & Y2 & Y3 & Y4).
  rewrite L1 in Y4. assert (b_free x = true) as Hfx by (unfold b_free; by rewrite Hu).
  rewrite Hfx in X4. pose proof (laid_mid _ _ _ _ _ (hr_laid _ _ Hr)) as (_ & _ & Ly & _ & Lr).
  split_and!; [done..| |].
  - apply merged_size; done.
  - intros c r' v ->. assert (l ++ x :: y :: c :: r' = (l ++ [x; y]) ++ c :: r') as E2 by (by rewrite <- app_assoc).
    pose proof Hr as Hr2. rewrite E2 in Hr2. destruct (rep_header h _ c r' Hr2) as (C1 & C2 & C3 & C4).
    assert (last_addr (l ++ [x; y]) 0 = b_addr y) as L2.
    { assert (l ++ [x; y] = (l ++ [x]) ++ [y]) as -> by (by rewrite <- app_assoc).
      unfold last_addr. by rewrite last_snoc. }
    split; [done|]. rewrite L2 in C4.
    rewrite <- C4. unfold rd. cbn [hdrs set_hdrs]. destruct (Z.eqb_spec (b_addr c) 0); [done|].
    rewrite lookup_insert_ne; [done|]. destruct Lr as [Ec _]. heap_lia.
Qed.

(** The branch in which the previous block swallows the freed one. *)
Lemma merge_prev_code h l x y r (k : Heap * Z -> outcome (Heap * bool)) :
  heap_rep h (l ++ x :: y :: r) -> b_use x = None ->
  (r0 ← (p ← rd h (b_addr x);
    z ← rd h (b_addr y);
    h ← wr h (b_addr x) (with_size p (u64 (PayloadSize p + u64 (PayloadSize z + SIZEOF_HEADER))));
    p ← rd h (b_addr x);
    h ← wr h (b_addr x) (with_next p (hd_addr r 0));
    n ← rd h (hd_addr r 0);
    h ← wr h (hd_addr r 0) (with_prev n (b_addr x));
    Done (h, b_addr x)); k r0) =
  match r with [] => Fault | _ => k (set_hdrs h (merged_store h l x y r), b_addr x) end.
Proof.
  intros Hr Hu. destruct (merge_facts h l x y r Hr Hu) as (X1 & Y1 & X4 & Y4 & Hs & Hc).
  rewrite X4, bind_Done, Y4, bind_Done, wr_ok, bind_Done by done.
  cbn [PayloadSize with_size pPrev pNext bFree]. rewrite Hs.
  rewrite (rd_ok _ _ (mkHdr (last_addr l 0) (b_addr y) (b_size (merge x y)) true))
    by (done || apply lookup_insert_eq).
  rewrite bind_Done, wr_ok, bind_Done by done. cbn [set_hdrs hdrs with_next pPrev PayloadSize bFree].
  rewrite insert_insert_eq. destruct r as [|c r']; [done|]. cbn [hd_addr].
  destruct (Hc c r' (mkHdr (last_addr l 0) (b_addr c) (b_size (merge x y)) true) eq_refl) as [C1 C2].
  match goal with |- context [rd ?hh (b_addr c)] => assert (rd hh (b_addr c) =
    Done (mkHdr (b_addr y) (hd_addr r' 0) (b_size c) (b_free c))) as -> by exact C2 end.
  rewrite bind_Done, wr_ok, !bind_Done by done. f_equal. f_equal. unfold merged_store, set_head_prev. cbn [hd_addr].
  unfold rd in C2. destruct (Z.eqb_spec (b_addr c) 0); [lia|]. cbn [hdrs set_hdrs] in C2.
  destruct (_ !! b_addr c) as [z|]; [|done]. simpl in C2. by simplify_eq.
Qed.

(** The branch in which a free block swallows the free block after it. *)
Lemma merge_next_code h l x y r :
  heap_rep h (l ++ x :: y :: r) -> b_use x = None ->
  (n ← rd h (b_addr y);
   z ← rd h (b_addr x);
   h ← wr h (b_addr x) (with_size z (u64 (PayloadSize z + u64 (PayloadSize n + SIZEOF_HEADER))));
   z ← rd h (b_addr x);
   h ← wr h (b_addr x) (with_next z (pNext n));
   h ← (if negb (pNext n =? 0) then nn ← rd h (pNext n); wr h (pNext n) (with_prev nn (b_addr x)) else Done h);
   Done (h, true)) = Done (set_hdrs h (merged_store h l x y r), true).
Proof.
  intros Hr Hu. destruct (merge_facts h l x y r Hr Hu) as (X1 & Y1 & X4 & Y4 & Hs & Hc).
  rewrite Y4, bind_Done, X4, bind_Done, wr_ok, bind_Done by done.
  cbn [PayloadSize with_size pPrev pNext bFree]. rewrite Hs.
  rewrite (rd_ok _ _ (mkHdr (last_addr l 0) (b_addr y) (b_size (merge x y)) true))
    by (done || apply lookup_insert_eq).
  rewrite bind_Done, wr_ok, bind_Done by done. cbn [set_hdrs hdrs with_next pPrev PayloadSize bFree].
  rewrite insert_insert_eq. destruct r as [|c r']; [done|]. cbn [hd_addr].
  destruct (Hc c r' (mkHdr (last_addr l 0) (b_addr c) (b_size (merge x y)) true) eq_refl) as [C1 C2].
  destruct (Z.eqb_spec (b_addr c) 0); [lia|]. cbn [negb].
  match goal with |- context [rd ?hh (b_addr c)] => assert (rd hh (b_addr c) =
    Done (mkHdr (b_addr y) (hd_addr r' 0) (b_size c) (b_free c))) as -> by exact C2 end.
  rewrite bind_Done, wr_ok, !bind_Done by done. f_equal. f_equal. unfold merged_store, set_head_prev. cbn [hd_addr].
  unfold rd in C2. destruct (Z.eqb_spec (b_addr c) 0); [lia|]. cbn [hdrs set_hdrs] in C2.
  destruct (_ !! b_addr c) as [z|]; [|done]. simpl in C2. by simplify_eq.
Qed.

(** The tail of HeapRelinquish: merging with the next block if it is free. *)
Lemma relinquish_tail h l b r :
  heap_rep h (l ++ b :: r) -> b_use b = None ->
  exists h',
    (next_free ← (if negb (hd_addr r 0 =? 0) then n ← rd h (hd_addr r 0); Done (bFree n) else Done false);
     if next_free : bool then
       n ← rd h (hd_addr r 0);
       x ← rd h (b_addr b);
       h ← wr h (b_addr b) (with_size x (u64 (PayloadSize x + u64 (PayloadSize n + SIZEOF_HEADER))));
       x ← rd h (b_addr b);
       h ← wr h (b_addr b) (with_next x (pNext n));
       h ← (if negb (pNext n =? 0) then nn ← rd h (pNext n); wr h (pNext n) (with_prev nn (b_addr b)) else Done h);
       Done (h, true)
     else Done (h, true)) = Done (h', true) /\
    heap_rep h' (let '(b2, r2) := merge_next b r in l ++ b2 :: r2).
Proof.
  intros Hr Hu. destruct r as [|c r]; cbn [hd_addr merge_next].
  { exists h. split; done. }
  assert (l ++ b :: c :: r = (l ++ [b]) ++ c :: r) as E by (by rewrite <- app_assoc).
  pose proof Hr as Hr'. rewrite E in Hr'. destruct (rep_header h _ c r Hr') as (C1 & _ & _ & C4).
  destruct (Z.eqb_spec (b_addr c) 0); [lia|]. cbn [negb].
  rewrite C4, !bind_Done. cbn [bFree]. destruct (b_free c) eqn:Hf.
  - pose proof (merge_next_code h l b c r Hr Hu) as Hm. rewrite C4, bind_Done in Hm.
    eexists. split; [exact Hm|]. by apply merge_rep.
  - exists h. done.
Qed.

Lemma heap_relinquish_spec (h : Heap) (l r : list block) (b : block) (p n : Z)
    (Hr : heap_rep h (l ++ b :: r)) (Hu : b_use b = Some (p, n)) :
  if bool_decide (r = []) && match last l with Some a => b_free a | None => false end
  then HeapRelinquish h p = Fault
  else exists h', HeapRelinquish h p = Done (h', true) /\ heap_rep h' (free_blocks l b r).
Proof.
  destruct (rep_header h l b r Hr) as (B1 & B2 & B3 & B4).
  pose proof (laid_bounds _ _ _ _ _ (hr_laid _ _ Hr)) as (B5 & B6 & _).
  pose proof (hr_words _ _ Hr) as W. apply Forall_app in W as [_ [W _]%Forall_cons].
  unfold use_ok in W. rewrite Hu in W. destruct W as (W1 & W2 & W3 & W4 & W5).
  unfold HeapRelinquish.
  destruct (Z.ltb_spec p (VaddrHeapSt h)); [heap_lia|]. rewrite Z.geb_leb.
  destruct (Z.leb_spec (VaddrHeapNd h) p); [heap_lia|]. cbn [orb].
  rewrite (u64_small (p - SIZEOF_OFFSET)) by heap_lia. rewrite W5. cbn [checked]. rewrite bind_Done.
  replace (p - (p - b_addr b)) with (b_addr b) by lia. rewrite (u64_small (b_addr b)) by heap_lia.
  rewrite B4, bind_Done. cbn [bFree with_free pPrev pNext PayloadSize].
  assert (b_free b = false) as -> by (unfold b_free; by rewrite Hu).
  rewrite wr_ok, bind_Done by done.
  pose proof (free_mark_rep h l b r Hr) as Hr1. set (h1 := set_hdrs h _) in *.
  change (b_addr b) with (b_addr (freed b)). unfold free_blocks.
  destruct l as [|a l _] using rev_ind.
  - change (last_addr [] 0) with 0. cbn [last app Z.eqb negb]. rewrite andb_false_r, bind_Done. cbv iota.
    rewrite bind_Done. cbn [merge_prev last]. exact (relinquish_tail h1 [] (freed b) r Hr1 eq_refl).
  - assert (last_addr (l ++ [a]) 0 = b_addr a) as -> by (unfold last_addr; by rewrite last_snoc).
    rewrite last_snoc. rewrite <- app_assoc in Hr1. cbn [app] in Hr1.
    destruct (rep_header h1 l a (freed b :: r) Hr1) as (A1 & _ & _ & A4).
    destruct (Z.eqb_spec (b_addr a) 0); [lia|]. cbn [negb].
    assert ((p ← rd h1 (b_addr a); Done (bFree p)) = Done (b_free a)) as -> by (by rewrite A4, bind_Done).
    rewrite bind_Done. unfold merge_prev. rewrite last_snoc, removelast_last.
    destruct (b_free a) eqn:Hfa; rewrite ?andb_true_r, ?andb_false_r.
    + assert (b_use a = None) as Hua by (unfold b_free in Hfa; by destruct (b_use a)).
      rewrite (merge_prev_code h1 l a (freed b) r _ Hr1 Hua).
      pose proof (merge_rep h1 l a (freed b) r Hr1 Hua) as Hr2.
      destruct r as [|c r]; [done|]. rewrite bool_decide_false by done.
      apply (relinquish_tail _ l (merge a (freed b)) (c :: r) Hr2 eq_refl).
    + rewrite bind_Done.
      apply (relinquish_tail h1 (l ++ [a]) (freed b) r); [by rewrite <- app_assoc|done].
Qed.
