(* ===== verification/HeapProps.v ===== *)
(** * Properties of the kernel heap *)
From Stdlib Require Import ZArith Lia Sorted.
From stdpp Require Import base numbers list gmap.
From S2P Require Import Prelude KrtlMem Pte Heap HeapSpec.
Open Scope Z_scope.

(** ** Live payloads *)

Definition live (bs : list block) : list (Z * Z) := omap b_use bs.
Definition payloads_disjoint (u v : Z * Z) : Prop := u.1 + u.2 <= v.1.

Lemma live_in_range w a nd bs :
  laid a nd bs -> Forall (use_ok w) bs -> Forall (fun u => a < u.1 /\ u.1 + u.2 <= nd) (live bs).
Proof.
  intros [_ H]%laid_range Hw. apply Forall_forall. intros [p n] (b & Hb & Hu)%list_elem_of_omap.
  rewrite Forall_forall in H, Hw. specialize (H b Hb). specialize (Hw b Hb). unfold use_ok in Hw. rewrite Hu in Hw.
  simpl in H. cbn [fst snd]. heap_lia.
Qed.

Lemma live_disjoint w bs : forall a nd,
  laid a nd bs -> Forall (use_ok w) bs -> ForallOrdPairs payloads_disjoint (live bs).
Proof.
  induction bs as [|b bs IH]; intros a nd Hl Hw; [constructor|].
  destruct Hl as (E & Hs & Hl). apply Forall_cons in Hw as [Hb Hw]. unfold live. simpl.
  destruct (b_use b) as [[p n]|] eqn:Hu; [|by eapply IH]. constructor; [|by eapply IH].
  pose proof (live_in_range w _ _ _ Hl Hw) as H. eapply Forall_impl; [exact H|].
  intros [q k]. unfold payloads_disjoint. simpl. unfold use_ok in Hb. rewrite Hu in Hb. heap_lia.
Qed.

(** ** Coalescing *)

Fixpoint coalesced (bs : list block) : Prop :=
  match bs with
  | b :: ((c :: _) as bs') => ~ (b_free b = true /\ b_free c = true) /\ coalesced bs'
  | _ => True
  end.

Definition head_used (r : list block) : Prop := match r with c :: _ => b_free c = false | [] => True end.
Definition last_used (l : list block) : Prop := match last l with Some a => b_free a = false | None => True end.

Lemma coalesced_cons b r : coalesced (b :: r) <-> (b_free b = true -> head_used r) /\ coalesced r.
Proof.
  destruct r as [|c r]; simpl; [tauto|]. destruct (b_free b), (b_free c); simpl; intuition congruence.
Qed.

Lemma coalesced_app l r :
  coalesced (l ++ r) <-> coalesced l /\ coalesced r /\ (last_used l \/ head_used r).
Proof.
  induction l as [|a l IH]; [unfold last_used; simpl; tauto|].
  rewrite <- app_comm_cons, !coalesced_cons, IH. destruct l as [|b l].
  - unfold last_used, head_used. simpl. destruct (b_free a); intuition congruence.
  - unfold last_used. rewrite last_cons_cons. unfold head_used at 1 2. simpl. tauto.
Qed.

Lemma head_used_free b r : b_free b = true -> head_used (b :: r) -> False.
Proof. intros H H'. simpl in H'. congruence. Qed.

(** The neighbours of a free block of a coalesced list are in use. *)
Lemma coalesced_mid l b r :
  coalesced (l ++ b :: r) -> b_free b = true -> last_used l /\ head_used r /\ coalesced l /\ coalesced r.
Proof.
  intros (H1 & H2 & H3)%coalesced_app Hf. apply coalesced_cons in H2 as [H4 H5].
  split_and!; auto. destruct H3 as [H3|H3]; [done|by apply head_used_free in H3].
Qed.

Lemma alloc_coalesced l b r p n :
  coalesced (l ++ b :: r) -> b_free b = true -> coalesced (l ++ alloc_blocks b p n ++ r).
Proof.
  intros H Hf. destruct (coalesced_mid l b r H Hf) as (H1 & H2 & H3 & H4).
  unfold alloc_blocks. destruct (_ >=? _); simpl; apply coalesced_app; (split_and!; [done| |by left]).
  - apply coalesced_cons. split; [done|]. by apply coalesced_cons.
  - by apply coalesced_cons.
Qed.

Lemma merge_prev_eq l b : last_used l -> merge_prev l b = (l, b).
Proof. unfold merge_prev, last_used. destruct (last l) as [a|]; [|done]. by intros ->. Qed.
Lemma merge_next_eq b r : head_used r -> merge_next b r = (b, r).
Proof. destruct r as [|c r]; [done|]. simpl. by intros ->. Qed.

(** Freeing what was just taken from a free block gives the list back. *)
Lemma free_alloc l b r p n :
  coalesced (l ++ b :: r) -> b_use b = None ->
  exists b' r', alloc_blocks b p n ++ r = b' :: r' /\ b_use b' = Some (p, n) /\
    free_blocks l b' r' = l ++ b :: r /\
    (bool_decide (r' = []) && match last l with Some a => b_free a | None => false end) = false.
Proof.
  intros Hc Hu. assert (b_free b = true) as Hf by (unfold b_free; by rewrite Hu).
  destruct (coalesced_mid l b r Hc Hf) as (H1 & H2 & _).
  assert (match last l with Some a => b_free a | None => false end = false) as Hl.
  { unfold last_used in H1. by destruct (last l). }
  assert (mkBlk (b_addr b) (b_size b) None = b) as Eb by (destruct b; simpl in *; by subst).
  unfold alloc_blocks. destruct (_ >=? _); simpl; eexists _, _; (split; [done|]); (split; [done|]);
    unfold free_blocks; rewrite merge_prev_eq, ?Hl, ?andb_false_r by done; (split; [|done]).
  - simpl. unfold merge. simpl. f_equal. f_equal. rewrite <- Eb. f_equal. unfold b_end. simpl. lia.
  - unfold freed. simpl. rewrite merge_next_eq, Eb by done. done.
Qed.

Lemma merge_next_coalesced l b r :
  coalesced l -> last_used l -> coalesced r -> b_free b = true ->
  coalesced (let '(b2, r2) := merge_next b r in l ++ b2 :: r2).
Proof.
  intros Hl Hlu Hr Hf. destruct r as [|c r]; simpl.
  { apply coalesced_app. split_and!; [done|done|by left]. }
  apply coalesced_cons in Hr as [Hc Hr]. destruct (b_free c) eqn:Ec.
  - apply coalesced_app. split_and!; [done| |by left]. apply coalesced_cons. auto.
  - apply coalesced_app. split_and!; [done| |by left]. apply coalesced_cons. split; [done|].
    apply coalesced_cons. split; [congruence|done].
Qed.

Lemma free_coalesced l b r :
  coalesced (l ++ b :: r) -> coalesced (free_blocks l b r).
Proof.
  intros (H1 & H2 & _)%coalesced_app. apply coalesced_cons in H2 as [_ H2]. unfold free_blocks, merge_prev.
  destruct l as [|a l _] using rev_ind; [by apply merge_next_coalesced|].
  rewrite last_snoc, removelast_last. destruct (b_free a) eqn:Ha.
  - apply coalesced_app in H1 as (H3 & _ & [H5|H5]); [|by apply head_used_free in H5].
    by apply merge_next_coalesced.
  - apply merge_next_coalesced; try done. unfold last_used. by rewrite last_snoc.
Qed.

(** ** Client runs *)

(** More fuel does not change a result. *)
Lemma locate_fuel N Al r : forall fuel fuel' h p,
  HeapLocateAlignedFreeOfSizeFrom fuel h p N Al = Done r -> (fuel <= fuel')%nat ->
  HeapLocateAlignedFreeOfSizeFrom fuel' h p N Al = Done r.
Proof.
  induction fuel as [|fuel IH]; intros fuel' h p E Hf; [done|]. destruct fuel' as [|fuel']; [lia|].
  cbn [HeapLocateAlignedFreeOfSizeFrom] in *. destruct (p =? 0); [done|].
  apply bind_Done_inv in E as (x & -> & E). rewrite bind_Done.
  destruct (aligned_payload p Al) as [al err]. destruct (_ && _); [done|]. apply IH; [done|lia].
Qed.

Lemma acquire_fuel fuel fuel' h N Al r :
  HeapAlignedAcquire fuel h N Al = Done r -> (fuel <= fuel')%nat -> HeapAlignedAcquire fuel' h N Al = Done r.
Proof.
  unfold HeapAlignedAcquire. intros E Hf. destruct (_ || _); [done|].
  apply bind_Done_inv in E as ([ph al] & E1 & E2). by rewrite (locate_fuel _ _ _ _ _ _ _ E1 Hf).
Qed.

(** The heap with the payloads (pointer and rounded size) clients hold. *)
Inductive heap_step : Heap * list (Z * Z) -> Heap * list (Z * Z) -> Prop :=
  | hs_acquire h held fuel N k h' p :
      0 < N < 2 ^ 63 -> 0 <= k <= 4 -> HeapAlignedAcquire fuel h N (2 ^ k) = Done (h', p) ->
      heap_step (h, held) (h', if p =? 0 then held else (p, request_size N k) :: held)
  | hs_relinquish h held1 held2 p n h' r :
      HeapRelinquish h p = Done (h', r) ->
      heap_step (h, held1 ++ (p, n) :: held2) (h', held1 ++ held2).

Inductive heap_reach (c0 : Heap * list (Z * Z)) : Heap * list (Z * Z) -> Prop :=
  | hr_refl : heap_reach c0 c0
  | hr_step c c' : heap_reach c0 c -> heap_step c c' -> heap_reach c0 c'.

Definition heap_good (c : Heap * list (Z * Z)) (bs : list block) : Prop :=
  heap_rep c.1 bs /\ coalesced bs /\ live bs ≡ₚ c.2.

Lemma live_app l r : live (l ++ r) = live l ++ live r.
Proof. apply omap_app. Qed.

Lemma live_merge_next b r : b_use b = None -> live (let '(b2, r2) := merge_next b r in b2 :: r2) = live r.
Proof.
  intros Hu. destruct r as [|c r]; unfold live; simpl; [by rewrite Hu|].
  destruct (b_free c) eqn:Hc; simpl; [|by rewrite Hu].
  unfold b_free in Hc. by destruct (b_use c).
Qed.

Lemma live_free_blocks l b r : live (free_blocks l b r) = live l ++ live r.
Proof.
  unfold free_blocks, merge_prev. destruct l as [|a l _] using rev_ind.
  - simpl. pose proof (live_merge_next (freed b) r eq_refl) as H. by destruct (merge_next _ _).
  - rewrite last_snoc, removelast_last. destruct (b_free a) eqn:Ha.
    + pose proof (live_merge_next (merge a (freed b)) r eq_refl) as H. destruct (merge_next _ _) as [b2 r2].
      rewrite !live_app, H. unfold b_free in Ha. unfold live at 3. simpl. by destruct (b_use a); rewrite ?app_nil_r.
    + pose proof (live_merge_next (freed b) r eq_refl) as H. destruct (merge_next _ _) as [b2 r2].
      by rewrite live_app, H.
Qed.

Lemma live_alloc b p n : live (alloc_blocks b p n) = [(p, n)].
Proof. unfold alloc_blocks. by destruct (_ >=? _). Qed.

Lemma heap_step_good c c' bs : heap_step c c' -> heap_good c bs -> exists bs', heap_good c' bs'.
Proof.
  intros [h held fuel N k h' p HN Hk E|h held1 held2 p n h' r E] (Hr & Hc & Hl); cbn [fst snd] in *.
  - apply (acquire_fuel _ (fuel + S (length bs))) in E; [|lia].
    destruct (heap_acquire_spec h bs N k (fuel + S (length bs)) Hr HN Hk)
      as [(h2 & q & l & b & r & E2 & -> & Hu & _ & _ & Hq & _ & Hr2)|[E2 _]]; [lia| |];
      rewrite E2 in E; simplify_eq.
    + destruct (rep_header h l b r Hr) as (Hpos & _).
      destruct (Z.eqb_spec p 0) as [->|_]; [heap_lia|].
      exists (l ++ alloc_blocks b p (request_size N k) ++ r). split_and!; [done| |].
      * apply alloc_coalesced; [done|]. unfold b_free. by rewrite Hu.
      * cbn [snd]. rewrite !live_app, live_alloc, <- Hl, live_app. unfold live at 4. simpl. rewrite Hu.
        by rewrite <- Permutation_middle.
    + by exists bs.
  - assert ((p, n) ∈ live bs) as Hin by (rewrite Hl; set_solver).
    apply list_elem_of_omap in Hin as (b & Hb & Hu). apply list_elem_of_split in Hb as (l & r0 & ->).
    pose proof (heap_relinquish_spec h l r0 b p n Hr Hu) as H.
    destruct (_ && _); [by rewrite H in E|]. destruct H as (h2 & E2 & Hr2). rewrite E2 in E. simplify_eq.
    exists (free_blocks l b r0). split_and!; [done|by apply free_coalesced|].
    cbn [snd]. rewrite live_free_blocks. rewrite live_app in Hl. unfold live at 2 in Hl. simpl in Hl.
    rewrite Hu in Hl. rewrite <- !Permutation_middle in Hl. by apply Permutation_cons_inv in Hl.
Qed.

Lemma heap_reach_good c0 c bs0 : heap_good c0 bs0 -> heap_reach c0 c -> exists bs, heap_good c bs.
Proof.
  intros Hg. induction 1 as [|c c' _ [bs IH] Hs]; [by exists bs0|]. by eapply heap_step_good.
Qed.

(** C12: after HeapInit, any sequence of successful acquisitions (alignment up to
    16) and relinquishments of held pointers keeps the heap a tiling of its
    range by linked blocks without adjacent free blocks, and the payloads the
    clients hold are pairwise disjoint and inside the heap's range. *)
Theorem heap_client_safety (c0 c : Heap * list (Z * Z)) (bs0 : list block)
    (H0 : heap_good c0 bs0) (Hreach : heap_reach c0 c) :
  exists bs held, heap_good c bs /\ held ≡ₚ c.2 /\ ForallOrdPairs payloads_disjoint held /\
    Forall (fun u => VaddrHeapSt c.1 < u.1 /\ u.1 + u.2 <= VaddrHeapNd c.1) held.
Proof.
  destruct (heap_reach_good c0 c bs0 H0 Hreach) as (bs & Hr & Hc & Hl).
  exists bs, (live bs). split_and!; [done|done| |].
  - eapply live_disjoint; apply Hr.
  - eapply live_in_range; apply Hr.
Qed.

(** HeapInit builds one free block that fills the range. *)
Definition heap_init_block : block := mkBlk 0xFFFFFF8000000000 (2 ^ 38 - 25) None.

Lemma heap_init_good : heap_good (heap_start, []) [heap_init_block].
Proof.
  split; [|split; done]. split.
  - reflexivity.
  - vm_compute. split; reflexivity.
  - simpl. split_and!; [reflexivity|vm_compute; discriminate|reflexivity].
  - discriminate.
  - split; [vm_compute; reflexivity|done].
  - by repeat constructor.
Defined.

(** Two blocks are acquired and the first one is given back. *)
Definition acquired (o : outcome (Heap * Z)) : Heap * Z := match o with Done r => r | _ => (heap_start, 0) end.
Definition one_block : Heap * Z := Eval vm_compute in acquired (HeapAlignedAcquire 5 heap_start 100 (2 ^ 4)).
Definition two_blocks : Heap * Z := Eval vm_compute in acquired (HeapAlignedAcquire 5 one_block.1 40 (2 ^ 0)).
Definition first_returned : Heap := Eval vm_compute in match HeapRelinquish two_blocks.1 one_block.2 with Done r => r.1 | _ => heap_start end.

Example heap_client_safety_witness :
  heap_reach (heap_start, []) (first_returned, [(two_blocks.2, 40)]) /\ two_blocks.2 <> 0 /\ two_blocks.2 <> one_block.2 /\
  exists bs held, heap_good (first_returned, [(two_blocks.2, 40)]) bs /\ held ≡ₚ [(two_blocks.2, 40)] /\ ForallOrdPairs payloads_disjoint held /\
    Forall (fun u => VaddrHeapSt first_returned < u.1 /\ u.1 + u.2 <= VaddrHeapNd first_returned) held.
Proof.
  assert (heap_reach (heap_start, []) (first_returned, [(two_blocks.2, 40)])) as Hr.
  { apply (hr_step _ (two_blocks.1, [(two_blocks.2, 40)] ++ (one_block.2, request_size 100 4) :: [])).
    - apply (hr_step _ (one_block.1, [(one_block.2, request_size 100 4)])).
      + apply (hr_step _ (heap_start, [])); [apply hr_refl|].
        apply (hs_acquire heap_start [] 5 100 4 one_block.1 one_block.2); [lia|lia|vm_compute; reflexivity].
      + apply (hs_acquire one_block.1 _ 5 40 0 two_blocks.1 two_blocks.2); [lia|lia|vm_compute; reflexivity].
    - apply (hs_relinquish two_blocks.1 [(two_blocks.2, 40)] [] one_block.2 _ first_returned true). vm_compute. reflexivity. }
  split; [exact Hr|]. split; [vm_compute; discriminate|]. split; [vm_compute; discriminate|].
  apply (heap_client_safety (heap_start, []) (first_returned, [(two_blocks.2, 40)]) [heap_init_block] heap_init_good Hr).
Defined.

(** relinquishing what HeapAcquire just returned restores the block list: on
    a heap without adjacent free blocks, a successful acquisition followed by
    HeapRelinquish of its pointer answers TRUE and the heap again represents the
    same blocks. *)
Theorem heap_acquire_relinquish_roundtrip (h h1 : Heap) (bs : list block) (N k p : Z) (fuel : nat)
    (Hr : heap_rep h bs) (Hc : coalesced bs) (HN : 0 < N < 2 ^ 63) (Hk : 0 <= k <= 4)
    (Hf : (length bs < fuel)%nat) (E : HeapAlignedAcquire fuel h N (2 ^ k) = Done (h1, p)) (Hp : p <> 0) :
  exists h2, HeapRelinquish h1 p = Done (h2, true) /\ heap_rep h2 bs.
Proof.
  destruct (heap_acquire_spec h bs N k fuel Hr HN Hk Hf)
    as [(h' & q & l & b & r & E2 & -> & Hu & _ & _ & _ & _ & Hr2)|[E2 _]]; rewrite E2 in E; simplify_eq.
  destruct (free_alloc l b r p (request_size N k) Hc Hu) as (b' & r' & Ea & Hu' & Efree & Hlast).
  rewrite Ea in Hr2. pose proof (heap_relinquish_spec h1 l r' b' p _ Hr2 Hu') as H.
  by rewrite Hlast, Efree in H.
Qed.

Definition heap_after : Heap :=
  Eval vm_compute in match HeapAcquire heap_fuel heap_start 100 with Done (h, _) => h | _ => heap_zero end.

Example heap_acquire_relinquish_roundtrip_witness :
  HeapAcquire heap_fuel heap_start 100 = Done (heap_after, 0xFFFFFF8000000020) /\
  exists h2, HeapRelinquish heap_after 0xFFFFFF8000000020 = Done (h2, true) /\ heap_rep h2 [heap_init_block].
Proof.
  split; [vm_compute; reflexivity|].
  apply (heap_acquire_relinquish_roundtrip heap_start heap_after [heap_init_block] 100 4 0xFFFFFF8000000020 heap_fuel).
  - exact (proj1 heap_init_good).
  - exact I.
  - lia.
  - lia.
  - unfold heap_fuel. simpl. lia.
  - vm_compute. reflexivity.
  - discriminate.
Defined.

(** ** The operation contracts *)

(** HeapAlignedAcquire refines the block list: for alignments up to 16 and any
    request below 2^63, on a heap that tiles its range with blocks, it either
    takes the first free block that fits and returns a payload pointer of the
    requested alignment, with the request (rounded up) inside that block behind
    its header and distance word, splitting the block when another minimal block
    fits, all other blocks unchanged; or it returns NULLPTR, changes nothing, and
    no free block has room for the request and the worst-case padding. *)
Theorem heap_acquire_refines (h : Heap) (bs : list block) (N k : Z) (fuel : nat)
    (Hr : heap_rep h bs) (HN : 0 < N < 2 ^ 63) (Hk : 0 <= k <= 4) (Hf : (length bs < fuel)%nat) :
  let n := request_size N k in
  (exists h' p l b r, HeapAlignedAcquire fuel h N (2 ^ k) = Done (h', p) /\
     bs = l ++ b :: r /\ b_use b = None /\ p mod 2 ^ k = 0 /\ N <= n /\
     b_addr b + SIZEOF_HEADER + SIZEOF_OFFSET <= p /\ p + n <= b_end b /\
     heap_rep h' (l ++ alloc_blocks b p n ++ r)) \/
  (HeapAlignedAcquire fuel h N (2 ^ k) = Done (h, 0) /\
     Forall (fun b => b_use b = None -> b_size b < n + 17) bs).
Proof. by apply heap_acquire_spec. Qed.

Example heap_acquire_refines_witness :
  let n := request_size 100 4 in
  (exists h' p l b r, HeapAlignedAcquire heap_fuel heap_start 100 (2 ^ 4) = Done (h', p) /\
     [heap_init_block] = l ++ b :: r /\ b_use b = None /\ p mod 2 ^ 4 = 0 /\ 100 <= n /\
     b_addr b + SIZEOF_HEADER + SIZEOF_OFFSET <= p /\ p + n <= b_end b /\
     heap_rep h' (l ++ alloc_blocks b p n ++ r)) \/
  (HeapAlignedAcquire heap_fuel heap_start 100 (2 ^ 4) = Done (heap_start, 0) /\
     Forall (fun b => b_use b = None -> b_size b < n + 17) [heap_init_block]).
Proof.
  apply (heap_acquire_refines heap_start [heap_init_block] 100 4 heap_fuel).
  - exact (proj1 heap_init_good).
  - lia.
  - lia.
  - unfold heap_fuel. simpl. lia.
Defined.

(** HeapRelinquish of the payload pointer of an allocated block frees that
    block and merges it with a free predecessor and a free successor, giving the
    list [free_blocks]; the one exception is the last block of the heap behind a
    free block, where the code dereferences the null successor pointer. *)
Theorem heap_relinquish_refines (h : Heap) (l r : list block) (b : block) (p n : Z)
    (Hr : heap_rep h (l ++ b :: r)) (Hu : b_use b = Some (p, n)) :
  if bool_decide (r = []) && match last l with Some a => b_free a | None => false end
  then HeapRelinquish h p = Fault
  else exists h', HeapRelinquish h p = Done (h', true) /\ heap_rep h' (free_blocks l b r).
Proof. exact (heap_relinquish_spec h l r b p n Hr Hu). Qed.

(** The heap with one block of 112 bytes taken. *)
Definition used_block : block := mkBlk 0xFFFFFF8000000000 119 (Some (0xFFFFFF8000000020, 112)).
Definition rest_block : block := mkBlk 0xFFFFFF8000000090 (2 ^ 38 - 0x90 - 25) None.

Lemma heap_after_rep : heap_rep heap_after ([] ++ used_block :: [rest_block]).
Proof.
  split.
  - reflexivity.
  - vm_compute. split; reflexivity.
  - simpl. split_and!; try reflexivity; vm_compute; discriminate.
  - discriminate.
  - simpl. split_and!; try done; vm_compute; reflexivity.
  - constructor; [|by repeat constructor]. vm_compute. split_and!; try discriminate; reflexivity.
Defined.

Example heap_relinquish_refines_witness :
  exists h', HeapRelinquish heap_after 0xFFFFFF8000000020 = Done (h', true) /\
    heap_rep h' (free_blocks [] used_block [rest_block]).
Proof. exact (heap_relinquish_refines heap_after [] [rest_block] used_block _ _ heap_after_rep eq_refl). Defined.
