(* ===== verification/Alloc.v ===== *)
(** * The contract of a memory allocator (Kernel/Include/Memory/Krnlheap.h)

    What the kernel's components rely on when they acquire memory, as a class,
    and the kernel heap as its instance. *)
From Stdlib Require Import ZArith Lia Sorted.
From stdpp Require Import base numbers list gmap.
From S2P Require Import Prelude KrtlMem Heap HeapSpec HeapProps.
Open Scope Z_scope.

(** Address and size of ranges that do not meet. *)
Definition apart (u v : Z * Z) : Prop := u.1 + u.2 <= v.1 \/ v.1 + v.2 <= u.1.

(** [al_live m B h l]: the ranges [l] are in use and [h] can serve [m] more
    requests of at most [B] bytes each. *)
Class Allocator (H : Type) := {
  al_acquire : H -> Z -> Z -> outcome (H * Z);
  al_range : H -> Z * Z;
  al_live : nat -> Z -> H -> list (Z * Z) -> Prop;
  al_inside : forall m B h l, al_live m B h l -> Forall (fun u => (al_range h).1 < u.1 /\ 0 < u.2 /\ u.1 + u.2 <= (al_range h).2) l;
  al_apart : forall m B h l i j u v, al_live m B h l -> l !! i = Some u -> l !! j = Some v -> i <> j -> apart u v;
  al_spec : forall m B h l N k, al_live (S m) B h l -> 0 < N <= B -> 0 <= k <= 4 ->
    exists h' p n, al_acquire h N (2 ^ k) = Done (h', p) /\ al_range h' = al_range h /\
      p <> 0 /\ p mod 2 ^ k = 0 /\ N <= n /\ al_live m B h' ((p, n) :: l)
}.

Lemma ord_pairs_nth {A} (R : A -> A -> Prop) l : ForallOrdPairs R l -> forall i j u v,
  (i < j)%nat -> l !! i = Some u -> l !! j = Some v -> R u v.
Proof.
  induction 1 as [|x l Hx _ IH]; intros i j u v Hij Hi Hj; [done|]. destruct j as [|j]; [lia|]. destruct i as [|i].
  - injection Hi as <-. rewrite Forall_forall in Hx. apply Hx. by eapply list_elem_of_lookup_2.
  - apply (IH i j); [lia|done|done].
Qed.

(** ** The heap *)

Definition span (h : Heap) : Z * Z := (VaddrHeapSt h, VaddrHeapNd h).

Lemma wr_span h q x h' : wr h q x = Done h' -> span h' = span h.
Proof. unfold wr. destruct (q =? 0); [done|]. by intros [= <-]. Qed.
Lemma split_span h q off h' b : HeapTrySplitAt h q off = Done (h', b) -> span h' = span h.
Proof.
  unfold HeapTrySplitAt. destruct (HeapCanSplitAt h q off) as [c| | |]; [|done..]. rewrite bind_Done.
  destruct (negb c); [by intros [= <- _]|]. destruct (rd h q) as [x| | |]; [|done..]. rewrite bind_Done.
  destruct (wr h _ _) as [h1| | |] eqn:E1; [|done..]. rewrite bind_Done. apply wr_span in E1.
  destruct (if negb _ then _ else _) as [h2| | |] eqn:E2; [|done..]. rewrite bind_Done.
  assert (span h2 = span h1) as E2'.
  { destruct (negb _); [|by injection E2 as <-]. destruct (rd h1 _) as [y| | |]; [|done..]. rewrite bind_Done in E2. by eapply wr_span. }
  destruct (rd h2 q) as [y| | |]; [|done..]. rewrite bind_Done.
  destruct (wr h2 _ _) as [h3| | |] eqn:E3; [|done..]. rewrite bind_Done. apply wr_span in E3.
  destruct (rd h3 q) as [z| | |]; [|done..]. rewrite bind_Done.
  destruct (wr h3 _ _) as [h4| | |] eqn:E4; [|done..]. rewrite bind_Done. apply wr_span in E4. intros [= <- _]. congruence.
Qed.
Lemma acquire_span fuel h N A h' p : HeapAlignedAcquire fuel h N A = Done (h', p) -> span h' = span h.
Proof.
  unfold HeapAlignedAcquire. destruct (_ || _); [by intros [= <- _]|].
  destruct (HeapLocateAlignedFreeOfSizeFrom _ _ _ _ _) as [[q al]| | |]; [|done..]. rewrite bind_Done.
  destruct (q =? 0); [by intros [= <- _]|]. destruct (_ >? _); [by intros [= <- _]|].
  destruct (HeapTrySplitAt _ _ _) as [[h1 b]| | |] eqn:E1; [|done..]. rewrite bind_Done. apply split_span in E1.
  destruct (rd h1 q) as [x| | |]; [|done..]. rewrite bind_Done.
  destruct (wr h1 _ _) as [h2| | |] eqn:E2; [|done..]. rewrite bind_Done. apply wr_span in E2. intros [= <- _]. rewrite E2, E1. done.
Qed.

(** Bytes that one request of [B] bytes can take from a block at most. *)
Definition request_cost (B : Z) : Z := B + 0x10100.
Definition roomy (m : nat) (B : Z) (bs : list block) : Prop :=
  m = 0%nat \/ exists b, b ∈ bs /\ b_use b = None /\ Z.of_nat m * request_cost B <= b_size b.
Definition heap_live (fuel m : nat) (B : Z) (h : Heap) (l : list (Z * Z)) : Prop :=
  exists bs, heap_rep h bs /\ live bs ≡ₚ l /\ (length bs + m < fuel)%nat /\ B < 2 ^ 62 /\ roomy m B bs.

Lemma heap_inside fuel m B h l : heap_live fuel m B h l -> Forall (fun u => (span h).1 < u.1 /\ 0 < u.2 /\ u.1 + u.2 <= (span h).2) l.
Proof.
  intros (bs & Hr & <- & _). pose proof (hr_laid _ _ Hr) as Hl. pose proof (hr_words _ _ Hr) as Hw.
  pose proof (live_in_range _ _ _ _ Hl Hw) as H. rewrite Forall_forall in H |- *. intros [p n] Hu. specialize (H _ Hu). cbn [fst snd span] in *.
  apply list_elem_of_omap in Hu as (b & Hb & Hu). rewrite Forall_forall in Hw. specialize (Hw b Hb). unfold use_ok in Hw. rewrite Hu in Hw. lia.
Qed.
Lemma heap_apart fuel m B h l i j u v : heap_live fuel m B h l -> l !! i = Some u -> l !! j = Some v -> i <> j -> apart u v.
Proof.
  intros (bs & Hr & Hp & _) Hi Hj Hij. pose proof (live_disjoint _ _ _ _ (hr_laid _ _ Hr) (hr_words _ _ Hr)) as Ho.
  symmetry in Hp. apply Permutation_inj in Hp as [_ (f & Hf & Hl)]. rewrite Hl in Hi, Hj.
  destruct (decide (f i < f j)%nat); [left; by apply (ord_pairs_nth _ _ Ho (f i) (f j))|].
  assert (f i <> f j) by (intros E; by apply Hf in E). right. apply (ord_pairs_nth _ _ Ho (f j) (f i)); [lia|done|done].
Qed.

Lemma live_take l b r p n : b_use b = None -> live (l ++ alloc_blocks b p n ++ r) ≡ₚ (p, n) :: live (l ++ b :: r).
Proof.
  intros Hb. unfold live. rewrite !omap_app. cbn [omap list_omap]. rewrite Hb.
  assert (omap b_use (alloc_blocks b p n) = [(p, n)]) as -> by (unfold alloc_blocks; by destruct (_ >=? _)).
  symmetry. apply Permutation_middle.
Qed.

(** The big block survives a request, or what is left of it does. *)
Lemma roomy_alloc m B w l b r p n : roomy (S m) B (l ++ b :: r) -> b_use b = None -> 0 <= B -> n <= B + 64 ->
  Forall (use_ok w) (l ++ alloc_blocks b p n ++ r) -> roomy m B (l ++ alloc_blocks b p n ++ r).
Proof.
  intros [|(c & Hc & Hu & Hs)] Hb HB Hn Hw; [done|]. destruct m as [|m]; [by left|]. right. unfold request_cost in *.
  rewrite elem_of_app, elem_of_cons in Hc. destruct Hc as [Hc|[->|Hc]]; [|clear Hu|].
  1,3: exists c; split; [rewrite !elem_of_app; tauto|]; split; [done|lia].
  apply Forall_app in Hw as [_ Hw]. apply Forall_app in Hw as [Hw _]. unfold alloc_blocks in *.
  destruct (Z.geb_spec (b_end b - (p + n)) (HEAP_MIN_PAYLOAD_SIZE + SIZEOF_HEADER)) as [Hge|Hlt];
    apply Forall_cons in Hw as [(H1 & _ & _ & H2 & _) _]; unfold MAX_offset_to_meta in H2; cbn [b_addr] in *.
  - exists (mkBlk (p + n) (b_end b - (p + n) - SIZEOF_HEADER) None). split; [rewrite !elem_of_app; set_solver|]. split; [done|]. heap_lia.
  - exfalso. heap_lia.
Qed.

Lemma heap_spec fuel m B h l N k : heap_live fuel (S m) B h l -> 0 < N <= B -> 0 <= k <= 4 ->
  exists h' p n, HeapAlignedAcquire fuel h N (2 ^ k) = Done (h', p) /\ span h' = span h /\
    p <> 0 /\ p mod 2 ^ k = 0 /\ N <= n /\ heap_live fuel m B h' ((p, n) :: l).
Proof.
  intros (bs & Hr & Hp & Hf & HB & Hroom) HN Hk.
  assert (2 ^ k <= 16) as Hk16 by (change 16 with (2 ^ 4); apply Z.pow_le_mono_r; lia).
  assert (request_size N k <= B + 64) as Hrs.
  { unfold request_size, HEAP_MIN_PAYLOAD_SIZE. destruct (align_up_bounds (Z.max N 32) k ltac:(lia) ltac:(lia) ltac:(lia)). lia. }
  destruct (heap_acquire_spec h bs N k fuel Hr ltac:(lia) Hk) as [(h' & p & bl & b & br & E & -> & Hb & Hm & Hn & Hlo & Hhi & Hr')|[E Hsmall]]; [lia| |].
  - exists h', p, (request_size N k). split; [done|]. split; [by eapply acquire_span|].
    pose proof (hr_range _ _ Hr) as [R1 _]. pose proof (laid_range _ _ _ (hr_laid _ _ Hr)) as [_ Ha].
    apply Forall_app in Ha as [_ Ha]. apply Forall_cons in Ha as [[Ha _] _].
    split; [unfold SIZEOF_HEADER, SIZEOF_OFFSET in *; lia|]. do 2 (split; [done|]).
    exists (bl ++ alloc_blocks b p (request_size N k) ++ br). split; [done|]. split; [by rewrite live_take, Hp|].
    rewrite !length_app in *. cbn [length] in Hf.
    assert (length (alloc_blocks b p (request_size N k)) <= 2)%nat by (unfold alloc_blocks; destruct (_ >=? _); cbn; lia).
    split; [lia|]. split; [done|]. eapply roomy_alloc; [done..|lia|done|by apply (hr_words _ _ Hr')].
  - exfalso. destruct Hroom as [|(c & Hc & Hu & Hs)]; [done|]. rewrite Forall_forall in Hsmall. specialize (Hsmall c Hc Hu).
    unfold request_cost in Hs. nia.
Qed.

(** The kernel heap keeps the contract. *)
#[export] Instance heap_allocator (fuel : nat) : Allocator Heap := {
  al_acquire := HeapAlignedAcquire fuel;
  al_range := span;
  al_live := heap_live fuel;
  al_inside := heap_inside fuel;
  al_apart := heap_apart fuel;
  al_spec := heap_spec fuel
}.
