(* ===== verification/Vmr.v ===== *)
(** * Virtual memory regions (Kernel/Source/Memory/Virtmemmgmt.c) and the region
    node allocator (Kernel/Source/Memory/PrivateVMM/RegionNodeAllocator.h)

    Region nodes and the allocator's meta slots are stores keyed by virtual
    address, so that aliasing is visible; each address space owns a doubly
    linked list of nodes. *)
From Stdlib Require Import ZArith Lia String.
From stdpp Require Import base numbers list gmap.
From S2P Require Import Prelude PhysBitmap KrtlMem BootstrapArena MemoryMap Physmemmgmt Pte.
Open Scope Z_scope.

(** ** State *)

Definition VMR_FLAG_CACHING_PROTOCOL : Z := 3.
Definition VMR_FLAG_PAGE_SIZE : Z := 4.
Definition VMR_FLAG_ALLOW_CODE_EXEC : Z := 8.
Definition VMR_FLAG_READABLE : Z := 16.
Definition VMR_FLAG_WRITABLE : Z := 32.
Definition VMR_FLAG_STATIC : Z := 128.
Definition VMR_FLAG_NO_DIVISION_CHECK : Z := 256.

Record KrVirtualMemoryRegion := mkVmr {
  pAddressSpace : Z; rPrev : Z; rNext : Z; Tag : string;
  VaddrStart : Z; VaddrEnd : Z; rFlags : Z
}.
Definition vmr_zero : KrVirtualMemoryRegion := mkVmr 0 0 0 "" 0 0 0.

Record KrAddressSpace := mkSpace { PaddrRoot : Z; pRootVMR : Z; pTailVMR : Z; NrVMRs : Z }.

Record KrRnaMetaSlot := mkSlot { Bitmap : Z; This : Z; rnaPrev : Z; rnaNext : Z; NrSlots : Z }.
Definition slot_zero : KrRnaMetaSlot := mkSlot 0 0 0 0 0.

Record Vmm := mkVmm {
  vPmm : Pmm;
  VirtAddrBase : Z;          (* DmapInfo.VirtAddrBase *)
  KernelPaddrRoot : Z;       (* KernelAddressSpace.PaddrRoot *)
  PatMsrState : KrPatMsrState;
  NxUnsupported : bool;
  g_RnaRootPageID : Z;
  slots : gmap Z KrRnaMetaSlot;
  nodes : gmap Z KrVirtualMemoryRegion;
  spaces : gmap Z KrAddressSpace
}.

Definition with_pmm (v : Vmm) (p : Pmm) : Vmm :=
  mkVmm p (VirtAddrBase v) (KernelPaddrRoot v) (PatMsrState v) (NxUnsupported v) (g_RnaRootPageID v) (slots v) (nodes v) (spaces v).
Definition with_root (v : Vmm) (r : Z) : Vmm :=
  mkVmm (vPmm v) (VirtAddrBase v) (KernelPaddrRoot v) (PatMsrState v) (NxUnsupported v) r (slots v) (nodes v) (spaces v).
Definition with_slots (v : Vmm) (m : gmap Z KrRnaMetaSlot) : Vmm :=
  mkVmm (vPmm v) (VirtAddrBase v) (KernelPaddrRoot v) (PatMsrState v) (NxUnsupported v) (g_RnaRootPageID v) m (nodes v) (spaces v).
Definition with_nodes (v : Vmm) (m : gmap Z KrVirtualMemoryRegion) : Vmm :=
  mkVmm (vPmm v) (VirtAddrBase v) (KernelPaddrRoot v) (PatMsrState v) (NxUnsupported v) (g_RnaRootPageID v) (slots v) m (spaces v).
Definition with_spaces (v : Vmm) (m : gmap Z KrAddressSpace) : Vmm :=
  mkVmm (vPmm v) (VirtAddrBase v) (KernelPaddrRoot v) (PatMsrState v) (NxUnsupported v) (g_RnaRootPageID v) (slots v) (nodes v) m.

Definition rd_node (v : Vmm) (p : Z) : outcome KrVirtualMemoryRegion :=
  if p =? 0 then Fault else checked (nodes v !! p).
Definition wr_node (v : Vmm) (p : Z) (n : KrVirtualMemoryRegion) : outcome Vmm :=
  if p =? 0 then Fault else Done (with_nodes v (<[p := n]> (nodes v))).
Definition rd_space (v : Vmm) (p : Z) : outcome KrAddressSpace :=
  if p =? 0 then Fault else checked (spaces v !! p).
Definition rd_slot (v : Vmm) (p : Z) : outcome KrRnaMetaSlot := checked (slots v !! p).
Definition wr_slot (v : Vmm) (p : Z) (m : KrRnaMetaSlot) : Vmm := with_slots v (<[p := m]> (slots v)).

(** ** Direct map *)

Definition KrPhysToVirt (v : Vmm) (AddrPhys : Z) : Z := u64 (VirtAddrBase v + AddrPhys).
Definition KrVirtToPhys (v : Vmm) (AddrVirt : Z) : Z := u64 (AddrVirt - VirtAddrBase v).

(** ** Region node allocator *)

Definition RNA_SLOT_SIZE : Z := 64.
Definition QWORD_MAX : Z := 0xFFFFFFFFFFFFFFFF.
Definition PAGE_TYPE_RNA : Z := 3.

Definition RnaGetSlotVptr (v : Vmm) (PageID SlotID : Z) : Z :=
  u64 (KrPhysToVirt v (KrGetPhysicalPageAddress (vPmm v) PageID) + SlotID * RNA_SLOT_SIZE).
Definition RnaGetMetaSlotVptr (v : Vmm) (PageID : Z) : Z := RnaGetSlotVptr v PageID 0.

(** The int expression [1 << k] converted to 64 bits; the shift is undefined
    beyond bit 31, where this returns 0. *)
Definition int_bit (k : Z) : Z :=
  if k <? 31 then Z.shiftl 1 k else if k =? 31 then u64 (- Z.shiftl 1 31) else 0.

(** __builtin_ctzl for a nonzero word: the lowest set bit at or above [i]. *)
Fixpoint ctz_from (fuel : nat) (x i : Z) : Z :=
  match fuel with
  | O => i
  | S fuel' => if Z.testbit x i then i else ctz_from fuel' x (i + 1)
  end.
Definition ctzl (x : Z) : Z := ctz_from 63 x 0.

Definition RnaInit (v : Vmm) : outcome (Vmm * bool) :=
  if negb (g_RnaRootPageID v =? IVLDPGID) then Done (v, false)
  else
    '(pm, id) ← PmAcquirePage (vPmm v) PAGE_TYPE_RNA IVLDPGID;
    let v := with_root (with_pmm v pm) id in
    if id =? IVLDPGID then Done (v, false)
    else
      let p := RnaGetMetaSlotVptr v id in
      '(pm, _) ← KrReservePhysicalPage (vPmm v) id;
      let v := wr_slot (with_pmm v pm) p (mkSlot 1 id IVLDPGID IVLDPGID 1) in
      Done (v, true).

(** The search loop: the chosen meta slot pointer, 0 when no page is left. *)
Fixpoint rna_choose (fuel : nat) (v : Vmm) (pChosen : Z) : outcome (Vmm * Z) :=
  match fuel with
  | O => Hang
  | S fuel' =>
      m ← rd_slot v pChosen;
      if negb (Bitmap m =? QWORD_MAX) then Done (v, pChosen)
      else if negb (rnaNext m =? IVLDPGID) then rna_choose fuel' v (RnaGetMetaSlotVptr v (rnaNext m))
      else
        '(pm, ID) ← PmAcquirePage (vPmm v) PAGE_TYPE_RNA IVLDPGID;
        let v := with_pmm v pm in
        if ID =? IVLDPGID then Done (v, 0)
        else
          let pNew := RnaGetMetaSlotVptr v ID in
          let v := wr_slot v pNew slot_zero in
          m ← rd_slot v pChosen;
          let v := wr_slot v pNew (mkSlot 0 0 (This m) 0 0) in
          m ← rd_slot v pChosen;
          let v := wr_slot v pChosen (mkSlot (Bitmap m) (This m) (rnaPrev m) ID (NrSlots m)) in
          n ← rd_slot v pNew;
          let v := wr_slot v pNew (mkSlot 1 (This n) (rnaPrev n) IVLDPGID 1) in
          Done (v, pNew)
  end.

Definition RnaAcquireNode (fuel : nat) (v : Vmm) : outcome (Vmm * Z) :=
  '(v, pChosen) ← rna_choose fuel v (RnaGetMetaSlotVptr v (g_RnaRootPageID v));
  if pChosen =? 0 then Done (v, 0)
  else
    m ← rd_slot v pChosen;
    let FreeSlot := ctzl (u64 (Z.lnot (Bitmap m))) in
    let v := wr_slot v pChosen
               (mkSlot (Z.lor (Bitmap m) (int_bit FreeSlot)) (This m) (rnaPrev m) (rnaNext m) (u8 (NrSlots m + 1))) in
    let pNode := RnaGetSlotVptr v (This m) FreeSlot in
    v ← wr_node v pNode vmr_zero;
    Done (v, pNode).

(** The do-while search for the page that contains the node. *)
Fixpoint rna_search (fuel : nat) (v : Vmm) (VaddrNode SearchID : Z) : outcome Z :=
  match fuel with
  | O => Hang
  | S fuel' =>
      let p := RnaGetMetaSlotVptr v SearchID in
      m ← rd_slot v p;
      if (VaddrNode >=? p) && (VaddrNode <? u64 (p + KR_PAGE_SIZE)) then Done SearchID
      else if negb (rnaNext m =? IVLDPGID) then rna_search fuel' v VaddrNode (rnaNext m)
      else Done (rnaNext m)
  end.

Definition RnaRelinquishNode (fuel : nat) (v : Vmm) (pNode : Z) : outcome (Vmm * bool) :=
  SearchID ← rna_search fuel v pNode (g_RnaRootPageID v);
  if SearchID =? IVLDPGID then Done (v, false)
  else
    let pMeta := RnaGetMetaSlotVptr v SearchID in
    m ← rd_slot v pMeta;
    let WhichSlot := u8 ((pNode - pMeta) / RNA_SLOT_SIZE) in
    let m := mkSlot (Z.land (Bitmap m) (u64 (Z.lnot (int_bit WhichSlot)))) (This m) (rnaPrev m) (rnaNext m)
               (u8 (NrSlots m - 1)) in
    let v := wr_slot v pMeta m in
    v ← (if NrSlots m =? 1 then
           v ← (if negb (rnaPrev m =? IVLDPGID) then
                  let q := RnaGetMetaSlotVptr v (rnaPrev m) in
                  x ← rd_slot v q;
                  Done (wr_slot v q (mkSlot (Bitmap x) (This x) (rnaPrev x) (rnaNext m) (NrSlots x)))
                else Done v);
           (if negb (rnaNext m =? IVLDPGID) then
              let q := RnaGetMetaSlotVptr v (rnaNext m) in
              x ← rd_slot v q;
              Done (wr_slot v q (mkSlot (Bitmap x) (This x) (rnaPrev m) (rnaNext x) (NrSlots x)))
            else Done v)
         else Done v);
    '(pm, _) ← PmRelinquishPage (vPmm v) (This m);
    Done (with_pmm v pm, true).

(** ** Region list operations *)

Definition RegionPageSize (Flags : Z) : Z := if has_flag Flags VMR_FLAG_PAGE_SIZE then 0x200000 else 0x1000.

Fixpoint locate_loop (fuel : nat) (v : Vmm) (pNode Vaddr : Z) : outcome Z :=
  match fuel with
  | O => Hang
  | S fuel' =>
      if pNode =? 0 then Done 0
      else
        n ← rd_node v pNode;
        if (Vaddr >=? VaddrStart n) && (Vaddr <? VaddrEnd n) then Done pNode
        else locate_loop fuel' v (rNext n) Vaddr
  end.
Definition VmLocateRegion (fuel : nat) (v : Vmm) (pAddressSpace Vaddr : Z) : outcome Z :=
  if pAddressSpace =? 0 then Done 0
  else a ← rd_space v pAddressSpace; locate_loop fuel v (pRootVMR a) Vaddr.

Definition overlaps_node (n : KrVirtualMemoryRegion) (st nd : Z) : bool :=
  if st >=? nd then false else (st <? VaddrEnd n) && (nd >? VaddrStart n).
Definition VmVrangeOverlapsRegion (v : Vmm) (pNode st nd : Z) : outcome bool :=
  if pNode =? 0 then Done false
  else if st >=? nd then Done false
  else n ← rd_node v pNode; Done (overlaps_node n st nd).

Fixpoint overlaps_loop (fuel : nat) (v : Vmm) (pNode st nd : Z) : outcome bool :=
  match fuel with
  | O => Hang
  | S fuel' =>
      if pNode =? 0 then Done false
      else
        n ← rd_node v pNode;
        if nd <=? VaddrStart n then Done false
        else
          o ← VmVrangeOverlapsRegion v pNode st nd;
          if o : bool then Done true else overlaps_loop fuel' v (rNext n) st nd
  end.
Definition VmVrangeOverlapsAnyRegions (fuel : nat) (v : Vmm) (pAddressSpace st nd : Z) : outcome bool :=
  if pAddressSpace =? 0 then Done false
  else if st >=? nd then Done false
  else a ← rd_space v pAddressSpace; overlaps_loop fuel v (pRootVMR a) st nd.

(** The pair of pointers stored through pBefore and pAfter, if any. *)
Fixpoint insert_loop (fuel : nat) (v : Vmm) (pNode st nd : Z) : outcome (option (Z * Z)) :=
  match fuel with
  | O => Hang
  | S fuel' =>
      if pNode =? 0 then Done None
      else
        n ← rd_node v pNode;
        if nd <=? VaddrStart n then Done (Some (pNode, rPrev n))
        else if st >=? VaddrEnd n then
          skip ← (if negb (rNext n =? 0)
                  then x ← rd_node v (rNext n); Done (nd >=? VaddrStart x) else Done false);
          if skip : bool then insert_loop fuel' v (rNext n) st nd
          else Done (Some (rNext n, pNode))
        else insert_loop fuel' v (rNext n) st nd
  end.
Definition VmFindInsertPoint (fuel : nat) (v : Vmm) (pAddressSpace st nd : Z) : outcome (option (Z * Z)) :=
  if pAddressSpace =? 0 then Done None
  else if st >=? nd then Done None
  else a ← rd_space v pAddressSpace; insert_loop fuel v (pRootVMR a) st nd.

Definition VmTagRegion (v : Vmm) (pRegion : Z) (tag : string) : outcome Vmm :=
  if pRegion =? 0 then Done v
  else
    n ← rd_node v pRegion;
    if negb (pAddressSpace n =? 0) && negb (VaddrStart n =? 0) && negb (VaddrEnd n =? 0)
    then wr_node v pRegion (mkVmr (pAddressSpace n) (rPrev n) (rNext n) tag (VaddrStart n) (VaddrEnd n) (rFlags n))
    else Done v.

(** The entry and whether the encode failure counter was incremented. *)
Definition VmEncodeEntryFor (v : Vmm) (n : KrVirtualMemoryRegion) (Type_ : KrTypePTE) (PaddrBase : Z)
    : outcome (Z * bool) :=
  let proto := Z.land (rFlags n) VMR_FLAG_CACHING_PROTOCOL in
  if proto =? 3 then Done (KR_PTE2_ENCODE_FAILURE_DUE_TO_ALIGNMENT, false)
  else
    ps ← KrSelectPat (PatMsrState v)
           (if proto =? 0 then KR_PAT_WRITE_BACK else if proto =? 1 then KR_PAT_UNCACHEABLE
            else KR_PAT_WRITE_COMBINING);
    a ← rd_space v (pAddressSpace n);
    let f := PTE_PRESENT in
    let f := if has_flag (rFlags n) VMR_FLAG_WRITABLE then Z.lor f PTE_WRITABLE else f in
    let f := if negb (has_flag (rFlags n) VMR_FLAG_ALLOW_CODE_EXEC) then Z.lor f PTE_NX else f in
    let f := if PaddrRoot a =? KernelPaddrRoot v then Z.lor f PTE_GLOBAL else Z.lor f PTE_USER in
    Done (PteEncodeEntry (NxUnsupported v) Type_ PaddrBase f ps).

Definition KRNL_BASE : Z := KR_MAKE_VIRTUAL 511 0 0 0 0.

Definition VmAcquireRegion (fuel : nat) (v : Vmm) (pSpace st nd Flags : Z) : outcome (Vmm * Z) :=
  if pSpace =? 0 then Done (v, 0)
  else if (st >=? nd) || (st =? nd) then Done (v, 0)
  else
    a ← rd_space v pSpace;
    let division_bad :=
      if negb (has_flag Flags VMR_FLAG_NO_DIVISION_CHECK) then
        if PaddrRoot a =? KernelPaddrRoot v then st <? KRNL_BASE else st >=? KRNL_BASE
      else false in
    if division_bad then Done (v, 0)
    else
      let ps := RegionPageSize Flags in
      if negb (KrtlIsPowerOfTwoAligned st ps && KrtlIsPowerOfTwoAligned nd ps) then Done (v, 0)
      else
        ip ← VmFindInsertPoint fuel v pSpace st nd;
        match ip with
        | None => Done (v, 0)
        | Some (pInsertBefore, pInsertAfter) =>
            '(v, pNode) ← RnaAcquireNode fuel v;
            if pNode =? 0 then Done (v, 0)
            else
              n ← rd_node v pNode;
              v ← wr_node v pNode (mkVmr pSpace (rPrev n) (rNext n) (Tag n) st nd Flags);
              v ← (if negb (pInsertBefore =? 0) then
                     b ← rd_node v pInsertBefore;
                     wr_node v pInsertBefore (mkVmr (pAddressSpace b) pNode (rNext b) (Tag b) (VaddrStart b) (VaddrEnd b) (rFlags b))
                   else Done v);
              v ← (if negb (pInsertAfter =? 0) then
                     b ← rd_node v pInsertAfter;
                     wr_node v pInsertAfter (mkVmr (pAddressSpace b) (rPrev b) pNode (Tag b) (VaddrStart b) (VaddrEnd b) (rFlags b))
                   else Done v);
              n ← rd_node v pNode;
              v ← wr_node v pNode (mkVmr (pAddressSpace n) pInsertAfter pInsertBefore (Tag n) (VaddrStart n) (VaddrEnd n) (rFlags n));
              a ← rd_space v pSpace;
              let root := if pInsertBefore =? pRootVMR a then pNode else pRootVMR a in
              let tail := if pInsertAfter =? pTailVMR a then pNode else pTailVMR a in
              let v := with_spaces v (<[pSpace := mkSpace (PaddrRoot a) root tail (u32 (NrVMRs a + 1))]> (spaces v)) in
              Done (v, pNode)
        end.

Definition VmRelinquishRegion (v : Vmm) (pNode : Z) : Vmm * bool := (v, false).

(** KrInitKrnlAddrSpace: the kernel binary and frame buffer regions of the
    space at [pSpace], whose PaddrRoot is set to [root]. *)
Definition KrInitKrnlAddrSpace (fuel : nat) (v : Vmm) (pSpace root kvirt kreserve fbvirt fbsize : Z)
    : outcome (Vmm * bool) :=
  a ← rd_space v pSpace;
  let v := mkVmm (vPmm v) (VirtAddrBase v) root (PatMsrState v) (NxUnsupported v) (g_RnaRootPageID v) (slots v)
             (nodes v) (<[pSpace := mkSpace root (pRootVMR a) (pTailVMR a) (NrVMRs a)]> (spaces v)) in
  '(v, pBin) ← RnaAcquireNode fuel v;
  '(v, pFb) ← RnaAcquireNode fuel v;
  if (pBin =? 0) || (pFb =? 0) then Done (v, false)
  else
    let bin_flags := Z.lor (Z.lor VMR_FLAG_STATIC VMR_FLAG_READABLE) (Z.lor VMR_FLAG_ALLOW_CODE_EXEC VMR_FLAG_PAGE_SIZE) in
    let fb_flags := Z.lor (Z.lor VMR_FLAG_STATIC VMR_FLAG_WRITABLE) VMR_FLAG_PAGE_SIZE in
    let bin_first := kvirt <? fbvirt in
    let bin := mkVmr pSpace (if bin_first then 0 else pFb) (if bin_first then pFb else 0)
                 "Kernel Binary Reserved Area" kvirt (u64 (kvirt + kreserve)) bin_flags in
    let fb := mkVmr pSpace (if bin_first then pBin else 0) (if bin_first then 0 else pBin)
                "Video Frame Buffer" fbvirt (u64 (kvirt + fbsize)) fb_flags in
    v ← wr_node v pBin bin;
    v ← wr_node v pFb fb;
    Done (with_spaces v (<[pSpace := mkSpace root (if bin_first then pBin else pFb)
                                       (if bin_first then pFb else pBin) 2]> (spaces v)), true).
