(* ===== verification/VmrSpec.v ===== *)
(** * Address spaces as sorted region lists; the region node allocator's root page *)
From Stdlib Require Import ZArith Lia String Sorted.
From stdpp Require Import base numbers list gmap.
From S2P Require Import Prelude PhysBitmap KrtlMem BootstrapArena MemoryMap Physmemmgmt Pte Vmr.
Open Scope Z_scope.
#[local] Arguments Z.testbit _ _ : simpl never.

(** ** The node allocator *)

(** [live] are node pointers in the root page at [p0]. *)
Record rna_rep (v : Vmm) (p0 : Z) (live : list Z) : Prop := {
  ra_ptr : forall k, 0 <= k < 64 -> RnaGetSlotVptr v (g_RnaRootPageID v) k = p0 + 64 * k;
  ra_range : 0 < p0 /\ p0 + 4096 < 2 ^ 64;
  ra_slot : exists m, slots v !! p0 = Some m /\ This m = g_RnaRootPageID v /\
    0 <= Bitmap m < 2 ^ 64 /\ Z.testbit (Bitmap m) 0 = true /\
    (forall k, 31 <= k < 64 -> Z.testbit (Bitmap m) k = Z.testbit (Bitmap m) 31) /\
    Forall (fun p => exists k, 1 <= k <= 31 /\ p = p0 + 64 * k /\ Z.testbit (Bitmap m) k = true) live;
  ra_nodup : NoDup live
}.

(** The root page's bitmap word. *)
Definition root_bitmap (v : Vmm) (p0 : Z) : Z :=
  match slots v !! p0 with Some m => Bitmap m | None => 0 end.

Lemma ctz_from_spec fuel x : forall i,
  0 <= i -> (exists j, i <= j < i + Z.of_nat fuel /\ Z.testbit x j = true) ->
  let r := ctz_from fuel x i in
  i <= r < i + Z.of_nat fuel /\ Z.testbit x r = true /\ forall j, i <= j < r -> Z.testbit x j = false.
Proof.
  induction fuel as [|fuel IH]; intros i Hi (j & Hj & Hb); [lia|]. cbn [ctz_from].
  destruct (Z.testbit x i) eqn:E; [split_and!; done || lia|].
  destruct (IH (i + 1)) as (H1 & H2 & H3); [lia| |].
  { exists j. split; [|done]. destruct (decide (j = i)); [congruence|lia]. }
  split_and!; [lia|lia|done|]. intros q Hq. destruct (decide (q = i)) as [->|]; [done|apply H3; lia].
Qed.

(** The lowest clear slot of a bitmap that is not full. *)
Lemma free_slot_spec b :
  0 <= b < 2 ^ 64 -> b <> QWORD_MAX -> Z.testbit b 0 = true ->
  (forall k, 31 <= k < 64 -> Z.testbit b k = Z.testbit b 31) ->
  let k := ctzl (u64 (Z.lnot b)) in 1 <= k <= 31 /\ Z.testbit b k = false.
Proof.
  intros Hb Hne H0 H31 k.
  assert (exists j, 0 <= j < 32 /\ Z.testbit b j = false) as (j & Hj & Hbj).
  { destruct (decide (Exists (fun j => Z.testbit b (Z.of_nat j) = false) (seq 0 32))) as [H|H].
    - apply Exists_exists in H as (j & Hj & Hbj). apply elem_of_seq in Hj. exists (Z.of_nat j). split; [lia|done].
    - exfalso. apply Hne. apply (bits_inj_below 64); [done|unfold QWORD_MAX; lia|].
      intros i Hi. change QWORD_MAX with (Z.ones 64). rewrite Z.ones_spec_low by lia.
      apply not_Exists_Forall in H; [|typeclasses eauto]. rewrite Forall_forall in H.
      assert (forall i, 0 <= i < 32 -> Z.testbit b i = true) as Hlow.
      { intros i' Hi'. specialize (H (Z.to_nat i')). unfold compose in H. rewrite Z2Nat.id in H by lia.
        apply not_false_is_true, H, elem_of_seq. lia. }
      destruct (decide (i < 32)); [apply Hlow; lia|]. rewrite H31 by lia. apply Hlow. lia. }
  assert (forall i, 0 <= i < 64 -> Z.testbit (u64 (Z.lnot b)) i = negb (Z.testbit b i)) as Hnot.
  { intros i Hi. rewrite testbit_u64, Z.lnot_spec by lia. by destruct (Z.ltb_spec i 64); [|lia]. }
  destruct (ctz_from_spec 63 (u64 (Z.lnot b)) 0) as (K1 & K2 & K3); [lia| |].
  { exists j. split; [lia|]. by rewrite Hnot, Hbj by lia. }
  fold (ctzl (u64 (Z.lnot b))) in K1, K2, K3. fold k in K1, K2, K3.
  rewrite Hnot in K2 by lia. apply negb_true_iff in K2. split; [|done]. split.
  - destruct (decide (k = 0)) as [E|]; [|lia]. rewrite E in K2. congruence.
  - destruct (decide (k <= j)); [lia|]. specialize (K3 j ltac:(lia)). rewrite Hnot, Hbj in K3 by lia. done.
Qed.

(** Setting the chosen slot in the bitmap, with the sign extension of bit 31. *)
Lemma testbit_int_bit k i :
  0 <= k <= 31 -> 0 <= i < 64 -> Z.testbit (int_bit k) i = (i =? k) || ((k =? 31) && (31 <=? i)).
Proof.
  intros Hk Hi. destruct (decide (k = 31)) as [->|Hne].
  - assert (int_bit 31 = Z.shiftl (Z.land (-1) (Z.ones 33)) 31) as -> by reflexivity.
    rewrite testbit_field by lia.
    destruct (Z.leb_spec 31 i), (Z.eqb_spec i 31), (Z.ltb_spec i (31 + 33)); try lia;
      rewrite ?Z.bits_m1 by lia; done.
  - unfold int_bit. rewrite (proj2 (Z.ltb_lt k 31)), testbit_one_shiftl by lia.
    rewrite (proj2 (Z.eqb_neq k 31)) by done. by rewrite orb_false_r.
Qed.

Lemma int_bit_range k : 0 <= k <= 31 -> 0 <= int_bit k < 2 ^ 64.
Proof.
  intros Hk. unfold int_bit. destruct (Z.ltb_spec k 31).
  - rewrite Z.shiftl_1_l. split; [apply Z.pow_nonneg; lia|apply Z.pow_lt_mono_r; lia].
  - destruct (k =? 31); [apply u64_range|lia].
Qed.

(** The bitmap with its lowest clear slot set. *)
Definition next_bitmap (b : Z) : Z := Z.lor b (int_bit (ctzl (u64 (Z.lnot b)))).

(** RnaAcquireNode while the root page has a clear slot: it returns the node of
    the lowest clear slot, zeroed, and marks that slot. *)
Lemma rna_acquire_spec v p0 live fuel :
  rna_rep v p0 live -> root_bitmap v p0 <> QWORD_MAX -> (0 < fuel)%nat ->
  exists v' p, RnaAcquireNode fuel v = Done (v', p) /\ 0 < p /\ p ∉ live /\ rna_rep v' p0 (p :: live) /\
    v' = with_nodes (with_slots v (slots v')) (<[p := vmr_zero]> (nodes v)) /\ root_bitmap v' p0 = next_bitmap (root_bitmap v p0).
Proof.
  intros [R1 R2 (m & Hm & HT & Hb & H0 & H31 & Hl) Hnd] Hfull Hf.
  assert (root_bitmap v p0 = Bitmap m) as Erb by (unfold root_bitmap; by rewrite Hm). rewrite Erb in *.
  destruct (free_slot_spec (Bitmap m) Hb Hfull H0 H31) as [Hk Hkb].
  remember (ctzl (u64 (Z.lnot (Bitmap m)))) as k eqn:Ek.
  assert (RnaGetMetaSlotVptr v (g_RnaRootPageID v) = p0) as Ep.
  { unfold RnaGetMetaSlotVptr. rewrite R1; lia. }
  unfold RnaAcquireNode. rewrite Ep. destruct fuel as [|fuel]; [lia|]. cbn [rna_choose].
  unfold rd_slot. rewrite Hm. cbn [checked]. rewrite bind_Done.
  destruct (Z.eqb_spec (Bitmap m) QWORD_MAX); [done|]. cbn [negb]. rewrite bind_Done.
  destruct (Z.eqb_spec p0 0); [lia|]. rewrite Hm. cbn [checked]. rewrite bind_Done, <- Ek.
  set (m' := mkSlot _ _ _ _ _). set (v1 := wr_slot v p0 m').
  assert (RnaGetSlotVptr v1 (This m) k = p0 + 64 * k) as ->.
  { rewrite HT. change (RnaGetSlotVptr v1) with (RnaGetSlotVptr v). apply R1. lia. }
  unfold wr_node. destruct (Z.eqb_spec (p0 + 64 * k) 0); [lia|]. rewrite bind_Done.
  eexists _, (p0 + 64 * k). split; [done|].
  assert (forall p, p ∈ live -> exists j, 1 <= j <= 31 /\ p = p0 + 64 * j /\ Z.testbit (Bitmap m) j = true) as Hl'
    by (by rewrite Forall_forall in Hl).
  assert (forall i, 0 <= i < 64 -> Z.testbit (Bitmap m') i =
            Z.testbit (Bitmap m) i || (i =? k) || ((k =? 31) && (31 <=? i))) as Hbits.
  { intros i Hi. cbn [m' Bitmap]. by rewrite Z.lor_spec, testbit_int_bit, orb_assoc by lia. }
  split_and!; [lia| | |done|].
  - intros (j & Hj & Ej & Hjb)%Hl'. assert (j = k) by lia. congruence.
  - split; cbn [with_nodes wr_slot with_slots slots g_RnaRootPageID v1]; try done.
    + exists m'. split; [apply lookup_insert_eq|]. split; [done|]. split_and!.
      * apply Z.lor_nonneg. split; [lia|]. apply int_bit_range. lia.
      * apply nonneg_bits_bound; [lia|apply Z.lor_nonneg; split; [lia|apply int_bit_range; lia]|].
        intros i Hi. cbn [m' Bitmap]. rewrite Z.lor_spec, (testbit_above _ 64), (testbit_above (int_bit k) 64);
          [done|apply int_bit_range; lia|lia|lia|lia].
      * by rewrite Hbits, H0 by lia.
      * intros i Hi. rewrite !Hbits, (H31 i) by lia.
        destruct (Z.eqb_spec k 31), (Z.eqb_spec i k), (Z.eqb_spec 31 k), (Z.leb_spec 31 i); try lia; simpl;
          rewrite ?orb_true_r, ?orb_false_r; done.
      * constructor.
        { exists k. split_and!; [lia|lia|done|]. rewrite Hbits, Z.eqb_refl by lia. by rewrite orb_true_r. }
        { apply Forall_forall. intros p (j & Hj & Ej & Hjb)%Hl'. exists j. split_and!; [lia|lia|done|].
          by rewrite Hbits, Hjb by lia. }
    + constructor; [|done]. intros (j & Hj & Ej & Hjb)%Hl'. assert (j = k) by lia. congruence.
  - unfold root_bitmap, v1. cbn [slots with_nodes wr_slot with_slots]. rewrite lookup_insert_eq. unfold next_bitmap. by rewrite <- Ek.
Qed.

(** ** Address spaces *)

Record region := mkRegion { g_ptr : Z; g_start : Z; g_end : Z; g_flags : Z }.

Definition head_or (l : list region) (d : Z) : Z := match l with [] => d | r :: _ => g_ptr r end.
Definition last_or (l : list region) (d : Z) : Z := match last l with Some r => g_ptr r | None => d end.

(** The node store holds the doubly linked segment [l] between [prev] and [next]. *)
Fixpoint vseg (m : gmap Z KrVirtualMemoryRegion) (sp prev : Z) (l : list region) (next : Z) : Prop :=
  match l with
  | [] => True
  | r :: l' => g_ptr r <> 0 /\
      (exists tag, m !! g_ptr r = Some (mkVmr sp prev (head_or l' next) tag (g_start r) (g_end r) (g_flags r))) /\
      vseg m sp (g_ptr r) l' next
  end.

(** Regions in increasing address order without overlap, from [lo] on; the last
    one may be empty, as the frame buffer's is. *)
Fixpoint rsorted (lo : Z) (l : list region) : Prop :=
  match l with
  | [] => True
  | r :: l' => lo <= g_start r /\ (g_start r < g_end r \/ l' = []) /\ rsorted (g_end r) l'
  end.

(** The address space at [sp] represents the regions [l]. *)
Record space_rep (v : Vmm) (sp : Z) (l : list region) : Prop := {
  sr_space : exists root, spaces v !! sp = Some (mkSpace root (head_or l 0) (last_or l 0) (u32 (Z.of_nat (length l))));
  sr_seg : vseg (nodes v) sp 0 l 0;
  sr_sorted : rsorted 0 l;
  sr_nodup : NoDup (g_ptr <$> l)
}.

Definition contains (r : region) (a : Z) : Prop := g_start r <= a < g_end r.
Definition overlaps (r : region) (st nd : Z) : Prop := st < g_end r /\ g_start r < nd.
#[global] Instance contains_dec r a : Decision (contains r a).
Proof. unfold contains. apply _. Defined.
#[global] Instance overlaps_dec r st nd : Decision (overlaps r st nd).
Proof. unfold overlaps. apply _. Defined.

Lemma last_or_app l r d : last_or (l ++ [r]) d = g_ptr r.
Proof. unfold last_or. by rewrite last_snoc. Qed.
Lemma last_or_cons r l d : last_or (r :: l) d = last_or l (g_ptr r).
Proof. unfold last_or. rewrite last_cons. by destruct (last l). Qed.

Lemma vseg_app m sp prev l1 l2 next :
  vseg m sp prev (l1 ++ l2) next <-> vseg m sp prev l1 (head_or l2 next) /\ vseg m sp (last_or l1 prev) l2 next.
Proof.
  revert prev. induction l1 as [|r l1 IH]; intros prev; [simpl; tauto|]. cbn [app vseg].
  rewrite IH, last_or_cons. assert (head_or (l1 ++ l2) next = head_or l1 (head_or l2 next)) as -> by by destruct l1.
  tauto.
Qed.

Lemma vseg_frame m m' sp prev l next :
  (forall r, r ∈ l -> m' !! g_ptr r = m !! g_ptr r) -> vseg m sp prev l next -> vseg m' sp prev l next.
Proof.
  revert prev. induction l as [|r l IH]; intros prev Hm; [done|]. intros (H1 & (t & H2) & H3). cbn [vseg].
  split_and!; [done| |].
  - exists t. rewrite Hm by set_solver. done.
  - apply IH; [set_solver|done].
Qed.

Lemma rsorted_app lo l1 l2 :
  rsorted lo (l1 ++ l2) -> rsorted lo l1 /\ (forall lo', Forall (fun r => lo' <= g_start r) l2 -> rsorted lo' l2).
Proof.
  revert lo. induction l1 as [|r l1 IH]; intros lo; cbn [app rsorted].
  - intros H. split; [done|]. intros lo' Hl. destruct l2; [done|]. inversion Hl; subst. simpl in *. tauto.
  - intros (H1 & H2 & H3). destruct (IH _ H3) as [IH1 IH2]. split; [|done]. split_and!; [done| |done].
    destruct H2 as [|[H2 _]%app_eq_nil]; [by left|by right].
Qed.

(** Region starts are at or above every bound below the list. *)
Lemma rsorted_lower lo l r : rsorted lo l -> r ∈ l -> lo <= g_start r.
Proof.
  revert lo. induction l as [|x l IH]; intros lo; [set_solver|]. intros (H1 & [H2| ->] & H3) [->|H]%elem_of_cons; try lia.
  - specialize (IH _ H3 H). lia.
  - by apply not_elem_of_nil in H.
Qed.
(** What follows a region starts behind its start. *)
Lemma rsorted_next lo l x r : rsorted lo (x :: l) -> r ∈ l -> g_start x < g_start r /\ g_end x <= g_start r.
Proof.
  intros (H1 & [H2| ->] & H3) H; [|by apply not_elem_of_nil in H]. pose proof (rsorted_lower _ _ _ H3 H). lia.
Qed.

(** ** Lookup by address *)

Lemma locate_loop_spec v sp l : forall prev fuel a,
  vseg (nodes v) sp prev l 0 -> (length l < fuel)%nat ->
  locate_loop fuel v (head_or l 0) a = Done (head_or (filter (fun r => contains r a) l) 0).
Proof.
  induction l as [|r l IH]; intros prev fuel a Hs Hf; (destruct fuel as [|fuel]; [simpl in Hf; lia|]).
  { done. }
  destruct Hs as (H1 & (t & H2) & H3). cbn [locate_loop head_or].
  destruct (Z.eqb_spec (g_ptr r) 0); [done|]. unfold rd_node. destruct (Z.eqb_spec (g_ptr r) 0); [done|].
  rewrite H2. cbn [checked]. rewrite bind_Done. cbn [VaddrStart VaddrEnd rNext]. rewrite filter_cons.
  destruct (decide (contains r a)) as [Hc|Hc]; unfold contains in Hc.
  - rewrite Z.geb_leb. destruct (Z.leb_spec (g_start r) a), (Z.ltb_spec a (g_end r)); try lia. done.
  - rewrite Z.geb_leb. destruct (Z.leb_spec (g_start r) a), (Z.ltb_spec a (g_end r)); try lia;
      cbn [andb]; (eapply IH; [done|simpl in Hf; lia]).
Qed.

(** In a sorted list at most one region contains an address. *)
Lemma contains_unique lo l a r : rsorted lo l -> r ∈ l -> contains r a -> filter (fun r => contains r a) l = [r].
Proof.
  revert lo. induction l as [|x l IH]; intros lo; [set_solver|]. intros Hs Hin Hc.
  pose proof Hs as (H1 & H2 & H3). rewrite filter_cons. apply elem_of_cons in Hin as [->|Hin].
  - destruct (decide (contains x a)); [|done]. f_equal.
    assert (Forall (fun r => ~ contains r a) l) as Hn.
    { apply Forall_forall. intros y Hy Hcy. pose proof (rsorted_next _ _ _ _ Hs Hy). unfold contains in *. lia. }
    clear -Hn. induction Hn as [|y l Hy Hn IH]; [done|]. rewrite filter_cons. by destruct (decide (contains y a)).
  - destruct (decide (contains x a)) as [Hx|]; [|by eapply IH].
    pose proof (rsorted_next _ _ _ _ Hs Hin). unfold contains in *. lia.
Qed.

Lemma locate_region_spec v sp l fuel a :
  space_rep v sp l -> sp <> 0 -> (length l < fuel)%nat ->
  exists p, VmLocateRegion fuel v sp a = Done p /\
    (forall r, r ∈ l -> contains r a -> p = g_ptr r) /\
    ((forall r, r ∈ l -> ~ contains r a) -> p = 0).
Proof.
  intros [(root & Hsp) Hseg Hsort Hnd] Hne Hf. unfold VmLocateRegion, rd_space.
  destruct (Z.eqb_spec sp 0); [done|]. rewrite Hsp. cbn [checked]. rewrite bind_Done. cbn [pRootVMR].
  eexists. split; [by eapply locate_loop_spec|]. split.
  - intros r Hr Hc. by rewrite (contains_unique _ _ _ _ Hsort Hr Hc).
  - intros Hn. assert (filter (fun r => contains r a) l = []) as ->; [|done].
    clear -Hn. induction l as [|y l IH]; [done|]. rewrite filter_cons, decide_False by (apply Hn; set_solver).
    apply IH. intros r Hr. apply Hn. set_solver.
Qed.

(** ** Overlap queries *)

Lemma overlaps_loop_spec v sp l : forall lo prev fuel st nd,
  vseg (nodes v) sp prev l 0 -> rsorted lo l -> st < nd -> (length l < fuel)%nat ->
  overlaps_loop fuel v (head_or l 0) st nd = Done (bool_decide (Exists (fun r => overlaps r st nd) l)).
Proof.
  induction l as [|r l IH]; intros lo prev fuel st nd Hs Hsort Hlt Hf; (destruct fuel as [|fuel]; [simpl in Hf; lia|]).
  { done. }
  pose proof Hsort as (S1 & S2 & S3). destruct Hs as (H1 & (t & H2) & H3). cbn [overlaps_loop head_or].
  destruct (Z.eqb_spec (g_ptr r) 0); [done|]. unfold VmVrangeOverlapsRegion, rd_node.
  destruct (Z.eqb_spec (g_ptr r) 0); [done|].
  rewrite H2. cbn [checked]. rewrite bind_Done. cbn [VaddrStart VaddrEnd rNext].
  destruct (Z.leb_spec nd (g_start r)) as [Hle|Hle].
  - rewrite bool_decide_eq_false_2; [done|]. intros [y [Hy Ho]]%Exists_exists.
    unfold overlaps in Ho. apply elem_of_cons in Hy as [->|Hy]; [lia|].
    pose proof (rsorted_next _ _ _ _ Hsort Hy). lia.
  - rewrite Z.geb_leb. destruct (Z.leb_spec nd st); [lia|]. rewrite bind_Done. unfold overlaps_node.
    rewrite Z.geb_leb, Z.gtb_ltb. cbn [VaddrStart VaddrEnd].
    destruct (Z.leb_spec nd st); [lia|]. destruct (Z.ltb_spec (g_start r) nd); [|lia].
    rewrite andb_true_r. destruct (Z.ltb_spec st (g_end r)).
    + rewrite bool_decide_eq_true_2; [done|]. apply Exists_cons_hd. unfold overlaps. lia.
    + rewrite bind_Done. erewrite IH; [|done|done|lia|simpl in Hf; lia]. f_equal. apply bool_decide_ext. rewrite Exists_cons.
      unfold overlaps at 2. split; [tauto|]. intros [?|?]; [lia|done].
Qed.

(** ** The insertion point *)

(** The regions that start below [nd], which form a prefix of a sorted list. *)
Fixpoint split_at (nd : Z) (l : list region) : list region * list region :=
  match l with
  | [] => ([], [])
  | r :: l' => if nd <=? g_start r then ([], l) else let '(a, b) := split_at nd l' in (r :: a, b)
  end.

Lemma split_at_app nd l : fst (split_at nd l) ++ snd (split_at nd l) = l.
Proof.
  induction l as [|r l IH]; [done|]. cbn [split_at]. destruct (nd <=? g_start r); [done|].
  destruct (split_at nd l). simpl in *. by rewrite IH.
Qed.
Lemma split_at_spec lo nd l :
  rsorted lo l -> Forall (fun r => g_start r < nd) (fst (split_at nd l)) /\
    Forall (fun r => nd <= g_start r) (snd (split_at nd l)).
Proof.
  revert lo. induction l as [|r l IH]; intros lo; [by split; constructor|]. intros Hs. pose proof Hs as (H1 & H2 & H3). cbn [split_at].
  destruct (Z.leb_spec nd (g_start r)).
  - split; [constructor|]. constructor; [done|]. apply Forall_forall. intros y Hy.
    pose proof (rsorted_next _ _ _ _ Hs Hy). lia.
  - destruct (IH _ H3) as [IH1 IH2]. destruct (split_at nd l). split; [by constructor|done].
Qed.

(** What VmFindInsertPoint stores for the range [st, nd) in the list [l] after
    the region [prev]: nothing only when no region starts at or after the range
    and there is no last region or it ends after [st]. *)
Definition insert_from (prev : Z) (l : list region) (st nd : Z) : option (Z * Z) :=
  let '(l1, l2) := split_at nd l in
  match l2 with
  | [] => match last l1 with Some r => if g_end r <=? st then Some (0, g_ptr r) else None | None => None end
  | r :: _ => Some (g_ptr r, last_or l1 prev)
  end.

Lemma insert_from_skip prev r x l st nd :
  g_start r < nd -> insert_from prev (r :: x :: l) st nd = insert_from (g_ptr r) (x :: l) st nd.
Proof.
  intros H. unfold insert_from. pose proof (split_at_app nd (x :: l)) as Ha. cbn [split_at] in *.
  destruct (Z.leb_spec nd (g_start r)); [lia|].
  destruct (nd <=? g_start x); [done|]. destruct (split_at nd l) as [a b]. destruct b; [|by rewrite !last_or_cons].
  by rewrite last_cons_cons.
Qed.

Lemma insert_loop_spec v sp l : forall prev lo fuel st nd,
  vseg (nodes v) sp prev l 0 -> rsorted lo l -> st < nd -> (length l < fuel)%nat ->
  insert_loop fuel v (head_or l 0) st nd = Done (insert_from prev l st nd).
Proof.
  induction l as [|r l IH]; intros prev lo fuel st nd Hs Hsort Hlt Hf; (destruct fuel as [|fuel]; [simpl in Hf; lia|]).
  { done. }
  destruct Hs as (H1 & (t & H2) & H3), Hsort as (S1 & S2 & S3). cbn [insert_loop head_or].
  destruct (Z.eqb_spec (g_ptr r) 0); [done|]. unfold rd_node.
  destruct (Z.eqb_spec (g_ptr r) 0); [done|].
  rewrite H2. cbn [checked]. rewrite bind_Done. cbn [VaddrStart VaddrEnd rNext rPrev].
  assert (insert_loop fuel v (head_or l 0) st nd = Done (insert_from (g_ptr r) l st nd)) as Hrec.
  { eapply IH; [done|done|done|simpl in Hf; lia]. }
  destruct (Z.leb_spec nd (g_start r)) as [Hle|Hle].
  { unfold insert_from. cbn [split_at]. by rewrite (proj2 (Z.leb_le _ _)). }
  rewrite Hrec, Z.geb_leb. destruct l as [|x l].
  - unfold insert_from. cbn [split_at head_or]. destruct (Z.leb_spec nd (g_start r)); [lia|]. cbn [last].
    by destruct (g_end r <=? st).
  - rewrite insert_from_skip by done. destruct (Z.leb_spec (g_end r) st); [|done].
    destruct H3 as (X1 & (tx & X2) & X3). cbn [head_or]. destruct (Z.eqb_spec (g_ptr x) 0); [done|].
    rewrite X2. cbn [checked negb]. rewrite !bind_Done. cbn [VaddrStart]. rewrite Z.geb_leb.
    destruct (Z.leb_spec (g_start x) nd); [done|]. unfold insert_from. cbn [split_at].
    by rewrite (proj2 (Z.leb_le _ _)) by lia.
Qed.

(** ** Linking a node *)

Definition set_prev (b : KrVirtualMemoryRegion) (p : Z) : KrVirtualMemoryRegion :=
  mkVmr (pAddressSpace b) p (rNext b) (Tag b) (VaddrStart b) (VaddrEnd b) (rFlags b).
Definition set_next (b : KrVirtualMemoryRegion) (p : Z) : KrVirtualMemoryRegion :=
  mkVmr (pAddressSpace b) (rPrev b) p (Tag b) (VaddrStart b) (VaddrEnd b) (rFlags b).

(** Updating a linked neighbour: [q] is 0 or a node of the segment. *)
Definition link_with (f : KrVirtualMemoryRegion -> Z -> KrVirtualMemoryRegion) (v : Vmm) (q p : Z) : outcome Vmm :=
  if negb (q =? 0) then b ← rd_node v q; wr_node v q (f b p) else Done v.

Lemma link_before v sp prev l p :
  vseg (nodes v) sp prev l 0 -> NoDup (g_ptr <$> l) ->
  exists m, link_with set_prev v (head_or l 0) p = Done (with_nodes v m) /\ vseg m sp p l 0 /\
    (forall q, q ∉ g_ptr <$> l -> m !! q = nodes v !! q).
Proof.
  intros Hs Hnd. unfold link_with. destruct l as [|r l]; [exists (nodes v); by destruct v|].
  destruct Hs as (H1 & (t & H2) & H3). cbn [head_or]. unfold rd_node, wr_node.
  destruct (Z.eqb_spec (g_ptr r) 0); [done|]. cbn [negb]. rewrite H2. cbn [checked]. rewrite bind_Done.
  eexists. split; [done|]. apply NoDup_cons in Hnd as [Hn Hnd]. split.
  - split_and!; [done|exists t; by rewrite lookup_insert_eq|].
    eapply vseg_frame; [|done]. intros x Hx. apply lookup_insert_ne. intros E. apply Hn. rewrite E.
    by apply list_elem_of_fmap_2.
  - intros q Hq. apply lookup_insert_ne. set_solver.
Qed.

Lemma link_after v sp l next p :
  vseg (nodes v) sp 0 l next -> NoDup (g_ptr <$> l) ->
  exists m, link_with set_next v (last_or l 0) p = Done (with_nodes v m) /\ vseg m sp 0 l p /\
    (forall q, q ∉ g_ptr <$> l -> m !! q = nodes v !! q).
Proof.
  intros Hs Hnd. unfold link_with. destruct l as [|r l _] using rev_ind; [exists (nodes v); by destruct v|].
  apply vseg_app in Hs as [Hs1 (H1 & (t & H2) & _)]. rewrite last_or_app. unfold rd_node, wr_node.
  destruct (Z.eqb_spec (g_ptr r) 0); [done|]. cbn [negb]. rewrite H2. cbn [checked]. rewrite bind_Done.
  eexists. split; [done|]. rewrite fmap_app in Hnd. apply NoDup_app in Hnd as (Hnd & Hn & _). split.
  - apply vseg_app. split.
    + eapply vseg_frame; [|done]. intros x Hx. apply lookup_insert_ne. intros E. apply (Hn (g_ptr x)).
      * by apply list_elem_of_fmap_2.
      * rewrite <- E. set_solver.
    + split_and!; [done| |done]. exists t. by rewrite lookup_insert_eq.
  - intros q Hq. apply lookup_insert_ne. rewrite fmap_app in Hq. set_solver.
Qed.

(** ** VmAcquireRegion *)

(** The argument checks that precede the search for an insertion point. *)
Definition region_args_ok (v : Vmm) (root st nd Flags : Z) : bool :=
  (st <? nd) &&
  (has_flag Flags VMR_FLAG_NO_DIVISION_CHECK ||
   (if root =? KernelPaddrRoot v then KRNL_BASE <=? st else st <? KRNL_BASE)) &&
  KrtlIsPowerOfTwoAligned st (RegionPageSize Flags) && KrtlIsPowerOfTwoAligned nd (RegionPageSize Flags).

(** The insertion itself, after the checks. *)
Definition insert_region (fuel : nat) (v : Vmm) (pSpace st nd Flags pInsertBefore pInsertAfter : Z) : outcome (Vmm * Z) :=
  '(v, pNode) ← RnaAcquireNode fuel v;
  if pNode =? 0 then Done (v, 0)
  else
    n ← rd_node v pNode;
    v ← wr_node v pNode (mkVmr pSpace (rPrev n) (rNext n) (Tag n) st nd Flags);
    v ← link_with set_prev v pInsertBefore pNode;
    v ← link_with set_next v pInsertAfter pNode;
    n ← rd_node v pNode;
    v ← wr_node v pNode (mkVmr (pAddressSpace n) pInsertAfter pInsertBefore (Tag n) (VaddrStart n) (VaddrEnd n) (rFlags n));
    a ← rd_space v pSpace;
    let root := if pInsertBefore =? pRootVMR a then pNode else pRootVMR a in
    let tail := if pInsertAfter =? pTailVMR a then pNode else pTailVMR a in
    let v := with_spaces v (<[pSpace := mkSpace (PaddrRoot a) root tail (u32 (NrVMRs a + 1))]> (spaces v)) in
    Done (v, pNode).

(** Every call is the checks, then the insertion point, then the insertion. *)
Lemma acquire_region_unfold v sp l fuel st nd Flags a :
  space_rep v sp l -> sp <> 0 -> (length l < fuel)%nat -> spaces v !! sp = Some a ->
  VmAcquireRegion fuel v sp st nd Flags =
    if region_args_ok v (PaddrRoot a) st nd Flags then
      match insert_from 0 l st nd with
      | None => Done (v, 0)
      | Some (b, c) => insert_region fuel v sp st nd Flags b c
      end
    else Done (v, 0).
Proof.
  intros [(root & Hsp) Hseg Hsort Hnd] Hne Hf Ha. unfold VmAcquireRegion, region_args_ok, rd_space.
  destruct (Z.eqb_spec sp 0); [done|]. rewrite Hsp in Ha |- *. injection Ha as <-. cbn [checked]. rewrite bind_Done.
  rewrite Z.geb_leb. destruct (Z.ltb_spec st nd).
  2: { by rewrite (proj2 (Z.leb_le nd st)). }
  rewrite (proj2 (Z.leb_gt nd st)), (proj2 (Z.eqb_neq st nd)) by lia. cbn [orb andb PaddrRoot].
  assert ((if negb (has_flag Flags VMR_FLAG_NO_DIVISION_CHECK)
           then if root =? KernelPaddrRoot v then st <? KRNL_BASE else st >=? KRNL_BASE else false) =
          negb (has_flag Flags VMR_FLAG_NO_DIVISION_CHECK ||
                (if root =? KernelPaddrRoot v then KRNL_BASE <=? st else st <? KRNL_BASE))) as ->.
  { rewrite Z.geb_leb, (Z.ltb_antisym KRNL_BASE st).
    destruct (has_flag Flags VMR_FLAG_NO_DIVISION_CHECK), (root =? KernelPaddrRoot v); cbn [negb orb];
      by rewrite ?negb_involutive. }
  destruct (has_flag _ _ || _); cbn [negb andb]; [|done].
  destruct (KrtlIsPowerOfTwoAligned st _); cbn [negb andb]; [|done].
  destruct (KrtlIsPowerOfTwoAligned nd _); cbn [negb andb]; [|done].
  unfold VmFindInsertPoint, rd_space. destruct (Z.eqb_spec sp 0); [done|]. rewrite Z.geb_leb, (proj2 (Z.leb_gt nd st)) by lia.
  rewrite Hsp. cbn [checked]. rewrite bind_Done. cbn [pRootVMR].
  erewrite (insert_loop_spec v sp l 0); [|done..]. rewrite bind_Done.
  destruct (insert_from 0 l st nd) as [[b c]|]; [|done]. unfold insert_region, link_with, rd_space.
  by rewrite (proj2 (Z.eqb_neq sp 0) Hne).
Qed.

Lemma acquire_rna_frame v p0 live (l : list region) p v' :
  rna_rep v p0 live -> p ∉ live -> g_ptr <$> l ⊆ live ->
  v' = with_nodes (with_slots v (slots v')) (<[p := vmr_zero]> (nodes v)) ->
  forall sp prev next, vseg (nodes v) sp prev l next -> vseg (nodes v') sp prev l next.
Proof.
  intros _ Hp Hl -> sp prev next. apply vseg_frame. intros r Hr. cbn [with_nodes nodes]. apply lookup_insert_ne.
  intros ->. apply Hp, Hl. by apply list_elem_of_fmap_2.
Qed.

Lemma vseg_nonzero m sp prev l next : vseg m sp prev l next -> forall r, r ∈ l -> g_ptr r <> 0.
Proof.
  revert prev. induction l as [|x l IH]; intros prev; [set_solver|]. intros (H & _ & Hs) r [->|Hr]%elem_of_cons; eauto.
Qed.

Lemma last_or_in l d : l <> [] -> last_or l d ∈ g_ptr <$> l.
Proof.
  destruct l as [|r l _] using rev_ind; [done|]. intros _. rewrite last_or_app, fmap_app. set_solver.
Qed.
Lemma last_or_nonempty l d : l <> [] -> last_or l d = last_or l 0.
Proof. destruct l as [|r l _] using rev_ind; [done|]. intros _. by rewrite !last_or_app. Qed.
Lemma last_or_tail l1 l2 d : last_or (l1 ++ l2) d = last_or l2 (last_or l1 d).
Proof.
  revert d. induction l1 as [|r l1 IH]; intros d; [done|]. cbn [app]. by rewrite !last_or_cons, IH.
Qed.

(** The updates of the list's end pointers. *)
Lemma root_choice l1 l2 p st nd f :
  (forall r, r ∈ l1 ++ l2 -> g_ptr r <> 0) -> (forall q, q ∈ g_ptr <$> l1 -> q ∉ g_ptr <$> l2) ->
  (if head_or l2 0 =? head_or (l1 ++ l2) 0 then p else head_or (l1 ++ l2) 0) =
    head_or (l1 ++ mkRegion p st nd f :: l2) 0.
Proof.
  intros Hnz Hd. destruct l1 as [|r l1]; cbn [app head_or g_ptr]; [by rewrite Z.eqb_refl|].
  destruct (Z.eqb_spec (head_or l2 0) (g_ptr r)) as [E|]; [|done]. exfalso. destruct l2 as [|x l2]; cbn [head_or] in E.
  - apply (Hnz r); set_solver.
  - apply (Hd (g_ptr r)); [set_solver|]. rewrite <- E. set_solver.
Qed.
Lemma tail_choice l1 l2 p st nd f :
  (forall r, r ∈ l1 ++ l2 -> g_ptr r <> 0) -> (forall q, q ∈ g_ptr <$> l1 -> q ∉ g_ptr <$> l2) ->
  (if last_or l1 0 =? last_or (l1 ++ l2) 0 then p else last_or (l1 ++ l2) 0) =
    last_or (l1 ++ mkRegion p st nd f :: l2) 0.
Proof.
  intros Hnz Hd. rewrite !last_or_tail, last_or_cons. cbn [g_ptr].
  destruct (decide (l2 = [])) as [->|Hne]; [by rewrite Z.eqb_refl|].
  rewrite (last_or_nonempty l2 p), (last_or_nonempty l2 (last_or l1 0)) by done.
  pose proof (last_or_in l2 0 Hne) as Hin.
  destruct (Z.eqb_spec (last_or l1 0) (last_or l2 0)) as [E|]; [|done]. exfalso.
  destruct (decide (l1 = [])) as [->|Hne1].
  - apply list_elem_of_fmap in Hin as (r & Er & Hr). apply (Hnz r); [set_solver|]. rewrite <- Er, <- E. done.
  - apply (Hd (last_or l1 0)); [by apply last_or_in|]. by rewrite E.
Qed.

Lemma rsorted_ptr lo l1 l2 p q st nd f :
  rsorted lo (l1 ++ mkRegion q st nd f :: l2) -> rsorted lo (l1 ++ mkRegion p st nd f :: l2).
Proof.
  revert lo. induction l1 as [|r l1 IH]; intros lo; cbn [app rsorted]; [done|]. intros (H1 & H2 & H3). split_and!; [done| |by apply IH].
  destruct H2 as [|H2]; [by left|by destruct l1].
Qed.

Lemma rd_node_ok v p n : p <> 0 -> nodes v !! p = Some n -> rd_node v p = Done n.
Proof. intros H E. unfold rd_node. rewrite E. by destruct (Z.eqb_spec p 0). Qed.
Lemma wr_node_ok v p n : p <> 0 -> wr_node v p n = Done (with_nodes v (<[p := n]> (nodes v))).
Proof. intros H. unfold wr_node. by destruct (Z.eqb_spec p 0). Qed.

(** The parts of the manager that region operations leave alone. *)
Record same_machine (v v' : Vmm) : Prop := {
  sm_pmm : vPmm v' = vPmm v;
  sm_base : VirtAddrBase v' = VirtAddrBase v;
  sm_root : KernelPaddrRoot v' = KernelPaddrRoot v;
  sm_pat : PatMsrState v' = PatMsrState v;
  sm_nx : NxUnsupported v' = NxUnsupported v
}.

(** The insertion of a region between [l1] and [l2] while the root page of the
    node allocator has a clear slot. *)
Lemma insert_region_spec v p0 live sp l1 l2 fuel st nd Flags :
  rna_rep v p0 live -> root_bitmap v p0 <> QWORD_MAX -> (0 < fuel)%nat -> sp <> 0 ->
  space_rep v sp (l1 ++ l2) -> g_ptr <$> (l1 ++ l2) ⊆ live ->
  rsorted 0 (l1 ++ mkRegion 0 st nd Flags :: l2) ->
  exists v' p, insert_region fuel v sp st nd Flags (head_or l2 0) (last_or l1 0) = Done (v', p) /\
    p <> 0 /\ p ∉ live /\ rna_rep v' p0 (p :: live) /\
    space_rep v' sp (l1 ++ mkRegion p st nd Flags :: l2) /\
    (forall q, q ∉ p :: (g_ptr <$> (l1 ++ l2)) -> nodes v' !! q = nodes v !! q) /\
    (forall q, q <> sp -> spaces v' !! q = spaces v !! q) /\ same_machine v v' /\
    (forall a, spaces v !! sp = Some a -> exists a', spaces v' !! sp = Some a' /\ PaddrRoot a' = PaddrRoot a) /\
    root_bitmap v' p0 = next_bitmap (root_bitmap v p0).
Proof.
  intros Hr Hb Hf Hsp [(root & Hs) Hseg Hsort Hnd] Hlive Hnew.
  destruct (rna_acquire_spec v p0 live fuel Hr Hb Hf) as (v1 & p & E1 & Hp & Hpl & Hr1 & Ev1 & Ebm).
  pose proof (acquire_rna_frame v p0 live (l1 ++ l2) p v1 Hr Hpl Hlive Ev1 _ _ _ Hseg) as Hseg1.
  assert (nodes v1 = <[p := vmr_zero]> (nodes v)) as En1 by by rewrite Ev1.
  assert (spaces v1 = spaces v) as Es1 by by rewrite Ev1.
  assert (same_machine v v1) as Hsm by (rewrite Ev1; done).
  clear Ev1. unfold insert_region. rewrite E1, bind_Done. destruct (Z.eqb_spec p 0); [lia|].
  rewrite (rd_node_ok v1 p vmr_zero), bind_Done, wr_node_ok, bind_Done by (rewrite ?En1, ?lookup_insert_eq; done || lia).
  rewrite En1. cbn [vmr_zero rPrev rNext Tag].
  rewrite insert_insert_eq. set (nn := mkVmr sp 0 0 "" st nd Flags).
  assert (p ∉ g_ptr <$> (l1 ++ l2)) as Hpl12 by (intros H; by apply Hpl, Hlive).
  rewrite fmap_app in Hnd, Hpl12. apply NoDup_app in Hnd as (Hnd1 & Hdisj & Hnd2).
  set (v2 := with_nodes v1 (<[p := nn]> (nodes v))).
  assert (vseg (nodes v2) sp 0 (l1 ++ l2) 0) as Hseg2.
  { eapply vseg_frame; [|exact Hseg]. intros r Hri. cbn [v2 with_nodes nodes]. apply lookup_insert_ne.
    intros ->. apply Hpl, Hlive. by apply list_elem_of_fmap_2. }
  apply vseg_app in Hseg2 as [Hsa Hsb].
  destruct (link_before v2 sp _ l2 p Hsb Hnd2) as (m3 & E3 & Hsb3 & F3). rewrite E3, bind_Done.
  assert (vseg (nodes (with_nodes v2 m3)) sp 0 l1 (head_or l2 0)) as Hsa3.
  { eapply vseg_frame; [|exact Hsa]. intros r Hri. apply F3. apply Hdisj. by apply list_elem_of_fmap_2. }
  destruct (link_after _ sp l1 _ p Hsa3 Hnd1) as (m4 & E4 & Hsa4 & F4). rewrite E4, bind_Done.
  assert (m4 !! p = Some nn) as Hp4.
  { rewrite F4 by set_solver. cbn [with_nodes nodes]. rewrite F3 by set_solver. cbn [v2 with_nodes nodes].
    apply lookup_insert_eq. }
  erewrite (rd_node_ok _ p), bind_Done, wr_node_ok, bind_Done by (lia || exact Hp4).
  unfold rd_space. destruct (Z.eqb_spec sp 0); [done|]. cbn [with_nodes spaces nodes v2]. rewrite Es1, Hs.
  cbn [checked]. rewrite bind_Done.
  cbn [PaddrRoot pRootVMR pTailVMR NrVMRs nn pAddressSpace Tag VaddrStart VaddrEnd rFlags].
  eexists _, p. split; [done|]. split_and!; [lia|done| | | | | | |exact Ebm].
  - destruct Hr1 as [R1 R2 R3 R4]. by split.
  - assert (forall r, r ∈ l1 ++ l2 -> g_ptr r <> 0) as Hnz by by eapply vseg_nonzero.
    split; cbn [with_spaces with_nodes spaces nodes].
    + exists root. rewrite lookup_insert_eq. do 2 f_equal.
      * by apply root_choice.
      * by apply tail_choice.
      * rewrite !length_app. cbn [length]. unfold u32. rewrite Zplus_mod_idemp_l. f_equal. lia.
    + apply vseg_app. split.
      * eapply vseg_frame; [|exact Hsa4]. intros r Hri. apply lookup_insert_ne. intros ->. apply Hpl12, elem_of_app.
        left. by apply list_elem_of_fmap_2.
      * split_and!; [done| |].
        { exists ""%string. by rewrite lookup_insert_eq. }
        eapply vseg_frame; [|exact Hsb3]. intros r Hri. rewrite lookup_insert_ne.
        { apply F4. intros H. apply (Hdisj (g_ptr r)); [done|]. by apply list_elem_of_fmap_2. }
        { intros ->. apply Hpl12, elem_of_app. right. by apply list_elem_of_fmap_2. }
    + by eapply rsorted_ptr.
    + rewrite fmap_app. cbn [fmap list_fmap g_ptr]. apply NoDup_app. split_and!; [done| |constructor; [set_solver|done]].
      intros q Hq [->|H]%elem_of_cons; [set_solver|]. by apply (Hdisj q).
  - intros q Hq. cbn [with_spaces with_nodes nodes]. rewrite fmap_app in Hq. rewrite lookup_insert_ne, F4 by set_solver.
    cbn [with_nodes nodes]. rewrite F3 by set_solver. cbn [v2 with_nodes nodes]. apply lookup_insert_ne. set_solver.
  - intros q Hq. by apply lookup_insert_ne.
  - by destruct Hsm.
  - intros a' Ha'. injection Ha' as <-. eexists. split; [apply lookup_insert_eq|done].
Qed.
