(* ===== verification/VmrProps.v ===== *)
(** * Properties of the region list and of the node allocator's use *)
From Stdlib Require Import ZArith Lia String.
From stdpp Require Import base numbers list gmap.
From S2P Require Import Prelude PhysBitmap KrtlMem BootstrapArena MemoryMap Physmemmgmt Pte Vmr VmrSpec.
Open Scope Z_scope.

(** ** A concrete address space *)

(** Kernel space at address 1 with two regions whose nodes are slots 1 and 2 of
    the root page, physical page 3, in a direct map at [0xFFFF800000000000]. *)
Definition sample_base : Z := 0xFFFF800000000000.
Definition sample_p0 : Z := sample_base + 0x3000.
Definition sample_l : list region :=
  [mkRegion (sample_p0 + 64) 0xFFFFFF8000200000 0xFFFFFF8000600000 156;
   mkRegion (sample_p0 + 128) 0xFFFFFF8000A00000 0xFFFFFF8000C00000 164].
Definition sample_vmm : Vmm :=
  mkVmm (mkPmm 1 0 0 0x7FFF [0; 0] [15; 0] 2 8 8 0 4 4 [] false) sample_base 0x5000
    (mkPatMsr 3 1 4 5 0 2) false 3
    {[ sample_p0 := mkSlot 7 3 IVLDPGID IVLDPGID 3 ]}
    {[ sample_p0 + 64 := mkVmr 1 0 (sample_p0 + 128) "k" 0xFFFFFF8000200000 0xFFFFFF8000600000 156;
       sample_p0 + 128 := mkVmr 1 (sample_p0 + 64) 0 "f" 0xFFFFFF8000A00000 0xFFFFFF8000C00000 164 ]}
    {[ 1 := mkSpace 0x5000 (sample_p0 + 64) (sample_p0 + 128) 2 ]}.

Lemma sample_space : space_rep sample_vmm 1 sample_l.
Proof.
  split.
  - by exists 0x5000.
  - cbn [sample_l vseg]. split_and!; try done; eexists; vm_compute; reflexivity.
  - cbn [sample_l rsorted g_start g_end]. lia.
  - apply (bool_decide_unpack _). by vm_compute.
Defined.

Definition sample_live : list Z := [sample_p0 + 64; sample_p0 + 128].
Lemma sample_rna : rna_rep sample_vmm sample_p0 sample_live.
Proof.
  split.
  - intros k Hk. unfold RnaGetSlotVptr.
    assert (KrPhysToVirt sample_vmm (KrGetPhysicalPageAddress (vPmm sample_vmm) (g_RnaRootPageID sample_vmm)) = sample_p0)
      as -> by (vm_compute; reflexivity).
    rewrite u64_small; unfold sample_p0, sample_base, RNA_SLOT_SIZE; lia.
  - unfold sample_p0, sample_base. lia.
  - exists (mkSlot 7 3 IVLDPGID IVLDPGID 3). split; [vm_compute; reflexivity|]. cbn [Bitmap This]. split_and!; try done.
    + intros k Hk. rewrite (testbit_above 7 3 k), (testbit_above 7 3 31) by lia. done.
    + constructor; [exists 1; split_and!; done|]. constructor; [exists 2; split_and!; done|constructor].
  - apply (bool_decide_unpack _). by vm_compute.
Defined.

(** ** Queries *)

(** VmLocateRegion on a represented address space returns the only region
    that contains the address, and 0 when no region contains it; it terminates
    within one step per region. *)
Theorem locate_region_unique v sp l fuel a :
  space_rep v sp l -> sp <> 0 -> (length l < fuel)%nat ->
  exists p, VmLocateRegion fuel v sp a = Done p /\
    (p <> 0 <-> exists r, r ∈ l /\ contains r a) /\
    (forall r, r ∈ l -> contains r a -> p = g_ptr r).
Proof.
  intros H Hsp Hf. destruct (locate_region_spec v sp l fuel a H Hsp Hf) as (p & E & H1 & H2).
  exists p. split_and!; [done| |done]. split.
  - intros Hp. destruct (decide (Exists (fun r => contains r a) l)) as [He|He]; [by apply Exists_exists in He|].
    exfalso. apply Hp, H2. intros r Hr Hc. apply He, Exists_exists. eauto.
  - intros (r & Hr & Hc). rewrite (H1 r Hr Hc). by eapply vseg_nonzero; [apply (sr_seg _ _ _ H)|].
Qed.

Example locate_region_unique_witness :
  VmLocateRegion 3 sample_vmm 1 0xFFFFFF8000A00123 = Done (sample_p0 + 128) /\
  exists p, VmLocateRegion 3 sample_vmm 1 0xFFFFFF8000A00123 = Done p /\
    (p <> 0 <-> exists r, r ∈ sample_l /\ contains r 0xFFFFFF8000A00123) /\
    (forall r, r ∈ sample_l -> contains r 0xFFFFFF8000A00123 -> p = g_ptr r).
Proof.
  split; [vm_compute; reflexivity|].
  apply (locate_region_unique sample_vmm 1 sample_l 3); [apply sample_space|done|vm_compute; lia].
Defined.

(** VmVrangeOverlapsAnyRegions answers TRUE exactly when the range meets a
    region, although it stops at the first region that starts after the range. *)
Theorem overlap_query_iff v sp l fuel st nd :
  space_rep v sp l -> sp <> 0 -> (length l < fuel)%nat ->
  exists b, VmVrangeOverlapsAnyRegions fuel v sp st nd = Done b /\
    (b = true <-> st < nd /\ exists r, r ∈ l /\ overlaps r st nd).
Proof.
  intros [(root & Hs) Hseg Hsort Hnd] Hsp Hf. unfold VmVrangeOverlapsAnyRegions, rd_space.
  destruct (Z.eqb_spec sp 0); [done|]. rewrite Z.geb_leb. destruct (Z.leb_spec nd st).
  - exists false. split; [done|]. split; [done|]. lia.
  - rewrite Hs. cbn [checked]. rewrite bind_Done. cbn [pRootVMR]. eexists.
    split; [by eapply overlaps_loop_spec|]. rewrite bool_decide_eq_true, Exists_exists. split; [done|by intros [_ ?]].
Qed.

Example overlap_query_iff_witness :
  VmVrangeOverlapsAnyRegions 3 sample_vmm 1 0xFFFFFF8000600000 0xFFFFFF8000A00001 = Done true /\
  exists b, VmVrangeOverlapsAnyRegions 3 sample_vmm 1 0xFFFFFF8000600000 0xFFFFFF8000A00001 = Done b /\
    (b = true <-> 0xFFFFFF8000600000 < 0xFFFFFF8000A00001 /\
       exists r, r ∈ sample_l /\ overlaps r 0xFFFFFF8000600000 0xFFFFFF8000A00001).
Proof.
  split; [vm_compute; reflexivity|].
  apply (overlap_query_iff sample_vmm 1 sample_l 3); [apply sample_space|done|vm_compute; lia].
Defined.

(** ** Insertion *)

Lemma rsorted_insert lo l st nd f :
  rsorted lo l -> lo <= st -> st < nd -> (forall r, r ∈ l -> ~ overlaps r st nd /\ (g_start r < g_end r \/ nd <= g_start r)) ->
  let '(l1, l2) := split_at nd l in rsorted lo (l1 ++ mkRegion 0 st nd f :: l2).
Proof.
  revert lo. induction l as [|r l IH]; intros lo Hs Hlo Hlt Hn; [simpl; split_and!; [lia|lia|done]|]. destruct Hs as (H1 & H2 & H3).
  cbn [split_at]. destruct (Hn r) as [Hr He]; [set_solver|]. unfold overlaps in Hr.
  destruct (Z.leb_spec nd (g_start r)); [simpl; split_and!; try done; lia|].
  specialize (IH (g_end r) H3 ltac:(lia) Hlt). destruct (split_at nd l) as [a b]. cbn [app rsorted].
  split_and!; [done|lia|]. apply IH. intros x Hx. apply Hn. set_solver.
Qed.

(** For a range that meets no region the insertion point is the right one. *)
Lemma insert_from_disjoint lo l st nd :
  l <> [] -> rsorted lo l -> st < nd -> (forall r, r ∈ l -> ~ overlaps r st nd) ->
  insert_from 0 l st nd = Some (head_or (snd (split_at nd l)) 0, last_or (fst (split_at nd l)) 0).
Proof.
  intros Hne Hs Hlt Hn. unfold insert_from. pose proof (split_at_app nd l) as Ha.
  pose proof (split_at_spec lo nd l Hs) as [Hb _]. destruct (split_at nd l) as [a b]. cbn [fst snd] in *.
  destruct b as [|x b]; [|done]. rewrite app_nil_r in Ha. subst a. cbn [head_or].
  destruct l as [|r l _] using rev_ind; [done|]. rewrite last_snoc, last_or_app.
  assert (~ overlaps r st nd) as Hr by (apply Hn; set_solver). apply Forall_app in Hb as [_ Hb].
  inversion Hb; subst. unfold overlaps in Hr. destruct (Z.leb_spec (g_end r) st); [done|lia].
Qed.

Definition acquire_accepts (v : Vmm) (root st nd Flags : Z) (l : list region) : Prop :=
  region_args_ok v root st nd Flags = true /\ 0 <= st < nd /\ l <> [] /\
  forall r, r ∈ l -> ~ overlaps r st nd /\ (g_start r < g_end r \/ nd <= g_start r).

(** The region just linked, and what VmAcquireRegion leaves alone. *)
Record region_linked (v v' : Vmm) (p0 : Z) (live : list Z) (sp : Z) (l : list region) (p st nd Flags : Z) : Prop := {
  rl_fresh : p <> 0 /\ p ∉ live;
  rl_rna : rna_rep v' p0 (p :: live);
  rl_space : exists l1 l2, l = l1 ++ l2 /\ space_rep v' sp (l1 ++ mkRegion p st nd Flags :: l2);
  rl_nodes : forall q, q ∉ p :: (g_ptr <$> l) -> nodes v' !! q = nodes v !! q;
  rl_spaces : forall q, q <> sp -> spaces v' !! q = spaces v !! q;
  rl_root : forall a, spaces v !! sp = Some a -> exists a', spaces v' !! sp = Some a' /\ PaddrRoot a' = PaddrRoot a;
  rl_machine : same_machine v v';
  rl_bitmap : root_bitmap v' p0 = next_bitmap (root_bitmap v p0)
}.

Lemma acquire_region_links v p0 live sp l fuel st nd Flags a :
  rna_rep v p0 live -> root_bitmap v p0 <> QWORD_MAX -> space_rep v sp l -> g_ptr <$> l ⊆ live ->
  sp <> 0 -> spaces v !! sp = Some a -> (length l < fuel)%nat -> acquire_accepts v (PaddrRoot a) st nd Flags l ->
  exists v' p, VmAcquireRegion fuel v sp st nd Flags = Done (v', p) /\ region_linked v v' p0 live sp l p st nd Flags.
Proof.
  intros Hr Hb Hs Hl Hsp Ha Hf (Hok & Hlt & Hne & Hn).
  rewrite (acquire_region_unfold v sp l fuel st nd Flags a Hs Hsp Hf Ha), Hok.
  rewrite (insert_from_disjoint 0 l st nd Hne (sr_sorted _ _ _ Hs)) by (done || lia || (intros r Hin; by apply Hn)).
  pose proof (split_at_app nd l) as Happ.
  pose proof (rsorted_insert 0 l st nd Flags (sr_sorted _ _ _ Hs) ltac:(lia) ltac:(lia) Hn) as Hso.
  destruct (split_at nd l) as [l1 l2]. cbn [fst snd] in *. subst l.
  destruct (insert_region_spec v p0 live sp l1 l2 fuel st nd Flags) as (v' & p & E & H1 & H2 & H3 & H4 & H5 & H6 & H7 & H8 & H9);
    try done; [lia|].
  exists v', p. split; [exact E|]. split; try done. by exists l1, l2.
Qed.

(** C30: VmAcquireRegion on a nonempty address space, for an aligned range on the
    right side of the division that meets no region and has no empty one below its end, while the allocator's
    root page has a free slot: it returns a fresh nonzero node that is now
    linked at its place, so the space represents the old regions and the new one in address
    order; no node outside the space changes and no other space does. *)
Theorem acquire_region_inserts v p0 live sp l fuel st nd Flags a :
  rna_rep v p0 live -> root_bitmap v p0 <> QWORD_MAX -> space_rep v sp l -> g_ptr <$> l ⊆ live ->
  sp <> 0 -> spaces v !! sp = Some a -> (length l < fuel)%nat -> acquire_accepts v (PaddrRoot a) st nd Flags l ->
  exists v' p l1 l2, VmAcquireRegion fuel v sp st nd Flags = Done (v', p) /\ l = l1 ++ l2 /\
    p <> 0 /\ p ∉ live /\ rna_rep v' p0 (p :: live) /\ space_rep v' sp (l1 ++ mkRegion p st nd Flags :: l2) /\
    (forall q, q ∉ p :: (g_ptr <$> l) -> nodes v' !! q = nodes v !! q) /\
    (forall q, q <> sp -> spaces v' !! q = spaces v !! q).
Proof.
  intros Hr Hb Hs Hl Hsp Ha Hf Hacc.
  destruct (acquire_region_links v p0 live sp l fuel st nd Flags a) as (v' & p & E & [[L1 L2] L3 (l1 & l2 & L4 & L5) L6 L7 _ _ _]); try done.
  by exists v', p, l1, l2.
Qed.

Definition sample_acquired : Vmm :=
  Eval vm_compute in match VmAcquireRegion 3 sample_vmm 1 0xFFFFFF8000800000 0xFFFFFF8000A00000 (16 + 4) with
                     | Done (v, _) => v | _ => sample_vmm end.

Lemma sample_accepts :
  acquire_accepts sample_vmm 0x5000 0xFFFFFF8000800000 0xFFFFFF8000A00000 20 sample_l.
Proof.
  unfold acquire_accepts. split_and!; [vm_compute; reflexivity|lia|lia|done|]. apply Forall_forall.
  repeat constructor; unfold overlaps; cbn [g_start g_end]; lia.
Defined.

Example acquire_region_inserts_witness :
  VmAcquireRegion 3 sample_vmm 1 0xFFFFFF8000800000 0xFFFFFF8000A00000 20 = Done (sample_acquired, sample_p0 + 192) /\
  exists v' p l1 l2, VmAcquireRegion 3 sample_vmm 1 0xFFFFFF8000800000 0xFFFFFF8000A00000 20 = Done (v', p) /\
    sample_l = l1 ++ l2 /\ p <> 0 /\ p ∉ sample_live /\ rna_rep v' sample_p0 (p :: sample_live) /\
    space_rep v' 1 (l1 ++ mkRegion p 0xFFFFFF8000800000 0xFFFFFF8000A00000 20 :: l2) /\
    (forall q, q ∉ p :: (g_ptr <$> sample_l) -> nodes v' !! q = nodes sample_vmm !! q) /\
    (forall q, q <> 1 -> spaces v' !! q = spaces sample_vmm !! q).
Proof.
  split; [vm_compute; reflexivity|].
  eapply (acquire_region_inserts sample_vmm sample_p0 sample_live 1 sample_l 3);
    [apply sample_rna|by vm_compute|apply sample_space|set_solver|done|vm_compute; reflexivity|vm_compute; lia
    |apply sample_accepts].
Defined.

(** VmAcquireRegion rejects, returning NULL and changing nothing, every
    range that is empty, misaligned for its page size or on the wrong side of
    the user and kernel division, every range that meets the last region from
    below its end with no region after it, and every range of an empty space. *)
Theorem acquire_region_rejects v sp l fuel st nd Flags a :
  space_rep v sp l -> sp <> 0 -> spaces v !! sp = Some a -> (length l < fuel)%nat ->
  region_args_ok v (PaddrRoot a) st nd Flags = false \/
  Forall (fun r => g_start r < nd) l /\ (forall r, last l = Some r -> st < g_end r) ->
  VmAcquireRegion fuel v sp st nd Flags = Done (v, 0).
Proof.
  intros Hs Hsp Ha Hf H. rewrite (acquire_region_unfold v sp l fuel st nd Flags a Hs Hsp Hf Ha).
  destruct H as [-> | [Hb Hl]]; [done|]. destruct (region_args_ok _ _ _ _ _); [|done].
  assert (insert_from 0 l st nd = None) as ->; [|done]. unfold insert_from.
  assert (split_at nd l = (l, [])) as ->.
  { clear -Hb. induction Hb as [|r l Hr Hb IH]; [done|]. cbn [split_at]. rewrite IH.
    by destruct (Z.leb_spec nd (g_start r)); [lia|]. }
  destruct (last l) as [r|]; [|done]. specialize (Hl r eq_refl). by destruct (Z.leb_spec (g_end r) st); [lia|].
Qed.

Example acquire_region_rejects_witness :
  VmAcquireRegion 3 sample_vmm 1 0x800000 0xA00000 20 = Done (sample_vmm, 0) /\
  VmAcquireRegion 3 sample_vmm 1 0xFFFFFF8000A00000 0xFFFFFF8000E00000 20 = Done (sample_vmm, 0).
Proof.
  split.
  - eapply (acquire_region_rejects sample_vmm 1 sample_l); [apply sample_space|done|vm_compute; reflexivity|vm_compute; lia|].
    left. vm_compute. reflexivity.
  - eapply (acquire_region_rejects sample_vmm 1 sample_l); [apply sample_space|done|vm_compute; reflexivity|vm_compute; lia|].
    right. split; [repeat constructor|]. intros r [= <-]. reflexivity.
Defined.

(** ** Divergences *)

(** A range inside the first region is accepted and linked before the second:
    line 196 moves on to the next node although the range meets this one. *)
Example overlapping_range_accepted :
  (b ← VmVrangeOverlapsAnyRegions 3 sample_vmm 1 0xFFFFFF8000200000 0xFFFFFF8000400000;
   '(_, p) ← VmAcquireRegion 3 sample_vmm 1 0xFFFFFF8000200000 0xFFFFFF8000400000 20;
   Done (b : bool, p)) = Done (true, sample_p0 + 192).
Proof. vm_compute. reflexivity. Qed.

(** The first region of an empty user space is always refused. *)
Example empty_space_refused :
  let v := with_spaces sample_vmm {[ 1 := mkSpace 0x6000 0 0 0 ]} in
  region_args_ok v 0x6000 0x400000 0x600000 20 = true /\ VmAcquireRegion 3 v 1 0x400000 0x600000 20 = Done (v, 0).
Proof. vm_compute. done. Qed.

(** The frame buffer's region ends below its start when the frame buffer lies
    further from the kernel than its own size, and no address is found in it. *)
Example frame_buffer_not_located :
  let kvirt := 0xFFFFFF8000200000 in let fbvirt := 0xFFFFFF8040000000 in
  ('(v, ok) ← KrInitKrnlAddrSpace 3 (with_spaces sample_vmm {[ 1 := mkSpace 0 0 0 0 ]}) 1 0x5000
       kvirt 0x400000 fbvirt 0x800000;
   p ← VmLocateRegion 3 v 1 fbvirt;
   Done (ok : bool, p)) = Done (true, 0).
Proof. vm_compute. reflexivity. Qed.

(** When the root page is full the allocator takes a new physical page whose
    meta slot never records its own number: the nodes handed out are the slots of
    physical page 0, whatever page was taken. *)
Definition full_root_vmm : Vmm :=
  with_slots sample_vmm {[ sample_p0 := mkSlot QWORD_MAX 3 IVLDPGID IVLDPGID 64 ]}.
Example rna_new_page_nodes :
  ('(v, p) ← RnaAcquireNode 5 full_root_vmm;
   let v := with_nodes v (<[p := mkVmr 1 0 0 "in use" 1 2 0]> (nodes v)) in
   '(v, q) ← RnaAcquireNode 5 v;
   Done (p, q)) = Done (sample_base + 64, sample_base + 128).
Proof. vm_compute. reflexivity. Qed.
