(* ===== verification/PageTable.v ===== *)
(** * Page tables: the walk of Kernel/Source/Memory/PTE.c, the static mapping of
    Kernel/Source/Memory/Virtmemmgmt.c, demand paging
    (Kernel/Source/Intmgmt/PageFault.c) and device mapping (Kernel/Source/Memory/MMIO.c)

    Table memory is a store of 64-bit words keyed by the direct-map virtual
    address the kernel uses for them.  The processor's walk over that store is
    the specification the mappings are judged by. *)
From Stdlib Require Import ZArith Lia String.
From stdpp Require Import base numbers list gmap.
From S2P Require Import Prelude PhysBitmap KrtlMem BootstrapArena MemoryMap Physmemmgmt Pte Vmr.
Open Scope Z_scope.

(** ** State *)

Record Paging := mkPaging {
  pgVmm : Vmm;
  tbl : gmap Z Z;
  g_pslDefault : KrPatSelect;
  NumIvldEncodeOfPTEs : Z;
  g_VaddrMmioHead : Z;
  bInPageFault : bool
}.
Definition with_vmm (s : Paging) (v : Vmm) : Paging :=
  mkPaging v (tbl s) (g_pslDefault s) (NumIvldEncodeOfPTEs s) (g_VaddrMmioHead s) (bInPageFault s).
Definition with_tbl (s : Paging) (t : gmap Z Z) : Paging :=
  mkPaging (pgVmm s) t (g_pslDefault s) (NumIvldEncodeOfPTEs s) (g_VaddrMmioHead s) (bInPageFault s).
Definition with_head (s : Paging) (h : Z) : Paging :=
  mkPaging (pgVmm s) (tbl s) (g_pslDefault s) (NumIvldEncodeOfPTEs s) h (bInPageFault s).
Definition with_in_fault (s : Paging) (b : bool) : Paging :=
  mkPaging (pgVmm s) (tbl s) (g_pslDefault s) (NumIvldEncodeOfPTEs s) (g_VaddrMmioHead s) b.
(** The failure counter of PteEncodeEntry. *)
Definition count_ivld (s : Paging) (failed : bool) : Paging :=
  mkPaging (pgVmm s) (tbl s) (g_pslDefault s) (if failed then u32 (NumIvldEncodeOfPTEs s + 1) else NumIvldEncodeOfPTEs s)
    (g_VaddrMmioHead s) (bInPageFault s).

Definition PAGE_TYPE_PAGE_STRUCT : Z := 2.
Definition PAGE_TYPE_GENERAL : Z := 1.

(** [pContainer[Index]] *)
Definition rd_entry (s : Paging) (pContainer Index : Z) : outcome Z := checked (tbl s !! (pContainer + 8 * Index)).
Definition wr_entry (s : Paging) (pContainer Index e : Z) : Paging :=
  with_tbl s (<[pContainer + 8 * Index := e]> (tbl s)).

(** KrtlContiguousZeroBuffer of one page, as its 512 words. *)
Definition zero_page (m : gmap Z Z) (Vaddr : Z) : gmap Z Z :=
  foldr (fun i m => <[Vaddr + 8 * i := 0]> m) m (seqZ 0 512).

(** ** The table walk of PTE.c *)

Definition PteGetPageStruct (s : Paging) (pContainer : Z) (ReadType : KrTypePTE) (Index : Z) : outcome Z :=
  e ← rd_entry s pContainer Index;
  Done (if has_flag e PTE_PRESENT then KrPhysToVirt (pgVmm s) (Z.land e PTE_PHYSADDR_MASK) else 0).

Definition PteGetOrAcquirePageStruct (s : Paging) (pContainer : Z) (ReadType : KrTypePTE) (Index qwAcqFlags : Z)
    (pslAcq : KrPatSelect) : outcome (Paging * Z) :=
  e ← rd_entry s pContainer Index;
  if has_flag e PTE_PRESENT then Done (s, KrPhysToVirt (pgVmm s) (Z.land e PTE_PHYSADDR_MASK))
  else
    '(pm, ID) ← PmAcquirePage (vPmm (pgVmm s)) PAGE_TYPE_PAGE_STRUCT IVLDPGID;
    let s := with_vmm s (with_pmm (pgVmm s) pm) in
    if ID =? IVLDPGID then Done (s, 0)
    else
      let PaddrPs := KrGetPhysicalPageAddress pm ID in
      let VaddrPs := KrPhysToVirt (pgVmm s) PaddrPs in
      let '(e, failed) := PteEncodeEntry (NxUnsupported (pgVmm s)) ReadType PaddrPs qwAcqFlags pslAcq in
      let s := wr_entry (count_ivld s failed) pContainer Index e in
      if e =? KR_PTE2_ENCODE_FAILURE_DUE_TO_ALIGNMENT then
        '(pm, _) ← PmRelinquishPage pm ID;
        Done (with_vmm s (with_pmm (pgVmm s) pm), 0)
      else Done (with_tbl s (zero_page (tbl s) VaddrPs), VaddrPs).

(** The descent the callers share: PDPT, PD and PT of a 4 KiB mapping; 0 when
    a structure could not be acquired. *)
Definition descend (s : Paging) (PML4 : Z) (x : KrVirtualAddress) : outcome (Paging * Z) :=
  let f := Z.lor PTE_PRESENT PTE_WRITABLE in
  '(s, PDPT) ← PteGetOrAcquirePageStruct s PML4 PML4_ENTRY (vPML4 x) f (g_pslDefault s);
  if PDPT =? 0 then Done (s, 0)
  else
    '(s, PD) ← PteGetOrAcquirePageStruct s PDPT PDPT_ENTRY (vPDPT x) f (g_pslDefault s);
    if PD =? 0 then Done (s, 0)
    else PteGetOrAcquirePageStruct s PD PD_ENTRY (vPD x) f (g_pslDefault s).

(** ** VmMapStatic *)

(** The flag mask the mode is chosen with; it is not VMR_FLAG_PAGE_SIZE. *)
Definition map_mode (Flags : Z) : KrVirtualAddressMode := if has_flag Flags KR_PAGE_SIZE then VADDR_LARGE else VADDR_SMALL.

(** One iteration: the next state and whether it succeeded. *)
Definition map_one (s : Paging) (n : KrVirtualMemoryRegion) (PML4 MappingOffset PaddrStart : Z) : outcome (Paging * bool) :=
  let Vidx := KrUnmakeVirtual (map_mode (rFlags n)) (u64 (VaddrStart n + MappingOffset)) in
  match map_mode (rFlags n) with
  | VADDR_SMALL =>
      '(s, PT) ← descend s PML4 Vidx;
      if PT =? 0 then Done (s, false)
      else
        '(e, failed) ← VmEncodeEntryFor (pgVmm s) n PT_ENTRY (u64 (PaddrStart + MappingOffset));
        Done (wr_entry (count_ivld s failed) PT (vPT Vidx) e, true)
  | _ =>
      let f := Z.lor PTE_PRESENT PTE_WRITABLE in
      '(s, PDPT) ← PteGetOrAcquirePageStruct s PML4 PML4_ENTRY (vPML4 Vidx) f (g_pslDefault s);
      if PDPT =? 0 then Done (s, false)
      else
        '(s, PD) ← PteGetOrAcquirePageStruct s PDPT PDPT_ENTRY (vPDPT Vidx) f (g_pslDefault s);
        if PD =? 0 then Done (s, false)
        else
          '(e, failed) ← VmEncodeEntryFor (pgVmm s) n PD2MB_ENTRY (u64 (PaddrStart + MappingOffset));
          Done (wr_entry (count_ivld s failed) PD (vPD Vidx) e, true)
  end.

Fixpoint map_loop (fuel : nat) (s : Paging) (n : KrVirtualMemoryRegion) (PML4 MappingOffset MappingSize PaddrStart : Z)
    : outcome (Paging * bool) :=
  match fuel with
  | O => Hang
  | S fuel' =>
      if MappingOffset <? MappingSize then
        '(s, ok) ← map_one s n PML4 MappingOffset PaddrStart;
        if ok : bool
        then map_loop fuel' s n PML4 (u64 (MappingOffset + RegionPageSize (rFlags n))) MappingSize PaddrStart
        else Done (s, false)
      else Done (s, true)
  end.

Definition VmMapStatic (fuel : nat) (s : Paging) (pNode PaddrStart : Z) : outcome (Paging * bool) :=
  if pNode =? 0 then Done (s, false)
  else
    n ← rd_node (pgVmm s) pNode;
    if (pAddressSpace n =? 0) || negb (KrtlIsPowerOfTwoAligned PaddrStart (RegionPageSize (rFlags n))) then Done (s, false)
    else if negb (has_flag (rFlags n) VMR_FLAG_STATIC) then Done (s, false)
    else
      a ← rd_space (pgVmm s) (pAddressSpace n);
      map_loop fuel s n (KrPhysToVirt (pgVmm s) (PaddrRoot a)) 0 (u64 (VaddrEnd n - VaddrStart n)) PaddrStart.

(** ** Demand paging *)

Definition PFEC_PRESENT : Z := 1.
Definition PFEC_USER : Z := 4.
Definition PFEC_INSTRUCTION : Z := 16.
Definition VMR_FLAG_GUARD : Z := 64.
Definition KR_MDCODE_PAGE_FAULT : Z := 0x2005.

(** The label AbortMission. *)
Definition fault_done (s : Paging) (bFaultHandled : bool) : outcome Paging :=
  let s := with_in_fault s false in
  if bFaultHandled then Done s else Melt KR_MDCODE_PAGE_FAULT.

(** Aborting after the page for the data was acquired. *)
Definition fault_release (s : Paging) (PhysPageID : Z) : outcome Paging :=
  '(pm, _) ← PmRelinquishPage (vPmm (pgVmm s)) PhysPageID;
  fault_done (with_vmm s (with_pmm (pgVmm s) pm)) false.

(** [pSpace] is the kernel address space, [initialized] the manager's state. *)
Definition IntmgmtPageFault (fuel : nat) (s : Paging) (initialized : bool) (pSpace VaddrFault ErrorCode : Z) : outcome Paging :=
  if bInPageFault s then Melt KR_MDCODE_PAGE_FAULT
  else if negb initialized then fault_done s false
  else
    let s := with_in_fault s true in
    if negb (has_flag ErrorCode PFEC_PRESENT) && negb (has_flag ErrorCode PFEC_USER) &&
       negb (has_flag ErrorCode PFEC_INSTRUCTION)
    then
      pRegion ← VmLocateRegion fuel (pgVmm s) pSpace VaddrFault;
      if pRegion =? 0 then fault_done s false
      else
        n ← rd_node (pgVmm s) pRegion;
        if has_flag (rFlags n) (Z.lor VMR_FLAG_STATIC VMR_FLAG_GUARD) then fault_done s false
        else if has_flag (rFlags n) VMR_FLAG_PAGE_SIZE then fault_done s false
        else
          let Vidx := KrUnmakeVirtual VADDR_SMALL VaddrFault in
          '(pm, PhysPageID) ← PmAcquirePage (vPmm (pgVmm s)) PAGE_TYPE_GENERAL IVLDPGID;
          let s := with_vmm s (with_pmm (pgVmm s) pm) in
          if PhysPageID =? IVLDPGID then fault_done s false
          else
            let PaddrPage := KrGetPhysicalPageAddress pm PhysPageID in
            a ← rd_space (pgVmm s) pSpace;
            '(s, PT) ← descend s (KrPhysToVirt (pgVmm s) (PaddrRoot a)) Vidx;
            if PT =? 0 then fault_release s PhysPageID
            else
              '(e, failed) ← VmEncodeEntryFor (pgVmm s) n PT_ENTRY PaddrPage;
              let s := wr_entry (count_ivld s failed) PT (vPT Vidx) e in
              if e =? KR_PTE2_ENCODE_FAILURE_DUE_TO_ALIGNMENT then fault_release s PhysPageID
              else
                let s := with_tbl s (zero_page (tbl s) (KrPhysToVirt (pgVmm s) PaddrPage)) in
                fault_done s true
    else fault_done s false.

(** ** Device mappings *)

Definition MMIO_FLAG_USE_LARGE_PAGES : Z := 1.
Definition MMIO_FLAG_WRITE_COMBINE : Z := 2.
Definition VMR_CACHE_PROTOCOL_UNCACHEABLE : Z := 1.
Definition VMR_CACHE_PROTOCOL_WRITE_COMBINE : Z := 2.

Definition MmioAllocateRange (s : Paging) (Alignment Size : Z) : Paging * Z :=
  let VaddrBase := Z.land (u64 (g_VaddrMmioHead s + u32 (Alignment - 1))) (u64 (Z.lnot (Alignment - 1))) in
  (with_head s (u64 (VaddrBase + Size)), VaddrBase).

Definition MmioMapDevice (fuel : nat) (s : Paging) (pSpace : Z) (DeviceTag : string)
    (PaddrDeviceBase DeviceAddressSize Flags : Z) : outcome (Paging * Z) :=
  let PageSize := if has_flag Flags MMIO_FLAG_USE_LARGE_PAGES then 0x200000 else 0x1000 in
  if negb (KrtlIsPowerOfTwoAligned PaddrDeviceBase PageSize) then Done (s, 0)
  else if negb (KrtlIsPowerOfTwoAligned (u64 (PaddrDeviceBase + DeviceAddressSize)) PageSize) then Done (s, 0)
  else
    let '(s, VaddrDeviceBase) := MmioAllocateRange s PageSize DeviceAddressSize in
    let RegionFlags := Z.lor (Z.lor (Z.lor VMR_FLAG_READABLE VMR_FLAG_WRITABLE) VMR_FLAG_STATIC)
      (if has_flag Flags MMIO_FLAG_WRITE_COMBINE then VMR_CACHE_PROTOCOL_WRITE_COMBINE else VMR_CACHE_PROTOCOL_UNCACHEABLE) in
    '(v, pNode) ← VmAcquireRegion fuel (pgVmm s) pSpace VaddrDeviceBase (u64 (VaddrDeviceBase + DeviceAddressSize)) RegionFlags;
    let s := with_vmm s v in
    if pNode =? 0 then Done (s, 0)
    else
      v ← VmTagRegion (pgVmm s) pNode DeviceTag;
      '(s, ok) ← VmMapStatic fuel (with_vmm s v) pNode PaddrDeviceBase;
      if ok : bool then Done (s, VaddrDeviceBase)
      else Done (with_vmm s (VmRelinquishRegion (pgVmm s) pNode).1, 0).
