(* ===== verification/PageTableSpec.v ===== *)
(** * The processor's walk and the tree of page tables *)
From Stdlib Require Import ZArith Lia String.
From stdpp Require Import base numbers list gmap.
From S2P Require Import Prelude PhysBitmap KrtlMem BootstrapArena MemoryMap Physmemmgmt PmmSparse PmmDense PmmOps PmmProps Pte Vmr PageTable.
Open Scope Z_scope.
#[local] Arguments Z.testbit _ _ : simpl never.

(** ** The processor's walk *)

(** The table an entry designates, as a physical address. *)
Definition entry_frame (e : Z) : Z := Z.land e PTE_PHYSADDR_MASK.

(** Whether a present entry at depth [d] (0 for the PML4) designates a table. *)
Definition follows (d : nat) (e : Z) : bool :=
  match d with O => true | 1%nat | 2%nat => negb (Z.testbit e 7) | _ => false end.

(** The entry that terminates the walk and the indices it leaves unused. *)
Fixpoint walk (m : gmap Z Z) (vb : Z) (d : nat) (t : Z) (idxs : list Z) : option (Z * list Z) :=
  match idxs with
  | [] => None
  | i :: rest =>
      match m !! (t + 8 * i) with
      | Some e =>
          if negb (Z.testbit e 0) then None
          else if follows d e then walk m vb (S d) (u64 (vb + entry_frame e)) rest
          else Some (e, rest)
      | None => None
      end
  end.

Definition va_indices (va : Z) : list Z :=
  [va / 2 ^ 39 mod 512; va / 2 ^ 30 mod 512; va / 2 ^ 21 mod 512; va / 2 ^ 12 mod 512].

(** Physical address and terminating entry of a virtual address. *)
Definition mmu_translate (m : gmap Z Z) (vb R va : Z) : option (Z * Z) :=
  match walk m vb 0 R (va_indices va) with
  | Some (e, []) => Some (mmu_frame PT_ENTRY e + va mod 2 ^ 12, e)
  | Some (e, [_]) => Some (mmu_frame PD2MB_ENTRY e + va mod 2 ^ 21, e)
  | Some (e, _) => Some (mmu_frame PDP1GB_ENTRY e + va mod 2 ^ 30, e)
  | None => None
  end.

(** ** The tree of tables *)

(** [ow] gives every table the index path that leads to it. *)
Record pt_wf (m : gmap Z Z) (vb R : Z) (ow : gmap Z (list Z)) : Prop := {
  pt_root : forall t, ow !! t = Some [] <-> t = R;
  pt_shape : forall t pi, ow !! t = Some pi -> t mod 4096 = 0 /\ (length pi <= 3)%nat;
  pt_words : forall t pi i, ow !! t = Some pi -> 0 <= i < 512 -> is_Some (m !! (t + 8 * i));
  pt_child : forall t pi i e, ow !! t = Some pi -> 0 <= i < 512 -> m !! (t + 8 * i) = Some e ->
    Z.testbit e 0 = true -> follows (length pi) e = true -> ow !! u64 (vb + entry_frame e) = Some (pi ++ [i]);
  pt_parent : forall t pi i, ow !! t = Some (pi ++ [i]) -> exists t0 e, ow !! t0 = Some pi /\ 0 <= i < 512 /\
    m !! (t0 + 8 * i) = Some e /\ Z.testbit e 0 = true /\ follows (length pi) e = true /\ u64 (vb + entry_frame e) = t
}.

(** Words of different tables are different. *)
Lemma word_inj t i t' i' :
  t mod 4096 = 0 -> t' mod 4096 = 0 -> 0 <= i < 512 -> 0 <= i' < 512 -> t + 8 * i = t' + 8 * i' -> t = t' /\ i = i'.
Proof. intros. zlia. Qed.

Definition indices_ok (l : list Z) : Prop := Forall (fun i => 0 <= i < 512) l.

Lemma va_indices_ok va : indices_ok (va_indices va).
Proof. repeat constructor; apply Z.mod_pos_bound; lia. Qed.

Section Agree.
Context (m m' : gmap Z Z) (vb R : Z) (ow : gmap Z (list Z)) (Hwf : pt_wf m vb R ow).
Context (Hm : forall t pi i, ow !! t = Some pi -> 0 <= i < 512 -> m' !! (t + 8 * i) = m !! (t + 8 * i)).

Lemma agree_wf : pt_wf m' vb R ow.
Proof using All.
  destruct Hwf as [W1 W2 W3 W4 W5]. split; [done|done| | |].
  - intros t pi i Ht Hi. rewrite (Hm t pi i) by done. by eapply W3.
  - intros t pi i e Ht Hi He. rewrite (Hm t pi i) in He by done. by eapply W4.
  - intros t pi i Ht. destruct (W5 t pi i Ht) as (t0 & e & H0 & Hi & He & H). exists t0, e.
    by rewrite (Hm t0 pi i).
Qed.

Lemma agree_walk idxs : indices_ok idxs -> walk m' vb 0 R idxs = walk m vb 0 R idxs.
Proof using All.
  intros Hok. assert (ow !! R = Some []) as HR by by apply (pt_root _ _ _ _ Hwf).
  change 0%nat with (length ([] : list Z)). revert HR. generalize R at 1 2 3 as t, (@nil Z) as pi. clear -Hwf Hm Hok.
  induction idxs as [|i idxs IH]; intros t pi Ht; [done|]. inversion Hok as [|? ? Hi Hok']; subst. cbn [walk].
  rewrite (Hm t pi i Ht Hi). destruct (m !! (t + 8 * i)) as [e|] eqn:E; [|done].
  destruct (Z.testbit e 0) eqn:Hp; [|done]. cbn [negb]. destruct (follows (length pi) e) eqn:Hf; [|done].
  pose proof (pt_child _ _ _ _ Hwf t pi i e Ht Hi E Hp Hf) as Hc.
  replace (S (length pi)) with (length (pi ++ [i])) by (rewrite length_app; simpl; lia). by apply IH.
Qed.
End Agree.

Section Tree.
Context (m : gmap Z Z) (vb R : Z) (ow : gmap Z (list Z)) (Hwf : pt_wf m vb R ow).

(** The walk reaches every table along its own path. *)
Lemma walk_to pi : forall t idxs,
  ow !! t = Some pi -> walk m vb 0 R (pi ++ idxs) = walk m vb (length pi) t idxs.
Proof using Hwf.
  induction pi as [|i pi IH] using rev_ind; intros t idxs Ht.
  - apply (pt_root _ _ _ _ Hwf) in Ht as ->. done.
  - destruct (pt_parent _ _ _ _ Hwf t pi i Ht) as (t0 & e & H0 & Hi & He & Hp & Hf & Hc).
    rewrite <- app_assoc, (IH t0 ([i] ++ idxs) H0). cbn [app walk]. rewrite He, Hp, Hf. cbn [negb].
    rewrite Hc, length_app, Nat.add_1_r. done.
Qed.

(** A change of memory that leaves every table word but one alone affects only
    the paths through that word. *)
Lemma walk_frame m' t0 pi0 i0 :
  ow !! t0 = Some pi0 -> 0 <= i0 < 512 ->
  (forall t pi i, ow !! t = Some pi -> 0 <= i < 512 -> (t, i) <> (t0, i0) -> m' !! (t + 8 * i) = m !! (t + 8 * i)) ->
  forall idxs t pi, ow !! t = Some pi -> indices_ok idxs ->
    (forall rest, pi ++ idxs <> pi0 ++ i0 :: rest) -> walk m' vb (length pi) t idxs = walk m vb (length pi) t idxs.
Proof using Hwf.
  intros H0 Hi0 Hm. induction idxs as [|i idxs IH]; intros t pi Ht Hok Hne; [done|].
  inversion Hok as [|? ? Hi Hok']; subst. cbn [walk].
  assert ((t, i) <> (t0, i0)) as Hd.
  { intros [= -> ->]. rewrite H0 in Ht. simplify_eq. by apply (Hne idxs). }
  rewrite (Hm t pi i Ht Hi Hd). destruct (m !! (t + 8 * i)) as [e|] eqn:E; [|done].
  destruct (Z.testbit e 0) eqn:Hp; [|done]. cbn [negb]. destruct (follows (length pi) e) eqn:Hf; [|done].
  pose proof (pt_child _ _ _ _ Hwf t pi i e Ht Hi E Hp Hf) as Hc.
  replace (S (length pi)) with (length (pi ++ [i])) by (rewrite length_app; simpl; lia).
  apply IH; [done|done|]. intros rest. rewrite <- app_assoc. apply Hne.
Qed.

(** An entry of a table on the path, when the walk is not stopped before it by a large page. *)
Lemma small_path_follows t pi i rest e :
  ow !! t = Some pi -> m !! (t + 8 * i) = Some e -> Z.testbit e 0 = true -> rest <> [] ->
  (forall e' rest', walk m vb 0 R (pi ++ i :: rest) = Some (e', rest') -> rest' = []) -> follows (length pi) e = true.
Proof using Hwf.
  intros Ht He Hp Hne H. destruct (follows (length pi) e) eqn:Hf; [done|]. exfalso. apply Hne, (H e).
  rewrite (walk_to pi t) by done. cbn [walk]. by rewrite He, Hp, Hf.
Qed.

End Tree.

(** ** Setting a leaf entry *)

Section SetLeaf.
Context (m : gmap Z Z) (vb R : Z) (ow : gmap Z (list Z)) (Hwf : pt_wf m vb R ow).

Lemma set_leaf_wf t0 pi0 i0 e :
  ow !! t0 = Some pi0 -> length pi0 = 3%nat -> 0 <= i0 < 512 -> pt_wf (<[t0 + 8 * i0 := e]> m) vb R ow.
Proof using Hwf.
  intros H0 Hl Hi0.
  assert (forall t pi i, ow !! t = Some pi -> 0 <= i < 512 -> (length pi < 3)%nat ->
            <[t0 + 8 * i0 := e]> m !! (t + 8 * i) = m !! (t + 8 * i)) as Hsame.
  { intros t pi i Ht Hi Hd. apply lookup_insert_ne. intros E.
    destruct (word_inj t0 i0 t i) as [-> _]; [by apply (pt_shape _ _ _ _ Hwf t0 pi0)|by apply (pt_shape _ _ _ _ Hwf t pi)|done|done|done|].
    rewrite H0 in Ht. simplify_eq. lia. }
  destruct Hwf as [W1 W2 W3 W4 W5]. split; [done|done| | |].
  - intros t pi i Ht Hi. destruct (decide (t0 + 8 * i0 = t + 8 * i)) as [->|Hne]; [rewrite lookup_insert_eq; eauto|].
    rewrite lookup_insert_ne by done. by eapply W3.
  - intros t pi i e' Ht Hi He Hp Hf. assert (length pi < 3)%nat.
    { destruct (W2 t pi Ht) as [_ Hle]. destruct (decide (length pi = 3%nat)) as [E|]; [by rewrite E in Hf|lia]. }
    rewrite (Hsame t pi i) in He by done. by eapply W4.
  - intros t pi i Ht. destruct (W5 t pi i Ht) as (t1 & e1 & H1 & Hi & He & Hp & Hf & Hc). exists t1, e1.
    assert (length pi < 3)%nat by (destruct (W2 _ _ Ht) as [_ Hle]; rewrite length_app in Hle; simpl in Hle; lia).
    by rewrite (Hsame t1 pi i).
Qed.

Lemma set_leaf_walk t0 pi0 i0 e idxs :
  ow !! t0 = Some pi0 -> length pi0 = 3%nat -> 0 <= i0 < 512 -> indices_ok idxs -> length idxs = 4%nat ->
  Z.testbit e 0 = true ->
  walk (<[t0 + 8 * i0 := e]> m) vb 0 R idxs =
    if decide (idxs = pi0 ++ [i0]) then Some (e, []) else walk m vb 0 R idxs.
Proof using Hwf.
  intros H0 Hl Hi0 Hok Hli Hp. destruct (decide (idxs = pi0 ++ [i0])) as [->|Hne].
  - pose proof (set_leaf_wf t0 pi0 i0 e H0 Hl Hi0) as Hwf'. clear -Hwf' H0 Hl Hp.
    rewrite (walk_to _ vb R ow Hwf' pi0 t0 [i0] H0).
    cbn [walk]. rewrite lookup_insert_eq, Hp, Hl. done.
  - apply (walk_frame m vb R ow Hwf _ t0 pi0 i0) with (pi := []); [done|done| |by apply (pt_root _ _ _ _ Hwf)|done|].
    + intros t pi i Ht Hi Hd. apply lookup_insert_ne. intros E. apply Hd.
      destruct (word_inj t0 i0 t i) as [-> ->]; [by apply (pt_shape _ _ _ _ Hwf t0 pi0)|by apply (pt_shape _ _ _ _ Hwf t pi)|done..].
    + intros rest. cbn [app]. intros ->. apply Hne. rewrite length_app in Hli. cbn [length] in Hli.
      destruct rest; [done|simpl in Hli; lia].
Qed.
End SetLeaf.

(** ** Linking a zeroed table *)

Lemma zero_page_spec m V :
  (forall i, 0 <= i < 512 -> zero_page m V !! (V + 8 * i) = Some 0) /\
  (forall a, (forall i, 0 <= i < 512 -> a <> V + 8 * i) -> zero_page m V !! a = m !! a).
Proof.
  unfold zero_page.
  assert (forall l, (forall i, i ∈ l -> foldr (fun i m => <[V + 8 * i := 0]> m) m l !! (V + 8 * i) = Some 0) /\
    (forall a, (forall i, i ∈ l -> a <> V + 8 * i) -> foldr (fun i m => <[V + 8 * i := 0]> m) m l !! a = m !! a)) as H.
  { induction l as [|x l [IH1 IH2]]; split; [set_solver|done| |].
    - intros i Hi. cbn [foldr]. destruct (decide (x = i)) as [->|Hne]; [apply lookup_insert_eq|].
      rewrite lookup_insert_ne by lia. apply IH1. set_solver.
    - intros a Ha. cbn [foldr]. rewrite lookup_insert_ne by (intros <-; apply (Ha x); set_solver).
      apply IH2. set_solver. }
  destruct (H (seqZ 0 512)) as [H1 H2]. split.
  - intros i Hi. apply H1, elem_of_seqZ. lia.
  - intros a Ha. apply H2. intros i Hi%elem_of_seqZ. apply Ha. lia.
Qed.

Section Link.
Context (m : gmap Z Z) (vb R : Z) (ow : gmap Z (list Z)) (Hwf : pt_wf m vb R ow).
Context (t0 : Z) (pi0 : list Z) (i0 e tn : Z).
Context (H0 : ow !! t0 = Some pi0) (Hl : (length pi0 < 3)%nat) (Hi0 : 0 <= i0 < 512).
Context (Hold : forall e', m !! (t0 + 8 * i0) = Some e' -> Z.testbit e' 0 = false).
Context (Hnew : ow !! tn = None) (Halign : tn mod 4096 = 0).
Context (Hp : Z.testbit e 0 = true) (Hf : follows (length pi0) e = true) (Hc : u64 (vb + entry_frame e) = tn).

Definition linked : gmap Z Z := zero_page (<[t0 + 8 * i0 := e]> m) tn.
Definition linked_owner : gmap Z (list Z) := <[tn := pi0 ++ [i0]]> ow.

Lemma linked_old t pi i :
  ow !! t = Some pi -> 0 <= i < 512 -> (t, i) <> (t0, i0) -> linked !! (t + 8 * i) = m !! (t + 8 * i).
Proof using All.
  intros Ht Hi Hd. unfold linked. destruct (zero_page_spec (<[t0 + 8 * i0 := e]> m) tn) as [_ ->].
  - apply lookup_insert_ne. intros E. apply Hd.
    destruct (word_inj t0 i0 t i) as [-> ->]; [by apply (pt_shape _ _ _ _ Hwf t0 pi0)|by apply (pt_shape _ _ _ _ Hwf t pi)|done..].
  - intros j Hj E. destruct (word_inj t i tn j) as [-> _]; [by apply (pt_shape _ _ _ _ Hwf t pi)|done..|congruence].
Qed.

Lemma linked_entry : linked !! (t0 + 8 * i0) = Some e.
Proof using All.
  unfold linked. destruct (zero_page_spec (<[t0 + 8 * i0 := e]> m) tn) as [_ ->]; [apply lookup_insert_eq|].
  intros j Hj E. destruct (word_inj t0 i0 tn j) as [-> _]; [by apply (pt_shape _ _ _ _ Hwf t0 pi0)|done..|congruence].
Qed.

Lemma linked_new i : 0 <= i < 512 -> linked !! (tn + 8 * i) = Some 0.
Proof. intros Hi. by apply zero_page_spec. Qed.

(** No table has the new path yet. *)
Lemma path_free t : ow !! t = Some (pi0 ++ [i0]) -> False.
Proof using All.
  intros Ht. destruct (pt_parent _ _ _ _ Hwf t pi0 i0 Ht) as (t1 & e1 & H1 & _ & He1 & Hp1 & _).
  assert (t1 = t0) as ->; [|by rewrite (Hold e1) in Hp1].
  clear -Hwf H0 H1. revert t0 t1 H0 H1. induction pi0 as [|i pi IH] using rev_ind; intros t0 t1 H0 H1.
  - apply (pt_root _ _ _ _ Hwf) in H0, H1. congruence.
  - destruct (pt_parent _ _ _ _ Hwf t0 pi i H0) as (a & ea & Ha & _ & Ea & _ & _ & <-).
    destruct (pt_parent _ _ _ _ Hwf t1 pi i H1) as (b & eb & Hb & _ & Eb & _ & _ & <-).
    assert (a = b) as -> by eauto. congruence.
Qed.

Lemma linked_wf : pt_wf linked vb R linked_owner.
Proof using All.
  assert (tn <> t0) as Hne by congruence. unfold linked_owner.
  assert (forall t pi, ow !! t = Some pi -> t <> tn) as Hneq by (intros t pi Ht ->; congruence).
  split.
  - intros t. destruct (decide (t = tn)) as [->|Hd].
    + rewrite lookup_insert_eq. split; [|intros ->].
      * intros [= E]. destruct pi0; discriminate.
      * assert (ow !! R = Some []) by by apply (pt_root _ _ _ _ Hwf). congruence.
    + rewrite lookup_insert_ne by done. apply (pt_root _ _ _ _ Hwf).
  - intros t pi. destruct (decide (t = tn)) as [->|Hd].
    + rewrite lookup_insert_eq. intros [= <-]. rewrite length_app. simpl. split; [done|lia].
    + rewrite lookup_insert_ne by done. apply (pt_shape _ _ _ _ Hwf).
  - intros t pi i Ht Hi. destruct (decide (t = tn)) as [->|Hd]; [rewrite linked_new by done; eauto|].
    rewrite lookup_insert_ne in Ht by done. destruct (decide ((t, i) = (t0, i0))) as [[= -> ->]|Hd2].
    + rewrite linked_entry. eauto.
    + rewrite (linked_old t pi i) by done. by eapply (pt_words _ _ _ _ Hwf).
  - intros t pi i e' Ht Hi He' Hp' Hf'. destruct (decide (t = tn)) as [->|Hd].
    { rewrite linked_new in He' by done. by simplify_eq. }
    rewrite lookup_insert_ne in Ht by done. destruct (decide ((t, i) = (t0, i0))) as [[= -> ->]|Hd2].
    + rewrite linked_entry in He'. rewrite H0 in Ht. injection Ht as <-. injection He' as <-. by rewrite Hc, lookup_insert_eq.
    + rewrite (linked_old t pi i) in He' by done.
      pose proof (pt_child _ _ _ _ Hwf t pi i e' Ht Hi He' Hp' Hf') as Hch. rewrite lookup_insert_ne; [done|].
      intros E. by rewrite <- E, Hnew in Hch.
  - intros t pi i Ht. destruct (decide (t = tn)) as [->|Hd].
    + rewrite lookup_insert_eq in Ht. injection Ht as Ht. apply app_inj_tail in Ht as [<- <-].
      exists t0, e. rewrite lookup_insert_ne by done. by rewrite linked_entry.
    + rewrite lookup_insert_ne in Ht by done.
      destruct (pt_parent _ _ _ _ Hwf t pi i Ht) as (t1 & e1 & H1 & Hi1 & He1 & Hp1 & Hf1 & Hc1).
      exists t1, e1. rewrite lookup_insert_ne by (by intros <-; rewrite Hnew in H1).
      rewrite (linked_old t1 pi i); [done|done|done|]. intros [= -> ->]. by rewrite (Hold e1) in Hp1.
Qed.

Lemma linked_walk idxs :
  indices_ok idxs -> length idxs = 4%nat -> walk linked vb 0 R idxs = walk m vb 0 R idxs.
Proof using All.
  intros Hok Hli.
  destruct (decide (take (S (length pi0)) idxs = pi0 ++ [i0])) as [Hpre|Hpre].
  - assert (idxs = pi0 ++ i0 :: drop (S (length pi0)) idxs) as E.
    { rewrite <- (take_drop (S (length pi0)) idxs) at 1. rewrite Hpre, <- app_assoc. done. }
    set (rest := drop (S (length pi0)) idxs) in *.
    assert (rest <> []) as Hr.
    { intros Hr. apply (f_equal length) in Hr. unfold rest in Hr. rewrite length_drop in Hr. simpl in Hr. lia. }
    rewrite E. rewrite (walk_to m vb R ow Hwf pi0 t0) by done.
    rewrite (walk_to linked vb R linked_owner linked_wf pi0 t0).
    2: { unfold linked_owner. rewrite lookup_insert_ne; [done|congruence]. }
    cbn [walk]. rewrite linked_entry, Hp, Hf. cbn [negb]. rewrite Hc.
    destruct (pt_words _ _ _ _ Hwf t0 pi0 i0 H0 Hi0) as [e' He']. rewrite He', (Hold e') by done. cbn [negb].
    clearbody rest. destruct rest as [|j r]; [done|]. cbn [walk]. rewrite linked_new, Z.bits_0; [done|].
    rewrite E in Hok. apply Forall_app in Hok as [_ Hok]. inversion Hok as [|? ? _ Hok2]. by inversion Hok2.
  - apply (walk_frame m vb R ow Hwf _ t0 pi0 i0) with (pi := []); [done|done| |by apply (pt_root _ _ _ _ Hwf)|done|].
    + intros t pi i Ht Hi Hd. by apply (linked_old t pi i).
    + intros rest. cbn [app]. intros ->. apply Hpre.
      change (pi0 ++ i0 :: rest) with (pi0 ++ [i0] ++ rest). rewrite app_assoc.
      replace (S (length pi0)) with (length (pi0 ++ [i0])) by (rewrite length_app; simpl; lia).
      apply take_app_length.
Qed.
End Link.

(** ** Table entries *)

Lemma present_flag e : has_flag e PTE_PRESENT = Z.testbit e 0.
Proof. change PTE_PRESENT with (2 ^ 0). by apply has_flag_pow2. Qed.

Lemma testbit_phys_mask i : 0 <= i -> Z.testbit PTE_PHYSADDR_MASK i = (12 <=? i) && (i <? 52).
Proof.
  intros Hi. change PTE_PHYSADDR_MASK with (Z.shiftl (Z.land (-1) (Z.ones 40)) 12). rewrite testbit_field by lia.
  destruct (Z.leb_spec 12 i); [|done]. rewrite Z.bits_m1 by lia. by rewrite andb_true_r.
Qed.

Definition structure_type (T : KrTypePTE) : bool :=
  match T with PML4_ENTRY | PDPT_ENTRY | PD_ENTRY => true | _ => false end.

Lemma encode_structure nxu T p ps :
  structure_type T = true -> 0 <= p < 2 ^ 52 -> p mod 4096 = 0 ->
  let e := (PteEncodeEntry nxu T p (Z.lor PTE_PRESENT PTE_WRITABLE) ps).1 in
  (PteEncodeEntry nxu T p (Z.lor PTE_PRESENT PTE_WRITABLE) ps).2 = false /\
  Z.testbit e 0 = true /\ Z.testbit e 1 = true /\ Z.testbit e 2 = false /\ Z.testbit e 7 = false /\ entry_frame e = p.
Proof.
  intros HT Hp Hal e.
  assert (KrGetPteTypeAlignment T = 4096 /\ T <> INVALID_PTE_TYPE /\ large_type T = false /\ T <> PT_ENTRY) as (Ea & HT' & Hlt & HPT)
    by by destruct T.
  assert (forall i, 0 <= i < 12 -> Z.testbit p i = false) as Hlow by (intros i Hi; by apply (aligned_low_bits p 12)).
  assert (forall i, 0 <= i < 64 -> Z.testbit e i =
    if i =? 3 then PWT ps else if i =? 4 then PCD ps else if i =? 7 then false else if i =? 12 then Z.testbit p i
    else Z.testbit 3 i || Z.testbit p i) as Hb.
  { intros i Hi. unfold e. destruct (encode_bits nxu T p (Z.lor PTE_PRESENT PTE_WRITABLE) ps i Hi) as [_ ->]; [by rewrite Ea|done|].
    rewrite flags_bits by lia. rewrite Hlt, bool_decide_false by done. simpl.
    destruct (Z.eqb_spec i 3) as [->|]; [rewrite Hlow by lia; apply orb_false_r|].
    destruct (Z.eqb_spec i 4) as [->|]; [rewrite Hlow by lia; apply orb_false_r|].
    destruct (Z.eqb_spec i 7) as [->|]; [by rewrite Hlow by lia|].
    destruct (Z.eqb_spec i 12) as [->|]; [done|]. f_equal. destruct nxu; [|done].
    unfold PTE_NX. rewrite testbit_clear, testbit_shift1 by lia. destruct (Z.ltb_spec i 64); [|lia].
    destruct (Z.eqb_spec i 63) as [->|]; [done|]. by rewrite andb_true_r. }
  split; [apply (encode_bits nxu T p _ ps 0); [lia|by rewrite Ea|done]|].
  rewrite !Hb by lia. simpl. rewrite !Hlow by lia. split_and!; try done.
  unfold entry_frame. apply Z.bits_inj'. intros i Hi. rewrite Z.land_spec, testbit_phys_mask by done.
  destruct (Z.leb_spec 12 i), (Z.ltb_spec i 52); simpl; rewrite ?andb_true_r, ?andb_false_r.
  - rewrite Hb by lia. destruct (Z.eqb_spec i 3); [lia|]. destruct (Z.eqb_spec i 4); [lia|]. destruct (Z.eqb_spec i 7); [lia|].
    destruct (i =? 12); [done|]. by rewrite (testbit_above 3 2) by lia.
  - by rewrite (testbit_above p 52) by lia.
  - by rewrite Hlow by lia.
  - by rewrite (testbit_above p 52) by lia.
Qed.

Lemma not_failure e : Z.testbit e 7 = false -> e <> KR_PTE2_ENCODE_FAILURE_DUE_TO_ALIGNMENT.
Proof. by intros H ->. Qed.

(** ** The paging state *)

(** The available pages at or above the place where the next search starts. *)
Definition ahead (pm : Pmm) : nat :=
  length (frees pm (search_start pm IVLDPGID) (NrPages pm - search_start pm IVLDPGID)).

Lemma frees_ext s s' lo n :
  (forall p, lo <= p < lo + n -> page_free s' p = page_free s p) -> frees s lo n = frees s' lo n.
Proof.
  intros H. unfold frees. assert (forall p, p ∈ seqZ lo n -> page_free s' p = page_free s p) as Hl.
  { intros p Hp%elem_of_seqZ. apply H. lia. }
  clear H. induction (seqZ lo n) as [|p l IH]; [done|]. rewrite !filter_cons, Hl, IH by set_solver. done.
Qed.

Lemma frees_head s lo n p l :
  0 <= n -> frees s lo n = p :: l -> frees s (p + 1) (lo + n - (p + 1)) = l.
Proof.
  intros Hn E. assert (p ∈ frees s lo n) as [Hp Hf]%elem_of_frees by (rewrite E; by constructor).
  replace n with ((p - lo) + (1 + (lo + n - (p + 1)))) in E by lia.
  rewrite !frees_app in E by lia. replace (lo + (p - lo)) with p in E by lia.
  assert (frees s p 1 = [p]) as E1.
  { unfold frees. replace (seqZ p 1) with [p] by (unfold seqZ; simpl; f_equal; lia). by rewrite filter_cons_True. }
  rewrite E1 in E. destruct (frees s lo (p - lo)) as [|x xs] eqn:Ex; [by injection E|].
  exfalso. assert (x ∈ frees s lo (p - lo)) as [Hx _]%elem_of_frees by (rewrite Ex; by constructor).
  injection E as E _. lia.
Qed.

Lemma ahead_acquired pm pm' p :
  pmm_wf pm -> acquired_spec pm pm' [p] -> (exists l, sparse_found pm (search_start pm IVLDPGID) 1 = p :: l) ->
  0 <= search_start pm IVLDPGID < NrPages pm -> (ahead pm <= S (ahead pm'))%nat.
Proof.
  intros Hw [A1 A2 _ [A4 _] _ A6 _] [l Hl] Hs. unfold ahead. remember (search_start pm IVLDPGID) as st eqn:Est in *.
  destruct (frees pm st (NrPages pm - st)) as [|q r] eqn:Ef; [simpl; lia|].
  assert (q = p) as -> by (unfold sparse_found in Hl; rewrite Ef in Hl; by injection Hl).
  assert (p ∈ frees pm st (NrPages pm - st)) as [Hp _]%elem_of_frees by (rewrite Ef; by constructor).
  assert (0 <= NrPages pm - st) as Hn by lia. pose proof (frees_head pm st _ p r Hn Ef) as Er. pose proof (pw_nr _ Hw) as Hnr.
  assert (search_start pm' IVLDPGID = p + 1) as ->.
  { unfold search_start. cbn. rewrite (A6 p eq_refl). destruct (Z.eqb_spec (p + 1) IVLDPGID) as [E|]; [|done].
    unfold IVLDPGID in E. lia. }
  rewrite A4. replace (frees pm' (p + 1) (NrPages pm - (p + 1))) with r; [simpl; lia|]. rewrite <- Er.
  replace (st + (NrPages pm - st) - (p + 1)) with (NrPages pm - (p + 1)) by lia.
  apply frees_ext. intros x Hx. rewrite A2 by lia.
  rewrite bool_decide_false by (rewrite elem_of_cons, elem_of_nil; lia). by rewrite andb_true_r.
Qed.

(** The manager's answer to a request for one page. *)
Lemma pm_page pm ty :
  pmm_good pm -> exists pm' id, PmAcquirePage pm ty IVLDPGID = Done (pm', id) /\ pmm_good pm' /\ NrPages pm' = NrPages pm /\
    ((id = IVLDPGID /\ pm' = pm) \/
     (0 <= id < NrPages pm /\ id <> IVLDPGID /\ page_free pm id = true /\
      forall p, 0 <= p -> page_free pm' p = page_free pm p && negb (bool_decide (p = id)))) /\
    (ahead pm <= S (ahead pm'))%nat /\ (id = IVLDPGID -> ahead pm = 0%nat).
Proof.
  intros Hg. pose proof Hg as [G1 G2 G3]. pose proof (search_start_nonneg pm IVLDPGID G1 ltac:(unfold IVLDPGID; lia)).
  destruct (decide (search_start pm IVLDPGID < NrPages pm)) as [Hs|Hs].
  - destruct (acquire_page_spec pm ty IVLDPGID G1 G2 ltac:(lia)) as (pm' & id & E & Hm). exists pm', id. split; [done|].
    pose proof (sparse_found_elem pm (search_start pm IVLDPGID) 1) as Hel.
    destruct (sparse_found pm _ 1) as [|p l] eqn:Esf.
    { destruct Hm as [-> ->]. split_and!; [done|done|by left|lia|]. intros _.
      assert (ahead pm = 0%nat) as ->; [|done]. unfold ahead. unfold sparse_found in Esf. by destruct (frees pm _ _). }
    destruct Hm as [-> Ha]. destruct (Hel p ltac:(lia)) as [Hr Hf]; [by constructor|].
    destruct (good_of_acquired _ _ _ Hg Ha) as [Hg' [Hn _]].
    assert (p <> IVLDPGID) as Hpi by (pose proof (pw_nr _ G1); unfold IVLDPGID; lia).
    split_and!; [done|done|right|eapply ahead_acquired; eauto; lia|done].
    split_and!; [lia|lia|done|done|].
    intros q Hq. rewrite (as_free _ _ _ Ha) by done. do 2 f_equal. apply bool_decide_ext. set_solver.
  - exists pm, IVLDPGID. unfold PmAcquirePage. rewrite acquire_bad_start by (done || lia). rewrite bind_Done.
    split; [done|]. split_and!; [done|done|by left|lia|]. intros _. unfold ahead, frees, seqZ.
    rewrite Z2Nat.nonpos by lia. done.
Qed.

Definition vbase (s : Paging) : Z := VirtAddrBase (pgVmm s).
Definition pmm_of (s : Paging) : Pmm := vPmm (pgVmm s).

Record paging_wf (s : Paging) (R : Z) (ow : gmap Z (list Z)) : Prop := {
  gw_tree : pt_wf (tbl s) (vbase s) R ow;
  gw_pmm : pmm_good (pmm_of s);
  gw_4g : NrPages (pmm_of s) <= 2 ^ 20;
  gw_base : 0 < vbase s /\ vbase s mod 4096 = 0 /\ vbase s + 2 ^ 32 <= 2 ^ 64;
  gw_pages : forall t pi, ow !! t = Some pi ->
    exists p, 0 <= p < NrPages (pmm_of s) /\ t = vbase s + 4096 * p /\ page_free (pmm_of s) p = false
}.

(** What the table operations may change besides the table words. *)
Record pg_frame (s s' : Paging) : Prop := {
  pf_vmm : pgVmm s' = with_pmm (pgVmm s) (pmm_of s');
  pf_psl : g_pslDefault s' = g_pslDefault s;
  pf_head : g_VaddrMmioHead s' = g_VaddrMmioHead s;
  pf_fault : bInPageFault s' = bInPageFault s;
  pf_nr : NrPages (pmm_of s') = NrPages (pmm_of s);
  pf_free : forall p, 0 <= p -> page_free (pmm_of s') p = true -> page_free (pmm_of s) p = true
}.

Lemma pg_frame_refl s : pg_frame s s.
Proof. split; try done. by destruct s as [[] ? ? ? ? ?]. Qed.
Lemma pg_frame_trans s1 s2 s3 : pg_frame s1 s2 -> pg_frame s2 s3 -> pg_frame s1 s3.
Proof.
  intros [A1 A2 A3 A4 A5 A6] [B1 B2 B3 B4 B5 B6]. split; try congruence.
  - rewrite B1, A1. done.
  - auto.
Qed.
Lemma pg_frame_base s s' : pg_frame s s' -> vbase s' = vbase s.
Proof. intros H. unfold vbase. by rewrite (pf_vmm _ _ H). Qed.

Lemma page_address s R ow p :
  paging_wf s R ow -> 0 <= p < NrPages (pmm_of s) ->
  KrGetPhysicalPageAddress (pmm_of s) p = 4096 * p /\ KrPhysToVirt (pgVmm s) (4096 * p) = vbase s + 4096 * p.
Proof.
  intros [_ [G1 _ _] H4 Hb _] Hp. unfold KrGetPhysicalPageAddress, KrPhysToVirt. rewrite valid_id by done.
  destruct (Z.ltb_spec p (NrPages (pmm_of s))); [|lia]. cbn [negb]. unfold KR_PAGE_SIZE.
  rewrite u32_small by lia. split; [lia|]. apply u64_small. unfold vbase in *. lia.
Qed.

(** ** PteGetOrAcquirePageStruct *)

Definition same_walks (s s' : Paging) (R : Z) : Prop :=
  forall idxs, indices_ok idxs -> length idxs = 4%nat -> walk (tbl s') (vbase s') 0 R idxs = walk (tbl s) (vbase s) 0 R idxs.

Lemma with_pmm_same v : with_pmm v (vPmm v) = v.
Proof. by destruct v. Qed.

(** At most one page was taken, and a null result means that no page was ahead. *)
Definition one_less (s s' : Paging) (p : Z) : Prop :=
  (ahead (pmm_of s) <= S (ahead (pmm_of s')))%nat /\ (p = 0 -> ahead (pmm_of s) = 0%nat).

(** Tables are only added, on pages that were available. *)
Definition grows (s : Paging) (ow ow' : gmap Z (list Z)) : Prop :=
  ow ⊆ ow' /\ forall t pi, ow' !! t = Some pi -> ow !! t = Some pi \/
    exists p, 0 <= p /\ t = vbase s + 4096 * p /\ page_free (pmm_of s) p = true.
Lemma grows_refl s ow : grows s ow ow.
Proof. split; [done|]. intros t pi H. by left. Qed.
Lemma grows_trans s1 s2 ow1 ow2 ow3 : pg_frame s1 s2 -> grows s1 ow1 ow2 -> grows s2 ow2 ow3 -> grows s1 ow1 ow3.
Proof.
  intros F [A1 A2] [B1 B2]. split; [by etrans|]. intros t pi H. destruct (B2 t pi H) as [H2|(p & Hp & -> & Hf)]; [by apply A2|].
  right. exists p. rewrite (pg_frame_base _ _ F). split_and!; [done|done|by apply (pf_free _ _ F)].
Qed.

(** A fresh page is the page of no table. *)
Lemma fresh_table s R ow id :
  paging_wf s R ow -> 0 <= id < NrPages (pmm_of s) -> page_free (pmm_of s) id = true -> ow !! (vbase s + 4096 * id) = None.
Proof.
  intros Hwf Hid Hf. destruct (ow !! _) as [pi|] eqn:E; [|done].
  destruct (gw_pages _ _ _ Hwf _ _ E) as (p & Hp & Ep & Hfp). assert (p = id) by lia. congruence.
Qed.

Lemma get_or_acquire_spec s R ow t pi i T :
  paging_wf s R ow -> ow !! t = Some pi -> (length pi < 3)%nat -> 0 <= i < 512 -> structure_type T = true ->
  (forall e, tbl s !! (t + 8 * i) = Some e -> Z.testbit e 0 = true -> follows (length pi) e = true) ->
  exists s' p ow', PteGetOrAcquirePageStruct s t T i (Z.lor PTE_PRESENT PTE_WRITABLE) (g_pslDefault s) = Done (s', p) /\
    paging_wf s' R ow' /\ pg_frame s s' /\ same_walks s s' R /\ grows s ow ow' /\
    (p = 0 \/ p <> 0 /\ ow' !! p = Some (pi ++ [i])) /\ one_less s s' p.
Proof.
  intros Hwf Ht Hl Hi HT Hfol. pose proof Hwf as [Gt Gp G4 Gb Gg]. unfold PteGetOrAcquirePageStruct, rd_entry.
  destruct (pt_words _ _ _ _ Gt t pi i Ht Hi) as [e He]. rewrite He. cbn [checked]. rewrite bind_Done, present_flag.
  destruct (Z.testbit e 0) eqn:Hp.
  { pose proof (pt_child _ _ _ _ Gt t pi i e Ht Hi He Hp (Hfol e He Hp)) as Hc.
    assert (KrPhysToVirt (pgVmm s) (Z.land e PTE_PHYSADDR_MASK) <> 0) as Hnz.
    { destruct (Gg _ _ Hc) as (p & Hpr & Ep & _). unfold KrPhysToVirt. unfold vbase, entry_frame in *. lia. }
    eexists s, _, ow. split; [done|]. split; [done|]. split; [apply pg_frame_refl|]. split; [done|]. split; [apply grows_refl|].
    split; [by right|]. split; [lia|done]. }
  destruct (pm_page (pmm_of s) PAGE_TYPE_PAGE_STRUCT Gp) as (pm' & id & E & Gp' & Hnr & Hcase & Hah1 & Hah0).
  change (vPmm (pgVmm s)) with (pmm_of s). rewrite E, bind_Done.
  destruct Hcase as [[-> ->] | (Hid & Hne & Hfree & Hbits)].
  { cbn [Z.eqb]. eexists _, 0, ow. split; [done|].
    assert (with_vmm s (with_pmm (pgVmm s) (pmm_of s)) = s) as -> by by destruct s as [[] ? ? ? ? ?].
    split; [done|]. split; [apply pg_frame_refl|]. split; [done|]. split; [apply grows_refl|]. split; [by left|]. split; [lia|auto]. }
  rewrite (proj2 (Z.eqb_neq _ _) Hne).
  set (s1 := with_vmm s (with_pmm (pgVmm s) pm')).
  assert (paging_wf s1 R ow) as Hwf1.
  { split; [done|done| |done|].
    - change (pmm_of s1) with pm'. lia.
    - intros t1 pi1 H1. destruct (Gg t1 pi1 H1) as (p & Hpr & Ep & Hpf). exists p. change (pmm_of s1) with pm'.
      rewrite Hnr, Hbits, Hpf by lia. done. }
  destruct (page_address s1 R ow id Hwf1) as [Ea Ev].
  { change (pmm_of s1) with pm'. lia. }
  change (KrGetPhysicalPageAddress pm' id = 4096 * id) in Ea. rewrite Ea.
  destruct (encode_structure (NxUnsupported (pgVmm s1)) T (4096 * id) (g_pslDefault s) HT) as (Ef & B0 & B1 & B2 & B7 & Efr).
  { lia. } { zlia. }
  destruct (PteEncodeEntry _ T (4096 * id) _ _) as [en fl]. cbn [fst snd] in *. subst fl.
  rewrite (proj2 (Z.eqb_neq _ _) (not_failure en B7)), Ev.
  set (tn := vbase s1 + 4096 * id) in *.
  assert (ow !! tn = None) as Hnew by (by apply (fresh_table s R ow)).
  assert (tn mod 4096 = 0) as Hal by (unfold tn; change (vbase s1) with (vbase s); zlia).
  assert (follows (length pi) en = true) as Hfn by (unfold follows; rewrite B7; by destruct (length pi) as [|[|[|]]]; [..|lia]).
  assert (u64 (vbase s + entry_frame en) = tn) as Hc.
  { rewrite Efr. apply u64_small. unfold tn. change (vbase s1) with (vbase s). lia. }
  assert (forall e', tbl s !! (t + 8 * i) = Some e' -> Z.testbit e' 0 = false) as Hold by (intros e' He'; congruence).
  pose proof (linked_wf (tbl s) (vbase s) R ow Gt t pi i en tn Ht Hl Hi Hold Hnew Hal B0 Hfn Hc) as Wl.
  pose proof (linked_walk (tbl s) (vbase s) R ow Gt t pi i en tn Ht Hl Hi Hold Hnew Hal B0 Hfn Hc) as Kl.
  eexists _, tn, (linked_owner ow pi i tn). split; [reflexivity|].
  split_and!.
  - split; [exact Wl|exact Gp'| |exact Gb|].
    + change (NrPages pm' <= 2 ^ 20). lia.
    + intros t1 pi1 H1. unfold linked_owner in H1. destruct (decide (t1 = tn)) as [->|Hd].
      * exists id. change (0 <= id < NrPages pm' /\ tn = vbase s + 4096 * id /\ page_free pm' id = false).
        rewrite Hnr, Hbits, bool_decide_true, andb_false_r by lia. done.
      * rewrite lookup_insert_ne in H1 by done. exact (gw_pages _ _ _ Hwf1 t1 pi1 H1).
  - split; try done. intros p Hp0. change (page_free pm' p = true -> page_free (pmm_of s) p = true).
    rewrite Hbits by done. intros H. by apply andb_true_iff in H as [H _].
  - exact Kl.
  - unfold linked_owner. split; [by apply insert_subseteq|]. intros t1 pi1 H1. destruct (decide (t1 = tn)) as [->|Hd].
    + right. exists id. by split_and!; [lia| |].
    + left. by rewrite lookup_insert_ne in H1.
  - right. split; [unfold tn; change (vbase s1) with (vbase s); lia|]. apply lookup_insert_eq.
  - split; [exact Hah1|]. intros H0. unfold tn in H0. change (vbase s1) with (vbase s) in H0. lia.
Qed.

(** ** The shared descent *)

Definition small_path (s : Paging) (R : Z) (idxs : list Z) : Prop :=
  forall e rest, walk (tbl s) (vbase s) 0 R idxs = Some (e, rest) -> rest = [].

Definition index_ok (i : Z) : Prop := 0 <= i < 512.

Lemma same_walks_trans s1 s2 s3 R : same_walks s1 s2 R -> same_walks s2 s3 R -> same_walks s1 s3 R.
Proof. intros H1 H2 idxs Hok Hl. by rewrite H2, H1. Qed.
Lemma same_walks_small s s' R idxs :
  same_walks s s' R -> indices_ok idxs -> length idxs = 4%nat -> small_path s R idxs -> small_path s' R idxs.
Proof. intros Hw Hok Hl H e rest E. rewrite Hw in E by done. by eapply H. Qed.

(** One level of the descent, from the table with path [pi]. *)
Lemma descend_step s R ow t pi i rest T :
  paging_wf s R ow -> ow !! t = Some pi -> indices_ok (pi ++ i :: rest) -> length (pi ++ i :: rest) = 4%nat ->
  rest <> [] -> structure_type T = true -> small_path s R (pi ++ i :: rest) ->
  exists s' p ow', PteGetOrAcquirePageStruct s t T i (Z.lor PTE_PRESENT PTE_WRITABLE) (g_pslDefault s) = Done (s', p) /\
    paging_wf s' R ow' /\ pg_frame s s' /\ same_walks s s' R /\ grows s ow ow' /\ small_path s' R (pi ++ i :: rest) /\
    (p = 0 \/ p <> 0 /\ ow' !! p = Some (pi ++ [i])) /\ one_less s s' p.
Proof.
  intros Hwf Ht Hok Hl Hne HT Hs.
  assert (0 <= i < 512) as Hi by (apply Forall_app in Hok as [_ Hok]; by inversion Hok).
  assert (length pi < 3)%nat as Hlp.
  { rewrite length_app in Hl. cbn [length] in Hl. destruct rest; [done|simpl in Hl; lia]. }
  destruct (get_or_acquire_spec s R ow t pi i T Hwf Ht Hlp Hi HT) as (s' & p & ow' & E & W & F & K & Sub & P & O).
  { intros e He Hp. by apply (small_path_follows (tbl s) (vbase s) R ow (gw_tree _ _ _ Hwf) t pi i rest e). }
  exists s', p, ow'. split; [done|]. do 4 (split; [done|]). split; [|done]. by apply (same_walks_small s s' R).
Qed.

(** The descent takes at most three pages and fails only with fewer ahead. *)
Definition three_less (s s' : Paging) (p : Z) : Prop :=
  (ahead (pmm_of s) <= 3 + ahead (pmm_of s'))%nat /\ (p = 0 -> (ahead (pmm_of s) < 3)%nat).

Lemma descend_spec s R ow x i1 :
  paging_wf s R ow -> indices_ok [vPML4 x; vPDPT x; vPD x; i1] -> small_path s R [vPML4 x; vPDPT x; vPD x; i1] ->
  exists s' p ow', descend s R x = Done (s', p) /\
    paging_wf s' R ow' /\ pg_frame s s' /\ same_walks s s' R /\ grows s ow ow' /\
    (p = 0 \/ p <> 0 /\ ow' !! p = Some [vPML4 x; vPDPT x; vPD x]) /\ three_less s s' p.
Proof.
  intros Hwf Hok Hs. unfold descend, three_less.
  destruct (descend_step s R ow R [] (vPML4 x) [vPDPT x; vPD x; i1] PML4_ENTRY Hwf) as (s1 & p1 & ow1 & E1 & W1 & F1 & K1 & G1 & S1 & P1 & O1 & Z1);
    [by apply (pt_root _ _ _ _ (gw_tree _ _ _ Hwf))|done..|].
  rewrite E1, bind_Done. destruct P1 as [->|[Hp1 Ho1]].
  { exists s1, 0, ow1. do 5 (split; [done|]). split; [by left|]. specialize (Z1 eq_refl). lia. }
  rewrite (proj2 (Z.eqb_neq _ _) Hp1).
  destruct (descend_step s1 R ow1 p1 [vPML4 x] (vPDPT x) [vPD x; i1] PDPT_ENTRY W1) as (s2 & p2 & ow2 & E2 & W2 & F2 & K2 & G2 & S2 & P2 & O2 & Z2);
    [done..|].
  rewrite E2, bind_Done. pose proof (pg_frame_trans _ _ _ F1 F2) as F12. pose proof (same_walks_trans _ _ _ _ K1 K2) as K12.
  pose proof (grows_trans _ _ _ _ _ F1 G1 G2) as G12.
  destruct P2 as [->|[Hp2 Ho2]].
  { exists s2, 0, ow2. do 5 (split; [done|]). split; [by left|]. specialize (Z2 eq_refl). lia. }
  rewrite (proj2 (Z.eqb_neq _ _) Hp2).
  destruct (descend_step s2 R ow2 p2 [vPML4 x; vPDPT x] (vPD x) [i1] PD_ENTRY W2) as (s3 & p3 & ow3 & E3 & W3 & F3 & K3 & G3 & S3 & P3 & O3 & Z3);
    [done..|].
  exists s3, p3, ow3. split; [done|]. split; [done|]. split; [by eapply pg_frame_trans|]. split; [by eapply same_walks_trans|].
  split; [by apply (grows_trans s s2 ow ow2 ow3)|]. split; [done|]. split; [lia|]. intros Hp3. specialize (Z3 Hp3). lia.
Qed.

(** ** Leaf entries of a region *)

Definition protocol_type (Flags : Z) : Z :=
  let proto := Z.land Flags VMR_FLAG_CACHING_PROTOCOL in
  if proto =? 0 then KR_PAT_WRITE_BACK else if proto =? 1 then KR_PAT_UNCACHEABLE else KR_PAT_WRITE_COMBINING.

Definition region_pte_flags (v : Vmm) (n : KrVirtualMemoryRegion) (a : KrAddressSpace) : Z :=
  let f := PTE_PRESENT in
  let f := if has_flag (rFlags n) VMR_FLAG_WRITABLE then Z.lor f PTE_WRITABLE else f in
  let f := if negb (has_flag (rFlags n) VMR_FLAG_ALLOW_CODE_EXEC) then Z.lor f PTE_NX else f in
  if PaddrRoot a =? KernelPaddrRoot v then Z.lor f PTE_GLOBAL else Z.lor f PTE_USER.

(** The selector fields of the PAT state stay within its eight slots. *)
Definition pat_state_ok (st : KrPatMsrState) : Prop :=
  Forall (fun x => 0 <= x < 8) [PA_UC st; PA_WC st; PA_WT st; PA_WP st; PA_WB st; PA_UCM st].

Lemma select_pat_ok st mt : pat_state_ok st -> exists ps, KrSelectPat st mt = Done ps.
Proof.
  intros H. unfold pat_state_ok in H. rewrite !Forall_cons in H. destruct H as (A & B & C & D & E & F & _).
  unfold KrSelectPat.
  assert (forall x, 0 <= x < 8 -> exists ps, checked (g_PatSelectTable !! Z.to_nat x) = Done ps) as Hx.
  { intros x Hx. destruct (g_PatSelectTable !! Z.to_nat x) eqn:El; [eauto|]. apply lookup_ge_None in El.
    change (length g_PatSelectTable) with 8%nat in El. lia. }
  repeat case_match; apply Hx; done.
Qed.

Lemma region_flags_ok v n a : flags_ok (region_pte_flags v n a).
Proof.
  unfold region_pte_flags. apply flags_ok_intro; repeat case_match; vm_compute; (done || (split; congruence)).
Qed.

(** The leaf entry of node [n] for the page at [p]. *)
Record leaf_for (v : Vmm) (n : KrVirtualMemoryRegion) (a : KrAddressSpace) (p e : Z) : Prop := {
  lf_present : Z.testbit e 0 = true;
  lf_frame : mmu_frame PT_ENTRY e = p;
  lf_writable : Z.testbit e 1 = has_flag (rFlags n) VMR_FLAG_WRITABLE;
  lf_user : Z.testbit e 2 = negb (PaddrRoot a =? KernelPaddrRoot v);
  lf_global : Z.testbit e 8 = (PaddrRoot a =? KernelPaddrRoot v);
  lf_nx : Z.testbit e 63 = negb (has_flag (rFlags n) VMR_FLAG_ALLOW_CODE_EXEC) && negb (NxUnsupported v);
  lf_type : exists ps, KrSelectPat (PatMsrState v) (protocol_type (rFlags n)) = Done ps /\
    mmu_pat_index PT_ENTRY e = select_index ps
}.

Lemma encode_entry_for_spec v n a p :
  rd_space v (pAddressSpace n) = Done a -> pat_state_ok (PatMsrState v) ->
  Z.land (rFlags n) VMR_FLAG_CACHING_PROTOCOL <> 3 -> 0 <= p < 2 ^ 52 -> p mod 4096 = 0 ->
  exists e, VmEncodeEntryFor v n PT_ENTRY p = Done (e, false) /\ leaf_for v n a p e.
Proof.
  intros Ha Hpat Hproto Hp Hal. unfold VmEncodeEntryFor. rewrite (proj2 (Z.eqb_neq _ _) Hproto).
  destruct (select_pat_ok (PatMsrState v) (protocol_type (rFlags n)) Hpat) as [ps Hps].
  pose proof Hps as Hps'. unfold protocol_type in Hps. rewrite Hps, bind_Done, Ha, bind_Done.
  fold (region_pte_flags v n a).
  destruct (encode_leaf (NxUnsupported v) PT_ENTRY p (region_pte_flags v n a) ps eq_refl Hp Hal (region_flags_ok v n a)) as [Ef L].
  destruct (PteEncodeEntry _ _ _ _ _) as [e fl]. cbn [fst snd] in *. subst fl. exists e. split; [done|].
  destruct L as [L1 L2 L3 L4 L5 L6 L7 L8]. unfold entry_bit in *.
  split; try done.
  - rewrite L4. unfold region_pte_flags. by repeat case_match.
  - rewrite L5. unfold region_pte_flags. destruct (has_flag _ VMR_FLAG_WRITABLE); by repeat case_match.
  - rewrite L6. unfold region_pte_flags. destruct (_ =? _); by repeat case_match.
  - rewrite L7. unfold region_pte_flags. destruct (_ =? _); by repeat case_match.
  - rewrite L8. unfold region_pte_flags. f_equal. destruct (has_flag _ VMR_FLAG_ALLOW_CODE_EXEC); by repeat case_match.
  - by exists ps.
Qed.

(** ** Page numbers and indices *)

Definition vpn (va : Z) : Z := va / 4096 mod 2 ^ 36.

Lemma vpn_digits va :
  vpn va = va / 2 ^ 12 mod 512 + 512 * (va / 2 ^ 21 mod 512 + 512 * (va / 2 ^ 30 mod 512 + 512 * (va / 2 ^ 39 mod 512))).
Proof.
  unfold vpn. change 4096 with (2 ^ 12). set (q := va / 2 ^ 12).
  assert (va / 2 ^ 21 = q / 512) as -> by (unfold q; by rewrite Z.div_div by lia).
  assert (va / 2 ^ 30 = q / 512 / 512) as -> by (unfold q; by rewrite !Z.div_div by lia).
  assert (va / 2 ^ 39 = q / 512 / 512 / 512) as -> by (unfold q; by rewrite !Z.div_div by lia).
  change (2 ^ 36) with (512 * (512 * (512 * 512))). by rewrite !Z.rem_mul_r by lia.
Qed.

Lemma va_indices_vpn va w : va_indices va = va_indices w <-> vpn va = vpn w.
Proof.
  rewrite !vpn_digits. unfold va_indices.
  assert (forall x, 0 <= x mod 512 < 512) as Hm by (intros x; apply Z.mod_pos_bound; lia).
  pose proof (Hm (va / 2 ^ 12)); pose proof (Hm (va / 2 ^ 21)); pose proof (Hm (va / 2 ^ 30)); pose proof (Hm (va / 2 ^ 39)).
  pose proof (Hm (w / 2 ^ 12)); pose proof (Hm (w / 2 ^ 21)); pose proof (Hm (w / 2 ^ 30)); pose proof (Hm (w / 2 ^ 39)).
  split; [intros [= -> -> -> ->]; done|]. intros E.
  repeat match goal with |- context [?x mod 512] => let y := fresh in set (y := x mod 512) in *; clearbody y end.
  repeat f_equal; lia.
Qed.

Lemma unmake_indices va :
  0 <= va -> let x := KrUnmakeVirtual VADDR_SMALL va in [vPML4 x; vPDPT x; vPD x; vPT x] = va_indices va.
Proof.
  intros Hva. unfold va_indices. cbn [KrUnmakeVirtual vPML4 vPDPT vPD vPT]. change 0x1FF with (2 ^ 9 - 1).
  by rewrite !land_ones_mod, !Z.shiftr_div_pow2 by lia.
Qed.

(** Offset of an address in a region that starts at [st], modulo the 48
    translated bits. *)
Definition va_offset (st va : Z) : Z := (va - st) mod 2 ^ 48.

Lemma vpn_offset st va j :
  st mod 4096 = 0 -> 0 <= j < 2 ^ 36 -> vpn va = vpn (st + 4096 * j) <-> va_offset st va / 4096 = j.
Proof.
  intros Hst Hj. unfold vpn, va_offset.
  assert (exists q, st = 4096 * q) as [q ->] by (exists (st / 4096); zlia).
  assert ((4096 * q + 4096 * j) / 4096 = q + j) as -> by zlia.
  assert ((va - 4096 * q) mod 2 ^ 48 / 4096 = (va / 4096 - q) mod 2 ^ 36) as ->.
  { change (2 ^ 48) with (4096 * 2 ^ 36). rewrite Z.rem_mul_r by lia.
    replace ((va - 4096 * q) / 4096) with (va / 4096 - q) by zlia. pose proof (Z.mod_pos_bound (va - 4096 * q) 4096). zlia. }
  generalize (va / 4096) as p. intros p. split; intros E.
  - rewrite Zminus_mod, E, <- Zminus_mod. replace (q + j - q) with j by lia. apply Z.mod_small. lia.
  - replace (q + j) with (q + (p - q) mod 2 ^ 36) by lia. rewrite Z.add_mod_idemp_r by lia. f_equal. lia.
Qed.

Lemma offset_low st va : st mod 4096 = 0 -> va_offset st va mod 4096 = va mod 4096.
Proof.
  intros Hst. unfold va_offset. change (2 ^ 48) with (4096 * 2 ^ 36). rewrite Z.rem_mul_r by lia.
  rewrite (Z.mul_comm 4096), Z.mod_add, Z.mod_mod by lia. rewrite Zminus_mod, Hst, Z.sub_0_r. apply Z.mod_mod. lia.
Qed.
