(* ===== verification/PageTableProps.v ===== *)
(** * Static mappings and demand paging do what the processor sees *)
From Stdlib Require Import ZArith Lia String.
From stdpp Require Import base numbers list gmap.
From S2P Require Import Prelude PhysBitmap KrtlMem BootstrapArena MemoryMap Physmemmgmt PmmSparse PmmDense PmmOps PmmProps Pte Vmr VmrSpec VmrProps PageTable PageTableSpec.
Open Scope Z_scope.
#[local] Arguments Z.testbit _ _ : simpl never.

(** ** One page *)

Lemma leaf_for_pmm v pm n a p e : leaf_for (with_pmm v pm) n a p e -> leaf_for v n a p e.
Proof. by intros []; split. Qed.

Lemma rd_space_pmm v pm p : rd_space (with_pmm v pm) p = rd_space v p.
Proof. done. Qed.

(** Walks of [s'] are those of [s], except that the path [ix] ends in [e]. *)
Definition leaf_set (s s' : Paging) (R : Z) (ix : list Z) (e : Z) : Prop :=
  forall idxs, indices_ok idxs -> length idxs = 4%nat ->
    walk (tbl s') (vbase s') 0 R idxs = if decide (idxs = ix) then Some (e, []) else walk (tbl s) (vbase s) 0 R idxs.

Lemma write_leaf s R ow PT a b c d e fl :
  paging_wf s R ow -> ow !! PT = Some [a; b; c] -> 0 <= d < 512 -> Z.testbit e 0 = true ->
  let s' := wr_entry (count_ivld s fl) PT d e in
  paging_wf s' R ow /\ pg_frame s s' /\ leaf_set s s' R [a; b; c; d] e.
Proof.
  intros Hwf Ho Hd Hp s'. pose proof Hwf as [Gt Gp G4 Gb Gg]. split_and!.
  - split; [|exact Gp|exact G4|exact Gb|exact Gg]. by apply (set_leaf_wf (tbl s) (vbase s) R ow Gt PT [a; b; c] d e).
  - split; try done. by destruct s as [[] ? ? ? ? ?].
  - intros idxs Hok Hl. by apply (set_leaf_walk (tbl s) (vbase s) R ow Gt PT [a; b; c] d e idxs).
Qed.

Lemma leaf_set_trans s0 s1 s2 R ix e : same_walks s0 s1 R -> leaf_set s1 s2 R ix e -> leaf_set s0 s2 R ix e.
Proof. intros H1 H2 idxs Hok Hl. rewrite H2 by done. by rewrite H1. Qed.

(** The table [PT] that the descent for [va] reaches, and its leaf. *)
Lemma descend_va s R ow va :
  0 <= va -> paging_wf s R ow -> small_path s R (va_indices va) ->
  exists s' p ow', descend s R (KrUnmakeVirtual VADDR_SMALL va) = Done (s', p) /\
    paging_wf s' R ow' /\ pg_frame s s' /\ same_walks s s' R /\ grows s ow ow' /\ three_less s s' p /\
    (p = 0 \/ p <> 0 /\ forall e fl, Z.testbit e 0 = true ->
       let s2 := wr_entry (count_ivld s' fl) p (vPT (KrUnmakeVirtual VADDR_SMALL va)) e in
       paging_wf s2 R ow' /\ pg_frame s s2 /\ leaf_set s s2 R (va_indices va) e).
Proof.
  intros Hva Hwf Hs. pose proof (unmake_indices va Hva) as Hi. cbv zeta in Hi.
  set (x := KrUnmakeVirtual VADDR_SMALL va) in *. pose proof (va_indices_ok va) as Hok. rewrite <- Hi in Hs, Hok |- *.
  destruct (descend_spec s R ow x (vPT x) Hwf Hok Hs) as (s' & p & ow' & E & W & F & K & G & P & O).
  exists s', p, ow'. do 6 (split; [done|]). destruct P as [->|[Hp Ho]]; [by left|right]. split; [done|].
  intros e fl He s2. assert (0 <= vPT x < 512) as Hd by (unfold indices_ok in Hok; rewrite !Forall_cons in Hok; tauto).
  destruct (write_leaf s' R ow' p _ _ _ _ e fl W Ho Hd He) as (W2 & F2 & K2).
  split_and!; [done|by eapply pg_frame_trans|by eapply leaf_set_trans].
Qed.

Lemma map_one_spec s R ow n a off pa :
  paging_wf s R ow -> rd_space (pgVmm s) (pAddressSpace n) = Done a -> pat_state_ok (PatMsrState (pgVmm s)) ->
  has_flag (rFlags n) KR_PAGE_SIZE = false -> Z.land (rFlags n) VMR_FLAG_CACHING_PROTOCOL <> 3 ->
  0 <= pa + off < 2 ^ 52 -> (pa + off) mod 4096 = 0 -> small_path s R (va_indices (u64 (VaddrStart n + off))) ->
  exists s' ok ow', map_one s n R off pa = Done (s', ok) /\ paging_wf s' R ow' /\ pg_frame s s' /\
    (ahead (pmm_of s) <= 3 + ahead (pmm_of s'))%nat /\ (ok = false -> (ahead (pmm_of s) < 3)%nat) /\
    if ok : bool then exists e, leaf_for (pgVmm s) n a (pa + off) e /\ leaf_set s s' R (va_indices (u64 (VaddrStart n + off))) e
    else same_walks s s' R.
Proof.
  intros Hwf Ha Hpat Hps Hpr Hpa Hal Hs. unfold map_one, map_mode. rewrite Hps.
  destruct (descend_va s R ow (u64 (VaddrStart n + off))) as (s1 & p & ow' & E & W & F & K & _ & [O1 O2] & P); [apply u64_range|done|done|].
  rewrite E, bind_Done. destruct P as [->|[Hp H]].
  { exists s1, false, ow'. split_and!; auto. }
  rewrite (proj2 (Z.eqb_neq _ _) Hp), (u64_small (pa + off)) by lia.
  destruct (encode_entry_for_spec (pgVmm s1) n a (pa + off)) as (e & Ee & He).
  { by rewrite (pf_vmm _ _ F), rd_space_pmm. }
  { by rewrite (pf_vmm _ _ F). }
  { done. } { done. } { done. }
  rewrite Ee, bind_Done. destruct (H e false (lf_present _ _ _ _ _ He)) as (W2 & F2 & K2).
  eexists _, true, ow'. do 3 (split; [done|]). split; [done|]. split; [done|]. exists e. split; [|done].
  rewrite (pf_vmm _ _ F) in He. by eapply leaf_for_pmm.
Qed.

(** ** The mapping loop *)

Section Loop.
Context (n : KrVirtualMemoryRegion) (a : KrAddressSpace) (pa N R : Z).
Context (Hst : VaddrStart n mod 4096 = 0) (Hst0 : 0 <= VaddrStart n) (Hend : VaddrStart n + 4096 * N <= 2 ^ 64).
Context (HN : 0 <= N <= 2 ^ 36) (Hpa0 : 0 <= pa) (Hpa : pa + 4096 * N <= 2 ^ 52) (Hpal : pa mod 4096 = 0).
Context (Hps : has_flag (rFlags n) KR_PAGE_SIZE = false) (Hps2 : has_flag (rFlags n) VMR_FLAG_PAGE_SIZE = false).
Context (Hpr : Z.land (rFlags n) VMR_FLAG_CACHING_PROTOCOL <> 3).

(** The path of page [k] of the region. *)
Definition page_path (k : Z) : list Z := va_indices (VaddrStart n + 4096 * k).

Lemma page_path_inj j k : 0 <= j < N -> 0 <= k < N -> page_path j = page_path k -> j = k.
Proof using All.
  intros Hj Hk E. apply va_indices_vpn, vpn_offset in E; [|done|lia]. rewrite <- E. symmetry.
  apply (vpn_offset (VaddrStart n) (VaddrStart n + 4096 * j) j); [done|lia|done].
Qed.

(** Pages [j..N-1] of [s'] relative to [s]: all mapped when [ok], and otherwise
    each mapped or as before. *)
Definition pages_set (s s' : Paging) (j : Z) (ok : bool) : Prop :=
  (forall k, j <= k < N ->
     (exists e, leaf_for (pgVmm s) n a (pa + 4096 * k) e /\ walk (tbl s') (vbase s') 0 R (page_path k) = Some (e, [])) \/
     ok = false /\ walk (tbl s') (vbase s') 0 R (page_path k) = walk (tbl s) (vbase s) 0 R (page_path k)) /\
  (forall idxs, indices_ok idxs -> length idxs = 4%nat -> (forall k, j <= k < N -> idxs <> page_path k) ->
     walk (tbl s') (vbase s') 0 R idxs = walk (tbl s) (vbase s) 0 R idxs).

Lemma map_loop_spec fuel : forall s ow j,
  paging_wf s R ow -> rd_space (pgVmm s) (pAddressSpace n) = Done a -> pat_state_ok (PatMsrState (pgVmm s)) ->
  0 <= j <= N -> N - j < Z.of_nat fuel -> (forall k, j <= k < N -> small_path s R (page_path k)) ->
  exists s' ok ow', map_loop fuel s n R (4096 * j) (4096 * N) pa = Done (s', ok) /\
    paging_wf s' R ow' /\ pg_frame s s' /\ pages_set s s' j ok /\
    (ok = false -> Z.of_nat (ahead (pmm_of s)) < 3 * (N - j)) /\
    Z.of_nat (ahead (pmm_of s)) <= 3 * (N - j) + Z.of_nat (ahead (pmm_of s')).
Proof using All.
  induction fuel as [|fuel IH]; intros s ow j Hwf Ha Hpat Hj Hf Hs; [lia|]. cbn [map_loop].
  destruct (Z.ltb_spec (4096 * j) (4096 * N)) as [Hlt|Hge].
  2: { exists s, true, ow. split; [done|]. split; [done|]. split; [apply pg_frame_refl|]. split; [split; [lia|done]|]. split; [done|lia]. }
  assert (va_indices (u64 (VaddrStart n + 4096 * j)) = page_path j) as Epath by (rewrite u64_small by lia; done).
  destruct (map_one_spec s R ow n a (4096 * j) pa) as (s1 & ok & ow1 & E & W1 & F1 & O1 & O2 & Hok); try done; [lia|zlia| |].
  { rewrite Epath. apply Hs. lia. }
  rewrite E, bind_Done, Epath in *. destruct ok; cycle 1.
  { exists s1, false, ow1. do 3 (split; [done|]). split; [|split; [intros H; specialize (O2 H); lia|lia]]. split.
    - intros k _. right. split; [done|]. by apply Hok; [apply va_indices_ok|].
    - intros idxs H1 H2 _. by apply Hok. }
  destruct Hok as (e & He & Hset).
  unfold RegionPageSize. rewrite Hps2, u64_small by lia. replace (4096 * j + 4096) with (4096 * (j + 1)) by lia.
  destruct (IH s1 ow1 (j + 1) W1) as (s2 & ok2 & ow2 & E2 & W2 & F2 & [P1 P2] & O3 & O4).
  { by rewrite (pf_vmm _ _ F1), rd_space_pmm. }
  { by rewrite (pf_vmm _ _ F1). }
  { lia. } { lia. }
  { intros k Hk e' rest. rewrite (Hset (page_path k)) by (apply va_indices_ok || done). destruct (decide _) as [Eq|_].
    - apply page_path_inj in Eq; lia.
    - apply Hs. lia. }
  exists s2, ok2, ow2. split; [exact E2|]. split; [done|]. split; [by eapply pg_frame_trans|].
  split; [|split; [intros H; specialize (O3 H); lia|lia]]. split.
  - intros k Hk. destruct (decide (k = j)) as [->|Hne].
    + left. exists e. split; [done|]. rewrite P2; [|apply va_indices_ok|done|].
      * rewrite (Hset (page_path j)) by (apply va_indices_ok || done). by rewrite decide_True.
      * intros k Hk' Eq. apply page_path_inj in Eq; lia.
    + destruct (P1 k ltac:(lia)) as [(e' & He' & Hw) | [-> Hw]].
      * left. exists e'. split; [|done]. rewrite (pf_vmm _ _ F1) in He'. by eapply leaf_for_pmm.
      * right. split; [done|]. rewrite Hw, (Hset (page_path k)) by (apply va_indices_ok || done).
        rewrite decide_False; [done|]. intros Eq. apply page_path_inj in Eq; lia.
  - intros idxs H1 H2 Hd. rewrite P2; [|done|done|intros k Hk; apply Hd; lia].
    rewrite (Hset idxs) by done. rewrite decide_False; [done|]. apply Hd. lia.
Qed.
End Loop.

(** ** VmMapStatic *)

Definition translate (s : Paging) (R va : Z) : option (Z * Z) := mmu_translate (tbl s) (vbase s) R va.

(** A region of 4 KiB pages as VmAcquireRegion makes them, to be mapped at [pa]. *)
Record mappable (v : Vmm) (n : KrVirtualMemoryRegion) (a : KrAddressSpace) (pa : Z) : Prop := {
  mb_space : rd_space v (pAddressSpace n) = Done a;
  mb_static : has_flag (rFlags n) VMR_FLAG_STATIC = true;
  mb_small : has_flag (rFlags n) VMR_FLAG_PAGE_SIZE = false;
  mb_low_flags : has_flag (rFlags n) KR_PAGE_SIZE = false;
  mb_protocol : Z.land (rFlags n) VMR_FLAG_CACHING_PROTOCOL <> 3;
  mb_start : 0 <= VaddrStart n /\ VaddrStart n mod 4096 = 0;
  mb_end : VaddrStart n <= VaddrEnd n < 2 ^ 64 /\ VaddrEnd n mod 4096 = 0;
  mb_size : VaddrEnd n - VaddrStart n <= 2 ^ 48;
  mb_phys : 0 <= pa /\ pa mod 4096 = 0 /\ pa + (VaddrEnd n - VaddrStart n) <= 2 ^ 52
}.

Definition region_size (n : KrVirtualMemoryRegion) : Z := VaddrEnd n - VaddrStart n.

Lemma region_page_small n : has_flag (rFlags n) VMR_FLAG_PAGE_SIZE = false -> RegionPageSize (rFlags n) = 4096.
Proof. unfold RegionPageSize. by intros ->. Qed.
Lemma page_aligned x : x mod 4096 = 0 -> KrtlIsPowerOfTwoAligned x 4096 = true.
Proof. intros H. change 4096 with (2 ^ 12). rewrite is_aligned_eq by lia. change (2 ^ 12) with 4096. by rewrite H. Qed.

(** No large page covers an address of the region. *)
Definition no_large_pages (s : Paging) (R : Z) (n : KrVirtualMemoryRegion) : Prop :=
  forall va, VaddrStart n <= va < VaddrEnd n -> small_path s R (va_indices va).

Lemma translate_leaf s R va e p :
  walk (tbl s) (vbase s) 0 R (va_indices va) = Some (e, []) -> mmu_frame PT_ENTRY e = p ->
  translate s R va = Some (p + va mod 4096, e).
Proof. intros E <-. unfold translate, mmu_translate. by rewrite E. Qed.

Lemma translate_same s s' R va :
  walk (tbl s') (vbase s') 0 R (va_indices va) = walk (tbl s) (vbase s) 0 R (va_indices va) -> translate s' R va = translate s R va.
Proof. intros E. unfold translate, mmu_translate. by rewrite E. Qed.

Lemma va_path n va k :
  VaddrStart n mod 4096 = 0 -> 0 <= k < 2 ^ 36 -> va_indices va = page_path n k <-> va_offset (VaddrStart n) va / 4096 = k.
Proof. intros Hst Hk. unfold page_path. rewrite va_indices_vpn. by apply vpn_offset. Qed.

Lemma va_offset_range st va : 0 <= va_offset st va < 2 ^ 48.
Proof. apply Z.mod_pos_bound. lia. Qed.

(** What the mapping of [n] at [pa] guarantees. *)
Definition region_mapped (s s' : Paging) (R : Z) (n : KrVirtualMemoryRegion) (a : KrAddressSpace) (pa : Z) (ok : bool) : Prop :=
  (3 * (region_size n / 4096) <= Z.of_nat (ahead (pmm_of s)) -> ok = true) /\
  forall va, let off := va_offset (VaddrStart n) va in
    (region_size n <= off -> translate s' R va = translate s R va) /\
    (off < region_size n ->
       (exists e, translate s' R va = Some (pa + off, e) /\ leaf_for (pgVmm s) n a (pa + off - off mod 4096) e) \/
       ok = false /\ translate s' R va = translate s R va).

(** The pages the mapping of [n] takes and the walks it leaves alone. *)
Definition map_frame (s s' : Paging) (R : Z) (n : KrVirtualMemoryRegion) : Prop :=
  Z.of_nat (ahead (pmm_of s)) <= 3 * (region_size n / 4096) + Z.of_nat (ahead (pmm_of s')) /\
  forall va, region_size n <= va_offset (VaddrStart n) va ->
    walk (tbl s') (vbase s') 0 R (va_indices va) = walk (tbl s) (vbase s) 0 R (va_indices va).

Lemma map_static_maps s R ow p n a pa fuel :
  paging_wf s R ow -> rd_node (pgVmm s) p = Done n -> mappable (pgVmm s) n a pa -> pat_state_ok (PatMsrState (pgVmm s)) ->
  R = KrPhysToVirt (pgVmm s) (PaddrRoot a) -> no_large_pages s R n -> region_size n < 4096 * Z.of_nat fuel ->
  exists s' ok ow', VmMapStatic fuel s p pa = Done (s', ok) /\ paging_wf s' R ow' /\ pg_frame s s' /\ region_mapped s s' R n a pa ok /\ map_frame s s' R n.
Proof.
  intros Hwf Hn [M1 M2 M3 M4 M5 [M6 M6'] [M7 M7'] M8 (M9 & M9' & M9'')] Hpat HR Hlg Hf. unfold region_mapped, map_frame, region_size in *.
  assert (p <> 0) as Hp by (intros ->; unfold rd_node in Hn; done).
  assert (pAddressSpace n <> 0) as Hsp by (intros E; unfold rd_space in M1; by rewrite E in M1).
  unfold VmMapStatic. rewrite (proj2 (Z.eqb_neq _ _) Hp), Hn, bind_Done, (proj2 (Z.eqb_neq _ _) Hsp).
  rewrite (region_page_small n M3), page_aligned, M2 by done. cbn [negb orb]. rewrite M1, bind_Done, <- HR.
  assert (exists N, VaddrEnd n - VaddrStart n = 4096 * N) as [N EN] by (exists ((VaddrEnd n - VaddrStart n) / 4096); zlia).
  rewrite u64_small, EN in * by lia.
  destruct (map_loop_spec n a pa N R M6' M6 ltac:(lia) ltac:(lia) M9 ltac:(lia) M9' M4 M3 M5 fuel s ow 0 Hwf M1 Hpat)
    as (s' & ok & ow' & E & W & F & [P1 P2] & O & O'); [lia|lia| |].
  { intros k Hk. apply Hlg. lia. }
  assert (forall va, 4096 * N <= va_offset (VaddrStart n) va ->
    walk (tbl s') (vbase s') 0 R (va_indices va) = walk (tbl s) (vbase s) 0 R (va_indices va)) as Hout.
  { intros va Ho. apply P2; [apply va_indices_ok|done|]. intros k Hk Epath. apply va_path in Epath; [|done|lia]. zlia. }
  exists s', ok, ow'. split; [exact E|]. do 2 (split; [done|]). split; [|split; [zlia|done]].
  split; [intros H; destruct ok; [done|]; specialize (O eq_refl); zlia|]. intros va.
  pose proof (va_offset_range (VaddrStart n) va) as Hr. remember (va_offset (VaddrStart n) va) as off eqn:Eo. split; intros Ho.
  - apply translate_same, Hout. by rewrite <- Eo.
  - assert (va_indices va = page_path n (off / 4096)) as Epath by (apply va_path; [done|zlia|by rewrite <- Eo]).
    destruct (P1 (off / 4096)) as [(e & He & Hw) | [-> Hw]]; [zlia| |].
    + left. exists e. rewrite <- Epath in Hw. rewrite (translate_leaf s' R va e _ Hw (lf_frame _ _ _ _ _ He)).
      pose proof (offset_low (VaddrStart n) va M6') as Hlow. rewrite <- Eo in Hlow. split; [do 2 f_equal; zlia|].
      by replace (pa + off - off mod 4096) with (pa + 4096 * (off / 4096)) by zlia.
    + right. split; [done|]. apply translate_same. by rewrite Epath.
Qed.

(** C7: VmMapStatic on a static region of 4 KiB pages whose addresses are not
    covered by large pages returns, keeps the tree of page tables, and answers TRUE only if the
    processor then translates every address of the region to the corresponding
    physical address, with the writability, execution, privilege and
    memory type the region asks for; three available pages ahead per page of the
    region are enough for TRUE, and otherwise every page is mapped that way or as before.  No address outside the region changes
    its translation. *)
Theorem map_static_translates s R ow p n a pa fuel :
  paging_wf s R ow -> rd_node (pgVmm s) p = Done n -> mappable (pgVmm s) n a pa -> pat_state_ok (PatMsrState (pgVmm s)) ->
  R = KrPhysToVirt (pgVmm s) (PaddrRoot a) -> no_large_pages s R n -> region_size n < 4096 * Z.of_nat fuel ->
  exists s' ok ow', VmMapStatic fuel s p pa = Done (s', ok) /\ paging_wf s' R ow' /\ pg_frame s s' /\
    (3 * (region_size n / 4096) <= Z.of_nat (ahead (pmm_of s)) -> ok = true) /\
    forall va, let off := va_offset (VaddrStart n) va in
      (region_size n <= off -> translate s' R va = translate s R va) /\
      (off < region_size n ->
         (exists e, translate s' R va = Some (pa + off, e) /\ leaf_for (pgVmm s) n a (pa + off - off mod 4096) e) \/
         ok = false /\ translate s' R va = translate s R va).
Proof.
  intros. destruct (map_static_maps s R ow p n a pa fuel) as (s' & ok & ow' & E & W & F & M & _); [done..|]. by exists s', ok, ow'.
Qed.

(** An empty root table. *)
Lemma empty_root_wf m vb R : R mod 4096 = 0 -> pt_wf (zero_page m R) vb R {[R := []]}.
Proof.
  intros Hal. destruct (zero_page_spec m R) as [Hz _].
  assert (forall t pi, ({[R := []]} : gmap Z (list Z)) !! t = Some pi -> t = R /\ pi = []) as Ho.
  { intros t pi [-> <-]%lookup_singleton_Some. done. }
  split.
  - intros t. split; [intros H; apply (Ho t [] H)|]. intros ->. apply lookup_singleton_eq.
  - intros t pi [-> ->]%Ho. split; [done|simpl; lia].
  - intros t pi i [-> ->]%Ho Hi. rewrite Hz by done. eauto.
  - intros t pi i e [-> ->]%Ho Hi He Hp. rewrite Hz in He by done. by simplify_eq.
  - intros t pi i [_ H]%Ho. by destruct pi.
Qed.

(** Twenty pages of which page 1 holds the region nodes and page 2 is the root
    table; a device region of two pages and a demand-paged region of four. *)
Definition sample_slots : Z := sample_base + 0x1000.
Definition sample_n1 : Z := sample_slots + 64.
Definition sample_n2 : Z := sample_slots + 128.
Definition sample_dev : KrVirtualMemoryRegion :=
  mkVmr 1 0 (sample_n2) "d" 0xFFFFFF8000200000 0xFFFFFF8000202000 (128 + 32 + 16 + 1).
Definition sample_dyn : KrVirtualMemoryRegion :=
  mkVmr 1 (sample_n1) 0 "p" 0xFFFFFF8000400000 0xFFFFFF8000404000 (32 + 16).
Definition sample_space_l : list region :=
  [mkRegion (sample_n1) 0xFFFFFF8000200000 0xFFFFFF8000202000 177;
   mkRegion (sample_n2) 0xFFFFFF8000400000 0xFFFFFF8000404000 48].
Definition sample_paging : Paging :=
  mkPaging
    (mkVmm sample_pmm sample_base 0x2000 KrVmmInitPat.2 false 1 {[ sample_slots := mkSlot 7 1 IVLDPGID IVLDPGID 3 ]}
      {[ sample_n1 := sample_dev; sample_n2 := sample_dyn ]}
      {[ 1 := mkSpace 0x2000 (sample_n1) (sample_n2) 2 ]})
    (zero_page ∅ (sample_base + 0x2000)) (mkPat false false false) 0 0xFFFFFFC000000000 false.

Lemma sample_paging_wf : paging_wf sample_paging (sample_base + 0x2000) {[sample_base + 0x2000 := []]}.
Proof.
  split.
  - by apply empty_root_wf.
  - split; [exact sample_wf|done|done].
  - done.
  - done.
  - intros t pi [<- _]%lookup_singleton_Some. exists 2. split; [done|]. split; [done|]. vm_compute. reflexivity.
Defined.

Lemma sample_no_large n : no_large_pages sample_paging (sample_base + 0x2000) n.
Proof.
  intros va _ e rest H. exfalso. unfold va_indices in H. cbn [walk] in H.
  destruct (zero_page_spec ∅ (sample_base + 0x2000)) as [Hz _]. cbn [sample_paging tbl] in H.
  rewrite Hz in H by (apply Z.mod_pos_bound; lia). done.
Qed.

Lemma sample_pat : pat_state_ok (PatMsrState (pgVmm sample_paging)).
Proof. unfold pat_state_ok. repeat constructor; done. Defined.

Lemma sample_mappable : mappable (pgVmm sample_paging) sample_dev (mkSpace 0x2000 (sample_n1) (sample_n2) 2) 0xFEE00000.
Proof. split; try (vm_compute; reflexivity); cbn [sample_dev VaddrStart VaddrEnd]; (lia || done). Defined.

Definition mapped_sample : Paging :=
  match VmMapStatic 4 sample_paging (sample_n1) 0xFEE00000 with Done (s, _) => s | _ => sample_paging end.

Example map_static_translates_witness :
  (outcome_map snd (VmMapStatic 4 sample_paging (sample_n1) 0xFEE00000) = Done true /\
   translate mapped_sample (sample_base + 0x2000) 0xFFFFFF8000201234 = Some (0xFEE01234, 0x80000000FEE0111B)) /\
  exists s' ok ow', VmMapStatic 4 sample_paging (sample_n1) 0xFEE00000 = Done (s', ok) /\
    paging_wf s' (sample_base + 0x2000) ow' /\ pg_frame sample_paging s' /\
    (3 * (region_size sample_dev / 4096) <= Z.of_nat (ahead (pmm_of sample_paging)) -> ok = true) /\
    forall va, let off := va_offset (VaddrStart sample_dev) va in
      (region_size sample_dev <= off -> translate s' (sample_base + 0x2000) va = translate sample_paging (sample_base + 0x2000) va) /\
      (off < region_size sample_dev ->
         (exists e, translate s' (sample_base + 0x2000) va = Some (0xFEE00000 + off, e) /\
            leaf_for (pgVmm sample_paging) sample_dev (mkSpace 0x2000 (sample_n1) (sample_n2) 2)
              (0xFEE00000 + off - off mod 4096) e) \/
         ok = false /\ translate s' (sample_base + 0x2000) va = translate sample_paging (sample_base + 0x2000) va).
Proof.
  split; [split; vm_compute; reflexivity|].
  eapply map_static_translates; [exact sample_paging_wf|vm_compute; reflexivity|exact sample_mappable|exact sample_pat
    |vm_compute; reflexivity|apply sample_no_large|vm_compute; reflexivity].
Defined.

(** ** Demand paging *)

Lemma vseg_lookup m sp prev l next r :
  vseg m sp prev l next -> r ∈ l -> exists n, m !! g_ptr r = Some n /\ pAddressSpace n = sp /\
    VaddrStart n = g_start r /\ VaddrEnd n = g_end r /\ rFlags n = g_flags r.
Proof.
  revert prev. induction l as [|x l IH]; intros prev; [set_solver|]. intros (_ & (tag & H) & Hs) [->|Hr]%elem_of_cons.
  - eexists. split; [exact H|]. done.
  - by eapply IH.
Qed.

(** The errors that demand paging handles: no page, supervisor, no fetch. *)
Definition demand_code (code : Z) : bool :=
  negb (has_flag code PFEC_PRESENT) && negb (has_flag code PFEC_USER) && negb (has_flag code PFEC_INSTRUCTION).
Definition demand_region (flags : Z) : bool :=
  negb (has_flag flags (Z.lor VMR_FLAG_STATIC VMR_FLAG_GUARD)) && negb (has_flag flags VMR_FLAG_PAGE_SIZE).

(** Taking the page for the data. *)
Lemma data_page s R ow ty :
  paging_wf s R ow -> exists pm id, PmAcquirePage (pmm_of s) ty IVLDPGID = Done (pm, id) /\
    let s1 := with_vmm s (with_pmm (pgVmm s) pm) in
    paging_wf s1 R ow /\ pg_frame s s1 /\ (ahead (pmm_of s) <= S (ahead pm))%nat /\
    (id = IVLDPGID -> ahead (pmm_of s) = 0%nat) /\
    (id <> IVLDPGID -> 0 <= id < NrPages (pmm_of s) /\ page_free (pmm_of s) id = true /\ page_free pm id = false).
Proof.
  intros [Gt Gp G4 Gb Gg]. destruct (pm_page (pmm_of s) ty Gp) as (pm & id & E & Gp' & Hnr & Hc & H1 & H0).
  exists pm, id. split; [done|]. cbv zeta.
  assert (forall p, 0 <= p -> page_free pm p = true -> page_free (pmm_of s) p = true) as Hsub.
  { intros p Hp. destruct Hc as [[_ ->]|(_ & _ & _ & Hb)]; [done|]. rewrite Hb by done. by intros [? _]%andb_true_iff. }
  split_and!; [| |done|done|].
  - split; [done|done|change (NrPages pm <= 2 ^ 20); lia|done|].
    intros t pi Ht. destruct (Gg t pi Ht) as (p & Hp & Et & Hf). exists p. change (0 <= p < NrPages pm /\ t = vbase s + 4096 * p /\ page_free pm p = false).
    rewrite Hnr. split_and!; [lia|lia|done|]. destruct (page_free pm p) eqn:Hf'; [|done]. rewrite Hsub in Hf by (done || lia). done.
  - by split.
  - intros Hid. destruct Hc as [[? _]|(Hr & _ & Hf & Hb)]; [done|]. split_and!; [lia|lia|done|].
    rewrite Hb, bool_decide_true, andb_false_r by (done || lia). done.
Qed.

Lemma leaf_not_failure v n a p e : leaf_for v n a p e -> e <> KR_PTE2_ENCODE_FAILURE_DUE_TO_ALIGNMENT.
Proof.
  intros L ->. pose proof (lf_user _ _ _ _ _ L) as H2. rewrite <- (lf_global _ _ _ _ _ L) in H2. by vm_compute in H2.
Qed.

(** Zeroing a page that holds no table. *)
Lemma zero_data s R ow id :
  paging_wf s R ow -> 0 <= id -> ow !! (vbase s + 4096 * id) = None ->
  let s' := with_tbl s (zero_page (tbl s) (vbase s + 4096 * id)) in
  paging_wf s' R ow /\ pg_frame s s' /\ same_walks s s' R /\
  forall i, 0 <= i < 512 -> tbl s' !! (vbase s + 4096 * id + 8 * i) = Some 0.
Proof.
  intros Hwf Hid Ho. pose proof Hwf as [Gt Gp G4 Gb Gg]. destruct (zero_page_spec (tbl s) (vbase s + 4096 * id)) as [Z1 Z2].
  assert (forall t pi i, ow !! t = Some pi -> 0 <= i < 512 ->
    zero_page (tbl s) (vbase s + 4096 * id) !! (t + 8 * i) = tbl s !! (t + 8 * i)) as Hm.
  { intros t pi i Ht Hi. apply Z2. intros j Hj E.
    destruct (word_inj t i (vbase s + 4096 * id) j) as [-> _]; [by apply (pt_shape _ _ _ _ Gt t pi)|zlia|done..|congruence]. }
  split_and!.
  - split; [by eapply agree_wf|done..].
  - split; try done. by destruct s as [[] ? ? ? ? ?].
  - intros idxs Hok _. by apply (agree_walk (tbl s) _ (vbase s) R ow).
  - exact Z1.
Qed.

(** The page [p] that serves a fault at [va] in a region with node [n]. *)
Record served (s s' : Paging) (R va : Z) (n : KrVirtualMemoryRegion) (a : KrAddressSpace) (p : Z) : Prop := {
  sv_range : 0 <= p < NrPages (pmm_of s);
  sv_taken : page_free (pmm_of s) p = true /\ page_free (pmm_of s') p = false;
  sv_maps : exists e, translate s' R va = Some (4096 * p + va mod 4096, e) /\ leaf_for (pgVmm s) n a (4096 * p) e;
  sv_zero : forall i, 0 <= i < 512 -> tbl s' !! (vbase s + 4096 * p + 8 * i) = Some 0;
  sv_others : forall va', vpn va' <> vpn va -> translate s' R va' = translate s R va';
  sv_flag : bInPageFault s' = false
}.

Lemma serve_page s R ow sp n a va id :
  0 <= va -> paging_wf s R ow -> rd_space (pgVmm s) sp = Done a -> pAddressSpace n = sp -> pat_state_ok (PatMsrState (pgVmm s)) ->
  R = KrPhysToVirt (pgVmm s) (PaddrRoot a) ->
  Z.land (rFlags n) VMR_FLAG_CACHING_PROTOCOL <> 3 -> small_path s R (va_indices va) ->
  0 <= id < NrPages (pmm_of s) -> page_free (pmm_of s) id = false -> ow !! (vbase s + 4096 * id) = None ->
  let x := KrUnmakeVirtual VADDR_SMALL va in
  exists s2 PT ow2, descend s R x = Done (s2, PT) /\ paging_wf s2 R ow2 /\ pg_frame s s2 /\
    (ahead (pmm_of s) <= 3 + ahead (pmm_of s2))%nat /\
    (PT = 0 /\ (ahead (pmm_of s) < 3)%nat \/ PT <> 0 /\ exists e, VmEncodeEntryFor (pgVmm s2) n PT_ENTRY (4096 * id) = Done (e, false) /\
       leaf_for (pgVmm s) n a (4096 * id) e /\
       let s3 := wr_entry (count_ivld s2 false) PT (vPT x) e in
       let s4 := with_tbl s3 (zero_page (tbl s3) (KrPhysToVirt (pgVmm s3) (4096 * id))) in
       paging_wf s4 R ow2 /\ pg_frame s s4 /\ leaf_set s s4 R (va_indices va) e /\
       forall i, 0 <= i < 512 -> tbl s4 !! (vbase s + 4096 * id + 8 * i) = Some 0).
Proof.
  intros Hva Hwf Ha Hn Hpat HR Hpr Hs Hid Hfree Hnt x.
  destruct (descend_va s R ow va Hva Hwf Hs) as (s2 & PT & ow2 & E & W & F & K & [_ G] & [O1 O] & P).
  exists s2, PT, ow2. do 4 (split; [done|]).
  destruct P as [->|[Hp H]]; [left; auto|right]. split; [done|].
  pose proof (gw_4g _ _ _ Hwf) as H4.
  destruct (encode_entry_for_spec (pgVmm s2) n a (4096 * id)) as (e & Ee & He).
  { by rewrite (pf_vmm _ _ F), rd_space_pmm, Hn. }
  { by rewrite (pf_vmm _ _ F). }
  { done. } { lia. } { zlia. }
  exists e. split; [done|]. pose proof He as He'. rewrite (pf_vmm _ _ F) in He'. split; [by eapply leaf_for_pmm|].
  destruct (H e false (lf_present _ _ _ _ _ He)) as (W3 & F3 & K3). intros s3 s4. subst s4. fold x in W3, F3, K3. fold s3 in W3, F3, K3.
  destruct (page_address s3 R ow2 id W3) as [_ Ev]; [by rewrite (pf_nr _ _ F3)|]. rewrite Ev.
  destruct (zero_data s3 R ow2 id W3) as (W4 & F4 & K4 & Z4); [lia| |].
  { rewrite (pg_frame_base _ _ F3). destruct (ow2 !! _) as [pi|] eqn:Eo; [|done].
    destruct (G _ _ Eo) as [Eo'|(p & Hp0 & Ep & Hpf)]; [congruence|]. assert (p = id) as -> by lia. congruence. }
  split; [done|]. split; [by eapply pg_frame_trans|]. split.
  - intros idxs Hok Hl. rewrite K4 by done. by apply K3.
  - rewrite <- (pg_frame_base _ _ F3). exact Z4.
Qed.

(** What a fault's region is: [r] is a represented region that contains [va]. *)
Record faulting (s : Paging) (sp : Z) (l : list region) (r : region) (n : KrVirtualMemoryRegion) (va : Z) : Prop := {
  ft_space : space_rep (pgVmm s) sp l /\ sp <> 0;
  ft_region : r ∈ l /\ contains r va /\ 0 <= va;
  ft_node : nodes (pgVmm s) !! g_ptr r = Some n
}.

Lemma locate_faulting s sp l r n va fuel :
  faulting s sp l r n va -> (length l < fuel)%nat ->
  VmLocateRegion fuel (pgVmm s) sp va = Done (g_ptr r) /\ g_ptr r <> 0 /\ rd_node (pgVmm s) (g_ptr r) = Done n /\
    pAddressSpace n = sp /\ rFlags n = g_flags r.
Proof.
  intros [[H Hsp] (Hr & Hc & Hva) Hn] Hf. destruct (locate_region_spec (pgVmm s) sp l fuel va H Hsp Hf) as (p & E & H1 & _).
  rewrite E, (H1 r Hr Hc). assert (g_ptr r <> 0) as Hnz by (eapply vseg_nonzero; [apply (sr_seg _ _ _ H)|done]).
  destruct (vseg_lookup _ _ _ _ _ r (sr_seg _ _ _ H) Hr) as (n' & Hn' & A1 & _ & _ & A2).
  assert (n' = n) as -> by congruence. split_and!; try done. by apply rd_node_ok.
Qed.

Lemma demand_region_flags f :
  demand_region f = true -> has_flag f (Z.lor VMR_FLAG_STATIC VMR_FLAG_GUARD) = false /\ has_flag f VMR_FLAG_PAGE_SIZE = false.
Proof. unfold demand_region. intros [H1%negb_true_iff H2%negb_true_iff]%andb_true_iff. done. Qed.

Lemma fault_release_melts s id :
  pmm_good (pmm_of s) -> 0 <= id < NrPages (pmm_of s) -> fault_release s id = Melt KR_MDCODE_PAGE_FAULT.
Proof.
  intros Hg Hid. unfold fault_release. destruct (relinquish_good _ _ Hg Hid) as (pm & r & E & _).
  change (vPmm (pgVmm s)) with (pmm_of s). by rewrite E.
Qed.

(** Pages are only taken. *)
Definition pages_taken (pm pm' : Pmm) : Prop :=
  NrPages pm' = NrPages pm /\ forall p, 0 <= p -> page_free pm' p = true -> page_free pm p = true.

(** What serving a fault leaves alone. *)
Definition fault_frame (s s' : Paging) (R va : Z) : Prop :=
  pgVmm s' = with_pmm (pgVmm s) (pmm_of s') /\ (ahead (pmm_of s) <= 4 + ahead (pmm_of s'))%nat /\
  (exists e, leaf_set s s' R (va_indices va) e) /\ pages_taken (pmm_of s) (pmm_of s') /\
  g_VaddrMmioHead s' = g_VaddrMmioHead s.

Lemma fault_serves s R ow sp l r n a fuel va code :
  paging_wf s R ow -> faulting s sp l r n va -> (length l < fuel)%nat -> pat_state_ok (PatMsrState (pgVmm s)) ->
  demand_region (g_flags r) = true -> Z.land (g_flags r) VMR_FLAG_CACHING_PROTOCOL <> 3 -> demand_code code = true ->
  bInPageFault s = false -> rd_space (pgVmm s) sp = Done a -> R = KrPhysToVirt (pgVmm s) (PaddrRoot a) ->
  small_path s R (va_indices va) ->
  (exists s' ow' p, IntmgmtPageFault fuel s true sp va code = Done s' /\ paging_wf s' R ow' /\ served s s' R va n a p /\
     fault_frame s s' R va) \/
  IntmgmtPageFault fuel s true sp va code = Melt KR_MDCODE_PAGE_FAULT /\ (ahead (pmm_of s) < 4)%nat.
Proof.
  intros Hwf Hft Hf Hpat Hreg Hpr Hcode Hin Ha HR Hs. pose proof (ft_region _ _ _ _ _ _ Hft) as (_ & _ & Hva).
  destruct (locate_faulting s sp l r n va fuel Hft Hf) as (El & Hnz & En & Esp & Efl). rewrite <- Efl in *.
  apply demand_region_flags in Hreg as [Hf1 Hf2].
  unfold IntmgmtPageFault. rewrite Hin. cbn [negb]. fold (demand_code code). rewrite Hcode.
  change (pgVmm (with_in_fault s true)) with (pgVmm s).
  rewrite El, bind_Done, (proj2 (Z.eqb_neq _ _) Hnz), En, bind_Done, Hf1, Hf2.
  destruct (data_page s R ow PAGE_TYPE_GENERAL Hwf) as (pm & id & E & W1 & F1 & O1 & O2 & Hid).
  change (vPmm (pgVmm s)) with (pmm_of s). rewrite E, bind_Done.
  destruct (Z.eqb_spec id IVLDPGID) as [Hi|Hi]; [right; split; [done|specialize (O2 Hi); lia]|].
  destruct (Hid Hi) as (Hr & Hfr & Htk). set (s1 := with_vmm (with_in_fault s true) (with_pmm (pgVmm s) pm)).
  assert (paging_wf s1 R ow) as W1' by by destruct W1.
  assert (pg_frame (with_in_fault s true) s1) as F1' by by destruct F1.
  destruct (page_address s1 R ow id W1') as [Ea _]; [by rewrite (pf_nr _ _ F1')|].
  change (KrGetPhysicalPageAddress pm id = 4096 * id) in Ea. rewrite Ea.
  assert (rd_space (pgVmm s1) sp = Done a) as Ha1 by done. rewrite Ha1, bind_Done.
  change (KrPhysToVirt (pgVmm s1) (PaddrRoot a)) with (KrPhysToVirt (pgVmm s) (PaddrRoot a)). rewrite <- HR.
  destruct (serve_page s1 R ow sp n a va id Hva W1' Ha1 Esp Hpat HR Hpr Hs) as (s2 & PT & ow2 & E2 & W2 & F2 & Hc);
    [by rewrite (pf_nr _ _ F1')|done|by apply (fresh_table s R ow id)|].
  rewrite E2, bind_Done. destruct Hc as [Ha2 [[-> Hc]|(Hp & e & Ee & He & W4 & F4 & K4 & Z4)]].
  { right. split; [|change (ahead pm < 3)%nat in Hc; lia].
    apply fault_release_melts; [apply (gw_pmm _ _ _ W2)|by rewrite (pf_nr _ _ F2), (pf_nr _ _ F1')]. }
  left. rewrite (proj2 (Z.eqb_neq _ _) Hp), Ee, bind_Done, (proj2 (Z.eqb_neq _ _) (leaf_not_failure _ _ _ _ _ He)).
  eexists _, ow2, id. split; [reflexivity|]. split; [by destruct W4|]. pose proof (va_indices_ok va) as Hok.
  split; cycle 1.
  { pose proof (pf_nr _ _ F1') as N1. pose proof (pf_free _ _ F1') as P1. pose proof (pf_nr _ _ F4) as N4. pose proof (pf_free _ _ F4) as P4.
    pose proof (eq_trans (pf_head _ _ F4) (pf_head _ _ F1')) as H4.
    destruct F4. split; [done|]. split.
    - change (ahead pm <= 3 + ahead (pmm_of s2))%nat in Ha2. change (ahead (pmm_of s) <= 4 + ahead (pmm_of s2))%nat. lia.
    - split; [by exists e|]. split; [|exact H4]. split; [exact (eq_trans N4 N1)|]. intros q Hq Hq'. exact (P1 q Hq (P4 q Hq Hq')). }
  split.
  - done.
  - split; [done|]. match goal with |- ?b = false => destruct b eqn:Eb; [|done] end.
    apply (pf_free _ _ F4) in Eb; [|lia]. change (page_free pm id = true) in Eb. congruence.
  - exists e. split; [|apply leaf_for_pmm with pm; exact He]. apply translate_leaf; [|by apply (lf_frame _ _ _ _ _ He)].
    specialize (K4 (va_indices va) Hok eq_refl). rewrite decide_True in K4 by done. exact K4.
  - exact Z4.
  - intros va' Hd. apply translate_same. specialize (K4 (va_indices va') (va_indices_ok va') eq_refl).
    rewrite decide_False in K4; [exact K4|]. by intros Eq%va_indices_vpn.
  - done.
Qed.

(** C10: A supervisor data fault on an absent page of a demand-paged region, with no
    large page in the way, is served: the processor then translates the
    faulting address to a page that was available before, now taken, zeroed and mapped with the rights
    and memory type of the region, and every other page keeps its translation.
    The handler gives up, entering the page fault meltdown, only with fewer
    than four available pages ahead. *)
Theorem page_fault_maps s R ow sp l r n a fuel va code :
  paging_wf s R ow -> faulting s sp l r n va -> (length l < fuel)%nat -> pat_state_ok (PatMsrState (pgVmm s)) ->
  demand_region (g_flags r) = true -> Z.land (g_flags r) VMR_FLAG_CACHING_PROTOCOL <> 3 -> demand_code code = true ->
  bInPageFault s = false -> rd_space (pgVmm s) sp = Done a -> R = KrPhysToVirt (pgVmm s) (PaddrRoot a) ->
  small_path s R (va_indices va) ->
  (exists s' ow' p, IntmgmtPageFault fuel s true sp va code = Done s' /\ paging_wf s' R ow' /\ served s s' R va n a p) \/
  IntmgmtPageFault fuel s true sp va code = Melt KR_MDCODE_PAGE_FAULT /\ (ahead (pmm_of s) < 4)%nat.
Proof.
  intros. destruct (fault_serves s R ow sp l r n a fuel va code) as [(s' & ow' & p & E & W & S & _)|?]; [done..| |by right].
  left. by exists s', ow', p.
Qed.

Lemma sample_paging_space : space_rep (pgVmm sample_paging) 1 sample_space_l.
Proof.
  split.
  - by exists 0x2000.
  - cbn [sample_space_l vseg]. split_and!; try done; eexists; vm_compute; reflexivity.
  - cbn [sample_space_l rsorted g_start g_end]. lia.
  - apply (bool_decide_unpack _). by vm_compute.
Defined.

Lemma sample_faulting :
  faulting sample_paging 1 sample_space_l (mkRegion (sample_n2) 0xFFFFFF8000400000 0xFFFFFF8000404000 48) sample_dyn
    0xFFFFFF8000401ABC.
Proof.
  split; [split; [exact sample_paging_space|done]| |vm_compute; reflexivity].
  split; [unfold sample_space_l; set_solver|]. unfold contains. cbn [g_start g_end]. lia.
Defined.

Example page_fault_maps_witness :
  (3 + 1 <= ahead (pmm_of sample_paging))%nat /\
  ((exists s' ow' p, IntmgmtPageFault 3 sample_paging true 1 0xFFFFFF8000401ABC 2 = Done s' /\
     paging_wf s' (sample_base + 0x2000) ow' /\
     served sample_paging s' (sample_base + 0x2000) 0xFFFFFF8000401ABC sample_dyn
       (mkSpace 0x2000 (sample_n1) (sample_n2) 2) p) \/
   IntmgmtPageFault 3 sample_paging true 1 0xFFFFFF8000401ABC 2 = Melt KR_MDCODE_PAGE_FAULT /\
     (ahead (pmm_of sample_paging) < 4)%nat).
Proof.
  split; [vm_compute; lia|].
  eapply page_fault_maps; [exact sample_paging_wf|exact sample_faulting|vm_compute; lia|exact sample_pat|reflexivity|done
    |reflexivity|reflexivity|reflexivity|reflexivity|].
  apply (sample_no_large sample_dyn). cbn [sample_dyn VaddrStart VaddrEnd]. lia.
Defined.

(** Every other page fault enters the page fault meltdown without any
    mapping: a fault within the handler, before the memory manager is up, from user
    mode, of an instruction fetch or on a present page, one that no region
    contains, and one in a static, guard or large-page region. *)
Theorem page_fault_melts s sp l va code fuel (init : bool) :
  bInPageFault s = true \/ init = false \/ demand_code code = false \/
  space_rep (pgVmm s) sp l /\ sp <> 0 /\ (length l < fuel)%nat /\ (forall r, r ∈ l -> ~ contains r va) \/
  (exists r n, faulting s sp l r n va /\ (length l < fuel)%nat /\ demand_region (g_flags r) = false) ->
  IntmgmtPageFault fuel s init sp va code = Melt KR_MDCODE_PAGE_FAULT.
Proof.
  unfold IntmgmtPageFault. destruct (bInPageFault s); [done|]. destruct init; [|done]. cbn [negb]. fold (demand_code code).
  change (pgVmm (with_in_fault s true)) with (pgVmm s).
  destruct (demand_code code); [|done]. intros [?|[?|[?|[(H & Hsp & Hf & Hn)|(r & n & Hft & Hf & Hd)]]]]; try done.
  - destruct (locate_region_spec (pgVmm s) sp l fuel va H Hsp Hf) as (p & E & _ & H0). by rewrite E, H0.
  - destruct (locate_faulting s sp l r n va fuel Hft Hf) as (El & Hnz & En & Esp & Efl).
    rewrite El, bind_Done, (proj2 (Z.eqb_neq _ _) Hnz), En, bind_Done, Efl. unfold demand_region in Hd.
    destruct (has_flag (g_flags r) _); [done|]. cbn [negb andb] in Hd. by apply negb_false_iff in Hd as ->.
Qed.

Example page_fault_melts_witness :
  IntmgmtPageFault 3 sample_paging true 1 0xFFFFFF8000200010 2 = Melt KR_MDCODE_PAGE_FAULT /\
  IntmgmtPageFault 3 sample_paging true 1 0xFFFFFF8000600000 2 = Melt KR_MDCODE_PAGE_FAULT.
Proof.
  split.
  - apply (page_fault_melts sample_paging 1 sample_space_l). do 4 right.
    exists (mkRegion (sample_n1) 0xFFFFFF8000200000 0xFFFFFF8000202000 177), sample_dev.
    split; [|split; [vm_compute; lia|reflexivity]].
    split; [split; [exact sample_paging_space|done]| |vm_compute; reflexivity].
    split; [unfold sample_space_l; set_solver|]. unfold contains. cbn [g_start g_end]. lia.
  - apply (page_fault_melts sample_paging 1 sample_space_l). do 3 right. left.
    split; [exact sample_paging_space|]. split; [done|]. split; [vm_compute; lia|].
    intros r Hr. unfold sample_space_l in Hr. rewrite !elem_of_cons, elem_of_nil in Hr. unfold contains.
    destruct Hr as [->|[->|[]]]; cbn [g_start g_end]; lia.
Defined.

(** ** Divergences *)

(** A 2 MiB region: the mode is chosen with KR_PAGE_SIZE (bit 12) instead of
    VMR_FLAG_PAGE_SIZE, so only the first 4 KiB of every 2 MiB are mapped. *)
Definition large_paging : Paging :=
  with_vmm sample_paging (with_nodes (pgVmm sample_paging)
    {[ sample_n1 := mkVmr 1 0 0 "d" 0xFFFFFF8000200000 0xFFFFFF8000400000 (128 + 32 + 16 + 4) ]}).
Definition large_mapped : Paging :=
  match VmMapStatic 4 large_paging (sample_n1) 0x40000000 with Done (s, _) => s | _ => large_paging end.

Example large_region_hole :
  outcome_map snd (VmMapStatic 4 large_paging (sample_n1) 0x40000000) = Done true /\
  fst <$> translate large_mapped (sample_base + 0x2000) 0xFFFFFF8000200010 = Some 0x40000010 /\
  translate large_mapped (sample_base + 0x2000) 0xFFFFFF8000201000 = None.
Proof. vm_compute. done. Qed.

(** Caching protocol 3 has no entry: the failure word is written as the entry
    of the page and the mapping reports success. *)
Definition protocol_paging : Paging :=
  with_vmm sample_paging (with_nodes (pgVmm sample_paging)
    {[ sample_n1 := mkVmr 1 0 0 "d" 0xFFFFFF8000200000 0xFFFFFF8000201000 (128 + 32 + 16 + 3) ]}).

Example reserved_protocol_maps :
  outcome_map snd (VmMapStatic 4 protocol_paging (sample_n1) 0x40000000) = Done true /\
  snd <$> translate (match VmMapStatic 4 protocol_paging (sample_n1) 0x40000000 with Done (s, _) => s | _ => sample_paging end)
    (sample_base + 0x2000) 0xFFFFFF8000200000 = Some QWORD_MAX.
Proof. vm_compute. done. Qed.
