(* ===== verification/MmioProps.v ===== *)
(** * Device mappings reach the processor (Kernel/Source/Memory/MMIO.c) *)
From Stdlib Require Import ZArith Lia String.
From stdpp Require Import base numbers list gmap.
From S2P Require Import Prelude PhysBitmap KrtlMem BootstrapArena MemoryMap Physmemmgmt PmmSparse PmmDense PmmOps PmmProps Pte Vmr VmrSpec VmrProps PageTable PageTableSpec PageTableProps.
Open Scope Z_scope.

(** ** Range allocation *)

(** The first address at or above [head] aligned to [2 ^ k]. *)
Definition mmio_base (head k : Z) : Z := (head + (2 ^ k - 1)) / 2 ^ k * 2 ^ k.

(** Ranges are aligned and lie above every earlier one. *)
Lemma mmio_allocate_range_spec s k size :
  0 <= k < 32 -> 0 <= g_VaddrMmioHead s -> 0 <= size -> g_VaddrMmioHead s + (2 ^ k - 1) + size < 2 ^ 64 ->
  let b := mmio_base (g_VaddrMmioHead s) k in
  MmioAllocateRange s (2 ^ k) size = (with_head s (b + size), b) /\
  b mod 2 ^ k = 0 /\ g_VaddrMmioHead s <= b < g_VaddrMmioHead s + 2 ^ k.
Proof.
  intros Hk Hh Hs Hb b. assert (0 < 2 ^ k < 2 ^ 32) by (split; [apply Z.pow_pos_nonneg|apply Z.pow_lt_mono_r]; lia).
  assert (g_VaddrMmioHead s <= b < g_VaddrMmioHead s + 2 ^ k) as Hr by (unfold b, mmio_base; zlia).
  split; [|split; [apply Z.mod_mul; lia|done]]. unfold MmioAllocateRange.
  rewrite (u32_small (2 ^ k - 1)), (u64_small (g_VaddrMmioHead s + (2 ^ k - 1))), land_mask_down by lia.
  fold (mmio_base (g_VaddrMmioHead s) k). fold b. by rewrite u64_small by lia.
Qed.

(** ** The region of a device *)

Definition mmio_flags (Flags : Z) : Z :=
  Z.lor (Z.lor (Z.lor VMR_FLAG_READABLE VMR_FLAG_WRITABLE) VMR_FLAG_STATIC)
    (if has_flag Flags MMIO_FLAG_WRITE_COMBINE then VMR_CACHE_PROTOCOL_WRITE_COMBINE else VMR_CACHE_PROTOCOL_UNCACHEABLE).

Lemma vseg_retag m sp prev l next p n tag :
  m !! p = Some n -> vseg m sp prev l next ->
  vseg (<[p := mkVmr (pAddressSpace n) (rPrev n) (rNext n) tag (VaddrStart n) (VaddrEnd n) (rFlags n)]> m) sp prev l next.
Proof.
  intros Hn. revert prev. induction l as [|r l IH]; intros prev; [done|]. intros (H1 & (t & H2) & H3).
  cbn [vseg]. split; [done|]. split; [|by apply IH]. destruct (decide (p = g_ptr r)) as [->|Hne].
  - exists tag. rewrite H2 in Hn. injection Hn as <-. apply lookup_insert_eq.
  - exists t. by rewrite lookup_insert_ne.
Qed.

Lemma leaf_for_same v v' n a a' p e :
  same_machine v v' -> PaddrRoot a' = PaddrRoot a -> leaf_for v' n a' p e -> leaf_for v n a p e.
Proof.
  intros [_ _ H1 H2 H3] Ha [L1 L2 L3 L4 L5 L6 L7]. rewrite ?Ha, ?H1, ?H2, ?H3 in *. by split.
Qed.

(** Replacing the region part of the memory manager. *)
Lemma same_machine_wf s v R ow : same_machine (pgVmm s) v -> paging_wf s R ow -> paging_wf (with_vmm s v) R ow.
Proof.
  intros [H1 H2 _ _ _] [G1 G2 G3 G4 G5].
  assert (vbase (with_vmm s v) = vbase s) as Eb by (unfold vbase; done).
  assert (pmm_of (with_vmm s v) = pmm_of s) as Ep by (unfold pmm_of; done).
  by split; rewrite ?Eb, ?Ep.
Qed.

(** The new node after VmTagRegion. *)
Lemma tagged_region v v' p0 live sp l p st nd Flags tag :
  region_linked v v' p0 live sp l p st nd Flags -> sp <> 0 -> st <> 0 -> nd <> 0 ->
  exists v'' n, VmTagRegion v' p tag = Done v'' /\ rd_node v'' p = Done n /\ Tag n = tag /\
    pAddressSpace n = sp /\ VaddrStart n = st /\ VaddrEnd n = nd /\ rFlags n = Flags /\
    same_machine v v'' /\ spaces v'' = spaces v' /\ v'' = with_nodes v' (nodes v'') /\
    exists l1 l2, l = l1 ++ l2 /\ space_rep v'' sp (l1 ++ mkRegion p st nd Flags :: l2).
Proof.
  intros [[L1 _] _ (l1 & l2 & L4 & L5) _ _ _ L7 _] Hsp Hst Hnd.
  destruct (vseg_lookup _ _ _ _ _ (mkRegion p st nd Flags) (sr_seg _ _ _ L5)) as (n & Hn & A1 & A2 & A3 & A4); [set_solver|].
  cbn [g_ptr g_start g_end g_flags] in *.
  unfold VmTagRegion. rewrite (proj2 (Z.eqb_neq _ _) L1), (rd_node_ok v' p n L1 Hn), bind_Done, A1, A2, A3.
  rewrite !(proj2 (Z.eqb_neq _ _)) by done. cbn [negb andb]. rewrite wr_node_ok by done.
  eexists _, _. split; [done|]. split; [apply rd_node_ok; [done|apply lookup_insert_eq]|]. split_and!; try done.
  - destruct L7. by split.
  - exists l1, l2. split; [done|]. destruct L5 as [S1 S2 S3 S4]. split; [done| |done|done].
    pose proof (vseg_retag _ _ _ _ _ p n tag Hn S2) as S2'. by rewrite A1, A2, A3 in S2'.
Qed.

(** ** Mapping a device *)

(** The kernel address space [sp] with the tree at [R], ready for a new region. *)
Record mmio_ready (s : Paging) (R : Z) (ow : gmap Z (list Z)) (sp : Z) (a : KrAddressSpace) (l : list region) (p0 : Z) (live : list Z) : Prop := {
  mr_wf : paging_wf s R ow;
  mr_root : R = KrPhysToVirt (pgVmm s) (PaddrRoot a);
  mr_space : space_rep (pgVmm s) sp l /\ sp <> 0 /\ spaces (pgVmm s) !! sp = Some a;
  mr_rna : rna_rep (pgVmm s) p0 live /\ root_bitmap (pgVmm s) p0 <> QWORD_MAX /\ g_ptr <$> l ⊆ live;
  mr_pat : pat_state_ok (PatMsrState (pgVmm s))
}.

(** A device of [size] bytes at [pa] that can be mapped at [base]. *)
Record device_fits (s : Paging) (R : Z) (a : KrAddressSpace) (l : list region) (pa size Flags base : Z) : Prop := {
  df_phys : 0 <= pa /\ pa mod 4096 = 0 /\ pa + size <= 2 ^ 52;
  df_size : size mod 4096 = 0 /\ size <= 2 ^ 48;
  df_head : 0 < g_VaddrMmioHead s /\ g_VaddrMmioHead s + 4095 + size < 2 ^ 64;
  df_accepts : acquire_accepts (pgVmm s) (PaddrRoot a) base (base + size) (mmio_flags Flags) l;
  df_large : forall va, base <= va < base + size -> small_path s R (va_indices va)
}.

Lemma mmio_flags_facts Flags :
  has_flag (mmio_flags Flags) VMR_FLAG_STATIC = true /\ has_flag (mmio_flags Flags) VMR_FLAG_PAGE_SIZE = false /\
  has_flag (mmio_flags Flags) KR_PAGE_SIZE = false /\ Z.land (mmio_flags Flags) VMR_FLAG_CACHING_PROTOCOL <> 3.
Proof. unfold mmio_flags. destruct (has_flag Flags _); vm_compute; done. Qed.

(** Mapping a region once the manager [v] has replaced that of [s]. *)
Lemma moved_mapping s s2 R ow p a a' n pa fuel :
  paging_wf s R ow -> same_machine (pgVmm s) (pgVmm s2) -> tbl s2 = tbl s -> rd_node (pgVmm s2) p = Done n ->
  mappable (pgVmm s2) n a' pa -> PaddrRoot a' = PaddrRoot a -> pat_state_ok (PatMsrState (pgVmm s)) ->
  R = KrPhysToVirt (pgVmm s) (PaddrRoot a) -> no_large_pages s R n -> region_size n < 4096 * Z.of_nat fuel ->
  3 * (region_size n / 4096) <= Z.of_nat (ahead (pmm_of s)) ->
  exists s' ow', VmMapStatic fuel s2 p pa = Done (s', true) /\ paging_wf s' R ow' /\ pg_frame s2 s' /\ map_frame s s' R n /\
    forall va, let off := va_offset (VaddrStart n) va in
      (region_size n <= off -> translate s' R va = translate s R va) /\
      (off < region_size n -> exists e, translate s' R va = Some (pa + off, e) /\ leaf_for (pgVmm s) n a (pa + off - off mod 4096) e).
Proof.
  intros Hwf Hsm Et Hn Hm Hra Hpat HR Hlg Hf Hah. pose proof Hsm as [S1 S2 S3 S4 S5].
  assert (vbase s2 = vbase s) as Eb by done. assert (pmm_of s2 = pmm_of s) as Ep by done.
  assert (paging_wf s2 R ow) as Hwf2 by (destruct Hwf; split; rewrite ?Eb, ?Ep, ?Et; done).
  assert (forall va, translate s2 R va = translate s R va) as Htr by (intros va; unfold translate; by rewrite Eb, Et).
  destruct (map_static_maps s2 R ow p n a' pa fuel) as (s' & ok & ow' & E & W & F & [Hok H] & Hfr); try done.
  - by rewrite S4.
  - rewrite Hra, HR. unfold KrPhysToVirt. by rewrite S2.
  - intros va Hva. unfold small_path. rewrite Eb, Et. by apply Hlg.
  - rewrite Hok in E by (by rewrite Ep). exists s', ow'. do 3 (split; [done|]).
    split; [unfold map_frame in *; by rewrite Ep, Eb, Et in Hfr|]. intros va. destruct (H va) as [H1 H2]. rewrite Htr in H1, H2. split; [done|]. intros Ho.
    destruct (H2 Ho) as [(e & He & L)|[Hno _]]; [|by rewrite Hok in Hno by (by rewrite Ep)].
    exists e. split; [done|]. by eapply leaf_for_same.
Qed.

(** C13: MmioMapDevice on a page-aligned device, with 4 KiB pages, a free region
    node and three available pages ahead per page of the device, returns the
    first aligned address above the last mapping: a new region there belongs to the
    kernel space, the processor translates every address of it to the device with
    uncacheable or write-combining, writable, not executable, kernel-only pages, and no other
    address changes its translation. *)
Theorem mmio_map_device_translates s R ow sp a l p0 live tag pa size Flags fuel :
  let base := mmio_base (g_VaddrMmioHead s) 12 in
  mmio_ready s R ow sp a l p0 live -> device_fits s R a l pa size Flags base ->
  has_flag Flags MMIO_FLAG_USE_LARGE_PAGES = false -> (length l < fuel)%nat -> size < 4096 * Z.of_nat fuel ->
  3 * (size / 4096) <= Z.of_nat (ahead (pmm_of s)) ->
  exists s' ow' n p l1 l2, MmioMapDevice fuel s sp tag pa size Flags = Done (s', base) /\ paging_wf s' R ow' /\
    g_VaddrMmioHead s' = base + size /\
    l = l1 ++ l2 /\ space_rep (pgVmm s') sp (l1 ++ mkRegion p base (base + size) (mmio_flags Flags) :: l2) /\
    rd_node (pgVmm s') p = Done n /\ Tag n = tag /\ rFlags n = mmio_flags Flags /\
    forall va, let off := va_offset base va in
      (size <= off -> translate s' R va = translate s R va) /\
      (off < size -> exists e, translate s' R va = Some (pa + off, e) /\ leaf_for (pgVmm s) n a (pa + off - off mod 4096) e).
Proof.
  intros base [Hwf HR (Hs & Hsp & Ha) (Hr1 & Hr2 & Hr3) Hpat] [(D1 & D2 & D3) [D4 D5] [D6 D7] D8 D9] Hlg Hf1 Hf2 Hah.
  pose proof D8 as (_ & Hlt & _ & _).
  destruct (mmio_allocate_range_spec s 12 size ltac:(lia) ltac:(lia) ltac:(lia) ltac:(lia)) as (Eal & Hal & Hbr).
  change (2 ^ 12) with 4096 in Eal, Hal, Hbr. fold base in Eal, Hal, Hbr.
  unfold MmioMapDevice. rewrite Hlg, page_aligned, u64_small, page_aligned by (done || lia || zlia). cbn [negb].
  rewrite Eal. fold (mmio_flags Flags). rewrite u64_small by lia.
  change (pgVmm (with_head s (base + size))) with (pgVmm s).
  destruct (acquire_region_links (pgVmm s) p0 live sp l fuel base (base + size) (mmio_flags Flags) a) as (v1 & p & E1 & L1); try done.
  rewrite E1, bind_Done, (proj2 (Z.eqb_neq _ _) (proj1 (rl_fresh _ _ _ _ _ _ _ _ _ _ L1))).
  destruct (tagged_region (pgVmm s) v1 p0 live sp l p base (base + size) (mmio_flags Flags) tag L1 Hsp)
    as (v2 & n & Et & En & Ht & N1 & N2 & N3 & N4 & Hsm & Esp & _ & l1 & l2 & El & Hs2); [lia|lia|].
  change (pgVmm (with_vmm (with_head s (base + size)) v1)) with v1. rewrite Et, bind_Done.
  destruct (rl_root _ _ _ _ _ _ _ _ _ _ L1 a Ha) as (a' & Ha' & Hra).
  set (s2 := with_vmm _ v2). destruct (mmio_flags_facts Flags) as (G1 & G2 & G3 & G4).
  assert (region_size n = size) as Esz by (unfold region_size; lia).
  destruct (moved_mapping s s2 R ow p a a' n pa fuel) as (s' & ow' & E & W & F & _ & H); try done; try (rewrite Esz; done).
  - split; rewrite ?N1, ?N2, ?N3, ?N4; try done; [|lia|zlia|lia|lia].
    unfold rd_space. rewrite (proj2 (Z.eqb_neq _ _) Hsp). change (spaces (pgVmm s2)) with (spaces v2). by rewrite Esp, Ha'.
  - intros va Hva. rewrite N2, N3 in Hva. by apply D9.
  - rewrite E, bind_Done. exists s', ow', n, p, l1, l2. split; [done|]. split; [done|].
    split; [by rewrite (pf_head _ _ F)|]. rewrite (pf_vmm _ _ F). split; [done|].
    split; [by destruct Hs2; split|]. do 2 (split; [done|]). split; [done|]. rewrite N2, Esz in H. exact H.
Qed.

Lemma sample_device_rna : rna_rep (pgVmm sample_paging) sample_slots [sample_n1; sample_n2].
Proof.
  split.
  - intros k Hk. unfold RnaGetSlotVptr.
    assert (KrPhysToVirt (pgVmm sample_paging) (KrGetPhysicalPageAddress (vPmm (pgVmm sample_paging)) (g_RnaRootPageID (pgVmm sample_paging)))
      = sample_slots) as -> by (vm_compute; reflexivity).
    rewrite u64_small; unfold sample_slots, sample_base, RNA_SLOT_SIZE; lia.
  - unfold sample_slots, sample_base. lia.
  - exists (mkSlot 7 1 IVLDPGID IVLDPGID 3). split; [vm_compute; reflexivity|]. cbn [Bitmap This]. split_and!; try done.
    + intros k Hk. rewrite (testbit_above 7 3 k), (testbit_above 7 3 31) by lia. done.
    + constructor; [exists 1; split_and!; done|]. constructor; [exists 2; split_and!; done|constructor].
  - apply (bool_decide_unpack _). by vm_compute.
Defined.

Lemma sample_ready :
  mmio_ready sample_paging (sample_base + 0x2000) {[sample_base + 0x2000 := []]} 1 (mkSpace 0x2000 sample_n1 sample_n2 2)
    sample_space_l sample_slots [sample_n1; sample_n2].
Proof.
  split; [exact sample_paging_wf|reflexivity| | |exact sample_pat].
  - split; [exact sample_paging_space|]. split; [done|vm_compute; reflexivity].
  - split; [exact sample_device_rna|]. split; [by vm_compute|]. unfold sample_space_l. cbn. set_solver.
Defined.

Lemma sample_device_fits :
  device_fits sample_paging (sample_base + 0x2000) (mkSpace 0x2000 sample_n1 sample_n2 2) sample_space_l 0xFEC00000 0x2000 2
    0xFFFFFFC000000000.
Proof.
  split; [split_and!; (done || lia)|split; (done || lia)|cbn; lia| |].
  - unfold acquire_accepts. split; [vm_compute; reflexivity|]. split; [lia|]. split; [done|].
    intros r Hr. unfold sample_space_l in Hr. rewrite !elem_of_cons, elem_of_nil in Hr. unfold overlaps.
    destruct Hr as [->|[->|[]]]; cbn [g_start g_end]; lia.
  - intros va Hva. apply (sample_no_large (mkVmr 1 0 0 "" 0xFFFFFFC000000000 0xFFFFFFC000002000 0)).
    cbn [VaddrStart VaddrEnd]. lia.
Defined.

Example mmio_map_device_translates_witness :
  (r ← MmioMapDevice 4 sample_paging 1 "io" 0xFEC00000 0x2000 2;
   Done (r.2, fst <$> translate r.1 (sample_base + 0x2000) 0xFFFFFFC000001004)) =
    Done (0xFFFFFFC000000000, Some 0xFEC01004) /\
  exists s' ow' n p l1 l2, MmioMapDevice 4 sample_paging 1 "io" 0xFEC00000 0x2000 2 = Done (s', 0xFFFFFFC000000000) /\
    paging_wf s' (sample_base + 0x2000) ow' /\ g_VaddrMmioHead s' = 0xFFFFFFC000000000 + 0x2000 /\
    sample_space_l = l1 ++ l2 /\
    space_rep (pgVmm s') 1 (l1 ++ mkRegion p 0xFFFFFFC000000000 (0xFFFFFFC000000000 + 0x2000) (mmio_flags 2) :: l2) /\
    rd_node (pgVmm s') p = Done n /\ Tag n = "io"%string /\ rFlags n = mmio_flags 2 /\
    forall va, let off := va_offset 0xFFFFFFC000000000 va in
      (0x2000 <= off -> translate s' (sample_base + 0x2000) va = translate sample_paging (sample_base + 0x2000) va) /\
      (off < 0x2000 -> exists e, translate s' (sample_base + 0x2000) va = Some (0xFEC00000 + off, e) /\
        leaf_for (pgVmm sample_paging) n (mkSpace 0x2000 sample_n1 sample_n2 2) (0xFEC00000 + off - off mod 4096) e).
Proof.
  split; [vm_compute; reflexivity|].
  apply (mmio_map_device_translates sample_paging (sample_base + 0x2000) {[sample_base + 0x2000 := []]} 1
    (mkSpace 0x2000 sample_n1 sample_n2 2) sample_space_l sample_slots [sample_n1; sample_n2] "io" 0xFEC00000 0x2000 2 4).
  - exact sample_ready.
  - exact sample_device_fits.
  - reflexivity.
  - vm_compute. lia.
  - lia.
  - vm_compute. discriminate.
Defined.
