(* ===== verification/KrtlString.v ===== *)
(** * Number and string formatting of the kernel runtime
    (Kernel/Source/KRTL/Krnlstring.c)

    A string is the byte list its pointer designates, terminator included; a
    destination buffer is a list that a store past its end faults on. *)
From Stdlib Require Import ZArith Lia.
From stdpp Require Import base numbers list.
From S2P Require Import Prelude.
Open Scope Z_scope.

Definition KRTL_RADIX_OCTAL : Z := 8.
Definition KRTL_RADIX_DECIMAL : Z := 10.
Definition KRTL_RADIX_HEXADECIMAL : Z := 16.
Definition KRTL_HEX_LOWERCASE : Z := 0.
Definition KRTL_HEX_UPPERCASE : Z := 1.

Definition s32 (x : Z) : Z := (x + 2 ^ 31) mod 2 ^ 32 - 2 ^ 31.
Definition s64 (x : Z) : Z := (x + 2 ^ 63) mod 2 ^ 64 - 2 ^ 63.

Definition put (buf : list Z) (i : nat) (c : Z) : outcome (list Z) :=
  if decide (i < length buf)%nat then Done (<[i := c]> buf) else Fault.

(** ** Conversions *)

(** [i] and [j] are the offsets of pStr and pStrEnd. *)
Fixpoint reverse_loop (fuel : nat) (buf : list Z) (i j : nat) : outcome (list Z) :=
  match fuel with
  | O => Hang
  | S fuel' =>
      if (i <? j)%nat then
        Temp ← checked (buf !! i);
        e ← checked (buf !! j);
        buf ← put buf i e;
        buf ← put buf j Temp;
        reverse_loop fuel' buf (S i) (j - 1)
      else Done buf
  end.
Definition KrtlReverseString (buf : list Z) (i j : nat) : outcome (list Z) := reverse_loop (S (length buf)) buf i j.

Definition KrtlDigitChar (r HexCasePreference : Z) : Z :=
  u8 (if r <? KRTL_RADIX_DECIMAL then r + 48
      else r - KRTL_RADIX_DECIMAL + (if HexCasePreference =? KRTL_HEX_UPPERCASE then 65 else 97)).

(** The digit loop of both conversions: C's truncating [%] and [/]; the
    unsigned one passes its radix converted to UINTMAX. *)
Fixpoint digit_loop (fuel : nat) (buf : list Z) (i : nat) (Value Radix HexCasePreference : Z) : outcome (list Z * nat) :=
  match fuel with
  | O => Hang
  | S fuel' =>
      if Value =? 0 then Done (buf, i)
      else if Radix =? 0 then Fault
      else
        buf ← put buf i (KrtlDigitChar (u64 (Z.rem Value Radix)) HexCasePreference);
        digit_loop fuel' buf (S i) (Z.quot Value Radix) Radix HexCasePreference
  end.

Definition KrtlSignedToString (pDest : list Z) (Value Radix HexCasePreference : Z) : outcome (list Z) :=
  if Value =? 0 then buf ← put pDest 0 48; put buf 1 0
  else
    let bHasSign := Value <? 0 in
    let Value := if bHasSign then s64 (- Value) else Value in
    '(buf, n) ← digit_loop 65 pDest 0 Value Radix HexCasePreference;
    '(buf, n) ← (if bHasSign then buf ← put buf n 45; Done (buf, S n) else Done (buf, n));
    buf ← put buf n 0;
    KrtlReverseString buf 0 (n - 1).

Definition KrtlUnsignedToString (pDest : list Z) (Value Radix HexCasePreference : Z) : outcome (list Z) :=
  if Value =? 0 then buf ← put pDest 0 48; put buf 1 0
  else
    '(buf, n) ← digit_loop 65 pDest 0 Value (u64 Radix) HexCasePreference;
    buf ← put buf n 0;
    KrtlReverseString buf 0 (n - 1).

(** [while ( *++pIt);]: the search starts at offset 1. *)
Fixpoint size_loop (p : list Z) (n : Z) : outcome Z :=
  match p with
  | [] => Fault
  | c :: p' => if c =? 0 then Done n else size_loop p' (n + 1)
  end.
Definition KrtlStringSize (pString : list Z) : outcome Z :=
  match pString with [] => Fault | _ :: p => size_loop p 1 end.

(** ** Formatted output *)

(** One variadic argument: the 64-bit register or stack slot it occupies, or a
    string pointer. *)
Inductive arg := AWord (w : Z) | AStr (s : option (list Z)).

Definition va_word (args : list arg) : outcome (Z * list arg) :=
  match args with AWord w :: args' => Done (w, args') | _ => Fault end.
Definition va_str (args : list arg) : outcome (option (list Z) * list arg) :=
  match args with AStr s :: args' => Done (s, args') | _ => Fault end.

Definition NullStrStr : list Z := [40; 78; 85; 76; 76; 41; 0].
Definition str_true (up : bool) : list Z := if up then [84; 82; 85; 69] else [116; 114; 117; 101].
Definition str_false (up : bool) : list Z := if up then [70; 65; 76; 83; 69] else [102; 97; 108; 115; 101].

(** The text a number conversion leaves in its local buffer of [n] bytes; the
    buffer's previous contents are never read. *)
Definition number_text (conv : list Z -> outcome (list Z)) (n : nat) : outcome (list Z) :=
  buf ← conv (replicate n 0);
  size ← KrtlStringSize buf;
  Done (take (Z.to_nat size) buf).

(** One conversion: [rest] is the format after the letter [c]. *)
Definition convert (c : Z) (rest : list Z) (up : bool) (out : list Z) (args : list arg)
    : outcome (option (list Z * bool * list Z * list arg)) :=
  if c =? 37 then
    d ← checked (head rest); Done (Some (rest, up, out ++ [d], args))
  else if c =? 99 then
    '(w, args) ← va_word args; Done (Some (rest, up, out ++ [u8 w], args))
  else if (c =? 66) || (c =? 98) then
    let up := if c =? 66 then true else up in
    '(w, args) ← va_word args;
    Done (Some (rest, false, out ++ (if negb (u32 w =? 0) then str_true up else str_false up), args))
  else if c =? 115 then
    '(s, args) ← va_str args;
    match s with
    | Some str => n ← KrtlStringSize str; Done (Some (rest, up, out ++ take (Z.to_nat n) str, args))
    | None => Done (Some (rest, up, out ++ NullStrStr, args))
    end
  else if (c =? 100) || (c =? 105) then
    '(w, args) ← va_word args;
    t ← number_text (fun b => KrtlSignedToString b (s32 w) KRTL_RADIX_DECIMAL 0) 12;
    Done (Some (rest, up, out ++ t, args))
  else if c =? 117 then
    '(w, args) ← va_word args;
    t ← number_text (fun b => KrtlUnsignedToString b (u32 w) KRTL_RADIX_DECIMAL 0) 11;
    Done (Some (rest, up, out ++ t, args))
  else if c =? 111 then
    '(w, args) ← va_word args;
    t ← number_text (fun b => KrtlUnsignedToString b (u32 w) KRTL_RADIX_OCTAL 0) 128;
    Done (Some (rest, up, out ++ t, args))
  else if (c =? 88) || (c =? 120) then
    let up := if c =? 88 then true else up in
    '(w, args) ← va_word args;
    t ← number_text (fun b => KrtlUnsignedToString b (u32 w) KRTL_RADIX_HEXADECIMAL
                                (if up then KRTL_HEX_UPPERCASE else KRTL_HEX_LOWERCASE)) 128;
    Done (Some (rest, false, out ++ t, args))
  else if c =? 112 then
    '(w, args) ← va_word args;
    t ← number_text (fun b => KrtlUnsignedToString b (u64 w) KRTL_RADIX_HEXADECIMAL KRTL_HEX_UPPERCASE) 128;
    Done (Some (rest, up, out ++ [48; 120] ++ t, args))
  else if c =? 82 then
    d ← checked (head rest);
    if d =? 0 then Done None
    else
      let rest := tail rest in
      if d =? 117 then
        '(w, args) ← va_word args;
        t ← number_text (fun b => KrtlUnsignedToString b (u64 w) KRTL_RADIX_DECIMAL 0) 128;
        Done (Some (rest, up, out ++ t, args))
      else if (d =? 88) || (d =? 120) then
        let up := if d =? 88 then true else up in
        '(w, args) ← va_word args;
        t ← number_text (fun b => KrtlUnsignedToString b (u64 w) KRTL_RADIX_HEXADECIMAL
                                    (if up then KRTL_HEX_UPPERCASE else KRTL_HEX_LOWERCASE)) 128;
        Done (Some (rest, false, out ++ t, args))
      else Done None
  else Done None.

(** The main loop: the returned count and the bytes stored at DstBuffer. *)
Fixpoint format_loop (fuel : nat) (Limit : Z) (Format : list Z) (up : bool) (out : list Z) (args : list arg)
    : outcome (Z * list Z) :=
  match fuel with
  | O => Hang
  | S fuel' =>
      match Format with
      | [] => Fault
      | c :: rest =>
          if c =? 0 then Done (s32 (Z.of_nat (length out)), out)
          else if negb (Limit =? -1) && (s32 (Z.of_nat (length out)) >=? Limit)
          then Done (s32 (Z.of_nat (length out)), out)
          else if negb (c =? 37) then format_loop fuel' Limit rest up (out ++ [c]) args
          else
            d ← checked (head rest);
            if d =? 0 then Done (-1, out)
            else
              r ← convert d (tail rest) up out args;
              match r with
              | None => Done (-1, out)
              | Some (rest, up, out, args) => format_loop fuel' Limit rest up out args
              end
      end
  end.

Definition KrtlFormatStringVariadic (Limit : Z) (Format : list Z) (args : list arg) : outcome (Z * list Z) :=
  format_loop (S (length Format)) Limit Format false [] args.
Definition KrtlFormatString (Limit : Z) (Format : list Z) (args : list arg) : outcome (Z * list Z) :=
  KrtlFormatStringVariadic Limit Format args.

(** ** Reading numbers back *)

Definition char_digit (c : Z) : option Z :=
  if (48 <=? c) && (c <=? 57) then Some (c - 48)
  else if (65 <=? c) && (c <=? 70) then Some (c - 55)
  else if (97 <=? c) && (c <=? 102) then Some (c - 87)
  else None.

(** Positional value of a digit string in radix [R], most significant first. *)
Fixpoint parse_from (R acc : Z) (s : list Z) : option Z :=
  match s with
  | [] => Some acc
  | c :: s' => d ← char_digit c; if d <? R then parse_from R (acc * R + d) s' else None
  end.
Definition parse_unsigned (R : Z) (s : list Z) : option Z :=
  match s with [] => None | _ => parse_from R 0 s end.
Definition parse_signed (R : Z) (s : list Z) : option Z :=
  match s with 45 :: s' => v ← parse_unsigned R s'; Some (- v) | _ => parse_unsigned R s end.

Lemma put_ok buf i c : (i < length buf)%nat -> put buf i c = Done (<[i := c]> buf).
Proof. intros H. unfold put. by rewrite decide_True. Qed.

(** ** The digit loop *)

Fixpoint le_digits (fuel : nat) (V R p : Z) : list Z :=
  match fuel with
  | O => []
  | S fuel' => if V =? 0 then [] else KrtlDigitChar (V mod R) p :: le_digits fuel' (V / R) R p
  end.

Lemma char_digit_char d p : 0 <= d < 16 -> char_digit (KrtlDigitChar d p) = Some d.
Proof.
  intros Hd. unfold KrtlDigitChar, KRTL_RADIX_DECIMAL.
  assert (d = 0 \/ d = 1 \/ d = 2 \/ d = 3 \/ d = 4 \/ d = 5 \/ d = 6 \/ d = 7 \/ d = 8 \/ d = 9 \/ d = 10 \/
          d = 11 \/ d = 12 \/ d = 13 \/ d = 14 \/ d = 15) as H by lia.
  destruct (p =? KRTL_HEX_UPPERCASE); repeat (destruct H as [->|H]; [done|]); by subst d.
Qed.

Lemma digit_char_nonzero d p : 0 <= d < 16 -> KrtlDigitChar d p <> 0 /\ KrtlDigitChar d p <> 45.
Proof. intros Hd. pose proof (char_digit_char d p Hd) as H. split; intros E; by rewrite E in H. Qed.

Lemma parse_from_snoc R acc s c d :
  char_digit c = Some d -> 0 <= d < R -> parse_from R acc (s ++ [c]) = v ← parse_from R acc s; Some (v * R + d).
Proof.
  intros Hc Hd. revert acc. induction s as [|x s IH]; intros acc; cbn [app parse_from].
  - rewrite Hc. cbn. by destruct (Z.ltb_spec d R); [|lia].
  - destruct (char_digit x); [|done]. cbn. destruct (z <? R); [|done]. apply IH.
Qed.

Section Digits.
Context (R p : Z) (HR : 2 <= R <= 16).

Lemma le_digits_spec fuel V :
  0 <= V < R ^ Z.of_nat fuel ->
  parse_from R 0 (rev (le_digits fuel V R p)) = Some V /\
  Forall (fun c => c <> 0 /\ c <> 45) (le_digits fuel V R p) /\
  (le_digits fuel V R p = [] <-> V = 0).
Proof using HR.
  revert V. induction fuel as [|fuel IH]; intros V HV.
  { change (R ^ Z.of_nat 0) with 1 in HV. assert (V = 0) as -> by lia. done. }
  cbn [le_digits]. destruct (Z.eqb_spec V 0) as [->|Hne]; [done|].
  rewrite Nat2Z.inj_succ, Z.pow_succ_r in HV by lia.
  assert (0 <= V mod R < R) as Hm by (apply Z.mod_pos_bound; lia).
  destruct (IH (V / R)) as (H1 & H2 & H3).
  { split; [apply Z.div_pos; lia|]. apply Z.div_lt_upper_bound; lia. }
  cbn [rev]. split_and!; [|constructor; [apply digit_char_nonzero; lia|done]|done].
  rewrite (parse_from_snoc R 0 _ _ (V mod R)), H1; [|apply char_digit_char; lia|lia]. cbn. f_equal.
  pose proof (Z.div_mod V R). lia.
Qed.

(** A value below [R ^ k] has at most [k] digits. *)
Lemma le_digits_length fuel V k :
  0 <= V < R ^ Z.of_nat k -> (length (le_digits fuel V R p) <= k)%nat.
Proof using HR.
  revert V k. induction fuel as [|fuel IH]; intros V k HV; [simpl; lia|]. cbn [le_digits].
  destruct (Z.eqb_spec V 0); [simpl; lia|]. destruct k as [|k]; [change (R ^ Z.of_nat 0) with 1 in HV; lia|].
  rewrite Nat2Z.inj_succ, Z.pow_succ_r in HV by lia. cbn [length].
  specialize (IH (V / R) k). enough (length (le_digits fuel (V / R) R p) <= k)%nat by lia. apply IH.
  split; [apply Z.div_pos; lia|]. apply Z.div_lt_upper_bound; lia.
Qed.

Lemma digit_loop_spec fuel V : forall pre post,
  0 <= V < R ^ Z.of_nat fuel -> V < 2 ^ 64 -> (length (le_digits fuel V R p) <= length post)%nat ->
  digit_loop (S fuel) (pre ++ post) (length pre) V R p =
    Done (pre ++ le_digits fuel V R p ++ drop (length (le_digits fuel V R p)) post,
          (length pre + length (le_digits fuel V R p))%nat).
Proof using HR.
  revert V. induction fuel as [|fuel IH]; intros V pre post HV H64 Hl.
  { change (R ^ Z.of_nat 0) with 1 in HV. assert (V = 0) as -> by lia. cbn. by rewrite Nat.add_0_r. }
  rewrite Nat2Z.inj_succ, Z.pow_succ_r in HV by lia.
  cbn [le_digits] in *. change (digit_loop (S (S fuel)) (pre ++ post) (length pre) V R p) with
    (if V =? 0 then Done (pre ++ post, length pre) else if R =? 0 then Fault else
     buf ← put (pre ++ post) (length pre) (KrtlDigitChar (u64 (Z.rem V R)) p);
     digit_loop (S fuel) buf (S (length pre)) (Z.quot V R) R p).
  destruct (Z.eqb_spec V 0) as [->|Hne]; [cbn; by rewrite Nat.add_0_r|].
  destruct (Z.eqb_spec R 0); [lia|].
  assert (0 <= V mod R < R) as Hm by (apply Z.mod_pos_bound; lia).
  rewrite Z.rem_mod_nonneg, Z.quot_div_nonneg by lia. rewrite (u64_small (V mod R)) by lia.
  set (c := KrtlDigitChar (V mod R) p) in *. cbn [length] in Hl. destruct post as [|x post]; [simpl in Hl; lia|].
  rewrite put_ok, bind_Done by (rewrite !length_app; simpl; lia).
  assert (<[length pre:=c]> (pre ++ x :: post) = (pre ++ [c]) ++ post) as ->.
  { rewrite insert_app_r_alt, Nat.sub_diag by lia. by rewrite <- app_assoc. }
  specialize (IH (V / R) (pre ++ [c]) post). rewrite length_app in IH. cbn [length] in IH, Hl.
  rewrite Nat.add_1_r in IH. rewrite IH.
  - f_equal. f_equal; [by rewrite <- !app_assoc|simpl; lia].
  - split; [apply Z.div_pos; lia|]. apply Z.div_lt_upper_bound; lia.
  - enough (V / R <= V) by lia. apply Z.div_le_upper_bound; nia.
  - lia.
Qed.
End Digits.

(** ** Reversal *)

Lemma reverse_done fuel b i j : (j <= i)%nat -> reverse_loop (S fuel) b i j = Done b.
Proof. intros H. cbn [reverse_loop]. by destruct (Nat.ltb_spec i j); [lia|]. Qed.

Lemma reverse_loop_spec fuel : forall pre mid post,
  (length mid <= 2 * fuel)%nat ->
  reverse_loop (S fuel) (pre ++ mid ++ post) (length pre) (length pre + length mid - 1) = Done (pre ++ rev mid ++ post).
Proof.
  induction fuel as [|fuel IH]; intros pre mid post Hl.
  { destruct mid; [|simpl in Hl; lia]. rewrite reverse_done by (simpl; lia). done. }
  change (reverse_loop (S (S fuel)) ?b ?i ?j) with
    (if (i <? j)%nat then Temp ← checked (b !! i); e ← checked (b !! j); buf ← put b i e; buf ← put buf j Temp;
       reverse_loop (S fuel) buf (S i) (j - 1) else Done b).
  destruct mid as [|a mid].
  { destruct (Nat.ltb_spec (length pre) (length pre + length (@nil Z) - 1)); [simpl in *; lia|done]. }
  destruct mid as [|b mid _] using rev_ind.
  { destruct (Nat.ltb_spec (length pre) (length pre + length (a :: []) - 1)); [simpl in *; lia|done]. }
  cbn [length] in *. rewrite length_app in *. cbn [length] in *.
  destruct (Nat.ltb_spec (length pre) (length pre + S (length mid + 1) - 1)); [|lia].
  set (l := pre ++ (a :: mid ++ [b]) ++ post).
  assert (l = (pre ++ a :: mid) ++ b :: post) as El.
  { unfold l. rewrite <- !app_assoc. cbn [app]. by rewrite <- !app_assoc. }
  assert (l !! length pre = Some a) as -> by (unfold l; by rewrite lookup_app_r, Nat.sub_diag by lia).
  assert (forall y, ((pre ++ y :: mid) ++ b :: post) !! (length pre + S (length mid + 1) - 1)%nat = Some b) as Hb.
  { intros y. rewrite lookup_app_r; rewrite length_app; cbn [length]; [|lia].
    by replace (length pre + S (length mid + 1) - 1 - (length pre + S (length mid)))%nat with 0%nat by lia. }
  rewrite El, Hb. cbn [checked]. rewrite !bind_Done. 
  rewrite put_ok, bind_Done by (rewrite !length_app; simpl; lia).
  assert (<[length pre:=b]> ((pre ++ a :: mid) ++ b :: post) = (pre ++ b :: mid) ++ b :: post) as ->.
  { rewrite <- !app_assoc. rewrite insert_app_r_alt, Nat.sub_diag by lia. done. }
  rewrite put_ok, bind_Done by (rewrite !length_app; simpl; lia).
  assert (<[(length pre + S (length mid + 1) - 1)%nat:=a]> ((pre ++ b :: mid) ++ b :: post) =
          (pre ++ [b]) ++ mid ++ a :: post) as ->.
  { rewrite insert_app_r_alt; rewrite length_app; cbn [length]; [|lia].
    replace (length pre + S (length mid + 1) - 1 - (length pre + S (length mid)))%nat with 0%nat by lia.
    cbn. by rewrite <- !app_assoc. }
  specialize (IH (pre ++ [b]) mid (a :: post)). rewrite length_app in IH. cbn [length] in IH.
  replace (length pre + S (length mid + 1) - 1 - 1)%nat with (length pre + 1 + length mid - 1)%nat by lia.
  rewrite Nat.add_1_r in IH. rewrite Nat.add_1_r, IH by lia. f_equal.
  cbn [rev]. rewrite rev_app_distr. cbn. by rewrite <- !app_assoc.
Qed.

(** ** The conversions as text *)

Definition unsigned_text (V R p : Z) : list Z := if V =? 0 then [48] else rev (le_digits 64 V R p).
Definition signed_text (V R p : Z) : list Z :=
  if V <? 0 then 45 :: unsigned_text (- V) R p else unsigned_text V R p.

Lemma pow_radix_64 R V : 2 <= R -> 0 <= V < 2 ^ 64 -> 0 <= V < R ^ Z.of_nat 64.
Proof. intros HR HV. change (Z.of_nat 64) with 64. pose proof (Z.pow_le_mono_l 2 R 64). lia. Qed.

Lemma unsigned_text_spec V R p :
  0 <= V < 2 ^ 64 -> 2 <= R <= 16 ->
  parse_unsigned R (unsigned_text V R p) = Some V /\
  Forall (fun c => c <> 0 /\ c <> 45) (unsigned_text V R p) /\ unsigned_text V R p <> [].
Proof.
  intros HV HR. unfold unsigned_text. destruct (Z.eqb_spec V 0) as [->|Hne].
  - split_and!; [|repeat constructor; done|done].
    change (parse_unsigned R [48]) with (if 0 <? R then Some (0 * R + 0) else None). by destruct (Z.ltb_spec 0 R); [|lia].
  - destruct (le_digits_spec R p HR 64 V) as (H1 & H2 & H3); [by apply pow_radix_64; lia|].
    assert (rev (le_digits 64 V R p) <> []) as Hr.
    { intros E. apply Hne, H3. rewrite <- (rev_involutive (le_digits 64 V R p)), E. done. }
    split_and!; [|by apply Forall_rev|done]. unfold parse_unsigned. by destruct (rev _).
Qed.

Lemma unsigned_text_length V R p k :
  2 <= R <= 16 -> (1 <= k)%nat -> 0 <= V < R ^ Z.of_nat k -> (length (unsigned_text V R p) <= k)%nat.
Proof.
  intros HR Hk HV. unfold unsigned_text. destruct (V =? 0); [simpl; lia|]. rewrite length_rev.
  by apply le_digits_length.
Qed.

Lemma signed_text_spec V R p :
  - 2 ^ 63 < V < 2 ^ 63 -> 2 <= R <= 16 ->
  parse_signed R (signed_text V R p) = Some V /\ Forall (fun c => c <> 0) (signed_text V R p) /\ signed_text V R p <> [].
Proof.
  intros HV HR. unfold signed_text. destruct (Z.ltb_spec V 0).
  - destruct (unsigned_text_spec (- V) R p) as (H1 & H2 & H3); [lia|done|]. cbn [parse_signed]. rewrite H1. cbn.
    split_and!; [f_equal; lia| |done]. constructor; [done|]. eapply Forall_impl; [exact H2|]. tauto.
  - destruct (unsigned_text_spec V R p) as (H1 & H2 & H3); [lia|done|]. split_and!; [| |done].
    + destruct (unsigned_text V R p) as [|c t]; [done|]. inversion H2; subst. rewrite <- H1.
      unfold parse_signed. repeat (case_match; try done); lia.
    + eapply Forall_impl; [exact H2|]. tauto.
Qed.

Lemma reverse_all t post :
  t <> [] -> KrtlReverseString (t ++ post) 0 (length t - 1) = Done (rev t ++ post).
Proof.
  intros Ht. unfold KrtlReverseString. apply (reverse_loop_spec _ [] t post). rewrite length_app. lia.
Qed.

Lemma put_at t x post c : put (t ++ x :: post) (length t) c = Done (t ++ c :: post).
Proof.
  rewrite put_ok by (rewrite length_app; simpl; lia). by rewrite insert_app_r_alt, Nat.sub_diag by lia.
Qed.

(** The text and its terminator at the front of the buffer, the rest unchanged. *)
Definition stored (t buf : list Z) : list Z := t ++ 0 :: drop (S (length t)) buf.

Lemma zero_text buf : (2 <= length buf)%nat -> (buf' ← put buf 0 48; put buf' 1 0) = Done (stored [48] buf).
Proof. intros H. by destruct buf as [|a [|b buf]]; [simpl in H; lia..|]. Qed.

Lemma split_buf (buf : list Z) n : (n < length buf)%nat -> exists x, drop n buf = x :: drop (S n) buf.
Proof.
  intros H. destruct (buf !! n) as [x|] eqn:E; [|apply lookup_ge_None in E; lia]. exists x. by rewrite (drop_S _ x).
Qed.

Lemma unsigned_to_string_spec buf V R p :
  0 <= V < 2 ^ 64 -> 2 <= R <= 16 -> (length (unsigned_text V R p) < length buf)%nat ->
  KrtlUnsignedToString buf V R p = Done (stored (unsigned_text V R p) buf).
Proof.
  intros HV HR Hl. unfold KrtlUnsignedToString. destruct (Z.eqb_spec V 0) as [->|Hne]; [by apply zero_text|].
  rewrite u64_small by lia.
  pose proof (unsigned_text_spec V R p HV HR) as (_ & _ & Hnil). unfold unsigned_text in *.
  rewrite (proj2 (Z.eqb_neq V 0)) in * by done. rewrite length_rev in Hl.
  pose proof (digit_loop_spec R p HR 64 V [] buf ltac:(by apply pow_radix_64; lia) ltac:(lia) ltac:(lia)) as E.
  cbn [app length] in E. rewrite Nat.add_0_l in E. rewrite E, bind_Done.
  set (t := le_digits 64 V R p) in *. destruct (split_buf buf (length t)) as [x Ex]; [lia|]. rewrite Ex, put_at, bind_Done.
  rewrite reverse_all by (intros ->; done). unfold stored. by rewrite length_rev.
Qed.

Lemma signed_to_string_spec buf V R p :
  - 2 ^ 63 < V < 2 ^ 63 -> 2 <= R <= 16 -> (length (signed_text V R p) < length buf)%nat ->
  KrtlSignedToString buf V R p = Done (stored (signed_text V R p) buf).
Proof.
  intros HV HR Hl. unfold KrtlSignedToString. destruct (Z.eqb_spec V 0) as [->|Hne]; [by apply zero_text|].
  unfold signed_text in *. destruct (Z.ltb_spec V 0) as [Hneg|Hpos].
  - assert (s64 (- V) = - V) as -> by (unfold s64; rewrite Z.mod_small; lia).
    pose proof (unsigned_text_spec (- V) R p ltac:(lia) HR) as (_ & _ & Hnil). unfold unsigned_text in *.
    rewrite (proj2 (Z.eqb_neq (- V) 0)) in * by lia. cbn [length] in Hl. rewrite length_rev in Hl.
    pose proof (digit_loop_spec R p HR 64 (- V) [] buf ltac:(apply pow_radix_64; lia) ltac:(lia) ltac:(lia)) as E.
    cbn [app length] in E. rewrite Nat.add_0_l in E. rewrite E, bind_Done.
    set (t := le_digits 64 (- V) R p) in *.
    destruct (split_buf buf (length t)) as [x Ex]; [lia|]. destruct (split_buf buf (S (length t))) as [y Ey]; [lia|].
    rewrite Ex, put_at, !bind_Done, Ey.
    pose proof (put_at (t ++ [45]) y (drop (S (S (length t))) buf) 0) as P.
    rewrite <- !app_assoc, length_app, Nat.add_1_r in P. cbn [app] in P. rewrite P, bind_Done.
    pose proof (reverse_all (t ++ [45]) (0 :: drop (S (S (length t))) buf) ltac:(by destruct t)) as Q.
    rewrite length_app, Nat.add_1_r, <- app_assoc, rev_app_distr in Q. cbn [app] in Q. rewrite Q.
    unfold stored. cbn [rev app length]. by rewrite length_rev.
  - pose proof (unsigned_text_spec V R p ltac:(lia) HR) as (_ & _ & Hnil). unfold unsigned_text in *.
    rewrite (proj2 (Z.eqb_neq V 0)) in * by done. rewrite length_rev in Hl.
    pose proof (digit_loop_spec R p HR 64 V [] buf ltac:(apply pow_radix_64; lia) ltac:(lia) ltac:(lia)) as E.
    cbn [app length] in E. rewrite Nat.add_0_l in E. rewrite E, !bind_Done.
    set (t := le_digits 64 V R p) in *. destruct (split_buf buf (length t)) as [x Ex]; [lia|].
    rewrite Ex, put_at, bind_Done. rewrite reverse_all by (intros ->; done). unfold stored. by rewrite length_rev.
Qed.

(** ** Format strings as directives *)

Inductive directive :=
  | DLit (c : Z)                       (* an ordinary character *)
  | DChar (w : Z)                      (* %c *)
  | DBool (up : bool) (w : Z)          (* %B, %b *)
  | DStr (s junk : list Z)             (* %s, non-null *)
  | DNullStr                           (* %s, null *)
  | DInt (letter_i : bool) (w : Z)     (* %d, %i *)
  | DUInt (w : Z)                      (* %u *)
  | DOct (w : Z)                       (* %o *)
  | DHex (up : bool) (w : Z)           (* %X, %x *)
  | DPtr (w : Z)                       (* %p *)
  | DQuad (w : Z)                      (* %Ru *)
  | DQuadHex (up : bool) (w : Z).      (* %RX, %Rx *)

Definition directive_ok (d : directive) : Prop :=
  match d with
  | DLit c => c <> 0 /\ c <> 37
  | DStr s _ => s <> [] /\ Forall (fun c => c <> 0) s
  | _ => True
  end.

Definition format_of (d : directive) : list Z :=
  match d with
  | DLit c => [c]
  | DChar _ => [37; 99]
  | DBool up _ => [37; if up then 66 else 98]
  | DStr _ _ | DNullStr => [37; 115]
  | DInt i _ => [37; if i : bool then 105 else 100]
  | DUInt _ => [37; 117]
  | DOct _ => [37; 111]
  | DHex up _ => [37; if up then 88 else 120]
  | DPtr _ => [37; 112]
  | DQuad _ => [37; 82; 117]
  | DQuadHex up _ => [37; 82; if up then 88 else 120]
  end.

Definition args_of (d : directive) : list arg :=
  match d with
  | DLit _ => []
  | DStr s junk => [AStr (Some (s ++ 0 :: junk))]
  | DNullStr => [AStr None]
  | DChar w | DBool _ w | DInt _ w | DUInt w | DOct w | DHex _ w | DPtr w | DQuad w | DQuadHex _ w => [AWord w]
  end.

(** What a directive is documented to print; the null string also prints its
    own terminator. *)
Definition render (d : directive) : list Z :=
  match d with
  | DLit c => [c]
  | DChar w => [u8 w]
  | DBool up w => if negb (u32 w =? 0) then str_true up else str_false up
  | DStr s _ => s
  | DNullStr => NullStrStr
  | DInt _ w => signed_text (s32 w) 10 0
  | DUInt w => unsigned_text (u32 w) 10 0
  | DOct w => unsigned_text (u32 w) 8 0
  | DHex up w => unsigned_text (u32 w) 16 (if up then 1 else 0)
  | DPtr w => [48; 120] ++ unsigned_text (u64 w) 16 1
  | DQuad w => unsigned_text (u64 w) 10 0
  | DQuadHex up w => unsigned_text (u64 w) 16 (if up then 1 else 0)
  end.

Lemma size_loop_spec s junk n :
  Forall (fun c => c <> 0) s -> size_loop (s ++ 0 :: junk) n = Done (n + Z.of_nat (length s)).
Proof.
  intros Hs. revert n. induction Hs as [|c s Hc Hs IH]; intros n; cbn [app size_loop length].
  - rewrite Z.eqb_refl. f_equal. lia.
  - destruct (Z.eqb_spec c 0); [done|]. rewrite IH. f_equal. lia.
Qed.
Lemma string_size_spec s junk :
  Forall (fun c => c <> 0) s -> s <> [] -> KrtlStringSize (s ++ 0 :: junk) = Done (Z.of_nat (length s)).
Proof.
  intros Hs Hne. destruct Hs as [|c s Hc Hs]; [done|]. cbn [app KrtlStringSize]. rewrite size_loop_spec by done.
  f_equal. simpl. lia.
Qed.

Lemma number_text_spec conv n t :
  conv (replicate n 0) = Done (stored t (replicate n 0)) -> Forall (fun c => c <> 0) t -> t <> [] ->
  number_text conv n = Done t.
Proof.
  intros E Ht Hne. unfold number_text. rewrite E, bind_Done. unfold stored.
  rewrite string_size_spec, bind_Done by done. by rewrite Nat2Z.id, take_app_length.
Qed.

Lemma unsigned_number_text n V R p k :
  0 <= V < 2 ^ 64 -> 2 <= R <= 16 -> (1 <= k < n)%nat -> V < R ^ Z.of_nat k ->
  number_text (fun b => KrtlUnsignedToString b V R p) n = Done (unsigned_text V R p).
Proof.
  intros HV HR Hk Hp. destruct (unsigned_text_spec V R p HV HR) as (_ & H2 & H3).
  pose proof (unsigned_text_length V R p k HR ltac:(lia) ltac:(lia)).
  apply number_text_spec; [|eapply Forall_impl; [exact H2|tauto]|done].
  apply unsigned_to_string_spec; [done|done|]. rewrite length_replicate. lia.
Qed.

Lemma signed_text_length V R p k :
  2 <= R <= 16 -> (1 <= k)%nat -> Z.abs V < R ^ Z.of_nat k -> (length (signed_text V R p) <= S k)%nat.
Proof.
  intros HR Hk HV. unfold signed_text. destruct (Z.ltb_spec V 0); cbn [length].
  - apply le_n_S, unsigned_text_length; [done|done|lia].
  - pose proof (unsigned_text_length V R p k HR Hk ltac:(lia)). lia.
Qed.

Lemma s32_range w : - 2 ^ 31 <= s32 w < 2 ^ 31.
Proof. unfold s32. pose proof (Z.mod_pos_bound (w + 2 ^ 31) (2 ^ 32)). lia. Qed.

(** INT decimals fit the local buffer of 12 bytes. *)
Lemma signed_number_text w :
  number_text (fun b => KrtlSignedToString b (s32 w) 10 0) 12 = Done (signed_text (s32 w) 10 0).
Proof.
  pose proof (s32_range w). destruct (signed_text_spec (s32 w) 10 0) as (_ & H2 & H3); [lia|lia|].
  apply number_text_spec; [|done|done]. apply signed_to_string_spec; [lia|lia|].
  pose proof (signed_text_length (s32 w) 10 0 10 ltac:(lia) ltac:(lia) ltac:(simpl; lia)). rewrite length_replicate. lia.
Qed.

Lemma u32_text n R p w k : 2 <= R <= 16 -> (1 <= k < n)%nat -> 2 ^ 32 <= R ^ Z.of_nat k ->
  number_text (fun b => KrtlUnsignedToString b (u32 w) R p) n = Done (unsigned_text (u32 w) R p).
Proof. intros HR Hk H. pose proof (u32_range w). apply (unsigned_number_text n _ R p k); lia. Qed.
Lemma u64_text n R p w k : 2 <= R <= 16 -> (1 <= k < n)%nat -> 2 ^ 64 <= R ^ Z.of_nat k ->
  number_text (fun b => KrtlUnsignedToString b (u64 w) R p) n = Done (unsigned_text (u64 w) R p).
Proof. intros HR Hk H. pose proof (u64_range w). apply (unsigned_number_text n _ R p k); lia. Qed.

(** The conversion of every directive but a literal. *)
Lemma convert_render d rest out args :
  directive_ok d -> (forall c, d <> DLit c) ->
  exists c more, format_of d = 37 :: c :: more /\ c <> 0 /\
    convert c (more ++ rest) false out (args_of d ++ args) = Done (Some (rest, false, out ++ render d, args)).
Proof.
  intros Hok Hn. destruct d; cbn [format_of args_of render]; try (by exfalso; eapply Hn);
    try destruct up; try destruct letter_i;
    eexists _, _; (split; [reflexivity|]; split; [done|]);
    unfold convert, va_word, va_str, KRTL_RADIX_DECIMAL, KRTL_RADIX_OCTAL, KRTL_RADIX_HEXADECIMAL,
      KRTL_HEX_UPPERCASE, KRTL_HEX_LOWERCASE; cbn [app Z.eqb Pos.eqb orb head tail checked];
    rewrite ?bind_Done; cbn [Z.eqb Pos.eqb orb]; rewrite ?bind_Done; try done.
  - destruct Hok as [H1 H2]. rewrite string_size_spec, bind_Done by done. by rewrite Nat2Z.id, take_app_length.
  - by rewrite signed_number_text, bind_Done.
  - by rewrite signed_number_text, bind_Done.
  - by rewrite (u32_text 11 10 0 w 10), bind_Done by (simpl; lia).
  - by rewrite (u32_text 128 8 0 w 11), bind_Done by (simpl; lia).
  - by rewrite (u32_text 128 16 1 w 8), bind_Done by (simpl; lia).
  - by rewrite (u32_text 128 16 0 w 8), bind_Done by (simpl; lia).
  - by rewrite (u64_text 128 16 1 w 16), bind_Done by (simpl; lia).
  - by rewrite (u64_text 128 10 0 w 20), bind_Done by (simpl; lia).
  - by rewrite (u64_text 128 16 1 w 16), bind_Done by (simpl; lia).
  - by rewrite (u64_text 128 16 0 w 16), bind_Done by (simpl; lia).
Qed.

(** ** Properties *)

Definition format_text (ds : list directive) : list Z := ds ≫= format_of.
Definition format_args (ds : list directive) : list arg := ds ≫= args_of.
Definition rendered (ds : list directive) : list Z := ds ≫= render.

Lemma le_digits_nonempty n V R p : V <> 0 -> (0 < length (le_digits (S n) V R p))%nat.
Proof. intros H. cbn [le_digits]. rewrite (proj2 (Z.eqb_neq V 0)) by done. simpl. lia. Qed.

Lemma render_nonempty d : directive_ok d -> (0 < length (render d))%nat.
Proof.
  assert (forall V R p, (0 < length (unsigned_text V R p))%nat) as Hu.
  { intros V R p. unfold unsigned_text. destruct (Z.eqb_spec V 0); [simpl; lia|]. rewrite length_rev.
    by apply le_digits_nonempty. }
  intros Hok. destruct d; cbn [render directive_ok length app] in *; try lia; try apply Hu.
  - destruct (negb _), up; simpl; lia.
  - destruct Hok as [? _]. destruct s; [done|simpl; lia].
  - simpl. lia.
  - unfold signed_text. destruct (_ <? 0); [simpl; lia|apply Hu].
Qed.

Lemma format_loop_render ds : forall fuel Limit junk out args,
  Forall directive_ok ds -> (length (format_text ds) < fuel)%nat ->
  Z.of_nat (length out + length (rendered ds)) < 2 ^ 31 ->
  (Limit = -1 \/ Z.of_nat (length out + length (rendered ds)) <= Limit) ->
  format_loop fuel Limit (format_text ds ++ 0 :: junk) false out (format_args ds ++ args) =
    Done (Z.of_nat (length (out ++ rendered ds)), out ++ rendered ds).
Proof.
  induction ds as [|d ds IH]; intros fuel Limit junk out args Hok Hf Hsz Hlim; (destruct fuel as [|fuel]; [lia|]).
  { cbn in Hsz. cbn. rewrite app_nil_r. f_equal. f_equal. unfold s32. rewrite Z.mod_small; lia. }
  inversion Hok as [|? ? Hd Hds]; subst. pose proof (render_nonempty d Hd) as Hr.
  unfold format_text, format_args, rendered in *. cbn [mbind list_bind] in *. rewrite <- !app_assoc.
  rewrite !length_app in Hf, Hsz, Hlim.
  assert (s32 (Z.of_nat (length out)) = Z.of_nat (length out)) as Hs by (unfold s32; rewrite Z.mod_small; lia).
  assert (negb (Limit =? -1) && (s32 (Z.of_nat (length out)) >=? Limit) = false) as Hl.
  { rewrite Hs. apply andb_false_iff. destruct Hlim as [->|Hlim]; [by left|]. right. rewrite Z.geb_leb.
    apply Z.leb_gt. lia. }
  assert ((exists c, d = DLit c) \/ ~ exists c, d = DLit c) as [[c ->]|Hn].
  { destruct d; [by left; eauto|right; by intros [? ?]..]. }
  - destruct Hd as [Hc1 Hc2]. cbn [format_of args_of render app format_loop].
    rewrite (proj2 (Z.eqb_neq c 0)), (proj2 (Z.eqb_neq c 37)), Hl by done. cbn [negb].
    rewrite IH; [|done|cbn in Hf; lia|rewrite length_app; cbn in *; lia|rewrite length_app; cbn in *; lia].
    by rewrite <- !app_assoc.
  - destruct (convert_render d ((ds ≫= format_of) ++ 0 :: junk) out ((ds ≫= args_of) ++ args) Hd) as (c & more & Ef & Hc & Ec).
    { intros c ->. apply Hn. eauto. }
    rewrite Ef in *. cbn [app format_loop length] in *. rewrite Hl. cbn [Z.eqb Pos.eqb negb head checked tail].
    rewrite bind_Done, (proj2 (Z.eqb_neq c 0)), Ec, bind_Done by done.
    rewrite IH; [|done|lia|rewrite length_app; lia|rewrite length_app; lia]. by rewrite <- !app_assoc.
Qed.

(** KrtlUnsignedToString stores a nonempty digit string whose positional
    value is the argument, and its terminator, inside any buffer longer than a digit count
    [k] that bounds the value; the rest of the buffer keeps its contents. *)
Theorem unsigned_to_string_roundtrip buf V R p k :
  0 <= V < 2 ^ 64 -> 2 <= R <= 16 -> (1 <= k < length buf)%nat -> V < R ^ Z.of_nat k ->
  exists t, KrtlUnsignedToString buf V R p = Done (stored t buf) /\ parse_unsigned R t = Some V /\
    Forall (fun c => c <> 0) t /\ (length t <= k)%nat.
Proof.
  intros HV HR Hk Hp. exists (unsigned_text V R p). destruct (unsigned_text_spec V R p HV HR) as (H1 & H2 & _).
  pose proof (unsigned_text_length V R p k HR ltac:(lia) ltac:(lia)).
  split_and!; [apply unsigned_to_string_spec; done || lia|done| |done]. eapply Forall_impl; [exact H2|tauto].
Qed.

Example unsigned_to_string_roundtrip_witness :
  exists t, KrtlUnsignedToString (replicate 4 7) 0xB5 16 1 = Done (stored t (replicate 4 7)) /\
    parse_unsigned 16 t = Some 0xB5 /\ Forall (fun c => c <> 0) t /\ (length t <= 2)%nat.
Proof. apply (unsigned_to_string_roundtrip (replicate 4 7) 0xB5 16 1 2); simpl; lia. Defined.

(** the same for KrtlSignedToString, with the sign, for every value but
    the most negative one. *)
Theorem signed_to_string_roundtrip buf V R p k :
  - 2 ^ 63 < V < 2 ^ 63 -> 2 <= R <= 16 -> (1 <= k)%nat -> (S k < length buf)%nat -> Z.abs V < R ^ Z.of_nat k ->
  exists t, KrtlSignedToString buf V R p = Done (stored t buf) /\ parse_signed R t = Some V /\
    Forall (fun c => c <> 0) t /\ (length t <= S k)%nat.
Proof.
  intros HV HR Hk Hb Hp. exists (signed_text V R p). destruct (signed_text_spec V R p HV HR) as (H1 & H2 & _).
  pose proof (signed_text_length V R p k HR Hk Hp). split_and!; [apply signed_to_string_spec; done || lia|done..].
Qed.

Example signed_to_string_roundtrip_witness :
  KrtlSignedToString (replicate 6 7) (-305) 10 0 = Done [45; 51; 48; 53; 0; 7] /\
  exists t, KrtlSignedToString (replicate 6 7) (-305) 10 0 = Done (stored t (replicate 6 7)) /\
    parse_signed 10 t = Some (-305) /\ Forall (fun c => c <> 0) t /\ (length t <= 4)%nat.
Proof. split; [reflexivity|]. apply (signed_to_string_roundtrip (replicate 6 7) (-305) 10 0 3); simpl; lia. Defined.

(** Formatting a format string made of ordinary characters and the
    supported conversions, with arguments of the matching types and a limit
    the whole text respects, stores exactly the concatenation of the rendered
    directives and returns its length; the local digit buffers never overflow. *)
Theorem format_string_renders ds Limit junk args :
  Forall directive_ok ds -> Z.of_nat (length (rendered ds)) < 2 ^ 31 ->
  (Limit = -1 \/ Z.of_nat (length (rendered ds)) <= Limit) ->
  KrtlFormatString Limit (format_text ds ++ 0 :: junk) (format_args ds ++ args) =
    Done (Z.of_nat (length (rendered ds)), rendered ds).
Proof.
  intros Hok Hsz Hlim. apply (format_loop_render ds _ Limit junk []); try done. rewrite length_app. lia.
Qed.

Definition sample_directives : list directive :=
  [DLit 110; DLit 61; DInt false (-7); DLit 32; DHex true 0xBEEF; DLit 32; DStr [111; 107] []; DBool false 1].
Example format_string_renders_witness :
  KrtlFormatString (-1) (format_text sample_directives ++ [0]) (format_args sample_directives ++ []) =
    Done (16, [110; 61; 45; 55; 32; 66; 69; 69; 70; 32; 111; 107; 116; 114; 117; 101]) /\
  KrtlFormatString (-1) (format_text sample_directives ++ [0]) (format_args sample_directives ++ []) =
    Done (Z.of_nat (length (rendered sample_directives)), rendered sample_directives).
Proof.
  split; [vm_compute; reflexivity|].
  apply (format_string_renders sample_directives (-1) [] []); [|vm_compute; reflexivity|by left].
  repeat constructor; done.
Defined.

(** ** Divergences *)

(** [%%] stores the character after it, here the terminator. *)
Example percent_percent : KrtlFormatString (-1) [97; 37; 37; 0] [] = Done (2, [97; 0]).
Proof. reflexivity. Qed.
(** The size of the empty string is read past its terminator. *)
Example string_size_empty : KrtlStringSize [0; 98; 99; 0] = Done 3.
Proof. reflexivity. Qed.
(** A limit of 3 is overshot by a conversion. *)
Example limit_overshoot : KrtlFormatString 3 [97; 37; 117; 0] [AWord 123456] = Done (7, [97; 49; 50; 51; 52; 53; 54]).
Proof. reflexivity. Qed.
(** The most negative value, whose negation wraps, is printed with garbage digits. *)
Example signed_minimum : KrtlSignedToString (replicate 24 7) (- 2 ^ 63) 10 0 <> KrtlUnsignedToString (replicate 24 7) (2 ^ 63) 10 0.
Proof. vm_compute. discriminate. Qed.
