(* ===== verification/Keycodes.v ===== *)
(** * Key codes and PS/2 scan codes (Kernel/Include/HumanInterface/Keycodes.h,
    Kernel/Source/HumanInterface/Keycodes.c, Kernel/Source/Devdriv/Keyboard/PS2Scancodes.h)

    The constants, the two translation tables and the two switch statements of
    the sources, in their order. *)
From Stdlib Require Import ZArith Lia String.
From stdpp Require Import base numbers list.
From S2P Require Import Prelude.
Open Scope Z_scope.

(** ** Key codes *)

Definition KM_CTRL : Z := 1.
Definition KM_ALT : Z := 2.
Definition KM_SHIFT : Z := 4.
Definition KS_RELEASED : Z := 0.
Definition KS_PRESSED : Z := 1.
Definition KC_INVALID : Z := 0x00.
Definition KC_BACKSPACE : Z := 0x08.
Definition KC_TAB : Z := 0x09.
Definition KC_ENTER : Z := 0x0A.
Definition KC_CAPS_LOCK : Z := 0x14.
Definition KC_ESCAPE : Z := 0x1B.
Definition KC_SPACE : Z := 0x20.
Definition KC_APOSTROPHE : Z := 0x27.
Definition KC_COMMA : Z := 0x2C.
Definition KC_MINUS : Z := 0x2D.
Definition KC_PERIOD : Z := 0x2E.
Definition KC_SLASH : Z := 0x2F.
Definition KC_0 : Z := 0x30.
Definition KC_1 : Z := 0x31.
Definition KC_2 : Z := 0x32.
Definition KC_3 : Z := 0x33.
Definition KC_4 : Z := 0x34.
Definition KC_5 : Z := 0x35.
Definition KC_6 : Z := 0x36.
Definition KC_7 : Z := 0x37.
Definition KC_8 : Z := 0x38.
Definition KC_9 : Z := 0x39.
Definition KC_SEMICOLON : Z := 0x3B.
Definition KC_EQUAL : Z := 0x3D.
Definition KC_A : Z := 0x41.
Definition KC_B : Z := 0x42.
Definition KC_C : Z := 0x43.
Definition KC_D : Z := 0x44.
Definition KC_E : Z := 0x45.
Definition KC_F : Z := 0x46.
Definition KC_G : Z := 0x47.
Definition KC_H : Z := 0x48.
Definition KC_I : Z := 0x49.
Definition KC_J : Z := 0x4A.
Definition KC_K : Z := 0x4B.
Definition KC_L : Z := 0x4C.
Definition KC_M : Z := 0x4D.
Definition KC_N : Z := 0x4E.
Definition KC_O : Z := 0x4F.
Definition KC_P : Z := 0x50.
Definition KC_Q : Z := 0x51.
Definition KC_R : Z := 0x52.
Definition KC_S : Z := 0x53.
Definition KC_T : Z := 0x54.
Definition KC_U : Z := 0x55.
Definition KC_V : Z := 0x56.
Definition KC_W : Z := 0x57.
Definition KC_X : Z := 0x58.
Definition KC_Y : Z := 0x59.
Definition KC_Z : Z := 0x5A.
Definition KC_LBRACKET : Z := 0x5B.
Definition KC_BACKSLASH : Z := 0x5C.
Definition KC_RBRACKET : Z := 0x5D.
Definition KC_BACKTICK : Z := 0x60.
Definition KC_KP_0 : Z := 0x70.
Definition KC_KP_1 : Z := 0x71.
Definition KC_KP_2 : Z := 0x72.
Definition KC_KP_3 : Z := 0x73.
Definition KC_KP_4 : Z := 0x74.
Definition KC_KP_5 : Z := 0x75.
Definition KC_KP_6 : Z := 0x76.
Definition KC_KP_7 : Z := 0x77.
Definition KC_KP_8 : Z := 0x78.
Definition KC_KP_9 : Z := 0x79.
Definition KC_KP_ENTER : Z := 0x7A.
Definition KC_KP_ASTERISK : Z := 0x7B.
Definition KC_KP_PLUS : Z := 0x7C.
Definition KC_KP_MINUS : Z := 0x7D.
Definition KC_KP_PERIOD : Z := 0x7E.
Definition KC_KP_SLASH : Z := 0x7F.
Definition KC_LSHIFT : Z := 0x80.
Definition KC_RSHIFT : Z := 0x81.
Definition KC_LCTRL : Z := 0x82.
Definition KC_RCTRL : Z := 0x83.
Definition KC_LALT : Z := 0x84.
Definition KC_RALT : Z := 0x85.
Definition KC_LSUPER : Z := 0x86.
Definition KC_RSUPER : Z := 0x87.
Definition KC_APPS : Z := 0x88.
Definition KC_NUM_LOCK : Z := 0x90.
Definition KC_SCROLL_LOCK : Z := 0x91.
Definition KC_HOME : Z := 0x93.
Definition KC_END : Z := 0x94.
Definition KC_PRINT_SCREEN : Z := 0x95.
Definition KC_PAUSE : Z := 0x96.
Definition KC_INSERT : Z := 0x97.
Definition KC_PAGE_UP : Z := 0x98.
Definition KC_PAGE_DOWN : Z := 0x99.
Definition KC_DELETE : Z := 0x9A.
Definition KC_LARROW : Z := 0xA1.
Definition KC_RARROW : Z := 0xA2.
Definition KC_UARROW : Z := 0xA4.
Definition KC_DARROW : Z := 0xA8.
Definition KC_VOLMUTE : Z := 0xB0.
Definition KC_VOLDOWN : Z := 0xB1.
Definition KC_VOLUP : Z := 0xB2.
Definition KC_F0 : Z := 0xF0.
Definition KC_F1 : Z := 0xF1.
Definition KC_F2 : Z := 0xF2.
Definition KC_F3 : Z := 0xF3.
Definition KC_F4 : Z := 0xF4.
Definition KC_F5 : Z := 0xF5.
Definition KC_F6 : Z := 0xF6.
Definition KC_F7 : Z := 0xF7.
Definition KC_F8 : Z := 0xF8.
Definition KC_F9 : Z := 0xF9.
Definition KC_F10 : Z := 0xFA.
Definition KC_F11 : Z := 0xFB.
Definition KC_F12 : Z := 0xFC.

(** ** Scan codes, set 2 *)

Definition PS2_XSCANCODE : Z := 0xE0.
Definition PS2_BREAK_PREFIX : Z := 0xF0.
Definition PS2_SCANCODE_F9 : Z := 0x01.
Definition PS2_SCANCODE_F5 : Z := 0x03.
Definition PS2_SCANCODE_F3 : Z := 0x04.
Definition PS2_SCANCODE_F1 : Z := 0x05.
Definition PS2_SCANCODE_F2 : Z := 0x06.
Definition PS2_SCANCODE_F12 : Z := 0x07.
Definition PS2_SCANCODE_F10 : Z := 0x09.
Definition PS2_SCANCODE_F8 : Z := 0x0A.
Definition PS2_SCANCODE_F6 : Z := 0x0B.
Definition PS2_SCANCODE_F4 : Z := 0x0C.
Definition PS2_SCANCODE_TAB : Z := 0x0D.
Definition PS2_SCANCODE_BACKTICK : Z := 0x0E.
Definition PS2_SCANCODE_LALT : Z := 0x11.
Definition PS2_SCANCODE_LSHIFT : Z := 0x12.
Definition PS2_SCANCODE_LCTRL : Z := 0x14.
Definition PS2_SCANCODE_Q : Z := 0x15.
Definition PS2_SCANCODE_1 : Z := 0x16.
Definition PS2_SCANCODE_Z : Z := 0x1A.
Definition PS2_SCANCODE_S : Z := 0x1B.
Definition PS2_SCANCODE_A : Z := 0x1C.
Definition PS2_SCANCODE_W : Z := 0x1D.
Definition PS2_SCANCODE_2 : Z := 0x1E.
Definition PS2_SCANCODE_C : Z := 0x21.
Definition PS2_SCANCODE_X : Z := 0x22.
Definition PS2_SCANCODE_D : Z := 0x23.
Definition PS2_SCANCODE_E : Z := 0x24.
Definition PS2_SCANCODE_4 : Z := 0x25.
Definition PS2_SCANCODE_3 : Z := 0x26.
Definition PS2_SCANCODE_SPACE : Z := 0x29.
Definition PS2_SCANCODE_V : Z := 0x2A.
Definition PS2_SCANCODE_F : Z := 0x2B.
Definition PS2_SCANCODE_T : Z := 0x2C.
Definition PS2_SCANCODE_R : Z := 0x2D.
Definition PS2_SCANCODE_5 : Z := 0x2E.
Definition PS2_SCANCODE_N : Z := 0x31.
Definition PS2_SCANCODE_B : Z := 0x32.
Definition PS2_SCANCODE_H : Z := 0x33.
Definition PS2_SCANCODE_G : Z := 0x34.
Definition PS2_SCANCODE_Y : Z := 0x35.
Definition PS2_SCANCODE_6 : Z := 0x36.
Definition PS2_SCANCODE_M : Z := 0x3A.
Definition PS2_SCANCODE_J : Z := 0x3B.
Definition PS2_SCANCODE_U : Z := 0x3C.
Definition PS2_SCANCODE_7 : Z := 0x3D.
Definition PS2_SCANCODE_8 : Z := 0x3E.
Definition PS2_SCANCODE_COMMA : Z := 0x41.
Definition PS2_SCANCODE_K : Z := 0x42.
Definition PS2_SCANCODE_I : Z := 0x43.
Definition PS2_SCANCODE_O : Z := 0x44.
Definition PS2_SCANCODE_0 : Z := 0x45.
Definition PS2_SCANCODE_9 : Z := 0x46.
Definition PS2_SCANCODE_PERIOD : Z := 0x49.
Definition PS2_SCANCODE_SLASH : Z := 0x4A.
Definition PS2_SCANCODE_L : Z := 0x4B.
Definition PS2_SCANCODE_SEMICOLON : Z := 0x4C.
Definition PS2_SCANCODE_P : Z := 0x4D.
Definition PS2_SCANCODE_MINUS : Z := 0x4E.
Definition PS2_SCANCODE_APOSTROPHE : Z := 0x52.
Definition PS2_SCANCODE_LBRACKET : Z := 0x54.
Definition PS2_SCANCODE_EQUAL : Z := 0x55.
Definition PS2_SCANCODE_CAPS_LOCK : Z := 0x58.
Definition PS2_SCANCODE_RSHIFT : Z := 0x59.
Definition PS2_SCANCODE_ENTER : Z := 0x5A.
Definition PS2_SCANCODE_RBRACKET : Z := 0x5B.
Definition PS2_SCANCODE_BACKSLASH : Z := 0x5D.
Definition PS2_SCANCODE_BACKSPACE : Z := 0x66.
Definition PS2_SCANCODE_KP_1 : Z := 0x69.
Definition PS2_SCANCODE_KP_4 : Z := 0x6B.
Definition PS2_SCANCODE_KP_7 : Z := 0x6C.
Definition PS2_SCANCODE_KP_0 : Z := 0x70.
Definition PS2_SCANCODE_KP_PERIOD : Z := 0x71.
Definition PS2_SCANCODE_KP_2 : Z := 0x72.
Definition PS2_SCANCODE_KP_5 : Z := 0x73.
Definition PS2_SCANCODE_KP_6 : Z := 0x74.
Definition PS2_SCANCODE_KP_8 : Z := 0x75.
Definition PS2_SCANCODE_ESCAPE : Z := 0x76.
Definition PS2_SCANCODE_NUM_LOCK : Z := 0x77.
Definition PS2_SCANCODE_F11 : Z := 0x78.
Definition PS2_SCANCODE_KP_PLUS : Z := 0x79.
Definition PS2_SCANCODE_KP_3 : Z := 0x7A.
Definition PS2_SCANCODE_KP_MINUS : Z := 0x7B.
Definition PS2_SCANCODE_KP_ASTERISK : Z := 0x7C.
Definition PS2_SCANCODE_KP_9 : Z := 0x7D.
Definition PS2_SCANCODE_SCROLL_LOCK : Z := 0x7E.
Definition PS2_SCANCODE_F7 : Z := 0x83.
Definition PS2_XSCANCODE_SEARCH : Z := 0x10.
Definition PS2_XSCANCODE_RALT : Z := 0x11.
Definition PS2_XSCANCODE_RCTRL : Z := 0x14.
Definition PS2_XSCANCODE_PREV_TRACK : Z := 0x15.
Definition PS2_XSCANCODE_FAVORITES : Z := 0x18.
Definition PS2_XSCANCODE_LGUI : Z := 0x1F.
Definition PS2_XSCANCODE_REFRESH : Z := 0x20.
Definition PS2_XSCANCODE_VOLDOWN : Z := 0x21.
Definition PS2_XSCANCODE_VOLMUTE : Z := 0x23.
Definition PS2_XSCANCODE_RGUI : Z := 0x27.
Definition PS2_XSCANCODE_STOP : Z := 0x3B.
Definition PS2_XSCANCODE_CALC : Z := 0x2B.
Definition PS2_XSCANCODE_FORWARD : Z := 0x30.
Definition PS2_XSCANCODE_VOLUP : Z := 0x32.
Definition PS2_XSCANCODE_PLAYPAUSE : Z := 0x34.
Definition PS2_XSCANCODE_POWER : Z := 0x37.
Definition PS2_XSCANCODE_BACK : Z := 0x38.
Definition PS2_XSCANCODE_HOME : Z := 0x6C.
Definition PS2_XSCANCODE_SLEEP : Z := 0x3F.
Definition PS2_XSCANCODE_MY_COMP : Z := 0x40.
Definition PS2_XSCANCODE_EMAIL : Z := 0x48.
Definition PS2_XSCANCODE_KP_SLASH : Z := 0x4A.
Definition PS2_XSCANCODE_NEXT_TRACK : Z := 0x4D.
Definition PS2_XSCANCODE_MEDIASEL : Z := 0x50.
Definition PS2_XSCANCODE_KP_ENTER : Z := 0x5A.
Definition PS2_XSCANCODE_WAKE : Z := 0x5E.
Definition PS2_XSCANCODE_END : Z := 0x69.
Definition PS2_XSCANCODE_LEFT : Z := 0x6B.
Definition PS2_XSCANCODE_INSERT : Z := 0x70.
Definition PS2_XSCANCODE_DELETE : Z := 0x71.
Definition PS2_XSCANCODE_DOWN : Z := 0x72.
Definition PS2_XSCANCODE_RIGHT : Z := 0x74.
Definition PS2_XSCANCODE_UP : Z := 0x75.
Definition PS2_XSCANCODE_PAGE_DOWN : Z := 0x7A.
Definition PS2_XSCANCODE_PAGE_UP : Z := 0x7D.

Definition StandardScancodeToKeycodeMap : list Z :=
  [
    KC_INVALID; KC_F9; KC_INVALID; KC_F5; KC_F3; KC_F1; KC_F2; KC_F12; KC_INVALID; KC_F10; KC_F8; KC_F6;
    KC_F4; KC_TAB; KC_BACKTICK; KC_INVALID; KC_INVALID; KC_LALT; KC_LSHIFT; KC_INVALID; KC_LCTRL; KC_Q; KC_1;
    KC_INVALID; KC_INVALID; KC_INVALID; KC_Z; KC_S; KC_A; KC_W; KC_2; KC_INVALID; KC_INVALID; KC_C; KC_X;
    KC_D; KC_E; KC_4; KC_3; KC_INVALID; KC_INVALID; KC_SPACE; KC_V; KC_F; KC_T; KC_R; KC_5; KC_INVALID;
    KC_INVALID; KC_N; KC_B; KC_H; KC_G; KC_Y; KC_6; KC_INVALID; KC_INVALID; KC_INVALID; KC_M; KC_J; KC_U;
    KC_7; KC_8; KC_INVALID; KC_INVALID; KC_COMMA; KC_K; KC_I; KC_O; KC_0; KC_9; KC_INVALID; KC_INVALID;
    KC_PERIOD; KC_SLASH; KC_L; KC_SEMICOLON; KC_P; KC_MINUS; KC_INVALID; KC_INVALID; KC_INVALID;
    KC_APOSTROPHE; KC_INVALID; KC_LBRACKET; KC_EQUAL; KC_INVALID; KC_INVALID; KC_CAPS_LOCK; KC_RSHIFT;
    KC_ENTER; KC_RBRACKET; KC_INVALID; KC_BACKSLASH; KC_INVALID; KC_INVALID; KC_INVALID; KC_INVALID;
    KC_INVALID; KC_INVALID; KC_INVALID; KC_INVALID; KC_BACKSPACE; KC_INVALID; KC_INVALID; KC_KP_1; KC_INVALID;
    KC_KP_4; KC_KP_7; KC_INVALID; KC_INVALID; KC_INVALID; KC_KP_0; KC_KP_PERIOD; KC_KP_2; KC_KP_5; KC_KP_6;
    KC_KP_8; KC_ESCAPE; KC_NUM_LOCK; KC_F11; KC_KP_PLUS; KC_KP_3; KC_KP_MINUS; KC_KP_ASTERISK; KC_KP_9;
    KC_SCROLL_LOCK; KC_INVALID; KC_INVALID; KC_INVALID; KC_INVALID; KC_F7
  ].

Definition ExtendedScancodeToKeycodeMap : list Z :=
  [
    KC_INVALID; KC_INVALID; KC_INVALID; KC_INVALID; KC_INVALID; KC_INVALID; KC_INVALID; KC_INVALID;
    KC_INVALID; KC_INVALID; KC_INVALID; KC_INVALID; KC_INVALID; KC_INVALID; KC_INVALID; KC_INVALID;
    KC_INVALID; KC_RALT; KC_INVALID; KC_INVALID; KC_RCTRL; KC_INVALID; KC_INVALID; KC_INVALID; KC_INVALID;
    KC_INVALID; KC_INVALID; KC_INVALID; KC_INVALID; KC_INVALID; KC_INVALID; KC_LSUPER; KC_INVALID; KC_VOLDOWN;
    KC_INVALID; KC_VOLMUTE; KC_INVALID; KC_INVALID; KC_INVALID; KC_RSUPER; KC_INVALID; KC_INVALID; KC_INVALID;
    KC_INVALID; KC_INVALID; KC_INVALID; KC_INVALID; KC_APPS; KC_INVALID; KC_INVALID; KC_VOLUP; KC_INVALID;
    KC_INVALID; KC_INVALID; KC_INVALID; KC_INVALID; KC_INVALID; KC_INVALID; KC_INVALID; KC_INVALID;
    KC_INVALID; KC_INVALID; KC_INVALID; KC_INVALID; KC_INVALID; KC_INVALID; KC_INVALID; KC_INVALID;
    KC_INVALID; KC_INVALID; KC_INVALID; KC_INVALID; KC_INVALID; KC_INVALID; KC_KP_SLASH; KC_INVALID;
    KC_INVALID; KC_INVALID; KC_INVALID; KC_INVALID; KC_INVALID; KC_INVALID; KC_INVALID; KC_INVALID;
    KC_INVALID; KC_INVALID; KC_INVALID; KC_INVALID; KC_INVALID; KC_INVALID; KC_KP_ENTER; KC_INVALID;
    KC_INVALID; KC_INVALID; KC_INVALID; KC_INVALID; KC_INVALID; KC_INVALID; KC_INVALID; KC_INVALID;
    KC_INVALID; KC_INVALID; KC_INVALID; KC_INVALID; KC_INVALID; KC_END; KC_INVALID; KC_LARROW; KC_HOME;
    KC_INVALID; KC_INVALID; KC_INVALID; KC_INSERT; KC_DELETE; KC_DARROW; KC_INVALID; KC_RARROW; KC_UARROW;
    KC_INVALID; KC_INVALID; KC_INVALID; KC_INVALID; KC_PAGE_DOWN; KC_INVALID; KC_INVALID; KC_PAGE_UP
  ].

(** The cases of the switch: key code, scan code, extended. *)
Definition scancode_cases : list (Z * Z * bool) :=
  [
    (KC_BACKSPACE, PS2_SCANCODE_BACKSPACE, false);
    (KC_TAB, PS2_SCANCODE_TAB, false);
    (KC_ENTER, PS2_SCANCODE_ENTER, false);
    (KC_CAPS_LOCK, PS2_SCANCODE_CAPS_LOCK, false);
    (KC_ESCAPE, PS2_SCANCODE_ESCAPE, false);
    (KC_SPACE, PS2_SCANCODE_SPACE, false);
    (KC_APOSTROPHE, PS2_SCANCODE_APOSTROPHE, false);
    (KC_COMMA, PS2_SCANCODE_COMMA, false);
    (KC_MINUS, PS2_SCANCODE_MINUS, false);
    (KC_PERIOD, PS2_SCANCODE_PERIOD, false);
    (KC_SLASH, PS2_SCANCODE_SLASH, false);
    (KC_0, PS2_SCANCODE_0, false);
    (KC_1, PS2_SCANCODE_1, false);
    (KC_2, PS2_SCANCODE_2, false);
    (KC_3, PS2_SCANCODE_3, false);
    (KC_4, PS2_SCANCODE_4, false);
    (KC_5, PS2_SCANCODE_5, false);
    (KC_6, PS2_SCANCODE_6, false);
    (KC_7, PS2_SCANCODE_7, false);
    (KC_8, PS2_SCANCODE_8, false);
    (KC_9, PS2_SCANCODE_9, false);
    (KC_SEMICOLON, PS2_SCANCODE_SEMICOLON, false);
    (KC_EQUAL, PS2_SCANCODE_EQUAL, false);
    (KC_A, PS2_SCANCODE_A, false);
    (KC_B, PS2_SCANCODE_B, false);
    (KC_C, PS2_SCANCODE_C, false);
    (KC_D, PS2_SCANCODE_D, false);
    (KC_E, PS2_SCANCODE_E, false);
    (KC_F, PS2_SCANCODE_F, false);
    (KC_G, PS2_SCANCODE_G, false);
    (KC_H, PS2_SCANCODE_H, false);
    (KC_I, PS2_SCANCODE_I, false);
    (KC_J, PS2_SCANCODE_J, false);
    (KC_K, PS2_SCANCODE_K, false);
    (KC_L, PS2_SCANCODE_L, false);
    (KC_M, PS2_SCANCODE_M, false);
    (KC_N, PS2_SCANCODE_N, false);
    (KC_O, PS2_SCANCODE_O, false);
    (KC_P, PS2_SCANCODE_P, false);
    (KC_Q, PS2_SCANCODE_Q, false);
    (KC_R, PS2_SCANCODE_R, false);
    (KC_S, PS2_SCANCODE_S, false);
    (KC_T, PS2_SCANCODE_T, false);
    (KC_U, PS2_SCANCODE_U, false);
    (KC_V, PS2_SCANCODE_V, false);
    (KC_W, PS2_SCANCODE_W, false);
    (KC_X, PS2_SCANCODE_X, false);
    (KC_Y, PS2_SCANCODE_Y, false);
    (KC_Z, PS2_SCANCODE_Z, false);
    (KC_LBRACKET, PS2_SCANCODE_LBRACKET, false);
    (KC_BACKSLASH, PS2_SCANCODE_BACKSLASH, false);
    (KC_RBRACKET, PS2_SCANCODE_RBRACKET, false);
    (KC_BACKTICK, PS2_SCANCODE_BACKTICK, false);
    (KC_KP_0, PS2_SCANCODE_KP_0, false);
    (KC_KP_1, PS2_SCANCODE_KP_1, false);
    (KC_KP_2, PS2_SCANCODE_KP_2, false);
    (KC_KP_3, PS2_SCANCODE_KP_3, false);
    (KC_KP_4, PS2_SCANCODE_KP_4, false);
    (KC_KP_5, PS2_SCANCODE_KP_5, false);
    (KC_KP_6, PS2_SCANCODE_KP_6, false);
    (KC_KP_7, PS2_SCANCODE_KP_7, false);
    (KC_KP_8, PS2_SCANCODE_KP_8, false);
    (KC_KP_9, PS2_SCANCODE_KP_9, false);
    (KC_KP_ENTER, PS2_XSCANCODE_KP_ENTER, true);
    (KC_KP_ASTERISK, PS2_SCANCODE_KP_ASTERISK, false);
    (KC_KP_PLUS, PS2_SCANCODE_KP_PLUS, false);
    (KC_KP_MINUS, PS2_SCANCODE_KP_MINUS, false);
    (KC_KP_PERIOD, PS2_SCANCODE_KP_PERIOD, false);
    (KC_KP_SLASH, PS2_XSCANCODE_KP_SLASH, true);
    (KC_LSHIFT, PS2_SCANCODE_LSHIFT, false);
    (KC_RSHIFT, PS2_SCANCODE_RSHIFT, false);
    (KC_LCTRL, PS2_SCANCODE_LCTRL, false);
    (KC_RCTRL, PS2_XSCANCODE_RCTRL, true);
    (KC_LALT, PS2_SCANCODE_LALT, false);
    (KC_RALT, PS2_XSCANCODE_RALT, true);
    (KC_LSUPER, PS2_XSCANCODE_LGUI, true);
    (KC_RSUPER, PS2_XSCANCODE_RGUI, true);
    (KC_APPS, 0x2F, true);
    (KC_NUM_LOCK, PS2_SCANCODE_NUM_LOCK, false);
    (KC_SCROLL_LOCK, PS2_SCANCODE_SCROLL_LOCK, false);
    (KC_HOME, PS2_XSCANCODE_HOME, true);
    (KC_END, PS2_XSCANCODE_END, true);
    (KC_PRINT_SCREEN, 0xF7, false);
    (KC_PAUSE, 0xF8, false);
    (KC_INSERT, PS2_XSCANCODE_INSERT, true);
    (KC_PAGE_UP, PS2_XSCANCODE_PAGE_UP, true);
    (KC_PAGE_DOWN, PS2_XSCANCODE_PAGE_DOWN, true);
    (KC_DELETE, PS2_XSCANCODE_DELETE, true);
    (KC_LARROW, PS2_XSCANCODE_LEFT, true);
    (KC_RARROW, PS2_XSCANCODE_RIGHT, true);
    (KC_UARROW, PS2_XSCANCODE_UP, true);
    (KC_DARROW, PS2_XSCANCODE_DOWN, true);
    (KC_VOLMUTE, PS2_XSCANCODE_VOLMUTE, true);
    (KC_VOLDOWN, PS2_XSCANCODE_VOLDOWN, true);
    (KC_VOLUP, PS2_XSCANCODE_VOLUP, true);
    (KC_F1, PS2_SCANCODE_F1, false);
    (KC_F2, PS2_SCANCODE_F2, false);
    (KC_F3, PS2_SCANCODE_F3, false);
    (KC_F4, PS2_SCANCODE_F4, false);
    (KC_F5, PS2_SCANCODE_F5, false);
    (KC_F6, PS2_SCANCODE_F6, false);
    (KC_F7, PS2_SCANCODE_F7, false);
    (KC_F8, PS2_SCANCODE_F8, false);
    (KC_F9, PS2_SCANCODE_F9, false);
    (KC_F10, PS2_SCANCODE_F10, false);
    (KC_F11, PS2_SCANCODE_F11, false);
    (KC_F12, PS2_SCANCODE_F12, false)
  ].

(** The scan code and the value stored through OutExtended, if any. *)
Definition PS2_KeycodeToScancode (Keycode : Z) : Z * option bool :=
  match find (fun '(k, _, _) => k =? Keycode) scancode_cases with
  | Some (_, s, e) => (s, Some e)
  | None => (KC_INVALID, None)
  end.

(** Both maps have DWORD elements, so sizeof is four times the element count. *)
Definition PS2_ScancodeToKeycode (bExtend : bool) (Scancode : Z) : outcome Z :=
  let tbl := if bExtend then ExtendedScancodeToKeycodeMap else StandardScancodeToKeycodeMap in
  if Scancode >? 4 * Z.of_nat (length tbl) then Done KC_INVALID else checked (tbl !! Z.to_nat Scancode).

(** ** Names *)

Definition KeyStateToString (State : Z) : string :=
  if State =? KS_RELEASED then "Released" else if State =? KS_PRESSED then "Pressed" else "INVALID".

Definition keycode_names : list (Z * string) :=
  [
    (KC_BACKSPACE, "BACKSPACE"%string);
    (KC_TAB, "TAB"%string);
    (KC_ENTER, "ENTER"%string);
    (KC_CAPS_LOCK, "CAPS_LOCK"%string);
    (KC_ESCAPE, "ESCAPE"%string);
    (KC_SPACE, "SPACE"%string);
    (KC_APOSTROPHE, "APOSTROPHE"%string);
    (KC_COMMA, "COMMA"%string);
    (KC_MINUS, "MINUS"%string);
    (KC_PERIOD, "PERIOD"%string);
    (KC_SLASH, "SLASH"%string);
    (KC_0, "0"%string);
    (KC_1, "1"%string);
    (KC_2, "2"%string);
    (KC_3, "3"%string);
    (KC_4, "4"%string);
    (KC_5, "5"%string);
    (KC_6, "6"%string);
    (KC_7, "7"%string);
    (KC_8, "8"%string);
    (KC_9, "9"%string);
    (KC_SEMICOLON, "SEMICOLON"%string);
    (KC_EQUAL, "EQUAL"%string);
    (KC_A, "A"%string);
    (KC_B, "B"%string);
    (KC_C, "C"%string);
    (KC_D, "D"%string);
    (KC_E, "E"%string);
    (KC_F, "F"%string);
    (KC_G, "G"%string);
    (KC_H, "H"%string);
    (KC_I, "I"%string);
    (KC_J, "J"%string);
    (KC_K, "K"%string);
    (KC_L, "L"%string);
    (KC_M, "M"%string);
    (KC_N, "N"%string);
    (KC_O, "O"%string);
    (KC_P, "P"%string);
    (KC_Q, "Q"%string);
    (KC_R, "R"%string);
    (KC_S, "S"%string);
    (KC_T, "T"%string);
    (KC_U, "U"%string);
    (KC_V, "V"%string);
    (KC_W, "W"%string);
    (KC_X, "X"%string);
    (KC_Y, "Y"%string);
    (KC_Z, "Z"%string);
    (KC_LBRACKET, "LBRACKET"%string);
    (KC_BACKSLASH, "BACKSLASH"%string);
    (KC_RBRACKET, "RBRACKET"%string);
    (KC_BACKTICK, "BACKTICK"%string);
    (KC_KP_0, "KP_0"%string);
    (KC_KP_1, "KP_1"%string);
    (KC_KP_2, "KP_2"%string);
    (KC_KP_3, "KP_3"%string);
    (KC_KP_4, "KP_4"%string);
    (KC_KP_5, "KP_5"%string);
    (KC_KP_6, "KP_6"%string);
    (KC_KP_7, "KP_7"%string);
    (KC_KP_8, "KP_8"%string);
    (KC_KP_9, "KP_9"%string);
    (KC_KP_ENTER, "KP_ENTER"%string);
    (KC_KP_ASTERISK, "KP_ASTERISK"%string);
    (KC_KP_PLUS, "KP_PLUS"%string);
    (KC_KP_MINUS, "KP_MINUS"%string);
    (KC_KP_PERIOD, "KP_PERIOD"%string);
    (KC_KP_SLASH, "KP_SLASH"%string);
    (KC_LSHIFT, "LSHIFT"%string);
    (KC_RSHIFT, "RSHIFT"%string);
    (KC_LCTRL, "LCTRL"%string);
    (KC_RCTRL, "RCTRL"%string);
    (KC_LALT, "LALT"%string);
    (KC_RALT, "RALT"%string);
    (KC_LSUPER, "LSUPER"%string);
    (KC_RSUPER, "RSUPER"%string);
    (KC_APPS, "APPS"%string);
    (KC_NUM_LOCK, "NUM_LOCK"%string);
    (KC_SCROLL_LOCK, "SCROLL_LOCK"%string);
    (KC_HOME, "HOME"%string);
    (KC_END, "END"%string);
    (KC_PRINT_SCREEN, "PRINT_SCREEN"%string);
    (KC_PAUSE, "PAUSE"%string);
    (KC_INSERT, "INSERT"%string);
    (KC_PAGE_UP, "PAGE_UP"%string);
    (KC_PAGE_DOWN, "PAGE_DOWN"%string);
    (KC_DELETE, "DELETE"%string);
    (KC_LARROW, "LARROW"%string);
    (KC_RARROW, "RARROW"%string);
    (KC_UARROW, "UARROW"%string);
    (KC_DARROW, "DARROW"%string);
    (KC_VOLMUTE, "VOLMUTE"%string);
    (KC_VOLUP, "VOLUP"%string);
    (KC_F1, "F1"%string);
    (KC_F2, "F2"%string);
    (KC_F3, "F3"%string);
    (KC_F4, "F4"%string);
    (KC_F5, "F5"%string);
    (KC_F7, "F7"%string);
    (KC_F8, "F8"%string);
    (KC_F9, "F9"%string);
    (KC_F10, "F10"%string);
    (KC_F11, "F11"%string);
    (KC_F12, "F12"%string)
  ].

Definition KeycodeToString (Keycode : Z) : string :=
  match find (fun '(k, _) => k =? Keycode) keycode_names with Some (_, s) => s | None => "INVALID" end.

(** Every key code constant of Keycodes.h but KC_INVALID. *)
Definition all_keycodes : list Z :=
  [
    KC_BACKSPACE; KC_TAB; KC_ENTER; KC_CAPS_LOCK; KC_ESCAPE; KC_SPACE; KC_APOSTROPHE; KC_COMMA; KC_MINUS;
    KC_PERIOD; KC_SLASH; KC_0; KC_1; KC_2; KC_3; KC_4; KC_5; KC_6; KC_7; KC_8; KC_9; KC_SEMICOLON; KC_EQUAL;
    KC_A; KC_B; KC_C; KC_D; KC_E; KC_F; KC_G; KC_H; KC_I; KC_J; KC_K; KC_L; KC_M; KC_N; KC_O; KC_P; KC_Q;
    KC_R; KC_S; KC_T; KC_U; KC_V; KC_W; KC_X; KC_Y; KC_Z; KC_LBRACKET; KC_BACKSLASH; KC_RBRACKET; KC_BACKTICK;
    KC_KP_0; KC_KP_1; KC_KP_2; KC_KP_3; KC_KP_4; KC_KP_5; KC_KP_6; KC_KP_7; KC_KP_8; KC_KP_9; KC_KP_ENTER;
    KC_KP_ASTERISK; KC_KP_PLUS; KC_KP_MINUS; KC_KP_PERIOD; KC_KP_SLASH; KC_LSHIFT; KC_RSHIFT; KC_LCTRL;
    KC_RCTRL; KC_LALT; KC_RALT; KC_LSUPER; KC_RSUPER; KC_APPS; KC_NUM_LOCK; KC_SCROLL_LOCK; KC_HOME; KC_END;
    KC_PRINT_SCREEN; KC_PAUSE; KC_INSERT; KC_PAGE_UP; KC_PAGE_DOWN; KC_DELETE; KC_LARROW; KC_RARROW;
    KC_UARROW; KC_DARROW; KC_VOLMUTE; KC_VOLDOWN; KC_VOLUP; KC_F0; KC_F1; KC_F2; KC_F3; KC_F4; KC_F5; KC_F6;
    KC_F7; KC_F8; KC_F9; KC_F10; KC_F11; KC_F12
  ].

(** ** Properties *)

(** The key codes the keyboard handler treats apart from the tables. *)
Definition special_keycode (k : Z) : bool := (k =? KC_PRINT_SCREEN) || (k =? KC_PAUSE).

Lemma find_some_in {A} (f : A -> bool) l x : find f l = Some x -> x ∈ l /\ f x = true.
Proof. intros H. apply find_some in H as [H1 H2]. split; [by apply list_elem_of_In|done]. Qed.

Lemma scancode_cases_ok :
  forallb (fun '(k, s, e) => special_keycode k ||
     match PS2_ScancodeToKeycode e s with Done k' => k' =? k | _ => false end) scancode_cases = true.
Proof. vm_compute. reflexivity. Qed.

Lemma tables_ok (e : bool) :
  forallb (fun n => match PS2_ScancodeToKeycode e (Z.of_nat n) with
     | Done k => (k =? KC_INVALID) ||
                 (let '(s, e') := PS2_KeycodeToScancode k in
                  (s =? Z.of_nat n) && match e' with Some b => eqb b e | None => false end)
     | _ => false end)
    (seq 0 (length (if e then ExtendedScancodeToKeycodeMap else StandardScancodeToKeycodeMap))) = true.
Proof. destruct e; vm_compute; reflexivity. Qed.

(** the two translations are inverse to each other: every key code that has
    a scan code other than the two special keys is translated back to itself,
    and every scan code of a table that denotes a key is the scan code of that key. *)
Theorem keycode_scancode_inverse :
  (forall k s e, PS2_KeycodeToScancode k = (s, Some e) -> special_keycode k = false ->
     PS2_ScancodeToKeycode e s = Done k) /\
  (forall (e : bool) n k, (n < length (if e then ExtendedScancodeToKeycodeMap else StandardScancodeToKeycodeMap))%nat ->
     PS2_ScancodeToKeycode e (Z.of_nat n) = Done k -> k <> KC_INVALID ->
     PS2_KeycodeToScancode k = (Z.of_nat n, Some e)).
Proof.
  split.
  - intros k s e H Hs. unfold PS2_KeycodeToScancode in H.
    match type of H with context [find ?f ?l] => destruct (find f l) as [[[k' s'] e']|] eqn:E end; [|done]. simplify_eq.
    apply find_some_in in E as [Hin Hk]. apply Z.eqb_eq in Hk as ->.
    pose proof (proj1 (forallb_forall _ _) scancode_cases_ok _ (proj1 (list_elem_of_In _ _) Hin)) as Hc.
    cbn beta iota in Hc. rewrite Hs in Hc. destruct (PS2_ScancodeToKeycode e s); try done.
    by apply Z.eqb_eq in Hc as ->.
  - intros e n k Hn Hk Hne.
    pose proof (proj1 (forallb_forall _ _) (tables_ok e) n) as Hc. rewrite in_seq in Hc.
    specialize (Hc ltac:(lia)). cbn beta in Hc. rewrite Hk, (proj2 (Z.eqb_neq _ _) Hne) in Hc. cbn [orb] in Hc.
    destruct (PS2_KeycodeToScancode k) as [s [b|]]; [|by rewrite andb_false_r in Hc].
    apply andb_true_iff in Hc as [H1%Z.eqb_eq H2%eqb_prop]. by subst.
Qed.

Example keycode_scancode_inverse_witness :
  PS2_ScancodeToKeycode false PS2_SCANCODE_A = Done KC_A /\ PS2_KeycodeToScancode KC_UARROW = (0x75, Some true).
Proof.
  split; [apply (proj1 keycode_scancode_inverse KC_A); reflexivity|].
  apply (proj2 keycode_scancode_inverse true 0x75%nat KC_UARROW); [simpl; lia|reflexivity|done].
Defined.

(** KeycodeToString names every key code constant except two (and the unused KC_F0). *)
Example keycode_names_missing :
  filter (fun k => KeycodeToString k = "INVALID"%string) all_keycodes = [KC_VOLDOWN; KC_F0; KC_F6].
Proof. vm_compute. reflexivity. Qed.

(** The bounds test compares an element index with a byte size: scan codes past
    the tables, such as the acknowledge byte, are read out of bounds. *)
Example scancode_out_of_bounds : PS2_ScancodeToKeycode false 0xFA = Fault /\ PS2_ScancodeToKeycode true 0x7E = Fault.
Proof. vm_compute. done. Qed.
