(* ===== verification/Keyboard.v ===== *)
(** * Keyboard input: the event queue (Kernel/Source/HumanInterface/KeyboardHub.c)
    and the PS/2 driver (Kernel/Source/Devdriv/Keyboard/PS2Keyboard.c)

    The interrupt handler is a function from the data byte it reads to the next
    state; port reads of the command path come from a list of values the
    controller returns, writes are logged. *)
From Stdlib Require Import ZArith Lia.
From stdpp Require Import base numbers list.
From S2P Require Import Prelude Keycodes.
Open Scope Z_scope.

(** ** State *)

(** Every event's Source is the one PS/2 device node. *)
Record HiKeyboardEvent := mkEvent { OldState : Z; NewState : Z; Keycode : Z; Keymod : Z }.
Definition event_zero : HiKeyboardEvent := mkEvent 0 0 0 0.

Definition MAX_KEYBOARD_EVENTS : Z := 128.

Record Kbd := mkKbd {
  KeyboardEventQueue : list HiKeyboardEvent;
  KeyevHeadidx : Z; KeyevTailidx : Z; KeyevCount : Z;
  PS2_StandardKeyStates : list Z; PS2_ExtendedKeyStates : list Z;
  Listen : Z; ListenIdx : Z
}.
Definition kbd_zero : Kbd := mkKbd (replicate 128 event_zero) 0 0 0 (replicate 256 0) (replicate 256 0) 0 0.

(** ** The event queue *)

Definition HiPushKeyboardEvent (s : Kbd) (Data : HiKeyboardEvent) : outcome Kbd :=
  if decide (Z.to_nat (KeyevTailidx s) < length (KeyboardEventQueue s))%nat then
    let tail := u32 (KeyevTailidx s + 1) in
    Done (mkKbd (<[Z.to_nat (KeyevTailidx s) := Data]> (KeyboardEventQueue s)) (KeyevHeadidx s)
            (if tail >=? MAX_KEYBOARD_EVENTS then 0 else tail)
            (Z.min MAX_KEYBOARD_EVENTS (u32 (KeyevCount s + 1)))
            (PS2_StandardKeyStates s) (PS2_ExtendedKeyStates s) (Listen s) (ListenIdx s))
  else Fault.

Definition HiPopKeyboardEvent (s : Kbd) : outcome (Kbd * HiKeyboardEvent) :=
  Result ← checked (KeyboardEventQueue s !! Z.to_nat (KeyevHeadidx s));
  let head := u32 (KeyevHeadidx s + 1) in
  Done (mkKbd (KeyboardEventQueue s) (if head >=? MAX_KEYBOARD_EVENTS then 0 else head) (KeyevTailidx s)
          (u32 (KeyevCount s - 1)) (PS2_StandardKeyStates s) (PS2_ExtendedKeyStates s) (Listen s) (ListenIdx s), Result).

Definition HiGetKeyboardEventQueueNum (s : Kbd) : Z := KeyevCount s.

(** ** The PS/2 interrupt handler *)

Definition LISTEN_EXTENDED : Z := 2.
Definition LISTEN_BROKEN : Z := 4.
Definition LISTEN_PRTSCAS : Z := 8.
Definition LISTEN_PRTSCDEAS : Z := 16.
Definition LISTEN_PAUSE : Z := 32.

Definition set_listen (s : Kbd) (l i : Z) : Kbd :=
  mkKbd (KeyboardEventQueue s) (KeyevHeadidx s) (KeyevTailidx s) (KeyevCount s)
    (PS2_StandardKeyStates s) (PS2_ExtendedKeyStates s) l i.
(** [ext] selects the extended array; both have 256 elements. *)
Definition set_key (s : Kbd) (ext : bool) (c v : Z) : Kbd :=
  mkKbd (KeyboardEventQueue s) (KeyevHeadidx s) (KeyevTailidx s) (KeyevCount s)
    (if ext then PS2_StandardKeyStates s else <[Z.to_nat c := v]> (PS2_StandardKeyStates s))
    (if ext then <[Z.to_nat c := v]> (PS2_ExtendedKeyStates s) else PS2_ExtendedKeyStates s)
    (Listen s) (ListenIdx s).

Definition key_state (arr : list Z) (c : Z) : Z := default 0 (arr !! Z.to_nat c).

Definition PS2_SampleKeymod (s : Kbd) : Z :=
  let std := key_state (PS2_StandardKeyStates s) in
  let ext := key_state (PS2_ExtendedKeyStates s) in
  let m := 0 in
  let m := if (std PS2_SCANCODE_LCTRL =? KS_PRESSED) || (ext PS2_XSCANCODE_RCTRL =? KS_PRESSED) then Z.lor m KM_CTRL else m in
  let m := if (std PS2_SCANCODE_LALT =? KS_PRESSED) || (ext PS2_XSCANCODE_RALT =? KS_PRESSED) then Z.lor m KM_ALT else m in
  if (std PS2_SCANCODE_LSHIFT =? KS_PRESSED) || (std PS2_SCANCODE_RSHIFT =? KS_PRESSED) then Z.lor m KM_SHIFT else m.

(** The long sequences: their last byte pushes the events. *)
Definition handle_prtscas (s : Kbd) : outcome Kbd :=
  let i := ListenIdx s in
  let s := set_listen s (Listen s) (u32 (i + 1)) in
  if i =? 3 then
    s ← HiPushKeyboardEvent s (mkEvent KS_RELEASED KS_PRESSED KC_PRINT_SCREEN (PS2_SampleKeymod s));
    Done (set_listen (set_key s false 0xF7 KS_PRESSED) 0 0)
  else Done s.
Definition handle_prtscdeas (s : Kbd) : outcome Kbd :=
  let i := ListenIdx s in
  let s := set_listen s (Listen s) (u32 (i + 1)) in
  if i =? 5 then
    s ← HiPushKeyboardEvent s (mkEvent KS_PRESSED KS_RELEASED KC_PRINT_SCREEN (PS2_SampleKeymod s));
    Done (set_listen (set_key s false 0xF7 KS_RELEASED) 0 0)
  else Done s.
Definition handle_pause (s : Kbd) : outcome Kbd :=
  let i := ListenIdx s in
  let s := set_listen s (Listen s) (u32 (i + 1)) in
  if i =? 7 then
    s ← HiPushKeyboardEvent s (mkEvent KS_RELEASED KS_PRESSED KC_PAUSE (PS2_SampleKeymod s));
    s ← HiPushKeyboardEvent s (mkEvent KS_PRESSED KS_RELEASED KC_PAUSE (PS2_SampleKeymod s));
    Done (set_listen s 0 0)
  else Done s.

(** A plain key: the code after the switch. *)
Definition handle_key (s : Kbd) (Data : Z) : outcome Kbd :=
  let broken := has_flag (Listen s) LISTEN_BROKEN in
  let ext := has_flag (Listen s) LISTEN_EXTENDED in
  let KsOld := if broken then KS_PRESSED else KS_RELEASED in
  let KsNew := if broken then KS_RELEASED else KS_PRESSED in
  let s := set_key s ext Data KsNew in
  k ← PS2_ScancodeToKeycode ext Data;
  s ← HiPushKeyboardEvent s (mkEvent KsOld KsNew k (PS2_SampleKeymod s));
  Done (set_listen s 0 0).

Definition PS2_KeyboardInterrupt (s : Kbd) (Data : Z) : outcome Kbd :=
  let next f := set_listen s (Z.lor (Listen s) f) (u32 (ListenIdx s + 1)) in
  if has_flag (Listen s) LISTEN_PRTSCAS then handle_prtscas s
  else if has_flag (Listen s) LISTEN_PRTSCDEAS then handle_prtscdeas s
  else if has_flag (Listen s) LISTEN_PAUSE then handle_pause s
  else if Data =? PS2_XSCANCODE then Done (next LISTEN_EXTENDED)
  else if Data =? PS2_BREAK_PREFIX then Done (next LISTEN_BROKEN)
  else if (Data =? 0x12) && ((ListenIdx s =? 1) && has_flag (Listen s) LISTEN_EXTENDED) then Done (next LISTEN_PRTSCAS)
  else if (Data =? 0x7C) && ((ListenIdx s =? 2) &&
            (Z.land (Listen s) (Z.lor LISTEN_EXTENDED LISTEN_BROKEN) =? Z.lor LISTEN_EXTENDED LISTEN_BROKEN))
  then Done (next LISTEN_PRTSCDEAS)
  else if Data =? 0xE1 then Done (next LISTEN_PAUSE)
  else handle_key s Data.

Definition PS2_KeyboardGetKeyState (s : Kbd) (Keycode : Z) : outcome Z :=
  let '(Scancode, bExtended) := PS2_KeycodeToScancode Keycode in
  if Scancode =? 0 then Done KS_RELEASED
  else
    e ← checked bExtended;
    Done (if e : bool then key_state (PS2_ExtendedKeyStates s) Scancode else key_state (PS2_StandardKeyStates s) Scancode).

(** ** The command path *)

(** Port accesses: [rx] are the values the next reads return, [tx] the writes
    so far, each a port and a byte. *)
Record Ports := mkPorts { rx : list Z; tx : list (Z * Z) }.

Definition PS2_PORT_DATA : Z := 0x60.
Definition PS2_PORT_CMD : Z := 0x64.
Definition PS2_STATUS_OUTPUT : Z := 1.
Definition PS2_STATUS_INPUT : Z := 2.
Definition PS2_RESPONSE_ACK : Z := 0xFA.
Definition PS2_RESPONSE_RESEND : Z := 0xFE.
Definition MAX_RESENDS : Z := 3.

(** A read when the controller has nothing more to say blocks for ever. *)
Definition ByteInputFromPort (io : Ports) : outcome (Ports * Z) :=
  match rx io with [] => Hang | v :: r => Done (mkPorts r (tx io), v) end.
Definition ByteOutputToPort (io : Ports) (port v : Z) : Ports := mkPorts (rx io) (tx io ++ [(port, v)]).

(** Spin until the status register's bit under [mask] is [want]. *)
Fixpoint wait_loop (r : list Z) (mask : Z) (want : bool) : outcome (list Z) :=
  match r with
  | [] => Hang
  | v :: r' => if Bool.eqb (has_flag v mask) want then Done r' else wait_loop r' mask want
  end.
Definition PS2_WaitInputBufferEmpty (io : Ports) : outcome Ports :=
  r ← wait_loop (rx io) PS2_STATUS_INPUT false; Done (mkPorts r (tx io)).
Definition PS2_WaitOutputBufferEmpty (io : Ports) : outcome Ports :=
  r ← wait_loop (rx io) PS2_STATUS_OUTPUT true; Done (mkPorts r (tx io)).

Fixpoint issue_loop (fuel : nat) (io : Ports) (cmd : list Z) (ToCmd : bool) (i NrResends Response : Z)
    : outcome (Ports * Z) :=
  match fuel with
  | O => Hang
  | S fuel' =>
      if (i <? Z.of_nat (length cmd)) && (NrResends <? MAX_RESENDS) then
        io ← PS2_WaitInputBufferEmpty io;
        b ← checked (cmd !! Z.to_nat i);
        let io := ByteOutputToPort io (if (i =? 0) && ToCmd then PS2_PORT_CMD else PS2_PORT_DATA) b in
        io ← (if ToCmd then PS2_WaitInputBufferEmpty io else PS2_WaitOutputBufferEmpty io);
        '(io, Response) ← ByteInputFromPort io;
        if Response =? PS2_RESPONSE_RESEND
        then issue_loop fuel' io cmd ToCmd (0 + 1) (NrResends + 1) Response
        else issue_loop fuel' io cmd ToCmd (i + 1) NrResends Response
      else Done (io, Response)
  end.
(** [uninit] is the value of the uninitialised Response of an empty command. *)
Definition PS2_IssueCommand (io : Ports) (cmd : list Z) (ToCmd : bool) (uninit : Z) : outcome (Ports * Z) :=
  issue_loop (S (length cmd * 4 + 4)) io cmd ToCmd 0 0 uninit.

Definition PS2_CONT_CFG_TRANSLATE : Z := 64.

(** The controller setup of PS2_KeyboardDriverRegister: scan code translation
    off, scan code set 2. *)
Definition ps2_setup (io : Ports) (uninit : Z) : outcome (Ports * bool) :=
  '(io, CCB) ← PS2_IssueCommand io [0x20] true uninit;
  let CCB := Z.land CCB (u8 (Z.lnot PS2_CONT_CFG_TRANSLATE)) in
  io ← PS2_WaitInputBufferEmpty io;
  let io := ByteOutputToPort io PS2_PORT_CMD 0x60 in
  io ← PS2_WaitInputBufferEmpty io;
  let io := ByteOutputToPort io PS2_PORT_DATA CCB in
  '(io, r) ← PS2_IssueCommand io [0xF0; 0x02] false uninit;
  Done (io, r =? PS2_RESPONSE_ACK).

(** ** The queue is a FIFO while it neither overflows nor underflows *)

Record queue_rep (s : Kbd) (l : list HiKeyboardEvent) : Prop := {
  qr_len : length (KeyboardEventQueue s) = 128%nat;
  qr_head : 0 <= KeyevHeadidx s < 128;
  qr_count : KeyevCount s = Z.of_nat (length l);
  qr_fits : (length l <= 128)%nat;
  qr_tail : KeyevTailidx s = (KeyevHeadidx s + Z.of_nat (length l)) mod 128;
  qr_items : forall i e, l !! i = Some e ->
    KeyboardEventQueue s !! Z.to_nat ((KeyevHeadidx s + Z.of_nat i) mod 128) = Some e
}.

Lemma next_index x : 0 <= x < 128 -> (if u32 (x + 1) >=? MAX_KEYBOARD_EVENTS then 0 else u32 (x + 1)) = (x + 1) mod 128.
Proof.
  intros Hx. rewrite u32_small by lia. unfold MAX_KEYBOARD_EVENTS. rewrite Z.geb_leb.
  destruct (Z.leb_spec 128 (x + 1)); zlia.
Qed.

Lemma push_spec s l e :
  queue_rep s l -> (length l < 128)%nat -> exists s', HiPushKeyboardEvent s e = Done s' /\ queue_rep s' (l ++ [e]).
Proof.
  intros [H1 H2 H3 H4 H5 H6] Hl. unfold HiPushKeyboardEvent.
  assert (0 <= KeyevTailidx s < 128) as Ht by zlia.
  rewrite decide_True by lia. eexists. split; [done|]. rewrite next_index by done.
  split; cbn [KeyboardEventQueue KeyevHeadidx KeyevTailidx KeyevCount]; try done.
  - by rewrite length_insert.
  - rewrite H3, u32_small, length_app by lia. unfold MAX_KEYBOARD_EVENTS. simpl. lia.
  - rewrite length_app. simpl. lia.
  - rewrite H5, length_app. cbn [length]. rewrite Z.add_mod_idemp_l by lia. f_equal. lia.
  - intros i x Hi. destruct (decide (i < length l)%nat).
    + rewrite lookup_app_l in Hi by done. rewrite list_lookup_insert_ne; [by apply H6|].
      rewrite H5. intros E. apply Z2Nat.inj in E; zlia.
    + rewrite lookup_app_r in Hi by lia. apply list_lookup_singleton_Some in Hi as [Hi ->].
      assert (i = length l) as -> by lia. rewrite <- H5. apply list_lookup_insert_eq. lia.
Qed.

Lemma pop_spec s l e :
  queue_rep s (e :: l) -> exists s', HiPopKeyboardEvent s = Done (s', e) /\ queue_rep s' l.
Proof.
  intros [H1 H2 H3 H4 H5 H6]. unfold HiPopKeyboardEvent.
  pose proof (H6 0%nat e eq_refl) as H0. rewrite Z.add_0_r, Z.mod_small in H0 by lia. rewrite H0.
  cbn [checked]. rewrite bind_Done. eexists. split; [done|]. rewrite next_index by done. cbn [length] in *.
  split; cbn [KeyboardEventQueue KeyevHeadidx KeyevTailidx KeyevCount]; try done.
  - zlia.
  - rewrite H3, u32_small by lia. lia.
  - lia.
  - rewrite H5, Z.add_mod_idemp_l by lia. f_equal. lia.
  - intros i x Hi. rewrite Z.add_mod_idemp_l by lia. rewrite <- (H6 (S i) x Hi). do 3 f_equal. lia.
Qed.

Inductive hub_op := OpPush (e : HiKeyboardEvent) | OpPop.

(** The events a sequence of operations pops. *)
Fixpoint run_hub (s : Kbd) (ops : list hub_op) : outcome (Kbd * list HiKeyboardEvent) :=
  match ops with
  | [] => Done (s, [])
  | OpPush e :: ops' => s ← HiPushKeyboardEvent s e; run_hub s ops'
  | OpPop :: ops' => '(s, e) ← HiPopKeyboardEvent s; '(s, out) ← run_hub s ops'; Done (s, e :: out)
  end.

(** The same on a list, for sequences that respect the capacity. *)
Fixpoint run_fifo (l : list HiKeyboardEvent) (ops : list hub_op)
    : option (list HiKeyboardEvent * list HiKeyboardEvent) :=
  match ops with
  | [] => Some (l, [])
  | OpPush e :: ops' => if decide (length l < 128)%nat then run_fifo (l ++ [e]) ops' else None
  | OpPop :: ops' =>
      match l with [] => None | e :: l' => '(l'', out) ← run_fifo l' ops'; Some (l'', e :: out) end
  end.

(** Every sequence of pushes and pops that never exceeds 128 pending events
    and never pops from an empty queue behaves as a first-in first-out list,
    across any number of wraparounds. *)
Theorem keyboard_queue_refines s l ops l' out :
  queue_rep s l -> run_fifo l ops = Some (l', out) ->
  exists s', run_hub s ops = Done (s', out) /\ queue_rep s' l' /\
    HiGetKeyboardEventQueueNum s' = Z.of_nat (length l').
Proof.
  revert s l out. induction ops as [|[e|] ops IH]; intros s l out Hr Hf; cbn [run_hub run_fifo] in *.
  - simplify_eq. exists s. split_and!; [done|done|]. apply (qr_count _ _ Hr).
  - destruct (decide _); [|done]. destruct (push_spec s l e Hr) as (s1 & -> & H1); [lia|]. rewrite bind_Done.
    by apply (IH s1 (l ++ [e])).
  - destruct l as [|e l]; [done|]. destruct (run_fifo l ops) as [[l2 out2]|] eqn:E; [|done]. cbn in Hf. simplify_eq.
    destruct (pop_spec s l e Hr) as (s1 & -> & H1). rewrite bind_Done.
    destruct (IH s1 l out2 H1 E) as (s2 & -> & H2). rewrite bind_Done. by exists s2.
Qed.

Example keyboard_queue_refines_witness :
  let e k := mkEvent 0 1 k 0 in
  exists s', run_hub kbd_zero [OpPush (e 65); OpPush (e 66); OpPop; OpPush (e 67); OpPop] = Done (s', [e 65; e 66]) /\
    queue_rep s' [e 67] /\ HiGetKeyboardEventQueueNum s' = 1.
Proof.
  intros e. apply (keyboard_queue_refines kbd_zero []); [|reflexivity].
  split; try done. cbn. lia.
Defined.

(** ** Decoding the scan code stream *)

Inductive key_action :=
  | KPress (ext : bool) (c : Z)
  | KRelease (ext : bool) (c : Z)
  | PrtScPress | PrtScRelease | PausePress.

(** The byte sequences of scan code set 2. *)
Definition encode (a : key_action) : list Z :=
  match a with
  | KPress ext c => (if ext then [0xE0] else []) ++ [c]
  | KRelease ext c => (if ext then [0xE0] else []) ++ [0xF0; c]
  | PrtScPress => [0xE0; 0x12; 0xE0; 0x7C]
  | PrtScRelease => [0xE0; 0xF0; 0x7C; 0xE0; 0xF0; 0x12]
  | PausePress => [0xE1; 0x14; 0x77; 0xE1; 0xF0; 0x14; 0xF0; 0x77]
  end.

(** The codes that the tables hold and that do not begin a long sequence. *)
Definition action_ok (a : key_action) : Prop :=
  match a with
  | KPress true c => 0 <= c <= 0x7D /\ c <> 0x12
  | KRelease true c => 0 <= c <= 0x7D /\ c <> 0x7C
  | KPress false c | KRelease false c => 0 <= c <= 0x83
  | _ => True
  end.

(** What an action means: the key state changes, then one event per transition is queued. *)
Definition push_key (s : Kbd) (old new code : Z) : outcome Kbd :=
  HiPushKeyboardEvent s (mkEvent old new code (PS2_SampleKeymod s)).
Definition table_key (ext : bool) (c : Z) : Z :=
  default KC_INVALID ((if ext then ExtendedScancodeToKeycodeMap else StandardScancodeToKeycodeMap) !! Z.to_nat c).
Definition perform (s : Kbd) (a : key_action) : outcome Kbd :=
  match a with
  | KPress ext c => push_key (set_key s ext c KS_PRESSED) KS_RELEASED KS_PRESSED (table_key ext c)
  | KRelease ext c => push_key (set_key s ext c KS_RELEASED) KS_PRESSED KS_RELEASED (table_key ext c)
  | PrtScPress => s ← push_key s KS_RELEASED KS_PRESSED KC_PRINT_SCREEN; Done (set_key s false 0xF7 KS_PRESSED)
  | PrtScRelease => s ← push_key s KS_PRESSED KS_RELEASED KC_PRINT_SCREEN; Done (set_key s false 0xF7 KS_RELEASED)
  | PausePress => s ← push_key s KS_RELEASED KS_PRESSED KC_PAUSE; push_key s KS_PRESSED KS_RELEASED KC_PAUSE
  end.

Fixpoint run_bytes (s : Kbd) (bs : list Z) : outcome Kbd :=
  match bs with [] => Done s | b :: bs' => s ← PS2_KeyboardInterrupt s b; run_bytes s bs' end.
Fixpoint run_actions (s : Kbd) (acts : list key_action) : outcome Kbd :=
  match acts with [] => Done s | a :: acts' => s ← perform s a; run_actions s acts' end.

Definition idle (s : Kbd) : Prop := Listen s = 0 /\ ListenIdx s = 0.
Definition queue_ok (s : Kbd) : Prop := length (KeyboardEventQueue s) = 128%nat /\ 0 <= KeyevTailidx s < 128.

Lemma run_bytes_app s xs ys : run_bytes s (xs ++ ys) = s ← run_bytes s xs; run_bytes s ys.
Proof.
  revert s. induction xs as [|x xs IH]; intros s; [done|]. cbn [app run_bytes].
  destruct (PS2_KeyboardInterrupt s x); [|done..]. rewrite !bind_Done. apply IH.
Qed.

Lemma push_ok s e : queue_ok s -> exists s', HiPushKeyboardEvent s e = Done s' /\ queue_ok s' /\
  Listen s' = Listen s /\ ListenIdx s' = ListenIdx s.
Proof.
  intros [H1 H2]. unfold HiPushKeyboardEvent. rewrite decide_True by lia. eexists. split; [done|].
  rewrite next_index by done. split; [|done]. split; cbn [KeyboardEventQueue KeyevTailidx].
  - by rewrite length_insert.
  - zlia.
Qed.

Lemma table_key_ok (ext : bool) c :
  0 <= c <= (if ext then 0x7D else 0x83) -> PS2_ScancodeToKeycode ext c = Done (table_key ext c).
Proof.
  intros Hc. unfold PS2_ScancodeToKeycode, table_key.
  assert (Z.of_nat (length (if ext then ExtendedScancodeToKeycodeMap else StandardScancodeToKeycodeMap)) =
          if ext then 0x7E else 0x84) as Hl by by destruct ext.
  rewrite Hl, Z.gtb_ltb. destruct (Z.ltb_spec (4 * (if ext then 0x7E else 0x84)) c); [destruct ext; lia|].
  destruct (_ !! Z.to_nat c) eqn:E; [done|]. apply lookup_ge_None in E. destruct ext; lia.
Qed.

(** The handler on the last byte of a short sequence. *)
Lemma handle_key_spec s (ext broken : bool) c :
  queue_ok s -> 0 <= c <= (if ext then 0x7D else 0x83) ->
  has_flag (Listen s) LISTEN_EXTENDED = ext -> has_flag (Listen s) LISTEN_BROKEN = broken ->
  handle_key s c =
    s' ← perform (set_listen s 0 0) (if broken then KRelease ext c else KPress ext c); Done s'.
Proof.
  intros Hq Hc He Hb. unfold handle_key. rewrite He, Hb, table_key_ok, bind_Done by done.
  destruct s; unfold perform, push_key, HiPushKeyboardEvent, set_key, set_listen, PS2_SampleKeymod; simpl.
  destruct broken; simpl; destruct (decide _); done.
Qed.

Lemma perform_ok s a : queue_ok s -> idle s -> exists s', perform s a = Done s' /\ queue_ok s' /\ idle s'.
Proof.
  intros Hq [Hi1 Hi2].
  assert (forall s1 old new k, queue_ok s1 -> Listen s1 = 0 -> ListenIdx s1 = 0 ->
    exists s', push_key s1 old new k = Done s' /\ queue_ok s' /\ Listen s' = 0 /\ ListenIdx s' = 0) as Hp.
  { intros s1 old new k Hq1 Hl Hx. destruct (push_ok s1 (mkEvent old new k (PS2_SampleKeymod s1)) Hq1) as (s' & E & Hq' & H1 & H2).
    exists s'. unfold push_key. rewrite E. split; [done|]. split; [exact Hq'|]. split; congruence. }
  destruct a; cbn [perform].
  - apply Hp; done.
  - apply Hp; done.
  - destruct (Hp s KS_RELEASED KS_PRESSED KC_PRINT_SCREEN Hq Hi1 Hi2) as (s' & -> & Hq' & H1 & H2). by exists (set_key s' false 0xF7 KS_PRESSED).
  - destruct (Hp s KS_PRESSED KS_RELEASED KC_PRINT_SCREEN Hq Hi1 Hi2) as (s' & -> & Hq' & H1 & H2). by exists (set_key s' false 0xF7 KS_RELEASED).
  - destruct (Hp s KS_RELEASED KS_PRESSED KC_PAUSE Hq Hi1 Hi2) as (s' & -> & Hq' & H1 & H2). rewrite bind_Done. by apply Hp.
Qed.

(** A byte that is none of the prefixes reaches the plain key code. *)
Lemma interrupt_plain s c :
  has_flag (Listen s) LISTEN_PRTSCAS = false -> has_flag (Listen s) LISTEN_PRTSCDEAS = false ->
  has_flag (Listen s) LISTEN_PAUSE = false -> 0 <= c <= 0x83 ->
  (c = 0x12 -> ListenIdx s <> 1 \/ has_flag (Listen s) LISTEN_EXTENDED = false) ->
  (c = 0x7C -> ListenIdx s <> 2 \/ Z.land (Listen s) 6 <> 6) ->
  PS2_KeyboardInterrupt s c = handle_key s c.
Proof.
  intros H1 H2 H3 Hc H12 H7C. unfold PS2_KeyboardInterrupt. rewrite H1, H2, H3.
  destruct (Z.eqb_spec c PS2_XSCANCODE); [unfold PS2_XSCANCODE in *; lia|].
  destruct (Z.eqb_spec c PS2_BREAK_PREFIX); [unfold PS2_BREAK_PREFIX in *; lia|].
  destruct (Z.eqb_spec c 0xE1); [lia|].
  assert ((c =? 0x12) && ((ListenIdx s =? 1) && has_flag (Listen s) LISTEN_EXTENDED) = false) as ->.
  { destruct (Z.eqb_spec c 0x12); [|done]. destruct (H12 ltac:(done)) as [H| ->].
    - by rewrite (proj2 (Z.eqb_neq _ _) H).
    - by rewrite andb_false_r. }
  change (Z.lor LISTEN_EXTENDED LISTEN_BROKEN) with 6.
  assert ((c =? 0x7C) && ((ListenIdx s =? 2) && (Z.land (Listen s) 6 =? 6)) = false) as ->; [|done].
  destruct (Z.eqb_spec c 0x7C); [|done]. destruct (H7C ltac:(done)) as [H|H].
  - by rewrite (proj2 (Z.eqb_neq _ _) H).
  - by rewrite (proj2 (Z.eqb_neq _ _) H), andb_false_r.
Qed.

Lemma push_key_listen s l i old new k :
  push_key (set_listen s l i) old new k = s' ← push_key s old new k; Done (set_listen s' l i).
Proof. unfold push_key, HiPushKeyboardEvent. cbn [set_listen KeyboardEventQueue KeyevTailidx]. by destruct (decide _). Qed.

Lemma push_key_idle s old new k :
  queue_ok s -> idle s -> exists s', push_key s old new k = Done s' /\ queue_ok s' /\ idle s' /\
    forall l i, set_listen (set_listen s' l i) 0 0 = s'.
Proof.
  intros Hq [H1 H2]. destruct (push_ok s (mkEvent old new k (PS2_SampleKeymod s)) Hq) as (s' & E & Hq' & L1 & L2).
  exists s'. split; [exact E|]. split; [exact Hq'|]. split; [split; congruence|]. intros l i.
  destruct s'. unfold set_listen, set_key in *. simpl in *. congruence.
Qed.

Lemma first_prefix s : idle s -> PS2_KeyboardInterrupt s 0xE0 = Done (set_listen s 2 1).
Proof. intros [Hl Hi]. unfold PS2_KeyboardInterrupt. by rewrite Hl, Hi. Qed.
Lemma first_pause s : idle s -> PS2_KeyboardInterrupt s 0xE1 = Done (set_listen s 32 1).
Proof. intros [Hl Hi]. unfold PS2_KeyboardInterrupt. by rewrite Hl, Hi. Qed.

(** A byte inside a long sequence only moves the listening state. *)
Ltac prefix_step s l i :=
  match goal with |- context [PS2_KeyboardInterrupt ?a ?b] =>
    change (PS2_KeyboardInterrupt a b) with (Done (set_listen s l i)); rewrite bind_Done end.

Lemma decode_action s a :
  queue_ok s -> idle s -> action_ok a -> run_bytes s (encode a) = perform s a.
Proof.
  intros Hq [Hl Hi] Ha.
  assert (set_listen s 0 0 = s) as Hs by (destruct s; simpl in *; by subst).
  assert (forall m : outcome Kbd, (s' ← m; Done s') = m) as Hret by by intros [].
  destruct a as [ext c|ext c| | |]; cbn [encode].
  - destruct ext; cbn [app run_bytes].
    + rewrite first_prefix, bind_Done by done.
      rewrite interrupt_plain; [|done..|cbn in *; lia|cbn in *; lia|by left].
      rewrite (handle_key_spec _ true false c); [|done|cbn in *; lia|done|done].
      rewrite !Hret. f_equal. destruct s. simpl in *. by subst.
    + rewrite interrupt_plain; [|by rewrite Hl..|cbn in *; lia|left; lia|left; lia].
      rewrite (handle_key_spec s false false c); [|done|cbn in *; lia|by rewrite Hl|by rewrite Hl].
      by rewrite !Hret, Hs.
  - destruct ext; cbn [app run_bytes].
    + rewrite first_prefix, bind_Done by done.
      assert (PS2_KeyboardInterrupt (set_listen s 2 1) 0xF0 = Done (set_listen s 6 2)) as -> by done.
      rewrite bind_Done, interrupt_plain; [|done..|cbn in *; lia|by left|cbn in *; lia].
      rewrite (handle_key_spec _ true true c); [|done|cbn in *; lia|done|done].
      rewrite !Hret. f_equal. destruct s. simpl in *. by subst.
    + assert (PS2_KeyboardInterrupt s 0xF0 = Done (set_listen s 4 1)) as ->.
      { unfold PS2_KeyboardInterrupt. by rewrite Hl, Hi. }
      rewrite bind_Done, interrupt_plain; [|done..|cbn in *; lia|by right|by right].
      rewrite (handle_key_spec _ false true c); [|done|cbn in *; lia|done|done].
      rewrite !Hret. f_equal. destruct s. simpl in *. by subst.
  - assert (run_bytes s [0xE0; 0x12; 0xE0; 0x7C] =
      s' ← push_key (set_listen s 10 4) KS_RELEASED KS_PRESSED KC_PRINT_SCREEN;
      Done (set_listen (set_key s' false 0xF7 KS_PRESSED) 0 0)) as ->.
    { cbn [run_bytes]. rewrite first_prefix, bind_Done by done. prefix_step s 10 2. prefix_step s 10 3. 
      match goal with |- context [PS2_KeyboardInterrupt ?a ?b] => change (PS2_KeyboardInterrupt a b) with (handle_prtscas a) end.
      unfold handle_prtscas, push_key. cbn [ListenIdx set_listen Z.eqb Pos.eqb]. change (u32 (3 + 1)) with 4.
      by destruct (HiPushKeyboardEvent _ _). }
    rewrite push_key_listen. cbn [perform].
    destruct (push_key_idle s KS_RELEASED KS_PRESSED KC_PRINT_SCREEN Hq (conj Hl Hi)) as (s' & -> & _ & _ & Hr).
    rewrite !bind_Done. f_equal. specialize (Hr 10 4). destruct s'. unfold set_listen, set_key in *. simpl in *. congruence.
  - assert (run_bytes s [0xE0; 0xF0; 0x7C; 0xE0; 0xF0; 0x12] =
      s' ← push_key (set_listen s 22 6) KS_PRESSED KS_RELEASED KC_PRINT_SCREEN;
      Done (set_listen (set_key s' false 0xF7 KS_RELEASED) 0 0)) as ->.
    { cbn [run_bytes]. rewrite first_prefix, bind_Done by done. prefix_step s 6 2. prefix_step s 22 3. prefix_step s 22 4. prefix_step s 22 5. 
      match goal with |- context [PS2_KeyboardInterrupt ?a ?b] => change (PS2_KeyboardInterrupt a b) with (handle_prtscdeas a) end.
      unfold handle_prtscdeas, push_key. cbn [ListenIdx set_listen Z.eqb Pos.eqb]. change (u32 (5 + 1)) with 6.
      by destruct (HiPushKeyboardEvent _ _). }
    rewrite push_key_listen. cbn [perform].
    destruct (push_key_idle s KS_PRESSED KS_RELEASED KC_PRINT_SCREEN Hq (conj Hl Hi)) as (s' & -> & _ & _ & Hr).
    rewrite !bind_Done. f_equal. specialize (Hr 10 4). destruct s'. unfold set_listen, set_key in *. simpl in *. congruence.
  - assert (run_bytes s [0xE1; 0x14; 0x77; 0xE1; 0xF0; 0x14; 0xF0; 0x77] =
      s1 ← push_key (set_listen s 32 8) KS_RELEASED KS_PRESSED KC_PAUSE;
      s2 ← push_key s1 KS_PRESSED KS_RELEASED KC_PAUSE; Done (set_listen s2 0 0)) as ->.
    { cbn [run_bytes]. rewrite first_pause, bind_Done by done. prefix_step s 32 2. prefix_step s 32 3. prefix_step s 32 4. prefix_step s 32 5. prefix_step s 32 6. prefix_step s 32 7. 
      match goal with |- context [PS2_KeyboardInterrupt ?a ?b] => change (PS2_KeyboardInterrupt a b) with (handle_pause a) end.
      unfold handle_pause, push_key. cbn [ListenIdx set_listen Z.eqb Pos.eqb]. change (u32 (7 + 1)) with 8.
      destruct (HiPushKeyboardEvent _ _); [|done..]. rewrite !bind_Done. by destruct (HiPushKeyboardEvent _ _). }
    rewrite push_key_listen. cbn [perform].
    destruct (push_key_idle s KS_RELEASED KS_PRESSED KC_PAUSE Hq (conj Hl Hi)) as (s1 & -> & Hq1 & Hi1 & _).
    rewrite !bind_Done, push_key_listen.
    destruct (push_key_idle s1 KS_PRESSED KS_RELEASED KC_PAUSE Hq1 Hi1) as (s2 & -> & _ & _ & Hr).
    rewrite !bind_Done. by rewrite Hr.
Qed.

(** C32: from an idle driver, the bytes of any sequence of key presses, releases,
    Print Screen and Pause keys drive the interrupt handler exactly through
    the meaning of those keys (key states, modifiers sampled after the change, events in order),
    without fault, and leave it idle for the next key. *)
Theorem ps2_decodes_stream s acts :
  queue_ok s -> idle s -> Forall action_ok acts ->
  exists s', run_bytes s (acts ≫= encode) = Done s' /\ run_actions s acts = Done s' /\ queue_ok s' /\ idle s'.
Proof.
  intros Hq Hi Ha. revert s Hq Hi. induction Ha as [|a acts Ha Hacts IH]; intros s Hq Hi; [by exists s|].
  cbn [mbind list_bind run_actions]. rewrite run_bytes_app, (decode_action s a Hq Hi Ha).
  destruct (perform_ok s a Hq Hi) as (s1 & -> & Hq1 & Hi1). rewrite !bind_Done. by apply IH.
Qed.

Definition sample_actions : list key_action :=
  [KPress false PS2_SCANCODE_LSHIFT; KPress true 0x75; PrtScPress; PrtScRelease; KRelease true 0x75; PausePress;
   KRelease false PS2_SCANCODE_LSHIFT].
Example ps2_decodes_stream_witness :
  sample_actions ≫= encode = [0x12; 0xE0; 0x75; 0xE0; 0x12; 0xE0; 0x7C; 0xE0; 0xF0; 0x7C; 0xE0; 0xF0; 0x12;
    0xE0; 0xF0; 0x75; 0xE1; 0x14; 0x77; 0xE1; 0xF0; 0x14; 0xF0; 0x77; 0xF0; 0x12] /\
  exists s', run_bytes kbd_zero (sample_actions ≫= encode) = Done s' /\ run_actions kbd_zero sample_actions = Done s' /\
    queue_ok s' /\ idle s'.
Proof.
  split; [reflexivity|].
  apply (ps2_decodes_stream kbd_zero sample_actions); [split; [done|cbn; lia]|done|].
  unfold sample_actions, PS2_SCANCODE_LSHIFT. repeat (apply Forall_cons; split; [cbn; first [exact I | lia]|]). constructor.
Defined.

(** ** Divergences *)

(** A 129th event overwrites the oldest one without moving the head: the next
    pop returns the newest event. *)
Example queue_overflow :
  let e k := mkEvent 0 1 k 0 in
  ('(s, _) ← run_hub kbd_zero (map (fun n => OpPush (e (Z.of_nat n))) (seq 0 129));
   '(_, x) ← HiPopKeyboardEvent s; Done (HiGetKeyboardEventQueueNum s, Keycode x)) = Done (128, 128).
Proof. vm_compute. reflexivity. Qed.
(** Popping an empty queue leaves 2^32 - 1 pending events. *)
Example queue_underflow :
  ('(s, _) ← HiPopKeyboardEvent kbd_zero; Done (HiGetKeyboardEventQueueNum s)) = Done (2 ^ 32 - 1).
Proof. vm_compute. reflexivity. Qed.
(** The acknowledge byte of a command reads past the scan code table. *)
Example interrupt_out_of_bounds : PS2_KeyboardInterrupt kbd_zero 0xFA = Fault.
Proof. vm_compute. reflexivity. Qed.
(** After a resend request the loop's increment skips the first byte: only the
    second byte of the command is sent again. *)
Example resend_skips_first_byte :
  PS2_IssueCommand (mkPorts [0; 1; 0xFE; 0; 1; 0xFA] []) [0xF0; 0x02] false 0 =
    Done (mkPorts [] [(PS2_PORT_DATA, 0xF0); (PS2_PORT_DATA, 0x02)], 0xFA).
Proof. vm_compute. reflexivity. Qed.
