(* ===== verification/Timer.v ===== *)
(** * Per-processor timers (Kernel/Source/CPU/PerCpu.c, Kernel/Source/Intmgmt/Timer.c)

    A timer queue is the list of the events its Next pointers link; each event
    belongs to one queue.  HeapAcquire's answer is an argument of the
    operations that allocate, and the callbacks an interrupt invokes are a
    parameter. *)
From Stdlib Require Import ZArith Lia.
From stdpp Require Import base numbers list sorting.
From S2P Require Import Prelude.
Open Scope Z_scope.

(** ** State *)

Record TimerEvent := mkTimerEvent { LastTickCount : Z; Callback : Z; UserParam : Z; dwFlags : Z }.

(** TimerInfo of one processor and its APIC's initial count register. *)
Record Cpu := mkCpu {
  CalibrationValue : Z;
  TimerRoot : list TimerEvent; TimerDeferredRoot : list TimerEvent;
  bInTimerInt : bool; SleepCounter : Z;
  ApicInitialCount : Z
}.

Definition DWORD_MAX : Z := 0xFFFFFFFF.
Definition TIMER_EVENT_FLAGS_USECONDS_AS_TICKS : Z := 2 ^ 31.
Definition MAX_CONCURRENT_SLEEPS : Z := 8.
Definition KR_MDCODE_ABSURD_CONCURRENT_SLEEPS : Z := 0x4009.
Definition KR_MDCODE_SLEEP_INSIDE_TIMER_CALLBACK : Z := 0x400A.

Definition ApicSetTimerCount (c : Cpu) (n : Z) : Cpu :=
  mkCpu (CalibrationValue c) (TimerRoot c) (TimerDeferredRoot c) (bInTimerInt c) (SleepCounter c) (u32 n).
Definition set_roots (c : Cpu) (root deferred : list TimerEvent) : Cpu :=
  mkCpu (CalibrationValue c) root deferred (bInTimerInt c) (SleepCounter c) (ApicInitialCount c).
Definition set_in_int (c : Cpu) (b : bool) : Cpu :=
  mkCpu (CalibrationValue c) (TimerRoot c) (TimerDeferredRoot c) b (SleepCounter c) (ApicInitialCount c).
Definition set_sleep (c : Cpu) (n : Z) : Cpu :=
  mkCpu (CalibrationValue c) (TimerRoot c) (TimerDeferredRoot c) (bInTimerInt c) n (ApicInitialCount c).

(** ** SetTimer *)

(** The position of the event to insert after, [None] for NULLPTR: [prev] is
    the position of Prev and [i] that of Event. *)
Fixpoint insert_point_loop (q : list TimerEvent) (prev : option nat) (i : nat) (NrTicks : Z) : option nat :=
  match q with
  | [] => prev
  | e :: q' => if NrTicks <=? LastTickCount e then prev else insert_point_loop q' (Some i) (S i) NrTicks
  end.
Definition FindTimerEventInsertPoint (Root : list TimerEvent) (NrTicks : Z) : option nat :=
  insert_point_loop Root None 0 NrTicks.

Definition insert_event (q : list TimerEvent) (e : TimerEvent) : list TimerEvent :=
  match FindTimerEventInsertPoint q (LastTickCount e) with
  | Some i => take (S i) q ++ e :: drop (S i) q
  | None => e :: q
  end.

(** [got]: HeapAcquire returned a block. *)
Definition SetTimer (got : bool) (c : Cpu) (uSeconds callback param flags : Z) : outcome (Cpu * bool) :=
  let c := ApicSetTimerCount c 0 in
  let as_ticks := has_flag flags TIMER_EVENT_FLAGS_USECONDS_AS_TICKS in
  let NrTicks := if as_ticks then uSeconds else u64 (uSeconds * CalibrationValue c) in
  let flags := if as_ticks then Z.land flags (u32 (Z.lnot TIMER_EVENT_FLAGS_USECONDS_AS_TICKS)) else flags in
  if negb got then Done (ApicSetTimerCount c (ApicInitialCount c), false)
  else
    let Event := mkTimerEvent NrTicks callback param flags in
    let c := if bInTimerInt c then set_roots c (TimerRoot c) (insert_event (TimerDeferredRoot c) Event)
             else set_roots c (insert_event (TimerRoot c) Event) (TimerDeferredRoot c) in
    if negb (bInTimerInt c) then
      root ← checked (head (TimerRoot c));
      Done (ApicSetTimerCount c (Z.min DWORD_MAX (LastTickCount root)), true)
    else Done (c, true).

(** ** Sleep *)

Fixpoint ctz_loop (fuel : nat) (x i : Z) : Z :=
  match fuel with O => i | S fuel' => if Z.testbit x i then i else ctz_loop fuel' x (i + 1) end.

(** Sleep up to its halt loop: the ballot it waits on. *)
Definition Sleep (got : bool) (cb_done : Z) (c : Cpu) (uSeconds : Z) : outcome (Cpu * Z) :=
  if bInTimerInt c then Melt KR_MDCODE_SLEEP_INSIDE_TIMER_CALLBACK
  else
    let Ballot := if SleepCounter c =? 0 then 0 else ctz_loop 32 (SleepCounter c) 0 in
    if negb (Ballot <? MAX_CONCURRENT_SLEEPS) then Melt KR_MDCODE_ABSURD_CONCURRENT_SLEEPS
    else
      let c := set_sleep c (u8 (Z.lor (SleepCounter c) (Z.shiftl 1 Ballot))) in
      '(c, _) ← SetTimer got c uSeconds cb_done Ballot 0;
      Done (c, Ballot).
Definition sleeping (c : Cpu) (Ballot : Z) : bool := Z.testbit (SleepCounter c) Ballot.
Definition SleepDoneCallback (c : Cpu) (Aux : Z) : Cpu :=
  set_sleep c (u8 (Z.land (SleepCounter c) (Z.lnot (Z.shiftl 1 (u8 Aux))))).

(** ** The timer interrupt *)

Section Interrupt.
(** A callback with its parameter. *)
Context (callback : Z -> Z -> Cpu -> outcome Cpu).

(** The first loop: the remaining events and the callbacks invoked. *)
Fixpoint expire_loop (q : list TimerEvent) (dwInitialTicks : Z) (c : Cpu) (calls : list TimerEvent)
    : outcome (Cpu * list TimerEvent * list TimerEvent) :=
  match q with
  | [] => Done (c, [], calls)
  | e :: q' =>
      if LastTickCount e <=? dwInitialTicks then
        '(c, calls) ← (if negb (Callback e =? 0)
                       then c ← callback (Callback e) (UserParam e) c; Done (c, calls ++ [e]) else Done (c, calls));
        expire_loop q' dwInitialTicks (set_roots c q' (TimerDeferredRoot c)) calls
      else Done (c, e :: q', calls)
  end.

Definition elapse (d : Z) (e : TimerEvent) : TimerEvent :=
  mkTimerEvent (u64 (LastTickCount e - d)) (Callback e) (UserParam e) (dwFlags e).

(** The deferred events, inserted with SetTimer one after the other. *)
Fixpoint integrate (got : nat -> bool) (n : nat) (q : list TimerEvent) (c : Cpu) : outcome Cpu :=
  match q with
  | [] => Done c
  | e :: q' =>
      '(c, _) ← SetTimer (got n) c (LastTickCount e) (Callback e) (UserParam e)
                  (Z.lor (dwFlags e) TIMER_EVENT_FLAGS_USECONDS_AS_TICKS);
      integrate got (S n) q' c
  end.

Definition IntmgmtTimerInterrupt (got : nat -> bool) (c : Cpu) : outcome (Cpu * list TimerEvent) :=
  let c := set_in_int c true in
  let dwInitialTicks := ApicInitialCount c in
  '(c, rest, calls) ← expire_loop (TimerRoot c) dwInitialTicks c [];
  let c := set_roots c (map (elapse dwInitialTicks) rest) (TimerDeferredRoot c) in
  let c := set_in_int c false in
  c ← integrate got 0 (TimerDeferredRoot c) c;
  let c := set_roots c (TimerRoot c) [] in
  let c := match TimerRoot c with
           | [] => c
           | e :: _ => ApicSetTimerCount c (Z.min DWORD_MAX (LastTickCount e))
           end in
  Done (c, calls).
End Interrupt.

(** ** Sorted queues *)

Definition queue_sorted (q : list TimerEvent) : Prop := StronglySorted (fun a b => LastTickCount a <= LastTickCount b) q.
Definition counts_ok (q : list TimerEvent) : Prop := Forall (fun e => 0 <= LastTickCount e < 2 ^ 64) q.

(** Ordered insertion, before the events with the same count. *)
Fixpoint ordered_insert (q : list TimerEvent) (e : TimerEvent) : list TimerEvent :=
  match q with
  | [] => [e]
  | x :: q' => if LastTickCount e <=? LastTickCount x then e :: q else x :: ordered_insert q' e
  end.

Fixpoint below (q : list TimerEvent) (t : Z) : nat :=
  match q with [] => O | x :: q' => if t <=? LastTickCount x then O else S (below q' t) end.

Lemma insert_point_loop_spec q : forall prev i t,
  insert_point_loop q prev i t = match below q t with O => prev | S n => Some (i + n)%nat end.
Proof.
  induction q as [|x q IH]; intros prev i t; [done|]. cbn [insert_point_loop below].
  destruct (t <=? LastTickCount x); [done|]. rewrite IH. destruct (below q t); f_equal; lia.
Qed.

Lemma insert_event_ordered q e : insert_event q e = ordered_insert q e.
Proof.
  assert (insert_event q e = take (below q (LastTickCount e)) q ++ e :: drop (below q (LastTickCount e)) q) as ->.
  { unfold insert_event, FindTimerEventInsertPoint. rewrite insert_point_loop_spec.
    by destruct (below q (LastTickCount e)). }
  induction q as [|x q IH]; [done|]. cbn [below ordered_insert].
  destruct (LastTickCount e <=? LastTickCount x); [done|]. cbn [take drop app]. by rewrite IH.
Qed.

Lemma ordered_insert_perm q e : ordered_insert q e ≡ₚ e :: q.
Proof.
  induction q as [|x q IH]; [done|]. cbn [ordered_insert]. destruct (_ <=? _); [done|]. rewrite IH. apply Permutation_swap.
Qed.

Lemma ordered_insert_sorted q e : queue_sorted q -> queue_sorted (ordered_insert q e).
Proof.
  unfold queue_sorted. induction 1 as [|x q Hq IH Hx]; [repeat constructor|]. cbn [ordered_insert].
  destruct (Z.leb_spec (LastTickCount e) (LastTickCount x)).
  - constructor; [by constructor|]. constructor; [done|]. eapply Forall_impl; [exact Hx|]. simpl. lia.
  - constructor; [done|]. rewrite ordered_insert_perm. constructor; [lia|done].
Qed.

Lemma ordered_insert_head q e : exists x q', ordered_insert q e = x :: q'.
Proof. destruct q as [|x q]; simpl; [eauto|]. destruct (_ <=? _); eauto. Qed.

(** The event SetTimer creates. *)
Definition timer_ticks (c : Cpu) (uSeconds flags : Z) : Z :=
  if has_flag flags TIMER_EVENT_FLAGS_USECONDS_AS_TICKS then uSeconds else u64 (uSeconds * CalibrationValue c).
Definition timer_flags (flags : Z) : Z :=
  if has_flag flags TIMER_EVENT_FLAGS_USECONDS_AS_TICKS
  then Z.land flags (u32 (Z.lnot TIMER_EVENT_FLAGS_USECONDS_AS_TICKS)) else flags.
Definition new_event (c : Cpu) (uSeconds callback param flags : Z) : TimerEvent :=
  mkTimerEvent (timer_ticks c uSeconds flags) callback param (timer_flags flags).

Lemma set_timer_outside c us cb up fl :
  bInTimerInt c = false -> exists x q,
    ordered_insert (TimerRoot c) (new_event c us cb up fl) = x :: q /\
    SetTimer true c us cb up fl =
      Done (ApicSetTimerCount (set_roots c (x :: q) (TimerDeferredRoot c)) (Z.min DWORD_MAX (LastTickCount x)), true).
Proof.
  intros Hi. destruct (ordered_insert_head (TimerRoot c) (new_event c us cb up fl)) as (x & q & E).
  exists x, q. split; [done|]. destruct c; unfold new_event, timer_ticks, timer_flags in E. simpl in *. subst.
  unfold SetTimer, set_roots, ApicSetTimerCount. simpl. by rewrite insert_event_ordered, E.
Qed.

Lemma set_timer_inside c us cb up fl :
  bInTimerInt c = true ->
  SetTimer true c us cb up fl =
    Done (ApicSetTimerCount (set_roots c (TimerRoot c) (ordered_insert (TimerDeferredRoot c) (new_event c us cb up fl))) 0, true).
Proof.
  intros Hi. destruct c; simpl in *. subst. unfold SetTimer, set_roots, ApicSetTimerCount. simpl.
  by rewrite insert_event_ordered.
Qed.

(** outside the timer interrupt SetTimer inserts its event into the sorted
    queue, keeps it sorted, loses no event, leaves the deferred queue alone, and reloads the
    APIC with the smallest count, capped at the register's width; inside the
    interrupt it only inserts into the sorted deferred queue and stops the APIC. *)
Theorem set_timer_contract c us cb up fl :
  queue_sorted (TimerRoot c) -> queue_sorted (TimerDeferredRoot c) -> counts_ok (TimerRoot c) -> 0 <= us < 2 ^ 64 ->
  let e := new_event c us cb up fl in
  exists c', SetTimer true c us cb up fl = Done (c', true) /\
    queue_sorted (TimerRoot c') /\ queue_sorted (TimerDeferredRoot c') /\
    if bInTimerInt c
    then TimerDeferredRoot c' ≡ₚ e :: TimerDeferredRoot c /\ TimerRoot c' = TimerRoot c /\ ApicInitialCount c' = 0
    else TimerRoot c' ≡ₚ e :: TimerRoot c /\ TimerDeferredRoot c' = TimerDeferredRoot c /\
      exists x q, TimerRoot c' = x :: q /\ ApicInitialCount c' = Z.min DWORD_MAX (LastTickCount x).
Proof.
  intros Hs Hd Hc Hus e. destruct (bInTimerInt c) eqn:Hi.
  - rewrite (set_timer_inside c us cb up fl Hi). eexists. split; [done|]. fold e.
    split; [done|]. split; [by apply ordered_insert_sorted|]. split; [apply ordered_insert_perm|done].
  - destruct (set_timer_outside c us cb up fl Hi) as (x & q & Eo & E). fold e in Eo.
    pose proof (ordered_insert_sorted _ e Hs) as Hs'. pose proof (ordered_insert_perm (TimerRoot c) e) as Hp.
    rewrite Eo in Hs', Hp. eexists. split; [exact E|]. cbn [ApicSetTimerCount set_roots TimerRoot TimerDeferredRoot ApicInitialCount].
    split; [done|]. split; [done|]. split; [done|]. split; [done|]. exists x, q. split; [done|].
    apply u32_small. unfold DWORD_MAX. enough (0 <= LastTickCount x) by lia.
    assert (counts_ok (e :: TimerRoot c)) as Hall.
    { constructor; [|done]. cbn [e new_event LastTickCount]. unfold timer_ticks. destruct (has_flag _ _); [done|apply u64_range]. }
    unfold counts_ok in Hall. rewrite <- Hp in Hall. inversion Hall; subst. lia.
Qed.

Definition sample_event (t cb : Z) : TimerEvent := mkTimerEvent t cb 0 0.
Definition sample_cpu : Cpu := mkCpu 100 [sample_event 500 1; sample_event 500 2; sample_event 9000000000 3] [] false 0 500.

Example set_timer_contract_witness :
  exists c', SetTimer true sample_cpu 3 4 7 0 = Done (c', true) /\
    queue_sorted (TimerRoot c') /\ queue_sorted (TimerDeferredRoot c') /\
    (TimerRoot c' ≡ₚ new_event sample_cpu 3 4 7 0 :: TimerRoot sample_cpu /\ TimerDeferredRoot c' = [] /\
      exists x q, TimerRoot c' = x :: q /\ ApicInitialCount c' = Z.min DWORD_MAX (LastTickCount x)).
Proof.
  apply (set_timer_contract sample_cpu 3 4 7 0); [repeat constructor; done|constructor|repeat constructor; done|done].
Defined.

(** ** The interrupt *)

Definition expired (d : Z) (e : TimerEvent) : Prop := LastTickCount e <= d.
#[global] Instance expired_dec d e : Decision (expired d e).
Proof. unfold expired. apply _. Defined.
Definition has_callback (e : TimerEvent) : Prop := Callback e <> 0.
#[global] Instance has_callback_dec e : Decision (has_callback e).
Proof. unfold has_callback. apply _. Defined.

Lemma Forall_filter_sub {A} (P Q : A -> Prop) `{forall x, Decision (Q x)} l : Forall P l -> Forall P (filter Q l).
Proof. induction 1 as [|x l Hx Hl IH]; [constructor|]. rewrite filter_cons. destruct (decide (Q x)); [by constructor|done]. Qed.
Lemma Forall_filter_self {A} (Q : A -> Prop) `{forall x, Decision (Q x)} l : Forall Q (filter Q l).
Proof. apply Forall_forall. intros x Hx. by apply list_elem_of_filter in Hx as [? _]. Qed.
Lemma filter_sorted (Q : TimerEvent -> Prop) `{forall x, Decision (Q x)} q : queue_sorted q -> queue_sorted (filter Q q).
Proof.
  induction 1 as [|e q Hq IH He]; [constructor|]. rewrite filter_cons. destruct (decide _); [|done].
  constructor; [done|]. by apply Forall_filter_sub.
Qed.

Section InterruptProofs.
Context (callback : Z -> Z -> Cpu -> outcome Cpu).

(** What callbacks may do in the interrupt: allocate timers, which only grow
    the sorted deferred queue, and change anything but the main queue. *)
Definition callbacks_defer : Prop :=
  forall cb up c, bInTimerInt c = true -> queue_sorted (TimerDeferredRoot c) ->
    exists c', callback cb up c = Done c' /\ TimerRoot c' = TimerRoot c /\ bInTimerInt c' = true /\
      queue_sorted (TimerDeferredRoot c') /\ CalibrationValue c' = CalibrationValue c.

Context (Hcb : callbacks_defer).

(** On a sorted queue the loop stops at the first unexpired event. *)
Lemma expire_loop_spec q d : forall c calls,
  queue_sorted q -> TimerRoot c = q -> bInTimerInt c = true -> queue_sorted (TimerDeferredRoot c) ->
  exists c', expire_loop callback q d c calls =
      Done (c', filter (fun e => ~ expired d e) q, calls ++ filter has_callback (filter (expired d) q)) /\
    TimerRoot c' = filter (fun e => ~ expired d e) q /\ bInTimerInt c' = true /\
    queue_sorted (TimerDeferredRoot c').
Proof using Hcb.
  induction q as [|e q IH]; intros c calls Hs Hr Hi Hd.
  { exists c. cbn. rewrite app_nil_r. done. }
  cbn [expire_loop]. inversion Hs as [|? ? Hq He]; subst. rewrite !filter_cons.
  destruct (Z.leb_spec (LastTickCount e) d) as [Hle|Hle].
  - rewrite (decide_True (P := expired d e)) by done. rewrite (decide_False (P := ~ expired d e)) by (unfold expired; lia).
    rewrite filter_cons. destruct (Z.eqb_spec (Callback e) 0) as [H0|H0]; cbn [negb].
    + rewrite bind_Done, (decide_False (P := has_callback e)) by (intros H; by apply H). by apply IH.
    + rewrite (decide_True (P := has_callback e)) by done.
      destruct (Hcb (Callback e) (UserParam e) c Hi Hd) as (c1 & -> & Hr1 & Hi1 & Hd1 & _). rewrite !bind_Done.
      destruct (IH (set_roots c1 q (TimerDeferredRoot c1)) (calls ++ [e])) as (c' & E & H); [done..|].
      exists c'. rewrite E, <- app_assoc. done.
  - rewrite (decide_False (P := expired d e)) by (unfold expired; lia).
    rewrite (decide_True (P := ~ expired d e)) by (unfold expired; lia).
    assert (Forall (fun x => ~ expired d x) q) as Hall.
    { eapply Forall_impl; [exact He|]. unfold expired. simpl. lia. }
    assert (filter (fun x => ~ expired d x) q = q) as ->.
    { clear -Hall. induction Hall as [|x q Hx Hq IH]; [done|]. by rewrite filter_cons, decide_True, IH. }
    assert (filter (expired d) q = []) as ->.
    { clear -Hall. induction Hall as [|x q Hx Hq IH]; [done|]. by rewrite filter_cons, decide_False, IH. }
    exists c. cbn. rewrite app_nil_r. done.
Qed.

(** The event a deferred event becomes: the ticks flag is removed again. *)
Definition integrated (e : TimerEvent) : TimerEvent :=
  mkTimerEvent (LastTickCount e) (Callback e) (UserParam e)
    (timer_flags (Z.lor (dwFlags e) TIMER_EVENT_FLAGS_USECONDS_AS_TICKS)).

Lemma ticks_flag_set f : has_flag (Z.lor f TIMER_EVENT_FLAGS_USECONDS_AS_TICKS) TIMER_EVENT_FLAGS_USECONDS_AS_TICKS = true.
Proof.
  unfold TIMER_EVENT_FLAGS_USECONDS_AS_TICKS. rewrite has_flag_pow2, Z.lor_spec, Z.pow2_bits_true by lia.
  apply orb_true_r.
Qed.

Lemma integrate_spec q : forall n c,
  bInTimerInt c = false -> queue_sorted (TimerRoot c) ->
  exists c', integrate (fun _ => true) n q c = Done c' /\ queue_sorted (TimerRoot c') /\
    TimerRoot c' ≡ₚ map integrated q ++ TimerRoot c /\ bInTimerInt c' = false.
Proof.
  induction q as [|e q IH]; intros n c Hi Hs; [by exists c|]. cbn [integrate map].
  destruct (set_timer_outside c (LastTickCount e) (Callback e) (UserParam e)
    (Z.lor (dwFlags e) TIMER_EVENT_FLAGS_USECONDS_AS_TICKS) Hi) as (x & q' & Eo & ->).
  rewrite bind_Done. set (c1 := ApicSetTimerCount _ _).
  assert (TimerRoot c1 = ordered_insert (TimerRoot c) (integrated e)) as Er.
  { cbn [c1 ApicSetTimerCount set_roots TimerRoot]. rewrite <- Eo. f_equal. unfold new_event, integrated. f_equal.
    unfold timer_ticks. by rewrite ticks_flag_set. }
  destruct (IH (S n) c1) as (c' & E & H1 & H2 & H3).
  { done. } { rewrite Er. by apply ordered_insert_sorted. }
  exists c'. split_and!; [done|done| |done]. rewrite H2, Er, ordered_insert_perm. cbn [app]. by rewrite Permutation_middle.
Qed.

Lemma elapse_sorted d q :
  counts_ok q -> Forall (fun e => ~ expired d e) q -> 0 <= d -> queue_sorted q -> queue_sorted (map (elapse d) q).
Proof.
  intros Hc Hn Hd. unfold queue_sorted. induction 1 as [|e q Hq IH He]; [constructor|].
  inversion Hc; inversion Hn; subst. cbn [map]. constructor; [by apply IH|]. apply Forall_map.
  rewrite Forall_forall in *. intros x Hx. unfold elapse, expired in *. cbn [LastTickCount].
  specialize (He x Hx). match goal with H : forall x, x ∈ q -> 0 <= _ < _ |- _ => specialize (H x Hx) end.
  rewrite !u64_small by lia. lia.
Qed.

Lemma elapse_ok d q :
  counts_ok q -> Forall (fun e => ~ expired d e) q -> 0 <= d -> counts_ok (map (elapse d) q).
Proof.
  intros Hc Hn Hd. apply Forall_map. unfold counts_ok in Hc. rewrite Forall_forall in *. intros e He. simpl.
  apply u64_range.
Qed.

Lemma timer_interrupt_spec c :
  queue_sorted (TimerRoot c) -> counts_ok (TimerRoot c) -> queue_sorted (TimerDeferredRoot c) -> 0 <= ApicInitialCount c ->
  let d := ApicInitialCount c in
  exists c' D, IntmgmtTimerInterrupt callback (fun _ => true) c =
      Done (c', filter has_callback (filter (expired d) (TimerRoot c))) /\
    queue_sorted (TimerRoot c') /\ TimerDeferredRoot c' = [] /\ bInTimerInt c' = false /\
    TimerRoot c' ≡ₚ map (elapse d) (filter (fun e => ~ expired d e) (TimerRoot c)) ++ D /\
    (forall x q, TimerRoot c' = x :: q -> ApicInitialCount c' = u32 (Z.min DWORD_MAX (LastTickCount x))).
Proof using Hcb.
  intros Hs Hc Hd H0 d. unfold IntmgmtTimerInterrupt. cbn [set_in_int TimerRoot ApicInitialCount]. fold d.
  destruct (expire_loop_spec (TimerRoot c) d (set_in_int c true) [] Hs eq_refl eq_refl Hd) as (c1 & -> & Hr1 & Hi1 & Hd1).
  rewrite bind_Done. set (rest := filter (fun e => ~ expired d e) (TimerRoot c)) in *.
  set (c2 := set_in_int _ false).
  assert (queue_sorted (TimerRoot c2)) as Hs2.
  { cbn. apply elapse_sorted; [by apply Forall_filter_sub|by apply Forall_filter_self|done|by apply filter_sorted]. }
  destruct (integrate_spec (TimerDeferredRoot c2) 0 c2 eq_refl Hs2) as (c3 & -> & Hs3 & Hp3 & Hi3). rewrite bind_Done.
  set (c4 := match _ with [] => _ | _ :: _ => _ end).
  assert (TimerRoot c4 = TimerRoot c3 /\ TimerDeferredRoot c4 = [] /\ bInTimerInt c4 = false) as (E1 & E2 & E3).
  { unfold c4. cbn [set_roots TimerRoot]. by destruct (TimerRoot c3). }
  exists c4, (map integrated (TimerDeferredRoot c2)). rewrite E1. split_and!; [done|done|done|done| |].
  - rewrite Hp3. cbn. apply Permutation_app_comm.
  - intros x q Ex. unfold c4. cbn [set_roots TimerRoot]. by rewrite Ex.
Qed.
End InterruptProofs.

(** With callbacks that only defer timers, a timer interrupt on a sorted
    queue invokes exactly the callbacks of the events whose count the elapsed initial count covers, in
    queue order, removes those events, lowers every other count by the
    elapsed ticks, moves the deferred events into the queue, keeps it sorted and reloads the APIC from its head. *)
Theorem timer_interrupt_contract callback c :
  callbacks_defer callback -> queue_sorted (TimerRoot c) -> counts_ok (TimerRoot c) ->
  queue_sorted (TimerDeferredRoot c) -> 0 <= ApicInitialCount c ->
  let d := ApicInitialCount c in
  exists c' D, IntmgmtTimerInterrupt callback (fun _ => true) c =
      Done (c', filter has_callback (filter (expired d) (TimerRoot c))) /\
    queue_sorted (TimerRoot c') /\ TimerDeferredRoot c' = [] /\ bInTimerInt c' = false /\
    TimerRoot c' ≡ₚ map (elapse d) (filter (fun e => ~ expired d e) (TimerRoot c)) ++ D /\
    (forall x q, TimerRoot c' = x :: q -> ApicInitialCount c' = u32 (Z.min DWORD_MAX (LastTickCount x))).
Proof. intros Hcb. by apply timer_interrupt_spec. Qed.

(** A callback that sets a timer of its own. *)
Definition rearm (cb up : Z) (c : Cpu) : outcome Cpu := '(c, _) ← SetTimer true c 50 9 up 0; Done c.
Lemma rearm_defers : callbacks_defer rearm.
Proof.
  intros cb up c Hi Hd. unfold rearm. rewrite (set_timer_inside c 50 9 up 0 Hi), bind_Done. eexists. split; [done|].
  cbn. split_and!; [done|done|by apply ordered_insert_sorted|done].
Defined.

Example timer_interrupt_contract_witness :
  exists c' D, IntmgmtTimerInterrupt rearm (fun _ => true) sample_cpu =
      Done (c', filter has_callback (filter (expired 500) (TimerRoot sample_cpu))) /\
    queue_sorted (TimerRoot c') /\ TimerDeferredRoot c' = [] /\ bInTimerInt c' = false /\
    TimerRoot c' ≡ₚ map (elapse 500) (filter (fun e => ~ expired 500 e) (TimerRoot sample_cpu)) ++ D /\
    (forall x q, TimerRoot c' = x :: q -> ApicInitialCount c' = u32 (Z.min DWORD_MAX (LastTickCount x))).
Proof.
  apply (timer_interrupt_contract rearm sample_cpu); [apply rearm_defers|repeat constructor; done|repeat constructor; done
    |constructor|done].
Defined.

(** ** Every timer fires on time *)

(** What happens to a processor's timers: the loaded count reaches zero and the
    handler reloads the APIC [latency] ticks later, or SetTimer is called and has
    reloaded the APIC [elapsed] ticks after the load before. *)
Inductive timer_op :=
  | Expire (latency : Z)
  | Set_ (elapsed uSeconds callback param flags : Z).

(** [rNow] is the time; [rDelay] are the ticks no timer was charged for: the
    latencies, and the ticks of the counts that SetTimer threw away.  [rSet] are
    the timers set, and [rFired] those that fired, with the time and the delay
    of that moment. *)
Record Run := mkRun { rCpu : Cpu; rNow : Z; rDelay : Z; rSet : list (Z * Z * TimerEvent); rFired : list (Z * Z * TimerEvent) }.

(** No interrupt comes while no timer is pending. *)
Definition run_op (callback : Z -> Z -> Cpu -> outcome Cpu) (r : Run) (op : timer_op) : outcome Run :=
  match op with
  | Expire latency =>
      match TimerRoot (rCpu r) with
      | [] => Done r
      | _ :: _ =>
          let now := rNow r + ApicInitialCount (rCpu r) in
          '(c, calls) ← IntmgmtTimerInterrupt callback (fun _ => true) (rCpu r);
          Done (mkRun c (now + latency) (rDelay r + latency) (rSet r) (rFired r ++ map (fun e => (now, rDelay r, e)) calls))
      end
  | Set_ elapsed us cb up fl =>
      '(c, _) ← SetTimer true (rCpu r) us cb up fl;
      Done (mkRun c (rNow r + elapsed) (rDelay r + elapsed)
              (rSet r ++ [(rNow r + elapsed, rDelay r + elapsed, new_event (rCpu r) us cb up fl)]) (rFired r))
  end.
Fixpoint run_ops (callback : Z -> Z -> Cpu -> outcome Cpu) (r : Run) (ops : list timer_op) : outcome Run :=
  match ops with
  | [] => Done r
  | op :: ops' => r ← run_op callback r op; run_ops callback r ops'
  end.
(** A latency is not negative, and a timer set has a positive count. *)
Definition op_ok (c : Cpu) (op : timer_op) : Prop :=
  match op with
  | Expire latency => 0 <= latency
  | Set_ elapsed us _ _ fl => 0 <= elapsed /\ 0 < timer_ticks c us fl < 2 ^ 64
  end.

(** Callbacks that set no timer. *)
Definition callbacks_quiet (callback : Z -> Z -> Cpu -> outcome Cpu) : Prop :=
  forall cb up c, exists n, callback cb up c = Done (set_sleep c n).

Lemma quiet_defers callback : callbacks_quiet callback -> callbacks_defer callback.
Proof. intros H cb up c Hi Hd. destruct (H cb up c) as [n ->]. by eexists. Qed.

Lemma quiet_expire callback q d c calls c' rest calls' :
  callbacks_quiet callback -> TimerDeferredRoot c = [] ->
  expire_loop callback q d c calls = Done (c', rest, calls') -> TimerDeferredRoot c' = [] /\ CalibrationValue c' = CalibrationValue c.
Proof.
  intros Hq. revert c calls. induction q as [|e q IH]; intros c calls Hd H; cbn [expire_loop] in H; [by simplify_eq|].
  destruct (_ <=? _); [|by simplify_eq]. destruct (negb _).
  - destruct (Hq (Callback e) (UserParam e) c) as [n E]. rewrite E, !bind_Done in H. by apply IH in H.
  - rewrite bind_Done in H. by apply IH in H.
Qed.

(** Without deferred timers the queue after an interrupt is determined. *)
Lemma quiet_interrupt callback c :
  callbacks_quiet callback -> queue_sorted (TimerRoot c) -> counts_ok (TimerRoot c) -> TimerDeferredRoot c = [] ->
  let d := ApicInitialCount c in
  exists c', IntmgmtTimerInterrupt callback (fun _ => true) c =
      Done (c', filter has_callback (filter (expired d) (TimerRoot c))) /\
    TimerRoot c' = map (elapse d) (filter (fun e => ~ expired d e) (TimerRoot c)) /\ TimerDeferredRoot c' = [] /\
    bInTimerInt c' = false /\ CalibrationValue c' = CalibrationValue c /\
    (forall x q, TimerRoot c' = x :: q -> ApicInitialCount c' = u32 (Z.min DWORD_MAX (LastTickCount x))).
Proof.
  intros Hq Hs Hc Hd d. unfold IntmgmtTimerInterrupt. cbn [set_in_int TimerRoot ApicInitialCount]. fold d.
  destruct (expire_loop_spec callback (quiet_defers _ Hq) (TimerRoot c) d (set_in_int c true) [] Hs eq_refl eq_refl)
    as (c1 & E & Hr1 & Hi1 & Hd1).
  { cbn. rewrite Hd. constructor. }
  destruct (quiet_expire callback _ _ (set_in_int c true) _ _ _ _ Hq Hd E) as [Hd1' Hv].
  rewrite E, bind_Done. cbn [set_roots set_in_int TimerDeferredRoot]. rewrite Hd1'. cbn [integrate]. rewrite bind_Done.
  cbn [set_roots set_in_int TimerRoot]. eexists. split; [done|].
  destruct (map (elapse d) _) as [|x q] eqn:Em; cbn [TimerRoot TimerDeferredRoot ApicSetTimerCount ApicInitialCount bInTimerInt CalibrationValue].
  - split_and!; done.
  - split_and!; [done..|]. intros x' q' [= -> ->]. done.
Qed.

(** A sorted queue is its expired events followed by the others. *)
Lemma expired_prefix d q :
  queue_sorted q -> q = filter (expired d) q ++ filter (fun e => ~ expired d e) q.
Proof.
  induction 1 as [|e q Hq IH He]; [done|]. rewrite !filter_cons. destruct (decide (expired d e)) as [H|H].
  - rewrite (decide_False (P := ~ expired d e)) by tauto. cbn [app]. by f_equal.
  - rewrite (decide_True (P := ~ expired d e)) by done.
    assert (Forall (fun x => ~ expired d x) q) as Hn.
    { eapply Forall_impl; [exact He|]. unfold expired in *. simpl. lia. }
    assert (filter (expired d) q = []) as E.
    { clear -Hn. induction Hn as [|x q Hx Hn IH]; [done|]. by rewrite filter_cons, decide_False. }
    rewrite E in *. cbn [app] in *. by f_equal.
Qed.

Definition total_ticks (q : list TimerEvent) : Z := foldr (fun e n => LastTickCount e + n) 0 q.

Lemma total_elapse d q :
  counts_ok q -> Forall (fun e => ~ expired d e) q -> 0 < d -> 0 <= total_ticks (map (elapse d) q) <= total_ticks q.
Proof.
  intros Hc Hn Hd. induction Hc as [|e q He Hq IH]; [simpl; lia|]. inversion Hn; subst. cbn [map total_ticks foldr] in *.
  specialize (IH ltac:(done)). unfold total_ticks, expired in *. cbn [elapse LastTickCount]. rewrite u64_small by lia. lia.
Qed.
Lemma total_filter (Q : TimerEvent -> Prop) `{forall x, Decision (Q x)} q :
  Forall (fun e => 0 <= LastTickCount e) q -> total_ticks (filter Q q) <= total_ticks q.
Proof.
  induction 1 as [|e q He Hq IH]; [simpl; lia|]. rewrite filter_cons. unfold total_ticks in *.
  destruct (decide (Q e)); simpl; lia.
Qed.

(** The moment at which an event falls due on a clock that shows [now], and the
    moment of a firing on the clock that stands still during the delays. *)
Definition deadline (now : Z) (e : TimerEvent) : Z * Z * Z := (now + LastTickCount e, Callback e, UserParam e).
Definition firing (p : Z * Z * TimerEvent) : Z * Z * Z := (p.1.1 - p.1.2, Callback (p.2), UserParam (p.2)).
Definition set_deadline (p : Z * Z * TimerEvent) : Z * Z * Z := deadline (p.1.1 - p.1.2) (p.2).

Definition positive_counts (q : list TimerEvent) : Prop := Forall (fun e => 0 < LastTickCount e < 2 ^ 64) q.

(** The APIC is loaded from the head of the queue. *)
Definition apic_loaded (c : Cpu) : Prop :=
  match TimerRoot c with [] => True | x :: _ => ApicInitialCount c = Z.min DWORD_MAX (LastTickCount x) end.

Lemma positive_ok q : positive_counts q -> counts_ok q.
Proof. intros H. eapply Forall_impl; [exact H|]. simpl. lia. Qed.

Lemma elapse_positive d q :
  positive_counts q -> Forall (fun e => ~ expired d e) q -> 0 < d -> positive_counts (map (elapse d) q).
Proof.
  intros Hp Hn Hd. apply Forall_map. unfold positive_counts in Hp. rewrite Forall_forall in *. intros e He.
  specialize (Hp e He). specialize (Hn e He). unfold expired in Hn. cbn. rewrite u64_small by lia. lia.
Qed.

Lemma deadlines_elapse d now q :
  counts_ok q -> Forall (fun e => ~ expired d e) q -> 0 < d ->
  map (deadline (now + d)) (filter has_callback (map (elapse d) q)) = map (deadline now) (filter has_callback q).
Proof.
  intros Hc Hn Hd. induction Hc as [|e q He Hq IH]; [done|]. inversion Hn; subst. cbn [map].
  rewrite !filter_cons.
  destruct (decide (has_callback (elapse d e))) as [h1|h1], (decide (has_callback e)) as [h2|h2]; try done; [|by apply IH].
  cbn [map]. rewrite IH by done. f_equal.
  unfold deadline, elapse, expired in *. cbn. rewrite u64_small by lia. do 2 f_equal. lia.
Qed.

(** Each interrupt lowers the total of the counts. *)
Lemma total_drop d x q :
  positive_counts (x :: q) -> 0 < d ->
  0 <= total_ticks (map (elapse d) (filter (fun e => ~ expired d e) (x :: q))) < total_ticks (x :: q).
Proof.
  intros Hp Hd. assert (Forall (fun e => 0 <= LastTickCount e) q) as Hq.
  { inversion Hp; subst. eapply Forall_impl; [eassumption|]. simpl. lia. }
  pose proof (total_filter (fun e => ~ expired d e) q Hq) as Hf.
  assert (0 < LastTickCount x < 2 ^ 64) as Hx by by inversion Hp.
  assert (positive_counts (filter (fun e => ~ expired d e) q)) as Hr by (apply Forall_filter_sub; by inversion Hp).
  pose proof (total_elapse d _ (positive_ok _ Hr) (Forall_filter_self _ _) Hd) as He.
  rewrite filter_cons. destruct (decide _) as [Hn|Hn]; cbn [map total_ticks foldr] in *; unfold total_ticks in *.
  - unfold expired in Hn. cbn [elapse LastTickCount]. rewrite u64_small by lia. lia.
  - lia.
Qed.

(** The state of the timers between two operations. *)
Record timers_ready (c : Cpu) : Prop := {
  tr_sorted : queue_sorted (TimerRoot c);
  tr_counts : positive_counts (TimerRoot c);
  tr_deferred : TimerDeferredRoot c = [];
  tr_idle : bInTimerInt c = false;
  tr_loaded : apic_loaded c
}.

(** What is pending with its deadlines on the clock of the run. *)
Definition pending (r : Run) : list (Z * Z * Z) :=
  map (deadline (rNow r - rDelay r)) (filter has_callback (TimerRoot (rCpu r))).
Definition with_callback (l : list (Z * Z * TimerEvent)) : list (Z * Z * TimerEvent) := filter (fun p => has_callback p.2) l.

Lemma apic_loaded_head c x q : TimerRoot c = x :: q -> positive_counts (TimerRoot c) ->
  ApicInitialCount c = u32 (Z.min DWORD_MAX (LastTickCount x)) -> apic_loaded c.
Proof.
  intros E Hp Ha. unfold apic_loaded. rewrite E in Hp |- *. assert (0 < LastTickCount x < 2 ^ 64) by by inversion Hp.
  rewrite Ha. apply u32_small. unfold DWORD_MAX. lia.
Qed.

(** The first deadline is the loaded count, so what expires is due. *)
Lemma expired_due c now x q : TimerRoot c = x :: q -> timers_ready c ->
  map (fun e => (now + ApicInitialCount c, Callback e, UserParam e)) (filter has_callback (filter (expired (ApicInitialCount c)) (x :: q))) =
    map (deadline now) (filter has_callback (filter (expired (ApicInitialCount c)) (x :: q))).
Proof.
  intros E [Hs _ _ _ Ha]. unfold apic_loaded in Ha. rewrite E in Hs, Ha. apply map_ext_in. intros e He. unfold deadline. do 2 f_equal.
  apply list_elem_of_In, list_elem_of_filter in He as [_ He]. apply list_elem_of_filter in He as [He1 He2].
  unfold expired in He1. enough (LastTickCount x <= LastTickCount e) by lia.
  inversion Hs as [|? ? Hq' Hx']; subst. apply elem_of_cons in He2 as [->|He2]; [lia|]. rewrite Forall_forall in Hx'. by apply Hx'.
Qed.

Lemma interrupt_step callback r x q : callbacks_quiet callback -> timers_ready (rCpu r) -> TimerRoot (rCpu r) = x :: q ->
  forall latency, exists r', run_op callback r (Expire latency) = Done r' /\ timers_ready (rCpu r') /\
    CalibrationValue (rCpu r') = CalibrationValue (rCpu r) /\ rSet r' = rSet r /\
    map firing (rFired r') ++ pending r' = map firing (rFired r) ++ pending r /\
    0 <= total_ticks (TimerRoot (rCpu r')) < total_ticks (TimerRoot (rCpu r)).
Proof.
  intros Hq Hr Er latency. pose proof Hr as [Hs Hp Hd Hi Ha]. unfold run_op, pending. unfold apic_loaded in Ha. rewrite Er in *.
  set (d := ApicInitialCount (rCpu r)) in *. assert (0 < LastTickCount x < 2 ^ 64) as Hx by by inversion Hp.
  assert (0 < d) as Hd0 by (unfold DWORD_MAX in Ha; lia).
  destruct (quiet_interrupt callback (rCpu r) Hq) as (c1 & E1 & Hr1 & Hd1 & Hi1 & Hv1 & Ha1); rewrite ?Er; [done|by apply positive_ok|done|].
  fold d in E1, Hr1. rewrite Er in E1, Hr1. set (rest := filter (fun e => ~ expired d e) (x :: q)) in *.
  assert (Forall (fun e => ~ expired d e) rest) as Hn by apply Forall_filter_self.
  assert (positive_counts rest) as Hpr by by apply Forall_filter_sub.
  assert (positive_counts (TimerRoot c1)) as Hp1 by (rewrite Hr1; by apply elapse_positive).
  rewrite E1, bind_Done. eexists. split; [reflexivity|]. cbn [rCpu rNow rDelay rSet rFired].
  split_and!; [|done|done| |rewrite Hr1; by apply total_drop..].
  - split; [rewrite Hr1|done|done|done|].
    + apply elapse_sorted; [by apply positive_ok|done|lia|by apply filter_sorted].
    + destruct (TimerRoot c1) as [|y t] eqn:Ey; [unfold apic_loaded; by rewrite Ey|].
      apply (apic_loaded_head c1 y t); [done|by rewrite Ey|by apply (Ha1 y t)].
  - rewrite Hr1, map_app, <- app_assoc. f_equal. replace (rNow r + d + latency - (rDelay r + latency)) with (rNow r - rDelay r + d) by lia.
    rewrite deadlines_elapse by (done || by apply positive_ok). rewrite (expired_prefix d (x :: q) Hs) at 2.
    rewrite filter_app, map_app. fold rest. f_equal. rewrite <- (expired_due (rCpu r) _ x q Er Hr). fold d. rewrite map_map.
    apply map_ext. intros e. unfold firing. cbn [fst snd]. do 2 f_equal. lia.
Qed.

Lemma set_step callback r el us cb up fl : timers_ready (rCpu r) -> 0 < timer_ticks (rCpu r) us fl < 2 ^ 64 ->
  exists r', run_op callback r (Set_ el us cb up fl) = Done r' /\ timers_ready (rCpu r') /\
    CalibrationValue (rCpu r') = CalibrationValue (rCpu r) /\
    map firing (rFired r') ++ pending r' ≡ₚ
      map firing (rFired r) ++ pending r ++ map set_deadline (with_callback (drop (length (rSet r)) (rSet r'))) /\
    rSet r' = rSet r ++ drop (length (rSet r)) (rSet r').
Proof.
  intros [Hs Hp Hd Hi Ha] Ht. destruct (set_timer_outside (rCpu r) us cb up fl Hi) as (x & q & Eo & E).
  set (e := new_event (rCpu r) us cb up fl) in *. unfold run_op. rewrite E, bind_Done. eexists. split; [reflexivity|].
  cbn [rCpu rNow rDelay rSet rFired]. rewrite drop_app_length.
  pose proof (ordered_insert_perm (TimerRoot (rCpu r)) e) as Hperm. rewrite Eo in Hperm.
  assert (positive_counts (x :: q)) as Hp'.
  { unfold positive_counts. rewrite Hperm. constructor; [done|exact Hp]. }
  split_and!; [|done| |done].
  - split; cbn [ApicSetTimerCount set_roots TimerRoot TimerDeferredRoot bInTimerInt]; [|done|done|done|].
    + rewrite <- Eo. by apply ordered_insert_sorted.
    + by apply (apic_loaded_head _ x q).
  - apply Permutation_app_head. unfold pending. cbn [rCpu rNow rDelay ApicSetTimerCount set_roots TimerRoot].
    replace (rNow r + el - (rDelay r + el)) with (rNow r - rDelay r) by lia. rewrite Hperm, filter_cons.
    unfold with_callback. rewrite filter_cons, filter_nil. cbn [snd]. fold e. destruct (decide (has_callback e)); cbn [map]; [|by rewrite app_nil_r].
    rewrite Permutation_cons_append. unfold set_deadline. cbn [fst snd].
    by replace (rNow r + el - (rDelay r + el)) with (rNow r - rDelay r) by lia.
Qed.

Lemma op_ok_same c c' op : CalibrationValue c' = CalibrationValue c -> op_ok c op -> op_ok c' op.
Proof. intros E. destruct op; cbn; [done|]. unfold timer_ticks. by rewrite E. Qed.

Lemma run_ops_spec callback ops : forall r, callbacks_quiet callback -> timers_ready (rCpu r) -> Forall (op_ok (rCpu r)) ops ->
  exists r' new, run_ops callback r ops = Done r' /\ timers_ready (rCpu r') /\ rSet r' = rSet r ++ new /\
    map firing (rFired r') ++ pending r' ≡ₚ map firing (rFired r) ++ pending r ++ map set_deadline (with_callback new).
Proof.
  induction ops as [|op ops IH]; intros r Hq Hr Hok.
  { exists r, []. rewrite !app_nil_r. done. }
  apply Forall_cons in Hok as [Hop Hok]. cbn [run_ops].
  assert (exists r1 new, run_op callback r op = Done r1 /\ timers_ready (rCpu r1) /\ CalibrationValue (rCpu r1) = CalibrationValue (rCpu r) /\
    rSet r1 = rSet r ++ new /\ map firing (rFired r1) ++ pending r1 ≡ₚ map firing (rFired r) ++ pending r ++ map set_deadline (with_callback new))
    as (r1 & new1 & E1 & Hr1 & Hv1 & Hs1 & Hp1).
  { destruct op as [latency|el us cb up fl].
    - destruct (TimerRoot (rCpu r)) as [|x q] eqn:Er.
      + exists r, []. unfold run_op. rewrite Er, !app_nil_r. done.
      + destruct (interrupt_step callback r x q Hq Hr Er latency) as (r1 & E & H1 & H2 & H3 & H4 & _). exists r1, [].
        rewrite !app_nil_r, H4. done.
    - destruct (set_step callback r el us cb up fl Hr (proj2 Hop)) as (r1 & E & H1 & H2 & H3 & H4). by exists r1, (drop (length (rSet r)) (rSet r1)). }
  destruct (IH r1 Hq Hr1) as (r2 & new2 & E2 & Hr2 & Hs2 & Hp2).
  { eapply Forall_impl; [exact Hok|]. intros op'. by apply op_ok_same. }
  exists r2, (new1 ++ new2). rewrite E1, bind_Done, E2. split_and!; [done|done|by rewrite Hs2, Hs1, app_assoc|].
  rewrite Hp2, (app_assoc (map firing _)), Hp1. unfold with_callback. by rewrite filter_app, map_app, <- !app_assoc.
Qed.

Lemma drain callback m : forall r lats, callbacks_quiet callback -> timers_ready (rCpu r) ->
  (Z.to_nat (total_ticks (TimerRoot (rCpu r))) <= m)%nat -> (m <= length lats)%nat -> 
  exists r', run_ops callback r (map Expire lats) = Done r' /\ TimerRoot (rCpu r') = [].
Proof.
  assert (forall lats r, TimerRoot (rCpu r) = [] -> run_ops callback r (map Expire lats) = Done r) as Hnil.
  { induction lats as [|l lats IH]; intros r Er; [done|]. cbn [map run_ops]. unfold run_op. rewrite Er, bind_Done. by apply IH. }
  induction m as [|m IH]; intros r lats Hq Hr Hm Hl; destruct (TimerRoot (rCpu r)) as [|x q] eqn:Er; try (by exists r; rewrite Hnil).
  - exfalso. pose proof (total_drop 1 x q ltac:(rewrite <- Er; apply Hr) ltac:(lia)). lia.
  - destruct lats as [|l lats]; [simpl in Hl; lia|]. cbn [map run_ops].
    destruct (interrupt_step callback r x q Hq Hr Er l) as (r1 & -> & Hr1 & _ & _ & _ & Ht). rewrite bind_Done. rewrite Er in Ht.
    apply IH; [done|done|lia|simpl in Hl; lia].
Qed.

(** C31: take any sequence of timer interrupts and SetTimer calls on a processor whose
    sorted queue of positive counts is loaded into the APIC, with memory for the new
    events and callbacks that set no timer (as Sleep's, the only one in the kernel).
    Then every operation returns, and on the clock that stands still while a handler has
    not yet reloaded the APIC, and for the ticks of a count that SetTimer throws away,
    every timer with a callback fires exactly when its own count has elapsed since it was set,
    once, also when the count exceeds the APIC's 32-bit register: what fired and what is still pending are together the
    timers that were there and those that were set.  So a timer never
    fires early, and it is late by exactly the delays since it was set.
    Without further SetTimer calls finitely many interrupts empty the queue. *)
Theorem timer_fires_on_time callback c now ops :
  callbacks_quiet callback -> timers_ready c -> Forall (op_ok c) ops ->
  exists r, run_ops callback (mkRun c now 0 [] []) ops = Done r /\
    map firing (rFired r) ++ map (deadline (rNow r - rDelay r)) (filter has_callback (TimerRoot (rCpu r))) ≡ₚ
      map (deadline now) (filter has_callback (TimerRoot c)) ++ map set_deadline (with_callback (rSet r)) /\
    exists n, forall lats, (n <= length lats)%nat ->
      exists r', run_ops callback r (map Expire lats) = Done r' /\ TimerRoot (rCpu r') = [].
Proof.
  intros Hq Hr Hok. destruct (run_ops_spec callback ops (mkRun c now 0 [] []) Hq Hr Hok) as (r & new & E & Hr' & Hs & Hp).
  exists r. split; [done|]. cbn [rSet] in Hs. rewrite Hs. split.
  - unfold pending in Hp. cbn [rCpu rNow rDelay rFired map app] in Hp. by rewrite Z.sub_0_r in Hp.
  - eexists. intros lats Hl. by apply (drain callback _ r lats Hq Hr' (le_n _)).
Qed.

Definition quiet (cb up : Z) (c : Cpu) : outcome Cpu := Done (SleepDoneCallback c up).
(** 400 ticks after the start a timer of 300 ticks is set, its handler takes 20
    ticks, then the two timers of 500 fire, 420 ticks late. *)
Definition sample_ops : list timer_op := [Set_ 400 3 4 7 0; Expire 20; Expire 0].
Example timer_fires_on_time_witness :
  exists r, run_ops quiet (mkRun sample_cpu 7 0 [] []) sample_ops = Done r /\
    map firing (rFired r) = [(307, 4, 7); (507, 1, 0); (507, 2, 0)] /\ (fun p => p.1.1) <$> rFired r = [707; 927; 927] /\
    map firing (rFired r) ++ map (deadline (rNow r - rDelay r)) (filter has_callback (TimerRoot (rCpu r))) ≡ₚ
      [(507, 1, 0); (507, 2, 0); (9000000007, 3, 0)] ++ map set_deadline (with_callback (rSet r)) /\
    exists n, forall lats, (n <= length lats)%nat ->
      exists r', run_ops quiet r (map Expire lats) = Done r' /\ TimerRoot (rCpu r') = [].
Proof.
  destruct (timer_fires_on_time quiet sample_cpu 7 sample_ops) as (r & E & H).
  - by intros cb up c; eexists.
  - split; [repeat constructor; done| |done..]. unfold positive_counts. cbn [TimerRoot sample_cpu].
    repeat (apply Forall_cons; split; [cbn; lia|]). constructor.
  - repeat constructor; done.
  - exists r. split; [exact E|]. vm_compute in E. injection E as <-. split; [reflexivity|]. split; [reflexivity|]. exact H.
Defined.

(** ** Divergences *)

(** When HeapAcquire fails the initial count has already been cleared: the
    restore writes 0 and the pending timers never fire. *)
Example set_timer_oom_stops_timer :
  (SetTimer false sample_cpu 3 4 7 0) = Done (ApicSetTimerCount sample_cpu 0, false).
Proof. reflexivity. Qed.
(** A timer of zero ticks becomes the root and stops the APIC. *)
Example zero_timer_stops_timer :
  ('(c, _) ← SetTimer true sample_cpu 0 4 7 0; Done (ApicInitialCount c)) = Done 0.
Proof. reflexivity. Qed.
(** Setting a timer restarts the countdown of the others: 400 ticks after the
    start, a new timer of 10000 ticks reloads the full 500. *)
Example set_timer_restarts_countdown :
  ('(c, _) ← SetTimer true sample_cpu 100 4 7 0; Done (ApicInitialCount c)) = Done 500.
Proof. reflexivity. Qed.
(** Two concurrent sleeps share ballot 0, the lowest set bit. *)
Example sleep_ballot_shared :
  ('(c, a) ← Sleep true 9 sample_cpu 5; '(c, b) ← Sleep true 9 c 5;
   Done (a, b, sleeping (SleepDoneCallback c a) b)) = Done (0, 0, false).
Proof. reflexivity. Qed.
