(* ===== verification/Spinlock.v ===== *)
(** * Spinlocks (Kernel/Source/CPU/Spinlock.asm, Kernel/Include/CPU/Spinlock.h)

    The two routines as instruction steps of several processors that share the
    lock word.  Memory accesses are single steps in program order, as a locked
    instruction and aligned double-word stores and loads of the processor are;
    the step between the locked test and its result is one instruction. *)
From Stdlib Require Import ZArith Lia.
From stdpp Require Import base numbers list gmap.
From S2P Require Import Prelude.
Open Scope Z_scope.
#[local] Arguments Z.testbit _ _ : simpl never.

(** ** State *)

(** Where a processor is with respect to one lock. *)
Inductive pc :=
  | Outside              (* not in a routine, lock not held *)
  | AcquireOrWaitSpinlock (* at CLI *)
  | TryAcquireLock       (* at LOCK BTS *)
  | TryBranch (carry : bool) (* at JC *)
  | SpinWaitLock         (* at PAUSE and TEST *)
  | SpinBranch (zero : bool) (* at JNZ *)
  | Holding              (* returned from the acquisition *)
  | RelinquishSpinlock   (* at MOV [RDI], 0 *)
  | RelinquishSti.       (* at STI *)
#[export] Instance pc_eq_dec : EqDecision pc.
Proof. solve_decision. Defined.

Record machine := mkMachine { dwState : Z; at_pc : gmap nat pc; int_enabled : gmap nat bool }.

Definition cpu_pc (s : machine) (c : nat) : pc := default Outside (at_pc s !! c).
Definition goto (s : machine) (c : nat) (p : pc) : machine := mkMachine (dwState s) (<[c := p]> (at_pc s)) (int_enabled s).
Definition set_state (s : machine) (d : Z) : machine := mkMachine d (at_pc s) (int_enabled s).
Definition set_int (s : machine) (c : nat) (b : bool) : machine := mkMachine (dwState s) (at_pc s) (<[c := b]> (int_enabled s)).

(** ** Instructions *)

(** One instruction of processor [c]; [None] outside the routines. *)
Definition exec (s : machine) (c : nat) : option machine :=
  match cpu_pc s c with
  | AcquireOrWaitSpinlock => Some (goto (set_int s c false) c TryAcquireLock)
  | TryAcquireLock => Some (goto (set_state s (Z.lor (dwState s) 1)) c (TryBranch (Z.testbit (dwState s) 0)))
  | TryBranch carry => Some (goto s c (if carry then SpinWaitLock else Holding))
  | SpinWaitLock => Some (goto s c (SpinBranch (Z.land (dwState s) 1 =? 0)))
  | SpinBranch zero => Some (goto s c (if zero then TryAcquireLock else SpinWaitLock))
  | RelinquishSpinlock => Some (goto (set_state s 0) c RelinquishSti)
  | RelinquishSti => Some (goto (set_int s c true) c Outside)
  | Outside | Holding => None
  end.

(** The callers: a processor enters the acquisition from outside and the
    release only when it holds the lock. *)
Inductive step : machine -> machine -> Prop :=
  | step_exec s c s' : exec s c = Some s' -> step s s'
  | step_acquire s c : cpu_pc s c = Outside -> step s (goto s c AcquireOrWaitSpinlock)
  | step_release s c : cpu_pc s c = Holding -> step s (goto s c RelinquishSpinlock).

Inductive reach (s : machine) : machine -> Prop :=
  | reach_refl : reach s s
  | reach_step s1 s2 : reach s s1 -> step s1 s2 -> reach s s2.

(** A cleared lock with no processor in a routine. *)
Definition unlocked (s : machine) : Prop := dwState s = 0 /\ forall c, cpu_pc s c = Outside.

(** ** Mutual exclusion *)

(** A processor owns the lock from the successful test to the clearing store. *)
Definition owns (p : pc) : bool :=
  match p with TryBranch false | Holding | RelinquishSpinlock => true | _ => false end.
(** Interrupts are off from the CLI to the STI. *)
Definition masked (p : pc) : bool :=
  match p with Outside | AcquireOrWaitSpinlock => false | _ => true end.

Record lock_inv (s : machine) : Prop := {
  li_word : dwState s = 0 \/ dwState s = 1;
  li_owner : dwState s = 1 -> exists c, owns (cpu_pc s c) = true;
  li_held : forall c, owns (cpu_pc s c) = true -> dwState s = 1;
  li_one : forall c c', owns (cpu_pc s c) = true -> owns (cpu_pc s c') = true -> c = c';
  li_int : forall c, masked (cpu_pc s c) = true -> int_enabled s !! c = Some false
}.

Lemma cpu_pc_goto s c p c' : cpu_pc (goto s c p) c' = if decide (c = c') then p else cpu_pc s c'.
Proof.
  unfold cpu_pc, goto. cbn [at_pc]. destruct (decide (c = c')) as [->|Hne]; [by rewrite lookup_insert_eq|by rewrite lookup_insert_ne].
Qed.

(** A step of [c] that neither gains nor loses the lock. *)
Lemma inv_goto s c p :
  lock_inv s -> owns p = owns (cpu_pc s c) -> (masked p = true -> int_enabled s !! c = Some false) -> lock_inv (goto s c p).
Proof.
  intros [I1 I2 I3 I4 I5] Ho Hm.
  assert (forall c', owns (cpu_pc (goto s c p) c') = owns (cpu_pc s c')) as E.
  { intros c'. rewrite cpu_pc_goto. by destruct (decide (c = c')) as [<-|]. }
  split; [done| | | |].
  - intros H. destruct (I2 H) as [c' Hc]. exists c'. by rewrite E.
  - intros c'. rewrite E. apply I3.
  - intros c' c''. rewrite !E. apply I4.
  - intros c'. rewrite cpu_pc_goto. destruct (decide (c = c')) as [<-|]; [apply Hm|apply I5].
Qed.

Lemma inv_int s c b : lock_inv s -> (masked (cpu_pc s c) = true -> b = false) -> lock_inv (set_int s c b).
Proof.
  intros [I1 I2 I3 I4 I5] Hb. split; try done. intros c' Hm. cbn [set_int int_enabled].
  destruct (decide (c = c')) as [<-|Hne]; [rewrite lookup_insert_eq; by rewrite Hb|].
  rewrite lookup_insert_ne by done. by apply I5.
Qed.

Lemma inv_take s c :
  lock_inv s -> cpu_pc s c = TryAcquireLock ->
  lock_inv (goto (set_state s (Z.lor (dwState s) 1)) c (TryBranch (Z.testbit (dwState s) 0))).
Proof.
  intros I Hc. pose proof I as [I1 I2 I3 I4 I5].
  assert (int_enabled s !! c = Some false) as Hi by (apply I5; by rewrite Hc).
  destruct I1 as [E|E]; rewrite E.
  - change (Z.lor 0 1) with 1. assert (forall c', owns (cpu_pc s c') = false) as Hno.
    { intros c'. destruct (owns (cpu_pc s c')) eqn:Ho; [|done]. apply I3 in Ho. lia. }
    set (s1 := set_state s 1). change (Z.testbit 0 0) with false.
    assert (forall c', owns (cpu_pc (goto s1 c (TryBranch false)) c') = bool_decide (c = c')) as Eo.
    { intros c'. rewrite cpu_pc_goto. destruct (decide (c = c')); [by rewrite bool_decide_true|].
      rewrite bool_decide_false by done. apply Hno. }
    split; [by right| | | |].
    + intros _. exists c. by rewrite Eo, bool_decide_true.
    + done.
    + intros c' c''. rewrite !Eo, !bool_decide_eq_true. congruence.
    + intros c'. rewrite cpu_pc_goto. destruct (decide (c = c')) as [<-|]; [done|]. apply I5.
  - change (Z.testbit 1 0) with true. change (Z.lor 1 1) with 1. assert (set_state s 1 = s) as -> by (destruct s; cbn in E; by subst).
    apply inv_goto; [done|by rewrite Hc|done].
Qed.

Lemma inv_clear s c :
  lock_inv s -> cpu_pc s c = RelinquishSpinlock -> lock_inv (goto (set_state s 0) c RelinquishSti).
Proof.
  intros [I1 I2 I3 I4 I5] Hc.
  assert (forall c', owns (cpu_pc (goto (set_state s 0) c RelinquishSti) c') = false) as Eo.
  { intros c'. rewrite cpu_pc_goto. destruct (decide (c = c')) as [<-|Hne]; [done|].
    destruct (owns (cpu_pc (set_state s 0) c')) eqn:Ho; [|done]. exfalso. apply Hne, I4; [by rewrite Hc|exact Ho]. }
  split; [by left|done| | |].
  - intros c'. by rewrite Eo.
  - intros c' c''. by rewrite Eo.
  - intros c'. rewrite cpu_pc_goto. destruct (decide (c = c')) as [<-|]; [|apply I5]. intros _. apply I5. by rewrite Hc.
Qed.

Lemma inv_exec s c s' : lock_inv s -> exec s c = Some s' -> lock_inv s'.
Proof.
  intros I. unfold exec. destruct (cpu_pc s c) as [| | |carry| |zero| | |] eqn:Hc; intros E; simplify_eq.
  - apply inv_goto; [apply inv_int; [done|by rewrite Hc]| |].
    + change (cpu_pc (set_int s c false) c) with (cpu_pc s c). by rewrite Hc.
    + intros _. apply lookup_insert_eq.
  - by apply inv_take.
  - apply inv_goto; [done|rewrite Hc; by destruct carry|]. intros _. apply (li_int _ I). by rewrite Hc.
  - apply inv_goto; [done|by rewrite Hc|]. intros _. apply (li_int _ I). by rewrite Hc.
  - apply inv_goto; [done|rewrite Hc; by destruct zero|]. intros _. apply (li_int _ I). by rewrite Hc.
  - by apply inv_clear.
  - assert (lock_inv (goto s c Outside)) as I' by (apply inv_goto; [done|by rewrite Hc|done]).
    apply (inv_int _ c true) in I'; [exact I'|]. by rewrite cpu_pc_goto, decide_True.
Qed.

Lemma inv_reach s s' : unlocked s -> reach s s' -> lock_inv s'.
Proof.
  intros [H0 Hout] Hr. induction Hr as [|s1 s2 Hr IH Hs].
  - split; [by left|lia| | |]; intros c; rewrite Hout; done.
  - destruct Hs as [s1 c s2 E|s1 c Hc|s1 c Hc].
    + by eapply inv_exec.
    + apply inv_goto; [done|by rewrite Hc|done].
    + apply inv_goto; [done|by rewrite Hc|]. intros _. apply (li_int _ IH). by rewrite Hc.
Qed.

(** ** Progress *)

(** [c] executing alone. *)
Fixpoint run_alone (fuel : nat) (s : machine) (c : nat) : machine :=
  match fuel with
  | O => s
  | S fuel' => match exec s c with Some s' => run_alone fuel' s' c | None => s end
  end.

Definition acquiring (p : pc) : bool :=
  match p with AcquireOrWaitSpinlock | TryAcquireLock | TryBranch true | SpinWaitLock | SpinBranch _ => true | _ => false end.

Lemma exec_at s c p : cpu_pc (goto s c p) c = p.
Proof. by rewrite cpu_pc_goto, decide_True. Qed.

Lemma run_step s c s' k : exec s c = Some s' -> run_alone (S k) s c = run_alone k s' c.
Proof. intros E. cbn [run_alone]. by rewrite E. Qed.

Lemma run_alone_holding s c k : cpu_pc s c = Holding -> cpu_pc (run_alone k s c) c = Holding.
Proof. intros H. destruct k; [done|]. cbn [run_alone]. unfold exec. by rewrite H. Qed.

Lemma take_free s c k : dwState s = 0 -> cpu_pc s c = TryAcquireLock -> cpu_pc (run_alone (S (S k)) s c) c = Holding.
Proof.
  intros E Hc. erewrite (run_step s c _ (S k)) by (unfold exec; rewrite Hc, E; done).
  erewrite run_step by (unfold exec; rewrite exec_at; done). apply run_alone_holding, exec_at.
Qed.

Lemma spin_free s c k : dwState s = 0 -> cpu_pc s c = SpinWaitLock -> cpu_pc (run_alone (S (S (S (S k)))) s c) c = Holding.
Proof.
  intros E Hc. erewrite (run_step s c _ (S (S (S k)))) by (unfold exec; rewrite Hc, E; done).
  erewrite (run_step _ c _ (S (S k))) by (unfold exec; rewrite exec_at; done). apply take_free; [done|apply exec_at].
Qed.

(** C11: From an unlocked start, for any number of processors and any interleaving of
    their instructions: at most one processor holds the lock, the lock word is
    1 exactly while some processor owns it, and a processor that holds it runs
    with interrupts off; and whenever nobody owns the lock, a processor that is
    acquiring it gets it within five instructions of its own. *)
Theorem spinlock_mutual_exclusion s0 s :
  unlocked s0 -> reach s0 s ->
  (forall c c', cpu_pc s c = Holding -> cpu_pc s c' = Holding -> c = c') /\
  (dwState s = 1 <-> exists c, owns (cpu_pc s c) = true) /\
  (forall c, cpu_pc s c = Holding -> int_enabled s !! c = Some false) /\
  (forall c, (forall c', owns (cpu_pc s c') = false) -> acquiring (cpu_pc s c) = true ->
     cpu_pc (run_alone 5 s c) c = Holding).
Proof.
  intros H0 Hr. destruct (inv_reach s0 s H0 Hr) as [I1 I2 I3 I4 I5]. split_and!.
  - intros c c' Hc Hc'. apply I4; [by rewrite Hc|by rewrite Hc'].
  - split; [done|]. intros [c Hc]. by apply (I3 c).
  - intros c Hc. apply I5. by rewrite Hc.
  - intros c Hno Ha. assert (dwState s = 0) as E.
    { destruct I1 as [|E]; [done|]. destruct (I2 E) as [c' Hc']. by rewrite Hno in Hc'. }
    destruct (cpu_pc s c) as [| | |[]| |[]| | |] eqn:Hc; try done.
    + erewrite (run_step s c _ 4) by (unfold exec; rewrite Hc; done). apply take_free; [done|apply exec_at].
    + by apply take_free.
    + erewrite (run_step s c _ 4) by (unfold exec; rewrite Hc; done). apply spin_free; [done|apply exec_at].
    + by apply spin_free.
    + erewrite (run_step s c _ 4) by (unfold exec; rewrite Hc; done). apply take_free; [done|apply exec_at].
    + erewrite (run_step s c _ 4) by (unfold exec; rewrite Hc; done). apply spin_free; [done|apply exec_at].
Qed.

(** Two processors: 0 holds the lock and 1 spins. *)
Definition spin_start : machine := mkMachine 0 ∅ {[ 0%nat := true; 1%nat := true ]}.
Definition run_cpus (s : machine) (l : list nat) : machine := foldl (fun s c => default s (exec s c)) s l.
Definition contended : machine :=
  run_cpus (goto (goto spin_start 0 AcquireOrWaitSpinlock) 1 AcquireOrWaitSpinlock) [0; 1; 0; 1; 0; 1]%nat.

Lemma run_cpus_reach s0 l : forall s, reach s0 s -> reach s0 (run_cpus s l).
Proof.
  unfold run_cpus. induction l as [|c l IH]; intros s Hr; [done|]. cbn [foldl]. apply IH.
  destruct (exec s c) eqn:E; [|done]. eapply reach_step; [done|]. by eapply step_exec.
Qed.

Lemma contended_reach : reach spin_start contended.
Proof.
  apply run_cpus_reach. eapply reach_step; [eapply reach_step; [apply reach_refl|]|]; by apply step_acquire.
Qed.

Example spinlock_mutual_exclusion_witness :
  (cpu_pc contended 0 = Holding /\ cpu_pc contended 1 = SpinWaitLock) /\
  (forall c c', cpu_pc contended c = Holding -> cpu_pc contended c' = Holding -> c = c') /\
  (dwState contended = 1 <-> exists c, owns (cpu_pc contended c) = true) /\
  (forall c, cpu_pc contended c = Holding -> int_enabled contended !! c = Some false) /\
  (forall c, (forall c', owns (cpu_pc contended c') = false) -> acquiring (cpu_pc contended c) = true ->
     cpu_pc (run_alone 5 contended c) c = Holding).
Proof.
  split; [split; vm_compute; reflexivity|].
  apply (spinlock_mutual_exclusion spin_start); [|exact contended_reach].
  split; [reflexivity|]. intros c. unfold cpu_pc, spin_start. cbn [at_pc]. by rewrite lookup_empty.
Defined.

(** ** Divergences *)

(** The release enables interrupts even when the caller of the acquisition had
    them disabled. *)
Definition masked_start : machine := mkMachine 0 ∅ {[ 0%nat := false ]}.
Example release_enables_interrupts :
  let s := run_cpus (goto masked_start 0 AcquireOrWaitSpinlock) [0; 0; 0]%nat in
  cpu_pc s 0 = Holding /\ int_enabled (run_cpus (goto s 0 RelinquishSpinlock) [0; 0]%nat) !! 0%nat = Some true.
Proof. vm_compute. done. Qed.

(** A processor that acquires the lock it holds spins for ever: the deadlock
    report of Spinlock.c is never reached. *)
Lemma self_deadlock s c k :
  dwState s = 1 -> cpu_pc s c = SpinWaitLock -> cpu_pc (run_alone k s c) c <> Holding.
Proof.
  intros E Hc. assert (forall k s, dwState s = 1 -> cpu_pc s c = SpinWaitLock \/ cpu_pc s c = SpinBranch false ->
    cpu_pc (run_alone k s c) c <> Holding) as H; [|by apply H; [|left]].
  clear. induction k as [|k IH]; intros s E Hc; [cbn; by destruct Hc as [-> | ->]|].
  destruct Hc as [Hc|Hc]; erewrite run_step by (unfold exec; rewrite Hc, ?E; done); apply IH; try done; [right|left]; apply exec_at.
Qed.
