(* ===== verification/Interrupts.v ===== *)
(** * Interrupt routing: per-processor vector tables (Kernel/Source/CPU/PerCpu.c),
    vector distribution (Kernel/Source/Intmgmt/IRQAldist.c), I/O APIC redirection
    (Kernel/Source/Intmgmt/IOAPIC.c) and dispatch (Kernel/Source/CPU/Interrupt.c)

    An I/O APIC is its indexed 32-bit registers behind a select and a window
    register; handlers are opaque addresses. *)
From Stdlib Require Import ZArith Lia.
From stdpp Require Import base numbers list gmap.
From S2P Require Import Prelude.
Open Scope Z_scope.
#[local] Arguments Z.testbit _ _ : simpl never.

(** ** State *)

Definition NUM_INT_VECTORS : Z := 256.
Definition MAX_SMP_PROCESSORS : Z := 256.
Definition KR_PROCESSOR_RESERVED_INTERRUPT_COUNT : Z := 32.
Definition KERNEL_SPURIOUS_INTERRUPT_VECTOR : Z := 0xFF.
Definition KR_NUMBER_OF_INTERRUPT_DESCRIPTOR_ENTRIES : Z := 256.
Definition KR_MDCODE_INTERRUPT_VECTORS_OVERRUN : Z := 0x1005.

Record PerCpuInterrupt := mkInterrupt { Handler : Z; HwDevice : Z; IRQ : Z; Vector : Z }.

Record IoApicInfo := mkIoApic {
  PaddrBase : Z; VaddrBase : Z; ioID : Z; FirstIRQ : Z; Version : Z; MaxRedirEntry : Z; E_V : bool; INIT : bool
}.

Record Ints := mkInts {
  Interrupt : gmap Z (list PerCpuInterrupt);  (* sg_PerCpu[CpuID].Interrupt *)
  IntmodSpinlock : gmap Z bool;
  Idx : Z;                                    (* of AldistOfferSetupForIRQ *)
  pCpuIDs : list Z;
  ActiveProcessorCount : Z;
  IoApics : list IoApicInfo;
  IoApicIDs : list Z;
  IoApicCount : Z;
  io_select : gmap Z Z;
  io_regs : gmap (Z * Z) Z
}.
Definition set_table (s : Ints) (c : Z) (t : list PerCpuInterrupt) : Ints :=
  mkInts (<[c := t]> (Interrupt s)) (IntmodSpinlock s) (Idx s) (pCpuIDs s) (ActiveProcessorCount s) (IoApics s) (IoApicIDs s)
    (IoApicCount s) (io_select s) (io_regs s).
Definition set_lock (s : Ints) (c : Z) (b : bool) : Ints :=
  mkInts (Interrupt s) (<[c := b]> (IntmodSpinlock s)) (Idx s) (pCpuIDs s) (ActiveProcessorCount s) (IoApics s) (IoApicIDs s)
    (IoApicCount s) (io_select s) (io_regs s).
Definition set_idx (s : Ints) (i : Z) : Ints :=
  mkInts (Interrupt s) (IntmodSpinlock s) i (pCpuIDs s) (ActiveProcessorCount s) (IoApics s) (IoApicIDs s)
    (IoApicCount s) (io_select s) (io_regs s).
Definition set_io (s : Ints) (sel : gmap Z Z) (r : gmap (Z * Z) Z) : Ints :=
  mkInts (Interrupt s) (IntmodSpinlock s) (Idx s) (pCpuIDs s) (ActiveProcessorCount s) (IoApics s) (IoApicIDs s)
    (IoApicCount s) sel r.

(** ** Vector tables *)

Definition AcquireIntmod (s : Ints) (CpuID : Z) : outcome Ints :=
  if default false (IntmodSpinlock s !! CpuID) then Hang else Done (set_lock s CpuID true).
Definition RelinquishIntmod (s : Ints) (CpuID : Z) : Ints := set_lock s CpuID false.

(** The assignment [Cpu->Interrupt[v] = f(Cpu->Interrupt[v])] under the lock. *)
Definition update_vector (s : Ints) (CpuID v : Z) (f : PerCpuInterrupt -> PerCpuInterrupt) : outcome Ints :=
  s ← AcquireIntmod s CpuID;
  t ← checked (Interrupt s !! CpuID);
  e ← checked (t !! Z.to_nat v);
  Done (RelinquishIntmod (set_table s CpuID (<[Z.to_nat v := f e]> t)) CpuID).

Definition SetInterrupt (s : Ints) (CpuID : Z) (Data : PerCpuInterrupt) : outcome Ints :=
  update_vector s CpuID (Vector Data) (fun _ => Data).
Definition SetHardwareInterrupt (s : Ints) (CpuID IntVector dev irq h : Z) : outcome Ints :=
  SetInterrupt s CpuID (mkInterrupt h dev irq IntVector).
Definition SetExceptionInterrupt (s : Ints) (CpuID IntVector h : Z) : outcome Ints :=
  SetInterrupt s CpuID (mkInterrupt h 0 0xFFFFFFFF IntVector).
Definition SetInterruptHandler (s : Ints) (CpuID v h : Z) : outcome Ints :=
  update_vector s CpuID v (fun e => mkInterrupt h (HwDevice e) (IRQ e) (Vector e)).
Definition UnsetInterrupt (s : Ints) (CpuID IntVector : Z) : outcome Ints :=
  update_vector s CpuID IntVector (fun _ => mkInterrupt 0 0 0xFFFFFFFF 0).

(** ** Dispatch *)

(** The handler called and whether the end of interrupt was signalled, for
    interrupt [InterruptNo] on processor [CpuID]. *)
Definition KrUnhandledInterrupt (InterruptNo : Z) : outcome unit :=
  if (InterruptNo <? KR_PROCESSOR_RESERVED_INTERRUPT_COUNT) || (InterruptNo =? 3) then Hang else Done tt.

Definition KrDispatchInterrupt (s : Ints) (CpuID InterruptNo : Z) : outcome (option Z * bool) :=
  let eoi := (InterruptNo >=? KR_PROCESSOR_RESERVED_INTERRUPT_COUNT) && negb (InterruptNo =? KERNEL_SPURIOUS_INTERRUPT_VECTOR) in
  if InterruptNo <? KR_NUMBER_OF_INTERRUPT_DESCRIPTOR_ENTRIES then
    t ← checked (Interrupt s !! CpuID);
    e ← checked (t !! Z.to_nat InterruptNo);
    if negb (Handler e =? 0) then Done (Some (Handler e), eoi)
    else _ ← KrUnhandledInterrupt InterruptNo; Done (None, eoi)
  else Done (None, eoi).

(** ** Distribution *)

(** The first empty vector at or after [i]. *)
Fixpoint scan_vectors (l : list PerCpuInterrupt) (i : Z) : option Z :=
  match l with
  | [] => None
  | e :: l' => if Vector e =? 0 then Some i else scan_vectors l' (i + 1)
  end.

Fixpoint offer_loop (fuel : nat) (s : Ints) (RetryCount : Z) : outcome (Ints * (Z * Z)) :=
  match fuel with
  | O => Hang
  | S fuel' =>
      Result ← checked (pCpuIDs s !! Z.to_nat (Idx s));
      let i := u32 (Idx s + 1) in
      let s := set_idx s (if i >=? ActiveProcessorCount s then 0 else i) in
      t ← checked (Interrupt s !! Result);
      match scan_vectors (drop 32 (take 256 t)) 32 with
      | Some v => Done (s, (Result, u8 v))
      | None => if RetryCount <? ActiveProcessorCount s then offer_loop fuel' s (u32 (RetryCount + 1))
                else Melt KR_MDCODE_INTERRUPT_VECTORS_OVERRUN
      end
  end.
Definition AldistOfferSetupForIRQ (s : Ints) (irq : Z) : outcome (Ints * (Z * Z)) :=
  offer_loop (Z.to_nat (ActiveProcessorCount s) + 2) s 0.

(** ** I/O APIC *)

Definition IOREGSEL : Z := 0x00.
Definition IOREGWIN : Z := 0x10.
Definition IOREDTBL : Z := 0x10.
Definition IRQMASK : Z := Z.shiftl 1 16.

Definition io_selected (s : Ints) (base : Z) : Z := default 0 (io_select s !! base).
Definition MmioRead32 (s : Ints) (base : Z) : Z := default 0 (io_regs s !! (base, io_selected s base)).
Definition MmioWrite32 (s : Ints) (base Offset v : Z) : Ints :=
  if Offset =? IOREGSEL then set_io s (<[base := v]> (io_select s)) (io_regs s)
  else set_io s (io_select s) (<[(base, io_selected s base) := v]> (io_regs s)).

Definition IoApicRead (s : Ints) (a : IoApicInfo) (Regidx : Z) : Ints * Z :=
  let s := MmioWrite32 s (VaddrBase a) IOREGSEL Regidx in (s, MmioRead32 s (VaddrBase a)).
Definition IoApicWrite (s : Ints) (a : IoApicInfo) (Regidx v : Z) : Ints :=
  MmioWrite32 (MmioWrite32 s (VaddrBase a) IOREGSEL Regidx) (VaddrBase a) IOREGWIN v.
Definition IoApicRead64 (s : Ints) (a : IoApicInfo) (Regidx : Z) : Ints * Z :=
  let '(s, lo) := IoApicRead s a Regidx in
  let '(s, hi) := IoApicRead s a (u32 (Regidx + 1)) in
  (s, Z.lor (u64 (Z.shiftl hi 32)) lo).
Definition IoApicWrite64 (s : Ints) (a : IoApicInfo) (Regidx v : Z) : Ints :=
  IoApicWrite (IoApicWrite s a Regidx (u32 v)) a (u32 (Regidx + 1)) (u32 (Z.shiftr v 32)).

(** The array position of the I/O APIC that serves the request. *)
Fixpoint find_io_apic (n : nat) (s : Ints) (i irq : Z) : outcome (option IoApicInfo) :=
  match n with
  | O => Done None
  | S n' =>
      id ← checked (IoApicIDs s !! Z.to_nat i);
      a ← checked (IoApics s !! Z.to_nat id);
      if negb (E_V a && INIT a) then find_io_apic n' s (i + 1) irq
      else
        let MaxIRQ := u32 (FirstIRQ a + MaxRedirEntry a) in
        if (irq >=? FirstIRQ a) && (irq <=? MaxIRQ) then Done (Some a) else find_io_apic n' s (i + 1) irq
  end.
Definition FindIoApicForIRQ (s : Ints) (irq : Z) : outcome (option IoApicInfo) :=
  find_io_apic (Z.to_nat (IoApicCount s)) s 0 irq.

Definition redir_index (a : IoApicInfo) (irq : Z) : Z := u32 (IOREDTBL + u32 (u32 (irq - FirstIRQ a) * 2)).

Definition SetRedirectIRQ (s : Ints) (irq ProcessorID IntVector : Z) : outcome (Ints * bool) :=
  a ← FindIoApicForIRQ s irq;
  match a with
  | None => Done (s, false)
  | Some a =>
      if ProcessorID >=? MAX_SMP_PROCESSORS then Done (s, false)
      else
        let RedirEntry := Z.lor IntVector (u64 (Z.shiftl ProcessorID 56)) in
        Done (IoApicWrite64 s a (redir_index a irq) RedirEntry, true)
  end.

Definition SetEnableIRQ (s : Ints) (irq : Z) (bEnable : bool) : outcome (Ints * bool) :=
  a ← FindIoApicForIRQ s irq;
  match a with
  | None => Done (s, false)
  | Some a =>
      let '(s, RedirEntry) := IoApicRead64 s a (redir_index a irq) in
      let RedirEntry := if bEnable then Z.land RedirEntry (u64 (Z.lnot IRQMASK)) else Z.lor RedirEntry IRQMASK in
      Done (IoApicWrite64 s a (redir_index a irq) RedirEntry, true)
  end.

(** The set-up of an interrupt by the keyboard driver: vector offer, handler,
    redirection. *)
Definition irq_setup (s : Ints) (irq dev h : Z) : outcome (Ints * (Z * Z) * bool) :=
  '(s, offer) ← AldistOfferSetupForIRQ s irq;
  s ← SetHardwareInterrupt s offer.1 offer.2 dev irq h;
  '(s, ok) ← SetRedirectIRQ s irq offer.1 offer.2;
  Done (s, offer, ok).

(** ** Properties of the vector search *)

Record ints_wf (s : Ints) : Prop := {
  iw_count : Z.of_nat (length (pCpuIDs s)) = ActiveProcessorCount s /\ 0 < ActiveProcessorCount s <= 256;
  iw_idx : 0 <= Idx s < ActiveProcessorCount s;
  iw_tables : Forall (fun c => 0 <= c < 256 /\ exists t, Interrupt s !! c = Some t /\ length t = 256%nat) (pCpuIDs s);
  iw_locks : forall c, default false (IntmodSpinlock s !! c) = false;
  iw_io : Forall (fun a => 0 <= FirstIRQ a /\ 0 <= MaxRedirEntry a < 256) (IoApics s)
}.

(** The vector offered on processor [c]: the first one above the exceptions
    whose entry is empty. *)
Definition vacancy (s : Ints) (c : Z) : option Z :=
  t ← Interrupt s !! c; scan_vectors (drop 32 (take 256 t)) 32.
(** The processor [k] places after the next one to be asked. *)
Definition asked (s : Ints) (k : nat) : Z :=
  default 0 (pCpuIDs s !! Z.to_nat ((Idx s + Z.of_nat k) mod ActiveProcessorCount s)).

Lemma scan_vectors_some l : forall i v,
  scan_vectors l i = Some v -> i <= v < i + Z.of_nat (length l) /\ exists e, l !! Z.to_nat (v - i) = Some e /\ Vector e = 0.
Proof.
  induction l as [|x l IH]; intros i v; [done|]. cbn [scan_vectors length]. destruct (Z.eqb_spec (Vector x) 0) as [E|].
  - intros [= <-]. split; [lia|]. exists x. by rewrite Z.sub_diag.
  - intros H. destruct (IH _ _ H) as (Hr & e & He & Hv). split; [lia|]. exists e.
    by replace (Z.to_nat (v - i)) with (S (Z.to_nat (v - (i + 1)))) by lia.
Qed.

Lemma vacancy_entry s c v :
  vacancy s c = Some v -> exists t e, Interrupt s !! c = Some t /\ t !! Z.to_nat v = Some e /\ Vector e = 0 /\ 32 <= v < 256.
Proof.
  unfold vacancy. destruct (Interrupt s !! c) as [t|] eqn:E; [|done]. cbn. intros H.
  destruct (scan_vectors_some _ _ _ H) as (Hr & e & He & Hv). rewrite length_drop, length_take in Hr.
  exists t, e. split; [done|]. rewrite lookup_drop, lookup_take_Some in He. destruct He as [He _].
  replace (32 + Z.to_nat (v - 32))%nat with (Z.to_nat v) in He by lia. split_and!; [done|done|lia|lia].
Qed.

(** The next processor and the state after asking it. *)
Definition next_idx (s : Ints) : Ints := set_idx s ((Idx s + 1) mod ActiveProcessorCount s).

Lemma next_idx_wf s : ints_wf s -> ints_wf (next_idx s).
Proof. intros [W1 W2 W3 W4 W5]. split; try done. cbn. apply Z.mod_pos_bound. lia. Qed.

Lemma asked_next s k : ints_wf s -> asked (next_idx s) k = asked s (S k).
Proof.
  intros [W1 W2 _ _ _]. unfold asked, next_idx. cbn [set_idx pCpuIDs Idx ActiveProcessorCount].
  rewrite Z.add_mod_idemp_l by lia. do 4 f_equal. lia.
Qed.

Lemma asked_in s k : ints_wf s -> pCpuIDs s !! Z.to_nat ((Idx s + Z.of_nat k) mod ActiveProcessorCount s) = Some (asked s k) /\ asked s k ∈ pCpuIDs s.
Proof.
  intros [W1 W2 _ _ _]. unfold asked. pose proof (Z.mod_pos_bound (Idx s + Z.of_nat k) (ActiveProcessorCount s) ltac:(lia)).
  destruct (pCpuIDs s !! _) as [c|] eqn:E; [|apply lookup_ge_None in E; lia]. split; [done|]. by apply list_elem_of_lookup_2 in E.
Qed.

Lemma offer_unfold fuel s r :
  ints_wf s -> 0 <= r < 2 ^ 31 ->
  offer_loop (S fuel) s r =
    match vacancy s (asked s 0) with
    | Some v => Done (next_idx s, (asked s 0, v))
    | None => if r <? ActiveProcessorCount s then offer_loop fuel (next_idx s) (r + 1) else Melt KR_MDCODE_INTERRUPT_VECTORS_OVERRUN
    end.
Proof.
  intros Hwf Hr. pose proof Hwf as [W1 W2 W3 W4 W5]. destruct (asked_in s 0 Hwf) as [E Hin]. cbn [offer_loop].
  rewrite Z.add_0_r, Z.mod_small in E by lia. rewrite E. cbn [checked]. rewrite bind_Done, u32_small by lia.
  assert ((if Idx s + 1 >=? ActiveProcessorCount s then 0 else Idx s + 1) = (Idx s + 1) mod ActiveProcessorCount s) as ->.
  { destruct (Z.geb_spec (Idx s + 1) (ActiveProcessorCount s)); [|by rewrite Z.mod_small by lia].
    replace (Idx s + 1) with (ActiveProcessorCount s) by lia. by rewrite Z.mod_same by lia. }
  fold (next_idx s). rewrite Forall_forall in W3. destruct (W3 _ Hin) as (Hc & t & Ht & Hl). unfold vacancy.
  change (Interrupt (next_idx s)) with (Interrupt s). rewrite Ht. cbn [checked mbind option_bind]. rewrite bind_Done.
  destruct (scan_vectors _ _) as [v|] eqn:Es; [|by rewrite u32_small by lia].
  destruct (scan_vectors_some _ _ _ Es) as [Hv _]. rewrite length_drop, length_take in Hv.
  unfold u8. by rewrite Z.mod_small by lia.
Qed.

Lemma offer_hit v k : forall fuel s r,
  ints_wf s -> (k < fuel)%nat -> 0 <= r -> r + Z.of_nat k <= ActiveProcessorCount s ->
  (forall j, (j < k)%nat -> vacancy s (asked s j) = None) -> vacancy s (asked s k) = Some v ->
  exists i, offer_loop fuel s r = Done (set_idx s i, (asked s k, v)) /\ 0 <= i < ActiveProcessorCount s.
Proof.
  induction k as [|k IH]; intros fuel s r Hwf Hf Hr Hrk Hn Hv; (destruct fuel as [|fuel]; [lia|]);
    pose proof (iw_count _ Hwf) as Hc; rewrite offer_unfold by (done || lia).
  - rewrite Hv. eexists. split; [reflexivity|]. apply Z.mod_pos_bound. lia.
  - rewrite (Hn 0%nat), (proj2 (Z.ltb_lt r (ActiveProcessorCount s))) by lia.
    destruct (IH fuel (next_idx s) (r + 1)) as (i & E & Hi); [by apply next_idx_wf|lia|lia|cbn; lia| | |].
    + intros j Hj. rewrite asked_next by done. apply (Hn (S j)). lia.
    + by rewrite asked_next.
    + exists i. rewrite E, asked_next by done. done.
Qed.

Lemma offer_miss n : forall fuel s r,
  ints_wf s -> (n < fuel)%nat -> 0 <= r -> r + Z.of_nat n = ActiveProcessorCount s ->
  (forall j, vacancy s (asked s j) = None) -> offer_loop fuel s r = Melt KR_MDCODE_INTERRUPT_VECTORS_OVERRUN.
Proof.
  induction n as [|n IH]; intros fuel s r Hwf Hf Hr Hrn Hn; (destruct fuel as [|fuel]; [lia|]);
    pose proof (iw_count _ Hwf) as Hc; rewrite offer_unfold by (done || lia); rewrite Hn.
  - by rewrite (proj2 (Z.ltb_ge r (ActiveProcessorCount s))) by lia.
  - rewrite (proj2 (Z.ltb_lt r (ActiveProcessorCount s))) by lia. apply IH; [by apply next_idx_wf|lia|lia|cbn; lia|].
    intros j. rewrite asked_next by done. apply (Hn (S j)).
Qed.

Lemma first_vacancy s n :
  (exists k v, (k < n)%nat /\ vacancy s (asked s k) = Some v /\ forall j, (j < k)%nat -> vacancy s (asked s j) = None) \/
  (forall k, (k < n)%nat -> vacancy s (asked s k) = None).
Proof.
  induction n as [|n [(k & v & Hk & H)|IH]]; [right; lia|left; exists k, v; split; [lia|done]|].
  destruct (vacancy s (asked s n)) as [v|] eqn:E; [left; exists n, v; split_and!; [lia|done|done]|right].
  intros k Hk. destruct (decide (k = n)) as [->|]; [done|]. apply IH. lia.
Qed.

(** Asking past the last processor starts over. *)
Lemma asked_mod s k : ints_wf s -> asked s k = asked s (Z.to_nat (Z.of_nat k mod ActiveProcessorCount s)).
Proof.
  intros [W1 _ _ _ _]. unfold asked. pose proof (Z.mod_pos_bound (Z.of_nat k) (ActiveProcessorCount s) ltac:(lia)).
  rewrite Z2Nat.id by lia. by rewrite Z.add_mod_idemp_r by lia.
Qed.

Lemma aldist_spec s irq :
  ints_wf s ->
  (exists k v i, AldistOfferSetupForIRQ s irq = Done (set_idx s i, (asked s k, v)) /\ 0 <= i < ActiveProcessorCount s /\
     vacancy s (asked s k) = Some v /\ forall j, (j < k)%nat -> vacancy s (asked s j) = None) \/
  AldistOfferSetupForIRQ s irq = Melt KR_MDCODE_INTERRUPT_VECTORS_OVERRUN /\
    forall c, c ∈ pCpuIDs s -> vacancy s c = None.
Proof.
  intros Hwf. pose proof (iw_count _ Hwf) as [Hl Hc]. pose proof (iw_idx _ Hwf) as Hi. unfold AldistOfferSetupForIRQ.
  destruct (first_vacancy s (Z.to_nat (ActiveProcessorCount s))) as [(k & v & Hk & Hv & Hn)|Hn].
  - left. destruct (offer_hit v k (Z.to_nat (ActiveProcessorCount s) + 2) s 0 Hwf) as (i & E & H); [lia|lia|lia|done|done|].
    exists k, v, i. done.
  - assert (forall j, vacancy s (asked s j) = None) as Hall.
    { intros j. rewrite asked_mod by done. apply Hn. pose proof (Z.mod_pos_bound (Z.of_nat j) (ActiveProcessorCount s) ltac:(lia)). lia. }
    right. split; [apply (offer_miss (Z.to_nat (ActiveProcessorCount s))); (done || lia)|].
    intros c [j Hj]%list_elem_of_lookup. pose proof (lookup_lt_Some _ _ _ Hj) as Hlt.
    assert (asked s (Z.to_nat ((Z.of_nat j - Idx s) mod ActiveProcessorCount s)) = c) as <-; [|done].
    unfold asked. pose proof (Z.mod_pos_bound (Z.of_nat j - Idx s) (ActiveProcessorCount s) ltac:(lia)).
    rewrite Z2Nat.id, Z.add_mod_idemp_r by lia. replace (Idx s + (Z.of_nat j - Idx s)) with (Z.of_nat j) by lia.
    rewrite Z.mod_small, Nat2Z.id by lia. by rewrite Hj.
Qed.

(** ** Redirection entries *)

Definition redirection (s : Ints) (a : IoApicInfo) (irq : Z) : option Z * option Z :=
  (io_regs s !! (VaddrBase a, redir_index a irq), io_regs s !! (VaddrBase a, redir_index a irq + 1)).

Lemma io_write_regs s a i v :
  io_regs (IoApicWrite s a i v) = <[(VaddrBase a, i) := v]> (io_regs s).
Proof.
  unfold IoApicWrite, MmioWrite32, io_selected. cbn [Z.eqb IOREGSEL IOREGWIN]. cbn. by rewrite lookup_insert_eq.
Qed.
Lemma io_write_rest s a i v : exists sel r, IoApicWrite s a i v = set_io s sel r.
Proof. unfold IoApicWrite, MmioWrite32. cbn. by eexists _, _. Qed.

Lemma io_write64_spec s a i v :
  0 <= i -> i + 1 < 2 ^ 32 ->
  io_regs (IoApicWrite64 s a i v) = <[(VaddrBase a, i + 1) := u32 (Z.shiftr v 32)]> (<[(VaddrBase a, i) := u32 v]> (io_regs s)).
Proof. intros H0 H1. unfold IoApicWrite64. by rewrite (u32_small (i + 1)), !io_write_regs by lia. Qed.

Lemma find_io_apic_spec n s : forall i irq a,
  find_io_apic n s i irq = Done (Some a) -> a ∈ IoApics s /\ FirstIRQ a <= irq <= u32 (FirstIRQ a + MaxRedirEntry a).
Proof.
  induction n as [|n IH]; intros i irq a; [done|]. cbn [find_io_apic]. intros H.
  apply bind_Done_inv in H as (id & _ & H). apply bind_Done_inv in H as (x & Hx & H).
  destruct (negb _); [by eapply IH|]. destruct (Z.geb_spec irq (FirstIRQ x)); cbn [andb] in H; [|by eapply IH].
  destruct (Z.leb_spec irq (u32 (FirstIRQ x + MaxRedirEntry x))); [|by eapply IH]. injection H as <-.
  split; [|lia]. destruct (IoApics s !! Z.to_nat id) eqn:E; [|done]. injection Hx as ->. by apply list_elem_of_lookup_2 in E.
Qed.

Lemma redir_index_range s irq a :
  ints_wf s -> FindIoApicForIRQ s irq = Done (Some a) -> 0 <= irq < 2 ^ 32 ->
  redir_index a irq = 16 + 2 * (irq - FirstIRQ a) /\ 0 <= irq - FirstIRQ a < 256.
Proof.
  intros Hwf H Hirq. apply find_io_apic_spec in H as [Ha Hr]. pose proof (iw_io _ Hwf) as Hio. rewrite Forall_forall in Hio.
  specialize (Hio a Ha). assert (u32 (FirstIRQ a + MaxRedirEntry a) <= FirstIRQ a + MaxRedirEntry a).
  { unfold u32. apply Z.mod_le; lia. }
  split; [|lia]. unfold redir_index, IOREDTBL. rewrite (u32_small (irq - FirstIRQ a)), (u32_small ((irq - FirstIRQ a) * 2)), u32_small by lia. lia.
Qed.

(** ** Setting an interrupt up *)

Lemma set_vector_spec s c t v d :
  Interrupt s !! c = Some t -> 0 <= v -> Vector d = v -> (Z.to_nat v < length t)%nat -> default false (IntmodSpinlock s !! c) = false ->
  exists s', SetInterrupt s c d = Done s' /\ Interrupt s' = <[c := <[Z.to_nat v := d]> t]> (Interrupt s) /\
    s' = mkInts (Interrupt s') (IntmodSpinlock s') (Idx s) (pCpuIDs s) (ActiveProcessorCount s) (IoApics s) (IoApicIDs s)
           (IoApicCount s) (io_select s) (io_regs s) /\ default false (IntmodSpinlock s' !! c) = false /\
    forall c', c' <> c -> IntmodSpinlock s' !! c' = IntmodSpinlock s !! c'.
Proof.
  intros Ht Hv <- Hl Hk. unfold SetInterrupt, update_vector, AcquireIntmod. rewrite Hk, bind_Done.
  cbn [set_lock Interrupt]. rewrite Ht. cbn [checked]. rewrite bind_Done.
  destruct (t !! Z.to_nat (Vector d)) as [e|] eqn:Ee; [|apply lookup_ge_None in Ee; lia]. cbn [checked]. rewrite bind_Done.
  eexists. split; [reflexivity|]. split; [done|]. split; [done|]. cbn. split; [by rewrite lookup_insert_eq|].
  intros c' Hc. by rewrite !lookup_insert_ne by done.
Qed.

(** Interrupt [irq] is delivered to vector [v] of processor [c], whose handler is [h]. *)
Record routed (s : Ints) (a : IoApicInfo) (irq c v dev h : Z) : Prop := {
  rt_entry : redirection s a irq = (Some v, Some (Z.shiftl c 24));
  rt_table : exists t, Interrupt s !! c = Some t /\ t !! Z.to_nat v = Some (mkInterrupt h dev irq v);
  rt_dispatch : h <> 0 -> KrDispatchInterrupt s c v = Done (Some h, negb (v =? KERNEL_SPURIOUS_INTERRUPT_VECTOR))
}.

Lemma redir_entry_words c v :
  0 <= c < 256 -> 0 <= v < 256 ->
  let e := Z.lor v (u64 (Z.shiftl c 56)) in u32 e = v /\ u32 (Z.shiftr e 32) = Z.shiftl c 24.
Proof.
  intros Hc Hv e. assert (e = v + c * 2 ^ 56) as ->.
  { unfold e. rewrite Z.shiftl_mul_pow2, u64_small by lia. rewrite <- Z.add_lor_land.
    assert (Z.land v (c * 2 ^ 56) = 0) as ->; [|lia]. apply Z.bits_inj'. intros i Hi.
    rewrite Z.land_spec, Z.bits_0, <- Z.shiftl_mul_pow2, Z.shiftl_spec by lia.
    destruct (decide (i < 56)); [by rewrite (Z.testbit_neg_r c), andb_false_r by lia|].
    by rewrite (testbit_above v 8) by lia. }
  unfold u32. rewrite Z.shiftr_div_pow2, Z.shiftl_mul_pow2 by lia. split; zlia.
Qed.

Lemma find_io_apic_ext s s' :
  IoApics s' = IoApics s -> IoApicIDs s' = IoApicIDs s -> forall n i irq, find_io_apic n s' i irq = find_io_apic n s i irq.
Proof.
  intros E1 E2. induction n as [|n IH]; intros i irq; [done|]. cbn [find_io_apic]. rewrite E1, E2.
  destruct (IoApicIDs s !! Z.to_nat i) as [id|]; [|done]. cbn [checked]. rewrite !bind_Done.
  destruct (IoApics s !! Z.to_nat id) as [x|]; [|done]. cbn [checked]. by rewrite !bind_Done, IH.
Qed.

Lemma redirect_spec s irq a c v :
  FindIoApicForIRQ s irq = Done (Some a) -> 0 <= redir_index a irq -> redir_index a irq + 1 < 2 ^ 32 ->
  0 <= c < 256 -> 0 <= v < 256 ->
  exists s', SetRedirectIRQ s irq c v = Done (s', true) /\ Interrupt s' = Interrupt s /\
    io_regs s' = <[(VaddrBase a, redir_index a irq + 1) := Z.shiftl c 24]> (<[(VaddrBase a, redir_index a irq) := v]> (io_regs s)).
Proof.
  intros H H0 H1 Hc Hv. unfold SetRedirectIRQ. rewrite H, bind_Done. unfold MAX_SMP_PROCESSORS.
  destruct (Z.geb_spec c 256); [lia|]. destruct (redir_entry_words c v Hc Hv) as [El Eh].
  eexists. split; [reflexivity|]. split.
  - unfold IoApicWrite64. destruct (io_write_rest s a (redir_index a irq) (u32 (Z.lor v (u64 (Z.shiftl c 56))))) as (x & y & ->).
    by destruct (io_write_rest (set_io s x y) a (u32 (redir_index a irq + 1)) (u32 (Z.shiftr (Z.lor v (u64 (Z.shiftl c 56))) 32))) as (? & ? & ->).
  - rewrite io_write64_spec by done. by rewrite El, Eh.
Qed.

Lemma routed_intro s a irq c v dev h t :
  Interrupt s !! c = Some t -> t !! Z.to_nat v = Some (mkInterrupt h dev irq v) -> 32 <= v < 256 ->
  io_regs s !! (VaddrBase a, redir_index a irq) = Some v -> io_regs s !! (VaddrBase a, redir_index a irq + 1) = Some (Z.shiftl c 24) ->
  routed s a irq c v dev h.
Proof.
  intros Ht Hv Hr H0 H1. split; [unfold redirection; by rewrite H0, H1|by exists t|].
  intros Hh. unfold KrDispatchInterrupt, KR_NUMBER_OF_INTERRUPT_DESCRIPTOR_ENTRIES, KR_PROCESSOR_RESERVED_INTERRUPT_COUNT.
  destruct (Z.ltb_spec v 256); [|lia]. rewrite Ht. cbn [checked]. rewrite bind_Done, Hv. cbn [checked]. rewrite bind_Done. cbn [Handler].
  rewrite (proj2 (Z.eqb_neq _ _) Hh). cbn [negb]. by destruct (Z.geb_spec v 32); [|lia].
Qed.

Lemma irq_setup_spec s irq dev h a :
  ints_wf s -> 0 <= irq < 2 ^ 32 -> FindIoApicForIRQ s irq = Done (Some a) ->
  (exists s' k v, irq_setup s irq dev h = Done (s', (asked s k, v), true) /\
     vacancy s (asked s k) = Some v /\ (forall j, (j < k)%nat -> vacancy s (asked s j) = None) /\
     routed s' a irq (asked s k) v dev h /\
     (forall c t, Interrupt s !! c = Some t -> exists t', Interrupt s' !! c = Some t' /\
        forall i, (c, i) <> (asked s k, Z.to_nat v) -> t' !! i = t !! i) /\
     (forall b i, (b, i) <> (VaddrBase a, redir_index a irq) -> (b, i) <> (VaddrBase a, redir_index a irq + 1) ->
        io_regs s' !! (b, i) = io_regs s !! (b, i))) \/
  irq_setup s irq dev h = Melt KR_MDCODE_INTERRUPT_VECTORS_OVERRUN /\ (forall c, c ∈ pCpuIDs s -> vacancy s c = None).
Proof.
  intros Hwf Hirq Hio. unfold irq_setup.
  destruct (aldist_spec s irq Hwf) as [(k & v & i & E & Hi & Hv & Hn)|[E Hn]]; rewrite E; [|by right].
  left. rewrite bind_Done. cbn [fst snd]. destruct (asked_in s k Hwf) as [_ Hin].
  destruct (vacancy_entry _ _ _ Hv) as (t & e & Ht & He & He0 & Hvr).
  pose proof (iw_tables _ Hwf) as W3. rewrite Forall_forall in W3. destruct (W3 _ Hin) as (Hc & t' & Ht' & Hl).
  rewrite Ht in Ht'. injection Ht' as <-. set (c := asked s k) in *.
  destruct (set_vector_spec (set_idx s i) c t v (mkInterrupt h dev irq v) Ht ltac:(lia) eq_refl ltac:(lia) (iw_locks _ Hwf c))
    as (s1 & E1 & Et & Es & _).
  unfold SetHardwareInterrupt. rewrite E1, bind_Done.
  destruct (redir_index_range s irq a Hwf Hio Hirq) as [Eidx Hidx]. pose proof (find_io_apic_spec _ _ _ _ _ Hio) as [_ Hfirst].
  destruct (redirect_spec s1 irq a c v) as (s2 & E2 & Ei & Er); [|lia|lia|lia|lia|].
  { rewrite <- Hio, Es. by apply find_io_apic_ext. }
  assert (io_regs s1 = io_regs s) as Eregs by by rewrite Es. rewrite Eregs in Er. change (Interrupt (set_idx s i)) with (Interrupt s) in Et.
  rewrite E2, bind_Done. exists s2, k, v. do 3 (split; [done|]). split; [|split].
  - eapply routed_intro; [rewrite Ei, Et; apply lookup_insert_eq|apply list_lookup_insert_eq; lia|lia| |].
    + rewrite Er, lookup_insert_ne by (intros [=]; lia). apply lookup_insert_eq.
    + rewrite Er. apply lookup_insert_eq.
  - intros c' t' Hc'. rewrite Ei, Et. destruct (decide (c = c')) as [<-|Hne].
    + rewrite lookup_insert_eq. eexists. split; [done|]. intros j Hj. rewrite Ht in Hc'. injection Hc' as <-.
      apply list_lookup_insert_ne. intros <-. by apply Hj.
    + rewrite lookup_insert_ne by done. by exists t'.
  - intros b j H1 H2. rewrite Er. by rewrite !lookup_insert_ne.
Qed.

(** C14: Setting up an interrupt as a driver does (vector offer, handler,
    redirection), for an IRQ some I/O APIC serves: if any processor has an empty
    vector above the exceptions, the first such processor in turn gets it at its first
    empty vector, the redirection entry of the IRQ then names that processor and vector,
    unmasked, a dispatch of the vector there calls the handler, and no other
    vector or redirection register changes; if every vector is taken the set-up enters
    the vector overrun meltdown. *)
Theorem irq_setup_routes s irq dev h a :
  ints_wf s -> 0 <= irq < 2 ^ 32 -> FindIoApicForIRQ s irq = Done (Some a) ->
  (exists s' k v, irq_setup s irq dev h = Done (s', (asked s k, v), true) /\
     vacancy s (asked s k) = Some v /\ (forall j, (j < k)%nat -> vacancy s (asked s j) = None) /\
     routed s' a irq (asked s k) v dev h /\
     (forall c t, Interrupt s !! c = Some t -> exists t', Interrupt s' !! c = Some t' /\
        forall i, (c, i) <> (asked s k, Z.to_nat v) -> t' !! i = t !! i) /\
     (forall b i, (b, i) <> (VaddrBase a, redir_index a irq) -> (b, i) <> (VaddrBase a, redir_index a irq + 1) ->
        io_regs s' !! (b, i) = io_regs s !! (b, i))) \/
  irq_setup s irq dev h = Melt KR_MDCODE_INTERRUPT_VECTORS_OVERRUN /\ (forall c, c ∈ pCpuIDs s -> vacancy s c = None).
Proof. apply irq_setup_spec. Qed.

(** Two processors: the vectors of processor 0 up to 33 are taken; IRQs 0 to 23
    belong to one I/O APIC. *)
Definition sample_entry (h v : Z) : PerCpuInterrupt := mkInterrupt h 0 0xFFFFFFFF v.
Definition sample_table : list PerCpuInterrupt :=
  (sample_entry 7 <$> seqZ 0 34) ++ replicate 222 (sample_entry 0 0).
Definition sample_apic : IoApicInfo := mkIoApic 0xFEC00000 0xFFFFFFC000000000 0 0 0x20 23 true true.
Definition sample_ints : Ints :=
  mkInts {[ 0 := sample_table; 1 := sample_table ]} ∅ 0 [0; 1] 2 [sample_apic] [0] 1 ∅ ∅.

Lemma sample_ints_wf : ints_wf sample_ints.
Proof.
  split; [by split|by split| | |].
  - repeat (apply Forall_cons; split; [split; [done|]; exists sample_table; by split; vm_compute|]). constructor.
  - intros c. cbn. by rewrite lookup_empty.
  - repeat constructor; done.
Defined.

Example irq_setup_routes_witness :
  (r ← irq_setup sample_ints 1 5 9; Done (r.1.2, r.2)) = Done (0, 34, true) /\
  ((exists s' k v, irq_setup sample_ints 1 5 9 = Done (s', (asked sample_ints k, v), true) /\
     vacancy sample_ints (asked sample_ints k) = Some v /\
     (forall j, (j < k)%nat -> vacancy sample_ints (asked sample_ints j) = None) /\
     routed s' sample_apic 1 (asked sample_ints k) v 5 9 /\
     (forall c t, Interrupt sample_ints !! c = Some t -> exists t', Interrupt s' !! c = Some t' /\
        forall i, (c, i) <> (asked sample_ints k, Z.to_nat v) -> t' !! i = t !! i) /\
     (forall b i, (b, i) <> (VaddrBase sample_apic, redir_index sample_apic 1) ->
        (b, i) <> (VaddrBase sample_apic, redir_index sample_apic 1 + 1) ->
        io_regs s' !! (b, i) = io_regs sample_ints !! (b, i))) \/
   irq_setup sample_ints 1 5 9 = Melt KR_MDCODE_INTERRUPT_VECTORS_OVERRUN /\
     (forall c, c ∈ pCpuIDs sample_ints -> vacancy sample_ints c = None)).
Proof.
  split; [vm_compute; reflexivity|].
  apply (irq_setup_routes sample_ints 1 5 9 sample_apic); [exact sample_ints_wf|done|vm_compute; reflexivity].
Defined.

(** ** Enabling and masking *)

Lemma io_read_spec s a i :
  exists sel, IoApicRead s a i = (set_io s sel (io_regs s), default 0 (io_regs s !! (VaddrBase a, i))).
Proof.
  unfold IoApicRead, MmioWrite32, MmioRead32, io_selected. cbn. rewrite lookup_insert_eq. by eexists.
Qed.

Lemma io_write64_table s a i v : Interrupt (IoApicWrite64 s a i v) = Interrupt s.
Proof.
  unfold IoApicWrite64. destruct (io_write_rest s a i (u32 v)) as (x & y & ->).
  by destruct (io_write_rest (set_io s x y) a (u32 (i + 1)) (u32 (Z.shiftr v 32))) as (? & ? & ->).
Qed.

(** SetEnableIRQ changes the mask bit of the entry only. *)
Lemma enable_irq_spec s irq a (b : bool) lo hi :
  ints_wf s -> 0 <= irq < 2 ^ 32 -> FindIoApicForIRQ s irq = Done (Some a) ->
  redirection s a irq = (Some lo, Some hi) -> 0 <= lo < 2 ^ 32 -> 0 <= hi < 2 ^ 32 ->
  exists s' lo', SetEnableIRQ s irq b = Done (s', true) /\ redirection s' a irq = (Some lo', Some hi) /\
    (forall i, 0 <= i < 32 -> Z.testbit lo' i = if i =? 16 then negb b else Z.testbit lo i) /\ Interrupt s' = Interrupt s.
Proof.
  intros Hwf Hirq Hio [= Hlo Hhi] Rlo Rhi. unfold SetEnableIRQ. rewrite Hio, bind_Done.
  destruct (redir_index_range s irq a Hwf Hio Hirq) as [Eidx Hidx]. pose proof (find_io_apic_spec _ _ _ _ _ Hio) as [_ Hfirst].
  unfold IoApicRead64. destruct (io_read_spec s a (redir_index a irq)) as [x ->].
  rewrite (u32_small (redir_index a irq + 1)) by lia.
  destruct (io_read_spec (set_io s x (io_regs s)) a (redir_index a irq + 1)) as [y ->]. cbn [set_io io_regs]. rewrite Hlo, Hhi. cbn [default from_option id].
  set (e := Z.lor (u64 (Z.shiftl hi 32)) lo). set (e' := if b then Z.land e (u64 (Z.lnot IRQMASK)) else Z.lor e IRQMASK).
  assert (forall i, 0 <= i < 64 -> Z.testbit e i = if i <? 32 then Z.testbit lo i else Z.testbit hi (i - 32)) as He.
  { intros i Hi. unfold e. rewrite Z.lor_spec, testbit_u64, Z.shiftl_spec by lia. destruct (Z.ltb_spec i 64); [|lia]. cbn [andb].
    destruct (Z.ltb_spec i 32); [by rewrite (Z.testbit_neg_r hi) by lia|]. by rewrite (testbit_above lo 32), orb_false_r by lia. }
  assert (forall i, 0 <= i < 64 -> Z.testbit e' i = if i =? 16 then negb b else Z.testbit e i) as He'.
  { intros i Hi. unfold e', IRQMASK. destruct b.
    - rewrite Z.land_spec, testbit_u64, Z.lnot_spec, testbit_one_shiftl by lia. destruct (Z.ltb_spec i 64); [|lia].
      destruct (i =? 16); cbn; by rewrite ?andb_true_r, ?andb_false_r.
    - rewrite Z.lor_spec, testbit_one_shiftl by lia. destruct (i =? 16); by rewrite ?orb_true_r, ?orb_false_r. }
  eexists _, (u32 e'). split; [reflexivity|]. split; [|split; [|by rewrite io_write64_table]].
  - unfold redirection. rewrite io_write64_spec by lia. rewrite lookup_insert_eq, lookup_insert_ne, lookup_insert_eq by (intros [=]; lia).
    do 2 f_equal. apply (bits_inj_below 32); [apply u32_range|done|]. intros i Hi.
    rewrite testbit_u32, Z.shiftr_spec, He', He by lia. destruct (Z.ltb_spec i 32), (Z.eqb_spec (i + 32) 16), (Z.ltb_spec (i + 32) 32); try lia.
    cbn [andb]. f_equal. lia.
  - intros i Hi. rewrite testbit_u32, He', He by lia. by destruct (Z.ltb_spec i 32); [|lia].
Qed.

(** ** Divergences *)

(** SetInterruptHandler does not mark the vector as taken: the next offer hands
    the same vector out again. *)
Example handler_vector_offered :
  (s ← SetInterruptHandler sample_ints 0 34 9; r ← AldistOfferSetupForIRQ s 2; Done r.2) = Done (0, 34).
Proof. vm_compute. done. Qed.

(** The low word of the entry, which unmasks the IRQ, is written before the
    destination: in between, the IRQ goes to processor 0. *)
Example redirect_transient :
  let s := IoApicWrite sample_ints sample_apic (redir_index sample_apic 1) (u32 (Z.lor 40 (u64 (Z.shiftl 3 56)))) in
  redirection s sample_apic 1 = (Some 40, None).
Proof. vm_compute. done. Qed.

(** A breakpoint without a handler halts the processor, which the comment
    excludes. *)
Example breakpoint_halts : KrUnhandledInterrupt 3 = Hang.
Proof. done. Qed.
