(* ===== verification/Descriptors.v ===== *)
(** * Descriptor tables: CPU/GDT.c, Init/KrInitGDT.c, CPU/IDT.c, Init/KrInitInt.c

    The encoders write bytes; the processor's reading of those bytes is stated
    by decoders written from the descriptor layouts, and the start-up routines
    are shown to give every vector a gate and every exception a handler. *)
From Stdlib Require Import ZArith Lia.
From stdpp Require Import base numbers list gmap.
From S2P Require Import Prelude Interrupts.
Open Scope Z_scope.
#[local] Arguments Z.testbit _ _ : simpl never.

(** ** Segment descriptors *)

Record KrGlobalDescriptorTableSegmentDescriptor := mkSegDesc {
  Limit : Z; Base : Z;
  Access_Accessed : Z; Access_ReadWrite : Z; Access_DC : Z; Access_Executable : Z;
  Access_DescType : Z; Access_DPL : Z; Access_Present : Z;
  Flags_Reserved : Z; Flags_LongModeCode : Z; Flags_Size : Z; Flags_Granularity : Z
}.

Inductive KrEncodeSegmentDescriptor_Result :=
  | ENCODE_SEGMENT_DESCRIPTOR_SUCCESS
  | ENCODE_SEGMENT_DESCRIPTOR_LIMIT_TOO_LARGE.

Definition GDT_ACCESS_DPL_HIGHEST_PRIVILEGE : Z := 0.
Definition GDT_SEGMENT_DESCRIPTOR_ENTRY_SIZE : Z := 8.

Definition byte_of (x k : Z) : Z := Z.land (Z.shiftr x k) 0xFF.
Definition or_bits (acc x mask k : Z) : Z := u8 (Z.lor acc (Z.shiftl (Z.land x mask) k)).

Definition access_byte (d : KrGlobalDescriptorTableSegmentDescriptor) : Z :=
  let b := 0 in
  let b := or_bits b (Access_Present d) 1 7 in
  let b := or_bits b (Access_DPL d) 3 5 in
  let b := or_bits b (Access_DescType d) 1 4 in
  let b := or_bits b (Access_Executable d) 1 3 in
  let b := or_bits b (Access_DC d) 1 2 in
  let b := or_bits b (Access_ReadWrite d) 1 1 in
  or_bits b (Access_Accessed d) 1 0.
Definition flags_nibble (d : KrGlobalDescriptorTableSegmentDescriptor) : Z :=
  let f := 0 in
  let f := or_bits f (Flags_Granularity d) 1 3 in
  let f := or_bits f (Flags_Size d) 1 2 in
  let f := or_bits f (Flags_LongModeCode d) 1 1 in
  or_bits f (Flags_Reserved d) 1 0.

(** [mem] holds the bytes of the table and [pDest] is the position written. *)
Definition KrEncodeSegmentDescriptor (mem : list Z) (pDest : nat) (d : KrGlobalDescriptorTableSegmentDescriptor)
  : list Z * KrEncodeSegmentDescriptor_Result :=
  if Limit d >? 0xFFFFF then (mem, ENCODE_SEGMENT_DESCRIPTOR_LIMIT_TOO_LARGE)
  else
    (list_inserts pDest
      [byte_of (Limit d) 0; byte_of (Limit d) 8;
       byte_of (Base d) 0; byte_of (Base d) 8; byte_of (Base d) 16;
       access_byte d;
       u8 (Z.lor (Z.shiftl (flags_nibble d) 4) (Z.land (Z.shiftr (Limit d) 12) 0xF));
       byte_of (Base d) 24] mem,
     ENCODE_SEGMENT_DESCRIPTOR_SUCCESS).

Definition KrConstructSegmentSelector (RPL i : Z) : Z :=
  if (RPL >? 3) || (i >? 0x1FFF) then 0
  else u16 (Z.lor (Z.lor (Z.land (Z.shiftl i 3) 0xFFF8) (Z.shiftl 0 2)) (Z.land RPL 3)).

(** ** Interrupt descriptors *)

Record KrInterruptDescriptor := mkIntDesc {
  OffsetLow : Z; SegmentSelector : Z; IST : Z; Attributes : Z; OffsetMid : Z; OffsetHigh : Z; Reserved : Z
}.
Definition KR_GATE_TYPE_INTERRUPT : Z := 0xE.
Definition KR_GATE_TYPE_TRAP : Z := 0xF.

Definition KrEncodeInterruptDescriptor (offset ssl ist gateType dpl : Z) : KrInterruptDescriptor :=
  mkIntDesc (Z.land offset 0xFFFF) ssl (Z.land ist 7)
    (u8 (Z.lor (Z.lor (Z.lor (Z.shiftl 1 7) (Z.shiftl (Z.land dpl 3) 5)) (Z.shiftl 0 4)) (Z.land gateType 0xF)))
    (Z.land (Z.shiftr offset 16) 0xFFFF) (Z.land (Z.shiftr offset 32) 0xFFFFFFFF) 0.
Definition KrConstructInterruptDescriptor (offset ssl ist gateType dpl : Z) : KrInterruptDescriptor :=
  KrEncodeInterruptDescriptor offset ssl ist gateType dpl.

(** ** Start-up *)

Record KernelStateGDT := mkStateGDT {
  NumberOfDescriptorEntries : Z; KernelCodeSegmentSelector : Z; KernelDataSegmentSelector : Z
}.

Definition null_desc : KrGlobalDescriptorTableSegmentDescriptor := mkSegDesc 0 0 0 0 0 0 0 0 0 0 0 0 0.
Definition krnl_code_desc : KrGlobalDescriptorTableSegmentDescriptor :=
  mkSegDesc 0xFFFFF 0 1 1 0 1 1 GDT_ACCESS_DPL_HIGHEST_PRIVILEGE 1 0 1 0 1.
Definition krnl_data_desc : KrGlobalDescriptorTableSegmentDescriptor :=
  mkSegDesc 0xFFFFF 0 1 1 0 0 1 GDT_ACCESS_DPL_HIGHEST_PRIVILEGE 1 0 0 0 1.

(** The table bytes and the selectors kept in the kernel state. *)
Definition KrInitGDT (g_KrSegmentDescriptorsGDT : list Z) : list Z * KernelStateGDT :=
  let enc t i d := (KrEncodeSegmentDescriptor t (8 * i) d).1 in
  let t := enc g_KrSegmentDescriptorsGDT 0%nat null_desc in
  let t := enc t 1%nat krnl_code_desc in
  let t := enc t 2%nat krnl_data_desc in
  (t, mkStateGDT 3 (KrConstructSegmentSelector GDT_ACCESS_DPL_HIGHEST_PRIVILEGE 1)
        (KrConstructSegmentSelector GDT_ACCESS_DPL_HIGHEST_PRIVILEGE 2)).

Record IdtState := mkIdtState {
  IDT : list KrInterruptDescriptor;
  IdtInit : bool;
  AddrIDT_set : bool;
  StateGDT : KernelStateGDT;
  ints : Ints
}.

Definition INT_VECTOR_NON_MASKABLE_INTERRUPT : Z := 2.
Definition INT_VECTOR_PAGE_FAULT : Z := 14.
Definition KERNEL_TIMER_INTERRUPT_VECTOR : Z := 0x20.

Section Init.
(** Link-time addresses: the entry stubs and the C handlers. *)
Variable KrnlISRs : list Z.
Variables IntmgmtProcessorException IntmgmtNonmaskableInterrupt IntmgmtPageFault
  IntmgmtTimerInterrupt IntmgmtSpuriousInterrupt : Z.

Fixpoint idt_loop (n : nat) (i : Z) (ssl : Z) (idt : list KrInterruptDescriptor) : outcome (list KrInterruptDescriptor) :=
  match n with
  | O => Done idt
  | S n' =>
      isr ← checked (KrnlISRs !! Z.to_nat i);
      _ ← checked (idt !! Z.to_nat i);
      idt_loop n' (i + 1) ssl
        (<[Z.to_nat i := KrEncodeInterruptDescriptor isr ssl 0
             (if negb (i =? 3) then KR_GATE_TYPE_INTERRUPT else KR_GATE_TYPE_TRAP) 0]> idt)
  end.

Fixpoint exception_loop (n : nat) (i CpuID : Z) (s : Ints) : outcome Ints :=
  match n with
  | O => Done s
  | S n' => s ← SetExceptionInterrupt s CpuID i IntmgmtProcessorException; exception_loop n' (i + 1) CpuID s
  end.

Definition KrInitInt (k : IdtState) (CpuID : Z) : outcome IdtState :=
  k ← (if IdtInit k then Done k
       else idt ← idt_loop (Z.to_nat NUM_INT_VECTORS) 0 (KernelCodeSegmentSelector (StateGDT k)) (IDT k);
            Done (mkIdtState idt true true (StateGDT k) (ints k)));
  s ← exception_loop (Z.to_nat KR_PROCESSOR_RESERVED_INTERRUPT_COUNT) 0 CpuID (ints k);
  s ← SetExceptionInterrupt s CpuID INT_VECTOR_NON_MASKABLE_INTERRUPT IntmgmtNonmaskableInterrupt;
  s ← SetExceptionInterrupt s CpuID INT_VECTOR_PAGE_FAULT IntmgmtPageFault;
  s ← SetExceptionInterrupt s CpuID KERNEL_TIMER_INTERRUPT_VECTOR IntmgmtTimerInterrupt;
  s ← SetExceptionInterrupt s CpuID KERNEL_SPURIOUS_INTERRUPT_VECTOR IntmgmtSpuriousInterrupt;
  Done (mkIdtState (IDT k) (IdtInit k) (AddrIDT_set k) (StateGDT k) s).

(** The handler a vector has after start-up; 0 is none. *)
Definition startup_handler (i : Z) : option Z :=
  if i =? KERNEL_SPURIOUS_INTERRUPT_VECTOR then Some IntmgmtSpuriousInterrupt
  else if i =? KERNEL_TIMER_INTERRUPT_VECTOR then Some IntmgmtTimerInterrupt
  else if i =? INT_VECTOR_PAGE_FAULT then Some IntmgmtPageFault
  else if i =? INT_VECTOR_NON_MASKABLE_INTERRUPT then Some IntmgmtNonmaskableInterrupt
  else if (0 <=? i) && (i <? 32) then Some IntmgmtProcessorException
  else None.
End Init.

(** The macro of ISRs.h that the loop replaced: one encoding per line, vector 3
    left out. *)
Definition EncodeAllISRs (KrnlISRs : list Z) (ssl : Z) (idt : list KrInterruptDescriptor) : list KrInterruptDescriptor :=
  fold_left (fun t i => <[i := KrEncodeInterruptDescriptor (KrnlISRs !!! i) ssl 0 KR_GATE_TYPE_INTERRUPT 0]> t)
    ([0; 1; 2] ++ seq 4 252)%nat idt.

(** ** The processor's reading *)

Definition seg_decode (b : list Z) : option KrGlobalDescriptorTableSegmentDescriptor :=
  match b with
  | [b0; b1; b2; b3; b4; b5; b6; b7] =>
      Some (mkSegDesc (b0 + 2 ^ 8 * b1 + 2 ^ 16 * (b6 mod 16)) (b2 + 2 ^ 8 * b3 + 2 ^ 16 * b4 + 2 ^ 24 * b7)
        (b5 mod 2) (b5 / 2 mod 2) (b5 / 4 mod 2) (b5 / 8 mod 2) (b5 / 16 mod 2) (b5 / 32 mod 4) (b5 / 128 mod 2)
        (b6 / 16 mod 2) (b6 / 32 mod 2) (b6 / 64 mod 2) (b6 / 128 mod 2))
  | _ => None
  end.
(** The descriptor a selector designates in a table of bytes. *)
Definition seg_lookup (mem : list Z) (ssl : Z) : option KrGlobalDescriptorTableSegmentDescriptor :=
  seg_decode (take 8 (drop (8 * Z.to_nat (ssl / 8)) mem)).

Record gate := mkGate { g_offset : Z; g_ssl : Z; g_ist : Z; g_type : Z; g_dpl : Z; g_present : bool }.
Definition gate_decode (d : KrInterruptDescriptor) : gate :=
  mkGate (OffsetLow d + 2 ^ 16 * OffsetMid d + 2 ^ 32 * OffsetHigh d) (SegmentSelector d) (IST d mod 8)
    (Attributes d mod 16) (Attributes d / 32 mod 4) (Z.testbit (Attributes d) 7).

Record seg_desc_wf (d : KrGlobalDescriptorTableSegmentDescriptor) : Prop := {
  sw_limit : 0 <= Limit d < 2 ^ 32;
  sw_base : 0 <= Base d < 2 ^ 32;
  sw_access : Forall (fun x => 0 <= x < 2) [Access_Accessed d; Access_ReadWrite d; Access_DC d; Access_Executable d;
    Access_DescType d; Access_Present d];
  sw_dpl : 0 <= Access_DPL d < 4;
  sw_flags : Forall (fun x => 0 <= x < 2) [Flags_Reserved d; Flags_LongModeCode d; Flags_Size d; Flags_Granularity d]
}.

(** The limit the encoded bytes carry: bits 12 to 15 stand in for 16 to 19. *)
Definition encoded_limit (L : Z) : Z := L mod 2 ^ 16 + 2 ^ 16 * (L / 2 ^ 12 mod 16).
Definition with_limit (d : KrGlobalDescriptorTableSegmentDescriptor) (L : Z) : KrGlobalDescriptorTableSegmentDescriptor :=
  mkSegDesc L (Base d) (Access_Accessed d) (Access_ReadWrite d) (Access_DC d) (Access_Executable d) (Access_DescType d)
    (Access_DPL d) (Access_Present d) (Flags_Reserved d) (Flags_LongModeCode d) (Flags_Size d) (Flags_Granularity d).

Lemma byte_of_div x k : 0 <= k -> byte_of x k = x / 2 ^ k mod 2 ^ 8.
Proof. intros Hk. unfold byte_of. by rewrite (land_ones_mod _ 8), Z.shiftr_div_pow2 by lia. Qed.

Ltac binary := match goal with H : 0 <= ?x < 2 |- _ => is_var x; assert (x = 0 \/ x = 1) as [->| ->] by lia; clear H end.

Lemma access_byte_decodes d : seg_desc_wf d ->
  let b := access_byte d in
  0 <= b < 2 ^ 8 /\ b mod 2 = Access_Accessed d /\ b / 2 mod 2 = Access_ReadWrite d /\ b / 4 mod 2 = Access_DC d /\
  b / 8 mod 2 = Access_Executable d /\ b / 16 mod 2 = Access_DescType d /\ b / 32 mod 4 = Access_DPL d /\ b / 128 mod 2 = Access_Present d.
Proof.
  intros [_ _ Ha Hd _]. unfold access_byte. destruct d as [? ? a rw dc x dt dpl pr ? ? ? ?]. cbn in *. decompose_Forall.
  assert (dpl = 0 \/ dpl = 1 \/ dpl = 2 \/ dpl = 3) as Hdpl by lia. clear Hd. repeat binary.
  all: destruct Hdpl as [->|[->|[->| ->]]]; by vm_compute.
Qed.

Lemma flags_nibble_decodes d : seg_desc_wf d ->
  let f := flags_nibble d in
  0 <= f < 16 /\ f mod 2 = Flags_Reserved d /\ f / 2 mod 2 = Flags_LongModeCode d /\ f / 4 mod 2 = Flags_Size d /\ f / 8 mod 2 = Flags_Granularity d.
Proof.
  intros [_ _ _ _ Hf]. unfold flags_nibble. destruct d. cbn in *. decompose_Forall. repeat binary. all: by vm_compute.
Qed.

Lemma lor_shiftl_add a b k : 0 <= k -> 0 <= b < 2 ^ k -> Z.lor (Z.shiftl a k) b = a * 2 ^ k + b.
Proof.
  intros Hk Hb. rewrite <- Z.add_lor_land. rewrite Z.shiftl_mul_pow2 by lia.
  assert (Z.land (a * 2 ^ k) b = 0) as ->; [|lia]. rewrite <- Z.shiftl_mul_pow2 by lia.
  apply Z.bits_inj'. intros i Hi. rewrite Z.land_spec, Z.bits_0, Z.shiftl_spec by lia.
  destruct (decide (i < k)); [by rewrite Z.testbit_neg_r by lia|]. rewrite (testbit_above b k) by lia. apply andb_false_r.
Qed.

Lemma encode_decodes d :
  seg_desc_wf d -> Limit d <= 0xFFFFF ->
  seg_decode [byte_of (Limit d) 0; byte_of (Limit d) 8; byte_of (Base d) 0; byte_of (Base d) 8; byte_of (Base d) 16; access_byte d;
     u8 (Z.lor (Z.shiftl (flags_nibble d) 4) (Z.land (Z.shiftr (Limit d) 12) 0xF)); byte_of (Base d) 24]
  = Some (with_limit d (encoded_limit (Limit d))).
Proof.
  intros Hwf HL. pose proof (access_byte_decodes d Hwf) as (_ & ? & ? & ? & ? & ? & ? & ?).
  pose proof (flags_nibble_decodes d Hwf) as (Hf & ? & ? & ? & ?). pose proof Hwf as [HwL HwB _ _ _].
  rewrite (land_ones_mod _ 4), Z.shiftr_div_pow2 by lia. rewrite lor_shiftl_add by (try apply Z.mod_pos_bound; lia).
  rewrite !byte_of_div by lia. set (n := Limit d / 2 ^ 12 mod 2 ^ 4). assert (0 <= n < 16) by (apply Z.mod_pos_bound; lia).
  set (f := flags_nibble d) in *. assert ((f * 2 ^ 4 + n) mod 16 = n /\ (f * 2 ^ 4 + n) / 16 = f) as [Hm Hq] by zlia.
  unfold u8. rewrite (Z.mod_small (f * 2 ^ 4 + n)) by lia. unfold seg_decode, with_limit, encoded_limit. rewrite Hm.
  change (2 ^ 4) with 16 in *. fold n.
  assert (forall k, 0 < k -> (f * 16 + n) / (16 * k) = f / k) as Hk by (intros k ?; rewrite <- Z.div_div, Hq by lia; done).
  pose proof (Hk 2 ltac:(lia)) as Hk2. pose proof (Hk 4 ltac:(lia)) as Hk4. pose proof (Hk 8 ltac:(lia)) as Hk8.
  change (16 * 2) with 32 in Hk2. change (16 * 4) with 64 in Hk4. change (16 * 8) with 128 in Hk8. f_equal. f_equal; try done; try congruence.
  - clear - HwL. zify_div; lia.
  - clear - HwB. zify_div; lia.
Qed.

(** ** Segment descriptor theorems *)

Lemma encode_length mem p d : length (KrEncodeSegmentDescriptor mem p d).1 = length mem.
Proof. unfold KrEncodeSegmentDescriptor. destruct (_ >? _); cbn [fst]; [done|]. apply length_inserts. Qed.

(** [KrEncodeSegmentDescriptor] refuses a limit above 20 bits and leaves
    the destination alone; otherwise it writes the eight bytes at the destination and nothing
    else, and the processor reads back every field of the source, except that
    limit bits 16 to 19 are copies of bits 12 to 15. *)
Theorem segment_descriptor_roundtrip mem p d :
  seg_desc_wf d -> (p + 8 <= length mem)%nat ->
  let '(mem', r) := KrEncodeSegmentDescriptor mem p d in
  length mem' = length mem /\
  (forall j, (j < p \/ p + 8 <= j)%nat -> mem' !! j = mem !! j) /\
  if Limit d <=? 0xFFFFF
  then r = ENCODE_SEGMENT_DESCRIPTOR_SUCCESS /\
       seg_decode (take 8 (drop p mem')) = Some (with_limit d (encoded_limit (Limit d))) /\
       (encoded_limit (Limit d) = Limit d <-> Limit d / 2 ^ 16 = Limit d / 2 ^ 12 mod 16)
  else r = ENCODE_SEGMENT_DESCRIPTOR_LIMIT_TOO_LARGE /\ mem' = mem.
Proof.
  intros Hwf Hp. pose proof (encode_length mem p d) as Hl. unfold KrEncodeSegmentDescriptor in *.
  rewrite Z.gtb_ltb, Z.ltb_antisym in *. destruct (Z.leb_spec (Limit d) 0xFFFFF) as [HL|HL]; cbn [negb] in *; cbv iota in *.
  - split_and!; [done| |done| |].
    + intros j Hj. destruct Hj; [by apply list_lookup_inserts_lt|apply list_lookup_inserts_ge; cbn; lia].
    + rewrite <- encode_decodes by done. f_equal. apply list_eq. intros j. destruct (decide (j < 8)%nat).
      * rewrite lookup_take_lt, lookup_drop, list_lookup_inserts by (cbn; lia). f_equal. lia.
      * rewrite lookup_take_ge by lia. symmetry. apply lookup_ge_None. cbn. lia.
    + unfold encoded_limit. pose proof (Z.div_mod (Limit d) (2 ^ 16)). lia.
  - done.
Qed.

Definition flat_code : KrGlobalDescriptorTableSegmentDescriptor := mkSegDesc 0xFFFFF 0 1 1 0 1 1 0 1 0 1 0 1.
Definition flat_data : KrGlobalDescriptorTableSegmentDescriptor := mkSegDesc 0xFFFFF 0 1 1 0 0 1 0 1 0 0 0 1.

Lemma init_gdt_spec t :
  length t = 24%nat ->
  let '(t', g) := KrInitGDT t in
  length t' = 24%nat /\ seg_lookup t' 0 = Some null_desc /\
  seg_lookup t' (KernelCodeSegmentSelector g) = Some flat_code /\ KernelCodeSegmentSelector g mod 8 = 0 /\
  seg_lookup t' (KernelDataSegmentSelector g) = Some flat_data /\ KernelDataSegmentSelector g mod 8 = 0.
Proof. intros H. do 24 (destruct t as [|? t]; [done|]). destruct t; [|done]. by vm_compute. Qed.

(** ** Interrupt descriptor theorems *)

Lemma selector_fields RPL i :
  0 <= RPL <= 3 -> 0 <= i <= 0x1FFF ->
  KrConstructSegmentSelector RPL i mod 4 = RPL /\ KrConstructSegmentSelector RPL i / 8 = i /\
  Z.testbit (KrConstructSegmentSelector RPL i) 2 = false.
Proof.
  intros Hr Hi. unfold KrConstructSegmentSelector. rewrite !Z.gtb_ltb. do 2 zcase; try lia. cbn [orb].
  assert (Z.land (Z.shiftl i 3) 0xFFF8 = Z.shiftl i 3) as ->.
  { apply Z.bits_inj'. intros k Hk. change 0xFFF8 with (Z.shiftl (Z.ones 13) 3).
    rewrite Z.land_spec, !Z.shiftl_spec by lia. destruct (decide (k < 3)); [by rewrite !(Z.testbit_neg_r _ (k - 3)) by lia|].
    rewrite Z.testbit_ones by lia. destruct (decide (k - 3 < 13)).
    - rewrite (proj2 (Z.leb_le 0 (k - 3))), (proj2 (Z.ltb_lt (k - 3) 13)) by lia. apply andb_true_r.
    - by rewrite (testbit_above i 13) by lia. }
  change (Z.shiftl 0 2) with 0. rewrite Z.lor_0_r, (land_ones_mod _ 2), (Z.mod_small RPL (2 ^ 2)) by lia.
  rewrite lor_shiftl_add by lia. unfold u16. rewrite (Z.mod_small _ (2 ^ 16)) by lia. split_and!; [zlia|zlia|].
  apply Z.testbit_false; [lia|]. zify_div; lia.
Qed.

Lemma gate_roundtrip offset ssl ist gateType dpl :
  0 <= offset < 2 ^ 64 ->
  gate_decode (KrConstructInterruptDescriptor offset ssl ist gateType dpl) =
    mkGate offset ssl (ist mod 8) (gateType mod 16) (dpl mod 4) true.
Proof.
  intros Ho. unfold gate_decode, KrConstructInterruptDescriptor, KrEncodeInterruptDescriptor. cbn [OffsetLow OffsetMid OffsetHigh SegmentSelector IST Attributes].
  rewrite (land_ones_mod _ 16), (land_ones_mod _ 16), (land_ones_mod _ 32), (land_ones_mod _ 3), (land_ones_mod _ 2), (land_ones_mod _ 4) by lia.
  rewrite !Z.shiftr_div_pow2 by lia. change (Z.shiftl 0 4) with 0. rewrite Z.lor_0_r.
  pose proof (Z.mod_pos_bound dpl (2 ^ 2) ltac:(lia)). pose proof (Z.mod_pos_bound gateType (2 ^ 4) ltac:(lia)).
  set (a := dpl mod 2 ^ 2) in *. set (g := gateType mod 2 ^ 4) in *.
  assert (Z.lor (Z.lor (Z.shiftl 1 7) (Z.shiftl a 5)) g = (4 + a) * 2 ^ 5 + g) as ->.
  { rewrite <- lor_shiftl_add by lia. f_equal. change (Z.shiftl 1 7) with (Z.shiftl 4 5). rewrite <- Z.shiftl_lor. f_equal.
    exact (lor_shiftl_add 1 a 2 ltac:(lia) ltac:(lia)). }
  unfold u8. rewrite (Z.mod_small _ (2 ^ 8)) by lia. f_equal.
  - clear - Ho. zify_div; lia.
  - apply Z.mod_mod. lia.
  - change (2 ^ 4) with 16 in *. fold g. clearbody a g. zify_div; lia.
  - change (2 ^ 2) with 4 in *. fold a. clearbody a g. zify_div; lia.
  - apply Z.testbit_true; [lia|]. clearbody a g. zify_div; lia.
Qed.

(** the processor reads back the handler address, selector, stack index,
    type and privilege level that [KrEncodeInterruptDescriptor] is given, with
    the present bit set, whatever the width of the narrow fields' arguments. *)
Theorem interrupt_descriptor_roundtrip offset ssl ist gateType dpl :
  0 <= offset < 2 ^ 64 ->
  gate_decode (KrConstructInterruptDescriptor offset ssl ist gateType dpl) =
    mkGate offset ssl (ist mod 8) (gateType mod 16) (dpl mod 4) true /\
  Reserved (KrConstructInterruptDescriptor offset ssl ist gateType dpl) = 0.
Proof. intros Ho. split; [by apply gate_roundtrip|done]. Qed.

(** ** The interrupt start-up *)

(** Everything of the interrupt state but the vector tables and their locks. *)
Definition ints_rest (s : Ints) :=
  (Idx s, pCpuIDs s, ActiveProcessorCount s, IoApics s, IoApicIDs s, IoApicCount s, io_select s, io_regs s).

(** [s] became [s'] by giving processor [c] the table [t], its lock free. *)
Record retabled (s : Ints) (c : Z) (t : list PerCpuInterrupt) (s' : Ints) : Prop := {
  rt_tables : Interrupt s' = <[c := t]> (Interrupt s);
  rt_free : default false (IntmodSpinlock s' !! c) = false;
  rt_rest : ints_rest s' = ints_rest s;
  rt_locks : forall c', c' <> c -> IntmodSpinlock s' !! c' = IntmodSpinlock s !! c'
}.
Definition exception_entry (h v : Z) : PerCpuInterrupt := mkInterrupt h 0 0xFFFFFFFF v.

Lemma exception_step s0 s c t v h :
  retabled s0 c t s -> 0 <= v -> (Z.to_nat v < length t)%nat ->
  exists s', SetExceptionInterrupt s c v h = Done s' /\ retabled s0 c (<[Z.to_nat v := exception_entry h v]> t) s'.
Proof.
  intros [Ht Hf Hr Hk] Hv Hl.
  destruct (set_vector_spec s c t v (exception_entry h v)) as (s' & H & Hi & Hs & Hf' & Hk'); try done.
  { by rewrite Ht, lookup_insert_eq. }
  exists s'. split; [exact H|]. split; [|done| |].
  - by rewrite Hi, Ht, insert_insert_eq.
  - rewrite <- Hr, Hs. done.
  - intros c' Hc. by rewrite Hk', Hk by done.
Qed.

Lemma exception_loop_spec h s0 c n : forall i s t,
  retabled s0 c t s -> 0 <= i -> i + Z.of_nat n <= Z.of_nat (length t) ->
  exists s' t', exception_loop h n i c s = Done s' /\ retabled s0 c t' s' /\ length t' = length t /\
    forall j, 0 <= j -> t' !! Z.to_nat j = if (i <=? j) && (j <? i + Z.of_nat n) then Some (exception_entry h j) else t !! Z.to_nat j.
Proof.
  induction n as [|n IH]; intros i s t Hs Hi Hn.
  - exists s, t. split_and!; try done. intros j Hj. do 2 zcase; cbn [andb]; solve [done | lia].
  - destruct (exception_step s0 s c t i h Hs) as (s1 & E & Hs1); [lia|lia|]. cbn [exception_loop]. rewrite E, bind_Done.
    destruct (IH (i + 1) s1 _ Hs1) as (s' & t' & H & Hr & Hl & Hj); [lia|rewrite length_insert; lia|].
    rewrite length_insert in Hl. exists s', t'. split_and!; try done. intros j Hj0. rewrite Hj by done.
    destruct (decide (j = i)) as [->|].
    + rewrite (proj2 (Z.leb_gt (i + 1) i)), (proj2 (Z.leb_le i i)), (proj2 (Z.ltb_lt i (i + Z.of_nat (S n)))) by lia. cbn [andb].
      rewrite list_lookup_insert_eq by lia. done.
    + rewrite list_lookup_insert_ne by lia. replace (i + 1 + Z.of_nat n) with (i + Z.of_nat (S n)) by lia.
      by replace (i + 1 <=? j) with (i <=? j) by (do 2 zcase; lia).
Qed.

(** The gate of vector [i]. *)
Definition vector_gate (KrnlISRs : list Z) (ssl i : Z) : option gate :=
  isr ← KrnlISRs !! Z.to_nat i;
  Some (mkGate isr ssl 0 (if i =? 3 then KR_GATE_TYPE_TRAP else KR_GATE_TYPE_INTERRUPT) 0 true).
Definition idt_ok (KrnlISRs : list Z) (ssl : Z) (idt : list KrInterruptDescriptor) : Prop :=
  forall i, 0 <= i < 256 -> gate_decode <$> idt !! Z.to_nat i = vector_gate KrnlISRs ssl i.

Lemma idt_loop_spec isrs ssl n : forall i idt,
  Forall (fun o => 0 <= o < 2 ^ 64) isrs -> 0 <= i -> (Z.to_nat i + n <= length isrs)%nat -> (Z.to_nat i + n <= length idt)%nat ->
  exists idt', idt_loop isrs n i ssl idt = Done idt' /\ length idt' = length idt /\
    forall j, 0 <= j -> gate_decode <$> idt' !! Z.to_nat j =
      if (i <=? j) && (j <? i + Z.of_nat n) then vector_gate isrs ssl j else gate_decode <$> idt !! Z.to_nat j.
Proof.
  induction n as [|n IH]; intros i idt HF Hi Hl Hd; cbn [idt_loop].
  - exists idt. split_and!; try done. intros j Hj. do 2 zcase; cbn [andb]; solve [done | lia].
  - destruct (isrs !! Z.to_nat i) as [o|] eqn:Eo; [|apply lookup_ge_None in Eo; lia].
    destruct (idt !! Z.to_nat i) as [e|] eqn:Ed; [|apply lookup_ge_None in Ed; lia]. cbn [checked]. rewrite !bind_Done.
    set (d := KrEncodeInterruptDescriptor _ _ _ _ _).
    destruct (IH (i + 1) (<[Z.to_nat i := d]> idt)) as (idt' & H & Hlen & Hj); [done|lia|lia|rewrite length_insert; lia|].
    rewrite length_insert in Hlen. exists idt'. split_and!; try done. intros j Hj0. rewrite Hj by done.
    destruct (decide (j = i)) as [->|].
    + rewrite (proj2 (Z.leb_gt (i + 1) i)), (proj2 (Z.leb_le i i)), (proj2 (Z.ltb_lt i (i + Z.of_nat (S n)))) by lia. cbn [andb].
      rewrite list_lookup_insert_eq by lia. unfold vector_gate. rewrite Eo. cbn [fmap option_fmap option_map mbind option_bind]. f_equal.
      assert (0 <= o < 2 ^ 64) by (eapply Forall_lookup_1 in HF; [exact HF|exact Eo]).
      etransitivity; [by apply gate_roundtrip|]. by destruct (i =? 3).
    + rewrite list_lookup_insert_ne by lia. replace (i + 1 + Z.of_nat n) with (i + Z.of_nat (S n)) by lia.
      by replace (i + 1 <=? j) with (i <=? j) by (do 2 zcase; lia).
Qed.

(** The hypotheses of the start-up of a processor. *)
Record int_ready (isrs : list Z) (k : IdtState) (CpuID : Z) (t : list PerCpuInterrupt) : Prop := {
  ir_isrs : Forall (fun o => 0 <= o < 2 ^ 64) isrs /\ length isrs = 256%nat;
  ir_idt : length (IDT k) = 256%nat;
  ir_init : IdtInit k = true -> idt_ok isrs (KernelCodeSegmentSelector (StateGDT k)) (IDT k);
  ir_table : Interrupt (ints k) !! CpuID = Some t /\ length t = 256%nat;
  ir_free : default false (IntmodSpinlock (ints k) !! CpuID) = false
}.

Lemma init_idt_spec isrs k c t :
  int_ready isrs k c t ->
  exists k', (if IdtInit k then Done k
       else idt ← idt_loop isrs (Z.to_nat NUM_INT_VECTORS) 0 (KernelCodeSegmentSelector (StateGDT k)) (IDT k);
            Done (mkIdtState idt true true (StateGDT k) (ints k))) = Done k' /\
    idt_ok isrs (KernelCodeSegmentSelector (StateGDT k)) (IDT k') /\ length (IDT k') = 256%nat /\ IdtInit k' = true /\
    StateGDT k' = StateGDT k /\ ints k' = ints k.
Proof.
  intros [[Hi Hil] Hd Hok _ _]. destruct (IdtInit k) eqn:E; [exists k; split_and!; auto|].
  destruct (idt_loop_spec isrs (KernelCodeSegmentSelector (StateGDT k)) 256 0 (IDT k)) as (idt & H & Hl & Hg); [done|lia|lia|lia|].
  change (Z.to_nat NUM_INT_VECTORS) with 256%nat. rewrite H, bind_Done. eexists. split; [done|]. cbn. split_and!; try done; [|lia].
  intros i Hr. rewrite Hg by lia. rewrite (proj2 (Z.leb_le 0 i)), (proj2 (Z.ltb_lt i _)) by lia. done.
Qed.

(** The table after the fixed assignments of the start-up. *)
Lemma startup_entries exc nmi pf tim spu (t t1 : list PerCpuInterrupt) :
  length t1 = 256%nat ->
  (forall j, 0 <= j -> t1 !! Z.to_nat j = if (0 <=? j) && (j <? 0 + Z.of_nat 32) then Some (exception_entry exc j) else t !! Z.to_nat j) ->
  forall j, 0 <= j < 256 ->
    (<[255%nat := exception_entry spu 255]> (<[32%nat := exception_entry tim 32]> (<[14%nat := exception_entry pf 14]>
       (<[2%nat := exception_entry nmi 2]> t1)))) !! Z.to_nat j =
    match startup_handler exc nmi pf tim spu j with Some h => Some (exception_entry h j) | None => t !! Z.to_nat j end.
Proof.
  intros Hl Ht j Hj. unfold startup_handler, KERNEL_SPURIOUS_INTERRUPT_VECTOR, KERNEL_TIMER_INTERRUPT_VECTOR, INT_VECTOR_PAGE_FAULT, INT_VECTOR_NON_MASKABLE_INTERRUPT.
  do 4 (match goal with |- context [j =? ?n] => destruct (Z.eqb_spec j n) end; [subst; apply list_lookup_insert_eq; rewrite ?length_insert; lia|rewrite list_lookup_insert_ne by lia]).
  rewrite Ht by lia. change (0 + Z.of_nat 32) with 32. by destruct ((0 <=? j) && (j <? 32)).
Qed.

Lemma startup_handler_in exc nmi pf tim spu i h (P : Z -> Prop) :
  Forall P [exc; nmi; pf; tim; spu] -> startup_handler exc nmi pf tim spu i = Some h -> P h.
Proof.
  rewrite !Forall_cons. intros (? & ? & ? & ? & ? & _). unfold startup_handler.
  repeat match goal with |- context [if ?b then _ else _] => destruct b end; intros [=]; by subst.
Qed.

Lemma dispatch_entry s c (t : list PerCpuInterrupt) i h :
  Interrupt s !! c = Some t -> t !! Z.to_nat i = Some (exception_entry h i) -> h <> 0 -> 0 <= i < 256 ->
  KrDispatchInterrupt s c i = Done (Some h, (i >=? 32) && negb (i =? 255)).
Proof.
  intros Ht Hv Hh Hi. unfold KrDispatchInterrupt, KR_NUMBER_OF_INTERRUPT_DESCRIPTOR_ENTRIES, KR_PROCESSOR_RESERVED_INTERRUPT_COUNT.
  rewrite (proj2 (Z.ltb_lt i 256)) by lia. rewrite Ht. cbn [checked]. rewrite bind_Done, Hv. cbn [checked]. rewrite bind_Done.
  cbn [Handler exception_entry]. by rewrite (proj2 (Z.eqb_neq h 0)).
Qed.

Ltac vector_in_table :=
  rewrite ?length_insert; unfold INT_VECTOR_NON_MASKABLE_INTERRUPT, INT_VECTOR_PAGE_FAULT, KERNEL_TIMER_INTERRUPT_VECTOR, KERNEL_SPURIOUS_INTERRUPT_VECTOR; lia.

Lemma init_int_spec isrs exc nmi pf tim spu k c t :
  int_ready isrs k c t -> Forall (fun h => h <> 0) [exc; nmi; pf; tim; spu] ->
  exists k' t', KrInitInt isrs exc nmi pf tim spu k c = Done k' /\
    IdtInit k' = true /\ StateGDT k' = StateGDT k /\ idt_ok isrs (KernelCodeSegmentSelector (StateGDT k)) (IDT k') /\
    int_ready isrs k' c t' /\ retabled (ints k) c t' (ints k') /\
    (forall i, 0 <= i < 256 -> startup_handler exc nmi pf tim spu i = None -> t' !! Z.to_nat i = t !! Z.to_nat i) /\
    (forall i h, 0 <= i < 256 -> startup_handler exc nmi pf tim spu i = Some h ->
       KrDispatchInterrupt (ints k') c i = Done (Some h, (i >=? 32) && negb (i =? 255))) /\
    (forall v, vacancy (ints k') c = Some v -> 32 < v < 255).
Proof.
  intros Hr Hh. destruct (init_idt_spec _ _ _ _ Hr) as (k1 & E1 & Hok & Hl1 & Hi1 & Hg1 & Hs1).
  pose proof Hr as [[Hisr Hisl] _ _ [Ht Htl] Hf]. unfold KrInitInt. rewrite E1, bind_Done, Hs1.
  destruct (exception_loop_spec exc (ints k) c 32 0 (ints k) t) as (s1 & t1 & H & Hr1 & Hlt & Hj); [|lia|lia|].
  { split; [by rewrite insert_id|done..]. }
  change (Z.to_nat KR_PROCESSOR_RESERVED_INTERRUPT_COUNT) with 32%nat. rewrite H, bind_Done.
  destruct (exception_step _ _ _ _ INT_VECTOR_NON_MASKABLE_INTERRUPT nmi Hr1 ltac:(done)) as (s2 & -> & Hr2); [vector_in_table|]. rewrite bind_Done.
  destruct (exception_step _ _ _ _ INT_VECTOR_PAGE_FAULT pf Hr2 ltac:(done)) as (s3 & -> & Hr3); [vector_in_table|]. rewrite bind_Done.
  destruct (exception_step _ _ _ _ KERNEL_TIMER_INTERRUPT_VECTOR tim Hr3 ltac:(done)) as (s4 & -> & Hr4); [vector_in_table|]. rewrite bind_Done.
  destruct (exception_step _ _ _ _ KERNEL_SPURIOUS_INTERRUPT_VECTOR spu Hr4 ltac:(done)) as (s5 & -> & Hr5); [vector_in_table|]. rewrite bind_Done.
  match type of Hr5 with retabled _ _ ?t' _ => set (t2 := t') in * end.
  assert (forall j, 0 <= j < 256 -> t2 !! Z.to_nat j =
    match startup_handler exc nmi pf tim spu j with Some h => Some (exception_entry h j) | None => t !! Z.to_nat j end) as Ht2.
  { intros j Hj0. apply (startup_entries exc nmi pf tim spu t t1); [lia|exact Hj|done]. }
  assert (length t2 = 256%nat) as Hl2 by (unfold t2; rewrite !length_insert; lia).
  pose proof (rt_tables _ _ _ _ Hr5) as Hs5. pose proof (rt_free _ _ _ _ Hr5).
  assert (Interrupt s5 !! c = Some t2) as Hc by (rewrite Hs5; by rewrite lookup_insert_eq).
  eexists _, t2. split; [reflexivity|]. cbn [IdtInit StateGDT IDT ints]. split_and!; [done|done|done| |done| | |].
  - split; cbn [IdtInit StateGDT IDT ints]; try done. by rewrite Hg1.
  - intros i Hi Hn. by rewrite Ht2, Hn by done.
  - intros i h Hi Hsome. apply (dispatch_entry _ _ t2); [done| | |done].
    + by rewrite Ht2, Hsome by done.
    + by apply (startup_handler_in exc nmi pf tim spu i h).
  - intros v Hv. destruct (vacancy_entry _ _ _ Hv) as (t' & e & Ht' & He & Hz & Hrv).
    rewrite Hc in Ht'. injection Ht' as <-. rewrite Ht2 in He by lia. unfold startup_handler in He.
    destruct (decide (v = 255)) as [->|]; [by injection He as <-|]. destruct (decide (v = 32)) as [->|]; [by injection He as <-|]. lia.
Qed.

(** C16: whenever a processor runs [KrInitInt], the shared descriptor table sends
    every vector to its stub through a present ring 0 gate with the kernel's
    code selector (a trap gate for the breakpoint only), the processor's vector
    table calls the page fault, NMI, timer and spurious handlers and the
    exception handler, no other entry, processor or interrupt state changes, and
    the timer and spurious vectors can no longer be offered to a device. *)
Theorem init_int_dispatches isrs exc nmi pf tim spu k c t :
  int_ready isrs k c t -> Forall (fun h => h <> 0) [exc; nmi; pf; tim; spu] ->
  exists k' t', KrInitInt isrs exc nmi pf tim spu k c = Done k' /\
    IdtInit k' = true /\ StateGDT k' = StateGDT k /\ idt_ok isrs (KernelCodeSegmentSelector (StateGDT k)) (IDT k') /\
    int_ready isrs k' c t' /\ retabled (ints k) c t' (ints k') /\
    (forall i, 0 <= i < 256 -> startup_handler exc nmi pf tim spu i = None -> t' !! Z.to_nat i = t !! Z.to_nat i) /\
    (forall i h, 0 <= i < 256 -> startup_handler exc nmi pf tim spu i = Some h ->
       KrDispatchInterrupt (ints k') c i = Done (Some h, (i >=? 32) && negb (i =? 255))) /\
    (forall v, vacancy (ints k') c = Some v -> 32 < v < 255).
Proof. apply init_int_spec. Qed.

(** *** Evaluations *)

Definition sample_segment : KrGlobalDescriptorTableSegmentDescriptor := mkSegDesc 0xFFFFF 0x12345678 1 0 1 0 1 3 1 0 1 0 1.
Lemma segment_descriptor_roundtrip_witness :
  seg_desc_wf sample_segment /\
  let '(mem', r) := KrEncodeSegmentDescriptor (replicate 24 7) 8 sample_segment in
  length mem' = 24%nat /\
  (forall j, (j < 8 \/ 16 <= j)%nat -> mem' !! j = replicate 24 7 !! j) /\
  (r = ENCODE_SEGMENT_DESCRIPTOR_SUCCESS /\
   seg_decode (take 8 (drop 8 mem')) = Some (with_limit sample_segment (encoded_limit 0xFFFFF)) /\
   (encoded_limit 0xFFFFF = 0xFFFFF <-> 0xFFFFF / 2 ^ 16 = 0xFFFFF / 2 ^ 12 mod 16)).
Proof.
  assert (seg_desc_wf sample_segment) as H.
  { split; cbn; [lia|lia| |lia|]; repeat constructor; lia. }
  split; [exact H|]. exact (segment_descriptor_roundtrip (replicate 24 7) 8 sample_segment H ltac:(cbn; lia)).
Defined.

Lemma interrupt_descriptor_roundtrip_witness :
  0 <= 0xFFFFFFFF80123456 < 2 ^ 64 /\
  (gate_decode (KrConstructInterruptDescriptor 0xFFFFFFFF80123456 8 9 0xE 4) = mkGate 0xFFFFFFFF80123456 8 (9 mod 8) (0xE mod 16) (4 mod 4) true /\
   Reserved (KrConstructInterruptDescriptor 0xFFFFFFFF80123456 8 9 0xE 4) = 0).
Proof. split; [lia|]. apply (interrupt_descriptor_roundtrip 0xFFFFFFFF80123456 8 9 0xE 4). lia. Defined.

Definition sample_isrs : list Z := (fun i => 0xFFFFFFFF80000000 + 16 * i) <$> seqZ 0 256.
Definition empty_gate : KrInterruptDescriptor := mkIntDesc 0 0 0 0 0 0 0.
Definition empty_vectors : list PerCpuInterrupt := replicate 256 (mkInterrupt 0 0 0 0).
Definition sample_idt_state : IdtState :=
  mkIdtState (replicate 256 empty_gate) false false (KrInitGDT (replicate 24 0)).2
    (mkInts {[ 0 := empty_vectors; 1 := empty_vectors ]} ∅ 0 [0; 1] 2 [] [] 0 ∅ ∅).

Lemma sample_int_ready : int_ready sample_isrs sample_idt_state 1 empty_vectors.
Proof.
  split; [split; [|done]|done|done|split; by vm_compute|done].
  apply Forall_fmap, Forall_forall. intros i Hi. apply elem_of_seqZ in Hi. cbn. lia.
Defined.

Lemma init_int_dispatches_witness :
  int_ready sample_isrs sample_idt_state 1 empty_vectors /\
  exists k' t', KrInitInt sample_isrs 1 2 3 4 5 sample_idt_state 1 = Done k' /\
    IdtInit k' = true /\ StateGDT k' = StateGDT sample_idt_state /\ idt_ok sample_isrs 8 (IDT k') /\
    int_ready sample_isrs k' 1 t' /\ retabled (ints sample_idt_state) 1 t' (ints k') /\
    (forall i, 0 <= i < 256 -> startup_handler 1 2 3 4 5 i = None -> t' !! Z.to_nat i = empty_vectors !! Z.to_nat i) /\
    (forall i h, 0 <= i < 256 -> startup_handler 1 2 3 4 5 i = Some h ->
       KrDispatchInterrupt (ints k') 1 i = Done (Some h, (i >=? 32) && negb (i =? 255))) /\
    (forall v, vacancy (ints k') 1 = Some v -> 32 < v < 255).
Proof.
  split; [exact sample_int_ready|].
  exact (init_int_dispatches sample_isrs 1 2 3 4 5 sample_idt_state 1 empty_vectors sample_int_ready ltac:(repeat constructor; lia)).
Defined.

(** The limit nibble is taken from bits 12 to 15: a 64 KiB-granular limit is
    read back as another one. *)
Example segment_limit_altered :
  seg_decode (KrEncodeSegmentDescriptor (replicate 8 0) 0 (mkSegDesc 0x12345 0 0 0 0 0 0 0 0 0 0 0 0)).1
  = Some (mkSegDesc 0x22345 0 0 0 0 0 0 0 0 0 0 0 0).
Proof. vm_compute. done. Qed.

(** The unused macro leaves the breakpoint gate empty and agrees with the loop elsewhere. *)
Example macro_skips_breakpoint :
  (idt ← idt_loop sample_isrs 256 0 8 (replicate 256 empty_gate);
   Done (<[3%nat := empty_gate]> idt)) = Done (EncodeAllISRs sample_isrs 8 (replicate 256 empty_gate)).
Proof. vm_compute. done. Qed.
