(* ===== verification/Apic.v ===== *)
(** * Local APIC: CPU/APIC.c, CPU/Stall.c, Devdriv/Timer/AcpiPmTimer.c

    The registers are a map; what the hardware answers (the delivery time of an
    interrupt message, the readings of the ACPI timer, of the time stamp counter
    and of the current count) are functions of the sections, the readings
    indexed by the number of readings made so far. *)
From Stdlib Require Import ZArith Lia.
From stdpp Require Import base numbers list gmap.
From S2P Require Import Prelude Interrupts Descriptors.
Open Scope Z_scope.
#[local] Arguments Z.testbit _ _ : simpl never.

(** ** Registers and state *)

Definition LOCAL_APIC_BASE_ADDRESS : Z := 0xFEE00000.
Definition APIC_REG_TPR : Z := 0x080.
Definition APIC_REG_EOI : Z := 0x0B0.
Definition APIC_REG_SIV : Z := 0x0F0.
Definition APIC_REG_ICR_LO : Z := 0x300.
Definition APIC_REG_ICR_HI : Z := 0x310.
Definition APIC_REG_LTR : Z := 0x320.
Definition APIC_REG_INITCR : Z := 0x380.
Definition APIC_REG_CURRCR : Z := 0x390.
Definition APIC_REG_DCR : Z := 0x3E0.
Definition APIC_SIV_SOFTWARE_ENABLE : Z := 2 ^ 8.
Definition APIC_LTR_TIMER_INT_BLOCK : Z := 2 ^ 16.
Definition APIC_ICR_DELIVERY_STATUS : Z := 2 ^ 12.
Definition IA32_APIC_BASE_EN : Z := 2 ^ 11.
Definition IA32_APIC_BASE_ADDR_MASK : Z := 0x0000FFFFFFFFF000.
Definition KR_MDCODE_ISSUE_IPI_DEVCHECK : Z := 0x4004.
Definition DWORD_MAX : Z := 0xFFFFFFFF.

Record Apic := mkApic {
  MsrApicBase : Z;             (* IA32_APIC_BASE of this processor *)
  VaddrApicBase : Z;           (* g_KernelState.MmioInfo *)
  apic_regs : gmap Z Z;
  icr_busy : nat;              (* readings until the delivery status clears *)
  icr_sent : list (Z * Z);     (* messages: high and low command words *)
  pic_ports : list (Z * Z);    (* port outputs *)
  clock : nat;                 (* readings made so far *)
  sl_CalibSpinlock : bool;
  interrupts : bool;
  Calibration : Z              (* GetThisCpu()->TimerInf.CalibrationValue *)
}.
Definition set_regs (s : Apic) (r : gmap Z Z) (busy : nat) (sent : list (Z * Z)) : Apic :=
  mkApic (MsrApicBase s) (VaddrApicBase s) r busy sent (pic_ports s) (clock s) (sl_CalibSpinlock s) (interrupts s) (Calibration s).
Definition set_msr (s : Apic) (b : Z) : Apic :=
  mkApic b (VaddrApicBase s) (apic_regs s) (icr_busy s) (icr_sent s) (pic_ports s) (clock s) (sl_CalibSpinlock s) (interrupts s) (Calibration s).
Definition set_vaddr (s : Apic) (a : Z) : Apic :=
  mkApic (MsrApicBase s) a (apic_regs s) (icr_busy s) (icr_sent s) (pic_ports s) (clock s) (sl_CalibSpinlock s) (interrupts s) (Calibration s).
Definition tick (s : Apic) : Apic :=
  mkApic (MsrApicBase s) (VaddrApicBase s) (apic_regs s) (icr_busy s) (icr_sent s) (pic_ports s) (S (clock s)) (sl_CalibSpinlock s) (interrupts s) (Calibration s).
Definition set_calib (s : Apic) (lock ints : bool) (v : Z) : Apic :=
  mkApic (MsrApicBase s) (VaddrApicBase s) (apic_regs s) (icr_busy s) (icr_sent s) (pic_ports s) (clock s) lock ints v.
Definition ByteOutputToPort (s : Apic) (port v : Z) : Apic :=
  mkApic (MsrApicBase s) (VaddrApicBase s) (apic_regs s) (icr_busy s) (icr_sent s) (pic_ports s ++ [(port, v)]) (clock s) (sl_CalibSpinlock s) (interrupts s) (Calibration s).

Definition reg (s : Apic) (off : Z) : Z := default 0 (apic_regs s !! off).

(** ** Inter-processor interrupt configurations *)

Record KrIpiConfig := mkIpi {
  dwDestApic : Z; IntVector : Z; eDeliveryMode : Z; eDestMode : Z; eLevel : Z; eTrigMode : Z; eDestShorthand : Z
}.
Inductive KrIpiConfigStructValidationResult :=
  | IPI_CONFIG_STRUCT_VALIDATION_RESULT_SUCCESS
  | IPI_CONFIG_STRUCT_VALIDATION_RESULT_DEST_APIC_TOO_BIG
  | IPI_CONFIG_STRUCT_VALIDATION_RESULT_DELIVERY_MODE_NV
  | IPI_CONFIG_STRUCT_VALIDATION_RESULT_DESTMODE_NV
  | IPI_CONFIG_STRUCT_VALIDATION_RESULT_LEVEL_NV
  | IPI_CONFIG_STRUCT_VALIDATION_RESULT_TRIGMODE_NV
  | IPI_CONFIG_STRUCT_VALIDATION_RESULT_DEST_SHORTHAND_NV
  | IPI_CONFIG_STRUCT_VALIDATION_RESULT_SHORTHAND_WITH_TARGET_ID.

Definition IPI_DELIVERY_FIXED : Z := 0.
Definition IPI_DELIVERY_SMI : Z := 2.
Definition IPI_DELIVERY_NMI : Z := 4.
Definition IPI_DELIVERY_INIT : Z := 5.
Definition IPI_DELIVERY_SIPI : Z := 6.
Definition IPI_SHORTHAND_NONE : Z := 0.

Definition valid_delivery (m : Z) : bool :=
  (m =? IPI_DELIVERY_FIXED) || (m =? IPI_DELIVERY_SMI) || (m =? IPI_DELIVERY_NMI) || (m =? IPI_DELIVERY_INIT) || (m =? IPI_DELIVERY_SIPI).

Definition KrValidateIpiConfigStruct (p : KrIpiConfig) : KrIpiConfigStructValidationResult :=
  if dwDestApic p >=? MAX_SMP_PROCESSORS then IPI_CONFIG_STRUCT_VALIDATION_RESULT_DEST_APIC_TOO_BIG
  else if negb (valid_delivery (eDeliveryMode p)) then IPI_CONFIG_STRUCT_VALIDATION_RESULT_DELIVERY_MODE_NV
  else if eDestMode p >? 1 then IPI_CONFIG_STRUCT_VALIDATION_RESULT_DESTMODE_NV
  else if eLevel p >? 1 then IPI_CONFIG_STRUCT_VALIDATION_RESULT_LEVEL_NV
  else if eTrigMode p >? 1 then IPI_CONFIG_STRUCT_VALIDATION_RESULT_TRIGMODE_NV
  else if eDestShorthand p >? 3 then IPI_CONFIG_STRUCT_VALIDATION_RESULT_DEST_SHORTHAND_NV
  else if negb (eDestShorthand p =? IPI_SHORTHAND_NONE) && negb (dwDestApic p =? 0)
    then IPI_CONFIG_STRUCT_VALIDATION_RESULT_SHORTHAND_WITH_TARGET_ID
  else IPI_CONFIG_STRUCT_VALIDATION_RESULT_SUCCESS.

Definition icr_low (p : KrIpiConfig) : Z :=
  let w := 0 in
  let w := Z.lor w (IntVector p) in
  let w := Z.lor w (u32 (Z.shiftl (eDeliveryMode p) 8)) in
  let w := Z.lor w (u32 (Z.shiftl (eDestMode p) 11)) in
  let w := Z.lor w (u32 (Z.shiftl (eLevel p) 14)) in
  let w := Z.lor w (u32 (Z.shiftl (eTrigMode p) 15)) in
  Z.lor w (u32 (Z.shiftl (eDestShorthand p) 18)).

(** ** The ACPI power management timer *)

Record Fadt := mkFadt { PMTimerLength : Z; FadtFlags : Z; XPm_AddrSpace : Z; XPm_Address : Z }.
Record PmTimer := mkPm { AcpiPmTimerDeviceInitialized : bool; AcpiPmTimerAddr : Z; AcpiPmTimerBitWidth : Z; AcpiPmTimerAddrSpace : Z }.
Definition ACPI_FADT_FLAG_PM_TIMER_CNTR_IS_32BITS : Z := 2 ^ 8.
Definition ACPI_ADDR_SPACE_MEMORY : Z := 0.
Definition ACPI_ADDR_SPACE_PORT : Z := 1.
Definition initial_pm : PmTimer := mkPm false 0 0 255.

(** [mmio] is MmioMapDevice's answer for a physical address. *)
Definition AcpiPmTimerDriverRegister (p : PmTimer) (f : Fadt) (mmio : Z -> Z) : PmTimer * bool :=
  let p := mkPm true (AcpiPmTimerAddr p) (AcpiPmTimerBitWidth p) (AcpiPmTimerAddrSpace p) in
  if negb (PMTimerLength f =? 4) then (p, false)
  else
    let w := if has_flag (FadtFlags f) ACPI_FADT_FLAG_PM_TIMER_CNTR_IS_32BITS then 32 else 24 in
    let p := mkPm true (AcpiPmTimerAddr p) w (AcpiPmTimerAddrSpace p) in
    if XPm_AddrSpace f =? ACPI_ADDR_SPACE_MEMORY then
      let a := mmio (XPm_Address f) in
      if a =? 0 then (mkPm true a w (AcpiPmTimerAddrSpace p), false)
      else (mkPm true a w ACPI_ADDR_SPACE_MEMORY, true)
    else (mkPm true (XPm_Address f) w ACPI_ADDR_SPACE_PORT, true).
Definition AcpiPmTimerDriverUnregister (p : PmTimer) : PmTimer := mkPm (AcpiPmTimerDeviceInitialized p) 0 0 255.

Inductive pm_source := PmMemory (addr : Z) | PmPort (port : Z).
(** Where a reading of the timer comes from. *)
Definition AcpiPmTimerGetTicks (p : PmTimer) : pm_source :=
  if AcpiPmTimerAddrSpace p =? ACPI_ADDR_SPACE_MEMORY then PmMemory (AcpiPmTimerAddr p) else PmPort (u16 (AcpiPmTimerAddr p)).
Definition AcpiPmTimerGetTimerBitWidth (p : PmTimer) : Z := AcpiPmTimerBitWidth p.
Definition AcpiPmTimerGetTimerFrequency : Z := 3579545.

(** ** Operations *)

Definition KrApicGetPhysicalBase (s : Apic) : Z := Z.land (MsrApicBase s) IA32_APIC_BASE_ADDR_MASK.
Definition KrApicSetPhysicalBase (s : Apic) (PhysAddr : Z) : Apic :=
  let PhysAddr := Z.land PhysAddr 0x0000FFFFFFFFFFFF in
  set_msr s (Z.lor (MsrApicBase s) (u64 (Z.shiftl PhysAddr 12))).
Definition DisableLegacyPIC (s : Apic) : Apic := ByteOutputToPort (ByteOutputToPort s 0x21 0xFF) 0xA1 0xFF.

Section Hardware.
(** Readings until a command word is delivered. *)
Context (latency : Z -> nat).
(** The readings of the current count, the ACPI timer and the time stamp counter. *)
Context (apic_count : nat -> Z) (pm_value : pm_source -> nat -> Z) (tsc : nat -> Z).

Definition ApicRead (s : Apic) (RegOffset : Z) : outcome (Apic * Z) :=
  if VaddrApicBase s =? 0 then Fault
  else if RegOffset =? APIC_REG_ICR_LO then
    let v := reg s APIC_REG_ICR_LO in
    Done (set_regs s (apic_regs s) (pred (icr_busy s)) (icr_sent s),
      match icr_busy s with
      | O => Z.land v (Z.lnot APIC_ICR_DELIVERY_STATUS)
      | S _ => Z.lor v APIC_ICR_DELIVERY_STATUS
      end)
  else if RegOffset =? APIC_REG_CURRCR then Done (tick s, u32 (apic_count (clock s)))
  else Done (s, reg s RegOffset).
Definition ApicWrite (s : Apic) (RegOffset dwValue : Z) : outcome Apic :=
  if VaddrApicBase s =? 0 then Fault
  else if RegOffset =? APIC_REG_ICR_LO then
    Done (set_regs s (<[RegOffset := dwValue]> (apic_regs s)) (latency dwValue)
           (icr_sent s ++ [(reg s APIC_REG_ICR_HI, dwValue)]))
  else Done (set_regs s (<[RegOffset := dwValue]> (apic_regs s)) (icr_busy s) (icr_sent s)).

Definition ApicIsEnabled (s : Apic) : outcome (Apic * bool) :=
  if negb (has_flag (MsrApicBase s) IA32_APIC_BASE_EN) then Done (s, false)
  else if VaddrApicBase s =? 0 then Done (s, false)
  else '(s, v) ← ApicRead s APIC_REG_SIV; Done (s, has_flag v APIC_SIV_SOFTWARE_ENABLE).
Definition ApicSetEnabled (s : Apic) (bEnabled : bool) : outcome Apic :=
  '(s, SIVR) ← ApicRead s APIC_REG_SIV;
  ApicWrite s APIC_REG_SIV
    (if bEnabled then Z.lor SIVR APIC_SIV_SOFTWARE_ENABLE else Z.land SIVR (u32 (Z.lnot APIC_SIV_SOFTWARE_ENABLE))).
Definition ApicSetTimerInterruptsEnabled (s : Apic) (bEnabled : bool) : outcome Apic :=
  '(s, LTR) ← ApicRead s APIC_REG_LTR;
  ApicWrite s APIC_REG_LTR
    (if bEnabled then Z.land LTR (u32 (Z.lnot APIC_LTR_TIMER_INT_BLOCK)) else Z.lor LTR APIC_LTR_TIMER_INT_BLOCK).
Definition ApicGetTimerInitialCount (s : Apic) : outcome (Apic * Z) := ApicRead s APIC_REG_INITCR.
Definition ApicGetTimerCurrentCount (s : Apic) : outcome (Apic * Z) := ApicRead s APIC_REG_CURRCR.
Definition ApicSetInitialCount (s : Apic) (dwInitCnt : Z) : outcome Apic := ApicWrite s APIC_REG_INITCR dwInitCnt.
Definition ApicIssueEndOfInt (s : Apic) : outcome Apic := ApicWrite s APIC_REG_EOI 0.

Fixpoint ApicWaitForIcrIdle (fuel : nat) (s : Apic) : outcome Apic :=
  match fuel with
  | O => Hang
  | S fuel' => '(s, v) ← ApicRead s APIC_REG_ICR_LO;
               if has_flag v APIC_ICR_DELIVERY_STATUS then ApicWaitForIcrIdle fuel' s else Done s
  end.

Definition ApicIssueIpi (fuel : nat) (s : Apic) (pConfig : KrIpiConfig) : outcome Apic :=
  match KrValidateIpiConfigStruct pConfig with
  | IPI_CONFIG_STRUCT_VALIDATION_RESULT_SUCCESS =>
      s ← ApicWaitForIcrIdle fuel s;
      s ← ApicWrite s APIC_REG_ICR_HI (u32 (Z.shiftl (dwDestApic pConfig) 24));
      s ← ApicWrite s APIC_REG_ICR_LO (icr_low pConfig);
      ApicWaitForIcrIdle fuel s
  | _ => Melt KR_MDCODE_ISSUE_IPI_DEVCHECK
  end.

(** KrProcessorStall, on the readings of the counter. *)
Fixpoint stall_loop (fuel : nat) (s : Apic) (end_ : Z) : outcome Apic :=
  match fuel with
  | O => Hang
  | S fuel' => let t := tsc (clock s) in if t <? end_ then stall_loop fuel' (tick s) end_ else Done (tick s)
  end.
Definition KrProcessorStall (fuel : nat) (s : Apic) (ClockCycles : Z) : outcome Apic :=
  let InitialTSC := tsc (clock s) in stall_loop fuel (tick s) (u64 (InitialTSC + ClockCycles)).

Definition NrTicksFor50ms : Z := 178977.

(** The label Recalc: the end of the measured interval, once it does not wrap. *)
Fixpoint recalc_loop (fuel : nat) (s : Apic) (p : PmTimer) : outcome (Apic * Z) :=
  match fuel with
  | O => Hang
  | S fuel' =>
      let TickCnt := pm_value (AcpiPmTimerGetTicks p) (clock s) in
      let s := tick s in
      let DestTickCnt := u64 (TickCnt + NrTicksFor50ms) in
      if ((AcpiPmTimerGetTimerBitWidth p =? 24) && (DestTickCnt >=? 0xFFFF00)) || (DestTickCnt >? DWORD_MAX - 0xFF) then
        s ← KrProcessorStall fuel' s 50; recalc_loop fuel' s p
      else Done (s, DestTickCnt)
  end.
Fixpoint poll_loop (fuel : nat) (s : Apic) (p : PmTimer) (DestTickCnt : Z) : outcome Apic :=
  match fuel with
  | O => Hang
  | S fuel' =>
      let TickCnt := pm_value (AcpiPmTimerGetTicks p) (clock s) in
      if TickCnt <? u32 DestTickCnt then poll_loop fuel' (tick s) p DestTickCnt else Done (tick s)
  end.

Definition ApicCalibrateTimer (fuel : nat) (s : Apic) (p : PmTimer) : outcome Apic :=
  let s := set_calib s (sl_CalibSpinlock s) false (Calibration s) in
  s ← (if sl_CalibSpinlock s then Hang else Done (set_calib s true false (Calibration s)));
  s ← ApicSetTimerInterruptsEnabled s false;
  '(s, DestTickCnt) ← recalc_loop fuel s p;
  s ← ApicWrite s APIC_REG_INITCR DWORD_MAX;
  s ← poll_loop fuel s p DestTickCnt;
  '(s, ApicCurrent) ← ApicRead s APIC_REG_CURRCR;
  let dwElapsed := u32 (DWORD_MAX - ApicCurrent) in
  let s := set_calib s true false (dwElapsed / 50000) in
  s ← ApicSetInitialCount s 0;
  s ← ApicSetTimerInterruptsEnabled s true;
  Done (set_calib s false true (Calibration s)).

(** [support] is CPUID's feature bit and [mmio] MmioMapDevice's answer. *)
Definition KrApicInit (fuel : nat) (support : bool) (mmio : Z) (s : Apic) (p : PmTimer) (bIsCallerBSP : bool) : outcome (Apic * bool) :=
  if negb support then Done (s, false)
  else if negb (KrApicGetPhysicalBase s =? LOCAL_APIC_BASE_ADDRESS) then Done (s, false)
  else
    let s := if bIsCallerBSP then set_vaddr (DisableLegacyPIC s) mmio else s in
    if bIsCallerBSP && (VaddrApicBase s =? 0) then Done (s, false)
    else
      let s := set_msr s (Z.lor (MsrApicBase s) IA32_APIC_BASE_EN) in
      s ← ApicWrite s APIC_REG_TPR 0;
      s ← ApicWrite s APIC_REG_DCR 0;
      s ← ApicWrite s APIC_REG_LTR KERNEL_TIMER_INTERRUPT_VECTOR;
      s ← ApicWrite s APIC_REG_SIV (Z.lor KERNEL_SPURIOUS_INTERRUPT_VECTOR APIC_SIV_SOFTWARE_ENABLE);
      s ← ApicCalibrateTimer fuel s p;
      Done (s, true).
End Hardware.

(** ** Register accesses *)

Lemma apic_read_reg ac s off :
  VaddrApicBase s <> 0 -> off <> APIC_REG_ICR_LO -> off <> APIC_REG_CURRCR -> ApicRead ac s off = Done (s, reg s off).
Proof.
  intros Hv H1 H2. unfold ApicRead. by rewrite (proj2 (Z.eqb_neq _ 0)), (proj2 (Z.eqb_neq off APIC_REG_ICR_LO)), (proj2 (Z.eqb_neq off APIC_REG_CURRCR)).
Qed.
Lemma apic_write_reg lat s off v :
  VaddrApicBase s <> 0 -> off <> APIC_REG_ICR_LO ->
  ApicWrite lat s off v = Done (set_regs s (<[off := v]> (apic_regs s)) (icr_busy s) (icr_sent s)).
Proof. intros Hv H1. unfold ApicWrite. by rewrite (proj2 (Z.eqb_neq _ 0)), (proj2 (Z.eqb_neq off APIC_REG_ICR_LO)). Qed.

Lemma has_flag_lor_self v k : 0 <= k -> has_flag (Z.lor v (2 ^ k)) (2 ^ k) = true.
Proof. intros Hk. rewrite has_flag_pow2, Z.lor_spec, Z.pow2_bits_true by lia. apply orb_true_r. Qed.
Lemma has_flag_clear_self v k : 0 <= k -> has_flag (Z.land v (Z.lnot (2 ^ k))) (2 ^ k) = false.
Proof. intros Hk. rewrite has_flag_pow2, Z.land_spec, Z.lnot_spec, Z.pow2_bits_true by lia. apply andb_false_r. Qed.

(** Waiting ends once the pending message is delivered. *)
Lemma wait_idle ac fuel : forall s,
  VaddrApicBase s <> 0 -> (icr_busy s < fuel)%nat ->
  ApicWaitForIcrIdle ac fuel s = Done (set_regs s (apic_regs s) 0 (icr_sent s)).
Proof.
  induction fuel as [|fuel IH]; intros s Hv Hb; [lia|]. cbn [ApicWaitForIcrIdle].
  unfold ApicRead. rewrite (proj2 (Z.eqb_neq _ 0)) by done. rewrite Z.eqb_refl, bind_Done.
  destruct (icr_busy s) as [|k] eqn:E; cbn [pred].
  - unfold APIC_ICR_DELIVERY_STATUS. by rewrite has_flag_clear_self by lia.
  - unfold APIC_ICR_DELIVERY_STATUS. rewrite has_flag_lor_self by lia. rewrite IH; [done|done|cbn; lia].
Qed.

(** ** Messages *)

(** The processor's reading of the interrupt command register. *)
Definition ipi_decode (m : Z * Z) : KrIpiConfig :=
  let '(hi, lo) := m in
  mkIpi (hi / 2 ^ 24) (lo mod 2 ^ 8) (lo / 2 ^ 8 mod 8) (lo / 2 ^ 11 mod 2) (lo / 2 ^ 14 mod 2) (lo / 2 ^ 15 mod 2) (lo / 2 ^ 18 mod 4).

(** The ranges of the C types. *)
Record ipi_typed (p : KrIpiConfig) : Prop := {
  it_dest : 0 <= dwDestApic p < 2 ^ 32;
  it_bytes : Forall (fun x => 0 <= x < 2 ^ 8) [IntVector p; eDeliveryMode p; eDestMode p; eLevel p; eTrigMode p; eDestShorthand p]
}.
Record ipi_valid (p : KrIpiConfig) : Prop := {
  iv_dest : dwDestApic p < 256;
  iv_mode : In (eDeliveryMode p) [0; 2; 4; 5; 6];
  iv_destmode : eDestMode p <= 1;
  iv_level : eLevel p <= 1;
  iv_trig : eTrigMode p <= 1;
  iv_short : eDestShorthand p <= 3;
  iv_target : eDestShorthand p = 0 \/ dwDestApic p = 0
}.

Lemma valid_delivery_In m : valid_delivery m = true <-> In m [0; 2; 4; 5; 6].
Proof.
  unfold valid_delivery, IPI_DELIVERY_FIXED, IPI_DELIVERY_SMI, IPI_DELIVERY_NMI, IPI_DELIVERY_INIT, IPI_DELIVERY_SIPI.
  rewrite !orb_true_iff, !Z.eqb_eq. cbn. intuition congruence.
Qed.

Lemma validate_iff p : KrValidateIpiConfigStruct p = IPI_CONFIG_STRUCT_VALIDATION_RESULT_SUCCESS <-> ipi_valid p.
Proof.
  unfold KrValidateIpiConfigStruct, IPI_SHORTHAND_NONE, MAX_SMP_PROCESSORS. rewrite Z.geb_leb, !Z.gtb_ltb. split.
  - intros H. destruct (Z.leb_spec 256 (dwDestApic p)); [done|]. destruct (valid_delivery _) eqn:Em; cbn [negb] in H; [|done].
    apply valid_delivery_In in Em. repeat (zcase_in H; try done).
    all: split; try done; try lia.
  - intros [H1 Hm%valid_delivery_In H2 H3 H4 H5 H6]. rewrite Hm. cbn [negb].
    repeat (match goal with |- context [?a <=? ?b] => destruct (Z.leb_spec a b) | |- context [?a <? ?b] => destruct (Z.ltb_spec a b) end; [try lia..|]; try lia).
    all: repeat zcase; cbn; done || lia.
Qed.

Lemma lor_add a b k : 0 <= k -> 0 <= a < 2 ^ k -> Z.lor a (Z.shiftl b k) = a + b * 2 ^ k.
Proof. intros Hk Ha. rewrite Z.lor_comm, lor_shiftl_add by done. lia. Qed.

Lemma icr_low_sum p : ipi_typed p -> ipi_valid p ->
  icr_low p = IntVector p + eDeliveryMode p * 2 ^ 8 + eDestMode p * 2 ^ 11 + eLevel p * 2 ^ 14 + eTrigMode p * 2 ^ 15 + eDestShorthand p * 2 ^ 18
  /\ 0 <= eDeliveryMode p < 8 /\ 0 <= eDestMode p < 2 /\ 0 <= eLevel p < 2 /\ 0 <= eTrigMode p < 2 /\ 0 <= eDestShorthand p < 4 /\ 0 <= IntVector p < 256.
Proof.
  intros [_ Hb] [_ Hm H1 H2 H3 H4 _]. rewrite !Forall_cons in Hb. destruct Hb as (? & ? & ? & ? & ? & ? & _).
  assert (0 <= eDeliveryMode p < 8) by (cbn in Hm; lia). split; [|lia].
  unfold icr_low. rewrite Z.lor_0_l. rewrite !(u32_small (Z.shiftl _ _)) by (rewrite Z.shiftl_mul_pow2; lia).
  rewrite (lor_add (IntVector p)) by lia. rewrite (lor_add (IntVector p + _)) by lia. do 3 (rewrite (lor_add (_ + _)) by lia). done.
Qed.

Lemma ipi_decode_encode p : ipi_typed p -> ipi_valid p -> ipi_decode (u32 (Z.shiftl (dwDestApic p) 24), icr_low p) = p.
Proof.
  intros Ht Hv. destruct (icr_low_sum p Ht Hv) as (-> & Hm & Hd & Hl & Htr & Hs & Hi). pose proof (iv_dest _ Hv). pose proof (it_dest _ Ht).
  rewrite Z.shiftl_mul_pow2, u32_small by lia. destruct p as [d v m dm l t sh]. cbn in *. clear Ht Hv. f_equal; zify_div; lia.
Qed.

Lemma issue_ipi_sends lat ac fuel s p :
  ipi_typed p -> ipi_valid p -> VaddrApicBase s <> 0 -> (icr_busy s < fuel)%nat -> (forall w, lat w < fuel)%nat ->
  exists s' m, ApicIssueIpi lat ac fuel s p = Done s' /\
     icr_sent s' = icr_sent s ++ [m] /\ ipi_decode m = p /\ icr_busy s' = 0%nat /\
     s' = set_regs s (apic_regs s') 0 (icr_sent s') /\
     forall off, off <> APIC_REG_ICR_LO -> off <> APIC_REG_ICR_HI -> reg s' off = reg s off.
Proof.
  intros Ht Hok Hv Hb Hl. unfold ApicIssueIpi. rewrite (proj2 (validate_iff p) Hok). rewrite wait_idle, bind_Done by done.
  rewrite apic_write_reg, bind_Done by done.
  unfold ApicWrite at 1. cbn [VaddrApicBase set_regs]. rewrite (proj2 (Z.eqb_neq _ 0)), Z.eqb_refl, bind_Done by done.
  rewrite wait_idle; [|done|cbn; apply Hl]. cbn [apic_regs set_regs icr_sent icr_busy].
  eexists _, (_, _). split; [reflexivity|]. split; [reflexivity|]. split_and!; try done.
  - unfold reg. cbn [apic_regs set_regs]. rewrite lookup_insert_eq. by apply ipi_decode_encode.
  - intros off H1 H2. unfold reg. cbn. by rewrite !lookup_insert_ne by done.
Qed.

(** [ApicIssueIpi] melts down on every configuration its validation
    refuses, which are exactly those outside the architectural ranges, without
    touching a register; for every other one it waits for the pending message, sends exactly one
    message, which the processor decodes to the given configuration, and
    returns with the register idle. *)
Theorem issue_ipi_contract lat ac fuel s p :
  ipi_typed p -> VaddrApicBase s <> 0 -> (icr_busy s < fuel)%nat -> (forall w, lat w < fuel)%nat ->
  (KrValidateIpiConfigStruct p = IPI_CONFIG_STRUCT_VALIDATION_RESULT_SUCCESS <-> ipi_valid p) /\
  (~ ipi_valid p -> ApicIssueIpi lat ac fuel s p = Melt KR_MDCODE_ISSUE_IPI_DEVCHECK) /\
  (ipi_valid p -> exists s' m, ApicIssueIpi lat ac fuel s p = Done s' /\
     icr_sent s' = icr_sent s ++ [m] /\ ipi_decode m = p /\ icr_busy s' = 0%nat /\
     s' = set_regs s (apic_regs s') 0 (icr_sent s') /\
     forall off, off <> APIC_REG_ICR_LO -> off <> APIC_REG_ICR_HI -> reg s' off = reg s off).
Proof.
  intros Ht Hv Hb Hl. split; [apply validate_iff|]. split; [|intros Hok; by apply issue_ipi_sends].
  intros Hn. unfold ApicIssueIpi. destruct (KrValidateIpiConfigStruct p) eqn:E; try done. by apply validate_iff in E.
Qed.

(** ** Calibration *)

Definition at_clock (s : Apic) (n : nat) : Apic :=
  mkApic (MsrApicBase s) (VaddrApicBase s) (apic_regs s) (icr_busy s) (icr_sent s) (pic_ports s) n (sl_CalibSpinlock s) (interrupts s) (Calibration s).

(** [T n] is the time at reading [n] in ticks of the ACPI timer.  The timer
    shows its low 24 or 32 bits, goes on for ever and advances by at most 256 ticks
    between two readings; a stall of 50 cycles is over within 64 readings. *)
Record timers_ok (p : PmTimer) (pmv : pm_source -> nat -> Z) (tsc : nat -> Z) (T : nat -> Z) : Prop := {
  to_width : AcpiPmTimerBitWidth p = 24 \/ AcpiPmTimerBitWidth p = 32;
  to_value : forall n, pmv (AcpiPmTimerGetTicks p) n = T n mod 2 ^ AcpiPmTimerBitWidth p;
  to_step : forall n, T n <= T (S n) <= T n + 256;
  to_unbounded : forall v, exists n, v <= T n;
  to_tsc : forall n, exists m, (n < m <= n + 64)%nat /\ u64 (tsc n + 50) <= tsc m
}.

Lemma stall_loop_spec tsc end_ k : forall s m,
  (clock s <= m <= clock s + k)%nat -> end_ <= tsc m ->
  exists m', (clock s < m' <= S (clock s + k))%nat /\ forall fuel, (k < fuel)%nat -> stall_loop tsc fuel s end_ = Done (at_clock s m').
Proof.
  induction k as [|k IH]; intros s m Hm He.
  - exists (S (clock s)). split; [lia|]. intros [|fuel] Hf; [lia|]. cbn [stall_loop].
    replace m with (clock s) in He by lia. by rewrite (proj2 (Z.ltb_ge _ _)).
  - destruct (Z.ltb_spec (tsc (clock s)) end_) as [Hlt|Hge].
    + assert (m <> clock s) by (intros ->; lia).
      destruct (IH (tick s) m) as (m' & Hm' & HD); [cbn; lia|done|]. exists m'. split; [cbn in Hm'; lia|].
      intros [|fuel] Hf; [lia|]. cbn [stall_loop]. rewrite (proj2 (Z.ltb_lt _ _)) by done. by rewrite HD by lia.
    + exists (S (clock s)). split; [lia|]. intros [|fuel] Hf; [lia|]. cbn [stall_loop]. by rewrite (proj2 (Z.ltb_ge _ _)).
Qed.

Section Calibrate.
Context (lat : Z -> nat) (ac : nat -> Z) (pmv : pm_source -> nat -> Z) (tsc T : nat -> Z) (p : PmTimer).
Hypothesis Hok : timers_ok p pmv tsc T.
#[local] Abbreviation W := (2 ^ AcpiPmTimerBitWidth p).
(** The first end value that is refused. *)
Definition wrap_limit (p : PmTimer) : Z := if AcpiPmTimerBitWidth p =? 24 then 0xFFFF00 else 0xFFFFFF01.

Lemma T_mono i j : (i <= j)%nat -> T i <= T j <= T i + 256 * Z.of_nat (j - i).
Proof using Hok.
  induction 1 as [|j Hj IH]; [rewrite Nat.sub_diag; lia|]. pose proof (to_step _ _ _ _ Hok j). lia.
Qed.

Lemma stall_spec s :
  exists m', (S (clock s) < m' <= clock s + 65)%nat /\ forall fuel, (70 <= fuel)%nat -> KrProcessorStall tsc fuel s 50 = Done (at_clock s m').
Proof using Hok.
  destruct (to_tsc _ _ _ _ Hok (clock s)) as (m & Hm & He).
  destruct (stall_loop_spec tsc (u64 (tsc (clock s) + 50)) 63 (tick s) m) as (m' & Hm' & HD); [cbn; lia|done|].
  exists m'. cbn in Hm'. split; [lia|]. intros fuel Hf. unfold KrProcessorStall. by rewrite HD by lia.
Qed.

Lemma width_cases : (AcpiPmTimerBitWidth p = 24 /\ wrap_limit p = 2 ^ 24 - 256 /\ W = 2 ^ 24) \/
  (AcpiPmTimerBitWidth p = 32 /\ wrap_limit p = 2 ^ 32 - 255 /\ W = 2 ^ 32).
Proof using Hok. unfold wrap_limit. destruct (to_width _ _ _ _ Hok) as [-> | ->]; [left|right]; done. Qed.

Lemma refused_iff t : 0 <= t < W ->
  ((AcpiPmTimerGetTimerBitWidth p =? 24) && (u64 (t + NrTicksFor50ms) >=? 0xFFFF00)) || (u64 (t + NrTicksFor50ms) >? DWORD_MAX - 0xFF)
  = (wrap_limit p <=? t + NrTicksFor50ms).
Proof using Hok.
  intros Ht. unfold NrTicksFor50ms, AcpiPmTimerGetTimerBitWidth, DWORD_MAX. rewrite Z.geb_leb, Z.gtb_ltb.
  destruct width_cases as [(Hw & Hl & HW)|(Hw & Hl & HW)]; rewrite HW in Ht; rewrite Hw, Hl, u64_small by lia; cbn [Z.eqb Pos.eqb andb].
  all: repeat match goal with |- context [?a <=? ?b] => destruct (Z.leb_spec a b) | |- context [?a <? ?b] => destruct (Z.ltb_spec a b) end; solve [done|lia].
Qed.

Lemma recalc_spec M N d : forall s,
  (exists q, M = q * W) -> M <= T N -> M - W <= T (clock s) < M + 16897 -> (N - clock s < d)%nat ->
  exists n, (clock s <= n)%nat /\ T n mod W + NrTicksFor50ms < wrap_limit p /\
    forall fuel, (d + 70 <= fuel)%nat -> recalc_loop pmv tsc fuel s p = Done (at_clock s (S n), T n mod W + NrTicksFor50ms).
Proof using Hok.
  induction d as [|d IH]; intros s Hq HN Hs Hd; [lia|].
  assert (0 < W) as HW by (destruct width_cases as [(_ & _ & ->)|(_ & _ & ->)]; lia).
  pose proof (Z.mod_pos_bound (T (clock s)) W HW) as Hb. pose proof (refused_iff _ Hb) as Hr.
  destruct (Z.leb_spec (wrap_limit p) (T (clock s) mod W + NrTicksFor50ms)) as [Hbad|Hgood].
  - assert (T (clock s) < M) as HltM.
    { destruct (Z.lt_ge_cases (T (clock s)) M) as [|Hge]; [done|]. destruct Hq as [q ->].
      assert (T (clock s) mod W = T (clock s) - q * W) as E.
      { symmetry. apply (Z.mod_unique _ _ q); [left|]; destruct width_cases as [(_ & _ & E)|(_ & _ & E)]; rewrite E in *; lia. }
      rewrite E in Hbad. unfold NrTicksFor50ms in Hbad. destruct width_cases as [(_ & E1 & _)|(_ & E1 & _)]; rewrite E1 in Hbad; lia. }
    assert (clock s < N)%nat.
    { destruct (decide (N <= clock s)%nat) as [Hle|]; [|lia]. pose proof (T_mono _ _ Hle). lia. }
    destruct (stall_spec (tick s)) as (m & Hm & Hst). cbn [clock tick] in Hm. change (S (clock s)) with (S (clock s)) in Hm.
    assert (clock s <= m)%nat as Hcm by lia. pose proof (T_mono _ _ Hcm).
    destruct (IH (at_clock (tick s) m)) as (n & Hn & Hlim & HD); [done|done|cbn; lia|cbn; lia|].
    exists n. cbn in Hn. split_and!; [lia|done|]. intros [|fuel] Hf; [lia|]. cbn [recalc_loop].
    rewrite (to_value _ _ _ _ Hok), Hr, Hst, bind_Done by lia. by rewrite HD by lia.
  - exists (clock s). split_and!; [lia|done|]. intros [|fuel] Hf; [lia|]. cbn [recalc_loop].
    rewrite (to_value _ _ _ _ Hok), Hr. unfold NrTicksFor50ms in *.
    rewrite u64_small by (destruct width_cases as [(_ & _ & E)|(_ & _ & E)]; rewrite E in *; lia). done.
Qed.

Lemma poll_spec n0 N d : forall s,
  T n0 mod W + NrTicksFor50ms < wrap_limit p -> T n0 + NrTicksFor50ms <= T N -> (n0 <= clock s)%nat ->
  T (clock s) < T n0 + NrTicksFor50ms + 256 -> (N - clock s < d)%nat ->
  exists m, (clock s <= m)%nat /\ NrTicksFor50ms <= T m - T n0 < NrTicksFor50ms + 256 /\
    forall fuel, (d <= fuel)%nat -> poll_loop pmv fuel s p (T n0 mod W + NrTicksFor50ms) = Done (at_clock s (S m)).
Proof using Hok.
  induction d as [|d IH]; intros s Hl HN Hn Hs Hd; [lia|]. pose proof (T_mono _ _ Hn) as [Hge _].
  assert (0 < W) as HW by (destruct width_cases as [(_ & _ & ->)|(_ & _ & ->)]; lia).
  pose proof (Z.mod_pos_bound (T n0) W HW) as Hb.
  assert (T (clock s) mod W = T n0 mod W + (T (clock s) - T n0)) as E.
  { symmetry. apply (Z.mod_unique _ _ (T n0 / W)); [left|pose proof (Z.div_mod (T n0) W); lia].
    unfold NrTicksFor50ms in *. destruct width_cases as [(_ & E1 & E2)|(_ & E1 & E2)]; rewrite E1 in Hl; rewrite E2 in *; lia. }
  assert (u32 (T n0 mod W + NrTicksFor50ms) = T n0 mod W + NrTicksFor50ms) as Eu.
  { apply u32_small. unfold NrTicksFor50ms in *. destruct width_cases as [(_ & E1 & E2)|(_ & E1 & E2)]; rewrite E1 in Hl; lia. }
  destruct (Z.lt_ge_cases (T (clock s)) (T n0 + NrTicksFor50ms)) as [Hlt|Hdone].
  - assert (clock s < N)%nat.
    { destruct (decide (N <= clock s)%nat) as [Hle|]; [|lia]. pose proof (T_mono _ _ Hle). lia. }
    pose proof (to_step _ _ _ _ Hok (clock s)).
    destruct (IH (tick s)) as (m & Hm & Hw & HD); [done|done|cbn; lia|cbn; lia|cbn; lia|]. cbn in Hm.
    exists m. split_and!; [lia|lia|lia|]. intros [|fuel] Hf; [lia|]. cbn [poll_loop].
    rewrite (to_value _ _ _ _ Hok), Eu, E, (proj2 (Z.ltb_lt _ _)) by lia. by rewrite HD by lia.
  - exists (clock s). split_and!; [lia|lia|lia|]. intros [|fuel] Hf; [lia|]. cbn [poll_loop].
    by rewrite (to_value _ _ _ _ Hok), Eu, E, (proj2 (Z.ltb_ge _ _)) by lia.
Qed.
End Calibrate.

Lemma set_timer_ints_spec lat ac s (b : bool) :
  VaddrApicBase s <> 0 ->
  ApicSetTimerInterruptsEnabled lat ac s b =
    Done (set_regs s (<[APIC_REG_LTR := if b then Z.land (reg s APIC_REG_LTR) (u32 (Z.lnot APIC_LTR_TIMER_INT_BLOCK))
                                        else Z.lor (reg s APIC_REG_LTR) APIC_LTR_TIMER_INT_BLOCK]> (apic_regs s)) (icr_busy s) (icr_sent s)).
Proof. intros Hv. unfold ApicSetTimerInterruptsEnabled. by rewrite apic_read_reg, bind_Done, apic_write_reg by done. Qed.
Lemma read_count ac s : VaddrApicBase s <> 0 -> ApicRead ac s APIC_REG_CURRCR = Done (tick s, u32 (ac (clock s))).
Proof. intros Hv. unfold ApicRead. by rewrite (proj2 (Z.eqb_neq _ 0)). Qed.

(** The first interval that starts from a reading made in state [s]. *)
Lemma recalc_ends pmv tsc T p s :
  timers_ok p pmv tsc T ->
  exists n fuel0, (clock s <= n)%nat /\ T n mod 2 ^ AcpiPmTimerBitWidth p + NrTicksFor50ms < wrap_limit p /\
    forall fuel, (fuel0 <= fuel)%nat ->
      recalc_loop pmv tsc fuel s p = Done (at_clock s (S n), T n mod 2 ^ AcpiPmTimerBitWidth p + NrTicksFor50ms).
Proof.
  intros Hok. set (W := 2 ^ AcpiPmTimerBitWidth p). assert (0 < W) as HW.
  { unfold W. destruct (to_width _ _ _ _ Hok) as [-> | ->]; lia. }
  set (M := (T (clock s) / W + 1) * W). pose proof (Z.div_mod (T (clock s)) W) as Hdm. pose proof (Z.mod_pos_bound (T (clock s)) W HW).
  destruct (to_unbounded _ _ _ _ Hok M) as [N HN].
  destruct (recalc_spec pmv tsc T p Hok M N (S (N - clock s)) s) as (n & Hn & Hl & HR);
    [by exists (T (clock s) / W + 1)|done|unfold M, W in *; lia|lia|].
  exists n, (S (N - clock s) + 70)%nat. by split_and!.
Qed.
Lemma poll_ends pmv tsc T p n s :
  timers_ok p pmv tsc T -> T n mod 2 ^ AcpiPmTimerBitWidth p + NrTicksFor50ms < wrap_limit p -> clock s = S n ->
  exists m fuel0, (n < m)%nat /\ NrTicksFor50ms <= T m - T n < NrTicksFor50ms + 256 /\
    forall fuel, (fuel0 <= fuel)%nat ->
      poll_loop pmv fuel s p (T n mod 2 ^ AcpiPmTimerBitWidth p + NrTicksFor50ms) = Done (at_clock s (S m)).
Proof.
  intros Hok Hl Hc. destruct (to_unbounded _ _ _ _ Hok (T n + NrTicksFor50ms)) as [N HN]. pose proof (to_step _ _ _ _ Hok n).
  destruct (poll_spec pmv tsc T p Hok n N (S (N - clock s)) s) as (m & Hm & Hw & HP);
    [done|done|lia|rewrite Hc; unfold NrTicksFor50ms; lia|lia|].
  exists m, (S (N - clock s)). split_and!; [lia|lia|lia|done].
Qed.

(** [s'] is [s] after a calibration that measured from reading [n] to reading [m]. *)
Record calibrated (ac : nat -> Z) (T : nat -> Z) (s s' : Apic) (n m : nat) : Prop := {
  cb_readings : (clock s <= n < m)%nat;
  cb_interval : NrTicksFor50ms <= T m - T n < NrTicksFor50ms + 256;
  cb_value : Calibration s' = u32 (DWORD_MAX - u32 (ac (S m))) / 50000;
  cb_flags : interrupts s' = true /\ sl_CalibSpinlock s' = false /\ icr_sent s' = icr_sent s;
  cb_window : VaddrApicBase s' = VaddrApicBase s /\ icr_busy s' = icr_busy s;
  cb_stopped : reg s' APIC_REG_INITCR = 0;
  cb_unmasked : has_flag (reg s' APIC_REG_LTR) APIC_LTR_TIMER_INT_BLOCK = false;
  cb_others : forall off, off <> APIC_REG_INITCR -> off <> APIC_REG_LTR -> reg s' off = reg s off
}.

Lemma calibration_spec lat ac pmv tsc T p s :
  timers_ok p pmv tsc T -> VaddrApicBase s <> 0 -> sl_CalibSpinlock s = false ->
  exists n m s' fuel0,
    (forall fuel, (fuel0 <= fuel)%nat -> ApicCalibrateTimer lat ac pmv tsc fuel s p = Done s') /\ calibrated ac T s s' n m.
Proof.
  intros Hok Hv Hl. set (v0 := Z.lor (reg s APIC_REG_LTR) APIC_LTR_TIMER_INT_BLOCK).
  set (s1 := set_regs (set_calib s true false (Calibration s)) (<[APIC_REG_LTR := v0]> (apic_regs s)) (icr_busy s) (icr_sent s)).
  destruct (recalc_ends pmv tsc T p s1 Hok) as (n & f1 & Hn & Hlim & HR).
  set (s2 := set_regs (at_clock s1 (S n)) (<[APIC_REG_INITCR := DWORD_MAX]> (apic_regs s1)) (icr_busy s1) (icr_sent s1)).
  destruct (poll_ends pmv tsc T p n s2 Hok Hlim ltac:(done)) as (m & f2 & Hm & Hw & HP).
  set (s3 := set_calib (at_clock s2 (S (S m))) true false (u32 (DWORD_MAX - u32 (ac (S m))) / 50000)).
  set (s4 := set_regs s3 (<[APIC_REG_INITCR := 0]> (apic_regs s2)) (icr_busy s3) (icr_sent s3)).
  set (v1 := Z.land v0 (u32 (Z.lnot APIC_LTR_TIMER_INT_BLOCK))).
  exists n, m, (set_calib (set_regs s4 (<[APIC_REG_LTR := v1]> (apic_regs s4)) (icr_busy s3) (icr_sent s3)) false true (Calibration s4)), (f1 + f2)%nat.
  split.
  - intros fuel Hf. unfold ApicCalibrateTimer. cbv zeta. cbn [sl_CalibSpinlock set_calib]. rewrite Hl, bind_Done.
    rewrite set_timer_ints_spec, bind_Done by done.
    change (recalc_loop pmv tsc fuel _ p) with (recalc_loop pmv tsc fuel s1 p). rewrite HR, bind_Done by lia.
    rewrite apic_write_reg, bind_Done by done. change (poll_loop pmv fuel _ p) with (poll_loop pmv fuel s2 p). rewrite HP, bind_Done by lia.
    rewrite read_count, bind_Done by done. unfold ApicSetInitialCount. rewrite apic_write_reg, bind_Done by done.
    rewrite set_timer_ints_spec, bind_Done by done.
    assert (reg s4 APIC_REG_LTR = v0) as E.
    { unfold reg. cbn [apic_regs set_regs s4 s2 s1]. by rewrite !lookup_insert_ne, lookup_insert_eq by done. }
    unfold v1. rewrite <- E. reflexivity.
  - split; unfold reg; cbn [Calibration interrupts sl_CalibSpinlock icr_sent apic_regs set_regs set_calib at_clock s4 s3 s2 s1]; try done; try lia.
    + by rewrite lookup_insert_ne, lookup_insert_eq by done.
    + rewrite lookup_insert_eq. change (default 0 (Some v1)) with v1. unfold APIC_LTR_TIMER_INT_BLOCK. rewrite has_flag_pow2 by lia.
      unfold v1, APIC_LTR_TIMER_INT_BLOCK. rewrite Z.land_spec. change (Z.testbit (u32 (Z.lnot (2 ^ 16))) 16) with false. apply andb_false_r.
    + intros off H1 H2. by rewrite !lookup_insert_ne by done.
Qed.

(** C15: on timers that behave as documented, [ApicCalibrateTimer] always ends:
    the interval it measures is 50 ms to 50 ms and 256 ticks of the ACPI timer,
    whatever the timer's width and wrap-around, the stored value is the number
    of local timer ticks elapsed by then over 50000, and the local timer is left stopped and
    unmasked, the lock released and interrupts on. *)
Theorem calibrate_timer_measures lat ac pmv tsc T p s :
  timers_ok p pmv tsc T -> VaddrApicBase s <> 0 -> sl_CalibSpinlock s = false ->
  exists n m s' fuel0,
    (forall fuel, (fuel0 <= fuel)%nat -> ApicCalibrateTimer lat ac pmv tsc fuel s p = Done s') /\ calibrated ac T s s' n m.
Proof. apply calibration_spec. Qed.

(** ** Initialisation *)

(** A successful initialisation leaves the local APIC enabled, with the timer
    and spurious vectors of the kernel; a refused one has touched no register. *)
Lemma apic_init_spec lat ac pmv tsc T p s mmio (bsp : bool) :
  timers_ok p pmv tsc T -> sl_CalibSpinlock s = false -> KrApicGetPhysicalBase s = LOCAL_APIC_BASE_ADDRESS ->
  (if bsp then mmio else VaddrApicBase s) <> 0 ->
  exists s' fuel0, (forall fuel, (fuel0 <= fuel)%nat -> KrApicInit lat ac pmv tsc fuel true mmio s p bsp = Done (s', true)) /\
    reg s' APIC_REG_SIV = 0x1FF /\ reg s' APIC_REG_TPR = 0 /\
    VaddrApicBase s' = (if bsp then mmio else VaddrApicBase s) /\ icr_busy s' = icr_busy s.
Proof.
  intros Hok Hl Hb Hv. set (s0 := if bsp then set_vaddr (DisableLegacyPIC s) mmio else s).
  assert (VaddrApicBase s0 <> 0) as Hv0 by (by destruct bsp).
  set (r := <[APIC_REG_SIV := 0x1FF]> (<[APIC_REG_LTR := 0x20]> (<[APIC_REG_DCR := 0]> (<[APIC_REG_TPR := 0]> (apic_regs s0))))).
  set (s1 := set_regs (set_msr s0 (Z.lor (MsrApicBase s0) IA32_APIC_BASE_EN)) r (icr_busy s0) (icr_sent s0)).
  destruct (calibration_spec lat ac pmv tsc T p s1) as (n & m & s' & f & HD & [_ _ _ _ [Hw1 Hw2] _ _ Hr]); [done|done|by destruct bsp|].
  exists s', f. split.
  - intros fuel Hf. unfold KrApicInit. rewrite Hb, Z.eqb_refl. cbn [negb]. cbv zeta. fold s0.
    rewrite (proj2 (Z.eqb_neq (VaddrApicBase s0) 0)), andb_false_r by done.
    do 4 rewrite apic_write_reg, bind_Done by done.
    change (ApicCalibrateTimer lat ac pmv tsc fuel _ p) with (ApicCalibrateTimer lat ac pmv tsc fuel s1 p). by rewrite HD by done.
  - rewrite !Hr, Hw1, Hw2 by done. split_and!; unfold reg; cbn [apic_regs set_regs s1]; [by unfold r; rewrite lookup_insert_eq| |by destruct bsp|by destruct bsp].
    unfold r. by rewrite !lookup_insert_ne, lookup_insert_eq by done.
Qed.

(** Krnlmeltdown's test before it disables the local APIC is enough: neither call faults. *)
Lemma meltdown_disables lat ac s :
  exists s' (b : bool), ApicIsEnabled ac s = Done (s', b) /\
    (b = true -> exists s'', ApicSetEnabled lat ac s' false = Done s'' /\ has_flag (reg s'' APIC_REG_SIV) APIC_SIV_SOFTWARE_ENABLE = false).
Proof.
  unfold ApicIsEnabled. destruct (negb _); [by eexists _, _|]. destruct (Z.eqb_spec (VaddrApicBase s) 0) as [|Hv]; [by eexists _, _|].
  rewrite apic_read_reg, bind_Done by done. eexists _, _. split; [reflexivity|]. intros _. unfold ApicSetEnabled.
  rewrite apic_read_reg, bind_Done, apic_write_reg by done. eexists. split; [reflexivity|]. unfold reg at 1. cbn [apic_regs set_regs].
  rewrite lookup_insert_eq. change (default 0 (Some ?x)) with x. unfold APIC_SIV_SOFTWARE_ENABLE. rewrite has_flag_pow2 by lia.
  cbn [default]. rewrite Z.land_spec. change (Z.testbit (u32 (Z.lnot (2 ^ 8))) 8) with false. apply andb_false_r.
Qed.

(** The timer driver: what it reads once registered. *)
Lemma pm_register_spec p f mmio :
  let '(p', ok) := AcpiPmTimerDriverRegister p f mmio in
  AcpiPmTimerDeviceInitialized p' = true /\
  (ok = true <-> PMTimerLength f = 4 /\ (XPm_AddrSpace f = ACPI_ADDR_SPACE_MEMORY -> mmio (XPm_Address f) <> 0)) /\
  (ok = true -> AcpiPmTimerBitWidth p' = (if Z.testbit (FadtFlags f) 8 then 32 else 24) /\
    AcpiPmTimerGetTicks p' = if XPm_AddrSpace f =? ACPI_ADDR_SPACE_MEMORY then PmMemory (mmio (XPm_Address f)) else PmPort (u16 (XPm_Address f))).
Proof.
  unfold AcpiPmTimerDriverRegister, AcpiPmTimerGetTicks, ACPI_FADT_FLAG_PM_TIMER_CNTR_IS_32BITS. rewrite has_flag_pow2 by lia.
  destruct (Z.eqb_spec (PMTimerLength f) 4); cbn [negb]; [|split_and!; naive_solver].
  destruct (Z.eqb_spec (XPm_AddrSpace f) ACPI_ADDR_SPACE_MEMORY); [destruct (Z.eqb_spec (mmio (XPm_Address f)) 0)|]; split_and!; naive_solver.
Qed.

(** *** Evaluations *)

Definition sample_apic_state : Apic := mkApic 0xFEE00900 0xFFFFFFC000000000 ∅ 2 [] [] 0 false true 0.
Definition sample_nmi : KrIpiConfig := mkIpi 0 2 IPI_DELIVERY_NMI 0 1 0 3.
Lemma issue_ipi_contract_witness :
  ipi_valid sample_nmi /\
  exists s' m, ApicIssueIpi (fun _ => 3%nat) (fun _ => 0) 10 sample_apic_state sample_nmi = Done s' /\
     icr_sent s' = icr_sent sample_apic_state ++ [m] /\ ipi_decode m = sample_nmi /\ icr_busy s' = 0%nat /\
     s' = set_regs sample_apic_state (apic_regs s') 0 (icr_sent s') /\
     forall off, off <> APIC_REG_ICR_LO -> off <> APIC_REG_ICR_HI -> reg s' off = reg sample_apic_state off.
Proof.
  assert (ipi_valid sample_nmi) as Hv by (split; vm_compute; tauto || done). split; [exact Hv|].
  apply (issue_ipi_contract (fun _ => 3%nat) (fun _ => 0) 10 sample_apic_state sample_nmi);
    [split; [done|repeat (apply Forall_cons; split; [done|]); constructor]|done|cbn; lia|intros; lia|exact Hv].
Defined.

Definition sample_pm : PmTimer := mkPm true 0x608 24 ACPI_ADDR_SPACE_PORT.
Definition sample_time (n : nat) : Z := 0xFFFF80 + 200 * Z.of_nat n.
Definition sample_tsc (n : nat) : Z := Z.min (100 * Z.of_nat n) (2 ^ 64 - 1).
Lemma sample_timers_ok : timers_ok sample_pm (fun _ n => sample_time n mod 2 ^ 24) sample_tsc sample_time.
Proof.
  split; [by left|done| | |].
  - intros n. unfold sample_time. lia.
  - intros v. exists (Z.to_nat v). unfold sample_time. lia.
  - intros n. exists (S n). split; [lia|]. unfold sample_tsc, u64.
    destruct (Z.le_gt_cases (2 ^ 64) (Z.min (100 * Z.of_nat n) (2 ^ 64 - 1) + 50)).
    + replace (Z.min _ _ + 50) with ((Z.min (100 * Z.of_nat n) (2 ^ 64 - 1) + 50 - 2 ^ 64) + 1 * 2 ^ 64) by lia.
      rewrite Z_mod_plus_full, Z.mod_small by lia. lia.
    + rewrite Z.mod_small by lia. lia.
Defined.
Lemma calibrate_timer_measures_witness :
  timers_ok sample_pm (fun _ n => sample_time n mod 2 ^ 24) sample_tsc sample_time /\
  exists n m s' fuel0,
    (forall fuel, (fuel0 <= fuel)%nat -> ApicCalibrateTimer (fun _ => O) (fun _ => 0xF0000000) (fun _ n => sample_time n mod 2 ^ 24) sample_tsc fuel sample_apic_state sample_pm = Done s') /\
    calibrated (fun _ => 0xF0000000) sample_time sample_apic_state s' n m.
Proof.
  split; [exact sample_timers_ok|].
  apply (calibrate_timer_measures (fun _ => O) (fun _ => 0xF0000000) (fun _ n => sample_time n mod 2 ^ 24) sample_tsc sample_time sample_pm sample_apic_state sample_timers_ok); done.
Defined.

(** Setting the base shifts an address that is already in place and keeps the old one. *)
Example base_set_shifts :
  KrApicGetPhysicalBase (KrApicSetPhysicalBase sample_apic_state 0xFEC00000) = 0xFECFEE00000.
Proof. vm_compute. done. Qed.
