(* ===== verification/Acpi.v ===== *)
(** * ACPI and PCI Express discovery: ACPI/ACPI.c, Init/KrInitACPI.c, ACPI/PCIe.c
    and the initialisation of Intmgmt/IOAPIC.c

    Firmware memory is a function from addresses to bytes.  The tables are read
    at the offsets of their packed structures; a configuration read beyond the
    mapped window is a fault. *)
From Stdlib Require Import ZArith Lia String.
From stdpp Require Import base numbers list gmap.
From S2P Require Import Prelude KrtlMem Vmr Interrupts Apic.
Open Scope Z_scope.
#[local] Arguments Z.testbit _ _ : simpl never.

(** ** Memory *)

Definition memory := Z -> Z.
Definition rd8 (mem : memory) (a : Z) : Z := mem a.
Definition rd16 (mem : memory) (a : Z) : Z := mem a + 2 ^ 8 * mem (a + 1).
Definition rd32 (mem : memory) (a : Z) : Z := rd16 mem a + 2 ^ 16 * rd16 mem (a + 2).
Definition rd64 (mem : memory) (a : Z) : Z := rd32 mem a + 2 ^ 32 * rd32 mem (a + 4).
(** The [n] bytes at an address. *)
Definition bytes (mem : memory) (a : Z) (n : nat) : list Z := (fun i => mem (a + Z.of_nat i)) <$> seq 0 n.

(** ** Tables *)

Fixpoint checksum_loop (mem : memory) (pAcpiStruct : Z) (dwStructLength : nat) (Sum : Z) : Z :=
  match dwStructLength with
  | O => Sum
  | S n => checksum_loop mem pAcpiStruct n (u8 (Sum + mem (pAcpiStruct + Z.of_nat n)))
  end.
Definition KrAcpiCalculateChecksum (mem : memory) (pAcpiStruct dwStructLength : Z) : Z :=
  checksum_loop mem pAcpiStruct (Z.to_nat dwStructLength) 0.
Definition KrAcpiIsChecksumValid (mem : memory) (pAcpiStruct dwStructLength : Z) : bool :=
  KrAcpiCalculateChecksum mem pAcpiStruct dwStructLength =? 0.

(** String literals, with their terminators. *)
Definition KR_ACPI_RSDP_SIGNATURE : list Z := [82; 83; 68; 32; 80; 84; 82; 32; 0].
Definition KR_ACPI_XSDT_SIGNATURE : list Z := [88; 83; 68; 84; 0].
Definition KR_ACPI_MADT_SIGNATURE : list Z := [65; 80; 73; 67; 0].
Definition KR_ACPI_MCFG_SIGNATURE : list Z := [77; 67; 70; 71; 0].
Definition KR_ACPI_FADT_SIGNATURE : list Z := [70; 65; 67; 80; 0].
Definition KR_ACPI_RSDP_SIGNATURE_SIZE : Z := 8.
Definition KR_ACPI_SDT_SIGNATURE_SIZE : Z := 4.
Definition KR_ACPI_LEGACY_SECTION_SIZE : Z := 20.
Definition KR_ACPI_MADT_RECORD_TYPE_PROCESSOR_LOCAL_APIC : Z := 0.
Definition KR_ACPI_MADT_RECORD_TYPE_IO_APIC : Z := 1.
Definition KR_ACPI_LAPIC_FLAGS_PROCESSOR_ENABLED : Z := 2 ^ 0.
Definition KR_MDCODE_MMIO_DEVICE_MAP_FAILURE : Z := 0x200C.
Definition KR_MDCODE_CORRUPT_ACPI_RSDP : Z := 0x5001.
Definition KR_MDCODE_ACPI_SDT_CHECKSUM_NV : Z := 0x5002.
Definition KR_MDCODE_ACPI_TABLE_NOT_FOUND : Z := 0x5003.
Definition KR_MDCODE_ACPI_TABLE_CORRUPT : Z := 0x5004.

(** sizeof of the packed structures. *)
Definition sizeof_Rsdp : Z := 36.
Definition sizeof_SdtHeader : Z := 36.
Definition sizeof_MadtHeader : Z := 44.
Definition sizeof_McfgHeader : Z := 44.
Definition sizeof_McfgEntry : Z := 16.

(** The signature test at an address: KrtlBufferEqual reads at most one byte
    past the signature. *)
Definition signature_equal (mem : memory) (a : Z) (sig : list Z) (n : Z) : outcome bool :=
  KrtlBufferEqual (bytes mem a (S (Z.to_nat n))) sig n.
Definition sdt_length (mem : memory) (p : Z) : Z := rd32 mem (p + 4).

Fixpoint locate_loop (v : Vmm) (mem : memory) (n : nat) (pAddress : Z) (sig : list Z) : outcome Z :=
  match n with
  | O => Done 0
  | S n' =>
      let pEntry := KrPhysToVirt v (rd64 mem pAddress) in
      eq ← signature_equal mem pEntry sig KR_ACPI_SDT_SIGNATURE_SIZE;
      if eq : bool then Done pEntry else locate_loop v mem n' (pAddress + 8) sig
  end.
Definition KrAcpiLocateTable (v : Vmm) (mem : memory) (pSDT : Z) (sig : list Z) : outcome Z :=
  let EntryCount := u32 (u64 (sdt_length mem pSDT - sizeof_SdtHeader) / 8) in
  locate_loop v mem (Z.to_nat EntryCount) (pSDT + sizeof_SdtHeader) sig.

(** ** Kernel state *)

Record ProcInfoEntry := mkProc { pLocalApicID : Z; pAcpiID : Z; pE_V : bool; BSP : bool; RFD : bool }.
Record AcpiState := mkAcpi {
  pRsdp : Z; pXsdt : Z; pFadt : Z;
  IdealProcessorCount : Z;
  ProcInfo : list ProcInfoEntry;
  aints : Ints;                   (* ActiveProcessorCount and the I/O APICs *)
  VaddrPciEcamBase : Z;
  EcamMapped : Z                  (* bytes mapped there *)
}.
Definition set_acpi_ptrs (s : AcpiState) (r x f : Z) : AcpiState :=
  mkAcpi r x f (IdealProcessorCount s) (ProcInfo s) (aints s) (VaddrPciEcamBase s) (EcamMapped s).
Definition set_procs (s : AcpiState) (n : Z) (l : list ProcInfoEntry) : AcpiState :=
  mkAcpi (pRsdp s) (pXsdt s) (pFadt s) n l (aints s) (VaddrPciEcamBase s) (EcamMapped s).
Definition set_aints (s : AcpiState) (i : Ints) : AcpiState :=
  mkAcpi (pRsdp s) (pXsdt s) (pFadt s) (IdealProcessorCount s) (ProcInfo s) i (VaddrPciEcamBase s) (EcamMapped s).
Definition set_ecam (s : AcpiState) (b n : Z) : AcpiState :=
  mkAcpi (pRsdp s) (pXsdt s) (pFadt s) (IdealProcessorCount s) (ProcInfo s) (aints s) b n.
Definition set_ioapics (i : Ints) (l : list IoApicInfo) (ids : list Z) (n : Z) : Ints :=
  mkInts (Interrupt i) (IntmodSpinlock i) (Idx i) (pCpuIDs i) (ActiveProcessorCount i) l ids n (io_select i) (io_regs i).
Definition set_active (i : Ints) (n : Z) : Ints :=
  mkInts (Interrupt i) (IntmodSpinlock i) (Idx i) (pCpuIDs i) n (IoApics i) (IoApicIDs i) (IoApicCount i) (io_select i) (io_regs i).

(** ** The MADT *)

(** An enabled processor. *)
Definition add_processor (s : AcpiState) (AcpiID LocalApicID : Z) : outcome AcpiState :=
  e ← checked (ProcInfo s !! Z.to_nat LocalApicID);
  Done (set_procs s (u32 (IdealProcessorCount s + 1))
         (<[Z.to_nat LocalApicID := mkProc LocalApicID AcpiID true false (RFD e)]> (ProcInfo s))).
(** An I/O APIC. *)
Definition add_io_apic (s : AcpiState) (ID BaseAddress First : Z) : outcome AcpiState :=
  let i := aints s in
  e ← checked (IoApics i !! Z.to_nat ID);
  _ ← checked (IoApicIDs i !! Z.to_nat (IoApicCount i));
  Done (set_aints s (set_ioapics i
    (<[Z.to_nat ID := mkIoApic BaseAddress (VaddrBase e) ID First (Version e) (MaxRedirEntry e) true (INIT e)]> (IoApics i))
    (<[Z.to_nat (IoApicCount i) := ID]> (IoApicIDs i)) (u32 (IoApicCount i + 1)))).

Definition madt_record (mem : memory) (s : AcpiState) (eType p : Z) : outcome AcpiState :=
  if eType =? KR_ACPI_MADT_RECORD_TYPE_PROCESSOR_LOCAL_APIC then
    if negb (has_flag (rd32 mem (p + 2)) KR_ACPI_LAPIC_FLAGS_PROCESSOR_ENABLED) then Done s
    else add_processor s (rd8 mem p) (rd8 mem (p + 1))
  else if eType =? KR_ACPI_MADT_RECORD_TYPE_IO_APIC then
    add_io_apic s (rd8 mem p) (rd32 mem (p + 2)) (rd32 mem (p + 6))
  else Done s.

Fixpoint madt_loop (fuel : nat) (mem : memory) (s : AcpiState) (pRecordsCur pRecordsEnd : Z) : outcome AcpiState :=
  match fuel with
  | O => Hang
  | S fuel' =>
      if pRecordsCur <? pRecordsEnd then
        let eType := rd8 mem pRecordsCur in
        let RecordSize := rd8 mem (pRecordsCur + 1) in
        let p := pRecordsCur + 2 in
        s ← madt_record mem s eType p;
        madt_loop fuel' mem s (p + (RecordSize - 2)) pRecordsEnd
      else Done s
  end.

Definition mark_bsp (s : AcpiState) (CpuID : Z) : outcome AcpiState :=
  e ← checked (ProcInfo s !! Z.to_nat CpuID);
  Done (set_procs s (IdealProcessorCount s)
         (<[Z.to_nat CpuID := mkProc (pLocalApicID e) (pAcpiID e) (pE_V e) true true]> (ProcInfo s))).
Definition ProcessMADT (fuel : nat) (mem : memory) (s : AcpiState) (CpuID pMadt : Z) : outcome AcpiState :=
  s ← madt_loop fuel mem s (pMadt + sizeof_MadtHeader) (pMadt + sdt_length mem pMadt);
  mark_bsp (set_aints s (set_active (aints s) 1)) CpuID.

(** ** Initialisation *)

(** [mmio a n] is MmioMapDevice's answer for [n] bytes at [a]. *)
Definition ProcessMCFG (mem : memory) (mmio : Z -> Z -> Z) (s : AcpiState) (pMcfg : Z) : outcome AcpiState :=
  let pEntry := pMcfg + sizeof_McfgHeader in
  let MapSize := u64 ((rd8 mem (pEntry + 11) - rd8 mem (pEntry + 10) + 1) * 0x100000) in
  let base := mmio (rd64 mem pEntry) MapSize in
  if base =? 0 then Melt KR_MDCODE_MMIO_DEVICE_MAP_FAILURE else Done (set_ecam s base MapSize).

Definition ensure (b : bool) (code : Z) : outcome unit := if b then Done tt else Melt code.

Definition KrInitACPI (fuel : nat) (v : Vmm) (mem : memory) (mmio : Z -> Z -> Z) (CpuID : Z) (s : AcpiState) (PaddrRsdp : Z)
    : outcome AcpiState :=
  _ ← ensure (negb (PaddrRsdp =? 0)) KR_MDCODE_CORRUPT_ACPI_RSDP;
  let r := KrPhysToVirt v PaddrRsdp in
  eq ← signature_equal mem r KR_ACPI_RSDP_SIGNATURE KR_ACPI_RSDP_SIGNATURE_SIZE;
  _ ← ensure eq KR_MDCODE_CORRUPT_ACPI_RSDP;
  _ ← ensure (negb ((rd8 mem (r + 15) <? 2) || (rd32 mem (r + 20) <? sizeof_Rsdp))) KR_MDCODE_CORRUPT_ACPI_RSDP;
  _ ← ensure (KrAcpiIsChecksumValid mem r KR_ACPI_LEGACY_SECTION_SIZE) KR_MDCODE_CORRUPT_ACPI_RSDP;
  _ ← ensure (KrAcpiIsChecksumValid mem r (rd32 mem (r + 20))) KR_MDCODE_CORRUPT_ACPI_RSDP;
  _ ← ensure (negb (rd64 mem (r + 24) =? 0)) KR_MDCODE_CORRUPT_ACPI_RSDP;
  let x := KrPhysToVirt v (rd64 mem (r + 24)) in
  eq ← signature_equal mem x KR_ACPI_XSDT_SIGNATURE KR_ACPI_SDT_SIGNATURE_SIZE;
  _ ← ensure eq KR_MDCODE_CORRUPT_ACPI_RSDP;
  _ ← ensure (KrAcpiIsChecksumValid mem x (sdt_length mem x)) KR_MDCODE_ACPI_SDT_CHECKSUM_NV;
  pMadt ← KrAcpiLocateTable v mem x KR_ACPI_MADT_SIGNATURE;
  _ ← ensure (negb (pMadt =? 0)) KR_MDCODE_ACPI_TABLE_NOT_FOUND;
  _ ← ensure (negb (sdt_length mem pMadt <? sizeof_MadtHeader)) KR_MDCODE_ACPI_TABLE_CORRUPT;
  s ← ProcessMADT fuel mem (set_acpi_ptrs s r x (pFadt s)) CpuID pMadt;
  _ ← ensure (negb (IdealProcessorCount s =? 0)) KR_MDCODE_ACPI_TABLE_CORRUPT;
  pMcfg ← KrAcpiLocateTable v mem x KR_ACPI_MCFG_SIGNATURE;
  _ ← ensure (negb (pMcfg =? 0)) KR_MDCODE_ACPI_TABLE_NOT_FOUND;
  _ ← ensure (negb (sdt_length mem pMcfg <? sizeof_McfgHeader + sizeof_McfgEntry)) KR_MDCODE_ACPI_TABLE_CORRUPT;
  s ← ProcessMCFG mem mmio s pMcfg;
  p ← KrAcpiLocateTable v mem x KR_ACPI_FADT_SIGNATURE;
  _ ← ensure (negb (p =? 0)) KR_MDCODE_ACPI_TABLE_NOT_FOUND;
  _ ← ensure (KrAcpiIsChecksumValid mem p (sdt_length mem p)) KR_MDCODE_ACPI_SDT_CHECKSUM_NV;
  Done (set_acpi_ptrs s (pRsdp s) (pXsdt s) p).

(** The FADT fields the timer driver reads. *)
Definition AcpiFadtHeader (mem : memory) (p : Z) : Fadt :=
  mkFadt (rd8 mem (p + 91)) (rd32 mem (p + 112)) (rd8 mem (p + 208)) (rd64 mem (p + 212)).

(** ** I/O APIC initialisation *)

Definition IOAPICVER : Z := 1.
Definition map_io_apic (mmio : Z -> Z -> Z) (i : Ints) (a : IoApicInfo) : Ints * IoApicInfo :=
  let va := mmio (PaddrBase a) 4096 in
  let a := mkIoApic (PaddrBase a) va (ioID a) (FirstIRQ a) (Version a) (MaxRedirEntry a) (E_V a) (INIT a) in
  if va =? 0 then (i, a)
  else
    let '(i, dwVerReg) := IoApicRead i a IOAPICVER in
    (i, mkIoApic (PaddrBase a) va (ioID a) (FirstIRQ a) (Z.land dwVerReg 0xFF) (Z.land (Z.shiftr dwVerReg 16) 0xFF) (E_V a) true).
Fixpoint io_apics_loop (n : nat) (mmio : Z -> Z -> Z) (i : Ints) (k : Z) : outcome (Ints * bool) :=
  match n with
  | O => Done (i, true)
  | S n' =>
      id ← checked (IoApicIDs i !! Z.to_nat k);
      a ← checked (IoApics i !! Z.to_nat id);
      if INIT a then io_apics_loop n' mmio i (k + 1)
      else
        let '(i, a) := map_io_apic mmio i a in
        let i := set_ioapics i (<[Z.to_nat id := a]> (IoApics i)) (IoApicIDs i) (IoApicCount i) in
        if VaddrBase a =? 0 then Done (i, false) else io_apics_loop n' mmio i (k + 1)
  end.
Definition IoApicsInit (mmio : Z -> Z -> Z) (i : Ints) : outcome (Ints * bool) :=
  io_apics_loop (Z.to_nat (IoApicCount i)) mmio i 0.

(** ** PCI Express *)

Definition PCIE_MAX_BUS : Z := 0xFF.
Definition PCIE_MAX_DEV : Z := 0x20.
Definition PCIE_MAX_FUN : Z := 0x08.
Definition PCIE_CFG_REG_VENDOR_ID : Z := 0x0000.
Definition PCIE_CFG_REG_DEVICE_ID : Z := 0x0002.
Definition PCIE_CFG_REG_PROG_IF : Z := 0x0009.
Definition PCIE_CFG_REG_SUBCLASS : Z := 0x000A.
Definition PCIE_CFG_REG_CLASS : Z := 0x000B.
Definition PCIE_CFG_REG_HEADER_TYPE : Z := 0x000E.

(** The arguments of the callback. *)
Record PCIeEndpoint := mkEndpoint {
  VaddrCfgSpace : Z; epVendorID : Z; epDeviceID : Z; epClass : Z; epSubClass : Z; epBus : Z; epDevice : Z; epFunction : Z; epProgIF : Z
}.

Section Pcie.
Context (mem : memory) (base mapped : Z).

Definition PcieGetVoffset (Bus Device Function Register : Z) : Z :=
  u64 (base + Z.lor (Z.lor (Z.lor (Z.shiftl Bus 20) (Z.shiftl Device 15)) (Z.shiftl Function 12)) (Z.land Register 0xFFF)).
Definition cfg_access {A} (a n : Z) (f : Z -> A) : outcome A :=
  if (base <=? a) && (a + n <=? base + mapped) then Done (f a) else Fault.
Definition PcieReadDword (Bus Device Function Register : Z) : outcome Z :=
  cfg_access (PcieGetVoffset Bus Device Function Register) 4 (rd32 mem).
Definition PcieReadWord (Bus Device Function Register : Z) : outcome Z :=
  cfg_access (PcieGetVoffset Bus Device Function Register) 2 (rd16 mem).
Definition PcieReadByte (Bus Device Function Register : Z) : outcome Z :=
  cfg_access (PcieGetVoffset Bus Device Function Register) 1 (rd8 mem).

Definition absent (VendorID : Z) : bool := (VendorID =? 0x0000) || (VendorID =? 0xFFFF).

Context {St : Type} (Callback : option (St -> PCIeEndpoint -> outcome St)).

Definition PcieProbeFunction (s : St) (Bus Device Function : Z) : outcome St :=
  VendorID ← PcieReadWord Bus Device Function PCIE_CFG_REG_VENDOR_ID;
  if absent VendorID then Done s
  else
    DeviceID ← PcieReadWord Bus Device Function PCIE_CFG_REG_DEVICE_ID;
    Class ← PcieReadByte Bus Device Function PCIE_CFG_REG_CLASS;
    SubClass ← PcieReadByte Bus Device Function PCIE_CFG_REG_SUBCLASS;
    ProgIF ← PcieReadByte Bus Device Function PCIE_CFG_REG_PROG_IF;
    match Callback with
    | Some cb => cb s (mkEndpoint (PcieGetVoffset Bus Device Function 0) VendorID DeviceID Class SubClass Bus Device Function ProgIF)
    | None => Done s
    end.

Fixpoint function_loop (n : nat) (s : St) (Bus Dev Fun : Z) : outcome St :=
  match n with
  | O => Done s
  | S n' => s ← PcieProbeFunction s Bus Dev Fun; function_loop n' s Bus Dev (Fun + 1)
  end.
Fixpoint device_loop (n : nat) (s : St) (Bus Dev : Z) : outcome St :=
  match n with
  | O => Done s
  | S n' =>
      VendorID ← PcieReadWord Bus Dev 0 PCIE_CFG_REG_VENDOR_ID;
      if absent VendorID then device_loop n' s Bus (Dev + 1)
      else
        s ← PcieProbeFunction s Bus Dev 0;
        HeaderType ← PcieReadByte Bus Dev 0 PCIE_CFG_REG_HEADER_TYPE;
        s ← (if has_flag HeaderType (2 ^ 7) then function_loop (Z.to_nat (PCIE_MAX_FUN - 1)) s Bus Dev 1 else Done s);
        device_loop n' s Bus (Dev + 1)
  end.
Fixpoint bus_loop (n : nat) (s : St) (Bus : Z) : outcome St :=
  match n with
  | O => Done s
  | S n' => s ← device_loop (Z.to_nat PCIE_MAX_DEV) s Bus 0; bus_loop n' s (Bus + 1)
  end.
Definition PcieEnumerate (s : St) : outcome St := bus_loop (Z.to_nat (PCIE_MAX_BUS + 1)) s 0.
End Pcie.

Open Scope string_scope.
Definition PcieGetClassString (Class : Z) : string :=
  match Class with
  | 0x00 => "Unclassified Legacy Device"
  | 0x01 => "Mass Storage Controller"
  | 0x02 => "Network Controller"
  | 0x03 => "Display Controller"
  | 0x04 => "Multimedia Device"
  | 0x05 => "Memory Controller"
  | 0x06 => "Bridge Device"
  | 0x07 => "Simple Communications Controller"
  | 0x08 => "Base System Peripheral Device"
  | 0x09 => "Input Device"
  | 0x0A => "Docking Station"
  | 0x0B => "Processor"
  | 0x0C => "Serial Bus Controller"
  | 0x0D => "Wireless Controller"
  | 0x0E => "Intelligent Controller"
  | _ => "Unclassified PCIe Device"
  end.
Close Scope string_scope.
