(* ===== verification/AcpiProps.v ===== *)
(** * ACPI and PCI Express discovery: theorems *)
From Stdlib Require Import ZArith Lia.
From stdpp Require Import base numbers list gmap.
From S2P Require Import Prelude KrtlMem Vmr VmrProps Interrupts Apic Acpi.
Open Scope Z_scope.
#[local] Arguments Z.testbit _ _ : simpl never.

(** ** Checksums *)

Definition byte_mem (mem : memory) : Prop := forall a, 0 <= mem a < 2 ^ 8.

Lemma checksum_loop_sum mem p n : forall acc,
  checksum_loop mem p n (u8 acc) = u8 (acc + foldr Z.add 0 (bytes mem p n)).
Proof.
  induction n as [|n IH]; intros acc; cbn [checksum_loop]; [cbn; f_equal; lia|].
  assert (u8 (u8 acc + mem (p + Z.of_nat n)) = u8 (acc + mem (p + Z.of_nat n))) as -> by (unfold u8; by rewrite Z.add_mod_idemp_l).
  rewrite IH. f_equal.
  unfold bytes. rewrite seq_S, fmap_app, foldr_app. cbn.
  assert (forall l x, foldr Z.add x l = foldr Z.add 0 l + x) as E by (clear; induction l; intros; cbn in *; [lia|rewrite IHl; lia]).
  rewrite (E _ (mem _ + 0)). lia.
Qed.
Lemma checksum_sum mem p n : 0 <= n -> KrAcpiCalculateChecksum mem p n = foldr Z.add 0 (bytes mem p (Z.to_nat n)) mod 2 ^ 8.
Proof.
  intros Hn. unfold KrAcpiCalculateChecksum. change 0 with (u8 0) at 1. by rewrite checksum_loop_sum.
Qed.

(** ** Signatures *)

(** A table carries a signature: what the ACPI specification asks for. *)
Definition signature_at (mem : memory) (a : Z) (sig : list Z) : Prop := bytes mem a (length sig) = sig.
#[export] Instance signature_at_dec mem a sig : Decision (signature_at mem a sig).
Proof. unfold signature_at. apply _. Defined.

(** What the code's signature test amounts to: the signature is there and the
    byte after it differs from the terminator of the literal.  The two agree
    at addresses where the signature is [visible]. *)
Definition signed (mem : memory) (a : Z) (sig : list Z) : Prop :=
  bytes mem a (length sig) = sig /\ mem (a + Z.of_nat (length sig)) <> 0.
#[export] Instance signed_dec mem a sig : Decision (signed mem a sig).
Proof. unfold signed. apply _. Defined.




(** ** Table lookup *)





(** ** The MADT *)

(** The records from [cur] to [end_]: type and address of the contents, each
    record at least as long as its header. *)
Inductive madt_chain (mem : memory) (end_ : Z) : Z -> list (Z * Z) -> Prop :=
  | mc_end cur : end_ <= cur -> madt_chain mem end_ cur []
  | mc_record cur l : cur < end_ -> 2 <= mem (cur + 1) -> madt_chain mem end_ (cur + mem (cur + 1)) l ->
      madt_chain mem end_ cur ((mem cur, cur + 2) :: l).

(** Identifiers of the enabled processors, with their ACPI identifiers. *)
Definition lapics (mem : memory) (l : list (Z * Z)) : list (Z * Z) :=
  omap (fun '(t, p) => if (t =? 0) && Z.testbit (rd32 mem (p + 2)) 0 then Some (mem (p + 1), mem p) else None) l.
(** Identifier, base address and first interrupt of the I/O APICs. *)
Definition ioapics (mem : memory) (l : list (Z * Z)) : list (Z * Z * Z) :=
  omap (fun '(t, p) => if t =? 1 then Some (mem p, rd32 mem (p + 2), rd32 mem (p + 6)) else None) l.

Record acpi_wf (s : AcpiState) : Prop := {
  aw_procs : length (ProcInfo s) = 256%nat;
  aw_ios : length (IoApics (aints s)) = 256%nat;
  aw_ids : length (IoApicIDs (aints s)) = 256%nat;
  aw_count : 0 <= IoApicCount (aints s) <= 256 /\ 0 <= IdealProcessorCount s
}.

(** [s'] is [s] with the processors [P] and the I/O APICs [A] added. *)
Record added (P : list (Z * Z)) (A : list (Z * Z * Z)) (s s' : AcpiState) : Prop := {
  ad_wf : acpi_wf s';
  ad_count : IdealProcessorCount s' = u32 (IdealProcessorCount s + Z.of_nat (length P));
  ad_proc : forall id e, ProcInfo s !! id = Some e -> exists e', ProcInfo s' !! id = Some e' /\
    ((e' = e /\ ~ Z.of_nat id ∈ P.*1) \/ exists ac, (Z.of_nat id, ac) ∈ P /\ e' = mkProc (Z.of_nat id) ac true false (RFD e));
  ad_ids : IoApicIDs (aints s') = list_inserts (Z.to_nat (IoApicCount (aints s))) (A.*1.*1) (IoApicIDs (aints s));
  ad_ios : forall id e, IoApics (aints s) !! id = Some e -> exists e', IoApics (aints s') !! id = Some e' /\
    ((e' = e /\ ~ Z.of_nat id ∈ A.*1.*1) \/
     exists b f, (Z.of_nat id, b, f) ∈ A /\ e' = mkIoApic b (VaddrBase e) (Z.of_nat id) f (Version e) (MaxRedirEntry e) true (INIT e));
  ad_iocount : IoApicCount (aints s') = IoApicCount (aints s) + Z.of_nat (length A);
  ad_rest : (Interrupt (aints s'), IntmodSpinlock (aints s'), pRsdp s', pXsdt s', pFadt s', VaddrPciEcamBase s', EcamMapped s') =
            (Interrupt (aints s), IntmodSpinlock (aints s), pRsdp s, pXsdt s, pFadt s, VaddrPciEcamBase s, EcamMapped s)
}.

Lemma added_nil s : acpi_wf s -> 0 <= IdealProcessorCount s < 2 ^ 32 -> added [] [] s s.
Proof.
  intros Hwf Hi. split; try done.
  - cbn. rewrite u32_small by lia. lia.
  - intros id e He. exists e. split; [done|]. left. split; [done|]. apply not_elem_of_nil.
  - intros id e He. exists e. split; [done|]. left. split; [done|]. apply not_elem_of_nil.
  - cbn. lia.
Qed.

Lemma added_trans P1 A1 P2 A2 s s1 s2 :
  0 <= IoApicCount (aints s) -> added P1 A1 s s1 -> added P2 A2 s1 s2 -> added (P1 ++ P2) (A1 ++ A2) s s2.
Proof.
  intros H0 [W1 C1 R1 I1 O1 N1 E1] [W2 C2 R2 I2 O2 N2 E2]. split.
  - done.
  - rewrite C2, C1, length_app. unfold u32. rewrite Z.add_mod_idemp_l by lia. f_equal. lia.
  - intros id e He. destruct (R1 id e He) as (e1 & He1 & H1). destruct (R2 id e1 He1) as (e2 & He2 & H2). exists e2. split; [done|].
    rewrite fmap_app, elem_of_app. destruct H2 as [[-> Hn2]|(ac & Hin & ->)].
    + destruct H1 as [[-> Hn1]|(ac & Hin & ->)]; [left; naive_solver|]. right. exists ac. rewrite elem_of_app. naive_solver.
    + right. exists ac. rewrite elem_of_app. split; [by right|]. destruct H1 as [[-> _]|(? & _ & ->)]; done.
  - rewrite I2, I1, N1, !fmap_app, list_inserts_app_l. f_equal. rewrite !length_fmap. lia.
  - intros id e He. destruct (O1 id e He) as (e1 & He1 & H1). destruct (O2 id e1 He1) as (e2 & He2 & H2). exists e2. split; [done|].
    rewrite !fmap_app, elem_of_app. destruct H2 as [[-> Hn2]|(b & f & Hin & ->)].
    + destruct H1 as [[-> Hn1]|(b & f & Hin & ->)]; [left; naive_solver|]. right. exists b, f. rewrite elem_of_app. naive_solver.
    + right. exists b, f. rewrite elem_of_app. split; [by right|]. destruct H1 as [[-> _]|(? & ? & _ & ->)]; done.
  - rewrite N2, N1, length_app. lia.
  - congruence.
Qed.

Lemma add_processor_spec s ac id :
  acpi_wf s -> 0 <= id < 256 -> exists s', add_processor s ac id = Done s' /\ added [(id, ac)] [] s s'.
Proof.
  intros [Wp Wi Wd [Wc Wn]] Hid. unfold add_processor.
  destruct (ProcInfo s !! Z.to_nat id) as [e0|] eqn:E0; [|apply lookup_ge_None in E0; lia]. cbn [checked]. rewrite bind_Done.
  eexists. split; [reflexivity|]. split; cbn [ProcInfo aints IdealProcessorCount set_procs].
  - split; cbn [ProcInfo aints IdealProcessorCount set_procs]; rewrite ?length_insert; try done. pose proof (u32_range (IdealProcessorCount s + 1)). lia.
  - done.
  - intros i e He. destruct (decide (i = Z.to_nat id)) as [->|Hne].
    + rewrite list_lookup_insert_eq by lia. eexists. split; [reflexivity|]. right. exists ac. rewrite Z2Nat.id by lia. split; [by left|].
      by simplify_eq.
    + rewrite list_lookup_insert_ne by done. exists e. split; [done|]. left. split; [done|]. cbn. rewrite list_elem_of_singleton. lia.
  - done.
  - intros i e He. exists e. split; [done|]. left. split; [done|]. apply not_elem_of_nil.
  - cbn. lia.
  - done.
Qed.

Lemma add_io_apic_spec s id b f :
  acpi_wf s -> 0 <= IdealProcessorCount s < 2 ^ 32 -> 0 <= id < 256 -> IoApicCount (aints s) < 256 ->
  exists s', add_io_apic s id b f = Done s' /\ added [] [(id, b, f)] s s'.
Proof.
  intros [Wp Wi Wd [Wc Wn]] HI Hid Hc. unfold add_io_apic.
  destruct (IoApics (aints s) !! Z.to_nat id) as [e0|] eqn:E0; [|apply lookup_ge_None in E0; lia]. cbn [checked]. rewrite bind_Done.
  destruct (IoApicIDs (aints s) !! Z.to_nat (IoApicCount (aints s))) as [d0|] eqn:D0; [|apply lookup_ge_None in D0; lia]. cbn [checked]. rewrite bind_Done.
  eexists. split; [reflexivity|]. split; cbn [ProcInfo aints IdealProcessorCount set_aints set_ioapics IoApics IoApicIDs IoApicCount].
  - split; cbn [ProcInfo aints IdealProcessorCount set_aints set_ioapics IoApics IoApicIDs IoApicCount]; rewrite ?length_insert; try done. rewrite u32_small by lia. lia.
  - cbn. rewrite u32_small by lia. lia.
  - intros i e He. exists e. split; [done|]. left. split; [done|]. apply not_elem_of_nil.
  - done.
  - intros i e He. destruct (decide (i = Z.to_nat id)) as [->|Hne].
    + rewrite list_lookup_insert_eq by lia. eexists. split; [reflexivity|]. right. exists b, f. rewrite Z2Nat.id by lia. split; [by left|].
      by simplify_eq.
    + rewrite list_lookup_insert_ne by done. exists e. split; [done|]. left. split; [done|]. cbn. rewrite list_elem_of_singleton. lia.
  - rewrite u32_small by lia. cbn. lia.
  - done.
Qed.

Lemma rd32_flag mem p : has_flag (rd32 mem p) KR_ACPI_LAPIC_FLAGS_PROCESSOR_ENABLED = Z.testbit (rd32 mem p) 0.
Proof. by apply (has_flag_pow2 _ 0). Qed.

(** One record: the entries it contributes. *)
Lemma madt_record_spec mem s t p :
  byte_mem mem -> acpi_wf s -> 0 <= IdealProcessorCount s < 2 ^ 32 ->
  IoApicCount (aints s) + Z.of_nat (length (ioapics mem [(t, p)])) <= 256 ->
  exists s', madt_record mem s t p = Done s' /\ added (lapics mem [(t, p)]) (ioapics mem [(t, p)]) s s'.
Proof.
  intros Hb Hwf HI Hc. unfold madt_record, KR_ACPI_MADT_RECORD_TYPE_PROCESSOR_LOCAL_APIC, KR_ACPI_MADT_RECORD_TYPE_IO_APIC in *.
  unfold lapics, ioapics in *. cbn [omap list_omap] in *. destruct (Z.eqb_spec t 0) as [->|Ht0]; cbn [andb].
  - cbn [Z.eqb]. rewrite rd32_flag. destruct (Z.testbit _ 0); cbn [negb].
    + apply add_processor_spec; [done|]. pose proof (Hb (p + 1)). unfold rd8. lia.
    + exists s. split; [done|]. by apply added_nil.
  - destruct (Z.eqb_spec t 1) as [->|Ht1].
    + cbn [length] in Hc. apply add_io_apic_spec; [done|done| |lia]. pose proof (Hb p). unfold rd8. lia.
    + exists s. split; [done|]. by apply added_nil.
Qed.

Lemma madt_loop_spec mem end_ : byte_mem mem -> forall cur l, madt_chain mem end_ cur l -> forall fuel s,
  acpi_wf s -> 0 <= IdealProcessorCount s < 2 ^ 32 -> (length l < fuel)%nat ->
  IoApicCount (aints s) + Z.of_nat (length (ioapics mem l)) <= 256 ->
  exists s', madt_loop fuel mem s cur end_ = Done s' /\ added (lapics mem l) (ioapics mem l) s s'.
Proof.
  intros Hb cur l Hl. induction Hl as [cur Hc|cur l Hc Hs Hl IH]; intros [|fuel] s Hwf HI Hf Hn; try lia; cbn [madt_loop].
  - rewrite (proj2 (Z.ltb_ge _ _)) by done. exists s. split; [done|]. by apply added_nil.
  - rewrite (proj2 (Z.ltb_lt _ _)) by done. unfold rd8.
    assert (forall P Q, ioapics mem ((P, Q) :: l) = ioapics mem [(P, Q)] ++ ioapics mem l) as Ea.
    { intros P Q. unfold ioapics. cbn. by destruct (P =? 1). }
    assert (forall P Q, lapics mem ((P, Q) :: l) = lapics mem [(P, Q)] ++ lapics mem l) as El.
    { intros P Q. unfold lapics. cbn. by destruct ((P =? 0) && _). }
    rewrite Ea, length_app in Hn. destruct (madt_record_spec mem s (mem cur) (cur + 2)) as (s1 & E & H1); try done; [lia|].
    rewrite E, bind_Done. replace (cur + 2 + (mem (cur + 1) - 2)) with (cur + mem (cur + 1)) by lia.
    pose proof (ad_count _ _ _ _ H1) as Hc1. pose proof (ad_iocount _ _ _ _ H1) as Hn1. cbn in Hf.
    destruct (IH fuel s1) as (s2 & E2 & H2); [by destruct H1|rewrite Hc1; apply u32_range|lia|lia|].
    exists s2. split; [done|]. rewrite Ea, El. eapply added_trans; [|done|done]. by destruct Hwf as [_ _ _ [? _]]; lia.
Qed.

(** The tables after the processor that runs the parser has marked itself. *)
Definition bsp_marked (s : AcpiState) (CpuID : Z) (e : ProcInfoEntry) : AcpiState :=
  set_procs (set_aints s (set_active (aints s) 1)) (IdealProcessorCount s)
    (<[Z.to_nat CpuID := mkProc (pLocalApicID e) (pAcpiID e) (pE_V e) true true]> (ProcInfo s)).

(** What parsing the records [l] from state [s] ends in. *)
Definition madt_outcome (mem : memory) (l : list (Z * Z)) (s : AcpiState) (CpuID : Z) (s' : AcpiState) : Prop :=
  exists s1 e, added (lapics mem l) (ioapics mem l) s s1 /\ ProcInfo s1 !! Z.to_nat CpuID = Some e /\ s' = bsp_marked s1 CpuID e.

(** The hypotheses on the state, the processor and the table. *)
Record madt_ready (fuel : nat) (mem : memory) (s : AcpiState) (CpuID pMadt : Z) (l : list (Z * Z)) : Prop := {
  mr_bytes : byte_mem mem;
  mr_wf : acpi_wf s;
  mr_count : 0 <= IdealProcessorCount s < 2 ^ 32;
  mr_cpu : 0 <= CpuID < 256;
  mr_chain : madt_chain mem (pMadt + sdt_length mem pMadt) (pMadt + sizeof_MadtHeader) l;
  mr_fuel : (length l < fuel)%nat;
  mr_ios : IoApicCount (aints s) + Z.of_nat (length (ioapics mem l)) <= 256
}.

Lemma process_madt_spec fuel mem s CpuID pMadt l :
  madt_ready fuel mem s CpuID pMadt l ->
  exists s', ProcessMADT fuel mem s CpuID pMadt = Done s' /\ madt_outcome mem l s CpuID s'.
Proof.
  intros [Hb Hwf Hi Hc Hl Hf Hn]. unfold ProcessMADT.
  destruct (madt_loop_spec mem _ Hb _ _ Hl fuel s Hwf Hi Hf Hn) as (s1 & E & H1). rewrite E, bind_Done.
  unfold mark_bsp. cbn [ProcInfo set_aints].
  destruct (ProcInfo s1 !! Z.to_nat CpuID) as [e|] eqn:Ee.
  - cbn [checked]. rewrite bind_Done. eexists. split; [reflexivity|]. by exists s1, e.
  - apply lookup_ge_None in Ee. pose proof (aw_procs _ (ad_wf _ _ _ _ H1)). lia.
Qed.

(** C28: on a MADT whose records are at least as long as their headers, the
    parser ends; it registers exactly the enabled local APICs, each under its
    own identifier, and the I/O APICs in the order of the table, counts them, changes no other
    entry, and marks the running processor. *)
Theorem madt_parsed fuel mem s CpuID pMadt l :
  madt_ready fuel mem s CpuID pMadt l ->
  exists s', ProcessMADT fuel mem s CpuID pMadt = Done s' /\ madt_outcome mem l s CpuID s'.
Proof. apply process_madt_spec. Qed.

(** A record that claims length 0 is read for ever. *)
Lemma madt_zero_hangs mem s cur end_ :
  cur < end_ -> mem (cur + 1) = 0 -> mem cur <> 0 -> mem cur <> 1 -> forall fuel, madt_loop fuel mem s cur end_ = Hang.
Proof.
  intros Hc Hz H0 H1. induction fuel as [|fuel IH]; [done|]. cbn [madt_loop]. rewrite (proj2 (Z.ltb_lt _ _)) by done.
  unfold madt_record, rd8, KR_ACPI_MADT_RECORD_TYPE_PROCESSOR_LOCAL_APIC, KR_ACPI_MADT_RECORD_TYPE_IO_APIC.
  rewrite (proj2 (Z.eqb_neq _ _) H0), (proj2 (Z.eqb_neq _ _) H1), bind_Done, Hz. replace (cur + 2 + (0 - 2)) with cur by lia. exact IH.
Qed.

(** ** Initialisation *)

Definition RSDP : list Z := [82; 83; 68; 32; 80; 84; 82; 32].
Definition XSDT : list Z := [88; 83; 68; 84].
Definition MADT : list Z := [65; 80; 73; 67].
Definition MCFG : list Z := [77; 67; 70; 71].
Definition FADT : list Z := [70; 65; 67; 80].







#[local] Opaque KrAcpiCalculateChecksum.


(** *** Evaluations *)

Fixpoint le_bytes (n : nat) (x : Z) : list Z := match n with O => [] | S n' => x mod 256 :: le_bytes n' (x / 256) end.
Definition pad_to (n : nat) (l : list Z) : list Z := l ++ replicate (n - length l) 0.
(** The byte at [k] set so that the first [n] bytes sum to 0. *)
Definition sum_fixed (k n : nat) (l : list Z) : list Z := <[k := (l !!! k - foldr Z.add 0 (take n l)) mod 256]> l.
Definition sdt (sig body : list Z) : list Z :=
  let n := (36 + length body)%nat in sum_fixed 9 n (sig ++ le_bytes 4 (Z.of_nat n) ++ replicate 28 1 ++ body).

(** Two processors, the second one enabled too, and one I/O APIC. *)
Definition sample_tables : list Z :=
  pad_to 64 (sum_fixed 32 36 (sum_fixed 8 20 (RSDP ++ [0] ++ replicate 6 65 ++ [2] ++ le_bytes 4 0 ++ le_bytes 4 36 ++ le_bytes 8 0x1040 ++ [0; 0; 0; 0]))) ++
  pad_to 64 (sdt XSDT (le_bytes 8 0x1080 ++ le_bytes 8 0x1100 ++ le_bytes 8 0x1140)) ++
  pad_to 128 (sdt MADT (le_bytes 8 0xFEE00000 ++ [0; 8; 1; 0] ++ le_bytes 4 1 ++ [0; 8; 2; 1] ++ le_bytes 4 1 ++ [1; 12; 0; 0] ++ le_bytes 4 0xFEC00000 ++ le_bytes 4 0)) ++
  pad_to 64 (sdt MCFG (replicate 8 0 ++ le_bytes 8 0xE0000000 ++ [0; 0; 0; 255; 0; 0; 0; 0])) ++
  pad_to 256 (sdt FADT (replicate 208 0)).
Definition sample_memory (a : Z) : Z :=
  let o := a - (VirtAddrBase sample_vmm + 0x1000) in if o <? 0 then 0 else default 0 (sample_tables !! Z.to_nat o).
Definition no_processor : ProcInfoEntry := mkProc 0 0 false false false.
Definition no_io_apic : IoApicInfo := mkIoApic 0 0 0 0 0 0 false false.
Definition sample_acpi : AcpiState :=
  mkAcpi 0 0 0 0 (replicate 256 no_processor) (mkInts ∅ ∅ 0 [] 0 (replicate 256 no_io_apic) (replicate 256 0) 0 ∅ ∅) 0 0.
Definition sample_mmio (a n : Z) : Z := 0xFFFFFFC000000000.
Definition sample_madt : Z := VirtAddrBase sample_vmm + 0x1080.
Definition sample_records : list (Z * Z) := [(0, sample_madt + 46); (0, sample_madt + 54); (1, sample_madt + 62)].

Lemma sample_byte_mem : byte_mem sample_memory.
Proof.
  assert (Forall (fun x => 0 <= x < 2 ^ 8) sample_tables) as H.
  { assert (forallb (fun x => (0 <=? x) && (x <? 2 ^ 8)) sample_tables = true) as E by (vm_compute; reflexivity).
    rewrite forallb_forall in E. apply Forall_forall. intros x Hx%list_elem_of_In. apply E in Hx. lia. }
  intros a. unfold sample_memory. destruct (_ <? 0); [lia|]. destruct (sample_tables !! _) as [x|] eqn:E; [|cbn; lia].
  by apply (Forall_lookup_1 _ _ _ _ H E).
Qed.

Lemma sample_chain : madt_chain sample_memory (sample_madt + 72) (sample_madt + 44) sample_records.
Proof.
  assert (forall cur k l, (sample_memory cur, cur + 2) = (k, cur + 2) -> (cur <? sample_madt + 72) && (2 <=? sample_memory (cur + 1)) = true ->
    madt_chain sample_memory (sample_madt + 72) (cur + sample_memory (cur + 1)) l -> madt_chain sample_memory (sample_madt + 72) cur ((k, cur + 2) :: l)) as step.
  { intros cur k l E H Hl. rewrite <- E. apply mc_record; [lia|lia|done]. }
  apply (step (sample_madt + 44) 0); [by vm_compute|by vm_compute|].
  replace (sample_madt + 44 + sample_memory (sample_madt + 44 + 1)) with (sample_madt + 52) by by vm_compute.
  apply (step (sample_madt + 52) 0); [by vm_compute|by vm_compute|].
  replace (sample_madt + 52 + sample_memory (sample_madt + 52 + 1)) with (sample_madt + 60) by by vm_compute.
  apply (step (sample_madt + 60) 1); [by vm_compute|by vm_compute|].
  apply mc_end. by vm_compute.
Qed.

Lemma sample_madt_ready s : IoApicCount (aints s) = 0 -> IdealProcessorCount s = 0 -> acpi_wf s -> madt_ready 10 sample_memory s 0 sample_madt sample_records.
Proof.
  intros Hc Hi Hwf. split; try done.
  - exact sample_byte_mem.
  - by rewrite Hi.
  - replace (sdt_length sample_memory sample_madt) with 72 by by vm_compute. exact sample_chain.
  - cbn. lia.
  - rewrite Hc. by vm_compute.
Qed.
Lemma sample_acpi_wf p x f : acpi_wf (set_acpi_ptrs sample_acpi p x f).
Proof. split; cbn; done. Qed.

Lemma madt_parsed_witness :
  madt_ready 10 sample_memory sample_acpi 0 sample_madt sample_records /\
  exists s', ProcessMADT 10 sample_memory sample_acpi 0 sample_madt = Done s' /\ madt_outcome sample_memory sample_records sample_acpi 0 s'.
Proof.
  assert (madt_ready 10 sample_memory sample_acpi 0 sample_madt sample_records) as H.
  { apply sample_madt_ready; [done|done|]. exact (sample_acpi_wf 0 0 0). }
  split; [exact H|]. exact (madt_parsed 10 sample_memory sample_acpi 0 sample_madt sample_records H).
Defined.


(** The sample is accepted; a FADT of 256 bytes is not found, since the byte
    after its signature, the low byte of the length, is 0. *)
Example sample_accepted :
  (s ← KrInitACPI 10 sample_vmm sample_memory sample_mmio 0 sample_acpi 0x1000; Done (IdealProcessorCount s, IoApicCount (aints s), EcamMapped s))
  = Done (2, 1, 2 ^ 28).
Proof. vm_compute. done. Qed.
Example length_hides_table :
  signature_equal (fun a => (FADT ++ le_bytes 4 256) !!! Z.to_nat a) 0 KR_ACPI_FADT_SIGNATURE 4 = Done false.
Proof. vm_compute. done. Qed.
