(* ===== verification/PcieProps.v ===== *)
(** * PCI Express enumeration: theorems on ACPI/PCIe.c *)
From Stdlib Require Import ZArith Lia.
From stdpp Require Import base numbers list.
From S2P Require Import Prelude Interrupts Acpi.
Open Scope Z_scope.
#[local] Arguments Z.testbit _ _ : simpl never.

(** ** Addresses *)

Lemma lor_mul_add q b k : 0 <= k -> 0 <= b < 2 ^ k -> Z.lor (q * 2 ^ k) b = q * 2 ^ k + b.
Proof.
  intros Hk Hb. rewrite <- Z.add_lor_land. rewrite <- Z.shiftl_mul_pow2 by lia.
  assert (Z.land (Z.shiftl q k) b = 0) as ->; [|lia]. apply Z.bits_inj'. intros i Hi.
  rewrite Z.land_spec, Z.bits_0, Z.shiftl_spec by lia.
  destruct (decide (i < k)); [by rewrite Z.testbit_neg_r by lia|]. rewrite (testbit_above b k) by lia. apply andb_false_r.
Qed.

(** A function's configuration space, and a window that holds all of them. *)
Definition bdf_ok (b d f : Z) : Prop := 0 <= b < 256 /\ 0 <= d < 32 /\ 0 <= f < 8.
Definition cfg_address (base b d f r : Z) : Z := base + b * 2 ^ 20 + d * 2 ^ 15 + f * 2 ^ 12 + r.

Lemma voffset_spec base b d f r :
  bdf_ok b d f -> 0 <= r < 4096 -> 0 <= base -> base + 2 ^ 28 <= 2 ^ 64 ->
  PcieGetVoffset base b d f r = cfg_address base b d f r.
Proof.
  intros (Hb & Hd & Hf) Hr H0 H1. unfold PcieGetVoffset, cfg_address. rewrite !Z.shiftl_mul_pow2 by lia.
  change 0xFFF with (2 ^ 12 - 1). rewrite land_ones_mod, (Z.mod_small r) by lia.
  rewrite (lor_mul_add b (d * 2 ^ 15) 20) by lia.
  replace (b * 2 ^ 20 + d * 2 ^ 15) with ((b * 2 ^ 5 + d) * 2 ^ 15) by lia. rewrite (lor_mul_add _ (f * 2 ^ 12) 15) by lia.
  replace ((b * 2 ^ 5 + d) * 2 ^ 15 + f * 2 ^ 12) with ((b * 2 ^ 8 + d * 2 ^ 3 + f) * 2 ^ 12) by lia. rewrite lor_mul_add by lia.
  rewrite u64_small by lia. lia.
Qed.

(** ** What there is to find *)

Section Enumeration.
Context (mem : memory) (base : Z).

Definition present (b d f : Z) : bool := negb (absent (rd16 mem (cfg_address base b d f 0))).
Definition multifunction (b d : Z) : bool := Z.testbit (rd8 mem (cfg_address base b d 0 0xE)) 7.
Definition endpoint_at (b d f : Z) : PCIeEndpoint :=
  mkEndpoint (cfg_address base b d f 0) (rd16 mem (cfg_address base b d f 0)) (rd16 mem (cfg_address base b d f 2))
    (rd8 mem (cfg_address base b d f 0xB)) (rd8 mem (cfg_address base b d f 0xA)) b d f (rd8 mem (cfg_address base b d f 9)).
Definition functions (b d : Z) : list Z :=
  if present b d 0 then 0 :: (if multifunction b d then filter (fun f => present b d f = true) (seqZ 1 7) else []) else [].
Definition device_endpoints (b d : Z) : list PCIeEndpoint := endpoint_at b d <$> functions b d.
Definition bus_endpoints (b : Z) : list PCIeEndpoint := seqZ 0 32 ≫= device_endpoints b.
Definition pcie_endpoints : list PCIeEndpoint := seqZ 0 256 ≫= bus_endpoints.

(** ** What is found *)

Context (mapped : Z) {St : Type} (cb : St -> PCIeEndpoint -> outcome St).
Hypotheses (Hbase : 0 <= base) (Htop : base + 2 ^ 28 <= 2 ^ 64) (Hmap : 2 ^ 28 <= mapped).

(** The callback on the elements of a list in order. *)
Fixpoint call_all (s : St) (l : list PCIeEndpoint) : outcome St :=
  match l with [] => Done s | e :: l' => s ← cb s e; call_all s l' end.

Lemma call_all_app l1 : forall s l2, call_all s (l1 ++ l2) = (s ← call_all s l1; call_all s l2).
Proof.
  induction l1 as [|e l1 IH]; intros s l2; [done|]. cbn. destruct (cb s e); cbn; [apply IH|done..].
Qed.

Lemma read_word b d f r : bdf_ok b d f -> 0 <= r < 4094 -> PcieReadWord mem base mapped b d f r = Done (rd16 mem (cfg_address base b d f r)).
Proof using Hbase Htop Hmap.
  intros Hb Hr. unfold PcieReadWord, cfg_access. rewrite voffset_spec by (done || lia). unfold cfg_address, bdf_ok in *.
  by rewrite (proj2 (Z.leb_le _ _)), (proj2 (Z.leb_le _ _)) by lia.
Qed.
Lemma read_byte b d f r : bdf_ok b d f -> 0 <= r < 4094 -> PcieReadByte mem base mapped b d f r = Done (rd8 mem (cfg_address base b d f r)).
Proof using Hbase Htop Hmap.
  intros Hb Hr. unfold PcieReadByte, cfg_access. rewrite voffset_spec by (done || lia). unfold cfg_address, bdf_ok in *.
  by rewrite (proj2 (Z.leb_le _ _)), (proj2 (Z.leb_le _ _)) by lia.
Qed.

Lemma probe_spec s b d f : bdf_ok b d f ->
  PcieProbeFunction mem base mapped (Some cb) s b d f = if present b d f then cb s (endpoint_at b d f) else Done s.
Proof using Hbase Htop Hmap.
  intros Hb. unfold PcieProbeFunction, present, PCIE_CFG_REG_VENDOR_ID, PCIE_CFG_REG_DEVICE_ID, PCIE_CFG_REG_CLASS, PCIE_CFG_REG_SUBCLASS, PCIE_CFG_REG_PROG_IF.
  rewrite (read_word b d f 0), bind_Done by (done || lia). destruct (absent _); cbn [negb]; [done|].
  rewrite read_word, bind_Done by (done || lia). rewrite (read_byte b d f 0xB), bind_Done by (done || lia).
  rewrite (read_byte b d f 0xA), bind_Done by (done || lia). rewrite read_byte, bind_Done by (done || lia). by rewrite voffset_spec by (done || lia).
Qed.

Lemma function_loop_spec b d n : forall s f, 0 <= b < 256 -> 0 <= d < 32 -> 0 <= f -> f + Z.of_nat n <= 8 ->
  function_loop mem base mapped (Some cb) n s b d f = call_all s (endpoint_at b d <$> filter (fun f => present b d f = true) (seqZ f (Z.of_nat n))).
Proof using Hbase Htop Hmap.
  induction n as [|n IH]; intros s f Hb Hd Hf Hn; [done|]. cbn [function_loop]. rewrite probe_spec by (unfold bdf_ok; lia).
  rewrite (seqZ_cons f) by lia. replace (Z.pred (Z.of_nat (S n))) with (Z.of_nat n) by lia. rewrite filter_cons.
  destruct (present b d f) eqn:E; [rewrite decide_True by done|rewrite decide_False by done].
  - cbn. destruct (cb s _); cbn; [apply IH; lia|done..].
  - rewrite bind_Done. by apply IH; lia.
Qed.

Lemma device_loop_spec b n : forall s d, 0 <= b < 256 -> 0 <= d -> d + Z.of_nat n <= 32 ->
  device_loop mem base mapped (Some cb) n s b d = call_all s (seqZ d (Z.of_nat n) ≫= device_endpoints b).
Proof using Hbase Htop Hmap.
  induction n as [|n IH]; intros s d Hb Hd Hn; [done|]. cbn [device_loop].
  rewrite (seqZ_cons d) by lia. replace (Z.pred (Z.of_nat (S n))) with (Z.of_nat n) by lia. rewrite bind_cons, call_all_app.
  unfold PCIE_CFG_REG_VENDOR_ID. rewrite (read_word b d 0 0), bind_Done by (unfold bdf_ok; lia). change (device_endpoints b d) with (endpoint_at b d <$> functions b d). unfold functions.
  destruct (absent _) eqn:Ea.
  - assert (present b d 0 = false) as -> by (unfold present; by rewrite Ea). cbn [fmap list_fmap call_all]. rewrite bind_Done. apply IH; lia.
  - assert (present b d 0 = true) as Ep by (unfold present; by rewrite Ea). rewrite probe_spec, Ep by (unfold bdf_ok; lia).
    cbn [fmap list_fmap call_all]. destruct (cb s (endpoint_at b d 0)) as [s1|c| |]; cbn [mbind outcome_bind]; try done.
    unfold PCIE_CFG_REG_HEADER_TYPE. rewrite read_byte, bind_Done by (unfold bdf_ok; lia). rewrite (has_flag_pow2 _ 7) by lia. fold (multifunction b d).
    change (Z.to_nat (PCIE_MAX_FUN - 1)) with 7%nat. destruct (multifunction b d).
    + rewrite function_loop_spec by lia. destruct (call_all s1 _); cbn; try done. apply IH; lia.
    + cbn. apply IH; lia.
Qed.

Lemma bus_loop_spec n : forall s b, 0 <= b -> b + Z.of_nat n <= 256 ->
  bus_loop mem base mapped (Some cb) n s b = call_all s (seqZ b (Z.of_nat n) ≫= bus_endpoints).
Proof using Hbase Htop Hmap.
  induction n as [|n IH]; intros s b Hb Hn; [done|]. cbn [bus_loop].
  rewrite (seqZ_cons b) by lia. replace (Z.pred (Z.of_nat (S n))) with (Z.of_nat n) by lia. rewrite bind_cons, call_all_app.
  change (Z.to_nat PCIE_MAX_DEV) with 32%nat. rewrite device_loop_spec by lia. change (seqZ 0 (Z.of_nat 32) ≫= device_endpoints b) with (bus_endpoints b).
  destruct (call_all s (bus_endpoints b)); cbn; try done. apply IH; lia.
Qed.
End Enumeration.

(** ** Theorems *)

Lemma functions_elem mem base b d f :
  f ∈ functions mem base b d <-> present mem base b d 0 = true /\ present mem base b d f = true /\ (f = 0 \/ multifunction mem base b d = true /\ 1 <= f < 8).
Proof.
  unfold functions. destruct (present mem base b d 0) eqn:E0; [|split; [intros []%not_elem_of_nil|naive_solver]].
  rewrite elem_of_cons. destruct (multifunction mem base b d) eqn:Em.
  - rewrite list_elem_of_filter, elem_of_seqZ. split; [intros [->|[? ?]]; naive_solver lia|intros (_ & Hp & [->|[_ H]]); [by left|right; split; [done|lia]]].
  - rewrite elem_of_nil. split; [intros [->|[]]; naive_solver|intros (_ & _ & [->|[? _]]); [by left|done]].
Qed.
Lemma functions_NoDup mem base b d : NoDup (functions mem base b d).
Proof.
  unfold functions. destruct (present mem base b d 0); [|constructor]. apply NoDup_cons. destruct (multifunction mem base b d).
  - split; [rewrite list_elem_of_filter, elem_of_seqZ; lia|apply NoDup_filter, NoDup_seqZ].
  - split; [apply not_elem_of_nil|constructor].
Qed.

Lemma endpoints_elem mem base e :
  e ∈ pcie_endpoints mem base <->
  exists b d f, bdf_ok b d f /\ e = endpoint_at mem base b d f /\ present mem base b d 0 = true /\ present mem base b d f = true /\
    (f = 0 \/ multifunction mem base b d = true).
Proof.
  unfold pcie_endpoints, bus_endpoints, device_endpoints, bdf_ok. rewrite list_elem_of_bind. split.
  - intros (b & He & Hb). rewrite list_elem_of_bind in He. destruct He as (d & He & Hd). apply list_elem_of_fmap in He as (f & -> & Hf).
    apply functions_elem in Hf as (H0 & Hp & Hf). apply elem_of_seqZ in Hb, Hd. exists b, d, f. split_and!; try done; try lia; naive_solver.
  - intros (b & d & f & (Hb & Hd & Hf) & -> & H0 & Hp & Hm). exists b. rewrite elem_of_seqZ. split; [|lia].
    apply list_elem_of_bind. exists d. rewrite elem_of_seqZ. split; [|lia]. apply list_elem_of_fmap. exists f. split; [done|].
    apply functions_elem. split_and!; [done|done|]. destruct (decide (f = 0)); [by left|right; naive_solver lia].
Qed.

Lemma endpoints_NoDup mem base : NoDup (pcie_endpoints mem base).
Proof.
  unfold pcie_endpoints. apply NoDup_bind; [| |apply NoDup_seqZ].
  - intros b1 b2 e _ _ H1 H2. unfold bus_endpoints, device_endpoints in *. rewrite list_elem_of_bind in H1, H2.
    destruct H1 as (d1 & H1 & _), H2 as (d2 & H2 & _). apply list_elem_of_fmap in H1 as (f1 & -> & _), H2 as (f2 & [=] & _). done.
  - intros b _. unfold bus_endpoints. apply NoDup_bind; [| |apply NoDup_seqZ].
    + intros d1 d2 e _ _ H1 H2. unfold device_endpoints in *. apply list_elem_of_fmap in H1 as (f1 & -> & _), H2 as (f2 & [=] & _). done.
    + intros d _. unfold device_endpoints. apply NoDup_fmap_2; [|apply functions_NoDup]. intros f1 f2 [=]. done.
Qed.

(** C20: with the configuration space of all 256 buses mapped, the enumeration
    never reads outside it and calls back, in order and once each, for exactly
    the functions that answer: function 0 of a present device, and functions 1
    to 7 when its header says it has several. *)
Theorem pcie_enumerates mem base mapped {St} (cb : St -> PCIeEndpoint -> outcome St) s :
  0 <= base -> base + 2 ^ 28 <= 2 ^ 64 -> 2 ^ 28 <= mapped ->
  PcieEnumerate mem base mapped (Some cb) s = call_all cb s (pcie_endpoints mem base) /\
  NoDup (pcie_endpoints mem base) /\
  forall e, e ∈ pcie_endpoints mem base <->
    exists b d f, bdf_ok b d f /\ e = endpoint_at mem base b d f /\ present mem base b d 0 = true /\ present mem base b d f = true /\
      (f = 0 \/ multifunction mem base b d = true).
Proof.
  intros H0 H1 Hm. split; [|split; [apply endpoints_NoDup|intros e; apply endpoints_elem]].
  unfold PcieEnumerate. change (Z.to_nat (PCIE_MAX_BUS + 1)) with 256%nat. by rewrite bus_loop_spec by (done || lia).
Qed.

(** *** Evaluations *)

(** A host bridge at 0:0.0 and a two-function device at 0:2. *)
Definition sample_ecam (a : Z) : Z :=
  let r := a mod 4096 in let f := a / 4096 mod 8 in let d := a / 32768 mod 32 in
  if negb (a / 2 ^ 20 =? 0x100) then 0xFF
  else if ((d =? 0) && (f =? 0)) || ((d =? 2) && ((f =? 0) || (f =? 3))) then
    (if r =? 0 then 0x86 else if r =? 1 then 0x80 else if r =? 0xE then (if d =? 2 then 0x80 else 0) else if r =? 0xB then 6 else 1)
  else 0xFF.
Definition collect (l : list (Z * Z * Z)) (e : PCIeEndpoint) : outcome (list (Z * Z * Z)) := Done (l ++ [(epBus e, epDevice e, epFunction e)]).
Example enumerate_sample : PcieEnumerate sample_ecam 0x10000000 (2 ^ 28) (Some collect) [] = Done [(0, 0, 0); (0, 2, 0); (0, 2, 3)].
Proof. vm_compute. done. Qed.

Lemma pcie_enumerates_witness :
  0 <= 0x10000000 /\
  (PcieEnumerate sample_ecam 0x10000000 (2 ^ 28) (Some collect) [] = call_all collect [] (pcie_endpoints sample_ecam 0x10000000) /\
   NoDup (pcie_endpoints sample_ecam 0x10000000) /\
   forall e, e ∈ pcie_endpoints sample_ecam 0x10000000 <->
    exists b d f, bdf_ok b d f /\ e = endpoint_at sample_ecam 0x10000000 b d f /\ present sample_ecam 0x10000000 b d 0 = true /\
      present sample_ecam 0x10000000 b d f = true /\ (f = 0 \/ multifunction sample_ecam 0x10000000 b d = true)).
Proof. split; [lia|]. apply (pcie_enumerates sample_ecam 0x10000000 (2 ^ 28) collect []); lia. Defined.

(** A window of fewer buses is overrun: all 256 are read whatever was mapped. *)
Example enumerate_past_window : PcieEnumerate sample_ecam 0x10000000 (128 * 2 ^ 20) (Some collect) [] = Fault.
Proof. vm_compute. done. Qed.
