(* ===== verification/Devices.v ===== *)
(** * Device tree and driver registry: Devdriv/Device.c, Driver.c, Pair.c,
    Init/KrInitDrivers.c

    Device nodes and drivers live in stores keyed by address; 0 is NULLPTR.  The
    answers of HeapAcquire are a list consumed in order, and the callbacks of a
    driver are functions of the section: registration may change the state, while a probe
    or an initialisation is only an answer. *)
From Stdlib Require Import ZArith Lia String.
From stdpp Require Import base numbers list gmap.
From S2P Require Import Prelude Acpi.
Open Scope Z_scope.

(** ** Data *)

Inductive BusType := BUS_IVLD | BUS_ROOT | BUS_PLATFORM | BUS_PCI | BUS_USB.
#[export] Instance BusType_eq : EqDecision BusType.
Proof. solve_decision. Defined.

Record PciDeviceId := mkPci {
  pciCfgSpace : Z; pciVendorID : Z; pciDeviceID : Z; pciBus : Z; pciDevice : Z; pciFunction : Z; pciProgIF : Z; pciClass : Z; pciSubClass : Z
}.
Definition PCI_ANY_VENDOR_ID : Z := 0xFFFF.
Definition PCI_ANY_DEVICE_ID : Z := 0xFFFF.
Definition PCI_ANY_BUS : Z := 0xFF.
Definition PCI_ANY_DEVICE : Z := 0xFF.
Definition PCI_ANY_FUNCTION : Z := 0xFF.
Definition PCI_ANY_PROG_IF : Z := 0xFF.
Definition PCI_ANY_CLASS : Z := 0xFF.
Definition PCI_ANY_SUBCLASS : Z := 0xFF.

Record DeviceNode := mkDevice {
  dName : string; dBus : BusType; dPci : PciDeviceId;
  pParent : Z; p1stKid : Z; pNxtSib : Z; pDriver : Z; pDriverData : Z
}.
Record DriverMatchMethod := mkMatch { mBus : BusType; mPci : PciDeviceId }.
Record Driver := mkDriver {
  pMatchMethods : option (list DriverMatchMethod);   (* None is NULLPTR *)
  has_Register : bool; has_DevProbe : bool; has_DevInit : bool;
  bRegistered : bool
}.

Definition no_pci : PciDeviceId := mkPci 0 0 0 0 0 0 0 0 0.
Definition zero_device : DeviceNode := mkDevice EmptyString BUS_IVLD no_pci 0 0 0 0 0.

Record Devs := mkDevs {
  nodes : gmap Z DeviceNode;
  drivers : gmap Z Driver;
  g_DeviceCount : Z;
  pTable : option (list Z);      (* DriverInfo.pTable *)
  NrCap : Z; NrLoaded : Z;
  heap_answers : list Z
}.
Definition with_nodes (s : Devs) (m : gmap Z DeviceNode) : Devs := mkDevs m (drivers s) (g_DeviceCount s) (pTable s) (NrCap s) (NrLoaded s) (heap_answers s).
Definition with_drivers (s : Devs) (m : gmap Z Driver) : Devs := mkDevs (nodes s) m (g_DeviceCount s) (pTable s) (NrCap s) (NrLoaded s) (heap_answers s).
Definition with_count (s : Devs) (n : Z) : Devs := mkDevs (nodes s) (drivers s) n (pTable s) (NrCap s) (NrLoaded s) (heap_answers s).
Definition with_table (s : Devs) (t : option (list Z)) (cap loaded : Z) : Devs := mkDevs (nodes s) (drivers s) (g_DeviceCount s) t cap loaded (heap_answers s).

(** The next answer of HeapAcquire; no answer left is an exhausted heap. *)
Definition heap_acquire (s : Devs) : Devs * Z :=
  match heap_answers s with
  | [] => (s, 0)
  | a :: l => (mkDevs (nodes s) (drivers s) (g_DeviceCount s) (pTable s) (NrCap s) (NrLoaded s) l, a)
  end.

Definition with_parent (d : DeviceNode) (p : Z) : DeviceNode := mkDevice (dName d) (dBus d) (dPci d) p (p1stKid d) (pNxtSib d) (pDriver d) (pDriverData d).
Definition with_kid (d : DeviceNode) (k : Z) : DeviceNode := mkDevice (dName d) (dBus d) (dPci d) (pParent d) k (pNxtSib d) (pDriver d) (pDriverData d).
Definition with_sib (d : DeviceNode) (n : Z) : DeviceNode := mkDevice (dName d) (dBus d) (dPci d) (pParent d) (p1stKid d) n (pDriver d) (pDriverData d).
Definition with_driver (d : DeviceNode) (r : Z) : DeviceNode := mkDevice (dName d) (dBus d) (dPci d) (pParent d) (p1stKid d) (pNxtSib d) r (pDriverData d).

Definition rd_dev (s : Devs) (p : Z) : outcome DeviceNode := checked (nodes s !! p).
Definition wr_dev (s : Devs) (p : Z) (d : DeviceNode) : Devs := with_nodes s (<[p := d]> (nodes s)).
Definition upd_dev (s : Devs) (p : Z) (f : DeviceNode -> DeviceNode) : outcome Devs := d ← rd_dev s p; Done (wr_dev s p (f d)).

(** ** The tree *)

(** The last sibling from [pSib] on. *)
Fixpoint last_sib (fuel : nat) (s : Devs) (pSib : Z) : outcome Z :=
  match fuel with
  | O => Hang
  | S fuel' => d ← rd_dev s pSib; if negb (pNxtSib d =? 0) then last_sib fuel' s (pNxtSib d) else Done pSib
  end.

Definition AddChildDevice (fuel : nat) (s : Devs) (pPar pChild : Z) : outcome Devs :=
  if (pPar =? 0) || (pChild =? 0) then Done s
  else
    s ← upd_dev s pChild (fun d => with_sib (with_parent d pPar) 0);
    par ← rd_dev s pPar;
    if p1stKid par =? 0 then Done (wr_dev s pPar (with_kid par pChild))
    else
      pSib ← last_sib fuel s (p1stKid par);
      upd_dev s pSib (fun d => with_sib d pChild).

Section Tree.
(** The addresses of the two static nodes. *)
Variables g_RootDevice g_PcieRoot : Z.

Definition InitDeviceTreeRoot (s : Devs) : outcome (Devs * bool) :=
  r ← rd_dev s g_RootDevice;
  if bool_decide (dBus r <> BUS_IVLD) then Done (s, false)
  else
    let r := mkDevice "System Host" BUS_ROOT no_pci 0 0 0 0 0 in
    Done (with_count (wr_dev s g_RootDevice r) 1, true).

Definition pci_node (e : PCIeEndpoint) : DeviceNode :=
  mkDevice (PcieGetClassString (epClass e)) BUS_PCI
    (mkPci (VaddrCfgSpace e) (epVendorID e) (epDeviceID e) (epBus e) (epDevice e) (epFunction e) (epProgIF e) (epClass e) (epSubClass e)) 0 0 0 0 0.
Definition DevTreeInitPCIeDeviceFound (fuel : nat) (s : Devs) (e : PCIeEndpoint) : outcome Devs :=
  let '(s, p) := heap_acquire s in
  if p =? 0 then Done s
  else
    s ← AddChildDevice fuel (wr_dev s p (pci_node e)) g_PcieRoot p;
    Done (with_count s (u32 (g_DeviceCount s + 1))).

Definition InitDeviceTree (fuel : nat) (mem : memory) (base mapped : Z) (s : Devs) : outcome Devs :=
  '(s, ok) ← InitDeviceTreeRoot s;
  if negb ok then Done s
  else
    let pr := mkDevice "ACPI PCIe Root 0" BUS_PCI (mkPci (PcieGetVoffset base 0 0 0 0) 0 0 0 0 0 0 0 0) 0 0 0 0 0 in
    s ← AddChildDevice fuel (wr_dev s g_PcieRoot pr) g_RootDevice g_PcieRoot;
    let s := with_count s (u32 (g_DeviceCount s + 1)) in
    PcieEnumerate mem base mapped (Some (DevTreeInitPCIeDeviceFound fuel)) s.
End Tree.

(** ** The registry *)

Definition INITIAL_DRIVERS_RESERVE_COUNT : Z := 32.

Definition rd_drv (s : Devs) (p : Z) : outcome Driver := checked (drivers s !! p).
Definition set_registered (s : Devs) (p : Z) (b : bool) : outcome Devs :=
  d ← rd_drv s p;
  Done (with_drivers s (<[p := mkDriver (pMatchMethods d) (has_Register d) (has_DevProbe d) (has_DevInit d) b]> (drivers s))).

(** The table made ready for one more entry; HeapReAcquire always answers NULLPTR. *)
Definition reserve_table (s : Devs) : Devs * bool :=
  if NrCap s =? 0 then
    let '(s, t) := heap_acquire s in
    if t =? 0 then (with_table s None (NrCap s) (NrLoaded s), false)
    else (with_table s (Some (replicate 32 0)) INITIAL_DRIVERS_RESERVE_COUNT 0, true)
  else if NrLoaded s =? NrCap s then (with_table s None (NrCap s) (NrLoaded s), false)
  else (s, true).

Section Registry.
(** A Register function may change the rest of the machine, [M], besides the
    devices. *)
Context {M : Type}.
Variable call_register : Z -> Devs * M -> outcome (Devs * M * bool).

Definition RegisterDriver (s : Devs) (m : M) (p : Z) : outcome (Devs * M * bool) :=
  if p =? 0 then Done (s, m, false)
  else
    d ← rd_drv s p;
    if bRegistered d then Done (s, m, false)
    else
      let '(s, ok) := reserve_table s in
      if negb (ok : bool) then Done (s, m, false)
      else
        t ← checked (pTable s);
        _ ← checked (t !! Z.to_nat (NrLoaded s));
        let s := with_table s (Some (<[Z.to_nat (NrLoaded s) := p]> t)) (NrCap s) (u32 (NrLoaded s + 1)) in
        r ← (if has_Register d then call_register p (s, m) else Done (s, m, true));
        let '(s, m, b) := r : Devs * M * bool in
        s ← set_registered s p b;
        Done (if b then s else with_table s (pTable s) (NrCap s) (u32 (NrLoaded s - 1)), m, true).

(** [drvs]: the built-in drivers, NVMe, ACPI timer and PS/2 keyboard. *)
Fixpoint InitBuiltinDrivers (s : Devs) (m : M) (drvs : list Z) : outcome (Devs * M) :=
  match drvs with [] => Done (s, m) | p :: l => '(s, m, _) ← RegisterDriver s m p; InitBuiltinDrivers s m l end.
End Registry.

(** ** Pairing *)

Section Drivers.
Variable call_probe : Z -> Z -> DriverMatchMethod -> bool.
Variable call_init : Z -> Z -> bool.

Definition any_or (x any y : Z) : bool := (x =? any) || (x =? y).
Definition pci_matches (m d : PciDeviceId) : bool :=
  any_or (pciVendorID m) PCI_ANY_VENDOR_ID (pciVendorID d) && any_or (pciDeviceID m) PCI_ANY_DEVICE_ID (pciDeviceID d) &&
  any_or (pciBus m) PCI_ANY_BUS (pciBus d) && any_or (pciDevice m) PCI_ANY_DEVICE (pciDevice d) &&
  any_or (pciFunction m) PCI_ANY_FUNCTION (pciFunction d) && any_or (pciProgIF m) PCI_ANY_PROG_IF (pciProgIF d) &&
  any_or (pciClass m) PCI_ANY_CLASS (pciClass d) && any_or (pciSubClass m) PCI_ANY_SUBCLASS (pciSubClass d).

(** The first matching method before the terminator; reading past the array is a fault. *)
Fixpoint match_loop (l : list DriverMatchMethod) (d : DeviceNode) : outcome (option DriverMatchMethod) :=
  match l with
  | [] => Fault
  | m :: l' =>
      match mBus m with
      | BUS_IVLD => Done None
      | b => if bool_decide (dBus d <> b) then match_loop l' d
             else match b with
                  | BUS_PCI => if pci_matches (mPci m) (dPci d) then Done (Some m) else match_loop l' d
                  | _ => match_loop l' d
                  end
      end
  end.
Definition IsDriverCompatibleWithDevice (r : Driver) (d : DeviceNode) : outcome (option DriverMatchMethod) :=
  match pMatchMethods r with None => Done None | Some l => match_loop l d end.

Definition TryPairDriverWithDevice (s : Devs) (drv dev : Z) : outcome (Devs * bool) :=
  if (drv =? 0) || (dev =? 0) then Done (s, false)
  else
    r ← rd_drv s drv;
    d ← rd_dev s dev;
    if negb ((pDriver d =? 0) && has_DevInit r && has_DevProbe r) then Done (s, false)
    else
      m ← IsDriverCompatibleWithDevice r d;
      match m with
      | None => Done (s, false)
      | Some m =>
          if negb (call_probe drv dev m) then Done (s, false)
          else
            s ← upd_dev s dev (fun d => with_driver d drv);
            if negb (call_init drv dev) then s ← upd_dev s dev (fun d => with_driver d 0); Done (s, false)
            else Done (s, true)
      end.

Fixpoint pair_loop (n : nat) (i : Z) (s : Devs) (dev : Z) : outcome (Devs * bool) :=
  match n with
  | O => Done (s, false)
  | S n' =>
      t ← checked (pTable s);
      drv ← checked (t !! Z.to_nat i);
      '(s, ok) ← TryPairDriverWithDevice s drv dev;
      if ok : bool then Done (s, true) else pair_loop n' (i + 1) s dev
  end.
Definition TryPairDeviceWithAnyDriver (s : Devs) (dev : Z) : outcome (Devs * bool) := pair_loop (Z.to_nat (NrLoaded s)) 0 s dev.

(** A pairing attempt on one node, with its contribution to NrPaired. *)
Definition attempt (s : Devs) (dev : Z) : outcome (Devs * Z) :=
  '(s, ok) ← TryPairDeviceWithAnyDriver s dev; Done (s, if ok : bool then 1 else 0).

(** The sibling loop of LocalDevdrivPairAttempt, and its loop KidLoop; the two
    share the fuel since they call each other. *)
Fixpoint LocalDevdrivPairAttempt (fuel : nat) (s : Devs) (pRootNode : Z) : outcome (Devs * Z) :=
  match fuel with
  | O => Hang
  | S fuel' =>
      if pRootNode =? 0 then Done (s, 0)
      else
        '(s, n) ← attempt s pRootNode;
        d ← rd_dev s pRootNode;
        '(s, k) ← kid_loop fuel' s (p1stKid d) (p1stKid d);
        d ← rd_dev s pRootNode;
        '(s, m) ← LocalDevdrivPairAttempt fuel' s (pNxtSib d);
        Done (s, u32 (n + k + m))
  end
with kid_loop (fuel : nat) (s : Devs) (pKidBase pKid : Z) : outcome (Devs * Z) :=
  match fuel with
  | O => Hang
  | S fuel' =>
      if negb (pKid =? 0) then
        '(s, n) ← attempt s pKid;
        d ← rd_dev s pKid;
        '(s, k) ← (if negb (pNxtSib d =? 0) then LocalDevdrivPairAttempt fuel' s (pNxtSib d) else Done (s, 0));
        d ← rd_dev s pKid;
        '(s, m) ← kid_loop fuel' s pKidBase (p1stKid d);
        Done (s, u32 (n + k + m))
      else if negb (pKidBase =? 0) then
        b ← rd_dev s pKidBase;
        kid_loop fuel' s (pNxtSib b) (pNxtSib b)
      else Done (s, 0)
  end.
Definition GlobalDevdrivPairAttempt (fuel : nat) (s : Devs) (g_RootDevice : Z) : outcome (Devs * Z) :=
  LocalDevdrivPairAttempt fuel s g_RootDevice.
End Drivers.
