(* ===== verification/DevicesProps.v ===== *)
(** * Device tree and driver registry: theorems *)
From Stdlib Require Import ZArith Lia.
From stdpp Require Import base numbers list gmap.
From S2P Require Import Prelude Acpi PcieProps Devices.
Open Scope Z_scope.

(** ** Kid lists *)

(** The nodes linked by pNxtSib from [p] on. *)
Fixpoint sib_chain (m : gmap Z DeviceNode) (p : Z) (l : list Z) : Prop :=
  match l with
  | [] => p = 0
  | x :: l' => p = x /\ x <> 0 /\ exists d, m !! x = Some d /\ sib_chain m (pNxtSib d) l'
  end.
Definition kids_of (m : gmap Z DeviceNode) (par : Z) (l : list Z) : Prop := exists d, m !! par = Some d /\ sib_chain m (p1stKid d) l.

Lemma sib_chain_ext m m' l : forall p, (forall x, x ∈ l -> m' !! x = m !! x) -> sib_chain m p l -> sib_chain m' p l.
Proof.
  induction l as [|x l IH]; intros p He; [done|]. intros (-> & Hx & d & Hd & Hl). split; [done|]. split; [done|]. exists d.
  split; [rewrite He; [done|by left]|]. apply IH; [|done]. intros y Hy. apply He. by right.
Qed.
Lemma sib_chain_nodes m l : forall p x, sib_chain m p l -> x ∈ l -> x <> 0 /\ is_Some (m !! x).
Proof.
  induction l as [|y l IH]; intros p x; [by intros _ H%elem_of_nil|]. intros (-> & Hy & d & Hd & Hl) [->|Hx]%elem_of_cons; [eauto|by eapply IH].
Qed.
Lemma sib_chain_app m l1 : forall p l2, sib_chain m p (l1 ++ l2) -> exists q, sib_chain m q l2.
Proof.
  induction l1 as [|x l1 IH]; intros p l2 H; [by exists p|]. destruct H as (_ & _ & d & _ & H). by eapply IH.
Qed.
Lemma sib_chain_unique m l1 : forall p l2, sib_chain m p l1 -> sib_chain m p l2 -> l1 = l2.
Proof.
  induction l1 as [|x l1 IH]; intros p [|y l2]; cbn; [done| | |].
  - intros -> (<- & ? & _). done.
  - intros (<- & ? & _) ->. done.
  - intros (-> & Hx & d & Hd & H1) (<- & _ & d' & Hd' & H2). simplify_eq. f_equal. by eapply IH.
Qed.
Lemma sib_chain_NoDup m l : forall p, sib_chain m p l -> NoDup l.
Proof.
  induction l as [|x l IH]; intros p H; [constructor|]. pose proof H as (-> & Hx & d & Hd & Hl). constructor; [|by eapply IH].
  intros (l1 & l2 & ->)%list_elem_of_split. destruct (sib_chain_app m l1 _ _ Hl) as (q & Hq).
  assert (q = x) as -> by (by destruct Hq). pose proof (sib_chain_unique m _ _ _ H Hq) as E. apply (f_equal length) in E.
  cbn in E. rewrite length_app in E. cbn in E. lia.
Qed.

Lemma last_sib_spec s l x : forall p fuel,
  sib_chain (nodes s) p (l ++ [x]) -> (length l < fuel)%nat -> last_sib fuel s p = Done x.
Proof.
  induction l as [|y l IH]; intros p [|fuel] H Hf; try (cbn in Hf; lia); cbn [last_sib].
  - destruct H as (-> & Hx & d & Hd & H). unfold rd_dev. rewrite Hd. cbn [checked]. rewrite bind_Done.
    cbn in H. rewrite H. done.
  - destruct H as (-> & Hx & d & Hd & H). unfold rd_dev. rewrite Hd. cbn [checked]. rewrite bind_Done.
    assert (pNxtSib d <> 0) as Hn.
    { destruct l; cbn in H; [destruct H as (-> & ? & _); done|destruct H as (-> & ? & _); done]. }
    rewrite (proj2 (Z.eqb_neq _ _) Hn). cbn [negb]. apply IH; [done|cbn in Hf; lia].
Qed.

Lemma sib_chain_snoc m m' l x y dy : forall p,
  sib_chain m p (l ++ [x]) -> (forall z, z ∈ l -> m' !! z = m !! z) ->
  (forall d, m !! x = Some d -> m' !! x = Some (with_sib d y)) -> y <> 0 -> m' !! y = Some dy -> pNxtSib dy = 0 ->
  sib_chain m' p ((l ++ [x]) ++ [y]).
Proof.
  induction l as [|z l IH]; intros p H Hl Hx Hy Hdy Hn.
  - destruct H as (-> & Hx0 & d & Hd & _). cbn. split; [done|]. split; [done|]. exists (with_sib d y). split; [by apply Hx|].
    split; [done|]. split; [done|]. by exists dy.
  - destruct H as (-> & Hz & d & Hd & H). cbn. split; [done|]. split; [done|]. exists d. split; [rewrite Hl; [done|by left]|].
    apply IH; try done. intros w Hw. apply Hl. by right.
Qed.

(** [m'] is [m] with the node [c] made the last kid of [par]. *)
Record kid_added (m m' : gmap Z DeviceNode) (par c : Z) (l : list Z) : Prop := {
  ka_kids : kids_of m' par (l ++ [c]);
  ka_child : forall d, m !! c = Some d -> m' !! c = Some (with_sib (with_parent d par) 0);
  ka_parent : forall d, m !! par = Some d -> exists k, m' !! par = Some (with_kid d k);
  ka_others : forall x d, x <> c -> x <> par -> m !! x = Some d -> exists n, m' !! x = Some (with_sib d n) /\ (x ∉ l -> n = pNxtSib d);
  ka_dom : forall x, m !! x = None -> m' !! x = None
}.

Lemma with_sib_id d : with_sib d (pNxtSib d) = d.
Proof. by destruct d. Qed.
Lemma with_kid_id d : with_kid d (p1stKid d) = d.
Proof. by destruct d. Qed.

Lemma rd_dev_spec s p d : nodes s !! p = Some d -> rd_dev s p = Done d.
Proof. intros H. unfold rd_dev. by rewrite H. Qed.
Lemma upd_dev_spec s p d f : nodes s !! p = Some d -> upd_dev s p f = Done (wr_dev s p (f d)).
Proof. intros H. unfold upd_dev. by rewrite (rd_dev_spec _ _ _ H), bind_Done. Qed.

Lemma add_child_spec fuel s par c l :
  par <> 0 -> c <> 0 -> par <> c -> c ∉ l -> par ∉ l -> is_Some (nodes s !! c) -> kids_of (nodes s) par l -> (length l < fuel)%nat ->
  exists s', AddChildDevice fuel s par c = Done s' /\ s' = with_nodes s (nodes s') /\ kid_added (nodes s) (nodes s') par c l.
Proof.
  intros Hp Hc Hne Hcl Hpl [dc Hdc] (dp & Hdp & Hl) Hf. unfold AddChildDevice.
  rewrite (proj2 (Z.eqb_neq _ _) Hp), (proj2 (Z.eqb_neq _ _) Hc). cbn [orb]. rewrite (upd_dev_spec _ _ _ _ Hdc), bind_Done.
  set (dc' := with_sib (with_parent dc par) 0). set (s1 := wr_dev s c dc').
  assert (nodes s1 !! par = Some dp) as Hdp1 by (cbn; by rewrite lookup_insert_ne).
  rewrite (rd_dev_spec _ _ _ Hdp1), bind_Done.
  assert (sib_chain (nodes s1) (p1stKid dp) l) as Hl1.
  { eapply sib_chain_ext; [|done]. intros x Hx. cbn. rewrite lookup_insert_ne; [done|]. by intros ->. }
  destruct l as [|x l _] using rev_ind.
  - cbn in Hl. rewrite Hl. cbn [Z.eqb]. eexists. split; [reflexivity|]. split; [done|]. cbn. split.
    + exists (with_kid dp c). split; [by rewrite lookup_insert_eq|]. cbn. split; [done|]. split; [done|]. exists dc'.
      by rewrite lookup_insert_ne, lookup_insert_eq.
    + intros d Hd. simplify_eq. by rewrite lookup_insert_ne, lookup_insert_eq.
    + intros d Hd. simplify_eq. exists c. by rewrite lookup_insert_eq.
    + intros y d Hyc Hyp Hd. exists (pNxtSib d). rewrite !lookup_insert_ne, with_sib_id by done. done.
    + intros y Hy. rewrite !lookup_insert_ne by congruence. done.
  - assert (p1stKid dp <> 0) as Hk by (destruct l; destruct Hl as (-> & ? & _); done).
    rewrite (proj2 (Z.eqb_neq _ _) Hk). rewrite length_app in Hf. cbn in Hf. rewrite (last_sib_spec s1 l x) by (done || lia). rewrite bind_Done.
    destruct (sib_chain_nodes _ _ _ x Hl1) as [Hx0 [dx Hdx]]; [apply elem_of_app; right; by left|].
    rewrite (upd_dev_spec _ _ _ _ Hdx). eexists. split; [reflexivity|]. split; [done|]. cbn.
    assert (x <> c /\ x <> par) as [Hxc Hxp] by (split; intros ->; rewrite elem_of_app in *; naive_solver set_solver).
    cbn in Hdx. rewrite lookup_insert_ne in Hdx by done. pose proof (sib_chain_NoDup _ _ _ Hl) as Hnd.
    assert (x ∉ l) as Hxl by (apply NoDup_app in Hnd as (_ & Hd & _); intros Hin; apply (Hd x Hin); by left).
    split.
    + exists dp. split; [by rewrite !lookup_insert_ne|]. apply (sib_chain_snoc (nodes s) _ l x c dc'); try done.
      * intros z Hz. rewrite !lookup_insert_ne; [done| |]; intros ->; [apply Hcl; rewrite elem_of_app; by left|done].
      * intros d Hd. simplify_eq. by rewrite lookup_insert_eq.
      * by rewrite lookup_insert_ne, lookup_insert_eq.
    + intros d Hd. simplify_eq. by rewrite lookup_insert_ne, lookup_insert_eq.
    + intros d Hd. simplify_eq. exists (p1stKid dp). by rewrite !lookup_insert_ne, with_kid_id.
    + intros y d Hyc Hyp Hd. destruct (decide (y = x)) as [->|Hyx].
      * simplify_eq. exists c. rewrite lookup_insert_eq. split; [done|]. intros Hn. destruct Hn. apply elem_of_app. right. by left.
      * exists (pNxtSib d). rewrite !lookup_insert_ne, with_sib_id by done. done.
    + intros y Hy. rewrite !lookup_insert_ne by congruence. done.
Qed.

(** ** The tree the start-up builds *)

(** The static nodes [R] and [P], and one node per endpoint below [P], at the addresses [l]. *)
Record tree_inv (R P : Z) (l : list Z) (es : list PCIeEndpoint) (s : Devs) : Prop := {
  ti_root : exists d, nodes s !! R = Some d /\ dBus d = BUS_ROOT /\ pNxtSib d = 0 /\ pDriver d = 0;
  ti_pcie : exists d, nodes s !! P = Some d /\ dBus d = BUS_PCI /\ pNxtSib d = 0 /\ pParent d = R /\ pDriver d = 0 /\ pciClass (dPci d) = 0;
  ti_kids : kids_of (nodes s) R [P] /\ kids_of (nodes s) P l;
  ti_nodes : Forall2 (fun a e => exists d, nodes s !! a = Some d /\ with_sib d 0 = with_parent (pci_node e) P) l es;
  ti_count : g_DeviceCount s = u32 (2 + Z.of_nat (length es));
  ti_null : nodes s !! 0 = None
}.

Lemma device_found_spec R P fuel s a rest l es e :
  R <> 0 -> P <> 0 -> R <> P -> tree_inv R P l es s -> heap_answers s = a :: rest -> a <> 0 -> a <> R -> a <> P -> a ∉ l -> R ∉ l -> P ∉ l ->
  (length l < fuel)%nat ->
  exists s', DevTreeInitPCIeDeviceFound P fuel s e = Done s' /\ tree_inv R P (l ++ [a]) (es ++ [e]) s' /\ heap_answers s' = rest /\
    drivers s' = drivers s /\ pTable s' = pTable s /\ NrLoaded s' = NrLoaded s.
Proof.
  intros HR HP HRP [(dr & Hr & Hrb & Hrs & Hrd) (dp & Hp & Hpb & Hps & Hpp & Hpd) [Hk1 Hk2] Hns Hc H00] Hh Ha HaR HaP Hal HRl HPl Hf.
  unfold DevTreeInitPCIeDeviceFound, heap_acquire. rewrite Hh. rewrite (proj2 (Z.eqb_neq a 0) Ha).
  set (s0 := mkDevs (nodes s) (drivers s) (g_DeviceCount s) (pTable s) (NrCap s) (NrLoaded s) rest).
  destruct (add_child_spec fuel (wr_dev s0 a (pci_node e)) P a l) as (s' & E & Es & [K1 K2 K3 K4 K5]); try done.
  { cbn. rewrite lookup_insert_eq. eauto. }
  { destruct Hk2 as (d & Hd & Hl). exists d. cbn. rewrite lookup_insert_ne by done. split; [done|]. eapply sib_chain_ext; [|done].
    intros x Hx. rewrite lookup_insert_ne; [done|]. by intros ->. }
  rewrite E, bind_Done. eexists. split; [reflexivity|]. cbn [nodes wr_dev with_nodes s0] in *.
  assert (forall x d, x <> a -> x <> P -> nodes s !! x = Some d -> exists n, nodes s' !! x = Some (with_sib d n) /\ (x ∉ l -> n = pNxtSib d)) as K.
  { intros x d Hxa HxP Hx. apply K4; [done|done|by rewrite lookup_insert_ne]. }
  destruct (K R dr) as (n & Hr' & Hn); [done|done|done|]. rewrite (Hn HRl), with_sib_id in Hr'. clear n Hn.
  destruct (K3 dp) as (k & Hp'); [by rewrite lookup_insert_ne|].
  split; [|rewrite Es; done]. split; cbn [nodes with_count g_DeviceCount].
  - by exists dr.
  - by exists (with_kid dp k).
  - split; [|done]. destruct Hk1 as (d & Hd & Ek & _ & _). simplify_eq. exists dr. split; [done|]. cbn. split; [done|]. split; [done|].
    by exists (with_kid dp k).
  - apply Forall2_app.
    + apply Forall2_same_length_lookup in Hns as [Hlen Hns]. apply Forall2_same_length_lookup. split; [done|].
      intros i x y Hx Hy. destruct (Hns i x y Hx Hy) as (d & Hd & Hs). apply list_elem_of_lookup_2 in Hx.
      destruct (K x d) as (n & Hn & _); [by intros ->|by intros ->|done|]. by exists (with_sib d n).
    + constructor; [|constructor]. rewrite (K2 (pci_node e)) by by rewrite lookup_insert_eq. by eexists.
  - rewrite Es. cbn. rewrite Hc, length_app. unfold u32. rewrite Z.add_mod_idemp_l by lia. f_equal. cbn. lia.
  - apply K5. by rewrite lookup_insert_ne.
Qed.

Lemma devices_found R P fuel es2 : forall s l1 l2 rest es1,
  R <> 0 -> P <> 0 -> R <> P -> tree_inv R P l1 es1 s -> heap_answers s = l2 ++ rest -> length l2 = length es2 ->
  NoDup (R :: P :: l1 ++ l2) -> Forall (fun a => a <> 0) l2 -> (length l1 + length l2 < fuel)%nat ->
  exists s', call_all (DevTreeInitPCIeDeviceFound P fuel) s es2 = Done s' /\ tree_inv R P (l1 ++ l2) (es1 ++ es2) s' /\ heap_answers s' = rest /\
    drivers s' = drivers s /\ pTable s' = pTable s /\ NrLoaded s' = NrLoaded s.
Proof.
  induction es2 as [|e es2 IH]; intros s l1 l2 rest es1 HR HP HRP Hi Hh Hl Hnd H0 Hf.
  - destruct l2; [|done]. rewrite !app_nil_r. exists s. by split_and!.
  - destruct l2 as [|a l2]; [done|]. rewrite Forall_cons in H0. destruct H0 as [Ha H0]. cbn [length] in *.
    assert (NoDup (R :: P :: (l1 ++ [a]) ++ l2)) as Hnd' by (by rewrite <- app_assoc).
    apply NoDup_cons in Hnd as [HnR Hnd]. apply NoDup_cons in Hnd as [HnP Hnd]. apply NoDup_app in Hnd as (_ & Hd & _).
    rewrite elem_of_cons, elem_of_app, elem_of_cons in HnR. rewrite elem_of_app, elem_of_cons in HnP.
    destruct (device_found_spec R P fuel s a (l2 ++ rest) l1 es1 e) as (s1 & E & Hi1 & Hh1 & Hd1 & Ht1 & Hn1); try done.
    { intros ->. tauto. } { intros ->. tauto. } { intros Hin. apply (Hd a Hin). by left. } { tauto. } { tauto. } { lia. }
    cbn [call_all]. rewrite E, bind_Done.
    destruct (IH s1 (l1 ++ [a]) l2 rest (es1 ++ [e])) as (s2 & E2 & Hi2 & Hh2 & Hd2 & Ht2 & Hn2); try done; try lia.
    { rewrite length_app. cbn. lia. }
    exists s2. rewrite <- !app_assoc in Hi2. split_and!; try done; congruence.
Qed.

(** Nodes reachable through p1stKid and pNxtSib, in preorder. *)
Inductive forest (sh : Z -> option (Z * Z)) : Z -> list Z -> Prop :=
  | forest_nil : forest sh 0 []
  | forest_cons p kid sib ks ss : p <> 0 -> sh p = Some (kid, sib) -> forest sh kid ks -> forest sh sib ss -> forest sh p (p :: ks ++ ss).
Definition shape (s : Devs) (p : Z) : option (Z * Z) := (fun d => (p1stKid d, pNxtSib d)) <$> nodes s !! p.

Lemma leaves_forest s l : forall p,
  sib_chain (nodes s) p l -> Forall (fun a => exists d, nodes s !! a = Some d /\ p1stKid d = 0) l -> forest (shape s) p l.
Proof.
  induction l as [|x l IH]; intros p H HF; [cbn in H; subst; constructor|]. destruct H as (-> & Hx & d & Hd & H).
  apply Forall_cons in HF as [(d' & Hd' & Hk) HF]. simplify_eq. change (x :: l) with (x :: [] ++ l).
  apply (forest_cons _ _ 0 (pNxtSib d)); [done| |constructor|by apply IH]. unfold shape. rewrite Hd. cbn. by rewrite Hk.
Qed.

Lemma tree_inv_forest R P l es s : R <> 0 -> tree_inv R P l es s -> forest (shape s) R (R :: P :: l).
Proof.
  intros HR [(dr & Hr & _ & Hrs & _) (dp & Hp & _ & Hps & _) [Hk1 Hk2] Hns _ _].
  destruct Hk1 as (d & Hd & E & HP & _). simplify_eq. destruct Hk2 as (d & Hd & Hl). simplify_eq.
  replace (R :: p1stKid dr :: l) with (R :: (p1stKid dr :: l ++ []) ++ []) by by rewrite !app_nil_r.
  apply (forest_cons _ R (p1stKid dr) 0); [done|unfold shape; rewrite Hr; cbn; by rewrite Hrs| |constructor].
  apply (forest_cons _ _ (p1stKid dp) 0); [done|unfold shape; rewrite Hp; cbn; by rewrite Hps| |constructor].
  apply leaves_forest; [done|]. apply Forall_forall. intros a Ha. apply Forall2_same_length_lookup in Hns as [Hlen Hns].
  apply list_elem_of_lookup_1 in Ha as [i Hi]. destruct (lookup_lt_is_Some_2 es i) as [e He]; [apply lookup_lt_Some in Hi; lia|].
  destruct (Hns i a e Hi He) as (d & Hd' & Hs). exists d. split; [done|]. apply (f_equal p1stKid) in Hs. done.
Qed.

(** The statics before the tree is built, and the heap's answers. *)
Record tree_ready (R P : Z) (fuel : nat) (mem : memory) (base mapped : Z) (s : Devs) (l rest : list Z) : Prop := {
  tr_static : R <> 0 /\ P <> 0 /\ NoDup (R :: P :: l);
  tr_fresh : exists d, nodes s !! R = Some d /\ dBus d = BUS_IVLD;
  tr_window : 0 <= base /\ base + 2 ^ 28 <= 2 ^ 64 /\ 2 ^ 28 <= mapped;
  tr_heap : heap_answers s = l ++ rest /\ length l = length (pcie_endpoints mem base) /\ Forall (fun a => a <> 0) l;
  tr_fuel : (length l + 1 < fuel)%nat;
  tr_null : nodes s !! 0 = None
}.

Lemma init_tree_spec R P fuel mem base mapped s l rest :
  tree_ready R P fuel mem base mapped s l rest ->
  exists s', InitDeviceTree R P fuel mem base mapped s = Done s' /\ tree_inv R P l (pcie_endpoints mem base) s' /\ heap_answers s' = rest /\
    drivers s' = drivers s /\ pTable s' = pTable s /\ NrLoaded s' = NrLoaded s.
Proof.
  intros [(HR & HP & Hnd) (d & Hd & Hb) (W0 & W1 & W2) (Hh & Hl & H0) Hf H00].
  assert (R <> P) as HRP by (intros ->; apply NoDup_cons in Hnd as [Hn _]; apply Hn; by left).
  unfold InitDeviceTree, InitDeviceTreeRoot. rewrite (rd_dev_spec _ _ _ Hd), bind_Done. rewrite bool_decide_eq_false_2 by tauto. rewrite bind_Done.
  cbn [negb]. cbv zeta. set (r := mkDevice _ BUS_ROOT _ _ _ _ _ _). set (pr := mkDevice _ BUS_PCI _ _ _ _ _ _).
  destruct (add_child_spec fuel (wr_dev (with_count (wr_dev s R r) 1) P pr) R P []) as (s1 & E & Es & [K1 K2 K3 K4 K5]); try done; try apply not_elem_of_nil.
  { cbn. rewrite lookup_insert_eq. eauto. }
  { exists r. cbn. by rewrite lookup_insert_ne, lookup_insert_eq. }
  { cbn. lia. }
  rewrite E, bind_Done. set (s2 := with_count s1 (u32 (g_DeviceCount s1 + 1))).
  assert (nodes s2 !! P = Some (with_sib (with_parent pr R) 0)) as HsP by (apply K2; cbn; by rewrite lookup_insert_eq).
  destruct (K3 r) as (k & HsR); [cbn; by rewrite lookup_insert_ne, lookup_insert_eq|].
  destruct (devices_found R P fuel (pcie_endpoints mem base) s2 [] l rest []) as (s' & HD & Hi & Hh' & Hd' & Ht & Hn); try done; try lia.
  { split; cbn [nodes with_count s2].
    - by exists (with_kid r k).
    - by exists (with_sib (with_parent pr R) 0).
    - split; [exact K1|]. by exists (with_sib (with_parent pr R) 0).
    - constructor.
    - cbn. by rewrite Es.
    - apply K5. cbn. by rewrite !lookup_insert_ne. }
  { cbn. by rewrite Es. } { cbn. lia. }
  exists s'. split; [|split_and!; try done; [rewrite Hd'|rewrite Ht|rewrite Hn]; cbn; by rewrite Es].
  rewrite <- HD. unfold PcieEnumerate. change (Z.to_nat (PCIE_MAX_BUS + 1)) with 256%nat. by rewrite (bus_loop_spec mem base mapped) by (done || lia).
Qed.

(** C26: on zeroed statics, with a configuration window that covers all 256 buses
    and with enough heap for a node per function, the start-up builds the tree of the
    root, the PCI Express root below it, and below that one node for every function
    the enumeration finds, in its order, each with the identification read from its
    configuration space, linked to its parent and unbound; the device count is their
    number and that of the two roots. *)
Theorem device_tree_built R P fuel mem base mapped s l rest :
  tree_ready R P fuel mem base mapped s l rest ->
  exists s', InitDeviceTree R P fuel mem base mapped s = Done s' /\ tree_inv R P l (pcie_endpoints mem base) s' /\ heap_answers s' = rest /\
    forest (shape s') R (R :: P :: l).
Proof.
  intros H. destruct (init_tree_spec _ _ _ _ _ _ _ _ _ H) as (s' & E & Hi & Hh & _). exists s'. split_and!; try done.
  eapply tree_inv_forest; [|done]. apply (tr_static _ _ _ _ _ _ _ _ _ H).
Qed.
