(* ===== verification/PairProps.v ===== *)
(** * Pairing devices with drivers: theorems on Devdriv/Pair.c *)
From Stdlib Require Import ZArith Lia String.
From stdpp Require Import base numbers list gmap sets.
From S2P Require Import Prelude Acpi PcieProps Devices DevicesProps.
Open Scope Z_scope.

Section Pairing.
Variable call_probe : Z -> Z -> DriverMatchMethod -> bool.
Variable call_init : Z -> Z -> bool.
#[local] Abbreviation try_pair := (TryPairDriverWithDevice call_probe call_init).
#[local] Abbreviation loop := (pair_loop call_probe call_init).
#[local] Abbreviation attempt' := (attempt call_probe call_init).
#[local] Abbreviation local_pair := (LocalDevdrivPairAttempt call_probe call_init).
#[local] Abbreviation kids := (kid_loop call_probe call_init).

(** ** Which driver a device gets *)

Definition method_matches (d : DeviceNode) (m : DriverMatchMethod) : bool :=
  bool_decide (mBus m = BUS_PCI) && bool_decide (dBus d = BUS_PCI) && pci_matches (mPci m) (dPci d).
(** The first matching method before the terminator. *)
Fixpoint first_method (l : list DriverMatchMethod) (d : DeviceNode) : option DriverMatchMethod :=
  match l with
  | [] => None
  | m :: l' => if bool_decide (mBus m = BUS_IVLD) then None else if method_matches d m then Some m else first_method l' d
  end.
Definition terminated (l : list DriverMatchMethod) : Prop := Exists (fun m => mBus m = BUS_IVLD) l.

Lemma match_loop_spec l d : terminated l -> match_loop l d = Done (first_method l d).
Proof.
  induction l as [|m l IH]; intros H; [by apply Exists_nil in H|]. cbn [match_loop first_method].
  apply Exists_cons in H. unfold method_matches.
  destruct (mBus m) eqn:E; [done|..]; (destruct H as [H|H]; [done|]); specialize (IH H); rewrite IH.
  all: try (destruct (bool_decide (dBus d <> _)); by rewrite ?andb_false_r).
  destruct (decide (dBus d = BUS_PCI)) as [Hd|Hd].
  - rewrite (bool_decide_eq_false_2 (dBus d <> BUS_PCI)), (bool_decide_eq_true_2 (dBus d = BUS_PCI)) by tauto. cbn [andb bool_decide].
    by destruct (pci_matches _ _).
  - by rewrite (bool_decide_eq_true_2 (dBus d <> BUS_PCI)), (bool_decide_eq_false_2 (dBus d = BUS_PCI)), andb_false_r by tauto.
Qed.

(** The driver at [drv] accepts the device at [dev]. *)
Definition accepts (s : Devs) (dev : Z) (d : DeviceNode) (drv : Z) : bool :=
  match drivers s !! drv with
  | None => false
  | Some r =>
      negb (drv =? 0) && has_DevInit r && has_DevProbe r &&
      match (l ← pMatchMethods r; first_method l d) with
      | Some m => call_probe drv dev m && call_init drv dev
      | None => false
      end
  end.
Definition loaded (s : Devs) : list Z := match pTable s with Some t => take (Z.to_nat (NrLoaded s)) t | None => [] end.
(** The first loaded driver that accepts the device. *)
Definition chosen (s : Devs) (dev : Z) (d : DeviceNode) : option Z := snd <$> list_find (fun r => Is_true (accepts s dev d r)) (loaded s).

Record pair_ready (s : Devs) : Prop := {
  pr_table : exists t, pTable s = Some t /\ 0 <= NrLoaded s <= Z.of_nat (length t);
  pr_drivers : Forall (fun a => exists r, drivers s !! a = Some r /\ forall l, pMatchMethods r = Some l -> terminated l) (loaded s);
  pr_null : nodes s !! 0 = None
}.

(** ** One attempt *)

Lemma wr_dev_id s p d : nodes s !! p = Some d -> wr_dev s p d = s.
Proof. intros H. unfold wr_dev. rewrite insert_id by done. by destruct s. Qed.
Lemma wr_dev_twice s p d d' : wr_dev (wr_dev s p d) p d' = wr_dev s p d'.
Proof. unfold wr_dev, with_nodes. cbn. by rewrite insert_insert_eq. Qed.

Lemma try_pair_spec s drv dev d r :
  nodes s !! dev = Some d -> dev <> 0 -> drivers s !! drv = Some r -> (forall l, pMatchMethods r = Some l -> terminated l) ->
  try_pair s drv dev =
    Done (if (pDriver d =? 0) && accepts s dev d drv then (wr_dev s dev (with_driver d drv), true) else (s, false)).
Proof.
  intros Hd H0 Hr Ht. unfold TryPairDriverWithDevice, accepts. rewrite Hr, (proj2 (Z.eqb_neq dev 0) H0), orb_false_r.
  destruct (Z.eqb_spec drv 0) as [->|Hdrv]; cbn [negb andb]; [by rewrite andb_false_r|].
  unfold rd_drv. rewrite Hr. cbn [checked]. rewrite bind_Done, (rd_dev_spec _ _ _ Hd), bind_Done.
  destruct (Z.eqb_spec (pDriver d) 0) as [Hz|]; [|done]. cbn [andb]. destruct (has_DevInit r); [|done]. destruct (has_DevProbe r); [|done]. cbn [andb negb].
  unfold IsDriverCompatibleWithDevice. destruct (pMatchMethods r) as [l|] eqn:El; [|done]. rewrite match_loop_spec by by apply Ht. rewrite bind_Done.
  cbn [mbind option_bind]. destruct (first_method l d) as [m|]; [|done]. destruct (call_probe drv dev m); [|done]. cbn [negb andb].
  rewrite (upd_dev_spec _ _ _ _ Hd), bind_Done. destruct (call_init drv dev); [done|]. cbn [negb].
  rewrite (upd_dev_spec _ _ (with_driver d drv)) by by (cbn; rewrite lookup_insert_eq). rewrite bind_Done, wr_dev_twice.
  assert (with_driver (with_driver d drv) 0 = d) as -> by (destruct d; cbn in *; by subst). by rewrite wr_dev_id.
Qed.

Lemma pair_loop_spec s dev d n : forall i t,
  nodes s !! dev = Some d -> dev <> 0 -> pTable s = Some t -> 0 <= i -> i + Z.of_nat n <= Z.of_nat (length t) ->
  Forall (fun a => exists r, drivers s !! a = Some r /\ forall l, pMatchMethods r = Some l -> terminated l) (take n (drop (Z.to_nat i) t)) ->
  loop n i s dev = Done
    (match (if pDriver d =? 0 then snd <$> list_find (fun r => Is_true (accepts s dev d r)) (take n (drop (Z.to_nat i) t)) else None) with
     | Some r => (wr_dev s dev (with_driver d r), true)
     | None => (s, false)
     end).
Proof.
  induction n as [|n IH]; intros i t Hd H0 Ht Hi Hn HF; [cbn; by destruct (pDriver d =? 0)|]. cbn [pair_loop]. rewrite Ht. cbn [checked]. rewrite bind_Done.
  destruct (t !! Z.to_nat i) as [drv|] eqn:E; [|apply lookup_ge_None in E; lia]. cbn [checked]. rewrite bind_Done.
  rewrite (drop_S t drv _ E) in *. cbn [take] in *. apply Forall_cons in HF as [(r & Hr & Htm) HF].
  rewrite (try_pair_spec _ _ _ _ _ Hd H0 Hr Htm), bind_Done. replace (S (Z.to_nat i)) with (Z.to_nat (i + 1)) in * by lia. cbn [list_find].
  destruct (pDriver d =? 0) eqn:Ez; cbn [andb].
  - destruct (accepts s dev d drv) eqn:Ea.
    + rewrite decide_True by done. done.
    + rewrite decide_False by (rewrite ?Ea; tauto). rewrite (IH (i + 1) t) by (done || lia). rewrite ?Ez.
      by destruct (list_find _ _) as [[? ?]|].
  - rewrite (IH (i + 1) t) by (done || lia). by rewrite ?Ez.
Qed.

(** The effect of an attempt, total on existing nodes. *)
Definition newly (s : Devs) (dev : Z) : option Z :=
  d ← nodes s !! dev; if pDriver d =? 0 then chosen s dev d else None.
Definition bind_node (s : Devs) (dev : Z) : Devs :=
  match nodes s !! dev, newly s dev with Some d, Some r => wr_dev s dev (with_driver d r) | _, _ => s end.
Definition gain (s : Devs) (dev : Z) : Z := match newly s dev with Some _ => 1 | None => 0 end.

Lemma attempt_spec s dev :
  pair_ready s -> is_Some (nodes s !! dev) -> attempt' s dev = Done (bind_node s dev, gain s dev).
Proof.
  intros [(t & Ht & Hn) HF H0] [d Hd]. assert (dev <> 0) as Hne by (intros ->; congruence).
  unfold attempt, TryPairDeviceWithAnyDriver. unfold loaded in HF. rewrite Ht in HF.
  rewrite (pair_loop_spec s dev d (Z.to_nat (NrLoaded s)) 0 t) by (done || lia). rewrite bind_Done.
  unfold bind_node, gain, newly. rewrite Hd. cbn [mbind option_bind]. unfold chosen, loaded. rewrite Ht. change (drop (Z.to_nat 0) t) with t.
  by destruct (pDriver d =? 0); [destruct (list_find _ _) as [[? ?]|]|].
Qed.

(** ** What an attempt preserves *)

Definition same_devices (s s' : Devs) : Prop :=
  g_DeviceCount s' = g_DeviceCount s /\ drivers s' = drivers s /\ pTable s' = pTable s /\ NrLoaded s' = NrLoaded s /\
  forall x, (fun d => with_driver d 0) <$> nodes s' !! x = (fun d => with_driver d 0) <$> nodes s !! x.

Lemma bind_node_lookup s dev x :
  nodes (bind_node s dev) !! x = if bool_decide (x = dev) then (fun d => match newly s dev with Some r => with_driver d r | None => d end) <$> nodes s !! x else nodes s !! x.
Proof.
  unfold bind_node. destruct (nodes s !! dev) as [d|] eqn:Hd.
  - destruct (newly s dev) as [r|]; cbn.
    + destruct (decide (x = dev)) as [->|]; [by rewrite bool_decide_eq_true_2, lookup_insert_eq, Hd|].
      by rewrite bool_decide_eq_false_2, lookup_insert_ne.
    + destruct (bool_decide _); [by destruct (nodes s !! x)|done].
  - destruct (bool_decide_reflect (x = dev)) as [->|]; [by rewrite Hd|done].
Qed.

Lemma bind_node_same s dev : same_devices s (bind_node s dev).
Proof.
  split_and!; try (unfold bind_node; by destruct (nodes s !! dev), (newly s dev)).
  intros x. rewrite bind_node_lookup. destruct (bool_decide _); [|done]. destruct (nodes s !! x); [|done]. cbn. by destruct (newly s dev).
Qed.

Lemma same_shape s s' x : same_devices s s' -> shape s' x = shape s x.
Proof.
  intros (_ & _ & _ & _ & H). specialize (H x). unfold shape. destruct (nodes s' !! x) as [d'|], (nodes s !! x) as [d|]; cbn in *; try done.
  injection H as H. destruct d, d'. cbn in *. congruence.
Qed.
Lemma same_dom s s' x : same_devices s s' -> is_Some (nodes s !! x) -> is_Some (nodes s' !! x).
Proof. intros (_ & _ & _ & _ & H) [d Hd]. specialize (H x). rewrite Hd in H. destruct (nodes s' !! x); [eauto|done]. Qed.
Lemma same_ready s s' : same_devices s s' -> pair_ready s -> pair_ready s'.
Proof.
  intros (_ & Hd & Ht & Hn & H) [Htab HF H0]. split.
  - by rewrite Ht, Hn.
  - unfold loaded. rewrite Ht, Hn, Hd. exact HF.
  - specialize (H 0). rewrite H0 in H. by destruct (nodes s' !! 0).
Qed.

(** The choice depends on the drivers and on the identity of the device only. *)
Lemma chosen_same s s' dev d d' :
  drivers s' = drivers s -> pTable s' = pTable s -> NrLoaded s' = NrLoaded s -> with_driver d' 0 = with_driver d 0 ->
  chosen s' dev d' = chosen s dev d.
Proof.
  intros Hd Ht Hn E. unfold chosen, loaded. rewrite Ht, Hn. f_equal.
  assert (dBus d' = dBus d /\ dPci d' = dPci d) as [Eb Ep] by (destruct d, d'; cbn in *; by simplify_eq).
  assert (forall l, first_method l d' = first_method l d) as Ef.
  { induction l as [|m l IH]; [done|]. cbn. unfold method_matches. by rewrite Eb, Ep, IH. }
  assert (forall r, accepts s' dev d' r = accepts s dev d r) as Ea.
  { intros r. unfold accepts. rewrite Hd. destruct (drivers s !! r) as [r'|]; [|done]. destruct (pMatchMethods r') as [l|]; [|done]. cbn. by rewrite Ef. }
  destruct (pTable s) as [t|]; [|done]. generalize (take (Z.to_nat (NrLoaded s)) t). intros l. induction l as [|r l IH]; [done|]. cbn.
  rewrite IH. destruct (decide (Is_true (accepts s' dev d' r))) as [H|H]; rewrite Ea in H; [by rewrite decide_True|by rewrite decide_False].
Qed.

(** ** Visits *)

Fixpoint run (V : list Z) (s : Devs) : Devs * Z :=
  match V with
  | [] => (s, 0)
  | x :: V' => let '(s', n) := run V' (bind_node s x) in (s', gain s x + n)
  end.

Lemma run_app V1 : forall V2 s, run (V1 ++ V2) s = let '(s1, n1) := run V1 s in let '(s2, n2) := run V2 s1 in (s2, n1 + n2).
Proof.
  induction V1 as [|x V1 IH]; intros V2 s; cbn; [by destruct (run V2 s)|]. rewrite IH. destruct (run V1 _) as [s1 n1]. destruct (run V2 s1) as [s2 n2]. f_equal. lia.
Qed.
Lemma same_refl s : same_devices s s.
Proof. by split_and!. Qed.
Lemma same_trans s1 s2 s3 : same_devices s1 s2 -> same_devices s2 s3 -> same_devices s1 s3.
Proof. intros (A0 & A1 & A2 & A3 & A4) (B0 & B1 & B2 & B3 & B4). split_and!; [congruence..|]. intros x. by rewrite B4. Qed.
Lemma run_same V : forall s, same_devices s (run V s).1.
Proof.
  induction V as [|x V IH]; intros s; [apply same_refl|]. cbn. specialize (IH (bind_node s x)). destruct (run V _) as [s' n].
  eapply same_trans; [apply bind_node_same|done].
Qed.

(** ** The traversal *)

(** [f] visits the nodes [l] and answers what the visits gain, given enough fuel,
    on every state with the links [sh]. *)
Definition visits (sh : Z -> option (Z * Z)) (f : nat -> Devs -> outcome (Devs * Z)) (l : list Z) : Prop :=
  exists V F, (forall x, x ∈ V <-> x ∈ l) /\ forall fuel s, (F <= fuel)%nat -> (forall x, shape s x = sh x) -> pair_ready s ->
    f fuel s = Done ((run V s).1, u32 (run V s).2).

Lemma shape_attempt s p k n :
  pair_ready s -> shape s p = Some (k, n) ->
  attempt' s p = Done (bind_node s p, gain s p) /\ pair_ready (bind_node s p) /\ (forall x, shape (bind_node s p) x = shape s x).
Proof.
  intros Hr Hs. unfold shape in Hs. destruct (nodes s !! p) as [d|] eqn:Hd; [|done]. split; [by apply attempt_spec; eauto|].
  split; [eapply same_ready; [apply bind_node_same|done]|]. intros x. apply same_shape, bind_node_same.
Qed.
Lemma shape_read s p k n : shape s p = Some (k, n) -> exists d, rd_dev s p = Done d /\ p1stKid d = k /\ pNxtSib d = n.
Proof. unfold shape. destruct (nodes s !! p) as [d|] eqn:Hd; [|done]. intros [= <- <-]. exists d. by rewrite (rd_dev_spec _ _ _ Hd). Qed.
Lemma u32_add3 a b c : u32 (a + u32 b + u32 c) = u32 (a + (b + c)).
Proof. unfold u32. rewrite Z.add_mod_idemp_r by lia. replace (a + b mod 2 ^ 32 + c) with (a + c + b mod 2 ^ 32) by lia. rewrite Z.add_mod_idemp_r by lia. f_equal. lia. Qed.
Lemma run_ready V s sh : pair_ready s -> (forall x, shape s x = sh x) -> pair_ready (run V s).1 /\ forall x, shape (run V s).1 x = sh x.
Proof. intros Hr Hs. split; [eapply same_ready; [apply run_same|done]|]. intros x. rewrite <- Hs. apply same_shape, run_same. Qed.

Lemma visits_local sh p kid sib ks ss :
  p <> 0 -> sh p = Some (kid, sib) -> visits sh (fun fuel s => kids fuel s kid kid) ks -> visits sh (fun fuel s => local_pair fuel s sib) ss ->
  visits sh (fun fuel s => local_pair fuel s p) (p :: ks ++ ss).
Proof.
  intros Hp Hsh (V1 & F1 & HV1 & H1) (V2 & F2 & HV2 & H2). exists (p :: V1 ++ V2), (S (F1 + F2)). split.
  { intros x. rewrite !elem_of_cons, !elem_of_app, HV1, HV2. done. }
  intros [|fuel] s Hf Hs Hr; [lia|]. cbn [LocalDevdrivPairAttempt]. rewrite (proj2 (Z.eqb_neq p 0) Hp).
  assert (shape s p = Some (kid, sib)) as Hshp by by rewrite Hs. destruct (shape_attempt _ _ _ _ Hr Hshp) as (E & Hr1 & Hs1). rewrite E, bind_Done.
  destruct (shape_read (bind_node s p) p kid sib) as (d & Ed & Ek & En); [by rewrite Hs1|]. rewrite Ed, bind_Done, Ek.
  rewrite H1 by (lia || done || (intros; rewrite Hs1; apply Hs)). rewrite bind_Done.
  destruct (run_ready V1 (bind_node s p) sh) as [Hr2 Hs2]; [done|intros; rewrite Hs1; apply Hs|].
  destruct (shape_read (run V1 (bind_node s p)).1 p kid sib) as (d2 & Ed2 & _ & En2); [by rewrite Hs2|]. rewrite Ed2, bind_Done, En2.
  rewrite H2 by (lia || done). rewrite bind_Done. cbn [run]. rewrite run_app. destruct (run V1 (bind_node s p)) as [s1 n1]. cbn [fst snd].
  destruct (run V2 s1) as [s2 n2]. cbn [fst snd]. by rewrite u32_add3.
Qed.

Lemma visits_ext sh f l l' : (forall x, x ∈ l <-> x ∈ l') -> visits sh f l -> visits sh f l'.
Proof. intros He (V & F & HV & H). exists V, F. split; [|done]. intros x. by rewrite HV. Qed.

Lemma kid_loop_unfold fuel s base p :
  kids (S fuel) s base p =
    (if negb (p =? 0) then
       '(s, n) ← attempt' s p;
       d ← rd_dev s p;
       '(s, k) ← (if negb (pNxtSib d =? 0) then local_pair fuel s (pNxtSib d) else Done (s, 0));
       d ← rd_dev s p;
       '(s, m) ← kids fuel s base (p1stKid d);
       Done (s, u32 (n + k + m))
     else if negb (base =? 0) then b ← rd_dev s base; kids fuel s (pNxtSib b) (pNxtSib b)
     else Done (s, 0)).
Proof. done. Qed.

Lemma visits_kid sh base p kid sib ss rest :
  p <> 0 -> sh p = Some (kid, sib) -> (sib = 0 -> ss = []) -> visits sh (fun fuel s => local_pair fuel s sib) ss ->
  visits sh (fun fuel s => kids fuel s base kid) rest ->
  visits sh (fun fuel s => kids fuel s base p) (p :: ss ++ rest).
Proof.
  intros Hp Hsh H0 (V1 & F1 & HV1 & H1) (V2 & F2 & HV2 & H2). exists (p :: V1 ++ V2), (S (S (F1 + F2))). split.
  { intros x. rewrite !elem_of_cons, !elem_of_app, HV1, HV2. done. }
  intros [|fuel] s Hf Hs Hr; [lia|]. rewrite kid_loop_unfold. rewrite (proj2 (Z.eqb_neq p 0) Hp). cbn [negb].
  assert (shape s p = Some (kid, sib)) as Hshp by by rewrite Hs. destruct (shape_attempt _ _ _ _ Hr Hshp) as (E & Hr1 & Hs1). rewrite E, bind_Done.
  destruct (shape_read (bind_node s p) p kid sib) as (d & Ed & Ek & En); [by rewrite Hs1|]. rewrite Ed, bind_Done, En.
  assert ((if negb (sib =? 0) then local_pair fuel (bind_node s p) sib else Done (bind_node s p, 0)) = local_pair fuel (bind_node s p) sib) as ->.
  { destruct (Z.eqb_spec sib 0) as [->|]; [|done]. destruct fuel; [lia|done]. }
  rewrite H1 by (lia || done || (intros; rewrite Hs1; apply Hs)). rewrite bind_Done.
  destruct (run_ready V1 (bind_node s p) sh) as [Hr2 Hs2]; [done|intros; rewrite Hs1; apply Hs|].
  destruct (shape_read (run V1 (bind_node s p)).1 p kid sib) as (d2 & Ed2 & Ek2 & _); [by rewrite Hs2|]. rewrite Ed2, bind_Done, Ek2.
  rewrite H2 by (lia || done). rewrite bind_Done. cbn [run]. rewrite run_app. destruct (run V1 (bind_node s p)) as [s1 n1]. cbn [fst snd].
  destruct (run V2 s1) as [s2 n2]. cbn [fst snd]. by rewrite u32_add3.
Qed.

Lemma visits_done sh : visits sh (fun fuel s => kids fuel s 0 0) [].
Proof. exists [], 1%nat. split; [done|]. intros [|fuel] s Hf Hs Hr; [lia|done]. Qed.
Lemma visits_next sh base kid sib rest :
  base <> 0 -> sh base = Some (kid, sib) -> visits sh (fun fuel s => kids fuel s sib sib) rest -> visits sh (fun fuel s => kids fuel s base 0) rest.
Proof.
  intros Hb Hsh (V & F & HV & H). exists V, (S F). split; [done|]. intros [|fuel] s Hf Hs Hr; [lia|]. rewrite kid_loop_unfold. cbn [Z.eqb negb].
  rewrite (proj2 (Z.eqb_neq base 0) Hb). cbn [negb].
  destruct (shape_read s base kid sib) as (d & Ed & _ & En); [by rewrite Hs|]. rewrite Ed, bind_Done, En. apply H; [lia|done|done].
Qed.

Lemma forest_null sh p l : forest sh p l -> p = 0 -> l = [].
Proof. by intros [|]. Qed.

(** The descent along first kids, then whatever follows it. *)
Lemma visits_chain sh n base rest :
  (forall p l, forest sh p l -> (length l < n)%nat -> visits sh (fun fuel s => local_pair fuel s p) l) ->
  visits sh (fun fuel s => kids fuel s base 0) rest ->
  forall q l, forest sh q l -> (length l <= n)%nat -> visits sh (fun fuel s => kids fuel s base q) (l ++ rest).
Proof.
  intros IH Hrest q l Hl. induction Hl as [|q kid sib ks ss Hq Hsh Hks IHk Hss IHs]; intros Hn; [done|]. cbn in Hn. rewrite length_app in Hn.
  apply (visits_ext _ _ (q :: ss ++ (ks ++ rest))); [intros x; rewrite ?elem_of_app, ?elem_of_cons, ?elem_of_app; tauto|].
  apply visits_kid with (kid := kid) (sib := sib); [done|done|intros Hz; by apply (forest_null sh sib ss)|apply IH; [done|lia]|apply IHk; lia].
Qed.

Lemma visits_kids sh n :
  (forall p l, forest sh p l -> (length l < n)%nat -> visits sh (fun fuel s => local_pair fuel s p) l) ->
  forall base l, forest sh base l -> (length l <= n)%nat -> visits sh (fun fuel s => kids fuel s base base) l.
Proof.
  intros IH base l Hl. induction Hl as [|p kid sib ks ss Hp Hsh Hks IHk Hss IHs]; intros Hn; [apply visits_done|].
  apply (visits_ext _ _ ((p :: ks ++ ss) ++ ss)); [intros x; rewrite ?elem_of_app, ?elem_of_cons, ?elem_of_app; tauto|].
  apply (visits_chain sh n); [done| |by apply (forest_cons _ p kid sib)|done].
  apply (visits_next sh p kid sib); [done|done|]. apply IHs. cbn in Hn. rewrite length_app in Hn. lia.
Qed.

Lemma visits_forest sh n : forall p l, forest sh p l -> (length l < n)%nat -> visits sh (fun fuel s => local_pair fuel s p) l.
Proof.
  induction n as [|n IH]; intros p l Hl Hn; [lia|]. destruct Hl as [|p kid sib ks ss Hp Hsh Hks Hss].
  - exists [], 1%nat. split; [done|]. intros [|fuel] s Hf Hs Hr; [lia|done].
  - cbn in Hn. rewrite length_app in Hn. apply visits_local with (kid := kid) (sib := sib); try done; [|apply IH; [done|lia]].
    apply (visits_kids sh n); [done|done|lia].
Qed.

(** ** The result *)

Lemma newly_bind s x y : newly (bind_node s x) y = if bool_decide (y = x) then None else newly s y.
Proof.
  destruct (bind_node_same s x) as (_ & Hd & Ht & Hn & Hw). unfold newly at 1. rewrite bind_node_lookup.
  destruct (bool_decide_reflect (y = x)) as [->|Hne].
  - destruct (nodes s !! x) as [d|] eqn:Ed; [|done]. cbn. destruct (newly s x) as [r|] eqn:Er.
    + cbn. unfold newly in Er. rewrite Ed in Er. cbn in Er. destruct (pDriver d =? 0); [|done]. unfold chosen in Er.
      destruct (list_find _ _) as [[i r']|] eqn:El; [|done]. cbn in Er. injection Er as ->. apply list_find_Some in El as (_ & Ha & _).
      unfold accepts in Ha. destruct (drivers s !! r); [|done]. destruct (Z.eqb_spec r 0); [done|done].
    + unfold newly in Er. rewrite Ed in Er. cbn in Er. destruct (pDriver d =? 0); [|done]. by rewrite (chosen_same s (bind_node s x) x d d).
  - unfold newly. destruct (nodes s !! y) as [d|]; [|done]. cbn. destruct (pDriver d =? 0); [|done]. by rewrite (chosen_same s (bind_node s x) y d d).
Qed.

Definition gains (s : Devs) (V : gset Z) : Z := Z.of_nat (size (filter (fun x => is_Some (newly s x)) V)).

Lemma gains_step s x (V : gset Z) : gain s x + gains (bind_node s x) V = gains s ({[x]} ∪ V).
Proof.
  unfold gain, gains. assert (filter (fun y => is_Some (newly (bind_node s x) y)) V = filter (fun y => is_Some (newly s y)) (V ∖ {[x]})) as ->.
  { apply set_eq. intros y. rewrite !elem_of_filter, elem_of_difference, elem_of_singleton, newly_bind.
    destruct (bool_decide_reflect (y = x)) as [->|]; [|naive_solver]. split; [intros [[? [=]] _]|naive_solver]. }
  destruct (newly s x) as [r|] eqn:E.
  - assert (filter (fun y => is_Some (newly s y)) ({[x]} ∪ V) = {[x]} ∪ filter (fun y => is_Some (newly s y)) (V ∖ {[x]})) as ->.
    { apply set_eq. intros y. rewrite elem_of_filter, !elem_of_union, elem_of_filter, elem_of_difference, elem_of_singleton.
      destruct (decide (y = x)) as [->|]; [rewrite E; naive_solver|naive_solver]. }
    rewrite size_union, size_singleton; [lia|]. apply disjoint_singleton_l. rewrite elem_of_filter, elem_of_difference, elem_of_singleton. naive_solver.
  - rewrite Z.add_0_l. do 2 f_equal. apply set_eq. intros y. rewrite !elem_of_filter, elem_of_union, elem_of_difference, elem_of_singleton.
    destruct (decide (y = x)) as [->|]; [rewrite E; split; [intros [[? [=]] _]|intros [[? [=]] _]]|naive_solver].
Qed.

Lemma run_spec V : forall s,
  (run V s).2 = gains s (list_to_set V) /\
  forall x, nodes (run V s).1 !! x = if bool_decide (x ∈ V) then (fun d => match newly s x with Some r => with_driver d r | None => d end) <$> nodes s !! x else nodes s !! x.
Proof.
  induction V as [|v V IH]; intros s.
  - split; [change (0 = gains s ∅); unfold gains; rewrite filter_empty_L; [done|apply _]|]. intros x. cbn. rewrite bool_decide_eq_false_2; [done|]. apply not_elem_of_nil.
  - specialize (IH (bind_node s v)). cbn [run list_to_set]. destruct (run V (bind_node s v)) as [s' n]. cbn [fst snd] in *. destruct IH as [-> IH]. split; [apply gains_step|].
    intros x. rewrite IH, newly_bind, bind_node_lookup.
    destruct (bool_decide_reflect (x = v)) as [->|Hne].
    + rewrite (bool_decide_eq_true_2 (v ∈ v :: V)) by by left. destruct (bool_decide (v ∈ V)); [|done]. by destruct (nodes s !! v).
    + assert (bool_decide (x ∈ v :: V) = bool_decide (x ∈ V)) as ->; [|done]. apply bool_decide_ext. rewrite elem_of_cons. tauto.
Qed.

Lemma pairing_pass s root l :
  forest (shape s) root l -> pair_ready s ->
  exists fuel0 s' n, (forall fuel, (fuel0 <= fuel)%nat -> GlobalDevdrivPairAttempt call_probe call_init fuel s root = Done (s', u32 n)) /\
    same_devices s s' /\ n = gains s (list_to_set l) /\
    (forall x, x ∉ l -> nodes s' !! x = nodes s !! x) /\
    (forall x d, x ∈ l -> nodes s !! x = Some d ->
       nodes s' !! x = Some (match (if pDriver d =? 0 then chosen s x d else None) with Some r => with_driver d r | None => d end)).
Proof.
  intros Hf Hr. destruct (visits_forest (shape s) (S (length l)) root l Hf ltac:(lia)) as (V & F & HV & H).
  exists F, (run V s).1, (run V s).2. destruct (run_spec V s) as [Hg Hx]. split; [|split; [|split; [|split]]].
  - intros fuel Hfu. by apply H.
  - apply run_same.
  - rewrite Hg. f_equal. apply set_eq. intros x. by rewrite !elem_of_list_to_set, HV.
  - intros x Hn. rewrite Hx, bool_decide_eq_false_2; [done|]. by rewrite HV.
  - intros x d Hin Hd. rewrite Hx, bool_decide_eq_true_2 by by rewrite HV. unfold newly. by rewrite Hd.
Qed.
(** C21: on any tree of device nodes, whatever its shape, the pairing pass ends:
    every unbound node of the tree is bound to the first loaded driver that
    matches it, probes it and initialises it, no other field and no other node
    changes, and the number returned is that of the nodes newly bound, although
    the traversal visits nodes repeatedly. *)
Theorem pairing_complete s root l :
  forest (shape s) root l -> pair_ready s ->
  exists fuel0 s' n, (forall fuel, (fuel0 <= fuel)%nat -> GlobalDevdrivPairAttempt call_probe call_init fuel s root = Done (s', u32 n)) /\
    same_devices s s' /\ n = gains s (list_to_set l) /\
    (forall x, x ∉ l -> nodes s' !! x = nodes s !! x) /\
    (forall x d, x ∈ l -> nodes s !! x = Some d ->
       nodes s' !! x = Some (match (if pDriver d =? 0 then chosen s x d else None) with Some r => with_driver d r | None => d end)).
Proof. apply pairing_pass. Qed.
End Pairing.

(** ** Registration *)

(** With room in the table and a registration routine that leaves the registry
    alone, the driver is appended exactly when the routine succeeds. *)
Lemma register_driver_spec {M} (reg : Z -> Devs * M -> outcome (Devs * M * bool)) s m m' p d t b ns :
  p <> 0 -> drivers s !! p = Some d -> bRegistered d = false -> NrCap s <> 0 -> 0 <= NrLoaded s < NrCap s -> NrCap s < 2 ^ 31 ->
  pTable s = Some t -> Z.of_nat (length t) = NrCap s ->
  (forall s1, nodes s1 = nodes s -> (if has_Register d then reg p (s1, m) else Done (s1, m, true)) = Done ((with_nodes s1 ns, m', b) : Devs * M * bool)) ->
  exists s', RegisterDriver reg s m p = Done (s', m', true) /\ loaded s' = loaded s ++ (if b then [p] else []) /\
    drivers s' = <[p := mkDriver (pMatchMethods d) (has_Register d) (has_DevProbe d) (has_DevInit d) b]> (drivers s) /\ nodes s' = ns /\
    NrCap s' = NrCap s /\ NrLoaded s' = NrLoaded s + (if b then 1 else 0) /\ heap_answers s' = heap_answers s /\
    exists t', pTable s' = Some t' /\ length t' = length t.
Proof.
  intros Hp Hd Hr Hc Hl Hm Ht Hlen Hreg. unfold RegisterDriver. rewrite (proj2 (Z.eqb_neq p 0) Hp). unfold rd_drv. rewrite Hd. cbn [checked].
  rewrite bind_Done, Hr. unfold reserve_table. rewrite (proj2 (Z.eqb_neq _ 0) Hc), (proj2 (Z.eqb_neq (NrLoaded s) _)) by lia. cbn [negb].
  rewrite Ht. cbn [checked]. rewrite bind_Done. destruct (t !! Z.to_nat (NrLoaded s)) as [e|] eqn:E; [|apply lookup_ge_None in E; lia].
  cbn [checked]. rewrite bind_Done. rewrite u32_small by lia. set (s1 := with_table s _ _ _).
  rewrite (Hreg s1 eq_refl), bind_Done. unfold set_registered, rd_drv. cbn [drivers with_table with_nodes s1]. rewrite Hd. cbn [checked]. rewrite !bind_Done.
  eexists. split; [reflexivity|]. assert (take (S (Z.to_nat (NrLoaded s))) (<[Z.to_nat (NrLoaded s) := p]> t) = take (Z.to_nat (NrLoaded s)) t ++ [p]) as Etk.
  { rewrite (take_S_r _ _ p) by (rewrite list_lookup_insert_eq; [done|lia]). by rewrite take_insert_ge by lia. }
  destruct b; unfold loaded; cbn [pTable NrLoaded drivers nodes NrCap heap_answers with_table with_drivers with_nodes s1]; rewrite Ht.
  - split_and!; try done; [|by eexists; rewrite length_insert].
    replace (Z.to_nat (NrLoaded s + 1)) with (S (Z.to_nat (NrLoaded s))) by lia. done.
  - replace (u32 (NrLoaded s + 1 - 1)) with (NrLoaded s) by (rewrite u32_small; lia).
    split_and!; try done; [|lia|by eexists; rewrite length_insert]. rewrite app_nil_r. by rewrite take_insert_ge by lia.
Qed.

(** *** Evaluations *)

(** The tree of one host bridge and one NVMe controller, the driver's table and methods. *)
Definition nvme_methods : list DriverMatchMethod :=
  [mkMatch BUS_PCI (mkPci 0 PCI_ANY_VENDOR_ID PCI_ANY_DEVICE_ID PCI_ANY_BUS PCI_ANY_DEVICE PCI_ANY_FUNCTION PCI_ANY_PROG_IF 1 8); mkMatch BUS_IVLD no_pci].
Definition nvme_driver : Driver := mkDriver (Some nvme_methods) false true true true.
Definition pci_device (class sub parent sib : Z) : DeviceNode := mkDevice EmptyString BUS_PCI (mkPci 0 0x8086 1 0 0 0 0 class sub) parent 0 sib 0 0.
Definition sample_devs : Devs :=
  mkDevs (<[1 := mkDevice EmptyString BUS_ROOT no_pci 0 2 0 0 0]> (<[2 := mkDevice EmptyString BUS_PCI no_pci 1 3 0 0 0]>
    (<[3 := pci_device 6 0 2 4]> (<[4 := pci_device 1 8 2 0]> ∅)))) (<[100 := nvme_driver]> ∅) 4 (Some (100 :: replicate 31 0)) 32 1 [].

Lemma sample_forest : forest (shape sample_devs) 1 [1; 2; 3; 4].
Proof.
  apply (forest_cons _ 1 2 0 [2; 3; 4] []); [done|done| |constructor]. apply (forest_cons _ 2 3 0 [3; 4] []); [done|done| |constructor].
  apply (forest_cons _ 3 0 4 [] [4]); [done|done|constructor|]. apply (forest_cons _ 4 0 0 [] []); [done|done|constructor|constructor].
Qed.
Lemma sample_pair_ready : pair_ready sample_devs.
Proof.
  split.
  - by exists (100 :: replicate 31 0).
  - constructor; [|constructor]. exists nvme_driver. split; [done|]. intros l [= <-]. apply Exists_exists. exists (mkMatch BUS_IVLD no_pci). split; [|done]. right. by left.
  - done.
Qed.
Lemma pairing_complete_witness :
  forest (shape sample_devs) 1 [1; 2; 3; 4] /\
  exists fuel0 s' n, (forall fuel, (fuel0 <= fuel)%nat -> GlobalDevdrivPairAttempt (fun _ _ _ => true) (fun _ _ => true) fuel sample_devs 1 = Done (s', u32 n)) /\
    same_devices sample_devs s' /\ n = gains (fun _ _ _ => true) (fun _ _ => true) sample_devs (list_to_set [1; 2; 3; 4]) /\
    (forall x, x ∉ [1; 2; 3; 4] -> nodes s' !! x = nodes sample_devs !! x) /\
    (forall x d, x ∈ [1; 2; 3; 4] -> nodes sample_devs !! x = Some d ->
       nodes s' !! x = Some (match (if pDriver d =? 0 then chosen (fun _ _ _ => true) (fun _ _ => true) sample_devs x d else None) with Some r => with_driver d r | None => d end)).
Proof.
  split; [exact sample_forest|].
  apply (pairing_complete (fun _ _ _ => true) (fun _ _ => true) sample_devs 1 [1; 2; 3; 4] sample_forest). exact sample_pair_ready.
Defined.
Example pair_sample :
  (r ← GlobalDevdrivPairAttempt (fun _ _ _ => true) (fun _ _ => true) 20 sample_devs 1; Done (r.2, pDriver <$> nodes r.1 !! 4)) = Done (1, Some 100).
Proof. vm_compute. done. Qed.

(** A device node with its function, as the start-up adds it. *)
Lemma sample_tree_ready :
  tree_ready 1 2 10 sample_ecam 0x10000000 (2 ^ 28) (mkDevs (<[1 := zero_device]> ∅) ∅ 0 None 0 0 [30; 40; 50; 60]) [30; 40; 50] [60].
Proof.
  split.
  - split; [done|]. split; [done|]. repeat (apply NoDup_cons; split; [rewrite ?elem_of_cons, elem_of_nil; lia|]). constructor.
  - by exists zero_device.
  - lia.
  - split; [done|]. split; [|repeat (apply Forall_cons; split; [done|]); constructor]. by vm_compute.
  - cbn. lia.
  - done.
Qed.
Lemma device_tree_built_witness :
  tree_ready 1 2 10 sample_ecam 0x10000000 (2 ^ 28) (mkDevs (<[1 := zero_device]> ∅) ∅ 0 None 0 0 [30; 40; 50; 60]) [30; 40; 50] [60] /\
  exists s', InitDeviceTree 1 2 10 sample_ecam 0x10000000 (2 ^ 28) (mkDevs (<[1 := zero_device]> ∅) ∅ 0 None 0 0 [30; 40; 50; 60]) = Done s' /\
    tree_inv 1 2 [30; 40; 50] (pcie_endpoints sample_ecam 0x10000000) s' /\ heap_answers s' = [60] /\ forest (shape s') 1 [1; 2; 30; 40; 50].
Proof.
  split; [exact sample_tree_ready|].
  exact (device_tree_built 1 2 10 sample_ecam 0x10000000 (2 ^ 28) (mkDevs (<[1 := zero_device]> ∅) ∅ 0 None 0 0 [30; 40; 50; 60]) [30; 40; 50] [60] sample_tree_ready).
Defined.

(** Registering the 33rd driver loses the table of the 32 before it. *)
Example table_lost :
  (r ← RegisterDriver (fun _ s => Done (s, true)) (mkDevs ∅ (<[100 := mkDriver None false false false false]> ∅) 0 (Some (replicate 32 7)) 32 32 []) tt 100;
   Done (r.2, pTable r.1.1)) = Done (false, None).
Proof. vm_compute. done. Qed.
(** A driver whose registration fails is still reported as registered. *)
Example failed_register_true :
  (r ← RegisterDriver (fun _ s => Done (s, false)) (mkDevs ∅ (<[100 := mkDriver None true false false false]> ∅) 0 None 0 0 [9]) tt 100;
   Done (r.2, NrLoaded r.1.1)) = Done (true, 0).
Proof. vm_compute. done. Qed.
(** Devices added below the root before the tree is initialised, as the timer and keyboard drivers do, are forgotten. *)
Example early_device_lost :
  (s ← AddChildDevice 5 (mkDevs (<[1 := zero_device]> (<[9 := zero_device]> ∅)) ∅ 0 None 0 0 []) 1 9;
   r ← InitDeviceTreeRoot 1 s; Done (p1stKid <$> nodes s !! 1, p1stKid <$> nodes r.1 !! 1)) = Done (Some 9, Some 0).
Proof. vm_compute. done. Qed.
