(* ===== verification/Builtin.v ===== *)
(** * The built-in drivers (Kernel/Source/Devdriv/BlockDevice/NVMe.c, the driver
    objects of Timer/AcpiPmTimer.c and Keyboard/PS2Keyboard.c,
    Init/KrInitDrivers.c) and the part of Init/KrKernelStart.c from their
    registration to the pairing of the devices

    The registration functions of the timer and the keyboard put their static
    device nodes below the root and set up their hardware, so they act on the
    device registry and the rest of the machine together. *)
From Stdlib Require Import ZArith Lia String.
From stdpp Require Import base numbers list gmap.
From S2P Require Import Prelude Acpi Devices Apic Interrupts Keycodes Keyboard.
Open Scope Z_scope.

(** ** The NVMe driver *)

Definition PCI_CLASS_MASS_STORAGE_CONTROLLER : Z := 0x01.
Definition PCI_SUBCLASS_NVM_CONTROLLER : Z := 0x08.
Definition g_NvmeDriverMatchMethods : list DriverMatchMethod :=
  [mkMatch BUS_PCI (mkPci 0 PCI_ANY_VENDOR_ID PCI_ANY_DEVICE_ID PCI_ANY_BUS PCI_ANY_DEVICE PCI_ANY_FUNCTION PCI_ANY_PROG_IF
                      PCI_CLASS_MASS_STORAGE_CONTROLLER PCI_SUBCLASS_NVM_CONTROLLER);
   mkMatch BUS_IVLD no_pci].
Definition NvmeDevProbe (pDev : Z) (pClamationMethodRef : DriverMatchMethod) : bool := true.
Definition NvmeDevInit (pDev : Z) : bool := true.
Definition NvmeGetSectorSize (pDev : Z) : Z := 0.
Definition NvmeGetSectorCount (pDev : Z) : Z := 0.

(** ** The driver objects, not yet registered *)

Definition g_GenericNvmeDriver : Driver := mkDriver (Some g_NvmeDriverMatchMethods) false true true false.
Definition g_AcpiPmTimerDriver : Driver := mkDriver None true false false false.
Definition g_PS2_KeyboardDriver : Driver := mkDriver None true false false false.

(** ** Registration *)

(** What the registration functions work on besides the devices; the last field
    is DeviceInitialized of PS2_KeyboardDriverRegister. *)
Record Hw := mkHw { hwPorts : Ports; hwInts : Ints; hwTimer : PmTimer; DeviceInitialized : bool }.

Definition PS2_KEYBOARD_IRQ : Z := 1.
Definition AcpiPmTimerDeviceName : string := "ACPI Power Management Timer".
Definition PS2KeyboardDeviceName : string := "PS/2 Keyboard".

Section Drivers.
(** The addresses of the static objects and of the interrupt handler. *)
Context (g_RootDevice AddrNvme AddrTimer AddrKeyboard AcpiPmTimerDevice PS2KeyboardDevice KeyboardHandler : Z).
(** The FADT and its address, MmioMapDevice's answer, the uninitialised byte of
    PS2_IssueCommand, and the fuel of the sibling walk. *)
Context (fadt : Fadt) (pFadt : Z) (mmio : Z -> Z) (uninit : Z) (fuel : nat).

Definition TimerDriverRegister (s : Devs) (h : Hw) : outcome (Devs * Hw * bool) :=
  s ← upd_dev s AcpiPmTimerDevice (fun d => with_driver d AddrTimer);
  s ← (if AcpiPmTimerDeviceInitialized (hwTimer h) then Done s
       else
         s ← upd_dev s AcpiPmTimerDevice (fun d =>
               mkDevice AcpiPmTimerDeviceName BUS_PLATFORM (dPci d) (pParent d) (p1stKid d) (pNxtSib d) (pDriver d) pFadt);
         AddChildDevice fuel s g_RootDevice AcpiPmTimerDevice);
  let '(p, ok) := AcpiPmTimerDriverRegister (hwTimer h) fadt mmio in
  Done (s, mkHw (hwPorts h) (hwInts h) p (DeviceInitialized h), ok).

Definition PS2_KeyboardDriverRegister (s : Devs) (h : Hw) : outcome (Devs * Hw * bool) :=
  s ← upd_dev s PS2KeyboardDevice (fun d => with_driver d AddrKeyboard);
  s ← (if DeviceInitialized h then Done s
       else
         s ← upd_dev s PS2KeyboardDevice (fun d =>
               mkDevice PS2KeyboardDeviceName BUS_PLATFORM (dPci d) (pParent d) (p1stKid d) (pNxtSib d) (pDriver d) (pDriverData d));
         AddChildDevice fuel s g_RootDevice PS2KeyboardDevice);
  '(io, ok) ← ps2_setup (hwPorts h) uninit;
  if negb ok then Done (s, mkHw io (hwInts h) (hwTimer h) true, false)
  else
    '(i, _, _) ← irq_setup (hwInts h) PS2_KEYBOARD_IRQ PS2KeyboardDevice KeyboardHandler;
    Done (s, mkHw io i (hwTimer h) true, true).
Definition PS2_KeyboardDriverUnregister (h : Hw) : outcome Hw :=
  '(i, _) ← SetEnableIRQ (hwInts h) PS2_KEYBOARD_IRQ false; Done (mkHw (hwPorts h) i (hwTimer h) (DeviceInitialized h)).

(** The call through a driver's Register pointer. *)
Definition call_register (p : Z) (m : Devs * Hw) : outcome (Devs * Hw * bool) :=
  if p =? AddrTimer then TimerDriverRegister m.1 m.2
  else if p =? AddrKeyboard then PS2_KeyboardDriverRegister m.1 m.2
  else Fault.
(** The calls through DevProbe and DevInit: only the NVMe driver has them. *)
Definition call_probe (p dev : Z) (m : DriverMatchMethod) : bool := (p =? AddrNvme) && NvmeDevProbe dev m.
Definition call_init (p dev : Z) : bool := (p =? AddrNvme) && NvmeDevInit dev.

Definition init_drivers (s : Devs) (h : Hw) : outcome (Devs * Hw) :=
  InitBuiltinDrivers call_register s h [AddrNvme; AddrTimer; AddrKeyboard].

(** ** From InitBuiltinDrivers on, as KrKernelStart continues *)

(** What KrKernelStart prints on the way. *)
Inductive StartLine :=
  | DriversRegistered                            (* "Registered the built-in drivers." *)
  | LocalApicInitialized                         (* "Initialized the BSP's local APIC." *)
  | TopologyHeading                              (* "Platform processor topology:" *)
  | LogicalCpu (apic acpi : Z) (bsp : bool)      (* " -> Logical CPU `APIC %u / ACPI %u` %s" *)
  | DevicesDiscovered (devices paired : Z).      (* "Devdriv: Discovered `%u` devices, paired `%u` with a driver." *)
Definition topology (ProcInfo : list ProcInfoEntry) : list StartLine :=
  omap (fun e => if negb (pE_V e) then None else Some (LogicalCpu (pLocalApicID e) (pAcpiID e) (BSP e))) ProcInfo.
Definition KR_MDCODE_LOCAL_APIC_INIT_FAILURE : Z := 0x1002.

(** The local APIC of the boot processor: the answers of its hardware, CPUID's
    feature bit, MmioMapDevice's answer, and the fuel of the calibration. *)
Context (latency : Z -> nat) (apic_count : nat -> Z) (pm_value : pm_source -> nat -> Z) (tsc : nat -> Z).
Context (apic_support : bool) (apic_mmio : Z) (calibration_fuel : nat).

(** The device tree and the pairing pass with its count; [pcie_mem], [base] and
    [mapped] are the configuration space. *)
Definition start_devices (g_PcieRoot : Z) (pcie_mem : memory) (base mapped : Z) (pair_fuel : nat)
    (ProcInfo : list ProcInfoEntry) (s : Devs) (h : Hw) (a : Apic) : outcome (Devs * Hw * Apic * list StartLine) :=
  '(s, h) ← init_drivers s h;
  '(a, ok) ← KrApicInit latency apic_count pm_value tsc calibration_fuel apic_support apic_mmio a (hwTimer h) true;
  if negb ok then Melt KR_MDCODE_LOCAL_APIC_INIT_FAILURE
  else
    s ← InitDeviceTree g_RootDevice g_PcieRoot fuel pcie_mem base mapped s;
    '(s, NrPaired) ← GlobalDevdrivPairAttempt call_probe call_init pair_fuel s g_RootDevice;
    Done (s, h, a, [DriversRegistered; LocalApicInitialized; TopologyHeading] ++ topology ProcInfo ++ [DevicesDiscovered (g_DeviceCount s) NrPaired]).
End Drivers.
