(* ===== verification/BuiltinProps.v ===== *)
(** * The built-in drivers and the devices of the machine: theorems *)
From Stdlib Require Import ZArith Lia String.
From stdpp Require Import base numbers list gmap sets.
From S2P Require Import Prelude Acpi PcieProps Devices DevicesProps PairProps Apic Interrupts Keycodes Keyboard Builtin.
Open Scope Z_scope.

(** ** The first two children of a node *)

Lemma add_first_child fuel s R C dr dc :
  nodes s !! R = Some dr -> p1stKid dr = 0 -> nodes s !! C = Some dc -> NoDup [0; R; C] ->
  AddChildDevice fuel s R C = Done (with_nodes s (<[R := with_kid dr C]> (<[C := with_sib (with_parent dc R) 0]> (nodes s)))).
Proof.
  intros Hr Hk Hc Hn. rewrite !NoDup_cons, !not_elem_of_cons in Hn. destruct Hn as ((H1 & H2 & _) & (H3 & _) & _). unfold AddChildDevice.
  rewrite (proj2 (Z.eqb_neq R 0)), (proj2 (Z.eqb_neq C 0)) by done. cbn [orb]. rewrite (upd_dev_spec _ _ _ _ Hc), bind_Done.
  rewrite (rd_dev_spec _ R dr) by (cbn; by rewrite lookup_insert_ne). rewrite bind_Done, Hk. reflexivity.
Qed.

Lemma add_second_child fuel s R T C dr dt dc :
  nodes s !! R = Some dr -> p1stKid dr = T -> nodes s !! T = Some dt -> pNxtSib dt = 0 -> nodes s !! C = Some dc ->
  NoDup [0; R; T; C] -> (0 < fuel)%nat ->
  AddChildDevice fuel s R C = Done (with_nodes s (<[T := with_sib dt C]> (<[C := with_sib (with_parent dc R) 0]> (nodes s)))).
Proof.
  intros Hr Hk Ht Hs Hc Hn Hf. rewrite !NoDup_cons, !not_elem_of_cons in Hn. destruct Hn as ((H1 & H2 & H3 & _) & (H4 & H5 & _) & (H6 & _) & _).
  unfold AddChildDevice. rewrite (proj2 (Z.eqb_neq R 0)), (proj2 (Z.eqb_neq C 0)) by done. cbn [orb].
  rewrite (upd_dev_spec _ _ _ _ Hc), bind_Done. rewrite (rd_dev_spec _ R dr) by (cbn; by rewrite lookup_insert_ne). rewrite bind_Done, Hk.
  rewrite (proj2 (Z.eqb_neq T 0)) by done. set (s1 := wr_dev s C _). destruct fuel as [|fuel]; [lia|].
  assert (nodes s1 !! T = Some dt) as Ht1 by (cbn; by rewrite lookup_insert_ne).
  cbn [last_sib]. rewrite (rd_dev_spec _ _ _ Ht1), !bind_Done, Hs. cbn [Z.eqb negb]. rewrite bind_Done. by rewrite (upd_dev_spec _ _ _ _ Ht1).
Qed.

Lemma with_nodes_id s : with_nodes s (nodes s) = s.
Proof. by destruct s. Qed.

Section Start.
Context (R AddrNvme AddrTimer AddrKeyboard DevTimer DevKeyboard KeyboardHandler : Z).
Context (fadt : Fadt) (pFadt : Z) (mmio : Z -> Z) (uninit : Z) (fuel : nat).
#[local] Abbreviation reg := (call_register R AddrTimer AddrKeyboard DevTimer DevKeyboard KeyboardHandler fadt pFadt mmio uninit fuel).
#[local] Abbreviation drivers_start := (init_drivers R AddrNvme AddrTimer AddrKeyboard DevTimer DevKeyboard KeyboardHandler fadt pFadt mmio uninit fuel).
#[local] Abbreviation probe := (call_probe AddrNvme).
#[local] Abbreviation dinit := (call_init AddrNvme).

(** What the registration functions find: the addresses of distinct objects, the
    driver objects as they are linked, zeroed device nodes, an empty registry
    and a heap that answers the request for the driver table. *)
Record drivers_fresh (s : Devs) (h : Hw) (rest : list Z) : Prop := {
  df_objects : NoDup [0; AddrNvme; AddrTimer; AddrKeyboard];
  df_nodes : NoDup [0; R; DevTimer; DevKeyboard];
  df_nvme : drivers s !! AddrNvme = Some g_GenericNvmeDriver;
  df_timer : drivers s !! AddrTimer = Some g_AcpiPmTimerDriver;
  df_keyboard : drivers s !! AddrKeyboard = Some g_PS2_KeyboardDriver;
  df_zero : forall a, a ∈ [R; DevTimer; DevKeyboard] -> nodes s !! a = Some zero_device;
  df_registry : NrCap s = 0;
  df_heap : exists a, heap_answers s = a :: rest /\ a <> 0;
  df_first : AcpiPmTimerDeviceInitialized (hwTimer h) = false /\ DeviceInitialized h = false;
  df_fuel : (0 < fuel)%nat
}.
(** What the hardware does: the answers of the keyboard controller, and an
    interrupt line with a free vector. *)
Record hardware_answers (h : Hw) (io : Ports) (ack : bool) (apic : IoApicInfo) : Prop := {
  ha_ports : ps2_setup (hwPorts h) uninit = Done (io, ack);
  ha_ints : ints_wf (hwInts h);
  ha_line : FindIoApicForIRQ (hwInts h) PS2_KEYBOARD_IRQ = Done (Some apic);
  ha_vector : exists c v, c ∈ pCpuIDs (hwInts h) /\ vacancy (hwInts h) c = Some v
}.

(** The nodes as the two registrations leave them. *)
Definition timer_node (sib : Z) : DeviceNode := mkDevice AcpiPmTimerDeviceName BUS_PLATFORM no_pci R 0 sib AddrTimer pFadt.
Definition keyboard_node : DeviceNode := mkDevice PS2KeyboardDeviceName BUS_PLATFORM no_pci R 0 0 AddrKeyboard 0.

(** ** One registration *)

Lemma timer_registers s h : NoDup [0; R; DevTimer] -> nodes s !! R = Some zero_device -> nodes s !! DevTimer = Some zero_device ->
  AcpiPmTimerDeviceInitialized (hwTimer h) = false ->
  TimerDriverRegister R AddrTimer DevTimer fadt pFadt mmio fuel s h =
    let '(p, ok) := AcpiPmTimerDriverRegister (hwTimer h) fadt mmio in
    Done (with_nodes s (<[R := with_kid zero_device DevTimer]> (<[DevTimer := timer_node 0]> (nodes s))), mkHw (hwPorts h) (hwInts h) p (DeviceInitialized h), ok).
Proof.
  intros Hn Hr Ht Hi. unfold TimerDriverRegister. rewrite (upd_dev_spec _ _ _ _ Ht), bind_Done, Hi.
  assert (R <> DevTimer) as Hne by (rewrite !NoDup_cons, !not_elem_of_cons in Hn; tauto).
  rewrite (upd_dev_spec _ _ (with_driver zero_device AddrTimer)) by (cbn; by rewrite lookup_insert_eq).
  rewrite !bind_Done, wr_dev_twice.
  rewrite (add_first_child _ _ R DevTimer zero_device (mkDevice AcpiPmTimerDeviceName BUS_PLATFORM no_pci 0 0 0 AddrTimer pFadt));
    [|cbn; by rewrite lookup_insert_ne|done|cbn; by rewrite lookup_insert_eq|done].
  rewrite bind_Done. cbn [wr_dev with_nodes nodes drivers g_DeviceCount pTable NrCap NrLoaded heap_answers]. rewrite insert_insert_eq. reflexivity.
Qed.

Lemma irq_chosen (i : Ints) dev hd apic :
  ints_wf i -> FindIoApicForIRQ i PS2_KEYBOARD_IRQ = Done (Some apic) -> (exists c v, c ∈ pCpuIDs i /\ vacancy i c = Some v) ->
  exists i' c v, irq_setup i PS2_KEYBOARD_IRQ dev hd = Done (i', (c, v), true) /\ routed i' apic PS2_KEYBOARD_IRQ c v dev hd /\
    vacancy i c = Some v /\ c ∈ pCpuIDs i.
Proof.
  intros Hwf Hio (c & v & Hc & Hv).
  destruct (irq_setup_spec i PS2_KEYBOARD_IRQ dev hd apic Hwf ltac:(done) Hio) as [(i' & k & w & E & Hw & _ & Hr & _)|[_ Hn]].
  - exists i', (asked i k), w. split_and!; try done. by apply asked_in.
  - by rewrite Hn in Hv.
Qed.

Lemma keyboard_registers s h io ack apic dt : NoDup [0; R; DevTimer; DevKeyboard] ->
  nodes s !! R = Some (with_kid zero_device DevTimer) -> nodes s !! DevTimer = Some dt -> pNxtSib dt = 0 -> nodes s !! DevKeyboard = Some zero_device ->
  DeviceInitialized h = false -> (0 < fuel)%nat -> hardware_answers h io ack apic ->
  exists i, (if ack then exists c v, routed i apic PS2_KEYBOARD_IRQ c v DevKeyboard KeyboardHandler /\ vacancy (hwInts h) c = Some v /\ c ∈ pCpuIDs (hwInts h)
             else i = hwInts h) /\
    forall s1, nodes s1 = nodes s -> PS2_KeyboardDriverRegister R AddrKeyboard DevKeyboard KeyboardHandler uninit fuel s1 h =
      Done (with_nodes s1 (<[DevTimer := with_sib dt DevKeyboard]> (<[DevKeyboard := keyboard_node]> (nodes s))), mkHw io i (hwTimer h) true, ack).
Proof.
  intros Hn Hr Ht Hs Hk Hi Hf [Hp Hwf Hl Hv].
  destruct (irq_chosen (hwInts h) DevKeyboard KeyboardHandler apic Hwf Hl Hv) as (i & c & v & E & Hrt & Hvac & Hin).
  assert (DevKeyboard <> R /\ DevKeyboard <> DevTimer) as [Hn1 Hn2].
  { rewrite !NoDup_cons, !not_elem_of_cons in Hn. naive_solver. }
  assert (forall s1, nodes s1 = nodes s -> PS2_KeyboardDriverRegister R AddrKeyboard DevKeyboard KeyboardHandler uninit fuel s1 h =
    Done (with_nodes s1 (<[DevTimer := with_sib dt DevKeyboard]> (<[DevKeyboard := keyboard_node]> (nodes s))),
          mkHw io (if ack then i else hwInts h) (hwTimer h) true, ack)) as HE.
  { intros s1 Hs1. rewrite <- Hs1 in Hr, Ht, Hk |- *. unfold PS2_KeyboardDriverRegister. rewrite (upd_dev_spec _ _ _ _ Hk), bind_Done, Hi.
    rewrite (upd_dev_spec _ _ (with_driver zero_device AddrKeyboard)) by (cbn; by rewrite lookup_insert_eq).
    rewrite !bind_Done, wr_dev_twice.
    rewrite (add_second_child _ _ R DevTimer DevKeyboard (with_kid zero_device DevTimer) dt (mkDevice PS2KeyboardDeviceName BUS_PLATFORM no_pci 0 0 0 AddrKeyboard 0));
      [|cbn; by rewrite lookup_insert_ne|done|cbn; by rewrite lookup_insert_ne|done|cbn; by rewrite lookup_insert_eq|done|done].
    rewrite bind_Done, Hp, bind_Done. cbn [wr_dev with_nodes nodes drivers g_DeviceCount pTable NrCap NrLoaded heap_answers]. rewrite insert_insert_eq.
    destruct ack; cbn [negb]; [|reflexivity]. rewrite E, bind_Done. reflexivity. }
  destruct ack; [exists i; split; [by exists c, v|exact HE]|exists (hwInts h); split; [done|exact HE]].
Qed.

(** ** The three registrations *)

Definition registered (d : Driver) (b : bool) : Driver := mkDriver (pMatchMethods d) (has_Register d) (has_DevProbe d) (has_DevInit d) b.
(** The machine after the registrations; [tok] and [ack] say whether the timer's
    and the keyboard's succeeded. *)
Record drivers_started (s s' : Devs) (h h' : Hw) (tok ack : bool) (apic : IoApicInfo) (rest : list Z) : Prop := {
  ds_loaded : loaded s' = [AddrNvme] ++ (if tok then [AddrTimer] else []) ++ (if ack then [AddrKeyboard] else []);
  ds_drivers : drivers s' = <[AddrKeyboard := registered g_PS2_KeyboardDriver ack]> (<[AddrTimer := registered g_AcpiPmTimerDriver tok]>
                 (<[AddrNvme := registered g_GenericNvmeDriver true]> (drivers s)));
  ds_table : exists t, pTable s' = Some t /\ 0 <= NrLoaded s' <= Z.of_nat (length t);
  ds_heap : heap_answers s' = rest;
  ds_nodes : nodes s' = <[DevTimer := timer_node DevKeyboard]> (<[DevKeyboard := keyboard_node]>
               (<[R := with_kid zero_device DevTimer]> (<[DevTimer := timer_node 0]> (nodes s))));
  ds_timer : hwTimer h' = (AcpiPmTimerDriverRegister (hwTimer h) fadt mmio).1;
  ds_line : if ack then exists c v, routed (hwInts h') apic PS2_KEYBOARD_IRQ c v DevKeyboard KeyboardHandler /\
                                     vacancy (hwInts h) c = Some v /\ c ∈ pCpuIDs (hwInts h)
            else hwInts h' = hwInts h;
  ds_once : DeviceInitialized h' = true /\ AcpiPmTimerDeviceInitialized (hwTimer h') = true
}.

Lemma first_driver s h a rest : AddrNvme <> 0 -> drivers s !! AddrNvme = Some g_GenericNvmeDriver -> NrCap s = 0 -> heap_answers s = a :: rest -> a <> 0 ->
  RegisterDriver reg s h AddrNvme =
    Done (mkDevs (nodes s) (<[AddrNvme := registered g_GenericNvmeDriver true]> (drivers s)) (g_DeviceCount s) (Some (AddrNvme :: replicate 31 0)) 32 1 rest, h, true).
Proof.
  intros H0 Hd Hc Hh Ha. unfold RegisterDriver, rd_drv. rewrite (proj2 (Z.eqb_neq AddrNvme 0)), Hd by done. cbn [checked]. rewrite bind_Done.
  unfold reserve_table, heap_acquire. rewrite Hc, Hh, (proj2 (Z.eqb_neq a 0)) by done. cbn. unfold set_registered, rd_drv. cbn. rewrite Hd. reflexivity.
Qed.

Lemma timer_flag p f m : AcpiPmTimerDeviceInitialized (AcpiPmTimerDriverRegister p f m).1 = true.
Proof. unfold AcpiPmTimerDriverRegister. by repeat (case_match; try reflexivity). Qed.

Lemma drivers_register s h rest io ack apic :
  drivers_fresh s h rest -> hardware_answers h io ack apic ->
  exists s' h', drivers_start s h = Done (s', h') /\
    drivers_started s s' h h' (AcpiPmTimerDriverRegister (hwTimer h) fadt mmio).2 ack apic rest.
Proof.
  intros [F1 F2 F3 F4 F5 F6 F7 (a & F8 & F9) [F10 F11] F12] HA.
  assert (NoDup [0; R; DevTimer]) as F2' by (revert F2; rewrite !NoDup_cons, !not_elem_of_cons; naive_solver).
  assert (R <> DevTimer /\ R <> DevKeyboard /\ DevTimer <> DevKeyboard) as (N1 & N2 & N3) by (revert F2; rewrite !NoDup_cons, !not_elem_of_cons; naive_solver).
  rewrite !NoDup_cons, !not_elem_of_cons in F1. destruct F1 as ((O1 & O2 & O3 & _) & (O4 & O5 & _) & (O6 & _) & _).
  unfold init_drivers. cbn [InitBuiltinDrivers]. rewrite (first_driver _ _ a rest), bind_Done by done. set (s1 := mkDevs _ _ _ _ _ _ _).
  destruct (AcpiPmTimerDriverRegister (hwTimer h) fadt mmio) as [p tok] eqn:Ep.
  pose proof (timer_flag (hwTimer h) fadt mmio) as Hflag. rewrite Ep in Hflag. cbn [fst snd] in *.
  set (h1 := mkHw (hwPorts h) (hwInts h) p (DeviceInitialized h)).
  set (ns1 := <[R := with_kid zero_device DevTimer]> (<[DevTimer := timer_node 0]> (nodes s))).
  destruct (register_driver_spec reg s1 h h1 AddrTimer g_AcpiPmTimerDriver (AddrNvme :: replicate 31 0) tok ns1) as (s2 & E2 & L2 & D2 & Ns2 & C2 & K2 & H2 & t2 & T2 & Tl2);
    [done|cbn; by rewrite lookup_insert_ne|done|done|done|done|done|done| |].
  { intros s3 Hs3. cbn [has_Register g_AcpiPmTimerDriver]. unfold call_register. rewrite Z.eqb_refl.
    cbn [fst snd]. rewrite timer_registers; [|done|rewrite Hs3; apply F6; by left|rewrite Hs3; apply F6; right; by left|done]. rewrite Ep, Hs3. reflexivity. }
  rewrite E2, bind_Done. cbn [NrCap NrLoaded s1] in C2, K2.
  destruct (keyboard_registers s2 h1 io ack apic (timer_node 0)) as (i & Hi & HE); [done|..].
  { rewrite Ns2. apply lookup_insert_eq. }
  { rewrite Ns2. unfold ns1. rewrite lookup_insert_ne by done. apply lookup_insert_eq. }
  { done. }
  { rewrite Ns2. unfold ns1. rewrite !lookup_insert_ne by done. apply F6. right. right. by left. }
  { done. } { done. } { by destruct HA. }
  set (ns2 := <[DevTimer := timer_node DevKeyboard]> (<[DevKeyboard := keyboard_node]> ns1)).
  set (h2 := mkHw io i p true).
  destruct (register_driver_spec reg s2 h1 h2 AddrKeyboard g_PS2_KeyboardDriver t2 ack ns2) as (s3 & E3 & L3 & D3 & Ns3 & C3 & K3 & H3 & t3 & T3 & Tl3).
  { done. } { rewrite D2. cbn [drivers s1]. by rewrite !lookup_insert_ne. } { done. } { by rewrite C2. }
  { rewrite C2, K2. destruct tok; lia. } { by rewrite C2. } { done. } { by rewrite C2, Tl2. }
  { intros s4 Hs4. cbn [has_Register g_PS2_KeyboardDriver]. unfold call_register. rewrite (proj2 (Z.eqb_neq AddrKeyboard AddrTimer)), Z.eqb_refl by done.
    cbn [fst snd]. rewrite HE by done. rewrite Ns2. reflexivity. }
  rewrite E3, bind_Done. exists s3, h2. split; [reflexivity|]. split.
  - rewrite L3, L2, <- app_assoc. reflexivity.
  - rewrite D3, D2. reflexivity.
  - exists t3. split; [done|]. rewrite Tl3, Tl2, K3, K2. cbn. destruct tok, ack; lia.
  - rewrite H3, H2. reflexivity.
  - rewrite Ns3. reflexivity.
  - rewrite Ep. reflexivity.
  - exact Hi.
  - by split.
Qed.
End Start.

(** ** The devices of the machine *)

Definition is_nvme (e : PCIeEndpoint) : bool := (epClass e =? PCI_CLASS_MASS_STORAGE_CONTROLLER) && (epSubClass e =? PCI_SUBCLASS_NVM_CONTROLLER).

Section Claim.
Context (R AddrNvme AddrTimer AddrKeyboard DevTimer DevKeyboard KeyboardHandler : Z).
Context (fadt : Fadt) (pFadt : Z) (mmio : Z -> Z) (uninit : Z) (fuel : nat).
Context (latency : Z -> nat) (apic_count : nat -> Z) (pm_value : pm_source -> nat -> Z) (tsc : nat -> Z) (apic_mmio : Z).
#[local] Abbreviation probe := (call_probe AddrNvme).
#[local] Abbreviation dinit := (call_init AddrNvme).

(** ** Which devices the NVMe driver accepts *)

Definition nvme_device (d : DeviceNode) : bool :=
  bool_decide (dBus d = BUS_PCI) && (PCI_CLASS_MASS_STORAGE_CONTROLLER =? pciClass (dPci d)) && (PCI_SUBCLASS_NVM_CONTROLLER =? pciSubClass (dPci d)).

Lemma nvme_method d : is_Some (first_method g_NvmeDriverMatchMethods d) <-> nvme_device d = true.
Proof.
  unfold nvme_device, g_NvmeDriverMatchMethods. cbn [first_method mBus]. unfold method_matches. cbn [mBus mPci].
  change (bool_decide (BUS_PCI = BUS_IVLD)) with false. change (bool_decide (BUS_IVLD = BUS_IVLD)) with true. change (bool_decide (BUS_PCI = BUS_PCI)) with true.
  assert (pci_matches (mkPci 0 PCI_ANY_VENDOR_ID PCI_ANY_DEVICE_ID PCI_ANY_BUS PCI_ANY_DEVICE PCI_ANY_FUNCTION PCI_ANY_PROG_IF
            PCI_CLASS_MASS_STORAGE_CONTROLLER PCI_SUBCLASS_NVM_CONTROLLER) (dPci d) =
          (PCI_CLASS_MASS_STORAGE_CONTROLLER =? pciClass (dPci d)) && (PCI_SUBCLASS_NVM_CONTROLLER =? pciSubClass (dPci d))) as -> by done.
  destruct (bool_decide (dBus d = BUS_PCI)), (_ =? pciClass _), (_ =? pciSubClass _); cbn; split; intros H; try done; by destruct H.
Qed.

(** Of the loaded drivers the NVMe driver comes first and is the only one that
    can claim a device. *)
Lemma chosen_nvme s s' s2 h h' tok ack apic rest x d :
  NoDup [0; AddrNvme; AddrTimer; AddrKeyboard] ->
  drivers_started R AddrNvme AddrTimer AddrKeyboard DevTimer DevKeyboard KeyboardHandler fadt pFadt mmio s s' h h' tok ack apic rest ->
  drivers s2 = drivers s' -> pTable s2 = pTable s' -> NrLoaded s2 = NrLoaded s' ->
  chosen probe dinit s2 x d = if nvme_device d then Some AddrNvme else None.
Proof.
  intros HN DS Hd Ht Hl. rewrite !NoDup_cons, !not_elem_of_cons in HN. destruct HN as ((O1 & O2 & O3 & _) & (O4 & O5 & _) & (O6 & _) & _).
  unfold chosen. assert (loaded s2 = loaded s') as -> by (unfold loaded; by rewrite Ht, Hl). rewrite (ds_loaded _ _ _ _ _ _ _ _ _ _ _ _ _ _ _ _ _ _ DS).
  pose proof (ds_drivers _ _ _ _ _ _ _ _ _ _ _ _ _ _ _ _ _ _ DS) as HD.
  assert (accepts probe dinit s2 x d AddrTimer = false) as HaT.
  { unfold accepts. rewrite Hd, HD, lookup_insert_ne, lookup_insert_eq by done. cbn. by rewrite !andb_false_r. }
  assert (accepts probe dinit s2 x d AddrKeyboard = false) as HaK.
  { unfold accepts. rewrite Hd, HD, lookup_insert_eq by done. cbn. by rewrite !andb_false_r. }
  assert (accepts probe dinit s2 x d AddrNvme = nvme_device d) as HaN.
  { unfold accepts. rewrite Hd, HD, !lookup_insert_ne, lookup_insert_eq by done. cbn [registered g_GenericNvmeDriver pMatchMethods has_Register has_DevProbe has_DevInit].
    rewrite (proj2 (Z.eqb_neq AddrNvme 0)) by done. cbn [negb andb mbind option_bind]. unfold call_probe, call_init. rewrite Z.eqb_refl.
    destruct (first_method _ d) eqn:E, (nvme_device d) eqn:E2; try done.
    - exfalso. pose proof (proj1 (nvme_method d)) as H. rewrite E, E2 in H. by specialize (H (mk_is_Some _ _ eq_refl)).
    - exfalso. destruct (proj2 (nvme_method d) E2) as [? H]. by rewrite E in H. }
  cbn [app list_find]. destruct (nvme_device d) eqn:En.
  - rewrite decide_True by (by rewrite HaN). done.
  - rewrite decide_False by (rewrite HaN; by intros []). destruct tok, ack; cbn [app list_find];
      rewrite ?(decide_False (P := Is_true (accepts probe dinit s2 x d AddrTimer))), ?(decide_False (P := Is_true (accepts probe dinit s2 x d AddrKeyboard)))
        by (rewrite ?HaT, ?HaK; by intros []); done.
Qed.

Lemma started_pair_ready s s' s2 h h' tok ack apic rest :
  NoDup [0; AddrNvme; AddrTimer; AddrKeyboard] ->
  drivers_started R AddrNvme AddrTimer AddrKeyboard DevTimer DevKeyboard KeyboardHandler fadt pFadt mmio s s' h h' tok ack apic rest ->
  drivers s2 = drivers s' -> pTable s2 = pTable s' -> NrLoaded s2 = NrLoaded s' -> nodes s2 !! 0 = None -> pair_ready s2.
Proof.
  intros HN DS Hd Ht Hl H0. rewrite !NoDup_cons, !not_elem_of_cons in HN. destruct HN as ((O1 & O2 & O3 & _) & (O4 & O5 & _) & (O6 & _) & _).
  split; [rewrite Ht, Hl; exact (ds_table _ _ _ _ _ _ _ _ _ _ _ _ _ _ _ _ _ _ DS)| |done].
  assert (loaded s2 = loaded s') as -> by (unfold loaded; by rewrite Ht, Hl). rewrite (ds_loaded _ _ _ _ _ _ _ _ _ _ _ _ _ _ _ _ _ _ DS).
  rewrite Hd, (ds_drivers _ _ _ _ _ _ _ _ _ _ _ _ _ _ _ _ _ _ DS). constructor.
  - exists (registered g_GenericNvmeDriver true). rewrite !lookup_insert_ne, lookup_insert_eq by done. split; [done|]. intros l [= <-].
    apply Exists_exists. exists (mkMatch BUS_IVLD no_pci). split; [right; by left|done].
  - apply Forall_app. split; [destruct tok|destruct ack]; constructor; try constructor.
    + exists (registered g_AcpiPmTimerDriver true). by rewrite lookup_insert_ne, lookup_insert_eq.
    + exists (registered g_PS2_KeyboardDriver true). by rewrite lookup_insert_eq.
Qed.

(** ** Counting *)

Lemma gains_list s V : NoDup V -> gains probe dinit s (list_to_set V) = Z.of_nat (length (filter (fun x => is_Some (newly probe dinit s x)) V)).
Proof.
  intros Hn. unfold gains. f_equal. rewrite <- (size_list_to_set (C := gset Z)) by by apply NoDup_filter. f_equal. apply set_eq. intros x.
  by rewrite elem_of_filter, !elem_of_list_to_set, list_elem_of_filter.
Qed.

(** The functions of the tree, as the pairing pass finds them. *)
Definition pci_kid (P : Z) (s : Devs) (a : Z) (e : PCIeEndpoint) : Prop :=
  exists d, nodes s !! a = Some d /\ with_sib d 0 = with_parent (pci_node e) P.
Lemma pci_kid_fields P s a e d : nodes s !! a = Some d -> pci_kid P s a e ->
  nvme_device d = is_nvme e /\ pDriver d = 0 /\ pParent d = P /\ dBus d = BUS_PCI /\ dPci d = dPci (pci_node e).
Proof.
  intros Hd (d' & Hd' & E). simplify_eq. assert (dBus d = BUS_PCI) as Hb by exact (f_equal dBus E). assert (dPci d = dPci (pci_node e)) as Hp by exact (f_equal dPci E).
  split; [|split_and!; [exact (f_equal pDriver E)|exact (f_equal pParent E)|done|done]].
  unfold nvme_device, is_nvme. rewrite Hb, Hp. rewrite bool_decide_eq_true_2 by done. cbn [andb].
  rewrite (Z.eqb_sym (epClass e)), (Z.eqb_sym (epSubClass e)). reflexivity.
Qed.

Lemma kids_count P s l es :
  (forall x d, chosen probe dinit s x d = if nvme_device d then Some AddrNvme else None) ->
  Forall2 (pci_kid P s) l es ->
  length (filter (fun x => is_Some (newly probe dinit s x)) l) = length (filter (fun e => Is_true (is_nvme e)) es).
Proof.
  intros Hc. induction 1 as [|a e l es Hk HF IH]; [done|]. rewrite !filter_cons.
  assert (is_Some (newly probe dinit s a) <-> Is_true (is_nvme e)) as Hiff.
  { destruct Hk as (d & Hd & E). destruct (pci_kid_fields P s a e d Hd) as (Hn & Hp & _); [by exists d|].
    unfold newly. rewrite Hd. cbn [mbind option_bind]. rewrite Hp, Z.eqb_refl, Hc, Hn.
    destruct (is_nvme e); split; intros H; try done; by destruct H. }
  destruct (decide (is_Some _)) as [H|H], (decide (Is_true _)) as [H'|H']; cbn [length]; first [by rewrite IH|tauto].
Qed.

(** ** Theorems *)

#[local] Abbreviation timer_ok h := (AcpiPmTimerDriverRegister (hwTimer h) fadt mmio).2.

(** C23: on zeroed statics, with a heap and with a keyboard controller that
    answers, InitBuiltinDrivers returns; the registry then holds the NVMe driver
    and, each exactly when its registration succeeded, the timer and the keyboard
    driver; both devices are below the root; the timer has the state its
    registration computes; and if the controller acknowledged, IRQ 1 is routed
    to a vector that was free, whose dispatch calls the keyboard handler. *)
Theorem builtin_drivers_start s h rest io ack apic :
  drivers_fresh R AddrNvme AddrTimer AddrKeyboard DevTimer DevKeyboard fuel s h rest -> hardware_answers uninit h io ack apic ->
  exists s' h', init_drivers R AddrNvme AddrTimer AddrKeyboard DevTimer DevKeyboard KeyboardHandler fadt pFadt mmio uninit fuel s h = Done (s', h') /\
    drivers_started R AddrNvme AddrTimer AddrKeyboard DevTimer DevKeyboard KeyboardHandler fadt pFadt mmio s s' h h' (timer_ok h) ack apic rest /\
    kids_of (nodes s') R [DevTimer; DevKeyboard].
Proof.
  intros HF HA. destruct (drivers_register R AddrNvme AddrTimer AddrKeyboard DevTimer DevKeyboard KeyboardHandler fadt pFadt mmio uninit fuel s h rest io ack apic HF HA)
    as (s' & h' & E & DS).
  exists s', h'. split; [done|]. split; [done|]. pose proof (df_nodes _ _ _ _ _ _ _ _ _ _ HF) as HN. rewrite !NoDup_cons, !not_elem_of_cons in HN.
  destruct HN as ((O1 & O2 & O3 & _) & (O4 & O5 & _) & (O6 & _) & _).
  rewrite (ds_nodes _ _ _ _ _ _ _ _ _ _ _ _ _ _ _ _ _ _ DS).
  exists (with_kid zero_device DevTimer). rewrite !lookup_insert_ne, lookup_insert_eq by done. split; [done|]. cbn [sib_chain p1stKid with_kid].
  split; [done|]. split; [done|]. exists (timer_node R AddrTimer pFadt DevKeyboard). rewrite lookup_insert_eq. split; [done|]. cbn [pNxtSib timer_node].
  split; [done|]. split; [done|]. exists (keyboard_node R AddrKeyboard). by rewrite lookup_insert_ne, lookup_insert_eq.
Qed.

(** The local APIC of the boot processor can be initialised: the timers behave as
    documented, its registers are at their usual address and can be mapped. *)
Record apic_startable (p : PmTimer) (T : nat -> Z) (a : Apic) : Prop := {
  as_timers : timers_ok p pm_value tsc T;
  as_lock : sl_CalibSpinlock a = false;
  as_base : KrApicGetPhysicalBase a = LOCAL_APIC_BASE_ADDRESS;
  as_mapped : apic_mmio <> 0
}.

(** C22: from the registration of the drivers to the end of the pairing pass, on
    zeroed statics, with a keyboard controller that answers, a local APIC that
    can be initialised, a configuration window of all 256 buses and heap for a node per
    PCI Express function: the start-up ends with the local APIC enabled and the tree of
    those functions, the functions of class 1, subclass 8 bound to the NVMe driver and
    no other node of the tree bound; the last line it prints tells their number and that of
    the devices; the keyboard line stays routed if the controller acknowledged. *)
Theorem nvme_controllers_claimed s h P mem base mapped l rest io ack apic T a procs :
  drivers_fresh R AddrNvme AddrTimer AddrKeyboard DevTimer DevKeyboard fuel s h (l ++ rest) -> hardware_answers uninit h io ack apic ->
  apic_startable (AcpiPmTimerDriverRegister (hwTimer h) fadt mmio).1 T a ->
  tree_ready R P fuel mem base mapped (heap_acquire s).1 l rest ->
  exists fuel0 s' h' a', (forall cfuel pair_fuel, (fuel0 <= cfuel)%nat -> (fuel0 <= pair_fuel)%nat ->
      start_devices R AddrNvme AddrTimer AddrKeyboard DevTimer DevKeyboard KeyboardHandler fadt pFadt mmio uninit fuel
        latency apic_count pm_value tsc true apic_mmio cfuel P mem base mapped pair_fuel procs s h a =
        Done (s', h', a', [DriversRegistered; LocalApicInitialized; TopologyHeading] ++ topology procs ++
          [DevicesDiscovered (u32 (2 + Z.of_nat (length (pcie_endpoints mem base))))
             (u32 (Z.of_nat (length (filter (fun e => Is_true (is_nvme e)) (pcie_endpoints mem base)))))])) /\
    reg a' APIC_REG_SIV = 0x1FF /\ VaddrApicBase a' = apic_mmio /\
    (forall x d, x = R \/ x = P -> nodes s' !! x = Some d -> pDriver d = 0) /\
    Forall2 (fun a e => exists d, nodes s' !! a = Some d /\ dPci d = dPci (pci_node e) /\ pParent d = P /\
                          pDriver d = if is_nvme e then AddrNvme else 0) l (pcie_endpoints mem base) /\
    (ack = true -> exists c v, routed (hwInts h') apic PS2_KEYBOARD_IRQ c v DevKeyboard KeyboardHandler).
Proof.
  intros HF HA [At Al Ab Av] [T1 (d0 & Hd0 & Hb0) T3 T4 T5 T6].
  destruct (drivers_register R AddrNvme AddrTimer AddrKeyboard DevTimer DevKeyboard KeyboardHandler fadt pFadt mmio uninit fuel s h (l ++ rest) io ack apic HF HA)
    as (s1 & h1 & E1 & DS).
  assert (tree_ready R P fuel mem base mapped s1 l rest) as HT.
  { pose proof (df_nodes _ _ _ _ _ _ _ _ _ _ HF) as HN. rewrite !NoDup_cons, !not_elem_of_cons in HN. destruct HN as ((O1 & O2 & O3 & _) & (O4 & O5 & _) & (O6 & _) & _).
    assert (nodes (heap_acquire s).1 = nodes s) as En by (unfold heap_acquire; by destruct (heap_answers s)). rewrite En in T6.
    split; [done| |done| |done|].
    - rewrite (ds_nodes _ _ _ _ _ _ _ _ _ _ _ _ _ _ _ _ _ _ DS). exists (with_kid zero_device DevTimer). rewrite !lookup_insert_ne by done. by rewrite lookup_insert_eq.
    - destruct T4 as (_ & T4). split; [exact (ds_heap _ _ _ _ _ _ _ _ _ _ _ _ _ _ _ _ _ _ DS)|done].
    - rewrite (ds_nodes _ _ _ _ _ _ _ _ _ _ _ _ _ _ _ _ _ _ DS). by rewrite !lookup_insert_ne. }
  destruct (init_tree_spec R P fuel mem base mapped s1 l rest HT) as (s2 & E2 & TI & _ & Hd2 & Ht2 & Hl2).
  pose proof (df_objects _ _ _ _ _ _ _ _ _ _ HF) as HO. destruct T1 as (HR & HP & Hnd).
  assert (pair_ready s2) as HPR by (eapply started_pair_ready; [done|exact DS|done|done|done|exact (ti_null _ _ _ _ _ TI)]).
  assert (forall x d, chosen probe dinit s2 x d = if nvme_device d then Some AddrNvme else None) as HC by (intros x d; eapply chosen_nvme; eauto).
  destruct (pairing_pass probe dinit s2 R (R :: P :: l) (tree_inv_forest _ _ _ _ _ HR TI) HPR) as (fuel0 & s3 & n & E3 & (Hcount & _) & -> & _ & Hin).
  destruct (apic_init_spec latency apic_count pm_value tsc T _ a apic_mmio true At Al Ab Av) as (a' & cf & EA & Siv & _ & Vb & _).
  rewrite <- (ds_timer _ _ _ _ _ _ _ _ _ _ _ _ _ _ _ _ _ _ DS) in EA.
  destruct TI as [(dr & Hr & Hrb & _ & Hrd) (dp & Hp & _ & _ & _ & Hpd & Hpc) _ TN TC _].
  exists (Nat.max fuel0 cf), s3, h1, a'. split; [|split; [exact Siv|split; [exact Vb|split; [|split]]]].
  - intros k pf Hk Hpf. unfold start_devices. rewrite E1, bind_Done, EA, bind_Done by lia. cbn [negb]. rewrite E2, bind_Done, E3, bind_Done by lia.
    rewrite Hcount, TC. do 6 f_equal. rewrite gains_list by done.
    rewrite <- (kids_count P s2 l _ HC TN), !filter_cons. f_equal.
    rewrite !decide_False; [done| |]; unfold newly; rewrite ?Hr, ?Hp; cbn [mbind option_bind]; rewrite ?Hrd, ?Hpd, HC; unfold nvme_device; rewrite ?Hrb, ?Hpc;
      cbn [Z.eqb andb bool_decide]; rewrite ?andb_false_r; by intros [? ?].
  - intros x d Hx Hd. assert (x ∈ R :: P :: l) as Hxi by (rewrite !elem_of_cons; tauto).
    destruct Hx as [-> | ->]; [rewrite (Hin R dr Hxi Hr), Hrd in Hd|rewrite (Hin P dp Hxi Hp), Hpd in Hd]; rewrite HC in Hd; unfold nvme_device in Hd;
      rewrite ?Hrb, ?Hpc in Hd; cbn [Z.eqb andb bool_decide] in Hd; rewrite ?andb_false_r in Hd; by injection Hd as <-.
  - apply Forall2_same_length_lookup in TN as [Hlen TN]. apply Forall2_same_length_lookup. split; [done|]. intros i x e Ha He.
    pose proof (TN i x e Ha He) as Hk. pose proof Hk as (d & Hd & _).
    destruct (pci_kid_fields P s2 x e d Hd Hk) as (Hn & Hdr & Hpp & _ & Hpci).
    rewrite (Hin x d) by (done || (right; right; by eapply list_elem_of_lookup_2)). rewrite Hdr, Z.eqb_refl, HC, Hn.
    destruct (is_nvme e); eexists; split_and!; try reflexivity; done.
  - intros ->. destruct (ds_line _ _ _ _ _ _ _ _ _ _ _ _ _ _ _ _ _ _ DS) as (c & v & Hrt & _). by exists c, v.
Qed.
End Claim.

(** ** A machine *)

(** A host bridge at 0:0.0 and an NVMe controller with two functions at 0:2. *)
Definition nvme_ecam (a : Z) : Z :=
  let r := a mod 4096 in let f := a / 4096 mod 8 in let d := a / 32768 mod 32 in
  if negb (a / 2 ^ 20 =? 0x100) then 0xFF
  else if ((d =? 0) && (f =? 0)) || ((d =? 2) && ((f =? 0) || (f =? 3))) then
    (if r =? 0 then 0x86 else if r =? 1 then 0x80 else if r =? 0xE then (if d =? 2 then 0x80 else 0)
     else if r =? 0xB then (if d =? 2 then 1 else 6) else if r =? 0xA then (if d =? 2 then 8 else 0) else 1)
  else 0xFF.
(** The root at 1, the timer's and the keyboard's nodes at 11 and 12, the driver
    objects at 100, 200 and 300. *)
Definition fresh_devs : Devs :=
  mkDevs (<[1 := zero_device]> (<[11 := zero_device]> (<[12 := zero_device]> ∅)))
    (<[100 := g_GenericNvmeDriver]> (<[200 := g_AcpiPmTimerDriver]> (<[300 := g_PS2_KeyboardDriver]> ∅))) 0 None 0 0 [9; 30; 40; 50; 60].
(** A controller that is always ready, and acknowledges the scan code set. *)
Definition ready_ports : Ports := mkPorts [0; 0; 0x61; 0; 0; 0; 1; 0xFA; 0; 1; 0xFA] [].
Definition fresh_hw : Hw := mkHw ready_ports sample_ints initial_pm false.
Definition port_fadt : Fadt := mkFadt 4 0 ACPI_ADDR_SPACE_PORT 0x608.

Lemma fresh_devs_ok : drivers_fresh 1 100 200 300 11 12 10 fresh_devs fresh_hw [30; 40; 50; 60].
Proof.
  split; try done.
  - repeat (apply NoDup_cons; split; [rewrite ?elem_of_cons, elem_of_nil; lia|]). constructor.
  - repeat (apply NoDup_cons; split; [rewrite ?elem_of_cons, elem_of_nil; lia|]). constructor.
  - intros a Ha. rewrite !elem_of_cons, elem_of_nil in Ha. by destruct Ha as [-> | [-> | [-> | []]]].
  - by exists 9.
  - lia.
Qed.
Definition ports_of (o : outcome (Ports * bool)) : Ports := match o with Done (io, _) => io | _ => ready_ports end.
Lemma fresh_hw_ok : hardware_answers 0 fresh_hw (ports_of (ps2_setup ready_ports 0)) true sample_apic.
Proof.
  split; [by vm_compute|exact sample_ints_wf|by vm_compute|]. exists 0, 34. split; [by left|by vm_compute].
Qed.

Lemma builtin_drivers_start_witness : exists s' h',
  init_drivers 1 100 200 300 11 12 7 port_fadt 5 id 0 10 fresh_devs fresh_hw = Done (s', h') /\
  drivers_started 1 100 200 300 11 12 7 port_fadt 5 id fresh_devs s' fresh_hw h' true true sample_apic [30; 40; 50; 60] /\ kids_of (nodes s') 1 [11; 12].
Proof. exact (builtin_drivers_start 1 100 200 300 11 12 7 port_fadt 5 id 0 10 fresh_devs fresh_hw _ _ true sample_apic fresh_devs_ok fresh_hw_ok). Defined.

Lemma nvme_tree_ready : tree_ready 1 2 10 nvme_ecam 0x10000000 (2 ^ 28) (heap_acquire fresh_devs).1 [30; 40; 50] [60].
Proof.
  split.
  - split; [done|]. split; [done|]. repeat (apply NoDup_cons; split; [rewrite ?elem_of_cons, elem_of_nil; lia|]). constructor.
  - by exists zero_device.
  - lia.
  - split; [done|]. split; [|repeat (apply Forall_cons; split; [done|]); constructor]. by vm_compute.
  - cbn. lia.
  - done.
Qed.
Definition sample_procs : list ProcInfoEntry := [mkProc 0 0 true true true; mkProc 0 0 false false false; mkProc 2 1 true false false].
Definition sample_pmv (_ : pm_source) (n : nat) : Z := sample_time n mod 2 ^ 24.
Lemma sample_startable : apic_startable sample_pmv sample_tsc 0xFFFFFFC000001000 (AcpiPmTimerDriverRegister (hwTimer fresh_hw) port_fadt id).1 sample_time sample_apic_state.
Proof. split; [exact sample_timers_ok|by vm_compute..]. Qed.
Lemma nvme_controllers_claimed_witness : exists fuel0 s' h' a',
  (forall cfuel pair_fuel, (fuel0 <= cfuel)%nat -> (fuel0 <= pair_fuel)%nat ->
     start_devices 1 100 200 300 11 12 7 port_fadt 5 id 0 10 (fun _ => 0%nat) (fun _ => 0xF0000000) sample_pmv sample_tsc true 0xFFFFFFC000001000 cfuel
       2 nvme_ecam 0x10000000 (2 ^ 28) pair_fuel sample_procs fresh_devs fresh_hw sample_apic_state =
     Done (s', h', a', [DriversRegistered; LocalApicInitialized; TopologyHeading; LogicalCpu 0 0 true; LogicalCpu 2 1 false; DevicesDiscovered 5 2])) /\
  (exists d, nodes s' !! 40 = Some d /\ pDriver d = 100) /\ (exists d, nodes s' !! 30 = Some d /\ pDriver d = 0).
Proof.
  destruct (nvme_controllers_claimed 1 100 200 300 11 12 7 port_fadt 5 id 0 10 (fun _ => 0%nat) (fun _ => 0xF0000000) sample_pmv sample_tsc 0xFFFFFFC000001000
    fresh_devs fresh_hw 2 nvme_ecam 0x10000000 (2 ^ 28) [30; 40; 50] [60] _ true sample_apic sample_time sample_apic_state sample_procs
    fresh_devs_ok fresh_hw_ok sample_startable nvme_tree_ready) as (fuel0 & s' & h' & a' & E & _ & _ & _ & HF & _).
  exists fuel0, s', h', a'. split.
  - intros k pf Hk Hpf. rewrite (E k pf Hk Hpf).
    replace (u32 (2 + _)) with 5 by by vm_compute. replace (u32 (Z.of_nat _)) with 2 by by vm_compute. reflexivity.
  - apply Forall2_same_length_lookup in HF as [_ HF].
    assert (exists e0 e1, pcie_endpoints nvme_ecam 0x10000000 !! 0%nat = Some e0 /\ is_nvme e0 = false /\
              pcie_endpoints nvme_ecam 0x10000000 !! 1%nat = Some e1 /\ is_nvme e1 = true) as (e0 & e1 & H0 & N0 & H1 & N1).
    { vm_compute. eexists _, _. split_and!; reflexivity. }
    destruct (HF 0%nat 30 e0 eq_refl H0) as (d0 & Hd0 & _ & _ & Hp0). destruct (HF 1%nat 40 e1 eq_refl H1) as (d1 & Hd1 & _ & _ & Hp1).
    rewrite N0 in Hp0. rewrite N1 in Hp1. split; [by exists d1|by exists d0].
Defined.

(** ** Inputs on which the code departs from its intention *)

(** A keyboard whose controller does not acknowledge is left in the device tree,
    bound to a driver that is not registered. *)
Definition refusing_hw : Hw := mkHw (mkPorts [0; 0; 0x61; 0; 0; 0; 1; 0xFC; 0; 1; 0xFC] []) sample_ints initial_pm false.
Example refused_keyboard_stays :
  (r ← init_drivers 1 100 200 300 11 12 7 port_fadt 5 id 0 10 fresh_devs refusing_hw;
   Done (bRegistered <$> drivers r.1 !! 300, pDriver <$> nodes r.1 !! 12, pParent <$> nodes r.1 !! 12, NrLoaded r.1)) = Done (Some false, Some 300, Some 1, 2).
Proof. vm_compute. reflexivity. Qed.
