(* ===== verification/Fonts.v ===== *)
(** * Console fonts (Kernel/Source/Earlyvideo/Dwtpfonts.c)

    The two built-in character sets (whose rows the source writes in hexadecimal), their
    initialisation and scaling. *)
From Stdlib Require Import ZArith Lia.
From stdpp Require Import base numbers list.
From S2P Require Import Prelude.
Open Scope Z_scope.

(** KrDisplaywideTextProtocolFont; [None] is a null CharacterSet. *)
Record Font := mkFont {
  CharacterSet : option (list Z);
  NumberOfEntries : Z;
  ColumnsPerEntry : Z;
  RowsPerEntry : Z;
  ScaleFactor : Z;
  bDirectionBit : bool
}.

Definition KrdwtpScaleFont (pFont : Font) (ScaleFactor_ : Z) : Font :=
  mkFont (CharacterSet pFont) (NumberOfEntries pFont) (ColumnsPerEntry pFont) (RowsPerEntry pFont)
    (u32 (ScaleFactor pFont * ScaleFactor_)) (bDirectionBit pFont).

(** A font in the zero-initialised data section. *)
Definition zero_font : Font := mkFont None 0 0 0 0 false.

Definition g_KrdwtpDefaultFont_8x8_Charset : list (list Z) :=
  [[0; 0; 0; 0; 0; 0; 0; 0];
   [0; 0; 0; 0; 0; 0; 0; 0];
   [0; 0; 0; 0; 0; 0; 0; 0];
   [0; 0; 0; 0; 0; 0; 0; 0];
   [0; 0; 0; 0; 0; 0; 0; 0];
   [0; 0; 0; 0; 0; 0; 0; 0];
   [0; 0; 0; 0; 0; 0; 0; 0];
   [0; 0; 0; 0; 0; 0; 0; 0];
   [0; 0; 0; 0; 0; 0; 0; 0];
   [0; 0; 0; 0; 0; 0; 0; 0];
   [0; 0; 0; 0; 0; 0; 0; 0];
   [0; 0; 0; 0; 0; 0; 0; 0];
   [0; 0; 0; 0; 0; 0; 0; 0];
   [0; 0; 0; 0; 0; 0; 0; 0];
   [0; 0; 0; 0; 0; 0; 0; 0];
   [0; 0; 0; 0; 0; 0; 0; 0];
   [0; 0; 0; 0; 0; 0; 0; 0];
   [0; 0; 0; 0; 0; 0; 0; 0];
   [0; 0; 0; 0; 0; 0; 0; 0];
   [0; 0; 0; 0; 0; 0; 0; 0];
   [0; 0; 0; 0; 0; 0; 0; 0];
   [0; 0; 0; 0; 0; 0; 0; 0];
   [0; 0; 0; 0; 0; 0; 0; 0];
   [0; 0; 0; 0; 0; 0; 0; 0];
   [0; 0; 0; 0; 0; 0; 0; 0];
   [0; 0; 0; 0; 0; 0; 0; 0];
   [0; 0; 0; 0; 0; 0; 0; 0];
   [0; 0; 0; 0; 0; 0; 0; 0];
   [0; 0; 0; 0; 0; 0; 0; 0];
   [0; 0; 0; 0; 0; 0; 0; 0];
   [0; 0; 0; 0; 0; 0; 0; 0];
   [0; 0; 0; 0; 0; 0; 0; 0];
   [0; 0; 0; 0; 0; 0; 0; 0];
   [24; 60; 60; 24; 24; 0; 24; 0];
   [54; 54; 0; 0; 0; 0; 0; 0];
   [54; 54; 127; 54; 127; 54; 54; 0];
   [12; 62; 3; 30; 48; 31; 12; 0];
   [0; 99; 51; 24; 12; 102; 99; 0];
   [28; 54; 28; 110; 59; 51; 110; 0];
   [6; 6; 3; 0; 0; 0; 0; 0];
   [24; 12; 6; 6; 6; 12; 24; 0];
   [6; 12; 24; 24; 24; 12; 6; 0];
   [0; 102; 60; 255; 60; 102; 0; 0];
   [0; 12; 12; 63; 12; 12; 0; 0];
   [0; 0; 0; 0; 0; 12; 12; 6];
   [0; 0; 0; 63; 0; 0; 0; 0];
   [0; 0; 0; 0; 0; 12; 12; 0];
   [96; 48; 24; 12; 6; 3; 1; 0];
   [62; 99; 115; 123; 111; 103; 62; 0];
   [12; 14; 12; 12; 12; 12; 63; 0];
   [30; 51; 48; 28; 6; 51; 63; 0];
   [30; 51; 48; 28; 48; 51; 30; 0];
   [56; 60; 54; 51; 127; 48; 120; 0];
   [63; 3; 31; 48; 48; 51; 30; 0];
   [28; 6; 3; 31; 51; 51; 30; 0];
   [63; 51; 48; 24; 12; 12; 12; 0];
   [30; 51; 51; 30; 51; 51; 30; 0];
   [30; 51; 51; 62; 48; 24; 14; 0];
   [0; 12; 12; 0; 0; 12; 12; 0];
   [0; 12; 12; 0; 0; 12; 12; 6];
   [24; 12; 6; 3; 6; 12; 24; 0];
   [0; 0; 63; 0; 0; 63; 0; 0];
   [6; 12; 24; 48; 24; 12; 6; 0];
   [30; 51; 48; 24; 12; 0; 12; 0];
   [62; 99; 123; 123; 123; 3; 30; 0];
   [12; 30; 51; 51; 63; 51; 51; 0];
   [63; 102; 102; 62; 102; 102; 63; 0];
   [60; 102; 3; 3; 3; 102; 60; 0];
   [31; 54; 102; 102; 102; 54; 31; 0];
   [127; 70; 22; 30; 22; 70; 127; 0];
   [127; 70; 22; 30; 22; 6; 15; 0];
   [60; 102; 3; 3; 115; 102; 124; 0];
   [51; 51; 51; 63; 51; 51; 51; 0];
   [30; 12; 12; 12; 12; 12; 30; 0];
   [120; 48; 48; 48; 51; 51; 30; 0];
   [103; 102; 54; 30; 54; 102; 103; 0];
   [15; 6; 6; 6; 70; 102; 127; 0];
   [99; 119; 127; 127; 107; 99; 99; 0];
   [99; 103; 111; 123; 115; 99; 99; 0];
   [28; 54; 99; 99; 99; 54; 28; 0];
   [63; 102; 102; 62; 6; 6; 15; 0];
   [30; 51; 51; 51; 59; 30; 56; 0];
   [63; 102; 102; 62; 54; 102; 103; 0];
   [30; 51; 7; 14; 56; 51; 30; 0];
   [63; 45; 12; 12; 12; 12; 30; 0];
   [51; 51; 51; 51; 51; 51; 63; 0];
   [51; 51; 51; 51; 51; 30; 12; 0];
   [99; 99; 99; 107; 127; 119; 99; 0];
   [99; 99; 54; 28; 28; 54; 99; 0];
   [51; 51; 51; 30; 12; 12; 30; 0];
   [127; 99; 49; 24; 76; 102; 127; 0];
   [30; 6; 6; 6; 6; 6; 30; 0];
   [3; 6; 12; 24; 48; 96; 64; 0];
   [30; 24; 24; 24; 24; 24; 30; 0];
   [8; 28; 54; 99; 0; 0; 0; 0];
   [0; 0; 0; 0; 0; 0; 0; 255];
   [12; 12; 24; 0; 0; 0; 0; 0];
   [0; 0; 30; 48; 62; 51; 110; 0];
   [7; 6; 6; 62; 102; 102; 59; 0];
   [0; 0; 30; 51; 3; 51; 30; 0];
   [56; 48; 48; 62; 51; 51; 110; 0];
   [0; 0; 30; 51; 63; 3; 30; 0];
   [28; 54; 6; 15; 6; 6; 15; 0];
   [0; 0; 110; 51; 51; 62; 48; 31];
   [7; 6; 54; 110; 102; 102; 103; 0];
   [12; 0; 14; 12; 12; 12; 30; 0];
   [48; 0; 48; 48; 48; 51; 51; 30];
   [7; 6; 102; 54; 30; 54; 103; 0];
   [14; 12; 12; 12; 12; 12; 30; 0];
   [0; 0; 51; 127; 127; 107; 99; 0];
   [0; 0; 31; 51; 51; 51; 51; 0];
   [0; 0; 30; 51; 51; 51; 30; 0];
   [0; 0; 59; 102; 102; 62; 6; 15];
   [0; 0; 110; 51; 51; 62; 48; 120];
   [0; 0; 59; 110; 102; 6; 15; 0];
   [0; 0; 62; 3; 30; 48; 31; 0];
   [8; 12; 62; 12; 12; 44; 24; 0];
   [0; 0; 51; 51; 51; 51; 110; 0];
   [0; 0; 51; 51; 51; 30; 12; 0];
   [0; 0; 99; 107; 127; 127; 54; 0];
   [0; 0; 99; 54; 28; 54; 99; 0];
   [0; 0; 51; 51; 51; 62; 48; 31];
   [0; 0; 63; 25; 12; 38; 63; 0];
   [56; 12; 12; 7; 12; 12; 56; 0];
   [24; 24; 24; 0; 24; 24; 24; 0];
   [7; 12; 12; 56; 12; 12; 7; 0];
   [110; 59; 0; 0; 0; 0; 0; 0];
   [0; 0; 0; 0; 0; 0; 0; 0]].

Definition g_KrdwtpDefaultFont_8x16_Charset : list (list Z) :=
  [[0; 0; 0; 0; 0; 0; 0; 0; 0; 0; 0; 0; 0; 0; 0; 0];
   [0; 0; 126; 129; 165; 129; 129; 189; 153; 129; 129; 126; 0; 0; 0; 0];
   [0; 0; 126; 255; 219; 255; 255; 195; 231; 255; 255; 126; 0; 0; 0; 0];
   [0; 0; 0; 0; 108; 254; 254; 254; 254; 124; 56; 16; 0; 0; 0; 0];
   [0; 0; 0; 0; 16; 56; 124; 254; 124; 56; 16; 0; 0; 0; 0; 0];
   [0; 0; 0; 24; 60; 60; 231; 231; 231; 24; 24; 60; 0; 0; 0; 0];
   [0; 0; 0; 24; 60; 126; 255; 255; 126; 24; 24; 60; 0; 0; 0; 0];
   [0; 0; 0; 0; 0; 0; 24; 60; 60; 24; 0; 0; 0; 0; 0; 0];
   [255; 255; 255; 255; 255; 255; 231; 195; 195; 231; 255; 255; 255; 255; 255; 255];
   [0; 0; 0; 0; 0; 60; 102; 66; 66; 102; 60; 0; 0; 0; 0; 0];
   [255; 255; 255; 255; 255; 195; 153; 189; 189; 153; 195; 255; 255; 255; 255; 255];
   [0; 0; 30; 14; 26; 50; 120; 204; 204; 204; 204; 120; 0; 0; 0; 0];
   [0; 0; 60; 102; 102; 102; 102; 60; 24; 126; 24; 24; 0; 0; 0; 0];
   [0; 0; 63; 51; 63; 48; 48; 48; 48; 112; 240; 224; 0; 0; 0; 0];
   [0; 0; 127; 99; 127; 99; 99; 99; 99; 103; 231; 230; 192; 0; 0; 0];
   [0; 0; 0; 24; 24; 219; 60; 231; 60; 219; 24; 24; 0; 0; 0; 0];
   [0; 128; 192; 224; 240; 248; 254; 248; 240; 224; 192; 128; 0; 0; 0; 0];
   [0; 2; 6; 14; 30; 62; 254; 62; 30; 14; 6; 2; 0; 0; 0; 0];
   [0; 0; 24; 60; 126; 24; 24; 24; 126; 60; 24; 0; 0; 0; 0; 0];
   [0; 0; 102; 102; 102; 102; 102; 102; 102; 0; 102; 102; 0; 0; 0; 0];
   [0; 0; 127; 219; 219; 219; 123; 27; 27; 27; 27; 27; 0; 0; 0; 0];
   [0; 124; 198; 96; 56; 108; 198; 198; 108; 56; 12; 198; 124; 0; 0; 0];
   [0; 0; 0; 0; 0; 0; 0; 0; 254; 254; 254; 254; 0; 0; 0; 0];
   [0; 0; 24; 60; 126; 24; 24; 24; 126; 60; 24; 126; 0; 0; 0; 0];
   [0; 0; 24; 60; 126; 24; 24; 24; 24; 24; 24; 24; 0; 0; 0; 0];
   [0; 0; 24; 24; 24; 24; 24; 24; 24; 126; 60; 24; 0; 0; 0; 0];
   [0; 0; 0; 0; 0; 24; 12; 254; 12; 24; 0; 0; 0; 0; 0; 0];
   [0; 0; 0; 0; 0; 48; 96; 254; 96; 48; 0; 0; 0; 0; 0; 0];
   [0; 0; 0; 0; 0; 0; 192; 192; 192; 254; 0; 0; 0; 0; 0; 0];
   [0; 0; 0; 0; 0; 40; 108; 254; 108; 40; 0; 0; 0; 0; 0; 0];
   [0; 0; 0; 0; 16; 56; 56; 124; 124; 254; 254; 0; 0; 0; 0; 0];
   [0; 0; 0; 0; 254; 254; 124; 124; 56; 56; 16; 0; 0; 0; 0; 0];
   [0; 0; 0; 0; 0; 0; 0; 0; 0; 0; 0; 0; 0; 0; 0; 0];
   [0; 0; 24; 60; 60; 60; 24; 24; 24; 0; 24; 24; 0; 0; 0; 0];
   [0; 102; 102; 102; 36; 0; 0; 0; 0; 0; 0; 0; 0; 0; 0; 0];
   [0; 0; 0; 108; 108; 254; 108; 108; 108; 254; 108; 108; 0; 0; 0; 0];
   [24; 24; 124; 198; 194; 192; 124; 6; 6; 134; 198; 124; 24; 24; 0; 0];
   [0; 0; 0; 0; 194; 198; 12; 24; 48; 96; 198; 134; 0; 0; 0; 0];
   [0; 0; 56; 108; 108; 56; 118; 220; 204; 204; 204; 118; 0; 0; 0; 0];
   [0; 48; 48; 48; 96; 0; 0; 0; 0; 0; 0; 0; 0; 0; 0; 0];
   [0; 0; 12; 24; 48; 48; 48; 48; 48; 48; 24; 12; 0; 0; 0; 0];
   [0; 0; 48; 24; 12; 12; 12; 12; 12; 12; 24; 48; 0; 0; 0; 0];
   [0; 0; 0; 0; 0; 102; 60; 255; 60; 102; 0; 0; 0; 0; 0; 0];
   [0; 0; 0; 0; 0; 24; 24; 126; 24; 24; 0; 0; 0; 0; 0; 0];
   [0; 0; 0; 0; 0; 0; 0; 0; 0; 24; 24; 24; 48; 0; 0; 0];
   [0; 0; 0; 0; 0; 0; 0; 254; 0; 0; 0; 0; 0; 0; 0; 0];
   [0; 0; 0; 0; 0; 0; 0; 0; 0; 0; 24; 24; 0; 0; 0; 0];
   [0; 0; 0; 0; 2; 6; 12; 24; 48; 96; 192; 128; 0; 0; 0; 0];
   [0; 0; 56; 108; 198; 198; 214; 214; 198; 198; 108; 56; 0; 0; 0; 0];
   [0; 0; 24; 56; 120; 24; 24; 24; 24; 24; 24; 126; 0; 0; 0; 0];
   [0; 0; 124; 198; 6; 12; 24; 48; 96; 192; 198; 254; 0; 0; 0; 0];
   [0; 0; 124; 198; 6; 6; 60; 6; 6; 6; 198; 124; 0; 0; 0; 0];
   [0; 0; 12; 28; 60; 108; 204; 254; 12; 12; 12; 30; 0; 0; 0; 0];
   [0; 0; 254; 192; 192; 192; 252; 6; 6; 6; 198; 124; 0; 0; 0; 0];
   [0; 0; 56; 96; 192; 192; 252; 198; 198; 198; 198; 124; 0; 0; 0; 0];
   [0; 0; 254; 198; 6; 6; 12; 24; 48; 48; 48; 48; 0; 0; 0; 0];
   [0; 0; 124; 198; 198; 198; 124; 198; 198; 198; 198; 124; 0; 0; 0; 0];
   [0; 0; 124; 198; 198; 198; 126; 6; 6; 6; 12; 120; 0; 0; 0; 0];
   [0; 0; 0; 0; 24; 24; 0; 0; 0; 24; 24; 0; 0; 0; 0; 0];
   [0; 0; 0; 0; 24; 24; 0; 0; 0; 24; 24; 48; 0; 0; 0; 0];
   [0; 0; 0; 6; 12; 24; 48; 96; 48; 24; 12; 6; 0; 0; 0; 0];
   [0; 0; 0; 0; 0; 126; 0; 0; 126; 0; 0; 0; 0; 0; 0; 0];
   [0; 0; 0; 96; 48; 24; 12; 6; 12; 24; 48; 96; 0; 0; 0; 0];
   [0; 0; 124; 198; 198; 12; 24; 24; 24; 0; 24; 24; 0; 0; 0; 0];
   [0; 0; 0; 124; 198; 198; 222; 222; 222; 220; 192; 124; 0; 0; 0; 0];
   [0; 0; 16; 56; 108; 198; 198; 254; 198; 198; 198; 198; 0; 0; 0; 0];
   [0; 0; 252; 102; 102; 102; 124; 102; 102; 102; 102; 252; 0; 0; 0; 0];
   [0; 0; 60; 102; 194; 192; 192; 192; 192; 194; 102; 60; 0; 0; 0; 0];
   [0; 0; 248; 108; 102; 102; 102; 102; 102; 102; 108; 248; 0; 0; 0; 0];
   [0; 0; 254; 102; 98; 104; 120; 104; 96; 98; 102; 254; 0; 0; 0; 0];
   [0; 0; 254; 102; 98; 104; 120; 104; 96; 96; 96; 240; 0; 0; 0; 0];
   [0; 0; 60; 102; 194; 192; 192; 222; 198; 198; 102; 58; 0; 0; 0; 0];
   [0; 0; 198; 198; 198; 198; 254; 198; 198; 198; 198; 198; 0; 0; 0; 0];
   [0; 0; 60; 24; 24; 24; 24; 24; 24; 24; 24; 60; 0; 0; 0; 0];
   [0; 0; 30; 12; 12; 12; 12; 12; 204; 204; 204; 120; 0; 0; 0; 0];
   [0; 0; 230; 102; 102; 108; 120; 120; 108; 102; 102; 230; 0; 0; 0; 0];
   [0; 0; 240; 96; 96; 96; 96; 96; 96; 98; 102; 254; 0; 0; 0; 0];
   [0; 0; 198; 238; 254; 254; 214; 198; 198; 198; 198; 198; 0; 0; 0; 0];
   [0; 0; 198; 230; 246; 254; 222; 206; 198; 198; 198; 198; 0; 0; 0; 0];
   [0; 0; 124; 198; 198; 198; 198; 198; 198; 198; 198; 124; 0; 0; 0; 0];
   [0; 0; 252; 102; 102; 102; 124; 96; 96; 96; 96; 240; 0; 0; 0; 0];
   [0; 0; 124; 198; 198; 198; 198; 198; 198; 214; 222; 124; 12; 14; 0; 0];
   [0; 0; 252; 102; 102; 102; 124; 108; 102; 102; 102; 230; 0; 0; 0; 0];
   [0; 0; 124; 198; 198; 96; 56; 12; 6; 198; 198; 124; 0; 0; 0; 0];
   [0; 0; 126; 126; 90; 24; 24; 24; 24; 24; 24; 60; 0; 0; 0; 0];
   [0; 0; 198; 198; 198; 198; 198; 198; 198; 198; 198; 124; 0; 0; 0; 0];
   [0; 0; 198; 198; 198; 198; 198; 198; 198; 108; 56; 16; 0; 0; 0; 0];
   [0; 0; 198; 198; 198; 198; 214; 214; 214; 254; 238; 108; 0; 0; 0; 0];
   [0; 0; 198; 198; 108; 124; 56; 56; 124; 108; 198; 198; 0; 0; 0; 0];
   [0; 0; 102; 102; 102; 102; 60; 24; 24; 24; 24; 60; 0; 0; 0; 0];
   [0; 0; 254; 198; 134; 12; 24; 48; 96; 194; 198; 254; 0; 0; 0; 0];
   [0; 0; 60; 48; 48; 48; 48; 48; 48; 48; 48; 60; 0; 0; 0; 0];
   [0; 0; 0; 128; 192; 224; 112; 56; 28; 14; 6; 2; 0; 0; 0; 0];
   [0; 0; 60; 12; 12; 12; 12; 12; 12; 12; 12; 60; 0; 0; 0; 0];
   [16; 56; 108; 198; 0; 0; 0; 0; 0; 0; 0; 0; 0; 0; 0; 0];
   [0; 0; 0; 0; 0; 0; 0; 0; 0; 0; 0; 0; 0; 255; 0; 0];
   [48; 48; 24; 0; 0; 0; 0; 0; 0; 0; 0; 0; 0; 0; 0; 0];
   [0; 0; 0; 0; 0; 120; 12; 124; 204; 204; 204; 118; 0; 0; 0; 0];
   [0; 0; 224; 96; 96; 120; 108; 102; 102; 102; 102; 124; 0; 0; 0; 0];
   [0; 0; 0; 0; 0; 124; 198; 192; 192; 192; 198; 124; 0; 0; 0; 0];
   [0; 0; 28; 12; 12; 60; 108; 204; 204; 204; 204; 118; 0; 0; 0; 0];
   [0; 0; 0; 0; 0; 124; 198; 254; 192; 192; 198; 124; 0; 0; 0; 0];
   [0; 0; 56; 108; 100; 96; 240; 96; 96; 96; 96; 240; 0; 0; 0; 0];
   [0; 0; 0; 0; 0; 118; 204; 204; 204; 204; 204; 124; 12; 204; 120; 0];
   [0; 0; 224; 96; 96; 108; 118; 102; 102; 102; 102; 230; 0; 0; 0; 0];
   [0; 0; 24; 24; 0; 56; 24; 24; 24; 24; 24; 60; 0; 0; 0; 0];
   [0; 0; 6; 6; 0; 14; 6; 6; 6; 6; 6; 6; 102; 102; 60; 0];
   [0; 0; 224; 96; 96; 102; 108; 120; 120; 108; 102; 230; 0; 0; 0; 0];
   [0; 0; 56; 24; 24; 24; 24; 24; 24; 24; 24; 60; 0; 0; 0; 0];
   [0; 0; 0; 0; 0; 236; 254; 214; 214; 214; 214; 198; 0; 0; 0; 0];
   [0; 0; 0; 0; 0; 220; 102; 102; 102; 102; 102; 102; 0; 0; 0; 0];
   [0; 0; 0; 0; 0; 124; 198; 198; 198; 198; 198; 124; 0; 0; 0; 0];
   [0; 0; 0; 0; 0; 220; 102; 102; 102; 102; 102; 124; 96; 96; 240; 0];
   [0; 0; 0; 0; 0; 118; 204; 204; 204; 204; 204; 124; 12; 12; 30; 0];
   [0; 0; 0; 0; 0; 220; 118; 102; 96; 96; 96; 240; 0; 0; 0; 0];
   [0; 0; 0; 0; 0; 124; 198; 96; 56; 12; 198; 124; 0; 0; 0; 0];
   [0; 0; 16; 48; 48; 252; 48; 48; 48; 48; 54; 28; 0; 0; 0; 0];
   [0; 0; 0; 0; 0; 204; 204; 204; 204; 204; 204; 118; 0; 0; 0; 0];
   [0; 0; 0; 0; 0; 102; 102; 102; 102; 102; 60; 24; 0; 0; 0; 0];
   [0; 0; 0; 0; 0; 198; 198; 214; 214; 214; 254; 108; 0; 0; 0; 0];
   [0; 0; 0; 0; 0; 198; 108; 56; 56; 56; 108; 198; 0; 0; 0; 0];
   [0; 0; 0; 0; 0; 198; 198; 198; 198; 198; 198; 126; 6; 12; 248; 0];
   [0; 0; 0; 0; 0; 254; 204; 24; 48; 96; 198; 254; 0; 0; 0; 0];
   [0; 0; 14; 24; 24; 24; 112; 24; 24; 24; 24; 14; 0; 0; 0; 0];
   [0; 0; 24; 24; 24; 24; 0; 24; 24; 24; 24; 24; 0; 0; 0; 0];
   [0; 0; 112; 24; 24; 24; 14; 24; 24; 24; 24; 112; 0; 0; 0; 0];
   [0; 0; 118; 220; 0; 0; 0; 0; 0; 0; 0; 0; 0; 0; 0; 0];
   [0; 0; 0; 0; 0; 0; 0; 0; 0; 0; 0; 0; 0; 0; 0; 0]].

(** Both fonts after the initialisation, NumberOfEntries untouched. *)
Definition KrdwtpInitializeDefaultFonts (f8 f16 : Font) : Font * Font :=
  (mkFont (Some (concat g_KrdwtpDefaultFont_8x8_Charset)) (NumberOfEntries f8) 8 8 1 false,
   mkFont (Some (concat g_KrdwtpDefaultFont_8x16_Charset)) (NumberOfEntries f16) 8 16 1 true).

Definition g_KrdwtpDefaultFont_8x16 : Font := (KrdwtpInitializeDefaultFonts zero_font zero_font).2.
Definition g_KrdwtpDefaultFont_8x8 : Font := (KrdwtpInitializeDefaultFonts zero_font zero_font).1.

(** ** Glyphs *)

(** Whether the pixel at ([Row], [bit]) of the glyph of [Char] is lit; the
    columns beyond the first eight of a font with the direction bit shift by
    a wrapped count, which C leaves undefined. *)
Definition glyph_pixel (f : Font) (cs : list Z) (Char Row bit : Z) : outcome bool :=
  let dwBytesPerGlyph := (ColumnsPerEntry f + 7) / 8 in
  let dwGlyphSize := u32 (RowsPerEntry f * dwBytesPerGlyph) in
  let iBit := if bDirectionBit f then u8 (7 - bit) else bit mod 8 in
  b ← checked (cs !! Z.to_nat (u32 (u32 Char * dwGlyphSize) + u32 (Row * dwBytesPerGlyph) + bit / 8));
  if iBit >=? 32 then Fault
  else Done (negb (Z.land b (Z.shiftl 1 iBit) =? 0)).

(** A font of at most eight columns whose character set holds the 128 ASCII glyphs. *)
Record font_ok (f : Font) (cs : list Z) : Prop := {
  fo_set : CharacterSet f = Some cs;
  fo_entries : NumberOfEntries f = 0;
  fo_columns : 0 < ColumnsPerEntry f <= 8;
  fo_rows : 0 < RowsPerEntry f < 256;
  fo_scale : 0 < ScaleFactor f < 2 ^ 32;
  fo_size : 128 * RowsPerEntry f <= Z.of_nat (length cs)
}.

(** The pixel as a total function, for characters and positions in range. *)
Definition glyph (f : Font) (Char Row bit : Z) : bool :=
  match glyph_pixel f (default [] (CharacterSet f)) Char Row bit with Done b => b | _ => false end.

Lemma glyph_pixel_ok f cs Char Row bit :
  font_ok f cs -> 0 <= Char < 128 -> 0 <= Row < RowsPerEntry f -> 0 <= bit < ColumnsPerEntry f ->
  glyph_pixel f cs Char Row bit = Done (glyph f Char Row bit).
Proof.
  intros [H1 H2 H3 H4 H5 H6] Hc Hr Hb. unfold glyph. rewrite H1. change (default [] (Some cs)) with cs. unfold glyph_pixel.
  assert ((ColumnsPerEntry f + 7) / 8 = 1) as -> by zlia.
  rewrite !Z.mul_1_r, (u32_small (RowsPerEntry f)), (u32_small Char), (u32_small Row) by lia.
  assert (0 <= Char * RowsPerEntry f + Row < 128 * RowsPerEntry f) by nia.
  rewrite (u32_small (Char * _)) by nia. rewrite (Z.div_small bit 8), Z.add_0_r by lia.
  destruct (cs !! Z.to_nat (Char * RowsPerEntry f + Row)) as [b|] eqn:E; [|apply lookup_ge_None in E; lia].
  cbn [checked]. rewrite bind_Done.
  destruct (Z.geb_spec (if bDirectionBit f then u8 (7 - bit) else bit mod 8) 32) as [Hg|]; [|done].
  exfalso. destruct (bDirectionBit f); [rewrite u8_small in Hg by lia|rewrite Z.mod_small in Hg by lia]; lia.
Qed.

Lemma default_fonts_ok :
  font_ok g_KrdwtpDefaultFont_8x8 (concat g_KrdwtpDefaultFont_8x8_Charset) /\
  font_ok g_KrdwtpDefaultFont_8x16 (concat g_KrdwtpDefaultFont_8x16_Charset).
Proof. split; split; try done; vm_compute; done. Qed.

(** The printable characters of the font the console uses are pairwise
    different, and only the space is empty. *)
Definition rows_of (l : list (list Z)) (c : nat) : list Z := default [] (l !! c).
Definition printable : list nat := seq 32 95.

Lemma glyphs_legible :
  NoDup (rows_of g_KrdwtpDefaultFont_8x16_Charset <$> printable) /\
  Forall (fun c => Forall (fun b => b = 0) (rows_of g_KrdwtpDefaultFont_8x16_Charset c) <-> c = 32%nat) printable.
Proof.
  split; [apply (bool_decide_unpack _); vm_compute; done|].
  apply (bool_decide_unpack _). vm_compute. done.
Qed.

(** The bar of the letter A. *)
Example glyph_A :
  map (fun x => glyph g_KrdwtpDefaultFont_8x16 65 7 (Z.of_nat x)) (seq 0 8) =
    [true; true; true; true; true; true; true; false].
Proof. vm_compute. done. Qed.
