(* ===== verification/Console.v ===== *)
(** * The text console (Kernel/Source/Earlyvideo/DisplaywideTextProtocol.c)

    The device frame buffer and its copy in memory are lists of DWORD pixels:
    all byte counts are multiples of the 4 bytes of a pixel, others are a
    [Fault].  The lock is a flag: waiting for it while it is held hangs, since
    the model is one processor. *)
From Stdlib Require Import ZArith Lia.
From stdpp Require Import base numbers list.
From S2P Require Import Prelude BootstrapArena KrtlString Fonts.
Open Scope Z_scope.

(** ** Colours *)

Definition KRDWTP_MAKE_COLOR (R G B A : Z) : Z :=
  Z.lor (Z.lor (Z.lor (u32 (Z.shiftl (Z.land A 0xFF) 24)) (Z.shiftl (Z.land R 0xFF) 16)) (Z.shiftl (Z.land G 0xFF) 8)) (Z.land B 0xFF).
Definition KRDWTP_BACKGROUND : Z := KRDWTP_MAKE_COLOR 0x00 0x00 0x00 0xFF.
Definition KRDWTP_COLOR_WHITE : Z := KRDWTP_MAKE_COLOR 0xFF 0xFF 0xFF 0xFF.
Definition KRDWTP_COLOR_DARK_PURPLE : Z := KRDWTP_MAKE_COLOR 0x4B 0x00 0x6E 0xFF.

(** ** State *)

(** sg_ProtocolState, the spinlock, the meltdown flag of the kernel state, and
    the pixels at the two frame buffer addresses. *)
Record Dwtp := mkDwtp {
  FrameBufferSize : Z;
  FrameBufferWidth : Z;
  FrameBufferHeight : Z;
  PixelsPerScanLine : Z;
  CursorX : Z;
  CursorY : Z;
  AddrFrameBuffer : Z;
  AddrRamFrameBuffer : Z;
  BytesPerPixel : Z;
  ConsoleFont : Font;
  bUppercaseMode : bool;
  dwLock : bool;
  dwMeltdown : bool;
  Vram : list Z;
  Ram : list Z
}.

Definition set_cursor (s : Dwtp) (x y : Z) : Dwtp :=
  mkDwtp (FrameBufferSize s) (FrameBufferWidth s) (FrameBufferHeight s) (PixelsPerScanLine s) x y (AddrFrameBuffer s)
    (AddrRamFrameBuffer s) (BytesPerPixel s) (ConsoleFont s) (bUppercaseMode s) (dwLock s) (dwMeltdown s) (Vram s) (Ram s).
Definition set_dwlock (s : Dwtp) (b : bool) : Dwtp :=
  mkDwtp (FrameBufferSize s) (FrameBufferWidth s) (FrameBufferHeight s) (PixelsPerScanLine s) (CursorX s) (CursorY s)
    (AddrFrameBuffer s) (AddrRamFrameBuffer s) (BytesPerPixel s) (ConsoleFont s) (bUppercaseMode s) b (dwMeltdown s) (Vram s) (Ram s).
Definition set_frames (s : Dwtp) (v r : list Z) : Dwtp :=
  mkDwtp (FrameBufferSize s) (FrameBufferWidth s) (FrameBufferHeight s) (PixelsPerScanLine s) (CursorX s) (CursorY s)
    (AddrFrameBuffer s) (AddrRamFrameBuffer s) (BytesPerPixel s) (ConsoleFont s) (bUppercaseMode s) (dwLock s) (dwMeltdown s) v r.
Definition set_upper (s : Dwtp) (b : bool) : Dwtp :=
  mkDwtp (FrameBufferSize s) (FrameBufferWidth s) (FrameBufferHeight s) (PixelsPerScanLine s) (CursorX s) (CursorY s)
    (AddrFrameBuffer s) (AddrRamFrameBuffer s) (BytesPerPixel s) (ConsoleFont s) b (dwLock s) (dwMeltdown s) (Vram s) (Ram s).
Definition set_addr (s : Dwtp) (a : Z) : Dwtp :=
  mkDwtp (FrameBufferSize s) (FrameBufferWidth s) (FrameBufferHeight s) (PixelsPerScanLine s) (CursorX s) (CursorY s)
    a (AddrRamFrameBuffer s) (BytesPerPixel s) (ConsoleFont s) (bUppercaseMode s) (dwLock s) (dwMeltdown s) (Vram s) (Ram s).

Definition AcquireOrWaitSpinlock (s : Dwtp) : outcome Dwtp := if dwLock s then Hang else Done (set_dwlock s true).
Definition RelinquishSpinlock (s : Dwtp) : Dwtp := set_dwlock s false.

(** ** Memory *)

Fixpoint for_loop {A} (n : nat) (i : Z) (body : Z -> A -> outcome A) (a : A) : outcome A :=
  match n with
  | O => Done a
  | S n' => a ← body i a; for_loop n' (i + 1) body a
  end.

Definition store_pixel (buf : list Z) (i v : Z) : outcome (list Z) :=
  if decide (Z.to_nat i < length buf)%nat then Done (<[Z.to_nat i := v]> buf) else Fault.
Definition pixels (bytes : Z) : outcome nat := if bytes mod 4 =? 0 then Done (Z.to_nat (bytes / 4)) else Fault.

(** KrtlContiguousMoveBuffer within one buffer, at byte offsets. *)
Definition move_pixels (buf : list Z) (dst src n : Z) : outcome (list Z) :=
  dst ← pixels dst; src ← pixels src; n ← pixels n;
  if decide ((dst + n <= length buf)%nat /\ (src + n <= length buf)%nat)
  then Done (take dst buf ++ take n (drop src buf) ++ drop (dst + n)%nat buf) else Fault.
Definition zero_pixels (buf : list Z) (dst n : Z) : outcome (list Z) :=
  dst ← pixels dst; n ← pixels n;
  if decide (dst + n <= length buf)%nat
  then Done (take dst buf ++ replicate n 0 ++ drop (dst + n)%nat buf) else Fault.

(** ** Operations *)

Definition DwtpReplicateRamFrbufToVram (s : Dwtp) : outcome Dwtp :=
  n ← pixels (FrameBufferSize s);
  if decide ((n <= length (Vram s))%nat /\ (n <= length (Ram s))%nat)
  then Done (set_frames s (take n (Ram s) ++ drop n (Vram s)) (Ram s)) else Fault.

(** The arena block is fresh memory; [Frames] is the device memory. *)
Definition KrdwtpInitialize (s : Dwtp) (arena : Arena) (F : Font) (Addr Size Width Height Ppsl : Z) (Frames : list Z)
    : outcome (Dwtp * Arena) :=
  s ← AcquireOrWaitSpinlock s;
  let '(arena, p) := KrBootstrapArenaAcquire arena (u32 (Size * 2)) in
  n ← pixels (u32 (Size * 2));
  if (p =? 0) && negb (u32 (Size * 2) =? 0) then Fault
  else Done (mkDwtp Size Width Height Ppsl 0 0 Addr p 4 F false false (dwMeltdown s) Frames (replicate n 0), arena).

Definition KrdwtpReloadFrameBuffer (s : Dwtp) (Addr : Z) : outcome Dwtp :=
  s ← AcquireOrWaitSpinlock s; Done (RelinquishSpinlock (set_addr s Addr)).

(** One store to each of the two buffers. *)
Definition put_both (s : Dwtp) (i v : Z) : outcome Dwtp :=
  v1 ← store_pixel (Vram s) i v; r1 ← store_pixel (Ram s) i v; Done (set_frames s v1 r1).

Definition reset_row (ClearColor y : Z) (s : Dwtp) : outcome Dwtp :=
  for_loop (Z.to_nat (FrameBufferWidth s)) 0 (fun x s => put_both s (u32 (y * PixelsPerScanLine s + x)) ClearColor) s.
Definition KrdwtpResetState (s : Dwtp) (ClearColor : Z) : outcome Dwtp :=
  s ← AcquireOrWaitSpinlock s;
  let s := set_cursor s 0 0 in
  s ← for_loop (Z.to_nat (FrameBufferHeight s)) 0 (reset_row ClearColor) s;
  Done (RelinquishSpinlock s).

Definition KrdwtpScroll_NoSpin (s : Dwtp) : outcome Dwtp :=
  if CursorY s =? 0 then Done s
  else
    let dwPhysStride := u32 (PixelsPerScanLine s * BytesPerPixel s) in
    let dwEntrySize := u32 (RowsPerEntry (ConsoleFont s) * ScaleFactor (ConsoleFont s)) in
    let dwLogicalStride := u32 (dwEntrySize * dwPhysStride) in
    r ← move_pixels (Ram s) 0 dwLogicalStride (u32 (CursorY s * dwLogicalStride));
    r ← zero_pixels r (u32 (CursorY s * dwLogicalStride)) dwLogicalStride;
    s ← DwtpReplicateRamFrbufToVram (set_frames s (Vram s) r);
    Done (set_cursor s 0 (u32 (CursorY s - 1))).

Definition KrdwtpScroll (s : Dwtp) : outcome Dwtp :=
  s ← AcquireOrWaitSpinlock s; s ← KrdwtpScroll_NoSpin s; Done (RelinquishSpinlock s).

(** The quotient of two UINTs. *)
Definition udiv (a b : Z) : outcome Z := if b =? 0 then Fault else Done (a / b).

(** The colour of an unlit pixel. *)
Definition back_color (s : Dwtp) (BackgroundColor : Z) : Z := if dwMeltdown s then KRDWTP_COLOR_DARK_PURPLE else BackgroundColor.

Definition draw_pixel (k dwStartX dwStartY Row bit ScalarY ScalarX : Z) (s : Dwtp) : outcome Dwtp :=
  let f := ConsoleFont s in
  let FramebufferOffsetY := u32 (dwStartY + Row * ScaleFactor f + ScalarY) in
  let FramebufferOffsetX := u32 (dwStartX + bit * ScaleFactor f + ScalarX) in
  put_both s (u32 (FramebufferOffsetY * PixelsPerScanLine s + FramebufferOffsetX)) k.

Definition draw_bit (cs : list Z) (Char Fg Bg dwStartX dwStartY Row bit : Z) (s : Dwtp) : outcome Dwtp :=
  let f := ConsoleFont s in
  pxlit ← glyph_pixel f cs Char Row bit;
  for_loop (Z.to_nat (ScaleFactor f)) 0 (fun ScalarY s =>
    for_loop (Z.to_nat (ScaleFactor f)) 0 (fun ScalarX s =>
      draw_pixel (if pxlit : bool then Fg else back_color s Bg) dwStartX dwStartY Row bit ScalarY ScalarX s) s) s.

Definition draw_glyph (cs : list Z) (Char Fg Bg : Z) (s : Dwtp) : outcome Dwtp :=
  let f := ConsoleFont s in
  let dwStartX := u32 (CursorX s * ColumnsPerEntry f * ScaleFactor f) in
  let dwStartY := u32 (CursorY s * RowsPerEntry f * ScaleFactor f) in
  for_loop (Z.to_nat (RowsPerEntry f)) 0 (fun Row s =>
    for_loop (Z.to_nat (ColumnsPerEntry f)) 0 (fun bit s =>
      draw_bit cs Char Fg Bg dwStartX dwStartY Row bit s) s) s.

(** [Char] is a signed character. *)
Definition to_upper (bUppercaseMode : bool) (Char : Z) : Z :=
  if bUppercaseMode && ((Char >=? 97) && (Char <=? 122)) then Char - (97 - 65) else Char.

Definition KrdwtpOutColoredCharacter_NoSpin (s : Dwtp) (Char ForegroundColor BackgroundColor : Z) : outcome Dwtp :=
  let f := ConsoleFont s in
  match CharacterSet f with
  | None => Done s
  | Some cs =>
      if (AddrFrameBuffer s =? 0) || (NumberOfEntries f >=? u32 Char) then Done s
      else if Char =? 10 then
        let s := set_cursor s 0 (u32 (CursorY s + 1)) in
        rows ← udiv (FrameBufferHeight s) (u32 (RowsPerEntry f * ScaleFactor f));
        if CursorY s >? rows then KrdwtpScroll_NoSpin s else Done s
      else
        s ← draw_glyph cs (to_upper (bUppercaseMode s) Char) ForegroundColor BackgroundColor s;
        let s := set_cursor s (u32 (CursorX s + 1)) (CursorY s) in
        columns ← udiv (FrameBufferWidth s) (u32 (ColumnsPerEntry f * ScaleFactor f));
        if CursorX s >=? columns then
          let s := set_cursor s 0 (u32 (CursorY s + 1)) in
          rows ← udiv (FrameBufferHeight s) (u32 (RowsPerEntry f * ScaleFactor f));
          if CursorY s >? rows then KrdwtpScroll s else Done s
        else Done s
  end.

Definition KrdwtpOutColoredCharacter (s : Dwtp) (Char ForegroundColor BackgroundColor : Z) : outcome Dwtp :=
  s ← AcquireOrWaitSpinlock s;
  s ← KrdwtpOutColoredCharacter_NoSpin s Char ForegroundColor BackgroundColor;
  Done (RelinquishSpinlock s).
Definition KrdwtpOutCharacter_NoSpin (s : Dwtp) (Char : Z) : outcome Dwtp :=
  KrdwtpOutColoredCharacter_NoSpin s Char KRDWTP_COLOR_WHITE KRDWTP_BACKGROUND.
Definition KrdwtpOutCharacter (s : Dwtp) (Char : Z) : outcome Dwtp :=
  KrdwtpOutColoredCharacter s Char KRDWTP_COLOR_WHITE KRDWTP_BACKGROUND.

(** A byte of a string as a CHAR. *)
Definition s8 (x : Z) : Z := (x + 2 ^ 7) mod 2 ^ 8 - 2 ^ 7.

Fixpoint text_loop (pText : list Z) (Fg Bg nWritten : Z) (s : Dwtp) : outcome (Dwtp * Z) :=
  match pText with
  | [] => Fault
  | c :: pText' =>
      if c =? 0 then Done (s, nWritten)
      else
        s ← KrdwtpOutColoredCharacter_NoSpin s (s8 c) Fg Bg;
        text_loop pText' Fg Bg (s32 (nWritten + 1)) s
  end.
Definition KrdwtpOutColoredText_NoSpin (s : Dwtp) (pText : list Z) (Fg Bg : Z) : outcome (Dwtp * Z) :=
  text_loop pText Fg Bg 0 s.
Definition KrdwtpOutColoredText (s : Dwtp) (pText : list Z) (Fg Bg : Z) : outcome (Dwtp * Z) :=
  s ← AcquireOrWaitSpinlock s;
  '(s, Result) ← KrdwtpOutColoredText_NoSpin s pText Fg Bg;
  Done (RelinquishSpinlock s, Result).
Definition KrdwtpOutText_NoSpin (s : Dwtp) (pText : list Z) : outcome (Dwtp * Z) :=
  KrdwtpOutColoredText_NoSpin s pText KRDWTP_COLOR_WHITE KRDWTP_BACKGROUND.
Definition KrdwtpOutText (s : Dwtp) (pText : list Z) : outcome (Dwtp * Z) :=
  KrdwtpOutColoredText s pText KRDWTP_COLOR_WHITE KRDWTP_BACKGROUND.

Definition KrdwtpSetUppercaseMode (s : Dwtp) (b : Z) : outcome Dwtp :=
  s ← AcquireOrWaitSpinlock s; Done (RelinquishSpinlock (set_upper s (Z.odd b))).
Definition KrdwtpGetProtocolState (s : Dwtp) : Dwtp := s.

(** ** Formatted output *)

(** The text a number conversion leaves in the local buffer of 128 bytes,
    then printed up to its terminator. *)
Definition out_number (s : Dwtp) (conv : list Z -> outcome (list Z)) : outcome (Dwtp * Z) :=
  buf ← conv (replicate 128 0); KrdwtpOutText_NoSpin s buf.

Definition text_null : list Z := [40; 78; 85; 76; 76; 41; 0].
Definition text_true : list Z := [116; 114; 117; 101; 0].
Definition text_false : list Z := [102; 97; 108; 115; 101; 0].

(** The conversion letter [c], [rest] the format after it: the state, and the
    rest of the format, the rest of the arguments and the number of characters
    written, or [None] for ErrorOut. *)
Definition out_directive (c : Z) (rest : list Z) (args : list arg) (s : Dwtp)
    : outcome (Dwtp * option (list Z * list arg * Z)) :=
  let number rest args conv := '(s, n) ← out_number s conv; Done (s, Some (rest, args, n)) in
  if c =? 37 then s ← KrdwtpOutCharacter_NoSpin s 37; Done (s, Some (rest, args, 1))
  else if c =? 99 then
    '(w, args) ← va_word args; s ← KrdwtpOutCharacter_NoSpin s (s8 w); Done (s, Some (rest, args, 1))
  else if c =? 98 then
    '(w, args) ← va_word args;
    '(s, n) ← KrdwtpOutText_NoSpin s (if negb (u32 w =? 0) then text_true else text_false);
    Done (s, Some (rest, args, n))
  else if c =? 115 then
    '(p, args) ← va_str args;
    '(s, n) ← KrdwtpOutText_NoSpin s (default text_null p);
    Done (s, Some (rest, args, n))
  else if (c =? 100) || (c =? 105) then
    '(w, args) ← va_word args;
    number rest args (fun b => KrtlSignedToString b (s32 w) KRTL_RADIX_DECIMAL KRTL_HEX_UPPERCASE)
  else if c =? 117 then
    '(w, args) ← va_word args;
    number rest args (fun b => KrtlUnsignedToString b (u32 w) KRTL_RADIX_DECIMAL KRTL_HEX_UPPERCASE)
  else if c =? 111 then
    '(w, args) ← va_word args;
    number rest args (fun b => KrtlSignedToString b (u32 w) KRTL_RADIX_OCTAL KRTL_HEX_UPPERCASE)
  else if (c =? 88) || (c =? 120) then
    '(w, args) ← va_word args;
    number rest args (fun b => KrtlUnsignedToString b (u32 w) KRTL_RADIX_HEXADECIMAL KRTL_HEX_UPPERCASE)
  else if c =? 112 then
    '(w, args) ← va_word args;
    buf ← KrtlUnsignedToString (replicate 128 0) (u64 w) KRTL_RADIX_HEXADECIMAL KRTL_HEX_UPPERCASE;
    '(s, n1) ← KrdwtpOutText_NoSpin s [48; 120; 0];
    '(s, n2) ← KrdwtpOutText_NoSpin s buf;
    Done (s, Some (rest, args, n1 + n2))
  else if c =? 82 then
    d ← checked (head rest);
    if d =? 0 then Done (s, None)
    else if d =? 117 then
      '(w, args) ← va_word args;
      number (tail rest) args (fun b => KrtlUnsignedToString b (u64 w) KRTL_RADIX_DECIMAL KRTL_HEX_UPPERCASE)
    else if (d =? 88) || (d =? 120) then
      '(w, args) ← va_word args;
      number (tail rest) args (fun b => KrtlUnsignedToString b (u64 w) KRTL_RADIX_HEXADECIMAL KRTL_HEX_UPPERCASE)
    else Done (s, None)
  else Done (s, None).

Fixpoint out_format_loop (fuel : nat) (pFmt : list Z) (args : list arg) (nwritten : Z) (s : Dwtp) : outcome (Dwtp * Z) :=
  match fuel with
  | O => Hang
  | S fuel' =>
      match pFmt with
      | [] => Fault
      | c :: rest =>
          if c =? 0 then Done (RelinquishSpinlock s, nwritten)
          else if negb (c =? 37) then
            s ← KrdwtpOutCharacter_NoSpin s (s8 c);
            out_format_loop fuel' rest args (s32 (nwritten + 1)) s
          else
            d ← checked (head rest);
            if d =? 0 then Done (RelinquishSpinlock s, -1)
            else
              '(s, r) ← out_directive d (tail rest) args s;
              match r with
              | None => Done (RelinquishSpinlock s, -1)
              | Some (rest, args, n) => out_format_loop fuel' rest args (s32 (nwritten + n)) s
              end
      end
  end.
Definition KrdwtpOutFormatTextVariadic (s : Dwtp) (pFmt : list Z) (args : list arg) : outcome (Dwtp * Z) :=
  s ← AcquireOrWaitSpinlock s; out_format_loop (S (length pFmt)) pFmt args 0 s.
Definition KrdwtpOutFormatText (s : Dwtp) (pFmt : list Z) (args : list arg) : outcome (Dwtp * Z) :=
  KrdwtpOutFormatTextVariadic s pFmt args.
