(* ===== verification/ConsoleProps.v ===== *)
(** * The text console: painting, scrolling and the character grid *)
From Stdlib Require Import ZArith Lia.
From stdpp Require Import base numbers list.
From S2P Require Import Prelude KrtlString Fonts Console.
Open Scope Z_scope.

(** ** Painting *)

(** [b'] is [b] with the pixels in [P] set to their colour [C]. *)
Definition painted (P : nat -> Prop) (C : nat -> Z) (b b' : list Z) : Prop :=
  length b' = length b /\ (forall j, b' !! j = b !! j \/ (P j /\ b' !! j = Some (C j))) /\
  (forall j, P j -> b' !! j = Some (C j)).

Lemma painted_empty C b : painted (fun _ => False) C b b.
Proof. split_and!; [done|by left|done]. Qed.

Lemma painted_union P Q C b1 b2 b3 :
  painted P C b1 b2 -> painted Q C b2 b3 -> painted (fun j => P j \/ Q j) C b1 b3.
Proof.
  intros (L1 & F1 & P1) (L2 & F2 & P2). split_and!; [congruence| |].
  - intros j. destruct (F2 j) as [->|[? ->]]; [|naive_solver]. destruct (F1 j) as [->|[? ->]]; naive_solver.
  - intros j [Hp|Hq]; [|by apply P2]. destruct (F2 j) as [->|[? ->]]; [by apply P1|done].
Qed.

Lemma painted_ext (P Q : nat -> Prop) C b b' : (forall j, P j <-> Q j) -> painted P C b b' -> painted Q C b b'.
Proof.
  intros E (L & F & H). split_and!; [done| |].
  - intros j. destruct (F j) as [|[? ?]]; [by left|right]. split; [by apply E|done].
  - intros j Hj. by apply H, E.
Qed.

Lemma store_pixel_painted b i v C :
  0 <= i < Z.of_nat (length b) -> C (Z.to_nat i) = v ->
  exists b', store_pixel b i v = Done b' /\ painted (fun j => j = Z.to_nat i) C b b'.
Proof.
  intros Hi <-. unfold store_pixel. rewrite decide_True by lia. eexists. split; [done|]. split_and!.
  - by rewrite length_insert.
  - intros j. destruct (decide (j = Z.to_nat i)) as [->|]; [right|left].
    + split; [done|]. apply list_lookup_insert_eq. lia.
    + by apply list_lookup_insert_ne.
  - intros j ->. apply list_lookup_insert_eq. lia.
Qed.

(** The same on both buffers of the console, everything else kept. *)
Definition same_frame (s s' : Dwtp) : Prop :=
  s' = set_frames s (Vram s') (Ram s') /\ length (Vram s') = length (Vram s) /\ length (Ram s') = length (Ram s).
Definition paints (P : nat -> Prop) (C : nat -> Z) (s s' : Dwtp) : Prop :=
  s' = set_frames s (Vram s') (Ram s') /\ painted P C (Vram s) (Vram s') /\ painted P C (Ram s) (Ram s').

Lemma paints_same P C s s' : paints P C s s' -> same_frame s s'.
Proof. intros (H & (L1 & _) & (L2 & _)). done. Qed.
Lemma same_frame_trans s1 s2 s3 : same_frame s1 s2 -> same_frame s2 s3 -> same_frame s1 s3.
Proof. intros (E1 & ? & ?) (E2 & ? & ?). split_and!; [rewrite E2, E1; done|congruence..]. Qed.
Lemma same_frame_refl s : same_frame s s.
Proof. by destruct s. Qed.

Lemma paints_empty C s : paints (fun _ => False) C s s.
Proof. split_and!; [by destruct s|apply painted_empty..]. Qed.
Lemma paints_union P Q C s1 s2 s3 : paints P C s1 s2 -> paints Q C s2 s3 -> paints (fun j => P j \/ Q j) C s1 s3.
Proof.
  intros (E1 & V1 & R1) (E2 & V2 & R2). split_and!; [rewrite E2, E1; done|by eapply painted_union..].
Qed.
Lemma paints_ext (P Q : nat -> Prop) C s s' : (forall j, P j <-> Q j) -> paints P C s s' -> paints Q C s s'.
Proof. intros E (E1 & V1 & R1). split_and!; [done|by eapply painted_ext..]. Qed.

Lemma put_both_paints s i v C :
  0 <= i < Z.of_nat (length (Vram s)) -> (length (Vram s) <= length (Ram s))%nat -> C (Z.to_nat i) = v ->
  exists s', put_both s i v = Done s' /\ paints (fun j => j = Z.to_nat i) C s s'.
Proof.
  intros Hi Hl HC. unfold put_both.
  destruct (store_pixel_painted (Vram s) i v C) as (b1 & -> & H1); [done..|].
  destruct (store_pixel_painted (Ram s) i v C) as (b2 & -> & H2); [lia|done|].
  rewrite !bind_Done. eexists. by split.
Qed.

(** A counted loop paints what its iterations paint. *)
Lemma for_loop_paints P C body n : forall lo s,
  (forall i s1, lo <= i < lo + Z.of_nat n -> same_frame s s1 ->
     exists s2, body i s1 = Done s2 /\ paints (P i) C s1 s2) ->
  exists s', for_loop n lo body s = Done s' /\
    paints (fun j => exists i, lo <= i < lo + Z.of_nat n /\ P i j) C s s'.
Proof.
  induction n as [|n IH]; intros lo s H; cbn [for_loop].
  { exists s. split; [done|]. eapply paints_ext; [|apply paints_empty]. intros j. split; [done|]. intros (i & ? & ?). lia. }
  destruct (H lo s) as (s1 & -> & H1); [lia|apply same_frame_refl|]. rewrite bind_Done.
  destruct (IH (lo + 1) s1) as (s2 & -> & H2).
  { intros i s2 Hi Hs. apply H; [lia|]. eapply same_frame_trans; [by eapply paints_same|done]. }
  exists s2. split; [done|]. eapply paints_ext; [|by eapply paints_union]. intros j. split.
  - intros [|(i & ? & ?)]; [exists lo|exists i]; split; done || lia.
  - intros (i & Hi & Hp). destruct (decide (i = lo)) as [->|]; [by left|right]. exists i. split; [lia|done].
Qed.

Lemma for_loop_paints_as P Q C body n s :
  (forall j, Q j <-> exists i, 0 <= i < Z.of_nat n /\ P i j) ->
  (forall i s1, 0 <= i < Z.of_nat n -> same_frame s s1 -> exists s2, body i s1 = Done s2 /\ paints (P i) C s1 s2) ->
  exists s', for_loop n 0 body s = Done s' /\ paints Q C s s'.
Proof.
  intros HQ H. destruct (for_loop_paints P C body n 0 s) as (s' & E & HP); [exact H|].
  exists s'. split; [done|]. eapply paints_ext; [|exact HP]. intros j. by rewrite HQ.
Qed.

(** ** Geometry *)

Definition rowh (s : Dwtp) : Z := RowsPerEntry (ConsoleFont s) * ScaleFactor (ConsoleFont s).
Definition colw (s : Dwtp) : Z := ColumnsPerEntry (ConsoleFont s) * ScaleFactor (ConsoleFont s).
Definition rows (s : Dwtp) : Z := FrameBufferHeight s / rowh s.
Definition columns (s : Dwtp) : Z := FrameBufferWidth s / colw s.

(** What the console needs of its frame buffer: the cursor may stand one text
    row below the last full one, so that row must exist too.  The copy in memory
    is twice as large, which the scroll relies on. *)
Record geometry (s : Dwtp) : Prop := {
  g_font : exists cs, font_ok (ConsoleFont s) cs;
  g_bytes : BytesPerPixel s = 4;
  g_addr : AddrFrameBuffer s <> 0;
  g_size : FrameBufferSize s = 4 * Z.of_nat (length (Vram s));
  g_range : FrameBufferSize s < 2 ^ 31;
  g_ram : length (Ram s) = (2 * length (Vram s))%nat;
  g_columns : 0 < columns s;
  g_width : 0 <= FrameBufferWidth s <= PixelsPerScanLine s;
  g_height : 0 <= FrameBufferHeight s;
  g_fit : (rows s + 1) * rowh s * PixelsPerScanLine s <= Z.of_nat (length (Vram s))
}.
Definition cursor_ok (s : Dwtp) : Prop := 0 <= CursorX s < columns s /\ 0 <= CursorY s <= rows s.

Section Geometry.
Context (s : Dwtp) (G : geometry s).

Lemma rowh_pos : 0 < rowh s.
Proof using G. destruct (g_font s G) as [cs []]. unfold rowh. nia. Qed.
Lemma colw_pos : 0 < colw s.
Proof using G. destruct (g_font s G) as [cs []]. unfold colw. nia. Qed.
Lemma rows_nonneg : 0 <= rows s.
Proof using G. apply Z.div_pos; [apply G|apply rowh_pos]. Qed.
Lemma columns_fit : columns s * colw s <= PixelsPerScanLine s.
Proof using G.
  pose proof colw_pos. pose proof (Z.mul_div_le (FrameBufferWidth s) (colw s)). pose proof (g_width s G).
  unfold columns. lia.
Qed.
Lemma colw_bound : colw s <= PixelsPerScanLine s.
Proof using G. pose proof columns_fit. pose proof (g_columns s G). pose proof colw_pos. nia. Qed.
Lemma ppsl_pos : 0 < PixelsPerScanLine s.
Proof using G. pose proof colw_bound. pose proof colw_pos. lia. Qed.
Lemma area_bound : (rows s + 1) * rowh s * PixelsPerScanLine s < 2 ^ 30.
Proof using G. pose proof (g_fit s G). pose proof (g_size s G). pose proof (g_range s G). lia. Qed.
Lemma row_area : rowh s * PixelsPerScanLine s < 2 ^ 30.
Proof using G.
  pose proof area_bound. pose proof rows_nonneg. pose proof rowh_pos. pose proof ppsl_pos.
  assert (0 <= rows s * (rowh s * PixelsPerScanLine s)) by (apply Z.mul_nonneg_nonneg; nia). nia.
Qed.
Lemma ppsl_bound : PixelsPerScanLine s < 2 ^ 30.
Proof using G. pose proof row_area. pose proof rowh_pos. pose proof ppsl_pos. nia. Qed.
Lemma rowh_bound : rowh s < 2 ^ 30.
Proof using G. pose proof row_area. pose proof rowh_pos. pose proof ppsl_pos. nia. Qed.
Lemma height_fit : FrameBufferHeight s <= (rows s + 1) * rowh s.
Proof using G.
  pose proof rowh_pos. unfold rows.
  pose proof (Z.mul_succ_div_gt (FrameBufferHeight s) (rowh s)). lia.
Qed.
End Geometry.

(** The index of the pixel at line [y] and column [x]. *)
Definition idx (s : Dwtp) (y x : Z) : Z := y * PixelsPerScanLine s + x.

Lemma split_unique (w r a r' a' : Z) : 0 <= a < w -> 0 <= a' < w -> r * w + a = r' * w + a' -> r = r' /\ a = a'.
Proof.
  intros Ha Ha' E. assert ((r * w + a) / w = (r' * w + a') / w) as D by (by rewrite E).
  rewrite !Z.div_add_l, !Z.div_small in D by lia. split; [lia|]. rewrite !Z.add_0_r in D. subst. lia.
Qed.

Lemma idx_bound s y x n : 0 <= x < PixelsPerScanLine s -> 0 <= y < n -> 0 <= idx s y x < n * PixelsPerScanLine s.
Proof. intros Hx Hy. unfold idx. nia. Qed.
Lemma idx_inj s y x y' x' :
  0 <= x < PixelsPerScanLine s -> 0 <= x' < PixelsPerScanLine s -> idx s y x = idx s y' x' -> y = y' /\ x = x'.
Proof. apply split_unique. Qed.

Lemma same_frame_fields s s' : same_frame s s' ->
  ConsoleFont s' = ConsoleFont s /\ PixelsPerScanLine s' = PixelsPerScanLine s /\ dwMeltdown s' = dwMeltdown s /\
  CursorX s' = CursorX s /\ CursorY s' = CursorY s /\ FrameBufferWidth s' = FrameBufferWidth s /\
  FrameBufferHeight s' = FrameBufferHeight s.
Proof. intros (E & _). rewrite E. done. Qed.

(** Membership of a pixel in the cell of a glyph, its position on the screen
    for the cell at row [r] and column [c], and the colour by position. *)
Definition in_cell (s : Dwtp) (Row bit sy sx : Z) : Prop :=
  0 <= Row < RowsPerEntry (ConsoleFont s) /\ 0 <= bit < ColumnsPerEntry (ConsoleFont s) /\
  0 <= sy < ScaleFactor (ConsoleFont s) /\ 0 <= sx < ScaleFactor (ConsoleFont s).
Definition pos (s : Dwtp) (r c Row bit sy sx : Z) : Z :=
  idx s (r * rowh s + (Row * ScaleFactor (ConsoleFont s) + sy)) (c * colw s + (bit * ScaleFactor (ConsoleFont s) + sx)).
Definition cell_paint (s : Dwtp) (r c : Z) (lit : Z -> Z -> Z) (j : nat) : Z :=
  let z := Z.of_nat j in
  lit ((z / PixelsPerScanLine s - r * rowh s) / ScaleFactor (ConsoleFont s))
      ((z mod PixelsPerScanLine s - c * colw s) / ScaleFactor (ConsoleFont s)).

Section Cells.
Context (s : Dwtp) (G : geometry s).

Lemma in_cell_bounds Row bit sy sx : in_cell s Row bit sy sx ->
  0 <= Row * ScaleFactor (ConsoleFont s) + sy < rowh s /\ 0 <= bit * ScaleFactor (ConsoleFont s) + sx < colw s.
Proof using. intros (H1 & H2 & H3 & H4). unfold rowh, colw. nia. Qed.

Lemma pos_column c d : 0 <= c < columns s -> 0 <= d < colw s -> 0 <= c * colw s + d < PixelsPerScanLine s.
Proof using G. intros Hc Hd. pose proof (columns_fit s G). pose proof (colw_pos s G). nia. Qed.

Lemma pos_bound r c Row bit sy sx :
  0 <= r -> 0 <= c < columns s -> in_cell s Row bit sy sx ->
  0 <= pos s r c Row bit sy sx < (r + 1) * rowh s * PixelsPerScanLine s.
Proof using G.
  intros Hr Hc Hi. destruct (in_cell_bounds _ _ _ _ Hi) as [H1 H2]. apply idx_bound; [by apply pos_column|].
  pose proof (rowh_pos s G). nia.
Qed.
Lemma area_mono r : 0 <= r <= rows s -> (r + 1) * rowh s * PixelsPerScanLine s <= Z.of_nat (length (Vram s)).
Proof using G.
  intros Hr. pose proof (g_fit s G) as H. pose proof (rowh_pos s G). pose proof (ppsl_pos s G).
  etrans; [|exact H]. apply Z.mul_le_mono_nonneg_r; [lia|]. apply Z.mul_le_mono_nonneg_r; lia.
Qed.

Lemma pos_inj r c Row bit sy sx r' c' Row' bit' sy' sx' :
  0 <= c < columns s -> 0 <= c' < columns s -> in_cell s Row bit sy sx -> in_cell s Row' bit' sy' sx' ->
  pos s r c Row bit sy sx = pos s r' c' Row' bit' sy' sx' -> r = r' /\ c = c' /\ Row = Row' /\ bit = bit'.
Proof using G.
  intros Hc Hc' Hi Hi' E. destruct (in_cell_bounds _ _ _ _ Hi), (in_cell_bounds _ _ _ _ Hi').
  apply idx_inj in E as [E1 E2]; [|by apply pos_column..].
  apply split_unique in E1 as [? E1]; [|done..]. apply split_unique in E2 as [? E2]; [|done..].
  destruct Hi as (_ & _ & ? & ?), Hi' as (_ & _ & ? & ?).
  apply split_unique in E1 as [? _]; [|done..]. apply split_unique in E2 as [? _]; [|done..]. done.
Qed.

Lemma cell_paint_at r c lit Row bit sy sx :
  0 <= r -> 0 <= c < columns s -> in_cell s Row bit sy sx ->
  cell_paint s r c lit (Z.to_nat (pos s r c Row bit sy sx)) = lit Row bit.
Proof using G.
  intros Hr Hc Hi. pose proof (pos_bound r c _ _ _ _ Hr Hc Hi). unfold cell_paint. rewrite Z2Nat.id by lia.
  destruct (in_cell_bounds _ _ _ _ Hi) as [H1 H2]. pose proof (pos_column c _ Hc H2).
  pose proof (ppsl_pos s G). unfold pos, idx. rewrite Z.div_add_l, (Z.div_small (c * colw s + _)) by lia.
  rewrite (Z.add_comm (_ * PixelsPerScanLine s)), Z.mod_add, (Z.mod_small (c * colw s + _)) by lia.
  destruct Hi as (_ & _ & ? & ?). f_equal.
  - rewrite Z.add_0_r. replace (_ - r * rowh s) with (Row * ScaleFactor (ConsoleFont s) + sy) by lia.
    rewrite Z.div_add_l, Z.div_small by lia. lia.
  - replace (_ - c * colw s) with (bit * ScaleFactor (ConsoleFont s) + sx) by lia.
    rewrite Z.div_add_l, Z.div_small by lia. lia.
Qed.

Definition cell_pixels (r c : Z) (j : nat) : Prop :=
  exists Row bit sy sx, in_cell s Row bit sy sx /\ j = Z.to_nat (pos s r c Row bit sy sx).

(** One store of the glyph loops. *)
Lemma draw_pixel_paints s1 lit k r c Row bit sy sx :
  same_frame s s1 -> 0 <= r <= rows s -> 0 <= c < columns s -> in_cell s Row bit sy sx -> lit Row bit = k ->
  exists s2, draw_pixel k (u32 (c * ColumnsPerEntry (ConsoleFont s) * ScaleFactor (ConsoleFont s)))
      (u32 (r * RowsPerEntry (ConsoleFont s) * ScaleFactor (ConsoleFont s))) Row bit sy sx s1 = Done s2 /\
    paints (fun j => j = Z.to_nat (pos s r c Row bit sy sx)) (cell_paint s r c lit) s1 s2.
Proof using G.
  intros Hs Hr Hc Hi Hk. pose proof (pos_bound r c _ _ _ _ ltac:(lia) Hc Hi) as Hp.
  pose proof (area_mono r Hr) as Ha. pose proof (area_bound s G) as Hb.
  destruct (in_cell_bounds _ _ _ _ Hi) as [H1 H2]. pose proof (pos_column c _ Hc H2) as Hx.
  pose proof (ppsl_bound s G). pose proof (ppsl_pos s G). pose proof (rowh_pos s G). pose proof (g_size s G). pose proof (g_range s G).
  assert (0 <= r * rowh s + (Row * ScaleFactor (ConsoleFont s) + sy) < 2 ^ 30) as Hy by nia.
  unfold draw_pixel. destruct (same_frame_fields _ _ Hs) as (-> & -> & _). destruct Hs as (_ & L1 & L2).
  assert (forall a b x, u32 (u32 a + b + x) = u32 (a + b + x)) as U.
  { intros. unfold u32. rewrite <- !Z.add_assoc, Z.add_mod_idemp_l by lia. done. }
  rewrite !U. rewrite (u32_small (r * _ * _ + _ + _)), (u32_small (c * _ * _ + _ + _)) by (unfold rowh, colw in *; lia).
  assert ((r * RowsPerEntry (ConsoleFont s) * ScaleFactor (ConsoleFont s) + Row * ScaleFactor (ConsoleFont s) + sy) * PixelsPerScanLine s +
    (c * ColumnsPerEntry (ConsoleFont s) * ScaleFactor (ConsoleFont s) + bit * ScaleFactor (ConsoleFont s) + sx) = pos s r c Row bit sy sx) as ->.
  { unfold pos, idx, rowh, colw. ring. }
  rewrite u32_small by lia. apply put_both_paints.
  - rewrite L1. lia.
  - rewrite L1, L2, (g_ram s G). lia.
  - rewrite cell_paint_at by (done || lia). done.
Qed.
End Cells.

(** Every pixel of the cell below the cursor, and no other, gets the colour
    the glyph gives it. *)
Lemma draw_glyph_paints s Char Fg Bg cs :
  geometry s -> cursor_ok s -> font_ok (ConsoleFont s) cs -> 0 <= Char < 128 ->
  exists s', draw_glyph cs Char Fg Bg s = Done s' /\
    paints (cell_pixels s (CursorY s) (CursorX s))
      (cell_paint s (CursorY s) (CursorX s)
         (fun Row bit => if glyph (ConsoleFont s) Char Row bit then Fg else back_color s Bg)) s s'.
Proof.
  intros G [Hx Hy] Hf HC. pose proof Hf as [F1 F2 F3 F4 F5 F6]. unfold draw_glyph.
  set (C := cell_paint _ _ _ _). set (sy0 := u32 (CursorY s * _ * _)). set (sx0 := u32 (CursorX s * _ * _)).
  apply (for_loop_paints_as (fun Row j => exists bit sy sx, in_cell s Row bit sy sx /\
    j = Z.to_nat (pos s (CursorY s) (CursorX s) Row bit sy sx))).
  { intros j. unfold cell_pixels. split.
    - intros (Row & bit & sy & sx & Hi & ->). exists Row. split; [unfold in_cell in Hi; lia|eauto 6].
    - intros (Row & _ & H). eauto. }
  intros Row s1 HRow Hs1. destruct (same_frame_fields _ _ Hs1) as (Ef1 & _).
  apply (for_loop_paints_as (fun bit j => exists sy sx, in_cell s Row bit sy sx /\
    j = Z.to_nat (pos s (CursorY s) (CursorX s) Row bit sy sx))).
  { intros j. split.
    - intros (bit & sy & sx & Hi & ->). exists bit. split; [unfold in_cell in Hi; lia|eauto 6].
    - intros (bit & _ & H). eauto. }
  intros bit s2 Hbit Hs2. pose proof (same_frame_trans _ _ _ Hs1 Hs2) as Hs12.
  destruct (same_frame_fields _ _ Hs12) as (Ef2 & _ & Em2 & _). unfold draw_bit. rewrite Ef2.
  rewrite (glyph_pixel_ok _ cs Char Row bit), bind_Done by (done || lia).
  apply (for_loop_paints_as (fun sy j => exists sx, in_cell s Row bit sy sx /\
    j = Z.to_nat (pos s (CursorY s) (CursorX s) Row bit sy sx))).
  { intros j. split.
    - intros (sy & sx & Hi & ->). exists sy. split; [unfold in_cell in Hi; lia|eauto 6].
    - intros (sy & _ & H). eauto. }
  intros sy s3 Hsy Hs3. pose proof (same_frame_trans _ _ _ Hs12 Hs3) as Hs13.
  apply (for_loop_paints_as (fun sx j => in_cell s Row bit sy sx /\
    j = Z.to_nat (pos s (CursorY s) (CursorX s) Row bit sy sx))).
  { intros j. split.
    - intros (sx & Hi & ->). exists sx. split; [unfold in_cell in Hi; lia|done].
    - intros (sx & _ & H). eauto. }
  intros sx s4 Hsx Hs4. pose proof (same_frame_trans _ _ _ Hs13 Hs4) as Hs14.
  destruct (same_frame_fields _ _ Hs14) as (Ef4 & _ & Em4 & _).
  assert (in_cell s Row bit sy sx) as Hi by (unfold in_cell; lia).
  destruct (draw_pixel_paints s G s4 (fun Row bit => if glyph (ConsoleFont s) Char Row bit then Fg else back_color s Bg)
    _ _ _ _ _ _ _ Hs14 Hy Hx Hi eq_refl) as (s5 & E5 & HP5).
  exists s5. split.
  - rewrite <- E5. unfold sx0, sy0, back_color. rewrite Em4. done.
  - eapply paints_ext; [|exact HP5]. intros j. tauto.
Qed.

(** ** Scrolling *)

Lemma pixels_mul4 n : pixels (n * 4) = Done (Z.to_nat n).
Proof. unfold pixels. rewrite Z.mod_mul, Z.div_mul by lia. done. Qed.

Lemma move_pixels_spec buf src n :
  0 <= src -> 0 <= n -> src + n <= Z.of_nat (length buf) ->
  exists b', move_pixels buf 0 (src * 4) (n * 4) = Done b' /\ length b' = length buf /\
    forall j, b' !! j = if decide (Z.of_nat j < n) then buf !! (j + Z.to_nat src)%nat else buf !! j.
Proof.
  intros Hs Hn Hl. unfold move_pixels. change (pixels 0) with (Done 0%nat). rewrite !pixels_mul4, !bind_Done.
  rewrite decide_True by lia. eexists. split; [done|]. change (take 0 buf) with (@nil Z). rewrite app_nil_l, Nat.add_0_l. split.
  - rewrite length_app, length_take, !length_drop. lia.
  - intros j. destruct (decide _).
    + rewrite lookup_app_l by (rewrite length_take, length_drop; lia).
      rewrite lookup_take_lt, lookup_drop by lia. f_equal. lia.
    + rewrite lookup_app_r; rewrite length_take, length_drop; [|lia].
      rewrite lookup_drop. f_equal. lia.
Qed.

Lemma zero_pixels_spec buf dst n :
  0 <= dst -> 0 <= n -> dst + n <= Z.of_nat (length buf) ->
  exists b', zero_pixels buf (dst * 4) (n * 4) = Done b' /\ length b' = length buf /\
    forall j, b' !! j = if decide (dst <= Z.of_nat j < dst + n) then Some 0 else buf !! j.
Proof.
  intros Hs Hn Hl. unfold zero_pixels. rewrite !pixels_mul4, !bind_Done.
  rewrite decide_True by lia. eexists. split; [done|]. split.
  - rewrite !length_app, length_take, length_replicate, length_drop. lia.
  - intros j. destruct (decide (Z.of_nat j < dst)).
    { rewrite decide_False by lia. rewrite lookup_app_l by (rewrite length_take; lia). apply lookup_take_lt. lia. }
    rewrite lookup_app_r; rewrite length_take; [|lia]. rewrite Nat.min_l by lia. destruct (decide _).
    + rewrite lookup_app_l by (rewrite length_replicate; lia). apply lookup_replicate_2. lia.
    + rewrite lookup_app_r; rewrite length_replicate; [|lia]. rewrite lookup_drop. f_equal. lia.
Qed.

(** A scroll moves the text rows above the cursor's up by one, blanks the
    cursor's row, and makes the device show the copy in memory. *)
Lemma scroll_spec s :
  geometry s -> 0 < CursorY s <= rows s + 1 ->
  let st := rowh s * PixelsPerScanLine s in
  exists v r, KrdwtpScroll_NoSpin s = Done (set_cursor (set_frames s v r) 0 (CursorY s - 1)) /\
    length v = length (Vram s) /\ length r = length (Ram s) /\
    (forall j, (j < length (Vram s))%nat -> v !! j = r !! j) /\
    (forall j, r !! j = if decide (Z.of_nat j < CursorY s * st) then Ram s !! (j + Z.to_nat st)%nat
                        else if decide (Z.of_nat j < (CursorY s + 1) * st) then Some 0 else Ram s !! j).
Proof.
  intros G Hy st. pose proof (g_fit s G) as Ha. pose proof (g_size s G) as Hs.
  pose proof (g_range s G). pose proof (ppsl_pos s G). pose proof (rowh_pos s G). pose proof (g_ram s G).
  pose proof (ppsl_bound s G). pose proof (rowh_bound s G). pose proof (row_area s G) as Hst. fold st in Hst.
  assert (0 < st) by (unfold st; nia). rewrite <- Z.mul_assoc in Ha. fold st in Ha.
  assert (CursorY s * st <= (rows s + 1) * st) by (apply Z.mul_le_mono_nonneg_r; lia).
  assert (1 * st <= (rows s + 1) * st) by (pose proof (rows_nonneg s G); apply Z.mul_le_mono_nonneg_r; lia).
  unfold KrdwtpScroll_NoSpin. rewrite (proj2 (Z.eqb_neq (CursorY s) 0)) by lia. rewrite (g_bytes s G).
  change (RowsPerEntry (ConsoleFont s) * ScaleFactor (ConsoleFont s)) with (rowh s).
  rewrite (u32_small (PixelsPerScanLine s * 4)), (u32_small (rowh s)) by lia.
  replace (rowh s * (PixelsPerScanLine s * 4)) with (st * 4) by (unfold st; ring).
  rewrite (u32_small (st * 4)) by lia. replace (CursorY s * (st * 4)) with (CursorY s * st * 4) by ring.
  rewrite (u32_small (CursorY s * st * 4)) by lia.
  destruct (move_pixels_spec (Ram s) st (CursorY s * st)) as (r1 & E1 & L1 & Hr1); [lia..|].
  destruct (zero_pixels_spec r1 (CursorY s * st) st) as (r2 & E2 & L2 & Hr2); [lia..|].
  rewrite E1, bind_Done, E2, bind_Done. unfold DwtpReplicateRamFrbufToVram. cbn [FrameBufferSize set_frames Vram Ram].
  rewrite Hs, Z.mul_comm, pixels_mul4, Nat2Z.id, bind_Done. rewrite decide_True by lia. rewrite bind_Done.
  cbn [CursorY set_frames]. assert (CursorY s * 1 <= CursorY s * st) by (apply Z.mul_le_mono_nonneg_l; lia).
  rewrite (u32_small (CursorY s - 1)) by lia. eexists _, r2. split_and!.
  - done.
  - rewrite length_app, length_take, length_drop. lia.
  - lia.
  - intros j Hj. rewrite lookup_app_l by (rewrite length_take; lia). by apply lookup_take_lt.
  - intros j. rewrite Hr2, Hr1. repeat case_decide; try done; lia.
Qed.
