(* ===== verification/ConsoleSpec.v ===== *)
(** * The text console refines a grid of characters

    [Screen] is the abstract console: cells and a cursor.  Output, scrolling and
    clearing are defined on it directly, and every operation of the pixel
    console is shown to implement them, including where the console waits for
    its own lock for ever. *)
From Stdlib Require Import ZArith Lia.
From stdpp Require Import base numbers list.
From S2P Require Import Prelude BootstrapArena KrtlString Fonts Console ConsoleProps.
Open Scope Z_scope.

(** ** The abstract console *)

Inductive cell := Unknown | Blank (k : Z) | Glyph (ch fg bg : Z).
Record Screen := mkScreen { cells : Z -> Z -> cell; cellX : Z; cellY : Z }.

Definition put_cell (g : Z -> Z -> cell) (r c : Z) (v : cell) : Z -> Z -> cell :=
  fun r' c' => if (r' =? r) && (c' =? c) then v else g r' c'.

Definition screen_scroll (a : Screen) : Screen :=
  if cellY a =? 0 then a
  else mkScreen (fun r c => if r <? cellY a then cells a (r + 1) c else if r =? cellY a then Blank 0 else cells a r c)
         0 (cellY a - 1).

Section Screen.
Context (nrows ncols : Z) (up : bool) (back : Z -> Z).

Definition screen_newline (a : Screen) : Screen :=
  let a := mkScreen (cells a) 0 (cellY a + 1) in
  if cellY a >? nrows then screen_scroll a else a.

(** A line that is full below the last row waits for the lock it holds. *)
Definition screen_char (a : Screen) (ch fg bg : Z) : outcome Screen :=
  if ch =? 10 then Done (screen_newline a)
  else
    let a := mkScreen (put_cell (cells a) (cellY a) (cellX a) (Glyph (to_upper up ch) fg (back bg)))
               (cellX a + 1) (cellY a) in
    if cellX a >=? ncols then
      if cellY a + 1 >? nrows then Hang else Done (mkScreen (cells a) 0 (cellY a + 1))
    else Done a.

Fixpoint screen_text (a : Screen) (t : list Z) (fg bg : Z) : outcome Screen :=
  match t with
  | [] => Done a
  | c :: t' => a ← screen_char a c fg bg; screen_text a t' fg bg
  end.

Definition screen_reset (a : Screen) (k : Z) : Screen :=
  mkScreen (fun r c => if r <? nrows then Blank k else if r =? nrows then Unknown else cells a r c) 0 0.
End Screen.

(** ** The refinement relation *)

Definition cell_color (f : Font) (v : cell) (Row bit : Z) : option Z :=
  match v with
  | Unknown => None
  | Blank k => Some k
  | Glyph ch fg bg => Some (if glyph f ch Row bit then fg else bg)
  end.

(** The pixels of [buf] show the text rows up to [n]. *)
Definition shows (s : Dwtp) (n : Z) (buf : list Z) (g : Z -> Z -> cell) : Prop :=
  forall r c Row bit sy sx k,
    0 <= r <= n -> 0 <= c < columns s -> in_cell s Row bit sy sx -> cell_color (ConsoleFont s) (g r c) Row bit = Some k ->
    buf !! Z.to_nat (pos s r c Row bit sy sx) = Some k.

Record refines (s : Dwtp) (a : Screen) : Prop := {
  rf_x : CursorX s = cellX a;
  rf_y : CursorY s = cellY a;
  rf_vram : shows s (rows s) (Vram s) (cells a);
  rf_ram : shows s (rows s + 1) (Ram s) (cells a)
}.

(** Only the cursor, the pixels and the lock differ. *)
Definition same_config (s s' : Dwtp) : Prop :=
  s' = set_dwlock (set_cursor (set_frames s (Vram s') (Ram s')) (CursorX s') (CursorY s')) (dwLock s') /\
  length (Vram s') = length (Vram s) /\ length (Ram s') = length (Ram s).

#[export] Instance same_config_preorder : PreOrder same_config.
Proof.
  split.
  - intros s. by destruct s.
  - intros s1 s2 s3 (E1 & ? & ?) (E2 & ? & ?). split_and!; [rewrite E2, E1; done|congruence..].
Qed.

Lemma same_config_rows s s' : same_config s s' ->
  rows s' = rows s /\ columns s' = columns s /\ bUppercaseMode s' = bUppercaseMode s /\
  back_color s' = back_color s /\ ConsoleFont s' = ConsoleFont s.
Proof. intros (E & _). by rewrite E. Qed.
Lemma same_config_geometry s s' : same_config s s' -> geometry s -> geometry s'.
Proof.
  intros (E & L1 & L2) []. destruct s'; inversion E; subst; cbn in L1, L2.
  split; unfold rows, rowh, columns, colw in *; cbn in *; rewrite ?L1, ?L2; done.
Qed.
Lemma same_config_shows s s' n buf g : same_config s s' -> shows s n buf g -> shows s' n buf g.
Proof. intros (E & _). rewrite E. done. Qed.
Lemma same_config_lock s b : same_config s (set_dwlock s b).
Proof. by destruct s. Qed.

Lemma refines_lock s a b : refines s a -> refines (set_dwlock s b) a.
Proof. by intros []. Qed.
Lemma cursor_ok_lock s b : cursor_ok s -> cursor_ok (set_dwlock s b).
Proof. done. Qed.

(** ** Scrolling *)

Section Scroll.
Context (s : Dwtp) (G : geometry s).
#[local] Abbreviation st := (rowh s * PixelsPerScanLine s).

Lemma pos_row r c Row bit sy sx :
  0 <= r -> 0 <= c < columns s -> in_cell s Row bit sy sx ->
  r * st <= pos s r c Row bit sy sx < (r + 1) * st /\ pos s (r + 1) c Row bit sy sx = pos s r c Row bit sy sx + st.
Proof using G.
  intros Hr Hc Hi. pose proof (pos_bound s G r c _ _ _ _ Hr Hc Hi) as H. destruct (in_cell_bounds s _ _ _ _ Hi) as [H1 H2].
  pose proof (pos_column s G c _ Hc H2). pose proof (ppsl_pos s G). unfold pos, idx in *. split; [|ring]. nia.
Qed.

Lemma scroll_refines a :
  0 <= CursorY s <= rows s + 1 -> (CursorY s = 0 -> CursorX s = 0) -> refines s a ->
  exists s', KrdwtpScroll_NoSpin s = Done s' /\ same_config s s' /\ dwLock s' = dwLock s /\
    refines s' (screen_scroll a) /\ CursorX s' = 0 /\ CursorY s' = Z.max 0 (CursorY s - 1).
Proof using G.
  intros Hy Hx [Rx Ry Rv Rr]. unfold screen_scroll. rewrite <- Ry. destruct (Z.eqb_spec (CursorY s) 0) as [E0|Hne].
  { exists s. unfold KrdwtpScroll_NoSpin. rewrite E0. cbn. split_and!; [done|reflexivity|done|done|auto|done]. }
  destruct (scroll_spec s G ltac:(lia)) as (v & r & E & Lv & Lr & Hv & Hr).
  exists (set_cursor (set_frames s v r) 0 (CursorY s - 1)). split_and!; [done| |done| |done|cbn; lia].
  { split_and!; done. }
  assert (shows s (rows s + 1) r (fun r0 c => if r0 <? CursorY s then cells a (r0 + 1) c
      else if r0 =? CursorY s then Blank 0 else cells a r0 c)) as Hshow.
  { intros q c Row bit sy sx k Hq Hc Hi Hk. destruct (pos_row q c _ _ _ _ ltac:(lia) Hc Hi) as [[B1 B2] B3].
    pose proof (rowh_pos s G). pose proof (ppsl_pos s G). assert (0 < st) by nia.
    rewrite Hr, Z2Nat.id by nia. destruct (Z.ltb_spec q (CursorY s)) as [Hlt|Hge].
    - rewrite decide_True by nia. rewrite <- (Rr (q + 1) c Row bit sy sx k) by (done || lia). f_equal. rewrite B3. nia.
    - rewrite decide_False by nia. destruct (Z.eqb_spec q (CursorY s)) as [->|].
      + rewrite decide_True by lia. exact Hk.
      + rewrite decide_False by nia. by apply Rr. }
  split; cbn [CursorX CursorY set_cursor Vram Ram set_frames cells cellX cellY]; [done..| |].
  - intros q c Row bit sy sx k Hq Hc Hi Hk. change (rows (set_cursor _ _ _)) with (rows s) in Hq.
    change (0 <= c < columns s) in Hc. change (in_cell s Row bit sy sx) in Hi. change (pos (set_cursor _ _ _)) with (pos s).
    pose proof (pos_bound s G q c _ _ _ _ ltac:(lia) Hc Hi). pose proof (area_mono s G q Hq).
    rewrite Hv by lia. by apply Hshow; [lia|..].
  - exact Hshow.
Qed.
End Scroll.

(** ** Characters *)

Lemma udiv_rows s : geometry s -> udiv (FrameBufferHeight s) (u32 (rowh s)) = Done (rows s).
Proof.
  intros G. pose proof (rowh_pos s G). pose proof (rowh_bound s G). rewrite u32_small by lia. unfold udiv.
  by rewrite (proj2 (Z.eqb_neq (rowh s) 0)) by lia.
Qed.
Lemma udiv_columns s : geometry s -> udiv (FrameBufferWidth s) (u32 (colw s)) = Done (columns s).
Proof.
  intros G. pose proof (colw_pos s G). pose proof (colw_bound s G). pose proof (ppsl_bound s G).
  rewrite u32_small by lia. unfold udiv. by rewrite (proj2 (Z.eqb_neq (colw s) 0)) by lia.
Qed.
Lemma rows_small s : geometry s -> rows s + 2 < 2 ^ 31.
Proof.
  intros G. pose proof (area_bound s G). pose proof (rowh_pos s G). pose proof (ppsl_pos s G). pose proof (rows_nonneg s G).
  assert ((rows s + 1) * 1 <= (rows s + 1) * (rowh s * PixelsPerScanLine s)); [|lia].
  apply Z.mul_le_mono_nonneg_l; nia.
Qed.
Lemma columns_small s : geometry s -> columns s < 2 ^ 30.
Proof.
  intros G. pose proof (columns_fit s G). pose proof (colw_pos s G). pose proof (ppsl_bound s G). pose proof (g_columns s G). nia.
Qed.

(** The state of the console between two characters. *)
Definition ready (s : Dwtp) (a : Screen) : Prop := geometry s /\ cursor_ok s /\ refines s a.

Lemma newline_refines s a fg bg :
  ready s a -> exists s', KrdwtpOutColoredCharacter_NoSpin s 10 fg bg = Done s' /\ same_config s s' /\ dwLock s' = dwLock s /\
    ready s' (screen_newline (rows s) a).
Proof.
  intros (G & [Hx Hy] & R). pose proof (rows_small s G) as Hrs. pose proof (g_columns s G).
  destruct (g_font s G) as [cs Hf]. pose proof Hf as [F1 F2 _ _ _ _].
  unfold KrdwtpOutColoredCharacter_NoSpin. rewrite F1, F2, (proj2 (Z.eqb_neq _ 0) (g_addr s G)).
  change ((10 =? 10)) with true. change (0 >=? u32 10) with false. cbn [orb]. cbv zeta.
  cbn [FrameBufferHeight set_cursor]. fold (rowh s). rewrite udiv_rows, bind_Done by done.
  rewrite (u32_small (CursorY s + 1)) by lia. cbn [CursorY set_cursor]. unfold screen_newline. destruct R as [Rx Ry Rv Rr].
  rewrite <- Ry. cbn [cellY]. set (s1 := set_cursor s 0 (CursorY s + 1)).
  assert (same_config s s1) as HC by by destruct s. pose proof (same_config_geometry _ _ HC G) as G1.
  assert (refines s1 (mkScreen (cells a) 0 (CursorY s + 1))) as R1 by done.
  rewrite Z.gtb_ltb. destruct (Z.ltb_spec (rows s) (CursorY s + 1)) as [Hlt|Hge].
  - destruct (scroll_refines s1 G1 _ ltac:(change (0 <= CursorY s + 1 <= rows s + 1); lia) ltac:(done) R1) as (s' & E & HC' & HL & R' & X' & Y').
    exists s'. assert (same_config s s') as HCs by by etrans. split_and!; [done|done|done|].
    destruct (same_config_rows _ _ HCs) as (Er & Ec & _). split_and!; [by eapply same_config_geometry| |done].
    unfold cursor_ok. rewrite Er, Ec, X', Y'. change (CursorY s1) with (CursorY s + 1). lia.
  - exists s1. split_and!; [done|done|done|]. split_and!; [done| |done].
    change (0 <= 0 < columns s /\ 0 <= CursorY s + 1 <= rows s). lia.
Qed.

Lemma painted_shows s n r c lit v buf buf' g :
  geometry s -> 0 <= r -> 0 <= c < columns s ->
  (forall Row bit, cell_color (ConsoleFont s) v Row bit = Some (lit Row bit)) ->
  painted (cell_pixels s r c) (cell_paint s r c lit) buf buf' -> shows s n buf g -> shows s n buf' (put_cell g r c v).
Proof.
  intros G Hr Hc Hl (_ & Hf & Hp) Hs q d Row bit sy sx k Hq Hd Hi.
  assert (~ (q = r /\ d = c) -> buf' !! Z.to_nat (pos s q d Row bit sy sx) = buf !! Z.to_nat (pos s q d Row bit sy sx)) as Ho.
  { intros Hne. destruct (Hf (Z.to_nat (pos s q d Row bit sy sx))) as [|[(Row' & bit' & sy' & sx' & Hi' & E) _]]; [done|].
    apply Z2Nat.inj in E; [|by apply pos_bound; done || lia..]. apply pos_inj in E; [|done..]. tauto. }
  unfold put_cell. destruct (Z.eqb_spec q r) as [->|Hqr]; [destruct (Z.eqb_spec d c) as [->|Hdc]|]; cbn [andb]; intros Hk.
  - rewrite Hl in Hk. injection Hk as <-. rewrite Hp by (exists Row, bit, sy, sx; done). by rewrite cell_paint_at by done.
  - rewrite Ho by tauto. by eapply Hs.
  - rewrite Ho by tauto. by eapply Hs.
Qed.

Lemma set_lock_held s : dwLock s = true -> KrdwtpScroll s = Hang.
Proof. intros H. unfold KrdwtpScroll, AcquireOrWaitSpinlock. by rewrite H. Qed.

Lemma to_upper_range up ch : 0 < ch < 128 -> 0 < to_upper up ch < 128.
Proof. intros H. unfold to_upper. destruct up; [|done]. cbn [andb]. repeat zcase; cbn [andb]; lia. Qed.

Definition screen_outcome (s : Dwtp) (res : outcome Dwtp) (spec : outcome Screen) : Prop :=
  match spec with
  | Done a' => exists s', res = Done s' /\ same_config s s' /\ dwLock s' = dwLock s /\ ready s' a'
  | Hang => res = Hang
  | _ => False
  end.

Lemma char_refines s a ch fg bg :
  ready s a -> dwLock s = true -> 0 < ch < 128 ->
  screen_outcome s (KrdwtpOutColoredCharacter_NoSpin s ch fg bg)
    (screen_char (rows s) (columns s) (bUppercaseMode s) (back_color s) a ch fg bg).
Proof.
  intros Hrd Hlock Hch. unfold screen_char. destruct (Z.eqb_spec ch 10) as [->|Hnl]; [by apply newline_refines|].
  destruct Hrd as (G & Hcur & R). pose proof Hcur as [Hx Hy]. destruct (g_font s G) as [cs Hf]. pose proof Hf as [F1 F2 _ _ _ _].
  pose proof (rows_small s G). pose proof (columns_small s G). pose proof (rows_nonneg s G).
  destruct (draw_glyph_paints s (to_upper (bUppercaseMode s) ch) fg bg cs G Hcur Hf) as (s1 & E & E1 & PV & PR).
  { pose proof (to_upper_range (bUppercaseMode s) ch Hch). lia. }
  unfold KrdwtpOutColoredCharacter_NoSpin. rewrite F1, F2, (proj2 (Z.eqb_neq _ 0) (g_addr s G)), (proj2 (Z.eqb_neq ch 10)) by done.
  rewrite (u32_small ch) by lia. rewrite Z.geb_leb, (proj2 (Z.leb_gt ch 0)) by lia. cbn [orb]. rewrite E, bind_Done. clear E.
  destruct PV as [LV PV], PR as [LR PR].
  assert (forall x y, 0 <= x < columns s -> 0 <= y <= rows s ->
    ready (set_cursor s1 x y) (mkScreen (put_cell (cells a) (cellY a) (cellX a) (Glyph (to_upper (bUppercaseMode s) ch) fg (back_color s bg))) x y) /\
    same_config s (set_cursor s1 x y)) as Hready.
  { intros x y Hx' Hy'. assert (same_config s (set_cursor s1 x y)) as HC by (rewrite E1; destruct s; done).
    split; [|done]. destruct (same_config_rows _ _ HC) as (Er & Ec & _). destruct R as [Rx Ry Rv Rr]. rewrite <- Rx, <- Ry.
    split_and!; [by eapply same_config_geometry|split; [rewrite Ec|rewrite Er]; done|].
    split; [done|done| |]; rewrite Er; apply (same_config_shows s _ _ _ _ HC); cbn [Vram Ram set_cursor cells];
      (eapply painted_shows; [done|lia|done| |by split|done]); done. }
  assert (CursorX s1 = CursorX s /\ CursorY s1 = CursorY s /\ FrameBufferWidth s1 = FrameBufferWidth s /\
    FrameBufferHeight s1 = FrameBufferHeight s /\ dwLock s1 = dwLock s) as (Ex & Ey & Ew & Eh & El) by (rewrite E1; done).
  cbv zeta. cbn [CursorX CursorY FrameBufferWidth FrameBufferHeight set_cursor cellX cellY cells].
  rewrite Ex, Ey, Ew, Eh. fold (colw s) (rowh s). rewrite udiv_columns, bind_Done, (u32_small (CursorX s + 1)), (u32_small (CursorY s + 1)) by (done || lia).
  pose proof (rf_x s a R) as Rx. pose proof (rf_y s a R) as Ry. rewrite <- Rx, <- Ry in *.
  rewrite Z.geb_leb. destruct (Z.leb_spec (columns s) (CursorX s + 1)).
  - rewrite udiv_rows, bind_Done by done. rewrite Z.gtb_ltb. destruct (Z.ltb_spec (rows s) (CursorY s + 1)).
    + apply set_lock_held. cbn. congruence.
    + destruct (Hready 0 (CursorY s + 1)) as [HR HC]; [lia..|]. eexists. split_and!; [done|done|cbn; congruence|done].
  - destruct (Hready (CursorX s + 1) (CursorY s)) as [HR HC]; [lia..|]. eexists. split_and!; [done|done|cbn; congruence|done].
Qed.

(** ** Text, clearing and the other operations *)

Definition ascii (t : list Z) : Prop := Forall (fun c => 0 < c < 128) t.

Lemma screen_outcome_trans s1 s2 res spec :
  same_config s1 s2 -> dwLock s2 = dwLock s1 -> screen_outcome s2 res spec -> screen_outcome s1 res spec.
Proof.
  intros HC HL. destruct spec; cbn; try done. intros (s' & ? & ? & ? & ?). exists s'.
  split_and!; [done|by etrans|congruence|done].
Qed.

Lemma text_refines t : forall s a n fg bg junk,
  ready s a -> dwLock s = true -> ascii t -> 0 <= n -> n + Z.of_nat (length t) < 2 ^ 31 ->
  screen_outcome s (r ← text_loop (t ++ 0 :: junk) fg bg n s; Done r.1)
    (screen_text (rows s) (columns s) (bUppercaseMode s) (back_color s) a t fg bg) /\
  (forall s' w, text_loop (t ++ 0 :: junk) fg bg n s = Done (s', w) -> w = n + Z.of_nat (length t)).
Proof.
  induction t as [|c t IH]; intros s a n fg bg junk Hrd HL Ht Hn Hlen; cbn [app text_loop screen_text].
  { rewrite Z.eqb_refl. split; [|intros s' w [= <- <-]; simpl; lia]. exists s. split_and!; [done|reflexivity|done|done]. }
  apply Forall_cons in Ht as [Hc Ht]. rewrite (proj2 (Z.eqb_neq c 0)) by lia.
  assert (s8 c = c) as -> by (unfold s8; rewrite Z.mod_small; lia).
  pose proof (char_refines s a c fg bg Hrd HL Hc) as H. cbn [length] in Hlen.
  destruct (screen_char _ _ _ _ _ _ _ _) as [a1| | |]; cbn [screen_outcome] in H; try done.
  - destruct H as (s1 & -> & HC & HL1 & Hrd1). rewrite !bind_Done.
    assert (s32 (n + 1) = n + 1) as -> by (unfold s32; rewrite Z.mod_small; lia).
    destruct (same_config_rows _ _ HC) as (E1 & E2 & E3 & E4 & _).
    destruct (IH s1 a1 (n + 1) fg bg junk Hrd1) as [H1 H2]; [congruence|done|lia|lia|].
    rewrite E1, E2, E3, E4 in H1. split; [by eapply screen_outcome_trans|].
    intros s' w E. rewrite (H2 s' w E). cbn [length]. lia.
  - rewrite H. done.
Qed.

Lemma reset_row_paints s s1 k y :
  geometry s -> same_frame s s1 -> 0 <= y < FrameBufferHeight s ->
  exists s2, reset_row k y s1 = Done s2 /\
    paints (fun j => exists x, 0 <= x < FrameBufferWidth s /\ j = Z.to_nat (idx s y x)) (fun _ => k) s1 s2.
Proof.
  intros G Hs Hy. unfold reset_row. destruct (same_frame_fields _ _ Hs) as (_ & _ & _ & _ & _ & -> & _).
  pose proof (g_width s G) as Hw. apply (for_loop_paints_as (fun x j => 0 <= x < FrameBufferWidth s /\ j = Z.to_nat (idx s y x))).
  { intros j. split; [intros (x & ? & ?); exists x; split; [lia|done]|intros (x & _ & H); eauto]. }
  intros x s2 Hx Hs2. pose proof (same_frame_trans _ _ _ Hs Hs2) as Hs12.
  destruct (same_frame_fields _ _ Hs12) as (_ & -> & _). destruct Hs12 as (_ & L1 & L2).
  pose proof (height_fit s G). pose proof (idx_bound s y x ((rows s + 1) * rowh s) ltac:(lia) ltac:(lia)) as B.
  pose proof (g_fit s G). pose proof (g_size s G). pose proof (g_range s G).
  fold (idx s y x). rewrite u32_small by lia.
  destruct (put_both_paints s2 (idx s y x) k (fun _ => k)) as (s3 & E & HP); [lia|rewrite L1, L2, (g_ram s G); lia|done|].
  exists s3. split; [done|]. eapply paints_ext; [|exact HP]. intros j. split; [intros ->; split; [lia|done]|tauto].
Qed.

(** The pixels of the visible screen. *)
Definition on_screen (s : Dwtp) (j : nat) : Prop :=
  exists y x, 0 <= y < FrameBufferHeight s /\ 0 <= x < FrameBufferWidth s /\ j = Z.to_nat (idx s y x).

Lemma reset_paints s k :
  geometry s -> exists s', for_loop (Z.to_nat (FrameBufferHeight s)) 0 (reset_row k) s = Done s' /\
    paints (on_screen s) (fun _ => k) s s'.
Proof.
  intros G. apply (for_loop_paints_as (fun y j => exists x, 0 <= x < FrameBufferWidth s /\ j = Z.to_nat (idx s y x))).
  - intros j. unfold on_screen. split; [intros (y & x & ? & ? & ?); exists y; split; [lia|eauto]|].
    intros (y & ? & x & ? & ?). exists y, x. split; [lia|done].
  - intros y s1 Hy Hs1. apply reset_row_paints; [done|done|lia].
Qed.

Lemma full_row_on_screen s r c Row bit sy sx :
  geometry s -> 0 <= r < rows s -> 0 <= c < columns s -> in_cell s Row bit sy sx ->
  on_screen s (Z.to_nat (pos s r c Row bit sy sx)).
Proof.
  intros G Hr Hc Hi. destruct (in_cell_bounds s _ _ _ _ Hi) as [H1 H2]. pose proof (rowh_pos s G). pose proof (colw_pos s G).
  pose proof (Z.mul_div_le (FrameBufferHeight s) (rowh s) ltac:(lia)).
  pose proof (Z.mul_div_le (FrameBufferWidth s) (colw s) ltac:(lia)). fold (rows s) (columns s) in *.
  eexists _, _. split_and!; [..|reflexivity]; nia.
Qed.

Lemma last_row_off_screen s r c Row bit sy sx :
  geometry s -> rows s + 1 <= r -> 0 <= c < columns s -> in_cell s Row bit sy sx ->
  ~ on_screen s (Z.to_nat (pos s r c Row bit sy sx)).
Proof.
  intros G Hr Hc Hi (y & x & Hy & Hx & Eq). pose proof (rows_nonneg s G).
  pose proof (g_width s G). pose proof (pos_bound s G r c _ _ _ _ ltac:(lia) Hc Hi).
  pose proof (idx_bound s y x (FrameBufferHeight s) ltac:(lia) Hy). apply Z2Nat.inj in Eq; [|lia..].
  destruct (in_cell_bounds s _ _ _ _ Hi) as [B1 B2]. apply idx_inj in Eq as [Eq _]; [|by apply pos_column|lia].
  pose proof (height_fit s G). pose proof (rowh_pos s G). nia.
Qed.

Lemma reset_refines s a k :
  ready s a -> dwLock s = false ->
  exists s', KrdwtpResetState s k = Done s' /\ same_config s s' /\ dwLock s' = false /\ ready s' (screen_reset (rows s) a k).
Proof.
  intros (G & _ & R) HL. unfold KrdwtpResetState, AcquireOrWaitSpinlock. rewrite HL, bind_Done.
  set (s0 := set_cursor (set_dwlock s true) 0 0). assert (same_config s s0) as HC0 by by destruct s.
  destruct (reset_paints s0 k (same_config_geometry _ _ HC0 G)) as (s1 & E & E1 & (LV & FV & PV) & (LR & FR & PR)).
  change (on_screen s0) with (on_screen s) in *. cbv zeta. rewrite E, bind_Done. clear E.
  assert (same_config s (RelinquishSpinlock s1)) as HC by (rewrite E1; destruct s; done).
  exists (RelinquishSpinlock s1). split_and!; [done|done|done|].
  destruct (same_config_rows _ _ HC) as (Er & Ec & _). pose proof (g_columns s G). pose proof (rows_nonneg s G).
  split_and!; [by eapply same_config_geometry| |].
  { unfold cursor_ok. rewrite Er, Ec, E1. cbn. lia. }
  destruct R as [_ _ _ Rr]. split; [by rewrite E1|by rewrite E1| |]; rewrite Er; apply (same_config_shows s _ _ _ _ HC);
    cbn [Vram Ram RelinquishSpinlock set_dwlock screen_reset cells]; intros r c Row bit sy sx q Hr Hc Hi;
    (destruct (Z.ltb_spec r (rows s)) as [Hlt|Hge];
     [intros [= <-]; first [apply PV|apply PR]; apply full_row_on_screen; done || lia|]);
    (destruct (Z.eqb_spec r (rows s)); [done|]); intros Hk; [lia|].
  destruct (FR (Z.to_nat (pos s r c Row bit sy sx))) as [->|[Hon _]]; [by apply Rr|].
  exfalso. eapply last_row_off_screen; [..|exact Hon]; done || lia.
Qed.
