(* ===== verification/ConsoleFormat.v ===== *)
(** * Formatted output of the text console

    KrdwtpOutFormatText prints what KrdwtpOutText prints for the rendered text. *)
From Stdlib Require Import ZArith Lia.
From stdpp Require Import base numbers list.
From S2P Require Import Prelude KrtlString Fonts Console.
Open Scope Z_scope.

Lemma outcome_assoc {A B C} (m : outcome A) (f : A -> outcome B) (g : B -> outcome C) :
  (y ← (x ← m; f x); g y) = (x ← m; y ← f x; g y).
Proof. by destruct m. Qed.

(** The effect of a text, without the count. *)
Fixpoint type_text (fg bg : Z) (t : list Z) (s : Dwtp) : outcome Dwtp :=
  match t with
  | [] => Done s
  | c :: t' => s ← KrdwtpOutColoredCharacter_NoSpin s (s8 c) fg bg; type_text fg bg t' s
  end.

Lemma type_text_app fg bg t1 : forall t2 s, type_text fg bg (t1 ++ t2) s = (s ← type_text fg bg t1 s; type_text fg bg t2 s).
Proof.
  induction t1 as [|c t1 IH]; intros t2 s; [done|]. cbn [app type_text]. rewrite outcome_assoc.
  destruct (KrdwtpOutColoredCharacter_NoSpin _ _ _ _); [|done..]. apply IH.
Qed.

Lemma s32_small x : 0 <= x < 2 ^ 31 -> s32 x = x.
Proof. intros H. unfold s32. rewrite Z.mod_small; lia. Qed.

Lemma text_loop_type fg bg junk t : forall n s,
  Forall (fun c => c <> 0) t -> 0 <= n -> n + Z.of_nat (length t) < 2 ^ 31 ->
  text_loop (t ++ 0 :: junk) fg bg n s = (s ← type_text fg bg t s; Done (s, n + Z.of_nat (length t))).
Proof.
  induction t as [|c t IH]; intros n s Ht Hn Hl; cbn [app text_loop type_text length].
  { rewrite Z.eqb_refl, bind_Done. do 2 f_equal. lia. }
  apply Forall_cons in Ht as [Hc Ht]. rewrite (proj2 (Z.eqb_neq c 0)), outcome_assoc by done. cbn [length] in Hl.
  destruct (KrdwtpOutColoredCharacter_NoSpin _ _ _ _); [|done..]. rewrite !bind_Done, s32_small by lia.
  rewrite IH by (done || lia). destruct (type_text _ _ _ _); [|done..]. rewrite !bind_Done. do 2 f_equal. lia.
Qed.

(** ** Directives *)

Inductive cdirective :=
  | CLit (c : Z)                       (* an ordinary character *)
  | CPercent                           (* %% *)
  | CChar (w : Z)                      (* %c *)
  | CBool (w : Z)                      (* %b *)
  | CStr (s junk : list Z)             (* %s, non-null *)
  | CNullStr                           (* %s, null *)
  | CInt (letter_i : bool) (w : Z)     (* %d, %i *)
  | CUInt (w : Z)                      (* %u *)
  | COct (w : Z)                       (* %o *)
  | CHex (letter_X : bool) (w : Z)     (* %X, %x *)
  | CPtr (w : Z)                       (* %p *)
  | CQuad (w : Z)                      (* %Ru *)
  | CQuadHex (letter_X : bool) (w : Z). (* %RX, %Rx *)

Definition cdirective_ok (d : cdirective) : Prop :=
  match d with
  | CLit c => c <> 0 /\ c <> 37
  | CChar w => u8 w <> 0
  | CStr s _ => Forall (fun c => c <> 0) s
  | _ => True
  end.
Definition cformat_of (d : cdirective) : list Z :=
  match d with
  | CLit c => [c]
  | CPercent => [37; 37]
  | CChar _ => [37; 99]
  | CBool _ => [37; 98]
  | CStr _ _ | CNullStr => [37; 115]
  | CInt i _ => [37; if i : bool then 105 else 100]
  | CUInt _ => [37; 117]
  | COct _ => [37; 111]
  | CHex X _ => [37; if X : bool then 88 else 120]
  | CPtr _ => [37; 112]
  | CQuad _ => [37; 82; 117]
  | CQuadHex X _ => [37; 82; if X : bool then 88 else 120]
  end.
Definition cargs_of (d : cdirective) : list arg :=
  match d with
  | CLit _ | CPercent => []
  | CStr s junk => [AStr (Some (s ++ 0 :: junk))]
  | CNullStr => [AStr None]
  | CChar w | CBool w | CInt _ w | CUInt w | COct w | CHex _ w | CPtr w | CQuad w | CQuadHex _ w => [AWord w]
  end.
(** The text of a directive; both hexadecimal letters print upper case. *)
Definition crender (d : cdirective) : list Z :=
  match d with
  | CLit c => [c]
  | CPercent => [37]
  | CChar w => [u8 w]
  | CBool w => if negb (u32 w =? 0) then [116; 114; 117; 101] else [102; 97; 108; 115; 101]
  | CStr s _ => s
  | CNullStr => [40; 78; 85; 76; 76; 41]
  | CInt _ w => signed_text (s32 w) 10 1
  | CUInt w => unsigned_text (u32 w) 10 1
  | COct w => signed_text (u32 w) 8 1
  | CHex _ w => unsigned_text (u32 w) 16 1
  | CPtr w => [48; 120] ++ unsigned_text (u64 w) 16 1
  | CQuad w => unsigned_text (u64 w) 10 1
  | CQuadHex _ w => unsigned_text (u64 w) 16 1
  end.

#[local] Abbreviation W := KRDWTP_COLOR_WHITE.
#[local] Abbreviation B := KRDWTP_BACKGROUND.

Lemma out_text_type t junk s :
  Forall (fun c => c <> 0) t -> Z.of_nat (length t) < 2 ^ 31 ->
  KrdwtpOutText_NoSpin s (t ++ 0 :: junk) = (s ← type_text W B t s; Done (s, Z.of_nat (length t))).
Proof. intros Ht Hl. apply (text_loop_type W B junk t 0 s); done || lia. Qed.

Lemma out_number_type conv t s :
  conv (replicate 128 0) = Done (stored t (replicate 128 0)) -> Forall (fun c => c <> 0) t -> (length t < 128)%nat ->
  out_number s conv = (s ← type_text W B t s; Done (s, Z.of_nat (length t))).
Proof. intros E Ht Hl. unfold out_number. rewrite E, bind_Done. apply out_text_type; [done|lia]. Qed.

Lemma unsigned_text_ok V R p : 0 <= V < 2 ^ 64 -> 2 <= R <= 16 ->
  Forall (fun c => c <> 0) (unsigned_text V R p) /\ (length (unsigned_text V R p) <= 64)%nat.
Proof.
  intros HV HR. destruct (unsigned_text_spec V R p HV HR) as (_ & H & _). split; [eapply Forall_impl; [exact H|tauto]|].
  apply unsigned_text_length; [done|lia|apply pow_radix_64; lia].
Qed.
Lemma signed_text_ok V R p : - 2 ^ 63 < V < 2 ^ 63 -> 2 <= R <= 16 ->
  Forall (fun c => c <> 0) (signed_text V R p) /\ (length (signed_text V R p) <= 65)%nat.
Proof.
  intros HV HR. destruct (signed_text_spec V R p HV HR) as (_ & H & _). split; [done|].
  apply signed_text_length; [done|lia|]. apply pow_radix_64; lia.
Qed.

Lemma out_unsigned V R s : 0 <= V < 2 ^ 64 -> 2 <= R <= 16 ->
  out_number s (fun b => KrtlUnsignedToString b V R 1) =
    (s ← type_text W B (unsigned_text V R 1) s; Done (s, Z.of_nat (length (unsigned_text V R 1)))).
Proof.
  intros HV HR. destruct (unsigned_text_ok V R 1 HV HR) as [H1 H2]. apply out_number_type; [|done|lia].
  apply unsigned_to_string_spec; [done|done|]. rewrite length_replicate. lia.
Qed.
Lemma out_signed V R s : - 2 ^ 63 < V < 2 ^ 63 -> 2 <= R <= 16 ->
  out_number s (fun b => KrtlSignedToString b V R 1) =
    (s ← type_text W B (signed_text V R 1) s; Done (s, Z.of_nat (length (signed_text V R 1)))).
Proof.
  intros HV HR. destruct (signed_text_ok V R 1 HV HR) as [H1 H2]. apply out_number_type; [|done|lia].
  apply signed_to_string_spec; [done|done|]. rewrite length_replicate. lia.
Qed.

#[local] Ltac short := solve [done | repeat constructor; done | simpl; lia].

(** Each directive types its rendering. *)
Lemma out_directive_type d rest args s :
  cdirective_ok d -> Z.of_nat (length (crender d)) < 2 ^ 31 -> (forall c, d <> CLit c) ->
  exists c more, cformat_of d = 37 :: c :: more /\ c <> 0 /\
    out_directive c (more ++ rest) (cargs_of d ++ args) s =
      (s ← type_text W B (crender d) s; Done (s, Some (rest, args, Z.of_nat (length (crender d))))).
Proof.
  intros Hok Hl Hn. destruct d; cbn [cformat_of cargs_of crender cdirective_ok] in *; try (by exfalso; eapply Hn);
    try destruct letter_i; try destruct letter_X;
    eexists _, _; (split; [reflexivity|]; split; [done|]);
    unfold out_directive, va_word, va_str, KRTL_RADIX_DECIMAL, KRTL_RADIX_OCTAL, KRTL_RADIX_HEXADECIMAL,
      KRTL_HEX_UPPERCASE; cbn [app Z.eqb Pos.eqb orb head tail checked];
    rewrite ?bind_Done; cbn [Z.eqb Pos.eqb orb]; rewrite ?bind_Done;
    pose proof (u32_range); pose proof (s32_range); pose proof (u64_range).
  all: try (rewrite out_unsigned by (specialize (H w); specialize (H1 w); lia); rewrite outcome_assoc; by destruct (type_text _ _ _ _)).
  all: try (rewrite out_signed by (specialize (H w); specialize (H0 w); lia); rewrite outcome_assoc; by destruct (type_text _ _ _ _)).
  - cbn [type_text]. rewrite outcome_assoc. change (s8 37) with 37. fold (KrdwtpOutCharacter_NoSpin s 37). by destruct (KrdwtpOutCharacter_NoSpin s 37).
  - cbn [type_text]. assert (s8 (u8 w) = s8 w) as ->.
    { unfold s8, u8. by rewrite Z.add_mod_idemp_l by lia. }
    rewrite outcome_assoc. fold (KrdwtpOutCharacter_NoSpin s (s8 w)). by destruct (KrdwtpOutCharacter_NoSpin s (s8 w)).
  - destruct (negb _);
      [rewrite (out_text_type [116; 114; 117; 101] [])|rewrite (out_text_type [102; 97; 108; 115; 101] [])]; try short;
      rewrite outcome_assoc; by destruct (type_text _ _ _ _).
  - change (default text_null (Some ?t)) with t. rewrite out_text_type, outcome_assoc by done. by destruct (type_text _ _ _ _).
  - change (default text_null None) with ([40; 78; 85; 76; 76; 41] ++ 0 :: []).
    rewrite out_text_type, outcome_assoc by short. by destruct (type_text _ _ _ _).
  - specialize (H1 w). destruct (unsigned_text_ok (u64 w) 16 1 ltac:(lia) ltac:(lia)) as [T1 T2].
    rewrite (unsigned_to_string_spec _ (u64 w) 16 1) by (rewrite ?length_replicate; lia). rewrite bind_Done.
    rewrite (out_text_type [48; 120] []), outcome_assoc by short.
    change (48 :: 120 :: unsigned_text (u64 w) 16 1) with ([48; 120] ++ unsigned_text (u64 w) 16 1).
    rewrite (type_text_app W B [48; 120] (unsigned_text (u64 w) 16 1)), outcome_assoc.
    destruct (type_text W B [48; 120] s) as [s1| | |]; [|done..]. rewrite !bind_Done. unfold stored.
    rewrite out_text_type, outcome_assoc by (done || lia). destruct (type_text _ _ _ _); [|done..].
    rewrite !bind_Done. do 4 f_equal. rewrite length_app. simpl. lia.
Qed.

(** ** Whole format strings *)

Definition cformat (ds : list cdirective) : list Z := ds ≫= cformat_of.
Definition cargs (ds : list cdirective) : list arg := ds ≫= cargs_of.
Definition ctext (ds : list cdirective) : list Z := ds ≫= crender.

Lemma out_format_loop_types ds : forall fuel junk args n s,
  Forall cdirective_ok ds -> (length (cformat ds) < fuel)%nat -> 0 <= n -> n + Z.of_nat (length (ctext ds)) < 2 ^ 31 ->
  out_format_loop fuel (cformat ds ++ 0 :: junk) (cargs ds ++ args) n s =
    (s ← type_text W B (ctext ds) s; Done (RelinquishSpinlock s, n + Z.of_nat (length (ctext ds)))).
Proof.
  induction ds as [|d ds IH]; intros fuel junk args n s Hok Hf Hn Hl; (destruct fuel as [|fuel]; [lia|]).
  { cbn [cformat mbind list_bind app out_format_loop]. rewrite Z.eqb_refl. cbn. do 2 f_equal. lia. }
  apply Forall_cons in Hok as [Hd Hok]. unfold cformat, cargs, ctext in *. cbn [mbind list_bind] in *.
  rewrite <- !app_assoc. rewrite !length_app in Hf, Hl. rewrite type_text_app, outcome_assoc, length_app.
  assert ((exists c, d = CLit c) \/ (forall c, d <> CLit c)) as [[c ->]|Hnl].
  { destruct d; [by left; eauto|right; by intros ? ?..]. }
  - destruct Hd as [H0 H37]. cbn [cformat_of cargs_of crender app out_format_loop type_text length] in *.
    rewrite (proj2 (Z.eqb_neq c 0)), (proj2 (Z.eqb_neq c 37)) by done. cbn [negb].
    rewrite outcome_assoc. unfold KrdwtpOutCharacter_NoSpin.
    destruct (KrdwtpOutColoredCharacter_NoSpin _ _ _ _); [|done..]. rewrite !bind_Done, s32_small by lia.
    rewrite IH by (done || lia). destruct (type_text _ _ _ _); [|done..]. rewrite !bind_Done. do 2 f_equal. lia.
  - destruct (out_directive_type d ((ds ≫= cformat_of) ++ 0 :: junk) ((ds ≫= cargs_of) ++ args) s Hd ltac:(lia) Hnl)
      as (c & more & Ef & Hc & Eo).
    rewrite Ef in *. cbn [app out_format_loop length] in *. cbn [Z.eqb Pos.eqb negb head checked tail].
    rewrite bind_Done, (proj2 (Z.eqb_neq c 0)), Eo, outcome_assoc by done.
    destruct (type_text W B (crender d) s); [|done..]. rewrite !bind_Done, s32_small by lia.
    rewrite IH by (done || lia). destruct (type_text _ _ _ _); [|done..]. rewrite !bind_Done. do 2 f_equal. lia.
Qed.

Lemma crender_nonzero d : cdirective_ok d -> Forall (fun c => c <> 0) (crender d).
Proof.
  pose proof u32_range as H1. pose proof s32_range as H2. pose proof u64_range as H3.
  destruct d; cbn [cdirective_ok crender]; intros Hok; try done; try (by repeat constructor);
    try (apply Forall_app; split; [by repeat constructor|]);
    try (apply unsigned_text_ok; [specialize (H1 w); specialize (H3 w); lia|lia]);
    try (apply signed_text_ok; [specialize (H1 w); specialize (H2 w); lia|lia]).
  - constructor; [apply Hok|done].
  - destruct (negb _); by repeat constructor.
Qed.
Lemma ctext_nonzero ds : Forall cdirective_ok ds -> Forall (fun c => c <> 0) (ctext ds).
Proof.
  induction 1 as [|d ds Hd _ IH]; [constructor|]. unfold ctext in *. cbn [mbind list_bind]. apply Forall_app. split; [|done].
  by apply crender_nonzero.
Qed.

(** The formatted output of a format string built from ordinary characters
    and the supported conversions, with arguments of the matching types, is the
    plain output of the rendered text: the same pixels, cursor, returned count
    and failures, and the digit buffer of 128 bytes is never exceeded. *)
Theorem format_text_equals_text ds junk args s :
  Forall cdirective_ok ds -> Z.of_nat (length (ctext ds)) < 2 ^ 31 ->
  KrdwtpOutFormatText s (cformat ds ++ 0 :: junk) (cargs ds ++ args) = KrdwtpOutText s (ctext ds ++ [0]).
Proof.
  intros Hok Hl. unfold KrdwtpOutFormatText, KrdwtpOutFormatTextVariadic, KrdwtpOutText, KrdwtpOutColoredText, KrdwtpOutColoredText_NoSpin.
  destruct (AcquireOrWaitSpinlock s) as [s1| | |]; [|done..]. rewrite !bind_Done.
  rewrite out_format_loop_types by (done || rewrite ?length_app; cbn [length]; lia).
  rewrite text_loop_type by (by apply ctext_nonzero || lia). destruct (type_text _ _ _ _); [|done..].
  rewrite !bind_Done. done.
Qed.

(** A console of five columns and three rows on a device with one text row to spare. *)
Definition sample_console : Dwtp :=
  mkDwtp 5120 40 24 40 0 0 0x1000 0x9000 4 g_KrdwtpDefaultFont_8x8 false false false (replicate 1280 0) (replicate 2560 0).
Definition sample_cdirectives : list cdirective := [CStr [111; 107] [7]; CPercent; CInt false (-1)].
Definition written (r : outcome (Dwtp * Z)) : outcome (Z * Z * Z) := p ← r; Done (CursorX p.1, CursorY p.1, p.2).

Example format_text_equals_text_witness :
  ctext sample_cdirectives = [111; 107; 37; 45; 49] /\
  written (KrdwtpOutFormatText sample_console (cformat sample_cdirectives ++ 0 :: [9]) (cargs sample_cdirectives ++ [])) = Done (0, 1, 5) /\
  KrdwtpOutFormatText sample_console (cformat sample_cdirectives ++ 0 :: [9]) (cargs sample_cdirectives ++ []) =
    KrdwtpOutText sample_console (ctext sample_cdirectives ++ [0]).
Proof.
  split; [vm_compute; reflexivity|]. split; [vm_compute; reflexivity|].
  apply (format_text_equals_text sample_cdirectives [9] [] sample_console); [repeat constructor; done|vm_compute; reflexivity].
Defined.

(** An unknown conversion returns -1 and frees the lock; what was printed before stays. *)
Example format_unknown_fails :
  written (KrdwtpOutFormatText sample_console [97; 37; 113; 0] []) = Done (1, 0, -1).
Proof. vm_compute. reflexivity. Qed.
