(* ===== verification/ConsoleThms.v ===== *)
(** * The text console: sequences of calls and their theorems *)
From Stdlib Require Import ZArith Lia.
From stdpp Require Import base numbers list.
From S2P Require Import Prelude BootstrapArena KrtlString Fonts Console ConsoleProps ConsoleSpec ConsoleFormat.
Open Scope Z_scope.

(** ** Sequences of calls *)

Inductive console_op :=
  | OpCharacter (ch fg bg : Z)
  | OpText (t : list Z) (fg bg : Z)
  | OpScroll
  | OpReset (k : Z)
  | OpReload (addr : Z)
  | OpUppercase (b : Z).

Definition op_ok (op : console_op) : Prop :=
  match op with
  | OpCharacter ch _ _ => 0 < ch < 128
  | OpText t _ _ => ascii t /\ Z.of_nat (length t) < 2 ^ 31
  | OpReload addr => addr <> 0
  | _ => True
  end.

Definition exec_op (s : Dwtp) (op : console_op) : outcome Dwtp :=
  match op with
  | OpCharacter ch fg bg => KrdwtpOutColoredCharacter s ch fg bg
  | OpText t fg bg => r ← KrdwtpOutColoredText s (t ++ [0]) fg bg; Done r.1
  | OpScroll => KrdwtpScroll s
  | OpReset k => KrdwtpResetState s k
  | OpReload addr => KrdwtpReloadFrameBuffer s addr
  | OpUppercase b => KrdwtpSetUppercaseMode s b
  end.

(** The abstract console with its upper-case mode. *)
Definition screen_op (nrows ncols : Z) (back : Z -> Z) (a : Screen * bool) (op : console_op) : outcome (Screen * bool) :=
  let '(a, up) := a in
  match op with
  | OpCharacter ch fg bg => a ← screen_char nrows ncols up back a ch fg bg; Done (a, up)
  | OpText t fg bg => a ← screen_text nrows ncols up back a t fg bg; Done (a, up)
  | OpScroll => Done (screen_scroll a, up)
  | OpReset k => Done (screen_reset nrows a k, up)
  | OpReload _ => Done (a, up)
  | OpUppercase b => Done (a, Z.odd b)
  end.

Fixpoint exec_ops (s : Dwtp) (ops : list console_op) : outcome Dwtp :=
  match ops with [] => Done s | op :: ops' => s ← exec_op s op; exec_ops s ops' end.
Fixpoint screen_ops (nrows ncols : Z) (back : Z -> Z) (a : Screen * bool) (ops : list console_op) : outcome (Screen * bool) :=
  match ops with [] => Done a | op :: ops' => a ← screen_op nrows ncols back a op; screen_ops nrows ncols back a ops' end.

(** Idle: the lock is free and the pixels show the screen. *)
Definition idle (s : Dwtp) (a : Screen * bool) : Prop :=
  ready s a.1 /\ bUppercaseMode s = a.2 /\ dwLock s = false.
(** What the operations leave alone. *)
Definition same_screen (s s' : Dwtp) : Prop := rows s' = rows s /\ columns s' = columns s /\ back_color s' = back_color s.

Definition op_outcome (s : Dwtp) (res : outcome Dwtp) (spec : outcome (Screen * bool)) : Prop :=
  match spec with
  | Done a' => exists s', res = Done s' /\ same_screen s s' /\ idle s' a'
  | Hang => res = Hang
  | _ => False
  end.

Lemma idle_of_config s s' a up :
  same_config s s' -> bUppercaseMode s = up -> ready s' a -> dwLock s' = false -> same_screen s s' /\ idle s' (a, up).
Proof.
  intros HC Hu Hr HL. destruct (same_config_rows _ _ HC) as (E1 & E2 & E3 & E4 & _).
  split; [done|]. split_and!; [done|cbn; congruence|done].
Qed.

Lemma screen_outcome_op s up res spec :
  bUppercaseMode s = up -> screen_outcome (set_dwlock s true) res spec ->
  op_outcome s (r ← res; Done (RelinquishSpinlock r)) (a ← spec; Done (a : Screen, up)).
Proof.
  intros Hu H. destruct spec as [a'| | |]; cbn in *; try done; [|by rewrite H].
  destruct H as (s' & -> & HC & _ & Hr). exists (RelinquishSpinlock s').
  assert (same_config s (RelinquishSpinlock s')) as HC'.
  { etrans; [apply (same_config_lock s true)|]. etrans; [done|apply same_config_lock]. }
  split; [done|]. apply idle_of_config; [done|done| |done].
  destruct Hr as (G & Hc & R). split_and!; [by eapply (same_config_geometry s')|done|by apply refines_lock].
Qed.

Lemma ready_locked s a b : ready s a -> ready (set_dwlock s b) a.
Proof. intros (G & Hc & R). split_and!; [by eapply (same_config_geometry s), G|done|by apply refines_lock]. Qed.

Lemma acquire_free s : dwLock s = false -> AcquireOrWaitSpinlock s = Done (set_dwlock s true).
Proof. intros H. unfold AcquireOrWaitSpinlock. by rewrite H. Qed.

Lemma scroll_op s a :
  ready s a -> screen_outcome (set_dwlock s true) (KrdwtpScroll_NoSpin (set_dwlock s true)) (Done (screen_scroll a)).
Proof.
  intros Hr. destruct (ready_locked s a true Hr) as (G & Hc & R). destruct Hc as [Hx Hy].
  destruct (decide (CursorY s = 0)) as [E0|Hne].
  - exists (set_dwlock s true). unfold KrdwtpScroll_NoSpin, screen_scroll. rewrite <- (rf_y _ _ R).
    cbn [CursorY set_dwlock]. rewrite E0. split_and!; [done|reflexivity|done|]. by split_and!.
  - destruct (scroll_refines _ G a ltac:(lia) ltac:(done) R) as (s' & E & HC & HL & R' & X' & Y').
    exists s'. destruct (same_config_rows _ _ HC) as (Er & Ec & _). pose proof (g_columns _ G).
    split_and!; [done|done|done|]. split_and!; [by eapply same_config_geometry| |done].
    unfold cursor_ok. rewrite Er, Ec, X', Y'. cbn [CursorY set_dwlock] in *. lia.
Qed.

Lemma op_refines s a op :
  idle s a -> op_ok op -> op_outcome s (exec_op s op) (screen_op (rows s) (columns s) (back_color s) a op).
Proof.
  destruct a as [a up]. intros (Hr & Hu & HL) Hok. cbn [fst snd] in *. pose proof (ready_locked s a true Hr) as Hr'.
  destruct op as [ch fg bg|t fg bg| |k|addr|b]; cbn [exec_op screen_op op_ok] in *.
  - unfold KrdwtpOutColoredCharacter. rewrite acquire_free, bind_Done by done.
    apply screen_outcome_op; [done|]. rewrite <- Hu. by apply (char_refines (set_dwlock s true)).
  - destruct Hok as [Ht Hlen]. destruct (text_refines t _ a 0 fg bg [] Hr' eq_refl Ht ltac:(lia) ltac:(lia)) as [H _].
    unfold KrdwtpOutColoredText, KrdwtpOutColoredText_NoSpin. rewrite acquire_free, bind_Done by done.
    rewrite <- Hu. apply (screen_outcome_op s (bUppercaseMode s)) in H; [|done]. cbn [bUppercaseMode set_dwlock] in H.
    destruct (text_loop _ _ _ _ _) as [[s1 w]| | |]; exact H.
  - unfold KrdwtpScroll. rewrite acquire_free, bind_Done by done. apply (screen_outcome_op s up _ (Done (screen_scroll a))); [done|].
    by apply scroll_op.
  - destruct (reset_refines s a k Hr HL) as (s' & E & HC & HL' & Hr2). exists s'. split; [done|]. by apply idle_of_config.
  - unfold KrdwtpReloadFrameBuffer. rewrite acquire_free, bind_Done by done. eexists. split; [reflexivity|]. split; [done|].
    destruct Hr as (G & Hc & R). split_and!; [|done|done]. split_and!; [|done|by destruct R]. destruct G. by split.
  - unfold KrdwtpSetUppercaseMode. rewrite acquire_free, bind_Done by done. eexists. split; [reflexivity|]. split; [done|].
    destruct Hr as (G & Hc & R). split_and!; [|done|done]. split_and!; [|done|by destruct R]. destruct G. by split.
Qed.

Lemma ops_refine ops : forall s a,
  idle s a -> Forall op_ok ops ->
  op_outcome s (exec_ops s ops) (screen_ops (rows s) (columns s) (back_color s) a ops).
Proof.
  induction ops as [|op ops IH]; intros s a Hi Hok; cbn [exec_ops screen_ops].
  { exists s. by split_and!. }
  apply Forall_cons in Hok as [Hop Hok]. pose proof (op_refines s a op Hi Hop) as H.
  destruct (screen_op _ _ _ _ _) as [a1| | |]; cbn [op_outcome] in H; try done; [|by rewrite H].
  destruct H as (s1 & -> & (E1 & E2 & E3) & Hi1). rewrite !bind_Done. rewrite <- E1, <- E2, <- E3.
  specialize (IH s1 a1 Hi1 Hok). destruct (screen_ops _ _ _ _ _) as [a2| | |]; cbn [op_outcome] in *; try done.
  destruct IH as (s2 & ? & (? & ? & ?) & ?). exists s2. split_and!; [done|split_and!; congruence|done].
Qed.

(** ** The console from its initialisation *)

(** After the initialisation only the row below the device memory is known:
    it is blank in the copy. *)
Definition initial_screen (nrows : Z) : Screen := mkScreen (fun r _ => if r =? nrows + 1 then Blank 0 else Unknown) 0 0.

Section Initial.
Context (F : Font) (Addr Width Height Ppsl : Z) (Frames : list Z).
Let rowh := RowsPerEntry F * ScaleFactor F.
Let colw := ColumnsPerEntry F * ScaleFactor F.

(** The arguments of KrdwtpInitialize describe a frame buffer with memory for
    one text row more than fits on the screen. *)
Record init_ok : Prop := {
  io_font : exists cs, font_ok F cs;
  io_addr : Addr <> 0;
  io_size : 4 * Z.of_nat (length Frames) < 2 ^ 31;
  io_columns : 0 < Width / colw;
  io_width : 0 <= Width <= Ppsl;
  io_height : 0 <= Height;
  io_fit : (Height / rowh + 1) * rowh * Ppsl <= Z.of_nat (length Frames)
}.

Lemma initialize_idle s0 arena p arena' :
  init_ok -> dwLock s0 = false -> KrBootstrapArenaAcquire arena (8 * Z.of_nat (length Frames)) = (arena', p) -> p <> 0 ->
  exists s, KrdwtpInitialize s0 arena F Addr (4 * Z.of_nat (length Frames)) Width Height Ppsl Frames = Done (s, arena') /\
    idle s (initial_screen (Height / rowh), false) /\ rows s = Height / rowh /\ columns s = Width / colw /\
    back_color s = back_color s0.
Proof using.
  intros [H1 H2 H3 H4 H5 H6 H7] HL HA Hp. unfold KrdwtpInitialize. rewrite acquire_free, bind_Done by done.
  rewrite (u32_small (_ * 2)) by lia. replace (4 * Z.of_nat (length Frames) * 2) with (8 * Z.of_nat (length Frames)) by lia.
  rewrite HA. replace (8 * Z.of_nat (length Frames)) with (2 * Z.of_nat (length Frames) * 4) by lia.
  rewrite pixels_mul4, bind_Done. rewrite (proj2 (Z.eqb_neq p 0)) by done. cbn [andb].
  eexists. split; [reflexivity|]. set (s := mkDwtp _ _ _ _ _ _ _ _ _ _ _ _ _ _ _).
  assert (geometry s) as G.
  { split; cbn; try done. rewrite length_replicate. lia. }
  split_and!; [|done..]. split_and!; [|done..]. split_and!; [done| |].
  - pose proof (rows_nonneg s G). pose proof (g_columns s G). unfold cursor_ok. cbn [CursorX CursorY s]. lia.
  - split; [done|done| |]; cbn [Vram Ram s fst initial_screen cells]; intros r c Row bit sy sx k Hr Hc Hi;
      change (Height / rowh) with (rows s); destruct (Z.eqb_spec r (rows s + 1)) as [->|]; try done; [lia|].
    intros [= <-]. apply lookup_replicate_2. pose proof (pos_bound s G (rows s + 1) c _ _ _ _ ltac:(lia) Hc Hi).
    pose proof (g_fit s G). pose proof (rows_nonneg s G). cbn [Vram s] in *.
    pose proof (rowh_pos s G). pose proof (ppsl_pos s G).
    assert (0 <= rows s * (ConsoleProps.rowh s * PixelsPerScanLine s)) by (apply Z.mul_nonneg_nonneg; nia). lia.
Qed.
End Initial.

(** ** Properties *)

(** C9: from its initialisation on a suitable frame buffer, the console implements
    the abstract screen: after any sequence of calls both frame buffers show the
    cells of the screen pixel by pixel and the cursors agree, and the calls hang
    exactly where the screen says that a full line below the last row waits for
    the lock its own call holds. *)
Theorem console_refines_screen s0 arena F Addr Width Height Ppsl Frames arena' p ops :
  init_ok F Addr Width Height Ppsl Frames -> dwLock s0 = false ->
  KrBootstrapArenaAcquire arena (8 * Z.of_nat (length Frames)) = (arena', p) -> p <> 0 -> Forall op_ok ops ->
  let nrows := Height / (RowsPerEntry F * ScaleFactor F) in
  let ncols := Width / (ColumnsPerEntry F * ScaleFactor F) in
  let run := r ← KrdwtpInitialize s0 arena F Addr (4 * Z.of_nat (length Frames)) Width Height Ppsl Frames; exec_ops r.1 ops in
  match screen_ops nrows ncols (back_color s0) (initial_screen nrows, false) ops with
  | Done (a, up) => exists s, run = Done s /\ CursorX s = cellX a /\ CursorY s = cellY a /\ bUppercaseMode s = up /\
      dwLock s = false /\ shows s nrows (Vram s) (cells a) /\ shows s nrows (Ram s) (cells a)
  | Hang => run = Hang
  | _ => False
  end.
Proof.
  intros Hi HL HA Hp Hok. cbv zeta.
  destruct (initialize_idle F Addr Width Height Ppsl Frames s0 arena p arena' Hi HL HA Hp) as (s & -> & Hid & Er & Ec & Eb).
  rewrite bind_Done. cbn [fst]. rewrite <- Er, <- Ec, <- Eb. rewrite <- Er in Hid. pose proof (ops_refine ops s _ Hid Hok) as H.
  destruct (screen_ops _ _ _ _ _) as [[a up]| | |]; cbn [op_outcome] in H; try done.
  destruct H as (s' & E & (Es & _) & ((G & Hc & [Rx Ry Rv Rr]) & Hu & HL')). exists s'. rewrite <- Es.
  split_and!; try done. intros r c Row bit sy sx k Hr. apply Rr. lia.
Qed.

(** C38: on a frame buffer with room for one text row below the last full one
    ([g_fit] of [geometry]; the bound check lets the cursor stand there, and
    [text_past_last_row] below leaves the memory where that room is missing), no call can
    corrupt the console: from any well-formed state, any sequence of calls either
    ends in a well-formed state with the cursor inside the character grid and the
    lock free, or hangs; it never accesses memory outside the frame buffers, divides
    by zero or melts down. *)
Theorem console_well_formed s ops :
  geometry s -> cursor_ok s -> dwLock s = false -> Forall op_ok ops ->
  match exec_ops s ops with
  | Done s' => geometry s' /\ cursor_ok s' /\ dwLock s' = false
  | Hang => True
  | _ => False
  end.
Proof.
  intros G Hc HL Hok. set (a := mkScreen (fun _ _ => Unknown) (CursorX s) (CursorY s)).
  assert (idle s (a, bUppercaseMode s)) as Hi by (split_and!; [split_and!; [done..|split; done]|done|done]).
  pose proof (ops_refine ops s _ Hi Hok) as H. destruct (screen_ops _ _ _ _ _); cbn [op_outcome] in H; try done.
  - by destruct H as (s' & -> & _ & (G' & Hc' & _) & _ & HL').
  - by rewrite H.
Qed.

(** The lines of a text stay left of the last column, from column [x] on. *)
Fixpoint lines_fit (ncols x : Z) (t : list Z) : bool :=
  match t with
  | [] => true
  | c :: t' => if c =? 10 then lines_fit ncols 0 t' else (x + 1 <? ncols) && lines_fit ncols (x + 1) t'
  end.

Lemma lines_fit_done nrows ncols up back fg bg t : forall a,
  lines_fit ncols (cellX a) t = true -> exists a', screen_text nrows ncols up back a t fg bg = Done a'.
Proof.
  assert (forall a, cellX (screen_newline nrows a) = 0) as Hnl.
  { intros a. unfold screen_newline, screen_scroll. cbn. repeat case_match; done. }
  induction t as [|c t IH]; intros a Hf; cbn [screen_text lines_fit] in *; [by eexists|].
  unfold screen_char. destruct (Z.eqb_spec c 10) as [->|].
  - rewrite bind_Done. apply IH. by rewrite Hnl.
  - apply andb_true_iff in Hf as [H1 H2]. apply Z.ltb_lt in H1. cbn [cellX]. rewrite Z.geb_leb, (proj2 (Z.leb_gt _ _)) by done.
    rewrite bind_Done. by apply IH.
Qed.

(** Output whose lines stay left of the last column always returns, however
    many lines it has and wherever the cursor stands: the screen scrolls, the
    count is the length of the text and the lock is free again. *)
Theorem short_lines_return s t fg bg junk :
  geometry s -> cursor_ok s -> dwLock s = false -> ascii t -> Z.of_nat (length t) < 2 ^ 31 ->
  lines_fit (columns s) (CursorX s) t = true ->
  exists s', KrdwtpOutColoredText s (t ++ 0 :: junk) fg bg = Done (s', Z.of_nat (length t)) /\
    geometry s' /\ cursor_ok s' /\ dwLock s' = false.
Proof.
  intros G Hc HL Ht Hlen Hfit. set (a := mkScreen (fun _ _ => Unknown) (CursorX s) (CursorY s)).
  assert (ready (set_dwlock s true) a) as Hr by (apply ready_locked; split_and!; [done..|split; done]).
  destruct (text_refines t _ a 0 fg bg junk Hr eq_refl Ht ltac:(lia) ltac:(lia)) as [H1 H2].
  destruct (lines_fit_done (rows s) (columns s) (bUppercaseMode s) (back_color s) fg bg t a Hfit) as [a' E].
  change (screen_text _ _ _ _ _ _ _ _) with (screen_text (rows s) (columns s) (bUppercaseMode s) (back_color s) a t fg bg) in H1.
  rewrite E in H1. destruct H1 as (s' & E' & HC & _ & (G' & Hc' & _)).
  unfold KrdwtpOutColoredText, KrdwtpOutColoredText_NoSpin. rewrite acquire_free, bind_Done by done.
  destruct (text_loop _ _ _ _ _) as [[s1 w]| | |] eqn:El; try done. injection E' as ->. rewrite (H2 _ _ eq_refl).
  exists (RelinquishSpinlock s'). split_and!; [done| |done|done].
  eapply (same_config_geometry s'); [apply same_config_lock|done].
Qed.

(** A character that fills a line below the last row hangs the console. *)
Lemma full_last_line_hangs s ch fg bg :
  geometry s -> dwLock s = false -> CursorX s = columns s - 1 -> CursorY s = rows s -> 0 < ch < 128 -> ch <> 10 ->
  KrdwtpOutColoredCharacter s ch fg bg = Hang.
Proof.
  intros G HL Hx Hy Hch Hnl. set (a := mkScreen (fun _ _ => Unknown) (CursorX s) (CursorY s)).
  pose proof (g_columns s G). pose proof (rows_nonneg s G).
  assert (idle s (a, bUppercaseMode s)) as Hi by (split_and!; [split_and!; [done|unfold cursor_ok; lia|split; done]|done|done]).
  pose proof (op_refines s _ (OpCharacter ch fg bg) Hi Hch) as Ho. cbn [screen_op exec_op] in Ho.
  unfold screen_char in Ho. rewrite (proj2 (Z.eqb_neq ch 10)) in Ho by done. cbn [cellX cellY a] in Ho.
  rewrite Z.geb_leb, (proj2 (Z.leb_le _ _)), Z.gtb_ltb, (proj2 (Z.ltb_lt _ _)) in Ho by lia. exact Ho.
Qed.

(** ** Witnesses *)

Definition sample_frames : list Z := replicate 1280 7.
Definition sample_arena : Arena := mkArena 0x10000 0x10000 0x20000.
Definition unused_console : Dwtp := mkDwtp 0 0 0 0 0 0 0 0 0 zero_font false false false [] [].
Definition sample_ops : list console_op :=
  [OpReset 5; OpText [72; 105; 10; 97] 1 2; OpUppercase 1; OpScroll; OpCharacter 98 3 4; OpReload 0x2000].

Lemma sample_font_ok : font_ok g_KrdwtpDefaultFont_8x8 (concat g_KrdwtpDefaultFont_8x8_Charset).
Proof. apply default_fonts_ok. Qed.
Lemma sample_init_ok : init_ok g_KrdwtpDefaultFont_8x8 0x1000 40 24 40 sample_frames.
Proof. split; [eexists; apply sample_font_ok|done..]. Qed.

Example console_refines_screen_witness :
  exists a s, screen_ops 3 5 (back_color unused_console) (initial_screen 3, false) sample_ops = Done (a, true) /\
    cells a 0 0 = Glyph 66 3 4 /\ cells a 0 1 = Blank 5 /\ cells a 1 0 = Blank 0 /\ cells a 2 4 = Blank 5 /\
    (r ← KrdwtpInitialize unused_console sample_arena g_KrdwtpDefaultFont_8x8 0x1000 (4 * Z.of_nat (length sample_frames)) 40 24 40 sample_frames;
     exec_ops r.1 sample_ops) = Done s /\ CursorX s = 1 /\ CursorY s = 0 /\ shows s 3 (Vram s) (cells a).
Proof.
  pose proof (console_refines_screen unused_console sample_arena g_KrdwtpDefaultFont_8x8 0x1000 40 24 40 sample_frames
    (mkArena 0x10000 0x12800 0x20000) 0x10000 sample_ops sample_init_ok eq_refl ltac:(vm_compute; reflexivity) ltac:(done)
    ltac:(repeat (apply Forall_cons; split; [repeat constructor; done|]); constructor)) as H.
  cbv zeta in H. set (a := match screen_ops 3 5 (back_color unused_console) (initial_screen 3, false) sample_ops with Done a => a.1 | _ => initial_screen 3 end).
  change (screen_ops _ _ _ _ _) with (Done (a, true)) in H. destruct H as (s & E & Hx & Hy & _ & _ & Hv & _).
  exists a, s. split_and!; try done; reflexivity.
Defined.

Lemma sample_geometry : geometry sample_console.
Proof. split; [eexists; apply sample_font_ok|done..]. Qed.

Example console_well_formed_witness :
  geometry sample_console /\
  match exec_ops sample_console sample_ops with
  | Done s' => geometry s' /\ cursor_ok s' /\ dwLock s' = false
  | Hang => True
  | _ => False
  end.
Proof.
  split; [exact sample_geometry|].
  apply (console_well_formed sample_console sample_ops sample_geometry ltac:(done) eq_refl).
  repeat (apply Forall_cons; split; [repeat constructor; done|]). constructor.
Defined.

(** Six lines on three rows. *)
Definition six_lines : list Z := [97; 98; 10; 99; 10; 100; 101; 102; 10; 10; 103; 10; 104].
Example short_lines_return_witness :
  exists s', KrdwtpOutColoredText sample_console (six_lines ++ 0 :: [1]) 1 2 = Done (s', 13) /\
    geometry s' /\ cursor_ok s' /\ dwLock s' = false.
Proof.
  apply (short_lines_return sample_console six_lines 1 2 [1] sample_geometry ltac:(done) eq_refl); [|done|done].
  repeat (apply Forall_cons; split; [done|]). constructor.
Defined.

(** ** Divergences *)

(** Twenty characters fill the four rows of the sample console: the last one
    scrolls through the locking variant and waits for its own lock. *)
Example wrap_deadlock :
  KrdwtpOutText sample_console (replicate 20 65 ++ [0]) = Hang /\
  (r ← KrdwtpOutText sample_console (replicate 19 65 ++ [0]); Done r.2) = Done 19.
Proof. split; vm_compute; reflexivity. Qed.

(** Without memory below the last full row the text leaves the frame buffer:
    the bound check lets the cursor stand on row 3 of rows 0 to 2. *)
Example text_past_last_row :
  KrdwtpOutText (mkDwtp 3840 40 24 40 0 3 0x1000 0x9000 4 g_KrdwtpDefaultFont_8x8 false false false (replicate 960 0) (replicate 1920 0)) [65; 0] = Fault.
Proof. vm_compute. reflexivity. Qed.

(** The guard on the number of glyphs is inverted: a font that states its 128
    glyphs prints nothing. *)
Definition with_entries (f : Font) (n : Z) : Font :=
  mkFont (CharacterSet f) n (ColumnsPerEntry f) (RowsPerEntry f) (ScaleFactor f) (bDirectionBit f).
Example entries_silence_console :
  let s := mkDwtp 5120 40 24 40 0 0 0x1000 0x9000 4 (with_entries g_KrdwtpDefaultFont_8x8 128) false false false (replicate 1280 0) (replicate 2560 0) in
  KrdwtpOutText s [65; 66; 0] = Done (s, 2).
Proof. vm_compute. reflexivity. Qed.
