(* ===== verification/DirectMap.v ===== *)
(** * The kernel's first page tables (Kernel/Source/Memory/PrivateVMM/BSmapInit.h,
    PrivateVMM/DmapInit.h and the start of Kernel/Source/Memory/Virtmemmgmt.c)

    Physical memory is a store of 64-bit words keyed by physical address.  A
    pointer is dereferenced as the processor does it: through the page tables
    in that same memory, once CR3 is loaded; an address they do not map is a
    [Fault].  Before that the loader maps the reserved area of the kernel. *)
From Stdlib Require Import ZArith Lia.
From stdpp Require Import base numbers list gmap.
From S2P Require Import Prelude PhysBitmap KrtlMem BootstrapArena MemoryMap Physmemmgmt Pte Vmr PageTable PageTableSpec.
Open Scope Z_scope.

Definition DMAP_PML4_IDX : Z := 256.
Definition KRNL_PML4_IDX : Z := 511.
Definition KRNL_BINARY_PDPT_IDX : Z := 510.
Definition KRNL_VIDEO_FBUF_IDX : Z := 511.
Definition KR_PAGE_STRUCTURE_SIZE : Z := 4096.
Definition KR_MEMORY_TYPE_ACPI_MEMORY_NVS : Z := 10.
Definition KR_MDCODE_DMAP_SETUP_DEVCHECK : Z := 0x4003.
Definition KR_MDCODE_VIRTMEMMGMT_INIT_FAILURE : Z := 0x2003.

(** ** State *)

Record KrLoadInfo := mkLoadInfo { ReserveSize : Z; AddrPhysicalBase : Z; AddrVirtualBase : Z }.
Record KrFrameBufferInfo := mkFbInfo { fbPhysicalAddress : Z; fbSize : Z }.

(** The virtual addresses the linker gave the static tables. *)
Record Image := mkImage { g_PML4 : Z; g_KernelPDPT : Z; g_KernelPD : Z; g_FrameBufferPD : Z }.

Record DmapInfo := mkDmapInfo { TotalPageStructs : Z; HugePages : Z; LargePages : Z; SmallPages : Z; dmTotalPages : Z }.

Record Boot := mkBoot {
  LoadInfo : KrLoadInfo;
  FrameBufferInfo : KrFrameBufferInfo;
  CanonicalMemoryMap : list KrMemoryDescriptor;
  FirmwareMap : list KrMemoryDescriptor;
  img : Image;
  bPat : KrPatMsrState;
  bpslDefault : KrPatSelect;
  bHugePageSupport : bool;
  DmapBase : Z;
  CR3 : Z;
  bArena : Arena;
  bPmm : Pmm;
  Dmap : DmapInfo;
  Phys : gmap Z Z
}.

Definition with_phys (s : Boot) (m : gmap Z Z) : Boot :=
  mkBoot (LoadInfo s) (FrameBufferInfo s) (CanonicalMemoryMap s) (FirmwareMap s) (img s) (bPat s) (bpslDefault s)
    (bHugePageSupport s) (DmapBase s) (CR3 s) (bArena s) (bPmm s) (Dmap s) m.
Definition with_dmap (s : Boot) (d : DmapInfo) : Boot :=
  mkBoot (LoadInfo s) (FrameBufferInfo s) (CanonicalMemoryMap s) (FirmwareMap s) (img s) (bPat s) (bpslDefault s)
    (bHugePageSupport s) (DmapBase s) (CR3 s) (bArena s) (bPmm s) d (Phys s).
Definition with_arena (s : Boot) (a : Arena) : Boot :=
  mkBoot (LoadInfo s) (FrameBufferInfo s) (CanonicalMemoryMap s) (FirmwareMap s) (img s) (bPat s) (bpslDefault s)
    (bHugePageSupport s) (DmapBase s) (CR3 s) a (bPmm s) (Dmap s) (Phys s).
Definition with_bpmm (s : Boot) (pm : Pmm) : Boot :=
  mkBoot (LoadInfo s) (FrameBufferInfo s) (CanonicalMemoryMap s) (FirmwareMap s) (img s) (bPat s) (bpslDefault s)
    (bHugePageSupport s) (DmapBase s) (CR3 s) (bArena s) pm (Dmap s) (Phys s).
Definition with_bases (s : Boot) (d c : Z) : Boot :=
  mkBoot (LoadInfo s) (FrameBufferInfo s) (CanonicalMemoryMap s) (FirmwareMap s) (img s) (bPat s) (bpslDefault s)
    (bHugePageSupport s) d c (bArena s) (bPmm s) (Dmap s) (Phys s).

Definition KrReservedVirtToPhys (s : Boot) (Virt : Z) : Z :=
  u64 (AddrPhysicalBase (LoadInfo s) + u64 (Virt - AddrVirtualBase (LoadInfo s))).
Definition KrReservedPhysToVirt (s : Boot) (Phys : Z) : Z :=
  u64 (AddrVirtualBase (LoadInfo s) + u64 (Phys - AddrPhysicalBase (LoadInfo s))).

(** ** Memory access through the tables at CR3 *)

Definition resolve (s : Boot) (Vaddr : Z) : outcome Z :=
  match mmu_translate (Phys s) 0 (CR3 s) Vaddr with Some (p, _) => Done p | None => Fault end.
Definition vread (s : Boot) (pTable Index : Z) : outcome Z :=
  p ← resolve s (u64 (pTable + 8 * Index)); checked (Phys s !! p).
Definition vwrite (s : Boot) (pTable Index e : Z) : outcome Boot :=
  p ← resolve s (u64 (pTable + 8 * Index)); Done (with_phys s (<[p := e]> (Phys s))).
(** KrtlContiguousZeroBuffer of [n] pages. *)
Fixpoint vzero_pages (n : nat) (s : Boot) (Vaddr : Z) : outcome Boot :=
  match n with
  | O => Done s
  | S n' => p ← resolve s Vaddr; vzero_pages n' (with_phys s (zero_page (Phys s) p)) (u64 (Vaddr + 4096))
  end.

(** No check of the processor's support yet: the manager is not initialised. *)
Definition encode (T : KrTypePTE) (PhysAddrBase Flags : Z) (psl : KrPatSelect) : Z := (PteEncodeEntry false T PhysAddrBase Flags psl).1.

(** ** BSmapInit.h *)

(** A store to [pTable[Index]] of a static table through the loader's mapping. *)
Definition put_static (s : Boot) (pTable Index e : Z) : outcome Boot :=
  if (0 <=? Index) && (Index <? 512)
  then Done (with_phys s (<[KrReservedVirtToPhys s pTable + 8 * Index := e]> (Phys s))) else Fault.

Fixpoint static_loop (n : nat) (s : Boot) (pTable Base Flags : Z) (psl : KrPatSelect) (i : Z) : outcome Boot :=
  match n with
  | O => Done s
  | S n' =>
      s ← put_static s pTable i (encode PD2MB_ENTRY (u64 (Base + u32 (i * 0x200000))) Flags psl);
      static_loop n' s pTable Base Flags psl (i + 1)
  end.

Definition KrVmmInitKernelStaticPages (s : Boot) : outcome Boot :=
  let s := with_bases s (KR_MAKE_VIRTUAL DMAP_PML4_IDX 0 0 0 0) (CR3 s) in
  let qwFlags := Z.lor PTE_PRESENT PTE_WRITABLE in
  let psl := bpslDefault s in
  s ← put_static s (g_PML4 (img s)) KRNL_PML4_IDX (encode PML4_ENTRY (KrReservedVirtToPhys s (g_KernelPDPT (img s))) qwFlags psl);
  s ← put_static s (g_KernelPDPT (img s)) KRNL_BINARY_PDPT_IDX (encode PDPT_ENTRY (KrReservedVirtToPhys s (g_KernelPD (img s))) qwFlags psl);
  s ← put_static s (g_KernelPDPT (img s)) KRNL_VIDEO_FBUF_IDX (encode PDPT_ENTRY (KrReservedVirtToPhys s (g_FrameBufferPD (img s))) qwFlags psl);
  let szKernelPageCount := u32 (u64 (ReserveSize (LoadInfo s) + 0x200000 - 1) / 0x200000) in
  s ← static_loop (Z.to_nat szKernelPageCount) s (g_KernelPD (img s)) (AddrPhysicalBase (LoadInfo s)) qwFlags psl 0;
  let szFrameBufferPageCount := u32 (fbSize (FrameBufferInfo s) + 0x200000 - 1) / 0x200000 in
  let szFrameBufferPageCount := if szFrameBufferPageCount =? 0 then 1 else szFrameBufferPageCount in
  pslWC ← KrSelectPat (bPat s) KR_PAT_WRITE_COMBINING;
  static_loop (Z.to_nat szFrameBufferPageCount) s (g_FrameBufferPD (img s)) (fbPhysicalAddress (FrameBufferInfo s))
    (Z.lor qwFlags PTE_NX) pslWC 0.

(** ** DmapInit.h *)

Record KrDirectMappingContext := mkDctx {
  PhysAddrBarenaBase : Z;
  NumBarenaMaxStructs : Z;
  NumTotalAcqPageStructs : Z;
  WorkingBase : Z;
  WorkingCur : Z;
  LastAcqPageID : Z
}.

Definition KrdmiAcquirePageStruct (s : Boot) (c : KrDirectMappingContext) : outcome (Boot * KrDirectMappingContext * Z) :=
  if NumTotalAcqPageStructs c <? NumBarenaMaxStructs c then
    Done (s, mkDctx (PhysAddrBarenaBase c) (NumBarenaMaxStructs c) (u32 (NumTotalAcqPageStructs c + 1)) (WorkingBase c)
               (u64 (WorkingCur c + KR_PAGE_STRUCTURE_SIZE)) (LastAcqPageID c), WorkingCur c)
  else
    '(pm, id) ← PmAcquirePage (bPmm s) PAGE_TYPE_PAGE_STRUCT IVLDPGID;
    let s := with_bpmm s pm in
    if id =? IVLDPGID then
      Done (s, mkDctx (PhysAddrBarenaBase c) (NumBarenaMaxStructs c) (NumTotalAcqPageStructs c) (WorkingBase c) (WorkingCur c) id, 0)
    else
      '(pm, _) ← KrReservePhysicalPage pm id;
      let s := with_bpmm s pm in
      let w := u64 (DmapBase s + KrGetPhysicalPageAddress pm id) in
      s ← vzero_pages 1 s w;
      Done (s, mkDctx (PhysAddrBarenaBase c) (NumBarenaMaxStructs c) (u32 (NumTotalAcqPageStructs c + 1)) w w id, w).

Definition KrdmiGetPhysicalOfLastPageStruct (s : Boot) (c : KrDirectMappingContext) : Z :=
  if NumTotalAcqPageStructs c <=? NumBarenaMaxStructs c
  then u64 (PhysAddrBarenaBase c + u32 (u32 (NumTotalAcqPageStructs c - 1) * KR_PAGE_STRUCTURE_SIZE))
  else KrGetPhysicalPageAddress (bPmm s) (LastAcqPageID c).

Definition KrdmiGetVirtualOfPTE (s : Boot) (AddrPhysical : Z) : Z :=
  let PhysAddrBarenaBase := KrReservedVirtToPhys s (ArenaBase (bArena s)) in
  let PhysAddrBarenaEnd := KrReservedVirtToPhys s (ArenaEnd (bArena s)) in
  if (AddrPhysical >=? PhysAddrBarenaBase) && (AddrPhysical <? PhysAddrBarenaEnd)
  then KrReservedPhysToVirt s AddrPhysical
  else u64 (DmapBase s + AddrPhysical).

Definition dmap_flags : Z := Z.lor (Z.lor PTE_PRESENT PTE_WRITABLE) PTE_NX.

Definition KrdmiGetOrAcquirePageStruct (s : Boot) (c : KrDirectMappingContext) (T : KrTypePTE) (pMaster Index : Z)
    : outcome (Boot * KrDirectMappingContext * Z) :=
  if (Index >? 511) || bool_decide (T = INVALID_PTE_TYPE) || bool_decide (T = PML4_ENTRY) then Melt KR_MDCODE_DMAP_SETUP_DEVCHECK
  else
    e ← vread s pMaster Index;
    if has_flag e PTE_PRESENT then Done (s, c, KrdmiGetVirtualOfPTE s (Z.land e PTE_PHYSADDR_MASK))
    else
      '(s, c, pPTE) ← KrdmiAcquirePageStruct s c;
      if pPTE =? 0 then Melt KR_MDCODE_VIRTMEMMGMT_INIT_FAILURE
      else
        psl ← KrSelectPat (bPat s) KR_PAT_WRITE_BACK;
        s ← vwrite s pMaster Index (encode (KrGetParentPteType T) (KrdmiGetPhysicalOfLastPageStruct s c) dmap_flags psl);
        Done (s, c, pPTE).

Definition ONEGIB : Z := 0x40000000.
Definition TWOMIB : Z := 0x200000.
Definition FOURKIB : Z := 0x1000.

(** The kind of page the next mapping uses. *)
Definition dmap_mode (bHuge : bool) (PhysAddrRegion szRegionSize : Z) : KrVirtualAddressMode :=
  if bHuge && (Z.land PhysAddrRegion (ONEGIB - 1) =? 0) && (szRegionSize >=? ONEGIB) then VADDR_HUGE
  else if (Z.land PhysAddrRegion (TWOMIB - 1) =? 0) && (szRegionSize >=? TWOMIB) then VADDR_LARGE
  else VADDR_SMALL.
Definition mode_size (m : KrVirtualAddressMode) : Z :=
  match m with VADDR_HUGE => ONEGIB | VADDR_LARGE => TWOMIB | VADDR_SMALL => FOURKIB end.
Definition mode_leaf (m : KrVirtualAddressMode) : KrTypePTE :=
  match m with VADDR_HUGE => PDP1GB_ENTRY | VADDR_LARGE => PD2MB_ENTRY | VADDR_SMALL => PT_ENTRY end.
Definition count_page (d : DmapInfo) (m : KrVirtualAddressMode) : DmapInfo :=
  mkDmapInfo (TotalPageStructs d) (u64 (HugePages d + match m with VADDR_HUGE => 1 | _ => 0 end))
    (u64 (LargePages d + match m with VADDR_LARGE => 1 | _ => 0 end))
    (u64 (SmallPages d + match m with VADDR_SMALL => 1 | _ => 0 end)) (u64 (dmTotalPages d + 1)).

(** The descent of the three cases: the table that gets the leaf, and its index. *)
Definition dmap_table (s : Boot) (c : KrDirectMappingContext) (m : KrVirtualAddressMode) (x : KrVirtualAddress)
    : outcome (Boot * KrDirectMappingContext * Z * Z) :=
  match m with
  | VADDR_HUGE =>
      '(s, c, PDPT) ← KrdmiGetOrAcquirePageStruct s c PDP1GB_ENTRY (g_PML4 (img s)) (vPML4 x);
      Done (s, c, PDPT, vPDPT x)
  | VADDR_LARGE =>
      '(s, c, PDPT) ← KrdmiGetOrAcquirePageStruct s c PDPT_ENTRY (g_PML4 (img s)) (vPML4 x);
      '(s, c, PD) ← KrdmiGetOrAcquirePageStruct s c PD2MB_ENTRY PDPT (vPDPT x);
      Done (s, c, PD, vPD x)
  | VADDR_SMALL =>
      '(s, c, PDPT) ← KrdmiGetOrAcquirePageStruct s c PDPT_ENTRY (g_PML4 (img s)) (vPML4 x);
      '(s, c, PD) ← KrdmiGetOrAcquirePageStruct s c PD_ENTRY PDPT (vPDPT x);
      '(s, c, PT) ← KrdmiGetOrAcquirePageStruct s c PT_ENTRY PD (vPD x);
      Done (s, c, PT, vPT x)
  end.

(** One iteration of the while loop. *)
Definition dmap_step (s : Boot) (c : KrDirectMappingContext) (psl : KrPatSelect) (PhysAddrRegion szRegionSize : Z)
    : outcome (Boot * KrDirectMappingContext) :=
  let ModeVA := dmap_mode (bHugePageSupport s) PhysAddrRegion szRegionSize in
  let Vidx := KrUnmakeVirtual ModeVA (u64 (DmapBase s + PhysAddrRegion)) in
  '(s, c, T, i) ← dmap_table s c ModeVA Vidx;
  s ← vwrite s T i (encode (mode_leaf ModeVA) PhysAddrRegion dmap_flags psl);
  Done (with_dmap s (count_page (Dmap s) ModeVA), c).

Fixpoint dmap_region (fuel : nat) (s : Boot) (c : KrDirectMappingContext) (psl : KrPatSelect) (PhysAddrRegion szRegionSize : Z)
    : outcome (Boot * KrDirectMappingContext) :=
  match fuel with
  | O => Hang
  | S fuel' =>
      if szRegionSize =? 0 then Done (s, c)
      else
        let size := mode_size (dmap_mode (bHugePageSupport s) PhysAddrRegion szRegionSize) in
        '(s, c) ← dmap_step s c psl PhysAddrRegion szRegionSize;
        dmap_region fuel' s c psl (u64 (PhysAddrRegion + size)) (u64 (szRegionSize - size))
  end.

Definition region_bytes (d : KrMemoryDescriptor) : Z := u64 (PageCount d * KR_PAGE_SIZE).
Definition dmap_desc (s : Boot) (c : KrDirectMappingContext) (psl : KrPatSelect) (d : KrMemoryDescriptor)
    : outcome (Boot * KrDirectMappingContext) :=
  dmap_region (S (Z.to_nat (region_bytes d / 4096))) s c psl (PhysicalBase d) (region_bytes d).

Fixpoint dmap_regions (s : Boot) (c : KrDirectMappingContext) (psl : KrPatSelect) (l : list KrMemoryDescriptor)
    : outcome (Boot * KrDirectMappingContext) :=
  match l with
  | [] => Done (s, c)
  | d :: l' => '(s, c) ← dmap_desc s c psl d; dmap_regions s c psl l'
  end.
(** The second loop maps the ACPI storage through the label Loop. *)
Fixpoint dmap_nvs (s : Boot) (c : KrDirectMappingContext) (psl : KrPatSelect) (l : list KrMemoryDescriptor)
    : outcome (Boot * KrDirectMappingContext) :=
  match l with
  | [] => Done (s, c)
  | d :: l' =>
      '(s, c) ← (if Type_ d =? KR_MEMORY_TYPE_ACPI_MEMORY_NVS then dmap_desc s c psl d else Done (s, c));
      dmap_nvs s c psl l'
  end.

Definition KrInitDirectMap (s : Boot) : outcome (Boot * bool) :=
  let '(a, ok) := KrBootstrapArenaAlign (bArena s) KR_PAGE_STRUCTURE_SIZE in
  let s := with_arena s a in
  if negb ok then Done (s, false)
  else
    let Max := u32 (KrBootstrapArenaGetSpaceLeft a / KR_PAGE_STRUCTURE_SIZE) in
    if Max =? 0 then Done (s, false)
    else
      let Base := u64 (AddrPhysicalBase (LoadInfo s) + u64 (ArenaPtr a - AddrVirtualBase (LoadInfo s))) in
      let '(a, w) := KrBootstrapArenaAcquire a (u32 (Max * KR_PAGE_STRUCTURE_SIZE)) in
      let s := with_arena s a in
      s ← vzero_pages (Z.to_nat (u32 (Max * KR_PAGE_STRUCTURE_SIZE) / 4096)) s w;
      psl ← KrSelectPat (bPat s) KR_PAT_WRITE_BACK;
      '(s, c) ← dmap_regions s (mkDctx Base Max 0 w w IVLDPGID) psl (CanonicalMemoryMap s);
      '(s, c) ← dmap_nvs s c psl (FirmwareMap s);
      let d := Dmap s in
      Done (with_dmap s (mkDmapInfo (NumTotalAcqPageStructs c) (HugePages d) (LargePages d) (SmallPages d) (dmTotalPages d)), true).

(** ** The first steps of KrInitVirtmemmgmt *)

Definition init_paging (s : Boot) : outcome (Boot * bool) :=
  s ← KrVmmInitKernelStaticPages s;
  KrInitDirectMap (with_bases s (DmapBase s) (KrReservedVirtToPhys s (g_PML4 (img s)))).
