(* ===== verification/DirectMapSpec.v ===== *)
(** * Trees of page tables with large pages, and the chunks of the direct map *)
From Stdlib Require Import ZArith Lia.
From stdpp Require Import base numbers list gmap.
From S2P Require Import Prelude PhysBitmap KrtlMem BootstrapArena MemoryMap Physmemmgmt Pte Vmr PageTable PageTableSpec DirectMap.
Open Scope Z_scope.
#[local] Arguments Z.testbit _ _ : simpl never.

(** ** Setting an entry that designates no table *)

Section SetEntry.
Context (m : gmap Z Z) (vb R : Z) (ow : gmap Z (list Z)) (Hwf : pt_wf m vb R ow).
Context (t0 : Z) (pi0 : list Z) (i0 e : Z).
Context (H0 : ow !! t0 = Some pi0) (Hi0 : 0 <= i0 < 512).
Context (Hold : forall e', m !! (t0 + 8 * i0) = Some e' -> Z.testbit e' 0 = true -> follows (length pi0) e' = false).
Context (Hp : Z.testbit e 0 = true) (Hf : follows (length pi0) e = false).

Lemma set_entry_other t pi i :
  ow !! t = Some pi -> 0 <= i < 512 -> (t, i) <> (t0, i0) -> <[t0 + 8 * i0 := e]> m !! (t + 8 * i) = m !! (t + 8 * i).
Proof using All.
  intros Ht Hi Hd. apply lookup_insert_ne. intros E. apply Hd.
  destruct (word_inj t0 i0 t i) as [-> ->]; [by apply (pt_shape _ _ _ _ Hwf t0 pi0)|by apply (pt_shape _ _ _ _ Hwf t pi)|done..].
Qed.

Lemma set_entry_wf : pt_wf (<[t0 + 8 * i0 := e]> m) vb R ow.
Proof using All.
  destruct Hwf as [W1 W2 W3 W4 W5]. split; [done|done| | |].
  - intros t pi i Ht Hi. destruct (decide ((t, i) = (t0, i0))) as [[= -> ->]|Hne]; [rewrite lookup_insert_eq; eauto|].
    rewrite (set_entry_other t pi i) by done. by eapply W3.
  - intros t pi i e' Ht Hi He Hp' Hf'. destruct (decide ((t, i) = (t0, i0))) as [[= -> ->]|Hne].
    + rewrite lookup_insert_eq in He. rewrite H0 in Ht. simplify_eq. congruence.
    + rewrite (set_entry_other t pi i) in He by done. by eapply W4.
  - intros t pi i Ht. destruct (W5 t pi i Ht) as (t1 & e1 & H1 & Hi & He & Hp1 & Hf1 & Hc). exists t1, e1.
    rewrite (set_entry_other t1 pi i); [done|done|done|]. intros [= -> ->]. rewrite H0 in H1. simplify_eq.
    rewrite (Hold e1) in Hf1; done.
Qed.

Lemma set_entry_walk idxs :
  indices_ok idxs ->
  walk (<[t0 + 8 * i0 := e]> m) vb 0 R idxs =
    if decide (take (S (length pi0)) idxs = pi0 ++ [i0]) then Some (e, drop (S (length pi0)) idxs) else walk m vb 0 R idxs.
Proof using All.
  intros Hok. destruct (decide _) as [Hpre|Hne].
  - assert (idxs = pi0 ++ i0 :: drop (S (length pi0)) idxs) as E.
    { rewrite <- (take_drop (S (length pi0)) idxs) at 1. rewrite Hpre, <- app_assoc. done. }
    set (rest := drop (S (length pi0)) idxs) in *. rewrite E. rewrite (walk_to _ vb R ow set_entry_wf pi0 t0) by done.
    cbn [walk]. by rewrite lookup_insert_eq, Hp, Hf.
  - apply (walk_frame m vb R ow Hwf _ t0 pi0 i0) with (pi := []); [done|done| |by apply (pt_root _ _ _ _ Hwf)|done|].
    + intros t pi i Ht Hi Hd. by apply (set_entry_other t pi i).
    + intros rest. cbn [app]. intros ->. apply Hne. change (pi0 ++ i0 :: rest) with (pi0 ++ [i0] ++ rest). rewrite app_assoc.
      replace (S (length pi0)) with (length (pi0 ++ [i0])) by (rewrite length_app; simpl; lia). apply take_app_length.
Qed.
End SetEntry.

(** ** Linking a table that is zero already *)

Lemma zero_page_id m t : (forall i, 0 <= i < 512 -> m !! (t + 8 * i) = Some 0) -> zero_page m t = m.
Proof.
  intros H. apply map_eq. intros a. destruct (zero_page_spec m t) as [Z1 Z2].
  destruct (decide (t <= a < t + 4096 /\ (a - t) mod 8 = 0)) as [[Ha Hm]|Hn].
  - assert (a = t + 8 * ((a - t) / 8)) as -> by zlia. rewrite Z1, H by zlia. done.
  - apply Z2. intros i Hi ->. apply Hn. zlia.
Qed.

Section LinkZeroed.
Context (m : gmap Z Z) (vb R : Z) (ow : gmap Z (list Z)) (Hwf : pt_wf m vb R ow).
Context (t0 : Z) (pi0 : list Z) (i0 e tn : Z).
Context (H0 : ow !! t0 = Some pi0) (Hl : (length pi0 < 3)%nat) (Hi0 : 0 <= i0 < 512).
Context (Hold : forall e', m !! (t0 + 8 * i0) = Some e' -> Z.testbit e' 0 = false).
Context (Hnew : ow !! tn = None) (Halign : tn mod 4096 = 0) (Hzero : forall i, 0 <= i < 512 -> m !! (tn + 8 * i) = Some 0).
Context (Hp : Z.testbit e 0 = true) (Hf : follows (length pi0) e = true) (Hc : u64 (vb + entry_frame e) = tn).

Lemma link_zeroed_eq : linked m t0 i0 e tn = <[t0 + 8 * i0 := e]> m.
Proof using All.
  apply zero_page_id. intros i Hi. rewrite lookup_insert_ne; [by apply Hzero|]. intros E.
  destruct (word_inj t0 i0 tn i) as [-> _]; [by apply (pt_shape _ _ _ _ Hwf t0 pi0)|done..|congruence].
Qed.
Lemma link_zeroed_wf : pt_wf (<[t0 + 8 * i0 := e]> m) vb R (<[tn := pi0 ++ [i0]]> ow).
Proof using All. rewrite <- link_zeroed_eq. by apply linked_wf. Qed.
Lemma link_zeroed_walk idxs :
  indices_ok idxs -> length idxs = 4%nat -> walk (<[t0 + 8 * i0 := e]> m) vb 0 R idxs = walk m vb 0 R idxs.
Proof using All. intros Hok Hli. rewrite <- link_zeroed_eq. by apply (linked_walk m vb R ow Hwf t0 pi0 i0 e tn). Qed.
End LinkZeroed.

(** Two tables never share a path. *)
Lemma path_unique m vb R ow (Hwf : pt_wf m vb R ow) pi : forall t t', ow !! t = Some pi -> ow !! t' = Some pi -> t = t'.
Proof.
  induction pi as [|i pi IH] using rev_ind; intros t t' H H'.
  - apply (pt_root _ _ _ _ Hwf) in H, H'. congruence.
  - destruct (pt_parent _ _ _ _ Hwf t pi i H) as (a & ea & Ha & _ & Ea & _ & _ & <-).
    destruct (pt_parent _ _ _ _ Hwf t' pi i H') as (b & eb & Hb & _ & Eb & _ & _ & <-).
    assert (a = b) as -> by eauto. congruence.
Qed.

(** ** Encoded entries *)

Lemma encode_table T p f ps :
  structure_type T = true -> 0 <= p < 2 ^ 52 -> p mod 4096 = 0 -> flags_ok f -> Z.testbit f 0 = true ->
  let e := encode T p f ps in Z.testbit e 0 = true /\ Z.testbit e 7 = false /\ entry_frame e = p.
Proof.
  intros HT Hp Hal [Hf Hfa] Hf0 e.
  assert (KrGetPteTypeAlignment T = 4096 /\ T <> INVALID_PTE_TYPE /\ large_type T = false /\ T <> PT_ENTRY) as (Ea & HT' & Hlt & HPT)
    by by destruct T.
  assert (forall i, 0 <= i < 12 -> Z.testbit p i = false) as Hlow by (intros i Hi; by apply (aligned_low_bits p 12)).
  assert (forall i, 0 <= i < 64 -> Z.testbit e i =
    if i =? 3 then PWT ps else if i =? 4 then PCD ps else if i =? 7 then false else if i =? 12 then Z.testbit p i
    else Z.testbit f i || Z.testbit p i) as Hb.
  { intros i Hi. unfold e, encode. destruct (encode_bits false T p f ps i Hi) as [_ ->]; [by rewrite Ea|done|].
    rewrite flags_bits by lia. rewrite Hlt, bool_decide_false by done. simpl.
    destruct (Z.eqb_spec i 3) as [->|]; [rewrite Hlow by lia; apply orb_false_r|].
    destruct (Z.eqb_spec i 4) as [->|]; [rewrite Hlow by lia; apply orb_false_r|].
    destruct (Z.eqb_spec i 7) as [->|]; [by rewrite Hlow by lia|].
    destruct (Z.eqb_spec i 12) as [->|]; [done|]. done. }
  rewrite !Hb by lia. simpl. rewrite Hf0. split_and!; [done|done|].
  unfold entry_frame. apply Z.bits_inj'. intros i Hi. rewrite Z.land_spec, testbit_phys_mask by done.
  destruct (Z.leb_spec 12 i), (Z.ltb_spec i 52); simpl; rewrite ?andb_true_r, ?andb_false_r.
  - rewrite Hb by lia. destruct (Z.eqb_spec i 3); [lia|]. destruct (Z.eqb_spec i 4); [lia|]. destruct (Z.eqb_spec i 7); [lia|].
    destruct (Z.eqb_spec i 12); [done|]. by rewrite Hfa by lia.
  - by rewrite (testbit_above p 52) by lia.
  - by rewrite Hlow by lia.
  - by rewrite (testbit_above p 52) by lia.
Qed.

(** ** Chunks *)

(** The path of the page frame [pfn] in the direct map. *)
Definition dpath (pfn : Z) : list Z := va_indices (0xFFFF800000000000 + 4096 * pfn).
Definition dmap_pages : Z := 255 * 2 ^ 27.

Lemma dpath_eq pfn : 0 <= pfn < dmap_pages ->
  dpath pfn = [256 + pfn / 2 ^ 27; pfn / 2 ^ 18 mod 512; pfn / 2 ^ 9 mod 512; pfn mod 512].
Proof. intros H. unfold dpath, va_indices, dmap_pages in *.
  apply (f_equal2 cons); [zlia|]. apply (f_equal2 cons); [zlia|]. apply (f_equal2 cons); [zlia|]. apply (f_equal2 cons); [zlia|done].
Qed.

(** The number of tables below the root on the way to a leaf of each kind. *)
Definition depth (m : KrVirtualAddressMode) : nat := match m with VADDR_HUGE => 1 | VADDR_LARGE => 2 | VADDR_SMALL => 3 end.
Definition mode_pages (m : KrVirtualAddressMode) : Z := match m with VADDR_HUGE => 2 ^ 18 | VADDR_LARGE => 2 ^ 9 | VADDR_SMALL => 1 end.

Record chunk := mkChunk { cBase : Z; cMode : KrVirtualAddressMode }.
Definition in_chunk (c : chunk) (pfn : Z) : Prop := cBase c <= 4096 * pfn < cBase c + mode_size (cMode c).
Definition chunk_ok (c : chunk) : Prop :=
  0 <= cBase c /\ cBase c mod mode_size (cMode c) = 0 /\ cBase c + mode_size (cMode c) <= 4096 * dmap_pages.
Definition cpfn (c : chunk) : Z := cBase c / 4096.
Definition cpath (c : chunk) : list Z := dpath (cpfn c).

Lemma mode_size_pages m : mode_size m = 4096 * mode_pages m.
Proof. by destruct m. Qed.

Lemma cpfn_range c : chunk_ok c -> 0 <= cpfn c < dmap_pages /\ cBase c = 4096 * cpfn c.
Proof. intros (H1 & H2 & H3). unfold cpfn. destruct c as [b []]; cbn [cBase cMode mode_size] in *; unfold ONEGIB, TWOMIB, FOURKIB in *; zlia. Qed.

(** A page lies in a chunk iff its path starts like the chunk's. *)
Lemma in_chunk_path c pfn : chunk_ok c -> 0 <= pfn < dmap_pages ->
  in_chunk c pfn <-> take (S (depth (cMode c))) (dpath pfn) = take (S (depth (cMode c))) (cpath c).
Proof.
  intros Hc Hp. destruct (cpfn_range c Hc) as [Hr Eb]. destruct Hc as (_ & H2 & _). unfold in_chunk, cpath. rewrite Eb in *.
  rewrite (dpath_eq pfn), (dpath_eq (cpfn c)) by done. generalize dependent (cpfn c). intros q Hr Eb H2.
  destruct (cMode c); cbn [depth take mode_size] in *; unfold ONEGIB, TWOMIB, FOURKIB in *; (split; [intros H; repeat (apply (f_equal2 cons); [zlia|]); done|intros H; simplify_list_eq; zlia]).
Qed.
