(* ===== verification/DirectMapProps.v ===== *)
(** * The direct map: invariant of the construction *)
From Stdlib Require Import ZArith Lia.
From stdpp Require Import base numbers list gmap sets.
From S2P Require Import Prelude PhysBitmap KrtlMem BootstrapArena MemoryMap Physmemmgmt Pte Vmr PageTable PageTableSpec DirectMap DirectMapSpec.
Open Scope Z_scope.
#[local] Arguments Z.testbit _ _ : simpl never.

(** ** The reserved area of the kernel *)

Definition KVBASE : Z := 0xFFFFFFFF80000000.

Record layout (s : Boot) : Prop := {
  ly_virt : AddrVirtualBase (LoadInfo s) = KVBASE;
  ly_phys : 0 <= AddrPhysicalBase (LoadInfo s) /\ AddrPhysicalBase (LoadInfo s) mod 4096 = 0 /\
            AddrPhysicalBase (LoadInfo s) + 2 ^ 30 <= 2 ^ 52;
  ly_reserve : 0 < ReserveSize (LoadInfo s) <= 2 ^ 30;
  ly_dmap : DmapBase s = 0xFFFF800000000000;
  ly_pat : bPat s = KrVmmInitPat.2
}.

(** Only memory and the counters change. *)
Definition same_boot (s s' : Boot) : Prop := s' = with_dmap (with_phys s (Phys s')) (Dmap s').

#[export] Instance same_boot_preorder : PreOrder same_boot.
Proof. split; [by intros []|]. intros s1 s2 s3 H1 H2. unfold same_boot in *. by rewrite H2, H1. Qed.
Lemma same_boot_phys s m : same_boot s (with_phys s m).
Proof. by destruct s. Qed.
Lemma same_boot_layout s s' : same_boot s s' -> layout s -> layout s'.
Proof. intros ->. intros []. by split. Qed.
Lemma same_boot_fields s s' : same_boot s s' ->
  LoadInfo s' = LoadInfo s /\ img s' = img s /\ CR3 s' = CR3 s /\ bArena s' = bArena s /\ DmapBase s' = DmapBase s /\
  bPat s' = bPat s /\ bHugePageSupport s' = bHugePageSupport s.
Proof. by intros ->. Qed.

(** The pages of the reserved area, by physical address. *)
Definition reserved_page (s : Boot) (t : Z) : Prop :=
  AddrPhysicalBase (LoadInfo s) <= t /\ t + 4096 <= AddrPhysicalBase (LoadInfo s) + ReserveSize (LoadInfo s) /\ t mod 4096 = 0.
(** The pointer the kernel uses for one. *)
Definition kv (s : Boot) (t : Z) : Z := KVBASE + (t - AddrPhysicalBase (LoadInfo s)).
(** The reserved area is mapped where the kernel was linked. *)
Definition kmap (m : gmap Z Z) (s : Boot) : Prop :=
  forall off, 0 <= off < ReserveSize (LoadInfo s) ->
    exists e, mmu_translate m 0 (CR3 s) (KVBASE + off) = Some (AddrPhysicalBase (LoadInfo s) + off, e).

Section Reserved.
Context (s : Boot) (L : layout s).

Lemma phys_to_virt t : reserved_page s t -> KrReservedPhysToVirt s t = kv s t.
Proof using L.
  intros (H1 & H2 & _). destruct (ly_phys s L) as (P1 & _ & P2). pose proof (ly_reserve s L).
  unfold KrReservedPhysToVirt, kv. rewrite (ly_virt s L), (u64_small (t - _)), u64_small by (unfold KVBASE; lia). done.
Qed.
Lemma kv_range t i : reserved_page s t -> 0 <= i < 512 -> u64 (kv s t + 8 * i) = kv s t + 8 * i.
Proof using L.
  intros (H1 & H2 & _) Hi. destruct (ly_phys s L) as (P1 & _ & P2). pose proof (ly_reserve s L).
  apply u64_small. unfold kv, KVBASE. lia.
Qed.
Lemma resolve_kv t i : kmap (Phys s) s -> reserved_page s t -> 0 <= i < 512 -> resolve s (kv s t + 8 * i) = Done (t + 8 * i).
Proof using L.
  intros K (H1 & H2 & _) Hi. unfold resolve, kv.
  destruct (K (t - AddrPhysicalBase (LoadInfo s) + 8 * i)) as [e E]; [lia|].
  replace (KVBASE + (t - AddrPhysicalBase (LoadInfo s)) + 8 * i) with (KVBASE + (t - AddrPhysicalBase (LoadInfo s) + 8 * i)) by lia.
  rewrite E. f_equal. lia.
Qed.
Lemma vread_kv t i : kmap (Phys s) s -> reserved_page s t -> 0 <= i < 512 -> vread s (kv s t) i = checked (Phys s !! (t + 8 * i)).
Proof using L. intros K Ht Hi. unfold vread. by rewrite kv_range, resolve_kv, bind_Done by done. Qed.
Lemma vwrite_kv t i e : kmap (Phys s) s -> reserved_page s t -> 0 <= i < 512 ->
  vwrite s (kv s t) i e = Done (with_phys s (<[t + 8 * i := e]> (Phys s))).
Proof using L. intros K Ht Hi. unfold vwrite. by rewrite kv_range, resolve_kv, bind_Done by done. Qed.
End Reserved.

(** The kernel's addresses start at index 511 of the root. *)
Lemma kernel_path off : 0 <= off < 2 ^ 30 -> exists rest, va_indices (KVBASE + off) = 511 :: rest.
Proof. intros H. eexists. unfold va_indices. apply (f_equal2 cons); [unfold KVBASE; zlia|done]. Qed.

Lemma kmap_walks m m' s :
  layout s -> (forall rest, indices_ok (511 :: rest) -> length rest = 3%nat -> walk m' 0 0 (CR3 s) (511 :: rest) = walk m 0 0 (CR3 s) (511 :: rest)) ->
  kmap m s -> kmap m' s.
Proof.
  intros L H K off Hoff. destruct (K off Hoff) as [e E]. exists e. rewrite <- E. unfold mmu_translate.
  pose proof (ly_reserve s L). destruct (kernel_path off) as [rest Er]; [lia|]. pose proof (va_indices_ok (KVBASE + off)) as Hok.
  assert (length (va_indices (KVBASE + off)) = 4%nat) as Hl by done. rewrite Er in *. rewrite H; [done|done|simpl in Hl; lia].
Qed.

(** ** The invariant *)

(** Paths below the direct map's part of the root. *)
Definition dpi (pi : list Z) : Prop := match pi with h :: _ => 256 <= h < 511 | [] => False end.
(** The prefixes of a chunk's path that designate tables. *)
Definition tables_of (ch : chunk) (pi : list Z) : Prop := exists j, (1 <= j <= depth (cMode ch))%nat /\ pi = take j (cpath ch).
Definition leaf_entry (ch : chunk) : Z := encode (mode_leaf (cMode ch)) (cBase ch) dmap_flags (mkPat false false false).

Section Inv.
(** The tables the map may need, and the memory before it. *)
Context (need : gset (list Z)) (m0 : gmap Z Z).

(** [D] holds the chunks mapped so far, [cur] the tables acquired for the next one. *)
Record dinv (s : Boot) (c : KrDirectMappingContext) (ow : gmap Z (list Z)) (D : list chunk) (cur : list Z -> Prop) : Prop := {
  di_wf : pt_wf (Phys s) 0 (CR3 s) ow;
  di_kmap : kmap (Phys s) s;
  di_root : reserved_page s (CR3 s) /\ g_PML4 (img s) = kv s (CR3 s);
  di_arena : KrReservedVirtToPhys s (ArenaBase (bArena s)) <= PhysAddrBarenaBase c /\
    PhysAddrBarenaBase c + 4096 * NumBarenaMaxStructs c <= KrReservedVirtToPhys s (ArenaEnd (bArena s));
  di_pages : forall k, 0 <= k < NumBarenaMaxStructs c -> reserved_page s (PhysAddrBarenaBase c + 4096 * k);
  di_cursor : WorkingCur c = kv s (PhysAddrBarenaBase c + 4096 * NumTotalAcqPageStructs c);
  di_num : 0 <= NumTotalAcqPageStructs c <= NumBarenaMaxStructs c /\ NumBarenaMaxStructs c < 2 ^ 20;
  di_used : forall t pi, ow !! t = Some pi -> dpi pi ->
    exists k, 0 <= k < NumTotalAcqPageStructs c /\ t = PhysAddrBarenaBase c + 4096 * k;
  di_free : forall k, NumTotalAcqPageStructs c <= k < NumBarenaMaxStructs c ->
    ow !! (PhysAddrBarenaBase c + 4096 * k) = None /\
    forall i, 0 <= i < 512 -> Phys s !! (PhysAddrBarenaBase c + 4096 * k + 8 * i) = Some 0;
  di_paths : exists P : gset (list Z), (forall pi, pi ∈ P <-> (exists t, ow !! t = Some pi) /\ dpi pi) /\
    Z.of_nat (size P) = NumTotalAcqPageStructs c /\ P ⊆ need;
  di_below : forall t pi, ow !! t = Some pi -> dpi pi ->
    (exists ch pfn, ch ∈ D /\ 0 <= pfn < dmap_pages /\ in_chunk ch pfn /\ take (length pi) (dpath pfn) = pi) \/ cur pi;
  di_in : forall ch pfn, ch ∈ D -> 0 <= pfn < dmap_pages -> in_chunk ch pfn ->
    walk (Phys s) 0 0 (CR3 s) (dpath pfn) = Some (leaf_entry ch, drop (S (depth (cMode ch))) (dpath pfn));
  di_out : forall pfn, 0 <= pfn < dmap_pages -> (forall ch, ch ∈ D -> ~ in_chunk ch pfn) ->
    walk (Phys s) 0 0 (CR3 s) (dpath pfn) = None;
  di_rest : forall idxs, indices_ok idxs -> length idxs = 4%nat -> ~ dpi idxs -> walk (Phys s) 0 0 (CR3 s) idxs = walk m0 0 0 (CR3 s) idxs;
  di_static : forall t pi, ow !! t = Some pi -> ~ dpi pi -> reserved_page s t
}.

Lemma dpath_ok pfn : indices_ok (dpath pfn) /\ length (dpath pfn) = 4%nat.
Proof. split; [apply va_indices_ok|done]. Qed.

Lemma dpath_dpi pfn j : 0 <= pfn < dmap_pages -> (1 <= j)%nat -> dpi (take j (dpath pfn)).
Proof. intros H Hj. rewrite dpath_eq by done. destruct j; [lia|]. cbn [take dpi]. unfold dmap_pages in H. zlia. Qed.

Lemma take_snoc_lookup (l : list Z) j i : l !! j = Some i -> take (S j) l = take j l ++ [i].
Proof. apply take_S_r. Qed.

(** A table on the path of an unmapped page: its entry is absent or a table. *)
Lemma uncovered_follows s c ow D cur t pi i e pfn rest :
  dinv s c ow D cur -> ow !! t = Some pi -> 0 <= pfn < dmap_pages -> (forall ch, ch ∈ D -> ~ in_chunk ch pfn) ->
  dpath pfn = pi ++ i :: rest -> Phys s !! (t + 8 * i) = Some e -> Z.testbit e 0 = true -> follows (length pi) e = true.
Proof.
  intros Inv Ht Hp Hn Ed He Hp0. pose proof (di_out _ _ _ _ _ Inv pfn Hp Hn) as W. rewrite Ed in W.
  rewrite (walk_to _ 0 _ ow (di_wf _ _ _ _ _ Inv) pi t) in W by done. cbn [walk] in W. rewrite He, Hp0 in W. cbn [negb] in W.
  by destruct (follows (length pi) e).
Qed.

(** A change of the tables in the direct map's half keeps the kernel's half. *)
Lemma set_kmap s ow t0 pi0 i0 e :
  layout s -> pt_wf (Phys s) 0 (CR3 s) ow -> kmap (Phys s) s -> ow !! t0 = Some pi0 -> 0 <= i0 < 512 -> dpi (pi0 ++ [i0]) ->
  (forall e', Phys s !! (t0 + 8 * i0) = Some e' -> Z.testbit e' 0 = true -> follows (length pi0) e' = false) ->
  Z.testbit e 0 = true -> follows (length pi0) e = false -> kmap (<[t0 + 8 * i0 := e]> (Phys s)) s.
Proof.
  intros L W K H0 Hi0 Hd Hold Hp Hf. apply (kmap_walks (Phys s)); [done| |done]. intros rest Hok _.
  rewrite (set_entry_walk _ 0 _ ow W t0 pi0 i0 e) by done. rewrite decide_False; [done|]. intros E.
  destruct pi0 as [|h r]; cbn in E, Hd; injection E; intros; subst; lia.
Qed.

Lemma dpi_snoc pi i : dpi pi -> dpi (pi ++ [i]).
Proof. by destruct pi. Qed.

Lemma table_reserved s c ow D cur t pi : dinv s c ow D cur -> ow !! t = Some pi -> pi = [] \/ dpi pi -> reserved_page s t.
Proof.
  intros Inv Ht [->|Hd].
  - apply (pt_root _ _ _ _ (di_wf _ _ _ _ _ Inv)) in Ht as ->. apply (di_root _ _ _ _ _ Inv).
  - destruct (di_used _ _ _ _ _ Inv t pi Ht Hd) as (k & Hk & ->). pose proof (di_num _ _ _ _ _ Inv).
    apply (di_pages _ _ _ _ _ Inv). lia.
Qed.

Lemma entry_frame_range e : 0 <= entry_frame e < 2 ^ 52.
Proof.
  unfold entry_frame. assert (0 <= Z.land e PTE_PHYSADDR_MASK) by (apply Z.land_nonneg; right; done). split; [done|].
  apply nonneg_bits_bound; [lia|done|]. intros i Hi. rewrite Z.land_spec, testbit_phys_mask by lia.
  destruct (Z.ltb_spec i 52); [lia|]. by rewrite andb_false_r, andb_false_r.
Qed.

(** The pointer to a table of the direct map. *)
Lemma virtual_of_table s c ow D cur t pi :
  layout s -> dinv s c ow D cur -> ow !! t = Some pi -> dpi pi -> KrdmiGetVirtualOfPTE s t = kv s t.
Proof.
  intros L Inv Ht Hd. destruct (di_used _ _ _ _ _ Inv t pi Ht Hd) as (k & Hk & ->).
  destruct (di_arena _ _ _ _ _ Inv) as [A1 A2]. pose proof (di_num _ _ _ _ _ Inv). unfold KrdmiGetVirtualOfPTE.
  rewrite Z.geb_leb, (proj2 (Z.leb_le _ _)), (proj2 (Z.ltb_lt _ _)) by lia. cbn [andb].
  apply phys_to_virt; [done|]. apply (di_pages _ _ _ _ _ Inv). lia.
Qed.

(** No table has a path whose entry is absent. *)
Lemma absent_path m R ow t pi i :
  pt_wf m 0 R ow -> ow !! t = Some pi -> (forall e, m !! (t + 8 * i) = Some e -> Z.testbit e 0 = false) ->
  forall t', ow !! t' <> Some (pi ++ [i]).
Proof.
  intros W Ht Ha t' Ht'. destruct (pt_parent _ _ _ _ W t' pi i Ht') as (t0 & e & H0 & _ & He & Hp & _).
  assert (t0 = t) as -> by by eapply path_unique. by rewrite (Ha e He) in Hp.
Qed.

Lemma follows_table (pi : list Z) e : (length pi < 3)%nat -> Z.testbit e 7 = false -> follows (length pi) e = true.
Proof. intros Hl H7. destruct pi as [|? [|? [|? ?]]]; cbn in *; try done; try (by rewrite H7); lia. Qed.

Lemma dmap_flags_ok : flags_ok dmap_flags /\ Z.testbit dmap_flags 0 = true.
Proof. split; [|done]. apply flags_ok_intro; [vm_compute; split; done|done]. Qed.

(** Taking the next page of the arena for the table below [t] at [i]. *)
Lemma link_table s c ow D cur T t pi i :
  layout s -> dinv s c ow D cur -> ow !! t = Some pi -> (length pi < 3)%nat -> 0 <= i < 512 ->
  (forall e, Phys s !! (t + 8 * i) = Some e -> Z.testbit e 0 = false) -> dpi (pi ++ [i]) -> cur (pi ++ [i]) ->
  pi ++ [i] ∈ need -> Z.of_nat (size need) <= NumBarenaMaxStructs c -> structure_type T = true ->
  let tn := PhysAddrBarenaBase c + 4096 * NumTotalAcqPageStructs c in
  let s' := with_phys s (<[t + 8 * i := encode T tn dmap_flags (mkPat false false false)]> (Phys s)) in
  let c' := mkDctx (PhysAddrBarenaBase c) (NumBarenaMaxStructs c) (NumTotalAcqPageStructs c + 1) (WorkingBase c)
              (kv s (tn + 4096)) (LastAcqPageID c) in
  NumTotalAcqPageStructs c < NumBarenaMaxStructs c /\ dinv s' c' (<[tn := pi ++ [i]]> ow) D cur.
Proof.
  intros L Inv Ht Hl Hi Habs Hd Hcur Hneed Hsz HT tn s' c'. pose proof Inv as [W K Hr Ha Hpg Hcu Hnum Hus Hfr (P & HP & HPs & HPn) Hbe Hin Hout Hre Hst].
  pose proof (absent_path _ _ _ _ _ _ W Ht Habs) as Hno.
  assert (pi ++ [i] ∉ P) as HnP by (intros [[t' Ht'] _]%HP; by eapply Hno).
  assert (size ({[pi ++ [i]]} ∪ P) <= size need)%nat as Hle by (apply subseteq_size; set_solver).
  rewrite size_union, size_singleton in Hle by set_solver.
  assert (NumTotalAcqPageStructs c < NumBarenaMaxStructs c) as Hlt by lia. split; [done|].
  destruct (Hfr (NumTotalAcqPageStructs c) ltac:(lia)) as [Hnew Hzero]. fold tn in Hnew, Hzero.
  pose proof (Hpg (NumTotalAcqPageStructs c) ltac:(lia)) as (Q1 & Q2 & Q3). fold tn in Q1, Q2, Q3.
  destruct (ly_phys s L) as (LP1 & _ & LP2). pose proof (ly_reserve s L).
  destruct (encode_table T tn dmap_flags (mkPat false false false) HT ltac:(lia) Q3) as (E0 & E7 & Ef); [apply dmap_flags_ok..|].
  set (e := encode T tn dmap_flags (mkPat false false false)) in *.
  pose proof (follows_table pi e Hl E7) as Hfo.
  assert (u64 (0 + entry_frame e) = tn) as Hc by (rewrite Ef; apply u64_small; lia).
  assert (forall idxs, indices_ok idxs -> length idxs = 4%nat -> walk (Phys s') 0 0 (CR3 s) idxs = walk (Phys s) 0 0 (CR3 s) idxs) as Hw.
  { intros idxs. by apply (link_zeroed_walk (Phys s) 0 (CR3 s) ow W t pi i e tn). }
  assert (forall t' pi', (<[tn := pi ++ [i]]> ow : gmap Z (list Z)) !! t' = Some pi' -> (t' = tn /\ pi' = pi ++ [i]) \/ ow !! t' = Some pi') as Hcase.
  { intros t' pi' [[-> <-]|[_ ?]]%lookup_insert_Some; eauto. }
  split; cbn [PhysAddrBarenaBase NumBarenaMaxStructs NumTotalAcqPageStructs WorkingCur c'].
  - by apply (link_zeroed_wf (Phys s) 0 (CR3 s) ow W t pi i e tn).
  - change (kmap (Phys s') s). apply (kmap_walks (Phys s)); [done| |done]. intros rest Hok Hl3. apply Hw; [done|]. cbn. lia.
  - done.
  - done.
  - done.
  - unfold kv, tn. cbn. lia.
  - lia.
  - intros t' pi' H' Hd'. destruct (Hcase t' pi' H') as [[-> ->]|Ho].
    + exists (NumTotalAcqPageStructs c). split; [lia|done].
    + destruct (Hus t' pi' Ho Hd') as (k & ? & ?). exists k. split; [lia|done].
  - intros k Hk. destruct (Hfr k ltac:(lia)) as [F1 F2]. split.
    + rewrite lookup_insert_ne; [done|]. unfold tn. lia.
    + intros j Hj. cbn [Phys s' with_phys]. rewrite lookup_insert_ne; [by apply F2|]. intros E.
      destruct (word_inj t i (PhysAddrBarenaBase c + 4096 * k) j) as [E' _];
        [by apply (pt_shape _ _ _ _ W t pi)|apply (Hpg k ltac:(lia))|done..|]. rewrite E' in Ht. congruence.
  - exists ({[pi ++ [i]]} ∪ P). split_and!.
    + intros pi'. rewrite elem_of_union, elem_of_singleton, HP. split.
      * intros [->|[[t' Ht'] Hd']]; (split; [|done]); [exists tn; apply lookup_insert_eq|].
        exists t'. rewrite lookup_insert_ne; [done|]. intros <-. congruence.
      * intros [[t' Ht'] Hd']. destruct (Hcase t' pi' Ht') as [[_ ->]|Ho]; [by left|right]. split; [by exists t'|done].
    + rewrite size_union, size_singleton by set_solver. lia.
    + set_solver.
  - intros t' pi' H' Hd'. destruct (Hcase t' pi' H') as [[-> ->]|Ho]; [by right|by apply (Hbe t')].
  - intros ch pfn Hch Hp Hc'. change (CR3 s') with (CR3 s). rewrite Hw by apply dpath_ok. by apply Hin.
  - intros pfn Hp Hn. change (CR3 s') with (CR3 s). rewrite Hw by apply dpath_ok. by apply Hout.
  - intros idxs Hok Hli Hnd. change (CR3 s') with (CR3 s). rewrite Hw by done. by apply Hre.
  - intros t' pi' H' Hd'. destruct (Hcase t' pi' H') as [[-> ->]|Ho]; [done|]. by apply (Hst t' pi').
Qed.

Lemma parent_structure T : structure_type (KrGetParentPteType T) = true ->
  bool_decide (T = INVALID_PTE_TYPE) || bool_decide (T = PML4_ENTRY) = false.
Proof. by destruct T. Qed.

Lemma select_wb s : layout s -> KrSelectPat (bPat s) KR_PAT_WRITE_BACK = Done (mkPat false false false).
Proof. intros L. by rewrite (ly_pat s L). Qed.

(** KrdmiGetOrAcquirePageStruct along the path of an unmapped page. *)
Lemma get_table s c ow D cur T t pi i pfn rest :
  layout s -> dinv s c ow D cur -> Z.of_nat (size need) <= NumBarenaMaxStructs c ->
  ow !! t = Some pi -> (length pi < 3)%nat -> dpath pfn = pi ++ i :: rest -> 0 <= pfn < dmap_pages ->
  (forall ch, ch ∈ D -> ~ in_chunk ch pfn) -> cur (pi ++ [i]) -> pi ++ [i] ∈ need ->
  structure_type (KrGetParentPteType T) = true ->
  exists s' c' ow' t', KrdmiGetOrAcquirePageStruct s c T (kv s t) i = Done (s', c', kv s t') /\
    same_boot s s' /\ Dmap s' = Dmap s /\ dinv s' c' ow' D cur /\ ow' !! t' = Some (pi ++ [i]) /\
    NumBarenaMaxStructs c' = NumBarenaMaxStructs c.
Proof.
  intros L Inv Hsz Ht Hl Ed Hp Hn Hcur Hneed HT.
  assert (pi ++ [i] = take (S (length pi)) (dpath pfn)) as Etake.
  { rewrite Ed. change (pi ++ i :: rest) with (pi ++ [i] ++ rest). rewrite app_assoc.
    replace (S (length pi)) with (length (pi ++ [i])) by (rewrite length_app; simpl; lia). by rewrite take_app_length. }
  assert (dpi (pi ++ [i])) as Hd by (rewrite Etake; apply dpath_dpi; [done|lia]).
  assert (pi = [] \/ dpi pi) as Hd0.
  { destruct pi as [|h pi]; [by left|right]. exact Hd. }
  assert (0 <= i < 512) as Hi.
  { destruct (dpath_ok pfn) as [Hok _]. rewrite Ed in Hok. apply Forall_app in Hok as [_ Hok]. by inversion Hok. }
  pose proof (table_reserved _ _ _ _ _ _ _ Inv Ht Hd0) as Hres.
  unfold KrdmiGetOrAcquirePageStruct. rewrite Z.gtb_ltb, (proj2 (Z.ltb_ge 511 i)) by lia. cbn [orb].
  rewrite parent_structure, vread_kv by (done || apply Inv).
  destruct (pt_words _ _ _ _ (di_wf _ _ _ _ _ Inv) t pi i Ht Hi) as [e He]. rewrite He. cbn [checked]. rewrite bind_Done, present_flag.
  destruct (Z.testbit e 0) eqn:Hp0.
  - pose proof (uncovered_follows _ _ _ _ _ _ _ _ _ _ _ Inv Ht Hp Hn Ed He Hp0) as Hf.
    pose proof (pt_child _ _ _ _ (di_wf _ _ _ _ _ Inv) t pi i e Ht Hi He Hp0 Hf) as Hch.
    rewrite Z.add_0_l, u64_small in Hch by (pose proof (entry_frame_range e); lia).
    fold (entry_frame e). rewrite (virtual_of_table _ _ _ _ _ _ _ L Inv Hch Hd).
    exists s, c, ow, (entry_frame e). by split_and!.
  - assert (forall e', Phys s !! (t + 8 * i) = Some e' -> Z.testbit e' 0 = false) as Habs by (intros e' He'; congruence).
    destruct (link_table s c ow D cur (KrGetParentPteType T) t pi i L Inv Ht Hl Hi Habs Hd Hcur Hneed Hsz HT) as [Hlt Inv'].
    set (tn := PhysAddrBarenaBase c + 4096 * NumTotalAcqPageStructs c) in *. pose proof (di_num _ _ _ _ _ Inv) as [Hnum Hmax].
    unfold KrdmiAcquirePageStruct. rewrite (proj2 (Z.ltb_lt _ _)) by done. rewrite bind_Done.
    rewrite (di_cursor _ _ _ _ _ Inv). fold tn. destruct (ly_phys s L) as (LP1 & _ & LP2). pose proof (ly_reserve s L).
    pose proof (di_pages _ _ _ _ _ Inv (NumTotalAcqPageStructs c) ltac:(lia)) as (Q1 & Q2 & _). fold tn in Q1, Q2.
    rewrite (proj2 (Z.eqb_neq (kv s tn) 0)) by (unfold kv, KVBASE; lia). rewrite select_wb, bind_Done by done.
    rewrite vwrite_kv, bind_Done by (done || apply Inv). unfold KrdmiGetPhysicalOfLastPageStruct.
    cbn [NumTotalAcqPageStructs NumBarenaMaxStructs PhysAddrBarenaBase]. rewrite (u32_small (NumTotalAcqPageStructs c + 1)) by lia.
    rewrite (proj2 (Z.leb_le _ _)) by lia. unfold KR_PAGE_STRUCTURE_SIZE.
    replace (NumTotalAcqPageStructs c + 1 - 1) with (NumTotalAcqPageStructs c) by lia.
    rewrite (u32_small (NumTotalAcqPageStructs c)), (u32_small (_ * 4096)), (u64_small (_ + _ * 4096)) by (unfold tn in *; lia).
    replace (PhysAddrBarenaBase c + NumTotalAcqPageStructs c * 4096) with tn by (unfold tn; lia).
    rewrite (u64_small (kv s tn + 4096)) by (unfold kv, KVBASE; lia).
    replace (kv s tn + 4096) with (kv s (tn + 4096)) by (unfold kv; lia).
    eexists _, _, _, tn. split; [reflexivity|]. split_and!; [apply same_boot_phys|done|exact Inv'|apply lookup_insert_eq|done].
Qed.

(** ** Mapping one chunk *)

Lemma leaf_entry_ok ch : chunk_ok ch -> leaf_ok (mode_leaf (cMode ch)) (leaf_entry ch) (cBase ch) dmap_flags false (mkPat false false false).
Proof.
  intros (H1 & H2 & H3). unfold leaf_entry, encode. apply encode_leaf.
  - by destruct (cMode ch).
  - unfold dmap_pages in H3. destruct (cMode ch); cbn in *; unfold ONEGIB, TWOMIB, FOURKIB in *; lia.
  - destruct (cMode ch); exact H2.
  - apply dmap_flags_ok.
Qed.
Lemma leaf_entry_terminal ch : chunk_ok ch -> Z.testbit (leaf_entry ch) 0 = true /\ follows (depth (cMode ch)) (leaf_entry ch) = false.
Proof.
  intros H. pose proof (leaf_entry_ok ch H) as [_ _ L7 L0 _ _ _ _]. split; [exact L0|].
  destruct (cMode ch); cbn in *; try done; unfold entry_bit in L7; by rewrite L7.
Qed.

Definition disjoint_from (D : list chunk) (ch : chunk) : Prop :=
  forall ch' pfn, ch' ∈ D -> 0 <= pfn < dmap_pages -> in_chunk ch' pfn -> ~ in_chunk ch pfn.

Lemma cpath_split ch : chunk_ok ch ->
  exists i, cpath ch !! depth (cMode ch) = Some i /\ take (S (depth (cMode ch))) (cpath ch) = take (depth (cMode ch)) (cpath ch) ++ [i] /\
    length (take (depth (cMode ch)) (cpath ch)) = depth (cMode ch) /\ 0 <= i < 512.
Proof.
  intros H. destruct (dpath_ok (cpfn ch)) as [Hok Hl]. fold (cpath ch) in Hok, Hl.
  destruct (cpath ch !! depth (cMode ch)) as [i|] eqn:E; [|apply lookup_ge_None in E; destruct (cMode ch); simpl in E; lia].
  exists i. split_and!; [done|by apply take_S_r| |by eapply (Forall_lookup_1 _ _ _ _ Hok E)..].
  rewrite length_take, Hl. destruct (cMode ch); simpl; lia.
Qed.

Lemma in_chunk_base ch : chunk_ok ch -> in_chunk ch (cpfn ch).
Proof. intros H. destruct (cpfn_range ch H) as [_ E]. unfold in_chunk. rewrite <- E. destruct (cMode ch); cbn; unfold ONEGIB, TWOMIB, FOURKIB; lia. Qed.

Lemma set_chunk s c ow D ch t i :
  layout s -> dinv s c ow D (tables_of ch) -> chunk_ok ch -> disjoint_from D ch ->
  ow !! t = Some (take (depth (cMode ch)) (cpath ch)) -> cpath ch !! depth (cMode ch) = Some i ->
  exists s', vwrite s (kv s t) i (leaf_entry ch) = Done s' /\ same_boot s s' /\ Dmap s' = Dmap s /\
    dinv s' c ow (ch :: D) (fun _ => False).
Proof.
  intros L Inv Hok Hdis Ht Hi. destruct (cpath_split ch Hok) as (i' & Hi' & Etake & Elen & Hir). rewrite Hi in Hi'. injection Hi' as <-.
  set (pi := take (depth (cMode ch)) (cpath ch)) in *. destruct (cpfn_range ch Hok) as [Hq _].
  assert (dpi pi) as Hd by (apply dpath_dpi; [done|destruct (cMode ch); simpl; lia]).
  destruct (leaf_entry_terminal ch Hok) as [Hp0 Hf0]. rewrite <- Elen in Hf0.
  pose proof Inv as [W K Hr Ha Hpg Hcu Hnum Hus Hfr HP Hbe Hin Hout Hre Hst].
  assert (forall pfn, 0 <= pfn < dmap_pages -> take (S (length pi)) (dpath pfn) = pi ++ [i] <-> in_chunk ch pfn) as Hchunk.
  { intros pfn Hp. rewrite (in_chunk_path ch pfn Hok Hp), Elen, Etake. done. }
  assert (forall e', Phys s !! (t + 8 * i) = Some e' -> Z.testbit e' 0 = true -> follows (length pi) e' = false) as Hold.
  { intros e' He' Hp'. destruct (follows (length pi) e') eqn:Hf'; [|done]. exfalso.
    pose proof (pt_child _ _ _ _ W t pi i e' Ht Hir He' Hp' Hf') as Hch.
    destruct (Hbe _ _ Hch (dpi_snoc _ _ Hd)) as [(ch' & pfn & Hin' & Hp & Hc' & Hpre)|(j & Hj & E)].
    - apply (Hdis ch' pfn Hin' Hp Hc'), (Hchunk pfn Hp). rewrite length_app in Hpre. cbn in Hpre. by rewrite Nat.add_1_r in Hpre.
    - apply (f_equal length) in E. rewrite length_app, length_take, Elen in E. simpl in E. lia. }
  rewrite vwrite_kv by (try done; eapply table_reserved; eauto).
  eexists. split; [reflexivity|]. split; [apply same_boot_phys|]. split; [done|].
  assert (forall idxs, indices_ok idxs -> walk (<[t + 8 * i := leaf_entry ch]> (Phys s)) 0 0 (CR3 s) idxs =
     if decide (take (S (length pi)) idxs = pi ++ [i]) then Some (leaf_entry ch, drop (S (length pi)) idxs) else walk (Phys s) 0 0 (CR3 s) idxs) as Hw.
  { intros idxs. by apply (set_entry_walk (Phys s) 0 (CR3 s) ow W t pi i). }
  split; try done.
  - by apply (set_entry_wf (Phys s) 0 (CR3 s) ow W t pi i).
  - change (kmap (<[t + 8 * i := leaf_entry ch]> (Phys s)) s). by apply (set_kmap s ow t pi i); try apply dpi_snoc.
  - intros k Hk. destruct (Hfr k Hk) as [F1 F2]. split; [done|]. intros j Hj. cbn [Phys with_phys].
    rewrite lookup_insert_ne; [by apply F2|]. intros E.
    destruct (word_inj t i (PhysAddrBarenaBase c + 4096 * k) j) as [E' _];
      [by apply (pt_shape _ _ _ _ W t pi)|apply (Hpg k ltac:(lia))|done..|]. rewrite E' in Ht. congruence.
  - intros t' pi' H' Hd'. left. destruct (Hbe t' pi' H' Hd') as [(ch' & pfn & ? & ?)|(j & Hj & ->)].
    + exists ch', pfn. split; [by right|done].
    + exists ch, (cpfn ch). split_and!; [by left|lia..|by apply in_chunk_base|].
      rewrite length_take. destruct (dpath_ok (cpfn ch)) as [_ El]. unfold cpath. rewrite El, Nat.min_l; [done|].
      destruct (cMode ch); simpl in Hj; lia.
  - intros ch' pfn Hch' Hp Hc'. change (CR3 (with_phys s _)) with (CR3 s). cbn [Phys with_phys]. rewrite Hw by apply dpath_ok.
    apply elem_of_cons in Hch' as [->|Hch'].
    + rewrite decide_True by by apply Hchunk. by rewrite Elen.
    + rewrite decide_False; [by apply Hin|]. intros E. by eapply (Hdis ch' pfn), Hchunk.
  - intros pfn Hp Hn. change (CR3 (with_phys s _)) with (CR3 s). cbn [Phys with_phys]. rewrite Hw by apply dpath_ok.
    rewrite decide_False; [apply Hout; [done|]; intros ch' Hch'; apply Hn; by right|].
    intros E. apply (Hn ch); [by left|]. by apply Hchunk.
  - intros idxs Hio Hli Hnd. change (CR3 (with_phys s _)) with (CR3 s). cbn [Phys with_phys]. rewrite Hw by done.
    rewrite decide_False; [by apply Hre|]. intros E. apply Hnd. destruct pi as [|h r]; [done|].
    destruct idxs as [|h' idxs]; [done|]. cbn in E. injection E as -> _. exact Hd.
Qed.

Lemma dinv_weaken s c ow D (cur cur' : list Z -> Prop) : (forall pi, cur pi -> cur' pi) -> dinv s c ow D cur -> dinv s c ow D cur'.
Proof.
  intros H []. split; try done. intros t pi Ht Hd. destruct (di_below0 t pi Ht Hd) as [?|?]; [by left|right; by apply H].
Qed.

Lemma unmake_path ch m : chunk_ok ch ->
  let x := KrUnmakeVirtual m (u64 (0xFFFF800000000000 + cBase ch)) in
  exists d t, cpath ch = [vPML4 x; vPDPT x; d; t] /\ (m <> VADDR_HUGE -> d = vPD x) /\ (m = VADDR_SMALL -> t = vPT x).
Proof.
  intros H x. destruct (cpfn_range ch H) as [Hr E]. assert (u64 (0xFFFF800000000000 + cBase ch) = 0xFFFF800000000000 + 4096 * cpfn ch) as Ex.
  { rewrite E. apply u64_small. unfold dmap_pages in Hr. lia. }
  pose proof (unmake_indices (0xFFFF800000000000 + 4096 * cpfn ch) ltac:(lia)) as Hu. cbv zeta in Hu.
  fold (dpath (cpfn ch)) in Hu. fold (cpath ch) in Hu. subst x. rewrite Ex. rewrite <- Hu.
  eexists _, _. split; [by destruct m|]. split; [by destruct m|by intros ->].
Qed.

(** One table deeper along a chunk's path. *)
Lemma get_chunk_table s c ow D ch T t j i :
  layout s -> dinv s c ow D (tables_of ch) -> Z.of_nat (size need) <= NumBarenaMaxStructs c -> chunk_ok ch -> disjoint_from D ch ->
  (forall pi, tables_of ch pi -> pi ∈ need) -> ow !! t = Some (take j (cpath ch)) -> (j < depth (cMode ch))%nat -> cpath ch !! j = Some i ->
  structure_type (KrGetParentPteType T) = true ->
  exists s' c' ow' t', KrdmiGetOrAcquirePageStruct s c T (kv s t) i = Done (s', c', kv s t') /\
    same_boot s s' /\ Dmap s' = Dmap s /\ dinv s' c' ow' D (tables_of ch) /\ ow' !! t' = Some (take (S j) (cpath ch)) /\
    NumBarenaMaxStructs c' = NumBarenaMaxStructs c.
Proof.
  intros L Inv Hsz Hok Hdis Hneed Ht Hj Hi HT. destruct (cpfn_range ch Hok) as [Hr _]. destruct (dpath_ok (cpfn ch)) as [_ El].
  assert (take (S j) (cpath ch) = take j (cpath ch) ++ [i]) as Et by by apply take_S_r.
  assert (length (take j (cpath ch)) < 3)%nat by (rewrite length_take; destruct (cMode ch); simpl in Hj; lia).
  assert (tables_of ch (take j (cpath ch) ++ [i])) as Hcur by (rewrite <- Et; exists (S j); split; [lia|done]).
  rewrite Et. apply (get_table s c ow D (tables_of ch) T t _ i (cpfn ch) (drop (S j) (cpath ch))); try done.
  - fold (cpath ch). rewrite <- (take_drop (S j) (cpath ch)) at 1. by rewrite Et, <- app_assoc.
  - intros ch' Hch' Hc'. apply (Hdis ch' (cpfn ch) Hch' Hr Hc'). by apply in_chunk_base.
  - by apply Hneed.
Qed.

Lemma kv_same s s' t : same_boot s s' -> kv s' t = kv s t.
Proof. by intros ->. Qed.

(** The descent of all three cases. *)
Lemma dmap_table_spec s c ow D ch :
  layout s -> dinv s c ow D (tables_of ch) -> Z.of_nat (size need) <= NumBarenaMaxStructs c -> chunk_ok ch -> disjoint_from D ch ->
  (forall pi, tables_of ch pi -> pi ∈ need) ->
  exists s' c' ow' t i, dmap_table s c (cMode ch) (KrUnmakeVirtual (cMode ch) (u64 (DmapBase s + cBase ch))) = Done (s', c', kv s t, i) /\
    same_boot s s' /\ Dmap s' = Dmap s /\ dinv s' c' ow' D (tables_of ch) /\ NumBarenaMaxStructs c' = NumBarenaMaxStructs c /\
    ow' !! t = Some (take (depth (cMode ch)) (cpath ch)) /\ cpath ch !! depth (cMode ch) = Some i.
Proof.
  intros L Inv Hsz Hok Hdis Hneed. rewrite (ly_dmap s L). destruct (unmake_path ch (cMode ch) Hok) as (d & tt & Ep & Hd & Hdt). cbv zeta in *.
  set (x := KrUnmakeVirtual _ _) in *. assert (ow !! CR3 s = Some (take 0 (cpath ch))) as H0 by by apply (pt_root _ _ _ _ (di_wf _ _ _ _ _ Inv)).
  destruct (di_root _ _ _ _ _ Inv) as [_ ER]. unfold dmap_table. rewrite ER.
  destruct (get_chunk_table s c ow D ch (match cMode ch with VADDR_HUGE => PDP1GB_ENTRY | _ => PDPT_ENTRY end) (CR3 s) 0 (vPML4 x))
    as (s1 & c1 & ow1 & t1 & E1 & S1 & D1 & I1 & H1 & M1); try done; [destruct (cMode ch); simpl; lia|by rewrite Ep|by destruct (cMode ch)|].
  pose proof (same_boot_layout _ _ S1 L) as L1.
  destruct (cMode ch) eqn:Em; rewrite E1, bind_Done; cbn [depth].
  3: { exists s1, c1, ow1, t1, (vPDPT x). split_and!; try done. by rewrite Ep. }
  - destruct (get_chunk_table s1 c1 ow1 D ch PD_ENTRY t1 1 (vPDPT x)) as (s2 & c2 & ow2 & t2 & E2 & S2 & D2 & I2 & H2 & M2);
      try done; [lia|rewrite Em; simpl; lia|by rewrite Ep|].
    rewrite !(kv_same _ _ _ S1) in E2. rewrite E2, bind_Done. assert (same_boot s s2) as S12 by by etrans.
    destruct (get_chunk_table s2 c2 ow2 D ch PT_ENTRY t2 2 (vPD x)) as (s3 & c3 & ow3 & t3 & E3 & S3 & D3 & I3 & H3 & M3);
      try done; [by eapply same_boot_layout|lia|rewrite Em; simpl; lia|rewrite Ep; simpl; f_equal; by apply Hd|].
    rewrite !(kv_same _ _ _ S12) in E3. rewrite E3, bind_Done.
    exists s3, c3, ow3, t3, (vPT x). split_and!; [reflexivity|by etrans|congruence|done|congruence|done|]. rewrite Ep. simpl. f_equal. by apply Hdt.
  - destruct (get_chunk_table s1 c1 ow1 D ch PD2MB_ENTRY t1 1 (vPDPT x)) as (s2 & c2 & ow2 & t2 & E2 & S2 & D2 & I2 & H2 & M2);
      try done; [lia|rewrite Em; simpl; lia|by rewrite Ep|].
    rewrite !(kv_same _ _ _ S1) in E2. rewrite E2, bind_Done.
    exists s2, c2, ow2, t2, (vPD x). split_and!; [done|by etrans|congruence|done|congruence|done|].
    rewrite Ep. simpl. f_equal. by apply Hd.
Qed.
End Inv.
