(* ===== verification/DirectMapRegions.v ===== *)
(** * The direct map: regions, chunks and the whole construction *)
From Stdlib Require Import ZArith Lia.
From stdpp Require Import base numbers list gmap sets.
From S2P Require Import Prelude PhysBitmap KrtlMem BootstrapArena MemoryMap Physmemmgmt Pte Vmr PageTable PageTableSpec DirectMap DirectMapSpec DirectMapProps.
Open Scope Z_scope.
#[local] Arguments Z.testbit _ _ : simpl never.

Definition no_tables : list Z -> Prop := fun _ => False.

(** ** The chunks of a region *)

(** The reference decomposition: the largest page that fits, again and again. *)
Fixpoint region_chunks (fuel : nat) (huge : bool) (pa size : Z) : list chunk :=
  match fuel with
  | O => []
  | S fuel' =>
      if size =? 0 then []
      else let m := dmap_mode huge pa size in
           mkChunk pa m :: region_chunks fuel' huge (pa + mode_size m) (size - mode_size m)
  end.

Definition region_ok (pa size : Z) : Prop :=
  0 <= pa /\ pa mod 4096 = 0 /\ 0 <= size /\ size mod 4096 = 0 /\ pa + size <= 4096 * dmap_pages.

Lemma dmap_mode_spec huge pa size : region_ok pa size -> size <> 0 ->
  chunk_ok (mkChunk pa (dmap_mode huge pa size)) /\ mode_size (dmap_mode huge pa size) <= size.
Proof.
  intros (H1 & H2 & H3 & H4 & H5) Hne. unfold dmap_mode, ONEGIB, TWOMIB.
  change (0x40000000 - 1) with (2 ^ 30 - 1). change (0x200000 - 1) with (2 ^ 21 - 1). rewrite !land_ones_mod by lia.
  unfold chunk_ok. destruct (huge && (pa mod 2 ^ 30 =? 0) && (size >=? 0x40000000)) eqn:E1;
    [|destruct ((pa mod 2 ^ 21 =? 0) && (size >=? 0x200000)) eqn:E2]; cbn [cBase cMode mode_size].
  - apply andb_true_iff in E1 as [E1 E3]. apply andb_true_iff in E1 as [_ E1]. apply Z.eqb_eq in E1. rewrite Z.geb_leb in E3. apply Z.leb_le in E3.
    unfold ONEGIB. change (2 ^ 30) with 0x40000000 in E1. split_and!; try done; lia.
  - apply andb_true_iff in E2 as [E2 E3]. apply Z.eqb_eq in E2. rewrite Z.geb_leb in E3. apply Z.leb_le in E3.
    unfold TWOMIB. change (2 ^ 21) with 0x200000 in E2. split_and!; try done; lia.
  - unfold FOURKIB. split_and!; try done; zlia.
Qed.

Lemma mode_size_pos m : 4096 <= mode_size m /\ mode_size m mod 4096 = 0.
Proof. by destruct m. Qed.

Lemma region_rest huge pa size : region_ok pa size -> size <> 0 ->
  let n := mode_size (dmap_mode huge pa size) in region_ok (pa + n) (size - n).
Proof.
  intros H Hne n. destruct (dmap_mode_spec huge pa size H Hne) as [_ Hle]. fold n in Hle.
  destruct (mode_size_pos (dmap_mode huge pa size)) as [Hp Hm]. fold n in Hp, Hm. destruct H as (H1 & H2 & H3 & H4 & H5).
  unfold region_ok. split_and!; try lia; zlia.
Qed.

Definition chunk_disjoint (a b : chunk) : Prop := forall pfn, in_chunk a pfn -> ~ in_chunk b pfn.

(** The chunks are well formed, cover the region exactly and do not overlap. *)
Lemma region_chunks_spec fuel : forall huge pa size,
  region_ok pa size -> (Z.to_nat (size / 4096) < fuel)%nat ->
  Forall chunk_ok (region_chunks fuel huge pa size) /\
  (forall pfn, pa <= 4096 * pfn < pa + size <-> exists ch, ch ∈ region_chunks fuel huge pa size /\ in_chunk ch pfn) /\
  ForallOrdPairs chunk_disjoint (region_chunks fuel huge pa size).
Proof.
  induction fuel as [|fuel IH]; intros huge pa size H Hf; [lia|]. cbn [region_chunks].
  destruct (Z.eqb_spec size 0) as [->|Hne].
  { split_and!; [constructor| |constructor]. intros pfn. split; [lia|]. intros (ch & Hch & _). by apply not_elem_of_nil in Hch. }
  pose proof (region_rest huge pa size H Hne) as Hrest. destruct (dmap_mode_spec huge pa size H Hne) as [Hok Hle].
  destruct (mode_size_pos (dmap_mode huge pa size)) as [Hp Hm]. set (m := dmap_mode huge pa size) in *. cbv zeta in *.
  destruct (IH huge (pa + mode_size m) (size - mode_size m) Hrest) as (I1 & I2 & I3).
  { destruct H as (_ & _ & ? & ? & _). assert ((size - mode_size m) / 4096 < size / 4096) by zlia.
    assert (0 <= (size - mode_size m) / 4096) by (apply Z.div_pos; lia). lia. }
  split_and!.
  - by constructor.
  - intros pfn. destruct (decide (4096 * pfn < pa + mode_size m)) as [Hlt|Hge].
    + split; [intros Hr; exists (mkChunk pa m); split; [by left|]; unfold in_chunk; cbn; lia|].
      intros (ch & [->|Hch]%elem_of_cons & Hc); [unfold in_chunk in Hc; cbn in Hc; lia|].
      assert (pa + mode_size m <= 4096 * pfn) by (apply I2; eauto). lia.
    + split.
      * intros Hr. destruct (proj1 (I2 pfn)) as (ch & ? & ?); [lia|]. exists ch. split; [by right|done].
      * intros (ch & [->|Hch]%elem_of_cons & Hc); [unfold in_chunk in Hc; cbn in Hc; lia|].
        assert (pa + mode_size m <= 4096 * pfn < pa + mode_size m + (size - mode_size m)) by (apply I2; eauto). lia.
  - constructor; [|done]. apply Forall_forall. intros ch Hch pfn Hc Hc'. unfold in_chunk in Hc. cbn in Hc.
    assert (pa + mode_size m <= 4096 * pfn) by (apply I2; eauto). lia.
Qed.

(** ** Mapping a list of chunks *)

Definition count_chunks (d : DmapInfo) (l : list chunk) : DmapInfo := foldl (fun d ch => count_page d (cMode ch)) d l.

Section Chunks.
Context (need : gset (list Z)) (m0 : gmap Z Z).

Definition chunk_step (s : Boot) (c : KrDirectMappingContext) (psl : KrPatSelect) (ch : chunk) : outcome (Boot * KrDirectMappingContext) :=
  '(s, c, T, i) ← dmap_table s c (cMode ch) (KrUnmakeVirtual (cMode ch) (u64 (DmapBase s + cBase ch)));
  s ← vwrite s T i (encode (mode_leaf (cMode ch)) (cBase ch) dmap_flags psl);
  Done (with_dmap s (count_page (Dmap s) (cMode ch)), c).

Lemma dinv_dmap s d c ow D cur : dinv need m0 s c ow D cur -> dinv need m0 (with_dmap s d) c ow D cur.
Proof. intros []. by split. Qed.

Lemma chunk_step_spec s c ow D ch :
  layout s -> dinv need m0 s c ow D no_tables -> Z.of_nat (size need) <= NumBarenaMaxStructs c -> chunk_ok ch -> disjoint_from D ch ->
  (forall pi, tables_of ch pi -> pi ∈ need) ->
  exists s' c' ow', chunk_step s c (mkPat false false false) ch = Done (s', c') /\ same_boot s s' /\
    Dmap s' = count_page (Dmap s) (cMode ch) /\ dinv need m0 s' c' ow' (ch :: D) no_tables /\
    NumBarenaMaxStructs c' = NumBarenaMaxStructs c.
Proof.
  intros L Inv Hsz Hok Hdis Hneed.
  destruct (dmap_table_spec need m0 s c ow D ch L) as (s1 & c1 & ow1 & t & i & E1 & S1 & D1 & I1 & M1 & Ht & Hi); try done.
  { eapply dinv_weaken; [|exact Inv]. by intros ? []. }
  unfold chunk_step. rewrite E1, bind_Done.
  destruct (set_chunk need m0 s1 c1 ow1 D ch t i) as (s2 & E2 & S2 & D2 & I2); try done; [by eapply same_boot_layout|].
  rewrite (kv_same _ _ _ S1) in E2. fold (leaf_entry ch). rewrite E2, bind_Done.
  eexists _, c1, ow1. split; [reflexivity|]. split_and!; [|cbn; congruence|by apply dinv_dmap|done].
  rewrite (S1 : s1 = _) in S2. rewrite (S2 : s2 = _). by destruct s.
Qed.

Fixpoint map_chunks (s : Boot) (c : KrDirectMappingContext) (psl : KrPatSelect) (l : list chunk) : outcome (Boot * KrDirectMappingContext) :=
  match l with [] => Done (s, c) | ch :: l' => '(s, c) ← chunk_step s c psl ch; map_chunks s c psl l' end.

Lemma map_chunks_spec l : forall s c ow D,
  layout s -> dinv need m0 s c ow D no_tables -> Z.of_nat (size need) <= NumBarenaMaxStructs c ->
  Forall chunk_ok l -> Forall (disjoint_from D) l -> ForallOrdPairs chunk_disjoint l ->
  (forall ch pi, ch ∈ l -> tables_of ch pi -> pi ∈ need) ->
  exists s' c' ow', map_chunks s c (mkPat false false false) l = Done (s', c') /\ same_boot s s' /\
    Dmap s' = count_chunks (Dmap s) l /\ dinv need m0 s' c' ow' (rev l ++ D) no_tables /\ NumBarenaMaxStructs c' = NumBarenaMaxStructs c.
Proof.
  induction l as [|ch l IH]; intros s c ow D L Inv Hsz Hok Hdis Hpair Hneed; cbn [map_chunks].
  { exists s, c, ow. split_and!; [done|reflexivity|done|done|done]. }
  apply Forall_cons in Hok as [Hc Hok]. apply Forall_cons in Hdis as [Hd Hdis]. inversion Hpair as [|? ? Hp Hpair']; subst.
  destruct (chunk_step_spec s c ow D ch) as (s1 & c1 & ow1 & -> & S1 & D1 & I1 & M1); try done.
  { intros pi. apply Hneed. by left. }
  rewrite bind_Done. destruct (IH s1 c1 ow1 (ch :: D)) as (s2 & c2 & ow2 & E2 & S2 & D2 & I2 & M2); try done.
  { by eapply same_boot_layout. } { lia. }
  { apply Forall_forall. intros x Hx ch' pfn [->|Hch']%elem_of_cons Hr Hin.
    - rewrite Forall_forall in Hp. by apply Hp.
    - rewrite Forall_forall in Hdis. by apply (Hdis x Hx ch'). }
  { intros ch' pi Hch'. apply Hneed. by right. }
  exists s2, c2, ow2. split_and!; [done|by etrans|by rewrite D2, D1| |congruence].
  cbn [rev]. by rewrite <- app_assoc.
Qed.

(** A region is mapped as its chunks. *)
Lemma dmap_region_chunks fuel : forall s c psl pa size,
  region_ok pa size -> (Z.to_nat (size / 4096) < fuel)%nat ->
  (forall ch s1 c1 s2 c2, chunk_step s1 c1 psl ch = Done (s2, c2) -> bHugePageSupport s2 = bHugePageSupport s1) ->
  dmap_region fuel s c psl pa size = map_chunks s c psl (region_chunks fuel (bHugePageSupport s) pa size).
Proof.
  induction fuel as [|fuel IH]; intros s c psl pa size H Hf Hh; [lia|]. cbn [dmap_region region_chunks].
  destruct (Z.eqb_spec size 0) as [->|Hne]; [done|]. cbn [map_chunks].
  pose proof (region_rest (bHugePageSupport s) pa size H Hne) as Hrest. destruct (dmap_mode_spec (bHugePageSupport s) pa size H Hne) as [_ Hle].
  destruct (mode_size_pos (dmap_mode (bHugePageSupport s) pa size)) as [Hp Hm].
  change (dmap_step s c psl pa size) with (chunk_step s c psl (mkChunk pa (dmap_mode (bHugePageSupport s) pa size))).
  destruct (chunk_step _ _ _ _) as [[s1 c1]| | |] eqn:E; [|done..]. rewrite !bind_Done. set (m := dmap_mode (bHugePageSupport s) pa size) in *. cbv zeta in Hrest.
  destruct H as (H1 & H2 & H3 & H4 & H5). unfold dmap_pages in H5. rewrite !u64_small by lia. rewrite IH; [by rewrite (Hh _ _ _ _ _ E)|done| |done].
  assert ((size - mode_size m) / 4096 < size / 4096) by zlia.
  assert (0 <= (size - mode_size m) / 4096) by (apply Z.div_pos; lia). lia.
Qed.
End Chunks.

(** ** All regions *)

Lemma get_table_huge s c T p i s' c' t :
  KrdmiGetOrAcquirePageStruct s c T p i = Done (s', c', t) -> bHugePageSupport s' = bHugePageSupport s.
Proof.
  unfold KrdmiGetOrAcquirePageStruct, KrdmiAcquirePageStruct, vwrite, vzero_pages. intros H.
  repeat (case_match; try discriminate); simplify_eq; try done;
    repeat match goal with
      | H : (_ ← _; _) = Done _ |- _ => apply bind_Done_inv in H as (? & ? & ?)
      | H : (let '(_, _) := ?x in _) = _ |- _ => destruct x
      | H : (if ?b then _ else _) = Done _ |- _ => destruct b
      | _ => progress simplify_eq
      end; done.
Qed.

Lemma chunk_step_huge psl ch s1 c1 s2 c2 : chunk_step s1 c1 psl ch = Done (s2, c2) -> bHugePageSupport s2 = bHugePageSupport s1.
Proof.
  unfold chunk_step, dmap_table, vwrite. intros H.
  destruct (cMode ch);
    repeat match goal with
      | H : (_ ← _; _) = Done _ |- _ => apply bind_Done_inv in H as (? & ? & ?)
      | H : (let '(_, _) := ?x in _) = _ |- _ => destruct x
      | H : KrdmiGetOrAcquirePageStruct _ _ _ _ _ = Done _ |- _ => apply get_table_huge in H
      | _ => progress simplify_eq
      end; cbn in *; congruence.
Qed.

Lemma map_chunks_app psl l1 : forall l2 s c,
  map_chunks s c psl (l1 ++ l2) = ('(s, c) ← map_chunks s c psl l1; map_chunks s c psl l2).
Proof.
  induction l1 as [|ch l1 IH]; intros l2 s c; [done|]. cbn [app map_chunks].
  destruct (chunk_step s c psl ch) as [[s1 c1]| | |]; [|done..]. rewrite !bind_Done. apply IH.
Qed.
Lemma map_chunks_huge psl l : forall s c s' c', map_chunks s c psl l = Done (s', c') -> bHugePageSupport s' = bHugePageSupport s.
Proof.
  induction l as [|ch l IH]; intros s c s' c' H; cbn [map_chunks] in H; [by simplify_eq|].
  apply bind_Done_inv in H as ([s1 c1] & E & H). apply IH in H. apply chunk_step_huge in E. congruence.
Qed.

Definition desc_ok (d : KrMemoryDescriptor) : Prop := region_ok (PhysicalBase d) (region_bytes d).
Definition desc_chunks (huge : bool) (d : KrMemoryDescriptor) : list chunk :=
  region_chunks (S (Z.to_nat (region_bytes d / 4096))) huge (PhysicalBase d) (region_bytes d).
Definition mapped_descs (s : Boot) : list KrMemoryDescriptor :=
  CanonicalMemoryMap s ++ filter (fun d => Type_ d = KR_MEMORY_TYPE_ACPI_MEMORY_NVS) (FirmwareMap s).
(** Every chunk the direct map consists of, in order. *)
Definition plan (s : Boot) : list chunk := mapped_descs s ≫= desc_chunks (bHugePageSupport s).

Lemma dmap_desc_chunks s c psl d : desc_ok d -> dmap_desc s c psl d = map_chunks s c psl (desc_chunks (bHugePageSupport s) d).
Proof. intros H. apply dmap_region_chunks; [done|lia|apply chunk_step_huge]. Qed.

Lemma dmap_regions_chunks psl l : forall s c, Forall desc_ok l ->
  dmap_regions s c psl l = map_chunks s c psl (l ≫= desc_chunks (bHugePageSupport s)).
Proof.
  induction l as [|d l IH]; intros s c H; [done|]. apply Forall_cons in H as [Hd H]. cbn [dmap_regions mbind list_bind].
  rewrite map_chunks_app, dmap_desc_chunks by done. destruct (map_chunks _ _ _ _) as [[s1 c1]| | |] eqn:E; [|done..].
  rewrite !bind_Done, IH by done. by rewrite (map_chunks_huge _ _ _ _ _ _ E).
Qed.
Lemma dmap_nvs_chunks psl l : forall s c, Forall desc_ok (filter (fun d => Type_ d = KR_MEMORY_TYPE_ACPI_MEMORY_NVS) l) ->
  dmap_nvs s c psl l = map_chunks s c psl (filter (fun d => Type_ d = KR_MEMORY_TYPE_ACPI_MEMORY_NVS) l ≫= desc_chunks (bHugePageSupport s)).
Proof.
  induction l as [|d l IH]; intros s c H; [done|]. cbn [dmap_nvs]. rewrite filter_cons in *.
  destruct (Z.eqb_spec (Type_ d) KR_MEMORY_TYPE_ACPI_MEMORY_NVS); [rewrite decide_True in * by done|rewrite decide_False in * by done].
  - apply Forall_cons in H as [Hd H]. cbn [mbind list_bind]. rewrite map_chunks_app, dmap_desc_chunks by done.
    destruct (map_chunks _ _ _ _) as [[s1 c1]| | |] eqn:E; [|done..].
    rewrite !bind_Done, IH by done. by rewrite (map_chunks_huge _ _ _ _ _ _ E).
  - rewrite bind_Done. by apply IH.
Qed.

Definition desc_disjoint (a b : KrMemoryDescriptor) : Prop :=
  PhysicalBase a + region_bytes a <= PhysicalBase b \/ PhysicalBase b + region_bytes b <= PhysicalBase a.
Definition in_desc (d : KrMemoryDescriptor) (pa : Z) : Prop := PhysicalBase d <= pa < PhysicalBase d + region_bytes d.

Lemma desc_chunks_spec huge d : desc_ok d ->
  Forall chunk_ok (desc_chunks huge d) /\
  (forall pfn, in_desc d (4096 * pfn) <-> exists ch, ch ∈ desc_chunks huge d /\ in_chunk ch pfn) /\
  ForallOrdPairs chunk_disjoint (desc_chunks huge d).
Proof. intros H. apply region_chunks_spec; [done|lia]. Qed.

Lemma ord_pairs_app {A} (P : A -> A -> Prop) l1 l2 :
  ForallOrdPairs P l1 -> ForallOrdPairs P l2 -> Forall (fun a => Forall (P a) l2) l1 -> ForallOrdPairs P (l1 ++ l2).
Proof.
  intros H1 H2 H. induction H1 as [|a l Ha Hl IH]; [done|]. apply Forall_cons in H as [Hx H]. cbn. constructor; [|by apply IH].
  apply Forall_app. done.
Qed.

Lemma all_chunks_spec huge l : Forall desc_ok l -> ForallOrdPairs desc_disjoint l ->
  Forall chunk_ok (l ≫= desc_chunks huge) /\
  (forall pfn, (exists d, d ∈ l /\ in_desc d (4096 * pfn)) <-> exists ch, ch ∈ l ≫= desc_chunks huge /\ in_chunk ch pfn) /\
  ForallOrdPairs chunk_disjoint (l ≫= desc_chunks huge).
Proof.
  induction l as [|d l IH]; intros H Hp; cbn [mbind list_bind].
  { split_and!; [constructor| |constructor]. intros pfn. split; intros (x & Hx & _); by apply not_elem_of_nil in Hx. }
  apply Forall_cons in H as [Hd H]. inversion Hp as [|? ? Hpd Hp']; subst.
  destruct (desc_chunks_spec huge d Hd) as (D1 & D2 & D3). destruct (IH H Hp') as (I1 & I2 & I3).
  split_and!.
  - by apply Forall_app.
  - intros pfn. split.
    + intros (x & [->|Hx]%elem_of_cons & Hin).
      * apply D2 in Hin as (ch & ? & ?). exists ch. split; [apply elem_of_app; by left|done].
      * destruct (proj1 (I2 pfn)) as (ch & ? & ?); [eauto|]. exists ch. split; [apply elem_of_app; by right|done].
    + intros (ch & [Hch|Hch]%elem_of_app & Hin).
      * exists d. split; [by left|]. apply D2. eauto.
      * destruct (proj2 (I2 pfn)) as (x & ? & ?); [eauto|]. exists x. split; [by right|done].
  - apply ord_pairs_app; [done|done|]. apply Forall_forall. intros a Ha. apply Forall_forall. intros b Hb pfn Hain Hbin.
    assert (in_desc d (4096 * pfn)) as Hd1 by (apply D2; eauto).
    destruct (proj2 (I2 pfn)) as (x & Hx & Hd2); [eauto|]. rewrite Forall_forall in Hpd. specialize (Hpd x Hx).
    unfold desc_disjoint, in_desc in *. lia.
Qed.

(** The tables the direct map needs. *)
Definition chunk_tables (ch : chunk) : list (list Z) := (fun j => take j (cpath ch)) <$> seq 1 (depth (cMode ch)).
Definition needed (s : Boot) : gset (list Z) := list_to_set (plan s ≫= chunk_tables).

Lemma needed_tables s ch pi : ch ∈ plan s -> tables_of ch pi -> pi ∈ needed s.
Proof.
  intros Hch (j & Hj & ->). apply elem_of_list_to_set, list_elem_of_bind. exists ch. split; [|done].
  apply list_elem_of_fmap. exists j. split; [done|]. apply elem_of_seq. lia.
Qed.
