(* ===== verification/DirectMapInit.v ===== *)
(** * The direct map: the static tables of the kernel and the final theorems *)
From Stdlib Require Import ZArith Lia.
From stdpp Require Import base numbers list gmap sets.
From S2P Require Import Prelude PhysBitmap KrtlMem BootstrapArena MemoryMap Physmemmgmt Pte Vmr PageTable PageTableSpec PageTableProps DirectMap DirectMapSpec DirectMapProps DirectMapRegions.
Open Scope Z_scope.
#[local] Arguments Z.testbit _ _ : simpl never.

#[local] Abbreviation wb := (mkPat false false false).

(** ** Static tables *)

Definition zero_table (m : gmap Z Z) (t : Z) : Prop := forall i, 0 <= i < 512 -> m !! (t + 8 * i) = Some 0.
(** Whether an address is a word of the table [t]. *)
Definition word_of (t a : Z) : Prop := exists i, 0 <= i < 512 /\ a = t + 8 * i.
Definition large_leaf (Base k Flags : Z) (psl : KrPatSelect) : Z := encode PD2MB_ENTRY (Base + k * 0x200000) Flags psl.

Lemma root_wf m R : zero_table m R -> R mod 4096 = 0 -> pt_wf m 0 R {[R := []]}.
Proof. intros Hz Ha. rewrite <- (zero_page_id m R Hz). by apply empty_root_wf. Qed.

Lemma large_leaf_ok Base k Flags psl :
  0 <= k < 512 -> 0 <= Base -> Base mod 2 ^ 21 = 0 -> Base + 2 ^ 30 <= 2 ^ 52 -> flags_ok Flags ->
  leaf_ok PD2MB_ENTRY (large_leaf Base k Flags psl) (Base + k * 0x200000) Flags false psl.
Proof.
  intros Hk Hb Hm Hr Hf. unfold large_leaf, encode. apply encode_leaf; [done|lia| |done].
  cbn [KrGetPteTypeAlignment]. change 0x200000 with (2 ^ 21). by rewrite Z.add_comm, Z.add_comm, Z.mod_add by lia.
Qed.

(** What the loop over a page directory leaves. *)
Lemma static_loop_spec R ow t pi Base Flags psl s0 n : forall s i,
  pt_wf (Phys s) 0 R ow -> ow !! t = Some pi -> length pi = 2%nat -> same_boot s0 s ->
  0 <= i -> i + Z.of_nat n <= 512 -> (forall j, i <= j < 512 -> Phys s !! (t + 8 * j) = Some 0) ->
  KrReservedVirtToPhys s0 (kv s0 t) = t ->
  0 <= Base -> Base mod 2 ^ 21 = 0 -> Base + 2 ^ 30 <= 2 ^ 52 -> flags_ok Flags -> Z.testbit Flags 0 = true ->
  exists m', static_loop n s (kv s0 t) Base Flags psl i = Done (with_phys s m') /\ pt_wf m' 0 R ow /\
    (forall k rest, i <= k < i + Z.of_nat n -> indices_ok (pi ++ k :: rest) ->
       walk m' 0 0 R (pi ++ k :: rest) = Some (large_leaf Base k Flags psl, rest)) /\
    (forall idxs, indices_ok idxs -> (forall k rest, i <= k < i + Z.of_nat n -> idxs <> pi ++ k :: rest) ->
       walk m' 0 0 R idxs = walk (Phys s) 0 0 R idxs) /\
    (forall a, ~ word_of t a -> m' !! a = Phys s !! a).
Proof.
  induction n as [|n IH]; intros s i W Ht Hl Hs Hi Hn Hz Hkv Hb Hbm Hbr Hf Hf0; cbn [static_loop].
  { exists (Phys s). split_and!; [by destruct s|done|lia|done|done]. }
  unfold put_static. rewrite (proj2 (Z.leb_le 0 i)), (proj2 (Z.ltb_lt i 512)) by lia. cbn [andb]. rewrite bind_Done.
  assert (KrReservedVirtToPhys s (kv s0 t) = t) as -> by (etrans; [|exact Hkv]; by rewrite (Hs : s = _)).
  rewrite (u32_small (i * 0x200000)), (u64_small (Base + _)) by lia. fold (large_leaf Base i Flags psl).
  pose proof (large_leaf_ok Base i Flags psl ltac:(lia) Hb Hbm Hbr Hf) as [_ _ L7 L0 _ _ _ _].
  set (e := large_leaf Base i Flags psl) in *. unfold entry_bit in L7, L0. rewrite Hf0 in L0. specialize (L7 eq_refl).
  assert (follows (length pi) e = false) as Hfo by (rewrite Hl; cbn; by rewrite L7).
  assert (forall e', Phys s !! (t + 8 * i) = Some e' -> Z.testbit e' 0 = true -> follows (length pi) e' = false) as Hold.
  { intros e' He'. rewrite Hz in He' by lia. by injection He' as <-. }
  assert (0 <= i < 512) as Hi512 by lia.
  pose proof (set_entry_wf (Phys s) 0 R ow W t pi i e Ht Hi512 Hold L0 Hfo) as W1.
  pose proof (fun idxs => set_entry_walk (Phys s) 0 R ow W t pi i e Ht Hi512 Hold L0 Hfo idxs) as K1.
  set (s1 := with_phys s (<[t + 8 * i := e]> (Phys s))).
  destruct (IH s1 (i + 1)) as (m' & -> & W' & K2 & K3 & K4); try done; try lia.
  { etrans; [exact Hs|apply same_boot_phys]. }
  { intros j Hj. cbn [Phys s1 with_phys]. rewrite lookup_insert_ne by lia. apply Hz. lia. }
  exists m'. split_and!; [by destruct s|done| | |].
  - intros k rest Hk Hok. destruct (decide (k = i)) as [->|]; [|apply K2; [lia|done]].
    rewrite K3; [|done|].
    + cbn [Phys s1 with_phys]. rewrite K1 by done. rewrite decide_True.
      * f_equal. f_equal. change (pi ++ i :: rest) with (pi ++ [i] ++ rest). rewrite app_assoc. rewrite drop_app_length'; [done|].
        rewrite length_app. simpl. lia.
      * change (pi ++ i :: rest) with (pi ++ [i] ++ rest). rewrite app_assoc. rewrite take_app_length'; [done|]. rewrite length_app. simpl. lia.
    + intros k' rest' Hk' E. apply app_inv_head in E. simplify_eq. lia.
  - intros idxs Hok Hne. rewrite K3; [|done|intros k rest Hk; apply Hne; lia]. cbn [Phys s1 with_phys]. rewrite K1 by done.
    rewrite decide_False; [done|]. intros E. apply (Hne i (drop (S (length pi)) idxs)); [lia|].
    rewrite <- (take_drop (S (length pi)) idxs) at 1. by rewrite E, <- app_assoc.
  - intros a Ha. rewrite K4 by done. cbn [Phys s1 with_phys]. apply lookup_insert_ne. intros <-. apply Ha. exists i. split; [lia|done].
Qed.

(** What the loader and the linker leave: a reserved area at the kernel's
    virtual base, large-page aligned, that holds four zeroed static tables. *)
Record boot_ok (s : Boot) (tR tK tD tF : Z) : Prop := {
  bo_virt : AddrVirtualBase (LoadInfo s) = KVBASE;
  bo_phys : 0 <= AddrPhysicalBase (LoadInfo s) /\ AddrPhysicalBase (LoadInfo s) mod 2 ^ 21 = 0 /\
            AddrPhysicalBase (LoadInfo s) + 2 ^ 30 <= 2 ^ 52;
  bo_reserve : 0 < ReserveSize (LoadInfo s) <= 2 ^ 30;
  bo_fb : 0 <= fbPhysicalAddress (FrameBufferInfo s) /\ fbPhysicalAddress (FrameBufferInfo s) mod 2 ^ 21 = 0 /\
          fbPhysicalAddress (FrameBufferInfo s) + 2 ^ 30 <= 2 ^ 52;
  bo_fbsize : 0 <= fbSize (FrameBufferInfo s) <= 2 ^ 30;
  bo_pat : bPat s = KrVmmInitPat.2;
  bo_psl : bpslDefault s = wb;
  bo_img : img s = mkImage (kv s tR) (kv s tK) (kv s tD) (kv s tF);
  bo_tables : Forall (fun t => reserved_page s t /\ zero_table (Phys s) t) [tR; tK; tD; tF];
  bo_distinct : NoDup [tR; tK; tD; tF]
}.

Definition kernel_pages (s : Boot) : Z := (ReserveSize (LoadInfo s) + 0x1FFFFF) / 0x200000.
Definition fb_pages (s : Boot) : Z := Z.max 1 ((fbSize (FrameBufferInfo s) + 0x1FFFFF) / 0x200000).
Definition pslWC : KrPatSelect := mkPat false false true.
Definition static_owner (tR tK tD tF : Z) : gmap Z (list Z) :=
  <[tF := [511; 511]]> (<[tD := [511; 510]]> (<[tK := [511]]> {[tR := []]})).
Definition kernel_leaf (s : Boot) (k : Z) : Z := large_leaf (AddrPhysicalBase (LoadInfo s)) k 3 wb.
Definition fb_leaf (s : Boot) (k : Z) : Z := large_leaf (fbPhysicalAddress (FrameBufferInfo s)) k (Z.lor 3 PTE_NX) pslWC.

Lemma virt_to_phys s t :
  AddrVirtualBase (LoadInfo s) = KVBASE -> 0 <= AddrPhysicalBase (LoadInfo s) -> AddrPhysicalBase (LoadInfo s) + 2 ^ 30 <= 2 ^ 52 ->
  ReserveSize (LoadInfo s) <= 2 ^ 30 -> reserved_page s t -> KrReservedVirtToPhys s (kv s t) = t.
Proof.
  intros Hv H0 H1 H2 (P1 & P2 & _). unfold KrReservedVirtToPhys, kv. rewrite Hv. rewrite (u64_small (_ - KVBASE)), u64_small by lia. lia.
Qed.

(** One link between two static tables. *)
Lemma static_link m R ow t0 pi0 i0 T tn :
  pt_wf m 0 R ow -> ow !! t0 = Some pi0 -> (length pi0 < 3)%nat -> 0 <= i0 < 512 -> m !! (t0 + 8 * i0) = Some 0 ->
  ow !! tn = None -> tn mod 4096 = 0 -> 0 <= tn < 2 ^ 52 -> zero_table m tn -> structure_type T = true ->
  let m' := <[t0 + 8 * i0 := encode T tn 3 wb]> m in
  pt_wf m' 0 R (<[tn := pi0 ++ [i0]]> ow) /\
  (forall idxs, indices_ok idxs -> length idxs = 4%nat -> walk m' 0 0 R idxs = walk m 0 0 R idxs).
Proof.
  intros W H0 Hl Hi Hz Hn Ha Hr Ht HT m'. destruct (encode_table T tn 3 wb HT Hr Ha) as (E0 & E7 & Ef);
    [apply flags_ok_intro; [lia|reflexivity]|reflexivity|].
  assert (u64 (0 + entry_frame (encode T tn 3 wb)) = tn) as Hc by (rewrite Ef; apply u64_small; lia).
  assert (forall e', m !! (t0 + 8 * i0) = Some e' -> Z.testbit e' 0 = false) as Hold by (intros e' He'; rewrite Hz in He'; by injection He' as <-).
  pose proof (follows_table pi0 _ Hl E7) as Hf.
  split; [by apply (link_zeroed_wf m 0 R ow W t0 pi0 i0)|]. intros idxs. by apply (link_zeroed_walk m 0 R ow W t0 pi0 i0 _ tn).
Qed.

Lemma static_put s t i e : KrReservedVirtToPhys s (kv s t) = t -> 0 <= i < 512 ->
  put_static s (kv s t) i e = Done (with_phys s (<[t + 8 * i := e]> (Phys s))).
Proof. intros H Hi. unfold put_static. rewrite (proj2 (Z.leb_le 0 i)), (proj2 (Z.ltb_lt i 512)) by lia. cbn [andb]. by rewrite H. Qed.

Lemma zero_root_walk m R idxs : zero_table m R -> indices_ok idxs -> length idxs = 4%nat -> walk m 0 0 R idxs = None.
Proof.
  intros Hz Hok Hl. destruct idxs as [|i idxs]; [done|]. apply Forall_cons in Hok as [Hi _]. cbn [walk]. by rewrite Hz.
Qed.

Lemma word_other t t' i : t mod 4096 = 0 -> t' mod 4096 = 0 -> t <> t' -> 0 <= i < 512 -> ~ word_of t (t' + 8 * i).
Proof. intros H H' Hne Hi (j & Hj & E). destruct (word_inj t' i t j); congruence. Qed.

(** The paths of the kernel's image and of the frame buffer. *)
Definition kernel_range (s : Boot) (idxs : list Z) : Prop := exists k rest, 0 <= k < kernel_pages s /\ idxs = [511; 510] ++ k :: rest.
Definition fb_range (s : Boot) (idxs : list Z) : Prop := exists k rest, 0 <= k < fb_pages s /\ idxs = [511; 511] ++ k :: rest.

Record static_tables (s : Boot) (m : gmap Z Z) (tR tK tD tF : Z) : Prop := {
  st_wf : pt_wf m 0 tR (static_owner tR tK tD tF);
  st_kernel : forall k rest, 0 <= k < kernel_pages s -> indices_ok (k :: rest) ->
    walk m 0 0 tR ([511; 510] ++ k :: rest) = Some (kernel_leaf s k, rest);
  st_fb : forall k rest, 0 <= k < fb_pages s -> indices_ok (k :: rest) ->
    walk m 0 0 tR ([511; 511] ++ k :: rest) = Some (fb_leaf s k, rest);
  st_else : forall idxs, indices_ok idxs -> length idxs = 4%nat -> ~ kernel_range s idxs -> ~ fb_range s idxs -> walk m 0 0 tR idxs = None;
  st_frame : forall a, Forall (fun t => ~ word_of t a) [tR; tK; tD; tF] -> m !! a = Phys s !! a
}.

Section Static.
Context (s : Boot) (tR tK tD tF : Z) (B : boot_ok s tR tK tD tF).

Lemma static_table t : t ∈ [tR; tK; tD; tF] ->
  t mod 4096 = 0 /\ 0 <= t < 2 ^ 52 /\ zero_table (Phys s) t /\ KrReservedVirtToPhys s (kv s t) = t.
Proof using All.
  intros Ht. destruct (proj1 (Forall_forall _ _) (bo_tables _ _ _ _ _ B) t Ht) as [Hr Hz]. pose proof Hr as (H1 & H2 & H3).
  destruct (bo_phys _ _ _ _ _ B) as (P1 & _ & P2). pose proof (bo_reserve _ _ _ _ _ B).
  split_and!; [done|lia|lia|done|]. apply virt_to_phys; try done; [apply B|lia].
Qed.
Lemma static_distinct : tK <> tR /\ tD <> tR /\ tF <> tR /\ tD <> tK /\ tF <> tK /\ tF <> tD.
Proof using All. pose proof (bo_distinct _ _ _ _ _ B) as H. rewrite !NoDup_cons in H. set_solver. Qed.

(** The three links of the root and of the kernel's PDPT. *)
Definition linked_statics : gmap Z Z :=
  <[tK + 8 * 511 := encode PDPT_ENTRY tF 3 wb]> (<[tK + 8 * 510 := encode PDPT_ENTRY tD 3 wb]>
    (<[tR + 8 * 511 := encode PML4_ENTRY tK 3 wb]> (Phys s))).

Lemma linked_statics_other t i : t mod 4096 = 0 -> 0 <= i < 512 -> (t = tR -> i <> 511) -> (t = tK -> i <> 510 /\ i <> 511) ->
  linked_statics !! (t + 8 * i) = Phys s !! (t + 8 * i).
Proof using All.
  intros Ht Hi HR HK. destruct (static_table tR) as (R1 & _); [set_solver|]. destruct (static_table tK) as (K1 & _); [set_solver|].
  unfold linked_statics. rewrite !lookup_insert_ne; [done| | |]; intros E.
  - destruct (word_inj tR 511 t i) as [E1 E2]; [done..|]. subst t. lia.
  - destruct (word_inj tK 510 t i) as [E1 E2]; [done..|]. subst t. lia.
  - destruct (word_inj tK 511 t i) as [E1 E2]; [done..|]. subst t. lia.
Qed.

Lemma linked_statics_spec : pt_wf linked_statics 0 tR (static_owner tR tK tD tF) /\
  forall idxs, indices_ok idxs -> length idxs = 4%nat -> walk linked_statics 0 0 tR idxs = None.
Proof using All.
  destruct (static_table tR) as (R1 & R2 & R3 & R4); [set_solver|]. destruct (static_table tK) as (K1 & K2 & K3 & K4); [set_solver|].
  destruct (static_table tD) as (D1 & D2 & D3 & D4); [set_solver|]. destruct (static_table tF) as (F1 & F2 & F3 & F4); [set_solver|].
  destruct static_distinct as (N1 & N2 & N3 & N4 & N5 & N6).
  assert (forall m a i e t, a mod 4096 = 0 -> 0 <= i < 512 -> t mod 4096 = 0 -> t <> a -> zero_table m t -> zero_table (<[a + 8 * i := e]> m) t) as Hkeep.
  { intros m a i e t Ha Hi Ht Hne Hz j Hj. rewrite lookup_insert_ne; [by apply Hz|]. intros E. destruct (word_inj a i t j); congruence. }
  pose proof (root_wf (Phys s) tR R3 R1) as W0.
  destruct (static_link (Phys s) tR _ tR [] 511 PML4_ENTRY tK W0) as [W1 K1'];
    [apply lookup_singleton_eq|simpl; lia|lia|by apply R3|by rewrite lookup_singleton_ne|done..|].
  set (m1 := <[tR + 8 * 511 := _]> (Phys s)) in *.
  destruct (static_link m1 tR _ tK [511] 510 PDPT_ENTRY tD W1) as [W2 K2'];
    [apply lookup_insert_eq|simpl; lia|lia|apply Hkeep; (done || lia)|by rewrite lookup_insert_ne, lookup_singleton_ne|done|done|by apply Hkeep|done|].
  set (m2 := <[tK + 8 * 510 := _]> m1) in *.
  destruct (static_link m2 tR _ tK [511] 511 PDPT_ENTRY tF W2) as [W3 K3'];
    [by rewrite lookup_insert_ne, lookup_insert_eq|simpl; lia|lia
    |unfold m2; rewrite lookup_insert_ne by lia; apply Hkeep; (done || lia)
    |by rewrite !lookup_insert_ne, lookup_singleton_ne|done|done|by apply Hkeep, Hkeep|done|].
  split; [exact W3|]. intros idxs Hok Hl. unfold linked_statics. fold m1. fold m2. rewrite K3', K2', K1' by done. by apply zero_root_walk.
Qed.

(** The page counts the code computes. *)
Lemma static_counts : 0 < kernel_pages s <= 512 /\ 0 < fb_pages s <= 512 /\
  u32 (u64 (ReserveSize (LoadInfo s) + 0x200000 - 1) / 0x200000) = kernel_pages s /\
  (let n := u32 (fbSize (FrameBufferInfo s) + 0x200000 - 1) / 0x200000 in if n =? 0 then 1 else n) = fb_pages s.
Proof using All.
  pose proof (bo_reserve _ _ _ _ _ B). pose proof (bo_fbsize _ _ _ _ _ B). unfold kernel_pages, fb_pages.
  rewrite (u64_small (_ - 1)), (u32_small (fbSize _ + _ - 1)) by lia.
  replace (ReserveSize (LoadInfo s) + 0x200000 - 1) with (ReserveSize (LoadInfo s) + 0x1FFFFF) by lia.
  replace (fbSize (FrameBufferInfo s) + 0x200000 - 1) with (fbSize (FrameBufferInfo s) + 0x1FFFFF) by lia.
  rewrite u32_small by zlia. cbv zeta. split_and!; try zlia.
  destruct (Z.eqb_spec ((fbSize (FrameBufferInfo s) + 0x1FFFFF) / 0x200000) 0); zlia.
Qed.

Lemma static_owner_lookups :
  static_owner tR tK tD tF !! tD = Some [511; 510] /\ static_owner tR tK tD tF !! tF = Some [511; 511].
Proof using All.
  destruct (static_distinct) as (N1 & N2 & N3 & N4 & N5 & N6). unfold static_owner.
  split; [by rewrite lookup_insert_ne, lookup_insert_eq|apply lookup_insert_eq].
Qed.

Lemma static_put_at s' t i e : LoadInfo s' = LoadInfo s -> t ∈ [tR; tK; tD; tF] -> 0 <= i < 512 ->
  put_static s' (kv s t) i e = Done (with_phys s' (<[t + 8 * i := e]> (Phys s'))).
Proof using All.
  intros E Ht Hi. destruct (static_table t Ht) as (_ & _ & _ & H). unfold put_static.
  rewrite (proj2 (Z.leb_le 0 i)), (proj2 (Z.ltb_lt i 512)) by lia. cbn [andb].
  assert (KrReservedVirtToPhys s' (kv s t) = t) as -> by (unfold KrReservedVirtToPhys in *; by rewrite E). done.
Qed.

(** The function with its three links made and its page counts evaluated. *)
Lemma static_pages_eq :
  let s1 := with_bases (with_phys s linked_statics) 0xFFFF800000000000 (CR3 s) in
  KrVmmInitKernelStaticPages s =
    (s2 ← static_loop (Z.to_nat (kernel_pages s)) s1 (kv s tD) (AddrPhysicalBase (LoadInfo s)) 3 wb 0;
     let n := u32 (fbSize (FrameBufferInfo s2) + 0x200000 - 1) / 0x200000 in
     psl ← KrSelectPat (bPat s2) KR_PAT_WRITE_COMBINING;
     static_loop (Z.to_nat (if n =? 0 then 1 else n)) s2 (g_FrameBufferPD (img s2)) (fbPhysicalAddress (FrameBufferInfo s2)) (Z.lor 3 PTE_NX) psl 0).
Proof using All.
  destruct static_counts as (Ck & Cf & Ek & Ef).
  assert (forall t, t ∈ [tR; tK; tD; tF] -> KrReservedVirtToPhys s (kv s t) = t) as HV by (intros t Ht; by apply static_table).
  assert (forall s', LoadInfo s' = LoadInfo s -> forall t, t ∈ [tR; tK; tD; tF] -> KrReservedVirtToPhys s' (kv s t) = t) as HV'.
  { intros s' E t Ht. rewrite <- (HV t Ht) at 2. unfold KrReservedVirtToPhys. by rewrite E. }
  unfold KrVmmInitKernelStaticPages. change (KR_MAKE_VIRTUAL DMAP_PML4_IDX 0 0 0 0) with 0xFFFF800000000000.
  change (Z.lor PTE_PRESENT PTE_WRITABLE) with 3. cbv zeta. rewrite <- Ek.
  pose proof (bo_img _ _ _ _ _ B) as Bi. cbn [bpslDefault img with_bases]. rewrite (bo_psl _ _ _ _ _ B).
  do 3 (cbn [img with_phys with_bases]; rewrite Bi; cbn [g_PML4 g_KernelPDPT g_KernelPD g_FrameBufferPD];
        rewrite HV' by (done || set_solver); rewrite static_put_at, bind_Done by (done || set_solver || lia)).
  cbn [img with_phys with_bases]. rewrite Bi. reflexivity.
Qed.

Lemma kernel_indices a l : 0 <= a < 512 -> indices_ok l -> indices_ok ([511; a] ++ l).
Proof using. intros Ha Hl. constructor; [done|]. by constructor. Qed.

Lemma static_pages_spec :
  exists m, KrVmmInitKernelStaticPages s = Done (with_bases (with_phys s m) 0xFFFF800000000000 (CR3 s)) /\ static_tables s m tR tK tD tF.
Proof using All.
  destruct (static_table tR) as (R1 & _); [set_solver|]. destruct (static_table tK) as (K1 & _); [set_solver|].
  destruct (static_table tD) as (D1 & D2 & D3 & D4); [set_solver|]. destruct (static_table tF) as (F1 & F2 & F3 & F4); [set_solver|].
  destruct static_distinct as (N1 & N2 & N3 & N4 & N5 & N6). destruct static_counts as (Ck & Cf & Ek & Ef).
  destruct linked_statics_spec as [W0 E0]. destruct static_owner_lookups as [OD OF].
  destruct (bo_phys _ _ _ _ _ B) as (P1 & P2 & P3). destruct (bo_fb _ _ _ _ _ B) as (B1 & B2 & B3).
  rewrite static_pages_eq. cbv zeta in Ef |- *. set (s1 := with_bases _ _ _).
  assert (flags_ok 3) as Hf3 by (apply flags_ok_intro; [lia|reflexivity]).
  assert (flags_ok (Z.lor 3 PTE_NX)) as HfN by (apply flags_ok_intro; [vm_compute; split; done|reflexivity]).
  assert (forall idxs, ~ kernel_range s idxs -> forall k rest, 0 <= k < 0 + kernel_pages s -> idxs <> [511; 510] ++ k :: rest) as HnK.
  { intros idxs Hn k rest Hk ->. apply Hn. by exists k, rest. }
  assert (forall idxs, ~ fb_range s idxs -> forall k rest, 0 <= k < 0 + fb_pages s -> idxs <> [511; 511] ++ k :: rest) as HnF.
  { intros idxs Hn k rest Hk ->. apply Hn. by exists k, rest. }
  destruct (static_loop_spec tR (static_owner tR tK tD tF) tD [511; 510] (AddrPhysicalBase (LoadInfo s)) 3 wb s1 (Z.to_nat (kernel_pages s)) s1 0)
    as (m2 & E2 & W2 & A2 & B2' & C2); try done; try lia.
  { intros j Hj. change (Phys s1) with linked_statics. rewrite linked_statics_other by (done || lia). by apply D3. }
  change (kv s1 tD) with (kv s tD) in E2. rewrite E2, bind_Done. rewrite Z2Nat.id in A2, B2' by lia.
  change (FrameBufferInfo (with_phys s1 m2)) with (FrameBufferInfo s). rewrite Ef.
  change (bPat (with_phys s1 m2)) with (bPat s). rewrite (bo_pat _ _ _ _ _ B).
  change (KrSelectPat KrVmmInitPat.2 KR_PAT_WRITE_COMBINING) with (Done pslWC). rewrite bind_Done.
  change (img (with_phys s1 m2)) with (img s). rewrite (bo_img _ _ _ _ _ B). cbn [g_FrameBufferPD].
  destruct (static_loop_spec tR (static_owner tR tK tD tF) tF [511; 511] (fbPhysicalAddress (FrameBufferInfo s)) (Z.lor 3 PTE_NX) pslWC (with_phys s1 m2)
    (Z.to_nat (fb_pages s)) (with_phys s1 m2) 0) as (m3 & E3 & W3 & A3 & B3' & C3); try done; try lia.
  { intros j Hj. cbn [Phys with_phys]. rewrite C2 by by apply word_other. change (Phys s1) with linked_statics.
    rewrite linked_statics_other by (done || lia). by apply F3. }
  change (kv (with_phys s1 m2) tF) with (kv s tF) in E3. rewrite E3. rewrite Z2Nat.id in A3, B3' by lia.
  exists m3. split; [reflexivity|]. cbn [Phys with_phys] in B3', C3. split.
  - exact W3.
  - intros k rest Hk Hok. rewrite B3'; [|by apply kernel_indices|done]. apply A2; [lia|by apply kernel_indices].
  - intros k rest Hk Hok. apply A3; [lia|by apply kernel_indices].
  - intros idxs Hok Hl HK HF. rewrite B3', B2' by auto. by apply E0.
  - intros a Ha. rewrite !Forall_cons in Ha. destruct Ha as (HR & HK & HD & HF & _). rewrite C3, C2 by done. change (Phys s1) with linked_statics.
    unfold linked_statics. rewrite !lookup_insert_ne; [done| | |]; intros <-; [apply HR; exists 511|apply HK; exists 510|apply HK; exists 511]; split; (done || lia).
Qed.
End Static.
