(* ===== verification/DirectMapThms.v ===== *)
(** * The direct map: the arena, the whole construction and the final theorem *)
From Stdlib Require Import ZArith Lia.
From stdpp Require Import base numbers list gmap sets.
From S2P Require Import Prelude PhysBitmap KrtlMem BootstrapArena MemoryMap Physmemmgmt Pte Vmr PageTable PageTableSpec PageTableProps DirectMap DirectMapSpec DirectMapProps DirectMapRegions DirectMapInit.
Open Scope Z_scope.
#[local] Arguments Z.testbit _ _ : simpl never.

#[local] Abbreviation wb := (mkPat false false false).

(** ** The kernel runs through its own tables *)

Lemma range_indices st off : st mod 2 ^ 30 = 0 -> 0 <= off < 2 ^ 30 ->
  va_indices (st + off) = [st / 2 ^ 39 mod 512; st / 2 ^ 30 mod 512; off / 2 ^ 21; off / 2 ^ 12 mod 512].
Proof.
  intros Hs Ho. unfold va_indices. apply (f_equal2 cons); [zlia|]. apply (f_equal2 cons); [zlia|].
  apply (f_equal2 cons); [zlia|]. apply (f_equal2 cons); [zlia|done].
Qed.

(** Bytes that a run of 2 MiB leaves translates. *)
Lemma leaf_translates m R st Base Flags psl off n :
  st mod 2 ^ 30 = 0 -> 0 <= off < 2 ^ 21 * n -> n <= 512 -> 0 <= Base -> Base mod 2 ^ 21 = 0 -> Base + 2 ^ 30 <= 2 ^ 52 -> flags_ok Flags ->
  (forall k r, 0 <= k < n -> indices_ok [k; r] ->
    walk m 0 0 R ([st / 2 ^ 39 mod 512; st / 2 ^ 30 mod 512] ++ [k; r]) = Some (large_leaf Base k Flags psl, [r])) ->
  mmu_translate m 0 R (st + off) = Some (Base + off, large_leaf Base (off / 2 ^ 21) Flags psl).
Proof.
  intros Hst Hoff Hn Hb Hbm Hbr Hf Hw. unfold mmu_translate. rewrite range_indices by lia.
  assert (0 <= off / 2 ^ 21 < n) as Hk by zlia. set (k := off / 2 ^ 21) in *.
  assert (indices_ok [k; off / 2 ^ 12 mod 512]) as Hok by (constructor; [lia|]; constructor; [apply Z.mod_pos_bound; lia|constructor]).
  pose proof (Hw k _ Hk Hok) as E. cbn [app] in E. rewrite E.
  pose proof (large_leaf_ok Base k Flags psl ltac:(lia) Hb Hbm Hbr Hf) as [-> _ _ _ _ _ _ _].
  do 2 f_equal. unfold k. zlia.
Qed.

Section Build.
Context (s : Boot) (tR tK tD tF : Z) (B : boot_ok s tR tK tD tF).

Lemma flags_rw : flags_ok 3.
Proof using. apply flags_ok_intro; [lia|reflexivity]. Qed.
Lemma flags_rw_nx : flags_ok (Z.lor 3 PTE_NX).
Proof using. apply flags_ok_intro; [vm_compute; split; done|reflexivity]. Qed.

(** Where the kernel and the frame buffer are once any later table changes
    leave the root's last entry alone. *)
Lemma high_translations m m' off :
  static_tables s m tR tK tD tF ->
  (forall idxs, indices_ok idxs -> length idxs = 4%nat -> ~ dpi idxs -> walk m' 0 0 tR idxs = walk m 0 0 tR idxs) ->
  (0 <= off < 0x200000 * kernel_pages s -> mmu_translate m' 0 tR (KVBASE + off) =
     Some (AddrPhysicalBase (LoadInfo s) + off, kernel_leaf s (off / 0x200000))) /\
  (0 <= off < 0x200000 * fb_pages s -> mmu_translate m' 0 tR (KVBASE + 2 ^ 30 + off) =
     Some (fbPhysicalAddress (FrameBufferInfo s) + off, fb_leaf s (off / 0x200000))).
Proof using All.
  intros [W K F E Fr] Hm. destruct (static_counts _ _ _ _ _ B) as (Ck & Cf & _).
  destruct (bo_phys _ _ _ _ _ B) as (P1 & P2 & P3). destruct (bo_fb _ _ _ _ _ B) as (B1 & B2 & B3).
  assert (forall a k r, 0 <= a < 512 -> indices_ok [k; r] -> walk m' 0 0 tR ([511; a] ++ [k; r]) = walk m 0 0 tR ([511; a] ++ [k; r])) as Hhigh.
  { intros a k r Ha Hok. apply Hm; [by apply kernel_indices|done|]. cbn. lia. }
  split; intros Hoff.
  - apply (leaf_translates m' tR KVBASE _ 3 wb off (kernel_pages s)); try done; try lia; [apply flags_rw|].
    intros k r Hk Hok. change (KVBASE / 2 ^ 39 mod 512) with 511. change (KVBASE / 2 ^ 30 mod 512) with 510.
    rewrite Hhigh by (done || lia). by apply K.
  - apply (leaf_translates m' tR (KVBASE + 2 ^ 30) _ (Z.lor 3 PTE_NX) pslWC off (fb_pages s)); try done; try lia; [apply flags_rw_nx|].
    intros k r Hk Hok. change ((KVBASE + 2 ^ 30) / 2 ^ 39 mod 512) with 511. change ((KVBASE + 2 ^ 30) / 2 ^ 30 mod 512) with 511.
    rewrite Hhigh by (done || lia). by apply F.
Qed.

Lemma static_kmap m s' : static_tables s m tR tK tD tF -> LoadInfo s' = LoadInfo s -> CR3 s' = tR -> kmap m s'.
Proof using All.
  intros T EL ER off Hoff. rewrite EL in *. destruct (high_translations m m off T) as [H _]; [done|]. rewrite ER. eexists. apply H.
  unfold kernel_pages. zlia.
Qed.

(** ** Zeroing the arena *)

Lemma vzero_pages_spec R ow s0 n : forall s' t,
  pt_wf (Phys s') 0 R ow -> layout s0 -> same_boot s0 s' -> CR3 s0 = R -> kmap (Phys s') s' ->
  (forall k, 0 <= k < Z.of_nat n -> reserved_page s0 (t + 4096 * k) /\ ow !! (t + 4096 * k) = None) ->
  exists m', vzero_pages n s' (kv s0 t) = Done (with_phys s' m') /\ pt_wf m' 0 R ow /\ kmap m' s' /\
    (forall idxs, indices_ok idxs -> walk m' 0 0 R idxs = walk (Phys s') 0 0 R idxs) /\
    (forall k, 0 <= k < Z.of_nat n -> zero_table m' (t + 4096 * k)) /\
    (forall a, (forall k, 0 <= k < Z.of_nat n -> ~ word_of (t + 4096 * k) a) -> m' !! a = Phys s' !! a).
Proof using.
  induction n as [|n IH]; intros s' t W L Hs HR K Hp; cbn [vzero_pages].
  { exists (Phys s'). split_and!; [by destruct s'|done|done|done|lia|done]. }
  destruct (Hp 0) as [Hr Ho]; [lia|]. rewrite Z.mul_0_r, Z.add_0_r in Hr, Ho.
  assert (resolve s' (kv s0 t) = Done t) as ->.
  { pose proof (resolve_kv s' (same_boot_layout _ _ Hs L) t 0 K) as H. rewrite !Z.mul_0_r, !Z.add_0_r in H.
    rewrite (kv_same _ _ _ Hs) in H. apply H; [|lia]. by rewrite (Hs : s' = _). }
  rewrite bind_Done. set (s1 := with_phys s' (zero_page (Phys s') t)). destruct (zero_page_spec (Phys s') t) as [Z1 Z2].
  assert (forall t' pi i, ow !! t' = Some pi -> 0 <= i < 512 -> Phys s1 !! (t' + 8 * i) = Phys s' !! (t' + 8 * i)) as Hag.
  { intros t' pi i Ht' Hi. apply Z2. intros j Hj E. destruct (word_inj t' i t j); [by apply (pt_shape _ _ _ _ W t' pi)|apply Hr|done..|congruence]. }
  pose proof (agree_wf (Phys s') (Phys s1) 0 R ow W Hag) as W1. pose proof (fun idxs => agree_walk (Phys s') (Phys s1) 0 R ow W Hag idxs) as A1.
  assert (same_boot s0 s1) as Hs1 by (etrans; [exact Hs|apply same_boot_phys]).
  assert (CR3 s' = R) as HR' by by rewrite (Hs : s' = _).
  assert (kmap (Phys s1) s1) as K1.
  { change (kmap (Phys s1) s'). apply (kmap_walks (Phys s')); [by eapply same_boot_layout| |done]. intros rest Hok _. rewrite HR'. by apply A1. }
  pose proof Hr as (Hr1 & Hr2 & _). destruct (ly_phys _ L) as (LP1 & _ & LP2). pose proof (ly_reserve _ L).
  assert (u64 (kv s0 t + 4096) = kv s0 (t + 4096)) as -> by (unfold kv, KVBASE; rewrite u64_small; lia).
  destruct (IH s1 (t + 4096)) as (m' & -> & W2 & K2 & A2 & Z3 & F3); try done.
  { intros k Hk. replace (t + 4096 + 4096 * k) with (t + 4096 * (k + 1)) by lia. apply Hp. lia. }
  exists m'. split_and!; [done|done|done| | |].
  - intros idxs Hok. by rewrite A2, A1.
  - intros k Hk. destruct (decide (k = 0)) as [->|].
    + rewrite Z.mul_0_r, Z.add_0_r. intros i Hi. rewrite F3; [by apply Z1|]. intros k' Hk' (j & Hj & E). lia.
    + replace (t + 4096 * k) with (t + 4096 + 4096 * (k - 1)) by lia. apply Z3. lia.
  - intros a Ha. rewrite F3.
    + apply Z2. intros i Hi ->. apply (Ha 0); [lia|]. exists i. split; [done|lia].
    + intros k Hk. replace (t + 4096 + 4096 * k) with (t + 4096 * (k + 1)) by lia. apply Ha. lia.
Qed.
End Build.

(** ** Looking an address up in the direct map *)

Lemma dmap_indices pa : 0 <= pa < 4096 * dmap_pages -> va_indices (0xFFFF800000000000 + pa) = dpath (pa / 4096).
Proof.
  intros H. unfold dpath, va_indices, dmap_pages in *.
  apply (f_equal2 cons); [zlia|]. apply (f_equal2 cons); [zlia|]. apply (f_equal2 cons); [zlia|]. apply (f_equal2 cons); [zlia|done].
Qed.

Lemma chunk_translates m R ch pa :
  chunk_ok ch -> 0 <= pa < 4096 * dmap_pages -> in_chunk ch (pa / 4096) ->
  walk m 0 0 R (dpath (pa / 4096)) = Some (leaf_entry ch, drop (S (depth (cMode ch))) (dpath (pa / 4096))) ->
  mmu_translate m 0 R (0xFFFF800000000000 + pa) = Some (pa, leaf_entry ch).
Proof.
  intros Hok Hpa Hin Hw. unfold mmu_translate. rewrite dmap_indices, Hw by done.
  pose proof (leaf_entry_ok ch Hok) as [Hf _ _ _ _ _ _ _]. destruct Hok as (_ & Hal & _).
  unfold in_chunk in Hin. unfold dpath. destruct (cMode ch); cbn [depth drop va_indices mode_leaf mode_size] in *; unfold ONEGIB, TWOMIB, FOURKIB in *;
    rewrite Hf; do 2 f_equal; zlia.
Qed.

(** A leaf of the direct map: supervisor data, writable and not executable. *)
Definition data_entry (e : Z) : Prop := entry_bit e 0 = true /\ entry_bit e 1 = true /\ entry_bit e 2 = false /\ entry_bit e 63 = true.
Lemma leaf_entry_data ch : chunk_ok ch -> data_entry (leaf_entry ch).
Proof.
  intros H. pose proof (leaf_entry_ok ch H) as [_ _ _ H0 H1 H2 _ H63]. unfold data_entry. rewrite H0, H1, H2, H63. by vm_compute.
Qed.

Lemma in_desc_page d pa : desc_ok d -> in_desc d pa <-> in_desc d (4096 * (pa / 4096)).
Proof. intros (_ & H1 & _ & H2 & _). unfold in_desc. split; zlia. Qed.

Lemma ord_pairs_app_l {A} (P : A -> A -> Prop) l1 l2 : ForallOrdPairs P (l1 ++ l2) -> ForallOrdPairs P l1.
Proof.
  induction l1 as [|a l1 IH]; cbn; intros H; [constructor|]. inversion H as [|? ? Ha Hl]; subst. apply Forall_app in Ha as [Ha _].
  constructor; [done|by apply IH].
Qed.

(** ** The arena of the direct map *)

Definition arena_first (s : Boot) : Z := (ArenaPtr (bArena s) + 4095) / 4096 * 4096.
Definition arena_structs (s : Boot) : Z := (ArenaEnd (bArena s) - arena_first s) / 4096.

Record arena_ok (s : Boot) (ts : list Z) : Prop := {
  ao_base : KVBASE <= ArenaBase (bArena s) <= ArenaPtr (bArena s);
  ao_end : arena_first s + 4096 <= ArenaEnd (bArena s) <= KVBASE + ReserveSize (LoadInfo s);
  ao_static : Forall (fun t => kv s t + 4096 <= ArenaPtr (bArena s) \/ ArenaEnd (bArena s) <= kv s t) ts
}.
Definition arena_phys (s : Boot) : Z := AddrPhysicalBase (LoadInfo s) + (arena_first s - KVBASE).
Definition first_ctx (s : Boot) : KrDirectMappingContext :=
  mkDctx (arena_phys s) (arena_structs s) 0 (kv s (arena_phys s)) (kv s (arena_phys s)) IVLDPGID.
Definition taken_arena (s : Boot) : Arena :=
  mkArena (ArenaBase (bArena s)) (arena_first s + 4096 * arena_structs s) (ArenaEnd (bArena s)).

Lemma direct_map_eq s ts :
  arena_ok s ts -> AddrVirtualBase (LoadInfo s) = KVBASE -> bPat s = KrVmmInitPat.2 -> ReserveSize (LoadInfo s) <= 2 ^ 30 ->
  0 <= AddrPhysicalBase (LoadInfo s) /\ AddrPhysicalBase (LoadInfo s) + 2 ^ 30 <= 2 ^ 52 ->
  KrInitDirectMap s =
    (s1 ← vzero_pages (Z.to_nat (arena_structs s)) (with_arena s (taken_arena s)) (kv s (arena_phys s));
     psl ← KrSelectPat (bPat s1) KR_PAT_WRITE_BACK;
     '(s2, c) ← dmap_regions s1 (first_ctx s) psl (CanonicalMemoryMap s1);
     '(s2, c) ← dmap_nvs s2 c psl (FirmwareMap s2);
     let d := Dmap s2 in
     Done (with_dmap s2 (mkDmapInfo (NumTotalAcqPageStructs c) (HugePages d) (LargePages d) (SmallPages d) (dmTotalPages d)), true)).
Proof.
  intros [A1 A2 _] Hv Hp Hr HP. unfold KrInitDirectMap, KrBootstrapArenaAlign, KR_PAGE_STRUCTURE_SIZE.
  assert (ArenaPtr (bArena s) <= arena_first s) as Hpf by (unfold arena_first; zlia).
  assert (0 <= ArenaPtr (bArena s) + 4096 - 1 < 2 ^ 64) as Hpr by (unfold KVBASE in *; lia).
  assert (Z.land (u64 (ArenaPtr (bArena s) + 4096 - 1)) (u64 (Z.lnot (u64 (4096 - 1)))) = arena_first s) as ->.
  { unfold arena_first. rewrite (u64_small (4096 - 1)), (u64_small (_ - 1)) by lia. change (4096 - 1) with (2 ^ 12 - 1).
    rewrite land_mask_down by lia. change (2 ^ 12) with 4096. do 2 f_equal; lia. }
  rewrite Z.gtb_ltb, (proj2 (Z.ltb_ge _ _)) by lia. cbn [negb].
  assert (KVBASE <= arena_first s < 2 ^ 64 /\ arena_first s mod 4096 = 0) as [Hf Hfa].
  { split; [unfold KVBASE in *; lia|]. unfold arena_first. by rewrite Z.mod_mul. }
  unfold KrBootstrapArenaGetSpaceLeft. cbn [ArenaPtr ArenaEnd ArenaBase]. rewrite (proj2 (Z.eqb_neq (arena_first s) 0)) by (unfold KVBASE in *; lia). cbn [negb].
  assert (0 < arena_structs s <= 2 ^ 18) as Hn.
  { assert (4096 <= ArenaEnd (bArena s) - arena_first s <= 2 ^ 30) by (unfold KVBASE in *; lia). unfold arena_structs. zlia. }
  rewrite (u64_small (_ - arena_first s)) by (unfold KVBASE in *; lia). fold (arena_structs s). rewrite (u32_small (arena_structs s)) by lia.
  rewrite (proj2 (Z.eqb_neq (arena_structs s) 0)) by lia. rewrite (u32_small (arena_structs s * 4096)) by lia.
  assert (arena_structs s * 4096 <= ArenaEnd (bArena s) - arena_first s) as Hle by (unfold arena_structs; zlia).
  rewrite arena_acquire_eq; cbn [ArenaPtr ArenaEnd ArenaBase with_arena bArena]; [|split; cbn; unfold KVBASE in *; lia|lia|unfold KVBASE in *; lia].
  assert (rounded (arena_structs s * 4096) = 4096 * arena_structs s) as -> by (unfold rounded; zlia).
  rewrite bool_decide_true by lia. fold (taken_arena s). rewrite Z.div_mul by lia.
  cbn [LoadInfo with_arena]. rewrite Hv, (u64_small (arena_first s - KVBASE)), u64_small by (unfold KVBASE in *; lia).
  fold (arena_phys s). assert (kv s (arena_phys s) = arena_first s) as Ekv by (unfold kv, arena_phys; lia).
  unfold first_ctx. rewrite Ekv. reflexivity.
Qed.

(** ** From the static tables to the invariant *)

Lemma static_owner_inv tR tK tD tF t pi : static_owner tR tK tD tF !! t = Some pi -> t ∈ [tR; tK; tD; tF] /\ ~ dpi pi.
Proof.
  unfold static_owner. intros H.
  repeat (apply lookup_insert_Some in H as [[<- <-]|[_ H]]; [split; [set_solver|cbn; lia]|]).
  apply lookup_singleton_Some in H as [<- <-]. split; [set_solver|cbn; tauto].
Qed.

Lemma dpath_not_high s pfn : 0 <= pfn < dmap_pages -> ~ kernel_range s (dpath pfn) /\ ~ fb_range s (dpath pfn).
Proof.
  intros Hp. pose proof (dpath_dpi pfn 4 Hp ltac:(lia)) as H. rewrite dpath_eq in * by done. cbn [take dpi] in H.
  split; intros (k & rest & _ & E); injection E; intros; lia.
Qed.

Section Start.
Context (s : Boot) (tR tK tD tF : Z) (B : boot_ok s tR tK tD tF) (A : arena_ok s [tR; tK; tD; tF]).
Context (m : gmap Z Z) (T : static_tables s m tR tK tD tF).

Definition paged : Boot := with_bases (with_phys s m) 0xFFFF800000000000 tR.
Definition armed : Boot := with_arena paged (taken_arena s).

Lemma armed_layout : layout armed.
Proof using All.
  destruct B as [B1 (B2 & B3 & B4) B5 _ _ B6 _ _ _ _]. split; try done. cbn. split_and!; [lia|zlia|lia].
Qed.

Lemma arena_pages k : 0 <= k < arena_structs s ->
  reserved_page s (arena_phys s + 4096 * k) /\ static_owner tR tK tD tF !! (arena_phys s + 4096 * k) = None.
Proof using All.
  intros Hk. destruct A as [A1 A2 A3]. destruct (bo_phys _ _ _ _ _ B) as (P1 & P2 & P3).
  assert (ArenaPtr (bArena s) <= arena_first s /\ arena_first s mod 4096 = 0) as [F1 F2].
  { split; [unfold arena_first; zlia|]. unfold arena_first. by rewrite Z.mod_mul. }
  assert (arena_first s + 4096 * k + 4096 <= ArenaEnd (bArena s)) as Hke by (unfold arena_structs in Hk; zlia).
  split.
  - unfold reserved_page, arena_phys. split_and!; [lia|lia|unfold KVBASE; zlia].
  - destruct (static_owner tR tK tD tF !! _) as [pi|] eqn:E; [|done]. apply static_owner_inv in E as [Ht _].
    rewrite Forall_forall in A3. destruct (A3 _ Ht) as [H|H]; unfold kv, arena_phys in H; lia.
Qed.

Lemma start_inv : exists m', vzero_pages (Z.to_nat (arena_structs s)) armed (kv s (arena_phys s)) = Done (with_phys armed m') /\
  dinv (needed s) m (with_phys armed m') (first_ctx s) (static_owner tR tK tD tF) [] no_tables.
Proof using All.
  pose proof armed_layout as L. destruct (bo_phys _ _ _ _ _ B) as (P1 & P2 & P3). pose proof (bo_reserve _ _ _ _ _ B) as HR.
  assert (0 < arena_structs s < 2 ^ 20) as Hn.
  { destruct A as [A1 A2 _]. assert (ArenaPtr (bArena s) <= arena_first s) by (unfold arena_first; zlia).
    assert (4096 <= ArenaEnd (bArena s) - arena_first s <= 2 ^ 30) by lia. unfold arena_structs. zlia. }
  destruct (vzero_pages_spec tR (static_owner tR tK tD tF) armed (Z.to_nat (arena_structs s)) armed (arena_phys s))
    as (m' & E & W & K & Hw & Hz & Hf); try done.
  { apply T. } { by eapply static_kmap. } { rewrite Z2Nat.id by lia. apply arena_pages. }
  rewrite Z2Nat.id in Hz by lia. exists m'. split; [exact E|]. change (Phys armed) with m in Hw.
  assert (forall pfn, 0 <= pfn < dmap_pages -> walk m' 0 0 tR (dpath pfn) = None) as Hnone.
  { intros pfn Hp. destruct (dpath_ok pfn) as [Hio Hl]. destruct (dpath_not_high s pfn Hp). rewrite Hw by done. by apply T. }
  assert (forall v, KVBASE <= v <= KVBASE + 2 ^ 30 -> KrReservedVirtToPhys s v = AddrPhysicalBase (LoadInfo s) + (v - KVBASE)) as Hv.
  { intros v Hv. unfold KrReservedVirtToPhys. rewrite (bo_virt _ _ _ _ _ B), (u64_small (v - KVBASE)), u64_small by (unfold KVBASE in *; lia). done. }
  assert (ArenaPtr (bArena s) <= arena_first s) as Hpf by (unfold arena_first; zlia).
  pose proof (ao_base _ _ A) as A1. pose proof (ao_end _ _ A) as A2.
  split; cbn [PhysAddrBarenaBase NumBarenaMaxStructs NumTotalAcqPageStructs WorkingCur first_ctx]; try done.
  - split; [|by change (img _) with (img s); rewrite (bo_img _ _ _ _ _ B)].
    exact (proj1 (proj1 (Forall_forall _ _) (bo_tables _ _ _ _ _ B) tR ltac:(set_solver))).
  - change (KrReservedVirtToPhys (with_phys armed m') ?v) with (KrReservedVirtToPhys s v).
    change (bArena (with_phys armed m')) with (taken_arena s). unfold taken_arena. cbn [ArenaBase ArenaEnd].
    rewrite !Hv by lia. unfold arena_phys, arena_structs. split; [lia|zlia].
  - intros k Hk. by apply (arena_pages k).
  - change (kv (with_phys armed m') ?t) with (kv s t). f_equal. lia.
  - lia.
  - intros t pi Ht Hd. by destruct (static_owner_inv _ _ _ _ _ _ Ht).
  - intros k Hk. split; [by apply arena_pages|]. intros i Hi. by apply Hz.
  - exists ∅. split_and!; [|done|set_solver]. intros pi. split; [set_solver|]. intros [[t Ht] Hd]. by destruct (static_owner_inv _ _ _ _ _ _ Ht).
  - intros t pi Ht Hd. by destruct (static_owner_inv _ _ _ _ _ _ Ht).
  - intros ch pfn Hch. by apply not_elem_of_nil in Hch.
  - intros pfn Hp _. by apply Hnone.
  - intros idxs Hok _ _. by apply Hw.
  - intros t pi Ht _. destruct (static_owner_inv _ _ _ _ _ _ Ht) as [Hts _].
    exact (proj1 (proj1 (Forall_forall _ _) (bo_tables _ _ _ _ _ B) t Hts)).
Qed.
End Start.

(** ** The whole construction *)

Lemma regions_plan s3 c psl : Forall desc_ok (mapped_descs s3) ->
  (forall s' c', map_chunks s3 c psl (CanonicalMemoryMap s3 ≫= desc_chunks (bHugePageSupport s3)) = Done (s', c') -> FirmwareMap s' = FirmwareMap s3) ->
  ('(s', c') ← dmap_regions s3 c psl (CanonicalMemoryMap s3); dmap_nvs s' c' psl (FirmwareMap s')) = map_chunks s3 c psl (plan s3).
Proof.
  intros Hd Hfw. apply Forall_app in Hd as [Hd1 Hd2]. unfold plan, mapped_descs. rewrite bind_app, map_chunks_app, dmap_regions_chunks by done.
  destruct (map_chunks _ _ _ _) as [[s' c']| | |] eqn:E; [|done..]. rewrite !bind_Done, (Hfw _ _ eq_refl), dmap_nvs_chunks by done.
  by rewrite (map_chunks_huge _ _ _ _ _ _ E).
Qed.

(** The page tables that paging is switched to. *)
Record paging_ok (s : Boot) (tR : Z) (s' : Boot) : Prop := {
  po_root : CR3 s' = tR /\ DmapBase s' = 0xFFFF800000000000;
  po_mapped : forall pa, 0 <= pa < 4096 * dmap_pages -> (exists d, d ∈ mapped_descs s /\ in_desc d pa) ->
    exists e, mmu_translate (Phys s') 0 tR (0xFFFF800000000000 + pa) = Some (pa, e) /\ data_entry e;
  po_hole : forall pa, 0 <= pa < 4096 * dmap_pages -> (forall d, d ∈ mapped_descs s -> ~ in_desc d pa) ->
    mmu_translate (Phys s') 0 tR (0xFFFF800000000000 + pa) = None;
  po_kernel : forall off, 0 <= off < 0x200000 * kernel_pages s ->
    mmu_translate (Phys s') 0 tR (KVBASE + off) = Some (AddrPhysicalBase (LoadInfo s) + off, kernel_leaf s (off / 0x200000));
  po_fb : forall off, 0 <= off < 0x200000 * fb_pages s ->
    mmu_translate (Phys s') 0 tR (KVBASE + 2 ^ 30 + off) = Some (fbPhysicalAddress (FrameBufferInfo s) + off, fb_leaf s (off / 0x200000));
  po_else : forall va, ~ dpi (va_indices va) -> ~ kernel_range s (va_indices va) -> ~ fb_range s (va_indices va) ->
    mmu_translate (Phys s') 0 tR va = None;
  po_structs : 0 <= TotalPageStructs (Dmap s') <= Z.of_nat (size (needed s));
  po_counts : let d := count_chunks (Dmap s) (plan s) in
    HugePages (Dmap s') = HugePages d /\ LargePages (Dmap s') = LargePages d /\ SmallPages (Dmap s') = SmallPages d /\
    dmTotalPages (Dmap s') = dmTotalPages d
}.

Lemma dinv_paging s tR tK tD tF m s' c ow :
  boot_ok s tR tK tD tF -> static_tables s m tR tK tD tF -> Forall desc_ok (mapped_descs s) -> ForallOrdPairs desc_disjoint (mapped_descs s) ->
  CR3 s' = tR -> DmapBase s' = 0xFFFF800000000000 ->
  dinv (needed s) m s' c ow (rev (plan s) ++ []) no_tables ->
  TotalPageStructs (Dmap s') = NumTotalAcqPageStructs c ->
  (let d := count_chunks (Dmap s) (plan s) in
    HugePages (Dmap s') = HugePages d /\ LargePages (Dmap s') = LargePages d /\ SmallPages (Dmap s') = SmallPages d /\
    dmTotalPages (Dmap s') = dmTotalPages d) -> paging_ok s tR s'.
Proof.
  intros B T Hd Hp ER ED Inv ET EC. destruct (all_chunks_spec (bHugePageSupport s) _ Hd Hp) as (C1 & C2 & _). fold (plan s) in C1, C2.
  assert (forall ch, ch ∈ rev (plan s) ++ [] <-> ch ∈ plan s) as Hrev.
  { intros ch. rewrite app_nil_r, !list_elem_of_In. symmetry. apply in_rev. }
  assert (forall idxs, indices_ok idxs -> length idxs = 4%nat -> ~ dpi idxs -> walk (Phys s') 0 0 tR idxs = walk m 0 0 tR idxs) as Hre.
  { rewrite <- ER. apply (di_rest _ _ _ _ _ _ _ Inv). }
  assert (forall pa, 0 <= pa < 4096 * dmap_pages -> 0 <= pa / 4096 < dmap_pages) as Hpf by (intros pa Hpa; zlia).
  assert (forall d pa, d ∈ mapped_descs s -> in_desc d pa <-> in_desc d (4096 * (pa / 4096))) as Hpage.
  { intros d pa Hin. apply in_desc_page. by apply (proj1 (Forall_forall _ _) Hd). }
  split; try done.
  - intros pa Hpa (d & Hin & Hind). destruct (proj1 (C2 (pa / 4096))) as (ch & Hch & Hc); [exists d; split; [done|by apply (proj1 (Hpage d pa Hin))]|].
    exists (leaf_entry ch). pose proof (proj1 (Forall_forall _ _) C1 ch Hch) as Hok. split; [|by apply leaf_entry_data].
    apply chunk_translates; [done..|]. rewrite <- ER. apply (di_in _ _ _ _ _ _ _ Inv); [by apply Hrev|by apply Hpf|done].
  - intros pa Hpa Hno. unfold mmu_translate. rewrite dmap_indices by done. rewrite <- ER, (di_out _ _ _ _ _ _ _ Inv); [done|by apply Hpf|].
    intros ch Hch%Hrev Hc. destruct (proj2 (C2 (pa / 4096))) as (d & Hin & Hind); [by exists ch|]. apply (Hno d Hin). by apply (proj2 (Hpage d pa Hin)).
  - intros off. by eapply high_translations.
  - intros off. by eapply high_translations.
  - intros va H1 H2 H3. unfold mmu_translate. rewrite Hre by (done || apply va_indices_ok). rewrite (st_else _ _ _ _ _ _ T) by (done || apply va_indices_ok). done.
  - rewrite ET. destruct (di_paths _ _ _ _ _ _ _ Inv) as (P & _ & <- & HP). pose proof (subseteq_size P (needed s) HP). lia.
Qed.

#[local] Instance dpi_dec pi : Decision (dpi pi).
Proof. unfold dpi. destruct pi; apply _. Defined.

(** What else the construction leaves: a tree of tables inside the reserved
    area, and everything but memory, the arena and the bases as it was. *)
Record tables_kept (s : Boot) (tR : Z) (s' : Boot) (ow : gmap Z (list Z)) : Prop := {
  tk_tree : pt_wf (Phys s') 0 tR ow;
  tk_reserved : forall t pi, ow !! t = Some pi -> reserved_page s t;
  tk_rest : bPmm s' = bPmm s /\ LoadInfo s' = LoadInfo s /\ FrameBufferInfo s' = FrameBufferInfo s /\ img s' = img s /\
    bPat s' = bPat s /\ bpslDefault s' = bpslDefault s /\ CanonicalMemoryMap s' = CanonicalMemoryMap s
}.

Lemma init_paging_spec (s : Boot) (tR tK tD tF : Z) :
  boot_ok s tR tK tD tF -> arena_ok s [tR; tK; tD; tF] -> Forall desc_ok (mapped_descs s) -> ForallOrdPairs desc_disjoint (mapped_descs s) ->
  Z.of_nat (size (needed s)) <= arena_structs s ->
  exists s' ow, init_paging s = Done (s', true) /\ paging_ok s tR s' /\ tables_kept s tR s' ow.
Proof.
  intros B A Hd Hp Hsz. destruct (static_pages_spec s tR tK tD tF B) as (m & E & T). unfold init_paging. rewrite E, bind_Done.
  assert (KrReservedVirtToPhys s (kv s tR) = tR) as HvR by (eapply (static_table s tR tK tD tF B); set_solver).
  change (with_bases (with_bases (with_phys s m) ?a _) _ _) with (with_bases (with_phys s m) a (KrReservedVirtToPhys s (g_PML4 (img s)))).
  rewrite (bo_img _ _ _ _ _ B). cbn [g_PML4]. rewrite HvR. fold (paged s tR m).
  destruct (bo_phys _ _ _ _ _ B) as (P1 & _ & P2). pose proof (bo_reserve _ _ _ _ _ B) as [_ HR].
  assert (arena_ok (paged s tR m) [tR; tK; tD; tF]) as A' by (destruct A; by split).
  rewrite (direct_map_eq (paged s tR m) _ A') by (done || apply B).
  destruct (start_inv s tR tK tD tF B A m T) as (m' & Ez & Inv).
  change (kv (paged s tR m) (arena_phys (paged s tR m))) with (kv s (arena_phys s)).
  change (arena_structs (paged s tR m)) with (arena_structs s).
  change (with_arena (paged s tR m) (taken_arena (paged s tR m))) with (armed s tR m). rewrite Ez, bind_Done.
  assert (layout (with_phys (armed s tR m) m')) as L by (destruct (armed_layout s tR tK tD tF B A m T); by split).
  rewrite select_wb, bind_Done by done. change (first_ctx (paged s tR m)) with (first_ctx s).
  destruct (all_chunks_spec (bHugePageSupport s) _ Hd Hp) as (C1 & C2 & C3). fold (plan s) in C1, C2, C3.
  set (s3 := with_phys (armed s tR m) m') in *. assert (plan s3 = plan s) as Epl by done.
  pose proof (map_chunks_spec (needed s) m) as MS.
  assert (forall l, Forall (disjoint_from []) l) as Hnil by (intros l; apply Forall_forall; intros ch _ ch' pfn Hch; by apply not_elem_of_nil in Hch).
  destruct (MS (plan s) s3 (first_ctx s) (static_owner tR tK tD tF) []) as (s' & c' & ow' & Em & S' & D' & I' & _); try done.
  { intros ch pi. apply needed_tables. }
  assert (forall s1 c1, map_chunks s3 (first_ctx s) (mkPat false false false) (CanonicalMemoryMap s3 ≫= desc_chunks (bHugePageSupport s3)) = Done (s1, c1) ->
    FirmwareMap s1 = FirmwareMap s3) as Hfw.
  { intros s1 c1 E1. unfold plan, mapped_descs in C1, C3. rewrite bind_app in C1, C3. apply Forall_app in C1 as [C1 _]. apply ord_pairs_app_l in C3.
    destruct (MS (CanonicalMemoryMap s ≫= desc_chunks (bHugePageSupport s)) s3 (first_ctx s) (static_owner tR tK tD tF) []) as (s2 & c2 & ow2 & Em2 & S2 & _); try done.
    { intros ch pi Hch. apply needed_tables. unfold plan, mapped_descs. rewrite bind_app. apply elem_of_app. by left. }
    change (CanonicalMemoryMap s3) with (CanonicalMemoryMap s) in E1. change (bHugePageSupport s3) with (bHugePageSupport s) in E1.
    rewrite E1 in Em2. injection Em2 as <- _. by rewrite (S2 : s1 = _). }
  pose proof (regions_plan s3 (first_ctx s) (mkPat false false false) Hd Hfw) as HP. rewrite Epl, Em in HP.
  apply bind_Done_inv in HP as ([s1 c1] & -> & HP). rewrite bind_Done, HP, bind_Done.
  eexists _, ow'. split; [reflexivity|]. split; [eapply (dinv_paging s tR tK tD tF m _ c' ow'); try done|split].
  - cbn. by rewrite (S' : s' = _).
  - cbn. by rewrite (S' : s' = _).
  - apply dinv_dmap. exact I'.
  - cbv zeta. cbn [HugePages LargePages SmallPages dmTotalPages Dmap with_dmap]. rewrite D'. done.
  - cbn [Phys with_dmap]. pose proof (di_wf _ _ _ _ _ _ _ I') as W'. by rewrite (S' : s' = _) in W'.
  - intros t pi Ht. assert (reserved_page s' t -> reserved_page s t) as Hsame by (unfold reserved_page; by rewrite (S' : s' = _)).
    apply Hsame. destruct (decide (dpi pi)) as [Hdp|Hdp]; [eapply (table_reserved _ _ _ _ _ _ _ _ _ I' Ht); by right|].
    by apply (di_static _ _ _ _ _ _ _ I' t pi).
  - cbn [bPmm LoadInfo FrameBufferInfo img bPat bpslDefault CanonicalMemoryMap with_dmap]. by rewrite (S' : s' = _).
Qed.

(** C8: Before any memory manager runs, [init_paging] builds the
    first page tables of the kernel.  On a machine whose memory map has
    page-aligned, disjoint regions below the direct map's size, and with a
    bootstrap arena that has room for one table per table path of the map, it
    succeeds, and the processor that walks the tables from the new CR3
    finds: every physical address of a region at DmapBase plus that address,
    supervisor, writable and not executable; nothing anywhere else in the direct
    map's part of the address space; the kernel and the frame buffer at their
    linked addresses; nothing at any other address.  The kernel keeps running
    through the tables it is changing: no dereference during the construction
    faults.  The structure count and the page counters are exact. *)
Theorem init_paging_builds_direct_map (s : Boot) (tR tK tD tF : Z)
    (B : boot_ok s tR tK tD tF) (A : arena_ok s [tR; tK; tD; tF])
    (Hd : Forall desc_ok (mapped_descs s)) (Hp : ForallOrdPairs desc_disjoint (mapped_descs s))
    (Hsz : Z.of_nat (size (needed s)) <= arena_structs s) :
  exists s', init_paging s = Done (s', true) /\ paging_ok s tR s'.
Proof. destruct (init_paging_spec s tR tK tD tF B A Hd Hp Hsz) as (s' & ow & E & H & _). by exists s'. Qed.

(** A machine with 4 MiB of memory, the kernel at 2 MiB and a 4 MiB frame buffer. *)
Definition sample_desc (base pages ty : Z) : KrMemoryDescriptor := mkDesc base pages 0 ty 0.
Definition sample_boot : Boot := mkBoot
  (mkLoadInfo 0x200000 0x200000 KVBASE) (mkFbInfo 0xE0000000 0x400000)
  [sample_desc 0 3 7; sample_desc 0x200000 1027 7] [sample_desc 0x3000 1 KR_MEMORY_TYPE_ACPI_MEMORY_NVS; sample_desc 0x200000 1027 7]
  (mkImage (KVBASE + 0x1000) (KVBASE + 0x2000) (KVBASE + 0x3000) (KVBASE + 0x4000))
  KrVmmInitPat.2 (mkPat false false false) false 0 0
  (mkArena (KVBASE + 0x10000) (KVBASE + 0x10010) (KVBASE + 0x30000)) pmm_zero (mkDmapInfo 0 0 0 0 0)
  (foldr (fun t m => zero_page m t) ∅ [0x201000; 0x202000; 0x203000; 0x204000]).

Lemma zero_pages_table l : NoDup l -> Forall (fun t => t mod 4096 = 0) l ->
  Forall (zero_table (foldr (fun t m => zero_page m t) ∅ l)) l.
Proof.
  induction l as [|a l IH]; intros Hn Ha; [constructor|]. apply NoDup_cons in Hn as [Hna Hn]. apply Forall_cons in Ha as [Ha Hl].
  cbn [foldr]. destruct (zero_page_spec (foldr (fun t m => zero_page m t) ∅ l) a) as [Z1 Z2]. constructor; [exact Z1|].
  apply Forall_forall. intros t Ht i Hi. rewrite Z2; [by apply (proj1 (Forall_forall _ _) (IH Hn Hl) t Ht)|].
  intros j Hj E. destruct (word_inj t i a j) as [-> _]; try done. by apply (proj1 (Forall_forall _ _) Hl).
Qed.

Lemma sample_boot_ok : boot_ok sample_boot 0x201000 0x202000 0x203000 0x204000.
Proof.
  assert (NoDup [0x201000; 0x202000; 0x203000; 0x204000]) as Hn by (apply (bool_decide_eq_true_1 _); reflexivity).
  split; try done; try (cbn; lia); [cbn; split_and!; (reflexivity || lia)..|].
  assert (Forall (zero_table (Phys sample_boot)) [0x201000; 0x202000; 0x203000; 0x204000]) as Hz
    by (apply zero_pages_table; [done|repeat constructor]).
  rewrite Forall_forall in Hz. apply Forall_forall. intros t Ht. split; [|by apply Hz].
  repeat (apply elem_of_cons in Ht as [->|Ht]; [unfold reserved_page; cbn; split_and!; (lia || reflexivity)|]). by apply not_elem_of_nil in Ht.
Qed.

Lemma sample_descs : mapped_descs sample_boot = [sample_desc 0 3 7; sample_desc 0x200000 1027 7; sample_desc 0x3000 1 10].
Proof. reflexivity. Qed.

Lemma init_paging_builds_direct_map_witness :
  exists s', init_paging sample_boot = Done (s', true) /\ paging_ok sample_boot 0x201000 s'.
Proof.
  apply (init_paging_builds_direct_map sample_boot 0x201000 0x202000 0x203000 0x204000).
  - exact sample_boot_ok.
  - split; [vm_compute; split; congruence|vm_compute; split; congruence|].
    repeat (apply Forall_cons; split; [left; vm_compute; congruence|]). by apply Forall_nil.
  - rewrite sample_descs. repeat (apply Forall_cons; split; [split_and!; vm_compute; congruence|]). by apply Forall_nil.
  - rewrite sample_descs. repeat (apply FOP_cons; [repeat (apply Forall_cons; split; [unfold desc_disjoint; vm_compute; (left; congruence) || (right; congruence)|]); by apply Forall_nil|]).
    apply FOP_nil.
  - vm_compute. congruence.
Defined.
