(* ===== verification/Nmi.v ===== *)
(** * Global non-maskable interrupts (Kernel/Source/Intmgmt/NMI.c)

    One processor raises the interrupt and waits; the others run their handler,
    in two steps each (the dispatch on the reason, then the locked OR of the
    acknowledgement), whenever the schedule lets them.  The schedule gives the
    steps made during each stall of the raiser. *)
From Stdlib Require Import ZArith Lia.
From stdpp Require Import base numbers list gmap sets.
From S2P Require Import Prelude KrtlMem Interrupts Descriptors Apic.
Open Scope Z_scope.

Definition NMI_REASON_NONE : Z := 0.
Definition NMI_REASON_HARMLESS_TEST : Z := 1.
Definition NMI_REASON_MELTDOWN : Z := 2.
Definition INT_VECTOR_NON_MASKABLE_INTERRUPT : Z := 2.
Definition IPI_SHORTHAND_ALL_ISLF : Z := 2.
Definition IPI_SHORTHAND_ALL_XSLF : Z := 3.
Definition IPI_LEVEL_ASSERT : Z := 1.
Definition IPI_TRIGGER_EDGE : Z := 0.
Definition KR_MDCODE_BOGUS_NMI_REASON : Z := 0x4007.
Definition KR_MDCODE_NMI_NO_DATA_PROVIDED : Z := 0x4008.

(** ** State *)

Record GlobalNmiInfo := mkNmiInfo { Reason : Z; InvokingCPU : Z; MeltdownCode : Z; Ack : list Z }.
Definition nmi_info_zero : GlobalNmiInfo := mkNmiInfo 0 0 0 (replicate 32 0).

(** What a processor does about the interrupt: handling it, with whether it
    halts afterwards, or halted.  A processor without an entry runs normally. *)
Inductive nmi_pc := NmiAcking (halts : bool) | NmiHalted.
#[export] Instance nmi_pc_eq_dec : EqDecision nmi_pc.
Proof. solve_decision. Defined.

Record Nmi := mkNmi {
  sg_NmiSpinlock : bool;
  sg_NmiInfo : GlobalNmiInfo;
  sg_ExpectAck : list Z;
  sl_InitExpectAck : bool;
  pCpuIDs : list Z;
  ActiveProcessorCount : Z;
  apics : gmap Z Apic;          (* the local APIC of each processor *)
  nmi_pending : gset Z;
  nmi_pcs : gmap Z nmi_pc
}.
Definition with_nlock (s : Nmi) (b : bool) : Nmi :=
  mkNmi b (sg_NmiInfo s) (sg_ExpectAck s) (sl_InitExpectAck s) (pCpuIDs s) (ActiveProcessorCount s) (apics s) (nmi_pending s) (nmi_pcs s).
Definition with_info (s : Nmi) (i : GlobalNmiInfo) : Nmi :=
  mkNmi (sg_NmiSpinlock s) i (sg_ExpectAck s) (sl_InitExpectAck s) (pCpuIDs s) (ActiveProcessorCount s) (apics s) (nmi_pending s) (nmi_pcs s).
Definition with_expect (s : Nmi) (e : list Z) (b : bool) : Nmi :=
  mkNmi (sg_NmiSpinlock s) (sg_NmiInfo s) e b (pCpuIDs s) (ActiveProcessorCount s) (apics s) (nmi_pending s) (nmi_pcs s).
Definition with_apic (s : Nmi) (c : Z) (a : Apic) : Nmi :=
  mkNmi (sg_NmiSpinlock s) (sg_NmiInfo s) (sg_ExpectAck s) (sl_InitExpectAck s) (pCpuIDs s) (ActiveProcessorCount s) (<[c := a]> (apics s))
    (nmi_pending s) (nmi_pcs s).
Definition with_cpus (s : Nmi) (p : gset Z) (h : gmap Z nmi_pc) : Nmi :=
  mkNmi (sg_NmiSpinlock s) (sg_NmiInfo s) (sg_ExpectAck s) (sl_InitExpectAck s) (pCpuIDs s) (ActiveProcessorCount s) (apics s) p h.
Definition with_ack (i : GlobalNmiInfo) (l : list Z) : GlobalNmiInfo := mkNmiInfo (Reason i) (InvokingCPU i) (MeltdownCode i) l.

Definition AcquireOrWaitSpinlock (s : Nmi) : outcome Nmi := if sg_NmiSpinlock s then Hang else Done (with_nlock s true).
Definition RelinquishSpinlock (s : Nmi) : Nmi := with_nlock s false.

(** [l[ID / 8] |= 1 << ID % 8] on an array of bytes. *)
Definition or_bit (l : list Z) (ID : Z) : outcome (list Z) :=
  let Idx := ID / 8 in
  let Off := ID mod 8 in
  b ← checked (l !! Z.to_nat Idx);
  Done (<[Z.to_nat Idx := u8 (Z.lor b (Z.shiftl 1 Off))]> l).

(** The POPCNT instruction. *)
Definition nbits (f : Z -> bool) (l : list Z) : nat := length (List.filter f l).
Definition PopulationCount32 (x : Z) : Z := Z.of_nat (nbits (Z.testbit x) (seqZ 0 32)).

(** ** The handler *)

Definition ThisCpuAcknowledgeNMI (s : Nmi) (c : Z) : outcome Nmi :=
  l ← or_bit (Ack (sg_NmiInfo s)) c; Done (with_info s (with_ack (sg_NmiInfo s) l)).

Section Hardware.
Context (latency : Z -> nat) (apic_count : nat -> Z) (tsc : nat -> Z) (fuel : nat).

Definition ProcessorDisableInterrupts (a : Apic) : Apic := set_calib a (sl_CalibSpinlock a) false (Calibration a).

(** The reaction of a processor to the reason it reads. *)
Definition nmi_dispatch (s : Nmi) (c : Z) : outcome Nmi :=
  let r := Reason (sg_NmiInfo s) in
  if r =? NMI_REASON_NONE then Done s
  else if r =? NMI_REASON_MELTDOWN then
    a ← checked (apics s !! c);
    a ← ApicSetEnabled latency apic_count (ProcessorDisableInterrupts a) false;
    a ← ApicSetTimerInterruptsEnabled latency apic_count a false;
    let s := with_apic s c a in
    Done (with_cpus s (nmi_pending s) (<[c := NmiAcking true]> (nmi_pcs s)))
  else if r =? NMI_REASON_HARMLESS_TEST then Done (with_cpus s (nmi_pending s) (<[c := NmiAcking false]> (nmi_pcs s)))
  else Melt KR_MDCODE_BOGUS_NMI_REASON.

(** One step of IntmgmtNonmaskableInterrupt on processor [c]. *)
Definition IntmgmtNonmaskableInterrupt (s : Nmi) (c : Z) : outcome Nmi :=
  match nmi_pcs s !! c with
  | Some (NmiAcking halts) =>
      s ← ThisCpuAcknowledgeNMI s c;
      Done (with_cpus s (nmi_pending s) (if halts : bool then <[c := NmiHalted]> (nmi_pcs s) else delete c (nmi_pcs s)))
  | Some NmiHalted => Done s
  | None => if decide (c ∈ nmi_pending s) then nmi_dispatch (with_cpus s (nmi_pending s ∖ {[c]}) (nmi_pcs s)) c else Done s
  end.

Fixpoint run_handlers (l : list Z) (s : Nmi) : outcome Nmi :=
  match l with
  | [] => Done s
  | c :: l' => s ← IntmgmtNonmaskableInterrupt s c; run_handlers l' s
  end.

(** ** Raising *)

Fixpoint expect_loop (n : nat) (i : Z) (s : Nmi) (l : list Z) : outcome (list Z) :=
  match n with
  | O => Done l
  | S n' => ID ← checked (pCpuIDs s !! Z.to_nat i); l ← or_bit l ID; expect_loop n' (i + 1) s l
  end.

Definition nmi_config (bInterruptSelf : bool) : KrIpiConfig :=
  mkIpi 0 INT_VECTOR_NON_MASKABLE_INTERRUPT IPI_DELIVERY_NMI 0 IPI_LEVEL_ASSERT IPI_TRIGGER_EDGE
    (if bInterruptSelf then IPI_SHORTHAND_ALL_ISLF else IPI_SHORTHAND_ALL_XSLF).

(** The processors a message reaches. *)
Definition ipi_targets (ids : list Z) (me : Z) (p : KrIpiConfig) : list Z :=
  if eDestShorthand p =? 1 then [me]
  else if eDestShorthand p =? IPI_SHORTHAND_ALL_ISLF then ids
  else if eDestShorthand p =? IPI_SHORTHAND_ALL_XSLF then filter (fun c => c <> me) ids
  else filter (fun c => c = dwDestApic p) ids.
(** The hardware delivers the messages sent since there were [n]. *)
Definition deliver (s : Nmi) (me : Z) (msgs : list (Z * Z)) : Nmi :=
  foldl (fun s m => let p := ipi_decode m in
    if eDeliveryMode p =? IPI_DELIVERY_NMI
    then with_cpus s (nmi_pending s ∪ list_to_set (ipi_targets (pCpuIDs s) me p)) (nmi_pcs s) else s) s msgs.

Definition send_nmi (s : Nmi) (me : Z) (bInterruptSelf : bool) : outcome Nmi :=
  a ← checked (apics s !! me);
  a' ← ApicIssueIpi latency apic_count fuel a (nmi_config bInterruptSelf);
  Done (deliver (with_apic s me a') me (drop (length (icr_sent a)) (icr_sent a'))).

(** The bytes that follow the two arrays in memory: KrtlBufferEqual reads them. *)
Context (beyond_Ack beyond_ExpectAck : Z).
Definition acks_equal (s : Nmi) : outcome bool :=
  KrtlBufferEqual (Ack (sg_NmiInfo s) ++ [beyond_Ack]) (sg_ExpectAck s ++ [beyond_ExpectAck]) 32.

(** The steps of the other processors during the stalls. *)
Context (sched : nat -> list Z).

Definition nmi_stall (s : Nmi) (me : Z) : outcome Nmi :=
  a ← checked (apics s !! me); a ← KrProcessorStall tsc fuel a 1250000; Done (with_apic s me a).
Fixpoint ack_loop (n : nat) (i : nat) (s : Nmi) (me : Z) : outcome Nmi :=
  match n with
  | O => Done s
  | S n' =>
      eq ← acks_equal s;
      if eq : bool then Done s
      else s ← nmi_stall s me; s ← run_handlers (sched i) s; ack_loop n' (S i) s me
  end.

Definition count_acks (l : list Z) : Z := foldl (fun n b => u32 (n + PopulationCount32 b)) 0 l.

(** [pData] is the meltdown code it points to, [None] for NULLPTR.  The raiser
    takes its own interrupt, if there is one, before it goes on. *)
Definition RaiseGlobalNonmaskableInterrupt (s : Nmi) (me : Z) (bInterruptSelf : bool) (Rsn : Z) (pData : option Z)
    : outcome (Nmi * Z) :=
  s ← AcquireOrWaitSpinlock s;
  s ← (if sl_InitExpectAck s then Done s
       else l ← expect_loop (Z.to_nat (ActiveProcessorCount s)) 0 s (sg_ExpectAck s); Done (with_expect s l true));
  let i := sg_NmiInfo s in
  code ← (if Rsn =? NMI_REASON_MELTDOWN then
            match pData with Some c => Done c | None => Melt KR_MDCODE_NMI_NO_DATA_PROVIDED end
          else if Rsn =? NMI_REASON_HARMLESS_TEST then Done (MeltdownCode i)
          else Melt KR_MDCODE_BOGUS_NMI_REASON);
  l ← or_bit (Ack i) me;
  s ← send_nmi (with_info s (mkNmiInfo Rsn me code l)) me bInterruptSelf;
  s ← run_handlers [me; me] s;
  if bool_decide (nmi_pcs s !! me = Some NmiHalted) then Hang
  else
    s ← ack_loop 512 0 s me;
    let n := count_acks (Ack (sg_NmiInfo s)) in
    Done (RelinquishSpinlock (with_info s nmi_info_zero), if bInterruptSelf then n else u32 (n - 1)).

Definition GetGlobalNmiInfo (s : Nmi) : GlobalNmiInfo := sg_NmiInfo s.
End Hardware.
