(* ===== verification/NmiProps.v ===== *)
(** * Global non-maskable interrupts: who acknowledges, and when the raiser returns *)
From Stdlib Require Import ZArith Lia.
From stdpp Require Import base numbers list gmap sets.
From S2P Require Import Prelude KrtlMem Interrupts Descriptors Apic Nmi.
Open Scope Z_scope.
#[local] Arguments Z.testbit _ _ : simpl never.

(** ** Bitmaps of processors *)

Definition ackbit (l : list Z) (c : Z) : bool := Z.testbit (l !!! Z.to_nat (c / 8)) (c mod 8).
Record ack_array (l : list Z) : Prop := { aa_len : length l = 32%nat; aa_bytes : Forall (fun b => 0 <= b < 256) l }.

Lemma byte_bit_high b i : 0 <= b < 256 -> 8 <= i -> Z.testbit b i = false.
Proof. intros Hb Hi. by apply (testbit_above b 8). Qed.

Lemma ack_array_ext l r : ack_array l -> ack_array r -> (forall c, 0 <= c < 256 -> ackbit l c = ackbit r c) -> l = r.
Proof.
  intros [L1 L2] [R1 R2] H. apply list_eq_same_length with (n := 32%nat); [done|done|].
  intros i x y Hi Hx Hy. apply Z.bits_inj'. intros j Hj.
  destruct (Z.lt_ge_cases j 8).
  - specialize (H (8 * Z.of_nat i + j) ltac:(lia)). unfold ackbit in H.
    replace ((8 * Z.of_nat i + j) / 8) with (Z.of_nat i) in H by zlia. replace ((8 * Z.of_nat i + j) mod 8) with j in H by zlia.
    rewrite Nat2Z.id in H. by rewrite (list_lookup_total_correct _ _ _ Hx), (list_lookup_total_correct _ _ _ Hy) in H.
  - rewrite !byte_bit_high; [done|by apply (Forall_lookup_1 _ _ _ _ R2 Hy)|done|by apply (Forall_lookup_1 _ _ _ _ L2 Hx)|done].
Qed.

Lemma or_bit_spec l ID : ack_array l -> 0 <= ID < 256 ->
  exists l', or_bit l ID = Done l' /\ ack_array l' /\ forall c, 0 <= c < 256 -> ackbit l' c = bool_decide (c = ID) || ackbit l c.
Proof.
  intros [L1 L2] HI. unfold or_bit. destruct (lookup_lt_is_Some_2 l (Z.to_nat (ID / 8))) as [b Hb]; [zlia|]. rewrite Hb. cbn [checked]. rewrite bind_Done.
  eexists. split; [reflexivity|]. pose proof (Forall_lookup_1 _ _ _ _ L2 Hb) as Hbr.
  set (v := u8 (Z.lor b (Z.shiftl 1 (ID mod 8)))).
  assert (0 <= v < 256) as Hv by (unfold v, u8; zlia).
  assert (forall j, 0 <= j < 8 -> Z.testbit v j = Z.testbit b j || (j =? ID mod 8)) as Hbit.
  { intros j Hj. unfold v, u8. rewrite Z.mod_pow2_bits_low, Z.lor_spec, testbit_one_shiftl by zlia. done. }
  split; [split; [by rewrite length_insert|by apply Forall_insert]|].
  intros c Hc. unfold ackbit. destruct (decide (c / 8 = ID / 8)) as [E|E].
  - rewrite E, list_lookup_total_insert_eq by zlia. rewrite Hbit by zlia. rewrite (list_lookup_total_correct _ _ _ Hb).
    rewrite orb_comm. f_equal. destruct (Z.eqb_spec (c mod 8) (ID mod 8)), (bool_decide_reflect (c = ID)); try done; zlia.
  - rewrite list_lookup_total_insert_ne by zlia. rewrite bool_decide_false; [done|]. intros ->. done.
Qed.

(** The number of set bits of the array. *)
Lemma nbits_app f l1 l2 : nbits f (l1 ++ l2) = (nbits f l1 + nbits f l2)%nat.
Proof. unfold nbits. by rewrite List.filter_app, length_app. Qed.
Lemma nbits_ext f g l : Forall (fun c => f c = g c) l -> nbits f l = nbits g l.
Proof. intros H. unfold nbits. f_equal. apply List.filter_ext_in. intros c Hc. rewrite Forall_forall in H. apply H. by apply list_elem_of_In. Qed.
Lemma nbits_map f g l : nbits f (g <$> l) = nbits (fun c => f (g c)) l.
Proof. induction l as [|c l IH]; [done|]. unfold nbits in *. cbn. destruct (f (g c)); cbn; by rewrite IH. Qed.
Lemma nbits_none f l : Forall (fun c => f c = false) l -> nbits f l = 0%nat.
Proof. induction 1 as [|c l Hc _ IH]; [done|]. unfold nbits in *. cbn. by rewrite Hc. Qed.
Lemma nbits_le f l : (nbits f l <= length l)%nat.
Proof. apply List.filter_length_le. Qed.

Lemma pop_byte b : 0 <= b < 256 -> PopulationCount32 b = Z.of_nat (nbits (Z.testbit b) (seqZ 0 8)).
Proof.
  intros Hb. unfold PopulationCount32. assert (seqZ 0 32 = seqZ 0 8 ++ seqZ 8 24) as -> by reflexivity.
  rewrite nbits_app, (nbits_none _ (seqZ 8 24)); [lia|]. apply Forall_forall. intros i Hi%elem_of_seqZ. apply byte_bit_high; [done|lia].
Qed.

Lemma count_acks_bits l : Forall (fun b => 0 <= b < 256) l -> (length l <= 32)%nat ->
  count_acks l = Z.of_nat (nbits (ackbit l) (seqZ 0 (8 * Z.of_nat (length l)))).
Proof.
  induction l as [|b l IH] using rev_ind; intros Hb Hl; [done|].
  apply Forall_app in Hb as [Hb Hb1]. apply Forall_cons in Hb1 as [Hb1 _]. rewrite length_app in *. cbn [length] in *. unfold count_acks in *.
  rewrite foldl_snoc, IH by (done || lia).
  replace (8 * Z.of_nat (length l + 1)) with (8 * Z.of_nat (length l) + 8) by lia. rewrite seqZ_app, nbits_app by lia.
  assert (seqZ (0 + 8 * Z.of_nat (length l)) 8 = Z.add (8 * Z.of_nat (length l)) <$> seqZ 0 8) as -> by (rewrite fmap_add_seqZ; f_equal; lia).
  rewrite nbits_map.
  rewrite (nbits_ext (ackbit (l ++ [b])) (ackbit l)).
  2:{ apply Forall_forall. intros c Hc%elem_of_seqZ. unfold ackbit. rewrite lookup_total_app_l by zlia. done. }
  rewrite (nbits_ext (fun c => ackbit (l ++ [b]) (8 * Z.of_nat (length l) + c)) (Z.testbit b)).
  2:{ apply Forall_forall. intros c Hc%elem_of_seqZ. unfold ackbit. replace ((8 * Z.of_nat (length l) + c) / 8) with (Z.of_nat (length l)) by zlia.
      replace ((8 * Z.of_nat (length l) + c) mod 8) with c by zlia. rewrite Nat2Z.id, lookup_total_app_r, Nat.sub_diag by lia. done. }
  rewrite pop_byte by exact Hb1. pose proof (nbits_le (ackbit l) (seqZ 0 (8 * Z.of_nat (length l)))) as H1. rewrite length_seqZ in H1.
  pose proof (nbits_le (Z.testbit b) (seqZ 0 8)) as H2. rewrite length_seqZ in H2. rewrite u32_small by lia. lia.
Qed.

(** The array with the bits of the processors in [ids]. *)
Lemma expect_loop_spec s n : forall i l, ack_array l -> Forall (fun c => 0 <= c < 256) (pCpuIDs s) -> 0 <= i -> (Z.to_nat i + n = length (pCpuIDs s))%nat ->
  exists l', expect_loop n i s l = Done l' /\ ack_array l' /\
    forall c, 0 <= c < 256 -> ackbit l' c = bool_decide (c ∈ drop (Z.to_nat i) (pCpuIDs s)) || ackbit l c.
Proof.
  induction n as [|n IH]; intros i l Ha Hids Hi Hn; cbn [expect_loop].
  { exists l. split_and!; [done..|]. intros c Hc. rewrite drop_ge by lia. by rewrite bool_decide_false by apply not_elem_of_nil. }
  destruct (lookup_lt_is_Some_2 (pCpuIDs s) (Z.to_nat i)) as [ID HID]; [lia|]. rewrite HID. cbn [checked]. rewrite bind_Done.
  destruct (or_bit_spec l ID Ha) as (l1 & E1 & A1 & B1); [by apply (Forall_lookup_1 _ _ _ _ Hids HID)|]. rewrite E1, bind_Done.
  destruct (IH (i + 1) l1 A1 Hids) as (l2 & E2 & A2 & B2); [lia|lia|]. exists l2. split_and!; [done..|].
  intros c Hc. rewrite B2, B1 by done. rewrite (drop_S _ _ _ HID). replace (Z.to_nat (i + 1)) with (S (Z.to_nat i)) by lia.
  rewrite orb_assoc. f_equal. destruct (bool_decide_reflect (c = ID)) as [->|Hne].
  - rewrite orb_true_r. symmetry. apply bool_decide_eq_true. by left.
  - rewrite orb_false_r. apply bool_decide_ext. rewrite elem_of_cons. naive_solver.
Qed.

(** KrtlBufferEqual on the two arrays: it also wants the next bytes to differ. *)
Lemma acks_equal_spec ba be s : ack_array (Ack (sg_NmiInfo s)) -> ack_array (sg_ExpectAck s) ->
  acks_equal ba be s = Done (bool_decide (Ack (sg_NmiInfo s) = sg_ExpectAck s) && negb (ba =? be)).
Proof.
  intros [A1 A2] [E1 E2]. unfold acks_equal, KrtlBufferEqual.
  destruct (buffer_equal_loop_spec (Ack (sg_NmiInfo s) ++ [ba]) (sg_ExpectAck s ++ [be]) 32) as (N & -> & HN);
    [lia|lia|rewrite length_app; cbn; lia|rewrite length_app; cbn; lia|].
  rewrite bind_Done. f_equal. rewrite !take_app_length', !lookup_app_r in HN by (rewrite ?A1, ?E1; done).
  rewrite A1, E1 in HN. cbn in HN. destruct (Z.eqb_spec N 0) as [H|H].
  - apply HN in H as [-> H]. rewrite bool_decide_true by done. destruct (Z.eqb_spec ba be); [congruence|done].
  - destruct (bool_decide_reflect (Ack (sg_NmiInfo s) = sg_ExpectAck s)) as [Ea|]; [|done]. destruct (Z.eqb_spec ba be); [done|].
    exfalso. apply H, HN. split; [done|]. intros [=]. done.
Qed.

(** ** The other processors *)

(** A processor that is out of the way: no interrupts, APIC and timer off. *)
Definition stopped (a : Apic) : Prop :=
  interrupts a = false /\ has_flag (reg a APIC_REG_SIV) APIC_SIV_SOFTWARE_ENABLE = false /\
  has_flag (reg a APIC_REG_LTR) APIC_LTR_TIMER_INT_BLOCK = true.
Definition cnt (evs : list Z) (c : Z) : nat := length (filter (fun x => x = c) evs).
Lemma cnt_snoc evs e c : cnt (evs ++ [e]) c = (cnt evs c + if decide (e = c) then 1 else 0)%nat.
Proof. unfold cnt. rewrite filter_app, length_app, filter_cons. by destruct (decide (e = c)). Qed.

Lemma stop_apic lat ac a : VaddrApicBase a <> 0 ->
  exists a1 a2, ApicSetEnabled lat ac (ProcessorDisableInterrupts a) false = Done a1 /\
    ApicSetTimerInterruptsEnabled lat ac a1 false = Done a2 /\ stopped a2 /\
    VaddrApicBase a2 = VaddrApicBase a /\ icr_busy a2 = icr_busy a.
Proof.
  intros Hv. unfold ApicSetEnabled, ApicSetTimerInterruptsEnabled. rewrite apic_read_reg, bind_Done, apic_write_reg by done.
  eexists _, _. split; [reflexivity|]. rewrite apic_read_reg, bind_Done, apic_write_reg by done. split; [reflexivity|]. split; [|done].
  unfold stopped, reg. cbn [interrupts set_regs apic_regs ProcessorDisableInterrupts set_calib]. split; [done|].
  rewrite lookup_insert_ne, !lookup_insert_eq by done. cbn [default]. unfold APIC_SIV_SOFTWARE_ENABLE, APIC_LTR_TIMER_INT_BLOCK. split.
  - change (u32 (Z.lnot (2 ^ 8))) with (Z.land (Z.ones 32) (Z.lnot (2 ^ 8))). rewrite Z.land_assoc. by apply has_flag_clear_self.
  - by apply has_flag_lor_self.
Qed.

(** What sending and waiting leave of the raiser's own APIC. *)
Definition same_apic (a a' : Apic) : Prop :=
  interrupts a' = interrupts a /\ MsrApicBase a' = MsrApicBase a /\ VaddrApicBase a' = VaddrApicBase a /\
  forall off, off <> APIC_REG_ICR_LO -> off <> APIC_REG_ICR_HI -> reg a' off = reg a off.

Section Wait.
Context (lat : Z -> nat) (ac : nat -> Z).
Context (ids : list Z) (me R : Z) (s0 : Nmi).
Context (Hids : Forall (fun c => 0 <= c < 256) ids) (HR : R = NMI_REASON_HARMLESS_TEST \/ R = NMI_REASON_MELTDOWN).
Definition halts : bool := R =? NMI_REASON_MELTDOWN.
Definition other (c : Z) : Prop := c ∈ ids /\ c <> me.

(** The progress of another processor after [n] of its steps. *)
Definition cpu_at (s : Nmi) (c : Z) (n : nat) : Prop :=
  match n with
  | O => c ∈ nmi_pending s /\ nmi_pcs s !! c = None
  | S O => c ∉ nmi_pending s /\ nmi_pcs s !! c = Some (NmiAcking halts)
  | _ => c ∉ nmi_pending s /\ nmi_pcs s !! c = if halts then Some NmiHalted else None
  end.
Definition acked (evs : list Z) (c : Z) : Prop := other c /\ (2 <= cnt evs c)%nat.

Record waiting (evs : list Z) (s : Nmi) : Prop := {
  wa_same : exists i p h a, s = mkNmi (sg_NmiSpinlock s0) i (sg_ExpectAck s0) (sl_InitExpectAck s0) (pCpuIDs s0) (ActiveProcessorCount s0) a p h;
  wa_reason : Reason (sg_NmiInfo s) = R;
  wa_ack : ack_array (Ack (sg_NmiInfo s));
  wa_bits : forall c, 0 <= c < 256 -> ackbit (Ack (sg_NmiInfo s)) c = true <-> c = me \/ acked evs c;
  wa_cpu : forall c, other c -> cpu_at s c (cnt evs c);
  wa_rest : forall c, ~ other c -> c ∉ nmi_pending s /\ nmi_pcs s !! c = None;
  wa_me : exists a0 a, apics s0 !! me = Some a0 /\ apics s !! me = Some a /\ same_apic a0 a;
  wa_apic : forall c, other c -> exists a, apics s !! c = Some a /\ VaddrApicBase a <> 0 /\ (halts = true -> (1 <= cnt evs c)%nat -> stopped a)
}.

(** The first step of a handler. *)
Lemma dispatch_spec s c a : Reason (sg_NmiInfo s) = R -> apics s !! c = Some a -> VaddrApicBase a <> 0 ->
  exists ap, nmi_dispatch lat ac s c = Done (mkNmi (sg_NmiSpinlock s) (sg_NmiInfo s) (sg_ExpectAck s) (sl_InitExpectAck s) (pCpuIDs s)
      (ActiveProcessorCount s) ap (nmi_pending s) (<[c := NmiAcking halts]> (nmi_pcs s))) /\
    (forall c', c' <> c -> ap !! c' = apics s !! c') /\
    exists a', ap !! c = Some a' /\ VaddrApicBase a' <> 0 /\ (halts = true -> stopped a').
Proof using All.
  intros Hr Ha Hv. unfold nmi_dispatch, halts. rewrite Hr.
  destruct HR as [-> | ->]; cbn [Z.eqb NMI_REASON_HARMLESS_TEST NMI_REASON_NONE NMI_REASON_MELTDOWN Pos.eqb].
  - exists (apics s). split; [by destruct s|]. split; [done|]. by exists a.
  - rewrite Ha. cbn [checked]. rewrite bind_Done. destruct (stop_apic lat ac a Hv) as (a1 & a2 & -> & E2 & Hs & Hv2 & _). rewrite bind_Done, E2, bind_Done.
    exists (<[c := a2]> (apics s)). split; [reflexivity|]. split; [intros c' Hne; by apply lookup_insert_ne|].
    exists a2. split; [apply lookup_insert_eq|by rewrite Hv2].
Qed.

Lemma acked_snoc evs c c' : acked (evs ++ [c]) c' <-> other c' /\ (2 <= cnt evs c' + if decide (c = c') then 1 else 0)%nat.
Proof using All. unfold acked. by rewrite cnt_snoc. Qed.

(** A step that is none. *)
Lemma step_none evs s c : waiting evs s -> ~ other c \/ (2 <= cnt evs c)%nat -> waiting (evs ++ [c]) s.
Proof using All.
  intros [W1 W2 W3 W4 W5 W6 W7 W8] Hc.
  assert (forall c', other c' -> cnt (evs ++ [c]) c' = cnt evs c' \/ (2 <= cnt evs c')%nat /\ (2 <= cnt (evs ++ [c]) c')%nat) as Hn.
  { intros c' Ho'. rewrite cnt_snoc. destruct (decide (c = c')) as [->|]; [|left; lia]. destruct Hc; [done|]. right. lia. }
  split; try done.
  - intros c' Hc'. rewrite W4 by done. unfold acked. split; (intros [->|[Ho' Hk]]; [by left|right; split; [done|]]); destruct (Hn c' Ho'); lia.
  - intros c' Ho'. pose proof (W5 c' Ho') as H5. destruct (Hn c' Ho') as [->|[Ha Hb]]; [done|].
    destruct (cnt evs c') as [|[|m]]; [lia|lia|]. destruct (cnt (evs ++ [c]) c') as [|[|m']]; [lia|lia|]. exact H5.
  - intros c' Ho'. destruct (W8 c' Ho') as (a & Ha & Hv & Hs). exists a. split_and!; [done..|]. intros Hh Hk.
    apply Hs; [done|]. destruct (Hn c' Ho'); lia.
Qed.

Lemma step_dispatch evs s c : waiting evs s -> other c -> cnt evs c = 0%nat ->
  exists s', IntmgmtNonmaskableInterrupt lat ac s c = Done s' /\ waiting (evs ++ [c]) s'.
Proof using All.
  intros [W1 W2 W3 W4 W5 W6 W7 W8] Ho En. pose proof (W5 c Ho) as H5. rewrite En in H5. destruct H5 as [Hp Hpc].
  destruct (W8 c Ho) as (a & Ha & Hv & _). unfold IntmgmtNonmaskableInterrupt. rewrite Hpc, decide_True by done.
  destruct (dispatch_spec (with_cpus s (nmi_pending s ∖ {[c]}) (nmi_pcs s)) c a W2 Ha Hv) as (ap & -> & Hne & a' & Ha' & Hv' & Hs').
  cbn [with_cpus sg_NmiSpinlock sg_NmiInfo sg_ExpectAck sl_InitExpectAck pCpuIDs ActiveProcessorCount nmi_pending nmi_pcs apics] in *.
  eexists. split; [reflexivity|]. destruct W1 as (i & p & h & ap0 & E). rewrite E in *.
  cbn [sg_NmiSpinlock sg_NmiInfo sg_ExpectAck sl_InitExpectAck pCpuIDs ActiveProcessorCount nmi_pending nmi_pcs apics] in *.
  split; cbn [sg_NmiSpinlock sg_NmiInfo sg_ExpectAck sl_InitExpectAck pCpuIDs ActiveProcessorCount nmi_pending nmi_pcs apics]; try done.
  - by eexists _, _, _, _.
  - intros c' Hc'. rewrite W4, acked_snoc by done. unfold acked. destruct (decide (c = c')) as [<-|]; [rewrite En|rewrite Nat.add_0_r; done].
    split; (intros [?|[_ Hk]]; [by left|lia]).
  - intros c' Ho'. rewrite cnt_snoc. destruct (decide (c = c')) as [<-|Hd].
    + rewrite En. cbn. rewrite lookup_insert_eq. split; [set_solver|done].
    + rewrite Nat.add_0_r. pose proof (W5 c' Ho') as H5. unfold cpu_at in *. cbn [nmi_pending nmi_pcs] in *. rewrite lookup_insert_ne by done.
      destruct (cnt evs c') as [|[|m]]; (destruct H5; split; [set_solver|done]).
  - intros c' Ho'. destruct (W6 c' Ho'). rewrite lookup_insert_ne by (intros ->; done). split; [set_solver|done].
  - destruct W7 as (a0 & am & ? & ? & ?). exists a0, am. rewrite Hne; [done|]. intros <-. by destruct Ho.
  - intros c' Ho'. destruct (decide (c' = c)) as [->|Hd]; [exists a'; split_and!; [done..|]; auto|]. rewrite Hne, cnt_snoc, decide_False, Nat.add_0_r by done.
    by apply W8.
Qed.

Lemma step_ack evs s c : waiting evs s -> other c -> cnt evs c = 1%nat ->
  exists s', IntmgmtNonmaskableInterrupt lat ac s c = Done s' /\ waiting (evs ++ [c]) s'.
Proof using All.
  intros [W1 W2 W3 W4 W5 W6 W7 W8] Ho En. pose proof (W5 c Ho) as H5. rewrite En in H5. destruct H5 as [Hp Hpc].
  assert (0 <= c < 256) as Hc by (destruct Ho as [Ho _]; by apply (proj1 (Forall_forall _ _) Hids)).
  unfold IntmgmtNonmaskableInterrupt, ThisCpuAcknowledgeNMI. rewrite Hpc.
  destruct (or_bit_spec (Ack (sg_NmiInfo s)) c W3 Hc) as (l & -> & Hl & Hlb). rewrite !bind_Done. eexists. split; [reflexivity|].
  destruct W1 as (i & p & h & ap0 & E). rewrite E in *.
  cbn [sg_NmiSpinlock sg_NmiInfo sg_ExpectAck sl_InitExpectAck pCpuIDs ActiveProcessorCount nmi_pending nmi_pcs apics] in *.
  assert (forall c', c' <> c -> (if halts then <[c := NmiHalted]> h else delete c h) !! c' = h !! c') as Hh.
  { intros c' Hd. destruct halts; [by rewrite lookup_insert_ne|by rewrite lookup_delete_ne]. }
  split; cbn [with_cpus with_info with_ack Reason Ack sg_NmiSpinlock sg_NmiInfo sg_ExpectAck sl_InitExpectAck pCpuIDs ActiveProcessorCount nmi_pending nmi_pcs apics]; try done.
  - by eexists _, _, _, _.
  - intros c' Hc'. rewrite Hlb, orb_true_iff, bool_decide_eq_true, W4, acked_snoc by done. unfold acked.
    destruct (decide (c = c')) as [<-|Hd]; [rewrite En; split; [intros _; right; split; [done|lia]|by left]|]. rewrite Nat.add_0_r. naive_solver.
  - intros c' Ho'. rewrite cnt_snoc. unfold cpu_at. cbn [nmi_pending nmi_pcs]. destruct (decide (c = c')) as [<-|Hd].
    + rewrite En. cbn. split; [done|]. destruct halts; [apply lookup_insert_eq|apply lookup_delete_eq].
    + rewrite Nat.add_0_r, Hh by done. exact (W5 c' Ho').
  - intros c' Ho'. rewrite Hh by (intros ->; done). by apply W6.
  - intros c' Ho'. destruct (W8 c' Ho') as (a & Ha & Hv & Hs). exists a. split_and!; [done..|]. intros Hhl Hk. apply Hs; [done|].
    rewrite cnt_snoc in Hk. destruct (decide (c = c')) as [<-|]; lia.
Qed.

Lemma handler_step evs s c : waiting evs s -> exists s', IntmgmtNonmaskableInterrupt lat ac s c = Done s' /\ waiting (evs ++ [c]) s'.
Proof using All.
  intros W. destruct (decide (c ∈ ids /\ c <> me)) as [Ho|Hno]; cycle 1.
  { exists s. split; [|by apply step_none; [|left]]. destruct (wa_rest _ _ W c Hno) as [Hp Hpc]. unfold IntmgmtNonmaskableInterrupt.
    by rewrite Hpc, decide_False. }
  destruct (cnt evs c) as [|[|n]] eqn:En; [by apply step_dispatch|by apply step_ack|].
  exists s. split; [|apply step_none; [done|right; lia]]. pose proof (wa_cpu _ _ W c Ho) as H5. rewrite En in H5. destruct H5 as [Hp Hpc].
  unfold IntmgmtNonmaskableInterrupt. destruct halts; rewrite Hpc; [done|]. by rewrite decide_False.
Qed.

Lemma handlers_run l : forall evs s, waiting evs s -> exists s', run_handlers lat ac l s = Done s' /\ waiting (evs ++ l) s'.
Proof using All.
  induction l as [|c l IH]; intros evs s W; cbn [run_handlers]; [exists s; by rewrite app_nil_r|].
  destruct (handler_step evs s c W) as (s1 & -> & W1). rewrite bind_Done. destruct (IH _ _ W1) as (s2 & -> & W2).
  exists s2. split; [done|]. by rewrite <- app_assoc in W2.
Qed.

(** ** The raiser's wait *)

Context (tsc : nat -> Z) (fuel : nat) (ba be : Z) (sched : nat -> list Z).
(** The time stamp counter passes any stall within the fuel. *)
Context (Htsc : forall n, exists m, (S n <= m < n + fuel)%nat /\ u64 (tsc n + 1250000) <= tsc m).
Context (Hexp : ack_array (sg_ExpectAck s0)) (Hme : me ∈ ids).
Context (Hbits : forall c, 0 <= c < 256 -> ackbit (sg_ExpectAck s0) c = true <-> c ∈ ids).

Definition all_acked (evs : list Z) : Prop := forall c, other c -> (2 <= cnt evs c)%nat.

Lemma acks_complete evs s : waiting evs s ->
  acks_equal ba be s = Done (bool_decide (Ack (sg_NmiInfo s) = sg_ExpectAck s0) && negb (ba =? be)) /\
  (Ack (sg_NmiInfo s) = sg_ExpectAck s0 <-> all_acked evs).
Proof using Hids Hexp Hme Hbits.
  intros W. destruct (wa_same _ _ W) as (i & p & h & a & E). assert (sg_ExpectAck s = sg_ExpectAck s0) as Ee by by rewrite E.
  split; [rewrite acks_equal_spec, Ee; [done|apply W|by rewrite Ee]|]. split.
  - intros Ea c Ho. assert (0 <= c < 256) as Hc by (destruct Ho as [Ho _]; by apply (proj1 (Forall_forall _ _) Hids)).
    pose proof (wa_bits _ _ W c Hc) as Hb. rewrite Ea, Hbits in Hb by done. destruct (proj1 Hb (proj1 Ho)) as [->|[_ ?]]; [by destruct Ho|done].
  - intros Hall. apply ack_array_ext; [apply W|done|]. intros c Hc. apply eq_true_iff_eq. rewrite (wa_bits _ _ W), Hbits by done. split.
    + intros [->|[[? _] _]]; done.
    + intros Hc'. destruct (decide (c = me)) as [|Hne]; [by left|right]. split; [done|]. by apply Hall.
Qed.

Lemma nmi_stall_spec evs s : waiting evs s -> exists s', nmi_stall tsc fuel s me = Done s' /\ waiting evs s'.
Proof using Htsc.
  intros W. pose proof W as [W1 W2 W3 W4 W5 W6 (a0 & a & Ha0 & Ha & Hsa) W8]. unfold nmi_stall. rewrite Ha. cbn [checked]. rewrite bind_Done.
  destruct (Htsc (clock a)) as (m & Hm & He).
  destruct (stall_loop_spec tsc (u64 (tsc (clock a) + 1250000)) (pred fuel) (tick a) m) as (m' & _ & HD); [cbn; lia|done|].
  unfold KrProcessorStall. rewrite HD, bind_Done by lia. eexists. split; [reflexivity|].
  destruct W1 as (i & p & h & ap & E). rewrite E in *.
  cbn [sg_NmiInfo nmi_pending nmi_pcs apics sg_NmiSpinlock sg_ExpectAck sl_InitExpectAck pCpuIDs ActiveProcessorCount] in *.
  split; cbn [with_apic sg_NmiInfo nmi_pending nmi_pcs apics sg_NmiSpinlock sg_ExpectAck sl_InitExpectAck pCpuIDs ActiveProcessorCount]; try done.
  - by eexists _, _, _, _.
  - exists a0, (at_clock (tick a) m'). split_and!; [done|apply lookup_insert_eq|exact Hsa].
  - intros c Ho. rewrite lookup_insert_ne by (destruct Ho; done). by apply W8.
Qed.

(** The steps of the first [k] stalls from the [i]th on. *)
Definition steps_of (i k : nat) : list Z := seq i k ≫= sched.
Lemma steps_of_S i k : steps_of i (S k) = sched i ++ steps_of (S i) k.
Proof using. done. Qed.

Definition stops (evs : list Z) : Prop := ba <> be /\ all_acked evs.

Lemma ack_loop_spec n : forall i evs s, waiting evs s ->
  exists s' k, ack_loop lat ac tsc fuel ba be sched n i s me = Done s' /\ waiting (evs ++ steps_of i k) s' /\ (k <= n)%nat /\
    ((k < n)%nat -> stops (evs ++ steps_of i k)) /\ (forall j, (j < k)%nat -> ~ stops (evs ++ steps_of i j)).
Proof using All.
  induction n as [|n IH]; intros i evs s W; cbn [ack_loop].
  { exists s, 0%nat. split_and!; [done|by rewrite app_nil_r|lia|lia|lia]. }
  destruct (acks_complete evs s W) as [-> Hc]. rewrite bind_Done.
  destruct (bool_decide_reflect (Ack (sg_NmiInfo s) = sg_ExpectAck s0)) as [Ea|Ena], (Z.eqb_spec ba be) as [Eb|Eb]; cbn [andb negb].
  2:{ exists s, 0%nat. split_and!; [done|by rewrite app_nil_r|lia| |lia]. intros _. rewrite app_nil_r. split; [done|by apply Hc]. }
  all: destruct (nmi_stall_spec evs s W) as (s1 & -> & W1); rewrite bind_Done.
  all: destruct (handlers_run (sched i) evs s1 W1) as (s2 & -> & W2); rewrite bind_Done.
  all: destruct (IH (S i) _ s2 W2) as (s3 & k & -> & W3 & Hk & Hstop & Hbefore).
  all: rewrite <- app_assoc in W3, Hstop; rewrite <- steps_of_S in W3, Hstop; exists s3, (S k); split_and!; [done|done|lia|intros ?; apply Hstop; lia|].
  all: intros [|j] Hj; [rewrite app_nil_r; intros [? ?]; tauto|]; rewrite steps_of_S, app_assoc; apply Hbefore; lia.
Qed.
End Wait.
