(* ===== verification/NmiThms.v ===== *)
(** * Global non-maskable interrupts: the contract of the raiser *)
From Stdlib Require Import ZArith Lia.
From stdpp Require Import base numbers list gmap sets.
From S2P Require Import Prelude KrtlMem Interrupts Descriptors Apic Nmi NmiProps.
Open Scope Z_scope.
#[local] Arguments Z.testbit _ _ : simpl never.

(** No interrupt is in progress and every processor of [ids] runs normally. *)
Record nmi_ready (fuel : nat) (s : Nmi) (ids : list Z) (me : Z) : Prop := {
  nr_info : sg_NmiInfo s = nmi_info_zero;
  nr_ids : pCpuIDs s = ids /\ ActiveProcessorCount s = Z.of_nat (length ids);
  nr_range : Forall (fun c => 0 <= c < 256) ids;
  nr_nodup : NoDup ids;
  nr_me : me ∈ ids;
  nr_expect : ack_array (sg_ExpectAck s) /\
    forall c, 0 <= c < 256 -> ackbit (sg_ExpectAck s) c = true <-> sl_InitExpectAck s = true /\ c ∈ ids;
  nr_idle : nmi_pending s = ∅ /\ nmi_pcs s = ∅;
  nr_apics : forall c, c ∈ ids -> exists a, apics s !! c = Some a /\ VaddrApicBase a <> 0 /\ (icr_busy a < fuel)%nat
}.

Lemma zero_acks : ack_array (replicate 32 0) /\ forall c, 0 <= c < 256 -> ackbit (replicate 32 0) c = false.
Proof.
  split; [split; [done|by apply Forall_replicate]|]. intros c Hc. unfold ackbit.
  rewrite lookup_total_replicate_2 by zlia. apply Z.testbit_0_l.
Qed.

(** ** Sending *)

Lemma issue_nmi lat ac fuel a b : VaddrApicBase a <> 0 -> (icr_busy a < fuel)%nat -> (forall w, lat w < fuel)%nat ->
  exists a', ApicIssueIpi lat ac fuel a (nmi_config b) = Done a' /\ icr_sent a' = icr_sent a ++ [(0, icr_low (nmi_config b))] /\
    same_apic a a'.
Proof.
  intros Hv Hb Hl. unfold ApicIssueIpi. assert (KrValidateIpiConfigStruct (nmi_config b) = IPI_CONFIG_STRUCT_VALIDATION_RESULT_SUCCESS) as -> by by destruct b.
  rewrite wait_idle, bind_Done by done. rewrite apic_write_reg, bind_Done by done. unfold ApicWrite. cbn [VaddrApicBase set_regs].
  rewrite (proj2 (Z.eqb_neq _ 0)) by done. cbn [Z.eqb APIC_REG_ICR_LO Pos.eqb]. rewrite bind_Done.
  rewrite wait_idle by (done || apply Hl). eexists. split; [reflexivity|]. cbn [icr_sent set_regs apic_regs VaddrApicBase]. split.
  - do 3 f_equal. unfold reg. cbn [apic_regs set_regs]. by rewrite lookup_insert_eq.
  - split_and!; [done..|]. intros off H1 H2. unfold reg. cbn [apic_regs set_regs]. by rewrite !lookup_insert_ne by done.
Qed.

Definition nmi_targets (ids : list Z) (me : Z) (b : bool) : list Z := if b then ids else filter (fun c => c <> me) ids.

Lemma send_nmi_spec lat ac fuel s me b a :
  apics s !! me = Some a -> VaddrApicBase a <> 0 -> (icr_busy a < fuel)%nat -> (forall w, lat w < fuel)%nat ->
  exists a', same_apic a a' /\ send_nmi lat ac fuel s me b = Done (with_cpus (with_apic s me a') (nmi_pending s ∪ list_to_set (nmi_targets (pCpuIDs s) me b)) (nmi_pcs s)).
Proof.
  intros Ha Hv Hb Hl. unfold send_nmi. rewrite Ha. cbn [checked]. rewrite bind_Done.
  destruct (issue_nmi lat ac fuel a b Hv Hb Hl) as (a' & -> & Es & Hsa). rewrite bind_Done. exists a'. split; [done|]. f_equal.
  rewrite Es, drop_app_length. unfold deliver. cbn [foldl].
  assert (ipi_decode (0, icr_low (nmi_config b)) = nmi_config b) as -> by (destruct b; reflexivity). by destruct b.
Qed.

Lemma run_two lat ac c s s1 s2 : IntmgmtNonmaskableInterrupt lat ac s c = Done s1 -> IntmgmtNonmaskableInterrupt lat ac s1 c = Done s2 ->
  run_handlers lat ac [c; c] s = Done s2.
Proof. intros H1 H2. cbn [run_handlers]. by rewrite H1, bind_Done, H2. Qed.

(** A harmless interrupt on a processor that takes both of its steps. *)
Lemma own_harmless lat ac s c l : nmi_pcs s !! c = None -> c ∈ nmi_pending s -> Reason (sg_NmiInfo s) = NMI_REASON_HARMLESS_TEST ->
  or_bit (Ack (sg_NmiInfo s)) c = Done l ->
  run_handlers lat ac [c; c] s =
    Done (with_cpus (with_info s (with_ack (sg_NmiInfo s) l)) (nmi_pending s ∖ {[c]}) (delete c (<[c := NmiAcking false]> (nmi_pcs s)))).
Proof.
  intros Hc Hp Hr El. eapply run_two.
  - unfold IntmgmtNonmaskableInterrupt. rewrite Hc, decide_True by done. unfold nmi_dispatch. cbn [sg_NmiInfo with_cpus]. rewrite Hr. reflexivity.
  - unfold IntmgmtNonmaskableInterrupt, ThisCpuAcknowledgeNMI. cbn [nmi_pcs with_cpus sg_NmiInfo]. rewrite lookup_insert_eq, El, !bind_Done. done.
Qed.
(** A processor without an interrupt. *)
Lemma own_none lat ac s c : nmi_pcs s !! c = None -> c ∉ nmi_pending s -> run_handlers lat ac [c; c] s = Done s.
Proof. intros Hc Hp. apply (run_two lat ac c s s s); unfold IntmgmtNonmaskableInterrupt; by rewrite Hc, decide_False. Qed.

Section Raise.
Context (lat : Z -> nat) (ac : nat -> Z) (fuel : nat).
Context (ids : list Z) (me R : Z) (self : bool).

(** The state in which the raiser starts to wait. *)
Lemma waiting_start s code l : nmi_ready fuel s ids me -> ack_array l -> (forall c, 0 <= c < 256 -> ackbit l c = bool_decide (c = me)) ->
  (forall w, lat w < fuel)%nat -> R = NMI_REASON_HARMLESS_TEST \/ R = NMI_REASON_MELTDOWN /\ self = false ->
  exists s1 s2, send_nmi lat ac fuel (with_info s (mkNmiInfo R me code l)) me self = Done s1 /\
    run_handlers lat ac [me; me] s1 = Done s2 /\ nmi_pcs s2 !! me = None /\ waiting ids me R s [] s2.
Proof using All.
  intros [N2 [N3 N4] N5 N6 N7 N8 [N9 N10] N11] Hl Hlb Hlat HR. destruct (N11 me N7) as (a & Ha & Hv & Hb).
  destruct (send_nmi_spec lat ac fuel (with_info s (mkNmiInfo R me code l)) me self a Ha Hv Hb Hlat) as (a' & Hsa & ->).
  cbn [with_info with_apic with_cpus sg_NmiSpinlock sg_NmiInfo sg_ExpectAck sl_InitExpectAck pCpuIDs ActiveProcessorCount nmi_pending nmi_pcs apics].
  rewrite N3, N9, N10, (left_id_L ∅ (∪)).
  assert (forall ap (h : gmap Z nmi_pc) p l', ack_array l' -> (forall c, 0 <= c < 256 -> ackbit l' c = bool_decide (c = me)) -> ap = <[me := a']> (apics s) ->
    p = list_to_set (filter (fun c => c <> me) ids) -> h = ∅ ->
    waiting ids me R s [] (mkNmi (sg_NmiSpinlock s) (mkNmiInfo R me code l') (sg_ExpectAck s) (sl_InitExpectAck s) ids (ActiveProcessorCount s) ap p h)) as HW.
  { intros ap h p l' Hl' Hlb' -> -> ->. split; cbn [sg_NmiInfo nmi_pending nmi_pcs apics Ack Reason]; try done.
    - rewrite N3. by eexists _, _, _, _.
    - intros c Hc. rewrite Hlb', bool_decide_eq_true by done. unfold acked, cnt. cbn. split; [by left|]. intros [?|[_ ?]]; [done|lia].
    - intros c [Ho Hne]. cbn. split; [|done]. apply elem_of_list_to_set, list_elem_of_filter. done.
    - intros c Hno. split; [|done]. intros H%elem_of_list_to_set%list_elem_of_filter. apply Hno. split; apply H.
    - exists a, a'. split_and!; [done|apply lookup_insert_eq|done].
    - intros c [Ho Hne]. rewrite lookup_insert_ne by done. destruct (N11 c Ho) as (ac' & Hc1 & Hc2 & _). exists ac'. split_and!; [done|done|].
      intros _ Hk. unfold cnt in Hk. cbn in Hk. lia. }
  destruct self eqn:Es.
  - destruct HR as [-> | [_ ?]]; [|done].
    destruct (or_bit_spec l me Hl) as (l2 & E2 & Hl2 & Hlb2); [by apply (proj1 (Forall_forall _ _) N5)|].
    do 2 eexists. split; [reflexivity|]. rewrite (own_harmless lat ac _ me l2); cbn [nmi_pcs nmi_pending sg_NmiInfo Ack Reason];
      [|apply lookup_empty|by apply elem_of_list_to_set|done|done].
    split; [done|]. cbn [nmi_pcs with_cpus]. split; [apply lookup_delete_eq|].
    unfold with_cpus, with_info, with_apic, with_ack; cbn [sg_NmiSpinlock sg_NmiInfo sg_ExpectAck sl_InitExpectAck pCpuIDs ActiveProcessorCount nmi_pending nmi_pcs apics Reason InvokingCPU MeltdownCode]; rewrite N3.
    apply HW; [done| |done| |by rewrite delete_insert_eq, delete_empty].
    + intros c Hc. rewrite Hlb2, Hlb by done. apply orb_diag.
    + apply set_eq. intros c. rewrite elem_of_difference, elem_of_singleton, !elem_of_list_to_set, list_elem_of_filter. tauto.
  - assert (me ∉ (list_to_set (filter (fun c => c <> me) ids) : gset Z)) as Hn.
    { intros H%elem_of_list_to_set%list_elem_of_filter. by destruct H. }
    do 2 eexists. split; [reflexivity|]. rewrite own_none; cbn [nmi_pcs nmi_pending]; [|apply lookup_empty|done].
    split; [done|]. split; [apply lookup_empty|].
    unfold with_cpus, with_info, with_apic; cbn [sg_NmiSpinlock sg_NmiInfo sg_ExpectAck sl_InitExpectAck pCpuIDs ActiveProcessorCount nmi_pending nmi_pcs apics Reason InvokingCPU MeltdownCode]; rewrite N3. by apply HW.
Qed.
End Raise.

(** The processors other than [me] that made both of their steps. *)
Definition responders (ids : list Z) (me : Z) (evs : list Z) : list Z := filter (fun c => c <> me /\ (2 <= cnt evs c)%nat) ids.

Lemma count_waiting ids me R s0 evs s : Forall (fun c => 0 <= c < 256) ids -> NoDup ids -> me ∈ ids -> waiting ids me R s0 evs s ->
  count_acks (Ack (sg_NmiInfo s)) = 1 + Z.of_nat (length (responders ids me evs)) /\ (length (responders ids me evs) < 256)%nat.
Proof.
  intros Hr Hn Hme W. pose proof (wa_ack _ _ _ _ _ _ W) as [A1 A2]. rewrite count_acks_bits, A1 by (done || lia). change (8 * Z.of_nat 32) with 256.
  assert (nbits (ackbit (Ack (sg_NmiInfo s))) (seqZ 0 256) = length (me :: responders ids me evs)) as E.
  { unfold nbits. apply Permutation_length. apply NoDup_Permutation.
    - apply NoDup_ListNoDup, List.NoDup_filter, NoDup_ListNoDup, NoDup_seqZ.
    - apply NoDup_cons. split; [|by apply NoDup_filter]. intros H%list_elem_of_filter. tauto.
    - intros c. rewrite list_elem_of_In, List.filter_In, <- list_elem_of_In, elem_of_seqZ, elem_of_cons. unfold responders. rewrite list_elem_of_filter.
      rewrite Forall_forall in Hr. split.
      + intros [Hc Hb]. apply (wa_bits _ _ _ _ _ _ W) in Hb; [|lia]. destruct Hb as [|[[? ?] ?]]; [by left|by right].
      + intros H. assert (0 <= c < 256) as Hc by (destruct H as [->|[_ ?]]; by apply Hr). split; [lia|]. apply (wa_bits _ _ _ _ _ _ W); [done|].
        destruct H as [|[[? ?] ?]]; [by left|by right]. }
  pose proof (nbits_le (ackbit (Ack (sg_NmiInfo s))) (seqZ 0 256)) as Hle. rewrite length_seqZ in Hle.
  rewrite E in *. cbn [length] in *. lia.
Qed.

(** The first call computes the expected acknowledgements. *)
Lemma expect_init fuel s ids me : nmi_ready fuel s ids me ->
  exists e, (if sl_InitExpectAck s then Done s else l ← expect_loop (Z.to_nat (ActiveProcessorCount s)) 0 s (sg_ExpectAck s); Done (with_expect s l true))
     = Done (with_expect s e true) /\ nmi_ready fuel (with_expect s e true) ids me.
Proof.
  intros [N2 [N3 N4] N5 N6 N7 [N8 N8'] N9 N10].
  assert (forall e, ack_array e -> (forall c, 0 <= c < 256 -> ackbit e c = true <-> c ∈ ids) -> nmi_ready fuel (with_expect s e true) ids me) as Hr.
  { intros e He Heb. split; try done. split; [done|]. intros c Hc. rewrite Heb by done. naive_solver. }
  destruct (sl_InitExpectAck s) eqn:Ei.
  - exists (sg_ExpectAck s). split; [rewrite <- Ei; by destruct s|]. apply Hr; [done|]. intros c Hc. rewrite N8' by done. naive_solver.
  - destruct (expect_loop_spec s (Z.to_nat (ActiveProcessorCount s)) 0 (sg_ExpectAck s) N8) as (e & -> & He & Heb);
      [by rewrite N3|lia|rewrite N3, N4; lia|].
    rewrite bind_Done. exists e. split; [done|]. apply Hr; [done|]. intros c Hc. rewrite Heb, orb_true_iff, bool_decide_eq_true, N8', N3 by done.
    change (drop (Z.to_nat 0) ids) with ids. naive_solver.
Qed.

(** What the raiser leaves behind, [evs] being the steps made while it waited. *)
Record nmi_outcome (ids : list Z) (me R : Z) (evs : list Z) (s s' : Nmi) : Prop := {
  no_me : exists a a', apics s !! me = Some a /\ apics s' !! me = Some a' /\ same_apic a a';
  no_counts : pCpuIDs s' = pCpuIDs s /\ ActiveProcessorCount s' = ActiveProcessorCount s;
  no_lock : sg_NmiSpinlock s' = false;
  no_info : sg_NmiInfo s' = nmi_info_zero;
  no_expect : sl_InitExpectAck s' = true /\ ack_array (sg_ExpectAck s') /\
    forall c, 0 <= c < 256 -> ackbit (sg_ExpectAck s') c = true <-> c ∈ ids;
  no_done : forall c, c ∈ responders ids me evs ->
    nmi_pcs s' !! c = (if R =? NMI_REASON_MELTDOWN then Some NmiHalted else None) /\
    (R = NMI_REASON_MELTDOWN -> exists a, apics s' !! c = Some a /\ stopped a);
  no_late : forall c, c ∈ ids -> c <> me -> c ∉ responders ids me evs ->
    c ∈ nmi_pending s' \/ exists h, nmi_pcs s' !! c = Some (NmiAcking h)
}.

Lemma raise_spec lat ac tsc fuel ba be sched (s : Nmi) (ids : list Z) (me R : Z) (self : bool) (pData : option Z)
    (Hlock : sg_NmiSpinlock s = false) (Hready : nmi_ready fuel s ids me)
    (HR : R = NMI_REASON_HARMLESS_TEST \/ (R = NMI_REASON_MELTDOWN /\ self = false /\ pData <> None))
    (Hlat : forall w, (lat w < fuel)%nat)
    (Htsc : forall n, exists m, (S n <= m < n + fuel)%nat /\ u64 (tsc n + 1250000) <= tsc m) :
  exists s' k, let evs := steps_of sched 0 in let complete j := ba <> be /\ all_acked ids me (evs j) in
    RaiseGlobalNonmaskableInterrupt lat ac tsc fuel ba be sched s me self R pData =
      Done (s', Z.of_nat (length (responders ids me (evs k))) + (if self then 1 else 0)) /\
    (k <= 512)%nat /\ (k < 512 -> complete k)%nat /\ (forall j, (j < k)%nat -> ~ complete j) /\
    nmi_outcome ids me R (evs k) s s'.
Proof.
  unfold RaiseGlobalNonmaskableInterrupt, AcquireOrWaitSpinlock. rewrite Hlock, bind_Done.
  assert (nmi_ready fuel (with_nlock s true) ids me) as Hr0 by (destruct Hready; by split).
  destruct (expect_init _ _ _ _ Hr0) as (e & -> & Hr). rewrite bind_Done. set (s1 := with_expect (with_nlock s true) e true) in *.
  pose proof Hr as [N2 _ N5 N6 N7 [N8 N8'] _ _].
  assert (forall c, 0 <= c < 256 -> ackbit (sg_ExpectAck s1) c = true <-> c ∈ ids) as Hexp by (intros c Hc; rewrite N8' by done; naive_solver).
  assert (exists code, (if R =? NMI_REASON_MELTDOWN then match pData with Some c => Done c | None => Melt KR_MDCODE_NMI_NO_DATA_PROVIDED end
      else if R =? NMI_REASON_HARMLESS_TEST then Done (MeltdownCode (sg_NmiInfo s1)) else Melt KR_MDCODE_BOGUS_NMI_REASON) = Done code) as (code & ->).
  { destruct HR as [-> |(-> & _ & Hp)]; cbn; [by eexists|]. destruct pData; [by eexists|done]. }
  rewrite bind_Done, N2. destruct zero_acks as [Z1 Z2]. destruct (or_bit_spec (Ack nmi_info_zero) me Z1) as (l & -> & Hl & Hlb);
    [by apply (proj1 (Forall_forall _ _) N5)|]. rewrite bind_Done.
  destruct (waiting_start lat ac fuel ids me R self s1 code l Hr Hl) as (s2 & s3 & -> & E3 & Hpc & W); [|done|tauto|].
  { intros c Hc. rewrite Hlb by done. cbn [Ack nmi_info_zero]. by rewrite Z2, orb_false_r. }
  rewrite bind_Done, E3, bind_Done, bool_decide_false by (by rewrite Hpc).
  destruct (ack_loop_spec lat ac ids me R s1 N5 ltac:(tauto) tsc fuel ba be sched Htsc N8 N7 Hexp 512 0 [] s3 W) as (s4 & k & -> & W4 & Hk & Hstop & Hbef).
  rewrite bind_Done. destruct (count_waiting ids me R s1 _ s4 N5 N6 N7 W4) as [-> Hlen]. cbn [app] in *.
  exists (RelinquishSpinlock (with_info s4 nmi_info_zero)), k. cbv zeta. split_and!; [|done|exact Hstop|exact Hbef|].
  { f_equal. f_equal. destruct self; [lia|]. rewrite u32_small by lia. lia. }
  destruct (wa_same _ _ _ _ _ _ W4) as (i4 & p4 & h4 & a4 & E4). split; try done.
  - exact (wa_me _ _ _ _ _ _ W4).
  - by rewrite E4.
  - rewrite E4. cbn. split_and!; [done|done|exact Hexp].
  - intros c [[Hne Hc2] Hc]%list_elem_of_filter. pose proof (wa_cpu _ _ _ _ _ _ W4 c (conj Hc Hne)) as H4.
    destruct (cnt _ c) as [|[|n]] eqn:En; [lia|lia|]. destruct H4 as [_ Hpcs]. split; [exact Hpcs|].
    intros ->. destruct (wa_apic _ _ _ _ _ _ W4 c (conj Hc Hne)) as (a & Ha & _ & Hs). exists a. split; [exact Ha|]. apply Hs; [done|lia].
  - intros c Hc Hne Hno. pose proof (wa_cpu _ _ _ _ _ _ W4 c (conj Hc Hne)) as H4.
    destruct (cnt _ c) as [|[|n]] eqn:En; [left; apply H4|right; eexists; apply H4|]. exfalso. apply Hno, list_elem_of_filter. split; [split; [done|lia]|done].
Qed.

(** C18: a processor raises a global non-maskable interrupt that the others take,
    in any order and interleaving, while it waits: it returns after at most 512
    stalls; it stops early exactly when every other active processor has
    acknowledged, provided the bytes behind the two compared arrays
    differ (KrtlBufferEqual reads one byte too many, and with equal bytes the
    whole wait elapses).  The count it reports is the number of processors that
    acknowledged in time, itself included only if it interrupts itself; with the reason
    meltdown each of those is halted for ever with interrupts, APIC and timer
    off, the others have not finished their handler.  The shared record is
    cleared and the lock is free again. *)
Theorem raise_collects_acknowledgements lat ac tsc fuel ba be sched (s : Nmi) (ids : list Z) (me R : Z) (self : bool) (pData : option Z)
    (Hlock : sg_NmiSpinlock s = false) (Hready : nmi_ready fuel s ids me)
    (HR : R = NMI_REASON_HARMLESS_TEST \/ (R = NMI_REASON_MELTDOWN /\ self = false /\ pData <> None))
    (Hlat : forall w, (lat w < fuel)%nat)
    (Htsc : forall n, exists m, (S n <= m < n + fuel)%nat /\ u64 (tsc n + 1250000) <= tsc m) :
  exists s' k, let evs := steps_of sched 0 in let complete j := ba <> be /\ all_acked ids me (evs j) in
    RaiseGlobalNonmaskableInterrupt lat ac tsc fuel ba be sched s me self R pData =
      Done (s', Z.of_nat (length (responders ids me (evs k))) + (if self then 1 else 0)) /\
    (k <= 512)%nat /\ (k < 512 -> complete k)%nat /\ (forall j, (j < k)%nat -> ~ complete j) /\
    nmi_outcome ids me R (evs k) s s'.
Proof. by apply raise_spec. Qed.

(** Three processors; the second acknowledges first. *)
Definition sample_apic : Apic := mkApic 0x900 0x1000 ∅ 0 [] [] 0 false true 0.
Definition sample_nmi (expect : list Z) (init : bool) : Nmi :=
  mkNmi false nmi_info_zero expect init [0; 1; 2] 3 (list_to_map [(0, sample_apic); (1, sample_apic); (2, sample_apic)]) ∅ ∅.
Definition sample_sched (i : nat) : list Z := nth i [[1]; [2; 1]; [2]] [].
Definition sample_tsc (n : nat) : Z := 2000000 * Z.of_nat n.
Definition no_latency (_ : Z) : nat := 0.
Definition no_count (_ : nat) : Z := 0.

Lemma sample_nmi_ready : nmi_ready 4 (sample_nmi (replicate 32 0) false) [0; 1; 2] 0.
Proof.
  destruct zero_acks as [Z1 Z2]. split; try done.
  - repeat (apply Forall_cons; split; [lia|]). by apply Forall_nil.
  - apply (bool_decide_eq_true_1 _). reflexivity.
  - by left.
  - split; [done|]. intros c Hc. cbn [sg_ExpectAck sample_nmi sl_InitExpectAck]. rewrite Z2 by done. split; [done|by intros []].
  - intros c Hc. exists sample_apic. repeat (apply elem_of_cons in Hc as [->|Hc]; [split_and!; [reflexivity|done|cbn; lia]|]). by apply not_elem_of_nil in Hc.
Qed.

Lemma raise_collects_acknowledgements_witness :
  exists s' k, let evs := steps_of sample_sched 0 in let complete j := 1 <> 0 /\ all_acked [0; 1; 2] 0 (evs j) in
    RaiseGlobalNonmaskableInterrupt no_latency no_count sample_tsc 4 1 0 sample_sched (sample_nmi (replicate 32 0) false) 0 false NMI_REASON_MELTDOWN (Some 0x1001) =
      Done (s', Z.of_nat (length (responders [0; 1; 2] 0 (evs k))) + 0) /\
    (k <= 512)%nat /\ (k < 512 -> complete k)%nat /\ (forall j, (j < k)%nat -> ~ complete j) /\
    nmi_outcome [0; 1; 2] 0 NMI_REASON_MELTDOWN (evs k) (sample_nmi (replicate 32 0) false) s'.
Proof.
  apply (raise_collects_acknowledgements no_latency no_count sample_tsc 4 1 0 sample_sched (sample_nmi (replicate 32 0) false) [0; 1; 2] 0 NMI_REASON_MELTDOWN false (Some 0x1001)).
  - reflexivity.
  - exact sample_nmi_ready.
  - right. done.
  - intros w. unfold no_latency. lia.
  - intros n. exists (S n). split; [lia|]. unfold sample_tsc, u64. pose proof (Z.mod_le (2000000 * Z.of_nat n + 1250000) (2 ^ 64) ltac:(lia) ltac:(lia)). lia.
Defined.

(** The readings the raiser made, two for each stall, and its count. *)
Definition waited (r : outcome (Nmi * Z)) : outcome (nat * Z) := '(s, n) ← r; a ← checked (apics s !! 0); Done (clock a, n).
Example raise_returns_early :
  waited (RaiseGlobalNonmaskableInterrupt no_latency no_count sample_tsc 4 1 0 sample_sched (sample_nmi (replicate 32 0) false) 0 false NMI_REASON_MELTDOWN (Some 0x1001))
  = Done (6%nat, 2).
Proof. vm_compute. reflexivity. Qed.
(** With equal bytes behind the arrays the raiser waits for all 512 stalls. *)
Example raise_waits_on_equal_bytes :
  waited (RaiseGlobalNonmaskableInterrupt no_latency no_count sample_tsc 4 0 0 sample_sched (sample_nmi (replicate 32 0) false) 0 false NMI_REASON_MELTDOWN (Some 0x1001))
  = Done (1024%nat, 2).
Proof. vm_compute. reflexivity. Qed.
(** The expectation is computed once: a processor started after the first
    call is not waited for. *)
Example raise_stale_expectation :
  waited (RaiseGlobalNonmaskableInterrupt no_latency no_count sample_tsc 4 1 0 sample_sched (sample_nmi (3 :: replicate 31 0) true) 0 false NMI_REASON_MELTDOWN (Some 0x1001))
  = Done (4%nat, 1).
Proof. vm_compute. reflexivity. Qed.
