(* ===== verification/Smp.v ===== *)
(** * Multiprocessor start-up (Kernel/Source/Init: KrInitSMP.c,
    KrApplicationProcessorStart.c, BootstrapAP.s)

    The boot processor prepares low memory, page tables and stacks, wakes the
    other processors and waits for them.  Each of those is a record of registers
    with a program counter; it makes one step at a time, whenever the schedule
    lets it, on the state all processors share.  Messages on the screen are not modelled. *)
From Stdlib Require Import ZArith Lia.
From stdpp Require Import base numbers list gmap sets.
From S2P Require Import Prelude KrtlMem Pte Vmr PageTable PageTableSpec PageTableProps Heap Interrupts Descriptors Acpi Apic Nmi Bytes.
Open Scope Z_scope.

Definition MAX_SMP_PROCESSORS : Z := 256.
Definition PER_CORE_STACK_SIZE : Z := 64 * 1024.
Definition KR_AP_START_ADDRESS : Z := 0x8000.
Definition KR_AP_BOOT_INFO_ADDRESS : Z := 0x7000.
Definition GDTR_SIZE_LEGACY : Z := 6.
Definition KR_MDCODE_SMP_BRINGUP_FAILURE : Z := 0x1003.
Definition KR_MDCODE_SMP_SANITY_CHECK_FAILURE : Z := 0x1004.
Definition KR_MDCODE_AP_STACK_ALLOC_FAILURE : Z := 0x200D.
Definition KR_MDCODE_HIGH_CR3_RESIDENT_DEVCHECK : Z := 0x4005.
Definition KR_MDCODE_AP_BOOTSTRAP_LOW_ID_MAP_FAIL : Z := 0x4006.

(** ** State *)

(** Where an application processor is. *)
Inductive ap_pc :=
  | ApOff | ApWaitSipi
  | ApRealMode (start : Z)      (* at the first instruction of the trampoline *)
  | ApEntry                     (* KrApplicationProcessorStart *)
  | ApLoad                      (* behind the test of the blacklist *)
  | ApCount                     (* before the counter is incremented *)
  | ApReport                    (* before RFD is set *)
  | ApApic                      (* before KrApicInit *)
  | ApIdle | ApHalted.
#[export] Instance ap_pc_eq_dec : EqDecision ap_pc.
Proof. solve_decision. Defined.

Record Cpu := mkCpu {
  cPc : ap_pc; cCR0 : Z; cCR3 : Z; cCR4 : Z; cEFER : Z; cPAT : Z; cSP : Z; cCS : Z; cDS : Z;
  cGDTR : Z * Z   (* base and limit *)
}.
Definition with_pc (x : Cpu) (p : ap_pc) : Cpu :=
  mkCpu p (cCR0 x) (cCR3 x) (cCR4 x) (cEFER x) (cPAT x) (cSP x) (cCS x) (cDS x) (cGDTR x).
(** The registers after INIT. *)
Definition cpu_reset (pc : ap_pc) : Cpu := mkCpu pc 0x60000010 0 0 0 0x0007040600070406 0 0xF000 0 (0, 0xFFFF).

Record Smp := mkSmp {
  smPaging : Paging;
  smHeap : Heap;
  low : gmap Z Z;                 (* physical memory below 64 KiB *)
  smGDT : list Z;                 (* g_KrSegmentDescriptorsGDT *)
  smIdt : IdtState;
  smNmi : Nmi;                    (* with pCpuIDs, ActiveProcessorCount and the local APICs *)
  ProcInfo : list ProcInfoEntry;
  IdealProcessorCount : Z;
  bProcessorReinitDetected : bool;
  sg_InitialStacks : list Z;
  ProcessorEntryBlacklist : list bool;
  aps : gmap Z Cpu                (* the other processors of the machine *)
}.
Definition with_mem (s : Smp) (p : Paging) (h : Heap) : Smp :=
  mkSmp p h (low s) (smGDT s) (smIdt s) (smNmi s) (ProcInfo s) (IdealProcessorCount s) (bProcessorReinitDetected s) (sg_InitialStacks s)
    (ProcessorEntryBlacklist s) (aps s).
Definition with_low (s : Smp) (m : gmap Z Z) : Smp :=
  mkSmp (smPaging s) (smHeap s) m (smGDT s) (smIdt s) (smNmi s) (ProcInfo s) (IdealProcessorCount s) (bProcessorReinitDetected s)
    (sg_InitialStacks s) (ProcessorEntryBlacklist s) (aps s).
Definition with_idt (s : Smp) (k : IdtState) : Smp :=
  mkSmp (smPaging s) (smHeap s) (low s) (smGDT s) k (smNmi s) (ProcInfo s) (IdealProcessorCount s) (bProcessorReinitDetected s)
    (sg_InitialStacks s) (ProcessorEntryBlacklist s) (aps s).
Definition with_snmi (s : Smp) (n : Nmi) : Smp :=
  mkSmp (smPaging s) (smHeap s) (low s) (smGDT s) (smIdt s) n (ProcInfo s) (IdealProcessorCount s) (bProcessorReinitDetected s)
    (sg_InitialStacks s) (ProcessorEntryBlacklist s) (aps s).
Definition with_proc (s : Smp) (l : list ProcInfoEntry) : Smp :=
  mkSmp (smPaging s) (smHeap s) (low s) (smGDT s) (smIdt s) (smNmi s) l (IdealProcessorCount s) (bProcessorReinitDetected s)
    (sg_InitialStacks s) (ProcessorEntryBlacklist s) (aps s).
Definition with_reinit (s : Smp) (b : bool) : Smp :=
  mkSmp (smPaging s) (smHeap s) (low s) (smGDT s) (smIdt s) (smNmi s) (ProcInfo s) (IdealProcessorCount s) b
    (sg_InitialStacks s) (ProcessorEntryBlacklist s) (aps s).
Definition with_stacks (s : Smp) (l : list Z) : Smp :=
  mkSmp (smPaging s) (smHeap s) (low s) (smGDT s) (smIdt s) (smNmi s) (ProcInfo s) (IdealProcessorCount s) (bProcessorReinitDetected s) l
    (ProcessorEntryBlacklist s) (aps s).
Definition with_black (s : Smp) (l : list bool) : Smp :=
  mkSmp (smPaging s) (smHeap s) (low s) (smGDT s) (smIdt s) (smNmi s) (ProcInfo s) (IdealProcessorCount s) (bProcessorReinitDetected s)
    (sg_InitialStacks s) l (aps s).
Definition with_aps (s : Smp) (m : gmap Z Cpu) : Smp :=
  mkSmp (smPaging s) (smHeap s) (low s) (smGDT s) (smIdt s) (smNmi s) (ProcInfo s) (IdealProcessorCount s) (bProcessorReinitDetected s)
    (sg_InitialStacks s) (ProcessorEntryBlacklist s) m.
Definition set_cpu (s : Smp) (c : Z) (x : Cpu) : Smp := with_aps s (<[c := x]> (aps s)).

Definition nmi_counts (n : Nmi) (ids : list Z) (active : Z) : Nmi :=
  mkNmi (sg_NmiSpinlock n) (sg_NmiInfo n) (sg_ExpectAck n) (sl_InitExpectAck n) ids active (apics n) (nmi_pending n) (nmi_pcs n).
Definition set_active (s : Smp) (n : Z) : Smp := with_snmi s (nmi_counts (smNmi s) (pCpuIDs (smNmi s)) n).
Definition ActiveCount (s : Smp) : Z := ActiveProcessorCount (smNmi s).

(** [ProcInfo[c].RFD = TRUE] *)
Definition report_for_duty (s : Smp) (c : Z) : outcome Smp :=
  e ← checked (ProcInfo s !! Z.to_nat c);
  Done (with_proc s (<[Z.to_nat c := mkProc (pLocalApicID e) (pAcpiID e) (pE_V e) (BSP e) true]> (ProcInfo s))).

(** ** Low memory as a processor sees it *)

Definition num_at (m : gmap Z Z) (a n : Z) : Z := le_value (rd m a n).
Definition root_of (s : Smp) (cr3 : Z) : Z := KrPhysToVirt (pgVmm (smPaging s)) cr3.
(** Accesses that do not cross a page, through the tables at [cr3]. *)
Definition vm_read (s : Smp) (cr3 va n : Z) : outcome (list Z) :=
  match translate (smPaging s) (root_of s cr3) va with
  | Some (pa, _) => if va mod 4096 + n <=? 4096 then Done (rd (low s) pa n) else Fault
  | None => Fault
  end.
Definition vm_write (s : Smp) (cr3 va : Z) (data : list Z) : outcome Smp :=
  match translate (smPaging s) (root_of s cr3) va with
  | Some (pa, e) => if (va mod 4096 + Z.of_nat (length data) <=? 4096) && Z.testbit e 1 then Done (with_low s (write_at (low s) pa data)) else Fault
  | None => Fault
  end.

(** ** The application processors *)

Definition PAT_VALUE : Z := Z.lor (Z.shiftl (0 * 2 ^ 24 + 7 * 2 ^ 16 + 4 * 2 ^ 8 + 1) 32) (0 * 2 ^ 24 + 7 * 2 ^ 16 + 4 * 2 ^ 8 + 6).

(** The 16-bit part of the trampoline: a piece of the stack, the descriptor
    table, the control registers. *)
Definition trampoline_real (m : gmap Z Z) (x : Cpu) : gmap Z Z * Cpu :=
  let sp := num_at m (KR_AP_BOOT_INFO_ADDRESS + 20) 2 in
  let m := write_at m (KR_AP_BOOT_INFO_ADDRESS + 20) (le_bytes 2 (sp - 32)) in
  let gdtr := num_at m (KR_AP_BOOT_INFO_ADDRESS + 26) 2 in
  let gdt := (Z.land (num_at m (gdtr + 2) 4) 0xFFFFFF, num_at m gdtr 2) in
  let cr3 := num_at m (KR_AP_BOOT_INFO_ADDRESS + 16) 4 in
  let cr4 := Z.lor (cCR4 x) (Z.lor (2 ^ 4) (Z.lor (2 ^ 5) (Z.lor (2 ^ 7) (2 ^ 9)))) in
  let efer := Z.lor (cEFER x) (2 ^ 8) in
  let cr0 := Z.land (Z.lor (cCR0 x) (2 ^ 30)) (u32 (Z.lnot (2 ^ 29))) in
  let cr0 := Z.land cr0 (u32 (Z.lnot (2 ^ 30))) in
  let cr0 := Z.lor cr0 (Z.lor (2 ^ 0) (Z.lor (2 ^ 16) (2 ^ 31))) in
  (m, mkCpu (cPc x) cr0 cr3 cr4 efer PAT_VALUE sp (cCS x) (cDS x) gdt).

(** A descriptor that 64-bit code runs with. *)
Definition long_code (d : KrGlobalDescriptorTableSegmentDescriptor) : bool :=
  (Access_Present d =? 1) && (Access_DescType d =? 1) && (Access_Executable d =? 1) && (Flags_LongModeCode d =? 1).

Section Machine.
(** The linked image: the trampoline's bytes, its label LmEntry, and addresses. *)
Context (image : list Z) (LmEntry KrApplicationProcessorStart sg_InitialStacks_addr AddrDescriptorTable : Z).
(** KrnlISRs and the handlers KrInitInt installs. *)
Context (isrs : list Z) (exc nmi pf tim spu : Z).
(** KrGetKernelAddressSpace(). *)
Context (kspace : Z).
(** CPUID: execute-disable support, local APIC support. *)
Context (nx_support apic_support : bool).
(** The timers of the machine and the step bounds. *)
Context (latency : Z -> nat) (apic_count : nat -> Z) (pm_value : pm_source -> nat -> Z) (tsc : nat -> Z) (pm : PmTimer) (mmio : Z).
Context (fuel cfuel : nat).

(** Instructions are fetched from low memory through the tables just loaded. *)
Definition fetches (s : Smp) (cr3 start : Z) : bool :=
  forallb (fun i => match translate (smPaging s) (root_of s cr3) (start + i) with
                    | Some (pa, e) => (pa =? start + i) && negb (Z.testbit e 63)
                    | None => false
                    end) (seqZ 0 (Z.of_nat (length image))).

(** [sg_InitialStacks] as memory. *)
Definition kernel_qword (s : Smp) (a : Z) : outcome Z :=
  let off := a - sg_InitialStacks_addr in
  if (0 <=? off) && (off mod 8 =? 0) then checked (sg_InitialStacks s !! Z.to_nat (off / 8)) else Fault.

(** From the far return to the jump into C. *)
Definition trampoline_long (s : Smp) (c start : Z) (x : Cpu) : outcome Smp :=
  let info s off n := b ← vm_read s (cCR3 x) (KR_AP_BOOT_INFO_ADDRESS + off) n; Done (le_value b) in
  if negb (fetches s (cCR3 x) start) then Fault
  else
    cs ← info s 22 2;
    s ← vm_write s (cCR3 x) (cSP x - 2) (le_bytes 2 cs);
    s ← vm_write s (cCR3 x) (cSP x - 4) (le_bytes 2 LmEntry);
    ip ← vm_read s (cCR3 x) (cSP x - 4) 2;
    cs ← vm_read s (cCR3 x) (cSP x - 2) 2;
    let cs := le_value cs in
    gdt ← vm_read s (cCR3 x) (cGDTR x).1 ((cGDTR x).2 + 1);
    d ← checked (seg_lookup gdt cs);
    if negb (long_code d && (le_value ip =? LmEntry)) then Fault
    else
      ds ← info s 24 2;
      let efer := if nx_support then Z.lor (cEFER x) (2 ^ 11) else cEFER x in
      stacks ← info s 8 8;
      rsp ← kernel_qword s (stacks + 8 * (c mod 256));
      let rsp := Z.land rsp (Z.lnot 7) in
      entry ← info s 0 8;
      if negb (entry =? KrApplicationProcessorStart) then Fault
      else
        (* the stack must be there: no fault can be handled yet *)
        match translate (smPaging s) (root_of s (cCR3 x)) (rsp - 8) with
        | Some _ => Done (set_cpu s c (mkCpu ApEntry (cCR0 x) (cCR3 x) (cCR4 x) efer (cPAT x) rsp cs ds (cGDTR x)))
        | None => Fault
        end.

Definition trampoline (s : Smp) (c start : Z) (x : Cpu) : outcome Smp :=
  if negb (bool_decide (rd (low s) start (Z.of_nat (length image)) = image)) then Fault
  else let '(m, x) := trampoline_real (low s) x in trampoline_long (with_low s m) c start x.

(** One step of processor [c]. *)
Definition ap_step (s : Smp) (c : Z) : outcome Smp :=
  x ← checked (aps s !! c);
  match cPc x with
  | ApRealMode start => trampoline s c start x
  | ApEntry =>
      b ← checked (ProcessorEntryBlacklist s !! Z.to_nat c);
      if b : bool then Done (set_cpu (with_reinit s true) c (with_pc x ApHalted))
      else Done (set_cpu (with_black s (<[Z.to_nat c := true]> (ProcessorEntryBlacklist s))) c (with_pc x ApLoad))
  | ApLoad =>
      let g := StateGDT (smIdt s) in
      let x := mkCpu ApCount (Z.lor (cCR0 x) (Z.lor (2 ^ 5) (2 ^ 1))) (cCR3 x)
        (Z.lor (cCR4 x) (Z.lor (2 ^ 3) (Z.lor (2 ^ 6) (Z.lor (2 ^ 10) (2 ^ 18))))) (cEFER x) (cPAT x) (cSP x)
        (KernelCodeSegmentSelector g) (KernelDataSegmentSelector g)
        (AddrDescriptorTable, NumberOfDescriptorEntries g * GDT_SEGMENT_DESCRIPTOR_ENTRY_SIZE - 1) in
      k ← KrInitInt isrs exc nmi pf tim spu (smIdt s) c;
      Done (set_cpu (with_idt s k) c x)
  | ApCount => Done (set_cpu (set_active s (u32 (ActiveCount s + 1))) c (with_pc x ApReport))
  | ApReport => s ← report_for_duty s c; Done (set_cpu s c (with_pc x ApApic))
  | ApApic =>
      a ← checked (apics (smNmi s) !! c);
      '(a, ok) ← KrApicInit latency apic_count pm_value tsc cfuel apic_support mmio a pm false;
      Done (set_cpu (with_snmi s (with_apic (smNmi s) c a)) c (with_pc x (if ok : bool then ApIdle else ApHalted)))
  | _ => Done s
  end.

Fixpoint run_aps (l : list Z) (s : Smp) : outcome Smp :=
  match l with
  | [] => Done s
  | c :: l' => s ← ap_step s c; run_aps l' s
  end.

(** ** The boot processor *)

Definition GetKernelRoot (s : Smp) : outcome Z := a ← rd_space (pgVmm (smPaging s)) kspace; Done (PaddrRoot a).

Definition low_map_flags : Z :=
  Z.lor (Z.lor (Z.lor (Z.lor VMR_FLAG_ALLOW_CODE_EXEC VMR_FLAG_READABLE) VMR_FLAG_STATIC) VMR_FLAG_WRITABLE) VMR_FLAG_NO_DIVISION_CHECK.
Definition map_low (s : Smp) : outcome Smp :=
  '(v, pLowIdMap) ← VmAcquireRegion fuel (pgVmm (smPaging s)) kspace 0x1000 0x10000 low_map_flags;
  _ ← ensure (negb (pLowIdMap =? 0)) KR_MDCODE_AP_BOOTSTRAP_LOW_ID_MAP_FAIL;
  '(p, ok) ← VmMapStatic fuel (with_vmm (smPaging s) v) pLowIdMap 0x1000;
  _ ← ensure ok KR_MDCODE_AP_BOOTSTRAP_LOW_ID_MAP_FAIL;
  Done (with_mem s p (smHeap s)).

(** The trampoline's copy and the members of ApBootInfo, in the code's order.
    The first copy goes through the direct map. *)
Definition write_boot_info (s : Smp) (cr3 : Z) : outcome Smp :=
  let g := StateGDT (smIdt s) in
  let put s off data := vm_write s cr3 (KR_AP_BOOT_INFO_ADDRESS + off) data in
  let s := with_low s (write_at (low s) KR_AP_START_ADDRESS image) in
  s ← put s 0 (le_bytes 8 KrApplicationProcessorStart);
  s ← put s 8 (le_bytes 8 sg_InitialStacks_addr);
  s ← put s 16 (le_bytes 4 cr3);
  s ← put s 20 (le_bytes 2 0x6000);
  s ← put s 26 (le_bytes 2 0x1000);
  s ← put s 22 (le_bytes 2 (KernelCodeSegmentSelector g));
  s ← put s 24 (le_bytes 2 (KernelDataSegmentSelector g));
  GdtrAddress ← (b ← vm_read s cr3 (KR_AP_BOOT_INFO_ADDRESS + 26) 2; Done (le_value b));
  let n := NumberOfDescriptorEntries g * GDT_SEGMENT_DESCRIPTOR_ENTRY_SIZE in
  s ← vm_write s cr3 (GdtrAddress + GDTR_SIZE_LEGACY) (take (Z.to_nat n) (smGDT s));
  s ← vm_write s cr3 GdtrAddress (le_bytes 2 (n - 1));
  vm_write s cr3 (GdtrAddress + 2) (le_bytes 4 (GdtrAddress + GDTR_SIZE_LEGACY)).

(** A store to kernel memory: a page that is absent is faulted in. *)
Definition touch (p : Paging) (cr3 va : Z) : outcome Paging :=
  match translate p (KrPhysToVirt (pgVmm p) cr3) va with
  | Some _ => Done p
  | None => IntmgmtPageFault fuel p true kspace va 2
  end.

Fixpoint stacks_loop (n : nat) (i : Z) (cr3 : Z) (s : Smp) : outcome Smp :=
  match n with
  | O => Done s
  | S n' =>
      e ← checked (ProcInfo s !! Z.to_nat i);
      s ← (if pE_V e && negb (BSP e) then
             '(h, VaddrStackBottom) ← HeapAlignedAcquire fuel (smHeap s) PER_CORE_STACK_SIZE 8;
             _ ← ensure (negb (VaddrStackBottom =? 0)) KR_MDCODE_AP_STACK_ALLOC_FAILURE;
             let top := u64 (VaddrStackBottom + PER_CORE_STACK_SIZE) in
             p ← touch (smPaging s) cr3 (u64 (top - 1));
             Done (with_stacks (with_mem s p h) (<[Z.to_nat i := top]> (sg_InitialStacks s)))
           else Done s);
      stacks_loop n' (i + 1) cr3 s
  end.

Definition start_config (vector delivery : Z) : KrIpiConfig :=
  mkIpi 0 vector delivery 0 IPI_LEVEL_ASSERT IPI_TRIGGER_EDGE IPI_SHORTHAND_ALL_XSLF.

(** What a message does to another processor: a start-up message only
    counts after INIT. *)
Definition receive (p : KrIpiConfig) (x : Cpu) : Cpu :=
  if eDeliveryMode p =? IPI_DELIVERY_INIT then cpu_reset ApWaitSipi
  else if eDeliveryMode p =? IPI_DELIVERY_SIPI then
    match cPc x with ApWaitSipi => with_pc x (ApRealMode (IntVector p * 2 ^ 12)) | _ => x end
  else x.
Definition deliver_start (me : Z) (s : Smp) (m : Z * Z) : Smp :=
  let p := ipi_decode m in
  with_aps s (map_imap (fun c x => Some (if decide (c ∈ ipi_targets [c] me p) then receive p x else x)) (aps s)).
Definition send_start (s : Smp) (me : Z) (p : KrIpiConfig) : outcome Smp :=
  a ← checked (apics (smNmi s) !! me);
  a' ← ApicIssueIpi latency apic_count fuel a p;
  Done (foldl (deliver_start me) (with_snmi s (with_apic (smNmi s) me a')) (drop (length (icr_sent a)) (icr_sent a'))).
Definition boot_stall (s : Smp) (me cycles : Z) : outcome Smp :=
  a ← checked (apics (smNmi s) !! me);
  a ← KrProcessorStall tsc fuel a cycles;
  Done (with_snmi s (with_apic (smNmi s) me a)).

(** The steps of the other processors in each of the stalls, and before the
    list of processors is made. *)
Context (sched : nat -> list Z) (sched_last : list Z).

(** The label DoCpuInitCheck; [i] is NrTimesAwaitedCPUs. *)
Fixpoint await_loop (n i : nat) (s : Smp) (me : Z) : outcome Smp :=
  match n with
  | O => Melt KR_MDCODE_SMP_BRINGUP_FAILURE
  | S n' =>
      if negb (ActiveCount s =? IdealProcessorCount s) then
        s ← boot_stall s me 1250000;
        s ← run_aps (sched (S i)) s;
        await_loop n' (S i) s me
      else Done s
  end.

Fixpoint collect_loop (l : list ProcInfoEntry) (left : nat) : list Z :=
  match l, left with
  | e :: l', S left' => if RFD e then pLocalApicID e :: collect_loop l' left' else collect_loop l' left
  | _, _ => []
  end.

(** [fresh] is what the memory of the new array holds. *)
Definition collect (s : Smp) (fresh : list Z) : outcome Smp :=
  '(h, pIds) ← HeapAcquire fuel (smHeap s) (u64 (ActiveCount s * 4));
  if pIds =? 0 then Melt KR_MDCODE_PAGE_FAULT
  else
    let found := collect_loop (ProcInfo s) (Z.to_nat (ActiveCount s)) in
    let ids := found ++ drop (length found) (take (Z.to_nat (ActiveCount s)) fresh) in
    Done (with_snmi (with_mem s (smPaging s) h) (nmi_counts (smNmi s) ids (ActiveCount s))).

(** The memory behind the acknowledgement arrays and the schedule of the
    handlers, as in Nmi.v. *)
Context (beyond_Ack beyond_ExpectAck : Z) (nmi_sched : nat -> list Z).

Definition sanity_check (s : Smp) (me : Z) : outcome Smp :=
  '(n, NrAck) ← RaiseGlobalNonmaskableInterrupt latency apic_count tsc fuel beyond_Ack beyond_ExpectAck nmi_sched (smNmi s) me false
                  NMI_REASON_HARMLESS_TEST None;
  _ ← ensure (NrAck =? u32 (ActiveProcessorCount n - 1)) KR_MDCODE_SMP_SANITY_CHECK_FAILURE;
  Done (with_snmi s n).

(** Everything before the first message. *)
Definition prepare (s : Smp) (me : Z) : outcome Smp :=
  s ← report_for_duty (set_active s 1) me;
  cr3 ← GetKernelRoot s;
  _ ← ensure (cr3 <=? 0xFFFFFFFF) KR_MDCODE_HIGH_CR3_RESIDENT_DEVCHECK;
  s ← map_low s;
  s ← write_boot_info s cr3;
  stacks_loop (Z.to_nat MAX_SMP_PROCESSORS) 0 cr3 s.
(** The two messages. *)
Definition awaken (s : Smp) (me : Z) : outcome Smp :=
  s ← send_start s me (start_config 0 IPI_DELIVERY_INIT);
  s ← boot_stall s me 50000000;
  s ← send_start s me (start_config (Z.shiftr KR_AP_START_ADDRESS 12) IPI_DELIVERY_SIPI);
  s ← boot_stall s me 1250000;
  run_aps (sched 0%nat) s.

Definition KrInitSMP (s : Smp) (me : Z) (fresh : list Z) : outcome Smp :=
  s ← prepare s me;
  s ← awaken s me;
  s ← await_loop 16 0 s me;
  s ← run_aps sched_last s;
  _ ← ensure (negb (bProcessorReinitDetected s)) KR_MDCODE_SMP_BRINGUP_FAILURE;
  s ← collect s fresh;
  sanity_check s me.
End Machine.
