(* ===== verification/SmpSpec.v ===== *)
(** * Multiprocessor start-up: what the boot processor prepares *)
From Stdlib Require Import ZArith Lia String.
From stdpp Require Import base numbers list gmap sets.
From S2P Require Import Prelude PhysBitmap KrtlMem Physmemmgmt PmmProps Pte Vmr VmrSpec VmrProps PageTable PageTableSpec PageTableProps MmioProps Heap HeapSpec HeapProps Alloc Interrupts Descriptors Acpi Apic Nmi Bytes Smp.
Open Scope Z_scope.

(** ** The identity mapping of low memory *)

Definition low_va (va : Z) : Prop := 0x1000 <= va < 0x10000.
(** Low memory is mapped to itself, writable and executable. *)
Definition low_mapped (p : Paging) (R : Z) : Prop :=
  forall va, low_va va -> exists e, translate p R va = Some (va, e) /\ Z.testbit e 1 = true /\ Z.testbit e 63 = false.

Definition low_offset (va : Z) : Z := va_offset 0x1000 va.
Lemma low_offset_in va : low_va va -> low_offset va = va - 0x1000.
Proof. unfold low_va, low_offset, va_offset. intros H. apply Z.mod_small. lia. Qed.

(** What is common to the memory manager before and after. *)
Record same_vmm (v v' : Vmm) : Prop := {
  sv_base : VirtAddrBase v' = VirtAddrBase v;
  sv_kroot : KernelPaddrRoot v' = KernelPaddrRoot v;
  sv_pat : PatMsrState v' = PatMsrState v;
  sv_nx : NxUnsupported v' = NxUnsupported v
}.

Record low_done (p : Paging) (R : Z) (sp : Z) (a : KrAddressSpace) (l : list region) (p' : Paging) (ow' : gmap Z (list Z))
    (a' : KrAddressSpace) (l' : list region) : Prop := {
  ld_wf : paging_wf p' R ow';
  ld_space : space_rep (pgVmm p') sp l' /\ spaces (pgVmm p') !! sp = Some a' /\ PaddrRoot a' = PaddrRoot a;
  ld_regions : (length l' = S (length l))%nat /\ forall r, r ∈ l -> r ∈ l';
  ld_same : same_vmm (pgVmm p) (pgVmm p') /\ bInPageFault p' = bInPageFault p;
  ld_mapped : low_mapped p' R;
  ld_others : forall va, 0xF000 <= low_offset va -> walk (tbl p') (vbase p') 0 R (va_indices va) = walk (tbl p) (vbase p) 0 R (va_indices va);
  ld_ahead : Z.of_nat (ahead (pmm_of p)) <= 45 + Z.of_nat (ahead (pmm_of p'))
}.

Lemma map_low_spec kspace fuel s R ow a l p0 live :
  mmio_ready (smPaging s) R ow kspace a l p0 live ->
  acquire_accepts (pgVmm (smPaging s)) (PaddrRoot a) 0x1000 0x10000 low_map_flags l ->
  (forall va, low_va va -> small_path (smPaging s) R (va_indices va)) ->
  (15 < fuel)%nat -> (length l < fuel)%nat -> (45 <= ahead (pmm_of (smPaging s)))%nat ->
  exists p' ow' a' l', map_low kspace fuel s = Done (with_mem s p' (smHeap s)) /\ low_done (smPaging s) R kspace a l p' ow' a' l'.
Proof.
  intros [Hwf HR (Hs & Hsp & Ha) (Hr1 & Hr2 & Hr3) Hpat] Hacc Hsm Hfuel Hlen Hah. set (p := smPaging s) in *.
  destruct (acquire_region_links (pgVmm p) p0 live kspace l fuel 0x1000 0x10000 low_map_flags a) as (v & q & E1 & L1); try done.
  unfold map_low. fold p. rewrite E1, bind_Done. pose proof (rl_fresh _ _ _ _ _ _ _ _ _ _ L1) as [Hq _].
  rewrite (proj2 (Z.eqb_neq _ _) Hq). cbn [negb ensure]. rewrite bind_Done.
  pose proof (rl_machine _ _ _ _ _ _ _ _ _ _ L1) as Hmach. destruct (rl_root _ _ _ _ _ _ _ _ _ _ L1 a Ha) as (a' & Ha' & Hra).
  destruct (rl_space _ _ _ _ _ _ _ _ _ _ L1) as (l1 & l2 & El & Hs').
  destruct (vseg_lookup _ _ _ _ _ (mkRegion q 0x1000 0x10000 low_map_flags) (sr_seg _ _ _ Hs')) as (n & Hn & A1 & A2 & A3 & A4); [set_solver|].
  cbn [g_ptr g_start g_end g_flags] in *. assert (region_size n = 0xF000) as Esz by (unfold region_size; lia).
  destruct (moved_mapping p (with_vmm p v) R ow q a a' n 0x1000 fuel) as (p' & ow' & E & W & F & [Hf1 Hf2] & H); try done.
  - by apply rd_node_ok.
  - split; rewrite ?A1, ?A2, ?A3, ?A4; try done; try lia. unfold rd_space. rewrite (proj2 (Z.eqb_neq _ _) Hsp).
    change (pgVmm (with_vmm p v)) with v. by rewrite Ha'.
  - intros va Hva. rewrite A2, A3 in Hva. by apply Hsm.
  - rewrite Esz. lia.
  - rewrite Esz. change (0xF000 / 4096) with 15. lia.
  - rewrite E, bind_Done. cbn [ensure]. rewrite bind_Done. exists p', ow', a', (l1 ++ mkRegion q 0x1000 0x10000 low_map_flags :: l2).
    split; [done|]. pose proof (pf_vmm _ _ F) as Fv. cbn [pgVmm with_vmm] in Fv. destruct Hmach as [M1 M2 M3 M4 M5].
    rewrite A2, Esz in *. split; try done.
    + rewrite Fv. split; [by destruct Hs'; split|done].
    + subst l. split; [rewrite !length_app; cbn; lia|]. intros r Hr. rewrite elem_of_app, elem_of_cons in *. tauto.
    + split; [rewrite Fv; by split|]. by rewrite (pf_fault _ _ F).
    + intros va Hva. destruct (H va) as [_ Hin]. fold (low_offset va) in Hin. rewrite low_offset_in in Hin by done.
      destruct Hin as (e & He & L); [unfold low_va in Hva; lia|]. exists e. split; [rewrite He; do 2 f_equal; lia|].
      rewrite (lf_writable _ _ _ _ _ L), (lf_nx _ _ _ _ _ L), A4. done.
Qed.

(** ** What the trampoline finds in low memory *)

Section Boot.
Context (image : list Z) (LmEntry KrApplicationProcessorStart sg_InitialStacks_addr : Z).

Record boot_low (m : gmap Z Z) (gdt : list Z) (g : KernelStateGDT) (cr3 sp : Z) : Prop := {
  bl_image : rd m 0x8000 (Z.of_nat (length image)) = image;
  bl_entry : rd m 0x7000 8 = le_bytes 8 KrApplicationProcessorStart;
  bl_stacks : rd m 0x7008 8 = le_bytes 8 sg_InitialStacks_addr;
  bl_cr3 : rd m 0x7010 4 = le_bytes 4 cr3;
  bl_sp : rd m 0x7014 2 = le_bytes 2 sp;
  bl_cs : rd m 0x7016 2 = le_bytes 2 (KernelCodeSegmentSelector g);
  bl_ds : rd m 0x7018 2 = le_bytes 2 (KernelDataSegmentSelector g);
  bl_gdtr : rd m 0x701A 2 = le_bytes 2 0x1000;
  bl_limit : rd m 0x1000 2 = le_bytes 2 23;
  bl_base : rd m 0x1002 4 = le_bytes 4 0x1006;
  bl_gdt : rd m 0x1006 24 = gdt
}.

(** Writes to the little stacks do not matter, and the one to StackBase only to it. *)
Lemma boot_low_stack m gdt g cr3 sp a data : boot_low m gdt g cr3 sp -> 0x2000 <= a -> a + Z.of_nat (length data) <= 0x7000 ->
  boot_low (write_at m a data) gdt g cr3 sp.
Proof. intros [B1 B2 B3 B4 B5 B6 B7 B8 B9 B10 B11] H1 H2. split; (rewrite rd_other; [done|lia]). Qed.
Lemma boot_low_base m gdt g cr3 sp sp' : boot_low m gdt g cr3 sp -> boot_low (write_at m 0x7014 (le_bytes 2 sp')) gdt g cr3 sp'.
Proof. intros [B1 B2 B3 B4 B5 B6 B7 B8 B9 B10 B11]. split; try (rewrite rd_other; [done|rewrite le_bytes_length; lia]). by apply rd_written. Qed.

(** ** Accesses to low memory *)

Lemma low_write s m R cr3 va data : low_mapped (smPaging s) R -> R = root_of s cr3 -> low_va va ->
  va mod 4096 + Z.of_nat (length data) <= 4096 -> vm_write (with_low s m) cr3 va data = Done (with_low s (write_at m va data)).
Proof.
  intros Hm -> Hva Hp. destruct (Hm va Hva) as (e & He & Hw & _). unfold vm_write. change (root_of (with_low s m) cr3) with (root_of s cr3).
  cbn [smPaging with_low low]. rewrite He, Hw. by rewrite (proj2 (Z.leb_le _ _)) by lia.
Qed.
Lemma low_read s m R cr3 va n : low_mapped (smPaging s) R -> R = root_of s cr3 -> low_va va ->
  va mod 4096 + n <= 4096 -> vm_read (with_low s m) cr3 va n = Done (rd m va n).
Proof.
  intros Hm -> Hva Hp. destruct (Hm va Hva) as (e & He & _). unfold vm_read. change (root_of (with_low s m) cr3) with (root_of s cr3).
  cbn [smPaging with_low low]. rewrite He. by rewrite (proj2 (Z.leb_le _ _)) by lia.
Qed.

(** What a processor needs of the segment table. *)
Definition gdt_set (s : Smp) : Prop := exists t0, length t0 = 24%nat /\ KrInitGDT t0 = (smGDT s, StateGDT (smIdt s)).
Lemma gdt_set_facts s : gdt_set s -> length (smGDT s) = 24%nat /\ seg_lookup (smGDT s) (KernelCodeSegmentSelector (StateGDT (smIdt s))) = Some flat_code /\
  NumberOfDescriptorEntries (StateGDT (smIdt s)) = 3 /\ KernelCodeSegmentSelector (StateGDT (smIdt s)) = 8 /\ KernelDataSegmentSelector (StateGDT (smIdt s)) = 16.
Proof.
  intros (t0 & Hl & E). pose proof (init_gdt_spec t0 Hl) as H. rewrite E in H. destruct H as (H1 & _ & H2 & _).
  pose proof (f_equal snd E) as E2. cbn [snd] in E2. rewrite <- E2 at 2 3 4. by split_and!.
Qed.

Ltac low_step Hm HR :=
  erewrite low_write by (first [exact Hm | exact HR | (unfold low_va; lia) | (rewrite le_bytes_length; zlia)]); rewrite bind_Done.
Ltac low_read_step Hm HR :=
  erewrite low_read by (first [exact Hm | exact HR | (unfold low_va; lia) | zlia]); rewrite bind_Done.

Lemma write_boot_info_spec s R cr3 : low_mapped (smPaging s) R -> R = root_of s cr3 -> gdt_set s -> Z.of_nat (length image) <= 0x8000 ->
  exists m, write_boot_info image KrApplicationProcessorStart sg_InitialStacks_addr s cr3 = Done (with_low s m) /\
    boot_low m (smGDT s) (StateGDT (smIdt s)) cr3 0x6000.
Proof.
  intros Hm HR Hg Hi. destruct (gdt_set_facts s Hg) as (G1 & _ & G2 & _). unfold write_boot_info. rewrite G2.
  change (3 * GDT_SEGMENT_DESCRIPTOR_ENTRY_SIZE) with 24. change (Z.to_nat 24) with 24%nat.
  unfold KR_AP_BOOT_INFO_ADDRESS, KR_AP_START_ADDRESS, GDTR_SIZE_LEGACY.
  do 7 low_step Hm HR. low_read_step Hm HR.
  match goal with |- context [rd ?m ?a 2] => assert (rd m a 2 = le_bytes 2 0x1000) as -> end.
  { do 2 (rewrite rd_other by (rewrite le_bytes_length; lia)). by rewrite rd_written. }
  change (le_value (le_bytes 2 0x1000)) with 0x1000. rewrite bind_Done. cbn [smGDT with_low].
  rewrite take_ge by lia.
  erewrite low_write by (first [exact Hm | exact HR | (unfold low_va; lia) | (rewrite G1; zlia)]). rewrite bind_Done.
  low_step Hm HR. erewrite low_write by (first [exact Hm | exact HR | (unfold low_va; lia) | (rewrite le_bytes_length; zlia)]).
  eexists. split; [reflexivity|].
  split; repeat first [rewrite rd_written by (rewrite ?le_bytes_length, ?G1; reflexivity); reflexivity
    | rewrite rd_other by (rewrite ?le_bytes_length, ?G1; lia)].
Qed.
End Boot.

(** ** Stacks *)

(** Translations are only added. *)
Definition extends (p p' : Paging) (R : Z) : Prop := forall va x, translate p R va = Some x -> translate p' R va = Some x.
Lemma extends_trans p1 p2 p3 R : extends p1 p2 R -> extends p2 p3 R -> extends p1 p3 R.
Proof. intros H1 H2 va x H. by apply H2, H1. Qed.

(** The page tables and the region list, able to take in [m] more stacks between
    the bounds [b]. *)
Record stack_ready (p : Paging) (R : Z) (ow : gmap Z (list Z)) (sp : Z) (a : KrAddressSpace) (l : list region) (b : Z * Z) (m : nat) : Prop := {
  sk_wf : paging_wf p R ow;
  sk_space : space_rep (pgVmm p) sp l /\ sp <> 0 /\ spaces (pgVmm p) !! sp = Some a;
  sk_root : R = KrPhysToVirt (pgVmm p) (PaddrRoot a);
  sk_pat : pat_state_ok (PatMsrState (pgVmm p));
  sk_region : exists r, r ∈ l /\ g_start r <= b.1 /\ b.2 <= g_end r /\ demand_region (g_flags r) = true /\
    Z.land (g_flags r) VMR_FLAG_CACHING_PROTOCOL <> 3;
  sk_high : 0xFFFF800000000000 <= b.1 /\ b.2 < 2 ^ 64;
  sk_small : forall va, b.1 <= va < b.2 -> small_path p R (va_indices va);
  sk_fault : bInPageFault p = false;
  sk_ahead : (4 * m <= ahead (pmm_of p))%nat
}.

Lemma walk_page (p : Paging) R va va' : vpn va' = vpn va -> walk (tbl p) (vbase p) 0 R (va_indices va') = walk (tbl p) (vbase p) 0 R (va_indices va).
Proof. intros E. by rewrite (proj2 (va_indices_vpn va' va) E). Qed.
Lemma translate_none p R va va' : vpn va' = vpn va -> translate p R va = None -> translate p R va' = None.
Proof.
  intros E. unfold translate, mmu_translate. rewrite (walk_page p R va va' E). destruct (walk _ _ _ _ _) as [[e [|i [|j rest]]]|]; done.
Qed.
Lemma small_after p p' R va va' e : leaf_set p p' R (va_indices va) e -> small_path p R (va_indices va') -> small_path p' R (va_indices va').
Proof.
  intros H Hs e' rest. rewrite (H (va_indices va') (va_indices_ok va') eq_refl). destruct (decide _); [by intros [= _ <-]|apply Hs].
Qed.

(** Touching an address between the bounds makes its page present. *)
Lemma touch_spec kspace fuel p R ow a l b m va : stack_ready p R ow kspace a l b (S m) -> (length l < fuel)%nat -> b.1 <= va < b.2 ->
  exists p' ow', touch kspace fuel p (PaddrRoot a) va = Done p' /\ stack_ready p' R ow' kspace a l b m /\ extends p p' R /\
    pgVmm p' = with_pmm (pgVmm p) (pmm_of p') /\ is_Some (translate p' R va) /\ pages_taken (pmm_of p) (pmm_of p') /\
    (forall va', vpn va' <> vpn va -> translate p' R va' = translate p R va') /\ g_VaddrMmioHead p' = g_VaddrMmioHead p.
Proof.
  intros [Hwf (Hs & Hsp & Ha) HR Hpat (r & Hr & Hr1 & Hr2 & Hd & Hc) Hhi Hsm Hfl Hah] Hlen Hva.
  unfold touch. rewrite <- HR. destruct (translate p R va) as [x|] eqn:Ex.
  { exists p, ow. split; [done|]. split; [|by split_and!; [by intros ? ?|destruct p as [[] ? ? ? ? ?]|exists x|by split|done|done]].
    split; try done; [by exists r|lia]. }
  destruct (vseg_lookup _ _ _ _ _ r (sr_seg _ _ _ Hs) Hr) as (n & Hn & A1 & A2 & A3 & A4).
  assert (rd_space (pgVmm p) kspace = Done a) as Hsp' by (unfold rd_space; by rewrite (proj2 (Z.eqb_neq _ _) Hsp), Ha).
  destruct (fault_serves p R ow kspace l r n a fuel va 2) as [(p' & ow' & q & E & W & S & (Fv & Fa & (e & Fl) & Fp & Fh))|[_ ?]]; try done; [|by apply Hsm| |lia].
  { split; [done|split; [done|unfold contains; lia]|done]. }
  exists p', ow'. split; [done|]. split.
  - split; rewrite ?Fv; try done.
    + by destruct Hs; split.
    + by exists r.
    + intros va' Hva'. eapply small_after; [done|by apply Hsm].
    + apply (sv_flag _ _ _ _ _ _ _ S).
    + lia.
  - split; [|split; [done|split; [|split; [done|split; [exact (sv_others _ _ _ _ _ _ _ S)|exact Fh]]]; destruct (sv_maps _ _ _ _ _ _ _ S) as (e' & -> & _); by eexists]].
    intros va' x Hx. rewrite (sv_others _ _ _ _ _ _ _ S va'); [done|]. intros E'. by rewrite (translate_none p R va va' E' Ex) in Hx.
Qed.

(** One stack: memory from the heap, with its last page present. *)
Lemma one_stack kspace fuel p h R ow a l hl m :
  stack_ready p R ow kspace a l (span h) (S m) -> (length l < fuel)%nat ->
  al_live (Allocator := heap_allocator fuel) (S m) PER_CORE_STACK_SIZE h hl ->
  exists h' bot n p' ow', HeapAlignedAcquire fuel h PER_CORE_STACK_SIZE 8 = Done (h', bot) /\ bot <> 0 /\ bot mod 8 = 0 /\ PER_CORE_STACK_SIZE <= n /\
    al_live (Allocator := heap_allocator fuel) m PER_CORE_STACK_SIZE h' ((bot, n) :: hl) /\ span h' = span h /\
    u64 (bot + PER_CORE_STACK_SIZE) = bot + PER_CORE_STACK_SIZE /\
    touch kspace fuel p (PaddrRoot a) (u64 (bot + PER_CORE_STACK_SIZE - 1)) = Done p' /\ stack_ready p' R ow' kspace a l (span h) m /\
    extends p p' R /\ pgVmm p' = with_pmm (pgVmm p) (pmm_of p') /\ is_Some (translate p' R (bot + PER_CORE_STACK_SIZE - 8)).
Proof.
  intros Hsk Hlen Hal.
  destruct (al_spec (Allocator := heap_allocator fuel) m PER_CORE_STACK_SIZE h hl PER_CORE_STACK_SIZE 3 Hal)
    as (h' & bot & n & E & Er & Hb & Hmod & Hn & Hal'); [unfold PER_CORE_STACK_SIZE; lia|lia|].
  cbn [al_acquire al_range heap_allocator] in E, Er. change (2 ^ 3) with 8 in *.
  pose proof (al_inside (Allocator := heap_allocator fuel) _ _ _ _ Hal') as Hin. apply Forall_cons in Hin as [(Hi1 & Hi2 & Hi3) _].
  cbn [al_range heap_allocator fst snd] in *. rewrite Er in *. pose proof (sk_high _ _ _ _ _ _ _ _ Hsk) as [Hh1 Hh2].
  unfold PER_CORE_STACK_SIZE in *. change (64 * 1024) with 65536 in *.
  destruct (touch_spec kspace fuel p R ow a l (span h) m (bot + 65536 - 1) Hsk Hlen) as (p' & ow' & Et & Hsk' & Hext & Hv & [x Hx] & _); [lia|].
  exists h', bot, n, p', ow'. rewrite !u64_small by lia. split_and!; try done.
  destruct (translate p' R (bot + 65536 - 8)) eqn:Ex; [by eexists|].
  rewrite (translate_none p' R (bot + 65536 - 8) (bot + 65536 - 1)) in Hx; [done| |done].
  unfold vpn. f_equal. zlia.
Qed.

(** ** All stacks *)

(** Entry [j] is a processor to be started. *)
Definition ap_at (l : list ProcInfoEntry) (j : Z) : bool :=
  match l !! Z.to_nat j with Some e => pE_V e && negb (BSP e) | None => false end.
Definition ap_range (l : list ProcInfoEntry) (i : Z) (n : nat) : list Z := List.filter (ap_at l) (seqZ i (Z.of_nat n)).

Lemma ap_range_S l i n : 0 <= i -> ap_range l i (S n) = (if ap_at l i then [i] else []) ++ ap_range l (i + 1) n.
Proof. intros Hi. unfold ap_range. rewrite seqZ_cons by lia. cbn [List.filter]. replace (Z.pred (Z.of_nat (S n))) with (Z.of_nat n) by lia. by destruct (ap_at l i). Qed.
Lemma elem_of_ap_range l i n j : j ∈ ap_range l i n <-> i <= j < i + Z.of_nat n /\ ap_at l j = true.
Proof. unfold ap_range. rewrite list_elem_of_In, List.filter_In, <- list_elem_of_In, elem_of_seqZ. tauto. Qed.

Lemma ap_range_NoDup l i n : NoDup (ap_range l i n).
Proof. apply NoDup_ListNoDup, List.NoDup_filter, NoDup_ListNoDup, NoDup_seqZ. Qed.
(** Numbers below a bound are at most so many. *)
Lemma NoDup_bound (n : nat) (l : list Z) : NoDup l -> (forall c, c ∈ l -> 0 <= c < Z.of_nat n) -> (length l <= n)%nat.
Proof.
  intros Hn Hr. assert (l ⊆+ seqZ 0 (Z.of_nat n)) as Hs by (apply NoDup_submseteq; [done|]; intros c Hc%Hr; apply elem_of_seqZ; lia).
  apply submseteq_length in Hs. rewrite length_seqZ, Nat2Z.id in Hs. done.
Qed.

Lemma ap_range_bound l n c : c ∈ ap_range l 0 n -> 0 <= c < Z.of_nat n.
Proof. intros [H _]%elem_of_ap_range. exact H. Qed.

(** Bottom and size of the stacks of the processors [L]. *)
Record stacks_done (s : Smp) (R : Z) (kspace fuelz : Z) (a : KrAddressSpace) (l : list region) (hl : list (Z * Z)) (m : nat) (L : list Z)
    (p' : Paging) (h' : Heap) (st' : list Z) (f : Z -> Z * Z) : Prop := {
  st_ready : exists ow', stack_ready p' R ow' kspace a l (span (smHeap s)) m;
  st_extends : extends (smPaging s) p' R /\ pgVmm p' = with_pmm (pgVmm (smPaging s)) (pmm_of p');
  st_live : al_live (Allocator := heap_allocator (Z.to_nat fuelz)) m PER_CORE_STACK_SIZE h' (reverse (f <$> L) ++ hl) /\ span h' = span (smHeap s);
  st_tops : forall j, j ∈ L -> st' !! Z.to_nat j = Some ((f j).1 + PER_CORE_STACK_SIZE) /\ (f j).1 mod 8 = 0 /\ PER_CORE_STACK_SIZE <= (f j).2 /\
    is_Some (translate p' R ((f j).1 + PER_CORE_STACK_SIZE - 8));
  st_others : length st' = length (sg_InitialStacks s) /\ forall j, 0 <= j -> j ∉ L -> st' !! Z.to_nat j = sg_InitialStacks s !! Z.to_nat j
}.

Lemma stacks_loop_spec kspace fuel R a l n : forall i s ow hl m,
  0 <= i -> (Z.to_nat i + n <= length (ProcInfo s))%nat -> (length (ProcInfo s) <= length (sg_InitialStacks s))%nat ->
  stack_ready (smPaging s) R ow kspace a l (span (smHeap s)) (length (ap_range (ProcInfo s) i n) + m) -> (length l < fuel)%nat ->
  al_live (Allocator := heap_allocator fuel) (length (ap_range (ProcInfo s) i n) + m) PER_CORE_STACK_SIZE (smHeap s) hl ->
  exists p' h' st' f, stacks_loop kspace fuel n i (PaddrRoot a) s = Done (with_stacks (with_mem s p' h') st') /\
    stacks_done s R kspace (Z.of_nat fuel) a l hl m (ap_range (ProcInfo s) i n) p' h' st' f.
Proof.
  induction n as [|n IH]; intros i s ow hl m Hi Hl1 Hl2 Hsk Hlen Hal.
  { exists (smPaging s), (smHeap s), (sg_InitialStacks s), (fun _ => (0, 0)). split; [by destruct s|].
    unfold ap_range in *. cbn [List.filter seqZ length Nat.add] in *. split; try done; [by exists ow| | |].
    - split; [by intros ? ?|]. by destruct (smPaging s) as [[] ? ? ? ? ?].
    - by rewrite Nat2Z.id.
    - by intros j Hj%not_elem_of_nil. }
  cbn [stacks_loop]. destruct (lookup_lt_is_Some_2 (ProcInfo s) (Z.to_nat i)) as [e He]; [lia|]. rewrite He. cbn [checked]. rewrite bind_Done.
  rewrite ap_range_S in * by done. assert (ap_at (ProcInfo s) i = pE_V e && negb (BSP e)) as Eap by (unfold ap_at; by rewrite He).
  rewrite <- Eap. destruct (ap_at (ProcInfo s) i) eqn:Hap; cycle 1.
  { rewrite bind_Done. cbn [app] in *. apply (IH (i + 1) s ow hl m); [lia|lia|done..]. }
  cbn [app length Nat.add] in *.
  destruct (one_stack kspace fuel _ _ R ow a l hl _ Hsk Hlen Hal) as (h' & bot & k & p' & ow' & E & Hb & Hm & Hk & Hal' & Hsp & Eu & Et & Hsk' & Hx & Hv & Htr).
  rewrite E, bind_Done, (proj2 (Z.eqb_neq _ _) Hb). cbn [negb ensure]. rewrite bind_Done, Eu, Et, !bind_Done.
  set (s1 := with_stacks _ _). destruct (IH (i + 1) s1 ow' ((bot, k) :: hl) m) as (p2 & h2 & st2 & f & E2 & [(ow2 & S1) [S2 S2'] [S3 S3'] S4 [S5 S6]]).
  { lia. } { cbn. lia. } { unfold s1. cbn. rewrite length_insert. lia. } { unfold s1. cbn. by rewrite Hsp. } { done. } { done. }
  assert (i ∉ ap_range (ProcInfo s) (i + 1) n) as Hni by (rewrite elem_of_ap_range; lia).
  exists p2, h2, st2, (fun j => if decide (j = i) then (bot, k) else f j). split; [rewrite E2; done|].
  change (ProcInfo s1) with (ProcInfo s) in *. unfold s1 in S1, S2, S2', S3', S5, S6.
  cbn [with_stacks with_mem smPaging smHeap sg_InitialStacks] in S1, S2, S2', S3', S5, S6. split.
  - exists ow2. by rewrite <- Hsp.
  - split; [by eapply extends_trans|]. by rewrite S2', Hv.
  - split; [|congruence]. rewrite fmap_cons, decide_True, reverse_cons, <- app_assoc by done. cbn [app].
    erewrite (list_fmap_ext _ f); [exact S3|]. intros j x Hj. rewrite decide_False; [done|]. intros ->. by apply list_elem_of_lookup_2 in Hj.
  - intros j Hj. apply elem_of_cons in Hj as [->|Hj].
    + rewrite decide_True by done. cbn [fst snd]. rewrite S6 by done. rewrite list_lookup_insert_eq by lia.
      split_and!; try done. destruct Htr as [x Hx']. exists x. by apply S2.
    + rewrite decide_False by (intros ->; done). by apply S4.
  - split; [rewrite S5, length_insert; done|]. intros j Hj0 [Hj1 Hj2]%not_elem_of_cons. rewrite S6 by done. by rewrite list_lookup_insert_ne by lia.
Qed.

(** ** Everything before the first message *)

Section Prepare.
Context (image : list Z) (LmEntry KrApplicationProcessorStart sg_InitialStacks_addr kspace : Z) (fuel : nat).

Definition to_start (s : Smp) : list Z := ap_range (ProcInfo s) 0 256.

(** The memory manager and the heap at the start. *)
Record memory_ready (s : Smp) (R : Z) (ow : gmap Z (list Z)) (a : KrAddressSpace) (l : list region) (p0 : Z) (hl : list (Z * Z)) (nodes : list Z) : Prop := {
  mr_mmio : mmio_ready (smPaging s) R ow kspace a l p0 nodes;
  mr_accepts : acquire_accepts (pgVmm (smPaging s)) (PaddrRoot a) 0x1000 0x10000 low_map_flags l;
  mr_low : forall va, low_va va -> small_path (smPaging s) R (va_indices va);
  mr_region : exists r, r ∈ l /\ g_start r <= (span (smHeap s)).1 /\ (span (smHeap s)).2 <= g_end r /\ demand_region (g_flags r) = true /\
    Z.land (g_flags r) VMR_FLAG_CACHING_PROTOCOL <> 3;
  mr_high : 0xFFFF800000000000 <= (span (smHeap s)).1 /\ (span (smHeap s)).2 < 2 ^ 64;
  mr_small : forall va, (span (smHeap s)).1 <= va < (span (smHeap s)).2 -> small_path (smPaging s) R (va_indices va);
  mr_fault : bInPageFault (smPaging s) = false;
  mr_ahead : (49 + 4 * length (to_start s) <= ahead (pmm_of (smPaging s)))%nat;
  mr_heap : al_live (Allocator := heap_allocator fuel) (S (length (to_start s))) PER_CORE_STACK_SIZE (smHeap s) hl;
  mr_fuel : (15 < fuel)%nat /\ (S (length l) < fuel)%nat
}.

(** What the processors to be started find. *)
Record launch (s : Smp) (cr3 R : Z) (L : list Z) (f : Z -> Z * Z) : Prop := {
  la_low : low_mapped (smPaging s) R;
  la_root : R = root_of s cr3 /\ 0 <= cr3 < 2 ^ 32;
  la_boot : boot_low image KrApplicationProcessorStart sg_InitialStacks_addr (low s) (smGDT s) (StateGDT (smIdt s)) cr3 0x6000;
  la_gdt : gdt_set s;
  la_stacks : forall j, j ∈ L -> sg_InitialStacks s !! Z.to_nat j = Some ((f j).1 + PER_CORE_STACK_SIZE) /\ (f j).1 mod 8 = 0 /\
    PER_CORE_STACK_SIZE <= (f j).2 /\ is_Some (translate (smPaging s) R ((f j).1 + PER_CORE_STACK_SIZE - 8))
}.

Definition reported (l : list ProcInfoEntry) (c : Z) : list ProcInfoEntry :=
  alter (fun e => mkProc (pLocalApicID e) (pAcpiID e) (pE_V e) (BSP e) true) (Z.to_nat c) l.
Lemma report_for_duty_spec s c : is_Some (ProcInfo s !! Z.to_nat c) -> report_for_duty s c = Done (with_proc s (reported (ProcInfo s) c)).
Proof.
  intros [e He]. unfold report_for_duty, reported. rewrite He. cbn [checked]. rewrite bind_Done. do 2 f_equal.
  apply list_eq. intros i. destruct (decide (i = Z.to_nat c)) as [->|Hne].
  - rewrite list_lookup_insert_eq by (by eapply lookup_lt_Some). rewrite list_lookup_alter_eq, He. done.
  - by rewrite list_lookup_insert_ne, list_lookup_alter_ne by done.
Qed.
Lemma ap_at_reported l c j : ap_at (reported l c) j = ap_at l j.
Proof.
  unfold ap_at, reported. destruct (decide (Z.to_nat j = Z.to_nat c)) as [->|Hne].
  - rewrite list_lookup_alter_eq. by destruct (l !! Z.to_nat c).
  - by rewrite list_lookup_alter_ne.
Qed.
Lemma ap_range_reported l c i n : ap_range (reported l c) i n = ap_range l i n.
Proof. unfold ap_range. apply List.filter_ext. intros j. apply ap_at_reported. Qed.

Lemma extends_low p p' R : extends p p' R -> low_mapped p R -> low_mapped p' R.
Proof. intros Hx Hm va Hva. destruct (Hm va Hva) as (e & He & H). exists e. split; [by apply Hx|done]. Qed.
Lemma heap_outside va : 0xFFFF800000000000 <= va < 2 ^ 64 -> 0xF000 <= low_offset va.
Proof. intros H. unfold low_offset, va_offset. zlia. Qed.

Lemma prepare_spec s me R ow a l p0 hl nodes :
  memory_ready s R ow a l p0 hl nodes -> gdt_set s -> 0 <= PaddrRoot a < 2 ^ 32 -> Z.of_nat (length image) <= 0x8000 ->
  length (ProcInfo s) = 256%nat -> length (sg_InitialStacks s) = 256%nat -> 0 <= me < 256 ->
  exists p' h' m st' f, let s' := with_stacks (with_low (with_mem (with_proc (set_active s 1) (reported (ProcInfo s) me)) p' h') m) st' in
    prepare image KrApplicationProcessorStart sg_InitialStacks_addr kspace fuel s me = Done s' /\
    launch s' (PaddrRoot a) R (to_start s) f /\
    al_live (Allocator := heap_allocator fuel) 1 PER_CORE_STACK_SIZE h' (reverse (f <$> to_start s) ++ hl).
Proof.
  intros [Hmm Hacc Hlow Hreg Hhi Hsm Hfl Hah Hal [Hf1 Hf2]] Hg Hcr Him Hlp Hls Hme. unfold prepare.
  rewrite report_for_duty_spec by (apply lookup_lt_is_Some_2; cbn; lia). rewrite bind_Done.
  change (ProcInfo (set_active s 1)) with (ProcInfo s). set (s0 := with_proc (set_active s 1) (reported (ProcInfo s) me)).
  pose proof Hmm as [_ HR (_ & Hksp & Ha) _ Hpat].
  unfold GetKernelRoot, rd_space. rewrite (proj2 (Z.eqb_neq _ _) Hksp). change (smPaging s0) with (smPaging s). rewrite Ha. cbn [checked]. rewrite !bind_Done.
  rewrite (proj2 (Z.leb_le _ _)) by lia. cbn [ensure]. rewrite bind_Done.
  destruct (map_low_spec kspace fuel s0 R ow a l p0 nodes Hmm Hacc Hlow Hf1) as (p1 & ow1 & a1 & l1 & E1 & [D1 (D2 & D2' & D2'') [D3 D3'] [D4 D4'] D5 D6 D7]);
    [lia|change (smPaging s0) with (smPaging s); lia|].
  rewrite E1, bind_Done. set (s1 := with_mem s0 p1 (smHeap s0)).
  assert (R = KrPhysToVirt (pgVmm p1) (PaddrRoot a1)) as HR1 by (rewrite HR, D2''; unfold KrPhysToVirt; by rewrite (sv_base _ _ D4)).
  assert (R = root_of s1 (PaddrRoot a)) as HR1' by (unfold root_of; rewrite HR1, D2''; done).
  destruct (write_boot_info_spec image KrApplicationProcessorStart sg_InitialStacks_addr s1 R (PaddrRoot a) D5 HR1' Hg Him) as (m & E2 & Hb).
  rewrite E2, bind_Done. set (s2 := with_low s1 m). rewrite <- D2''.
  assert (to_start s = ap_range (ProcInfo s2) 0 256) as Ets by (unfold to_start; symmetry; apply ap_range_reported).
  assert (length (ProcInfo s2) = 256%nat) as Hlp2 by (change (ProcInfo s2) with (reported (ProcInfo s) me); unfold reported; by rewrite length_alter).
  destruct (stacks_loop_spec kspace fuel R a1 l1 256 0 s2 ow1 hl 1) as (p' & h' & st' & f & E3 & [(ow3 & S1) [S2 S2'] [S3 S3'] S4 S5]).
  - lia.
  - rewrite Hlp2. lia.
  - rewrite Hlp2. change (sg_InitialStacks s2) with (sg_InitialStacks s). lia.
  - rewrite <- Ets. change (smPaging s2) with p1. change (smHeap s2) with (smHeap s).
    destruct Hreg as (r & Hr & Hreg). split; try done; [by rewrite (sv_pat _ _ D4)|exists r; split; [by apply D3'|done]| |by rewrite D4'|].
    + intros va Hva e' rest. rewrite D6 by (apply heap_outside; lia). by apply Hsm.
    + change (smPaging s0) with (smPaging s) in D7. lia.
  - lia.
  - rewrite <- Ets. replace (length (to_start s) + 1)%nat with (S (length (to_start s))) by lia. exact Hal.
  - change (Z.to_nat MAX_SMP_PROCESSORS) with 256%nat. rewrite E3. exists p', h', m, st', f. split; [done|]. rewrite Ets. split.
    + split; [by eapply extends_low| | |done|exact S4].
      * rewrite D2''. split; [|done]. unfold root_of. cbn [smPaging with_stacks with_low with_mem]. rewrite S2', HR1, D2''. done.
      * rewrite D2''. exact Hb.
    + by rewrite Nat2Z.id in S3.
Qed.
End Prepare.
