(* ===== verification/InitMem.v ===== *)
(** * Memory start-up (Kernel/Source/Init/KrInitMem.c, KrInitVirtmemmgmt and
    KrVmmInitCpu of Kernel/Source/Memory/Virtmemmgmt.c, HeapInit of Krnlheap.c)

    The initialisers of the page manager, the first page tables, the page
    metadata, the region nodes, the kernel address space and the heap, in the
    order the kernel calls them.  Messages on the screen are not modelled. *)
From Stdlib Require Import ZArith Lia String.
From stdpp Require Import base numbers list gmap.
From S2P Require Import Prelude PhysBitmap KrtlMem BootstrapArena MemoryMap Physmemmgmt Pte Heap Vmr PageTable DirectMap Acpi Smp.
Open Scope Z_scope.

Definition KR_MDCODE_PHYSMEMMGMT_INIT_FAILURE : Z := 0x2001.
Definition KR_MDCODE_PHYSMEMMGMT_TEST_FAILURE : Z := 0x2002.
Definition KR_MDCODE_PMM_META_OOM : Z := 0x2007.
Definition KR_MDCODE_RNA_INIT_FAILURE : Z := 0x2009.
Definition KR_MDCODE_KERNEL_ADDRESS_SPACE_CREATION_FAILURE : Z := 0x200A.
Definition KR_MDCODE_KERNEL_HEAP_INITIALIZATION_FAILURE : Z := 0x200B.
Definition FRAMEBUFFER_VIRTUAL_ADDR : Z := 0xFFFFFFFFC0000000.

(** ** KrVmmInitCpu *)

Definition KR_CPUID_FEAT_EDX_NX_BIT : Z := Z.shiftl 1 20.
Definition KR_CPUID_FEAT_EDX_PDPE1GB : Z := Z.shiftl 1 26.
Definition KR_MSR_IA32_EFER_NXE : Z := Z.shiftl 1 11.
Definition KR_CR0_WP : Z := Z.shiftl 1 16.
Definition KR_CR4_PSE : Z := Z.shiftl 1 4.
Definition KR_CR4_PAE : Z := Z.shiftl 1 5.
Definition KR_CR4_PGE : Z := Z.shiftl 1 7.

(** The registers of the boot processor the function sets. *)
Record VmmCpu := mkVmmCpu { vcCR0 : Z; vcCR4 : Z; vcEFER : Z; vcPAT : Z }.

(** [EDX] is the answer of CPUID leaf 0x80000001; the result tells whether
    bNoExecuteSupport was set. *)
Definition KrVmmInitCpu (EDX : Z) (c : VmmCpu) (b : Boot) : outcome (VmmCpu * Boot * bool) :=
  let bHuge := bHugePageSupport b || has_flag EDX KR_CPUID_FEAT_EDX_PDPE1GB in
  let bNx := has_flag EDX KR_CPUID_FEAT_EDX_NX_BIT in
  let efer := if bNx then Z.lor (vcEFER c) KR_MSR_IA32_EFER_NXE else vcEFER c in
  let CR0 := Z.lor (vcCR0 c) KR_CR0_WP in
  let CR4 := Z.lor (vcCR4 c) (Z.lor (Z.lor KR_CR4_PSE KR_CR4_PAE) KR_CR4_PGE) in
  let '(qwPatMsr, pat) := KrVmmInitPat in
  psl ← KrSelectPat pat KR_PAT_WRITE_BACK;
  Done (mkVmmCpu CR0 CR4 efer qwPatMsr,
        mkBoot (LoadInfo b) (FrameBufferInfo b) (CanonicalMemoryMap b) (FirmwareMap b) (img b) pat psl bHuge (DmapBase b)
          (DirectMap.CR3 b) (bArena b) (bPmm b) (Dmap b) (Phys b), bNx).

(** ** State *)

Record MemInit := mkMemInit {
  miCpu : VmmCpu;
  miBoot : Boot;            (* until the direct map exists *)
  miPaging : Paging;        (* from then on *)
  miHeap : Heap;
  miInitialized : bool      (* g_StateVMM.bInitialized *)
}.
Definition with_boot (m : MemInit) (b : Boot) : MemInit := mkMemInit (miCpu m) b (miPaging m) (miHeap m) (miInitialized m).
Definition with_paging (m : MemInit) (p : Paging) : MemInit := mkMemInit (miCpu m) (miBoot m) p (miHeap m) (miInitialized m).

(** The words of physical memory at the pointers of the direct map. *)
Definition direct_words (b : Boot) : gmap Z Z := kmap (fun a => DmapBase b + a) (Phys b).

Section Init.
(** The address of g_StateVMM.KernelAddressSpace, the bound on the lengths of
    lists, and the CPUID answer. *)
Context (kspace : Z) (fuel : nat) (EDX : Z).

(** The region manager as it is before RnaInit: a zeroed kernel address space
    and no node. *)
Definition vmm_start (b : Boot) (pm : Pmm) (bNx : bool) : Vmm :=
  mkVmm pm (DmapBase b) 0 (bPat b) (negb bNx) IVLDPGID ∅ ∅ {[kspace := mkSpace 0 0 0 0]}.
Definition paging_start (b : Boot) (v : Vmm) : Paging :=
  mkPaging v (direct_words b) (bpslDefault b) 0 (KR_MAKE_VIRTUAL KRNL_PML4_IDX KRNL_MMIO_PDPT_IDX 0 0 0) false.

(** ** KrInitVirtmemmgmt *)

Definition KrInitVirtmemmgmt (m : MemInit) : outcome (MemInit * bool) :=
  if miInitialized m then Done (m, false)
  else
    '(c, b, bNx) ← KrVmmInitCpu EDX (miCpu m) (miBoot m);
    '(b, ok) ← init_paging b;
    let m := mkMemInit c b (miPaging m) (miHeap m) false in
    if negb ok then Done (m, false)
    else
      '(pm, ok) ← KrInitPhysMetaArray (fun p => u64 (DmapBase b + p)) (bPmm b);
      _ ← ensure ok KR_MDCODE_PMM_META_OOM;
      '(v, ok) ← RnaInit (vmm_start b pm bNx);
      _ ← ensure ok KR_MDCODE_RNA_INIT_FAILURE;
      '(v, ok) ← KrInitKrnlAddrSpace fuel v kspace (KrReservedVirtToPhys b (g_PML4 (img b))) (AddrVirtualBase (LoadInfo b))
                   (ReserveSize (LoadInfo b)) FRAMEBUFFER_VIRTUAL_ADDR (fbSize (FrameBufferInfo b));
      _ ← ensure ok KR_MDCODE_KERNEL_ADDRESS_SPACE_CREATION_FAILURE;
      Done (mkMemInit c b (paging_start b v) (miHeap m) true, true).

(** ** HeapInit *)

(** The whole of HeapInit: the region, its tag, and the first header, whose
    page the page-fault handler provides. *)
Definition HeapInit_region (p : Paging) (h : Heap) : outcome (Paging * Heap * bool) :=
  if HeapInitialized h then Done (p, h, false)
  else
    let st := KR_MAKE_VIRTUAL KRNL_PML4_IDX KRNL_HEAP_PDPT_IDX 0 0 0 in
    let nd := u64 (st + u64 (KR_MAKE_VIRTUAL KRNL_PML4_IDX KRNL_MMIO_PDPT_IDX 0 0 0 - st)) in
    '(v, HeapVMR) ← VmAcquireRegion fuel (pgVmm p) kspace st nd (Z.lor VMR_FLAG_READABLE VMR_FLAG_WRITABLE);
    let p := with_vmm p v in
    if HeapVMR =? 0 then '(h, ok) ← HeapInit h 0; Done (p, h, ok)
    else
      v ← VmTagRegion v HeapVMR "Kernel Heap";
      p ← touch kspace fuel (with_vmm p v) (KernelPaddrRoot v) st;
      '(h, ok) ← HeapInit h HeapVMR;
      Done (p, h, ok).

(** ** KrInitMem *)

(** The page that is acquired and given back, and the hint set to it. *)
Definition test_page (pm : Pmm) : outcome Pmm :=
  '(pm, TestPageID) ← PmAcquirePage pm PAGE_TYPE_GENERAL IVLDPGID;
  _ ← ensure (negb (TestPageID =? IVLDPGID)) KR_MDCODE_PHYSMEMMGMT_TEST_FAILURE;
  '(pm, ok) ← PmRelinquishPage pm TestPageID;
  _ ← ensure ok KR_MDCODE_PHYSMEMMGMT_TEST_FAILURE;
  Done (KrSetPhysicalPageAcquisitionHint pm TestPageID).1.

Definition KrInitMem (m : MemInit) : outcome MemInit :=
  let b := miBoot m in
  '(pm, a, ok) ← KrInitPhysmemmgmt (bPmm b) (bArena b) (FirmwareMap b) (CanonicalMemoryMap b)
                   (AddrPhysicalBase (LoadInfo b)) (ReserveSize (LoadInfo b));
  _ ← ensure ok KR_MDCODE_PHYSMEMMGMT_INIT_FAILURE;
  pm ← test_page pm;
  '(m, ok) ← KrInitVirtmemmgmt (with_boot m (with_bpmm (with_arena b a) pm));
  _ ← ensure ok KR_MDCODE_VIRTMEMMGMT_INIT_FAILURE;
  '(p, h, ok) ← HeapInit_region (miPaging m) (miHeap m);
  let m := mkMemInit (miCpu m) (miBoot m) p h (miInitialized m) in
  _ ← ensure ok KR_MDCODE_KERNEL_HEAP_INITIALIZATION_FAILURE;
  Done m.
End Init.
