(* ===== verification/InitMemProps.v ===== *)
(** * Memory start-up: the heap's region, and the whole sequence *)
From Stdlib Require Import ZArith Lia String.
From stdpp Require Import base numbers list gmap sets.
From S2P Require Import Prelude PhysBitmap KrtlMem BootstrapArena MemoryMap Physmemmgmt PmmSparse PmmDense PmmOps PmmProps Pte Heap HeapSpec HeapProps Alloc Vmr VmrSpec VmrProps PageTable PageTableSpec PageTableProps MmioProps DirectMap DirectMapSpec DirectMapProps DirectMapRegions DirectMapInit DirectMapThms Acpi Smp SmpSpec InitMem.
Open Scope Z_scope.
#[local] Arguments Z.testbit _ _ : simpl never.

(** ** Pages *)

(** The first of the available pages of a range. *)
Lemma frees_first s lo n p l q : frees s lo n = p :: l -> q ∈ frees s lo n -> p <= q.
Proof.
  intros E Hq. apply elem_of_frees in Hq as [Hr Hf]. destruct (decide (p <= q)) as [|Hn]; [done|exfalso].
  replace n with ((q - lo + 1) + (lo + n - (q + 1))) in E by lia. rewrite frees_app in E by lia.
  assert (q ∈ frees s lo (q - lo + 1)) as Hin by (apply elem_of_frees; split; [lia|done]).
  destruct (frees s lo (q - lo + 1)) as [|x xs] eqn:Ex; [by apply not_elem_of_nil in Hin|].
  injection E as -> _. assert (p ∈ frees s lo (q - lo + 1)) as [Hp _]%elem_of_frees by (rewrite Ex; by left). lia.
Qed.

(** The manager is the same but for its counters and where it searches next. *)
Record same_pages (s s' : Pmm) : Prop := {
  sp_good : pmm_good s';
  sp_free : forall p, 0 <= p -> page_free s' p = page_free s p;
  sp_advisory : pAdvisoryBitmap s' = pAdvisoryBitmap s;
  sp_nr : NrPages s' = NrPages s /\ InitStage s' = InitStage s;
  sp_total : TotalPages s' = TotalPages s
}.

(** The test of KrInitMem: the first available page [q] or an earlier one is
    acquired and given back, and the next search starts from it. *)
Lemma test_page_spec s q :
  pmm_good s -> 0 <= search_start s IVLDPGID <= q -> q < NrPages s -> page_free s q = true ->
  exists s', test_page s = Done s' /\ same_pages s s' /\ 0 <= search_start s' IVLDPGID <= q.
Proof.
  intros Hg Hs Hq Hf. pose proof Hg as [G1 G2 G3]. unfold test_page.
  destruct (acquire_page_spec s PAGE_TYPE_GENERAL IVLDPGID G1 G2 ltac:(lia)) as (s1 & id & -> & Hm). rewrite bind_Done.
  assert (q ∈ frees s (search_start s IVLDPGID) (NrPages s - search_start s IVLDPGID)) as Hin by (apply elem_of_frees; split; [lia|done]).
  unfold sparse_found in Hm. destruct (frees s (search_start s IVLDPGID) (NrPages s - search_start s IVLDPGID)) as [|p l] eqn:Ef; [by apply not_elem_of_nil in Hin|].
  destruct Hm as [-> Ha]. assert (p <= q) as Hpq by (eapply frees_first; [exact Ef|by rewrite Ef]).
  assert (p ∈ frees s (search_start s IVLDPGID) (NrPages s - search_start s IVLDPGID)) as [Hpr Hpf]%elem_of_frees by (rewrite Ef; by left).
  pose proof (pw_nr _ G1). rewrite (proj2 (Z.eqb_neq p IVLDPGID)) by (unfold IVLDPGID; lia). cbn [negb ensure]. rewrite bind_Done.
  destruct (good_of_acquired _ _ _ Hg Ha) as [[W1 W2 W3] [Hn _]]. destruct Ha as [A1 A2 A3 [A4 A5] A6 A7 A8 A9].
  destruct (relinquish_spec s1 p W1 W2 W3 ltac:(lia)) as (s2 & -> & Hr). rewrite bind_Done.
  assert (page_reserved s1 p = false) as Hres.
  { destruct (page_reserved s1 p) eqn:E; [|done]. unfold page_reserved in E. rewrite A3 in E.
    pose proof (pw_reserved _ G1 p ltac:(lia) E) as Hp1. unfold page_free in Hpf. by rewrite Hp1 in Hpf. }
  assert (page_free s1 p = false) as Hp1 by (rewrite A2, Hpf, bool_decide_true by (lia || by left); done).
  rewrite Hres, Hp1 in *. cbn [negb andb ensure] in *. rewrite bind_Done. destruct Hr as [R1 R2 R3 [R4 R5] R6 R7 R8 R9].
  unfold KrSetPhysicalPageAcquisitionHint. rewrite valid_id by done. rewrite R4, A4, (proj2 (Z.ltb_lt _ _)) by lia. cbn [negb fst].
  eexists. split; [done|]. split.
  - split; cbn [set_hint pAdvisoryBitmap NrPages InitStage TotalPages]; try congruence.
    + split; [|done|cbn [set_hint InitStage]; lia]. destruct R1. split; try done. cbn [set_hint AcquireHint]. lia.
    + intros x Hx. change (page_free (set_hint s2 p) x) with (page_free s2 x). rewrite R2, A2 by done.
      destruct (Z.eqb_spec x p) as [->|Hne]; [by rewrite Hpf|]. rewrite bool_decide_false by set_solver. by rewrite andb_true_r.
    + split; congruence.
  - unfold search_start. cbn. unfold IVLDPGID. destruct (Z.eqb_spec p 0xFFFFFFFF); lia.
Qed.

(** The available pages behind a mark. *)
Lemma ahead_from s st : 0 <= st <= NrPages s -> search_start s IVLDPGID <= st -> 0 <= search_start s IVLDPGID ->
  (length (frees s st (NrPages s - st)) <= ahead s)%nat.
Proof.
  intros H1 H2 H3. unfold ahead. replace (NrPages s - search_start s IVLDPGID) with ((st - search_start s IVLDPGID) + (NrPages s - st)) by lia.
  rewrite frees_app by lia. rewrite length_app. replace (search_start s IVLDPGID + (st - search_start s IVLDPGID)) with st by lia. lia.
Qed.

(** ** The region node allocator's first page *)

Lemma frame_address_small s id : pmm_wf s -> 0 <= id < NrPages s -> NrPages s <= 2 ^ 20 -> KrGetPhysicalPageAddress s id = 4096 * id.
Proof.
  intros Hw Hid Hn. unfold KrGetPhysicalPageAddress. rewrite valid_id by done. rewrite (proj2 (Z.ltb_lt _ _)) by lia. cbn [negb].
  unfold KR_PAGE_SIZE. rewrite u32_small by lia. lia.
Qed.

Record rna_started (v v' : Vmm) (p0 : Z) : Prop := {
  rs_rep : rna_rep v' p0 [];
  rs_bitmap : root_bitmap v' p0 = 1;
  rs_pmm : pmm_good (vPmm v') /\ NrPages (vPmm v') = NrPages (vPmm v);
  rs_free : forall p, 0 <= p -> page_free (vPmm v') p = true -> page_free (vPmm v) p = true;
  rs_ahead : (ahead (vPmm v) <= S (ahead (vPmm v')))%nat;
  rs_frame : v' = with_slots (with_root (with_pmm v (vPmm v')) (g_RnaRootPageID v')) (slots v')
}.

Lemma rna_init_spec v :
  g_RnaRootPageID v = IVLDPGID -> pmm_good (vPmm v) -> NrPages (vPmm v) <= 2 ^ 20 -> VirtAddrBase v = 0xFFFF800000000000 ->
  (0 < ahead (vPmm v))%nat -> exists v' p0, RnaInit v = Done (v', true) /\ rna_started v v' p0.
Proof.
  intros Hroot Hg Hn Hb Ha. unfold RnaInit. rewrite Hroot, Z.eqb_refl. cbn [negb].
  destruct (pm_page (vPmm v) PAGE_TYPE_RNA Hg) as (pm & id & -> & Hg1 & Hn1 & Hcase & Hah & Hno). rewrite bind_Done.
  destruct Hcase as [[-> _]|(Hid & Hne & Hfr & Hfree)]; [specialize (Hno eq_refl); lia|].
  rewrite (proj2 (Z.eqb_neq _ _)) by done. cbn [vPmm with_root with_pmm].
  pose proof Hg1 as [W1 W2 W3]. destruct (reserve_spec pm id W1 W3 ltac:(lia)) as (pm' & r & -> & Hr & Hpm). rewrite bind_Done.
  rewrite Hn1, (proj2 (Z.ltb_lt _ _)), Hfree, bool_decide_true, andb_false_r in Hr by lia. cbn in Hr. subst r.
  destruct Hpm as [V1 V2 V3 [V4 V5] V6 V7 V8]. assert (pmm_good pm') as Hg' by (split; [done|by rewrite V7|lia]).
  assert (RnaGetMetaSlotVptr (with_root (with_pmm v pm) id) id = 0xFFFF800000000000 + 4096 * id) as ->.
  { unfold RnaGetMetaSlotVptr, RnaGetSlotVptr, KrPhysToVirt. cbn [vPmm VirtAddrBase with_root with_pmm]. rewrite frame_address_small by (done || lia).
    rewrite Hb, Z.mul_0_l, Z.add_0_r, (u64_small (_ + 4096 * id)), u64_small by lia. done. }
  exists (wr_slot (with_pmm (with_root (with_pmm v pm) id) pm') (0xFFFF800000000000 + 4096 * id) (mkSlot 1 id IVLDPGID IVLDPGID 1)), (0xFFFF800000000000 + 4096 * id).
  split; [done|]. split; cbn [vPmm wr_slot with_slots with_pmm with_root slots g_RnaRootPageID]; try done.
  - split; cbn [g_RnaRootPageID wr_slot with_slots with_pmm with_root slots]; [|lia| |constructor].
    + intros k Hk. unfold RnaGetSlotVptr, KrPhysToVirt. cbn [vPmm VirtAddrBase wr_slot with_slots with_root with_pmm].
      rewrite frame_address_small by (done || lia). unfold RNA_SLOT_SIZE. rewrite Hb, (u64_small (_ + 4096 * id)), u64_small by lia. lia.
    + exists (mkSlot 1 id IVLDPGID IVLDPGID 1). cbn [Bitmap This]. split; [apply lookup_insert_eq|]. split_and!; try done.
      intros k Hk. by rewrite (testbit_above 1 1 k), (testbit_above 1 1 31) by lia.
  - unfold root_bitmap. cbn [slots wr_slot with_slots]. by rewrite lookup_insert_eq.
  - split; [done|]. by rewrite V4.
  - intros p Hp Hp'. assert (page_free pm' p = page_free pm p) as E by (unfold page_free; by rewrite V2).
    rewrite E, Hfree in Hp' by done. by apply andb_true_iff in Hp' as [? _].
  - assert (ahead pm' = ahead pm) as ->; [|done]. unfold ahead, search_start. rewrite V8, V4. f_equal. symmetry. apply frees_ext. intros p _.
    unfold page_free. by rewrite V2.
Qed.

(** ** The tables at their direct-map addresses *)

Section Shift.
Context (m : gmap Z Z) (R vb : Z) (ow : gmap Z (list Z)) (W : pt_wf m 0 R ow).
Context (Hvb : 0 <= vb /\ vb mod 4096 = 0 /\ vb + 2 ^ 32 <= 2 ^ 64) (Hlow : forall t pi, ow !! t = Some pi -> 0 <= t < 2 ^ 32).
#[local] Abbreviation up := (fun a => vb + a).
#[local] Instance up_inj : Inj (=) (=) up.
Proof. intros x y. lia. Qed.

Lemma up_lookup {A} (x : gmap Z A) a : (fin_maps.kmap up x : gmap Z A) !! (vb + a) = x !! a.
Proof using. apply (lookup_kmap up). Qed.
Lemma up_word t i : (fin_maps.kmap up m : gmap Z Z) !! (vb + t + 8 * i) = m !! (t + 8 * i).
Proof using. rewrite <- (up_lookup m). f_equal. lia. Qed.
Lemma up_owner t pi : (fin_maps.kmap up ow : gmap Z (list Z)) !! t = Some pi <-> exists t', t = vb + t' /\ ow !! t' = Some pi.
Proof using.
  split; [intros (t' & -> & H)%(lookup_kmap_Some up); by exists t'|]. intros (t' & -> & H). by rewrite (up_lookup ow).
Qed.
(** The table an entry of the tree designates. *)
Lemma up_child t pi i e : ow !! t = Some pi -> 0 <= i < 512 -> m !! (t + 8 * i) = Some e -> Z.testbit e 0 = true ->
  follows (length pi) e = true -> u64 (0 + entry_frame e) = entry_frame e /\ u64 (vb + entry_frame e) = vb + entry_frame e /\ ow !! entry_frame e = Some (pi ++ [i]).
Proof using All.
  intros Ht Hi He Hp Hf. pose proof (pt_child _ _ _ _ W t pi i e Ht Hi He Hp Hf) as Hc. pose proof (entry_frame_range e) as Hr.
  rewrite Z.add_0_l, u64_small in * by lia. pose proof (Hlow _ _ Hc). split_and!; [done|apply u64_small; lia|done].
Qed.

Lemma shift_wf : pt_wf (fin_maps.kmap up m) vb (vb + R) (fin_maps.kmap up ow).
Proof using All.
  pose proof W as [W1 W2 W3 W4 W5]. split.
  - intros t. rewrite up_owner. split; [intros (t' & -> & H%W1); by subst|]. intros ->. exists R. split; [done|by apply W1].
  - intros t pi (t' & -> & H)%up_owner. pose proof (W2 t' pi H) as [H1 H2]. split; [|done]. destruct Hvb as (_ & Hv & _). zlia.
  - intros t pi i (t' & -> & H)%up_owner Hi. rewrite up_word. by eapply W3.
  - intros t pi i e (t' & -> & H)%up_owner Hi He Hp Hf. rewrite up_word in He.
    destruct (up_child t' pi i e H Hi He Hp Hf) as (_ & -> & Hc). apply up_owner. by exists (entry_frame e).
  - intros t pi i (t' & -> & H)%up_owner. destruct (W5 t' pi i H) as (t0 & e & H0 & Hi & He & Hp & Hf & Hc).
    destruct (up_child t0 pi i e H0 Hi He Hp Hf) as (E0 & E1 & _). exists (vb + t0), e. rewrite up_word, E1.
    split; [apply up_owner; by exists t0|]. split_and!; try done; try lia.
Qed.

Lemma shift_walk_from idxs : forall t pi, ow !! t = Some pi -> indices_ok idxs ->
  walk (fin_maps.kmap up m) vb (length pi) (vb + t) idxs = walk m 0 (length pi) t idxs.
Proof using All.
  induction idxs as [|i idxs IH]; intros t pi Ht Hok; [done|]. apply Forall_cons in Hok as [Hi Hok]. cbn [walk]. rewrite up_word.
  destruct (m !! (t + 8 * i)) as [e|] eqn:He; [|done]. destruct (Z.testbit e 0) eqn:Hp; [|done]. cbn [negb].
  destruct (follows (length pi) e) eqn:Hf; [|done]. destruct (up_child t pi i e Ht Hi He Hp Hf) as (-> & -> & Hc).
  pose proof (IH _ _ Hc Hok) as H. rewrite length_app in H. cbn in H. by rewrite Nat.add_1_r in H.
Qed.
Lemma shift_walk idxs : indices_ok idxs -> walk (fin_maps.kmap up m) vb 0 (vb + R) idxs = walk m 0 0 R idxs.
Proof using All. intros Hok. apply (shift_walk_from idxs R []); [by apply (pt_root _ _ _ _ W)|done]. Qed.
Lemma shift_translate va : mmu_translate (fin_maps.kmap up m) vb (vb + R) va = mmu_translate m 0 R va.
Proof using All. unfold mmu_translate. by rewrite shift_walk by apply va_indices_ok. Qed.
End Shift.

(** The state KrInitVirtmemmgmt goes on with, for any page manager in which the
    reserved area is not available. *)
Lemma paging_start_wf s0 b ow v tR :
  tables_kept s0 tR b ow -> DmapBase b = 0xFFFF800000000000 -> VirtAddrBase v = 0xFFFF800000000000 ->
  pmm_good (vPmm v) -> NrPages (vPmm v) <= 2 ^ 20 ->
  (forall t, reserved_page s0 t -> 0 <= t / 4096 < NrPages (vPmm v) /\ page_free (vPmm v) (t / 4096) = false) ->
  paging_wf (paging_start b v) (0xFFFF800000000000 + tR) (fin_maps.kmap (fun a => 0xFFFF800000000000 + a) ow) /\
  forall va, translate (paging_start b v) (0xFFFF800000000000 + tR) va = mmu_translate (Phys b) 0 tR va.
Proof.
  intros [W Hr _] Hd Hb Hg Hn Hres.
  assert (forall t pi, ow !! t = Some pi -> 0 <= t < 2 ^ 32) as Hlow.
  { intros t pi Ht. destruct (Hres t (Hr t pi Ht)). zlia. }
  assert (0 <= 0xFFFF800000000000 /\ 0xFFFF800000000000 mod 4096 = 0 /\ 0xFFFF800000000000 + 2 ^ 32 <= 2 ^ 64) as Hvb by (split_and!; (lia || reflexivity)).
  split.
  - split; unfold vbase, pmm_of, paging_start, direct_words; cbn [pgVmm tbl]; rewrite ?Hb, ?Hd; try done.
    + by apply shift_wf.
    + intros t pi (t' & -> & Ht)%up_owner. destruct (Hres t' (Hr t' pi Ht)) as [H1 H2]. exists (t' / 4096). split; [done|]. split; [|done].
      destruct (Hr t' pi Ht) as (_ & _ & Hm). zlia.
  - intros va. unfold translate, vbase, paging_start, direct_words. cbn [pgVmm tbl]. rewrite Hb, Hd. by apply shift_translate with (ow := ow).
Qed.

(** ** The kernel address space *)

Definition bin_region (p size : Z) : region := mkRegion p KVBASE (KVBASE + size) 156.
(** Its end is reckoned from the kernel's base, not from its own start. *)
Definition fb_region (p size : Z) : region := mkRegion p FRAMEBUFFER_VIRTUAL_ADDR (KVBASE + size) 164.

Record space_made (v v' : Vmm) (kspace root p0 pB pF kreserve fbsize : Z) : Prop := {
  sd_rna : rna_rep v' p0 [pF; pB];
  sd_bitmap : root_bitmap v' p0 = 7;
  sd_space : space_rep v' kspace [bin_region pB kreserve; fb_region pF fbsize];
  sd_root : spaces v' !! kspace = Some (mkSpace root pB pF 2);
  sd_frame : vPmm v' = vPmm v /\ VirtAddrBase v' = VirtAddrBase v /\ KernelPaddrRoot v' = root /\
    PatMsrState v' = PatMsrState v /\ NxUnsupported v' = NxUnsupported v
}.

Lemma krnl_space_spec v p0 fuel kspace root a kreserve fbsize :
  rna_rep v p0 [] -> root_bitmap v p0 = 1 -> kspace <> 0 -> spaces v !! kspace = Some a -> (0 < fuel)%nat ->
  0 < kreserve <= 2 ^ 30 -> 0 <= fbsize <= 2 ^ 30 ->
  exists v' pB pF, KrInitKrnlAddrSpace fuel v kspace root KVBASE kreserve FRAMEBUFFER_VIRTUAL_ADDR fbsize = Done (v', true) /\
    space_made v v' kspace root p0 pB pF kreserve fbsize.
Proof.
  intros Hr Hbm Hk Ha Hf Hkr Hfb. unfold KrInitKrnlAddrSpace, rd_space. rewrite (proj2 (Z.eqb_neq _ _) Hk), Ha. cbn [checked]. rewrite bind_Done.
  set (v1 := mkVmm _ _ _ _ _ _ _ _ _). assert (rna_rep v1 p0 []) as Hr1 by (destruct Hr; by split).
  assert (root_bitmap v1 p0 = 1) as Hb1 by exact Hbm.
  destruct (rna_acquire_spec v1 p0 [] fuel Hr1) as (v2 & pB & -> & HpB & _ & Hr2 & E2 & Hb2); [by rewrite Hb1|done|]. rewrite bind_Done, Hb1 in *.
  destruct (rna_acquire_spec v2 p0 [pB] fuel Hr2) as (v3 & pF & -> & HpF & Hne & Hr3 & E3 & Hb3); [by rewrite Hb2|done|]. rewrite bind_Done, Hb2 in *.
  rewrite (proj2 (Z.eqb_neq pB 0)), (proj2 (Z.eqb_neq pF 0)) by lia. cbn [orb].
  change (KVBASE <? FRAMEBUFFER_VIRTUAL_ADDR) with true. cbv iota. unfold KVBASE. rewrite (u64_small (_ + kreserve)), (u64_small (_ + fbsize)) by lia.
  fold KVBASE. rewrite !wr_node_ok, bind_Done by lia. cbn [nodes with_nodes]. rewrite wr_node_ok, bind_Done by lia. cbn [nodes with_nodes spaces with_spaces].
  eexists _, pB, pF. split; [reflexivity|].
  assert (vPmm v3 = vPmm v /\ VirtAddrBase v3 = VirtAddrBase v /\ KernelPaddrRoot v3 = root /\ PatMsrState v3 = PatMsrState v /\
    NxUnsupported v3 = NxUnsupported v) as F3 by (rewrite E3, E2; done).
  split; try done.
  - destruct Hr3. by split.
  - split; cbn [spaces with_spaces nodes with_nodes].
    + exists root. by rewrite lookup_insert_eq.
    + assert (pB <> pF) as Hd by set_solver. cbn [vseg bin_region fb_region g_ptr g_start g_end g_flags head_or].
      split_and!; [lia| |lia| |done].
      * eexists. rewrite lookup_insert_ne by done. apply lookup_insert_eq.
      * eexists. apply lookup_insert_eq.
    + cbn [rsorted bin_region fb_region g_start g_end]. unfold KVBASE, FRAMEBUFFER_VIRTUAL_ADDR. split_and!; try lia. by right.
    + cbn. apply NoDup_cons. split; [set_solver|apply NoDup_singleton].
  - cbn [spaces with_spaces]. apply lookup_insert_eq.
Qed.

(** ** HeapInit *)

Definition heap_st : Z := 0xFFFFFF8000000000.
Definition heap_nd : Z := 0xFFFFFFC000000000.
Definition heap_region (p : Z) : region := mkRegion p heap_st heap_nd 48.
(** The kernel address space after the start-up. *)
Definition boot_regions (pH pB pF kreserve fbsize : Z) : list region := [heap_region pH; bin_region pB kreserve; fb_region pF fbsize].

(** Other page managers know the root page by the same address. *)
Lemma rna_rep_pmm v pm p0 live : NrPages pm = NrPages (vPmm v) -> rna_rep v p0 live -> rna_rep (with_pmm v pm) p0 live.
Proof.
  intros Hn [R1 R2 R3 R4]. split; try done. intros k Hk. rewrite <- (R1 k Hk). unfold RnaGetSlotVptr, KrGetPhysicalPageAddress, KrIsValidPageID.
  cbn [vPmm with_pmm g_RnaRootPageID]. by rewrite Hn.
Qed.

(** What HeapInit leaves. *)
Record heap_made (p p' : Paging) (R : Z) (ow' : gmap Z (list Z)) (kspace : Z) (a a' : KrAddressSpace) (p0 : Z) (live : list Z)
    (pH pB pF kreserve fbsize : Z) (m : nat) : Prop := {
  hm_mmio : mmio_ready p' R ow' kspace a' (boot_regions pH pB pF kreserve fbsize) p0 (pH :: live);
  hm_stack : stack_ready p' R ow' kspace a' (boot_regions pH pB pF kreserve fbsize) (heap_st, heap_nd) m;
  hm_root : PaddrRoot a' = PaddrRoot a;
  hm_others : forall va, vpn va <> vpn heap_st -> translate p' R va = translate p R va;
  hm_taken : pages_taken (pmm_of p) (pmm_of p') /\ g_VaddrMmioHead p' = g_VaddrMmioHead p;
  hm_present : is_Some (translate p' R heap_st);
  hm_tag : exists n, rd_node (pgVmm p') pH = Done n /\ Tag n = "Kernel Heap"%string
}.

Lemma heap_accepts v root pB pF kreserve fbsize :
  root = KernelPaddrRoot v -> 0 < kreserve -> acquire_accepts v root heap_st heap_nd 48 [bin_region pB kreserve; fb_region pF fbsize].
Proof.
  intros -> Hk. split.
  { unfold region_args_ok. rewrite Z.eqb_refl. reflexivity. }
  unfold heap_st, heap_nd. split; [lia|]. split; [done|]. intros r Hr. unfold overlaps.
  apply elem_of_cons in Hr as [->|Hr]; [|apply list_elem_of_singleton in Hr as ->];
    unfold bin_region, fb_region, KVBASE, FRAMEBUFFER_VIRTUAL_ADDR; cbn [g_start g_end]; split_and!; try lia.
Qed.

(** The heap lies below the other regions. *)
Lemma heap_first l1 l2 pB pF pH kreserve fbsize v sp :
  [bin_region pB kreserve; fb_region pF fbsize] = l1 ++ l2 -> 0 < kreserve -> space_rep v sp (l1 ++ mkRegion pH heap_st heap_nd 48 :: l2) ->
  l1 ++ mkRegion pH heap_st heap_nd 48 :: l2 = boot_regions pH pB pF kreserve fbsize.
Proof.
  intros E Hk [_ _ Hs _]. destruct l1 as [|r l1]; [by cbn in *; subst l2|exfalso]. injection E as <- E.
  destruct l1 as [|r2 l1].
  - cbn in Hs. unfold bin_region, KVBASE, heap_st in Hs. destruct Hs as (_ & _ & H & _). cbn in H. lia.
  - injection E as <- E. destruct l1 as [|r3 l1]; [|by apply (f_equal length) in E; rewrite length_app in E].
    cbn in Hs. destruct Hs as (_ & _ & _ & [H|H] & H2 & _); [|done]. unfold heap_st, FRAMEBUFFER_VIRTUAL_ADDR in *. lia.
Qed.

Lemma heap_init_spec fuel kspace p R ow a p0 live pB pF kreserve fbsize m :
  mmio_ready p R ow kspace a [bin_region pB kreserve; fb_region pF fbsize] p0 live ->
  0 < kreserve -> next_bitmap (root_bitmap (pgVmm p) p0) <> QWORD_MAX -> (3 < fuel)%nat -> KernelPaddrRoot (pgVmm p) = PaddrRoot a ->
  bInPageFault p = false -> (forall va, heap_st <= va < heap_nd -> translate p R va = None) -> (4 * S m <= ahead (pmm_of p))%nat ->
  exists p' ow' a' pH, HeapInit_region kspace fuel p heap_zero = Done (p', heap_start, true) /\
    heap_made p p' R ow' kspace a a' p0 live pH pB pF kreserve fbsize m.
Proof.
  intros [Hwf HR (Hs & Hsp & Ha) (Hr1 & Hr2 & Hr3) Hpat] Hk Hbm Hf Hkr Hfl Hno Hah. unfold HeapInit_region. cbn [HeapInitialized heap_zero].
  change (KR_MAKE_VIRTUAL KRNL_PML4_IDX KRNL_HEAP_PDPT_IDX 0 0 0) with heap_st.
  change (u64 (heap_st + u64 (KR_MAKE_VIRTUAL KRNL_PML4_IDX KRNL_MMIO_PDPT_IDX 0 0 0 - heap_st))) with heap_nd. change (Z.lor VMR_FLAG_READABLE VMR_FLAG_WRITABLE) with 48.
  destruct (acquire_region_links (pgVmm p) p0 live kspace [bin_region pB kreserve; fb_region pF fbsize] fuel heap_st heap_nd 48 a) as (v1 & pH & -> & L1); try done;
    [cbn; lia|by apply heap_accepts|].
  rewrite bind_Done. change (pgVmm (with_vmm p v1)) with v1. pose proof (rl_fresh _ _ _ _ _ _ _ _ _ _ L1) as [HpH _].
  rewrite (proj2 (Z.eqb_neq _ _) HpH).
  destruct (tagged_region (pgVmm p) v1 p0 live kspace _ pH heap_st heap_nd 48 "Kernel Heap" L1 Hsp)
    as (v2 & n & -> & En & Ht & _ & _ & _ & _ & Hsm & Esp & Ev2 & l1 & l2 & El & Hs2); [done|done|].
  rewrite bind_Done. rewrite (heap_first _ _ _ _ _ _ _ _ _ El Hk Hs2) in Hs2. destruct (rl_root _ _ _ _ _ _ _ _ _ _ L1 a Ha) as (a' & Ha' & Hra).
  set (p1 := with_vmm (with_vmm p v1) v2). assert (KernelPaddrRoot v2 = PaddrRoot a') as -> by (rewrite (sm_root _ _ Hsm); congruence).
  assert (paging_wf p1 R ow) as Hwf1 by (apply (same_machine_wf p v2 R ow Hsm Hwf)).
  assert (spaces (pgVmm p1) !! kspace = Some a') as Ha1 by (change (spaces v2 !! kspace = Some a'); by rewrite Esp).
  assert (R = KrPhysToVirt v2 (PaddrRoot a')) as HR1 by (unfold KrPhysToVirt in *; by rewrite (sm_base _ _ Hsm), Hra).
  assert (rna_rep v2 p0 (pH :: live)) as Hrna by (pose proof (rl_rna _ _ _ _ _ _ _ _ _ _ L1) as H; rewrite Ev2; destruct H; by split).
  assert (root_bitmap v2 p0 = next_bitmap (root_bitmap (pgVmm p) p0)) as Hbm1.
  { rewrite <- (rl_bitmap _ _ _ _ _ _ _ _ _ _ L1). by rewrite Ev2. }
  assert (translate p1 R = translate p R) as Htr by (unfold translate, vbase; cbn [pgVmm p1 with_vmm tbl]; by rewrite (sm_base _ _ Hsm)).
  assert (stack_ready p1 R ow kspace a' (boot_regions pH pB pF kreserve fbsize) (heap_st, heap_nd) (S m)) as Hsk.
  { split; try done.
    - change (pat_state_ok (PatMsrState v2)). by rewrite (sm_pat _ _ Hsm).
    - exists (heap_region pH). split; [by left|]. cbn. split_and!; (reflexivity || lia || done).
    - intros va Hva e rest Hw. specialize (Hno va Hva). rewrite <- Htr in Hno. unfold translate, mmu_translate in Hno. rewrite Hw in Hno.
      by destruct rest as [|? [|? ?]].
    - change (pmm_of p1) with (vPmm v2). by rewrite (sm_pmm _ _ Hsm). }
  destruct (touch_spec kspace fuel p1 R ow a' _ _ m heap_st Hsk) as (p' & ow' & -> & Hsk' & Hext & Ev' & Hpr & Hpt & Hoth & Hhd); [cbn; lia|cbn; unfold heap_st, heap_nd; lia|].
  rewrite bind_Done. assert (HeapInit heap_zero pH = Done (heap_start, true)) as ->.
  { unfold HeapInit. cbn [HeapInitialized heap_zero]. rewrite (proj2 (Z.eqb_neq _ _) HpH). reflexivity. }
  rewrite bind_Done. exists p', ow', a', pH. split; [done|].
  assert (pages_taken (pmm_of p) (pmm_of p')) as Hpt' by (change (pmm_of p1) with (vPmm v2) in Hpt; by rewrite (sm_pmm _ _ Hsm) in Hpt).
  split; try done.
  - pose proof Hsk' as [K1 K2 K3 K4 K5 K6 K7 K8 K9]. split; try done. rewrite Ev'. split; [|split].
    + apply rna_rep_pmm; [|done]. apply Hpt.
    + change (root_bitmap v2 p0 <> QWORD_MAX). by rewrite Hbm1.
    + cbn. intros x [->|Hx]%elem_of_cons; [by left|right]. by apply Hr3.
  - intros va Hva. by rewrite Hoth, Htr.
  - exists n. by rewrite Ev'.
Qed.

(** ** KrInitVirtmemmgmt *)

(** What KrVmmInitCpu makes of the registers and of the manager's state. *)
Definition cpu_after (EDX : Z) (c : VmmCpu) : VmmCpu :=
  mkVmmCpu (Z.lor (vcCR0 c) 0x10000) (Z.lor (vcCR4 c) 0xB0)
    (if has_flag EDX KR_CPUID_FEAT_EDX_NX_BIT then Z.lor (vcEFER c) 0x800 else vcEFER c) KrVmmInitPat.1.
Definition cpu_boot (EDX : Z) (b : Boot) : Boot :=
  mkBoot (LoadInfo b) (FrameBufferInfo b) (CanonicalMemoryMap b) (FirmwareMap b) (img b) KrVmmInitPat.2 (mkPat false false false)
    (bHugePageSupport b || has_flag EDX KR_CPUID_FEAT_EDX_PDPE1GB) (DmapBase b) (DirectMap.CR3 b) (bArena b) (bPmm b) (Dmap b) (Phys b).
Lemma vmm_cpu_spec EDX c b : KrVmmInitCpu EDX c b = Done (cpu_after EDX c, cpu_boot EDX b, has_flag EDX KR_CPUID_FEAT_EDX_NX_BIT).
Proof. reflexivity. Qed.

(** What the construction of the page tables asks of the loader and the map. *)
Record tables_input (b : Boot) (tR tK tD tF : Z) : Prop := {
  ti_boot : boot_ok b tR tK tD tF;
  ti_arena : arena_ok b [tR; tK; tD; tF];
  ti_descs : Forall desc_ok (mapped_descs b) /\ ForallOrdPairs desc_disjoint (mapped_descs b);
  ti_room : Z.of_nat (size (needed b)) <= arena_structs b
}.

(** The page manager, with a run of pages at [st] for the metadata and one more. *)
Record pages_input (b : Boot) (pm : Pmm) (st : Z) : Prop := {
  pi_good : pmm_good pm /\ InitStage pm = PMM_INIT_STAGE_BASIC /\ NrPages pm <= 2 ^ 20;
  pi_total : 0 < TotalPages pm < 2 ^ 29 /\ 8 * BitmapSize pm <= meta_entries (TotalPages pm);
  pi_run : 0 <= search_start pm IVLDPGID <= st /\ st + meta_pages (TotalPages pm) <= NrPages pm /\ all_free pm st (meta_pages (TotalPages pm));
  pi_kernel : forall t, reserved_page b t -> 0 <= t / 4096 < NrPages pm /\ page_free pm (t / 4096) = false
}.
Definition pages_behind (pm : Pmm) (st : Z) : nat :=
  length (frees pm (st + meta_pages (TotalPages pm)) (NrPages pm - (st + meta_pages (TotalPages pm)))).

Definition DMAP : Z := 0xFFFF800000000000.

Record virt_ready (EDX : Z) (kspace : Z) (b : Boot) (tR st : Z) (m m' : MemInit) (ow : gmap Z (list Z)) (p0 pB pF : Z) : Prop := {
  vr_mmio : mmio_ready (miPaging m') (DMAP + tR) ow kspace (mkSpace tR pB pF 2)
    [bin_region pB (ReserveSize (LoadInfo b)); fb_region pF (fbSize (FrameBufferInfo b))] p0 [pF; pB];
  vr_bitmap : root_bitmap (pgVmm (miPaging m')) p0 = 7;
  vr_root : KernelPaddrRoot (pgVmm (miPaging m')) = tR;
  vr_nx : NxUnsupported (pgVmm (miPaging m')) = negb (has_flag EDX KR_CPUID_FEAT_EDX_NX_BIT);
  vr_state : miInitialized m' = true /\ bInPageFault (miPaging m') = false /\ miHeap m' = miHeap m /\ miCpu m' = cpu_after EDX (miCpu m) /\
    g_VaddrMmioHead (miPaging m') = heap_nd;
  vr_translate : forall va, translate (miPaging m') (DMAP + tR) va = mmu_translate (Phys (miBoot m')) 0 tR va;
  vr_tables : paging_ok (cpu_boot EDX b) tR (miBoot m');
  vr_taken : pages_taken (bPmm b) (pmm_of (miPaging m'));
  vr_ahead : (pages_behind (bPmm b) st <= S (ahead (pmm_of (miPaging m'))))%nat
}.

(** The array of metadata leaves the pages behind it. *)
Lemma meta_ahead pm pm' base st : pmm_wf pm -> NrPages pm <= 2 ^ 20 -> meta_placed pm pm' base (meta_pages (TotalPages pm)) -> base <= st ->
  0 < TotalPages pm -> st + meta_pages (TotalPages pm) <= NrPages pm -> (pages_behind pm st <= ahead pm')%nat.
Proof.
  intros Hw Hn [M1 M2 M3 M4 (M5 & M6 & _) M7 M8] Hb Ht Hst. set (n := meta_pages (TotalPages pm)) in *.
  assert (0 < n) as Hn0 by (unfold n, meta_pages; zlia).
  assert (search_start pm' IVLDPGID = base + n) as Es.
  { unfold search_start. cbn. rewrite M8. unfold IVLDPGID. destruct (Z.eqb_spec (base + n) 0xFFFFFFFF); lia. }
  etrans; [|apply (ahead_from pm' (st + n)); lia]. unfold pages_behind. fold n. rewrite M3. rewrite (frees_ext pm pm'); [done|].
  intros p Hp. rewrite M4 by lia. rewrite bool_decide_false by lia. by rewrite andb_true_r.
Qed.

Lemma virtmemmgmt_spec EDX kspace fuel c b pa h tR tK tD tF st :
  tables_input (cpu_boot EDX b) tR tK tD tF -> pages_input b (bPmm b) st -> (0 < pages_behind (bPmm b) st)%nat -> kspace <> 0 -> (0 < fuel)%nat ->
  exists m' ow p0 pB pF, KrInitVirtmemmgmt kspace fuel EDX (mkMemInit c b pa h false) = Done (m', true) /\
    virt_ready EDX kspace b tR st (mkMemInit c b pa h false) m' ow p0 pB pF.
Proof.
  intros [B A [Hd Hp] Hroom] [(G & G1 & G2) (T1 & T2) (R1 & R2 & R3) HK] Hbeh Hks Hf. set (b1 := cpu_boot EDX b) in *.
  pose proof G as [Gw _ _]. unfold KrInitVirtmemmgmt. cbn [miInitialized miCpu miBoot miPaging miHeap]. rewrite vmm_cpu_spec, bind_Done. fold b1.
  destruct (init_paging_spec b1 tR tK tD tF B A Hd Hp Hroom) as (b2 & ow & -> & PO & TK). rewrite bind_Done. cbn [negb].
  destruct (tk_rest _ _ _ _ TK) as (F1 & F2 & F3 & F4 & F5 & F6 & F7). rewrite F1. change (bPmm b1) with (bPmm b).
  destruct (meta_array_spec (fun p => u64 (DmapBase b2 + p)) (bPmm b) st G G1 T1 T2 R1 R2 R3 G2) as (pm & base & -> & Hm & Hbase).
  rewrite bind_Done. cbn [ensure]. rewrite bind_Done. pose proof (meta_ahead _ _ _ _ Gw G2 Hm Hbase ltac:(lia) R2) as Hah.
  destruct Hm as [M1 M2 M3 M4 M5 M6 M7]. destruct (po_root _ _ _ PO) as [ER ED].
  destruct (rna_init_spec (vmm_start kspace b2 pm (has_flag EDX KR_CPUID_FEAT_EDX_NX_BIT))) as (v1 & p0 & -> & [S1 S2 [S3 S4] S5 S6 S7]);
    [done|done|cbn; by rewrite M3|done|cbn; lia|].
  rewrite bind_Done. cbn [ensure]. rewrite bind_Done. cbn [vmm_start vPmm] in *.
  rewrite F2, F3, F4. change (LoadInfo b1) with (LoadInfo b). change (FrameBufferInfo b1) with (FrameBufferInfo b). change (img b1) with (img b).
  pose proof (bo_virt _ _ _ _ _ B) as Bv. pose proof (bo_reserve _ _ _ _ _ B) as Br. pose proof (bo_fbsize _ _ _ _ _ B) as Bf.
  change (LoadInfo b1) with (LoadInfo b) in Bv, Br. change (FrameBufferInfo b1) with (FrameBufferInfo b) in Bf. rewrite Bv.
  assert (KrReservedVirtToPhys b2 (g_PML4 (img b)) = tR) as ->.
  { destruct (static_table b1 tR tK tD tF B tR ltac:(by left)) as (_ & _ & _ & Hst). pose proof (bo_img _ _ _ _ _ B) as Bi. change (img b1) with (img b) in Bi.
    unfold KrReservedVirtToPhys in *. rewrite F2, Bi. exact Hst. }
  destruct (krnl_space_spec v1 p0 fuel kspace tR (mkSpace 0 0 0 0) (ReserveSize (LoadInfo b)) (fbSize (FrameBufferInfo b)))
    as (v2 & pB & pF & -> & [D1 D2 D3 D4 (D5 & D6 & D7 & D8 & D9)]); try done.
  { rewrite S7. cbn. apply lookup_singleton_eq. }
  rewrite bind_Done. cbn [ensure]. rewrite bind_Done. exists (mkMemInit (cpu_after EDX c) b2 (paging_start b2 v2) h true),
    (fin_maps.kmap (fun a => 0xFFFF800000000000 + a) ow), p0, pB, pF. split; [done|].
  assert (VirtAddrBase v2 = 0xFFFF800000000000 /\ PatMsrState v2 = KrVmmInitPat.2 /\ NxUnsupported v2 = negb (has_flag EDX KR_CPUID_FEAT_EDX_NX_BIT)) as (V1 & V2 & V3).
  { rewrite D6, D8, D9, S7. cbn. rewrite ED, F5. done. }
  assert (forall q, 0 <= q -> page_free (vPmm v2) q = true -> page_free (bPmm b) q = true) as Hfr.
  { intros q Hq Hq'. rewrite D5 in Hq'. apply S5 in Hq'; [|done]. rewrite M4 in Hq' by done. by apply andb_true_iff in Hq' as [? _]. }
  assert (NrPages (vPmm v2) = NrPages (bPmm b)) as Hnr by (rewrite D5, S4; exact M3).
  destruct (paging_start_wf b1 b2 ow v2 tR TK ED V1) as [W HT].
  { by rewrite D5. } { by rewrite Hnr. }
  { intros t Ht. destruct (HK t Ht) as [H1 H2]. rewrite Hnr. split; [done|]. destruct (page_free (vPmm v2) (t / 4096)) eqn:E; [|done].
    apply Hfr in E; [|lia]. congruence. }
  split; cbn [miPaging miBoot miHeap miCpu miInitialized pgVmm paging_start bInPageFault g_VaddrMmioHead]; try done.
  - split; cbn [pgVmm paging_start]; try done.
    + unfold KrPhysToVirt. cbn [PaddrRoot]. rewrite V1. unfold DMAP. rewrite u64_small; [done|].
      assert (reserved_page b1 tR) as Hres by exact (proj1 (proj1 (Forall_forall _ _) (bo_tables _ _ _ _ _ B) tR ltac:(by left))).
      destruct (HK tR Hres). zlia.
    + split; [done|]. split; [by rewrite D2|]. cbn. intros x Hx. set_solver.
    + rewrite V2. repeat constructor; vm_compute; congruence.
  - change (pmm_of (paging_start b2 v2)) with (vPmm v2). rewrite D5. lia.
Qed.

(** ** KrInitMem *)

Definition kernel_base (b : Boot) : Z := AddrPhysicalBase (LoadInfo b).
Definition kernel_size (b : Boot) : Z := ReserveSize (LoadInfo b).
Definition bitmap_bytes (b : Boot) : Z := (init_pages (FirmwareMap b) + 7) / 8.
(** The pages the page manager starts with. *)
Definition usable (b : Boot) (q : Z) : bool :=
  in_canon q (CanonicalMemoryMap b) && negb (in_kernel q (kernel_base b) (kernel_size b)) && (256 <=? q).
Definition usables (b : Boot) (lo n : Z) : list Z := filter (fun q => usable b q = true) (seqZ lo n).
Definition map_pages (b : Boot) : Z := TotalPages (discovered (FirmwareMap b)).
(** The arena once the two bitmaps of the page manager are taken from it. *)
Definition bitmaps_taken (b : Boot) : Boot := with_arena b (after_bitmaps (bArena b) (bitmap_bytes b)).

(** A machine of at most 4 GiB, with a run of usable pages at [st] for the page
    metadata and enough more for [S m] pages of the heap. *)
Record mem_input (EDX : Z) (b : Boot) (tR tK tD tF st : Z) (m : nat) : Prop := {
  me_init : init_input (FirmwareMap b) (CanonicalMemoryMap b) (kernel_base b) (kernel_size b) /\ bPmm b = pmm_zero;
  me_bitmaps : arena_fits (bArena b) (bitmap_bytes b);
  me_tables : tables_input (cpu_boot EDX (bitmaps_taken b)) tR tK tD tF;
  me_small : init_pages (FirmwareMap b) <= 2 ^ 20;
  me_total : 0 < map_pages b < 2 ^ 29 /\ 8 * bitmap_bytes b <= meta_entries (map_pages b);
  me_run : init_hint 0 (CanonicalMemoryMap b) <= st /\ st + meta_pages (map_pages b) <= init_pages (FirmwareMap b) /\
    forall q, st <= q < st + meta_pages (map_pages b) -> usable b q = true;
  me_enough : let behind := st + meta_pages (map_pages b) in
    (4 * S m < length (usables b behind (init_pages (FirmwareMap b) - behind)))%nat
}.

Record memory_ready (EDX kspace : Z) (b : Boot) (tR : Z) (m : nat) (c : VmmCpu) (r : MemInit) (ow : gmap Z (list Z)) (a : KrAddressSpace)
    (p0 pH pB pF : Z) : Prop := {
  my_mmio : mmio_ready (miPaging r) (DMAP + tR) ow kspace a (boot_regions pH pB pF (kernel_size b) (fbSize (FrameBufferInfo b))) p0 [pH; pF; pB];
  my_heap : heap_rep (miHeap r) [heap_init_block] /\
    stack_ready (miPaging r) (DMAP + tR) ow kspace a (boot_regions pH pB pF (kernel_size b) (fbSize (FrameBufferInfo b))) (span (miHeap r)) m /\
    is_Some (translate (miPaging r) (DMAP + tR) heap_st);
  my_state : miInitialized r = true /\ miCpu r = cpu_after EDX c /\ g_VaddrMmioHead (miPaging r) = heap_nd /\ PaddrRoot a = tR;
  my_tables : paging_ok (cpu_boot EDX (bitmaps_taken b)) tR (miBoot r);
  my_translate : forall va, vpn va <> vpn heap_st -> translate (miPaging r) (DMAP + tR) va = mmu_translate (Phys (miBoot r)) 0 tR va;
  my_pages : forall q off, 0 <= q < NrPages (pmm_of (miPaging r)) -> 0 <= off < 4096 -> page_free (pmm_of (miPaging r)) q = true ->
    usable b q = true /\ exists e, translate (miPaging r) (DMAP + tR) (DMAP + 4096 * q + off) = Some (4096 * q + off, e) /\ data_entry e
}.

Lemma frees_usables b s lo n : (forall q, lo <= q < lo + n -> page_free s q = usable b q) -> frees s lo n = usables b lo n.
Proof.
  intros H. unfold frees, usables. assert (forall q, q ∈ seqZ lo n -> page_free s q = usable b q) as Hl by (intros q Hq%elem_of_seqZ; by apply H).
  clear H. induction (seqZ lo n) as [|q l IH]; [done|]. rewrite !filter_cons, Hl, IH by set_solver. done.
Qed.

Section Compose.
Context (EDX kspace : Z) (b : Boot) (tR tK tD tF st : Z) (m : nat) (I : mem_input EDX b tR tK tD tF st m).

(** The page manager before the page tables are built. *)
Lemma pages_ready : exists pm s0, KrInitPhysmemmgmt pmm_zero (bArena b) (FirmwareMap b) (CanonicalMemoryMap b) (kernel_base b) (kernel_size b) =
    Done (s0, after_bitmaps (bArena b) (bitmap_bytes b), true) /\ test_page s0 = Done pm /\ pages_input b pm st /\
  (4 * S m < pages_behind pm st)%nat /\ (forall q, 0 <= q < NrPages pm -> page_free pm q = usable b q).
Proof using All.
  destruct I as [(Hin & _) Hbm HT Hsm (T1 & T2) (R1 & R2 & R3) Hen].
  destruct (init_spec (bArena b) _ _ _ _ Hin Hbm) as (s0 & E0 & Hi). pose proof (initialized_good _ _ _ _ _ Hi) as Hg.
  fold (bitmap_bytes b) in E0. destruct Hi as [I1 I2 I3 I4 I5 I6 I7 I8 I9]. fold (map_pages b) in I9.
  assert (0 < meta_pages (map_pages b)) as Hn by (unfold meta_pages; zlia).
  assert (search_start s0 IVLDPGID = init_hint 0 (CanonicalMemoryMap b)) as Es.
  { unfold search_start. cbn. rewrite I8. unfold IVLDPGID. destruct (Z.eqb_spec (init_hint 0 (CanonicalMemoryMap b)) 0xFFFFFFFF) as [E|]; [|done].
    rewrite E in R1. lia. }
  pose proof (pw_hint _ I1) as Hh. rewrite I8 in Hh. rewrite <- I4 in *.
  destruct (test_page_spec s0 st Hg) as (pm & Et & [P1 P2 P3 [P4 P5] P6] & Hst); [lia|lia| |].
  { rewrite I5 by lia. apply R3. lia. }
  assert (forall q, 0 <= q < NrPages pm -> page_free pm q = usable b q) as Hfr by (intros q Hq; rewrite P2, I5 by lia; done).
  exists pm, s0. split; [exact E0|]. split; [done|]. rewrite I9 in P6. pose proof P1 as [Gw _ _]. split; [split|split; [|done]].
  - split; [done|]. split; [congruence|lia].
  - rewrite P6. split; [done|]. rewrite (pw_size _ Gw), P4, I4. exact T2.
  - rewrite P6. split; [lia|]. split; [lia|]. intros q Hq. rewrite Hfr by lia. by apply R3.
  - intros t (Q1 & Q2 & Q3). pose proof (bo_phys _ _ _ _ _ (ti_boot _ _ _ _ _ HT)) as (B1 & B2 & B3). destruct Hin as [_ _ (K1 & K2 & K3)].
    change (AddrPhysicalBase (LoadInfo (cpu_boot EDX (bitmaps_taken b)))) with (kernel_base b) in B1, B2, B3.
    fold (kernel_base b) (kernel_size b) in Q1, Q2. rewrite <- I4 in K3. unfold KR_PAGE_SIZE in K3.
    assert (kernel_base b / 4096 <= t / 4096 < kernel_base b / 4096 + kernel_size b / 4096) as Hr by zlia.
    split; [zlia|]. rewrite Hfr by zlia. unfold usable, in_kernel, KR_PAGE_SIZE.
    rewrite (proj2 (Z.leb_le _ _)), (proj2 (Z.ltb_lt _ _)) by lia. cbn [andb negb]. by rewrite andb_false_r.
  - unfold pages_behind. rewrite P6, (frees_usables b); [by rewrite P4|]. intros q Hq. apply Hfr. lia.
Qed.

(** A page a canonical region holds is in the direct map. *)
Lemma usable_mapped q off : usable b q = true -> 0 <= q < 2 ^ 20 -> 0 <= off < 4096 ->
  exists d, d ∈ mapped_descs (cpu_boot EDX (bitmaps_taken b)) /\ in_desc d (4096 * q + off).
Proof using All.
  intros Hu Hq Ho. unfold usable in Hu. rewrite !andb_true_iff in Hu. destruct Hu as [[Hc _] _]. unfold in_canon in Hc.
  apply existsb_exists in Hc as (d & Hd%list_elem_of_In & Hr). apply andb_true_iff in Hr as [Hr1%Z.leb_le Hr2%Z.ltb_lt].
  destruct I as [(Hin & _) _ HT _ _ _ _]. pose proof (proj1 (Forall_forall _ _) (ii_canon _ _ _ _ Hin) d Hd) as (C1 & C2 & C3). destruct (ii_nr _ _ _ _ Hin) as [_ N].
  assert (d ∈ mapped_descs (cpu_boot EDX (bitmaps_taken b))) as Hm by (apply elem_of_app; by left).
  pose proof (proj1 (Forall_forall _ _) (proj1 (ti_descs _ _ _ _ _ HT)) d Hm) as (_ & D2 & _). exists d. split; [done|].
  unfold KR_PAGE_SIZE in *. assert (0 <= PhysicalBase d / 4096) by zlia.
  unfold in_desc, region_bytes, KR_PAGE_SIZE. rewrite u64_small by lia. zlia.
Qed.
End Compose.

(** C2: The memory start-up, from the zeroed managers to the heap.  On a machine of
    at most 4 GiB whose memory map has page-aligned, disjoint regions, with room in
    the bootstrap arena for the bitmaps and the tables and enough usable memory
    behind the kernel, KrInitMem returns, with no meltdown and no fault, and
    hands over: the page tables [init_paging] built, loaded; the managers of
    pages, regions and tables ready to map devices and to serve page faults in
    the heap's region; a kernel address space that holds the heap, the kernel and
    the frame buffer; a heap with one free block; the first page of the heap
    present.  The only translation that is not the one of the new tables is that page's, and
    every page the page manager can still hand out is usable memory and
    can be reached through the direct map. *)
Theorem init_mem_hands_over (EDX kspace : Z) (fuel : nat) (c : VmmCpu) (b : Boot) (pa : Paging) (tR tK tD tF st : Z) (m : nat)
    (I : mem_input EDX b tR tK tD tF st m) (Hk : kspace <> 0) (Hf : (3 < fuel)%nat) :
  exists r ow a p0 pH pB pF, KrInitMem kspace fuel EDX (mkMemInit c b pa heap_zero false) = Done r /\
    memory_ready EDX kspace b tR m c r ow a p0 pH pB pF.
Proof.
  destruct (pages_ready EDX kspace b tR tK tD tF st m I) as (pm & s0 & E0 & Et & Hpi & Hbeh & Hfr).
  pose proof I as [(Hin & Ez) Hbm HT Hsm _ _ _]. unfold KrInitMem. cbn [miBoot miCpu miPaging miHeap miInitialized with_boot]. rewrite Ez.
  fold (kernel_base b) (kernel_size b). rewrite E0, bind_Done. cbn [ensure]. rewrite bind_Done, Et, bind_Done. fold (bitmaps_taken b).
  set (b1 := with_bpmm (bitmaps_taken b) pm).
  assert (tables_input (cpu_boot EDX b1) tR tK tD tF) as HT1.
  { destruct HT as [[B1 B2 B3 B4 B5 B6 B7 B8 B9 B10] [A1 A2 A3] H3 H4]. split; [by split|by split|exact H3|exact H4]. }
  assert (pages_input b1 (bPmm b1) st) as Hpi1 by (destruct Hpi as [Q1 Q2 Q3 Q4]; by split).
  change (with_boot (mkMemInit c b pa heap_zero false) b1) with (mkMemInit c b1 pa heap_zero false).
  destruct (virtmemmgmt_spec EDX kspace fuel c b1 pa heap_zero tR tK tD tF st HT1 Hpi1) as (m1 & ow1 & p0 & pB & pF & -> & V); [change (bPmm b1) with pm; lia|done|lia|].
  rewrite bind_Done. cbn [ensure]. rewrite bind_Done. destruct V as [V1 V2 V3 V4 (V5 & V6 & V7 & V8 & V9) V10 V11 V12 V13]. rewrite V7. cbn [miHeap].
  change (bPmm b1) with pm in V12, V13. pose proof (bo_reserve _ _ _ _ _ (ti_boot _ _ _ _ _ HT1)) as Br.
  destruct (heap_init_spec fuel kspace (miPaging m1) (DMAP + tR) ow1 (mkSpace tR pB pF 2) p0 [pF; pB] pB pF (kernel_size b) (fbSize (FrameBufferInfo b)) m)
    as (p2 & ow2 & a2 & pH & -> & [K1 K2 K3 K4 (K5 & K6) K7 K8]); try done.
  - apply Br.
  - rewrite V2. vm_compute. discriminate.
  - intros va Hva. rewrite V10. apply (po_else _ _ _ V11).
    + unfold va_indices, dpi. unfold heap_st, heap_nd in Hva. zlia.
    + intros (k & rest & Hk' & E). unfold va_indices in E. injection E as _ E _. unfold heap_st, heap_nd in Hva. zlia.
    + intros (k & rest & Hk' & E). unfold va_indices in E. injection E as _ E _. unfold heap_st, heap_nd in Hva. zlia.
  - lia.
  - rewrite bind_Done. cbn [ensure]. rewrite bind_Done. eexists _, ow2, a2, p0, pH, pB, pF. split; [done|].
    split; cbn [miPaging miHeap miBoot miCpu miInitialized].
    + exact K1.
    + split; [apply heap_init_good|]. split; [exact K2|exact K7].
    + rewrite K6. split; [exact V5|]. split; [exact V8|]. split; [exact V9|exact K3].
    + destruct V11; by split.
    + intros va Hva. by rewrite K4, V10.
    + intros q off Hq Ho Hfree. rewrite (proj1 K5), (proj1 V12) in Hq. apply (proj2 K5) in Hfree; [|lia]. apply (proj2 V12) in Hfree; [|lia].
      rewrite Hfr in Hfree by done. split; [done|]. destruct (pi_good _ _ _ Hpi) as (_ & _ & Hn).
      destruct (usable_mapped EDX kspace b tR tK tD tF st m I q off Hfree ltac:(lia) Ho) as (d & Hd & Hin').
      destruct (po_mapped _ _ _ V11 (4096 * q + off)) as (e & He & Hde); [unfold dmap_pages; lia|by exists d|].
      exists e. split; [|done]. rewrite K4, V10; [|unfold vpn, DMAP, heap_st; zlia]. unfold DMAP. rewrite <- He. f_equal. lia.
Qed.

(** A machine with 32 MiB: the kernel's area of 4 MiB starts at 2 MiB and holds
    the tables and a bootstrap arena of 448 KiB. *)
Definition small_boot : Boot := mkBoot
  (mkLoadInfo 0x400000 0x200000 KVBASE) (mkFbInfo 0xE0000000 0x400000)
  [sample_desc 0 8192 7] [sample_desc 0 256 7; sample_desc 0x100000 7936 7]
  (mkImage (KVBASE + 0x1000) (KVBASE + 0x2000) (KVBASE + 0x3000) (KVBASE + 0x4000))
  (mkPatMsr 0 0 0 0 0 0) (mkPat false false false) false 0 0
  (mkArena (KVBASE + 0x10000) (KVBASE + 0x10010) (KVBASE + 0x80000)) pmm_zero (mkDmapInfo 0 0 0 0 0)
  (foldr (fun t m => zero_page m t) ∅ [0x201000; 0x202000; 0x203000; 0x204000]).

Lemma small_tables : tables_input (cpu_boot KR_CPUID_FEAT_EDX_NX_BIT (bitmaps_taken small_boot)) 0x201000 0x202000 0x203000 0x204000.
Proof.
  split.
  - assert (NoDup [0x201000; 0x202000; 0x203000; 0x204000]) as Hn by (apply (bool_decide_eq_true_1 _); reflexivity).
    split; try done; try (cbn; lia); [cbn; split_and!; (reflexivity || lia)..|].
    assert (Forall (zero_table (Phys small_boot)) [0x201000; 0x202000; 0x203000; 0x204000]) as Hz by (apply zero_pages_table; [done|repeat constructor]).
    rewrite Forall_forall in Hz. apply Forall_forall. intros t Ht. split; [|by apply Hz].
    repeat (apply elem_of_cons in Ht as [->|Ht]; [unfold reserved_page; cbn; split_and!; (lia || reflexivity)|]). by apply not_elem_of_nil in Ht.
  - split; [vm_compute; split; congruence|vm_compute; split; congruence|].
    repeat (apply Forall_cons; split; [left; vm_compute; congruence|]). by apply Forall_nil.
  - assert (mapped_descs (cpu_boot KR_CPUID_FEAT_EDX_NX_BIT (bitmaps_taken small_boot)) = [sample_desc 0 8192 7]) as -> by reflexivity.
    split; [|repeat constructor]. apply Forall_cons. split; [split_and!; vm_compute; congruence|by apply Forall_nil].
  - vm_compute. congruence.
Defined.

Lemma small_input : mem_input KR_CPUID_FEAT_EDX_NX_BIT small_boot 0x201000 0x202000 0x203000 0x204000 256 256.
Proof.
  split.
  - split; [|reflexivity]. split; [vm_compute; split; congruence| |vm_compute; split_and!; congruence].
    apply Forall_cons. split; [split_and!; vm_compute; congruence|by apply Forall_nil].
  - vm_compute. split; congruence.
  - exact small_tables.
  - vm_compute. congruence.
  - vm_compute. split_and!; congruence.
  - split; [vm_compute; congruence|]. split; [vm_compute; congruence|]. change (meta_pages (map_pages small_boot)) with 13. intros q Hq.
    assert (Forall (fun q => usable small_boot q = true) (seqZ 256 13)) as H by (apply (bool_decide_unpack _); by vm_compute).
    rewrite Forall_forall in H. apply H, elem_of_seqZ. lia.
  - apply Nat.ltb_lt. vm_compute. reflexivity.
Defined.

Lemma init_mem_hands_over_witness :
  exists r ow a p0 pH pB pF, KrInitMem 1 4 KR_CPUID_FEAT_EDX_NX_BIT
      (mkMemInit (mkVmmCpu 0x80000011 0x620 0x500 0x0007040600070406) small_boot sample_paging heap_zero false) = Done r /\
    memory_ready KR_CPUID_FEAT_EDX_NX_BIT 1 small_boot 0x201000 256 (mkVmmCpu 0x80000011 0x620 0x500 0x0007040600070406) r ow a p0 pH pB pF.
Proof.
  apply (init_mem_hands_over KR_CPUID_FEAT_EDX_NX_BIT 1 4 (mkVmmCpu 0x80000011 0x620 0x500 0x0007040600070406) small_boot sample_paging
    0x201000 0x202000 0x203000 0x204000 256 256); [exact small_input|discriminate|lia].
Defined.
