(* ===== verification/SmpAp.v ===== *)
(** * Multiprocessor start-up: the steps of the application processors *)
From Stdlib Require Import ZArith Lia String.
From stdpp Require Import base numbers list gmap sets.
From S2P Require Import Prelude KrtlMem Pte Vmr PageTable PageTableSpec PageTableProps Heap Alloc Interrupts Descriptors Acpi Apic Nmi NmiProps Bytes Smp SmpSpec.
Open Scope Z_scope.

(** The addresses of the linked image. *)
Record link_ok (image : list Z) (LmEntry Entry Stacks : Z) : Prop := {
  lk_image : Z.of_nat (length image) <= 0x8000;
  lk_label : 0 <= LmEntry < 2 ^ 16;
  lk_entry : 0 <= Entry < 2 ^ 64;
  lk_stacks : 0 <= Stacks < 2 ^ 64
}.

(** What a processor finds; it does not change while they start. *)
Record site (s : Smp) (cr3 R : Z) (L : list Z) (f : Z -> Z * Z) : Prop := {
  si_low : low_mapped (smPaging s) R;
  si_root : R = root_of s cr3 /\ 0 <= cr3 < 2 ^ 32;
  si_gdt : gdt_set s;
  si_stacks : forall j, j ∈ L -> sg_InitialStacks s !! Z.to_nat j = Some ((f j).1 + PER_CORE_STACK_SIZE) /\ (f j).1 mod 8 = 0 /\
    PER_CORE_STACK_SIZE <= (f j).2 /\ is_Some (translate (smPaging s) R ((f j).1 + PER_CORE_STACK_SIZE - 8))
}.

Lemma num_at_bytes m a k n x : rd m a k = le_bytes n x -> 0 <= x < 2 ^ (8 * Z.of_nat n) -> num_at m a k = x.
Proof. intros E H. unfold num_at. rewrite E. by apply le_value_bytes. Qed.
Lemma mask_aligned x : x mod 8 = 0 -> Z.land x (Z.lnot 7) = x.
Proof.
  intros H. change 7 with (Z.ones 3). rewrite <- Z.ldiff_land, Z.ldiff_ones_r by lia. rewrite Z.shiftr_div_pow2, Z.shiftl_mul_pow2 by lia.
  change (2 ^ 3) with 8. zlia.
Qed.

Section Boot.
Context (image : list Z) (LmEntry Entry Stacks : Z) (nx : bool).
Hypothesis Hlink : link_ok image LmEntry Entry Stacks.

(** The registers with which C code starts. *)
Definition entered (cr3 sp : Z) : Cpu :=
  mkCpu ApEntry 0x80010011 cr3 0x2B0 (if nx then 0x900 else 0x100) PAT_VALUE sp 8 16 (0x1006, 23).

Lemma trampoline_real_spec m gdt g cr3 sp : boot_low image Entry Stacks m gdt g cr3 sp -> 0 <= cr3 < 2 ^ 32 -> 32 <= sp < 2 ^ 16 ->
  trampoline_real m (cpu_reset (ApRealMode 0x8000)) =
    (write_at m 0x7014 (le_bytes 2 (sp - 32)), mkCpu (ApRealMode 0x8000) 0x80010011 cr3 0x2B0 0x100 PAT_VALUE sp 0xF000 0 (0x1006, 23)).
Proof.
  intros Hb Hc Hs. pose proof (boot_low_base _ _ _ _ _ _ _ _ (sp - 32) Hb) as Hb'. unfold trampoline_real, KR_AP_BOOT_INFO_ADDRESS.
  change (0x7000 + 20) with 0x7014. change (0x7000 + 26) with 0x701A. change (0x7000 + 16) with 0x7010.
  rewrite (num_at_bytes m 0x7014 2 _ sp (bl_sp _ _ _ _ _ _ _ _ Hb)) by lia.
  set (m' := write_at m 0x7014 _) in *.
  rewrite (num_at_bytes m' 0x701A 2 _ 0x1000 (bl_gdtr _ _ _ _ _ _ _ _ Hb')) by lia. change (0x1000 + 2) with 0x1002.
  rewrite (num_at_bytes m' 0x1002 4 _ 0x1006 (bl_base _ _ _ _ _ _ _ _ Hb')), (num_at_bytes m' 0x1000 2 _ 23 (bl_limit _ _ _ _ _ _ _ _ Hb')),
    (num_at_bytes m' 0x7010 4 _ cr3 (bl_cr3 _ _ _ _ _ _ _ _ Hb')) by lia. reflexivity.
Qed.

Lemma fetches_low s R cr3 : low_mapped (smPaging s) R -> R = root_of s cr3 -> fetches image s cr3 0x8000 = true.
Proof.
  intros Hm HR. pose proof (lk_image _ _ _ _ Hlink). unfold fetches. rewrite <- HR. apply List.forallb_forall. intros i Hi%list_elem_of_In%elem_of_seqZ.
  destruct (Hm (0x8000 + i)) as (e & -> & _ & Hx); [unfold low_va; lia|]. rewrite Hx, Z.eqb_refl. done.
Qed.

Ltac low_get Hm HR va n := rewrite (low_read _ _ _ _ va n Hm HR) by (first [(unfold low_va; lia) | zlia]); rewrite ?bind_Done.

Lemma trampoline_spec s cr3 R L f c sp :
  site s cr3 R L f -> boot_low image Entry Stacks (low s) (smGDT s) (StateGDT (smIdt s)) cr3 sp -> c ∈ L -> 0 <= c < 256 ->
  0x4000 < sp <= 0x6000 -> sp mod 32 = 0 ->
  exists m, trampoline image LmEntry Entry Stacks nx s c 0x8000 (cpu_reset (ApRealMode 0x8000)) =
      Done (set_cpu (with_low s m) c (entered cr3 ((f c).1 + PER_CORE_STACK_SIZE))) /\
    boot_low image Entry Stacks m (smGDT s) (StateGDT (smIdt s)) cr3 (sp - 32).
Proof.
  intros [Hm [HR Hc3] Hg Hst] Hb Hc Hcr Hsp Hal. destruct (gdt_set_facts s Hg) as (G1 & G2 & _ & G3 & G4).
  destruct (Hst c Hc) as (T1 & T2 & T3 & T4). pose proof Hlink as [L1 L2 L3 L4].
  unfold trampoline. rewrite (bl_image _ _ _ _ _ _ _ _ Hb), bool_decide_true by done. cbn [negb].
  rewrite (trampoline_real_spec _ _ _ _ _ Hb) by lia. set (m1 := write_at (low s) 0x7014 _).
  pose proof (boot_low_base _ _ _ _ _ _ _ _ (sp - 32) Hb) as Hb1. fold m1 in Hb1.
  unfold trampoline_long, KR_AP_BOOT_INFO_ADDRESS. cbv zeta. cbn [cCR3 cSP cGDTR cEFER cPAT cCR0 cCR4 fst snd].
  change (fetches image (with_low s m1) cr3 0x8000) with (fetches image s cr3 0x8000). rewrite (fetches_low s R cr3 Hm HR). cbn [negb].
  low_get Hm HR (0x7000 + 22) 2. change (0x7000 + 22) with 0x7016. rewrite (bl_cs _ _ _ _ _ _ _ _ Hb1).
  rewrite le_value_bytes by (rewrite G3; lia). rewrite (low_write _ _ _ _ _ _ Hm HR), bind_Done by (first [(unfold low_va; lia) | (rewrite le_bytes_length; zlia)]).
  rewrite (low_write _ _ _ _ _ _ Hm HR), bind_Done by (first [(unfold low_va; lia) | (rewrite le_bytes_length; zlia)]).
  set (m2 := write_at m1 (sp - 2) _). set (m3 := write_at m2 (sp - 4) _).
  assert (boot_low image Entry Stacks m3 (smGDT s) (StateGDT (smIdt s)) cr3 (sp - 32)) as Hb3.
  { apply boot_low_stack; [apply boot_low_stack; [done| |]| |]; rewrite ?le_bytes_length; lia. }
  low_get Hm HR (sp - 4) 2. low_get Hm HR (sp - 2) 2. low_get Hm HR 0x1006 (23 + 1).
  assert (rd m3 (sp - 4) 2 = le_bytes 2 LmEntry) as -> by (by apply rd_written).
  assert (rd m3 (sp - 2) 2 = le_bytes 2 8) as ->.
  { unfold m3. rewrite rd_other by (rewrite le_bytes_length; lia). unfold m2. rewrite G3. by apply rd_written. }
  rewrite !le_value_bytes by lia. change (23 + 1) with 24. rewrite (bl_gdt _ _ _ _ _ _ _ _ Hb3). rewrite G3 in G2. rewrite G2. cbn [checked].
  rewrite bind_Done, Z.eqb_refl. change (negb (long_code flat_code && true)) with false. cbv iota.
  low_get Hm HR (0x7000 + 24) 2. low_get Hm HR (0x7000 + 8) 8. change (0x7000 + 24) with 0x7018. change (0x7000 + 8) with 0x7008.
  rewrite (bl_ds _ _ _ _ _ _ _ _ Hb3), (bl_stacks _ _ _ _ _ _ _ _ Hb3), G4, !le_value_bytes by lia.
  unfold kernel_qword. replace (Stacks + 8 * (c mod 256) - Stacks) with (8 * c) by (rewrite Z.mod_small; lia).
  rewrite (proj2 (Z.leb_le 0 (8 * c))), (proj2 (Z.eqb_eq (8 * c mod 8) 0)) by zlia. cbn [andb sg_InitialStacks with_low].
  replace (8 * c / 8) with c by zlia. rewrite T1. cbn [checked]. rewrite bind_Done.
  low_get Hm HR (0x7000 + 0) 8. change (0x7000 + 0) with 0x7000. rewrite (bl_entry _ _ _ _ _ _ _ _ Hb3), le_value_bytes by lia. rewrite Z.eqb_refl. cbn [negb].
  rewrite mask_aligned by (unfold PER_CORE_STACK_SIZE; zlia). cbn [smPaging with_low].
  change (root_of (with_low s m3) cr3) with (root_of s cr3). rewrite <- HR. destruct T4 as [x ->]. exists m3. split; [|done].
  unfold entered. by destruct nx.
Qed.
End Boot.

(** ** Progress *)

(** How many processors of [L] made at least [k] steps. *)
Definition num (L : list Z) (k : nat) (evs : list Z) : nat := length (filter (fun c => (k <= cnt evs c)%nat) L).

Lemma num_snoc L k evs c : NoDup L -> num L k (evs ++ [c]) = (num L k evs + if decide (c ∈ L /\ k = S (cnt evs c)) then 1 else 0)%nat.
Proof.
  intros Hn. unfold num. induction L as [|x L IH]; [by rewrite decide_False by (intros [[]%not_elem_of_nil _])|].
  apply NoDup_cons in Hn as [Hx Hn]. rewrite !filter_cons. specialize (IH Hn).
  destruct (decide (c = x)) as [->|Hne].
  - rewrite (decide_False (P := x ∈ L /\ _)) in IH by tauto. rewrite cnt_snoc, (decide_True (P := x = x)) by done.
    assert (x ∈ x :: L) as Hin by (by left).
    destruct (decide (k <= cnt evs x + 1)%nat), (decide (k <= cnt evs x)%nat); [| |lia|].
    all: cbn [length]; destruct (decide (x ∈ x :: L /\ k = S (cnt evs x))) as [[? ?]|Hd]; try lia.
    exfalso. apply Hd. split; [done|lia].
  - rewrite cnt_snoc, (decide_False (P := c = x)) by done. rewrite Nat.add_0_r.
    assert (c ∈ x :: L <-> c ∈ L) as Hin by (rewrite elem_of_cons; tauto).
    destruct (decide (c ∈ L /\ k = S (cnt evs c))) as [Hd1|Hd1], (decide (c ∈ x :: L /\ k = S (cnt evs c))) as [Hd2|Hd2];
      rewrite Hin in Hd2; try tauto; destruct (decide (k <= cnt evs x)%nat); cbn [length]; lia.
Qed.
Lemma num_le L k evs : (num L k evs <= length L)%nat.
Proof. apply length_filter. Qed.
Lemma num_lt L k evs c : c ∈ L -> (cnt evs c < k)%nat -> (num L k evs < length L)%nat.
Proof.
  intros Hc Hlt. unfold num. induction L as [|x L IH]; [by apply not_elem_of_nil in Hc|]. rewrite filter_cons.
  apply elem_of_cons in Hc as [<-|Hc].
  - rewrite decide_False by lia. cbn [length]. pose proof (length_filter (fun c => (k <= cnt evs c)%nat) L). lia.
  - specialize (IH Hc). destruct (decide _); cbn [length]; lia.
Qed.
Lemma num_all L k evs : (forall c, c ∈ L -> (k <= cnt evs c)%nat) -> num L k evs = length L.
Proof.
  intros H. unfold num. f_equal. induction L as [|x L IH]; [done|]. rewrite filter_cons_True by (apply H; by left).
  f_equal. apply IH. intros c Hc. apply H. by right.
Qed.

Section Progress.
Context (image : list Z) (LmEntry Entry Stacks Gdt : Z) (isrs : list Z) (exc nmi pf tim spu : Z).
Context (nx asup : bool) (lat : Z -> nat) (ac : nat -> Z) (pmv : pm_source -> nat -> Z) (tsc : nat -> Z) (pm : PmTimer) (mmio : Z).
Context (fuel cfuel : nat).
Context (s0 : Smp) (cr3 R : Z) (L : list Z) (f : Z -> Z * Z) (me : Z).
#[local] Abbreviation step := (ap_step image LmEntry Entry Stacks Gdt isrs exc nmi pf tim spu nx asup lat ac pmv tsc pm mmio cfuel).
#[local] Abbreviation run := (run_aps image LmEntry Entry Stacks Gdt isrs exc nmi pf tim spu nx asup lat ac pmv tsc pm mmio cfuel).

Definition top (c : Z) : Z := (f c).1 + PER_CORE_STACK_SIZE.
(** The registers of a processor in C code behind the loading of its tables. *)
Definition loaded (c : Z) (pc : ap_pc) : Cpu :=
  mkCpu pc 0x80010033 cr3 0x406F8 (if nx then 0x900 else 0x100) PAT_VALUE (top c) 8 16 (Gdt, 23).
(** The processor [c] after [n] of its steps. *)
Definition cpu_after (c : Z) (n : nat) : Cpu :=
  match n with
  | 0 => cpu_reset (ApRealMode 0x8000)
  | 1 => entered nx cr3 (top c)
  | 2 => with_pc (entered nx cr3 (top c)) ApLoad
  | 3 => loaded c ApCount
  | 4 => loaded c ApReport
  | 5 => loaded c ApApic
  | _ => loaded c ApIdle
  end%nat.

Definition live_apic (a : Apic) : Prop := VaddrApicBase a <> 0 /\ (icr_busy a < fuel)%nat.

(** What does not change while processors start. *)
Record same_rest (s : Smp) : Prop := {
  sr_fields : smPaging s = smPaging s0 /\ smHeap s = smHeap s0 /\ smGDT s = smGDT s0 /\ sg_InitialStacks s = sg_InitialStacks s0 /\
    IdealProcessorCount s = IdealProcessorCount s0 /\ bProcessorReinitDetected s = false /\ StateGDT (smIdt s) = StateGDT (smIdt s0);
  sr_nmi : exists ap n, smNmi s = mkNmi (sg_NmiSpinlock (smNmi s0)) (sg_NmiInfo (smNmi s0)) (sg_ExpectAck (smNmi s0)) (sl_InitExpectAck (smNmi s0))
    (pCpuIDs (smNmi s0)) n ap (nmi_pending (smNmi s0)) (nmi_pcs (smNmi s0))
}.

(** The state after the steps [evs], in any order. *)
Record booting (evs : list Z) (s : Smp) : Prop := {
  bo_rest : same_rest s;
  bo_aps : forall c, c ∈ L -> aps s !! c = Some (cpu_after c (cnt evs c));
  bo_low : boot_low image Entry Stacks (low s) (smGDT s) (StateGDT (smIdt s)) cr3 (0x6000 - 32 * Z.of_nat (num L 1 evs));
  bo_black : length (ProcessorEntryBlacklist s) = 256%nat /\
    forall c, c ∈ L -> ProcessorEntryBlacklist s !! Z.to_nat c = Some (bool_decide (2 <= cnt evs c)%nat);
  bo_ints : forall c, c ∈ L -> exists t, int_ready isrs (smIdt s) c t /\
    ((3 <= cnt evs c)%nat -> forall i h, 0 <= i < 256 -> startup_handler exc nmi pf tim spu i = Some h ->
       KrDispatchInterrupt (ints (smIdt s)) c i = Done (Some h, (i >=? 32) && negb (i =? 255)));
  bo_count : ActiveCount s = 1 + Z.of_nat (num L 4 evs);
  bo_rfd : forall j e, 0 <= j -> ProcInfo s0 !! Z.to_nat j = Some e -> ProcInfo s !! Z.to_nat j =
    Some (mkProc (pLocalApicID e) (pAcpiID e) (pE_V e) (BSP e) (RFD e || bool_decide (j ∈ L /\ (5 <= cnt evs j)%nat)));
  bo_procs : length (ProcInfo s) = 256%nat;
  bo_apics : forall c, c ∈ L -> exists a, apics (smNmi s) !! c = Some a /\ live_apic a /\
    ((cnt evs c < 6)%nat -> apics (smNmi s0) !! c = Some a) /\ ((6 <= cnt evs c)%nat -> reg a APIC_REG_SIV = 0x1FF);
  bo_me : exists a, apics (smNmi s) !! me = Some a /\ live_apic a
}.

(** The hypotheses on the processors [L] to be started. *)
Record starters : Prop := {
  sa_link : link_ok image LmEntry Entry Stacks;
  sa_site : site s0 cr3 R L f;
  sa_ids : NoDup L /\ (forall c, c ∈ L -> 0 <= c < 256 /\ c <> me) /\ (length L <= 255)%nat;
  sa_handlers : Forall (fun h => h <> 0) [exc; nmi; pf; tim; spu];
  sa_apic : forall c a, c ∈ L -> apics (smNmi s0) !! c = Some a -> exists a',
    KrApicInit lat ac pmv tsc cfuel asup mmio a pm false = Done (a', true) /\ live_apic a' /\ reg a' APIC_REG_SIV = 0x1FF
}.
Hypothesis Hst : starters.

(** *** Thresholds that one step of [c] does not cross *)

Lemma num_same k evs c : S (cnt evs c) <> k -> num L k (evs ++ [c]) = num L k evs.
Proof using Hst. intros H. rewrite num_snoc by apply (sa_ids Hst). rewrite decide_False; [lia|]. intros [_ ->]. done. Qed.
Lemma num_up evs c : c ∈ L -> num L (S (cnt evs c)) (evs ++ [c]) = S (num L (S (cnt evs c)) evs).
Proof using Hst. intros H. rewrite num_snoc by apply (sa_ids Hst). rewrite decide_True; [lia|done]. Qed.
Lemma cnt_pass k evs c j : S (cnt evs c) <> k -> (k <= cnt (evs ++ [c]) j)%nat <-> (k <= cnt evs j)%nat.
Proof. intros H. rewrite cnt_snoc. destruct (decide (c = j)) as [<-|]; lia. Qed.

Lemma next_aps (m : gmap Z Cpu) evs c : (forall j, j ∈ L -> m !! j = Some (cpu_after j (cnt evs j))) ->
  forall j, j ∈ L -> <[c := cpu_after c (S (cnt evs c))]> m !! j = Some (cpu_after j (cnt (evs ++ [c]) j)).
Proof.
  intros H j Hj. rewrite cnt_snoc. destruct (decide (c = j)) as [<-|Hne]; [by rewrite lookup_insert_eq, Nat.add_1_r|].
  rewrite lookup_insert_ne, Nat.add_0_r by done. by apply H.
Qed.
Lemma next_black (l : list bool) evs c : S (cnt evs c) <> 2%nat ->
  length l = 256%nat /\ (forall j, j ∈ L -> l !! Z.to_nat j = Some (bool_decide (2 <= cnt evs j)%nat)) ->
  length l = 256%nat /\ (forall j, j ∈ L -> l !! Z.to_nat j = Some (bool_decide (2 <= cnt (evs ++ [c]) j)%nat)).
Proof. intros Hc [Hl H]. split; [done|]. intros j Hj. rewrite H by done. f_equal. apply bool_decide_ext. by rewrite cnt_pass. Qed.
Lemma next_rfd s evs c : S (cnt evs c) <> 5%nat -> booting evs s -> forall j e, 0 <= j -> ProcInfo s0 !! Z.to_nat j = Some e -> ProcInfo s !! Z.to_nat j =
    Some (mkProc (pLocalApicID e) (pAcpiID e) (pE_V e) (BSP e) (RFD e || bool_decide (j ∈ L /\ (5 <= cnt (evs ++ [c]) j)%nat))).
Proof. intros Hc Hb j e Hj He. rewrite (bo_rfd _ _ Hb j e Hj He). do 3 f_equal. apply bool_decide_ext. by rewrite cnt_pass. Qed.
Lemma next_ints s evs c : S (cnt evs c) <> 3%nat -> booting evs s -> forall j, j ∈ L -> exists t, int_ready isrs (smIdt s) j t /\
    ((3 <= cnt (evs ++ [c]) j)%nat -> forall i h, 0 <= i < 256 -> startup_handler exc nmi pf tim spu i = Some h ->
       KrDispatchInterrupt (ints (smIdt s)) j i = Done (Some h, (i >=? 32) && negb (i =? 255))).
Proof.
  intros Hc Hb j Hj. destruct (bo_ints _ _ Hb j Hj) as (t & H1 & H2). exists t. split; [done|]. by rewrite cnt_pass by done.
Qed.
Lemma next_apics s evs c : cnt evs c <> 5%nat -> booting evs s -> forall j, j ∈ L -> exists a, apics (smNmi s) !! j = Some a /\ live_apic a /\
    ((cnt (evs ++ [c]) j < 6)%nat -> apics (smNmi s0) !! j = Some a) /\ ((6 <= cnt (evs ++ [c]) j)%nat -> reg a APIC_REG_SIV = 0x1FF).
Proof.
  intros Hc Hb j Hj. destruct (bo_apics _ _ Hb j Hj) as (a & H1 & H2 & H3 & H4). exists a. split; [done|]. split; [done|].
  pose proof (cnt_pass 6 evs c j ltac:(lia)). split; intros; [apply H3|apply H4]; lia.
Qed.

(** *** The steps *)

Lemma site_now evs s : booting evs s -> site s cr3 R L f /\ smGDT s = smGDT s0 /\ StateGDT (smIdt s) = StateGDT (smIdt s0).
Proof using Hst.
  intros Hb. destruct (bo_rest _ _ Hb) as [(F1 & _ & F3 & F4 & _ & _ & F7) _]. destruct (sa_site Hst) as [S1 [S2 S2'] (t0 & S3 & S3') S4].
  split; [|done]. split; [by rewrite F1|split; [unfold root_of; by rewrite F1|done]| |by rewrite F1, F4]. exists t0. by rewrite F3, F7.
Qed.

Lemma same_rest_aps s m : same_rest s -> same_rest (with_aps s m).
Proof. by intros [H1 H2]; split. Qed.
Lemma same_rest_low s m : same_rest s -> same_rest (with_low s m).
Proof. by intros [H1 H2]; split. Qed.
Lemma same_rest_black s l : same_rest s -> same_rest (with_black s l).
Proof. by intros [H1 H2]; split. Qed.

Lemma step_boot s evs c : booting evs s -> c ∈ L -> cnt evs c = 0%nat -> exists s', step s c = Done s' /\ booting (evs ++ [c]) s'.
Proof using Hst.
  intros Hb Hc Hn. destruct (site_now evs s Hb) as (Hsite & EG & ES). pose proof (sa_ids Hst) as (_ & Hr & Hlen).
  destruct (Hr c Hc) as [Hc0 _]. pose proof (num_lt L 1 evs c Hc ltac:(lia)) as Hlt.
  unfold ap_step. rewrite (bo_aps _ _ Hb c Hc), Hn. cbn [checked cpu_after]. rewrite bind_Done. change (cPc (cpu_reset (ApRealMode 0x8000))) with (ApRealMode 0x8000). cbv iota.
  destruct (trampoline_spec image LmEntry Entry Stacks nx (sa_link Hst) s cr3 R L f c (0x6000 - 32 * Z.of_nat (num L 1 evs)) Hsite (bo_low _ _ Hb) Hc Hc0)
    as (m & E & Hm); [lia|zlia|]. rewrite E. eexists. split; [reflexivity|].
  pose proof (next_aps (aps s) evs c (bo_aps _ _ Hb)) as Ha. rewrite Hn in Ha.
  split; cbn [set_cpu with_aps with_low low smGDT smIdt ProcessorEntryBlacklist ProcInfo smNmi aps]; try apply Hb.
  - apply same_rest_aps, same_rest_low, Hb.
  - exact Ha.
  - pose proof (num_up evs c Hc) as Hu. rewrite Hn in Hu. rewrite Hu. by replace (0x6000 - 32 * Z.of_nat (S (num L 1 evs))) with (0x6000 - 32 * Z.of_nat (num L 1 evs) - 32) by lia.
  - apply next_black; [lia|apply Hb].
  - apply (next_ints s evs c); [lia|done].
  - change (ActiveCount s = 1 + Z.of_nat (num L 4 (evs ++ [c]))). rewrite num_same by lia. apply Hb.
  - apply (next_rfd s evs c); [lia|done].
  - apply (next_apics s evs c); [lia|done].
Qed.

Lemma step_entry s evs c : booting evs s -> c ∈ L -> cnt evs c = 1%nat -> exists s', step s c = Done s' /\ booting (evs ++ [c]) s'.
Proof using Hst.
  intros Hb Hc Hn. pose proof (sa_ids Hst) as (_ & Hr & _). pose proof (bo_black _ _ Hb) as [Hbl Hblk].
  unfold ap_step. rewrite (bo_aps _ _ Hb c Hc), Hn. cbn [checked cpu_after]. rewrite bind_Done. cbn [cPc entered].
  rewrite (Hblk c Hc), bool_decide_false by lia. cbn [checked]. rewrite bind_Done. eexists. split; [reflexivity|].
  pose proof (next_aps (aps s) evs c (bo_aps _ _ Hb)) as Ha. rewrite Hn in Ha.
  split; cbn [set_cpu with_aps with_black low smGDT smIdt ProcessorEntryBlacklist ProcInfo smNmi aps]; try apply Hb.
  - apply same_rest_aps, same_rest_black, Hb.
  - exact Ha.
  - rewrite num_same by lia. apply Hb.
  - split; [by rewrite length_insert|]. intros j Hj. pose proof (Hr c Hc). pose proof (Hr j Hj). rewrite cnt_snoc. destruct (decide (c = j)) as [<-|Hne].
    + rewrite list_lookup_insert_eq by lia. by rewrite bool_decide_true by lia.
    + rewrite list_lookup_insert_ne by lia. rewrite Nat.add_0_r. by apply Hblk.
  - apply (next_ints s evs c); [lia|done].
  - change (ActiveCount s = 1 + Z.of_nat (num L 4 (evs ++ [c]))). rewrite num_same by lia. apply Hb.
  - apply (next_rfd s evs c); [lia|done].
  - apply (next_apics s evs c); [lia|done].
Qed.

(** Another processor's interrupt table is not touched by KrInitInt. *)
Lemma int_ready_other k k' c t t' j tj : j <> c -> int_ready isrs k j tj -> int_ready isrs k' c t' -> retabled (ints k) c t (ints k') ->
  IdtInit k' = true -> int_ready isrs k' j tj.
Proof.
  intros Hj [J1 J2 J3 [J4 J4'] J5] [K1 K2 K3 _ _] [T1 _ _ T4] Hi. split; [done|done|done| |by rewrite T4].
  by rewrite T1, lookup_insert_ne.
Qed.
Lemma dispatch_other k k' c t j i : j <> c -> retabled (ints k) c t (ints k') -> KrDispatchInterrupt (ints k') j i = KrDispatchInterrupt (ints k) j i.
Proof. intros Hj [T1 _ _ _]. unfold KrDispatchInterrupt. by rewrite T1, lookup_insert_ne by done. Qed.

Lemma step_load s evs c : booting evs s -> c ∈ L -> cnt evs c = 2%nat -> exists s', step s c = Done s' /\ booting (evs ++ [c]) s'.
Proof using Hst.
  intros Hb Hc Hn. destruct (site_now evs s Hb) as (Hsite & EG & ES). destruct (gdt_set_facts s (si_gdt _ _ _ _ _ Hsite)) as (_ & _ & G1 & G2 & G3).
  destruct (bo_ints _ _ Hb c Hc) as (t & Ht & _).
  destruct (init_int_spec isrs exc nmi pf tim spu (smIdt s) c t Ht (sa_handlers Hst)) as (k' & t' & E & K1 & K2 & K3 & K4 & K5 & _ & K7 & _).
  unfold ap_step. rewrite (bo_aps _ _ Hb c Hc), Hn. cbn [checked cpu_after]. rewrite bind_Done. cbn [cPc with_pc entered].
  rewrite E, bind_Done. eexists. split; [reflexivity|]. cbn [cCR0 cCR3 cCR4 cEFER cPAT cSP with_pc entered]. rewrite G1, G2, G3.
  pose proof (next_aps (aps s) evs c (bo_aps _ _ Hb)) as Ha. rewrite Hn in Ha.
  split; cbn [set_cpu with_aps with_idt low smGDT smIdt ProcessorEntryBlacklist ProcInfo smNmi aps]; try apply Hb.
  - destruct (bo_rest _ _ Hb) as [(F1 & F2 & F3 & F4 & F5 & F6 & F7) F8]. split; [|exact F8].
    cbn [set_cpu with_aps with_idt smPaging smHeap smGDT sg_InitialStacks IdealProcessorCount bProcessorReinitDetected smIdt]. rewrite K2. by split_and!.
  - exact Ha.
  - rewrite num_same, K2 by lia. apply Hb.
  - apply next_black; [lia|apply Hb].
  - intros j Hj. rewrite cnt_snoc. destruct (decide (c = j)) as [<-|Hne]; [exists t'; by split|].
    rewrite Nat.add_0_r. destruct (bo_ints _ _ Hb j Hj) as (tj & J1 & J2). exists tj.
    split; [by eapply (int_ready_other (smIdt s) k' c t' t')|]. intros Hk i h Hi Hs. rewrite (dispatch_other (smIdt s) k' c t' j i) by done. by apply J2.
  - change (ActiveCount s = 1 + Z.of_nat (num L 4 (evs ++ [c]))). rewrite num_same by lia. apply Hb.
  - apply (next_rfd s evs c); [lia|done].
  - apply (next_apics s evs c); [lia|done].
Qed.

Lemma step_count s evs c : booting evs s -> c ∈ L -> cnt evs c = 3%nat -> exists s', step s c = Done s' /\ booting (evs ++ [c]) s'.
Proof using Hst.
  intros Hb Hc Hn. pose proof (sa_ids Hst) as (_ & _ & Hlen). pose proof (num_le L 4 evs) as Hle. pose proof (bo_count _ _ Hb) as Hcount.
  unfold ap_step. rewrite (bo_aps _ _ Hb c Hc), Hn. cbn [checked cpu_after]. rewrite bind_Done. cbn [cPc loaded].
  eexists. split; [reflexivity|]. rewrite Hcount, u32_small by lia.
  pose proof (next_aps (aps s) evs c (bo_aps _ _ Hb)) as Ha. rewrite Hn in Ha.
  split; cbn [set_cpu with_aps set_active with_snmi low smGDT smIdt ProcessorEntryBlacklist ProcInfo smNmi aps nmi_counts apics]; try apply Hb.
  - destruct (bo_rest _ _ Hb) as [F1 (ap & n & F2)]. split; [exact F1|]. exists ap, (1 + Z.of_nat (num L 4 evs) + 1).
    cbn [set_cpu with_aps set_active with_snmi smNmi]. rewrite F2. reflexivity.
  - exact Ha.
  - rewrite num_same by lia. apply Hb.
  - apply next_black; [lia|apply Hb].
  - apply (next_ints s evs c); [lia|done].
  - unfold ActiveCount. cbn [set_cpu with_aps set_active with_snmi smNmi nmi_counts ActiveProcessorCount].
    pose proof (num_up evs c Hc) as Hu. rewrite Hn in Hu. rewrite Hu. lia.
  - apply (next_rfd s evs c); [lia|done].
  - apply (next_apics s evs c); [lia|done].
Qed.

Lemma step_report s evs c : booting evs s -> c ∈ L -> cnt evs c = 4%nat -> exists s', step s c = Done s' /\ booting (evs ++ [c]) s'.
Proof using Hst.
  intros Hb Hc Hn. pose proof (sa_ids Hst) as (_ & Hr & _). destruct (Hr c Hc) as [Hc0 _].
  unfold ap_step. rewrite (bo_aps _ _ Hb c Hc), Hn. cbn [checked cpu_after]. rewrite bind_Done. cbn [cPc loaded].
  rewrite report_for_duty_spec by (apply lookup_lt_is_Some_2; rewrite (bo_procs _ _ Hb); lia). rewrite bind_Done. eexists. split; [reflexivity|].
  pose proof (next_aps (aps s) evs c (bo_aps _ _ Hb)) as Ha. rewrite Hn in Ha.
  split; cbn [set_cpu with_aps with_proc low smGDT smIdt ProcessorEntryBlacklist ProcInfo smNmi aps]; try apply Hb.
  - destruct (bo_rest _ _ Hb) as [F1 F2]. by split.
  - exact Ha.
  - rewrite num_same by lia. apply Hb.
  - apply next_black; [lia|apply Hb].
  - apply (next_ints s evs c); [lia|done].
  - change (ActiveCount s = 1 + Z.of_nat (num L 4 (evs ++ [c]))). rewrite num_same by lia. apply Hb.
  - intros j e Hj He. pose proof (bo_rfd _ _ Hb j e Hj He) as H. unfold reported. rewrite cnt_snoc. destruct (decide (c = j)) as [<-|Hne].
    + rewrite list_lookup_alter_eq, H. cbn. do 2 f_equal. rewrite (bool_decide_true (c ∈ L /\ _)); [by rewrite orb_true_r|]. split; [done|lia].
    + rewrite list_lookup_alter_ne by lia. by rewrite Nat.add_0_r.
  - unfold reported. rewrite length_alter. apply Hb.
  - apply (next_apics s evs c); [lia|done].
Qed.

Lemma step_apic s evs c : booting evs s -> c ∈ L -> cnt evs c = 5%nat -> exists s', step s c = Done s' /\ booting (evs ++ [c]) s'.
Proof using Hst.
  intros Hb Hc Hn. pose proof (sa_ids Hst) as (_ & Hr & _). destruct (Hr c Hc) as [_ Hme].
  destruct (bo_apics _ _ Hb c Hc) as (a & Ea & _ & Ho & _). destruct (sa_apic Hst c a Hc (Ho ltac:(lia))) as (a' & E & Hl & Hs).
  unfold ap_step. rewrite (bo_aps _ _ Hb c Hc), Hn. cbn [checked cpu_after]. rewrite bind_Done. cbn [cPc loaded].
  rewrite Ea. cbn [checked]. rewrite bind_Done, E, bind_Done. cbv iota. eexists. split; [reflexivity|].
  pose proof (next_aps (aps s) evs c (bo_aps _ _ Hb)) as Ha. rewrite Hn in Ha.
  split; cbn [set_cpu with_aps with_snmi with_apic low smGDT smIdt ProcessorEntryBlacklist ProcInfo smNmi aps apics]; try apply Hb.
  - destruct (bo_rest _ _ Hb) as [F1 (ap & n & F2)]. split; [exact F1|]. exists (<[c := a']> ap), n.
    cbn [set_cpu with_aps with_snmi smNmi with_apic]. rewrite F2. reflexivity.
  - exact Ha.
  - rewrite num_same by lia. apply Hb.
  - apply next_black; [lia|apply Hb].
  - apply (next_ints s evs c); [lia|done].
  - change (ActiveCount s = 1 + Z.of_nat (num L 4 (evs ++ [c]))). rewrite num_same by lia. apply Hb.
  - apply (next_rfd s evs c); [lia|done].
  - intros j Hj. rewrite cnt_snoc. destruct (decide (c = j)) as [<-|Hne].
    + exists a'. rewrite lookup_insert_eq. split_and!; [done|done|lia|done].
    + rewrite lookup_insert_ne, Nat.add_0_r by done. by apply (bo_apics _ _ Hb).
  - destruct (bo_me _ _ Hb) as (am & Em & Hm). exists am. by rewrite lookup_insert_ne.
Qed.

Lemma cpu_idle c n : (6 <= n)%nat -> cpu_after c n = loaded c ApIdle.
Proof. intros H. by do 6 (destruct n as [|n]; [lia|]). Qed.
Lemma step_idle s evs c : booting evs s -> c ∈ L -> (6 <= cnt evs c)%nat -> exists s', step s c = Done s' /\ booting (evs ++ [c]) s'.
Proof using Hst.
  intros Hb Hc Hn. exists s. pose proof (cpu_idle c (cnt evs c) Hn) as Ec.
  unfold ap_step. rewrite (bo_aps _ _ Hb c Hc). cbn [checked]. rewrite bind_Done, Ec. cbn [cPc loaded]. split; [done|].
  split; try apply Hb.
  - intros j Hj. rewrite (bo_aps _ _ Hb j Hj), cnt_snoc. destruct (decide (c = j)) as [<-|]; [|by rewrite Nat.add_0_r].
    by rewrite Ec, cpu_idle by lia.
  - rewrite num_same by lia. apply Hb.
  - apply next_black; [lia|apply Hb].
  - apply (next_ints s evs c); [lia|done].
  - rewrite num_same by lia. apply Hb.
  - apply (next_rfd s evs c); [lia|done].
  - apply (next_apics s evs c); [lia|done].
Qed.

(** Steps in any order keep the invariant. *)
Lemma step_booting s evs c : booting evs s -> c ∈ L -> exists s', step s c = Done s' /\ booting (evs ++ [c]) s'.
Proof using Hst.
  intros Hb Hc. destruct (cnt evs c) as [|[|[|[|[|[|n]]]]]] eqn:En; [by apply step_boot|by apply step_entry|by apply step_load
    |by apply step_count|by apply step_report|by apply step_apic|apply step_idle; [done|done|lia]].
Qed.
Lemma run_booting l : forall s evs, booting evs s -> Forall (fun c => c ∈ L) l -> exists s', run l s = Done s' /\ booting (evs ++ l) s'.
Proof using Hst.
  induction l as [|c l IH]; intros s evs Hb Hl; cbn [run_aps]; [exists s; by rewrite app_nil_r|].
  apply Forall_cons in Hl as [Hc Hl]. destruct (step_booting s evs c Hb Hc) as (s1 & E1 & H1). rewrite E1, bind_Done.
  destruct (IH s1 _ H1 Hl) as (s2 & E2 & H2). exists s2. by rewrite <- app_assoc in H2.
Qed.
End Progress.
