(* ===== verification/SmpThms.v ===== *)
(** * Multiprocessor start-up: the boot processor waits for the others *)
From Stdlib Require Import ZArith Lia String.
From stdpp Require Import base numbers list gmap sets.
From S2P Require Import Prelude PhysBitmap KrtlMem Physmemmgmt PmmProps Pte Vmr VmrSpec VmrProps PageTable PageTableSpec PageTableProps MmioProps Heap HeapSpec HeapProps Alloc Interrupts Descriptors Acpi Apic Nmi NmiProps NmiThms Bytes Smp SmpSpec SmpAp.
Open Scope Z_scope.

(** The time stamp counter passes a stall of [d] cycles within the fuel. *)
Definition stall_ends (tsc : nat -> Z) (fuel : nat) (d : Z) : Prop :=
  forall n, exists m, (S n <= m < n + fuel)%nat /\ u64 (tsc n + d) <= tsc m.

Section Wait.
Context (image : list Z) (LmEntry Entry Stacks Gdt : Z) (isrs : list Z) (exc nmi pf tim spu : Z).
Context (nx asup : bool) (lat : Z -> nat) (ac : nat -> Z) (pmv : pm_source -> nat -> Z) (tsc : nat -> Z) (pm : PmTimer) (mmio : Z).
Context (fuel cfuel : nat) (me : Z) (sched : nat -> list Z).
#[local] Abbreviation run := (run_aps image LmEntry Entry Stacks Gdt isrs exc nmi pf tim spu nx asup lat ac pmv tsc pm mmio cfuel).
#[local] Abbreviation await := (await_loop image LmEntry Entry Stacks Gdt isrs exc nmi pf tim spu nx asup lat ac pmv tsc pm mmio fuel cfuel sched).

Hypothesis Htsc : stall_ends tsc fuel 1250000 /\ stall_ends tsc fuel 50000000.
Hypothesis Hlat : forall w, (lat w < fuel)%nat.

Lemma boot_stall_spec s a d : apics (smNmi s) !! me = Some a -> live_apic fuel a -> stall_ends tsc fuel d ->
  exists a', boot_stall tsc fuel s me d = Done (with_snmi s (with_apic (smNmi s) me a')) /\ live_apic fuel a'.
Proof.
  intros Ha [Hv Hb] Hd. destruct (Hd (clock a)) as (m & Hm & Hle). unfold boot_stall. rewrite Ha. cbn [checked]. rewrite bind_Done.
  unfold KrProcessorStall. destruct (stall_loop_spec tsc (u64 (tsc (clock a) + d)) (pred fuel) (tick a) m) as (m' & _ & HD); [cbn; lia|done|].
  rewrite HD by lia. rewrite bind_Done. eexists. split; [reflexivity|]. done.
Qed.

(** ** The two messages *)

Lemma start_config_ok v d : 0 <= v < 256 -> In d [5; 6] -> ipi_typed (start_config v d) /\ ipi_valid (start_config v d).
Proof.
  intros Hv Hd. assert (0 <= d < 256 /\ In d [0; 2; 4; 5; 6]) as [Hd' Hi] by (cbn in *; lia).
  split; split; unfold start_config, IPI_LEVEL_ASSERT, IPI_TRIGGER_EDGE, IPI_SHORTHAND_ALL_XSLF;
    cbn [dwDestApic IntVector eDeliveryMode eDestMode eLevel eTrigMode eDestShorthand]; try lia; try exact Hi.
  repeat (apply Forall_cons; split; [lia|]). by apply Forall_nil.
Qed.

Lemma send_start_spec s a v d : apics (smNmi s) !! me = Some a -> live_apic fuel a -> 0 <= v < 256 -> In d [5; 6] ->
  exists a' m, send_start lat ac fuel s me (start_config v d) = Done (with_aps (with_snmi s (with_apic (smNmi s) me a')) m) /\ live_apic fuel a' /\
    forall c, c <> me -> m !! c = receive (start_config v d) <$> aps s !! c.
Proof.
  intros Ha [Hva Hb] Hv Hd. destruct (start_config_ok v d Hv Hd) as [Ht Hi]. unfold send_start. rewrite Ha. cbn [checked]. rewrite bind_Done.
  destruct (issue_ipi_sends lat ac fuel a (start_config v d) Ht Hi Hva Hb Hlat) as (a' & msg & -> & Es & Ed & Eb & Ea & _). rewrite bind_Done.
  rewrite Es, drop_app_length. cbn [foldl]. unfold deliver_start. rewrite Ed. eexists a', _. split; [reflexivity|]. split.
  - split; [by rewrite Ea|]. rewrite Eb. lia.
  - intros c Hc. cbn [aps with_snmi]. rewrite map_lookup_imap.
    assert (c ∈ ipi_targets [c] me (start_config v d)) as Hin.
    { change (c ∈ filter (fun c => c <> me) [c]). apply list_elem_of_filter. split; [done|by left]. }
    destruct (aps s !! c) as [x|]; cbn; [|done]. by rewrite decide_True.
Qed.

(** ** The state in which the others start *)

(** The machine before the first message: the processors [L] are known, wait,
    and have tables, timers and acknowledgement records at rest. *)
Record machine_ready (s : Smp) (L : list Z) : Prop := {
  md_black : length (ProcessorEntryBlacklist s) = 256%nat /\ forall c, c ∈ L -> ProcessorEntryBlacklist s !! Z.to_nat c = Some false;
  md_ints : forall c, c ∈ L -> exists t, int_ready isrs (smIdt s) c t;
  md_apics : forall c, c ∈ me :: L -> exists a, apics (smNmi s) !! c = Some a /\ live_apic fuel a;
  md_aps : forall c, c ∈ L -> is_Some (aps s !! c);
  md_me : me ∉ L;
  md_procs : length (ProcInfo s) = 256%nat;
  md_reinit : bProcessorReinitDetected s = false
}.

(** Only the last value of the APIC and of the processors counts. *)
Lemma apic_again s b b' m : with_snmi (with_aps (with_snmi s (with_apic (smNmi s) me b)) m)
    (with_apic (smNmi (with_aps (with_snmi s (with_apic (smNmi s) me b)) m)) me b') = with_aps (with_snmi s (with_apic (smNmi s) me b')) m.
Proof. destruct s as [n]. destruct n. unfold with_snmi, with_aps, with_apic. cbn. by rewrite insert_insert_eq. Qed.
Lemma aps_again s m m' : with_aps (with_aps s m) m' = with_aps s m'.
Proof. by destruct s. Qed.

Lemma awaken_spec s cr3 R L f : machine_ready s L -> launch image Entry Stacks s cr3 R L f -> ActiveCount s = 1 ->
  exists s1, (forall cf, awaken image LmEntry Entry Stacks Gdt isrs exc nmi pf tim spu nx asup lat ac pmv tsc pm mmio fuel cf sched s me =
      run_aps image LmEntry Entry Stacks Gdt isrs exc nmi pf tim spu nx asup lat ac pmv tsc pm mmio cf (sched 0%nat) s1) /\
    booting image Entry Stacks Gdt isrs exc nmi pf tim spu nx fuel s1 cr3 L f me [] s1 /\ site s1 cr3 R L f /\
    exists a m, s1 = with_aps (with_snmi s (with_apic (smNmi s) me a)) m.
Proof.
  intros [M1 M2 M3 M4 M5 M6 M7] [L1 [L2 L2'] L3 L4 L5] Hact.
  destruct (M3 me) as (a & Ha & Hl); [by left|].
  destruct (send_start_spec s a 0 IPI_DELIVERY_INIT Ha Hl) as (a1 & m1 & E1 & Hl1 & Hm1); [lia|cbn; tauto|].
  destruct (boot_stall_spec (with_aps (with_snmi s (with_apic (smNmi s) me a1)) m1) a1 50000000) as (a2 & E2 & Hl2);
    [cbn; by rewrite lookup_insert_eq|done|apply Htsc|].
  match type of E2 with _ = Done ?x => set (s2 := x) in * end.
  destruct (send_start_spec s2 a2 8 IPI_DELIVERY_SIPI) as (a3 & m3 & E3 & Hl3 & Hm3); [cbn; by rewrite lookup_insert_eq|done|lia|cbn; tauto|].
  destruct (boot_stall_spec (with_aps (with_snmi s2 (with_apic (smNmi s2) me a3)) m3) a3 1250000) as (a4 & E4 & Hl4);
    [cbn; by rewrite lookup_insert_eq|done|apply Htsc|].
  set (s4 := with_aps (with_snmi s (with_apic (smNmi s) me a4)) m3).
  assert (with_snmi (with_aps (with_snmi s2 (with_apic (smNmi s2) me a3)) m3)
    (with_apic (smNmi (with_aps (with_snmi s2 (with_apic (smNmi s2) me a3)) m3)) me a4) = s4) as Es4.
  { rewrite apic_again. unfold s2. rewrite !apic_again. apply aps_again. }
  exists s4. split.
  { intros cf. unfold awaken. rewrite E1, bind_Done, E2, bind_Done. change (Z.shiftr KR_AP_START_ADDRESS 12) with 8. fold s2.
    rewrite E3, bind_Done, E4, bind_Done, Es4. done. }
  split; [|split; [by split|by exists a4, m3]].
  assert (forall c, c ∈ L -> aps s4 !! c = Some (cpu_reset (ApRealMode 0x8000))) as Haps.
  { intros c Hc. assert (c <> me) as Hne by (intros ->; done). cbn. rewrite Hm3 by done. cbn [s2 aps with_snmi with_aps]. rewrite Hm1 by done.
    destruct (M4 c Hc) as [x ->]. reflexivity. }
  assert (num L 1 [] = 0%nat /\ num L 4 [] = 0%nat) as [N1 N4].
  { unfold num, cnt. cbn. clear. split; (induction L as [|x L IH]; [done|]; rewrite filter_cons, decide_False by lia; exact IH). }
  split.
  - split; [by split_and!|]. exists (apics (smNmi s4)), (ActiveProcessorCount (smNmi s4)). by destruct (smNmi s4).
  - exact Haps.
  - rewrite N1. exact L3.
  - exact M1.
  - intros c Hc. destruct (M2 c Hc) as [t Ht]. exists t. split; [exact Ht|]. cbn. lia.
  - rewrite N4. exact Hact.
  - intros j e Hj He. rewrite He. rewrite bool_decide_false by (cbn; lia). rewrite orb_false_r. by destruct e.
  - exact M6.
  - intros c Hc. assert (me <> c) as Hne by (intros ->; done). destruct (M3 c) as (x & Hx & Hlx); [by right|]. exists x.
    cbn [s4 smNmi with_aps with_snmi with_apic apics]. rewrite lookup_insert_ne by done. split_and!; [done|done|done|cbn; lia].
  - exists a4. cbn [s4 smNmi with_aps with_snmi with_apic apics]. by rewrite lookup_insert_eq.
Qed.

(** ** Waiting for the count *)

#[local] Abbreviation booted := (booting image Entry Stacks Gdt isrs exc nmi pf tim spu nx fuel).
#[local] Abbreviation started := (starters image LmEntry Entry Stacks exc nmi pf tim spu asup lat ac pmv tsc pm mmio fuel cfuel).

(** A stall of the boot processor is not seen by the others. *)
Lemma booting_me s0 cr3 L f evs s a : booted s0 cr3 L f me evs s -> me ∉ L -> live_apic fuel a ->
  booted s0 cr3 L f me evs (with_snmi s (with_apic (smNmi s) me a)).
Proof.
  intros [B1 B2 B3 B4 B5 B6 B7 B8 B9 B10] Hme Ha. split; try done.
  - destruct B1 as [F (ap & n & E)]. split; [exact F|]. exists (<[me := a]> ap), n. cbn [smNmi with_snmi]. by rewrite E.
  - intros c Hc. destruct (B9 c Hc) as (x & Hx). exists x. cbn [smNmi with_snmi with_apic apics].
    by rewrite lookup_insert_ne by (intros ->; done).
  - exists a. cbn [smNmi with_snmi with_apic apics]. by rewrite lookup_insert_eq.
Qed.

(** Whether a check sees the expected count. *)
Definition full (s0 : Smp) (L : list Z) (evs : list Z) : Prop := 1 + Z.of_nat (num L 4 evs) = IdealProcessorCount s0.

Lemma await_spec s0 cr3 R L f : started s0 cr3 R L f me -> me ∉ L -> (forall i, Forall (fun c => c ∈ L) (sched i)) ->
  forall n i evs s, booted s0 cr3 L f me evs s ->
  (exists k s', (k < n)%nat /\ await n i s me = Done s' /\ booted s0 cr3 L f me (evs ++ steps_of sched (S i) k) s' /\
     full s0 L (evs ++ steps_of sched (S i) k) /\ forall j, (j < k)%nat -> ~ full s0 L (evs ++ steps_of sched (S i) j)) \/
  (await n i s me = Melt KR_MDCODE_SMP_BRINGUP_FAILURE /\ forall j, (j < n)%nat -> ~ full s0 L (evs ++ steps_of sched (S i) j)).
Proof using Htsc.
  intros Hst Hme Hsch n. induction n as [|n IH]; intros i evs s Hb; cbn [await_loop]; [right; split; [done|lia]|].
  pose proof (bo_rest _ _ _ _ _ _ _ _ _ _ _ _ _ _ _ _ _ _ _ Hb) as [(_ & _ & _ & _ & F5 & _) _].
  pose proof (bo_count _ _ _ _ _ _ _ _ _ _ _ _ _ _ _ _ _ _ _ Hb) as Hc. rewrite F5, Hc.
  destruct (Z.eqb_spec (1 + Z.of_nat (num L 4 evs)) (IdealProcessorCount s0)) as [Heq|Hne]; cbn [negb].
  { left. exists 0%nat, s. cbn [steps_of seq mbind list_bind]. rewrite app_nil_r. split_and!; [lia|done|done|done|lia]. }
  destruct (bo_me _ _ _ _ _ _ _ _ _ _ _ _ _ _ _ _ _ _ _ Hb) as (a & Ha & Hl).
  destruct (boot_stall_spec s a 1250000 Ha Hl) as (a' & E1 & Hl'); [apply Htsc|]. rewrite E1, bind_Done.
  destruct (run_booting image LmEntry Entry Stacks Gdt isrs exc nmi pf tim spu nx asup lat ac pmv tsc pm mmio fuel cfuel s0 cr3 R L f me Hst
    (sched (S i)) _ evs (booting_me _ _ _ _ _ _ _ Hb Hme Hl') (Hsch _)) as (s2 & E2 & H2).
  rewrite E2, bind_Done.
  assert (forall j, (j < S n)%nat -> (forall j', (j' < j)%nat -> ~ full s0 L ((evs ++ sched (S i)) ++ steps_of sched (S (S i)) j')) ->
    forall j', (j' < S j)%nat -> ~ full s0 L (evs ++ steps_of sched (S i) j')) as Hshift.
  { intros j _ H [|j'] Hj'; [cbn; by rewrite app_nil_r|]. rewrite steps_of_S, app_assoc. apply H. lia. }
  destruct (IH (S i) _ s2 H2) as [(k & s' & Hk & E & Hb' & Hf & Hn)|[E Hn]].
  - left. exists (S k), s'. rewrite steps_of_S, app_assoc. split_and!; [lia|done|done|done|]. apply Hshift; [lia|done].
  - right. split; [done|]. apply Hshift; [lia|done].
Qed.
End Wait.

(** ** The list of processors *)

Lemma collect_loop_take l n : collect_loop l n = take n (pLocalApicID <$> filter (fun e => RFD e = true) l).
Proof.
  revert n. induction l as [|e l IH]; intros n; [by destruct n|]. destruct n as [|n]; [done|]. cbn [collect_loop]. rewrite filter_cons.
  destruct (RFD e) eqn:E; [rewrite decide_True by done|rewrite decide_False by done; by rewrite IH]. cbn [fmap list_fmap take]. by rewrite IH.
Qed.

(** Entries whose bit says whether they are in [P] give the members of [P] in order. *)
Lemma duty_list (P : Z -> bool) l : forall i,
  (forall k e, l !! k = Some e -> RFD e = P (i + Z.of_nat k) /\ (RFD e = true -> pLocalApicID e = i + Z.of_nat k)) ->
  pLocalApicID <$> filter (fun e => RFD e = true) l = List.filter P (seqZ i (Z.of_nat (length l))).
Proof.
  induction l as [|e l IH]; intros i H; [done|]. cbn [length]. rewrite seqZ_cons by lia. rewrite Nat2Z.inj_succ, Z.pred_succ. cbn [List.filter]. rewrite filter_cons.
  destruct (H 0%nat e eq_refl) as [He Hi]. rewrite Z.add_0_r in He, Hi.
  assert (pLocalApicID <$> filter (fun e => RFD e = true) l = List.filter P (seqZ (i + 1) (Z.of_nat (length l)))) as E.
  { apply IH. intros k x Hk. specialize (H (S k) x Hk). replace (i + 1 + Z.of_nat k) with (i + Z.of_nat (S k)) by lia. exact H. }
  rewrite <- He. destruct (RFD e); [rewrite decide_True by done|rewrite decide_False by done; exact E]. cbn [fmap list_fmap]. by rewrite Hi, E.
Qed.

(** The processors that are up, in the order of their numbers. *)
Definition online (me : Z) (L : list Z) : list Z := List.filter (fun j => bool_decide (j ∈ me :: L)) (seqZ 0 256).
Lemma elem_of_online me L j : (forall c, c ∈ me :: L -> 0 <= c < 256) -> j ∈ online me L <-> j ∈ me :: L.
Proof.
  intros H. unfold online. rewrite list_elem_of_In, List.filter_In, <- list_elem_of_In, elem_of_seqZ, bool_decide_eq_true.
  split; [tauto|]. intros Hj. specialize (H j Hj). split; [lia|done].
Qed.
Lemma online_nodup me L : NoDup (online me L).
Proof. apply NoDup_ListNoDup, List.NoDup_filter, NoDup_ListNoDup, NoDup_seqZ. Qed.
Lemma online_length me L : (forall c, c ∈ me :: L -> 0 <= c < 256) -> NoDup (me :: L) -> length (online me L) = S (length L).
Proof.
  intros H Hn. change (S (length L)) with (length (me :: L)). apply Permutation_length, NoDup_Permutation; [apply online_nodup|done|].
  intros j. by apply elem_of_online.
Qed.

(** What the processor table says before start-up: an entry's index is its
    processor's number, and only [me] reports. *)
Record roster (l : list ProcInfoEntry) (me : Z) (L : list Z) : Prop := {
  ro_length : length l = 256%nat;
  ro_ids : forall j e, j ∈ me :: L -> l !! Z.to_nat j = Some e -> pLocalApicID e = j;
  ro_duty : forall j e, 0 <= j -> l !! Z.to_nat j = Some e -> RFD e = bool_decide (j = me)
}.

Lemma duty_online l0 l me L : roster l0 me L -> length l = 256%nat ->
  (forall j e, 0 <= j -> l0 !! Z.to_nat j = Some e -> exists b, (b = true <-> j ∈ L) /\
     l !! Z.to_nat j = Some (mkProc (pLocalApicID e) (pAcpiID e) (pE_V e) (BSP e) (RFD e || b))) ->
  pLocalApicID <$> filter (fun e => RFD e = true) l = online me L.
Proof.
  intros [R1 R2 R3] Hl H. unfold online. rewrite (duty_list (fun j => bool_decide (j ∈ me :: L)) l 0); [by rewrite Hl|].
  intros k e He. destruct (lookup_lt_is_Some_2 l0 k) as [e0 He0]; [rewrite R1, <- Hl; by eapply lookup_lt_Some|].
  rewrite <- (Nat2Z.id k) in He0. destruct (H (Z.of_nat k) e0 ltac:(lia) He0) as (b & Hb & E). rewrite Nat2Z.id in E.
  rewrite He in E. injection E as ->. cbn [RFD pLocalApicID]. rewrite Z.add_0_l, (R3 (Z.of_nat k) e0 ltac:(lia) He0).
  assert (bool_decide (Z.of_nat k = me) || b = bool_decide (Z.of_nat k ∈ me :: L)) as ->.
  { apply eq_true_iff_eq. rewrite orb_true_iff, !bool_decide_eq_true, elem_of_cons, Hb. done. }
  split; [done|]. rewrite bool_decide_eq_true. intros Hin. by apply (R2 _ _ Hin).
Qed.

Lemma collect_spec fuel s fresh hl ids : pLocalApicID <$> filter (fun e => RFD e = true) (ProcInfo s) = ids -> ActiveCount s = Z.of_nat (length ids) ->
  (0 < length ids <= 256)%nat -> al_live (Allocator := heap_allocator fuel) 1 PER_CORE_STACK_SIZE (smHeap s) hl ->
  exists h p n, collect fuel s fresh = Done (with_snmi (with_mem s (smPaging s) h) (nmi_counts (smNmi s) ids (ActiveCount s))) /\
    al_live (Allocator := heap_allocator fuel) 0 PER_CORE_STACK_SIZE h ((p, n) :: hl) /\ 4 * Z.of_nat (length ids) <= n.
Proof.
  intros Hi Hc Hn Hal. unfold collect. rewrite Hc. rewrite u64_small by lia.
  destruct (al_spec (Allocator := heap_allocator fuel) 0 PER_CORE_STACK_SIZE (smHeap s) hl (Z.of_nat (length ids) * 4) 4 Hal)
    as (h & p & n & E & _ & Hp & _ & Hsz & Hal'); [change PER_CORE_STACK_SIZE with 65536; lia|lia|].
  cbn [al_acquire heap_allocator] in E. change (2 ^ 4) with HEAP_DEFAULT_ALIGNMENT in E. unfold HeapAcquire. rewrite E, bind_Done, (proj2 (Z.eqb_neq _ _) Hp).
  exists h, p, n. split; [|split; [done|lia]]. do 3 f_equal. rewrite collect_loop_take, Hi, Nat2Z.id, take_ge by lia.
  rewrite drop_ge by (rewrite length_take; lia). by rewrite app_nil_r.
Qed.

(** ** The test of the interrupt *)

Lemma sanity_check_spec lat ac tsc fuel ba be sched s me ids : sg_NmiSpinlock (smNmi s) = false -> nmi_ready fuel (smNmi s) ids me ->
  (length ids <= 256)%nat -> (forall w, lat w < fuel)%nat -> stall_ends tsc fuel 1250000 ->
  (exists K, (K <= 512)%nat /\ forall c, c ∈ ids -> c <> me -> (2 <= cnt (steps_of sched 0 K) c)%nat) ->
  exists n' evs, sanity_check lat ac tsc fuel ba be sched s me = Done (with_snmi s n') /\ nmi_outcome ids me NMI_REASON_HARMLESS_TEST evs (smNmi s) n'.
Proof.
  intros Hl Hr Hn Hlat Ht (K & HK & Hall). unfold sanity_check.
  destruct (raise_spec lat ac tsc fuel ba be sched (smNmi s) ids me NMI_REASON_HARMLESS_TEST false None Hl Hr (or_introl eq_refl) Hlat Ht)
    as (n' & k & E & Hk & Hc & _ & Ho). rewrite E, bind_Done, Z.add_0_r. exists n', (steps_of sched 0 k). split; [|done].
  assert (forall c, c ∈ ids -> c <> me -> (2 <= cnt (steps_of sched 0 k) c)%nat) as Hresp.
  { intros c Hci Hne. destruct (decide (K <= k)%nat) as [Hle|Hgt]; [|apply Hc; [lia|by split]].
    unfold steps_of. replace k with (K + (k - K))%nat by lia. rewrite seq_app, bind_app. unfold cnt. rewrite filter_app, length_app.
    specialize (Hall c Hci Hne). unfold cnt, steps_of in Hall. lia. }
  assert (responders ids me (steps_of sched 0 k) = filter (fun c => c <> me) ids) as ->.
  { unfold responders. clear -Hresp. induction ids as [|x l IH]; [done|]. rewrite !filter_cons.
    rewrite IH by (intros c Hc; apply Hresp; by right). destruct (decide (x <> me)) as [Hx|Hx].
    - by rewrite decide_True by (split; [done|apply Hresp; [by left|done]]).
    - by rewrite decide_False by tauto. }
  rewrite (proj2 (no_counts _ _ _ _ _ _ Ho)), (proj2 (nr_ids _ _ _ _ Hr)).
  assert (length ids = S (length (filter (fun c => c <> me) ids))) as Elen.
  { rewrite <- (length_cons me). apply Permutation_length, NoDup_Permutation; [apply Hr|apply NoDup_cons; split; [intros H%list_elem_of_filter; tauto|apply NoDup_filter, Hr]|].
    intros c. rewrite elem_of_cons, list_elem_of_filter. pose proof (nr_me _ _ _ _ Hr). split; [|intros [->|[_ ?]]; done].
    intros Hc'. destruct (decide (c = me)); [by left|by right]. }
  rewrite u32_small by lia. rewrite (proj2 (Z.eqb_eq _ _)) by lia. done.
Qed.
