(* ===== verification/SmpTop.v ===== *)
(** * Multiprocessor start-up: the contract of KrInitSMP *)
From Stdlib Require Import ZArith Lia String.
From stdpp Require Import base numbers list gmap sets.
From S2P Require Import Prelude PhysBitmap KrtlMem Physmemmgmt PmmProps Pte Vmr VmrSpec VmrProps PageTable PageTableSpec PageTableProps MmioProps Heap HeapSpec HeapProps Alloc Interrupts Descriptors Acpi Apic Nmi NmiProps NmiThms Bytes Smp SmpSpec SmpAp SmpThms.
Open Scope Z_scope.

(** No interrupt is in progress and none has been raised before. *)
Record nmi_idle (n : Nmi) : Prop := {
  ni_lock : sg_NmiSpinlock n = false;
  ni_info : sg_NmiInfo n = nmi_info_zero;
  ni_expect : sg_ExpectAck n = replicate 32 0 /\ sl_InitExpectAck n = false;
  ni_cpus : nmi_pending n = ∅ /\ nmi_pcs n = ∅
}.

(** A local APIC that KrApicInit accepts on an application processor. *)
Definition apic_calm (fuel : nat) (a : Apic) : Prop :=
  sl_CalibSpinlock a = false /\ KrApicGetPhysicalBase a = LOCAL_APIC_BASE_ADDRESS /\ live_apic fuel a.

Lemma apics_start lat ac pmv tsc T pm mmio fuel (m : gmap Z Apic) (L : list Z) : timers_ok pm pmv tsc T ->
  (forall c, c ∈ L -> exists a, m !! c = Some a /\ apic_calm fuel a) ->
  exists cf, forall cfuel, (cf <= cfuel)%nat -> forall c a, c ∈ L -> m !! c = Some a -> exists a',
    KrApicInit lat ac pmv tsc cfuel true mmio a pm false = Done (a', true) /\ live_apic fuel a' /\ reg a' APIC_REG_SIV = 0x1FF.
Proof.
  intros Ht. induction L as [|x L IH]; intros H; [exists 0%nat; intros ? _ ? ? []%not_elem_of_nil|].
  destruct IH as (cf & Hcf); [intros c Hc; apply H; by right|]. destruct (H x) as (a & Ha & Hl & Hb & Hv & Hi); [by left|].
  destruct (apic_init_spec lat ac pmv tsc T pm a mmio false Ht Hl Hb Hv) as (a' & f0 & E & S1 & _ & S2 & S3).
  exists (Nat.max cf f0). intros cfuel Hge c b [->|Hc]%elem_of_cons Hb'; [|apply (Hcf cfuel ltac:(lia) c b Hc Hb')].
  rewrite Ha in Hb'. injection Hb' as <-. exists a'. split; [apply E; lia|]. split; [|done]. split; [by rewrite S2|by rewrite S3].
Qed.

Lemma to_start_bound s c : c ∈ to_start s -> 0 <= c < 256.
Proof. exact (ap_range_bound (ProcInfo s) 256 c). Qed.
Lemma to_start_NoDup s : NoDup (to_start s).
Proof. apply ap_range_NoDup. Qed.
Lemma to_start_ids (L : list Z) me : 0 <= me < 256 -> me ∉ L -> NoDup L -> (forall c, c ∈ L -> 0 <= c < 256) ->
  NoDup (me :: L) /\ (forall c, c ∈ me :: L -> 0 <= c < 256) /\ (length L <= 255)%nat.
Proof.
  intros Hme Hni Hn0 Hr0. assert (NoDup (me :: L)) as Hn by by apply NoDup_cons.
  assert (forall c, c ∈ me :: L -> 0 <= c < 256) as Hr by (intros c [->|Hc]%elem_of_cons; [done|by apply Hr0]).
  split; [done|]. split; [done|]. pose proof (NoDup_bound 256 _ Hn Hr) as Hl. cbn [length] in Hl. lia.
Qed.

#[local] Opaque to_start online.
Section Top.
Context (image : list Z) (LmEntry Entry Stacks Gdt : Z) (isrs : list Z) (exc nmi pf tim spu kspace : Z).
Context (nx : bool) (lat : Z -> nat) (ac : nat -> Z) (pmv : pm_source -> nat -> Z) (tsc : nat -> Z) (pm : PmTimer) (mmio : Z).
Context (fuel : nat) (sched : nat -> list Z) (last : list Z) (ba be : Z) (nsched : nat -> list Z).

(** The state in which KrInitSMP is called on processor [me]. *)
Record smp_ready (s : Smp) (me R : Z) (ow : gmap Z (list Z)) (a : KrAddressSpace) (l : list region) (p0 : Z) (hl : list (Z * Z)) (nodes : list Z)
    (T : nat -> Z) : Prop := {
  sr_link : link_ok image LmEntry Entry Stacks;
  sr_memory : memory_ready kspace fuel s R ow a l p0 hl nodes;
  sr_root : 0 <= PaddrRoot a < 2 ^ 32;
  sr_gdt : gdt_set s;
  sr_machine : machine_ready isrs fuel me s (to_start s) /\ 0 <= me < 256;
  sr_roster : roster (ProcInfo s) me (to_start s);
  sr_array : length (sg_InitialStacks s) = 256%nat;
  sr_handlers : Forall (fun h => h <> 0) [exc; nmi; pf; tim; spu];
  sr_timers : timers_ok pm pmv tsc T /\ stall_ends tsc fuel 1250000 /\ stall_ends tsc fuel 50000000 /\ forall w, (lat w < fuel)%nat;
  sr_apics : forall c, c ∈ to_start s -> exists x, apics (smNmi s) !! c = Some x /\ apic_calm fuel x;
  sr_nmi0 : nmi_idle (smNmi s);
  sr_sched : (forall i, Forall (fun c => c ∈ to_start s) (sched i)) /\ Forall (fun c => c ∈ to_start s) last
}.

#[local] Abbreviation init cfuel := (KrInitSMP image LmEntry Entry Stacks Gdt isrs exc nmi pf tim spu kspace nx true lat ac pmv tsc pm mmio fuel cfuel sched last ba be nsched).
#[local] Abbreviation booted := (booting image Entry Stacks Gdt isrs exc nmi pf tim spu nx fuel).

(** The state [s1] right after the messages, and what it keeps of [s]. *)
Record launched (s : Smp) (me R cr3 : Z) (f : Z -> Z * Z) (hl : list (Z * Z)) (s1 : Smp) : Prop := {
  ln_site : site s1 cr3 R (to_start s) f;
  ln_live : al_live (Allocator := heap_allocator fuel) 1 PER_CORE_STACK_SIZE (smHeap s1) (reverse (f <$> to_start s) ++ hl);
  ln_ideal : IdealProcessorCount s1 = IdealProcessorCount s;
  ln_procs : ProcInfo s1 = reported (ProcInfo s) me;
  ln_nmi : nmi_idle (smNmi s1);
  ln_apics : forall c, c <> me -> apics (smNmi s1) !! c = apics (smNmi s) !! c
}.

Lemma reach_wait s me R ow a l p0 hl nodes T : smp_ready s me R ow a l p0 hl nodes T ->
  exists f s1 cf, launched s me R (PaddrRoot a) f hl s1 /\ forall cfuel, (cf <= cfuel)%nat ->
    starters image LmEntry Entry Stacks exc nmi pf tim spu true lat ac pmv tsc pm mmio fuel cfuel s1 (PaddrRoot a) R (to_start s) f me /\
    exists s0 s2, prepare image Entry Stacks kspace fuel s me = Done s0 /\
      awaken image LmEntry Entry Stacks Gdt isrs exc nmi pf tim spu nx true lat ac pmv tsc pm mmio fuel cfuel sched s0 me = Done s2 /\
      booted s1 (PaddrRoot a) (to_start s) f me (sched 0%nat) s2.
Proof.
  intros [K1 K2 K3 K4 [K5 Hme] K6 K7 K8 (T1 & T2 & T3 & T4) K10 K11 [K12 _]]. pose proof (md_me _ _ _ _ _ K5) as Hni.
  destruct (to_start_ids (to_start s) me Hme Hni (to_start_NoDup s) (to_start_bound s)) as (Hn & Hr & Hlen).
  destruct (prepare_spec image Entry Stacks kspace fuel s me R ow a l p0 hl nodes K2 K4 K3 (lk_image _ _ _ _ K1) (ro_length _ _ _ K6) K7 Hme)
    as (p' & h' & m & st' & f & E & Hla & Hal). match type of E with _ = Done ?x => set (s0 := x) in * end.
  assert (machine_ready isrs fuel me s0 (to_start s)) as Hmach.
  { destruct K5 as [M1 M2 M3 M4 M5 M6 M7]. split; try done. change (ProcInfo s0) with (reported (ProcInfo s) me). unfold reported. by rewrite length_alter. }
  destruct (awaken_spec image LmEntry Entry Stacks Gdt isrs exc nmi pf tim spu nx true lat ac pmv tsc pm mmio fuel me sched (conj T2 T3) T4 s0 _ R _ f Hmach Hla eq_refl)
    as (s1 & Ea & Hb & Hsite & x & m1 & Es1).
  assert (launched s me R (PaddrRoot a) f hl s1) as Hlau.
  { split; [done|by rewrite Es1|by rewrite Es1|by rewrite Es1| |].
    - rewrite Es1. destruct K11. by split.
    - intros c Hc. rewrite Es1. cbn. by rewrite lookup_insert_ne. }
  destruct (apics_start lat ac pmv tsc T pm mmio fuel (apics (smNmi s)) _ T1 K10) as (cf & Hcf).
  exists f, s1, cf. split; [done|]. intros cfuel Hge.
  assert (starters image LmEntry Entry Stacks exc nmi pf tim spu true lat ac pmv tsc pm mmio fuel cfuel s1 (PaddrRoot a) R (to_start s) f me) as Hst.
  { apply NoDup_cons in Hn as [_ Hn]. split; try done.
    - split_and!; [done| |done]. intros c Hc. split; [apply Hr; by right|by intros ->].
    - intros c b Hc. rewrite (ln_apics _ _ _ _ _ _ _ Hlau) by (by intros ->). by apply Hcf. }
  split; [done|]. destruct (run_booting image LmEntry Entry Stacks Gdt isrs exc nmi pf tim spu nx true lat ac pmv tsc pm mmio fuel cfuel s1 _ R _ f me Hst
    (sched 0%nat) s1 [] Hb (K12 _)) as (s2 & E2 & H2).
  exists s0, s2. split; [exact E|]. by rewrite Ea, E2.
Qed.

(** The machine after KrInitSMP: [evs] are the steps the others have made. *)
Record brought_up (s : Smp) (me R cr3 : Z) (f : Z -> Z * Z) (hl : list (Z * Z)) (evs : list Z) (s' : Smp) : Prop := {
  bu_count : ActiveCount s' = IdealProcessorCount s /\ pCpuIDs (smNmi s') = online me (to_start s);
  bu_cpus : forall c, c ∈ to_start s -> aps s' !! c = Some (loaded Gdt nx cr3 f c (if decide (6 <= cnt evs c)%nat then ApIdle else ApApic));
  bu_stacks : forall c, c ∈ to_start s -> sg_InitialStacks s' !! Z.to_nat c = Some (top f c) /\ PER_CORE_STACK_SIZE <= (f c).2 /\
    is_Some (translate (smPaging s') R (top f c - 8));
  bu_apart : forall c d, c ∈ to_start s -> d ∈ to_start s -> c <> d -> apart (f c) (f d);
  bu_heap : exists p n, al_live (Allocator := heap_allocator fuel) 0 PER_CORE_STACK_SIZE (smHeap s') ((p, n) :: reverse (f <$> to_start s) ++ hl) /\
    4 * ActiveCount s' <= n;
  bu_ints : forall c, c ∈ to_start s -> forall i h, 0 <= i < 256 -> startup_handler exc nmi pf tim spu i = Some h ->
    KrDispatchInterrupt (ints (smIdt s')) c i = Done (Some h, (i >=? 32) && negb (i =? 255));
  bu_nmi : sg_NmiSpinlock (smNmi s') = false /\ sg_NmiInfo (smNmi s') = nmi_info_zero /\
    forall c, 0 <= c < 256 -> ackbit (sg_ExpectAck (smNmi s')) c = true <-> c ∈ me :: to_start s;
  bu_low : low_mapped (smPaging s') R
}.

Lemma stacks_apart m B h hl (f : Z -> Z * Z) L c d : al_live (Allocator := heap_allocator fuel) m B h (reverse (f <$> L) ++ hl) ->
  c ∈ L -> d ∈ L -> c <> d -> apart (f c) (f d).
Proof.
  intros Hal Hc Hd Hne.
  assert (forall x, x ∈ L -> exists i, (i < length L)%nat /\ L !! (length L - S i)%nat = Some x /\ (reverse (f <$> L) ++ hl) !! i = Some (f x)) as Hix.
  { intros x [j Hj]%list_elem_of_lookup. pose proof (lookup_lt_Some _ _ _ Hj). exists (length L - S j)%nat.
    replace (length L - S (length L - S j))%nat with j by lia. split_and!; [lia|done|].
    rewrite lookup_app_l by (rewrite length_reverse, length_fmap; lia). rewrite reverse_lookup by (rewrite length_fmap; lia).
    rewrite length_fmap. replace (length L - S (length L - S j))%nat with j by lia. by rewrite list_lookup_fmap, Hj. }
  destruct (Hix c Hc) as (i & _ & Hci & Hi), (Hix d Hd) as (j & _ & Hdj & Hj).
  eapply (al_apart (Allocator := heap_allocator fuel) m B h _ i j); [exact Hal|exact Hi|exact Hj|]. intros ->. congruence.
Qed.

(** From the end of the wait to the end. *)
Lemma finish_spec s me R ow a l p0 hl nodes T f s1 cfuel evs s3 fresh : smp_ready s me R ow a l p0 hl nodes T ->
  IdealProcessorCount s = Z.of_nat (S (length (to_start s))) -> launched s me R (PaddrRoot a) f hl s1 ->
  starters image LmEntry Entry Stacks exc nmi pf tim spu true lat ac pmv tsc pm mmio fuel cfuel s1 (PaddrRoot a) R (to_start s) f me ->
  booted s1 (PaddrRoot a) (to_start s) f me evs s3 -> (forall c, c ∈ to_start s -> (5 <= cnt evs c)%nat) ->
  (exists K, (K <= 512)%nat /\ forall c, c ∈ to_start s -> (2 <= cnt (steps_of nsched 0 K) c)%nat) ->
  exists s', (_ ← ensure (negb (bProcessorReinitDetected s3)) KR_MDCODE_SMP_BRINGUP_FAILURE;
              s ← collect fuel s3 fresh; sanity_check lat ac tsc fuel ba be nsched s me) = Done s' /\
    brought_up s me R (PaddrRoot a) f hl evs s'.
Proof.
  intros [K1 K2 K3 K4 [K5 Hme] K6 K7 K8 (T1 & T2 & T3 & T4) K10 K11 K12] Hid [N1 N2 N3 N4 N5 N6] Hst [B1 B2 B3 B4 B5 B6 B7 B8 B9 B10] Hrep Hack.
  destruct (to_start_ids (to_start s) me Hme (md_me _ _ _ _ _ K5) (to_start_NoDup s) (to_start_bound s)) as (Hn & Hr & Hlen).
  destruct B1 as [(F1 & F2 & F3 & F4 & F5 & F6 & F7) (ap & n & F8)]. rewrite F6. cbn [negb ensure]. rewrite bind_Done.
  assert (length (online me (to_start s)) = S (length (to_start s))) as Hon by by apply online_length.
  assert (num (to_start s) 4 evs = length (to_start s)) as Hnum by (apply num_all; intros c Hc; specialize (Hrep c Hc); lia).
  assert (ActiveCount s3 = Z.of_nat (length (online me (to_start s)))) as Hac by (rewrite B6, Hnum, Hon; lia).
  destruct (collect_spec fuel s3 fresh (reverse (f <$> to_start s) ++ hl) (online me (to_start s))) as (h & p & sz & E & Hal & Hsz).
  { apply (duty_online (ProcInfo s) (ProcInfo s3) me (to_start s) K6 B8). intros j e Hj He.
    pose proof (ro_duty _ _ _ K6 j e Hj He) as Hd. rewrite N4 in B7. unfold reported in B7.
    destruct (decide (Z.to_nat j = Z.to_nat me)) as [Heq|Hne].
    - assert (j = me) as -> by lia. exists false. split; [split; [done|intros H; by apply (md_me _ _ _ _ _ K5) in H]|].
      rewrite (B7 me _ Hj ltac:(rewrite list_lookup_alter_eq, He; reflexivity)). cbn. by rewrite Hd, bool_decide_true.
    - exists (bool_decide (j ∈ to_start s /\ (5 <= cnt evs j)%nat)). split.
      + rewrite bool_decide_eq_true. split; [tauto|]. intros H. split; [done|by apply Hrep].
      + by rewrite (B7 j e Hj ltac:(by rewrite list_lookup_alter_ne)). }
  { done. } { lia. } { by rewrite F2. }
  rewrite E, bind_Done. set (s4 := with_snmi (with_mem s3 (smPaging s3) h) _).
  destruct (sanity_check_spec lat ac tsc fuel ba be nsched s4 me (online me (to_start s))) as (n' & ev' & E2 & Ho).
  - destruct N5. cbn. by rewrite F8.
  - destruct N5 as [I1 I2 [I3 I3'] [I4 I5]]. destruct zero_acks as [Z1 Z2].
    split; cbn [s4 smNmi with_snmi nmi_counts sg_NmiInfo pCpuIDs ActiveProcessorCount sg_ExpectAck sl_InitExpectAck nmi_pending nmi_pcs apics].
    + by rewrite F8.
    + split; done.
    + apply Forall_forall. intros c Hc. apply Hr. by apply elem_of_online.
    + apply online_nodup.
    + apply elem_of_online; [done|by left].
    + rewrite F8. cbn. rewrite I3, I3'. split; [done|]. intros c Hc. rewrite Z2 by done. split; [done|by intros []].
    + rewrite F8. cbn. split; done.
    + intros c Hc. apply elem_of_online in Hc; [|done]. apply elem_of_cons in Hc as [->|Hc].
      * destruct B10 as (x & Hx & Hv). by exists x.
      * destruct (B9 c Hc) as (x & Hx & Hv & _). by exists x.
  - rewrite Hon. lia.
  - done.
  - done.
  - destruct Hack as (K & HK & Hall). exists K. split; [done|]. intros c Hc Hne. apply Hall. apply elem_of_online in Hc; [|done].
    by apply elem_of_cons in Hc as [->|].
  - exists (with_snmi s4 n'). split; [exact E2|]. pose proof (no_counts _ _ _ _ _ _ Ho) as [C1 C2].
    pose proof N1 as [S1 S2 S3 S4].
    split; cbn [s4 with_snmi with_mem smPaging smHeap smNmi smIdt aps sg_InitialStacks].
    + split; [|exact C1]. change (ActiveProcessorCount n' = IdealProcessorCount s). rewrite C2, Hid, <- Hon. exact Hac.
    + intros c Hc. rewrite B2 by done. f_equal. specialize (Hrep c Hc). destruct (decide _) as [H6|H6]; [by apply cpu_idle|].
      assert (cnt evs c = 5)%nat as -> by lia. done.
    + intros c Hc. rewrite F4, F1. destruct (S4 c Hc) as (H1 & _ & H2 & H3). done.
    + intros c d Hc Hd Hne. eapply stacks_apart; [exact N2|done..].
    + exists p, sz. split; [exact Hal|]. unfold ActiveCount. cbn [with_snmi smNmi]. rewrite C2. change (4 * ActiveCount s3 <= sz). rewrite Hac. exact Hsz.
    + intros c Hc i x Hi Hx. destruct (B5 c Hc) as (t & _ & Hd). apply Hd; [|done|done]. specialize (Hrep c Hc). lia.
    + destruct (no_expect _ _ _ _ _ _ Ho) as (_ & _ & He). split; [by apply Ho|]. split; [by apply Ho|]. intros c Hc. rewrite He by done. by apply elem_of_online.
    + by rewrite F1.
Qed.

(** C19: on a machine whose [n] other processors have valid entries in the
    processor table, and with the memory for their stacks, KrInitSMP returns,
    whatever the order in which the others make their steps, if each has
    incremented the counter by the time of one of the sixteen checks, has
    reported by the time the list is made, and takes the test interrupt while
    the boot processor waits.  All [n + 1] processors are then counted and
    listed in order; every other one runs C code with the kernel's page
    tables, its own stack (disjoint from the others, its top present), the
    kernel's segments, and a table that dispatches the kernel's handlers. *)
Theorem smp_brings_up s me R ow a l p0 hl nodes T fresh k
    (Hready : smp_ready s me R ow a l p0 hl nodes T)
    (Hideal : IdealProcessorCount s = Z.of_nat (S (length (to_start s))))
    (Hk : (k < 16)%nat) (Hfull : full s (to_start s) (steps_of sched 0 (S k)))
    (Hfirst : forall j, (j < k)%nat -> ~ full s (to_start s) (steps_of sched 0 (S j)))
    (Hrep : forall c, c ∈ to_start s -> (5 <= cnt (steps_of sched 0 (S k) ++ last) c)%nat)
    (Hack : exists K, (K <= 512)%nat /\ forall c, c ∈ to_start s -> (2 <= cnt (steps_of nsched 0 K) c)%nat) :
  exists f cf, forall cfuel, (cf <= cfuel)%nat -> exists s', init cfuel s me fresh = Done s' /\
    brought_up s me R (PaddrRoot a) f hl (steps_of sched 0 (S k) ++ last) s'.
Proof.
  destruct (reach_wait s me R ow a l p0 hl nodes T Hready) as (f & s1 & cf & Hl & Hcf). exists f, cf. intros cfuel Hge.
  destruct (Hcf cfuel Hge) as (Hst & s0 & s2 & E0 & E1 & H2). pose proof Hready as [_ _ _ _ [K5 _] _ _ _ (_ & T2 & T3 & T4) _ _ [K12 K13]].
  unfold KrInitSMP. rewrite E0, bind_Done, E1, bind_Done.
  assert (forall j, full s1 (to_start s) (sched 0%nat ++ steps_of sched 1 j) <-> full s (to_start s) (steps_of sched 0 (S j))) as Hfl.
  { intros j. rewrite steps_of_S. unfold full. by rewrite (ln_ideal _ _ _ _ _ _ _ Hl). }
  destruct (await_spec image LmEntry Entry Stacks Gdt isrs exc nmi pf tim spu nx true lat ac pmv tsc pm mmio fuel cfuel me sched (conj T2 T3)
    s1 _ R _ f Hst (md_me _ _ _ _ _ K5) K12 16 0 _ s2 H2) as [(k' & s3 & Hk' & E3 & H3 & Hf & Hn)|[_ Hn]].
  2:{ exfalso. by apply (Hn k Hk), Hfl. }
  assert (k' = k) as ->.
  { destruct (Nat.lt_trichotomy k' k) as [Hlt|[?|Hlt]]; [|done|]; exfalso; [by apply (Hfirst k' Hlt), Hfl|by apply (Hn k Hlt), Hfl]. }
  rewrite <- steps_of_S in H3. rewrite E3, bind_Done.
  destruct (run_booting image LmEntry Entry Stacks Gdt isrs exc nmi pf tim spu nx true lat ac pmv tsc pm mmio fuel cfuel s1 _ R _ f me Hst last s3 _ H3 K13)
    as (s4 & E4 & H4). rewrite E4, bind_Done.
  destruct (finish_spec s me R ow a l p0 hl nodes T f s1 cfuel _ s4 fresh Hready Hideal Hl Hst H4 Hrep Hack) as (s' & E5 & H5).
  exists s'. split; [exact E5|exact H5].
Qed.

(** If none of the sixteen checks, made before each of the waits, sees
    the expected number of processors, KrInitSMP stops the machine with
    KR_MDCODE_SMP_BRINGUP_FAILURE; the last wait is not followed by a check. *)
Theorem smp_times_out s me R ow a l p0 hl nodes T fresh
    (Hready : smp_ready s me R ow a l p0 hl nodes T)
    (Hnever : forall k, (k < 16)%nat -> ~ full s (to_start s) (steps_of sched 0 (S k))) :
  exists cf, forall cfuel, (cf <= cfuel)%nat -> init cfuel s me fresh = Melt KR_MDCODE_SMP_BRINGUP_FAILURE.
Proof.
  destruct (reach_wait s me R ow a l p0 hl nodes T Hready) as (f & s1 & cf & Hl & Hcf). exists cf. intros cfuel Hge.
  destruct (Hcf cfuel Hge) as (Hst & s0 & s2 & E0 & E1 & H2). pose proof Hready as [_ _ _ _ [K5 _] _ _ _ (_ & T2 & T3 & T4) _ _ [K12 K13]].
  unfold KrInitSMP. rewrite E0, bind_Done, E1, bind_Done.
  destruct (await_spec image LmEntry Entry Stacks Gdt isrs exc nmi pf tim spu nx true lat ac pmv tsc pm mmio fuel cfuel me sched (conj T2 T3)
    s1 _ R _ f Hst (md_me _ _ _ _ _ K5) K12 16 0 _ s2 H2) as [(k' & s3 & Hk' & E3 & H3 & Hf & Hn)|[-> _]]; [|done].
  exfalso. apply (Hnever k' Hk'). rewrite steps_of_S. unfold full in *. by rewrite <- (ln_ideal _ _ _ _ _ _ _ Hl).
Qed.
End Top.

(** ** Sample machines *)

(** 128 pages of memory, the heap's region and the heap as HeapInit leaves it. *)
Definition smp_pmm : Pmm :=
  mkPmm PMM_INIT_STAGE_BASIC 0 0 (128 * 4096) (0x03 :: replicate 15 0) (0x07 :: replicate 15 0) 16 128 128 2 1 8 [] false.
Definition smp_heap_node : KrVirtualMemoryRegion := mkVmr 1 0 0 "heap" 0xFFFFFF8000000000 0xFFFFFFC000000000 (32 + 16).
Definition smp_paging : Paging :=
  mkPaging (mkVmm smp_pmm sample_base 0x2000 KrVmmInitPat.2 false 1 {[ sample_slots := mkSlot 3 1 IVLDPGID IVLDPGID 2 ]}
      {[ sample_n1 := smp_heap_node ]} {[ 1 := mkSpace 0x2000 sample_n1 sample_n1 1 ]})
    (zero_page ∅ (sample_base + 0x2000)) (mkPat false false false) 0 0xFFFFFFC000000000 false.
Definition smp_image : list Z := replicate 8 0xF4.
Definition smp_apic : Apic := mkApic 0xFEE00900 0xFFFFFFC000000000 ∅ 0 [] [] 0 false true 0.
Definition smp_nmi : Nmi :=
  mkNmi false nmi_info_zero (replicate 32 0) false [0] 1 (list_to_map [(0, smp_apic); (1, smp_apic); (2, smp_apic)]) ∅ ∅.
Definition smp_idt : IdtState :=
  mkIdtState (replicate 256 empty_gate) false false (KrInitGDT (replicate 24 0)).2
    (mkInts (list_to_map [(0, empty_vectors); (1, empty_vectors); (2, empty_vectors)]) ∅ 0 [0] 1 [] [] 0 ∅ ∅).
Definition smp_proc (i : Z) : ProcInfoEntry := mkProc (if i <? 3 then i else 0) i (i <? 3) (i =? 0) (i =? 0).
Definition smp_machine : Smp :=
  mkSmp smp_paging heap_start ∅ (KrInitGDT (replicate 24 0)).1 smp_idt smp_nmi (smp_proc <$> seqZ 0 256) 3 false (replicate 256 0) (replicate 256 false)
    (list_to_map [(1, cpu_reset ApOff); (2, cpu_reset ApOff)]).
Definition smp_tsc (n : nat) : Z := 2000000 * Z.of_nat n.
Definition smp_pmv (_ : pm_source) (n : nat) : Z := sample_time n mod 2 ^ 24.
(** The other processors' steps; both have counted themselves in the second wait. *)
Definition smp_sched (i : nat) : list Z := nth i [[1; 2; 1; 1; 2]; [1; 1; 2; 2]; [2; 2; 1]] [].
Definition smp_nmi_sched (i : nat) : list Z := nth i [[1]; [2; 2; 1]] [].
Definition smp_Entry : Z := 0xFFFFFFFF80001000.
Definition smp_Stacks : Z := 0xFFFFFFFF80002000.
Definition smp_Gdt : Z := 0xFFFFFFFF80003000.
Definition smp_space : KrAddressSpace := mkSpace 0x2000 sample_n1 sample_n1 1.
Definition smp_root : Z := sample_base + 0x2000.
Definition smp_regions : list region := [mkRegion sample_n1 0xFFFFFF8000000000 0xFFFFFFC000000000 48].

Lemma smp_to_start : to_start smp_machine = [1; 2].
Proof. vm_compute. reflexivity. Qed.

Lemma smp_small va : small_path smp_paging smp_root (va_indices va).
Proof.
  intros e rest H. exfalso. unfold va_indices in H. cbn [walk] in H.
  destruct (zero_page_spec ∅ smp_root) as [Hz _]. cbn [smp_paging tbl] in H. unfold smp_root in *.
  rewrite Hz in H by (apply Z.mod_pos_bound; lia). done.
Qed.

Lemma smp_mmio : mmio_ready smp_paging smp_root {[smp_root := []]} 1 smp_space smp_regions sample_slots [sample_n1].
Proof.
  split; [|reflexivity| | |exact sample_pat].
  - split; [by apply empty_root_wf|split; [apply pmm_wfb_sound; vm_compute; reflexivity|done|done]|done|done|].
    intros t pi [<- _]%lookup_singleton_Some. exists 2. split; [done|]. split; [done|]. vm_compute. reflexivity.
  - split; [|split; [done|vm_compute; reflexivity]]. split.
    + by exists 0x2000.
    + cbn [smp_regions vseg]. split_and!; try done. eexists. vm_compute. reflexivity.
    + cbn [smp_regions rsorted g_start g_end]. lia.
    + apply (bool_decide_unpack _). by vm_compute.
  - split; [|split; [by vm_compute|unfold smp_regions; cbn; set_solver]]. split.
    + intros k Hk. unfold RnaGetSlotVptr.
      assert (KrPhysToVirt (pgVmm smp_paging) (KrGetPhysicalPageAddress (vPmm (pgVmm smp_paging)) (g_RnaRootPageID (pgVmm smp_paging)))
        = sample_slots) as -> by (vm_compute; reflexivity).
      rewrite u64_small; unfold sample_slots, sample_base, RNA_SLOT_SIZE; lia.
    + unfold sample_slots, sample_base. lia.
    + exists (mkSlot 3 1 IVLDPGID IVLDPGID 2). split; [vm_compute; reflexivity|]. cbn [Bitmap This]. split_and!; try done.
      * intros k Hk. rewrite (testbit_above 3 2 k), (testbit_above 3 2 31) by lia. done.
      * constructor; [exists 1; split_and!; done|constructor].
    + apply (bool_decide_unpack _). by vm_compute.
Qed.

Lemma smp_memory : memory_ready 1 100 smp_machine smp_root {[smp_root := []]} smp_space smp_regions sample_slots [] [sample_n1].
Proof.
  split; rewrite ?smp_to_start.
  - exact smp_mmio.
  - split; [vm_compute; reflexivity|]. split; [lia|]. split; [done|].
    intros r Hr. unfold smp_regions in Hr. rewrite elem_of_cons, elem_of_nil in Hr. destruct Hr as [->|[]]. unfold overlaps. cbn [g_start g_end]. lia.
  - intros va _. apply smp_small.
  - exists (mkRegion sample_n1 0xFFFFFF8000000000 0xFFFFFFC000000000 48). split; [by left|]. vm_compute. split_and!; done.
  - vm_compute. split; [discriminate|reflexivity].
  - intros va _. apply smp_small.
  - reflexivity.
  - vm_compute. lia.
  - exists [heap_init_block]. destruct heap_init_good as [Hr _]. split; [exact Hr|]. split; [done|]. split; [cbn; lia|].
    split; [vm_compute; reflexivity|]. right. exists heap_init_block. split; [by left|]. split; [done|]. vm_compute. discriminate.
  - cbn. lia.
Qed.

Lemma smp_stalls d : 0 <= d <= 50000000 -> stall_ends smp_tsc 100 d.
Proof.
  intros Hd n. exists (n + 26)%nat. split; [lia|]. unfold smp_tsc, u64.
  pose proof (Z.mod_le (2000000 * Z.of_nat n + d) (2 ^ 64) ltac:(lia) ltac:(lia)). lia.
Qed.
Lemma smp_timers : timers_ok sample_pm smp_pmv smp_tsc sample_time.
Proof.
  destruct sample_timers_ok as [H1 H2 H3 H4 _]. split; try done. intros n. exists (S n). split; [lia|]. unfold smp_tsc, u64.
  pose proof (Z.mod_le (2000000 * Z.of_nat n + 50) (2 ^ 64) ltac:(lia) ltac:(lia)). lia.
Qed.

(** A statement on the two other processors. *)
Lemma smp_each (P : Z -> Prop) : P 1 -> P 2 -> forall c, c ∈ [1; 2] -> P c.
Proof. intros H1 H2 c Hc. repeat (apply elem_of_cons in Hc as [->|Hc]; [done|]). by apply not_elem_of_nil in Hc. Qed.

Lemma smp_isrs_ok : Forall (fun o => 0 <= o < 2 ^ 64) sample_isrs /\ length sample_isrs = 256%nat.
Proof. split; [|done]. apply Forall_fmap, Forall_forall. intros i Hi. apply elem_of_seqZ in Hi. cbn. lia. Qed.

Lemma smp_machine_ready : machine_ready sample_isrs 100 0 smp_machine [1; 2].
Proof.
  assert (forall c, c ∈ [0; 1; 2] -> exists a, apics smp_nmi !! c = Some a /\ live_apic 100 a) as Ha.
  { intros c Hc. exists smp_apic. assert (live_apic 100 smp_apic) as Hl by (split; [done|cbn; lia]).
    repeat (apply elem_of_cons in Hc as [->|Hc]; [by split|]). by apply not_elem_of_nil in Hc. }
  split; try done.
  - split; [done|]. by apply smp_each.
  - apply smp_each; exists empty_vectors; (split; [exact smp_isrs_ok|done|done|done|done]).
  - apply smp_each; eexists; reflexivity.
  - rewrite !elem_of_cons, elem_of_nil. lia.
Qed.

Lemma smp_roster : roster (ProcInfo smp_machine) 0 [1; 2].
Proof.
  assert (forall j, 0 <= j < 256 -> ProcInfo smp_machine !! Z.to_nat j = Some (smp_proc j)) as Hp.
  { intros j Hj. cbn [ProcInfo smp_machine]. rewrite list_lookup_fmap, lookup_seqZ_lt by lia. cbn. do 2 f_equal. lia. }
  split; [done| |].
  - intros j e Hj He. assert (0 <= j < 3) as Hr by (repeat (apply elem_of_cons in Hj as [->|Hj]; [lia|]); by apply not_elem_of_nil in Hj).
    rewrite Hp in He by lia. injection He as <-. cbn. by rewrite (proj2 (Z.ltb_lt _ _)) by lia.
  - intros j e Hj He. assert (j < 256) as Hr by (apply lookup_lt_Some in He; change (length (ProcInfo smp_machine)) with 256%nat in He; lia).
    rewrite Hp in He by lia. injection He as <-. cbn. by destruct (Z.eqb_spec j 0); [rewrite bool_decide_true|rewrite bool_decide_false].
Qed.

Lemma smp_smp_ready : smp_ready smp_image 0x8004 smp_Entry smp_Stacks sample_isrs 1 2 3 4 5 1 no_latency smp_pmv smp_tsc sample_pm 100 smp_sched [2; 2]
  smp_machine 0 smp_root {[smp_root := []]} smp_space smp_regions sample_slots [] [sample_n1] sample_time.
Proof.
  split; rewrite ?smp_to_start.
  - split; unfold smp_Entry, smp_Stacks; cbn; lia.
  - exact smp_memory.
  - cbn. lia.
  - exists (replicate 24 0). done.
  - split; [exact smp_machine_ready|lia].
  - exact smp_roster.
  - done.
  - repeat (apply Forall_cons; split; [lia|]). by apply Forall_nil.
  - split; [exact smp_timers|]. split; [by apply smp_stalls|]. split; [by apply smp_stalls|]. intros w. unfold no_latency. lia.
  - apply smp_each; exists smp_apic; (split; [reflexivity|split; [done|split; [reflexivity|split; [done|cbn; lia]]]]).
  - split; try done.
  - assert (forall l, Forall (fun c => c = 1 \/ c = 2) l -> Forall (fun c => c ∈ [1; 2]) l) as H by (intros l Hl; eapply Forall_impl; [exact Hl|cbn; set_solver]).
    split; [|apply H; repeat (apply Forall_cons; split; [lia|]); by apply Forall_nil].
    intros [|[|[|i]]]; apply H; cbn; repeat (apply Forall_cons; split; [lia|]); try by apply Forall_nil. destruct i; by apply Forall_nil.
Qed.

Lemma smp_full k : (k < 2)%nat -> full smp_machine [1; 2] (steps_of smp_sched 0 (S k)) <-> k = 1%nat.
Proof. intros Hk. destruct k as [|[|k]]; [| |lia]; vm_compute; split; congruence. Qed.

Lemma smp_brings_up_witness :
  full smp_machine (to_start smp_machine) (steps_of smp_sched 0 2) /\
  exists f cf, forall cfuel, (cf <= cfuel)%nat -> exists s',
    KrInitSMP smp_image 0x8004 smp_Entry smp_Stacks smp_Gdt sample_isrs 1 2 3 4 5 1 true true no_latency (fun _ => 0xF0000000) smp_pmv smp_tsc sample_pm 0
      100 cfuel smp_sched [2; 2] 1 0 smp_nmi_sched smp_machine 0 [] = Done s' /\
    brought_up smp_Gdt 1 2 3 4 5 true 100 smp_machine 0 smp_root 0x2000 f [] (steps_of smp_sched 0 2 ++ [2; 2]) s'.
Proof.
  split; [rewrite smp_to_start; apply smp_full; lia|].
  apply (smp_brings_up smp_image 0x8004 smp_Entry smp_Stacks smp_Gdt sample_isrs 1 2 3 4 5 1 true no_latency (fun _ => 0xF0000000) smp_pmv smp_tsc sample_pm 0
    100 smp_sched [2; 2] 1 0 smp_nmi_sched smp_machine 0 smp_root {[smp_root := []]} smp_space smp_regions sample_slots [] [sample_n1] sample_time [] 1 smp_smp_ready);
    rewrite ?smp_to_start.
  - reflexivity.
  - lia.
  - apply smp_full; lia.
  - intros j Hj H. apply smp_full in H; lia.
  - apply smp_each; vm_compute; lia.
  - exists 2%nat. split; [lia|]. apply smp_each; vm_compute; lia.
Defined.

(** The second processor stays behind. *)
Definition smp_half (_ : nat) : list Z := [1].
Lemma smp_times_out_witness :
  exists cf, forall cfuel, (cf <= cfuel)%nat ->
    KrInitSMP smp_image 0x8004 smp_Entry smp_Stacks smp_Gdt sample_isrs 1 2 3 4 5 1 true true no_latency (fun _ => 0xF0000000) smp_pmv smp_tsc sample_pm 0
      100 cfuel smp_half [2; 2] 1 0 smp_nmi_sched smp_machine 0 [] = Melt KR_MDCODE_SMP_BRINGUP_FAILURE.
Proof.
  apply (smp_times_out smp_image 0x8004 smp_Entry smp_Stacks smp_Gdt sample_isrs 1 2 3 4 5 1 true no_latency (fun _ => 0xF0000000) smp_pmv smp_tsc sample_pm 0
    100 smp_half [2; 2] 1 0 smp_nmi_sched smp_machine 0 smp_root {[smp_root := []]} smp_space smp_regions sample_slots [] [sample_n1] sample_time []).
  - destruct smp_smp_ready as [H1 H2 H3 H4 H5 H6 H7 H8 H9 H10 H11 [_ H12]]. split; try done. split; [|done].
    intros i. rewrite smp_to_start. apply Forall_cons. split; [by left|by apply Forall_nil].
  - intros k Hk. rewrite smp_to_start. unfold full. assert (cnt (steps_of smp_half 0 (S k)) 2 = 0)%nat as E.
    { unfold cnt, steps_of. induction (seq 0 (S k)) as [|x l IH]; [done|exact IH]. }
    pose proof (num_lt [1; 2] 4 (steps_of smp_half 0 (S k)) 2 ltac:(set_solver) ltac:(lia)). cbn [length IdealProcessorCount smp_machine] in *. lia.
Defined.

(** The counter is incremented before the processor reports: the boot processor
    can leave the wait and make its list in between.  The last entry is then
    what the memory held. *)
Definition smp_listed (sched : nat -> list Z) (last fresh : list Z) : outcome (Z * list Z) :=
  let m := smp_machine in
  s ← prepare smp_image smp_Entry smp_Stacks 1 100 m 0;
  s ← awaken smp_image 0x8004 smp_Entry smp_Stacks smp_Gdt sample_isrs 1 2 3 4 5 true true no_latency (fun _ => 0xF0000000) smp_pmv smp_tsc sample_pm 0
        100 2000 sched s 0;
  s ← await_loop smp_image 0x8004 smp_Entry smp_Stacks smp_Gdt sample_isrs 1 2 3 4 5 true true no_latency (fun _ => 0xF0000000) smp_pmv smp_tsc sample_pm 0
        100 2000 sched 16 0 s 0;
  s ← run_aps smp_image 0x8004 smp_Entry smp_Stacks smp_Gdt sample_isrs 1 2 3 4 5 true true no_latency (fun _ => 0xF0000000) smp_pmv smp_tsc sample_pm 0
        2000 last s;
  s ← collect 100 s fresh; Done (ActiveCount s, pCpuIDs (smNmi s)).
Example smp_reported : smp_listed smp_sched [2; 2] (replicate 3 77) = Done (3, [0; 1; 2]).
Proof. vm_compute. reflexivity. Qed.
Example smp_race : smp_listed smp_sched [] (replicate 3 77) = Done (3, [0; 1; 77]).
Proof. vm_compute. reflexivity. Qed.
