(* ===== verification/Meltdown.v ===== *)
(** * Kernel meltdown (Kernel/Source/Core/Krnlmeltdown.c, Core/meltdownstrings.c,
    Core/Assert.c, Intmgmt/Dfltexcept.c and the snapshot of CPU/Interrupt.c)

    The other models end in [Melt code] where the kernel calls Krnlmeltdown;
    here is that routine itself: it stops the other processors, reports on the
    console and halts.  [Done s] stands for the processor halted for ever in the state [s]. *)
From Stdlib Require Import ZArith Lia Ascii String.
From stdpp Require Import base numbers list gmap sets.
From S2P Require Import Prelude BootstrapArena KrtlString Interrupts Descriptors Apic Nmi Fonts Console.
Open Scope Z_scope.

(** ** Meltdown codes *)

Definition KR_MDCODE_CRITICAL_PROCESSOR_EXCEPTION : Z := 0x1001.

Open Scope string_scope.
Definition Krnlmddesc (mdCode : Z) : string :=
  match mdCode with
  | 0x1001 => "KR_MDCODE_CRITICAL_PROCESSOR_EXCEPTION"
  | 0x1002 => "KR_MDCODE_LOCAL_APIC_INIT_FAILURE"
  | 0x1003 => "KR_MDCODE_SMP_BRINGUP_FAILURE"
  | 0x1004 => "KR_MDCODE_SMP_SANITY_CHECK_FAILURE"
  | 0x1005 => "KR_MDCODE_INTERRUPT_VECTORS_OVERRUN"
  | 0x2001 => "KR_MDCODE_PHYSMEMMGMT_INIT_FAILURE"
  | 0x2002 => "KR_MDCODE_PHYSMEMMGMT_TEST_FAILURE"
  | 0x2003 => "KR_MDCODE_VIRTMEMMGMT_INIT_FAILURE"
  | 0x2004 => "KR_MDCODE_LOCAL_APIC_MAP_FAILURE"
  | 0x2005 => "KR_MDCODE_PAGE_FAULT"
  | 0x2006 => "KR_MDCODE_DMAP_SETUP_OOM"
  | 0x2007 => "KR_MDCODE_PMM_META_OOM"
  | 0x2008 => "KR_MDCODE_PINNED_PAGE_RELINQUISHED"
  | 0x2009 => "KR_MDCODE_RNA_INIT_FAILURE"
  | 0x200A => "KR_MDCODE_KERNEL_ADDRESS_SPACE_CREATION_FAILURE"
  | 0x200B => "KR_MDCODE_KERNEL_HEAP_INITIALIZATION_FAILURE"
  | 0x200C => "KR_MDCODE_MMIO_DEVICE_MAP_FAILURE"
  | 0x200D => "KR_MDCODE_AP_STACK_ALLOC_FAILURE"
  | 0x3001 => "KR_MDCODE_IO_APICS_INIT_FAILURE"
  | 0x4001 => "KR_MDCODE_GENERAL_DEBUG"
  | 0x4002 => "KR_MDCODE_KERNEL_START_RETURNS"
  | 0x4003 => "KR_MDCODE_DMAP_SETUP_DEVCHECK"
  | 0x4004 => "KR_MDCODE_ISSUE_IPI_DEVCHECK"
  | 0x4005 => "KR_MDCODE_HIGH_CR3_RESIDENT_DEVCHECK"
  | 0x4006 => "KR_MDCODE_AP_BOOTSTRAP_LOW_ID_MAP_FAIL"
  | 0x4007 => "KR_MDCODE_BOGUS_NMI_REASON"
  | 0x4009 => "KR_MDCODE_ABSURD_CONCURRENT_SLEEPS"
  | 0x400A => "KR_MDCODE_SLEEP_INSIDE_TIMER_CALLBACK"
  | 0x400B => "KR_MDCODE_DEADLOCK_DETECTED"
  | 0x400C => "KR_MDCODE_UNOWNED_SPIN_UNLOCK"
  | 0x5001 => "KR_MDCODE_CORRUPT_ACPI_RSDP"
  | 0x5002 => "KR_MDCODE_ACPI_SDT_CHECKSUM_NV"
  | 0x5003 => "KR_MDCODE_ACPI_TABLE_NOT_FOUND"
  | 0x5004 => "KR_MDCODE_ACPI_TABLE_CORRUPT"
  | _ => "IVLDMDCODE"
  end.
Close Scope string_scope.

(** ** Snapshots *)

Record KrProcessorSnapshot := mkSnap {
  pR15 : Z; pR14 : Z; pR13 : Z; pR12 : Z; pR11 : Z; pR10 : Z; pR9 : Z; pR8 : Z;
  pRDI : Z; pRSI : Z; pRBP : Z; pRDX : Z; pRCX : Z; pRBX : Z; pRAX : Z; pRFLAGS : Z; pRSP : Z; pRIP : Z
}.
Record InterruptFrame := mkFrame {
  fR15 : Z; fR14 : Z; fR13 : Z; fR12 : Z; fR11 : Z; fR10 : Z; fR9 : Z; fR8 : Z;
  fRDI : Z; fRSI : Z; fRBP : Z; fRDX : Z; fRCX : Z; fRBX : Z; fRAX : Z;
  fInterruptNo : Z; fErrorCode : Z; fRIP : Z; fCS : Z; fRFLAGS : Z; fRSP : Z; fSS : Z
}.
Definition InterruptFrameToProcessorSnapshot (f : InterruptFrame) : KrProcessorSnapshot :=
  mkSnap (fR15 f) (fR14 f) (fR13 f) (fR12 f) (fR11 f) (fR10 f) (fR9 f) (fR8 f) (fRDI f) (fRSI f) (fRBP f) (fRDX f) (fRCX f)
    (fRBX f) (fRAX f) (fRFLAGS f) (fRSP f) (fRIP f).

(** ** Messages *)

Definition MDMSGWARNPREFIX : list Z := [10] ++ line "!!!KERNEL MELTDOWN!!!".
Definition MDMSGCATASTROPHICPREFIX : list Z := [10] ++ line "!!!CATASTROPHIC KERNEL MELTDOWN!!!".
Definition MDMSGPREFIX : list Z := line "MDCODE=0x%RX(%s),MDDESC=`%s`".
Definition MDMSGPOSTFIX : list Z :=
  [10] ++ line "!!!KERNEL MELTDOWN!!!" ++ line "Kernel bailing out, only God can resurrect the system as-is."
    ++ line "Hard reset your machine, the system is now halted.".
Definition md_registers : list Z :=
  mjoin (line <$> ["R15=0x%RX"; "R14=0x%RX"; "R13=0x%RX"; "R12=0x%RX"; "R11=0x%RX"; "R10=0x%RX"; "R9=0x%RX"; "R8=0x%RX";
    "RDI=0x%RX"; "RSI=0x%RX"; "RBP=0x%RX"; "RDX=0x%RX"; "RCX=0x%RX"; "RBX=0x%RX"; "RAX=0x%RX"; "RSP=0x%RX";
    "RFLAGS=0x%RX"; "RIP=0x%RX"; "CR0=0x%RX"; "CR2=0x%RX"; "CR3=0x%RX"; "CR4=0x%RX"]%string).
Definition md_no_snapshot : list Z :=
  [10] ++ line "Irregular call to Krnlmeltdown routine;" ++ line "No processor snapshot was provided.".
Definition md_late : list Z :=
  [10] ++ txt "A total of %u logical processor(s) did not respond to nor acknowledged the meltdown nonmaskable interrupt!"
    ++ line " It is advised that you reset the machine immediately in case that/those logical processor(s) try/tries to do things!"
    ++ txt "This is why this meltdown is classified as catastrophic!".

(** ** State *)

(** bMeltdown is the flag [dwMeltdown] of the console. *)
Record Md := mkMd {
  sg_MeltdownSpinlock : bool;
  mdNmi : Nmi;
  bMeltdownCatastrophic : bool;
  bDisplaywideText : bool;   (* VideoOutputProtocol *)
  mdConsole : Dwtp;
  CR0 : Z; CR2 : Z; mdCR3 : Z; CR4 : Z
}.
Definition with_mdlock (s : Md) (b : bool) : Md := mkMd b (mdNmi s) (bMeltdownCatastrophic s) (bDisplaywideText s) (mdConsole s) (CR0 s) (CR2 s) (mdCR3 s) (CR4 s).
Definition with_nmi (s : Md) (n : Nmi) (cat : bool) : Md := mkMd (sg_MeltdownSpinlock s) n cat (bDisplaywideText s) (mdConsole s) (CR0 s) (CR2 s) (mdCR3 s) (CR4 s).
Definition with_console (s : Md) (c : Dwtp) : Md := mkMd (sg_MeltdownSpinlock s) (mdNmi s) (bMeltdownCatastrophic s) (bDisplaywideText s) c (CR0 s) (CR2 s) (mdCR3 s) (CR4 s).
Definition set_meltdown (s : Dwtp) : Dwtp :=
  mkDwtp (FrameBufferSize s) (FrameBufferWidth s) (FrameBufferHeight s) (PixelsPerScanLine s) (CursorX s) (CursorY s)
    (AddrFrameBuffer s) (AddrRamFrameBuffer s) (BytesPerPixel s) (ConsoleFont s) (bUppercaseMode s) (dwLock s) true (Vram s) (Ram s).

Section Hardware.
Context (latency : Z -> nat) (apic_count : nat -> Z) (tsc : nat -> Z) (fuel : nat) (beyond_Ack beyond_ExpectAck : Z) (sched : nat -> list Z).

(** The processor's own interrupts and APIC. *)
Definition md_stop_self (a : Apic) : outcome Apic :=
  let a := ProcessorDisableInterrupts a in
  '(a, enabled) ← ApicIsEnabled apic_count a;
  if enabled : bool then
    a ← ApicSetEnabled latency apic_count a false; ApicSetTimerInterruptsEnabled latency apic_count a false
  else Done a.

Definition md_args (s : Md) (p : KrProcessorSnapshot) : list arg :=
  AWord <$> [pR15 p; pR14 p; pR13 p; pR12 p; pR11 p; pR10 p; pR9 p; pR8 p; pRDI p; pRSI p; pRBP p; pRDX p; pRCX p; pRBX p; pRAX p; pRSP p;
    pRFLAGS p; pRIP p; CR0 s; CR2 s; mdCR3 s; CR4 s].
Definition md_report (s : Md) (MdCode : Z) (MdDesc : option (list Z)) (pSnapshot : option KrProcessorSnapshot) (c : Dwtp) : outcome Dwtp :=
  c ← KrdwtpResetState c (KRDWTP_MAKE_COLOR 0x2E 0x00 0x45 0xFF);
  '(c, _) ← KrdwtpOutText c ((if bMeltdownCatastrophic s then MDMSGCATASTROPHICPREFIX else MDMSGWARNPREFIX) ++ [0]);
  let head := [AWord MdCode; AStr (Some (cstr (Krnlmddesc MdCode))); AStr MdDesc] in
  '(c, _) ← (match pSnapshot with
             | Some p => KrdwtpOutFormatText c (MDMSGPREFIX ++ [10] ++ md_registers ++ MDMSGPOSTFIX ++ [0]) (head ++ md_args s p)
             | None => KrdwtpOutFormatText c (MDMSGPREFIX ++ md_no_snapshot ++ MDMSGPOSTFIX ++ [0]) head
             end);
  Done c.

Definition Krnlmeltdown (s : Md) (me MdCode : Z) (MdDesc : option (list Z)) (pSnapshot : option KrProcessorSnapshot) : outcome Md :=
  if sg_MeltdownSpinlock s then Hang
  else
    let s := with_mdlock s true in
    a ← checked (apics (mdNmi s) !! me);
    a ← md_stop_self a;
    let s := with_console (with_nmi s (with_apic (mdNmi s) me a) (bMeltdownCatastrophic s)) (set_meltdown (mdConsole s)) in
    let Active := ActiveProcessorCount (mdNmi s) in
    '(s, NrCpusComplied) ← (if Active >? 1 then
        '(n, complied) ← RaiseGlobalNonmaskableInterrupt latency apic_count tsc fuel beyond_Ack beyond_ExpectAck sched (mdNmi s) me false
                           NMI_REASON_MELTDOWN (Some MdCode);
        Done (with_nmi s n (negb (complied =? u32 (Active - 1))), complied)
      else Done (s, 1));
    c ← (if bDisplaywideText s then md_report s MdCode MdDesc pSnapshot (mdConsole s) else Done (mdConsole s));
    '(c, _) ← (if bMeltdownCatastrophic s then KrdwtpOutFormatText c (md_late ++ [0]) [AWord (u32 (Active - NrCpusComplied - 1))] else Done (c, 0));
    Done (with_console s c).

(** ** Processor exceptions *)

Definition ProcessorExceptionNames : list string :=
  ["Divide-by-Zero"; "Debug Exception"; "Non-Maskable Interrupt"; "Breakpoint"; "Overflow"; "BOUND Range Exceeded"; "Invalid Opcode";
   "Device Not Available"; "Double Fault"; "Coprocessor Segment Overrun"; "Invalid TSS"; "Segment Not Present"; "Stack-Segment Fault";
   "General Protection Fault"; "Page Fault"; "Reserved"; "x87 FPU Floating-Point Error"; "Alignment Check"; "Machine Check";
   "SIMD Floating-Point Exception"; "Virtualization Exception"; "Control Protection Exception";
   "Reserved"; "Reserved"; "Reserved"; "Reserved"; "Reserved"; "Reserved"; "Reserved"; "Reserved"; "Reserved"; "Reserved"]%string.
Definition exception_prefix : string := "Critical processor exception: "%string.

(** KrtlContiguousCopyBuffer into an array. *)
Definition copy_at (buf : list Z) (off : nat) (src : list Z) (n : Z) : outcome (list Z) :=
  if decide ((off + Z.to_nat n <= length buf)%nat /\ (Z.to_nat n <= length src)%nat)
  then Done (take off buf ++ take (Z.to_nat n) src ++ drop (off + Z.to_nat n) buf) else Fault.

(** [MdDesc] is the uninitialised local buffer. *)
Definition IntmgmtProcessorException (MdDesc : list Z) (s : Md) (me : Z) (Intfr : InterruptFrame) : outcome Md :=
  name ← checked (ProcessorExceptionNames !! Z.to_nat (fInterruptNo Intfr));
  let ExceptionName := cstr name in
  let PrefixLength := u32 (Z.of_nat (length (cstr exception_prefix)) - 1) in
  size ← KrtlStringSize ExceptionName;
  let NameLength := u32 size in
  MdDesc ← copy_at MdDesc 0 (cstr exception_prefix) PrefixLength;
  MdDesc ← copy_at MdDesc (Z.to_nat PrefixLength) ExceptionName (u32 (NameLength + 1));
  Krnlmeltdown s me KR_MDCODE_CRITICAL_PROCESSOR_EXCEPTION (Some MdDesc) (Some (InterruptFrameToProcessorSnapshot Intfr)).

(** ** Assertions *)

Definition MAX_MDDESC_SIZE : Z := 8192.

(** [MdFmtDesc] is the uninitialised local buffer and [Snapshot] what
    Krnlmeltdownimm records of the processor. *)
Definition ImplKernelAssert (MdFmtDesc : list Z) (Snapshot : KrProcessorSnapshot) (s : Md) (me : Z) (Expr : bool) (MdCode : Z)
    (MdDesc : option (list Z)) (Args : list arg) : outcome Md :=
  if Expr then Done s
  else
    MdDesc ← (match MdDesc with
              | Some f =>
                  '(_, out) ← KrtlFormatStringVariadic MAX_MDDESC_SIZE f Args;
                  if decide (length out <= length MdFmtDesc)%nat then Done (Some (out ++ drop (length out) MdFmtDesc)) else Fault
              | None => Done None
              end);
    Krnlmeltdown s me MdCode MdDesc (Some Snapshot).
End Hardware.
