(* ===== verification/MeltdownThms.v ===== *)
(** * Kernel meltdown: what it stops and what it shows *)
From Stdlib Require Import ZArith Lia Ascii String.
From stdpp Require Import base numbers list gmap sets.
From S2P Require Import Prelude BootstrapArena KrtlMem KrtlString Interrupts Descriptors Apic Nmi NmiProps NmiThms Fonts Console ConsoleProps ConsoleSpec ConsoleFormat ConsoleThms Meltdown.
Open Scope Z_scope.
#[local] Arguments Z.testbit _ _ : simpl never.

(** ** The texts *)

Definition lits (t : list Z) : list cdirective := CLit <$> t.
Definition plain (t : list Z) : bool := forallb (fun c => negb (c =? 0) && negb (c =? 37)) t.

Lemma lits_ok t : plain t = true -> Forall cdirective_ok (lits t).
Proof.
  intros H. apply Forall_forall. intros d (c & -> & Hc)%list_elem_of_fmap. unfold plain in H. rewrite forallb_forall in H.
  specialize (H c (proj1 (list_elem_of_In _ _) Hc)). apply andb_true_iff in H as [H1 H2]. cbn.
  split; [destruct (Z.eqb_spec c 0)|destruct (Z.eqb_spec c 37)]; done.
Qed.

(** A description: its text and what follows the terminator, or NULLPTR. *)
Definition desc_ptr (d : option (list Z * list Z)) : option (list Z) := (fun p => p.1 ++ 0 :: p.2) <$> d.
Definition desc_directive (d : option (list Z * list Z)) : cdirective := match d with Some (t, junk) => CStr t junk | None => CNullStr end.
Definition desc_ok (d : option (list Z * list Z)) : Prop := match d with Some (t, _) => Forall (fun c => c <> 0) t | None => True end.

Definition md_head (code : Z) (d : option (list Z * list Z)) : list cdirective :=
  lits (txt "MDCODE=0x") ++ [CQuadHex true code] ++ lits (txt "(") ++ [CStr (txt (Krnlmddesc code)) []] ++ lits (txt "),MDDESC=`") ++
  [desc_directive d] ++ lits (line "`").
Definition register_line (name : string) (w : Z) : list cdirective := lits (txt name) ++ [CQuadHex true w] ++ lits [10].
Definition register_lines (l : list (string * Z)) : list cdirective := l ≫= (fun p => register_line p.1 p.2).
Definition snapshot_values (s : Md) (p : KrProcessorSnapshot) : list (string * Z) :=
  [("R15=0x", pR15 p); ("R14=0x", pR14 p); ("R13=0x", pR13 p); ("R12=0x", pR12 p); ("R11=0x", pR11 p); ("R10=0x", pR10 p); ("R9=0x", pR9 p);
   ("R8=0x", pR8 p); ("RDI=0x", pRDI p); ("RSI=0x", pRSI p); ("RBP=0x", pRBP p); ("RDX=0x", pRDX p); ("RCX=0x", pRCX p); ("RBX=0x", pRBX p);
   ("RAX=0x", pRAX p); ("RSP=0x", pRSP p); ("RFLAGS=0x", pRFLAGS p); ("RIP=0x", pRIP p); ("CR0=0x", CR0 s); ("CR2=0x", CR2 s);
   ("CR3=0x", mdCR3 s); ("CR4=0x", CR4 s)]%string.
(** The report proper. *)
Definition report (s : Md) (code : Z) (d : option (list Z * list Z)) (snap : option KrProcessorSnapshot) : list cdirective :=
  md_head code d ++
  match snap with
  | Some p => lits [10] ++ register_lines (snapshot_values s p)
  | None => lits md_no_snapshot
  end ++ lits MDMSGPOSTFIX.
(** The text about [n] processors that did not answer. *)
Definition late_report (n : Z) : list cdirective :=
  lits ([10] ++ txt "A total of ") ++ [CUInt n] ++
  lits (txt " logical processor(s) did not respond to nor acknowledged the meltdown nonmaskable interrupt!"
    ++ line " It is advised that you reset the machine immediately in case that/those logical processor(s) try/tries to do things!"
    ++ txt "This is why this meltdown is classified as catastrophic!").

Lemma cformat_app a b : cformat (a ++ b) = cformat a ++ cformat b.
Proof. apply bind_app. Qed.
Lemma ctext_app a b : ctext (a ++ b) = ctext a ++ ctext b.
Proof. apply bind_app. Qed.
Lemma cargs_app a b : cargs (a ++ b) = cargs a ++ cargs b.
Proof. apply bind_app. Qed.
Lemma lits_texts t : cformat (lits t) = t /\ ctext (lits t) = t /\ cargs (lits t) = [].
Proof.
  unfold cformat, ctext, cargs, lits. induction t as [|c t (IH1 & IH2 & IH3)]; [done|].
  cbn [fmap list_fmap mbind list_bind cformat_of crender cargs_of app]. by rewrite IH1, IH2, IH3.
Qed.

Lemma mddesc_text code : Forall (fun c => c <> 0) (txt (Krnlmddesc code)) /\ (length (txt (Krnlmddesc code)) <= 64)%nat.
Proof.
  assert (forallb (fun c => negb (c =? 0)) (txt (Krnlmddesc code)) && (length (txt (Krnlmddesc code)) <=? 64)%nat = true) as H.
  { unfold Krnlmddesc. repeat case_match; vm_compute; reflexivity. }
  apply andb_true_iff in H as [H1 H2]. split; [|by apply Nat.leb_le]. rewrite forallb_forall in H1. apply Forall_forall.
  intros c Hc E. specialize (H1 c (proj1 (list_elem_of_In _ _) Hc)). by rewrite E in H1.
Qed.

Lemma register_lines_spec l : Forall (fun p => plain (txt p.1) = true /\ (length (txt p.1) <= 9)%nat) l ->
  Forall cdirective_ok (register_lines l) /\ (length (ctext (register_lines l)) <= 74 * length l)%nat.
Proof.
  induction 1 as [|[name w] l [Hp Hl] _ [IH1 IH2]]; [split; [constructor|done]|].
  change (register_lines ((name, w) :: l)) with (register_line name w ++ register_lines l). split.
  - apply Forall_app. split; [|done]. unfold register_line. repeat (apply Forall_app; split); [by apply lits_ok|by repeat constructor|by apply lits_ok].
  - rewrite ctext_app, length_app. unfold register_line. rewrite !ctext_app, !length_app. destruct (lits_texts (txt name)) as (_ & -> & _).
    assert (ctext [CQuadHex true w] = unsigned_text (u64 w) 16 1) as -> by apply app_nil_r.
    pose proof (u64_range w) as Hw. destruct (unsigned_text_ok (u64 w) 16 1) as [_ Hx]; [lia|lia|]. cbn [fst snd length] in *.
    assert (length (ctext (lits [10])) = 1%nat) as -> by done. lia.
Qed.

Definition desc_length (d : option (list Z * list Z)) : nat := match d with Some (t, _) => length t | None => 0 end.

Lemma report_ok s code d snap : desc_ok d ->
  Forall cdirective_ok (report s code d snap) /\ (length (ctext (report s code d snap)) <= 2400 + desc_length d)%nat.
Proof.
  intros Hd. destruct (mddesc_text code) as [Hm Hml]. pose proof (u64_range code) as Hw.
  destruct (unsigned_text_ok (u64 code) 16 1) as [_ Hx]; [lia|lia|].
  destruct (register_lines_spec (match snap with Some p => snapshot_values s p | None => [] end)) as [R1 R2].
  { destruct snap; [|constructor]. repeat (apply Forall_cons; split; [split; [reflexivity|vm_compute; lia]|]). by apply Forall_nil. }
  unfold report, md_head. split.
  - repeat (apply Forall_app; split); try (by apply lits_ok); try (by repeat constructor).
    + apply Forall_cons. split; [|by apply Forall_nil]. by destruct d as [[]|].
    + destruct snap; [apply Forall_app; split; [by apply lits_ok|exact R1]|by apply lits_ok].
  - rewrite !ctext_app, !length_app. repeat match goal with |- context [ctext (lits ?t)] => destruct (lits_texts t) as (_ & -> & _) end.
    assert (ctext [CQuadHex true code] = unsigned_text (u64 code) 16 1) as -> by apply app_nil_r.
    assert (ctext [CStr (txt (Krnlmddesc code)) []] = txt (Krnlmddesc code)) as -> by apply app_nil_r.
    assert (length (ctext [desc_directive d]) <= desc_length d + 6)%nat as H1.
    { destruct d as [[t junk]|]; [|cbn; lia]. assert (ctext [desc_directive (Some (t, junk))] = t) as -> by apply app_nil_r. cbn. lia. }
    assert (length (ctext match snap with Some p => lits [10%Z] ++ register_lines (snapshot_values s p) | None => lits md_no_snapshot end) <= 1700)%nat as H2.
    { destruct snap as [p|].
      - rewrite ctext_app, length_app. destruct (lits_texts [10]) as (_ & -> & _). change (length (snapshot_values s p)) with 22%nat in R2. cbn [length]. lia.
      - destruct (lits_texts md_no_snapshot) as (_ & -> & _). vm_compute. lia. }
    assert (length (txt "MDCODE=0x") + (length (txt "(") + (length (txt "),MDDESC=`") + (length (line "`") + length MDMSGPOSTFIX))) <= 200)%nat as H3 by (vm_compute; lia).
    lia.
Qed.

(** ** Console output *)

Definition say (c : Dwtp) (t : list Z) : outcome Dwtp := '(c, _) ← KrdwtpOutText c (t ++ [0]); Done c.

Lemma format_says ds c fmt args : Forall cdirective_ok ds -> Z.of_nat (length (ctext ds)) < 2 ^ 31 -> fmt = cformat ds ++ [0] -> args = cargs ds ->
  exists n, KrdwtpOutFormatText c fmt args = (c ← say c (ctext ds); Done (c, n)).
Proof.
  intros Hok Hl -> ->. exists (Z.of_nat (length (ctext ds))). unfold say, KrdwtpOutFormatText, KrdwtpOutFormatTextVariadic, KrdwtpOutText, KrdwtpOutColoredText, KrdwtpOutColoredText_NoSpin.
  destruct (AcquireOrWaitSpinlock c) as [c1| | |]; [|done..]. rewrite !bind_Done. rewrite <- (app_nil_r (cargs ds)).
  rewrite out_format_loop_types by (done || rewrite ?length_app; cbn [length]; lia).
  rewrite (text_loop_type KRDWTP_COLOR_WHITE KRDWTP_BACKGROUND [] (ctext ds) 0 c1) by (try apply ctext_nonzero; done || lia).
  by destruct (type_text _ _ _ c1).
Qed.

(** What the meltdown shows, [late] being the number of processors that did not
    answer, if there are any. *)
Definition show_report (s : Md) (cat : bool) (code : Z) (d : option (list Z * list Z)) (snap : option KrProcessorSnapshot) (late : Z) (c : Dwtp) : outcome Dwtp :=
  c ← (if bDisplaywideText s then
         c ← KrdwtpResetState c (KRDWTP_MAKE_COLOR 0x2E 0x00 0x45 0xFF);
         c ← say c (if cat then MDMSGCATASTROPHICPREFIX else MDMSGWARNPREFIX);
         say c (ctext (report s code d snap))
       else Done c);
  if cat then say c (ctext (late_report late)) else Done c.

Lemma md_report_says s code d snap c : desc_ok d -> Z.of_nat (desc_length d) < 2 ^ 30 ->
  md_report s code (desc_ptr d) snap c =
    (c ← KrdwtpResetState c (KRDWTP_MAKE_COLOR 0x2E 0x00 0x45 0xFF);
     c ← say c (if bMeltdownCatastrophic s then MDMSGCATASTROPHICPREFIX else MDMSGWARNPREFIX);
     say c (ctext (report s code d snap))).
Proof.
  intros Hd Hl. unfold md_report. destruct (KrdwtpResetState _ _) as [c1| | |]; [|done..]. rewrite !bind_Done. unfold say.
  destruct (KrdwtpOutText c1 _) as [[c2 n2]| | |]; [|done..]. rewrite !bind_Done. destruct (report_ok s code d snap Hd) as [Hok Hlen].
  destruct snap as [p|].
  - destruct (format_says (report s code d (Some p)) c2 (MDMSGPREFIX ++ [10] ++ md_registers ++ MDMSGPOSTFIX ++ [0])
      ([AWord code; AStr (Some (cstr (Krnlmddesc code))); AStr (desc_ptr d)] ++ md_args s p)) as [n ->];
      [done|lia|destruct d as [[t junk]|]; reflexivity|destruct d as [[t junk]|]; reflexivity|]. unfold say. by destruct (KrdwtpOutText c2 _) as [[]| | |].
  - destruct (format_says (report s code d None) c2 (MDMSGPREFIX ++ md_no_snapshot ++ MDMSGPOSTFIX ++ [0])
      [AWord code; AStr (Some (cstr (Krnlmddesc code))); AStr (desc_ptr d)]) as [n ->];
      [done|lia|destruct d as [[t junk]|]; reflexivity|destruct d as [[t junk]|]; reflexivity|]. unfold say. by destruct (KrdwtpOutText c2 _) as [[]| | |].
Qed.

Lemma late_says n c : exists k, KrdwtpOutFormatText c (md_late ++ [0]) [AWord n] = (c ← say c (ctext (late_report n)); Done (c, k)).
Proof.
  apply format_says; [| |reflexivity|reflexivity].
  - unfold late_report. repeat (apply Forall_app; split); [by apply lits_ok|by repeat constructor|by apply lits_ok].
  - unfold late_report. rewrite !ctext_app, !length_app. repeat match goal with |- context [ctext (lits ?t)] => destruct (lits_texts t) as (_ & -> & _) end.
    assert (ctext [CUInt n] = unsigned_text (u32 n) 10 1) as -> by apply app_nil_r. pose proof (u32_range n).
    destruct (unsigned_text_ok (u32 n) 10 1) as [_ Hx]; [lia|lia|].
    match goal with |- Z.of_nat (length ?a + (_ + length ?b)) < _ => assert (length a + length b <= 500)%nat by (vm_compute; lia) end. lia.
Qed.

(** ** Stopping *)

(** The processor takes no maskable interrupt and its APIC is off. *)
Definition silent (a : Apic) : Prop :=
  interrupts a = false /\ has_flag (MsrApicBase a) IA32_APIC_BASE_EN && has_flag (reg a APIC_REG_SIV) APIC_SIV_SOFTWARE_ENABLE = false.

Lemma same_apic_silent a a' : same_apic a a' -> silent a -> silent a'.
Proof. intros (H1 & H2 & _ & H4) [S1 S2]. unfold silent. by rewrite H1, H2, H4. Qed.

Lemma md_stop_self_spec lat ac a : VaddrApicBase a <> 0 ->
  exists a', md_stop_self lat ac a = Done a' /\ silent a' /\ VaddrApicBase a' = VaddrApicBase a /\ icr_busy a' = icr_busy a.
Proof.
  intros Hv. unfold md_stop_self, ApicIsEnabled. cbn [MsrApicBase ProcessorDisableInterrupts set_calib VaddrApicBase].
  destruct (has_flag (MsrApicBase a) IA32_APIC_BASE_EN) eqn:Een; cbn [negb].
  2:{ rewrite bind_Done. eexists. split; [reflexivity|]. split; [|done]. split; [done|]. cbn. by rewrite Een. }
  rewrite (proj2 (Z.eqb_neq _ 0)) by done. rewrite apic_read_reg, !bind_Done by done.
  destruct (has_flag (reg (ProcessorDisableInterrupts a) APIC_REG_SIV) APIC_SIV_SOFTWARE_ENABLE) eqn:Esv.
  2:{ eexists. split; [reflexivity|]. split; [|done]. split; [done|]. rewrite Esv. apply andb_false_r. }
  destruct (stop_apic lat ac a Hv) as (a1 & a2 & E1 & E2 & (S1 & S2 & _) & Hv2 & Hb2). rewrite E1, bind_Done, E2.
  exists a2. split; [done|]. split; [|done]. split; [done|]. rewrite S2. apply andb_false_r.
Qed.

Lemma ready_apic fuel s ids me a : nmi_ready fuel s ids me -> VaddrApicBase a <> 0 -> (icr_busy a < fuel)%nat -> nmi_ready fuel (with_apic s me a) ids me.
Proof.
  intros [N2 N3 N5 N6 N7 N8 N9 N10] Hv Hb. split; try done. intros c Hc. cbn [apics with_apic].
  destruct (decide (c = me)) as [->|Hne]; [exists a; by rewrite lookup_insert_eq|]. rewrite lookup_insert_ne by done. by apply N10.
Qed.

(** The state in which the system stands still, [evs] being the handler steps of
    the other processors before the raiser stopped waiting. *)
Record all_stopped (ids : list Z) (me : Z) (evs : list Z) (n : Nmi) : Prop := {
  as_self : exists a, apics n !! me = Some a /\ silent a;
  as_others : forall c, c ∈ responders ids me evs -> nmi_pcs n !! c = Some NmiHalted /\ exists a, apics n !! c = Some a /\ stopped a;
  as_clear : sg_NmiInfo n = nmi_info_zero /\ sg_NmiSpinlock n = false
}.

Lemma meltdown_spec lat ac tsc fuel ba be sched (s : Md) (ids : list Z) (me code : Z) (d : option (list Z * list Z)) (snap : option KrProcessorSnapshot)
    (Hlock : sg_MeltdownSpinlock s = false) (Hnlock : sg_NmiSpinlock (mdNmi s) = false) (Hready : nmi_ready fuel (mdNmi s) ids me)
    (Hids : (1 < length ids <= 256)%nat) (Hlat : forall w, (lat w < fuel)%nat)
    (Htsc : forall n, exists m, (S n <= m < n + fuel)%nat /\ u64 (tsc n + 1250000) <= tsc m)
    (Hd : desc_ok d) (Hdl : Z.of_nat (desc_length d) < 2 ^ 30) :
  exists n k, let evs := steps_of sched 0 in
    let late := Z.of_nat (length ids) - 1 - Z.of_nat (length (responders ids me (evs k))) in
    let cat := negb (late =? 0) in
    (k <= 512)%nat /\ ((k < 512)%nat -> ba <> be /\ all_acked ids me (evs k)) /\ all_stopped ids me (evs k) n /\
    Krnlmeltdown lat ac tsc fuel ba be sched s me code (desc_ptr d) snap =
      (c ← show_report s cat code d snap late (set_meltdown (mdConsole s));
       Done (mkMd true n cat (bDisplaywideText s) c (CR0 s) (CR2 s) (mdCR3 s) (CR4 s))).
Proof.
  pose proof Hready as [_ [_ Hact] _ _ Hme _ _ Hap]. destruct (Hap me Hme) as (a & Ha & Hv & Hb).
  destruct (md_stop_self_spec lat ac a Hv) as (a1 & Ea & Hsil & Hv1 & Hb1).
  pose proof (ready_apic fuel (mdNmi s) ids me a1 Hready ltac:(congruence) ltac:(lia)) as Hr1.
  destruct (raise_spec lat ac tsc fuel ba be sched (with_apic (mdNmi s) me a1) ids me NMI_REASON_MELTDOWN false (Some code) Hnlock Hr1)
    as (n & k & E & Hk & Hstop & _ & Hout); [by right|done|done|]. cbv zeta in *.
  pose proof Hr1 as [_ _ Hrng Hnd _ _ _ _]. set (resp := responders ids me (steps_of sched 0 k)) in *.
  assert (length resp <= length ids - 1)%nat as Hlen.
  { assert (length (me :: resp) <= length ids)%nat; [|cbn in *; lia]. apply submseteq_length, NoDup_submseteq.
    - apply NoDup_cons. split; [|by apply NoDup_filter]. intros H%list_elem_of_filter. tauto.
    - intros c [->|[_ Hc]%list_elem_of_filter]%elem_of_cons; done. }
  exists n, k. split; [done|]. split; [exact Hstop|]. split.
  { destruct Hout as [(a0 & a' & H0 & H1 & H2) _ Ol Oi _ Od _]. split; [|intros c Hc; by destruct (Od c Hc) as [? ?]; auto|done].
    exists a'. split; [done|]. cbn [apics with_apic] in H0. rewrite lookup_insert_eq in H0. injection H0 as <-. by eapply same_apic_silent. }
  unfold Krnlmeltdown. rewrite Hlock. cbn [mdNmi with_mdlock]. rewrite Ha. cbn [checked]. rewrite bind_Done, Ea, bind_Done.
  cbn [mdNmi with_console with_nmi ActiveProcessorCount with_apic]. rewrite Hact, Z.gtb_ltb, (proj2 (Z.ltb_lt _ _)) by lia.
  change (mkNmi _ _ _ _ _ _ (<[me := a1]> _) _ _) with (with_apic (mdNmi s) me a1). rewrite E, !bind_Done.
  set (late := Z.of_nat (length ids) - 1 - Z.of_nat (length resp)).
  assert (negb (Z.of_nat (length resp) + 0 =? u32 (Z.of_nat (length ids) - 1)) = negb (late =? 0)) as ->.
  { f_equal. rewrite u32_small by lia. unfold late. destruct (Z.eqb_spec (Z.of_nat (length resp) + 0) (Z.of_nat (length ids) - 1));
      destruct (Z.eqb_spec (Z.of_nat (length ids) - 1 - Z.of_nat (length resp)) 0); lia || done. }
  assert (u32 (Z.of_nat (length ids) - (Z.of_nat (length resp) + 0) - 1) = late) as -> by (unfold late; rewrite u32_small; lia).
  set (s1 := with_nmi _ n (negb (late =? 0))). unfold show_report.
  change (bDisplaywideText s1) with (bDisplaywideText s). change (bMeltdownCatastrophic s1) with (negb (late =? 0)).
  change (mdConsole s1) with (set_meltdown (mdConsole s)).
  assert (forall c1, ('(c, _) ← (if negb (late =? 0) then KrdwtpOutFormatText c1 (md_late ++ [0]) [AWord late] else Done (c1, 0)); Done (with_console s1 c)) =
    (c ← (if negb (late =? 0) then say c1 (ctext (late_report late)) else Done c1); Done (with_console s1 c))) as Hlate.
  { intros c1. destruct (negb (late =? 0)); [|done]. destruct (late_says late c1) as [k1 ->]. by destruct (say c1 _). }
  assert (forall c, with_console s1 c = mkMd true n (negb (late =? 0)) (bDisplaywideText s) c (CR0 s) (CR2 s) (mdCR3 s) (CR4 s)) as Hs1 by done.
  destruct (bDisplaywideText s).
  2:{ rewrite !bind_Done, Hlate. by destruct (if negb (late =? 0) then _ else _) as [c1| | |]; [rewrite !bind_Done, Hs1|..]. }
  rewrite (md_report_says s1) by done. change (bMeltdownCatastrophic s1) with (negb (late =? 0)).
  assert (report s1 code d snap = report s code d snap) as -> by by destruct snap.
  destruct (c ← KrdwtpResetState _ _; _) as [c1| | |]; [|done..]. rewrite !bind_Done, Hlate.
  by destruct (if negb (late =? 0) then _ else _) as [c2| | |]; [rewrite !bind_Done, Hs1|..].
Qed.

(** ** The report on the screen *)

(** The console calls of the report. *)
Definition report_ops (s : Md) (cat : bool) (code : Z) (d : option (list Z * list Z)) (snap : option KrProcessorSnapshot) (late : Z) : list console_op :=
  (if bDisplaywideText s then
     [OpReset (KRDWTP_MAKE_COLOR 0x2E 0x00 0x45 0xFF);
      OpText (if cat then MDMSGCATASTROPHICPREFIX else MDMSGWARNPREFIX) KRDWTP_COLOR_WHITE KRDWTP_BACKGROUND;
      OpText (ctext (report s code d snap)) KRDWTP_COLOR_WHITE KRDWTP_BACKGROUND]
   else []) ++
  (if cat then [OpText (ctext (late_report late)) KRDWTP_COLOR_WHITE KRDWTP_BACKGROUND] else []).

Lemma show_report_ops s cat code d snap late c : show_report s cat code d snap late c = exec_ops c (report_ops s cat code d snap late).
Proof.
  assert (forall t c, say c t = exec_op c (OpText t KRDWTP_COLOR_WHITE KRDWTP_BACKGROUND)) as Hsay.
  { intros t c'. unfold say, exec_op, KrdwtpOutText. by destruct (KrdwtpOutColoredText c' _ _ _) as [[]| | |]. }
  unfold show_report, report_ops. destruct (bDisplaywideText s); cbn [app exec_ops].
  - match goal with |- context [exec_op c (OpReset ?k)] => change (exec_op c (OpReset k)) with (KrdwtpResetState c k) end. destruct (KrdwtpResetState c _) as [c1| | |]; [rewrite !bind_Done|reflexivity..].
    rewrite Hsay. destruct (exec_op c1 _) as [c2| | |]; [rewrite !bind_Done|reflexivity..].
    rewrite Hsay. destruct (exec_op c2 _) as [c3| | |]; [rewrite !bind_Done|reflexivity..].
    destruct cat; cbn [exec_ops]; [|done]. rewrite Hsay. by destruct (exec_op c3 _).
  - rewrite bind_Done. destruct cat; cbn [exec_ops]; [|done]. rewrite Hsay. by destruct (exec_op c _).
Qed.

(** *** The rows a text needs *)

(** How many rows the cursor moves down while a text is written from column [x] on. *)
Fixpoint rows_used (n x : Z) (t : list Z) : Z :=
  match t with
  | [] => 0
  | c :: t' => if (c =? 10) || (x + 1 >=? n) then 1 + rows_used n 0 t' else rows_used n (x + 1) t'
  end.
Fixpoint column_after (n x : Z) (t : list Z) : Z :=
  match t with [] => x | c :: t' => column_after n (if (c =? 10) || (x + 1 >=? n) then 0 else x + 1) t' end.

(** A text that ends above the row below the last one is written without scrolling. *)
Lemma rows_used_nonneg n t : forall x, 0 <= rows_used n x t.
Proof. induction t as [|c t IH]; intros x; cbn [rows_used]; [lia|]. specialize (IH 0) as H0. specialize (IH (x + 1)). case_match; lia. Qed.
Lemma screen_text_done nrows ncols up back fg bg t : forall a, cellY a + rows_used ncols (cellX a) t <= nrows ->
  exists a', screen_text nrows ncols up back a t fg bg = Done a' /\ cellX a' = column_after ncols (cellX a) t /\
    cellY a' = cellY a + rows_used ncols (cellX a) t.
Proof.
  induction t as [|c t IH]; intros a Hr; cbn [screen_text rows_used column_after] in *; [exists a; split_and!; [done..|lia]|].
  unfold screen_char. pose proof (rows_used_nonneg ncols t 0). destruct (Z.eqb_spec c 10) as [->|]; cbn [orb] in *.
  - rewrite bind_Done. unfold screen_newline. cbn [cellY]. rewrite Z.gtb_ltb, (proj2 (Z.ltb_ge _ _)) by lia.
    destruct (IH (mkScreen (cells a) 0 (cellY a + 1))) as (a' & E & H1 & H2); cbn [cellX cellY] in *; [lia|]. exists a'. split_and!; [done..|lia].
  - cbn [cellX cellY cells]. destruct (cellX a + 1 >=? ncols).
    + rewrite Z.gtb_ltb, (proj2 (Z.ltb_ge _ _)), bind_Done by lia.
      match goal with |- context [screen_text _ _ _ _ ?a1 t] => destruct (IH a1) as (a' & E & H1 & H2) end; cbn [cellX cellY] in *; [lia|].
      exists a'. split_and!; [done..|lia].
    + rewrite bind_Done. match goal with |- context [screen_text _ _ _ _ ?a1 t] => destruct (IH a1) as (a' & E & H1 & H2) end; cbn [cellX cellY] in *; [lia|].
      by exists a'.
Qed.

Definition newlines (t : list Z) : Z := Z.of_nat (length (filter (eq 10) t)).
Lemma newlines_cons c t : newlines (c :: t) = (if c =? 10 then 1 else 0) + newlines t.
Proof.
  unfold newlines. rewrite filter_cons. destruct (Z.eqb_spec c 10) as [->|]; [rewrite decide_True by done; cbn [length]; lia|].
  by rewrite decide_False by congruence.
Qed.
(** [uses n t k]: on a screen of [n] columns [t] starts and ends in column 0 and
    needs at most [k] rows. *)
Definition uses (n : Z) (t : list Z) (k : Z) : Prop := rows_used n 0 t <= k /\ column_after n 0 t = 0.
Lemma rows_used_app n t1 : forall x t2, rows_used n x (t1 ++ t2) = rows_used n x t1 + rows_used n (column_after n x t1) t2 /\
  column_after n x (t1 ++ t2) = column_after n (column_after n x t1) t2.
Proof.
  induction t1 as [|c t1 IH]; intros x t2; [done|]. cbn [app rows_used column_after]. destruct ((c =? 10) || (x + 1 >=? n)); [|apply IH].
  destruct (IH 0 t2) as [-> ->]. split; [lia|done].
Qed.
Lemma uses_app n t1 t2 k1 k2 : uses n t1 k1 -> uses n t2 k2 -> uses n (t1 ++ t2) (k1 + k2).
Proof. intros [H1 H2] [H3 H4]. destruct (rows_used_app n t1 0 t2) as [E1 E2]. unfold uses. rewrite E1, E2, H2. split; [lia|done]. Qed.
Lemma uses_le n t k k' : uses n t k -> k <= k' -> uses n t k'.
Proof. intros [H1 H2] H. split; [lia|done]. Qed.
(** A row per newline and one per full line. *)
Lemma rows_used_bound n t : 0 < n -> forall x, 0 <= x < n -> rows_used n x t <= newlines t + (x + Z.of_nat (length t)) / n.
Proof.
  intros Hn. induction t as [|c t IH]; intros x Hx; cbn [rows_used].
  { change (newlines []) with 0. cbn [length]. pose proof (Z.div_pos (x + 0) n). lia. }
  rewrite newlines_cons. cbn [length]. pose proof (IH 0 ltac:(lia)) as H0.
  destruct (Z.eqb_spec c 10); cbn [orb].
  - pose proof (Z.div_le_mono (0 + Z.of_nat (length t)) (x + Z.of_nat (S (length t))) n). lia.
  - rewrite Z.geb_leb. destruct (Z.leb_spec n (x + 1)).
    + replace (x + Z.of_nat (S (length t))) with (0 + Z.of_nat (length t) + 1 * n) by lia. rewrite Z.div_add by lia. lia.
    + pose proof (IH (x + 1) ltac:(lia)). replace (x + Z.of_nat (S (length t))) with (x + 1 + Z.of_nat (length t)) by lia. lia.
Qed.
Lemma uses_line n t : 80 <= n -> uses n (t ++ [10]) (1 + newlines t + Z.of_nat (length t) / 80).
Proof.
  intros Hn. destruct (rows_used_app n t 0 [10]) as [E1 E2]. unfold uses. rewrite E1, E2. cbn [rows_used column_after]. rewrite Z.eqb_refl. cbn [orb].
  split; [|done]. pose proof (rows_used_bound n t ltac:(lia) 0 ltac:(lia)) as H. rewrite Z.add_0_l in H.
  pose proof (Z.div_le_compat_l (Z.of_nat (length t)) 80 n ltac:(lia) ltac:(lia)). lia.
Qed.
Lemma uses_short n t : 80 <= n -> (length t < 80)%nat -> newlines t = 0 -> uses n (t ++ [10]) 1.
Proof. intros Hn Hl H0. eapply uses_le; [by apply uses_line|]. rewrite H0, Z.div_small by lia. lia. Qed.

Lemma digits_ascii V R p : 0 <= V -> 2 <= R <= 16 -> Forall (fun c => 0 < c < 128) (unsigned_text V R p).
Proof.
  intros HV HR. unfold unsigned_text. destruct (V =? 0); [repeat constructor; done|]. apply Forall_rev.
  generalize 64%nat. intros n. revert V HV. induction n as [|n IH]; intros V HV; cbn [le_digits]; [constructor|].
  destruct (V =? 0); [constructor|]. pose proof (Z.mod_pos_bound V R ltac:(lia)). constructor; [|apply IH, Z.div_pos; lia].
  unfold KrtlDigitChar, KRTL_RADIX_DECIMAL, u8. rewrite Z.mod_small; repeat case_match; lia.
Qed.
Lemma hex_text w : Forall (fun c => 0 < c < 128) (unsigned_text (u64 w) 16 1) /\ (length (unsigned_text (u64 w) 16 1) <= 16)%nat.
Proof. pose proof (u64_range w). split; [apply digits_ascii; lia|]. apply unsigned_text_length; [lia|lia|]. change (16 ^ Z.of_nat 16) with (2 ^ 64). lia. Qed.
Lemma dec_text w : Forall (fun c => 0 < c < 128) (unsigned_text (u32 w) 10 1) /\ (length (unsigned_text (u32 w) 10 1) <= 10)%nat.
Proof. pose proof (u32_range w). split; [apply digits_ascii; lia|]. apply unsigned_text_length; [lia|lia|]. change (10 ^ Z.of_nat 10) with 10000000000. lia. Qed.

Definition ascii_text (t : list Z) : bool := forallb (fun c => (0 <? c) && (c <? 128)) t.
Lemma ascii_of t : ascii_text t = true -> ascii t.
Proof. intros H. unfold ascii_text in H. rewrite forallb_forall in H. apply Forall_forall. intros c Hc%list_elem_of_In. apply H in Hc. lia. Qed.
Lemma ascii_app a b : ascii a -> ascii b -> ascii (a ++ b).
Proof. intros. by apply Forall_app. Qed.
Lemma mddesc_ascii code : ascii (txt (Krnlmddesc code)).
Proof. apply ascii_of. unfold Krnlmddesc. repeat case_match; vm_compute; reflexivity. Qed.

(** The description of a meltdown is ASCII. *)
Definition desc_ascii (d : option (list Z * list Z)) : Prop := match d with Some (t, _) => ascii t | None => True end.
Definition desc_newlines (d : option (list Z * list Z)) : Z := match d with Some (t, _) => newlines t | None => 0 end.
Lemma desc_text d : desc_ascii d ->
  ascii (ctext [desc_directive d]) /\ (length (ctext [desc_directive d]) <= 6 + desc_length d)%nat /\ newlines (ctext [desc_directive d]) = desc_newlines d.
Proof.
  intros Hd. destruct d as [[t junk]|].
  - assert (ctext [desc_directive (Some (t, junk))] = t) as -> by apply app_nil_r. split; [done|]. split; [cbn; lia|done].
  - split; [repeat constructor; done|]. split; [cbn; lia|done].
Qed.
Lemma ctext_lits t : ctext (lits t) = t.
Proof. apply lits_texts. Qed.
Lemma ctext_hex w : ctext [CQuadHex true w] = unsigned_text (u64 w) 16 1.
Proof. apply app_nil_r. Qed.

Lemma newlines_app a b : newlines (a ++ b) = newlines a + newlines b.
Proof. unfold newlines. rewrite filter_app, length_app. lia. Qed.
Lemma newlines_digits V R : 0 <= V -> 2 <= R <= 16 -> newlines (unsigned_text V R 1) = 0.
Proof.
  intros HV HR. assert (Forall (fun c => c <> 10) (unsigned_text V R 1)) as H.
  { unfold unsigned_text. destruct (V =? 0); [repeat constructor; done|]. apply Forall_rev.
    generalize 64%nat. intros n. revert V HV. induction n as [|n IH]; intros V HV; cbn [le_digits]; [constructor|].
    destruct (V =? 0); [constructor|]. pose proof (Z.mod_pos_bound V R ltac:(lia)). constructor; [|apply IH, Z.div_pos; lia].
    unfold KrtlDigitChar, KRTL_RADIX_DECIMAL, u8. rewrite Z.mod_small; repeat case_match; lia. }
  induction H as [|c t Hc _ IH]; [done|]. rewrite newlines_cons, IH. destruct (Z.eqb_spec c 10); [done|lia].
Qed.
Lemma newlines_name code : newlines (txt (Krnlmddesc code)) = 0.
Proof. unfold Krnlmddesc. repeat case_match; vm_compute; reflexivity. Qed.
Lemma head_uses n code d : desc_ascii d -> 80 <= n ->
  uses n (ctext (md_head code d)) (3 + desc_newlines d + Z.of_nat (desc_length d) / 80) /\ ascii (ctext (md_head code d)).
Proof.
  intros Hd Hn. destruct (hex_text code) as [X1 X2]. destruct (mddesc_text code) as [_ N2]. destruct (desc_text d Hd) as (D1 & D2 & D3).
  pose proof (mddesc_ascii code) as N1. pose proof (newlines_digits (u64 code) 16 ltac:(pose proof (u64_range code); lia) ltac:(lia)) as X3.
  pose proof (newlines_name code) as N3.
  unfold md_head, line. rewrite !ctext_app, !ctext_lits, ctext_hex.
  assert (ctext [CStr (txt (Krnlmddesc code)) []] = txt (Krnlmddesc code)) as -> by apply app_nil_r.
  set (x := ctext [desc_directive d]) in *. clearbody x. split.
  - rewrite !app_assoc. eapply uses_le; [by apply uses_line|]. rewrite !newlines_app, !length_app, X3, N3, D3.
    assert (newlines (txt "MDCODE=0x") = 0 /\ newlines (txt "(") = 0 /\ newlines (txt "),MDDESC=`") = 0 /\ newlines (txt "`") = 0) as (-> & -> & -> & ->) by done.
    match goal with |- _ + _ / 80 <= _ => enough (forall m, m <= 107 + Z.of_nat (desc_length d) -> m / 80 <= 2 + Z.of_nat (desc_length d) / 80) as Hm end.
    + match goal with |- _ + ?m / 80 <= _ => specialize (Hm m) end.
      assert (length (txt "MDCODE=0x") = 9%nat /\ length (txt "(") = 1%nat /\ length (txt "),MDDESC=`") = 10%nat /\ length (txt "`") = 1%nat) as (L1 & L2 & L3 & L4) by done. lia.
    + intros m Hm. zlia.
  - do 6 (apply ascii_app; [done || by apply ascii_of|]). by apply ascii_of.
Qed.
Lemma registers_use n l : 80 <= n -> Forall (fun p => ascii_text (txt p.1) = true /\ (length (txt p.1) <= 9)%nat /\ newlines (txt p.1) = 0) l ->
  uses n (ctext (register_lines l)) (Z.of_nat (length l)) /\ ascii (ctext (register_lines l)).
Proof.
  intros Hn. induction 1 as [|[name w] l (Ha & Hl & H0) _ [IH1 IH2]]; [split; [done|constructor]|].
  change (register_lines ((name, w) :: l)) with (register_line name w ++ register_lines l). unfold register_line.
  rewrite !ctext_app, !ctext_lits, ctext_hex. destruct (hex_text w) as [X1 X2]. cbn [fst] in *.
  pose proof (newlines_digits (u64 w) 16 ltac:(pose proof (u64_range w); lia) ltac:(lia)) as X3. split.
  - cbn [length]. rewrite Nat2Z.inj_succ, <- Z.add_1_l. apply uses_app; [|done]. rewrite app_assoc. apply uses_short; [done|rewrite length_app; lia|].
    by rewrite newlines_app, H0, X3.
  - apply ascii_app; [|done]. apply ascii_app; [by apply ascii_of|]. apply ascii_app; [done|]. by repeat constructor.
Qed.

(** A text of several short lines. *)
Definition lines_of (ls : list string) : list Z := mjoin (line <$> ls).
Lemma uses_lines n ls : 80 <= n -> forallb (fun l => (length (txt l) <? 80)%nat && (newlines (txt l) =? 0)) ls = true ->
  uses n (lines_of ls) (Z.of_nat (length ls)).
Proof.
  intros Hn. induction ls as [|l ls IH]; intros H; [done|]. cbn [forallb] in H. rewrite !andb_true_iff in H. destruct H as [[H1 H2] H3].
  apply Nat.ltb_lt in H1. apply Z.eqb_eq in H2. change (lines_of (l :: ls)) with (line l ++ lines_of ls). cbn [length].
  rewrite Nat2Z.inj_succ, <- Z.add_1_l. apply uses_app; [by apply uses_short|by apply IH].
Qed.

Lemma report_uses n s code d snap : desc_ascii d -> 80 <= n ->
  uses n (ctext (report s code d snap)) (30 + desc_newlines d + Z.of_nat (desc_length d) / 80) /\ ascii (ctext (report s code d snap)).
Proof.
  intros Hd Hn. destruct (head_uses n code d Hd Hn) as [H1 H2].
  assert (uses n MDMSGPOSTFIX 4 /\ ascii MDMSGPOSTFIX) as [P1 P2].
  { split; [|apply ascii_of; reflexivity]. apply (uses_lines n [""; "!!!KERNEL MELTDOWN!!!"; "Kernel bailing out, only God can resurrect the system as-is.";
      "Hard reset your machine, the system is now halted."]%string); [done|reflexivity]. }
  unfold report. rewrite !ctext_app, (ctext_lits MDMSGPOSTFIX).
  assert (forall t, uses n t 23 -> ascii t -> uses n (ctext (md_head code d) ++ t ++ MDMSGPOSTFIX) (30 + desc_newlines d + Z.of_nat (desc_length d) / 80) /\
    ascii (ctext (md_head code d) ++ t ++ MDMSGPOSTFIX)) as Hmid.
  { intros t T1 T2. split; [|by do 2 (apply ascii_app; [done|])]. eapply uses_le; [apply uses_app; [exact H1|]; apply uses_app; [exact T1|exact P1]|]. lia. }
  destruct snap as [p|].
  - rewrite ctext_app, (ctext_lits [10]). destruct (registers_use n (snapshot_values s p) Hn) as [R1 R2].
    { repeat (apply Forall_cons; split; [split; [reflexivity|vm_compute; split; [lia|reflexivity]]|]). by apply Forall_nil. }
    apply Hmid; [|apply ascii_app; [by repeat constructor|done]]. change 23 with (1 + 22). apply uses_app; [|exact R1].
    by apply (uses_short n []); [|cbn; lia|].
  - rewrite ctext_lits. apply Hmid; [|apply ascii_of; reflexivity]. eapply uses_le; [|].
    + apply (uses_lines n [""; "Irregular call to Krnlmeltdown routine;"; "No processor snapshot was provided."]%string); [done|reflexivity].
    + cbn. lia.
Qed.
Lemma rows_used_around n a t b k l : 80 <= n -> newlines t = 0 -> (length t <= 10)%nat -> newlines a + newlines b = k ->
  Z.of_nat (length a + length b) <= l -> rows_used n 0 (a ++ t ++ b) <= k + (l + 10) / 80.
Proof.
  intros Hn Ht Hl Hk Hlen. pose proof (rows_used_bound n (a ++ t ++ b) ltac:(lia) 0 ltac:(lia)) as H.
  rewrite !newlines_app, !length_app, Ht, !Z.add_0_l in H.
  pose proof (Z.div_le_mono (Z.of_nat (length a + (length t + length b))) (l + 10) n ltac:(lia) ltac:(lia)).
  pose proof (Z.div_le_compat_l (l + 10) 80 n ltac:(lia) ltac:(lia)). lia.
Qed.
Lemma late_uses n late : 80 <= n -> rows_used n 0 (ctext (late_report late)) <= 5 /\ ascii (ctext (late_report late)) /\
  (length (ctext (late_report late)) <= 310)%nat.
Proof.
  intros Hn. unfold late_report. rewrite !ctext_app, !ctext_lits. assert (ctext [CUInt late] = unsigned_text (u32 late) 10 1) as -> by apply app_nil_r.
  destruct (dec_text late) as [X1 X2]. pose proof (newlines_digits (u32 late) 10 ltac:(pose proof (u32_range late); lia) ltac:(lia)) as X3.
  set (t := unsigned_text (u32 late) 10 1) in *. clearbody t.
  split_and!.
  - apply (rows_used_around n _ t _ 2 300); [done|done|lia|reflexivity|by vm_compute].
  - apply ascii_app; [by apply ascii_of|]. apply ascii_app; [done|by apply ascii_of].
  - rewrite length_app, (length_app t). match goal with |- (?a + (_ + ?b) <= _)%nat => assert (a + b <= 300)%nat by (apply Nat.leb_le; reflexivity) end. lia.
Qed.

(** *** The report is written *)

Definition banner (cat : bool) : list Z := if cat then MDMSGCATASTROPHICPREFIX else MDMSGWARNPREFIX.
Lemma banner_uses n cat : 80 <= n -> uses n (banner cat) 2 /\ ascii (banner cat).
Proof.
  intros Hn. split; [|by destruct cat; apply ascii_of]. destruct cat.
  - by apply (uses_lines n [""; "!!!CATASTROPHIC KERNEL MELTDOWN!!!"]%string).
  - by apply (uses_lines n [""; "!!!KERNEL MELTDOWN!!!"]%string).
Qed.

(** A screen of at least 80 columns with rows for the report and the lines of the description. *)
Record report_room (c : Dwtp) (d : option (list Z * list Z)) : Prop := {
  rr_columns : 80 <= columns c;
  rr_rows : 37 + desc_newlines d + Z.of_nat (desc_length d) / 80 <= rows c
}.

Lemma report_done s cat code d snap late c a up : bDisplaywideText s = true -> desc_ascii d -> report_room c d -> Z.of_nat (desc_length d) < 2 ^ 30 ->
  Forall op_ok (report_ops s cat code d snap late) /\
  exists a', screen_ops (rows c) (columns c) (back_color c) (a, up) (report_ops s cat code d snap late) = Done (a', up).
Proof.
  intros Hdisp Hd [Hc Hr] Hdl. destruct (banner_uses (columns c) cat Hc) as [[B1 B2] B3]. destruct (report_uses (columns c) s code d snap Hd Hc) as [[R1 R2] R3].
  destruct (late_uses (columns c) late Hc) as (L1 & L2 & L3). destruct (report_ok s code d snap) as [_ Rl].
  { destruct d as [[t ?]|]; [|done]. eapply Forall_impl; [exact Hd|]. simpl. lia. }
  unfold report_ops. rewrite Hdisp. split.
  { apply Forall_app. split.
    - apply Forall_cons. split; [exact I|]. apply Forall_cons. split; [split; [exact B3|destruct cat; vm_compute; reflexivity]|].
      apply Forall_singleton. split; [exact R3|lia].
    - destruct cat; [apply Forall_singleton; split; [exact L2|lia]|by apply Forall_nil]. }
  cbn [app screen_ops screen_op]. rewrite bind_Done. change (if cat then MDMSGCATASTROPHICPREFIX else MDMSGWARNPREFIX) with (banner cat).
  set (a0 := screen_reset _ a _).
  cbn [screen_op]. destruct (screen_text_done (rows c) (columns c) up (back_color c) KRDWTP_COLOR_WHITE KRDWTP_BACKGROUND (banner cat) a0) as (a1 & -> & X1 & Y1).
  { cbn [a0 screen_reset cellX cellY]. pose proof (Z.div_pos (Z.of_nat (desc_length d)) 80). unfold desc_newlines, newlines in Hr. destruct d as [[]|]; lia. }
  cbn [a0 screen_reset cellX cellY] in X1, Y1. rewrite !bind_Done. cbn [screen_op].
  destruct (screen_text_done (rows c) (columns c) up (back_color c) KRDWTP_COLOR_WHITE KRDWTP_BACKGROUND (ctext (report s code d snap)) a1) as (a2 & -> & X2 & Y2).
  { rewrite X1, Y1, B2. lia. }
  rewrite X1, Y1, B2 in *. rewrite !bind_Done. destruct cat; [|by exists a2]. cbn [screen_ops screen_op].
  destruct (screen_text_done (rows c) (columns c) up (back_color c) KRDWTP_COLOR_WHITE KRDWTP_BACKGROUND (ctext (late_report late)) a2) as (a3 & -> & _).
  { rewrite X2, Y2, R2. lia. }
  rewrite !bind_Done. by exists a3.
Qed.

Lemma meltdown_idle c a up : ConsoleThms.idle c (a, up) -> ConsoleThms.idle (set_meltdown c) (a, up).
Proof. intros ((G & Hc & R) & Hu & HL). split; [|done]. split_and!; [by destruct G; split|done|by destruct R; split]. Qed.

(** C17: a kernel meltdown on one processor of a running system, whose console is the video output, not
    locked, at least 80 columns wide and tall enough for the report (37 rows and the lines of the
    description), stops the system: the routine reaches its endless halt, with its
    processor's interrupts and APIC off, every other
    processor that answers the interrupt within 512 stalls halted with its
    APIC and timer off, in whatever order and interleaving they answer, and the
    meltdown marked catastrophic exactly when some processor did not answer.
    Both frame buffers then show the report, on the background of a meltdown: the cleared
    screen, the banner of the kind of meltdown, the code with its name, the
    description, the registers (or a note that there are none), the closing
    lines, and for a catastrophic meltdown the number of silent processors. *)
Theorem meltdown_stops_and_reports lat ac tsc fuel ba be sched (s : Md) (ids : list Z) (me code : Z) (d : option (list Z * list Z)) (snap : option KrProcessorSnapshot)
    (a : Screen) (up : bool)
    (Hlock : sg_MeltdownSpinlock s = false) (Hnlock : sg_NmiSpinlock (mdNmi s) = false) (Hready : nmi_ready fuel (mdNmi s) ids me)
    (Hids : (1 < length ids <= 256)%nat) (Hlat : forall w, (lat w < fuel)%nat)
    (Htsc : forall n, exists m, (S n <= m < n + fuel)%nat /\ u64 (tsc n + 1250000) <= tsc m)
    (Hd : desc_ascii d) (Hdl : Z.of_nat (desc_length d) < 2 ^ 30)
    (Hdisp : bDisplaywideText s = true) (Hcon : ConsoleThms.idle (mdConsole s) (a, up)) (Hroom : report_room (mdConsole s) d) :
  exists n k c a', let evs := steps_of sched 0 in
    let late := Z.of_nat (length ids) - 1 - Z.of_nat (length (responders ids me (evs k))) in
    let cat := negb (late =? 0) in
    (k <= 512)%nat /\ ((k < 512)%nat -> ba <> be /\ all_acked ids me (evs k)) /\ all_stopped ids me (evs k) n /\
    Krnlmeltdown lat ac tsc fuel ba be sched s me code (desc_ptr d) snap =
      Done (mkMd true n cat true c (CR0 s) (CR2 s) (mdCR3 s) (CR4 s)) /\
    screen_ops (rows (mdConsole s)) (columns (mdConsole s)) (fun _ => KRDWTP_COLOR_DARK_PURPLE) (a, up) (report_ops s cat code d snap late) = Done (a', up) /\
    ConsoleThms.idle c (a', up).
Proof.
  destruct (meltdown_spec lat ac tsc fuel ba be sched s ids me code d snap Hlock Hnlock Hready Hids Hlat Htsc) as (n & k & H1 & H2 & H3 & H4); [|done|].
  { destruct d as [[t ?]|]; [|done]. eapply Forall_impl; [exact Hd|]. simpl. lia. }
  cbv zeta in *. set (late := _ - _ - _) in *. set (cat := negb (late =? 0)) in *.
  pose proof (meltdown_idle _ _ _ Hcon) as Hi. set (c0 := set_meltdown (mdConsole s)) in *.
  assert (report_room c0 d) as Hroom' by (destruct Hroom; by split).
  destruct (report_done s cat code d snap late c0 a up Hdisp Hd Hroom' Hdl) as (Hok & a' & Ea).
  pose proof (ops_refine (report_ops s cat code d snap late) c0 (a, up) Hi Hok) as Ho. rewrite Ea in Ho. destruct Ho as (c & Ec & _ & Hic).
  exists n, k, c, a'. split; [done|]. split; [exact H2|]. split; [done|]. split; [|by split].
  fold late cat in H4. by rewrite H4, show_report_ops, Ec, bind_Done, Hdisp.
Qed.

(** ** Exceptions *)

Definition exception_text (name : string) : list Z := txt exception_prefix ++ txt name.

Lemma exception_names : length ProcessorExceptionNames = 32%nat /\
  Forall (fun n => plain (txt n) = true /\ (0 < length (txt n) <= 60)%nat) ProcessorExceptionNames.
Proof.
  split; [reflexivity|]. unfold ProcessorExceptionNames.
  repeat (apply Forall_cons; split; [split; [reflexivity|vm_compute; lia]|]). by apply Forall_nil.
Qed.

Lemma plain_nonzero t : plain t = true -> Forall (fun c => c <> 0) t.
Proof. intros H%lits_ok. apply Forall_forall. intros c Hc. rewrite Forall_forall in H. by apply (H (CLit c)), list_elem_of_fmap_2. Qed.

(** Two strings copied one behind the other. *)
Lemma copy_twice junk P N : (length P + S (length N) <= length junk)%nat ->
  (b ← copy_at junk 0 (P ++ [0]) (Z.of_nat (length P)); copy_at b (length P) (N ++ [0]) (Z.of_nat (S (length N)))) =
    Done ((P ++ N) ++ 0 :: drop (length P + S (length N)) junk).
Proof.
  intros H. unfold copy_at. rewrite !Nat2Z.id. rewrite decide_True by (rewrite length_app; simpl; lia). rewrite bind_Done.
  rewrite take_app_length. cbn [take app plus].
  rewrite decide_True by (rewrite !length_app, length_drop; simpl; lia). f_equal.
  change (take 0 junk ++ P ++ drop (length P) junk) with (P ++ drop (length P) junk). rewrite take_app_length, (take_ge (N ++ [0])) by (rewrite length_app; simpl; lia).
  rewrite drop_app_ge, drop_drop by lia. rewrite <- !app_assoc. cbn [app]. do 4 f_equal. lia.
Qed.

(** The message always fits the local buffer. *)
Lemma exception_melts lat ac tsc fuel ba be sched junk s me f name :
  ProcessorExceptionNames !! Z.to_nat (fInterruptNo f) = Some name -> length junk = 128%nat ->
  exists rest, IntmgmtProcessorException lat ac tsc fuel ba be sched junk s me f =
    Krnlmeltdown lat ac tsc fuel ba be sched s me KR_MDCODE_CRITICAL_PROCESSOR_EXCEPTION (Some (exception_text name ++ 0 :: rest))
      (Some (InterruptFrameToProcessorSnapshot f)).
Proof.
  intros Hn Hj. destruct exception_names as [_ HF]. destruct (Forall_lookup_1 _ _ _ _ HF Hn) as [Hp Hl]. apply plain_nonzero in Hp.
  unfold IntmgmtProcessorException. rewrite Hn. cbn [checked]. rewrite bind_Done.
  assert (KrtlStringSize (cstr name) = Done (Z.of_nat (length (txt name)))) as ->
    by (apply string_size_spec; [done|intros E; rewrite E in Hl; simpl in Hl; lia]).
  rewrite bind_Done.
  assert (u32 (Z.of_nat (length (cstr exception_prefix)) - 1) = Z.of_nat (length (txt exception_prefix))) as -> by reflexivity.
  rewrite (u32_small (Z.of_nat (length (txt name)))), u32_small, Nat2Z.id by lia.
  replace (Z.of_nat (length (txt name)) + 1) with (Z.of_nat (S (length (txt name)))) by lia.
  assert (length (txt exception_prefix) = 30%nat) as Et by reflexivity.
  pose proof (copy_twice junk (txt exception_prefix) (txt name) ltac:(lia)) as E. apply bind_Done_inv in E as (b & E1 & E2).
  unfold cstr. rewrite E1, bind_Done, E2, bind_Done. by eexists.
Qed.

(** A processor exception with vector 0 to 31 on a running system puts its name
    behind the fixed prefix into a local buffer of 128 bytes, which it never overruns, and
    stops the system with that description and the registers of the interrupt
    frame: the processor and every other one that answers are halted, and the
    report is the one of a critical processor exception. *)
Theorem processor_exception_stops_system lat ac tsc fuel ba be sched (s : Md) (ids : list Z) (me : Z) (f : InterruptFrame) (junk : list Z)
    (Hvec : 0 <= fInterruptNo f < 32) (Hjunk : length junk = 128%nat)
    (Hlock : sg_MeltdownSpinlock s = false) (Hnlock : sg_NmiSpinlock (mdNmi s) = false) (Hready : nmi_ready fuel (mdNmi s) ids me)
    (Hids : (1 < length ids <= 256)%nat) (Hlat : forall w, (lat w < fuel)%nat)
    (Htsc : forall n, exists m, (S n <= m < n + fuel)%nat /\ u64 (tsc n + 1250000) <= tsc m) :
  exists name rest n k, let evs := steps_of sched 0 in
    let late := Z.of_nat (length ids) - 1 - Z.of_nat (length (responders ids me (evs k))) in
    let cat := negb (late =? 0) in
    ProcessorExceptionNames !! Z.to_nat (fInterruptNo f) = Some name /\
    (k <= 512)%nat /\ ((k < 512)%nat -> ba <> be /\ all_acked ids me (evs k)) /\ all_stopped ids me (evs k) n /\
    IntmgmtProcessorException lat ac tsc fuel ba be sched junk s me f =
      (c ← show_report s cat KR_MDCODE_CRITICAL_PROCESSOR_EXCEPTION (Some (exception_text name, rest)) (Some (InterruptFrameToProcessorSnapshot f)) late
             (set_meltdown (mdConsole s));
       Done (mkMd true n cat (bDisplaywideText s) c (CR0 s) (CR2 s) (mdCR3 s) (CR4 s))).
Proof.
  destruct exception_names as [HL HF].
  destruct (lookup_lt_is_Some_2 ProcessorExceptionNames (Z.to_nat (fInterruptNo f))) as [name Hn]; [rewrite HL; lia|].
  destruct (exception_melts lat ac tsc fuel ba be sched junk s me f name Hn Hjunk) as [rest ->].
  destruct (Forall_lookup_1 _ _ _ _ HF Hn) as [Hp Hl]. apply plain_nonzero in Hp.
  destruct (meltdown_spec lat ac tsc fuel ba be sched s ids me KR_MDCODE_CRITICAL_PROCESSOR_EXCEPTION (Some (exception_text name, rest))
    (Some (InterruptFrameToProcessorSnapshot f)) Hlock Hnlock Hready Hids Hlat Htsc) as (n & k & H1 & H2 & H3 & H4).
  - apply Forall_app. split; [|done]. by apply plain_nonzero.
  - unfold desc_length, exception_text. rewrite length_app. assert (length (txt exception_prefix) = 30%nat) as -> by reflexivity. lia.
  - exists name, rest, n, k. split; [done|]. split; [done|]. split; [done|]. split; [done|exact H4].
Qed.

(** ** Assertions *)

(** an assertion that holds changes nothing.  One that fails with a
    description made of the supported conversions, whose text fits the local buffer, stops the
    system; the description reported is the rendered text followed by what the
    buffer held up to its next zero byte, since the formatter stores no terminator. *)
Theorem assertion_outcome lat ac tsc fuel ba be sched (s : Md) (ids : list Z) (me code : Z) (snap : KrProcessorSnapshot) (buf : list Z)
    (ds : list directive) (old rest : list Z)
    (Hds : Forall directive_ok ds) (Hfit : Z.of_nat (length (rendered ds)) <= MAX_MDDESC_SIZE) (Hz : Forall (fun c => c <> 0) (rendered ds))
    (Hbuf : Z.of_nat (length buf) = MAX_MDDESC_SIZE) (Hold : drop (length (rendered ds)) buf = old ++ 0 :: rest) (Hnz : Forall (fun c => c <> 0) old)
    (Hlock : sg_MeltdownSpinlock s = false) (Hnlock : sg_NmiSpinlock (mdNmi s) = false) (Hready : nmi_ready fuel (mdNmi s) ids me)
    (Hids : (1 < length ids <= 256)%nat) (Hlat : forall w, (lat w < fuel)%nat)
    (Htsc : forall n, exists m, (S n <= m < n + fuel)%nat /\ u64 (tsc n + 1250000) <= tsc m) :
  let check b := ImplKernelAssert lat ac tsc fuel ba be sched buf snap s me b code (Some (format_text ds ++ [0])) (format_args ds ++ []) in
  check true = Done s /\
  exists n k, let evs := steps_of sched 0 in
    let late := Z.of_nat (length ids) - 1 - Z.of_nat (length (responders ids me (evs k))) in
    let cat := negb (late =? 0) in
    (k <= 512)%nat /\ ((k < 512)%nat -> ba <> be /\ all_acked ids me (evs k)) /\ all_stopped ids me (evs k) n /\
    check false =
      (c ← show_report s cat code (Some (rendered ds ++ old, rest)) (Some snap) late (set_meltdown (mdConsole s));
       Done (mkMd true n cat (bDisplaywideText s) c (CR0 s) (CR2 s) (mdCR3 s) (CR4 s))).
Proof.
  cbv zeta. split; [done|].
  unfold MAX_MDDESC_SIZE in Hfit, Hbuf. assert (Z.of_nat (length old) <= 8192) as Hol.
  { pose proof (f_equal length Hold) as H. rewrite length_drop, length_app in H. lia. }
  destruct (meltdown_spec lat ac tsc fuel ba be sched s ids me code (Some (rendered ds ++ old, rest)) (Some snap) Hlock Hnlock Hready Hids Hlat Htsc)
    as (n & k & H1 & H2 & H3 & H4).
  - by apply Forall_app.
  - cbn [desc_length]. rewrite length_app. lia.
  - exists n, k. split; [done|]. split; [done|]. split; [done|].
    unfold ImplKernelAssert, KrtlFormatStringVariadic, MAX_MDDESC_SIZE.
    rewrite (format_loop_render ds _ 8192 [] []); [|done|rewrite length_app; lia|cbn [length]; lia|right; cbn [length]; lia].
    rewrite bind_Done. change ([] ++ rendered ds) with (rendered ds). rewrite decide_True, bind_Done by lia. rewrite Hold, app_assoc. exact H4.
Qed.

(** ** A small system *)

Definition sample_md : Md := mkMd false (sample_nmi (replicate 32 0) false) false true sample_console 0x80010033 0 0x1000 0x6A0.
Definition sample_frame : InterruptFrame := mkFrame 0 0 0 0 0 0 0 0 0 0 0 0 0 0 0 13 0 0xFFFFFFFF80001000 8 0x10002 0xFFFFFFFF80009000 16.
Lemma sample_tsc_advances n : exists m, (S n <= m < n + 4)%nat /\ u64 (sample_tsc n + 1250000) <= sample_tsc m.
Proof.
  exists (S n). split; [lia|]. unfold sample_tsc, u64.
  pose proof (Z.mod_le (2000000 * Z.of_nat n + 1250000) (2 ^ 64) ltac:(lia) ltac:(lia)). lia.
Qed.

(** A console of 80 columns and 37 rows, and one row of memory to spare. *)
Definition wide_console (v r : list Z) : Dwtp := mkDwtp (4 * 194560) 640 296 640 0 0 0x1000 0x9000 4 g_KrdwtpDefaultFont_8x8 false false false v r.
Definition unknown_screen : Screen := mkScreen (fun _ _ => Unknown) 0 0.
Lemma wide_idle v r : Z.of_nat (length v) = 194560 -> length r = (2 * length v)%nat -> ConsoleThms.idle (wide_console v r) (unknown_screen, false).
Proof.
  intros Hv Hr. split; [|done]. split_and!; [|vm_compute; split_and!; done|by split].
  split; cbn [Vram Ram wide_console FrameBufferSize]; rewrite ?Hv; try done. eexists; apply sample_font_ok.
Qed.
Definition black (n : Z) : list Z := replicate (Z.to_nat n) 0.
Definition wide_md : Md := mkMd false (sample_nmi (replicate 32 0) false) false true (wide_console (black 194560) (black 389120)) 0x80010033 0 0x1000 0x6A0.

Lemma meltdown_stops_and_reports_witness :
  exists n k c a', let evs := steps_of sample_sched 0 in
    let late := 3 - 1 - Z.of_nat (length (responders [0; 1; 2] 0 (evs k))) in
    let cat := negb (late =? 0) in
    (k <= 512)%nat /\ ((k < 512)%nat -> 1 <> 0 /\ all_acked [0; 1; 2] 0 (evs k)) /\ all_stopped [0; 1; 2] 0 (evs k) n /\
    Krnlmeltdown no_latency no_count sample_tsc 4 1 0 sample_sched wide_md 0 0x4001 (Some [104; 105; 0; 7]) None =
      Done (mkMd true n cat true c 0x80010033 0 0x1000 0x6A0) /\
    screen_ops 37 80 (fun _ => KRDWTP_COLOR_DARK_PURPLE) (unknown_screen, false) (report_ops wide_md cat 0x4001 (Some ([104; 105], [7])) None late) = Done (a', false) /\
    ConsoleThms.idle c (a', false).
Proof.
  apply (meltdown_stops_and_reports no_latency no_count sample_tsc 4 1 0 sample_sched wide_md [0; 1; 2] 0 0x4001 (Some ([104; 105], [7])) None unknown_screen false).
  - reflexivity.
  - reflexivity.
  - exact sample_nmi_ready.
  - cbn. lia.
  - intros w. unfold no_latency. lia.
  - exact sample_tsc_advances.
  - repeat (apply Forall_cons; split; [lia|]). by apply Forall_nil.
  - cbn. lia.
  - reflexivity.
  - apply wide_idle; unfold black; rewrite !length_replicate; lia.
  - split; vm_compute; discriminate.
Defined.

Lemma processor_exception_stops_system_witness :
  exists name rest n k, let evs := steps_of sample_sched 0 in
    let late := 3 - 1 - Z.of_nat (length (responders [0; 1; 2] 0 (evs k))) in
    let cat := negb (late =? 0) in
    ProcessorExceptionNames !! 13%nat = Some name /\
    (k <= 512)%nat /\ ((k < 512)%nat -> 1 <> 0 /\ all_acked [0; 1; 2] 0 (evs k)) /\ all_stopped [0; 1; 2] 0 (evs k) n /\
    IntmgmtProcessorException no_latency no_count sample_tsc 4 1 0 sample_sched (replicate 128 170) sample_md 0 sample_frame =
      (c ← show_report sample_md cat KR_MDCODE_CRITICAL_PROCESSOR_EXCEPTION (Some (exception_text name, rest))
             (Some (InterruptFrameToProcessorSnapshot sample_frame)) late (set_meltdown (mdConsole sample_md));
       Done (mkMd true n cat true c 0x80010033 0 0x1000 0x6A0)).
Proof.
  apply (processor_exception_stops_system no_latency no_count sample_tsc 4 1 0 sample_sched sample_md [0; 1; 2] 0 sample_frame (replicate 128 170)).
  - cbn. lia.
  - reflexivity.
  - reflexivity.
  - reflexivity.
  - exact sample_nmi_ready.
  - cbn. lia.
  - intros w. unfold no_latency. lia.
  - exact sample_tsc_advances.
Defined.

(** A failed assertion "bad %u" whose buffer still held "xy" and a zero. *)
Definition sample_failure : list directive := [DLit 98; DLit 97; DLit 100; DLit 32; DUInt 7].
Definition sample_desc_buffer : list Z := replicate 5 170 ++ [120; 121; 0] ++ replicate (8192 - 8) 170.
Definition zero_snapshot : KrProcessorSnapshot := mkSnap 0 0 0 0 0 0 0 0 0 0 0 0 0 0 0 0 0 0.
Lemma assertion_outcome_witness :
  let check b := ImplKernelAssert no_latency no_count sample_tsc 4 1 0 sample_sched sample_desc_buffer zero_snapshot sample_md 0 b 0x4001
                   (Some (format_text sample_failure ++ [0])) (format_args sample_failure ++ []) in
  check true = Done sample_md /\
  exists n k, let evs := steps_of sample_sched 0 in
    let late := 3 - 1 - Z.of_nat (length (responders [0; 1; 2] 0 (evs k))) in
    let cat := negb (late =? 0) in
    (k <= 512)%nat /\ ((k < 512)%nat -> 1 <> 0 /\ all_acked [0; 1; 2] 0 (evs k)) /\ all_stopped [0; 1; 2] 0 (evs k) n /\
    check false =
      (c ← show_report sample_md cat 0x4001 (Some ([98; 97; 100; 32; 55; 120; 121], replicate (8192 - 8) 170)) (Some zero_snapshot) late
             (set_meltdown (mdConsole sample_md));
       Done (mkMd true n cat true c 0x80010033 0 0x1000 0x6A0)).
Proof.
  apply (assertion_outcome no_latency no_count sample_tsc 4 1 0 sample_sched sample_md [0; 1; 2] 0 0x4001 zero_snapshot sample_desc_buffer
    sample_failure [120; 121] (replicate (8192 - 8) 170)).
  - repeat constructor; done.
  - vm_compute. discriminate.
  - vm_compute. repeat (apply Forall_cons; split; [lia|]). by apply Forall_nil.
  - vm_compute. reflexivity.
  - vm_compute. reflexivity.
  - repeat (apply Forall_cons; split; [lia|]). by apply Forall_nil.
  - reflexivity.
  - reflexivity.
  - exact sample_nmi_ready.
  - cbn. lia.
  - intros w. unfold no_latency. lia.
  - exact sample_tsc_advances.
Defined.

(** ** Departures *)

Definition melt_sample (s : Md) : outcome Md := Krnlmeltdown no_latency no_count sample_tsc 4 1 0 sample_sched s 0 0x4007 None None.
(** A meltdown inside RaiseGlobalNonmaskableInterrupt, as for an unknown reason,
    finds the lock of that routine held and waits for ever, showing nothing. *)
Example meltdown_under_nmi_lock : melt_sample (with_nmi sample_md (with_nlock (mdNmi sample_md) true) false) = Hang.
Proof. vm_compute. reflexivity. Qed.
(** A processor that was halted while it wrote to the console keeps the console's lock. *)
Example meltdown_under_console_lock : melt_sample (with_console sample_md (set_dwlock sample_console true)) = Hang.
Proof. vm_compute. reflexivity. Qed.
(** The code for missing interrupt data has no name. *)
Example no_data_code_unnamed : Krnlmddesc KR_MDCODE_NMI_NO_DATA_PROVIDED = "IVLDMDCODE"%string.
Proof. reflexivity. Qed.
(** The number of silent processors is written to the console even if it is not the video output. *)
Definition no_steps (_ : nat) : list Z := [].
Example catastrophe_ignores_video_output :
  (s ← Krnlmeltdown no_latency no_count sample_tsc 4 1 0 no_steps (mkMd false (sample_nmi (replicate 32 0) false) false false (set_dwlock sample_console true) 0 0 0 0) 0 0x4001 None None;
   Done (bMeltdownCatastrophic s)) = Hang /\
  (s ← Krnlmeltdown no_latency no_count sample_tsc 4 1 0 sample_sched (mkMd false (sample_nmi (replicate 32 0) false) false false (set_dwlock sample_console true) 0 0 0 0) 0 0x4001 None None;
   Done (bMeltdownCatastrophic s)) = Done false.
Proof. split; vm_compute; reflexivity. Qed.
