(* ===== verification/ImgCrc.v ===== *)
(** * CRC-32 of the disk image tool (Tools/Imgtool/Source/Imgtool.c)

    The table and the checksum as the tool computes them; the checksum is the
    remainder of the message by the CRC-32 polynomial, and it tells apart any two messages
    that differ in one byte. *)
From Stdlib Require Import ZArith Lia.
From stdpp Require Import base numbers list.
From S2P Require Import Prelude Bytes.
Open Scope Z_scope.

(** ** The code *)

(** One step of the inner loop of InitTableCRC32. *)
Definition crc_step (crc : Z) : Z :=
  if negb (Z.land crc 1 =? 0) then Z.lxor (Z.shiftr crc 1) 0xEDB88320 else Z.shiftr crc 1.
Definition InitTableCRC32 : list Z := (fun i => Nat.iter 8 crc_step i) <$> seqZ 0 256.

Fixpoint crc_loop (TableCRC32 : list Z) (crc : Z) (buf : list Z) : outcome Z :=
  match buf with
  | [] => Done crc
  | b :: buf =>
      let index := u8 (Z.land (Z.lxor crc b) 0xFF) in
      t ← checked (TableCRC32 !! Z.to_nat index);
      crc_loop TableCRC32 (Z.lxor (Z.shiftr crc 8) t) buf
  end.
Definition ChecksumCRC32 (TableCRC32 : list Z) (buf : list Z) : outcome Z :=
  crc ← crc_loop TableCRC32 0xFFFFFFFF buf; Done (Z.lxor crc 0xFFFFFFFF).

Example crc_check_value : ChecksumCRC32 InitTableCRC32 [49; 50; 51; 52; 53; 54; 55; 56; 57] = Done 0xCBF43926.
Proof. vm_compute. reflexivity. Qed.

(** ** The step is linear *)

Lemma crc_step_eq c : crc_step c = Z.lxor (Z.shiftr c 1) (if Z.testbit c 0 then 0xEDB88320 else 0).
Proof.
  unfold crc_step. replace (Z.land c 1) with (Z.b2z (Z.testbit c 0)) by (change (Z.land c 1) with (Z.land c (Z.ones 1)); rewrite Z.land_ones, Z.bit0_mod by lia; done).
  destruct (Z.testbit c 0); cbn; [done|by rewrite Z.lxor_0_r].
Qed.
Lemma crc_step_lxor a b : crc_step (Z.lxor a b) = Z.lxor (crc_step a) (crc_step b).
Proof.
  rewrite !crc_step_eq, Z.shiftr_lxor, Z.lxor_spec. apply Z.bits_inj'. intros i Hi.
  destruct (Z.testbit a 0), (Z.testbit b 0); cbn [xorb]; rewrite !Z.lxor_spec, ?Z.bits_0;
    destruct (Z.testbit (Z.shiftr a 1) i), (Z.testbit (Z.shiftr b 1) i), (Z.testbit 0xEDB88320 i); done.
Qed.
Lemma crc_steps_lxor n a b : Nat.iter n crc_step (Z.lxor a b) = Z.lxor (Nat.iter n crc_step a) (Nat.iter n crc_step b).
Proof. induction n as [|n IH]; [done|]. simpl. by rewrite IH, crc_step_lxor. Qed.
Lemma crc_step_double a : crc_step (2 * a) = a.
Proof.
  rewrite crc_step_eq. replace (2 * a) with (Z.shiftl a 1) by (rewrite Z.shiftl_mul_pow2; lia).
  rewrite Z.shiftl_spec_low, Z.lxor_0_r, Z.shiftr_shiftl_l by lia. apply Z.shiftl_0_r.
Qed.
Lemma crc_steps_shift n a : Nat.iter n crc_step (Z.shiftl a (Z.of_nat n)) = a.
Proof.
  induction n as [|n IH] in a |- *; [apply Z.shiftl_0_r|]. rewrite Nat.iter_succ_r.
  replace (Z.shiftl a (Z.of_nat (S n))) with (2 * Z.shiftl a (Z.of_nat n)) by (rewrite !Z.shiftl_mul_pow2, Nat2Z.inj_succ, Z.pow_succ_r by lia; lia).
  by rewrite crc_step_double.
Qed.

(** Registers stay within 32 bits. *)
Definition word32 (c : Z) : Prop := 0 <= c < 2 ^ 32.
Lemma lxor_word a b : word32 a -> word32 b -> word32 (Z.lxor a b).
Proof.
  unfold word32. intros Ha Hb. assert (0 <= Z.lxor a b) by (apply Z.lxor_nonneg; lia).
  split; [done|]. destruct (Z.eq_dec (Z.lxor a b) 0) as [->|]; [done|]. apply Z.log2_lt_pow2; [lia|].
  eapply Z.le_lt_trans; [apply Z.log2_lxor; lia|]. apply Z.max_lub_lt.
  - destruct (Z.eq_dec a 0) as [->|]; [done|]. apply Z.log2_lt_pow2; lia.
  - destruct (Z.eq_dec b 0) as [->|]; [done|]. apply Z.log2_lt_pow2; lia.
Qed.
Lemma crc_step_word c : word32 c -> word32 (crc_step c).
Proof.
  intros Hc. rewrite crc_step_eq. apply lxor_word; [|unfold word32; destruct (Z.testbit c 0); lia].
  unfold word32 in *. rewrite Z.shiftr_div_pow2 by lia. zlia.
Qed.
Lemma crc_steps_word n c : word32 c -> word32 (Nat.iter n crc_step c).
Proof. intros Hc. induction n; [done|]. by apply crc_step_word. Qed.

(** ** Bit by bit *)

Definition message_bits (buf : list Z) : list bool := buf ≫= (fun b => Z.testbit b <$> seqZ 0 8).
(** One message bit enters the shift register. *)
Definition crc_feed (crc : Z) (bit : bool) : Z := crc_step (Z.lxor crc (Z.b2z bit)).

Lemma feed_bits n s b : 0 <= b < 2 ^ Z.of_nat n ->
  foldl crc_feed s (Z.testbit b <$> seqZ 0 (Z.of_nat n)) = Nat.iter n crc_step (Z.lxor s b).
Proof.
  induction n as [|n IH] in s, b |- *; intros Hb; [assert (b = 0) as -> by (change (2 ^ Z.of_nat 0) with 1 in Hb; lia); by rewrite Z.lxor_0_r|].
  rewrite seqZ_cons, Nat2Z.inj_succ by lia. replace (Z.pred (Z.succ (Z.of_nat n))) with (Z.of_nat n) by lia.
  rewrite fmap_cons. cbn [foldl]. rewrite <- (fmap_add_seqZ 1 0), <- list_fmap_compose.
  rewrite (list_fmap_ext _ (Z.testbit (Z.shiftr b 1)) (seqZ 0 (Z.of_nat n))).
  2:{ intros i x Hx. apply lookup_seqZ in Hx as [-> ?]. cbn. rewrite Z.shiftr_spec by lia. f_equal. lia. }
  rewrite IH, Nat.iter_succ_r.
  2:{ rewrite Z.shiftr_div_pow2 by lia. rewrite Nat2Z.inj_succ, Z.pow_succ_r in Hb by lia. split; [zlia|]. apply Z.div_lt_upper_bound; lia. }
  f_equal. unfold crc_feed. rewrite <- (crc_step_double (Z.shiftr b 1)) at 1. rewrite <- crc_step_lxor, Z.lxor_assoc. do 2 f_equal.
  apply Z.bits_inj'. intros i Hi. rewrite Z.lxor_spec. destruct (decide (i = 0)) as [->|].
  - by rewrite Z.testbit_even_0, xorb_false_r, Z.b2z_bit0.
  - assert (Z.testbit (Z.b2z (Z.testbit b 0)) i = false) as -> by (destruct (Z.testbit b 0); [apply (Z.bits_above_log2 1); cbn; lia|apply Z.bits_0]).
    replace i with (Z.succ (i - 1)) by lia. rewrite Z.testbit_even_succ, Z.shiftr_spec by lia. cbn [xorb]. f_equal.
Qed.

(** The table does eight steps at once. *)
Lemma table_step c b : word32 c -> 0 <= b < 256 ->
  exists t, InitTableCRC32 !! Z.to_nat (u8 (Z.land (Z.lxor c b) 0xFF)) = Some t /\
    Z.lxor (Z.shiftr c 8) t = Nat.iter 8 crc_step (Z.lxor c b).
Proof.
  intros Hc Hb. set (x := Z.lxor c b). assert (word32 x) as Hx by (apply lxor_word; unfold word32 in *; lia).
  change 0xFF with (Z.ones 8). rewrite Z.land_ones by lia. assert (0 <= x mod 2 ^ 8 < 256) as Hm by (apply Z.mod_pos_bound; lia).
  rewrite u8_small by lia. exists (Nat.iter 8 crc_step (x mod 2 ^ 8)). split.
  { unfold InitTableCRC32. rewrite list_lookup_fmap, (proj2 (lookup_seqZ 0 256 (Z.to_nat (x mod 2 ^ 8)) (x mod 2 ^ 8))) by lia. done. }
  assert (Z.shiftr c 8 = Nat.iter 8 crc_step (Z.shiftl (Z.shiftr x 8) (Z.of_nat 8))) as ->.
  { rewrite crc_steps_shift. unfold x. rewrite Z.shiftr_lxor, (Z.shiftr_div_pow2 b), (Z.div_small b) by lia. by rewrite Z.lxor_0_r. }
  rewrite <- crc_steps_lxor. f_equal. apply Z.bits_inj'. intros i Hi. rewrite Z.lxor_spec. destruct (Z.ltb_spec i 8).
  - rewrite Z.shiftl_spec_low, Z.mod_pow2_bits_low by lia. done.
  - rewrite Z.shiftl_spec_high, Z.shiftr_spec, Z.mod_pow2_bits_high by lia. rewrite xorb_false_r. f_equal. lia.
Qed.

Lemma crc_loop_bits buf c : word32 c -> Forall (fun b => 0 <= b < 256) buf ->
  crc_loop InitTableCRC32 c buf = Done (foldl crc_feed c (message_bits buf)) /\ word32 (foldl crc_feed c (message_bits buf)).
Proof.
  intros Hc H. induction H as [|b buf Hb _ IH] in c, Hc |- *; [done|]. cbn [crc_loop].
  destruct (table_step c b Hc Hb) as (t & -> & E). cbn [checked]. rewrite bind_Done, E.
  unfold message_bits in *. rewrite bind_cons, foldl_app. change 8 with (Z.of_nat 8). rewrite feed_bits by (simpl; lia). apply IH.
  apply crc_steps_word, lxor_word; unfold word32 in *; lia.
Qed.

(** ** The polynomial *)

(** Polynomials over two elements as integers, bit [i] the coefficient of x^i. *)
Definition CRC_POLYNOMIAL : Z := 0x104C11DB7.
Definition poly_times (q : list bool) : Z := foldl (fun a (b : bool) => Z.lxor (2 * a) (if b then CRC_POLYNOMIAL else 0)) 0 q.
Definition poly_of_bits (bits : list bool) : Z := foldl (fun a b => Z.lxor (2 * a) (Z.b2z b)) 0 bits.

Fixpoint gather (n : nat) (f : Z -> bool) : Z :=
  match n with O => 0 | S n' => Z.lor (Z.shiftl (Z.b2z (f (Z.of_nat n'))) (Z.of_nat n')) (gather n' f) end.
Lemma gather_bit n f i : 0 <= i -> Z.testbit (gather n f) i = (i <? Z.of_nat n) && f i.
Proof.
  intros Hi. induction n as [|n IH]; cbn [gather]; [rewrite Z.bits_0; by destruct (Z.ltb_spec i (Z.of_nat 0)); [lia|]|].
  rewrite Z.lor_spec, IH, Z.shiftl_spec by lia. destruct (Z.ltb_spec i (Z.of_nat n)), (Z.ltb_spec i (Z.of_nat (S n))); try lia; cbn [andb].
  - rewrite Z.testbit_neg_r by lia. done.
  - rewrite orb_false_r. assert (i = Z.of_nat n) as -> by lia. by rewrite Z.sub_diag, Z.b2z_bit0.
  - rewrite orb_false_r. destruct (f (Z.of_nat n)); [|apply Z.bits_0]. apply (Z.bits_above_log2 1); cbn; lia.
Qed.
(** The register read from the other end. *)
Definition reversed (s : Z) : Z := gather 32 (fun i => Z.testbit s (31 - i)).
Lemma word_high s i : word32 s -> 32 <= i -> Z.testbit s i = false.
Proof. intros [H0 H1] Hi. apply (testbit_above s 32); lia. Qed.
Lemma reversed_word s : word32 (reversed s).
Proof.
  assert (forall i, 32 <= i -> Z.testbit (reversed s) i = false) as H.
  { intros i Hi. unfold reversed. rewrite gather_bit by lia. by rewrite (proj2 (Z.ltb_ge i (Z.of_nat 32))) by lia. }
  assert (0 <= reversed s) as H0.
  { unfold reversed. generalize 32%nat as n. induction n; [done|]. cbn [gather]. apply Z.lor_nonneg. split; [|done].
    apply Z.shiftl_nonneg. by destruct (Z.testbit s _). }
  split; [done|]. apply nonneg_bits_bound; [lia|done|done].
Qed.

Lemma reversed_bit s i : 0 <= i < 32 -> Z.testbit (reversed s) i = Z.testbit s (31 - i).
Proof. intros Hi. unfold reversed. rewrite gather_bit by lia. by rewrite (proj2 (Z.ltb_lt i (Z.of_nat 32))) by lia. Qed.
Lemma reversed_twice s : word32 s -> reversed (reversed s) = s.
Proof.
  intros Hs. apply (bits_inj_below 32); [apply reversed_word|done|]. intros i Hi. rewrite !reversed_bit by lia. f_equal. lia.
Qed.
Lemma polynomial_bit i : 0 <= i < 32 -> Z.testbit CRC_POLYNOMIAL i = Z.testbit 0xEDB88320 (31 - i).
Proof.
  intros Hi. assert (forallb (fun i => eqb (Z.testbit CRC_POLYNOMIAL i) (Z.testbit 0xEDB88320 (31 - i))) (seqZ 0 32) = true) as H by reflexivity.
  rewrite forallb_forall in H. apply eqb_prop, H, list_elem_of_In, elem_of_seqZ. lia.
Qed.
Lemma b2z_bit b i : 0 < i -> Z.testbit (Z.b2z b) i = false.
Proof. intros Hi. destruct b; [apply (Z.bits_above_log2 1); cbn; lia|apply Z.bits_0]. Qed.
Lemma double_bit a i : Z.testbit (2 * a) i = if i <=? 0 then false else Z.testbit a (i - 1).
Proof.
  destruct (Z.leb_spec i 0).
  - destruct (decide (i = 0)) as [->|]; [apply Z.testbit_even_0|by rewrite Z.testbit_neg_r by lia].
  - replace i with (Z.succ (i - 1)) by lia. rewrite Z.testbit_even_succ by lia. f_equal. lia.
Qed.

(** A step of the register is a step of the long division. *)
Lemma feed_divides s b : word32 s ->
  reversed (crc_feed s b) =
    Z.lxor (Z.lxor (2 * reversed s) (Z.shiftl (Z.b2z b) 32)) (if xorb (Z.testbit s 0) b then CRC_POLYNOMIAL else 0).
Proof.
  intros Hs. apply Z.bits_inj'. intros i Hi. rewrite !Z.lxor_spec, double_bit, Z.shiftl_spec by lia.
  assert (Z.testbit (if xorb (Z.testbit s 0) b then CRC_POLYNOMIAL else 0) i = xorb (Z.testbit s 0) b && Z.testbit CRC_POLYNOMIAL i) as ->
    by (destruct (xorb _ _); [done|apply Z.bits_0]).
  destruct (Z.ltb_spec i 32) as [Hlt|Hge].
  - rewrite reversed_bit by lia. unfold crc_feed. rewrite crc_step_eq, Z.lxor_spec, Z.shiftr_spec, !Z.lxor_spec, Z.b2z_bit0, (b2z_bit b) by lia.
    rewrite (Z.testbit_neg_r _ (i - 32)) by lia. rewrite !xorb_false_r. f_equal.
    + destruct (Z.leb_spec i 0); [apply word_high; [done|lia]|]. rewrite reversed_bit by lia. f_equal. lia.
    + rewrite polynomial_bit by lia. destruct (xorb _ _); [done|apply Z.bits_0].
  - rewrite (word_high (reversed _) i (reversed_word _)) by lia. rewrite (proj2 (Z.leb_gt i 0)) by lia.
    destruct (decide (i = 32)) as [->|].
    + rewrite reversed_bit by lia. rewrite Z.b2z_bit0. change (Z.testbit CRC_POLYNOMIAL 32) with true. rewrite andb_true_r.
      by destruct (Z.testbit s _), b.
    + rewrite word_high, b2z_bit, (testbit_above CRC_POLYNOMIAL 33) by (apply reversed_word || (unfold CRC_POLYNOMIAL; lia)). by rewrite andb_false_r.
Qed.

Lemma feed_word s b : word32 s -> word32 (crc_feed s b).
Proof. intros H. apply crc_step_word, lxor_word; [done|]. unfold word32. destruct b; cbn; lia. Qed.

(** The division after any number of bits. *)
Lemma register_divides bits s : word32 s -> exists q,
  Z.lxor (Z.lxor (Z.shiftl (poly_of_bits bits) 32) (Z.shiftl (reversed s) (Z.of_nat (length bits)))) (reversed (foldl crc_feed s bits)) = poly_times q.
Proof.
  intros Hs. induction bits as [|b bits (q & IH)] using rev_ind.
  { exists []. cbn. by rewrite Z.shiftl_0_r, Z.lxor_nilpotent. }
  assert (word32 (foldl crc_feed s bits)) as Hw by (clear IH; induction bits using rev_ind; [done|rewrite foldl_app; by apply feed_word]).
  exists (q ++ [xorb (Z.testbit (foldl crc_feed s bits) 0) b]). unfold poly_times, poly_of_bits in *. rewrite !foldl_app. cbn [foldl].
  rewrite <- IH, feed_divides by done. rewrite length_app. cbn [length]. generalize (foldl crc_feed s bits) as r. intros r.
  generalize (if xorb (Z.testbit r 0) b then CRC_POLYNOMIAL else 0) as p. intros p.
  generalize (foldl (fun a b => Z.lxor (2 * a) (Z.b2z b)) 0 bits) as M. intros M.
  apply Z.bits_inj'. intros i Hi. rewrite !Z.lxor_spec, !double_bit, !Z.lxor_spec, !Z.shiftl_spec, !Z.lxor_spec, !double_bit by lia.
  replace (i - Z.of_nat (length bits + 1)) with (i - 1 - Z.of_nat (length bits)) by lia. replace (i - 32 - 1) with (i - 1 - 32) by lia.
  destruct (Z.leb_spec i 0).
  - rewrite (proj2 (Z.leb_le (i - 32) 0)) by lia. rewrite (Z.testbit_neg_r (reversed s)), (Z.testbit_neg_r (Z.b2z b)) by lia.
    by destruct (Z.testbit p i).
  - destruct (Z.leb_spec (i - 32) 0).
    + rewrite !Z.shiftl_spec, (Z.testbit_neg_r M) by lia.
      by destruct (Z.testbit (Z.b2z b) _), (Z.testbit (reversed s) _), (Z.testbit (reversed r) _), (Z.testbit p i).
    + rewrite !Z.shiftl_spec by lia.
      by destruct (Z.testbit M _), (Z.testbit (Z.b2z b) _), (Z.testbit (reversed s) _), (Z.testbit (reversed r) _), (Z.testbit p i).
Qed.

Lemma message_bits_length buf : length (message_bits buf) = (8 * length buf)%nat.
Proof. induction buf as [|b buf IH]; [done|]. unfold message_bits in *. rewrite bind_cons, length_app, IH. simpl. lia. Qed.

(** The checksum bit by bit. *)
Definition crc32 (buf : list Z) : Z := Z.lxor (foldl crc_feed 0xFFFFFFFF (message_bits buf)) 0xFFFFFFFF.

Lemma checksum_spec buf : Forall (fun b => 0 <= b < 256) buf ->
  ChecksumCRC32 InitTableCRC32 buf = Done (crc32 buf) /\
  word32 (foldl crc_feed 0xFFFFFFFF (message_bits buf)).
Proof.
  intros H. destruct (crc_loop_bits buf 0xFFFFFFFF ltac:(unfold word32; lia) H) as [E Hw].
  unfold ChecksumCRC32. by rewrite E, bind_Done.
Qed.

Lemma crc32_word buf : Forall (fun b => 0 <= b < 256) buf -> word32 (crc32 buf).
Proof. intros H. apply lxor_word; [by apply checksum_spec|unfold word32; lia]. Qed.
(** Whatever the bytes, the table has every index used. *)
Lemma checksum_returns buf : exists c, ChecksumCRC32 InitTableCRC32 buf = Done c.
Proof.
  unfold ChecksumCRC32. assert (forall c, exists r, crc_loop InitTableCRC32 c buf = Done r) as H; [|destruct (H 0xFFFFFFFF) as [r ->]; by eexists].
  induction buf as [|b buf IH]; intros c; [by eexists|]. cbn [crc_loop].
  destruct (InitTableCRC32 !! Z.to_nat (u8 (Z.land (Z.lxor c b) 255))) as [t|] eqn:E; [apply IH|].
  apply lookup_ge_None in E. assert (length InitTableCRC32 = 256%nat) as HL by reflexivity. pose proof (u8_range (Z.land (Z.lxor c b) 255)). lia.
Qed.

(** ** Properties *)

(** C37: the table-driven checksum of any bytes is the CRC-32: the inverted
    and reversed remainder, below 2^32, of the message polynomial (least
    significant bit of each byte first) times x^32 plus the initial register, by the polynomial
    0x104C11DB7. *)
Theorem checksum_is_remainder buf : Forall (fun b => 0 <= b < 256) buf ->
  exists q r, ChecksumCRC32 InitTableCRC32 buf = Done (Z.lxor (reversed r) 0xFFFFFFFF) /\ 0 <= r < 2 ^ 32 /\
    Z.lxor (Z.shiftl (poly_of_bits (message_bits buf)) 32) (Z.shiftl 0xFFFFFFFF (8 * Z.of_nat (length buf))) = Z.lxor (poly_times q) r.
Proof.
  intros H. destruct (checksum_spec buf H) as [E Hw]. set (s := foldl _ _ _) in *.
  destruct (register_divides (message_bits buf) 0xFFFFFFFF ltac:(unfold word32; lia)) as [q Hq]. fold s in Hq.
  exists q, (reversed s). rewrite reversed_twice by done. split; [done|]. split; [apply reversed_word|].
  rewrite <- Hq, Z.lxor_assoc, Z.lxor_nilpotent, Z.lxor_0_r, message_bits_length. f_equal.
  change (reversed 0xFFFFFFFF) with 0xFFFFFFFF. f_equal. lia.
Qed.

Lemma checksum_is_remainder_witness :
  exists q r, ChecksumCRC32 InitTableCRC32 [69; 70; 73] = Done (Z.lxor (reversed r) 0xFFFFFFFF) /\ 0 <= r < 2 ^ 32 /\
    Z.lxor (Z.shiftl (poly_of_bits (message_bits [69; 70; 73])) 32) (Z.shiftl 0xFFFFFFFF 24) = Z.lxor (poly_times q) r.
Proof. apply (checksum_is_remainder [69; 70; 73]). repeat (apply Forall_cons; split; [lia|]). by apply Forall_nil. Defined.

Lemma crc_step_inj a b : word32 a -> word32 b -> crc_step a = crc_step b -> a = b.
Proof.
  intros Ha Hb E. apply Z.lxor_eq. pose proof (lxor_word a b Ha Hb) as Hx.
  assert (crc_step (Z.lxor a b) = 0) as E0 by (rewrite crc_step_lxor, E; apply Z.lxor_nilpotent). clear E.
  generalize dependent (Z.lxor a b). intros x Hx E0. unfold word32 in *. rewrite crc_step_eq in E0. apply Z.lxor_eq in E0.
  rewrite Z.shiftr_div_pow2 in E0 by lia. change (2 ^ 1) with 2 in E0. rewrite Z.bit0_odd in E0.
   pose proof (Z.div_mod x 2 ltac:(lia)) as Hd.
  rewrite Zmod_odd in Hd. destruct (Z.odd x); [zlia|lia].
Qed.
Lemma crc_steps_inj n a b : word32 a -> word32 b -> Nat.iter n crc_step a = Nat.iter n crc_step b -> a = b.
Proof.
  intros Ha Hb. induction n as [|n IH]; [done|]. simpl. intros E. apply IH. apply crc_step_inj in E; [done|by apply crc_steps_word..].
Qed.

Lemma le_value_bits l : Forall (fun b => 0 <= b < 256) l -> message_bits l = Z.testbit (le_value l) <$> seqZ 0 (8 * Z.of_nat (length l)).
Proof.
  induction 1 as [|b l Hb Hl IH]; [done|]. unfold message_bits in *. rewrite bind_cons, IH. cbn [le_value foldr length]. fold (le_value l).
  replace (8 * Z.of_nat (S (length l))) with (8 + 8 * Z.of_nat (length l)) by lia. rewrite (seqZ_app 0 8), fmap_app by lia. f_equal.
  - apply list_fmap_ext. intros i x Hx. apply lookup_seqZ in Hx as [-> Hi].
    rewrite <- (Z.mod_pow2_bits_low (b + 256 * le_value l) 8) by lia.
    assert ((b + 256 * le_value l) mod 2 ^ 8 = b) as -> by zlia. done.
  - rewrite <- (fmap_add_seqZ 8 0), <- list_fmap_compose. apply list_fmap_ext. intros i x Hx. apply lookup_seqZ in Hx as [-> Hi]. cbn.
    rewrite (Z.add_comm 8), <- (Z.shiftr_spec (b + 256 * le_value l) 8) by lia.
    assert (Z.shiftr (b + 256 * le_value l) 8 = le_value l) as -> by (rewrite Z.shiftr_div_pow2 by lia; zlia). done.
Qed.
Lemma burst_register s l : word32 s -> Forall (fun b => 0 <= b < 256) l ->
  foldl crc_feed s (message_bits l) = Nat.iter (8 * length l) crc_step (Z.lxor s (le_value l)).
Proof.
  intros Hs Hl. rewrite le_value_bits by done. replace (8 * Z.of_nat (length l)) with (Z.of_nat (8 * length l)) by lia.
  apply feed_bits. replace (Z.of_nat (8 * length l)) with (8 * Z.of_nat (length l)) by lia. by apply le_value_range.
Qed.
Lemma feeds_word bits s : word32 s -> word32 (foldl crc_feed s bits).
Proof. induction bits as [|b bits IH] in s |- *; [done|]. intros Hs. by apply IH, feed_word. Qed.
Lemma feeds_inj bits s s' : word32 s -> word32 s' -> foldl crc_feed s bits = foldl crc_feed s' bits -> s = s'.
Proof.
  induction bits as [|b bits IH] in s, s' |- *; [done|]. intros Hs Hs' E. apply IH in E; [|by apply feed_word..].
  assert (word32 (Z.b2z b)) as Hb by (unfold word32; destruct b; cbn; lia).
  apply crc_step_inj in E; [|by apply lxor_word..]. apply (f_equal (Z.lxor (Z.b2z b))) in E.
  rewrite !(Z.lxor_comm (Z.b2z b)), !Z.lxor_assoc, Z.lxor_nilpotent, !Z.lxor_0_r in E. done.
Qed.

(** The checksum detects every burst of up to 32 bits: two messages of equal length that
    differ only within at most four consecutive bytes have different checksums. *)
Theorem checksum_detects_burst pre mid mid' post :
  Forall (fun b => 0 <= b < 256) (pre ++ mid ++ mid' ++ post) -> length mid = length mid' -> (length mid <= 4)%nat -> mid <> mid' ->
  ChecksumCRC32 InitTableCRC32 (pre ++ mid ++ post) <> ChecksumCRC32 InitTableCRC32 (pre ++ mid' ++ post).
Proof.
  rewrite !Forall_app. intros (Hp & Hm & Hm' & Hq) Hlen H4 Hne E.
  destruct (checksum_spec (pre ++ mid ++ post)) as [E1 _]; [by rewrite !Forall_app|].
  destruct (checksum_spec (pre ++ mid' ++ post)) as [E2 _]; [by rewrite !Forall_app|]. rewrite E1, E2 in E. injection E as E. clear E1 E2. unfold crc32 in E.
  apply (f_equal (Z.lxor 0xFFFFFFFF)) in E. rewrite !(Z.lxor_comm 0xFFFFFFFF), !Z.lxor_assoc, Z.lxor_nilpotent, !Z.lxor_0_r in E.
  unfold message_bits in E. rewrite !bind_app, !foldl_app in E. fold (message_bits pre) (message_bits mid) (message_bits mid') (message_bits post) in E.
  assert (word32 (foldl crc_feed 0xFFFFFFFF (message_bits pre))) as Hs by (apply feeds_word; unfold word32; lia).
  generalize dependent (foldl crc_feed 0xFFFFFFFF (message_bits pre)). intros s E Hs. apply feeds_inj in E; [|by apply feeds_word..].
  assert (forall l, Forall (fun b => 0 <= b < 256) l -> (length l <= 4)%nat -> word32 (le_value l)) as Hw.
  { intros l Hl H. pose proof (le_value_range l Hl) as [H0 H1]. split; [done|]. eapply Z.lt_le_trans; [exact H1|]. apply Z.pow_le_mono_r; lia. }
  rewrite !burst_register in E by done. rewrite <- Hlen in E. apply crc_steps_inj in E; [|apply lxor_word, Hw; done || lia..].
  apply Hne, le_value_inj; [done..|]. apply (f_equal (Z.lxor s)) in E. by rewrite <- !Z.lxor_assoc, !Z.lxor_nilpotent, !Z.lxor_0_l in E.
Qed.

Lemma checksum_detects_burst_witness :
  ChecksumCRC32 InitTableCRC32 ([1; 2] ++ [3; 4; 5] ++ [6]) <> ChecksumCRC32 InitTableCRC32 ([1; 2] ++ [3; 4; 7] ++ [6]).
Proof.
  apply (checksum_detects_burst [1; 2] [3; 4; 5] [3; 4; 7] [6]).
  - repeat (apply Forall_cons; split; [lia|]). by apply Forall_nil.
  - reflexivity.
  - cbn. lia.
  - discriminate.
Defined.
