(* ===== verification/Gpt.v ===== *)
(** * The disk image tool (Tools/Imgtool/Source: Imgtool.c, Imgtool.h,
    Routines/MakeStandard.c, ReadMBR.c, ReadGPT.c)

    The host file is a sparse map of bytes with a size and a position.  The calls of
    the C library that can fail take their outcome from [fails]: [Some n] for a
    call that fails after [n] items.  Messages to the user are not modelled. *)
From Stdlib Require Import ZArith Lia Ascii String.
From stdpp Require Import base numbers list gmap.
From S2P Require Import Prelude Bytes ImgCrc.
Open Scope Z_scope.

Definition ROUTINE_OK : Z := 0.
Definition ROUTINE_FAIL : Z := 1.
Definition ROUTINE_NOT_IMPLEMENTED : Z := 2.

(** ** Layout constants *)

Definition MBR_BOOT_INDICATOR_NO : Z := 0x00.
Definition MBR_SYSTEM_ID_GPT_PROTECTIVE : Z := 0xEE.
Definition MBR_PARTITION_TABLE_OFFSET : Z := 0x01BE.
Definition MBR_SIGNATURE_OFFSET : Z := 0x01FE.
Definition MBR_SIGNATURE : Z := 0xAA55.
Definition GPT_PARTITION_HEADER_SIGNATURE : list Z := txt "EFI PART".
Definition GPT_INITIAL_REVISION : Z := 0x00010000.
Definition GPT_EFI_SYSTEM_PARTITION_UUID : list Z :=
  [0x28; 0x73; 0x2A; 0xC1; 0x1F; 0xF8; 0xD2; 0x11; 0xBA; 0x4B; 0x00; 0xA0; 0xC9; 0x3E; 0xC9; 0x3B].
Definition GPT_MICROSOFT_BASIC_DATA : list Z :=
  [0xA2; 0xA0; 0xD0; 0xEB; 0xE5; 0xB9; 0x33; 0x44; 0x87; 0xC0; 0x68; 0xB6; 0xB7; 0x26; 0x99; 0xC7].
Definition GPT_ATTRIBUTE_REQUIRED : Z := Z.shiftl 1 0.
Definition GPT_PARTITION_NAME_CHAR_COUNT : nat := 36.
Definition NO_PARTITIONS_TO_ALLOCATE : Z := 128.
Definition MINIMUM_DISK_SIZE_MIB : Z := 128.
Definition EFI_SYSTEM_PART_ADDRESS : Z := 1024 * 1024.
Definition EFI_SYSTEM_PART_SIZE_MIB : Z := 100.
Definition STD_LAYOUT_PARTITION_COUNT : Z := 2.

(** ** Packed structures *)

Record MBR_PARTITION_ENTRY := mkMbrEntry {
  BootIndicator : Z; StartCHS : list Z; SystemID : Z; EndCHS : list Z; mbrStartLBA : Z; mbrSize : Z
}.
Definition mbr_bytes (e : MBR_PARTITION_ENTRY) : list Z :=
  le_bytes 1 (BootIndicator e) ++ StartCHS e ++ le_bytes 1 (SystemID e) ++ EndCHS e ++ le_bytes 4 (mbrStartLBA e) ++ le_bytes 4 (mbrSize e).

Record GPT_PARTITION_HEADER := mkGptHeader {
  Signature : list Z; Revision : Z; HeaderSize : Z; Checksum : Z; hReserved : list Z; SelfLBA : Z; AlternateLBA : Z;
  FirstUsableLBA : Z; LastUsableLBA : Z; DiskGUID : list Z; PartitionTableLBA : Z; NoPartitionEntries : Z;
  BytesPerPartitionEntry : Z; PartitionTableChecksum : Z
}.
Definition header_bytes (h : GPT_PARTITION_HEADER) : list Z :=
  Signature h ++ le_bytes 4 (Revision h) ++ le_bytes 4 (HeaderSize h) ++ le_bytes 4 (Checksum h) ++ hReserved h ++
  le_bytes 8 (SelfLBA h) ++ le_bytes 8 (AlternateLBA h) ++ le_bytes 8 (FirstUsableLBA h) ++ le_bytes 8 (LastUsableLBA h) ++
  DiskGUID h ++ le_bytes 8 (PartitionTableLBA h) ++ le_bytes 4 (NoPartitionEntries h) ++ le_bytes 4 (BytesPerPartitionEntry h) ++
  le_bytes 4 (PartitionTableChecksum h).
Definition sizeof_GPT_PARTITION_HEADER : Z := 92.
Definition with_checksum (h : GPT_PARTITION_HEADER) (c : Z) : GPT_PARTITION_HEADER :=
  mkGptHeader (Signature h) (Revision h) (HeaderSize h) c (hReserved h) (SelfLBA h) (AlternateLBA h) (FirstUsableLBA h) (LastUsableLBA h)
    (DiskGUID h) (PartitionTableLBA h) (NoPartitionEntries h) (BytesPerPartitionEntry h) (PartitionTableChecksum h).
Definition with_table_checksum (h : GPT_PARTITION_HEADER) (c : Z) : GPT_PARTITION_HEADER :=
  mkGptHeader (Signature h) (Revision h) (HeaderSize h) (Checksum h) (hReserved h) (SelfLBA h) (AlternateLBA h) (FirstUsableLBA h) (LastUsableLBA h)
    (DiskGUID h) (PartitionTableLBA h) (NoPartitionEntries h) (BytesPerPartitionEntry h) c.
Definition mirrored (h : GPT_PARTITION_HEADER) : GPT_PARTITION_HEADER :=
  mkGptHeader (Signature h) (Revision h) (HeaderSize h) 0 (hReserved h) (AlternateLBA h) (SelfLBA h) (FirstUsableLBA h) (LastUsableLBA h)
    (DiskGUID h) (u64 (LastUsableLBA h + 1)) (NoPartitionEntries h) (BytesPerPartitionEntry h) (PartitionTableChecksum h).

Record GPT_PARTITION_ENTRY := mkGptEntry {
  PartitionTypeGUID : list Z; PartitionGUID : list Z; StartLBA : Z; EndLBA : Z; Attributes : Z; PartitionName : list Z
}.
Definition entry_bytes (e : GPT_PARTITION_ENTRY) : list Z :=
  PartitionTypeGUID e ++ PartitionGUID e ++ le_bytes 8 (StartLBA e) ++ le_bytes 8 (EndLBA e) ++ le_bytes 8 (Attributes e) ++ PartitionName e.
Definition sizeof_GPT_PARTITION_ENTRY : Z := 128.

(** ** Imgtool.c *)

Definition Imgtool_LBAToCHS (LBA : Z) : list Z :=
  let heads := 255 in
  let sectors := 63 in
  let c := u32 (LBA / (heads * sectors)) in
  let temp := u32 (LBA mod (heads * sectors)) in
  let h := temp / sectors in
  let s := temp mod sectors + 1 in
  let '(c, h, s) := if c >? 1023 then (1023, 254, 63) else (c, h, s) in
  [u8 h; u8 (Z.lor (Z.land s 0x3F) (Z.land (Z.shiftr c 2) 0xC0)); u8 (Z.land c 0xFF)].

(** [pSrc] is a zero-terminated string. *)
Fixpoint write_unicode (room : nat) (pSrc : list Z) : outcome (list Z) :=
  match room with
  | O => Done []
  | S room' =>
      c ← checked (head pSrc);
      if c =? 0 then Done (replicate (2 * room) 0)
      else rest ← write_unicode room' (tail pSrc); Done (c :: 0 :: rest)
  end.
Definition Imgtool_WriteASCIIToUNICODE16LE (pSrc : list Z) : outcome (list Z) := write_unicode GPT_PARTITION_NAME_CHAR_COUNT pSrc.

(** ** The host file and the tool's globals *)

Record file := mkFile { fsize : Z; fbytes : gmap Z Z; fpos : Z }.
(** [pDisk] and [pPartitionEntryArray] tell whether the global is not NULL; [calls] counts
    the library calls made. *)
Record Img := mkImg { pDisk : bool; pPartitionEntryArray : bool; disk : file; calls : nat }.
Definition with_disk (s : Img) (f : file) : Img := mkImg (pDisk s) (pPartitionEntryArray s) f (S (calls s)).

Section Library.
Context (fails : nat -> option nat) (uuid_generate : nat -> list Z) (TableCRC32 : list Z).

Definition called (s : Img) : bool := match fails (calls s) with None => true | Some _ => false end.
(** fopen with mode "wb" *)
Definition fopen_wb (s : Img) : Img :=
  if called s then mkImg true (pPartitionEntryArray s) (mkFile 0 ∅ 0) (S (calls s)) else mkImg false (pPartitionEntryArray s) (disk s) (S (calls s)).
(** ftruncate of the new, empty file *)
Definition ftruncate (s : Img) (n : Z) : Img * bool :=
  let f := disk s in
  if called s && (n <? 2 ^ 63) then (with_disk s (mkFile n (filter (fun p => p.1 < n) (fbytes f)) (fpos f)), true) else (with_disk s f, false).
Definition fseek_set (s : Img) (off : Z) : Img * bool :=
  let f := disk s in
  if called s && (off <? 2 ^ 63) then (with_disk s (mkFile (fsize f) (fbytes f) off), true) else (with_disk s f, false).
(** [true] if all items were written *)
Definition fwrite (s : Img) (data : list Z) : Img * bool :=
  let f := disk s in
  let n := match fails (calls s) with None => length data | Some k => Nat.min k (length data) end in
  let stop := fpos f + Z.of_nat n in
  (with_disk s (mkFile (Z.max (fsize f) stop) (write_at (fbytes f) (fpos f) (take n data)) stop), (n =? length data)%nat).
Definition malloc (s : Img) : Img := mkImg (pDisk s) (called s) (disk s) (S (calls s)).

Definition MakeStd_AbortSafely (s : Img) : Img * Z := (mkImg false false (disk s) (calls s), ROUTINE_FAIL).

(** ** MakeStandard.c *)

Definition protective_entry (blockCount : Z) : MBR_PARTITION_ENTRY :=
  let Size := u32 (blockCount - 1) in
  mkMbrEntry MBR_BOOT_INDICATOR_NO (Imgtool_LBAToCHS 1) MBR_SYSTEM_ID_GPT_PROTECTIVE (Imgtool_LBAToCHS Size) 1 Size.
Definition table_blocks (iBlockSize : Z) : Z :=
  u64 (NO_PARTITIONS_TO_ALLOCATE * sizeof_GPT_PARTITION_ENTRY + iBlockSize - 1) / u64 iBlockSize.
Definition first_header (blockCount iBlockSize : Z) : GPT_PARTITION_HEADER :=
  let T := table_blocks iBlockSize in
  let AlternateLBA := u64 (blockCount - 1) in
  mkGptHeader GPT_PARTITION_HEADER_SIGNATURE GPT_INITIAL_REVISION sizeof_GPT_PARTITION_HEADER 0 (replicate 4 0) 1 AlternateLBA
    (u64 (2 + T)) (u64 (AlternateLBA - 1 - T)) (uuid_generate 0) 2 NO_PARTITIONS_TO_ALLOCATE sizeof_GPT_PARTITION_ENTRY 0.
(** The division is the signed one of C. *)
Definition efi_entry (iBlockSize : Z) : outcome GPT_PARTITION_ENTRY :=
  let StartLBA := u64 (Z.quot EFI_SYSTEM_PART_ADDRESS iBlockSize) in
  name ← Imgtool_WriteASCIIToUNICODE16LE (cstr "EFI System Partition");
  Done (mkGptEntry GPT_EFI_SYSTEM_PARTITION_UUID (uuid_generate 1) StartLBA
          (u64 (StartLBA + Z.quot (EFI_SYSTEM_PART_SIZE_MIB * 1024 * 1024) iBlockSize - 1)) GPT_ATTRIBUTE_REQUIRED name).
Definition os_entry (efi : GPT_PARTITION_ENTRY) (h : GPT_PARTITION_HEADER) : outcome GPT_PARTITION_ENTRY :=
  name ← Imgtool_WriteASCIIToUNICODE16LE (cstr "Ych Operating System");
  Done (mkGptEntry GPT_MICROSOFT_BASIC_DATA (uuid_generate 2) (u64 (EndLBA efi + 1)) (LastUsableLBA h) GPT_ATTRIBUTE_REQUIRED name).
(** The partition entry array: the two entries and zeros. *)
Definition entry_array (efi os : GPT_PARTITION_ENTRY) : list Z :=
  entry_bytes efi ++ entry_bytes os ++
  replicate (Z.to_nat (NO_PARTITIONS_TO_ALLOCATE * sizeof_GPT_PARTITION_ENTRY - sizeof_GPT_PARTITION_ENTRY * STD_LAYOUT_PARTITION_COUNT)) 0.

Definition seek_write (s : Img) (off : Z) (data : list Z) : Img * bool :=
  let '(s, ok) := fseek_set s off in
  if negb ok then (s, false) else fwrite s data.

(** The protective MBR. *)
Definition write_mbr (s : Img) (blockCount : Z) : Img * bool :=
  let '(s, ok) := seek_write s MBR_PARTITION_TABLE_OFFSET (mbr_bytes (protective_entry blockCount)) in
  if negb ok then (s, false) else seek_write s MBR_SIGNATURE_OFFSET (le_bytes 2 MBR_SIGNATURE).

(** The headers and tables, in the order in which they are written; a failure to write the
    primary table is only reported. *)
Definition write_gpt (s : Img) (iBlockSize : Z) (header alternate : GPT_PARTITION_HEADER) (array : list Z) : Img * bool :=
  let '(s, ok) := seek_write s (u64 (SelfLBA header * iBlockSize)) (header_bytes header) in
  if negb ok then (s, false)
  else
    let '(s, ok) := seek_write s (u64 (SelfLBA alternate * iBlockSize)) (header_bytes alternate) in
    if negb ok then (s, false)
    else
      let entries := take (Z.to_nat (sizeof_GPT_PARTITION_ENTRY * STD_LAYOUT_PARTITION_COUNT)) array in
      let '(s, ok) := fseek_set s (u64 (PartitionTableLBA header * iBlockSize)) in
      if negb ok then (s, false)
      else
        let '(s, _) := fwrite s entries in
        seek_write s (u64 (PartitionTableLBA alternate * iBlockSize)) entries.

Definition Routine_MakeStandard (s : Img) (iDiskSize iBlockSize : Z) : outcome (Img * Z) :=
  if iDiskSize <? MINIMUM_DISK_SIZE_MIB then Done (s, ROUTINE_FAIL)
  else if (iBlockSize >? 0) && negb (Z.rem iBlockSize 512 =? 0) then Done (s, ROUTINE_FAIL)
  else
    let rawDiskSize := u64 (u64 iDiskSize * 1024 * 1024) in
    blockCount ← (if u64 iBlockSize =? 0 then Fault else Done (u64 (rawDiskSize + u64 iBlockSize - 1) / u64 iBlockSize));
    let s := fopen_wb s in
    if negb (pDisk s) then Done (s, ROUTINE_FAIL)
    else
      let '(s, ok) := ftruncate s (u64 (blockCount * iBlockSize)) in
      if negb ok then Done (MakeStd_AbortSafely s)
      else
        let '(s, ok) := write_mbr s blockCount in
        if negb ok then Done (MakeStd_AbortSafely s)
        else
          let header := first_header blockCount iBlockSize in
          let s := malloc s in
          if negb (pPartitionEntryArray s) then Done (MakeStd_AbortSafely s)
          else
            efi ← efi_entry iBlockSize;
            os ← os_entry efi header;
            let array := entry_array efi os in
            tsum ← ChecksumCRC32 TableCRC32 array;
            let header := with_table_checksum header tsum in
            hsum ← ChecksumCRC32 TableCRC32 (header_bytes header);
            let header := with_checksum header hsum in
            let alternate := mirrored header in
            asum ← ChecksumCRC32 TableCRC32 (header_bytes alternate);
            let alternate := with_checksum alternate asum in
            let '(s, ok) := write_gpt s iBlockSize header alternate array in
            if negb ok then Done (MakeStd_AbortSafely s)
            else Done ((MakeStd_AbortSafely s).1, ROUTINE_OK).
End Library.

(** ReadMBR.c and ReadGPT.c *)
Definition Routine_ReadMBR : Z := ROUTINE_NOT_IMPLEMENTED.
Definition Routine_ReadGPT : Z := ROUTINE_NOT_IMPLEMENTED.
