(* ===== verification/GptProps.v ===== *)
(** * The disk image tool: what it leaves on the disk *)
From Stdlib Require Import ZArith Lia Ascii String.
From stdpp Require Import base numbers list gmap.
From S2P Require Import Prelude Bytes ImgCrc Gpt.
Open Scope Z_scope.

(** ** Decoding *)

Definition decode_header (l : list Z) : GPT_PARTITION_HEADER :=
  mkGptHeader (slice l 0 8) (num l 8 4) (num l 12 4) (num l 16 4) (slice l 20 4) (num l 24 8) (num l 32 8) (num l 40 8) (num l 48 8)
    (slice l 56 16) (num l 72 8) (num l 80 4) (num l 84 4) (num l 88 4).
Definition decode_entry (l : list Z) : GPT_PARTITION_ENTRY :=
  mkGptEntry (slice l 0 16) (slice l 16 16) (num l 32 8) (num l 40 8) (num l 48 8) (slice l 56 72).
Definition decode_mbr (l : list Z) : MBR_PARTITION_ENTRY :=
  mkMbrEntry (num l 0 1) (slice l 1 3) (num l 4 1) (slice l 5 3) (num l 8 4) (num l 12 4).

Record header_wf (h : GPT_PARTITION_HEADER) : Prop := {
  hw_sig : length (Signature h) = 8%nat; hw_res : length (hReserved h) = 4%nat; hw_guid : length (DiskGUID h) = 16%nat;
  hw_32 : Forall (fun x => 0 <= x < 2 ^ 32) [Revision h; HeaderSize h; Checksum h; NoPartitionEntries h; BytesPerPartitionEntry h; PartitionTableChecksum h];
  hw_64 : Forall (fun x => 0 <= x < 2 ^ 64) [SelfLBA h; AlternateLBA h; FirstUsableLBA h; LastUsableLBA h; PartitionTableLBA h];
  hw_bytes : Forall byte (Signature h ++ hReserved h ++ DiskGUID h)
}.
Record entry_wf (e : GPT_PARTITION_ENTRY) : Prop := {
  ew_type : length (PartitionTypeGUID e) = 16%nat; ew_guid : length (PartitionGUID e) = 16%nat; ew_name : length (PartitionName e) = 72%nat;
  ew_64 : Forall (fun x => 0 <= x < 2 ^ 64) [StartLBA e; EndLBA e; Attributes e];
  ew_bytes : Forall byte (PartitionTypeGUID e ++ PartitionGUID e ++ PartitionName e)
}.

(** A header or entry is read back as it was written. *)
Lemma decode_header_bytes h : header_wf h -> decode_header (header_bytes h) = h.
Proof.
  intros [H1 H2 H3 H4 H5 _]. destruct h as [sg rv hs ck rs sl al fu lu gd pl np bp pc]. cbn in H1, H2, H3, H4, H5. split_forall.
  unfold decode_header, header_bytes, num. cbn [Signature Revision HeaderSize Checksum hReserved SelfLBA AlternateLBA FirstUsableLBA LastUsableLBA
    DiskGUID PartitionTableLBA NoPartitionEntries BytesPerPartitionEntry PartitionTableChecksum].
  f_equal; find_field.
Qed.
Lemma decode_entry_bytes e : entry_wf e -> decode_entry (entry_bytes e) = e.
Proof.
  intros [H1 H2 H3 H4 _]. destruct e as [ty gd st en at_ nm]. cbn in H1, H2, H3, H4. split_forall.
  unfold decode_entry, entry_bytes, num. cbn [PartitionTypeGUID PartitionGUID StartLBA EndLBA Attributes PartitionName]. f_equal; find_field.
Qed.
Lemma decode_mbr_bytes e : length (StartCHS e) = 3%nat -> length (EndCHS e) = 3%nat -> 0 <= BootIndicator e < 256 -> 0 <= SystemID e < 256 ->
  0 <= mbrStartLBA e < 2 ^ 32 -> 0 <= mbrSize e < 2 ^ 32 -> decode_mbr (mbr_bytes e) = e.
Proof.
  destruct e as [bi sc si ec st sz]. cbn [StartCHS EndCHS BootIndicator SystemID mbrStartLBA mbrSize]. intros H1 H2 H3 H4 H5 H6.
  unfold decode_mbr, mbr_bytes, num. cbn [StartCHS EndCHS BootIndicator SystemID mbrStartLBA mbrSize]. f_equal; find_field.
Qed.

Lemma header_length h : header_wf h -> length (header_bytes h) = 92%nat.
Proof. intros [H1 H2 H3 _ _ _]. unfold header_bytes. rewrite !length_app, !le_bytes_length. lia. Qed.
Lemma entry_length e : entry_wf e -> length (entry_bytes e) = 128%nat.
Proof. intros [H1 H2 H3 _ _]. unfold entry_bytes. rewrite !length_app, !le_bytes_length. lia. Qed.
Lemma header_all_bytes h : header_wf h -> Forall byte (header_bytes h).
Proof. intros [_ _ _ _ _ H]. rewrite !Forall_app in H. unfold header_bytes. rewrite !Forall_app. split_and!; try apply le_bytes_byte; tauto. Qed.
Lemma entry_all_bytes e : entry_wf e -> Forall byte (entry_bytes e).
Proof. intros [_ _ _ _ H]. rewrite !Forall_app in H. unfold entry_bytes. rewrite !Forall_app. split_and!; try apply le_bytes_byte; tauto. Qed.

(** ** A valid disk *)

(** What firmware checks of the header at block [self] and of its table. *)
Record checked_header (m : gmap Z Z) (blk self : Z) (h : GPT_PARTITION_HEADER) : Prop := {
  ch_read : decode_header (rd m (self * blk) 92) = h;
  ch_sig : Signature h = txt "EFI PART" /\ Revision h = 0x10000 /\ HeaderSize h = 92 /\ SelfLBA h = self;
  ch_crc : let raw := rd m (self * blk) 92 in crc32 (take 16 raw ++ replicate 4 0 ++ drop 20 raw) = Checksum h;
  ch_entries : NoPartitionEntries h = 128 /\ BytesPerPartitionEntry h = 128;
  ch_table : crc32 (rd m (PartitionTableLBA h * blk) (128 * 128)) = PartitionTableChecksum h
}.
(** A disk of blocks of [blk] bytes with headers [h] and [b] and two partitions. *)
Record gpt_disk (f : file) (blk : Z) (h b : GPT_PARTITION_HEADER) (p1 p2 : GPT_PARTITION_ENTRY) : Prop := {
  gd_size : fsize f = (AlternateLBA h + 1) * blk;
  gd_primary : checked_header (fbytes f) blk 1 h;
  gd_backup : checked_header (fbytes f) blk (AlternateLBA h) b;
  gd_mirror : AlternateLBA b = 1 /\ FirstUsableLBA b = FirstUsableLBA h /\ LastUsableLBA b = LastUsableLBA h /\ DiskGUID b = DiskGUID h;
  gd_areas : PartitionTableLBA h = 2 /\ 2 * blk + 128 * 128 <= FirstUsableLBA h * blk /\ FirstUsableLBA h <= LastUsableLBA h /\
    LastUsableLBA h < PartitionTableLBA b /\ PartitionTableLBA b * blk + 128 * 128 <= AlternateLBA h * blk;
  gd_entries : decode_entry (rd (fbytes f) (2 * blk) 128) = p1 /\ decode_entry (rd (fbytes f) (2 * blk + 128) 128) = p2 /\
    rd (fbytes f) (2 * blk + 256) (126 * 128) = replicate (Z.to_nat (126 * 128)) 0;
  gd_order : FirstUsableLBA h <= StartLBA p1 <= EndLBA p1 /\ EndLBA p1 < StartLBA p2 <= EndLBA p2 /\ EndLBA p2 <= LastUsableLBA h;
  gd_mbr : rd (fbytes f) 510 2 = [0x55; 0xAA] /\ let e := decode_mbr (rd (fbytes f) 446 16) in
    SystemID e = 0xEE /\ mbrStartLBA e = 1 /\ mbrSize e = AlternateLBA h
}.

Lemma header_split h : header_wf h -> exists P S, length P = 16%nat /\ forall c, header_bytes (with_checksum h c) = P ++ le_bytes 4 c ++ S.
Proof.
  intros [H1 _ _ _ _ _]. exists (Signature h ++ le_bytes 4 (Revision h) ++ le_bytes 4 (HeaderSize h)). eexists. split.
  - rewrite !length_app, !le_bytes_length. lia.
  - intros c. unfold header_bytes, with_checksum. cbn [Signature Revision HeaderSize Checksum hReserved SelfLBA AlternateLBA FirstUsableLBA LastUsableLBA
      DiskGUID PartitionTableLBA NoPartitionEntries BytesPerPartitionEntry PartitionTableChecksum]. rewrite <- !app_assoc. reflexivity.
Qed.
Lemma header_without_checksum h c : header_wf h -> let raw := header_bytes (with_checksum h c) in
  take 16 raw ++ replicate 4 0 ++ drop 20 raw = header_bytes (with_checksum h 0).
Proof.
  intros H. destruct (header_split h H) as (P & S & HP & E). cbv zeta. rewrite !E. rewrite take_app_le, take_ge by lia. f_equal.
  rewrite drop_app_ge, HP by lia. cbn [Nat.sub]. rewrite drop_app_ge, le_bytes_length by (rewrite le_bytes_length; lia). by rewrite drop_0.
Qed.
Lemma with_checksum_wf h c : header_wf h -> 0 <= c < 2 ^ 32 -> header_wf (with_checksum h c).
Proof. intros [H1 H2 H3 H4 H5 H6] Hc. split; try done. cbn. split_forall. repeat (apply Forall_cons; split; [done|]). by apply Forall_nil. Qed.

(** A header with its checksum, written at its place, passes the checks. *)
Lemma header_checks m blk h arr : header_wf h -> Checksum h = 0 ->
  Signature h = txt "EFI PART" /\ Revision h = 0x10000 /\ HeaderSize h = 92 -> NoPartitionEntries h = 128 /\ BytesPerPartitionEntry h = 128 ->
  PartitionTableChecksum h = crc32 arr ->
  rd m (SelfLBA h * blk) 92 = header_bytes (with_checksum h (crc32 (header_bytes h))) ->
  rd m (PartitionTableLBA h * blk) (128 * 128) = arr ->
  checked_header m blk (SelfLBA h) (with_checksum h (crc32 (header_bytes h))).
Proof.
  intros Hwf H0 (S1 & S2 & S3) Hn Ht Hr Ha. assert (with_checksum h 0 = h) as E0 by (destruct h; cbn in *; by subst).
  set (c := crc32 (header_bytes h)) in *. assert (0 <= c < 2 ^ 32) as Hc by apply crc32_word, (header_all_bytes h), Hwf.
  split; cbv zeta.
  - rewrite Hr. by apply decode_header_bytes, with_checksum_wf.
  - split; [exact S1|]. split; [exact S2|]. split; [exact S3|reflexivity].
  - rewrite Hr, header_without_checksum, E0 by done. reflexivity.
  - exact Hn.
  - change (PartitionTableLBA (with_checksum h c)) with (PartitionTableLBA h). rewrite Ha, <- Ht. reflexivity.
Qed.

(** ** The writes *)

Definition put (s : Img) (off : Z) (data : list Z) : Img :=
  mkImg (pDisk s) (pPartitionEntryArray s)
    (mkFile (Z.max (fsize (disk s)) (off + Z.of_nat (length data))) (write_at (fbytes (disk s)) off data) (off + Z.of_nat (length data))) (S (S (calls s))).

Section NoFailure.
Context (fails : nat -> option nat) (Hok : forall n, fails n = None).

Lemma seek_ok s off : off < 2 ^ 63 -> fseek_set fails s off = (with_disk s (mkFile (fsize (disk s)) (fbytes (disk s)) off), true).
Proof. intros H. unfold fseek_set, called. by rewrite Hok, (proj2 (Z.ltb_lt _ _)) by done. Qed.
Lemma fwrite_ok s data :
  fwrite fails s data = (with_disk s (mkFile (Z.max (fsize (disk s)) (fpos (disk s) + Z.of_nat (length data))) (write_at (fbytes (disk s)) (fpos (disk s)) data)
    (fpos (disk s) + Z.of_nat (length data))), true).
Proof. unfold fwrite. rewrite Hok, take_ge by lia. by rewrite Nat.eqb_refl. Qed.
Lemma seek_write_ok s off data : off < 2 ^ 63 -> seek_write fails s off data = (put s off data, true).
Proof. intros H. unfold seek_write. rewrite seek_ok by done. cbn [negb]. rewrite fwrite_ok. reflexivity. Qed.

Lemma write_mbr_ok s blocks :
  write_mbr fails s blocks = (put (put s 446 (mbr_bytes (protective_entry blocks))) 510 [0x55; 0xAA], true).
Proof. unfold write_mbr. by rewrite seek_write_ok, seek_write_ok by done. Qed.
Lemma write_gpt_ok s blk h b arr :
  (forall l, l = SelfLBA h \/ l = SelfLBA b \/ l = PartitionTableLBA h \/ l = PartitionTableLBA b -> 0 <= l * blk < 2 ^ 63) ->
  let entries := take (Z.to_nat 256) arr in
  write_gpt fails s blk h b arr =
    (put (put (put (put s (SelfLBA h * blk) (header_bytes h)) (SelfLBA b * blk) (header_bytes b)) (PartitionTableLBA h * blk) entries)
       (PartitionTableLBA b * blk) entries, true).
Proof.
  intros H. cbv zeta. unfold write_gpt. change (sizeof_GPT_PARTITION_ENTRY * STD_LAYOUT_PARTITION_COUNT) with 256.
  rewrite !u64_small by (pose proof (H (SelfLBA h)); pose proof (H (SelfLBA b)); pose proof (H (PartitionTableLBA h)); pose proof (H (PartitionTableLBA b)); lia).
  rewrite seek_write_ok by (apply H; tauto). cbn [negb]. rewrite seek_write_ok by (apply H; tauto). cbn [negb].
  rewrite seek_ok by (apply H; tauto). cbn [negb]. rewrite fwrite_ok. rewrite seek_write_ok by (apply H; tauto). reflexivity.
Qed.
End NoFailure.

(** ** The standard layout *)

Definition unicode (s : string) : list Z := (txt s ≫= (fun c => [c; 0])) ++ replicate (72 - 2 * length (txt s)) 0.

(** The sizes for which the layout fits: EFI needs room for the tables in the
    first MiB, and the protective MBR counts at most 2^32 blocks (2 TiB of 512-byte
    ones). *)
Definition std_size (iDiskSize iBlockSize : Z) : Prop :=
  128 <= iDiskSize < 2 ^ 31 /\ 0 < iBlockSize /\ iBlockSize mod 512 = 0 /\ 3 * iBlockSize <= 2 ^ 20 /\ iDiskSize * 2 ^ 20 <= 2 ^ 32 * iBlockSize.
Definition std_blocks (n blk : Z) : Z := (n * 2 ^ 20 + blk - 1) / blk.
Definition std_table (blk : Z) : Z := (16384 + blk - 1) / blk.

Record std_facts (n blk B T : Z) : Prop := {
  sf_blk : 512 <= blk <= 349525; sf_B : n * 2 ^ 20 <= B * blk < n * 2 ^ 20 + blk; sf_T : 16384 <= T * blk < 16384 + blk;
  sf_n : 128 * 2 ^ 20 <= n * 2 ^ 20 < 2 ^ 51; sf_Tb : 1 <= T <= 32; sf_Bb : 384 <= B <= 2 ^ 32;
  sf_start : 2 + T <= 2 ^ 20 / blk; sf_len : 1 <= 100 * 2 ^ 20 / blk; sf_end : 2 ^ 20 / blk + 100 * 2 ^ 20 / blk <= B - 2 - T
}.
Lemma std_layout n blk : std_size n blk -> std_facts n blk (std_blocks n blk) (std_table blk).
Proof.
  intros (Hn & H0 & Hm & H3 & H4). assert (512 <= blk) as Hb by zlia. assert (blk <= 349525) as Hb2 by lia.
  unfold std_blocks, std_table. set (B := (n * 2 ^ 20 + blk - 1) / blk). set (T := (16384 + blk - 1) / blk).
  assert (n * 2 ^ 20 <= B * blk < n * 2 ^ 20 + blk) as HB.
  { pose proof (Z.div_mod (n * 2 ^ 20 + blk - 1) blk ltac:(lia)) as E. pose proof (Z.mod_pos_bound (n * 2 ^ 20 + blk - 1) blk ltac:(lia)). fold B in E. lia. }
  assert (16384 <= T * blk < 16384 + blk) as HT.
  { pose proof (Z.div_mod (16384 + blk - 1) blk ltac:(lia)) as E. pose proof (Z.mod_pos_bound (16384 + blk - 1) blk ltac:(lia)). fold T in E. lia. }
  assert (1 <= T <= 32) as HTb by nia. assert (384 <= B <= 2 ^ 32) as HBb by nia.
  split; try done; try lia.
  - apply Z.div_le_lower_bound; [lia|]. destruct (Z.le_gt_cases 16384 blk); [|nia]. assert (T = 1) by nia. nia.
  - apply Z.div_le_lower_bound; lia.
  - pose proof (Z.mul_div_le (2 ^ 20) blk ltac:(lia)). pose proof (Z.mul_div_le (100 * 2 ^ 20) blk ltac:(lia)).
    generalize dependent (2 ^ 20 / blk). generalize dependent (100 * 2 ^ 20 / blk). intros x Hx y Hy. nia.
Qed.

Section Layout.
Context (uuid : nat -> list Z) (Huuid : forall k, length (uuid k) = 16%nat /\ Forall byte (uuid k)).
Context (n blk : Z) (Hsz : std_size n blk).
Let B := std_blocks n blk.
Let T := std_table blk.

Definition std_efi : GPT_PARTITION_ENTRY :=
  mkGptEntry GPT_EFI_SYSTEM_PARTITION_UUID (uuid 1) (2 ^ 20 / blk) (2 ^ 20 / blk + 100 * 2 ^ 20 / blk - 1) 1 (unicode "EFI System Partition").
Definition std_os : GPT_PARTITION_ENTRY :=
  mkGptEntry GPT_MICROSOFT_BASIC_DATA (uuid 2) (2 ^ 20 / blk + 100 * 2 ^ 20 / blk) (B - 2 - T) 1 (unicode "Ych Operating System").
Definition std_array : list Z := entry_array std_efi std_os.
Definition std_header : GPT_PARTITION_HEADER :=
  mkGptHeader (txt "EFI PART") 0x10000 92 0 (replicate 4 0) 1 (B - 1) (2 + T) (B - 2 - T) (uuid 0) 2 128 128 (crc32 std_array).
Definition std_primary : GPT_PARTITION_HEADER := with_checksum std_header (crc32 (header_bytes std_header)).
Definition std_alternate : GPT_PARTITION_HEADER :=
  mkGptHeader (txt "EFI PART") 0x10000 92 0 (replicate 4 0) (B - 1) 1 (2 + T) (B - 2 - T) (uuid 0) (B - 1 - T) 128 128 (crc32 std_array).
Definition std_backup : GPT_PARTITION_HEADER := with_checksum std_alternate (crc32 (header_bytes std_alternate)).

Lemma txt_bytes s : Forall byte (txt s).
Proof.
  apply Forall_forall. intros x (c & -> & _)%list_elem_of_fmap. unfold byte. pose proof (N_ascii_bounded c). lia.
Qed.
Lemma unicode_wf s : (length (txt s) <= 36)%nat -> length (unicode s) = 72%nat /\ Forall byte (unicode s).
Proof.
  intros H. unfold unicode. split.
  - rewrite length_app, length_replicate. assert (forall l : list Z, length (l ≫= (fun c => [c; 0])) = (2 * length l)%nat) as ->; [|lia].
    induction l as [|c l IH]; [done|]. rewrite bind_cons, length_app, IH. simpl. lia.
  - apply Forall_app. split; [|apply Forall_replicate; unfold byte; lia]. apply Forall_bind. eapply Forall_impl; [apply txt_bytes|].
    intros c Hc. repeat (apply Forall_cons; split; [unfold byte in *; lia|]). by apply Forall_nil.
Qed.

Lemma std_entries_wf : entry_wf std_efi /\ entry_wf std_os.
Proof.
  destruct (std_layout n blk Hsz) as [H1 H2 H3 H4 H5 H6 H7 H8 H9]. fold B T in H2, H3, H5, H6, H7, H9.
  assert (forall l, forallb (fun b => (0 <=? b) && (b <? 256)) l = true -> Forall byte l) as Hb.
  { intros l H. rewrite forallb_forall in H. apply Forall_forall. intros x Hx%list_elem_of_In. apply H in Hx. unfold byte. lia. }
  destruct (unicode_wf "EFI System Partition" ltac:(vm_compute; lia)) as [U1 U2]. destruct (unicode_wf "Ych Operating System" ltac:(vm_compute; lia)) as [V1 V2].
  split; split; cbn [PartitionTypeGUID PartitionGUID PartitionName StartLBA EndLBA Attributes std_efi std_os]; try done; try apply Huuid;
    try (rewrite !Forall_app; split_and!; [by apply Hb|apply Huuid|done]); repeat (apply Forall_cons; split; [lia|]); by apply Forall_nil.
Qed.
Lemma std_array_bytes : Forall byte std_array /\ length std_array = 16384%nat.
Proof.
  destruct std_entries_wf as [W1 W2]. unfold std_array, entry_array. split.
  - rewrite !Forall_app. split_and!; [by apply entry_all_bytes..|]. apply Forall_replicate. unfold byte. lia.
  - rewrite !length_app, !entry_length, length_replicate by done. reflexivity.
Qed.
Lemma std_headers_wf : header_wf std_header /\ header_wf std_alternate.
Proof.
  destruct (std_layout n blk Hsz) as [H1 H2 H3 H4 H5 H6 H7 H8 H9]. fold B T in H2, H3, H5, H6, H7, H9.
  destruct std_array_bytes as [Hb _]. pose proof (crc32_word std_array Hb) as Hc. unfold word32 in Hc.
  assert (Forall byte (txt "EFI PART" ++ replicate 4 0 ++ uuid 0)) as Hl.
  { rewrite !Forall_app. split_and!; [apply txt_bytes|apply Forall_replicate; unfold byte; lia|apply Huuid]. }
  split; split; cbn [Signature hReserved DiskGUID Revision HeaderSize Checksum NoPartitionEntries BytesPerPartitionEntry PartitionTableChecksum
    SelfLBA AlternateLBA FirstUsableLBA LastUsableLBA PartitionTableLBA std_header std_alternate]; try exact Hl; try reflexivity; try apply Huuid;
    repeat (apply Forall_cons; split; [lia|]); by apply Forall_nil.
Qed.

(** What the run writes, in order. *)
Definition std_entries : list Z := take 256 std_array.
Definition std_image : gmap Z Z :=
  write_at (write_at (write_at (write_at (write_at (write_at ∅ 446 (mbr_bytes (protective_entry B))) 510 [0x55; 0xAA])
    (1 * blk) (header_bytes std_primary)) ((B - 1) * blk) (header_bytes std_backup)) (2 * blk) std_entries) ((B - 1 - T) * blk) std_entries.

Lemma std_entries_eq : std_entries = entry_bytes (std_efi) ++ entry_bytes std_os.
Proof.
  destruct std_entries_wf as [W1 W2]. unfold std_entries, std_array, entry_array. rewrite app_assoc.
  apply take_app_length'. rewrite length_app, !entry_length by done. reflexivity.
Qed.
Lemma std_written_lengths : length std_entries = 256%nat /\ length (header_bytes std_primary) = 92%nat /\ length (header_bytes std_backup) = 92%nat /\
  length (mbr_bytes (protective_entry B)) = 16%nat.
Proof.
  destruct std_array_bytes as [Hb Hl], std_headers_wf as [W1 W2]. split_and!.
  - unfold std_entries. rewrite length_take, Hl. reflexivity.
  - apply header_length, with_checksum_wf; [done|]. apply crc32_word, header_all_bytes, W1.
  - apply header_length, with_checksum_wf; [done|]. apply crc32_word, header_all_bytes, W2.
  - unfold mbr_bytes, protective_entry, Imgtool_LBAToCHS. cbn [BootIndicator StartCHS SystemID EndCHS mbrStartLBA mbrSize].
    repeat case_match; rewrite !length_app, !le_bytes_length; reflexivity.
Qed.

Lemma efi_entry_std : efi_entry uuid blk = Done std_efi.
Proof.
  destruct (std_layout n blk Hsz) as [H1 H2 H3 H4 H5 H6 H7 H8 H9]. fold B T in H2, H3, H5, H6, H7, H9.
  unfold efi_entry, EFI_SYSTEM_PART_ADDRESS, EFI_SYSTEM_PART_SIZE_MIB. rewrite !Z.quot_div_nonneg by lia.
  change (1024 * 1024) with (2 ^ 20). change (100 * 1024 * 1024) with (100 * 2 ^ 20).
  rewrite (u64_small (2 ^ 20 / blk)), u64_small by lia.
  change (Imgtool_WriteASCIIToUNICODE16LE (cstr "EFI System Partition")) with (Done (unicode "EFI System Partition")). reflexivity.
Qed.
Lemma os_entry_std h : LastUsableLBA h = B - 2 - T -> os_entry uuid std_efi h = Done std_os.
Proof.
  intros Hh. destruct (std_layout n blk Hsz) as [H1 H2 H3 H4 H5 H6 H7 H8 H9]. fold B T in H2, H3, H5, H6, H7, H9.
  unfold os_entry. rewrite Hh. cbn [EndLBA std_efi]. rewrite u64_small by lia.
  change (Imgtool_WriteASCIIToUNICODE16LE (cstr "Ych Operating System")) with (Done (unicode "Ych Operating System")). rewrite bind_Done.
  unfold std_os. do 2 f_equal. lia.
Qed.

(** Without failures the routine writes exactly the standard image. *)
Lemma make_standard_run fails s : (forall k, fails k = None) ->
  exists s', Routine_MakeStandard fails uuid InitTableCRC32 s n blk = Done (s', ROUTINE_OK) /\
    pDisk s' = false /\ pPartitionEntryArray s' = false /\ fsize (disk s') = B * blk /\ fbytes (disk s') = std_image.
Proof.
  intros Hok. pose proof Hsz as (Hn & Hb0 & Hbm & _). destruct (std_layout n blk Hsz) as [H1 H2 H3 H4 H5 H6 H7 H8 H9]. fold B T in H2, H3, H5, H6, H7, H9.
  unfold Routine_MakeStandard, MINIMUM_DISK_SIZE_MIB. rewrite (proj2 (Z.ltb_ge n 128)) by lia.
  rewrite Z.rem_mod_nonneg, Hbm, andb_false_r by lia. rewrite (u64_small n), (u64_small blk) by lia.
  rewrite (u64_small (n * 1024 * 1024)), (proj2 (Z.eqb_neq blk 0)) by lia. rewrite (u64_small (_ + blk - 1)) by lia. rewrite bind_Done.
  replace ((n * 1024 * 1024 + blk - 1) / blk) with B by (unfold B, std_blocks; f_equal; lia).
  unfold fopen_wb, called. rewrite !Hok. cbn [pDisk negb]. unfold ftruncate, called. rewrite Hok. rewrite (u64_small (B * blk)) by lia.
  rewrite (proj2 (Z.ltb_lt (B * blk) (2 ^ 63))) by lia. cbn [andb negb]. rewrite write_mbr_ok by done. cbn [negb].
  unfold malloc, called. rewrite Hok. cbn [pPartitionEntryArray negb]. rewrite efi_entry_std, bind_Done.
  assert (table_blocks blk = T) as ET.
  { unfold table_blocks. change (NO_PARTITIONS_TO_ALLOCATE * sizeof_GPT_PARTITION_ENTRY) with 16384. by rewrite !u64_small by lia. }
  assert (first_header uuid B blk = mkGptHeader (txt "EFI PART") 0x10000 92 0 (replicate 4 0) 1 (B - 1) (2 + T) (B - 2 - T) (uuid 0) 2 128 128 0) as EH.
  { unfold first_header. rewrite ET. rewrite (u64_small (B - 1)), (u64_small (2 + T)), (u64_small (B - 1 - 1 - T)) by lia.
    replace (B - 1 - 1 - T) with (B - 2 - T) by lia. reflexivity. }
  rewrite EH. rewrite os_entry_std, bind_Done by reflexivity. fold std_array.
  destruct std_array_bytes as [Ha _], std_headers_wf as [W1 W2]. rewrite (proj1 (checksum_spec std_array Ha)), bind_Done.
  change (with_table_checksum (mkGptHeader _ _ _ _ _ _ _ _ _ _ _ _ _ 0) (crc32 std_array)) with std_header.
  rewrite (proj1 (checksum_spec _ (header_all_bytes _ W1))), bind_Done. fold std_primary.
  assert (mirrored std_primary = std_alternate) as ->.
  { unfold mirrored, std_primary, std_alternate, std_header, with_checksum. cbn [LastUsableLBA Signature Revision HeaderSize hReserved AlternateLBA SelfLBA
      FirstUsableLBA DiskGUID NoPartitionEntries BytesPerPartitionEntry PartitionTableChecksum]. rewrite u64_small by lia. f_equal. lia. }
  rewrite (proj1 (checksum_spec _ (header_all_bytes _ W2))), bind_Done. fold std_backup.
  rewrite write_gpt_ok; [|done|].
  2:{ intros l Hl. assert (0 <= l <= B - 1) by (cbn [SelfLBA PartitionTableLBA with_checksum std_primary std_header std_backup std_alternate] in Hl; lia). nia. }
  cbn [negb fst MakeStd_AbortSafely]. eexists. split; [reflexivity|]. split; [done|]. split; [done|].
  destruct std_written_lengths as (L1 & L2 & L3 & L4).
  cbn [disk put with_disk fsize fbytes fpos SelfLBA PartitionTableLBA with_checksum std_primary std_header std_backup std_alternate].
  fold std_entries. split.
  - change (take (Z.to_nat 256) std_array) with std_entries. fold std_primary std_backup. rewrite L1, L2, L3, L4. change (length [85; 170]) with 2%nat. nia.
  - rewrite map_filter_empty. reflexivity.
Qed.
End Layout.

(** ** The image *)

Section Image.
Context (uuid : nat -> list Z) (Huuid : forall k, length (uuid k) = 16%nat /\ Forall byte (uuid k)).
Context (n blk : Z) (Hsz : std_size n blk).
Let B := std_blocks n blk.
Let T := std_table blk.
Let image := std_image uuid n blk.

(** Reading one of the areas written. *)
Lemma image_reads :
  rd image 446 16 = mbr_bytes (protective_entry B) /\ rd image 510 2 = [0x55; 0xAA] /\
  rd image (1 * blk) 92 = header_bytes (std_primary uuid n blk) /\ rd image ((B - 1) * blk) 92 = header_bytes (std_backup uuid n blk) /\
  forall l, l = 2 \/ l = B - 1 - T -> rd image (l * blk) (128 * 128) = std_array uuid n blk.
Proof.
  destruct (std_layout n blk Hsz) as [H1 H2 H3 H4 H5 H6 H7 H8 H9]. fold B T in H2, H3, H5, H6, H7, H9.
  destruct (std_written_lengths uuid Huuid n blk Hsz) as (L1 & L2 & L3 & L4). fold B in L4.
  assert (length [0x55; 0xAA] = 2%nat) as L5 by done.
  unfold image, std_image. fold B T.
  assert (2 * blk + 16384 <= (B - 1 - T) * blk /\ (B - 1 - T) * blk + 16384 <= (B - 1) * blk) as [A1 A2] by nia.
  assert (2 * blk + 16384 <= (B - 1) * blk) as A3 by lia.
  split_and!.
  1-4: repeat (rewrite rd_other by lia).
  1-4: apply rd_written; lia.
  - intros l Hl. change (128 * 128) with (256 + 16128). rewrite rd_app by lia.
    assert (std_array uuid n blk = std_entries uuid n blk ++ replicate (Z.to_nat 16128) 0) as ->.
    { rewrite std_entries_eq by done. unfold std_array, entry_array. rewrite <- app_assoc. reflexivity. }
    assert (Z.of_nat (length (std_entries uuid n blk)) = 256) as L1' by lia. f_equal.
    + destruct Hl as [->| ->]; [rewrite rd_other by lia|]; by apply rd_written.
    + transitivity (rd ∅ (l * blk + 256) 16128); [|apply rd_empty]. destruct Hl as [->| ->]; repeat (rewrite rd_other by lia); done.
Qed.

Lemma image_entries : decode_entry (rd image (2 * blk) 128) = std_efi uuid blk /\ decode_entry (rd image (2 * blk + 128) 128) = std_os uuid n blk /\
  rd image (2 * blk + 256) (126 * 128) = replicate (Z.to_nat (126 * 128)) 0.
Proof.
  destruct image_reads as (_ & _ & _ & _ & Hr). specialize (Hr 2 (or_introl eq_refl)). destruct (std_entries_wf uuid Huuid n blk Hsz) as [W1 W2].
  pose proof (entry_length _ W1) as L1. pose proof (entry_length _ W2) as L2.
  change (128 * 128) with (128 + (128 + 126 * 128)) in Hr. rewrite !rd_app in Hr by lia. unfold std_array, entry_array in Hr.
  apply app_inj_1 in Hr as [E1 Hr]; [|by rewrite rd_length, L1]. apply app_inj_1 in Hr as [E2 E3]; [|by rewrite rd_length, L2].
  rewrite E1, E2, !decode_entry_bytes by done. split; [done|]. split; [done|]. rewrite <- Z.add_assoc in E3. exact E3.
Qed.

Lemma image_valid f : fsize f = B * blk -> fbytes f = image ->
  gpt_disk f blk (std_primary uuid n blk) (std_backup uuid n blk) (std_efi uuid blk) (std_os uuid n blk).
Proof.
  intros Hf Hb. destruct (std_layout n blk Hsz) as [H1 H2 H3 H4 H5 H6 H7 H8 H9]. fold B T in H2, H3, H5, H6, H7, H9.
  destruct image_reads as (R1 & R2 & R3 & R4 & R5). destruct (std_headers_wf uuid Huuid n blk Hsz) as [W1 W2].
  pose proof image_entries as He.
  split; rewrite ?Hb; cbn [std_primary std_backup std_header std_alternate with_checksum AlternateLBA FirstUsableLBA LastUsableLBA DiskGUID PartitionTableLBA
    StartLBA EndLBA std_efi std_os]; fold B T.
  - rewrite Hf. f_equal. lia.
  - apply (header_checks image blk (std_header uuid n blk) (std_array uuid n blk)); try done. apply R5. by left.
  - apply (header_checks image blk (std_alternate uuid n blk) (std_array uuid n blk)); try done. apply R5. by right.
  - done.
  - split; [done|]. split; [nia|]. split; [lia|]. split; [lia|nia].
  - exact He.
  - lia.
  - split; [done|]. rewrite R1. assert (forall x, length (Imgtool_LBAToCHS x) = 3%nat) as HC by (intros x; unfold Imgtool_LBAToCHS; by repeat case_match).
    pose proof (u32_small (B - 1) ltac:(lia)).
    rewrite decode_mbr_bytes; unfold protective_entry; cbn [StartCHS EndCHS BootIndicator SystemID mbrStartLBA mbrSize];
      rewrite ?HC; unfold MBR_BOOT_INDICATOR_NO, MBR_SYSTEM_ID_GPT_PROTECTIVE; done || lia.
Qed.
End Image.

(** ** Properties *)

(** C36: when no call of the C library fails, MakeStandard with a disk of at
    least 128 MiB and at most 2^32 blocks (2 TiB with the default block size) and a
    block size that is a multiple of 512 and at most a third of a MiB succeeds,
    closes the file and frees the table, and the file it leaves is a valid GPT disk as
    firmware checks it: both headers and both tables have correct CRC-32 sums and
    refer to each other, the tables, the headers and the partitions do not overlap
    and lie on the disk, the size in the protective MBR is that of the disk less one
    block, and the two partitions are the EFI one, at 1 MiB and 100 MiB long up to a
    block, and the system one from there to the last usable block.  Outside these
    sizes [large_blocks_overlap] and [protective_size_wraps] show a disk that is not
    valid. *)
Theorem make_standard_valid fails uuid s n blk
    (Hok : forall k, fails k = None) (Huuid : forall k, length (uuid k) = 16%nat /\ Forall byte (uuid k)) (Hsz : std_size n blk) :
  exists s' h b p1 p2, Routine_MakeStandard fails uuid InitTableCRC32 s n blk = Done (s', ROUTINE_OK) /\
    pDisk s' = false /\ pPartitionEntryArray s' = false /\ gpt_disk (disk s') blk h b p1 p2 /\
    n * 2 ^ 20 <= fsize (disk s') < n * 2 ^ 20 + blk /\ DiskGUID h = uuid 0%nat /\
    PartitionTypeGUID p1 = GPT_EFI_SYSTEM_PARTITION_UUID /\ PartitionGUID p1 = uuid 1%nat /\ PartitionName p1 = unicode "EFI System Partition" /\
    StartLBA p1 = 2 ^ 20 / blk /\ EndLBA p1 = StartLBA p1 + 100 * 2 ^ 20 / blk - 1 /\
    PartitionTypeGUID p2 = GPT_MICROSOFT_BASIC_DATA /\ PartitionGUID p2 = uuid 2%nat /\ PartitionName p2 = unicode "Ych Operating System" /\
    StartLBA p2 = EndLBA p1 + 1 /\ EndLBA p2 = LastUsableLBA h.
Proof.
  destruct (make_standard_run uuid Huuid n blk Hsz fails s Hok) as (s' & E & E1 & E2 & E3 & E4).
  exists s', (std_primary uuid n blk), (std_backup uuid n blk), (std_efi uuid blk), (std_os uuid n blk).
  destruct (std_layout n blk Hsz) as [_ H2 _ _ _ _ _ _ _]. split; [exact E|]. split; [done|]. split; [done|].
  split; [by apply image_valid|]. split; [by rewrite E3|]. cbn [std_primary std_header with_checksum std_efi std_os DiskGUID PartitionTypeGUID PartitionGUID
    PartitionName StartLBA EndLBA LastUsableLBA]. split_and!; done || lia.
Qed.

Lemma make_standard_valid_witness :
  let fails (_ : nat) : option nat := None in
  let uuid k := replicate 16 (Z.of_nat (Nat.min k 2)) in
  let s := mkImg false false (mkFile 0 ∅ 0) 0 in
  exists s' h b p1 p2, Routine_MakeStandard fails uuid InitTableCRC32 s 128 512 = Done (s', ROUTINE_OK) /\
    pDisk s' = false /\ pPartitionEntryArray s' = false /\ gpt_disk (disk s') 512 h b p1 p2 /\
    128 * 2 ^ 20 <= fsize (disk s') < 128 * 2 ^ 20 + 512 /\ DiskGUID h = uuid 0%nat /\
    PartitionTypeGUID p1 = GPT_EFI_SYSTEM_PARTITION_UUID /\ PartitionGUID p1 = uuid 1%nat /\ PartitionName p1 = unicode "EFI System Partition" /\
    StartLBA p1 = 2048 /\ EndLBA p1 = StartLBA p1 + 204800 - 1 /\
    PartitionTypeGUID p2 = GPT_MICROSOFT_BASIC_DATA /\ PartitionGUID p2 = uuid 2%nat /\ PartitionName p2 = unicode "Ych Operating System" /\
    StartLBA p2 = EndLBA p1 + 1 /\ EndLBA p2 = LastUsableLBA h.
Proof.
  apply (make_standard_valid (fun _ => None) (fun k => replicate 16 (Z.of_nat (Nat.min k 2))) (mkImg false false (mkFile 0 ∅ 0) 0) 128 512).
  - reflexivity.
  - intros k. split; [apply length_replicate|]. apply Forall_replicate. unfold byte. lia.
  - repeat split; lia.
Defined.

(** A return through MakeStd_AbortSafely. *)
Ltac closes := eexists _, _; split; [reflexivity|]; split; [first [by left|by right]|]; split; [done|]; split; [done|tauto].

(** whichever calls of the C library fail, and whatever the arguments but a block
    size of zero, MakeStandard returns one of its two codes with the file closed and the
    table freed; arguments it rejects leave the disk untouched. *)
Theorem make_standard_releases fails uuid s n blk :
  pDisk s = false -> pPartitionEntryArray s = false -> u64 blk <> 0 ->
  exists s' r, Routine_MakeStandard fails uuid InitTableCRC32 s n blk = Done (s', r) /\ (r = ROUTINE_OK \/ r = ROUTINE_FAIL) /\
    pDisk s' = false /\ pPartitionEntryArray s' = false /\ (n < 128 \/ (0 < blk /\ Z.rem blk 512 <> 0) -> s' = s /\ r = ROUTINE_FAIL).
Proof.
  intros Hd Hp Hb. unfold Routine_MakeStandard, MINIMUM_DISK_SIZE_MIB.
  destruct (Z.ltb_spec n 128); [exists s, ROUTINE_FAIL; split; [done|]; split; [by right|]; by auto|].
  destruct ((blk >? 0) && negb (Z.rem blk 512 =? 0)) eqn:Ea; [exists s, ROUTINE_FAIL; split; [done|]; split; [by right|]; by auto|].
  assert (~ (n < 128 \/ (0 < blk /\ Z.rem blk 512 <> 0))) as Hno.
  { intros [?|[? ?]]; [lia|]. rewrite Z.gtb_ltb, (proj2 (Z.ltb_lt _ _)) in Ea by done. by rewrite (proj2 (Z.eqb_neq _ _)) in Ea by done. }
  rewrite (proj2 (Z.eqb_neq _ _)) by done. rewrite bind_Done.
  destruct (pDisk (fopen_wb fails s)) eqn:Eo; cbn [negb].
  2:{ exists (fopen_wb fails s), ROUTINE_FAIL. split; [done|]. split; [by right|]. split; [done|]. split; [|tauto]. unfold fopen_wb. by case_match. }
  destruct (ftruncate _ _ _) as [s1 [|]]; cbn [negb]; [|by closes].
  destruct (write_mbr _ _ _) as [s2 [|]]; cbn [negb]; [|by closes].
  destruct (pPartitionEntryArray (malloc fails s2)); cbn [negb]; [|by closes].
  unfold efi_entry. change (Imgtool_WriteASCIIToUNICODE16LE (cstr "EFI System Partition")) with (Done (unicode "EFI System Partition")). rewrite !bind_Done.
  unfold os_entry. change (Imgtool_WriteASCIIToUNICODE16LE (cstr "Ych Operating System")) with (Done (unicode "Ych Operating System")). rewrite !bind_Done.
  do 3 (match goal with |- context [ChecksumCRC32 InitTableCRC32 ?a] => destruct (checksum_returns a) as [? ->] end; rewrite bind_Done).
  destruct (write_gpt _ _ _ _ _ _) as [s3 [|]]; cbn [negb]; by closes.
Qed.

Definition no_fail (_ : nat) : option nat := None.
Definition new_tool : Img := mkImg false false (mkFile 0 ∅ 0) 0.
Definition sample_uuid (k : nat) : list Z := replicate 16 (Z.of_nat (Nat.min k 2)).
Lemma sample_uuid_ok k : length (sample_uuid k) = 16%nat /\ Forall byte (sample_uuid k).
Proof. split; [apply length_replicate|]. apply Forall_replicate. unfold byte. lia. Qed.

Lemma make_standard_releases_witness :
  let fails k := if decide (k = 5)%nat then Some 3%nat else None in
  exists s' r, Routine_MakeStandard fails sample_uuid InitTableCRC32 new_tool 128 512 = Done (s', r) /\ (r = ROUTINE_OK \/ r = ROUTINE_FAIL) /\
    pDisk s' = false /\ pPartitionEntryArray s' = false /\ (128 < 128 \/ (0 < 512 /\ Z.rem 512 512 <> 0) -> s' = new_tool /\ r = ROUTINE_FAIL).
Proof.
  apply (make_standard_releases (fun k => if decide (k = 5)%nat then Some 3%nat else None) sample_uuid new_tool 128 512).
  - reflexivity.
  - reflexivity.
  - discriminate.
Defined.

(** ** Departures *)

Definition code (r : outcome (Img * Z)) : outcome Z := p ← r; Done p.2.
(** A block size of zero passes the check and is divided by. *)
Example block_size_zero : Routine_MakeStandard no_fail sample_uuid InitTableCRC32 new_tool 128 0 = Fault.
Proof. vm_compute. reflexivity. Qed.
(** A negative one passes too, and the tool fails after it has emptied the disk and
    written to it. *)
Example block_size_negative :
  (r ← Routine_MakeStandard no_fail sample_uuid InitTableCRC32 new_tool 128 (-512); Done (r.2, rd (fbytes (disk r.1)) 510 2)) = Done (ROUTINE_FAIL, [0x55; 0xAA]).
Proof. vm_compute. reflexivity. Qed.
(** If the primary table cannot be written the tool still reports success: its
    place is empty. *)
Example primary_table_lost :
  (r ← Routine_MakeStandard (fun k => if decide (k = 12)%nat then Some 0%nat else None) sample_uuid InitTableCRC32 new_tool 128 512;
   Done (r.2, rd (fbytes (disk r.1)) 1024 4)) = Done (ROUTINE_OK, [0; 0; 0; 0]).
Proof. vm_compute. reflexivity. Qed.
(** With blocks of 2 MiB the EFI partition starts at block 0, over the headers. *)
Example large_blocks_overlap :
  (r ← Routine_MakeStandard no_fail sample_uuid InitTableCRC32 new_tool 128 0x200000;
   Done (r.2, StartLBA (decode_entry (rd (fbytes (disk r.1)) 0x400000 128)))) = Done (ROUTINE_OK, 0).
Proof. vm_compute. reflexivity. Qed.
(** The size in the protective MBR wraps above 2 TiB: it neither is the size of
    the disk less one nor covers the partitions. *)
Example protective_size_wraps :
  let B := std_blocks (2 ^ 21 + 1) 512 in mbrSize (protective_entry B) = 2047 /\ B - 1 = 2 ^ 32 + 2047.
Proof. vm_compute. split; reflexivity. Qed.
