(* ===== verification/RoutineLib.v ===== *)
(** * Command routines of the host tools (Tools/RoutineLib/Source: RoutineLib.c, RoutineLib.h, Help.c)

    Handlers are named by values of a type [H], as the code names them by
    function pointers; [call] runs one on the world of the tool.  [alloc] answers the calls
    of malloc and realloc in order.  Of the messages only the help text is
    modelled. *)
From Stdlib Require Import ZArith Lia Ascii String.
From stdpp Require Import base numbers list strings pretty.
From S2P Require Import Prelude Gpt.
Open Scope Z_scope.

Definition EXIT_SUCCESS : Z := 0.
Definition EXIT_FAILURE : Z := 1.

(** ** strtol with base 10 *)

Definition is_space (c : ascii) : bool := let n := N_of_ascii c in ((n =? 32) || ((9 <=? n) && (n <=? 13)))%N.
Definition char_value (c : ascii) : option Z :=
  let n := Z.of_N (N_of_ascii c) in if (48 <=? n) && (n <=? 57) then Some (n - 48) else None.
Fixpoint skip_space (s : string) : string :=
  match s with String c s' => if is_space c then skip_space s' else s | EmptyString => s end.
Fixpoint digits (acc : Z) (s : string) : Z :=
  match s with String c s' => match char_value c with Some d => digits (acc * 10 + d) s' | None => acc end | EmptyString => acc end.
Definition LONG_MAX : Z := 2 ^ 63 - 1.
Definition LONG_MIN : Z := - 2 ^ 63.
(** [None]: no conversion, the end pointer is the string itself. *)
Definition strtol (s : string) : option Z :=
  let s := skip_space s in
  let '(neg, s) := match s with
                   | String "-" s' => (true, s')
                   | String "+" s' => (false, s')
                   | _ => (false, s)
                   end in
  match s with
  | String c _ => _ ← char_value c; Some (Z.max LONG_MIN (Z.min LONG_MAX (if neg : bool then - digits 0 s else digits 0 s)))
  | EmptyString => None
  end.
(** Conversion to int. *)
Definition to_int (x : Z) : Z := (x + 2 ^ 31) mod 2 ^ 32 - 2 ^ 31.

(** ** Parameters and routines *)

Inductive RoutineParameterType := ROUTINE_PARAMETER_INTEGER | ROUTINE_PARAMETER_STRING | ROUTINE_PARAMETER_BOOLEAN.
Record RoutineParameter := mkParam {
  pType : RoutineParameterType; pName : string; pDescription : string;
  Optional : bool; IntValue : Z; StrValue : option string; BitValue : bool
}.
Definition MakeIntegerRoutineParameter (name desc : string) : RoutineParameter := mkParam ROUTINE_PARAMETER_INTEGER name desc false 0 None false.
Definition MakeStringRoutineParameter (name desc : string) : RoutineParameter := mkParam ROUTINE_PARAMETER_STRING name desc false 0 None false.
Definition MakeBooleanRoutineParameter (name desc : string) : RoutineParameter := mkParam ROUTINE_PARAMETER_BOOLEAN name desc false 0 None false.
Definition MakeOptIntegerRoutineParameter (name desc : string) (d : Z) : RoutineParameter := mkParam ROUTINE_PARAMETER_INTEGER name desc true d None false.
Definition MakeOptStringRoutineParameter (name desc : string) (d : option string) : RoutineParameter := mkParam ROUTINE_PARAMETER_STRING name desc true 0 d false.
Definition MakeOptBooleanRoutineParameter (name desc : string) (d : bool) : RoutineParameter := mkParam ROUTINE_PARAMETER_BOOLEAN name desc true 0 None d.

Definition ParamTypeToStr (t : RoutineParameterType) : string :=
  match t with ROUTINE_PARAMETER_INTEGER => "Int" | ROUTINE_PARAMETER_STRING => "Str" | ROUTINE_PARAMETER_BOOLEAN => "Bool" end.

(** [Parameters] is the allocated array, [None] a null pointer. *)
Record Routine (H : Type) := mkRoutine {
  Name : string; Description : string; Usage : option string;
  Parameters : option (list RoutineParameter); NumberOfParameters : nat; MinParameters : nat; Handler : H
}.
Arguments mkRoutine {H} _ _ _ _ _ _ _.
Arguments Name {H} _. Arguments Description {H} _. Arguments Usage {H} _. Arguments Parameters {H} _.
Arguments NumberOfParameters {H} _. Arguments MinParameters {H} _. Arguments Handler {H} _.
Definition with_usage {H} (r : Routine H) (u : option string) (m : nat) : Routine H :=
  mkRoutine (Name r) (Description r) u (Parameters r) (NumberOfParameters r) m (Handler r).
Definition with_parameters {H} (r : Routine H) (p : option (list RoutineParameter)) (n : nat) : Routine H :=
  mkRoutine (Name r) (Description r) (Usage r) p n (MinParameters r) (Handler r).
Definition MakeRoutine {H} (handler : H) (name desc : string) : Routine H := mkRoutine name desc None None 0 0 handler.

(** The globals of the library; [allocs] counts the allocations. *)
Record Lib (H : Type) := mkLib { g_pRoutines : option (list (Routine H)); g_szRoutines : nat; allocs : nat }.
Arguments mkLib {H} _ _ _.
Arguments g_pRoutines {H} _. Arguments g_szRoutines {H} _. Arguments allocs {H} _.

Section Lib.
Context {H W : Type} (alloc : nat -> bool) (call : H -> Lib H -> Routine H -> W -> outcome (W * Z)).
Implicit Types (s : Lib H) (r : Routine H).

Definition allocate s : Lib H * bool := (mkLib (g_pRoutines s) (g_szRoutines s) (S (allocs s)), alloc (allocs s)).

(** The array has room for one more element when it is new or has been enlarged. *)
Definition append_at {A} (arr : option (list A)) (n : nat) (x : A) : outcome (list A) :=
  match arr with
  | None => if (n =? 0)%nat then Done [x] else Fault
  | Some l => Done (take n l ++ [x])
  end.
Definition AddRoutineParameter s r (param : RoutineParameter) : outcome (Lib H * Routine H * bool) :=
  let '(s, ok) := allocate s in
  if negb ok then Done (s, with_parameters r None (NumberOfParameters r), false)
  else
    l ← append_at (Parameters r) (NumberOfParameters r) param;
    Done (s, with_parameters r (Some l) (S (NumberOfParameters r)), true).

(** The text of one parameter; a null string is undefined behaviour of snprintf. *)
Definition usage_text (p : RoutineParameter) : outcome string :=
  let head := ("[" ++ pName p ++ ":" ++ ParamTypeToStr (pType p) ++ "](" ++ pDescription p ++ ")")%string in
  if Optional p then
    d ← (match pType p with
         | ROUTINE_PARAMETER_INTEGER => Done (pretty (IntValue p))
         | ROUTINE_PARAMETER_BOOLEAN => Done (if BitValue p then "True" else "False")%string
         | ROUTINE_PARAMETER_STRING => checked (StrValue p)
         end);
    Done (head ++ "<Optional,ByDefault=" ++ d ++ "> ")%string
  else Done (head ++ " ")%string.
Fixpoint finalize_loop (n : nat) s r (i : nat) (foundOpt populateUsage : bool) : outcome (Lib H * Routine H * bool) :=
  match n with
  | O => Done (s, r, true)
  | S n' =>
      l ← checked (Parameters r);
      param ← checked (l !! i);
      if foundOpt && negb (Optional param) then Done (s, r, false)
      else
        let r := if negb foundOpt && Optional param then with_usage r (Usage r) i else r in
        let foundOpt := foundOpt || Optional param in
        if populateUsage then
          t ← usage_text param;
          let '(s, ok) := allocate s in
          if negb ok then Fault
          else finalize_loop n' s (with_usage r (Some (default "" (Usage r) ++ t)%string) (MinParameters r)) (S i) foundOpt populateUsage
        else finalize_loop n' s r (S i) foundOpt populateUsage
  end.
Definition FinalizeRoutine s r (populateUsage : bool) : outcome (Lib H * Routine H * bool) :=
  '(s, r, ok) ← finalize_loop (NumberOfParameters r) s r 0 false populateUsage;
  if negb ok : bool then Done (s, r, false)
  else
    let r := if populateUsage && (NumberOfParameters r =? 0)%nat then with_usage r (Some "As Is (Provide No Parameters)"%string) (MinParameters r) else r in
    let r := if negb (NumberOfParameters r =? 0)%nat && (MinParameters r =? 0)%nat then with_usage r (Usage r) (NumberOfParameters r) else r in
    Done (s, r, true).

(** The copy in the array is finalised in place. *)
Definition RegisterRoutine s r : outcome (Lib H * bool) :=
  let '(s, ok) := allocate s in
  if negb ok then Done (mkLib None (g_szRoutines s) (allocs s), false)
  else
    l ← append_at (g_pRoutines s) (g_szRoutines s) r;
    '(s, r, ok) ← FinalizeRoutine s r (match Usage r with None => true | Some _ => false end);
    Done (mkLib (Some (<[g_szRoutines s := r]> l)) (S (g_szRoutines s)) (allocs s), ok).
Definition GetRegisteredRoutines s : option (list (Routine H)) * nat := (g_pRoutines s, g_szRoutines s).

(** The lines Help prints for each routine. *)
Fixpoint help_loop (n : nat) (l : list (Routine H)) (i : nat) : outcome (list string) :=
  match n with
  | O => Done []
  | S n' =>
      r ← checked (l !! i);
      u ← checked (Usage r);
      rest ← help_loop n' l (S i);
      Done ((Name r ++ ": " ++ Description r) :: ("  Usage: " ++ u) :: rest)%string
  end.
Definition RoutineLib_Routine_Help s : outcome (list string * Z) :=
  let '(p, n) := GetRegisteredRoutines s in
  lines ← help_loop n (default [] p) 0;
  Done (("List of Available Actions (" ++ pretty (N.of_nat n) ++ " in total):")%string :: lines, ROUTINE_OK).

(** ** Execution *)

(** One argument into its parameter; [None] is the exit for a bad integer. *)
Definition set_parameter (p : RoutineParameter) (arg : string) : option RoutineParameter :=
  match pType p with
  | ROUTINE_PARAMETER_INTEGER =>
      v ← strtol arg; Some (mkParam (pType p) (pName p) (pDescription p) (Optional p) (to_int v) (StrValue p) (BitValue p))
  | ROUTINE_PARAMETER_STRING => Some (mkParam (pType p) (pName p) (pDescription p) (Optional p) (IntValue p) (Some arg) (BitValue p))
  | ROUTINE_PARAMETER_BOOLEAN =>
      let b := if (arg =? "False")%string then false else if (arg =? "True")%string then true else BitValue p in
      Some (mkParam (pType p) (pName p) (pDescription p) (Optional p) (IntValue p) (StrValue p) b)
  end.
Fixpoint set_parameters (l : list RoutineParameter) (i : nat) (args : list string) : outcome (list RoutineParameter * bool) :=
  match args with
  | [] => Done (l, true)
  | a :: args =>
      p ← checked (l !! i);
      match set_parameter p a with
      | None => Done (l, false)
      | Some p => set_parameters (<[i := p]> l) (S i) args
      end
  end.

(** The loop over the registered routines. *)
Fixpoint execute_loop (n : nat) s (w : W) (i : nat) (name : string) (args : list string) : outcome (Lib H * W * Z) :=
  match n with
  | O => Done (s, w, EXIT_FAILURE)
  | S n' =>
      l ← checked (g_pRoutines s);
      r ← checked (l !! i);
      if negb (name =? Name r)%string then execute_loop n' s w (S i) name args
      else if (length args <? MinParameters r)%nat then Done (s, w, EXIT_FAILURE)
      else if (NumberOfParameters r <? length args)%nat then Done (s, w, EXIT_FAILURE)
      else
        '(ps, ok) ← (match args with [] => Done (default [] (Parameters r), true) | _ => ps ← checked (Parameters r); set_parameters ps 0 args end);
        let r := match Parameters r with Some _ => with_parameters r (Some ps) (NumberOfParameters r) | None => r end in
        let s := mkLib (Some (<[i := r]> l)) (g_szRoutines s) (allocs s) in
        if negb ok : bool then Done (s, w, EXIT_FAILURE)
        else
          '(w, result) ← call (Handler r) s r w;
          Done (s, w, if result =? ROUTINE_OK then EXIT_SUCCESS else EXIT_FAILURE)
  end.
Definition RoutineLibExecute s (w : W) (argv : list string) : outcome (Lib H * W * Z) :=
  match argv with
  | [] => Done (s, w, 0)
  | name :: args => execute_loop (g_szRoutines s) s w 0 name args
  end.
End Lib.
