(* ===== verification/RoutineLibProps.v ===== *)
(** * Command routines: registration and execution *)
From Stdlib Require Import ZArith Lia Ascii String.
From stdpp Require Import base numbers list strings pretty.
From S2P Require Import Prelude Gpt RoutineLib.
Open Scope Z_scope.

(** ** Decimal numbers *)

Lemma char_value_digit x : (x < 10)%N -> char_value (pretty_N_char x) = Some (Z.of_N x).
Proof.
  intros H. assert (x = 0 \/ x = 1 \/ x = 2 \/ x = 3 \/ x = 4 \/ x = 5 \/ x = 6 \/ x = 7 \/ x = 8 \/ x = 9)%N as E by lia.
  repeat (destruct E as [->|E]; [reflexivity|]). by rewrite E.
Qed.
(** Reading the digits of [x] first. *)
Lemma digits_go x : forall s, digits 0 (pretty_N_go x s) = digits (Z.of_N x) s.
Proof.
  induction (N.lt_wf_0 x) as [x _ IH]. intros s. destruct (decide (x = 0)%N) as [->|Hx]; [by rewrite pretty_N_go_0|].
  rewrite pretty_N_go_step by lia. rewrite IH by (apply N.div_lt; lia). cbn [digits].
  rewrite char_value_digit by (apply N.mod_lt; lia). f_equal. rewrite N2Z.inj_div, N2Z.inj_mod. zlia.
Qed.
Lemma go_head x s : (forall c t, s = String c t -> exists d, (d < 10)%N /\ c = pretty_N_char d) -> (x <> 0)%N \/ s <> EmptyString ->
  exists d t, pretty_N_go x s = String (pretty_N_char d) t /\ (d < 10)%N.
Proof.
  revert s. induction (N.lt_wf_0 x) as [x _ IH]. intros s Hs Hne. destruct (decide (x = 0)%N) as [->|Hx].
  - rewrite pretty_N_go_0. destruct s as [|c t]; [naive_solver|]. destruct (Hs c t eq_refl) as (d & Hd & ->). by eexists _, _.
  - rewrite pretty_N_go_step by lia. apply IH; [apply N.div_lt; lia| |by right].
    intros c t [= <- <-]. eexists. split; [|done]. apply N.mod_lt. lia.
Qed.
Lemma pretty_digits z : 0 <= z -> exists d t, pretty z = String (pretty_N_char d) t /\ (d < 10)%N /\ digits 0 (pretty z) = z.
Proof.
  intros Hz. destruct z as [|p|p]; [| |lia].
  - by exists 0%N, EmptyString.
  - change (pretty (Z.pos p)) with (pretty_N_go (N.pos p) ""). destruct (go_head (N.pos p) "") as (d & t & E & Hd); [done|by left|].
    exists d, t. rewrite E. split; [done|]. split; [done|]. by rewrite <- E, digits_go.
Qed.
Lemma strtol_pretty z : 0 <= z <= LONG_MAX -> strtol (pretty z) = Some z.
Proof.
  intros Hz. destruct (pretty_digits z) as (d & t & E & Hd & Ev); [lia|]. unfold strtol. rewrite E.
  assert (is_space (pretty_N_char d) = false /\ pretty_N_char d <> "-"%char /\ pretty_N_char d <> "+"%char) as (H1 & H2 & H3).
  { assert (d = 0 \/ d = 1 \/ d = 2 \/ d = 3 \/ d = 4 \/ d = 5 \/ d = 6 \/ d = 7 \/ d = 8 \/ d = 9)%N as Ed by lia.
    repeat (destruct Ed as [->|Ed]; [done|]). by rewrite Ed. }
  cbn [skip_space]. rewrite H1.
  assert ((match String (pretty_N_char d) t with String "-" s' => (true, s') | String "+" s' => (false, s') | _ => (false, String (pretty_N_char d) t) end) =
    (false, String (pretty_N_char d) t)) as ->.
  { destruct (pretty_N_char d) as [[] [] [] [] [] [] [] []]; done. }
  rewrite char_value_digit by done. rewrite <- E, Ev. cbn. f_equal. unfold LONG_MIN, LONG_MAX in *. lia.
Qed.

(** ** Finalising *)

(** The parameters that must be given come first. *)
Fixpoint required_first (ps : list RoutineParameter) : bool :=
  match ps with [] => true | p :: ps => if Optional p then forallb Optional ps else required_first ps end.
(** The parameters before the first optional one. *)
Fixpoint lead (ps : list RoutineParameter) : nat :=
  match ps with [] => 0 | p :: ps => if Optional p then 0 else S (lead ps) end.
Fixpoint usage_texts (ps : list RoutineParameter) : outcome string :=
  match ps with [] => Done ""%string | p :: ps => t ← usage_text p; u ← usage_texts ps; Done (t ++ u)%string end.

Lemma string_app_assoc (a b c : string) : ((a ++ b) ++ c = a ++ (b ++ c))%string.
Proof. induction a as [|x a IH]; [done|]. apply (f_equal (String x)), IH. Qed.
Lemma string_app_nil (a : string) : (a ++ "" = a)%string.
Proof. induction a as [|x a IH]; [done|]. apply (f_equal (String x)), IH. Qed.

Section Finalize.
Context {H : Type} (alloc : nat -> bool) (Hal : forall k, alloc k = true).
Implicit Types (s : Lib H) (r : Routine H).

(** The loop from the [i]-th parameter on. *)
Lemma finalize_loop_spec ps : forall n s r i (found : bool) (l : list RoutineParameter) t,
  Parameters r = Some l -> drop i l = ps -> length ps = n -> usage_texts ps = Done t ->
  let ok := if found then forallb Optional ps else required_first ps in
  exists k us m, finalize_loop alloc n s r i found true = Done (mkLib (g_pRoutines s) (g_szRoutines s) k, with_usage r us m, ok) /\
    (ok = true -> us = (match ps with [] => Usage r | _ => Some (default "" (Usage r) ++ t)%string end) /\
       m = if found || (lead ps =? length ps)%nat then MinParameters r else (i + lead ps)%nat).
Proof.
  induction ps as [|p ps IH]; intros n s r i found l t Hp Hd Hn Ht ok; (destruct n as [|n]; try done).
  { exists (allocs s), (Usage r), (MinParameters r). unfold ok. destruct s, r; cbn. split; [by destruct found|]. intros _. split; [done|]. by destruct found. }
  cbn [finalize_loop]. rewrite Hp. cbn [checked]. rewrite bind_Done.
  assert (l !! i = Some p) as El by (rewrite <- (Nat.add_0_r i), <- lookup_drop, Hd; done).
  rewrite El. cbn [checked]. rewrite bind_Done. cbn [usage_texts] in Ht. apply bind_Done_inv in Ht as (t1 & Et1 & Ht). apply bind_Done_inv in Ht as (t2 & Et2 & [= <-]).
  destruct (found && negb (Optional p)) eqn:Ef.
  { apply andb_true_iff in Ef as [-> Eo]. apply negb_true_iff in Eo. exists (allocs s), (Usage r), (MinParameters r). unfold ok. cbn [forallb]. rewrite Eo.
    split; [by destruct s, r|done]. }
  rewrite Et1, bind_Done. unfold allocate. rewrite Hal. cbn [negb].
  assert (drop (S i) l = ps) as Hd' by (by apply drop_S in El; rewrite El in Hd; injection Hd).
  set (r1 := if negb found && Optional p then with_usage r (Usage r) i else r).
  assert (Parameters r1 = Some l /\ Usage r1 = Usage r /\ MinParameters r1 = (if negb found && Optional p then i else MinParameters r)) as (E1 & E2 & E3)
    by (unfold r1; by destruct (negb found && Optional p)).
  destruct (IH n (mkLib (g_pRoutines s) (g_szRoutines s) (S (allocs s))) (with_usage r1 (Some (default "" (Usage r1) ++ t1)%string) (MinParameters r1))
    (S i) (found || Optional p) l t2) as (k & us & m & E & Hus); [done|done|by injection Hn|done|].
  exists k, us, m. rewrite E. cbn [g_pRoutines g_szRoutines]. split.
  - assert (with_usage (with_usage r1 (Some (default "" (Usage r1) ++ t1)%string) (MinParameters r1)) us m = with_usage r us m) as ->
      by (unfold r1; by destruct (negb found && Optional p)).
    unfold ok. cbn [forallb required_first]. by destruct found, (Optional p).
  - intros Hok. assert ((if found || Optional p then forallb Optional ps else required_first ps) = true) as Hok'.
    { unfold ok in Hok. cbn [forallb required_first] in Hok. by destruct found, (Optional p). }
    destruct (Hus Hok') as [-> ->]. cbn [Usage MinParameters with_usage]. rewrite E2, E3.
    change (default ""%string (Some (?x))) with x. split.
    + destruct ps; [|by rewrite string_app_assoc]. injection Et2 as <-. by rewrite string_app_nil.
    + cbn [lead length]. destruct found, (Optional p); cbn [orb negb andb Nat.eqb]; try done. destruct (lead ps =? length ps)%nat; [done|lia].
Qed.

Lemma lead_le ps : (lead ps <= length ps)%nat.
Proof. induction ps as [|p ps IH]; cbn; [lia|]. destruct (Optional p); lia. Qed.

Lemma with_usage_params r u m : NumberOfParameters (with_usage r u m) = NumberOfParameters r.
Proof. done. Qed.
Lemma with_usage_min r u m : MinParameters (with_usage r u m) = m.
Proof. done. Qed.

(** FinalizeRoutine of a new routine with parameters. *)
Lemma finalize_spec s r ps t : Parameters r = Some ps -> ps <> [] -> NumberOfParameters r = length ps -> MinParameters r = 0%nat -> Usage r = None ->
  usage_texts ps = Done t ->
  exists k us m, FinalizeRoutine alloc s r true = Done (mkLib (g_pRoutines s) (g_szRoutines s) k, with_usage r us m, required_first ps) /\
    (required_first ps = true -> us = Some t /\ m = if (lead ps =? 0)%nat then length ps else lead ps).
Proof.
  intros Hp Hne Hn Hm Hu Ht. unfold FinalizeRoutine. rewrite Hn.
  destruct (finalize_loop_spec ps (length ps) s r 0 false ps t Hp (drop_0 _) eq_refl Ht) as (k & us & m & E & Hus). rewrite E, bind_Done.
  assert ((length ps =? 0)%nat = false) as E0 by (apply Nat.eqb_neq; by destruct ps).
  destruct (required_first ps); cbn [negb] in *; [|by exists k, us, m].
  destruct (Hus eq_refl) as [-> ->]. rewrite !with_usage_params, Hn, E0, Hu, Hm. cbn [orb andb negb]. pose proof (lead_le ps).
  destruct ps as [|p ps]; [done|]. rewrite Nat.add_0_l. change (default ""%string None) with ""%string. change ("" ++ t)%string with t.
  rewrite with_usage_params, with_usage_min, Hn, E0. cbn [negb andb].
  exists k, (Some t). destruct (Nat.eqb_spec (lead (p :: ps)) (length (p :: ps))) as [El|El]; cbn [Nat.eqb].
  - exists (length (p :: ps)). split; [done|]. intros _. split; [done|]. rewrite El. by destruct (length (p :: ps) =? 0)%nat.
  - destruct (Nat.eqb_spec (lead (p :: ps)) 0) as [E1|E1]; [exists (length (p :: ps))|exists (lead (p :: ps))]; by split.
Qed.
End Finalize.

(** ** Executing *)

(** The arguments put into the first parameters. *)
Fixpoint assign (ps : list RoutineParameter) (args : list string) : option (list RoutineParameter) :=
  match args, ps with
  | [], _ => Some ps
  | a :: args, p :: ps => p' ← set_parameter p a; rest ← assign ps args; Some (p' :: rest)
  | _ :: _, [] => None
  end.
Definition routine_wf {H} (r : Routine H) : Prop :=
  match Parameters r with Some ps => length ps = NumberOfParameters r | None => NumberOfParameters r = 0%nat end.
Record lib_wf {H} (s : Lib H) (l : list (Routine H)) : Prop := {
  lw_array : g_pRoutines s = Some l; lw_size : g_szRoutines s = length l; lw_routines : Forall routine_wf l
}.

Lemma set_parameters_spec args : forall pre ps, (length args <= length ps)%nat ->
  match assign ps args with
  | Some ps' => set_parameters (pre ++ ps) (length pre) args = Done (pre ++ ps', true)
  | None => exists l, set_parameters (pre ++ ps) (length pre) args = Done (l, false)
  end.
Proof.
  induction args as [|a args IH]; intros pre ps Hl; [by destruct ps|]. destruct ps as [|p ps]; [cbn in Hl; lia|]. cbn [assign set_parameters].
  rewrite list_lookup_middle by done. cbn [checked]. rewrite bind_Done. destruct (set_parameter p a) as [p'|]; [|by eexists].
  rewrite insert_app_r_alt, Nat.sub_diag by lia. change (<[0%nat:=p']> (p :: ps)) with (p' :: ps).
  specialize (IH (pre ++ [p']) ps ltac:(cbn in Hl; lia)). rewrite length_app, Nat.add_1_r, <- app_assoc in IH. cbn [app] in IH.
  cbn. destruct (assign ps args) as [ps'|]; cbn; [|exact IH]. by rewrite <- app_assoc in IH.
Qed.

Section Execute.
Context {H W : Type} (call : H -> Lib H -> Routine H -> W -> outcome (W * Z)).
Implicit Types (s : Lib H) (r : Routine H).

Definition parameters_of r : list RoutineParameter := default [] (Parameters r).
Definition given r (ps : list RoutineParameter) : Routine H :=
  match Parameters r with Some _ => with_parameters r (Some ps) (NumberOfParameters r) | None => r end.
Definition replaced s (l : list (Routine H)) (i : nat) r : Lib H := mkLib (Some (<[i := r]> l)) (g_szRoutines s) (allocs s).

(** What executing the [i]-th routine does. *)
Definition execution s (w : W) (l : list (Routine H)) (i : nat) r (args : list string) (res : outcome (Lib H * W * Z)) : Prop :=
  if decide (MinParameters r <= length args <= NumberOfParameters r)%nat then
    match assign (parameters_of r) args with
    | Some ps => res = ('(w', c) ← call (Handler r) (replaced s l i (given r ps)) (given r ps) w;
                        Done (replaced s l i (given r ps), w', if c =? ROUTINE_OK then EXIT_SUCCESS else EXIT_FAILURE))
    | None => exists s', res = Done (s', w, EXIT_FAILURE)
    end
  else res = Done (s, w, EXIT_FAILURE).

Lemma execute_loop_spec suf : forall pre s w name args l, lib_wf s l -> l = pre ++ suf ->
  match list_find (fun r => Name r = name) suf with
  | None => execute_loop call (length suf) s w (length pre) name args = Done (s, w, EXIT_FAILURE)
  | Some (i, r) => execution s w l (length pre + i) r args (execute_loop call (length suf) s w (length pre) name args)
  end.
Proof.
  induction suf as [|r suf IH]; intros pre s w name args l Hwf Hl; [done|]. cbn [list_find length execute_loop].
  rewrite (lw_array _ _ Hwf). cbn [checked]. rewrite bind_Done. rewrite Hl, list_lookup_middle by done. cbn [checked]. rewrite bind_Done.
  destruct (decide (Name r = name)) as [<-|Hne].
  2:{ assert ((name =? Name r)%string = false) as -> by (apply String.eqb_neq; congruence). cbn [negb].
      specialize (IH (pre ++ [r]) s w name args l Hwf ltac:(by rewrite <- app_assoc)). rewrite length_app, Nat.add_1_r in IH.
      destruct (list_find _ suf) as [[i r']|]; cbn; [|exact IH]. replace (length pre + S i)%nat with (S (length pre) + i)%nat by lia. rewrite <- Hl. exact IH. }
  rewrite String.eqb_refl. cbn [negb]. rewrite <- Hl, Nat.add_0_r. unfold execution.
  assert (routine_wf r) as Hr.
  { eapply Forall_lookup_1; [exact (lw_routines _ _ Hwf)|]. rewrite Hl. by apply list_lookup_middle. }
  destruct (Nat.ltb_spec (length args) (MinParameters r)); [by rewrite decide_False by lia|].
  destruct (Nat.ltb_spec (NumberOfParameters r) (length args)); [by rewrite decide_False by lia|].
  rewrite decide_True by lia. unfold routine_wf in Hr. unfold parameters_of, given, replaced.
  destruct (Parameters r) as [ps|] eqn:Ep.
  - change (default [] (Some ps)) with ps. pose proof (set_parameters_spec args [] ps ltac:(lia)) as Hs. cbn [app length] in Hs.
    destruct args as [|a args].
    + destruct ps; cbn [assign]; by rewrite bind_Done.
    + cbn [checked]. rewrite bind_Done. destruct (assign ps (a :: args)) as [ps'|].
      * by rewrite Hs, bind_Done.
      * destruct Hs as [l' ->]. rewrite bind_Done. by eexists.
  - destruct args; [|cbn in *; lia]. cbn [assign]. by rewrite bind_Done.
Qed.
End Execute.

(** Executing a command line runs the first registered routine of that name, if the
    number of arguments lies between its minimum and its number of parameters and every argument of an
    integer parameter starts with a number: the arguments replace the first
    parameters, the rest keep their defaults, and the exit code tells whether the
    routine returned ROUTINE_OK.  In every other case no handler runs, the world is
    unchanged and the exit code is EXIT_FAILURE. *)
Theorem execute_dispatches {H W} (call : H -> Lib H -> Routine H -> W -> outcome (W * Z)) s w l name args :
  lib_wf s l ->
  match list_find (fun r => Name r = name) l with
  | None => RoutineLibExecute call s w (name :: args) = Done (s, w, EXIT_FAILURE)
  | Some (i, r) => execution call s w l i r args (RoutineLibExecute call s w (name :: args))
  end.
Proof. intros Hwf. cbn [RoutineLibExecute]. rewrite (lw_size _ _ Hwf). by apply (execute_loop_spec call l []). Qed.

Definition sample_routine (h : Z) (n : string) : Routine Z :=
  mkRoutine n "" (Some "u"%string) (Some [MakeIntegerRoutineParameter "Size" ""; MakeOptIntegerRoutineParameter "Block" "" 512]) 2 1 h.
Definition sample_call (h : Z) (_ : Lib Z) (r : Routine Z) (w : list Z) : outcome (list Z * Z) :=
  Done (w ++ (h :: (IntValue <$> parameters_of r)), h).
Lemma execute_dispatches_witness :
  let l := [sample_routine 1 "A"; sample_routine 0 "B"] in
  let s := mkLib (Some l) 2 0 in
  (r ← RoutineLibExecute sample_call s [] ["B"; "128"]%string; Done (r.1.2, r.2)) = Done ([0; 128; 512], EXIT_SUCCESS) /\
  match list_find (fun r => Name r = "B"%string) l with
  | None => RoutineLibExecute sample_call s [] ["B"; "128"]%string = Done (s, [], EXIT_FAILURE)
  | Some (i, r) => execution sample_call s [] l i r ["128"]%string (RoutineLibExecute sample_call s [] ["B"; "128"]%string)
  end.
Proof.
  split; [vm_compute; reflexivity|]. apply (execute_dispatches sample_call (mkLib (Some [sample_routine 1 "A"; sample_routine 0 "B"]) 2 0)).
  split; [done|done|]. repeat (apply Forall_cons; split; [reflexivity|]). by apply Forall_nil.
Defined.

(** ** Departures *)

(** An optional first parameter makes all parameters mandatory. *)
Example optional_first_mandatory :
  (r ← FinalizeRoutine (fun _ => true) (mkLib None 0 0)
     (with_parameters (MakeRoutine 0 "R" "") (Some [MakeOptIntegerRoutineParameter "A" "" 1; MakeOptIntegerRoutineParameter "B" "" 2]) 2) true;
   Done (MinParameters r.1.2, r.2)) = Done (2%nat, true).
Proof. vm_compute. reflexivity. Qed.
(** A rejected routine stays registered. *)
Example rejected_stays_registered :
  (r ← RegisterRoutine (fun _ => true) (mkLib None 0 0)
     (with_parameters (MakeRoutine 0 "R" "") (Some [MakeOptIntegerRoutineParameter "A" "" 1; MakeIntegerRoutineParameter "B" ""]) 2);
   Done (Name <$> default [] (g_pRoutines r.1), r.2)) = Done (["R"%string], false).
Proof. vm_compute. reflexivity. Qed.
(** A word that is no boolean is accepted and leaves the default. *)
Example bad_boolean_accepted : BitValue <$> set_parameter (MakeOptBooleanRoutineParameter "F" "" true) "maybe" = Some true.
Proof. reflexivity. Qed.
(** Trailing letters and large values are accepted. *)
Example loose_integers : IntValue <$> set_parameter (MakeIntegerRoutineParameter "N" "") "128MiB" = Some 128 /\
  IntValue <$> set_parameter (MakeIntegerRoutineParameter "N" "") "4294967424" = Some 128.
Proof. split; reflexivity. Qed.
