(* ===== verification/Imgtool.v ===== *)
(** * The command line of the disk image tool (Tools/Imgtool/Source/Main.c, Routines.h) *)
From Stdlib Require Import ZArith Lia Ascii String.
From stdpp Require Import base numbers list strings pretty gmap.
From S2P Require Import Prelude Bytes ImgCrc Gpt GptProps RoutineLib RoutineLibProps.
Open Scope Z_scope.

(** The handlers main registers. *)
Inductive handler := RoutineLib_Routine_Help_ | Routine_MakeStandard_ | Routine_ReadMBR_ | Routine_ReadGPT_.
(** The disk file and the lines of the help text. *)
Record World := mkWorld { wImg : Img; wOut : list string }.

Section Tool.
Context (alloc : nat -> bool) (fails : nat -> option nat) (uuid_generate : nat -> list Z).

Definition run_handler (TableCRC32 : list Z) (h : handler) (s : Lib handler) (pSelf : Routine handler) (w : World) : outcome (World * Z) :=
  match h with
  | RoutineLib_Routine_Help_ => '(lines, c) ← RoutineLib_Routine_Help s; Done (mkWorld (wImg w) (wOut w ++ lines), c)
  | Routine_MakeStandard_ =>
      p ← checked (Parameters pSelf);
      pSize ← checked (p !! 1%nat);
      pBlock ← checked (p !! 2%nat);
      '(i, c) ← Routine_MakeStandard fails uuid_generate TableCRC32 (wImg w) (IntValue pSize) (IntValue pBlock);
      Done (mkWorld i (wOut w), c)
  | Routine_ReadMBR_ => Done (w, Routine_ReadMBR)
  | Routine_ReadGPT_ => Done (w, Routine_ReadGPT)
  end.

Definition RoutineLibInit (s : Lib handler) : outcome (Lib handler * bool) :=
  RegisterRoutine alloc s (MakeRoutine RoutineLib_Routine_Help_ "Help" "Displays all available actions.").
(** A routine with its parameters, registered; the results are ignored. *)
Fixpoint add_parameters (s : Lib handler) (r : Routine handler) (ps : list RoutineParameter) : outcome (Lib handler * Routine handler) :=
  match ps with
  | [] => Done (s, r)
  | p :: ps => '(s, r, _) ← AddRoutineParameter alloc s r p; add_parameters s r ps
  end.
Definition register_with (s : Lib handler) (r : Routine handler) (ps : list RoutineParameter) : outcome (Lib handler) :=
  '(s, r) ← add_parameters s r ps;
  '(s, _) ← RegisterRoutine alloc s r;
  Done s.

Definition makestd_parameters : list RoutineParameter :=
  [MakeStringRoutineParameter "DiskPath" "Path to the disk image, if it doesn't exist, it will be created.";
   MakeIntegerRoutineParameter "DiskSize" "The size of the disk image to be made, in MiB.";
   MakeOptIntegerRoutineParameter "BlockSize" "The size of each logical block/sector of the disk, in bytes. Must be a multiple of 512." 512].
Definition readmbr_parameters : list RoutineParameter := [MakeStringRoutineParameter "DiskPath" "The path to the disk image."].
Definition readgpt_parameters : list RoutineParameter :=
  [MakeStringRoutineParameter "DiskPath" "The path to the disk image.";
   MakeOptIntegerRoutineParameter "BlockSize" "The size of each logical block/sector of the disk, in bytes. Must be a multiple of 512." 512].

Definition register_all (s : Lib handler) : outcome (Lib handler) :=
  s ← register_with s (MakeRoutine Routine_MakeStandard_ "MakeStandard" "Creates a disk image with a standard Ych OS layout, that is an EFI partition and the system partition. The PMBR (Protective Master Boot Record) and the GPT (GUID Partition Table) will also be created.") makestd_parameters;
  s ← register_with s (MakeRoutine Routine_ReadMBR_ "ReadMBR" "Reads the Master Boot Record of a given disk file, primarily its Partition Table.") readmbr_parameters;
  register_with s (MakeRoutine Routine_ReadMBR_ "ReadGPT" "Reads the GUID Partition Table of a given disk file, primarily its header and its Partition Table.") readgpt_parameters.

(** [argv] without the name of the program. *)
Definition main (s : Lib handler) (w : World) (argv : list string) : outcome (Lib handler * World * Z) :=
  '(s, ok) ← RoutineLibInit s;
  if negb ok : bool then Done (s, w, EXIT_FAILURE)
  else
    let TableCRC32 := InitTableCRC32 in
    s ← register_all s;
    RoutineLibExecute (run_handler TableCRC32) s w argv.

Lemma main_runs s s1 s2 w argv : RoutineLibInit s = Done (s1, true) -> register_all s1 = Done s2 ->
  main s w argv = RoutineLibExecute (run_handler InitTableCRC32) s2 w argv.
Proof. intros E1 E2. unfold main. rewrite E1, bind_Done. cbn [negb]. by rewrite E2, bind_Done. Qed.
End Tool.

(** ** From the command line to the disk *)

Definition no_routines : Lib handler := mkLib None 0 0.
Definition always (_ : nat) : bool := true.

(** What main has registered. *)
Definition registered (r : Routine handler) : string * option nat * nat * nat * handler :=
  (Name r, length <$> Parameters r, NumberOfParameters r, MinParameters r, Handler r).
Definition initialised : Lib handler := Eval vm_compute in match RoutineLibInit always no_routines with Done (s, _) => s | _ => no_routines end.
Definition library : Lib handler := Eval vm_compute in match register_all always initialised with Done s => s | _ => no_routines end.
Definition routines : list (Routine handler) := Eval vm_compute in default [] (g_pRoutines library).

(** ReadGPT is registered with the handler of ReadMBR. *)
Example registered_routines : registered <$> routines =
  [("Help", None, 0%nat, 0%nat, RoutineLib_Routine_Help_); ("MakeStandard", Some 3%nat, 3%nat, 2%nat, Routine_MakeStandard_);
   ("ReadMBR", Some 1%nat, 1%nat, 1%nat, Routine_ReadMBR_); ("ReadGPT", Some 2%nat, 2%nat, 1%nat, Routine_ReadMBR_)]%string.
Proof. vm_compute. reflexivity. Qed.

Lemma main_executes fails uuid w argv : main always fails uuid no_routines w argv = RoutineLibExecute (run_handler fails uuid InitTableCRC32) library w argv.
Proof. apply main_runs with initialised; vm_compute; reflexivity. Qed.
Lemma library_wf : lib_wf library routines.
Proof. split; [reflexivity|reflexivity|]. repeat (apply Forall_cons; split; [reflexivity|]). by apply Forall_nil. Qed.

Lemma to_int_small x : 0 <= x < 2 ^ 31 -> to_int x = x.
Proof. intros Hx. unfold to_int. rewrite Z.mod_small; lia. Qed.
Lemma set_integer p z : pType p = ROUTINE_PARAMETER_INTEGER -> 0 <= z < 2 ^ 31 ->
  set_parameter p (pretty z) = Some (mkParam ROUTINE_PARAMETER_INTEGER (pName p) (pDescription p) (Optional p) z (StrValue p) (BitValue p)).
Proof. intros Hp Hz. unfold set_parameter. rewrite Hp, strtol_pretty by (unfold LONG_MAX; lia). cbn. by rewrite to_int_small. Qed.

Lemma set_string p arg : pType p = ROUTINE_PARAMETER_STRING ->
  set_parameter p arg = Some (mkParam ROUTINE_PARAMETER_STRING (pName p) (pDescription p) (Optional p) (IntValue p) (Some arg) (BitValue p)).
Proof. intros Hp. unfold set_parameter. by rewrite Hp. Qed.

(** The parameters MakeStandard gets. *)
Lemma makestd_assign path n blk args : std_size n blk -> args = [pretty n; pretty blk] \/ (args = [pretty n] /\ blk = 512) ->
  exists p1 p2 p3, assign (parameters_of (nth 1 routines (MakeRoutine RoutineLib_Routine_Help_ "" ""))) (path :: args) = Some [p1; p2; p3] /\
    IntValue p2 = n /\ IntValue p3 = blk /\ (2 <= length (path :: args) <= 3)%nat.
Proof.
  intros (Hn & Hb & _ & H3 & _) Hargs.
  change (parameters_of (nth 1 routines _)) with makestd_parameters. unfold makestd_parameters.
  destruct Hargs as [->|[-> ->]]; cbn [assign].
  - rewrite (set_string (MakeStringRoutineParameter _ _)), !set_integer by (done || lia).
    eexists _, _, _. split; [reflexivity|]. cbn. by repeat split; lia.
  - rewrite (set_string (MakeStringRoutineParameter _ _)), !set_integer by (done || lia).
    eexists _, _, _. split; [reflexivity|]. cbn. by repeat split; lia.
Qed.

(** C35: when no call of the C library fails, the command line "MakeStandard <path>
    <size in MiB> <block size>", the block size being optional and 512 by default,
    makes a valid GPT disk of that size from the numbers given in decimal and exits with
    success, for sizes of at least 128 MiB and at most 2^32 blocks and block sizes
    that are a multiple of 512 and at most a third of a MiB. *)
Theorem imgtool_makes_disk fails uuid w path n blk args
    (Hok : forall k, fails k = None) (Huuid : forall k, length (uuid k) = 16%nat /\ Forall byte (uuid k)) (Hsz : std_size n blk)
    (Hargs : args = [pretty n; pretty blk] \/ (args = [pretty n] /\ blk = 512)) :
  exists s' w' h b p1 p2, main always fails uuid no_routines w ("MakeStandard" :: path :: args)%string = Done (s', w', EXIT_SUCCESS) /\
    pDisk (wImg w') = false /\ gpt_disk (disk (wImg w')) blk h b p1 p2 /\ n * 2 ^ 20 <= fsize (disk (wImg w')) < n * 2 ^ 20 + blk.
Proof.
  destruct (makestd_assign path n blk args Hsz Hargs) as (q1 & q2 & q3 & Ea & E2 & E3 & Hl).
  destruct (make_standard_run uuid Huuid n blk Hsz fails (wImg w) Hok) as (i & E & H1 & H2 & H4 & H5).
  rewrite main_executes. cbn [RoutineLibExecute]. set (r := nth 1 routines (MakeRoutine RoutineLib_Routine_Help_ "" "")) in *.
  pose proof (execute_loop_spec (run_handler fails uuid InitTableCRC32) routines [] library w "MakeStandard" (path :: args) routines library_wf eq_refl) as Hx.
  assert (list_find (fun r => Name r = "MakeStandard"%string) routines = Some (1%nat, r)) as Ef by (vm_compute; reflexivity).
  rewrite Ef in Hx. unfold execution in Hx.
  assert (MinParameters r = 2%nat /\ NumberOfParameters r = 3%nat /\ Handler r = Routine_MakeStandard_) as (R1 & R2 & R3) by (vm_compute; done).
  rewrite R1, R2, R3, decide_True, Ea in Hx by done. cbn [length app] in Hx. change (g_szRoutines library) with (length routines). rewrite Hx.
  assert (Parameters (given r [q1; q2; q3]) = Some [q1; q2; q3]) as Eg by (vm_compute; reflexivity).
  assert (forall s0, run_handler fails uuid InitTableCRC32 Routine_MakeStandard_ s0 (given r [q1; q2; q3]) w = Done (mkWorld i (wOut w), ROUTINE_OK)) as Er.
  { intros s0. unfold run_handler. rewrite Eg. cbn -[Routine_MakeStandard InitTableCRC32]. rewrite E2, E3, E. reflexivity. }
  rewrite Er, bind_Done.
  destruct (std_layout n blk Hsz) as [_ B2 _ _ _ _ _ _ _].
  eexists _, _, (std_primary uuid n blk), (std_backup uuid n blk), (std_efi uuid blk), (std_os uuid n blk). split; [reflexivity|]. cbn [wImg].
  split; [done|]. split; [by apply image_valid|]. by rewrite H4.
Qed.

Lemma imgtool_makes_disk_witness :
  exists s' w' h b p1 p2, main always no_fail sample_uuid no_routines (mkWorld new_tool []) ["MakeStandard"; "disk.img"; "256"]%string = Done (s', w', EXIT_SUCCESS) /\
    pDisk (wImg w') = false /\ gpt_disk (disk (wImg w')) 512 h b p1 p2 /\ 256 * 2 ^ 20 <= fsize (disk (wImg w')) < 256 * 2 ^ 20 + 512.
Proof.
  apply (imgtool_makes_disk no_fail sample_uuid (mkWorld new_tool []) "disk.img" 256 512 ["256"%string]).
  - reflexivity.
  - exact sample_uuid_ok.
  - repeat split; lia.
  - right. split; reflexivity.
Defined.

(** ReadGPT reports that it is not implemented. *)
Example read_gpt_fails :
  (r ← main always no_fail sample_uuid no_routines (mkWorld new_tool []) ["ReadGPT"; "disk.img"]%string; Done r.2) = Done EXIT_FAILURE.
Proof. vm_compute. reflexivity. Qed.
Example help_lists_actions :
  (r ← main always no_fail sample_uuid no_routines (mkWorld new_tool []) ["Help"]%string; Done (length (wOut r.1.2), nth 0 (wOut r.1.2) ""%string, r.2)) =
    Done (9%nat, "List of Available Actions (4 in total):"%string, EXIT_SUCCESS).
Proof. vm_compute. reflexivity. Qed.
