(* ===== verification/Loader.v ===== *)
(** * The boot loader (Boot/YchBoot.c, Boot/Utilities.h, Boot/blstd.h) and the
    structures it hands over (BootContract)

    The firmware is an interface: a type of worlds and one function per service
    the loader calls, each of which may also change memory.  The loader is a
    computation that either returns a status to the firmware or jumps. *)
From Stdlib Require Import ZArith Lia String.
From stdpp Require Import base numbers list gmap.
From S2P Require Import Prelude Bytes MemoryMap.
Open Scope Z_scope.

(** ** The boot contract (BootContract.json, Structures.h) *)

Definition MEMORY_MAP_ADDRESS : Z := 0x4000.
Definition BOOTELVT_LOAD_ADDRESS : Z := 0x100000.
Definition KERNEL_LOAD_ADDRESS : Z := 0x200000.
Definition KERNEL_RESERVE_SIZE : Z := 0x8000000.
Definition KERNEL_VIRTUAL_ADDRESS : Z := 0xFFFFFFFF80000000.
Definition SYSTEM_INFO_PACK_MAGIC : Z := 0x424F4F54.
Definition KERNEL_RESERVED_END : Z := KERNEL_VIRTUAL_ADDRESS + KERNEL_RESERVE_SIZE.
Definition KERNEL_STACK_SIZE : Z := 0x200000.
Definition KERNEL_STACK_START : Z := KERNEL_RESERVED_END - KERNEL_STACK_SIZE.
Definition BOOTSTRAP_KERNEL_AREA_SIZE : Z := 0x1A00000.
Definition BOOTSTRAP_KERNEL_AREA_BEGIN : Z := KERNEL_STACK_START - BOOTSTRAP_KERNEL_AREA_SIZE.
Definition BOOTELVT_FILE_NAME : string := "\Ych\Bootelvt.bin".
Definition KERNEL_FILE_NAME : string := "\Ych\Krnlych.kr".

Record KrGraphicsInfo := mkGraphics {
  PhysicalFramebufferAddress : Z;
  FramebufferSize : Z;
  FramebufferWidth : Z;
  FramebufferHeight : Z;
  PixelsPerScanLine : Z
}.

(** The pack; its memory map information has the address of the descriptors
    besides the fields of [KrMemoryMapInfo]. *)
Record KrSystemInfoPack := mkPack {
  ipMagic : Z;
  KernelBinarySize : Z;
  KernelPhysicalBase : Z;
  KernelVirtualBase : Z;
  KernelStackPhysicalBase : Z;
  KernelStackVirtualBase : Z;
  KernelBootstrapArenaBase : Z;
  KernelBootstrapArenaSize : Z;
  KernelReserveSize : Z;
  GraphicsInfo : KrGraphicsInfo;
  MapPhysicalAddress : Z;
  MemoryMapInfo : KrMemoryMapInfo;
  PhysAddrRSDP : Z
}.

(** The packed layouts; the padding fields are zero. *)
Definition graphics_bytes (g : KrGraphicsInfo) : list Z :=
  le_bytes 8 (PhysicalFramebufferAddress g) ++ le_bytes 8 (FramebufferSize g) ++ le_bytes 4 (FramebufferWidth g) ++
  le_bytes 4 (FramebufferHeight g) ++ le_bytes 4 (PixelsPerScanLine g) ++ le_bytes 4 0.
Definition mapinfo_bytes (addr : Z) (i : KrMemoryMapInfo) : list Z :=
  le_bytes 8 addr ++ le_bytes 8 (MemoryMapSize i) ++ le_bytes 8 (EntryCount i) ++ le_bytes 4 (PageSize i) ++ le_bytes 4 0.
Definition pack_bytes (p : KrSystemInfoPack) : list Z :=
  le_bytes 4 (ipMagic p) ++ le_bytes 8 (KernelBinarySize p) ++ le_bytes 8 (KernelPhysicalBase p) ++
  le_bytes 8 (KernelVirtualBase p) ++ le_bytes 8 (KernelStackPhysicalBase p) ++ le_bytes 8 (KernelStackVirtualBase p) ++
  le_bytes 8 (KernelBootstrapArenaBase p) ++ le_bytes 8 (KernelBootstrapArenaSize p) ++ le_bytes 8 (KernelReserveSize p) ++
  graphics_bytes (GraphicsInfo p) ++ mapinfo_bytes (MapPhysicalAddress p) (MemoryMapInfo p) ++ le_bytes 8 (PhysAddrRSDP p).
Definition sizeof_KrSystemInfoPack : Z := 140.
Definition sizeof_KrMemoryDescriptor : Z := 32.

(** ** The firmware *)

Record EFI_GUID := mkGuid { Data1 : Z; Data2 : Z; Data3 : Z; Data4 : list Z }.
Record ModeInformation := mkMode { HorizontalResolution : Z; VerticalResolution : Z; PixelFormat : Z; ScanLinePixels : Z }.
Record GopMode := mkGopMode { MaxMode : Z; FrameBufferBase : Z; FrameBufferSize : Z; ModeInfo : ModeInformation }.
Record EfiMemoryDescriptor := mkEfiDesc { efiType : Z; PhysicalStart : Z; NumberOfPages : Z }.
Record MapReply := mkMapReply { mapSize : Z; mapKey : Z; descSize : Z }.
Inductive print_arg := PStr (s : string) | PStatus (z : Z).

(** Bytes of memory that were never written read as zero. *)
Definition ram : Type := gmap Z Z.

(** The services and header constants the loader uses. *)
Class Firmware (W : Type) := {
  EFI_ERROR : Z -> bool;
  EFI_BUFFER_TOO_SMALL : Z;
  ACPI_20_TABLE_GUID : EFI_GUID;
  sizeof_EFI_FILE_INFO : Z;
  PixelBlueGreenRedReserved8BitPerColor : Z;
  InitializeLib : Z -> Z -> W * ram -> W * ram;
  FwPrint : string -> list print_arg -> W * ram -> W * ram;
  LocateHandleBuffer : W * ram -> W * ram * (Z * list Z);
  HandleProtocol : Z -> W * ram -> W * ram * (Z * Z);
  OpenVolume : Z -> W * ram -> W * ram * (Z * Z);
  FileOpen : Z -> string -> W * ram -> W * ram * (Z * Z);
  AllocatePool : Z -> W * ram -> W * ram * Z;
  FreePool : Z -> W * ram -> W * ram;
  FileGetInfo : Z -> Z -> Z -> W * ram -> W * ram * Z;
  FileInfoSize : Z -> ram -> Z;
  FileRead : Z -> Z -> Z -> W * ram -> W * ram * (Z * Z);
  FileClose : Z -> W * ram -> W * ram;
  LocateGop : W * ram -> W * ram * (Z * Z);
  GopCurrent : Z -> W * ram -> GopMode;
  GopQueryMode : Z -> Z -> W * ram -> W * ram * (Z * ModeInformation);
  GopSetMode : Z -> Z -> W * ram -> W * ram * Z;
  ConfigurationTable : Z -> W * ram -> list (EFI_GUID * Z);
  GetMemoryMap : Z -> Z -> W * ram -> W * ram * (Z * MapReply);
  ExitBootServices : Z -> Z -> W * ram -> W * ram * Z;
  EfiDescriptorAt : Z -> ram -> EfiMemoryDescriptor
}.

(** ** Computations that may return a status *)

Definition boot (W A : Type) : Type := W * ram -> outcome (W * ram * (Z + A)).
#[export] Instance boot_ret {W} : MRet (boot W) := fun A a m => Done (m, inr a).
#[export] Instance boot_bind {W} : MBind (boot W) := fun A B f c m =>
  '(m, r) ← c m; match r with inl Status => Done (m, inl Status) | inr a => f a m end.

(** [return Status;] of the loader's entry point. *)
Definition fail {W A} (Status : Z) : boot W A := fun m => Done (m, inl Status).
Definition call {W A} (f : W * ram -> W * ram * A) : boot W A := fun m => let '(m, a) := f m in Done (m, inr a).
Definition run {W} (f : W * ram -> W * ram) : boot W unit := fun m => Done (f m, inr ()).
Definition ask {W A} (f : W * ram -> A) : boot W A := fun m => Done (m, inr (f m)).
Definition lift {W A} (o : outcome A) : boot W A := fun m => a ← o; Done (m, inr a).

(** ** Utilities.h *)

Definition YchbootCompareGuid (LHS RHS : EFI_GUID) : bool :=
  let d4 (i : nat) := bool_decide (Data4 LHS !! i = Data4 RHS !! i) in
  (Data1 LHS =? Data1 RHS) && (Data2 LHS =? Data2 RHS) && (Data3 LHS =? Data3 RHS) &&
  d4 0%nat && d4 1%nat && d4 2%nat && d4 3%nat && d4 4%nat && d4 5%nat && d4 6%nat && d4 7%nat.

(** Bit 31 of ECX after CPUID leaf 1. *)
Definition YchbootIsHypervisorPresent (ECX : Z) : bool := negb (Z.land ECX (Z.shiftl 1 31) =? 0).

(** The loop over the remaining configuration tables. *)
Fixpoint locate_table (id : EFI_GUID) (l : list (EFI_GUID * Z)) : Z :=
  match l with
  | [] => 0
  | (g, p) :: l => if YchbootCompareGuid g id then p else locate_table id l
  end.

(** ** Processor register state at the jump to BOOTELVT *)
Record Jump := mkJump { jRSP : Z; jRCX : Z; jRSI : Z; jRIP : Z }.

Section Main.
Context {W : Type} `{FW : Firmware W}.

Definition YchbootReadFile (pRoot : Z) (pFilepath : string) (AddrLoad : Z) : boot W (Z * Z) :=
  '(Status, pFile) ← call (FileOpen pRoot pFilepath);
  if EFI_ERROR Status then
    _ ← run (FwPrint "Failed to open file `%s`: %r\n" [PStr pFilepath; PStatus Status]);
    mret (Status, 0)
  else
    let FileInfoSz := u64 (sizeof_EFI_FILE_INFO + 1024) in
    pFileInfo ← call (AllocatePool FileInfoSz);
    Status ← call (FileGetInfo pFile FileInfoSz pFileInfo);
    if EFI_ERROR Status then
      _ ← run (FwPrint "Failed to get file size `%s`: %r\n" [PStr pFilepath; PStatus Status]);
      mret (Status, 0)
    else
      FileSize ← ask (fun m => FileInfoSize pFileInfo m.2);
      _ ← run (FreePool pFileInfo);
      '(Status, FileSize) ← call (FileRead pFile FileSize AddrLoad);
      if EFI_ERROR Status then
        _ ← run (FwPrint "Failed to load file into memory `%s`: %r\n" [PStr pFilepath; PStatus Status]);
        mret (Status, 0)
      else
        _ ← run (FileClose pFile);
        mret (Status, FileSize).

Definition YchbootLocateRSDP (pSystemTable : Z) : boot W Z :=
  ask (fun m => locate_table ACPI_20_TABLE_GUID (ConfigurationTable pSystemTable m)).

(** ** Video mode *)

Definition is_16_9 (i : ModeInformation) : bool := u32 (HorizontalResolution i * 9) / 16 =? VerticalResolution i.
Definition better_mode (i best : ModeInformation) : bool :=
  (VerticalResolution i >? VerticalResolution best) ||
  ((VerticalResolution i =? VerticalResolution best) && (HorizontalResolution i >? HorizontalResolution best)).
Definition is_720p (i : ModeInformation) : bool := (HorizontalResolution i =? 1280) && (VerticalResolution i =? 720).

(** The loop over the modes from [i] on; [best] is iBestVideoModeCandidate. *)
Fixpoint mode_loop (fuel : nat) (pGOP : Z) (bIsHypervisor : bool) (i best : Z) (cache : ModeInformation)
    : boot W (Z * ModeInformation) :=
  match fuel with
  | O => lift Hang
  | S fuel' =>
      Max ← ask (fun m => MaxMode (GopCurrent pGOP m));
      if i <? Max then
        '(Status, info) ← call (GopQueryMode pGOP i);
        if EFI_ERROR Status then mode_loop fuel' pGOP bIsHypervisor (u32 (i + 1)) best cache
        else if negb (is_16_9 info) then mode_loop fuel' pGOP bIsHypervisor (u32 (i + 1)) best cache
        else if PixelFormat info =? PixelBlueGreenRedReserved8BitPerColor then
          let '(best, cache) := if better_mode info cache then (i, info) else (best, cache) in
          if bIsHypervisor && is_720p info then mret (best, cache)
          else mode_loop fuel' pGOP bIsHypervisor (u32 (i + 1)) best cache
        else mode_loop fuel' pGOP bIsHypervisor (u32 (i + 1)) best cache
      else mret (best, cache)
  end.

Definition no_mode : ModeInformation := mkMode 0 0 0 0.

(** The search and the switch; a failing SetMode is only reported. *)
Definition select_mode (fuel : nat) (pGOP : Z) (bIsHypervisor : bool) : boot W unit :=
  '(best, cache) ← mode_loop fuel pGOP bIsHypervisor 0 (u32 (-1)) no_mode;
  if negb (best =? u32 (-1)) && negb (VerticalResolution cache =? 0) && negb (HorizontalResolution cache =? 0) then
    Status ← call (GopSetMode pGOP best);
    if EFI_ERROR Status then
      run (FwPrint "WARN: GOP SetVideoMode failed: %r. Boot-time default video mode will be used.\n" [PStatus Status])
    else mret ()
  else mret ().

(** ** Memory map *)

(** One descriptor, field by field; the source is read again for every field. *)
Definition copy_descriptor (m : ram) (pEfiDesc pDesc : Z) : ram :=
  let m := write_at m pDesc (le_bytes 8 (PhysicalStart (EfiDescriptorAt pEfiDesc m))) in
  let m := write_at m (pDesc + 8) (le_bytes 8 (NumberOfPages (EfiDescriptorAt pEfiDesc m))) in
  let m := write_at m (pDesc + 16) (le_bytes 8 0) in
  let m := write_at m (pDesc + 24) (le_bytes 4 (efiType (EfiDescriptorAt pEfiDesc m))) in
  write_at m (pDesc + 28) (le_bytes 4 0).
Fixpoint copy_loop (n : nat) (i pMemoryMap szDescriptor : Z) (m : ram) : ram :=
  match n with
  | O => m
  | S n' =>
      let m := copy_descriptor m (u64 (pMemoryMap + u64 (i * szDescriptor))) (MEMORY_MAP_ADDRESS + i * sizeof_KrMemoryDescriptor) in
      copy_loop n' (i + 1) pMemoryMap szDescriptor m
  end.

(** ** efi_main *)

(** The file system the boot files are read from: the volume of the second handle. *)
Definition open_volume : boot W Z :=
  '(Status, handles) ← call LocateHandleBuffer;
  if EFI_ERROR Status then _ ← run (FwPrint "Failed to locate FS handles: %r\n" [PStatus Status]); fail Status
  else
    h ← lift (checked (handles !! 1%nat));
    '(Status, pFileSystem) ← call (HandleProtocol h);
    if EFI_ERROR Status then _ ← run (FwPrint "Failed to open OS FS handle: %r\n" [PStatus Status]); fail Status
    else
      '(Status, pOsFileSystem) ← call (OpenVolume pFileSystem);
      if EFI_ERROR Status then _ ← run (FwPrint "Failed to open OS volume: %r\n" [PStatus Status]); fail Status
      else mret pOsFileSystem.

(** Both files; the size of the kernel. *)
Definition load_files (pOsFileSystem : Z) : boot W Z :=
  '(Status, _) ← YchbootReadFile pOsFileSystem BOOTELVT_FILE_NAME BOOTELVT_LOAD_ADDRESS;
  if EFI_ERROR Status then _ ← run (FwPrint "CRITICAL BOOT CHAIN ERROR: BOOT ELEVATE (BOOTELVT.BIN) NOT FOUND!\n" []); fail Status
  else
    '(Status, KernelSize) ← YchbootReadFile pOsFileSystem KERNEL_FILE_NAME KERNEL_LOAD_ADDRESS;
    if EFI_ERROR Status then _ ← run (FwPrint "CRITICAL BOOT CHAIN ERROR: KERNEL (KRNLYCH.KR) NOT FOUND!\n" []); fail Status
    else mret KernelSize.

Definition locate_gop : boot W Z :=
  '(Status, pGOP) ← call LocateGop;
  if EFI_ERROR Status then _ ← run (FwPrint "GOP (Graphics Output Protocol) not found: %r\n" [PStatus Status]); fail Status
  else mret pGOP.

(** The second reply and the buffer it describes. *)
Definition get_memory_map : boot W (Z * MapReply) :=
  '(Status, r) ← call (GetMemoryMap 0 0);
  if negb (Status =? EFI_BUFFER_TOO_SMALL) then _ ← run (FwPrint "Failed to acquire the memory map: %r\n" [PStatus Status]); fail Status
  else
    let szMemoryMap := u64 (mapSize r + u64 (descSize r * 2)) in
    pMemoryMap ← call (AllocatePool szMemoryMap);
    '(Status, r) ← call (GetMemoryMap szMemoryMap pMemoryMap);
    if EFI_ERROR Status then _ ← run (FwPrint "Failed to acquire the memory map(2nd pass): %r\n" [PStatus Status]); fail Status
    else mret (pMemoryMap, r).

(** BootInfo as it is before the memory map fields are set. *)
Definition boot_info (KernelSize : Z) (g : GopMode) (Rsdp : Z) (map : KrMemoryMapInfo) : KrSystemInfoPack :=
  mkPack SYSTEM_INFO_PACK_MAGIC KernelSize KERNEL_LOAD_ADDRESS KERNEL_VIRTUAL_ADDRESS
    (u64 (KERNEL_LOAD_ADDRESS + KERNEL_RESERVE_SIZE)) (u64 (KERNEL_VIRTUAL_ADDRESS + KERNEL_RESERVE_SIZE))
    BOOTSTRAP_KERNEL_AREA_BEGIN BOOTSTRAP_KERNEL_AREA_SIZE KERNEL_RESERVE_SIZE
    (mkGraphics (FrameBufferBase g) (FrameBufferSize g) (HorizontalResolution (ModeInfo g)) (VerticalResolution (ModeInfo g)) (ScanLinePixels (ModeInfo g)))
    MEMORY_MAP_ADDRESS map Rsdp.
Definition map_info (r : MapReply) : KrMemoryMapInfo :=
  let n := mapSize r / descSize r in mkInfo (u64 (n * sizeof_KrMemoryDescriptor)) n 4096.

(** After ExitBootServices: the pack is complete, the descriptors are copied
    and control passes to BOOTELVT.  [pBootInfo] is the address of BootInfo. *)
Definition hand_over (pBootInfo : Z) (p : KrSystemInfoPack) (pMemoryMap : Z) (r : MapReply) : boot W Jump :=
  _ ← run (fun m => (m.1, copy_loop (Z.to_nat (mapSize r / descSize r)) 0 pMemoryMap (descSize r) (write_at m.2 pBootInfo (pack_bytes p))));
  mret (mkJump (KernelStackPhysicalBase p) sizeof_KrSystemInfoPack pBootInfo BOOTELVT_LOAD_ADDRESS).

(** [ECX] is the answer of CPUID leaf 1; [fuel] bounds the mode search. *)
Definition efi_main (ECX : Z) (fuel : nat) (pBootInfo ImageHandle pSystemTable : Z) : boot W Jump :=
  _ ← run (InitializeLib ImageHandle pSystemTable);
  _ ← run (FwPrint "YchBoot loaded.\n" []);
  pOsFileSystem ← open_volume;
  KernelSize ← load_files pOsFileSystem;
  pGOP ← locate_gop;
  _ ← select_mode fuel pGOP (YchbootIsHypervisorPresent ECX);
  g ← ask (GopCurrent pGOP);
  Rsdp ← YchbootLocateRSDP pSystemTable;
  '(pMemoryMap, r) ← get_memory_map;
  _ ← call (ExitBootServices ImageHandle (mapKey r));
  if descSize r =? 0 then lift Fault
  else hand_over pBootInfo (boot_info KernelSize g Rsdp (map_info r)) pMemoryMap r.
End Main.

(** ** Layout of the descriptors *)

(** The bytes of a KrMemoryDescriptor and the descriptor the loader makes of
    one of the firmware's. *)
Definition desc_bytes (d : KrMemoryDescriptor) : list Z :=
  le_bytes 8 (PhysicalBase d) ++ le_bytes 8 (PageCount d) ++ le_bytes 8 (Attributes d) ++ le_bytes 4 (Type_ d) ++ le_bytes 4 (Pad d).
Definition kr_descriptor (d : EfiMemoryDescriptor) : KrMemoryDescriptor := mkDesc (PhysicalStart d) (NumberOfPages d) 0 (efiType d) 0.

(** ** Reading the structures back *)

(** The fields of a packed structure at [p], as the receiver loads them. *)
Definition field (m : ram) (p off n : Z) : Z := le_value (rd m (p + off) n).
Definition read_pack (m : ram) (p : Z) : KrSystemInfoPack :=
  let f := field m p in
  mkPack (f 0 4) (f 4 8) (f 12 8) (f 20 8) (f 28 8) (f 36 8) (f 44 8) (f 52 8) (f 60 8)
    (mkGraphics (f 68 8) (f 76 8) (f 84 4) (f 88 4) (f 92 4))
    (f 100 8) (mkInfo (f 108 8) (f 116 8) (f 124 4)) (f 132 8).
Definition read_descriptor (m : ram) (p : Z) : KrMemoryDescriptor :=
  let f := field m p in mkDesc (f 0 8) (f 8 8) (f 16 8) (f 24 4) (f 28 4).
Definition read_descriptors (m : ram) (p n : Z) : list KrMemoryDescriptor :=
  (fun i => read_descriptor m (p + sizeof_KrMemoryDescriptor * i)) <$> seqZ 0 n.
