(* ===== verification/LoaderProps.v ===== *)
(** * What the boot loader guarantees *)
From Stdlib Require Import ZArith Lia String.
From stdpp Require Import base numbers list gmap.
From S2P Require Import Prelude Bytes MemoryMap Loader.
Open Scope Z_scope.

(** ** Choice of the video mode *)

(** Order of the search: by height, then by width. *)
Definition mode_lt (a b : ModeInformation) : Prop :=
  VerticalResolution a < VerticalResolution b \/
  (VerticalResolution a = VerticalResolution b /\ HorizontalResolution a < HorizontalResolution b).
Lemma better_mode_spec a b : better_mode a b = true <-> mode_lt b a.
Proof.
  unfold better_mode, mode_lt. rewrite orb_true_iff, andb_true_iff, !Z.gtb_lt, Z.eqb_eq. lia.
Qed.

Section Modes.
Context {W : Type} `{FW : Firmware W}.

(** A mode the loader would use. *)
Definition eligible (o : option ModeInformation) : option ModeInformation :=
  match o with
  | Some i => if is_16_9 i && (PixelFormat i =? PixelBlueGreenRedReserved8BitPerColor) then Some i else None
  | None => None
  end.
(** The eligible modes among [n] from [i] on, the search under a hypervisor
    ending with the first of 1280x720. *)
Fixpoint candidates (answers : Z -> option ModeInformation) (hyp : bool) (n : nat) (i : Z) : list (Z * ModeInformation) :=
  match n with
  | O => []
  | S n' =>
      match eligible (answers i) with
      | Some info => (i, info) :: if hyp && is_720p info then [] else candidates answers hyp n' (i + 1)
      | None => candidates answers hyp n' (i + 1)
      end
  end.
(** The first of the largest candidates. *)
Definition pick (best : Z * ModeInformation) (l : list (Z * ModeInformation)) : Z * ModeInformation :=
  foldl (fun b c => if better_mode c.2 b.2 then c else b) best l.

(** The modes of a graphics device do not depend on when they are queried. *)
Record modes_are (pGOP : Z) (live : W * ram -> Prop) (answers : Z -> option ModeInformation) (Max : Z) : Prop := {
  ma_max : forall m, live m -> MaxMode (GopCurrent pGOP m) = Max;
  ma_range : 0 <= Max < 2 ^ 32;
  ma_query : forall m i, live m -> exists m' Status info, GopQueryMode pGOP i m = (m', (Status, info)) /\ live m' /\
    answers i = if EFI_ERROR Status then None else Some info
}.

Lemma mode_loop_picks pGOP live answers Max hyp : modes_are pGOP live answers Max ->
  forall n fuel i best cache m, live m -> 0 <= i -> i + Z.of_nat n = Max -> (n < fuel)%nat ->
  exists m', mode_loop fuel pGOP hyp i best cache m = Done (m', inr (pick (best, cache) (candidates answers hyp n i))) /\ live m'.
Proof.
  intros HM n. induction n as [|n IH]; intros fuel i best cache m Hm Hi Hn Hf; (destruct fuel as [|fuel]; [lia|]); cbn [mode_loop candidates].
  - unfold mbind at 1, boot_bind, ask. cbn. rewrite (ma_max _ _ _ _ HM _ Hm). zcase; [lia|]. by exists m.
  - unfold mbind at 1, boot_bind, ask. cbn. rewrite (ma_max _ _ _ _ HM _ Hm). zcase; [|lia].
    destruct (ma_query _ _ _ _ HM m i Hm) as (m1 & st & info & Hq & Hm1 & Ha).
    unfold mbind at 1, boot_bind, call. rewrite Hq. cbn [mbind outcome_bind].
    assert (u32 (i + 1) = i + 1) as Ei by (apply u32_small; pose proof (ma_range _ _ _ _ HM); lia).
    assert (forall b c, exists m', mode_loop fuel pGOP hyp (u32 (i + 1)) b c m1 =
      Done (m', inr (pick (b, c) (candidates answers hyp n (i + 1)))) /\ live m') as Hnext by (intros b c; rewrite Ei; apply IH; (done || lia)).
    rewrite Ha. destruct (EFI_ERROR st); [apply Hnext|]. cbn [eligible].
    destruct (is_16_9 info); cbn [negb andb]; [|apply Hnext].
    destruct (PixelFormat info =? _); [|apply Hnext].
    unfold pick. cbn [foldl]. fold (pick (if better_mode info cache then (i, info) else (best, cache))). cbn [snd].
    destruct (better_mode info cache), (hyp && is_720p info); try apply Hnext; exists m1; done.
Qed.

(** What [pick] yields: nothing better is listed, and all before it is worse. *)
Definition first_best (d : Z * ModeInformation) (l : list (Z * ModeInformation)) (r : Z * ModeInformation) : Prop :=
  (forall c, c ∈ l -> ~ mode_lt r.2 c.2) /\
  (r = d \/ exists l1 l2, l = l1 ++ r :: l2 /\ mode_lt d.2 r.2 /\ forall c, c ∈ l1 -> mode_lt c.2 r.2).
Lemma pick_snoc d l c : pick d (l ++ [c]) = if better_mode c.2 (pick d l).2 then c else pick d l.
Proof. unfold pick. by rewrite foldl_snoc. Qed.
Lemma pick_first_best l d : first_best d l (pick d l).
Proof.
  induction l as [|c l IH] using rev_ind; [split; [intros c Hc; by apply elem_of_nil in Hc|by left]|].
  rewrite pick_snoc. destruct IH as [Hmax Hfst].
  destruct (better_mode c.2 (pick d l).2) eqn:Eb.
  - apply better_mode_spec in Eb.
    assert (forall x, x ∈ l -> mode_lt x.2 c.2) as Hlt.
    { intros x Hx. specialize (Hmax x Hx). unfold mode_lt in *. lia. }
    split.
    + intros x. rewrite elem_of_app, list_elem_of_singleton. intros [Hx| ->]; [specialize (Hlt x Hx)|]; unfold mode_lt in *; lia.
    + right. exists l, []. split; [done|]. split; [|done].
      destruct Hfst as [E|(l1 & l2 & _ & Hd & _)]; [by rewrite <- E|]. unfold mode_lt in *. lia.
  - assert (~ mode_lt (pick d l).2 c.2) as Hn by (rewrite <- better_mode_spec; congruence).
    split.
    + intros x. rewrite elem_of_app, list_elem_of_singleton. intros [Hx| ->]; [by apply Hmax|done].
    + destruct Hfst as [->|(l1 & l2 & E & Hd & Hb)]; [by left|]. right. exists l1, (l2 ++ [c]). rewrite E at 1. by rewrite <- app_assoc.
Qed.
End Modes.

(** ** Computations that do not return to the firmware *)

Section Yields.
Context {W : Type} {A B : Type}.
Definition yields {A} (c : boot W A) (m : W * ram) (Q : W * ram -> A -> Prop) : Prop := exists m' a, c m = Done (m', inr a) /\ Q m' a.
Lemma yields_bind (c : boot W A) (f : A -> boot W B) m Q : yields c m (fun m' a => yields (f a) m' Q) -> yields (c ≫= f) m Q.
Proof. intros (m' & a & E & m2 & b & Ef & HQ). exists m2, b. split; [|done]. unfold mbind, boot_bind. by rewrite E. Qed.
Lemma yields_mono (c : boot W A) m (Q Q' : W * ram -> A -> Prop) : yields c m Q -> (forall m' a, Q m' a -> Q' m' a) -> yields c m Q'.
Proof. intros (m' & a & E & HQ) H. exists m', a. auto. Qed.
Lemma yields_ret (a : A) m (Q : W * ram -> A -> Prop) : Q m a -> yields (mret a) m Q.
Proof. intros. by exists m, a. Qed.
Lemma yields_call (f : W * ram -> W * ram * A) m m' a (Q : W * ram -> A -> Prop) : f m = (m', a) -> Q m' a -> yields (call f) m Q.
Proof. intros E HQ. exists m', a. unfold call. by rewrite E. Qed.
Lemma yields_run (f : W * ram -> W * ram) m (Q : W * ram -> unit -> Prop) : Q (f m) () -> yields (run f) m Q.
Proof. intros. by exists (f m), (). Qed.
Lemma yields_ask (f : W * ram -> A) m (Q : W * ram -> A -> Prop) : Q m (f m) -> yields (ask f) m Q.
Proof. intros. by exists m, (f m). Qed.
End Yields.

(** ** A firmware that serves the loader *)

Definition path_ok (path : string) : Prop := path = BOOTELVT_FILE_NAME \/ path = KERNEL_FILE_NAME.

Section Served.
Context {W : Type} `{FW : Firmware W}.
(** The states in which boot services answer, the graphics device and its
    modes, whether it accepts new modes, the files, the memory AllocatePool may
    return, the size
    of the memory map and of its descriptors, the largest request for memory, and
    the map itself. *)
Context (live : W * ram -> Prop) (pGOP : Z) (answers : Z -> option ModeInformation) (Max : Z) (sets : bool)
  (content : string -> list Z) (file_at : W * ram -> Z -> string -> Prop) (pool : Z -> Z -> Prop)
  (needed dsz limit : Z) (emap : W * ram -> list EfiMemoryDescriptor) (N : Z) (pSystemTable : Z).

(** The memory the loader fills at fixed addresses. *)
Definition area (a : Z) : Prop :=
  MEMORY_MAP_ADDRESS <= a < MEMORY_MAP_ADDRESS + 32 * N \/
  BOOTELVT_LOAD_ADDRESS <= a < BOOTELVT_LOAD_ADDRESS + Z.of_nat (length (content BOOTELVT_FILE_NAME)) \/
  KERNEL_LOAD_ADDRESS <= a < KERNEL_LOAD_ADDRESS + Z.of_nat (length (content KERNEL_FILE_NAME)).

(** What a service leaves as it was. *)
Record unmoved (m m' : W * ram) : Prop := {
  um_live : live m';
  um_tables : ConfigurationTable pSystemTable m' = ConfigurationTable pSystemTable m;
  um_files : forall f p, file_at m f p -> file_at m' f p
}.
Record kept (m m' : W * ram) : Prop := {
  kp_unmoved : unmoved m m';
  kp_area : forall a, area a -> m'.2 !! a = m.2 !! a;
  kp_mode : GopCurrent pGOP m' = GopCurrent pGOP m
}.

(** The documented behaviour of the services, none of them failing except
    possibly SetMode; the firmware does not use the memory at the loader's
    fixed addresses. *)
Record services : Prop := {
  sv_init : forall m i t, live m -> kept m (InitializeLib i t m);
  sv_print : forall m s l, live m -> kept m (FwPrint s l m);
  sv_handles : forall m, live m -> exists m' Status h0 h1 rest,
    LocateHandleBuffer m = (m', (Status, h0 :: h1 :: rest)) /\ EFI_ERROR Status = false /\ kept m m';
  sv_protocol : forall m h, live m -> exists m' Status fs, HandleProtocol h m = (m', (Status, fs)) /\ EFI_ERROR Status = false /\ kept m m';
  sv_volume : forall m fs, live m -> exists m' Status root, OpenVolume fs m = (m', (Status, root)) /\ EFI_ERROR Status = false /\ kept m m';
  sv_open : forall m root path, live m -> path_ok path -> exists m' Status f,
    FileOpen root path m = (m', (Status, f)) /\ EFI_ERROR Status = false /\ kept m m' /\ file_at m' f path;
  sv_alloc : forall m n, live m -> n <= limit -> exists m' p, AllocatePool n m = (m', p) /\ kept m m' /\ pool p n;
  sv_free : forall m p, live m -> kept m (FreePool p m);
  sv_info : forall m f n p path, live m -> file_at m f path -> pool p n -> exists m' Status,
    FileGetInfo f n p m = (m', Status) /\ EFI_ERROR Status = false /\ kept m m' /\ FileInfoSize p m'.2 = Z.of_nat (length (content path));
  sv_read : forall m f n a path, live m -> file_at m f path -> n = Z.of_nat (length (content path)) -> exists m' Status,
    FileRead f n a m = (m', (Status, n)) /\ EFI_ERROR Status = false /\ unmoved m m' /\ GopCurrent pGOP m' = GopCurrent pGOP m /\
    forall b, area b -> m'.2 !! b = write_at m.2 a (content path) !! b;
  sv_close : forall m f, live m -> kept m (FileClose f m);
  sv_gop : forall m, live m -> exists m' Status, LocateGop m = (m', (Status, pGOP)) /\ EFI_ERROR Status = false /\ kept m m';
  sv_max : forall m, live m -> MaxMode (GopCurrent pGOP m) = Max;
  sv_query : forall m i, live m -> exists m' Status info, GopQueryMode pGOP i m = (m', (Status, info)) /\ kept m m' /\
    answers i = if EFI_ERROR Status then None else Some info;
  sv_set : forall m i info, live m -> answers i = Some info -> exists m' Status, GopSetMode pGOP i m = (m', Status) /\
    EFI_ERROR Status = negb sets /\ unmoved m m' /\ (forall a, area a -> m'.2 !! a = m.2 !! a) /\
    (sets = true -> ModeInfo (GopCurrent pGOP m') = info);
  sv_map_size : forall m, live m -> exists m' r, GetMemoryMap 0 0 m = (m', (EFI_BUFFER_TOO_SMALL, r)) /\ kept m m' /\
    needed <= u64 (mapSize r + u64 (descSize r * 2)) <= limit;
  sv_map : forall m n p, live m -> pool p n -> needed <= n -> exists m' Status r, GetMemoryMap n p m = (m', (Status, r)) /\
    EFI_ERROR Status = false /\ kept m m' /\ descSize r = dsz /\ mapSize r = Z.of_nat (length (emap m')) * dsz /\ mapSize r <= n /\
    forall i d, emap m' !! i = Some d -> EfiDescriptorAt (p + Z.of_nat i * dsz) m'.2 = d;
  sv_exit : forall m i k, live m -> exists m' Status, ExitBootServices i k m = (m', Status) /\
    (forall a, area a -> m'.2 !! a = m.2 !! a) /\ (forall p n a, pool p n -> p <= a < p + n -> m'.2 !! a = m.2 !! a);
  sv_descriptor : forall p n i (m m' : ram), 0 <= i -> pool p n -> p + (i + 1) * dsz <= p + n ->
    (forall a, p + i * dsz <= a < p + (i + 1) * dsz -> m' !! a = m !! a) ->
    EfiDescriptorAt (p + i * dsz) m' = EfiDescriptorAt (p + i * dsz) m;
  sv_pool : forall p n, pool p n -> 0 <= p /\ p + n < 2 ^ 64 /\ forall a, area a -> a < p \/ p + n <= a
}.
(** The sizes the fixed addresses allow for. *)
Record fits (pBootInfo : Z) : Prop := {
  ft_max : 0 <= Max < 2 ^ 32;
  ft_dsz : 0 < dsz;
  ft_limit : u64 (sizeof_EFI_FILE_INFO + 1024) <= limit;
  ft_entries : forall m, Z.of_nat (length (emap m)) <= N;
  ft_map : MEMORY_MAP_ADDRESS + 32 * N <= BOOTELVT_LOAD_ADDRESS;
  ft_bootelvt : BOOTELVT_LOAD_ADDRESS + Z.of_nat (length (content BOOTELVT_FILE_NAME)) <= KERNEL_LOAD_ADDRESS;
  ft_pack : forall a, pBootInfo <= a < pBootInfo + sizeof_KrSystemInfoPack -> ~ area a;
  ft_pack_pool : forall p n a, pool p n -> pBootInfo <= a < pBootInfo + sizeof_KrSystemInfoPack -> a < p \/ p + n <= a
}.

Lemma unmoved_refl m : live m -> unmoved m m.
Proof. by split. Qed.
Lemma unmoved_trans m m1 m2 : unmoved m m1 -> unmoved m1 m2 -> unmoved m m2.
Proof. intros [L T F] [L' T' F']. split; [done|congruence|auto]. Qed.
Lemma kept_refl m : live m -> kept m m.
Proof. split; [by apply unmoved_refl|done..]. Qed.
Lemma kept_trans m m1 m2 : kept m m1 -> kept m1 m2 -> kept m m2.
Proof.
  intros [U A G] [U' A' G']. split; [by eapply unmoved_trans| |congruence].
  intros a Ha. by rewrite A', A.
Qed.
Lemma kept_live m m' : kept m m' -> live m'.
Proof. by intros [[]]. Qed.
#[local] Hint Resolve kept_refl unmoved_refl kept_live um_live kp_unmoved : core.
#[local] Hint Extern 2 (kept _ _) => (eapply kept_trans; [eassumption|eassumption]) : core.

(** Area bytes of a memory that a file was written to. *)
Lemma write_at_area (m m' : ram) a data b : m' !! b = m !! b -> write_at m' a data !! b = write_at m a data !! b.
Proof. intros E. rewrite !write_at_lookup. by destruct (decide _). Qed.

(** Writing is seen at the bytes of the area. *)
Record filed (m m' : W * ram) (a : Z) (data : list Z) : Prop := {
  fd_unmoved : unmoved m m';
  fd_mode : GopCurrent pGOP m' = GopCurrent pGOP m;
  fd_area : forall b, area b -> m'.2 !! b = write_at m.2 a data !! b
}.

Hypothesis SV : services.

Lemma read_file_loads pB root path a m : fits pB -> live m -> path_ok path ->
  yields (YchbootReadFile root path a) m (fun m' r => EFI_ERROR r.1 = false /\ r.2 = Z.of_nat (length (content path)) /\ filed m m' a (content path)).
Proof.
  intros HF Hm Hp. unfold YchbootReadFile.
  destruct (sv_open SV m root path Hm Hp) as (m1 & st & f & E & Hst & K1 & Hf).
  apply yields_bind. eapply yields_call; [exact E|]. cbn beta iota. rewrite Hst.
  destruct (sv_alloc SV m1 (u64 (sizeof_EFI_FILE_INFO + 1024)) (kept_live _ _ K1) (ft_limit _ HF)) as (m2 & p & E2 & K2 & Hpool).
  apply yields_bind. eapply yields_call; [exact E2|].
  destruct (sv_info SV m2 f (u64 (sizeof_EFI_FILE_INFO + 1024)) p path (kept_live _ _ K2) (um_files _ _ (kp_unmoved _ _ K2) _ _ Hf) Hpool)
    as (m3 & st3 & E3 & Hst3 & K3 & Hsz).
  apply yields_bind. eapply yields_call; [exact E3|]. rewrite Hst3.
  apply yields_bind, yields_ask, yields_bind, yields_run. rewrite Hsz.
  pose proof (sv_free SV m3 p (kept_live _ _ K3)) as K4. set (m4 := FreePool p m3) in *.
  assert (kept m m4) as K by eauto 8 using kept_trans.
  assert (file_at m4 f path) as Hf4.
  { apply (um_files _ _ (kp_unmoved _ _ K4)), (um_files _ _ (kp_unmoved _ _ K3)), (um_files _ _ (kp_unmoved _ _ K2)), Hf. }
  destruct (sv_read SV m4 f _ a path (kept_live _ _ K4) Hf4 eq_refl) as (m5 & st5 & E5 & Hst5 & U5 & G5 & A5).
  apply yields_bind. eapply yields_call; [exact E5|]. cbn beta iota. rewrite Hst5.
  apply yields_bind, yields_run, yields_ret.
  pose proof (sv_close SV m5 f (um_live _ _ U5)) as K6. split; [done|]. split; [done|]. split.
  - eapply unmoved_trans; [by apply kp_unmoved|]. eapply unmoved_trans; [done|]. by apply kp_unmoved.
  - rewrite (kp_mode _ _ K6), G5. apply K.
  - intros b Hb. rewrite (kp_area _ _ K6), A5 by done. by apply write_at_area, K.
Qed.

Lemma open_volume_yields m : live m -> yields open_volume m (fun m' _ => kept m m').
Proof.
  intros Hm. unfold open_volume.
  destruct (sv_handles SV m Hm) as (m1 & st & h0 & h1 & rest & E & Hst & K1).
  apply yields_bind. eapply yields_call; [exact E|]. cbn beta iota. rewrite Hst.
  apply yields_bind. exists m1, h1. split; [done|].
  destruct (sv_protocol SV m1 h1 (kept_live _ _ K1)) as (m2 & st2 & fs & E2 & Hst2 & K2).
  apply yields_bind. eapply yields_call; [exact E2|]. cbn beta iota. rewrite Hst2.
  destruct (sv_volume SV m2 fs (kept_live _ _ K2)) as (m3 & st3 & root & E3 & Hst3 & K3).
  apply yields_bind. eapply yields_call; [exact E3|]. cbn beta iota. rewrite Hst3.
  apply yields_ret. eauto using kept_trans.
Qed.

Lemma locate_gop_yields m : live m -> yields locate_gop m (fun m' g => g = pGOP /\ kept m m').
Proof.
  intros Hm. unfold locate_gop. destruct (sv_gop SV m Hm) as (m1 & st & E & Hst & K).
  apply yields_bind. eapply yields_call; [exact E|]. cbn beta iota. rewrite Hst. by apply yields_ret.
Qed.

(** Both files in place; the rest of the area as it was. *)
Record loaded (m m' : W * ram) : Prop := {
  ld_unmoved : unmoved m m';
  ld_mode : GopCurrent pGOP m' = GopCurrent pGOP m;
  ld_bootelvt : rd m'.2 BOOTELVT_LOAD_ADDRESS (Z.of_nat (length (content BOOTELVT_FILE_NAME))) = content BOOTELVT_FILE_NAME;
  ld_kernel : rd m'.2 KERNEL_LOAD_ADDRESS (Z.of_nat (length (content KERNEL_FILE_NAME))) = content KERNEL_FILE_NAME
}.

Lemma load_files_yields pB root m : fits pB -> live m ->
  yields (load_files root) m (fun m' sz => sz = Z.of_nat (length (content KERNEL_FILE_NAME)) /\ loaded m m').
Proof.
  intros HF Hm. unfold load_files.
  destruct (read_file_loads pB root BOOTELVT_FILE_NAME BOOTELVT_LOAD_ADDRESS m HF Hm ltac:(by left)) as (m1 & [st n] & E & Hst & Hn & F1).
  apply yields_bind. exists m1, (st, n). split; [exact E|]. cbn [fst snd] in *. rewrite Hst.
  destruct (read_file_loads pB root KERNEL_FILE_NAME KERNEL_LOAD_ADDRESS m1 HF (um_live _ _ (fd_unmoved _ _ _ _ F1)) ltac:(by right))
    as (m2 & [st2 n2] & E2 & Hst2 & Hn2 & F2).
  apply yields_bind. exists m2, (st2, n2). split; [exact E2|]. cbn [fst snd] in *. rewrite Hst2.
  apply yields_ret. split; [done|].
  pose proof (ft_bootelvt _ HF) as Hb. destruct F1 as [U1 G1 A1], F2 as [U2 G2 A2]. split.
  - by eapply unmoved_trans.
  - by rewrite G2.
  - rewrite <- (rd_same (content BOOTELVT_FILE_NAME) m.2 BOOTELVT_LOAD_ADDRESS) at 2. apply rd_ext. intros i Hi.
    rewrite A2 by (right; left; lia). rewrite write_at_lookup, decide_False by lia. by rewrite A1 by (right; left; lia).
  - rewrite <- (rd_same (content KERNEL_FILE_NAME) m1.2 KERNEL_LOAD_ADDRESS) at 2. apply rd_ext. intros i Hi. by rewrite A2 by (right; right; lia).
Qed.

(** The mode that is on after the search. *)
Definition chosen (hyp : bool) : Z * ModeInformation := pick (u32 (-1), no_mode) (candidates answers hyp (Z.to_nat Max) 0).
Definition usable (c : Z * ModeInformation) : bool :=
  negb (c.1 =? u32 (-1)) && negb (VerticalResolution c.2 =? 0) && negb (HorizontalResolution c.2 =? 0).
Record mode_set (hyp : bool) (m m' : W * ram) : Prop := {
  ms_unmoved : unmoved m m';
  ms_area : forall a, area a -> m'.2 !! a = m.2 !! a;
  ms_selected : usable (chosen hyp) = true -> sets = true -> ModeInfo (GopCurrent pGOP m') = (chosen hyp).2;
  ms_none : usable (chosen hyp) = false -> GopCurrent pGOP m' = GopCurrent pGOP m
}.

Lemma candidates_answer hyp n : forall i c, c ∈ candidates answers hyp n i -> answers c.1 = Some c.2.
Proof.
  induction n as [|n IH]; intros i c; cbn [candidates]; [by intros ?%elem_of_nil|].
  destruct (eligible (answers i)) as [info|] eqn:El; [|apply IH].
  rewrite elem_of_cons. intros [->|Hc].
  - unfold eligible in El. destruct (answers i) as [x|] eqn:Ea; [|done]. destruct (is_16_9 x && _); [|done]. by injection El as <-.
  - destruct (hyp && is_720p info); [by apply elem_of_nil in Hc|by eapply IH].
Qed.
Lemma chosen_answer hyp : chosen hyp = (u32 (-1), no_mode) \/ answers (chosen hyp).1 = Some (chosen hyp).2.
Proof.
  unfold chosen. pose proof (pick_first_best (candidates answers hyp (Z.to_nat Max) 0) (u32 (-1), no_mode)) as [_ HF].
  revert HF. generalize (pick (u32 (-1), no_mode) (candidates answers hyp (Z.to_nat Max) 0)) as r.
  intros r [->|(l1 & l2 & E & _)]; [by left|]. right. apply (candidates_answer hyp (Z.to_nat Max) 0).
  rewrite E, elem_of_app, elem_of_cons. by right; left.
Qed.

Lemma select_mode_yields pB hyp fuel m : fits pB -> live m -> (Z.to_nat Max < fuel)%nat ->
  yields (select_mode fuel pGOP hyp) m (fun m' _ => mode_set hyp m m').
Proof.
  intros HF Hm Hf. unfold select_mode.
  assert (modes_are pGOP (kept m) answers Max) as HM.
  { split; [intros x Kx; apply (sv_max SV); eauto|by eapply ft_max|]. intros x i Kx.
    destruct (sv_query SV x i (kept_live _ _ Kx)) as (x' & st & info & E & K & Ha). exists x', st, info. split; [done|]. split; [|done]. eauto using kept_trans. }
  destruct (mode_loop_picks pGOP _ answers Max hyp HM (Z.to_nat Max) fuel 0 (u32 (-1)) no_mode m (kept_refl _ Hm) ltac:(lia))
    as (m1 & E & K); [pose proof (ft_max _ HF); lia|lia|].
  apply yields_bind. eexists m1, _. split; [exact E|]. change (pick _ _) with (chosen hyp).
  pose proof (chosen_answer hyp) as Hc.
  destruct (chosen hyp) as [best cache] eqn:Ec. cbn [fst snd] in *.
  change (negb (best =? u32 (-1)) && _ && _) with (usable (best, cache)). destruct (usable (best, cache)) eqn:Hu.
  - destruct Hc as [Hc|Hc]; [injection Hc as -> ->; vm_compute in Hu; discriminate|].
    destruct (sv_set SV m1 best cache (kept_live _ _ K) Hc) as (m2 & st & E2 & Hst & U & A & Hset).
    apply yields_bind. eapply yields_call; [exact E2|]. rewrite Hst.
    assert (mode_set hyp m m2) as HS.
    { split; [eauto using unmoved_trans|intros a Ha; rewrite A by done; by apply K|rewrite Ec, Hu; intros _; apply Hset|by rewrite Ec, Hu]. }
    destruct sets; cbn [negb]; [by apply yields_ret|]. apply yields_run.
    pose proof (sv_print SV m2 "WARN: GOP SetVideoMode failed: %r. Boot-time default video mode will be used.\n" [PStatus st] (um_live _ _ U)) as K3.
    destruct HS as [U' A' S' N']. split; [eauto using unmoved_trans|intros a Ha; rewrite (kp_area _ _ K3) by done; auto|by rewrite (kp_mode _ _ K3)|].
    intros Hn. rewrite (kp_mode _ _ K3). auto.
  - apply yields_ret. split; [by apply kp_unmoved|apply K|by rewrite Ec, Hu|intros _; apply K].
Qed.

Lemma get_memory_map_yields m : live m -> yields get_memory_map m (fun m' pr =>
  kept m m' /\ exists n, pool pr.1 n /\ descSize pr.2 = dsz /\ mapSize pr.2 = Z.of_nat (length (emap m')) * dsz /\ mapSize pr.2 <= n /\
  forall i d, emap m' !! i = Some d -> EfiDescriptorAt (pr.1 + Z.of_nat i * dsz) m'.2 = d).
Proof.
  intros Hm. unfold get_memory_map. destruct (sv_map_size SV m Hm) as (m1 & r & E & K1 & Hn).
  apply yields_bind. eapply yields_call; [exact E|]. cbn beta iota. rewrite Z.eqb_refl. cbn [negb].
  destruct (sv_alloc SV m1 (u64 (mapSize r + u64 (descSize r * 2))) (kept_live _ _ K1) (proj2 Hn)) as (m2 & p & E2 & K2 & Hp).
  apply yields_bind. eapply yields_call; [exact E2|].
  destruct (sv_map SV m2 _ p (kept_live _ _ K2) Hp (proj1 Hn)) as (m3 & st & r3 & E3 & Hst & K3 & Hd & Hs & Hle & He).
  apply yields_bind. eapply yields_call; [exact E3|]. cbn beta iota. rewrite Hst. apply yields_ret.
  split; [eauto using kept_trans|]. by exists (u64 (mapSize r + u64 (descSize r * 2))).
Qed.

(** *** Copying the map *)

Lemma copy_descriptor_writes (m : ram) pE pD :
  (forall m', (forall a, ~ pD <= a < pD + 32 -> m' !! a = m !! a) -> EfiDescriptorAt pE m' = EfiDescriptorAt pE m) ->
  copy_descriptor m pE pD = write_at m pD (desc_bytes (kr_descriptor (EfiDescriptorAt pE m))).
Proof.
  intros H. unfold copy_descriptor. set (d := EfiDescriptorAt pE m) in *.
  assert (forall l a, pD <= a -> a + Z.of_nat (length l) <= pD + 32 -> forall m', (forall x, ~ pD <= x < pD + 32 -> m' !! x = m !! x) ->
    forall x, ~ pD <= x < pD + 32 -> write_at m' a l !! x = m !! x) as Hout.
  { intros l a Ha Hl m' Hm' x Hx. rewrite write_at_lookup, decide_False by lia. by apply Hm'. }
  unfold desc_bytes, kr_descriptor. cbn [PhysicalBase PageCount Attributes Type_ Pad]. rewrite <- !write_at_snoc, !le_bytes_length.
  change (Z.of_nat 8) with 8. change (Z.of_nat 4) with 4. rewrite <- !(Z.add_assoc pD). cbn [Z.add Pos.add Pos.succ].
  rewrite !H; [done|..]; repeat (apply Hout; [rewrite ?le_bytes_length; lia..|]); done.
Qed.

Lemma copy_loop_copies p n (m : ram) (ds : list EfiMemoryDescriptor) : pool p n -> Z.of_nat (length ds) * dsz <= n -> 0 < dsz ->
  Z.of_nat (length ds) <= N -> (forall i d, ds !! i = Some d -> EfiDescriptorAt (p + Z.of_nat i * dsz) m = d) ->
  forall k, (k <= length ds)%nat ->
  let m' := copy_loop (length ds - k) (Z.of_nat k) p dsz (write_at m MEMORY_MAP_ADDRESS (concat (desc_bytes ∘ kr_descriptor <$> take k ds))) in
  m' = write_at m MEMORY_MAP_ADDRESS (concat (desc_bytes ∘ kr_descriptor <$> ds)).
Proof.
  intros Hp Hn Hd HN Hds k Hk. remember (length ds - k)%nat as j eqn:Ej. revert k Hk Ej.
  induction j as [|j IH]; intros k Hk Ej; cbn [copy_loop]; [by rewrite take_ge by lia|].
  destruct (lookup_lt_is_Some_2 ds k ltac:(lia)) as [d Hkd]. destruct (sv_pool SV p n Hp) as (Hp0 & Hpn & Hpa).
  assert (forall l, length (concat (desc_bytes ∘ kr_descriptor <$> l)) = (32 * length l)%nat) as Hlen.
  { clear. induction l as [|x l IH]; [done|]. cbn [fmap list_fmap concat length]. rewrite length_app, IH. cbn. lia. }
  assert ((Z.of_nat k + 1) * dsz <= n) as Hkn by (etrans; [apply Z.mul_le_mono_nonneg_r; [lia|]|exact Hn]; lia).
  rewrite (u64_small (_ * _)), u64_small by nia. unfold sizeof_KrMemoryDescriptor.
  assert (forall m1, (forall a, ~ area a -> m1 !! a = m !! a) -> EfiDescriptorAt (p + Z.of_nat k * dsz) m1 = d) as Hread.
  { intros m1 Hm1. rewrite <- (Hds k d Hkd). apply (sv_descriptor SV p n); [lia|done|nia|].
    intros a Ha. apply Hm1. intros Har. destruct (Hpa a Har); nia. }
  assert (forall a, ~ area a -> write_at m MEMORY_MAP_ADDRESS (concat (desc_bytes ∘ kr_descriptor <$> take k ds)) !! a = m !! a) as Hout.
  { intros a Ha. rewrite write_at_lookup, Hlen, length_take. rewrite decide_False; [done|]. intros Hr. apply Ha. left. lia. }
  rewrite copy_descriptor_writes.
  - rewrite (Hread _ Hout). rewrite <- (IH (S k)) by lia. rewrite (take_S_r _ _ d) by done.
    rewrite fmap_app, concat_app. cbn [fmap list_fmap concat]. rewrite app_nil_r, <- write_at_snoc, Hlen, length_take, Nat.min_l by lia.
    do 3 f_equal; lia.
  - intros m1 Hm1. rewrite (Hread _ Hout). apply Hread. intros a Ha. rewrite Hm1; [by apply Hout|]. intros Hr. apply Ha. left. lia.
Qed.

(** *** The whole loader *)

(** Control has passed to BOOTELVT: [mx] is the machine at ExitBootServices,
    [mj] the one at the jump. *)
Record handed_over (hyp : bool) (pBootInfo : Z) (m mx mj : W * ram) (j : Jump) : Prop := {
  ho_live : live mx;
  ho_jump : j = mkJump (KERNEL_LOAD_ADDRESS + KERNEL_RESERVE_SIZE) sizeof_KrSystemInfoPack pBootInfo BOOTELVT_LOAD_ADDRESS;
  ho_pack : rd mj.2 pBootInfo sizeof_KrSystemInfoPack =
    pack_bytes (boot_info (Z.of_nat (length (content KERNEL_FILE_NAME))) (GopCurrent pGOP mx)
                  (locate_table ACPI_20_TABLE_GUID (ConfigurationTable pSystemTable m))
                  (mkInfo (32 * Z.of_nat (length (emap mx))) (Z.of_nat (length (emap mx))) 4096));
  ho_bootelvt : rd mj.2 BOOTELVT_LOAD_ADDRESS (Z.of_nat (length (content BOOTELVT_FILE_NAME))) = content BOOTELVT_FILE_NAME;
  ho_kernel : rd mj.2 KERNEL_LOAD_ADDRESS (Z.of_nat (length (content KERNEL_FILE_NAME))) = content KERNEL_FILE_NAME;
  ho_map : rd mj.2 MEMORY_MAP_ADDRESS (32 * Z.of_nat (length (emap mx))) = concat (desc_bytes ∘ kr_descriptor <$> emap mx);
  ho_mode : usable (chosen hyp) = true -> sets = true -> ModeInfo (GopCurrent pGOP mx) = (chosen hyp).2
}.

Lemma pack_bytes_length p : Z.of_nat (length (pack_bytes p)) = sizeof_KrSystemInfoPack.
Proof. unfold pack_bytes, graphics_bytes, mapinfo_bytes. by rewrite !length_app, !le_bytes_length. Qed.
Lemma descs_length l : length (concat (desc_bytes ∘ kr_descriptor <$> l)) = (32 * length l)%nat.
Proof. induction l as [|x l IH]; [done|]. cbn [fmap list_fmap concat length]. rewrite length_app, IH. cbn. lia. Qed.

Lemma hand_over_yields hyp pB m mx me p r Rsdp K (g : GopMode) : fits pB -> live mx ->
  (exists n, pool p n /\ descSize r = dsz /\ mapSize r = Z.of_nat (length (emap mx)) * dsz /\ mapSize r <= n /\
     forall i d, emap mx !! i = Some d -> EfiDescriptorAt (p + Z.of_nat i * dsz) mx.2 = d) ->
  (forall a, area a -> me.2 !! a = mx.2 !! a) -> (forall p n a, pool p n -> p <= a < p + n -> me.2 !! a = mx.2 !! a) ->
  g = GopCurrent pGOP mx -> Rsdp = locate_table ACPI_20_TABLE_GUID (ConfigurationTable pSystemTable m) ->
  K = Z.of_nat (length (content KERNEL_FILE_NAME)) ->
  rd mx.2 BOOTELVT_LOAD_ADDRESS (Z.of_nat (length (content BOOTELVT_FILE_NAME))) = content BOOTELVT_FILE_NAME ->
  rd mx.2 KERNEL_LOAD_ADDRESS (Z.of_nat (length (content KERNEL_FILE_NAME))) = content KERNEL_FILE_NAME ->
  (usable (chosen hyp) = true -> sets = true -> ModeInfo (GopCurrent pGOP mx) = (chosen hyp).2) ->
  yields (hand_over pB (boot_info K g Rsdp (map_info r)) p r) me (fun mj j => handed_over hyp pB m mx mj j).
Proof.
  intros HF Hl (n & Hp & Hd & Hs & Hn & He) HA HP -> -> -> Hb Hk Hmode.
  pose proof (ft_entries _ HF mx) as HN. pose proof (ft_dsz _ HF) as Hdz. pose proof (ft_map _ HF) as HM.
  pose proof (ft_bootelvt _ HF) as HB. unfold BOOTELVT_LOAD_ADDRESS, KERNEL_LOAD_ADDRESS, MEMORY_MAP_ADDRESS in HM, HB.
  set (q := boot_info _ _ _ _).
  assert (mapSize r / descSize r = Z.of_nat (length (emap mx))) as Eq by (rewrite Hs, Hd; apply Z.div_mul; lia).
  unfold hand_over. apply yields_bind, yields_run, yields_ret. rewrite Eq, Nat2Z.id, Hd.
  destruct (sv_pool SV p n Hp) as (Hp0 & Hpn & Hpa).
  set (md := write_at me.2 pB (pack_bytes q)).
  assert (copy_loop (length (emap mx)) 0 p dsz md = write_at md MEMORY_MAP_ADDRESS (concat (desc_bytes ∘ kr_descriptor <$> emap mx))) as Ec.
  { pose proof (copy_loop_copies p n md (emap mx) Hp ltac:(lia) Hdz HN) as HC. cbv zeta in HC. rewrite <- (HC ltac:(
      intros i d Hi; rewrite <- (He i d Hi); apply lookup_lt_Some in Hi; apply (sv_descriptor SV p n); [lia|done|nia|];
      intros a Ha; unfold md; rewrite write_at_lookup, pack_bytes_length, decide_False;
      [apply (HP p n); [done|nia]|intros Hr; destruct (ft_pack_pool _ HF p n a Hp Hr); nia]) 0%nat ltac:(lia)).
    rewrite Nat.sub_0_r. done. }
  rewrite Ec.
  assert (forall a, area a -> md !! a = mx.2 !! a) as Hmd.
  { intros a Ha. unfold md. rewrite write_at_lookup, pack_bytes_length, decide_False; [by apply HA|]. intros Hr. by eapply ft_pack. }
  assert (forall off len, (forall a, off <= a < off + len -> area a) -> MEMORY_MAP_ADDRESS + 32 * N <= off ->
    rd (write_at md MEMORY_MAP_ADDRESS (concat (desc_bytes ∘ kr_descriptor <$> emap mx))) off len = rd mx.2 off len) as Hfile.
  { intros off len Har Hoff. apply rd_ext. intros a Ha. rewrite write_at_lookup, descs_length, decide_False by lia. by apply Hmd, Har. }
  split; cbn [snd].
  - done.
  - done.
  - transitivity (rd md pB sizeof_KrSystemInfoPack).
    + apply rd_ext. intros a Ha. rewrite write_at_lookup, descs_length, decide_False; [done|].
      intros Hr. eapply ft_pack; [done|exact Ha|]. left. lia.
    + unfold md. rewrite rd_written by apply pack_bytes_length. unfold q, map_info. rewrite Eq, u64_small by (unfold sizeof_KrMemoryDescriptor; lia).
      unfold sizeof_KrMemoryDescriptor. by rewrite Z.mul_comm.
  - rewrite Hfile; [done| |unfold BOOTELVT_LOAD_ADDRESS, MEMORY_MAP_ADDRESS; lia]. intros a Ha. right. by left.
  - rewrite Hfile; [done| |unfold KERNEL_LOAD_ADDRESS, MEMORY_MAP_ADDRESS; lia]. intros a Ha. right. by right.
  - apply rd_written. rewrite descs_length. lia.
  - done.
Qed.

Lemma loader_jumps ECX fuel pB ImageHandle m : fits pB -> live m -> (Z.to_nat Max < fuel)%nat ->
  yields (efi_main ECX fuel pB ImageHandle pSystemTable) m
    (fun mj j => exists mx, handed_over (YchbootIsHypervisorPresent ECX) pB m mx mj j).
Proof.
  intros HF Hm Hf. unfold efi_main. set (hyp := YchbootIsHypervisorPresent ECX).
  apply yields_bind, yields_run. pose proof (sv_init SV m ImageHandle pSystemTable Hm) as K1. set (m1 := InitializeLib _ _ m) in *.
  apply yields_bind, yields_run. pose proof (sv_print SV m1 "YchBoot loaded.\n" [] (kept_live _ _ K1)) as K2. set (m2 := FwPrint _ _ m1) in *.
  apply yields_bind. eapply yields_mono; [by apply open_volume_yields; eauto|]. cbn beta. intros m3 root K3.
  apply yields_bind. eapply yields_mono; [by eapply load_files_yields; eauto|]. cbn beta. intros m4 sz [-> L].
  apply yields_bind. eapply yields_mono; [by apply locate_gop_yields; eapply um_live, ld_unmoved|]. cbn beta. intros m5 g [-> K5].
  apply yields_bind. eapply yields_mono; [by eapply select_mode_yields; eauto|]. cbn beta. intros m6 _ S6.
  apply yields_bind, yields_ask, yields_bind, yields_ask, yields_bind.
  eapply yields_mono; [by apply get_memory_map_yields; eapply um_live, ms_unmoved|]. cbn beta. intros mx [p r] [Kx Hr]. cbn [fst snd] in Hr.
  destruct (sv_exit SV mx ImageHandle (mapKey r) (kept_live _ _ Kx)) as (me & st & E & HA & HP).
  apply yields_bind. eapply yields_call; [exact E|].
  destruct (Z.eqb_spec (descSize r) 0) as [H0|_]; [destruct Hr as (n & _ & Hd & _); pose proof (ft_dsz _ HF); lia|].
  assert (forall a, area a -> mx.2 !! a = m4.2 !! a) as Harea.
  { intros a Ha. by rewrite (kp_area _ _ Kx), (ms_area _ _ _ S6), (kp_area _ _ K5). }
  eapply yields_mono; [apply (hand_over_yields hyp pB m mx me p r _ _ _ HF)|by eauto]; try done.
  - eauto.
  - by rewrite (kp_mode _ _ Kx).
  - rewrite (um_tables _ _ (ms_unmoved _ _ _ S6)), (um_tables _ _ (kp_unmoved _ _ K5)), (um_tables _ _ (ld_unmoved _ _ L)),
      (um_tables _ _ (kp_unmoved _ _ K3)), (um_tables _ _ (kp_unmoved _ _ K2)), (um_tables _ _ (kp_unmoved _ _ K1)). done.
  - rewrite <- (ld_bootelvt _ _ L) at 2. apply rd_ext. intros i Hi. apply Harea. right. by left.
  - rewrite <- (ld_kernel _ _ L) at 2. apply rd_ext. intros i Hi. apply Harea. right. by right.
  - rewrite (kp_mode _ _ Kx). apply S6.
Qed.
End Served.

(** ** Failures *)

Section Failing.
Context {W : Type} `{FW : Firmware W}.

(** A property of the machine that no service but ExitBootServices affects,
    such as that boot services are still available. *)
Record unaffected (P : W * ram -> Prop) : Prop := {
  ua_init : forall i t m, P m -> P (InitializeLib i t m);
  ua_print : forall s l m, P m -> P (FwPrint s l m);
  ua_handles : forall m, P m -> P (LocateHandleBuffer m).1;
  ua_protocol : forall h m, P m -> P (HandleProtocol h m).1;
  ua_volume : forall fs m, P m -> P (OpenVolume fs m).1;
  ua_open : forall r p m, P m -> P (FileOpen r p m).1;
  ua_alloc : forall n m, P m -> P (AllocatePool n m).1;
  ua_free : forall p m, P m -> P (FreePool p m);
  ua_info : forall f n p m, P m -> P (FileGetInfo f n p m).1;
  ua_read : forall f n a m, P m -> P (FileRead f n a m).1;
  ua_close : forall f m, P m -> P (FileClose f m);
  ua_gop : forall m, P m -> P (LocateGop m).1;
  ua_query : forall g i m, P m -> P (GopQueryMode g i m).1;
  ua_set : forall g i m, P m -> P (GopSetMode g i m).1;
  ua_map : forall n p m, P m -> P (GetMemoryMap n p m).1
}.

Context (P : W * ram -> Prop) (R : Z -> Prop).
(** [P] holds when the computation ends, and a status it returns satisfies [R]. *)
Definition keeps {A} (c : boot W A) : Prop :=
  forall m m' r, P m -> c m = Done (m', r) -> P m' /\ match r with inl st => R st | inr _ => True end.
(** The same of a computation that reports its outcome as a status. *)
Definition returns {A} (c : boot W A) : Prop := forall m m' r, P m -> c m = Done (m', inl r) -> P m' /\ R r.

Lemma keeps_bind {A B} (c : boot W A) (f : A -> boot W B) : keeps c -> (forall a, keeps (f a)) -> keeps (c ≫= f).
Proof.
  intros Hc Hf m m' r Hm. unfold mbind, boot_bind. destruct (c m) as [[m1 [st|a]]| | |] eqn:E; cbn; try done.
  - intros [= <- <-]. by apply (Hc m _ (inl st)).
  - destruct (Hc _ _ _ Hm E) as [HP _]. by apply Hf.
Qed.
Lemma keeps_returns {A B} (c : boot W A) (f : A -> boot W B) : keeps c -> (forall a, returns (f a)) -> returns (c ≫= f).
Proof.
  intros Hc Hf m m' r Hm. unfold mbind, boot_bind. destruct (c m) as [[m1 [st|a]]| | |] eqn:E; cbn; try done.
  - intros [= <- <-]. by apply (Hc m _ (inl st)).
  - destruct (Hc _ _ _ Hm E) as [HP _]. by apply Hf.
Qed.
Lemma keeps_ret {A} (a : A) : keeps (mret a).
Proof. intros m m' r Hm [= <- <-]. done. Qed.
Lemma keeps_fail {A} st : R st -> keeps (fail (A := A) st).
Proof. intros HR m m' r Hm [= <- <-]. done. Qed.
Lemma keeps_call {A} (f : W * ram -> W * ram * A) : (forall m, P m -> P (f m).1) -> keeps (call f).
Proof. intros Hf m m' r Hm. unfold call. specialize (Hf m Hm). destruct (f m). by intros [= <- <-]. Qed.
Lemma keeps_answer {A B} (f : W * ram -> W * ram * A) (g : A -> boot W B) :
  (forall m, P m -> P (f m).1) -> (forall m, P m -> keeps (g (f m).2)) -> keeps (call f ≫= g).
Proof.
  intros Hf Hg m m' r Hm. unfold mbind, boot_bind, call. specialize (Hf m Hm). specialize (Hg m Hm). destruct (f m) as [m1 a]. by apply Hg.
Qed.
Lemma keeps_run (f : W * ram -> W * ram) : (forall m, P m -> P (f m)) -> keeps (run f).
Proof. intros Hf m m' r Hm [= <- <-]. auto. Qed.
Lemma keeps_ask {A} (f : W * ram -> A) : keeps (ask f).
Proof. intros m m' r Hm [= <- <-]. done. Qed.
Lemma keeps_lift {A} (o : outcome A) : keeps (lift o).
Proof. intros m m' r Hm. unfold lift. destruct o; cbn; try done. by intros [= <- <-]. Qed.

Context (UA : unaffected P) (HE : forall st, EFI_ERROR st = true -> R st) 
  (HM : forall m st r, P m -> (GetMemoryMap 0 0 m).2 = (st, r) -> st <> EFI_BUFFER_TOO_SMALL -> R st).
(** A service leaves [P] as it is. *)
Ltac unaffecting :=
  intros; first [apply (ua_print P UA) | apply (ua_init P UA) | apply (ua_handles P UA) | apply (ua_protocol P UA) | apply (ua_volume P UA) | apply (ua_open P UA)
    | apply (ua_alloc P UA) | apply (ua_free P UA) | apply (ua_info P UA) | apply (ua_read P UA) | apply (ua_close P UA) | apply (ua_gop P UA)
    | apply (ua_query P UA) | apply (ua_set P UA) | apply (ua_map P UA)]; assumption.
Ltac plain := first [apply keeps_ret | apply keeps_ask | apply keeps_lift | apply keeps_call; unaffecting | apply keeps_run; unaffecting].
(** One step of a computation that calls a service and tests its status. *)
Ltac service :=
  first
    [ apply keeps_bind; [solve [plain]|];
      first [intros [[] ?] | intros ?]
    | match goal with |- context [if EFI_ERROR ?st then _ else _] => destruct (EFI_ERROR st) eqn:? end
    | solve [apply keeps_fail; eauto] | solve [plain] ].
Ltac services := repeat first [service | match goal with x : _ * _ |- _ => destruct x end].

Lemma read_file_keeps root path a : keeps (YchbootReadFile root path a).
Proof. unfold YchbootReadFile. services. Qed.
Lemma open_volume_keeps : keeps open_volume.
Proof. unfold open_volume. services. Qed.
Lemma load_files_keeps root : keeps (load_files root).
Proof.
  unfold load_files. apply keeps_bind; [apply read_file_keeps|]. intros [st n]. destruct (EFI_ERROR st) eqn:?; [services|].
  apply keeps_bind; [apply read_file_keeps|]. intros [st2 n2]. destruct (EFI_ERROR st2) eqn:?; services.
Qed.
Lemma locate_gop_keeps : keeps locate_gop.
Proof. unfold locate_gop. services. Qed.
Lemma mode_loop_keeps fuel : forall g hyp i best cache, keeps (mode_loop fuel g hyp i best cache).
Proof.
  induction fuel as [|fuel IH]; intros; cbn [mode_loop]; [plain|].
  apply keeps_bind; [plain|]. intros Max. zcase; [|plain].
  apply keeps_bind; [plain|]. intros [st info].
  repeat first [plain | apply IH | case_match].
Qed.
Lemma select_mode_keeps fuel g hyp : keeps (select_mode fuel g hyp).
Proof.
  unfold select_mode. apply keeps_bind; [apply mode_loop_keeps|]. intros [best cache]. destruct (_ && _); [|plain].
  apply keeps_bind; [plain|]. intros st. destruct (EFI_ERROR st); plain.
Qed.
Lemma get_memory_map_keeps : keeps get_memory_map.
Proof.
  unfold get_memory_map. apply keeps_answer; [unaffecting|]. intros m Hm. destruct (GetMemoryMap 0 0 m).2 as [st r] eqn:E.
  destruct (Z.eqb_spec st EFI_BUFFER_TOO_SMALL); cbn [negb]; [services|].
  apply keeps_bind; [plain|]. intros ?. apply keeps_fail. by eapply HM.
Qed.
Lemma hand_over_never_returns pB p pm r m m' st : hand_over pB p pm r m <> Done (m', inl st).
Proof. done. Qed.

Lemma loader_returns ECX fuel pB img tab : returns (efi_main ECX fuel pB img tab).
Proof.
  unfold efi_main. apply keeps_returns; [plain|]. intros _.
  apply keeps_returns; [plain|]. intros _.
  apply keeps_returns; [apply open_volume_keeps|]. intros root. apply keeps_returns; [apply load_files_keeps|]. intros sz.
  apply keeps_returns; [apply locate_gop_keeps|]. intros g. apply keeps_returns; [apply select_mode_keeps|]. intros _.
  apply keeps_returns; [plain|]. intros mode. apply keeps_returns; [unfold YchbootLocateRSDP; plain|]. intros rsdp.
  apply keeps_returns; [apply get_memory_map_keeps|]. intros [p r] m m' st Hm E. exfalso. revert E.
  unfold mbind, boot_bind, call. destruct (ExitBootServices img (mapKey r) m) as [me s]. cbn.
  destruct (descSize r =? 0); cbn; [done|]. discriminate.
Qed.
End Failing.

(** ** The structures read back *)

Record pack_wf (p : KrSystemInfoPack) : Prop := {
  pw_32 : Forall (fun x => 0 <= x < 2 ^ 32) [ipMagic p; FramebufferWidth (GraphicsInfo p); FramebufferHeight (GraphicsInfo p);
    PixelsPerScanLine (GraphicsInfo p); PageSize (MemoryMapInfo p)];
  pw_64 : Forall (fun x => 0 <= x < 2 ^ 64) [KernelBinarySize p; KernelPhysicalBase p; KernelVirtualBase p; KernelStackPhysicalBase p;
    KernelStackVirtualBase p; KernelBootstrapArenaBase p; KernelBootstrapArenaSize p; KernelReserveSize p;
    PhysicalFramebufferAddress (GraphicsInfo p); FramebufferSize (GraphicsInfo p); MapPhysicalAddress p;
    MemoryMapSize (MemoryMapInfo p); EntryCount (MemoryMapInfo p); PhysAddrRSDP p]
}.
Definition desc_wf (d : KrMemoryDescriptor) : Prop :=
  0 <= PhysicalBase d < 2 ^ 64 /\ 0 <= PageCount d < 2 ^ 64 /\ 0 <= Attributes d < 2 ^ 64 /\ 0 <= Type_ d < 2 ^ 32 /\ 0 <= Pad d < 2 ^ 32.

Lemma field_slice m p n off k : 0 <= off -> 0 <= k -> off + k <= n -> field m p off k = num (rd m p n) (Z.to_nat off) (Z.to_nat k).
Proof. intros Ho Hk Hl. unfold field, num. rewrite rd_slice by lia. by rewrite !Z2Nat.id. Qed.

Lemma read_pack_bytes m a p : pack_wf p -> rd m a sizeof_KrSystemInfoPack = pack_bytes p -> read_pack m a = p.
Proof.
  intros [W32 W64] E. split_forall. unfold read_pack. rewrite !(field_slice m a 140) by lia. change 140 with sizeof_KrSystemInfoPack. rewrite E.
  repeat match goal with |- context [Z.to_nat ?z] => let n := eval cbv in (Z.to_nat z) in change (Z.to_nat z) with n end.
  destruct p as [mg ks pb vb sp sv ab az rs [fp fs fw fh fl] ma [ms mc mp] rsdp]. unfold num, pack_bytes, graphics_bytes, mapinfo_bytes.
  cbn [ipMagic KernelBinarySize KernelPhysicalBase KernelVirtualBase KernelStackPhysicalBase KernelStackVirtualBase KernelBootstrapArenaBase
    KernelBootstrapArenaSize KernelReserveSize GraphicsInfo PhysicalFramebufferAddress FramebufferSize FramebufferWidth FramebufferHeight
    PixelsPerScanLine MapPhysicalAddress MemoryMapInfo MemoryMapSize EntryCount PageSize PhysAddrRSDP] in *.
  rewrite <- !app_assoc. repeat f_equal; find_field.
Qed.

Lemma read_descriptor_bytes m a d : desc_wf d -> rd m a 32 = desc_bytes d -> read_descriptor m a = d.
Proof.
  intros (? & ? & ? & ? & ?) E. unfold read_descriptor. rewrite !(field_slice m a 32) by lia. rewrite E.
  repeat match goal with |- context [Z.to_nat ?z] => let n := eval cbv in (Z.to_nat z) in change (Z.to_nat z) with n end.
  destruct d as [b c at_ t q]. unfold num, desc_bytes. cbn [PhysicalBase PageCount Attributes Type_ Pad] in *.
  f_equal; find_field.
Qed.
Lemma read_descriptors_bytes m a l : Forall desc_wf l -> rd m a (32 * Z.of_nat (length l)) = concat (desc_bytes <$> l) ->
  read_descriptors m a (Z.of_nat (length l)) = l.
Proof.
  intros Hl. unfold read_descriptors. induction Hl as [|d l Hd Hl IH] in a |- *; intros E; [done|].
  cbn [length] in *. rewrite fmap_cons in E. cbn [concat] in E.
  replace (32 * Z.of_nat (S (length l))) with (32 + 32 * Z.of_nat (length l)) in E by lia. rewrite rd_app in E by lia.
  apply app_inj_1 in E as [Ed El]; [|by rewrite rd_length].
  rewrite seqZ_cons, fmap_cons by lia. f_equal.
  - unfold sizeof_KrMemoryDescriptor. rewrite Z.mul_0_r, Z.add_0_r. by apply read_descriptor_bytes.
  - rewrite <- (IH (a + 32)) at 2 by done. replace (Z.pred (Z.of_nat (S (length l)))) with (Z.of_nat (length l)) by lia.
    change (Z.succ 0) with (1 + 0). rewrite <- fmap_add_seqZ. rewrite <- list_fmap_compose. apply list_fmap_ext. intros k i _. cbn. f_equal. unfold sizeof_KrMemoryDescriptor. lia.
Qed.
