(* ===== verification/LoaderThms.v ===== *)
(** * The boot loader: theorems, and a firmware on which they are evaluated *)
From Stdlib Require Import ZArith Lia String.
From stdpp Require Import base numbers list gmap.
From S2P Require Import Prelude Bytes MemoryMap Loader LoaderProps.
Open Scope Z_scope.

(** ** Theorems *)

(** C3: with a firmware that serves the loader and leaves the loader's fixed
    addresses alone, efi_main jumps to BOOTELVT with the registers it expects;
    memory then holds the information pack (kernel size, current video mode,
    first ACPI 2.0 table, memory map), both files at their load addresses and one
    descriptor per entry of the firmware's map; the video mode is the first of
    the largest 16:9 modes the search admits. *)
Theorem loader_hands_over {W} `{FW : Firmware W} (live : W * ram -> Prop) pGOP answers Max sets content file_at pool needed dsz limit emap N
    tab ECX fuel pBootInfo img (m : W * ram) :
  services live pGOP answers Max sets content file_at pool needed dsz limit emap N tab ->
  fits Max content pool dsz limit emap N pBootInfo -> live m -> (Z.to_nat Max < fuel)%nat ->
  exists mj j mx, efi_main ECX fuel pBootInfo img tab m = Done (mj, inr j) /\
    handed_over live pGOP answers Max sets content emap tab (YchbootIsHypervisorPresent ECX) pBootInfo m mx mj j /\
    first_best (u32 (-1), no_mode) (candidates answers (YchbootIsHypervisorPresent ECX) (Z.to_nat Max) 0)
      (chosen answers Max (YchbootIsHypervisorPresent ECX)).
Proof.
  intros SV HF Hm Hf. destruct (loader_jumps _ _ _ _ _ _ _ _ _ _ _ _ _ _ SV ECX fuel pBootInfo img m HF Hm Hf) as (mj & j & E & mx & Hh).
  exists mj, j, mx. split; [done|]. split; [done|]. apply pick_first_best.
Qed.

(** C25: when efi_main returns, what it returns is the error of a service (or the
    unexpected answer to the first request for the memory map), and boot
    services have not been exited: whatever only ExitBootServices affects is as
    it was. *)
Theorem loader_failure_keeps_services {W} `{FW : Firmware W} (P : W * ram -> Prop) ECX fuel pBootInfo img tab (m m' : W * ram) Status :
  unaffected P -> P m -> efi_main ECX fuel pBootInfo img tab m = Done (m', inl Status) ->
  P m' /\ (EFI_ERROR Status = true \/ exists m1 r, P m1 /\ (GetMemoryMap 0 0 m1).2 = (Status, r) /\ Status <> EFI_BUFFER_TOO_SMALL).
Proof.
  intros UA Hm E.
  eapply (loader_returns P (fun st => EFI_ERROR st = true \/ exists m1 r, P m1 /\ (GetMemoryMap 0 0 m1).2 = (st, r) /\ st <> EFI_BUFFER_TOO_SMALL)); eauto 7.
Qed.

(** ** A concrete firmware *)

Record World := mkWorld { exited : bool; mode : Z }.
Definition mode_info (i : Z) : ModeInformation :=
  if i =? 0 then mkMode 1024 768 1 1024 else if i =? 1 then mkMode 1920 1080 1 1920 else mkMode 1280 720 1 1280.
Definition efi_bytes (d : EfiMemoryDescriptor) : list Z :=
  le_bytes 4 (efiType d) ++ le_bytes 4 0 ++ le_bytes 8 (PhysicalStart d) ++ le_bytes 8 0 ++ le_bytes 8 (NumberOfPages d) ++ le_bytes 8 0 ++ le_bytes 8 0.
Definition sample_map : list EfiMemoryDescriptor := [mkEfiDesc 7 0 0x9F; mkEfiDesc 7 0x100000 0x7F00].
Definition acpi_guid : EFI_GUID := mkGuid 0x8868E871 0xE4F1 0x11D3 [0xBC; 0x22; 0x00; 0x80; 0xC7; 0x3C; 0x88; 0x81].
Definition sample_pool : Z := 0x80000000.

Section Sample.
(** The files on the disk, and whether the kernel is among them. *)
Context (bootelvt kernel : list Z) (present : bool).

Definition sample_content (path : string) : list Z := if bool_decide (path = BOOTELVT_FILE_NAME) then bootelvt else kernel.
Definition handle_content (f : Z) : list Z := if f =? 1 then bootelvt else kernel.

#[export] Instance sample_firmware : Firmware World := {|
  EFI_ERROR s := Z.testbit s 63;
  EFI_BUFFER_TOO_SMALL := 2 ^ 63 + 5;
  ACPI_20_TABLE_GUID := acpi_guid;
  sizeof_EFI_FILE_INFO := 80;
  PixelBlueGreenRedReserved8BitPerColor := 1;
  InitializeLib _ _ m := m;
  FwPrint _ _ m := m;
  LocateHandleBuffer m := (m, (0, [10; 11]));
  HandleProtocol _ m := (m, (0, 20));
  OpenVolume _ m := (m, (0, 30));
  FileOpen _ path m :=
    if bool_decide (path = BOOTELVT_FILE_NAME) then (m, (0, 1)) else if present then (m, (0, 2)) else (m, (2 ^ 63 + 14, 0));
  AllocatePool _ m := (m, sample_pool);
  FreePool _ m := m;
  FileGetInfo f _ p m := ((m.1, write_at m.2 (p + 8) (le_bytes 8 (Z.of_nat (length (handle_content f))))), 0);
  FileInfoSize p mem := le_value (rd mem (p + 8) 8);
  FileRead f n a m := ((m.1, write_at m.2 a (take (Z.to_nat n) (handle_content f))), (0, Z.min n (Z.of_nat (length (handle_content f)))));
  FileClose _ m := m;
  LocateGop m := (m, (0, 40));
  GopCurrent _ m := mkGopMode 3 0xC0000000 0x7F8000 (mode_info (mode m.1));
  GopQueryMode _ i m := (m, if (0 <=? i) && (i <? 3) then (0, mode_info i) else (2 ^ 63 + 2, no_mode));
  GopSetMode _ i m := ((mkWorld (exited m.1) i, m.2), 0);
  ConfigurationTable _ _ := [(mkGuid 1 2 3 [], 5); (acpi_guid, 0x7FE0014)];
  GetMemoryMap n p m :=
    if n <? 96 then (m, (2 ^ 63 + 5, mkMapReply 96 7 48))
    else ((m.1, write_at m.2 p (concat (efi_bytes <$> sample_map))), (0, mkMapReply 96 7 48));
  ExitBootServices _ _ m := ((mkWorld true (mode m.1), m.2), 0);
  EfiDescriptorAt p mem := mkEfiDesc (le_value (rd mem p 4)) (le_value (rd mem (p + 8) 8)) (le_value (rd mem (p + 24) 8))
|}.

Definition sample_live (m : World * ram) : Prop := exited m.1 = false.
Definition sample_answers (i : Z) : option ModeInformation := if (0 <=? i) && (i <? 3) then Some (mode_info i) else None.
Definition sample_file_at (_ : World * ram) (f : Z) (path : string) : Prop :=
  (f = 1 /\ path = BOOTELVT_FILE_NAME) \/ (f = 2 /\ path = KERNEL_FILE_NAME).
Definition sample_pool_ok (p n : Z) : Prop := p = sample_pool /\ n <= 2 ^ 20.

Lemma handle_content_at m f path : sample_file_at m f path -> handle_content f = sample_content path.
Proof. by intros [[-> ->]|[-> ->]]. Qed.
Lemma sample_kept (m m' : World * ram) : sample_live m -> m'.1 = m.1 ->
  (forall a, area sample_content 2 a -> m'.2 !! a = m.2 !! a) ->
  kept sample_live 40 sample_content sample_file_at 2 0 m m'.
Proof. intros Hl E Ha. split; [split|done|]; unfold sample_live in *; cbn; rewrite ?E; done. Qed.
Lemma sample_contents : sample_content BOOTELVT_FILE_NAME = bootelvt /\ sample_content KERNEL_FILE_NAME = kernel.
Proof. done. Qed.
Context (Hb : Z.of_nat (length bootelvt) <= 2 ^ 20) (Hk : Z.of_nat (length kernel) <= 2 ^ 20).
Lemma sample_area a : area sample_content 2 a -> a < sample_pool.
Proof.
  unfold area. destruct sample_contents as [-> ->]. unfold MEMORY_MAP_ADDRESS, BOOTELVT_LOAD_ADDRESS, KERNEL_LOAD_ADDRESS, sample_pool. lia.
Qed.
Lemma sample_entries (m : ram) i d : sample_map !! i = Some d ->
  EfiDescriptorAt (sample_pool + Z.of_nat i * 48) (write_at m sample_pool (concat (efi_bytes <$> sample_map))) = d.
Proof.
  intros Hi. cbn [EfiDescriptorAt sample_firmware]. rewrite <- !Z.add_assoc.
  assert (i = 0%nat \/ i = 1%nat) as Hi2 by (apply lookup_lt_Some in Hi; cbn in Hi; lia).
  assert (Z.of_nat (length (concat (efi_bytes <$> sample_map))) = 96) as Hl by done.
  rewrite !rd_write_slice by (rewrite ?Hl; lia).
  destruct Hi2 as [-> | ->]; injection Hi as <-; vm_compute; done.
Qed.


Lemma sample_same m : sample_live m -> kept sample_live 40 sample_content sample_file_at 2 0 m m.
Proof. by apply kept_refl. Qed.
Lemma sample_scratch m p data : sample_live m -> sample_pool <= p ->
  kept sample_live 40 sample_content sample_file_at 2 0 m (m.1, write_at m.2 p data).
Proof.
  intros Hl Hp. apply sample_kept; [done..|]. intros a Ha%sample_area. cbn. rewrite write_at_lookup, decide_False by lia. done.
Qed.

Lemma sample_services : present = true ->
  services sample_live 40 sample_answers 3 true sample_content sample_file_at sample_pool_ok 96 48 (2 ^ 20) (fun _ => sample_map) 2 0.
Proof.
  intros Hp. split; try (by intros; apply sample_same).
  - intros m Hl. exists m, 0, 10, 11, []. by auto using sample_same.
  - intros m h Hl. exists m, 0, 20. by auto using sample_same.
  - intros m fs Hl. exists m, 0, 30. by auto using sample_same.
  - intros m root path Hl [-> | ->]; cbn [FileOpen sample_firmware]; [exists m, 0, 1|exists m, 0, 2; rewrite Hp];
      (split; [done|]; split; [done|]; split; [by apply sample_same|]); [by left|by right].
  - intros m n Hl Hn. exists m, sample_pool. by auto using sample_same.
  - intros m f n p path Hl Hf [-> Hn]. eexists _, 0. split; [reflexivity|]. split; [done|]. split; [by apply sample_scratch|].
    cbn [FileInfoSize sample_firmware snd]. rewrite rd_written, le_value_bytes; [by rewrite (handle_content_at _ _ _ Hf)| |done].
    unfold handle_content. case_match; lia.
  - intros m f n a path Hl Hf ->. rewrite <- (handle_content_at m _ _ Hf). eexists _, 0.
    split; [cbn [FileRead sample_firmware]; by rewrite Nat2Z.id, take_ge, Z.min_id by lia|]. split; [done|].
    split; [by split|]. done.
  - intros m Hl. exists m, 0. by auto using sample_same.
  - done.
  - intros m i Hl. cbn [GopQueryMode sample_firmware]. unfold sample_answers.
    destruct ((0 <=? i) && (i <? 3)); [exists m, 0, (mode_info i)|exists m, (2 ^ 63 + 2), no_mode]; by auto using sample_same.
  - intros m i info Hl Hi. eexists _, 0. split; [reflexivity|]. split; [done|]. split; [by split|]. split; [done|]. intros _.
    unfold sample_answers in Hi. destruct (_ && _); [|done]. by injection Hi as <-.
  - intros m Hl. exists m, (mkMapReply 96 7 48). by auto using sample_same.
  - intros m n p Hl [-> Hn] H96. exists (m.1, write_at m.2 sample_pool (concat (efi_bytes <$> sample_map))), 0, (mkMapReply 96 7 48).
    split; [cbn [GetMemoryMap sample_firmware]; by rewrite (proj2 (Z.ltb_ge n 96)) by lia|].
    repeat (split; [by first [done | apply sample_scratch]|]). cbn [snd]. intros i d. apply sample_entries.
  - intros m i k Hl. eexists _, 0. split; [reflexivity|]. by split.
  - intros p n i m m' Hi [-> Hn] Hle H. cbn [EfiDescriptorAt sample_firmware]. f_equal; f_equal; apply rd_ext; intros a Ha; apply H; lia.
  - intros p n [-> Hn]. unfold sample_pool. split; [lia|]. split; [lia|]. intros a Ha%sample_area. left. exact Ha.
Qed.
Lemma sample_fits : fits 3 sample_content sample_pool_ok 48 (2 ^ 20) (fun _ => sample_map) 2 0x70000000.
Proof.
  destruct sample_contents as [Eb Ek]. split; rewrite ?Eb, ?Ek; unfold MEMORY_MAP_ADDRESS, BOOTELVT_LOAD_ADDRESS, KERNEL_LOAD_ADDRESS, sizeof_KrSystemInfoPack;
    try lia; try done.
  - intros a Ha. unfold area. rewrite Eb, Ek. unfold MEMORY_MAP_ADDRESS, BOOTELVT_LOAD_ADDRESS, KERNEL_LOAD_ADDRESS. lia.
  - intros p n a [-> _] Ha. unfold sample_pool. lia.
Qed.
End Sample.

(** A jump under a hypervisor: the 1280x720 mode ends the search, but the larger
    1920x1080 mode before it is chosen. *)
Lemma loader_hands_over_witness : exists mj j mx,
  efi_main (FW := sample_firmware [1; 2; 3] [4; 5] true) (Z.shiftl 1 31) 4 0x70000000 1 0 (mkWorld false 0, ∅) = Done (mj, inr j) /\
  handed_over (FW := sample_firmware [1; 2; 3] [4; 5] true) sample_live 40 sample_answers 3 true (sample_content [1; 2; 3] [4; 5]) (fun _ => sample_map) 0 true
    0x70000000 (mkWorld false 0, ∅) mx mj j /\
  chosen (FW := sample_firmware [1; 2; 3] [4; 5] true) sample_answers 3 true = (1, mode_info 1).
Proof.
  destruct (loader_hands_over (FW := sample_firmware [1; 2; 3] [4; 5] true) sample_live 40 sample_answers 3 true (sample_content [1; 2; 3] [4; 5]) sample_file_at
    sample_pool_ok 96 48 (2 ^ 20) (fun _ => sample_map) 2 0 (Z.shiftl 1 31) 4 0x70000000 1 (mkWorld false 0, ∅)) as (mj & j & mx & E & Hh & _).
  - by apply sample_services.
  - by apply sample_fits.
  - done.
  - lia.
  - exists mj, j, mx. split; [exact E|]. split; [exact Hh|]. by vm_compute.
Defined.

(** Without the kernel on the disk the loader returns EFI_NOT_FOUND, boot
    services still running. *)
Lemma loader_failure_keeps_services_witness : exists m',
  efi_main (FW := sample_firmware [1; 2; 3] [] false) 0 4 0x70000000 1 0 (mkWorld false 0, ∅) = Done (m', inl (2 ^ 63 + 14)) /\ exited m'.1 = false.
Proof.
  set (m' := ((mkWorld false 0, write_at (write_at ∅ (sample_pool + 8) (le_bytes 8 3)) BOOTELVT_LOAD_ADDRESS [1; 2; 3]) : World * ram)).
  assert (efi_main (FW := sample_firmware [1; 2; 3] [] false) 0 4 0x70000000 1 0 (mkWorld false 0, ∅) = Done (m', inl (2 ^ 63 + 14))) as E by (by vm_compute).
  exists m'. split; [exact E|].
  refine (proj1 (loader_failure_keeps_services (FW := sample_firmware [1; 2; 3] [] false) (fun m => exited m.1 = false) 0 4 0x70000000 1 0 _ _ _ _ _ E)); [|done].
  split; intros; cbn in *; try done; repeat case_match; done.
Defined.

(** ** Inputs on which the code departs from its intention *)

(** The product that decides on 16:9 wraps: a mode 477218592 pixels wide and 2
    high passes, and no mode of that height is really so wide. *)
Example aspect_wraps : is_16_9 (mkMode 477218592 2 1 0) = true /\ 477218592 * 9 / 16 <> 2.
Proof. split; [by vm_compute|done]. Qed.
(** The hypervisor break keeps a larger mode seen before 1280x720. *)
Example hypervisor_keeps_larger :
  chosen (FW := sample_firmware [] [] true) sample_answers 3 true = chosen (FW := sample_firmware [] [] true) sample_answers 3 false.
Proof. by vm_compute. Qed.
