(* ===== verification/Bootelvt.v ===== *)
(** * Boot elevate (Boot/Bootelvt.asm): the first page tables and the jump into
    the kernel

    The program is a straight line with four loops.  Memory is physical memory
    as bytes; the tables are zero in the loaded image. *)
From Stdlib Require Import ZArith Lia String.
From stdpp Require Import base numbers list gmap.
From S2P Require Import Prelude Bytes MemoryMap Physmemmgmt Pte Vmr PageTable PageTableSpec Loader.
Open Scope Z_scope.

Definition BOOT_INFO_MAX_SIZE : Z := 8192.
Definition BOOT_INFO_FBUF_OFFSET : Z := 68.
Definition BOOT_INFO_FBUFSZ_OFFSET : Z := BOOT_INFO_FBUF_OFFSET + 8.
Definition PAGE_HIERARCHY_ENTRY_SIZE : Z := 8.
Definition PAGE_HIERARCHY_TOTAL_SIZE : Z := 4096.
Definition FRAMEBUFFER_VIRTUAL_ADDR : Z := 0xFFFFFFFFC0000000.

(** Memory types of the PAT. *)
Definition PAT_UC : Z := 0.
Definition PAT_WC : Z := 1.
Definition PAT_WT : Z := 4.
Definition PAT_WB : Z := 6.
Definition PAT_UCMINUS : Z := 7.

Definition load64 (m : ram) (a : Z) : Z := le_value (rd m a 8).
Definition store64 (m : ram) (a v : Z) : ram := write_at m a (le_bytes 8 v).

(** REP MOVSB with the direction flag clear: byte by byte, ascending. *)
Fixpoint rep_movsb (n : nat) (RSI RDI : Z) (m : ram) : ram :=
  match n with
  | O => m
  | S n' => rep_movsb n' (RSI + 1) (RDI + 1) (<[RDI := default 0 (m !! RSI)]> m)
  end.

(** The number of rounds of a body that ends in LOOP. *)
Definition loop_count (RCX : Z) : Z := if RCX =? 0 then 2 ^ 64 else RCX.
(** The body of the four table loops: store an entry, go on to the next slot
    and the next frame. *)
Fixpoint populate (n : nat) (flags step RDX RBX : Z) (m : ram) : ram :=
  match n with
  | O => m
  | S n' => populate n' flags step (u64 (RDX + PAGE_HIERARCHY_ENTRY_SIZE)) (u64 (RBX + step)) (store64 m RDX (Z.lor RBX flags))
  end.
Definition populate_loop (RCX flags step RDX RBX : Z) (m : ram) : ram :=
  populate (Z.to_nat (loop_count RCX)) flags step RDX RBX m.

Record BootCpu := mkBootCpu { bcCR0 : Z; bcCR3 : Z; bcCR4 : Z; bcPAT : Z }.
(** The processor at the kernel's first instruction, and physical memory. *)
Record Entered := mkEntered { enCpu : BootCpu; enRSP : Z; enRDI : Z; enRIP : Z; enMem : ram }.

(** CR0 while the PAT is written and afterwards, and the PAT. *)
Definition cache_off (CR0 : Z) : Z := Z.land (Z.lor CR0 (Z.shiftl 1 30)) (Z.lnot (Z.shiftl 1 29)).
Definition cache_on (CR0 : Z) : Z := Z.land CR0 (Z.lnot (Z.shiftl 1 30)).
Definition pat_dword (e3 e2 e1 e0 : Z) : Z := Z.lor (Z.lor (Z.shiftl e3 24) (Z.shiftl e2 16)) (Z.lor (Z.shiftl e1 8) e0).
Definition boot_pat : Z := Z.lor (Z.shiftl (pat_dword PAT_UC PAT_UCMINUS PAT_WT PAT_WC) 32) (pat_dword PAT_UC PAT_UCMINUS PAT_WT PAT_WB).
Definition boot_cr4 (CR4 : Z) : Z := Z.lor CR4 (Z.lor (Z.lor (Z.shiftl 1 4) (Z.shiftl 1 5)) (Z.lor (Z.shiftl 1 9) (Z.shiftl 1 18))).

Section Elevate.
(** The addresses the assembler gives the labels; the seven tables follow each
    other.  [Return] is the address CALL pushes. *)
Context (BOOT_INFO_PACK_SIZE BOOT_INFO PML4 Return : Z).
Definition table (k : Z) : Z := PML4 + PAGE_HIERARCHY_TOTAL_SIZE * k.
Definition KRNL_PDPT : Z := table 1.
Definition KRNL_PD : Z := table 2.
Definition FBUF_PD : Z := table 3.
Definition IDPAGE_PDPT : Z := table 4.
Definition IDPAGE_PD : Z := table 5.
Definition IDPAGE_PT : Z := table 6.

(** The entries of the upper tables. *)
Definition link_kernel (m : ram) : ram :=
  let m := store64 m (PML4 + 511 * PAGE_HIERARCHY_ENTRY_SIZE) (Z.lor KRNL_PDPT 3) in
  let m := store64 m PML4 (Z.lor IDPAGE_PDPT 3) in
  let m := store64 m (KRNL_PDPT + 510 * PAGE_HIERARCHY_ENTRY_SIZE) (Z.lor KRNL_PD 3) in
  store64 m (KRNL_PDPT + 511 * PAGE_HIERARCHY_ENTRY_SIZE) (Z.lor FBUF_PD 3).
Definition link_identity (m : ram) : ram :=
  let m := store64 m IDPAGE_PDPT (Z.lor IDPAGE_PD 3) in store64 m IDPAGE_PD (Z.lor IDPAGE_PT 3).

(** The number of 2 MiB pages of the frame buffer. *)
Definition framebuffer_pages (size : Z) : Z := if size mod 0x200000 =? 0 then size / 0x200000 else size / 0x200000 + 1.

Definition build_tables (m : ram) : ram :=
  let m := link_kernel m in
  let m := populate_loop (KERNEL_RESERVE_SIZE / 0x200000) 0x83 0x200000 KRNL_PD 0x200000 m in
  let n := framebuffer_pages (load64 m (BOOT_INFO + BOOT_INFO_FBUFSZ_OFFSET)) in
  let m := populate_loop n 0x1083 0x200000 FBUF_PD (load64 m (BOOT_INFO + BOOT_INFO_FBUF_OFFSET)) m in
  let m := link_identity m in
  populate_loop (0x200000 / 0x1000) 3 0x1000 IDPAGE_PT 0 m.

(** The words of the tables as the processor reads them. *)
Definition NrTableWords : Z := 7 * 512.
Definition table_words (m : ram) : gmap Z Z := list_to_map ((fun i => (PML4 + 8 * i, load64 m (PML4 + 8 * i))) <$> seqZ 0 NrTableWords).
Definition boot_translate (m : ram) (va : Z) : option (Z * Z) := mmu_translate (table_words m) 0 PML4 va.

(** The entry point: RCX is the size of the pack and RSI its address.  A failed
    test halts the processor; the stack is written through the new tables. *)
Definition Bootelvt (c : BootCpu) (RCX RSI : Z) (m : ram) : outcome Entered :=
  if u32 RCX >? BOOT_INFO_MAX_SIZE then Hang
  else
    let m := write_at m BOOT_INFO_PACK_SIZE (le_bytes 4 RCX) in
    let m := rep_movsb (Z.to_nat RCX) RSI BOOT_INFO m in
    if negb (le_value (rd m BOOT_INFO 4) =? SYSTEM_INFO_PACK_MAGIC) then Hang
    else
      let CR0 := cache_on (cache_off (bcCR0 c)) in
      let m := build_tables m in
      let c := mkBootCpu CR0 PML4 (boot_cr4 (bcCR4 c)) boot_pat in
      let RSP := KERNEL_VIRTUAL_ADDRESS + KERNEL_RESERVE_SIZE - 16 in
      match boot_translate m (RSP - 8) with
      | Some (pa, _) => Done (mkEntered c (RSP - 8) BOOT_INFO KERNEL_VIRTUAL_ADDRESS (store64 m pa Return))
      | None => Hang
      end.
End Elevate.
