(* ===== verification/BootelvtProps.v ===== *)
(** * The page tables boot elevate builds and the state it enters the kernel in *)
From Stdlib Require Import ZArith Lia String Btauto.
From stdpp Require Import base numbers list gmap.
From S2P Require Import Prelude Bytes MemoryMap Physmemmgmt Pte Vmr PageTable PageTableSpec Loader Bootelvt.
Open Scope Z_scope.
#[local] Arguments Z.testbit _ _ : simpl never.

(** ** Words in byte memory *)

Lemma store64_other m a v i : ~ a <= i < a + 8 -> store64 m a v !! i = m !! i.
Proof. intros H. unfold store64. by rewrite write_at_lookup, le_bytes_length, decide_False by lia. Qed.
Lemma load64_ext m m' a : (forall i, a <= i < a + 8 -> m' !! i = m !! i) -> load64 m' a = load64 m a.
Proof. intros H. unfold load64. f_equal. apply rd_ext. auto. Qed.
Lemma load64_range m a : (forall i, byte (default 0 (m !! i))) -> 0 <= load64 m a < 2 ^ 64.
Proof.
  intros H. unfold load64. pose proof (le_value_range (rd m a 8)) as Hr. rewrite rd_length in Hr.
  apply Hr, Forall_fmap, Forall_forall. intros x _. apply H.
Qed.
Lemma load64_store64 m a b v : a mod 8 = 0 -> b mod 8 = 0 -> 0 <= v < 2 ^ 64 ->
  load64 (store64 m a v) b = if b =? a then v else load64 m b.
Proof.
  intros Ha Hb Hv. destruct (Z.eqb_spec b a) as [->|Hne].
  - unfold load64, store64. rewrite rd_written by done. by apply le_value_bytes.
  - apply load64_ext. intros i Hi. apply store64_other. intros ?. zlia.
Qed.

Lemma populate_other n flags step RDX RBX m i : RDX + 8 * Z.of_nat n < 2 ^ 64 -> 0 <= RDX ->
  ~ RDX <= i < RDX + 8 * Z.of_nat n -> populate n flags step RDX RBX m !! i = m !! i.
Proof.
  induction n as [|n IH] in RDX, RBX, m |- *; intros Hb H0 Hi; cbn [populate]; [done|]. unfold PAGE_HIERARCHY_ENTRY_SIZE.
  rewrite u64_small by lia. rewrite IH by lia. apply store64_other. lia.
Qed.
(** The [k]-th slot receives the [k]-th frame. *)
Lemma populate_loads n flags step RDX RBX m b :
  RDX mod 8 = 0 -> 0 <= RDX -> RDX + 8 * Z.of_nat n < 2 ^ 64 -> 0 <= RBX -> 0 <= step -> RBX + step * Z.of_nat n < 2 ^ 63 ->
  0 <= flags < 2 ^ 63 -> b mod 8 = 0 ->
  load64 (populate n flags step RDX RBX m) b =
    if (RDX <=? b) && (b <? RDX + 8 * Z.of_nat n) then Z.lor (RBX + step * ((b - RDX) / 8)) flags else load64 m b.
Proof.
  induction n as [|n IH] in RDX, RBX, m |- *; intros Ha H0 Hb Hr Hs Hf Hfl Hb8; cbn [populate].
  { destruct (Z.leb_spec RDX b); cbn; [|done]. zcase; [lia|done]. }
  unfold PAGE_HIERARCHY_ENTRY_SIZE. assert (0 <= step * Z.of_nat n) by nia.
  rewrite !u64_small by nia. rewrite IH by (lia || zlia || nia).
  assert (0 <= Z.lor RBX flags < 2 ^ 64) as Hv.
  { split; [apply Z.lor_nonneg; lia|]. apply nonneg_bits_bound; [lia|apply Z.lor_nonneg; lia|].
    intros i Hi. rewrite Z.lor_spec, (testbit_above RBX 63), (testbit_above flags 63) by nia. done. }
  rewrite load64_store64 by done.
  destruct (Z.eqb_spec b RDX) as [->|Hne].
  - rewrite Z.sub_diag. change (0 / 8) with 0. repeat zcase; cbn; try lia. f_equal. lia.
  - replace ((b - RDX) / 8) with ((b - (RDX + 8)) / 8 + 1) by zlia.
    repeat zcase; cbn; try (exfalso; zlia); try done. f_equal. lia.
Qed.

Lemma rep_movsb_other n : forall RSI RDI m i, ~ RDI <= i < RDI + Z.of_nat n -> rep_movsb n RSI RDI m !! i = m !! i.
Proof.
  induction n as [|n IH]; intros RSI RDI m i Hi; cbn [rep_movsb]; [done|]. rewrite IH by lia. apply lookup_insert_ne. lia.
Qed.
Lemma rep_movsb_copies n : forall RSI RDI m, (forall i, RSI <= i < RSI + Z.of_nat n -> ~ RDI <= i < RDI + Z.of_nat n) ->
  rd (rep_movsb n RSI RDI m) RDI (Z.of_nat n) = rd m RSI (Z.of_nat n).
Proof.
  induction n as [|n IH]; intros RSI RDI m Hd; [done|]. cbn [rep_movsb].
  replace (Z.of_nat (S n)) with (1 + Z.of_nat n) by lia. rewrite !rd_app by lia. rewrite IH by (intros i Hi H; apply (Hd i); lia).
  f_equal.
  - unfold rd. change (seqZ RDI 1) with [RDI]. change (seqZ RSI 1) with [RSI]. cbn [fmap list_fmap].
    rewrite rep_movsb_other by lia. by rewrite (lookup_insert_eq (M := gmap Z) m).
  - apply rd_ext. intros i Hi. apply lookup_insert_ne. intros <-. apply (Hd RDI); lia.
Qed.

(** ** Entries *)

(** An aligned frame with flags below its alignment. *)
Lemma entry_bits k base flags i : 0 <= k -> base mod 2 ^ k = 0 -> 0 <= flags < 2 ^ k -> 0 <= i ->
  Z.testbit (Z.lor base flags) i = if i <? k then Z.testbit flags i else Z.testbit base i.
Proof.
  intros Hk Hb Hf Hi. rewrite Z.lor_spec. zcase.
  - rewrite (aligned_low_bits base k) by (lia || done). done.
  - rewrite (testbit_above flags k) by lia. btauto.
Qed.
Lemma table_entry base : base mod 4096 = 0 -> 0 <= base < 2 ^ 52 ->
  entry_frame (Z.lor base 3) = base /\ Z.testbit (Z.lor base 3) 0 = true /\ Z.testbit (Z.lor base 3) 7 = false.
Proof.
  intros Ha Hr. split; [|by rewrite !(entry_bits 12)].
  apply Z.bits_inj'. intros i Hi. unfold entry_frame. rewrite Z.land_spec, testbit_phys_mask, (entry_bits 12) by done.
  destruct (Z.ltb_spec i 12) as [H|H].
  - rewrite (aligned_low_bits base 12) by (lia || done). destruct (Z.leb_spec 12 i); [lia|]. btauto.
  - destruct (Z.leb_spec 12 i); [|lia]. destruct (Z.ltb_spec i 52); cbn; [btauto|]. rewrite (testbit_above base 52) by lia. btauto.
Qed.
Lemma leaf_entry_frame T k base flags : leaf_bits T = k -> base mod 2 ^ k = 0 -> 0 <= base < 2 ^ 52 -> 0 <= flags < 2 ^ k -> 0 <= k ->
  mmu_frame T (Z.lor base flags) = base.
Proof.
  intros Ek Ha Hr Hf Hk. apply Z.bits_inj'. intros i Hi. rewrite mmu_frame_bits, Ek, (entry_bits k) by done.
  destruct (Z.ltb_spec i k) as [H|H].
  - rewrite (aligned_low_bits base k) by (lia || done). destruct (Z.leb_spec k i); [lia|done].
  - destruct (Z.leb_spec k i); [|lia]. destruct (Z.ltb_spec i 52); cbn; [done|]. by rewrite (testbit_above base 52) by lia.
Qed.

(** ** The tables *)

Section Tables.
Context (BOOT_INFO_PACK_SIZE BOOT_INFO PML4 : Z).
#[local] Notation table := (table PML4).

(** The layout of the image: all of it below 2 MiB, the tables on page
    boundaries behind the other data. *)
Record image_layout : Prop := {
  il_size : 0 <= BOOT_INFO_PACK_SIZE /\ BOOT_INFO_PACK_SIZE + 8 <= BOOT_INFO;
  il_info : BOOT_INFO + BOOT_INFO_MAX_SIZE <= PML4;
  il_align : PML4 mod 4096 = 0;
  il_end : PML4 + 7 * 4096 <= 0x200000
}.
Definition outside (m m' : ram) : Prop := forall i, ~ PML4 <= i < PML4 + 7 * 4096 -> m' !! i = m !! i.
Definition word (m : ram) (k i : Z) : Z := load64 m (table k + 8 * i).

Hypothesis IL : image_layout.
Lemma table_slot k i : 0 <= k < 7 -> 0 <= i < 512 -> (table k + 8 * i) mod 8 = 0 /\ PML4 <= table k + 8 * i /\ table k + 8 * i + 8 <= PML4 + 7 * 4096.
Proof. intros Hk Hi. destruct IL. unfold Bootelvt.table, PAGE_HIERARCHY_TOTAL_SIZE. split; [zlia|lia]. Qed.
Lemma word_eqb k i k' i' : 0 <= k < 7 -> 0 <= i < 512 -> 0 <= k' < 7 -> 0 <= i' < 512 ->
  (table k' + 8 * i' =? table k + 8 * i) = (k' =? k) && (i' =? i).
Proof. intros. unfold Bootelvt.table, PAGE_HIERARCHY_TOTAL_SIZE. repeat zcase; cbn; lia. Qed.

Lemma store_word m k i v k' i' : 0 <= k < 7 -> 0 <= i < 512 -> 0 <= k' < 7 -> 0 <= i' < 512 -> 0 <= v < 2 ^ 64 ->
  word (store64 m (table k + 8 * i) v) k' i' = if (k' =? k) && (i' =? i) then v else word m k' i'.
Proof.
  intros Hk Hi Hk' Hi' Hv. unfold word. rewrite load64_store64; [by rewrite word_eqb|by apply table_slot|by apply table_slot|done].
Qed.
Lemma store_outside m k i v : 0 <= k < 7 -> 0 <= i < 512 -> outside m (store64 m (table k + 8 * i) v).
Proof. intros Hk Hi j Hj. apply store64_other. destruct (table_slot k i Hk Hi) as (_ & ? & ?). lia. Qed.

(** A loop over the first [n] slots of a table. *)
Lemma loop_word m k n flags step base k' i' : 0 <= k < 7 -> 0 < n <= 512 -> 0 <= k' < 7 -> 0 <= i' < 512 ->
  0 <= base -> 0 <= step -> base + step * n < 2 ^ 63 -> 0 <= flags < 2 ^ 63 ->
  word (populate_loop n flags step (table k) base m) k' i' =
    if (k' =? k) && (i' <? n) then Z.lor (base + step * i') flags else word m k' i'.
Proof.
  intros Hk Hn Hk' Hi' Hb Hs Hbs Hf. unfold word, populate_loop, loop_count. destruct (Z.eqb_spec n 0); [lia|].
  destruct (table_slot k 0 Hk ltac:(lia)) as (Ha & Hlo & _). destruct (table_slot k' i' Hk' Hi') as (Ha' & _ & Hhi').
  destruct (table_slot k 511 Hk ltac:(lia)) as (_ & _ & Hhi). rewrite Z.mul_0_r, Z.add_0_r in *. destruct IL.
  unfold BOOT_INFO_MAX_SIZE in *.
  rewrite populate_loads by (rewrite ?Z2Nat.id by lia; lia || done). rewrite Z2Nat.id by lia.
  destruct (Z.eqb_spec k' k) as [->|Hne]; cbn.
  - replace ((table k + 8 * i' - table k) / 8) with i' by zlia. repeat zcase; cbn; try lia; done.
  - repeat zcase; cbn; try done. exfalso. revert H H0. unfold Bootelvt.table, PAGE_HIERARCHY_TOTAL_SIZE. lia.
Qed.
Lemma loop_outside m k n flags step base : 0 <= k < 7 -> 0 < n <= 512 -> outside m (populate_loop n flags step (table k) base m).
Proof.
  intros Hk Hn j Hj. unfold populate_loop, loop_count. destruct (Z.eqb_spec n 0); [lia|].
  destruct (table_slot k 0 Hk ltac:(lia)) as (_ & Hlo & _). destruct (table_slot k 511 Hk ltac:(lia)) as (_ & _ & Hhi).
  rewrite Z.mul_0_r, Z.add_0_r in Hlo. destruct IL. unfold BOOT_INFO_MAX_SIZE in *. apply populate_other; lia.
Qed.
Lemma outside_trans m m1 m2 : outside m m1 -> outside m1 m2 -> outside m m2.
Proof. intros H H' i Hi. by rewrite H', H. Qed.
Lemma outside_load m m' a : outside m m' -> a + 8 <= PML4 -> load64 m' a = load64 m a.
Proof. intros H Ha. apply load64_ext. intros i Hi. apply H. lia. Qed.

(** The entry of every slot, from tables that are zero. *)
Definition entry_of (fb n k i : Z) : Z :=
  if k =? 0 then if i =? 511 then Z.lor (table 1) 3 else if i =? 0 then Z.lor (table 4) 3 else 0
  else if k =? 1 then if i =? 511 then Z.lor (table 3) 3 else if i =? 510 then Z.lor (table 2) 3 else 0
  else if k =? 2 then if i <? 64 then Z.lor (0x200000 + 0x200000 * i) 0x83 else 0
  else if k =? 3 then if i <? n then Z.lor (fb + 0x200000 * i) 0x1083 else 0
  else if k =? 4 then if i =? 0 then Z.lor (table 5) 3 else 0
  else if k =? 5 then if i =? 0 then Z.lor (table 6) 3 else 0
  else Z.lor (4096 * i) 3.

Lemma table_link_range k : 0 <= k < 7 -> 0 <= Z.lor (table k) 3 < 2 ^ 64.
Proof.
  intros Hk. destruct (table_slot k 0 Hk ltac:(lia)) as (_ & Hlo & Hhi). destruct IL. unfold BOOT_INFO_MAX_SIZE in *.
  split; [apply Z.lor_nonneg; lia|]. apply nonneg_bits_bound; [lia|apply Z.lor_nonneg; lia|].
  intros i Hi. rewrite Z.lor_spec, (testbit_above (table k) 64), (testbit_above 3 64) by lia. done.
Qed.

(** The stores outside the loops, by table and slot. *)
Lemma link_kernel_slots m : link_kernel PML4 m =
  store64 (store64 (store64 (store64 m (table 0 + 8 * 511) (Z.lor (table 1) 3)) (table 0 + 8 * 0) (Z.lor (table 4) 3))
    (table 1 + 8 * 510) (Z.lor (table 2) 3)) (table 1 + 8 * 511) (Z.lor (table 3) 3).
Proof.
  unfold link_kernel, KRNL_PDPT, KRNL_PD, FBUF_PD, IDPAGE_PDPT, PAGE_HIERARCHY_ENTRY_SIZE.
  replace (table 0 + 8 * 0) with PML4 by (unfold Bootelvt.table; lia). replace (table 0 + 8 * 511) with (PML4 + 511 * 8) by (unfold Bootelvt.table; lia). done.
Qed.
Lemma link_identity_slots m : link_identity PML4 m = store64 (store64 m (table 4 + 8 * 0) (Z.lor (table 5) 3)) (table 5 + 8 * 0) (Z.lor (table 6) 3).
Proof. unfold link_identity, IDPAGE_PDPT, IDPAGE_PD, IDPAGE_PT. by rewrite !Z.mul_0_r, !Z.add_0_r. Qed.
Lemma link_kernel_outside m : outside m (link_kernel PML4 m).
Proof. rewrite link_kernel_slots. repeat (eapply outside_trans; [|apply store_outside; lia]). by intros i Hi. Qed.
Lemma link_identity_outside m : outside m (link_identity PML4 m).
Proof. rewrite link_identity_slots. repeat (eapply outside_trans; [|apply store_outside; lia]). by intros i Hi. Qed.

Lemma build_tables_words m fb n : (forall k i, 0 <= k < 7 -> 0 <= i < 512 -> word m k i = 0) ->
  load64 m (BOOT_INFO + BOOT_INFO_FBUF_OFFSET) = fb -> framebuffer_pages (load64 m (BOOT_INFO + BOOT_INFO_FBUFSZ_OFFSET)) = n ->
  0 <= fb < 2 ^ 52 -> 0 < n <= 512 ->
  let m' := build_tables BOOT_INFO PML4 m in
  outside m m' /\ forall k i, 0 <= k < 7 -> 0 <= i < 512 -> word m' k i = entry_of fb n k i.
Proof.
  intros Hz Hfb Hn Hr Hn'. unfold build_tables, KRNL_PD, FBUF_PD, IDPAGE_PT. cbv zeta.
  set (m1 := link_kernel PML4 m). assert (outside m m1) as O1 by apply link_kernel_outside.
  set (m2 := populate_loop _ _ _ (table 2) _ m1). assert (outside m m2) as O2 by (eapply outside_trans; [exact O1|by apply loop_outside]).
  assert (BOOT_INFO + 84 <= PML4) as Hbi by (destruct IL; unfold BOOT_INFO_MAX_SIZE in *; lia).
  rewrite !(outside_load m m2) by (done || unfold BOOT_INFO_FBUFSZ_OFFSET, BOOT_INFO_FBUF_OFFSET; lia). rewrite Hfb, Hn.
  set (m3 := populate_loop n _ _ (table 3) _ m2). assert (outside m m3) as O3 by (eapply outside_trans; [exact O2|by apply loop_outside; lia]).
  set (m4 := link_identity PML4 m3). assert (outside m m4) as O4 by (eapply outside_trans; [exact O3|apply link_identity_outside]).
  split; [eapply outside_trans; [exact O4|by apply loop_outside]|]. intros k i Hk Hi.
  rewrite loop_word by (done || lia). change (0x200000 / 0x1000) with 512.
  unfold m4. rewrite link_identity_slots, !store_word by (done || lia || by apply table_link_range).
  unfold m3. rewrite loop_word by (done || lia). unfold m2. rewrite loop_word by (done || lia). change (KERNEL_RESERVE_SIZE / 0x200000) with 64.
  unfold m1. rewrite link_kernel_slots, !store_word by (done || lia || by apply table_link_range). rewrite Hz by done.
  unfold entry_of.
  assert (k = 0 \/ k = 1 \/ k = 2 \/ k = 3 \/ k = 4 \/ k = 5 \/ k = 6) as Hc by lia.
  destruct Hc as [-> |[-> |[-> |[-> |[-> |[-> | ->]]]]]]; cbn [Z.eqb Pos.eqb andb]; try done; by repeat zcase; cbn; lia || done.
Qed.

(** ** The processor's walk over them *)

Lemma table_words_lookup m k i : 0 <= k < 7 -> 0 <= i < 512 -> table_words PML4 m !! (table k + 8 * i) = Some (word m k i).
Proof.
  intros Hk Hi. unfold table_words. apply elem_of_list_to_map_1'.
  - intros y (j & [= E ->] & Hj)%list_elem_of_fmap. unfold word. by rewrite E.
  - apply list_elem_of_fmap. exists (512 * k + i). unfold word, NrTableWords.
    assert (PML4 + 8 * (512 * k + i) = table k + 8 * i) as -> by (unfold Bootelvt.table, PAGE_HIERARCHY_TOTAL_SIZE; lia).
    split; [done|]. apply elem_of_seqZ. lia.
Qed.

#[local] Opaque table_words.
Lemma boot_translate_same m m' va : table_words PML4 m' = table_words PML4 m -> boot_translate PML4 m' va = boot_translate PML4 m va.
Proof. intros E. unfold boot_translate. by rewrite E. Qed.

(** One level of the walk through a table entry. *)
Lemma walk_through m d k i t rest : 0 <= k < 7 -> 0 <= i < 512 -> 0 <= t < 7 -> word m k i = Z.lor (table t) 3 ->
  walk (table_words PML4 m) 0 d (table k) (i :: rest) =
    if decide (d <= 2)%nat then walk (table_words PML4 m) 0 (S d) (table t) rest else Some (Z.lor (table t) 3, rest).
Proof.
  intros Hk Hi Ht E. cbn [walk]. rewrite table_words_lookup, E by done.
  destruct (table_slot t 0 Ht ltac:(lia)) as (_ & Hlo & Hhi). pose proof (table_slot t 511 Ht ltac:(lia)) as (_ & _ & Hhi2). destruct IL.
  unfold BOOT_INFO_MAX_SIZE in *.
  assert (table t mod 4096 = 0) as Ha by (unfold Bootelvt.table, PAGE_HIERARCHY_TOTAL_SIZE in *; zlia).
  destruct (table_entry (table t) Ha ltac:(lia)) as (Ef & E0 & E7). rewrite E0. cbn [negb].
  assert (u64 (0 + entry_frame (Z.lor (table t) 3)) = table t) as -> by (rewrite Ef; apply u64_small; lia).
  destruct d as [|[|[|d]]]; cbn [follows]; rewrite ?E7; cbn [negb]; by case_decide; [|lia] || done.
Qed.
Lemma walk_absent m d k i rest : 0 <= k < 7 -> 0 <= i < 512 -> word m k i = 0 -> walk (table_words PML4 m) 0 d (table k) (i :: rest) = None.
Proof. intros Hk Hi E. cbn [walk]. by rewrite table_words_lookup, E. Qed.
(** A terminating entry, large (at depth 2) or small (at depth 3). *)
Lemma walk_leaf m d k i e rest : 0 <= k < 7 -> 0 <= i < 512 -> word m k i = e -> Z.testbit e 0 = true -> follows d e = false ->
  walk (table_words PML4 m) 0 d (table k) (i :: rest) = Some (e, rest).
Proof. intros Hk Hi E H0 Hf. cbn [walk]. rewrite table_words_lookup, E by done. by rewrite H0, Hf. Qed.

(** The flags of a large page. *)
Lemma large_flags flags : flags = 0x83 \/ flags = 0x1083 -> 0 <= flags < 2 ^ 21 /\ Z.testbit flags 0 = true /\ Z.testbit flags 7 = true.
Proof. by intros [-> | ->]. Qed.

Lemma large_base b i : b mod 2 ^ 21 = 0 -> (b + 0x200000 * i) mod 2 ^ 21 = 0.
Proof. intros H. change 0x200000 with (2 ^ 21). by rewrite (Z.mul_comm (2 ^ 21)), Z.mod_add. Qed.

(** What boot elevate maps. *)
Definition boot_map (fb n va : Z) : option Z :=
  if va <? 0x200000 then Some va
  else if (KERNEL_VIRTUAL_ADDRESS <=? va) && (va <? KERNEL_RESERVED_END) then Some (KERNEL_LOAD_ADDRESS + (va - KERNEL_VIRTUAL_ADDRESS))
  else if (FRAMEBUFFER_VIRTUAL_ADDR <=? va) && (va <? FRAMEBUFFER_VIRTUAL_ADDR + 0x200000 * n) then Some (fb + (va - FRAMEBUFFER_VIRTUAL_ADDR))
  else None.
Definition canonical_address (va : Z) : Prop := 0 <= va < 2 ^ 47 \/ 2 ^ 64 - 2 ^ 47 <= va < 2 ^ 64.

(** A canonical address by its indices. *)
Lemma address_parts va : canonical_address va -> exists h i4 i3 i2 r,
  va = h * (2 ^ 64 - 2 ^ 48) + i4 * 2 ^ 39 + i3 * 2 ^ 30 + i2 * 2 ^ 21 + r /\ 0 <= i4 < 512 /\ 0 <= i3 < 512 /\ 0 <= i2 < 512 /\ 0 <= r < 2 ^ 21 /\
  ((h = 0 /\ i4 < 256) \/ (h = 1 /\ 256 <= i4)) /\ va_indices va = [i4; i3; i2; r / 2 ^ 12] /\ va mod 2 ^ 21 = r /\ va mod 2 ^ 12 = r mod 2 ^ 12.
Proof.
  intros H. exists (va / 2 ^ 63), (va / 2 ^ 39 mod 512), (va / 2 ^ 30 mod 512), (va / 2 ^ 21 mod 512), (va mod 2 ^ 21).
  assert (va / 2 ^ 12 mod 512 = va mod 2 ^ 21 / 2 ^ 12) as E by zlia. unfold va_indices. rewrite E.
  destruct H as [H|H]; (split_and!; try done; try zlia).
Qed.

Section Walk.
Context (m : ram) (fb n : Z) (Hw : forall k i, 0 <= k < 7 -> 0 <= i < 512 -> word m k i = entry_of fb n k i).
Context (Hfb : 0 <= fb) (Hal : fb mod 2 ^ 21 = 0) (Hn : 0 < n <= 512) (Hend : fb + 2 ^ 21 * n <= 2 ^ 52).

Lemma large_page k i base flags va : 0 <= k < 7 -> 0 <= i < 512 -> word m k i = Z.lor base flags -> base mod 2 ^ 21 = 0 -> 0 <= base < 2 ^ 52 ->
  flags = 0x83 \/ flags = 0x1083 ->
  walk (table_words PML4 m) 0 0 PML4 (va_indices va) = walk (table_words PML4 m) 0 2 (table k) [i; va mod 2 ^ 21 / 2 ^ 12] ->
  boot_translate PML4 m va = Some (base + va mod 2 ^ 21, Z.lor base flags).
Proof.
  intros Hk Hi E Ha Hb Hf Hwalk. unfold boot_translate, mmu_translate. rewrite Hwalk.
  destruct (large_flags flags Hf) as (Hfr & H0 & H7).
  rewrite (walk_leaf m 2 k i (Z.lor base flags)); [| | |done| |]; [|done..| |].
  - rewrite (leaf_entry_frame PD2MB_ENTRY 21) by done. done.
  - by rewrite (entry_bits 21).
  - cbn [follows]. by rewrite (entry_bits 21), H7.
Qed.

(** The walk through the two upper levels. *)
Lemma walk_upper d k i i' t rest : 0 <= k < 7 -> 0 <= i < 512 -> 0 <= t < 7 -> entry_of fb n k i = Z.lor (table t) 3 -> i' = i -> (d <= 2)%nat ->
  walk (table_words PML4 m) 0 d (table k) (i' :: rest) = walk (table_words PML4 m) 0 (S d) (table t) rest.
Proof. intros Hk Hi Ht E -> Hd. rewrite (walk_through m d k i t rest) by (done || by rewrite Hw). by rewrite decide_True. Qed.
Lemma table_0 : table 0 = PML4.
Proof. unfold Bootelvt.table. lia. Qed.
Lemma absent_none va d k i rest : 0 <= k < 7 -> 0 <= i < 512 -> entry_of fb n k i = 0 ->
  walk (table_words PML4 m) 0 0 PML4 (va_indices va) = walk (table_words PML4 m) 0 d (table k) (i :: rest) -> boot_translate PML4 m va = None.
Proof. intros Hk Hi E Hwalk. unfold boot_translate, mmu_translate. rewrite Hwalk, walk_absent; [done..|by rewrite Hw]. Qed.

(** The kernel image and the frame buffer, through large pages. *)
Lemma upper_half i3 i2 r va : va = 2 ^ 64 - 2 ^ 39 + i3 * 2 ^ 30 + i2 * 2 ^ 21 + r -> 0 <= i3 < 512 -> 0 <= i2 < 512 -> 0 <= r < 2 ^ 21 ->
  va_indices va = [511; i3; i2; r / 2 ^ 12] -> va mod 2 ^ 21 = r ->
  exists e, boot_translate PML4 m va = (fun pa => (pa, e)) <$> boot_map fb n va /\
    (FRAMEBUFFER_VIRTUAL_ADDR <= va -> e = Z.lor (fb + 0x200000 * i2) 0x1083).
Proof.
  intros Eva H3 H2 Hr Hi Hm.
  assert (walk (table_words PML4 m) 0 0 PML4 (va_indices va) = walk (table_words PML4 m) 0 1 (table 1) [i3; i2; r / 2 ^ 12]) as W1.
  { rewrite Hi. rewrite <- (walk_upper 0 0 511 511 1) by (lia || reflexivity). by rewrite table_0. }
  unfold boot_map, KERNEL_RESERVED_END, KERNEL_RESERVE_SIZE, KERNEL_VIRTUAL_ADDRESS, FRAMEBUFFER_VIRTUAL_ADDR, KERNEL_LOAD_ADDRESS.
  destruct (decide (i3 = 511)) as [->|]; [|destruct (decide (i3 = 510)) as [->|]].
  - assert (walk (table_words PML4 m) 0 0 PML4 (va_indices va) = walk (table_words PML4 m) 0 2 (table 3) [i2; va mod 2 ^ 21 / 2 ^ 12]) as W2
      by (rewrite W1, Hm; apply (walk_upper 1 1 511 511 3); (lia || reflexivity)).
    exists (Z.lor (fb + 0x200000 * i2) 0x1083). split; [|done]. destruct (decide (i2 < n)).
    + rewrite (large_page 3 i2 (fb + 0x200000 * i2) 0x1083); [|lia|lia| |by apply large_base|lia|by right|exact W2].
      2: { rewrite Hw by lia. unfold entry_of. cbn [Z.eqb Pos.eqb]. zcase; [done|lia]. }
      repeat zcase; try lia. cbn. do 2 f_equal. lia.
    + rewrite (absent_none va 2 3 i2 [va mod 2 ^ 21 / 2 ^ 12]); [|lia|lia| |done].
      2: { unfold entry_of. cbn [Z.eqb Pos.eqb]. zcase; [lia|done]. }
      repeat zcase; try lia; done.
  - assert (walk (table_words PML4 m) 0 0 PML4 (va_indices va) = walk (table_words PML4 m) 0 2 (table 2) [i2; va mod 2 ^ 21 / 2 ^ 12]) as W2
      by (rewrite W1, Hm; apply (walk_upper 1 1 510 510 2); (lia || reflexivity)).
    exists (Z.lor (0x200000 + 0x200000 * i2) 0x83). split; [|lia]. destruct (decide (i2 < 64)).
    + rewrite (large_page 2 i2 (0x200000 + 0x200000 * i2) 0x83); [|lia|lia| |by apply large_base|lia|by left|exact W2].
      2: { rewrite Hw by lia. unfold entry_of. cbn [Z.eqb Pos.eqb]. zcase; [done|lia]. }
      repeat zcase; try lia. cbn. do 2 f_equal. lia.
    + rewrite (absent_none va 2 2 i2 [va mod 2 ^ 21 / 2 ^ 12]); [|lia|lia| |done].
      2: { unfold entry_of. cbn [Z.eqb Pos.eqb]. zcase; [lia|done]. }
      repeat zcase; try lia; done.
  - exists 0. split; [|lia]. rewrite (absent_none va 1 1 i3 [i2; r / 2 ^ 12]); [|lia|lia| |done].
    2: { unfold entry_of. cbn [Z.eqb Pos.eqb]. repeat zcase; lia || done. }
    repeat zcase; try lia; done.
Qed.

(** The identity mapping of the lowest 2 MiB. *)
Lemma lower_half i3 i2 r va : va = i3 * 2 ^ 30 + i2 * 2 ^ 21 + r -> 0 <= i3 < 512 -> 0 <= i2 < 512 -> 0 <= r < 2 ^ 21 ->
  va_indices va = [0; i3; i2; r / 2 ^ 12] -> va mod 2 ^ 12 = r mod 2 ^ 12 ->
  exists e, boot_translate PML4 m va = (fun pa => (pa, e)) <$> boot_map fb n va.
Proof.
  intros Eva H3 H2 Hr Hi Hm.
  assert (walk (table_words PML4 m) 0 0 PML4 (va_indices va) = walk (table_words PML4 m) 0 1 (table 4) [i3; i2; r / 2 ^ 12]) as W1.
  { rewrite Hi. rewrite <- (walk_upper 0 0 0 0 4) by (lia || reflexivity). by rewrite table_0. }
  unfold boot_map, KERNEL_RESERVED_END, KERNEL_RESERVE_SIZE, KERNEL_VIRTUAL_ADDRESS, FRAMEBUFFER_VIRTUAL_ADDR, KERNEL_LOAD_ADDRESS.
  destruct (decide (i3 = 0)) as [->|].
  2: { exists 0. rewrite (absent_none va 1 4 i3 [i2; r / 2 ^ 12]); [|lia|lia| |done].
    2: { unfold entry_of. cbn [Z.eqb Pos.eqb]. zcase; [lia|done]. }
    repeat zcase; try lia; done. }
  assert (walk (table_words PML4 m) 0 1 (table 4) [0; i2; r / 2 ^ 12] = walk (table_words PML4 m) 0 2 (table 5) [i2; r / 2 ^ 12]) as W2
    by (apply (walk_upper 1 4 0 0 5); (lia || reflexivity)).
  destruct (decide (i2 = 0)) as [->|].
  2: { exists 0. rewrite (absent_none va 2 5 i2 [r / 2 ^ 12]); [|lia|lia| |by rewrite W1, W2].
    2: { unfold entry_of. cbn [Z.eqb Pos.eqb]. zcase; [lia|done]. }
    repeat zcase; try lia; done. }
  assert (walk (table_words PML4 m) 0 2 (table 5) [0; r / 2 ^ 12] = walk (table_words PML4 m) 0 3 (table 6) [r / 2 ^ 12]) as W3
    by (apply (walk_upper 2 5 0 0 6); (lia || reflexivity)).
  assert (0 <= r / 2 ^ 12 < 512) as Hq by (clear - Hr; zlia). pose proof (Z.div_mod r (2 ^ 12) ltac:(lia)) as Hdm.
  set (q := r / 2 ^ 12) in *. assert ((4096 * q) mod 2 ^ 12 = 0) as Hq0 by (rewrite Z.mul_comm; by apply Z.mod_mul).
  exists (Z.lor (4096 * q) 3). unfold boot_translate, mmu_translate. rewrite W1, W2, W3.
  rewrite (walk_leaf m 3 6 q (Z.lor (4096 * q) 3)); [|lia|lia| | |done].
  - assert (mmu_frame PT_ENTRY (Z.lor (4096 * q) 3) = 4096 * q) as -> by (apply (leaf_entry_frame PT_ENTRY 12); [done|exact Hq0|lia|lia|lia]).
    rewrite Hm. zcase; [|lia]. cbn [fmap option_fmap option_map]. repeat f_equal. lia.
  - by rewrite Hw by lia.
  - rewrite (entry_bits 12); [reflexivity|lia|exact Hq0|lia|lia].
Qed.

Lemma boot_translates va : canonical_address va -> exists e, boot_translate PML4 m va = (fun pa => (pa, e)) <$> boot_map fb n va /\
  (FRAMEBUFFER_VIRTUAL_ADDR <= va -> is_Some (boot_map fb n va) -> mmu_pat_index PD2MB_ENTRY e = 4).
Proof.
  intros Hc. destruct (address_parts va Hc) as (h & i4 & i3 & i2 & r & Eva & H4 & H3 & H2 & Hr & Hh & Hi & Hm & Hm').
  destruct (decide (i4 = 511)) as [->|]; [|destruct (decide (i4 = 0)) as [->|]].
  - destruct Hh as [[-> ?]|[-> _]]; [lia|]. destruct (upper_half i3 i2 r va) as (e & E & Hfbe); [lia..|done|done|].
    exists e. split; [done|]. intros Hf _. rewrite (Hfbe Hf). unfold mmu_pat_index, entry_bit. cbn [large_type].
    rewrite !(entry_bits 21) by (lia || zlia). reflexivity.
  - destruct Hh as [[-> ?]|[-> ?]]; [|lia]. destruct (lower_half i3 i2 r va) as (e & E); [lia..|done|done|].
    exists e. split; [done|]. unfold FRAMEBUFFER_VIRTUAL_ADDR. lia.
  - exists 0. rewrite (absent_none va 0 0 i4 [i3; i2; r / 2 ^ 12]); [|lia|lia| |by rewrite Hi, table_0].
    2: { unfold entry_of. cbn [Z.eqb Pos.eqb]. repeat zcase; lia || done. }
    assert (boot_map fb n va = None) as ->; [|by split; [|intros _ [? [=]]]].
    unfold boot_map, KERNEL_RESERVED_END, KERNEL_RESERVE_SIZE, KERNEL_VIRTUAL_ADDRESS, FRAMEBUFFER_VIRTUAL_ADDR, KERNEL_LOAD_ADDRESS.
    destruct Hh as [[-> ?]|[-> ?]]; repeat zcase; try lia; done.
Qed.
End Walk.
End Tables.
