(* ===== verification/BootelvtThms.v ===== *)
(** * Boot elevate: the state in which the kernel is entered, and the whole boot
    chain from the loader's entry point to it *)
From Stdlib Require Import ZArith Lia String.
From stdpp Require Import base numbers list gmap.
From S2P Require Import Prelude Bytes MemoryMap Physmemmgmt Pte Vmr PageTable PageTableSpec Loader LoaderProps LoaderThms Bootelvt BootelvtProps.
Open Scope Z_scope.
#[local] Arguments Z.testbit _ _ : simpl never.

Section Entry.
Context (BOOT_INFO_PACK_SIZE BOOT_INFO PML4 Return : Z).

(** The pack where RSI points to, clear of the image's own data, and the zeroed
    tables; [fb] and [size] are the frame buffer it describes. *)
Record elevate_input (RCX RSI fb size : Z) (m : ram) : Prop := {
  ei_size : 84 <= RCX <= BOOT_INFO_MAX_SIZE;
  ei_clear : RSI + RCX <= BOOT_INFO_PACK_SIZE \/ PML4 + 7 * 4096 <= RSI;
  ei_magic : le_value (rd m RSI 4) = SYSTEM_INFO_PACK_MAGIC;
  ei_fb : load64 m (RSI + BOOT_INFO_FBUF_OFFSET) = fb;
  ei_fbsize : load64 m (RSI + BOOT_INFO_FBUFSZ_OFFSET) = size;
  ei_zero : forall a, PML4 <= a < PML4 + 7 * 4096 -> default 0 (m !! a) = 0
}.
(** A frame buffer the tables can map: on a large page boundary, of at most 1 GiB. *)
Record framebuffer_ok (fb size : Z) : Prop := {
  fo_align : fb mod 2 ^ 21 = 0;
  fo_size : 0 < size <= 2 ^ 30;
  fo_range : 0 <= fb /\ fb + 2 ^ 21 * framebuffer_pages size <= 2 ^ 52
}.
(** Where the return address of the call of the kernel goes. *)
Definition stack_slot : Z := KERNEL_LOAD_ADDRESS + KERNEL_RESERVE_SIZE - 24.

Record kernel_entered (RCX RSI fb n : Z) (m : ram) (r : Entered) : Prop := {
  ke_rip : enRIP r = KERNEL_VIRTUAL_ADDRESS;
  ke_rdi : enRDI r = BOOT_INFO;
  ke_rsp : enRSP r = KERNEL_VIRTUAL_ADDRESS + KERNEL_RESERVE_SIZE - 24;
  ke_cr3 : bcCR3 (enCpu r) = PML4;
  ke_cached : Z.testbit (bcCR0 (enCpu r)) 30 = false /\ Z.testbit (bcCR0 (enCpu r)) 29 = false;
  ke_pack : rd (enMem r) BOOT_INFO RCX = rd m RSI RCX;
  ke_map : forall va, canonical_address va -> fst <$> boot_translate PML4 (enMem r) va = boot_map fb n va;
  ke_combining : forall va pa e, canonical_address va -> FRAMEBUFFER_VIRTUAL_ADDR <= va -> boot_translate PML4 (enMem r) va = Some (pa, e) ->
    mmu_memory_type (bcPAT (enCpu r)) PD2MB_ENTRY e = PAT_WC;
  ke_return : load64 (enMem r) stack_slot = Return;
  ke_rest : forall a, ~ BOOT_INFO_PACK_SIZE <= a < PML4 + 7 * 4096 -> ~ stack_slot <= a < stack_slot + 8 -> enMem r !! a = m !! a
}.

Lemma load64_zero m a : (forall i, a <= i < a + 8 -> default 0 (m !! i) = 0) -> load64 m a = 0.
Proof.
  intros H. unfold load64. transitivity (le_value (rd ∅ a 8)); [|by rewrite rd_empty]. f_equal. apply list_fmap_ext.
  intros k x Hx. apply lookup_seqZ in Hx as [-> ?]. by rewrite H by lia.
Qed.
Lemma load64_slice m p n k : 0 <= k -> k + 8 <= n -> load64 m (p + k) = le_value (slice (rd m p n) (Z.to_nat k) 8).
Proof. intros Hk Hn. unfold load64. rewrite rd_slice by lia. by rewrite Z2Nat.id. Qed.
(** The pages are as many as the size needs, and no more. *)
Lemma framebuffer_pages_cover size : size <= 2 ^ 21 * framebuffer_pages size < size + 2 ^ 21.
Proof. unfold framebuffer_pages. zcase; zlia. Qed.
Lemma framebuffer_pages_range size : 0 < size <= 2 ^ 30 -> 0 < framebuffer_pages size <= 512.
Proof. intros H. unfold framebuffer_pages. zcase; zlia. Qed.
Lemma table_words_ext m m' : (forall i, PML4 <= i < PML4 + 7 * 4096 -> m' !! i = m !! i) -> table_words PML4 m' = table_words PML4 m.
Proof.
  intros H. unfold table_words. apply (f_equal list_to_map), list_fmap_ext. intros k x Hx. unfold NrTableWords in Hx. apply lookup_seqZ in Hx as [-> Hk].
  f_equal. apply load64_ext. intros i Hi. apply H. lia.
Qed.

Lemma cache_bits CR0 : Z.testbit (cache_on (cache_off CR0)) 30 = false /\ Z.testbit (cache_on (cache_off CR0)) 29 = false.
Proof.
  unfold cache_on, cache_off. rewrite !Z.land_spec, !Z.lnot_spec, !testbit_one_shiftl by lia. cbn [Z.eqb Pos.eqb negb]. by rewrite !andb_false_r.
Qed.

Lemma elevate_enters c RCX RSI fb size m : image_layout BOOT_INFO_PACK_SIZE BOOT_INFO PML4 -> 0 <= Return < 2 ^ 64 ->
  elevate_input RCX RSI fb size m -> framebuffer_ok fb size ->
  exists r, Bootelvt BOOT_INFO_PACK_SIZE BOOT_INFO PML4 Return c RCX RSI m = Done r /\ kernel_entered RCX RSI fb (framebuffer_pages size) m r.
Proof.
  intros IL HR EI FO. pose proof (framebuffer_pages_range size (fo_size _ _ FO)) as Hn. set (n := framebuffer_pages size) in *.
  pose proof (ei_size _ _ _ _ _ EI) as HRCX. pose proof (ei_clear _ _ _ _ _ EI) as Hclear. destruct (fo_range _ _ FO) as [Hfb0 Hfbend].
  pose proof IL as [[Hps Hps'] Hbi Hal Hend]. unfold BOOT_INFO_MAX_SIZE in HRCX, Hbi.
  unfold Bootelvt, BOOT_INFO_MAX_SIZE. rewrite u32_small by lia. rewrite Z.gtb_ltb. destruct (Z.ltb_spec 8192 RCX); [lia|].
  set (m1 := write_at m BOOT_INFO_PACK_SIZE (le_bytes 4 RCX)). set (m2 := rep_movsb (Z.to_nat RCX) RSI BOOT_INFO m1).
  assert (forall i, ~ BOOT_INFO_PACK_SIZE <= i < BOOT_INFO_PACK_SIZE + 4 -> m1 !! i = m !! i) as H1.
  { intros i Hi. unfold m1. by rewrite write_at_lookup, le_bytes_length, decide_False by lia. }
  assert (forall i, ~ BOOT_INFO_PACK_SIZE <= i < PML4 -> m2 !! i = m !! i) as H2.
  { intros i Hi. unfold m2. rewrite rep_movsb_other by lia. apply H1. lia. }
  assert (rd m2 BOOT_INFO RCX = rd m RSI RCX) as Hpack.
  { unfold m2. rewrite <- (Z2Nat.id RCX) at 2 by lia. rewrite rep_movsb_copies by lia. rewrite Z2Nat.id by lia.
    apply rd_ext. intros i Hi. apply H1. lia. }
  assert (forall k, 0 <= k -> k + 8 <= RCX -> load64 m2 (BOOT_INFO + k) = load64 m (RSI + k)) as Hld.
  { intros k Hk Hk'. rewrite !(load64_slice _ _ RCX) by lia. by rewrite Hpack. }
  assert (rd m2 BOOT_INFO 4 = rd m RSI 4) as ->.
  { pose proof (rd_slice m2 BOOT_INFO RCX 0 4 ltac:(lia)) as E2. pose proof (rd_slice m RSI RCX 0 4 ltac:(lia)) as E0.
    rewrite Hpack in E2. change (Z.of_nat 0) with 0 in E2, E0. change (Z.of_nat 4) with 4 in E2, E0. rewrite Z.add_0_r in E2, E0. congruence. }
  rewrite (ei_magic _ _ _ _ _ EI), Z.eqb_refl. cbn [negb].
  assert (forall k i, 0 <= k < 7 -> 0 <= i < 512 -> word PML4 m2 k i = 0) as Hz.
  { intros k i Hk Hi. unfold word. destruct (table_slot BOOT_INFO_PACK_SIZE BOOT_INFO PML4 IL k i Hk Hi) as (_ & Hlo & Hhi).
    apply load64_zero. intros j Hj. rewrite H2 by lia. apply (ei_zero _ _ _ _ _ EI). lia. }
  destruct (build_tables_words BOOT_INFO_PACK_SIZE BOOT_INFO PML4 IL m2 fb n Hz) as [Hout Hw]; [| |lia|lia|].
  { unfold BOOT_INFO_FBUF_OFFSET. rewrite Hld by lia. apply EI. }
  { unfold n. do 2 f_equal. unfold BOOT_INFO_FBUFSZ_OFFSET, BOOT_INFO_FBUF_OFFSET. rewrite Hld by lia. apply EI. }
  cbv zeta in Hout, Hw. set (m3 := build_tables BOOT_INFO PML4 m2) in *.
  pose proof (boot_translates BOOT_INFO_PACK_SIZE BOOT_INFO PML4 IL m3 fb n Hw Hfb0 (fo_align _ _ FO) Hn ltac:(lia)) as Htr.
  set (va := KERNEL_VIRTUAL_ADDRESS + KERNEL_RESERVE_SIZE - 16 - 8).
  assert (boot_map fb n va = Some stack_slot) as Hslot by reflexivity.
  destruct (Htr va) as (e & Ee & _); [unfold canonical_address, va, KERNEL_VIRTUAL_ADDRESS, KERNEL_RESERVE_SIZE; lia|].
  rewrite Hslot in Ee. cbn in Ee. rewrite Ee. eexists. split; [reflexivity|].
  assert (stack_slot = 0x81FFFE8) as Es by done.
  assert (table_words PML4 (store64 m3 stack_slot Return) = table_words PML4 m3) as Etw.
  { apply table_words_ext. intros i Hi. apply store64_other. lia. }
  split; cbn [enRIP enRDI enRSP enCpu enMem bcCR3 bcCR0 bcPAT]; [reflexivity|reflexivity|reflexivity|reflexivity|..].
  - apply cache_bits.
  - rewrite <- Hpack. apply rd_ext. intros i Hi. rewrite store64_other by lia. apply Hout. lia.
  - intros x Hx. rewrite (boot_translate_same PML4 m3 _ x Etw).
    destruct (Htr x Hx) as (e' & -> & _). by destruct (boot_map fb n x).
  - intros x pa e' Hx Hf. rewrite (boot_translate_same PML4 m3 _ x Etw).
    destruct (Htr x Hx) as (e2 & -> & Hpat). destruct (boot_map fb n x) eqn:Em; [|done]. intros [= <- <-].
    unfold mmu_memory_type. rewrite Hpat; [reflexivity|exact Hf|]. by eexists.
  - rewrite load64_store64; [by rewrite Z.eqb_refl|reflexivity|reflexivity|exact HR].
  - intros a Ha Ha'. rewrite store64_other, Hout, H2 by lia. reflexivity.
Qed.
End Entry.

(** ** From the loader to the kernel *)

Section Chain.
Context {W : Type} `{FW : Firmware W}.
Context (live : W * ram -> Prop) (pGOP : Z) (content : string -> list Z) (emap : W * ram -> list EfiMemoryDescriptor) (N tab : Z).
Context (BOOT_INFO_PACK_SIZE BOOT_INFO PML4 : Z).

(** BOOTELVT.BIN is the image with that layout, its tables zero; the kernel
    ends below the bootstrap arena. *)
Record images_ok : Prop := {
  io_layout : image_layout BOOT_INFO_PACK_SIZE BOOT_INFO PML4;
  io_start : BOOTELVT_LOAD_ADDRESS <= BOOT_INFO_PACK_SIZE;
  io_length : PML4 + 7 * 4096 <= BOOTELVT_LOAD_ADDRESS + Z.of_nat (length (content BOOTELVT_FILE_NAME));
  io_zero : forall i b, content BOOTELVT_FILE_NAME !! i = Some b -> PML4 <= BOOTELVT_LOAD_ADDRESS + Z.of_nat i < PML4 + 7 * 4096 -> b = 0;
  io_kernel : Z.of_nat (length (content KERNEL_FILE_NAME)) <= BOOTSTRAP_KERNEL_AREA_BEGIN - KERNEL_VIRTUAL_ADDRESS
}.
(** What the firmware reports is in the range of its types, and the frame
    buffer can be mapped. *)
Record values_ok (m : W * ram) : Prop := {
  vo_mode : forall x, live x -> let g := GopCurrent pGOP x in
    framebuffer_ok (FrameBufferBase g) (FrameBufferSize g) /\ 0 <= HorizontalResolution (ModeInfo g) < 2 ^ 32 /\
    0 <= VerticalResolution (ModeInfo g) < 2 ^ 32 /\ 0 <= ScanLinePixels (ModeInfo g) < 2 ^ 32;
  vo_rsdp : 0 <= locate_table ACPI_20_TABLE_GUID (ConfigurationTable tab m) < 2 ^ 64;
  vo_map : forall x, live x -> Forall (desc_wf ∘ kr_descriptor) (emap x)
}.

(** The machine when the kernel gets control: [p] is the pack it is passed,
    [ds] the descriptors the pack refers to. *)
Record kernel_booted (p : KrSystemInfoPack) (ds : list KrMemoryDescriptor) (r : Entered) : Prop := {
  kb_entry : enRIP r = KERNEL_VIRTUAL_ADDRESS /\ enRSP r = KERNEL_VIRTUAL_ADDRESS + KERNEL_RESERVE_SIZE - 24;
  kb_cr3 : bcCR3 (enCpu r) = PML4;
  kb_map : forall va, canonical_address va -> fst <$> boot_translate PML4 (enMem r) va =
    boot_map (PhysicalFramebufferAddress (GraphicsInfo p)) (framebuffer_pages (FramebufferSize (GraphicsInfo p))) va;
  kb_pack : read_pack (enMem r) (enRDI r) = p /\ 0 <= enRDI r /\ enRDI r + sizeof_KrSystemInfoPack <= 0x200000;
  kb_descriptors : read_descriptors (enMem r) (MapPhysicalAddress p) (EntryCount (MemoryMapInfo p)) = ds /\
    0 <= MapPhysicalAddress p /\ MapPhysicalAddress p + MemoryMapSize (MemoryMapInfo p) <= 0x200000;
  kb_kernel : forall i b, content KERNEL_FILE_NAME !! i = Some b ->
    exists pa, fst <$> boot_translate PML4 (enMem r) (KERNEL_VIRTUAL_ADDRESS + Z.of_nat i) = Some pa /\ default 0 (enMem r !! pa) = b
}.

Lemma rd_lookup m a l i b : rd m a (Z.of_nat (length l)) = l -> l !! i = Some b -> default 0 (m !! (a + Z.of_nat i)) = b.
Proof.
  intros E Hi. pose proof (lookup_lt_Some _ _ _ Hi) as Hl. rewrite <- E in Hi. unfold rd in Hi. rewrite list_lookup_fmap in Hi.
  rewrite (proj2 (lookup_seqZ a (Z.of_nat (length l)) i (a + Z.of_nat i))) in Hi by lia. by injection Hi.
Qed.

Context (answers : Z -> option ModeInformation) (Max : Z) (sets hyp : bool) (pool : Z -> Z -> Prop) (dsz limit pB : Z).

Lemma pack_wf_boot_info m mx : values_ok m -> live mx -> fits Max content pool dsz limit emap N pB -> images_ok ->
  pack_wf (boot_info (Z.of_nat (length (content KERNEL_FILE_NAME))) (GopCurrent pGOP mx) (locate_table ACPI_20_TABLE_GUID (ConfigurationTable tab m))
             (mkInfo (32 * Z.of_nat (length (emap mx))) (Z.of_nat (length (emap mx))) 4096)).
Proof.
  intros [V1 V2 _] Hl HF HI. destruct (V1 mx Hl) as ([F1 F2 [F3 F4]] & V3 & V4 & V5). pose proof (io_kernel HI) as HK.
  pose proof (ft_entries _ _ _ _ _ _ _ _ HF mx) as HE. pose proof (ft_map _ _ _ _ _ _ _ _ HF) as HM.
  unfold BOOTSTRAP_KERNEL_AREA_BEGIN, KERNEL_STACK_START, KERNEL_RESERVED_END, KERNEL_STACK_SIZE, BOOTSTRAP_KERNEL_AREA_SIZE,
    KERNEL_RESERVE_SIZE, KERNEL_VIRTUAL_ADDRESS, MEMORY_MAP_ADDRESS, BOOTELVT_LOAD_ADDRESS in *.
  pose proof (framebuffer_pages_range _ F2) as Hp.
  split; repeat constructor; cbn [boot_info ipMagic KernelBinarySize KernelPhysicalBase KernelVirtualBase KernelStackPhysicalBase KernelStackVirtualBase
    KernelBootstrapArenaBase KernelBootstrapArenaSize KernelReserveSize GraphicsInfo PhysicalFramebufferAddress FramebufferSize FramebufferWidth
    FramebufferHeight PixelsPerScanLine MapPhysicalAddress MemoryMapInfo MemoryMapSize EntryCount PageSize PhysAddrRSDP]; done || lia.
Qed.

Lemma chain_boots m mx mj j c Return : values_ok m -> fits Max content pool dsz limit emap N pB -> images_ok -> 0 <= Return < 2 ^ 64 ->
  handed_over live pGOP answers Max sets content emap tab hyp pB m mx mj j ->
  exists r, Bootelvt BOOT_INFO_PACK_SIZE BOOT_INFO PML4 Return c (jRCX j) (jRSI j) mj.2 = Done r /\
    kernel_booted (boot_info (Z.of_nat (length (content KERNEL_FILE_NAME))) (GopCurrent pGOP mx) (locate_table ACPI_20_TABLE_GUID (ConfigurationTable tab m))
      (mkInfo (32 * Z.of_nat (length (emap mx))) (Z.of_nat (length (emap mx))) 4096)) (kr_descriptor <$> emap mx) r.
Proof.
  intros HV HF HI HR [Hl -> Hpk Hb Hk Hm _]. pose proof (pack_wf_boot_info m mx HV Hl HF HI) as Hwf. set (p := boot_info _ _ _ _) in *.
  destruct HV as [V1 _ V3]. destruct (V1 mx Hl) as (FO & _). cbv zeta in FO. clear V1.
  pose proof HI as [IL I1 I2 I3 I4]. pose proof IL as [[L1 L2] L3 L4 L5]. unfold BOOT_INFO_MAX_SIZE in L3.
  pose proof (read_pack_bytes _ _ _ Hwf Hpk) as Hrp.
  assert (pB + 140 <= BOOTELVT_LOAD_ADDRESS \/ BOOTELVT_LOAD_ADDRESS + Z.of_nat (length (content BOOTELVT_FILE_NAME)) <= pB) as Hclear.
  { destruct (decide (pB + 140 <= BOOTELVT_LOAD_ADDRESS)); [by left|]. right.
    destruct (decide (BOOTELVT_LOAD_ADDRESS + Z.of_nat (length (content BOOTELVT_FILE_NAME)) <= pB)); [done|].
    destruct (ft_pack _ _ _ _ _ _ _ _ HF (Z.max pB BOOTELVT_LOAD_ADDRESS)); unfold sizeof_KrSystemInfoPack, area; lia. }
  destruct (elevate_enters BOOT_INFO_PACK_SIZE BOOT_INFO PML4 Return c sizeof_KrSystemInfoPack pB (FrameBufferBase (GopCurrent pGOP mx))
    (FrameBufferSize (GopCurrent pGOP mx)) mj.2 IL HR) as (r & E & K); [|done|].
  { split; unfold sizeof_KrSystemInfoPack, BOOT_INFO_MAX_SIZE; [lia|lia| | | |].
    - transitivity (ipMagic (read_pack mj.2 pB)); [|by rewrite Hrp].
      cbn [read_pack ipMagic]. unfold field. by rewrite Z.add_0_r.
    - transitivity (PhysicalFramebufferAddress (GraphicsInfo (read_pack mj.2 pB))); [done|by rewrite Hrp].
    - transitivity (FramebufferSize (GraphicsInfo (read_pack mj.2 pB))); [done|by rewrite Hrp].
    - intros a Ha. destruct (lookup_lt_is_Some_2 (content BOOTELVT_FILE_NAME) (Z.to_nat (a - BOOTELVT_LOAD_ADDRESS))) as [b Hb']; [lia|].
      pose proof (rd_lookup mj.2 BOOTELVT_LOAD_ADDRESS _ _ _ Hb Hb') as Hd. rewrite Z2Nat.id in Hd by lia.
      replace (BOOTELVT_LOAD_ADDRESS + (a - BOOTELVT_LOAD_ADDRESS)) with a in Hd by lia. etransitivity; [exact Hd|]. eapply I3; [exact Hb'|lia]. }
  exists r. split; [exact E|]. pose proof (ft_entries _ _ _ _ _ _ _ _ HF mx) as HE. pose proof (ft_map _ _ _ _ _ _ _ _ HF) as HM.
  unfold MEMORY_MAP_ADDRESS, BOOTELVT_LOAD_ADDRESS in *.
  assert (stack_slot = 0x81FFFE8) as Es by reflexivity.
  split.
  - by split; [apply K|apply K].
  - apply K.
  - exact (ke_map _ _ _ _ _ _ _ _ _ _ K).
  - rewrite (ke_rdi _ _ _ _ _ _ _ _ _ _ K). split; [|unfold sizeof_KrSystemInfoPack; lia].
    apply read_pack_bytes; [done|]. by rewrite (ke_pack _ _ _ _ _ _ _ _ _ _ K).
  - change (MapPhysicalAddress p) with 0x4000. cbn [MemoryMapInfo p boot_info EntryCount MemoryMapSize].
    split; [|lia]. rewrite <- (length_fmap kr_descriptor). apply read_descriptors_bytes; [by apply Forall_fmap, V3|].
    rewrite <- list_fmap_compose, length_fmap, <- Hm. apply rd_ext. intros a Ha.
    apply (ke_rest _ _ _ _ _ _ _ _ _ _ K); lia.
  - intros i b Hi. pose proof (lookup_lt_Some _ _ _ Hi) as Hlt. exists (KERNEL_LOAD_ADDRESS + Z.of_nat i).
    unfold BOOTSTRAP_KERNEL_AREA_BEGIN, KERNEL_STACK_START, KERNEL_RESERVED_END, KERNEL_STACK_SIZE, BOOTSTRAP_KERNEL_AREA_SIZE,
      KERNEL_RESERVE_SIZE, KERNEL_VIRTUAL_ADDRESS in I4. split.
    + rewrite (ke_map _ _ _ _ _ _ _ _ _ _ K) by (unfold canonical_address, KERNEL_VIRTUAL_ADDRESS; lia).
      unfold boot_map, KERNEL_RESERVED_END, KERNEL_RESERVE_SIZE, KERNEL_VIRTUAL_ADDRESS. repeat zcase; try lia; cbn [andb]; f_equal; lia.
    + rewrite <- (rd_lookup _ _ _ _ _ Hk Hi). f_equal. apply (ke_rest _ _ _ _ _ _ _ _ _ _ K); unfold KERNEL_LOAD_ADDRESS in *; lia.
Qed.
End Chain.
