(* ===== verification/KernelStart.v ===== *)
(** * Kernel start-up and main loop (Kernel/Source/Init/KrKernelStart.c,
    GrabThisCpuStruct of Kernel/Source/CPU/PerCpu.c)

    The first part of KrKernelStart, up to the state the memory start-up
    continues from, and the loop the boot processor ends in.  The progress
    messages are not modelled. *)
From Stdlib Require Import ZArith Lia Sorted Permutation.
From stdpp Require Import base numbers list gmap.
From S2P Require Import Prelude Bytes BootstrapArena MemoryMap Physmemmgmt Pte Fonts Console Descriptors DirectMap Keycodes Keyboard Loader.
Open Scope Z_scope.

(** ** The per-processor structure *)

(** The entries of sg_PerCpu by index, as their pSelf and ID, and the GS base
    registers of the running processor. *)
Record PerCpuId := mkPerCpuId { pSelf : Z; ID : Z }.
Record PerCpus := mkPerCpus { sg_PerCpu : gmap Z PerCpuId; GsBase : Z; KernelGsBase : Z }.

Section PerCpuTable.
Context (AddrPerCpu sizeof_PerCpu : Z).
(** [EBX] is the answer of CPUID leaf 1. *)
Definition GrabThisCpuStruct (EBX : Z) (s : PerCpus) : PerCpus :=
  let ApicID := u8 (Z.shiftr EBX 24) in
  let pPerCpu := AddrPerCpu + ApicID * sizeof_PerCpu in
  mkPerCpus (<[ApicID := mkPerCpuId pPerCpu ApicID]> (sg_PerCpu s)) pPerCpu pPerCpu.
(** The structure at the GS base. *)
Definition GetThisCpuID (s : PerCpus) : outcome Z :=
  c ← checked (sg_PerCpu s !! ((GsBase s - AddrPerCpu) / sizeof_PerCpu));
  Done (ID c).

(** ** The head of KrKernelStart *)

Definition KRDWTP_COLOR_BLACK : Z := KRDWTP_MAKE_COLOR 0x00 0x00 0x00 0xFF.

Definition font_scale (Width Height : Z) : Z :=
  if (Width >=? 2560) && (Height >=? 1440) then if (Width >=? 3840) && (Height >=? 2160) then 4 else 2 else 1.
Definition with_scale (f : Font) (k : Z) : Font :=
  mkFont (CharacterSet f) (NumberOfEntries f) (ColumnsPerEntry f) (RowsPerEntry f) k (bDirectionBit f).

(** The globals the head sets. *)
Record Start := mkStart {
  stPack : KrSystemInfoPack;
  stBinarySize : Z;
  stLoadInfo : KrLoadInfo;
  stMemmap : MemmapState;
  stGDT : list Z * KernelStateGDT;
  stCpus : PerCpus;
  stCpuIDs : list Z;
  stFrameBuffer : KrFrameBufferInfo;
  stFont : Font;
  stVideo : Dwtp
}.
Definition arena_zero : Arena := mkArena 0 0 0.
(** sg_ProtocolState and its lock in the zeroed data section. *)
Definition dwtp_zero : Dwtp := mkDwtp 0 0 0 0 0 0 0 0 0 zero_font false false false [] [].

(** [mem] is memory as the kernel sees it, [pack] the argument, [gdt] the zeroed
    table and [Frames] the pixels of the frame buffer. *)
Definition start_head (mem : ram) (pack : Z) (EBX : Z) (gdt : list Z) (Frames : list Z) : outcome Start :=
  if negb (field mem pack 0 4 =? SYSTEM_INFO_PACK_MAGIC) then Hang
  else
    let p := read_pack mem pack in
    let load := mkLoadInfo (KernelReserveSize p) (KernelPhysicalBase p) (KernelVirtualBase p) in
    let '(arena, _) := KrInitBootstrapArena arena_zero (KernelBootstrapArenaBase p) (KernelBootstrapArenaSize p) in
    map ← KrInitMemmap arena (MemoryMapInfo p) (read_descriptors mem (MapPhysicalAddress p) (EntryCount (MemoryMapInfo p)));
    let cpus := GrabThisCpuStruct EBX (mkPerCpus ∅ 0 0) in
    id ← GetThisCpuID cpus;
    let g := GraphicsInfo p in
    let fb := mkFbInfo (PhysicalFramebufferAddress g) (FramebufferSize g) in
    let '(_, f16) := KrdwtpInitializeDefaultFonts zero_font zero_font in
    let f16 := with_scale f16 (font_scale (FramebufferWidth g) (FramebufferHeight g)) in
    '(video, arena) ← KrdwtpInitialize dwtp_zero (MapArena map) f16 0xFFFFFFFFC0000000 (u32 (FramebufferSize g)) (FramebufferWidth g)
                        (FramebufferHeight g) (Loader.PixelsPerScanLine g) Frames;
    video ← KrdwtpResetState video KRDWTP_COLOR_BLACK;
    Done (mkStart p (KernelBinarySize p) load (mkMemmap arena (MapInfo map) (MemoryMap.MemoryMap map) (MemoryMap.CanonicalMemoryMap map))
            (KrInitGDT gdt) cpus [id] fb f16 video).

(** The state the memory start-up begins with: [image], [cr3] and [phys] are
    what boot elevate left. *)
Definition start_boot (s : Start) (image : Image) (cr3 : Z) (phys : gmap Z Z) : Boot :=
  mkBoot (stLoadInfo s) (stFrameBuffer s) (MemoryMap.CanonicalMemoryMap (stMemmap s)) (MemoryMap.MemoryMap (stMemmap s)) image
    (mkPatMsr 0 0 0 0 0 0) (mkPat false false false) false 0 cr3 (MapArena (stMemmap s)) pmm_zero (mkDmapInfo 0 0 0 0 0) phys.
End PerCpuTable.

(** ** The main loop *)

(** Where the processor is inside HiPopKeyboardEvent, which runs with interrupts
    enabled: about to read the head index, to store its increment, to copy the
    event, to wrap the index, to read the count, to store the count less one; or
    it has returned the event. *)
Inductive pop_pc :=
  | PopHead
  | PopAdvance (i : Z)
  | PopCopy (i : Z)
  | PopWrap (Result : HiKeyboardEvent)
  | PopCount (Result : HiKeyboardEvent)
  | PopStore (Result : HiKeyboardEvent) (n : Z)
  | Popped (Result : HiKeyboardEvent).

Definition set_head (k : Kbd) (h : Z) : Kbd :=
  mkKbd (KeyboardEventQueue k) h (KeyevTailidx k) (KeyevCount k) (PS2_StandardKeyStates k) (PS2_ExtendedKeyStates k) (Listen k) (ListenIdx k).
Definition set_count (k : Kbd) (n : Z) : Kbd :=
  mkKbd (KeyboardEventQueue k) (KeyevHeadidx k) (KeyevTailidx k) n (PS2_StandardKeyStates k) (PS2_ExtendedKeyStates k) (Listen k) (ListenIdx k).

Definition pop_step (k : Kbd) (pc : pop_pc) : outcome (Kbd * pop_pc) :=
  match pc with
  | PopHead => Done (k, PopAdvance (KeyevHeadidx k))
  | PopAdvance i => Done (set_head k (u32 (i + 1)), PopCopy i)
  | PopCopy i => Result ← checked (KeyboardEventQueue k !! Z.to_nat i); Done (k, PopWrap Result)
  | PopWrap Result => Done (if KeyevHeadidx k >=? MAX_KEYBOARD_EVENTS then set_head k 0 else k, PopCount Result)
  | PopCount Result => Done (k, PopStore Result (KeyevCount k))
  | PopStore Result n => Done (set_count k (u32 (n - 1)), Popped Result)
  | Popped Result => Done (k, Popped Result)
  end.

(** Where the boot processor is: at the first test, about to halt, halted, at
    the test of the inner loop, or in HiPopKeyboardEvent. *)
Inductive main_pc := AtTest | AtHalt | Halted | AtInner | InPop (pc : pop_pc).
Record Main := mkMain { mPc : main_pc; mKbd : Kbd; mOut : list HiKeyboardEvent }.

(** One step of the loop; the event printed is appended to [mOut]. *)
Definition main_step (s : Main) : outcome Main :=
  match mPc s with
  | AtTest => Done (mkMain (if HiGetKeyboardEventQueueNum (mKbd s) =? 0 then AtHalt else AtInner) (mKbd s) (mOut s))
  | AtHalt => Done (mkMain Halted (mKbd s) (mOut s))
  | Halted => Done s
  | AtInner => Done (mkMain (if HiGetKeyboardEventQueueNum (mKbd s) =? 0 then AtTest else InPop PopHead) (mKbd s) (mOut s))
  | InPop (Popped Event) => Done (mkMain AtInner (mKbd s) (mOut s ++ [Event]))
  | InPop pc => '(k, pc) ← pop_step (mKbd s) pc; Done (mkMain (InPop pc) k (mOut s))
  end.
(** A keyboard interrupt, which may come between any two steps and ends a halt;
    its handler runs with interrupts disabled. *)
Definition main_interrupt (s : Main) (Data : Z) : outcome Main :=
  k ← PS2_KeyboardInterrupt (mKbd s) Data;
  Done (mkMain (match mPc s with Halted => AtInner | pc => pc end) k (mOut s)).
(** The text "Keyact" and the modifier flags printed with an event. *)
Definition printed_flags (e : HiKeyboardEvent) : Z * Z * Z :=
  let flag m := if negb (Z.land (Keymod e) m =? 0) then 1 else 0 in (flag KM_CTRL, flag KM_ALT, flag KM_SHIFT).
