(* ===== verification/KernelStartProps.v ===== *)
(** * What the head of KrKernelStart establishes, and the main loop *)
From Stdlib Require Import ZArith Lia Sorted Permutation.
From stdpp Require Import base numbers list gmap.
From S2P Require Import Prelude Bytes BootstrapArena MemoryMap Physmemmgmt Pte Fonts Console ConsoleSpec ConsoleProps ConsoleThms Descriptors DirectMap Keycodes Keyboard Loader LoaderProps KernelStart.
Open Scope Z_scope.

(** ** The memory map *)

Lemma arena_align_done a : arena_wf a -> ArenaPtr a mod 16 = 0 -> ArenaPtr a < 2 ^ 64 - 16 -> KrBootstrapArenaAlign a 16 = (a, true).
Proof.
  intros [H1 H2 H3] Ha Hp. unfold KrBootstrapArenaAlign. rewrite (u64_small (_ - 1)) by lia.
  change (16 - 1) with (2 ^ 4 - 1). rewrite (u64_small (2 ^ 4 - 1)) by lia. rewrite land_mask_down by lia.
  replace ((ArenaPtr a + 16 - 1) / 2 ^ 4 * 2 ^ 4) with (ArenaPtr a) by zlia. rewrite Z.gtb_ltb. zcase; [lia|]. by destruct a.
Qed.
Lemma rounded_mult N : N mod 16 = 0 -> rounded N = N.
Proof. intros. unfold rounded. zlia. Qed.

Lemma init_memmap_spec a info ds : arena_wf a -> ArenaPtr a mod 16 = 0 -> ArenaEnd a + 32 * Z.of_nat (length ds) < 2 ^ 64 - 16 ->
  EntryCount info = Z.of_nat (length ds) -> MemoryMapSize info = 32 * Z.of_nat (length ds) -> Z.of_nat (length ds) < 2 ^ 32 -> head_min ds ->
  ArenaPtr a + 64 * Z.of_nat (length ds) <= ArenaEnd a ->
  exists Map, KrInitMemmap a info ds =
      Done (mkMemmap (mkArena (ArenaBase a) (ArenaPtr a + 64 * Z.of_nat (length ds)) (ArenaEnd a)) info Map (canonical (length Map) (PageSize info) Map)) /\
    ds ≡ₚ Map /\ StronglySorted base_le Map.
Proof.
  intros Hwf Ha He Hn Hs Hlen Hmin Hroom. pose proof Hwf as [W1 W2 W3].
  assert (0 < Z.of_nat (length ds)) as Hpos by (destruct ds; [done|cbn; lia]).
  set (n := Z.of_nat (length ds)) in *. unfold KrInitMemmap. rewrite arena_align_done by (done || lia).
  assert (rounded (32 * n) = 32 * n) as Hr by (apply rounded_mult; zlia).
  rewrite Hs, arena_acquire_eq by (done || lia). rewrite Hr, bool_decide_true by lia. destruct (Z.eqb_spec (ArenaPtr a) 0); [lia|].
  set (a1 := mkArena (ArenaBase a) (ArenaPtr a + 32 * n) (ArenaEnd a)).
  assert (arena_wf a1) as Hwf1 by (split; cbn; lia). rewrite Hn. rewrite u32_small by lia.
  destruct (quicksort_spec (S (length ds)) [] ds []) as (Map & E & Hp & Hso); [lia|cbn [length Nat.add]; lia|intros _; exact Hmin|].
  rewrite !app_nil_r in E. cbn [length app] in E. change (Z.of_nat 0) with 0 in E. rewrite Nat.add_0_l in E. fold n in E. rewrite E, bind_Done.
  rewrite arena_align_done by (done || cbn; zlia). rewrite arena_acquire_eq by (done || cbn; lia). cbn [ArenaPtr ArenaBase ArenaEnd a1].
  rewrite Hr, bool_decide_true by lia. destruct (Z.eqb_spec (ArenaPtr a + 32 * n) 0); [lia|].
  exists Map. split; [|done]. pose proof (Permutation_length Hp) as Hl. rewrite take_ge by lia. do 2 f_equal. f_equal; lia.
Qed.

(** ** The head *)

(** The screen after the reset: every row black, the cursor at the origin. *)
Definition black_screen (nrows : Z) : Screen := screen_reset nrows (initial_screen nrows) KRDWTP_COLOR_BLACK.
Definition start_font (p : KrSystemInfoPack) : Font :=
  with_scale g_KrdwtpDefaultFont_8x16 (font_scale (FramebufferWidth (GraphicsInfo p)) (FramebufferHeight (GraphicsInfo p))).
Definition text_rows (p : KrSystemInfoPack) : Z :=
  FramebufferHeight (GraphicsInfo p) / (RowsPerEntry (start_font p) * ScaleFactor (start_font p)).

(** What the head needs of the pack: the arena of the contract with room for
    two copies of the map and two of the screen, a map whose first entry is its
    lowest, and a frame buffer the console can use. *)
Record start_ok (p : KrSystemInfoPack) (ds : list KrMemoryDescriptor) (Frames : list Z) : Prop := {
  so_magic : ipMagic p = SYSTEM_INFO_PACK_MAGIC;
  so_arena : KernelBootstrapArenaBase p = BOOTSTRAP_KERNEL_AREA_BEGIN /\ KernelBootstrapArenaSize p = BOOTSTRAP_KERNEL_AREA_SIZE;
  so_entries : MemoryMapInfo p = mkInfo (32 * Z.of_nat (length ds)) (Z.of_nat (length ds)) 4096;
  so_lowest : head_min ds;
  so_regions : Forall (region_ok 4096) ds;
  so_room : 64 * Z.of_nat (length ds) + rounded (2 * FramebufferSize (GraphicsInfo p)) <= BOOTSTRAP_KERNEL_AREA_SIZE;
  so_frames : 0 < FramebufferSize (GraphicsInfo p) /\ FramebufferSize (GraphicsInfo p) = 4 * Z.of_nat (length Frames);
  so_screen : init_ok (start_font p) 0xFFFFFFFFC0000000 (FramebufferWidth (GraphicsInfo p)) (FramebufferHeight (GraphicsInfo p))
                (Loader.PixelsPerScanLine (GraphicsInfo p)) Frames
}.

Record started (AddrPerCpu sizeof_PerCpu EBX : Z) (p : KrSystemInfoPack) (ds : list KrMemoryDescriptor) (s : Start) : Prop := {
  sd_load : stLoadInfo s = mkLoadInfo (KernelReserveSize p) (KernelPhysicalBase p) (KernelVirtualBase p) /\ stBinarySize s = KernelBinarySize p;
  sd_map : ds ≡ₚ MemoryMap.MemoryMap (stMemmap s) /\ StronglySorted base_le (MemoryMap.MemoryMap (stMemmap s));
  sd_canonical : forall a, (exists c, c ∈ MemoryMap.CanonicalMemoryMap (stMemmap s) /\ in_region 4096 a c) <->
    (exists d, d ∈ ds /\ MemoryMap.usable d /\ in_region 4096 a d);
  sd_arena : arena_wf (MapArena (stMemmap s)) /\ ArenaEnd (MapArena (stMemmap s)) = KERNEL_STACK_START /\
    ArenaPtr (MapArena (stMemmap s)) = BOOTSTRAP_KERNEL_AREA_BEGIN + 64 * Z.of_nat (length ds) + rounded (2 * FramebufferSize (GraphicsInfo p));
  sd_cpu : let id := u8 (Z.shiftr EBX 24) in stCpuIDs s = [id] /\ GsBase (stCpus s) = AddrPerCpu + id * sizeof_PerCpu;
  sd_gdt : stGDT s = KrInitGDT (replicate 24 0);
  sd_framebuffer : stFrameBuffer s = mkFbInfo (PhysicalFramebufferAddress (GraphicsInfo p)) (FramebufferSize (GraphicsInfo p));
  sd_video : ConsoleThms.idle (stVideo s) (black_screen (text_rows p), false)
}.

Lemma head_starts AddrPerCpu sizeof_PerCpu EBX p ds Frames mem pack : 0 < sizeof_PerCpu -> start_ok p ds Frames ->
  read_pack mem pack = p -> read_descriptors mem (MapPhysicalAddress p) (EntryCount (MemoryMapInfo p)) = ds ->
  exists s, start_head AddrPerCpu sizeof_PerCpu mem pack EBX (replicate 24 0) Frames = Done s /\ started AddrPerCpu sizeof_PerCpu EBX p ds s.
Proof.
  intros Hsz [S1 [S2 S3] S4 S5 S6 S7 [S0 S8] S9] Ep Eds. unfold start_head.
  assert (field mem pack 0 4 = ipMagic p) as -> by (by rewrite <- Ep). rewrite S1, Z.eqb_refl. cbn [negb]. rewrite Ep, Eds.
  rewrite S2, S3. set (a0 := mkArena BOOTSTRAP_KERNEL_AREA_BEGIN BOOTSTRAP_KERNEL_AREA_BEGIN KERNEL_STACK_START).
  change (KrInitBootstrapArena arena_zero _ _) with (a0, true).
  assert (BOOTSTRAP_KERNEL_AREA_BEGIN = 0xFFFFFFFF86400000) as EB by done. assert (KERNEL_STACK_START = 0xFFFFFFFF87E00000) as EE by done.
  unfold BOOTSTRAP_KERNEL_AREA_SIZE in S7. destruct (rounded_spec (2 * FramebufferSize (GraphicsInfo p))) as [Hr Hr16].
  assert (arena_wf a0) as Hwf by (split; cbn; lia).
  destruct (init_memmap_spec a0 (MemoryMapInfo p) ds) as (Map & -> & Hp & Hs); [done|done|cbn; lia|by rewrite S4|by rewrite S4|lia|done|cbn; lia|].
  rewrite bind_Done. rewrite S4. cbn [PageSize MapArena MapInfo MemoryMap.MemoryMap MemoryMap.CanonicalMemoryMap a0 ArenaBase ArenaPtr ArenaEnd].
  unfold GetThisCpuID. cbn [GrabThisCpuStruct sg_PerCpu GsBase]. set (id := u8 (Z.shiftr EBX 24)).
  replace (AddrPerCpu + id * sizeof_PerCpu - AddrPerCpu) with (id * sizeof_PerCpu) by lia. rewrite Z.div_mul by lia.
  rewrite lookup_insert_eq. cbn [checked]. rewrite !bind_Done. cbn [ID].
  rewrite (u32_small (FramebufferSize _)) by lia. change (KrdwtpInitializeDefaultFonts zero_font zero_font) with (g_KrdwtpDefaultFont_8x8, g_KrdwtpDefaultFont_8x16).
  cbv beta iota. fold (start_font p).
  set (a1 := mkArena BOOTSTRAP_KERNEL_AREA_BEGIN _ _). assert (arena_wf a1) as Hwf1 by (split; cbn; lia).
  assert (KrBootstrapArenaAcquire a1 (8 * Z.of_nat (length Frames)) =
    (mkArena BOOTSTRAP_KERNEL_AREA_BEGIN (ArenaPtr a1 + rounded (2 * FramebufferSize (GraphicsInfo p))) KERNEL_STACK_START, ArenaPtr a1)) as EA.
  { replace (8 * Z.of_nat (length Frames)) with (2 * FramebufferSize (GraphicsInfo p)) by lia.
    rewrite arena_acquire_eq by (done || cbn; lia). by rewrite bool_decide_true by (cbn; lia). }
  destruct (initialize_idle (start_font p) 0xFFFFFFFFC0000000 _ _ _ Frames dwtp_zero a1 (ArenaPtr a1) _ S9 eq_refl EA) as (v & Ev & Hid & Er & Ec & _); [cbn; lia|].
  rewrite S8, Ev, bind_Done. cbv beta iota.
  destruct Hid as (Hready & Hup & Hlock). cbn [fst snd] in *.
  destruct (reset_refines v (initial_screen (text_rows p)) KRDWTP_COLOR_BLACK Hready Hlock) as (v' & -> & HC & HL & Hr').
  rewrite bind_Done. eexists. split; [reflexivity|].
  destruct (same_config_rows _ _ HC) as (Er' & _).
  split; cbn [stLoadInfo stBinarySize stMemmap stCpuIDs stCpus stGDT stFrameBuffer stVideo MemoryMap.MemoryMap MemoryMap.CanonicalMemoryMap MapArena GsBase ArenaEnd ArenaPtr].
  - done.
  - done.
  - intros a. rewrite (canonical_spec 4096 ltac:(lia)); [|done|by rewrite <- Hp]. by setoid_rewrite Hp.
  - split; [split; cbn; lia|]. split; [done|]. cbn. lia.
  - done.
  - done.
  - by rewrite S8.
  - split_and!; [|rewrite (proj1 HC); exact Hup|done]. cbn [fst]. rewrite Er in Hr'. exact Hr'.
Qed.

(** A screen of 2560x1440 or more, for which the font is scaled, needs more
    than the whole arena for the copy of its frame buffer: the pointer is null. *)
Lemma large_screen_exhausts_arena s F Addr Size Width Height Ppsl Frames a :
  dwLock s = false -> arena_wf a -> ArenaEnd a <= ArenaBase a + BOOTSTRAP_KERNEL_AREA_SIZE -> ArenaEnd a < 2 ^ 64 - 2 ^ 30 ->
  2560 <= Width -> 1440 <= Height -> 4 * (Width * Height) <= Size < 2 ^ 28 ->
  KrdwtpInitialize s a F Addr Size Width Height Ppsl Frames = Fault.
Proof.
  intros HL Hwf He He' Hw Hh Hs. pose proof Hwf as [W1 W2 W3]. unfold BOOTSTRAP_KERNEL_AREA_SIZE in He.
  assert (14745600 <= Size) as Hbig by nia.
  unfold KrdwtpInitialize, AcquireOrWaitSpinlock. rewrite HL, bind_Done. rewrite u32_small by lia.
  destruct (rounded_spec (Size * 2)) as [Hr _]. rewrite arena_acquire_eq, bool_decide_false by (done || lia).
  unfold pixels. destruct (Size * 2 mod 4 =? 0); [|done]. rewrite bind_Done. cbn [Z.eqb andb]. zcase; [lia|done].
Qed.

(** ** The main loop *)

(** [ring h k r]: from index [h] on the array holds the events [r] and the tail is behind them. *)
Record ring (h : Z) (k : Kbd) (r : list HiKeyboardEvent) : Prop := {
  rg_len : length (KeyboardEventQueue k) = 128%nat;
  rg_head : 0 <= h < 128;
  rg_fits : (length r <= 128)%nat;
  rg_tail : KeyevTailidx k = (h + Z.of_nat (length r)) mod 128;
  rg_items : forall i e, r !! i = Some e -> KeyboardEventQueue k !! Z.to_nat ((h + Z.of_nat i) mod 128) = Some e
}.

Lemma ring_of_queue k p : queue_rep k p -> ring (KeyevHeadidx k) k p.
Proof. intros [H1 H2 H3 H4 H5 H6]. by split. Qed.
Lemma ring_ext h k k' r : KeyboardEventQueue k' = KeyboardEventQueue k -> KeyevTailidx k' = KeyevTailidx k -> ring h k r -> ring h k' r.
Proof. intros E1 E2 [H1 H2 H3 H4 H5]. split; rewrite ?E1, ?E2; done. Qed.
Lemma ring_tail h k e r : ring h k (e :: r) -> ring ((h + 1) mod 128) k r.
Proof.
  intros [H1 H2 H3 H4 H5]. cbn [length] in *. split; [done|zlia|lia| |].
  - rewrite H4, Z.add_mod_idemp_l by lia. f_equal. lia.
  - intros i x Hi. rewrite Z.add_mod_idemp_l by lia. rewrite <- (H5 (S i) x Hi). do 3 f_equal. lia.
Qed.

Lemma push_ring h k r e k' : ring h k r -> (length r < 128)%nat -> 0 <= KeyevCount k < 128 -> HiPushKeyboardEvent k e = Done k' ->
  ring h k' (r ++ [e]) /\ KeyevHeadidx k' = KeyevHeadidx k /\ KeyevCount k' = KeyevCount k + 1.
Proof.
  intros [H1 H2 H3 H4 H5] Hl Hc E. unfold HiPushKeyboardEvent in E. assert (0 <= KeyevTailidx k < 128) as Ht by zlia.
  rewrite decide_True in E by lia. injection E as <-. rewrite next_index by done.
  cbn [KeyevHeadidx KeyevCount]. split; [|rewrite u32_small by lia; unfold MAX_KEYBOARD_EVENTS; split; [done|lia]].
  split; cbn [KeyboardEventQueue KeyevTailidx]; rewrite ?length_app; cbn [length]; try (done || lia).
  - by rewrite length_insert.
  - rewrite H4, Z.add_mod_idemp_l by lia. f_equal. lia.
  - intros i x Hi. destruct (decide (i < length r)%nat).
    + rewrite lookup_app_l in Hi by done. rewrite list_lookup_insert_ne; [by apply H5|].
      rewrite H4. intros E. apply Z2Nat.inj in E; zlia.
    + rewrite lookup_app_r in Hi by lia. apply list_lookup_singleton_Some in Hi as [Hi ->].
      assert (i = length r) as -> by lia. rewrite <- H4. apply list_lookup_insert_eq. lia.
Qed.

(** The handler adds at most two events, where there is room for them. *)
Definition grows (h : Z) (r : list HiKeyboardEvent) (k k' : Kbd) : Prop :=
  exists evs, (length evs <= 2)%nat /\ ring h k' (r ++ evs) /\ KeyevHeadidx k' = KeyevHeadidx k /\
    KeyevCount k' = KeyevCount k + Z.of_nat (length evs).

Lemma interrupt_grows h k d k' r : ring h k r -> (length r <= 126)%nat -> 0 <= KeyevCount k <= 126 -> PS2_KeyboardInterrupt k d = Done k' -> grows h r k k'.
Proof.
  intros Hq Hl Hc. unfold PS2_KeyboardInterrupt.
  assert (forall a b, grows h r k (set_listen k a b)) as Hset.
  { intros a b. exists []. rewrite app_nil_r. split_and!; [cbn; lia|by eapply ring_ext, Hq|done|cbn; lia]. }
  (* one event, between changes of the listening state and the key states *)
  assert (forall k1 e f, ring h k1 r -> KeyevHeadidx k1 = KeyevHeadidx k -> KeyevCount k1 = KeyevCount k ->
    (forall x, KeyboardEventQueue (f x) = KeyboardEventQueue x /\ KeyevTailidx (f x) = KeyevTailidx x /\
       KeyevHeadidx (f x) = KeyevHeadidx x /\ KeyevCount (f x) = KeyevCount x) ->
    (x ← HiPushKeyboardEvent k1 e; Done (f x)) = Done k' -> grows h r k k') as Hone.
  { intros k1 e f Hq1 Hh Hc1 Hf E. destruct (HiPushKeyboardEvent k1 e) as [k2| | |] eqn:Ep; cbn in E; try done. injection E as <-.
    destruct (push_ring h _ r e _ Hq1 ltac:(lia) ltac:(lia) Ep) as (Hq2 & Hh2 & Hc2). destruct (Hf k2) as (F1 & F2 & F3 & F4).
    exists [e]. split_and!; [cbn; lia|by eapply ring_ext, Hq2|congruence|cbn; lia]. }
  assert (forall k1 a b, ring h k1 r -> ring h (set_listen k1 a b) r) as Hsl by (intros k1 a b H1; by eapply ring_ext, H1).
  destruct (has_flag (Listen k) LISTEN_PRTSCAS).
  { unfold handle_prtscas. destruct (ListenIdx k =? 3); [|intros [= <-]; apply Hset]. by apply Hone; [apply Hsl|..]. }
  destruct (has_flag (Listen k) LISTEN_PRTSCDEAS).
  { unfold handle_prtscdeas. destruct (ListenIdx k =? 5); [|intros [= <-]; apply Hset]. by apply Hone; [apply Hsl|..]. }
  destruct (has_flag (Listen k) LISTEN_PAUSE).
  { unfold handle_pause. destruct (ListenIdx k =? 7); [|intros [= <-]; apply Hset].
    set (k1 := set_listen k _ _). destruct (HiPushKeyboardEvent k1 _) as [k2| | |] eqn:E1; cbn; try done.
    destruct (push_ring h k1 r _ _ (Hsl k _ _ Hq) ltac:(lia) ltac:(cbn; lia) E1) as (Hq2 & Hh2 & Hc2). cbn in Hc2, Hh2.
    destruct (HiPushKeyboardEvent k2 _) as [k3| | |] eqn:E2; cbn; try done. intros [= <-].
    destruct (push_ring h k2 _ _ _ Hq2 ltac:(rewrite length_app; cbn; lia) ltac:(lia) E2) as (Hq3 & Hh3 & Hc3).
    eexists [_; _]. rewrite <- app_assoc in Hq3. split_and!; [cbn; lia|by eapply ring_ext, Hq3|cbn; congruence|cbn; lia]. }
  destruct (d =? PS2_XSCANCODE); [intros [= <-]; apply Hset|]. destruct (d =? PS2_BREAK_PREFIX); [intros [= <-]; apply Hset|].
  destruct ((d =? 0x12) && _); [intros [= <-]; apply Hset|]. destruct ((d =? 0x7C) && _); [intros [= <-]; apply Hset|].
  destruct (d =? 0xE1); [intros [= <-]; apply Hset|].
  unfold handle_key. destruct (PS2_ScancodeToKeycode _ d) as [kc| | |]; cbn; try done.
  by apply Hone; [eapply ring_ext, Hq|..].
Qed.

(** *** Pending events *)

(** The [n] events from an index on. *)
Definition slots (k : Kbd) (h n : Z) : list HiKeyboardEvent :=
  (fun i => default event_zero (KeyboardEventQueue k !! Z.to_nat ((h + i) mod 128))) <$> seqZ 0 n.
(** The event HiPopKeyboardEvent has taken off the queue, if it has. *)
Definition held (s : Main) : list HiKeyboardEvent :=
  match mPc s with
  | InPop (PopCopy i) => slots (mKbd s) i 1
  | InPop (PopWrap e) | InPop (PopCount e) | InPop (PopStore e _) | InPop (Popped e) => [e]
  | _ => []
  end.
(** The events not yet printed: the one held, and those between head and tail. *)
Definition pending (s : Main) : list HiKeyboardEvent :=
  held s ++ slots (mKbd s) (KeyevHeadidx (mKbd s)) ((KeyevTailidx (mKbd s) - KeyevHeadidx (mKbd s)) mod 128).
(** The events an interrupt added. *)
Definition new_events (k k' : Kbd) : list HiKeyboardEvent := slots k' (KeyevTailidx k) ((KeyevTailidx k' - KeyevTailidx k) mod 128).
(** Between the load and the store of the count. *)
Definition storing (s : Main) : bool := match mPc s with InPop (PopStore _ _) => true | _ => false end.

(** Executions: [run_main s l w s'] is one from [s] to [s'] whose interrupts
    added the events [l], [w] of them between the load and the store of
    the count; each arrives while there is room for two more events. *)
Inductive run_main (s : Main) : list HiKeyboardEvent -> nat -> Main -> Prop :=
  | run_start : run_main s [] 0 s
  | run_loop l w s1 s2 : run_main s l w s1 -> main_step s1 = Done s2 -> run_main s l w s2
  | run_interrupt l w s1 d s2 : run_main s l w s1 -> (length (pending s1) <= 125)%nat -> main_interrupt s1 d = Done s2 ->
      let new := new_events (mKbd s1) (mKbd s2) in
      run_main s (l ++ new) (if storing s1 then w + length new else w) s2.

Lemma ring_slots h k r : ring h k r -> slots k h (Z.of_nat (length r)) = r.
Proof.
  intros H. unfold slots. apply list_eq. intros i. rewrite list_lookup_fmap. destruct (decide (i < length r)%nat) as [Hi|Hi].
  - rewrite (proj2 (lookup_seqZ 0 (Z.of_nat (length r)) i (Z.of_nat i))) by lia. cbn [fmap option_fmap option_map].
    destruct (lookup_lt_is_Some_2 r i Hi) as [e He]. by rewrite (rg_items _ _ _ H i e He), He.
  - rewrite (lookup_seqZ_ge 0) by lia. cbn. symmetry. apply lookup_ge_None. lia.
Qed.
Lemma slots_mod k h h' n : h mod 128 = h' mod 128 -> slots k h n = slots k h' n.
Proof.
  intros E. unfold slots. apply list_fmap_ext. intros i x _. do 3 f_equal. rewrite <- (Z.add_mod_idemp_l h), E, Z.add_mod_idemp_l by lia. done.
Qed.
(** Head and tail determine the events of a ring that is not full. *)
Lemma ring_between h k r head : ring h k r -> (length r < 128)%nat -> head mod 128 = h ->
  slots k head ((KeyevTailidx k - head) mod 128) = r.
Proof.
  intros H Hl Hh. transitivity (slots k h (Z.of_nat (length r))); [|by apply ring_slots]. rewrite (slots_mod _ head h) by (rewrite Hh; symmetry; apply Z.mod_small, H).
  f_equal. rewrite (rg_tail _ _ _ H), Zminus_mod_idemp_l. pose proof (rg_head _ _ _ H). zlia.
Qed.
Lemma ring_new h k k' r evs : ring h k r -> ring h k' (r ++ evs) -> (length evs < 128)%nat -> new_events k k' = evs.
Proof.
  intros H H' Hl. unfold new_events.
  assert (ring ((h + Z.of_nat (length r)) mod 128) k' evs) as Hr.
  { destruct H' as [H1 H2 H3 H4 H5]. rewrite length_app in H3, H4. split; [done|zlia|lia| |].
    - rewrite H4, Z.add_mod_idemp_l by lia. f_equal. lia.
    - intros i e Hi. rewrite Z.add_mod_idemp_l by lia. rewrite <- (H5 (length r + i)%nat e).
      + do 3 f_equal. lia.
      + rewrite lookup_app_r by lia. rewrite <- Hi. f_equal. lia. }
  apply (ring_between _ _ _ _ Hr Hl). rewrite (rg_tail _ _ _ H). apply Z.mod_small. zlia.
Qed.

(** *** The invariant *)

(** [inv s p w]: [p] is pending, and the count is [w] short of it. *)
Definition at_pc (s : Main) (h : Z) (p : list HiKeyboardEvent) (n : Z) : Prop :=
  let k := mKbd s in
  match mPc s with
  | AtTest | AtHalt | Halted | AtInner => KeyevHeadidx k = h /\ KeyevCount k = n
  | InPop PopHead => KeyevHeadidx k = h /\ KeyevCount k = n /\ 1 <= n
  | InPop (PopAdvance i) => i = h /\ KeyevHeadidx k = h /\ KeyevCount k = n /\ 1 <= n
  | InPop (PopCopy i) => i = h /\ KeyevHeadidx k = h + 1 /\ KeyevCount k = n /\ 1 <= n
  | InPop (PopWrap e) => head p = Some e /\ KeyevHeadidx k = h + 1 /\ KeyevCount k = n /\ 1 <= n
  | InPop (PopCount e) => head p = Some e /\ KeyevHeadidx k = (h + 1) mod 128 /\ KeyevCount k = n /\ 1 <= n
  | InPop (PopStore e m) => head p = Some e /\ KeyevHeadidx k = (h + 1) mod 128 /\ m = n /\ n <= KeyevCount k <= Z.of_nat (length p) /\ 1 <= n
  | InPop (Popped e) => head p = Some e /\ KeyevHeadidx k = (h + 1) mod 128 /\ KeyevCount k = n - 1 /\ 1 <= n
  end.
Record inv (s : Main) (p : list HiKeyboardEvent) (w : nat) : Prop := {
  iv_room : (length p < 128)%nat;
  iv_short : (w <= length p)%nat;
  iv_at : exists h, ring h (mKbd s) p /\ at_pc s h p (Z.of_nat (length p) - Z.of_nat w)
}.

Lemma inv_pending s p w : inv s p w -> pending s = p.
Proof.
  intros [Hl Hw (h & Hr & Ha)]. unfold pending, held, at_pc in *. pose proof (rg_head _ _ _ Hr) as Hh.
  assert (forall e q, p = e :: q -> KeyevHeadidx (mKbd s) mod 128 = (h + 1) mod 128 ->
    slots (mKbd s) (KeyevHeadidx (mKbd s)) ((KeyevTailidx (mKbd s) - KeyevHeadidx (mKbd s)) mod 128) = q) as Htl.
  { intros e q -> E. apply (ring_between ((h + 1) mod 128)); [by eapply ring_tail|simpl in Hl; lia|done]. }
  destruct (mPc s) as [| | | |pc]; [| | | |destruct pc]; destruct_and!; simplify_eq; cbn [app];
    try (apply (ring_between (KeyevHeadidx (mKbd s))); [done|done|by apply Z.mod_small]).
  { destruct p as [|e q]; [cbn in *; lia|]. rewrite (Htl e q) by (done || congruence).
    assert (slots (mKbd s) h 1 = [e]) as ->; [|done]. unfold slots. change (seqZ 0 1) with [0]. cbn [fmap list_fmap].
    pose proof (rg_items _ _ _ Hr 0%nat e eq_refl) as E. change (Z.of_nat 0) with 0 in E. by rewrite E. }
  all: destruct p as [|e q]; [done|]; simplify_eq/=; f_equal; apply (Htl _ q eq_refl);
    match goal with H : KeyevHeadidx _ = _ |- _ => rewrite H end; done || (apply Z.mod_mod; lia).
Qed.

(** A step of the loop prints the first pending event or none. *)
Lemma step_inv s p w s' : inv s p w -> main_step s = Done s' ->
  exists p', inv s' p' w /\ mOut s' ++ p' = mOut s ++ p.
Proof.
  intros [Hl Hw (h & Hr & Ha)] E. unfold main_step, at_pc, HiGetKeyboardEventQueueNum in *. pose proof (rg_head _ _ _ Hr) as Hh.
  pose proof (rg_len _ _ _ Hr) as Hlen.
  assert (forall s1, inv s1 p w -> mOut s1 = mOut s -> exists p', inv s1 p' w /\ mOut s1 ++ p' = mOut s ++ p) as Hsame.
  { intros s1 Hi Ho. exists p. by rewrite Ho. }
  destruct (mPc s) as [| | | |pc] eqn:Epc; [| | | |destruct pc]; cbn [pop_step] in E; rewrite ?bind_Done in E.
  - injection E as <-. apply Hsame; [|done]. split; [done..|]. exists h. split; [done|]. unfold at_pc. cbn [mPc mKbd]. by destruct (KeyevCount (mKbd s) =? 0).
  - injection E as <-. apply Hsame; [|done]. split; [done..|]. by exists h.
  - injection E as <-. apply Hsame; [|done]. split; [done..|]. exists h. unfold at_pc. by rewrite Epc.
  - injection E as <-. apply Hsame; [|done]. split; [done..|]. exists h. split; [done|]. unfold at_pc. cbn [mPc mKbd].
    destruct (Z.eqb_spec (KeyevCount (mKbd s)) 0); [done|]. destruct_and!. split_and!; lia.
  - injection E as <-. apply Hsame; [|done]. split; [done..|]. exists h. split; [done|]. unfold at_pc. cbn [mPc mKbd]. destruct_and!. by split_and!.
  - injection E as <-. destruct_and!. apply Hsame; [|done]. split; [done..|]. exists h. split; [by eapply ring_ext, Hr|]. unfold at_pc.
    cbn [mPc mKbd set_head KeyevHeadidx KeyevCount]. rewrite u32_small by lia. by subst.
  - destruct_and!. subst. destruct p as [|e q]; [simpl in *; lia|]. pose proof (rg_items _ _ _ Hr 0%nat e eq_refl) as Ee.
    change (Z.of_nat 0) with 0 in Ee. rewrite Z.add_0_r, Z.mod_small in Ee by done. rewrite Ee in E. cbn [checked] in E. rewrite !bind_Done in E.
    injection E as <-. apply Hsame; [|done]. split; [done..|]. by exists h.
  - injection E as <-. destruct_and!. apply Hsame; [|done]. split; [done..|]. exists h.
    match goal with H : KeyevHeadidx _ = _ |- _ => rewrite H end. rewrite Z.geb_leb. unfold MAX_KEYBOARD_EVENTS, at_pc. cbn [mPc mKbd].
    destruct (Z.leb_spec 128 (h + 1)).
    + split; [by eapply ring_ext, Hr|]. cbn [set_head KeyevHeadidx KeyevCount]. split_and!; [done|zlia|done..].
    + split; [done|]. split_and!; [done|zlia|done..].
  - injection E as <-. destruct_and!. apply Hsame; [|done]. split; [done..|]. exists h. split; [done|]. unfold at_pc. cbn [mPc mKbd].
    split_and!; done || lia.
  - injection E as <-. destruct_and!. apply Hsame; [|done]. split; [done..|]. exists h. split; [by eapply ring_ext, Hr|]. unfold at_pc.
    cbn [mPc mKbd set_count KeyevHeadidx KeyevCount]. split_and!; [done..| |done]. rewrite u32_small by lia. by subst.
  - injection E as <-. destruct_and!. destruct p as [|e q]; [done|]. simplify_eq/=. exists q. rewrite <- app_assoc. split; [|done].
    split; [simpl in *; lia|simpl in *; lia|]. exists ((h + 1) mod 128). split; [by eapply ring_tail|]. unfold at_pc. cbn [mPc mKbd].
    split; [done|lia].
Qed.

Lemma interrupt_inv s p w d s' : inv s p w -> (length p <= 125)%nat -> main_interrupt s d = Done s' ->
  let new := new_events (mKbd s) (mKbd s') in
  inv s' (p ++ new) (if storing s then w + length new else w) /\ mOut s' = mOut s.
Proof.
  intros [Hl Hw (h & Hr & Ha)] Hroom E. unfold main_interrupt in E. destruct (PS2_KeyboardInterrupt (mKbd s) d) as [k| | |] eqn:Ek; cbn in E; try done.
  injection E as <-. cbn [mKbd mOut]. assert (0 <= KeyevCount (mKbd s) <= 126) as Hc.
  { unfold at_pc in Ha. destruct (mPc s) as [| | | |pc]; [| | | |destruct pc]; destruct_and!; lia. }
  destruct (interrupt_grows h _ _ _ _ Hr ltac:(lia) Hc Ek) as (evs & Hn & Hr' & Hh' & Hc').
  rewrite (ring_new h _ _ _ _ Hr Hr') by lia. split; [|done].
  assert (forall e, head p = Some e -> head (p ++ evs) = Some e) as Hhead by (intros e; by destruct p).
  split; [rewrite length_app; lia|rewrite length_app; destruct (storing s); lia|]. exists h. split; [done|].
  unfold at_pc, storing in *. cbn [mPc mKbd]. rewrite length_app, Hh', Hc'.
  destruct (mPc s) as [| | | |pc]; [| | | |destruct pc]; destruct_and!; split_and!; auto; lia.
Qed.

Lemma run_main_spec s l w s' p : run_main s l w s' -> inv s p 0 ->
  exists p', inv s' p' w /\ mOut s' ++ p' = mOut s ++ p ++ l.
Proof.
  intros H Hp. induction H as [|l w s1 s2 _ (p1 & Hi & Ho) E|l w s1 d s2 _ (p1 & Hi & Ho) Hc E new].
  - exists p. by rewrite app_nil_r.
  - destruct (step_inv s1 p1 w s2 Hi E) as (p2 & Hi2 & Ho2). exists p2. by rewrite Ho2.
  - rewrite (inv_pending _ _ _ Hi) in Hc. destruct (interrupt_inv s1 p1 w d s2 Hi Hc E) as [Hi2 Ho2].
    exists (p1 ++ new). split; [done|]. by rewrite Ho2, (assoc_L (++)), Ho, <- !app_assoc.
Qed.

(** The single accesses make up HiPopKeyboardEvent when no interrupt comes between them. *)
Fixpoint pop_steps (n : nat) (k : Kbd) (pc : pop_pc) : outcome (Kbd * pop_pc) :=
  match n with O => Done (k, pc) | S n' => '(k, pc) ← pop_step k pc; pop_steps n' k pc end.
Lemma pop_steps_compose k : pop_steps 6 k PopHead = ('(k, e) ← HiPopKeyboardEvent k; Done (k, Popped e)).
Proof.
  unfold HiPopKeyboardEvent. cbn [pop_steps]. do 2 (cbn [pop_step]; rewrite bind_Done). cbn [pop_step KeyboardEventQueue set_head].
  destruct (KeyboardEventQueue k !! Z.to_nat (KeyevHeadidx k)) as [e|]; [|done]. cbn [checked]. rewrite !bind_Done.
  do 3 (cbn [pop_step]; rewrite bind_Done). cbn [KeyevHeadidx set_head].
  by destruct (u32 (KeyevHeadidx k + 1) >=? MAX_KEYBOARD_EVENTS).
Qed.

(** *** Progress *)

(** Iterated steps without an interrupt. *)
Fixpoint main_steps (n : nat) (s : Main) : outcome Main :=
  match n with O => Done s | S n' => s ← main_step s; main_steps n' s end.
Lemma main_steps_app n m s s1 : main_steps n s = Done s1 -> main_steps (n + m) s = main_steps m s1.
Proof.
  revert s. induction n as [|n IH]; intros s E; cbn [main_steps plus] in *; [by injection E as ->|].
  destruct (main_step s); cbn in *; try done. by apply IH.
Qed.
Lemma main_steps_inv n : forall s p w s', inv s p w -> main_steps n s = Done s' -> exists p', inv s' p' w /\ mOut s' ++ p' = mOut s ++ p.
Proof.
  induction n as [|n IH]; intros s p w s' Hi E; cbn [main_steps] in E; [injection E as <-; eauto|].
  destruct (main_step s) as [s1| | |] eqn:E1; cbn in E; try done. destruct (step_inv _ _ _ _ Hi E1) as (p1 & Hi1 & Ho1).
  destruct (IH s1 p1 w s' Hi1 E) as (p2 & Hi2 & Ho2). exists p2. by rewrite Ho2.
Qed.

(** How many steps are left of the current round of the inner loop. *)
Definition round_left (pc : main_pc) : nat :=
  match pc with
  | AtTest | AtHalt | Halted | AtInner => 0
  | InPop PopHead => 7 | InPop (PopAdvance _) => 6 | InPop (PopCopy _) => 5 | InPop (PopWrap _) => 4
  | InPop (PopCount _) => 3 | InPop (PopStore _ _) => 2 | InPop (Popped _) => 1
  end.
(** The round ends at the test of the inner loop, with one event printed. *)
Lemma round_step s p w m : inv s p w -> round_left (mPc s) = S m -> exists s', main_step s = Done s' /\ round_left (mPc s') = m /\
  match m with O => mPc s' = AtInner /\ length (mOut s') = S (length (mOut s)) | _ => mOut s' = mOut s end.
Proof.
  intros [_ _ (h & Hr & Ha)] Hm. unfold main_step, at_pc in *. destruct (mPc s) as [| | | |pc]; [done..|].
  destruct pc; injection Hm as <-; cbn [pop_step]; rewrite ?bind_Done; try by eexists.
  - destruct_and!. subst. destruct p as [|e q]; [simpl in *; lia|]. pose proof (rg_items _ _ _ Hr 0%nat e eq_refl) as Ee.
    change (Z.of_nat 0) with 0 in Ee. rewrite Z.add_0_r, Z.mod_small in Ee by apply Hr. rewrite Ee. by eexists.
  - eexists. split; [done|]. split; [done|]. split; [done|]. cbn [mOut]. rewrite length_app. simpl. lia.
Qed.
Lemma round_ends m : forall s p w, inv s p w -> round_left (mPc s) = S m ->
  exists s' p', main_steps (S m) s = Done s' /\ mPc s' = AtInner /\ inv s' p' w /\ mOut s' ++ p' = mOut s ++ p /\ length p = S (length p').
Proof.
  induction m as [|m IH]; intros s p w Hi Hm; destruct (round_step s p w _ Hi Hm) as (s1 & E1 & Hm1 & Hz);
    destruct (step_inv _ _ _ _ Hi E1) as (p1 & Hi1 & Ho1); pose proof (f_equal length Ho1) as Hl; rewrite !length_app in Hl.
  - destruct Hz as [Hz1 Hz2]. exists s1, p1. cbn [main_steps]. rewrite E1. split_and!; done || lia.
  - destruct (IH s1 p1 w Hi1 Hm1) as (s2 & p2 & E2 & H2 & Hi2 & Ho2 & Hl2). exists s2, p2.
    change (main_steps (S (S m)) s) with (s1 ← main_step s; main_steps (S m) s1). rewrite E1, bind_Done, Hz in *.
    split_and!; [done|done|done|congruence|lia].
Qed.

(** From the test of the inner loop every event the count knows of is printed. *)
Definition drains (bound : nat) (s : Main) (p : list HiKeyboardEvent) (w : nat) : Prop :=
  exists n s' q, (n <= bound)%nat /\ main_steps n s = Done s' /\ mPc s' = AtTest /\ inv s' q w /\ length q = w /\ mOut s' ++ q = mOut s ++ p.
Lemma drains_after k s s1 p p1 w b : main_steps k s = Done s1 -> mOut s1 ++ p1 = mOut s ++ p -> drains b s1 p1 w -> drains (k + b) s p w.
Proof.
  intros E Ho (n & s' & q & Hn & E' & H). exists (k + n)%nat, s', q. split; [lia|]. split; [by rewrite (main_steps_app k n s s1)|].
  by rewrite <- Ho.
Qed.
Lemma inner_drains c : forall s p w, inv s p w -> mPc s = AtInner -> (length p - w = c)%nat -> drains (8 * c + 1) s p w.
Proof.
  induction c as [|c IH]; intros s p w Hi Hpc Hc; pose proof Hi as [Hl Hw (h & Hr & Ha)]; unfold at_pc in Ha; rewrite Hpc in Ha; destruct Ha as [_ Ha].
  - assert (main_steps 1 s = Done (mkMain AtTest (mKbd s) (mOut s))) as E.
    { cbn [main_steps]. unfold main_step, HiGetKeyboardEventQueueNum. rewrite Hpc, Ha, (proj2 (Z.eqb_eq _ 0)) by lia. done. }
    destruct (main_steps_inv 1 _ _ _ _ Hi E) as (q & Hq & Ho). exists 1%nat, (mkMain AtTest (mKbd s) (mOut s)), q.
    pose proof (f_equal length Ho) as Hlo. cbn [mOut] in Hlo. rewrite !length_app in Hlo. split_and!; [lia|done..|lia|done].
  - assert (main_steps 1 s = Done (mkMain (InPop PopHead) (mKbd s) (mOut s))) as E.
    { cbn [main_steps]. unfold main_step, HiGetKeyboardEventQueueNum. rewrite Hpc, Ha, (proj2 (Z.eqb_neq _ 0)) by lia. done. }
    destruct (main_steps_inv 1 _ _ _ _ Hi E) as (p1 & Hi1 & Ho1). pose proof (f_equal length Ho1) as Hlo. cbn [mOut] in Hlo.
    rewrite !length_app in Hlo. destruct (round_ends 6 _ _ _ Hi1 eq_refl) as (s2 & p2 & E2 & Hpc2 & Hi2 & Ho2 & Hl2).
    replace (8 * S c + 1)%nat with (1 + (7 + (8 * c + 1)))%nat by lia. eapply drains_after, drains_after, IH; try done. lia.
Qed.
Lemma loop_drains s p w : inv s p w -> mPc s <> AtHalt -> mPc s <> Halted -> drains (8 * length p + 2) s p w.
Proof.
  intros Hi H1 H2. pose proof (iv_short _ _ _ Hi) as Hw.
  assert (forall b c, drains b s p w -> (b <= c)%nat -> drains c s p w) as Hmono.
  { intros b c (n & s' & q & Hn & H) Hb. exists n, s', q. split; [lia|done]. }
  destruct (mPc s) as [| | | |pc] eqn:Epc; [| |done|..]; [|done| |].
  - destruct (Z.eqb_spec (KeyevCount (mKbd s)) 0) as [Hz|Hz].
    + exists 0%nat, s, p. pose proof Hi as [_ _ (h & _ & Ha)]. unfold at_pc in Ha. rewrite Epc in Ha. split_and!; [lia|done..|lia|done].
    + assert (main_steps 1 s = Done (mkMain AtInner (mKbd s) (mOut s))) as E.
      { cbn [main_steps]. unfold main_step, HiGetKeyboardEventQueueNum. by rewrite Epc, (proj2 (Z.eqb_neq _ 0)). }
      destruct (main_steps_inv 1 _ _ _ _ Hi E) as (p1 & Hi1 & Ho1). pose proof (f_equal length Ho1) as Hlo. cbn [mOut] in Hlo.
      rewrite !length_app in Hlo. eapply Hmono; [eapply drains_after; [exact E|exact Ho1|by eapply inner_drains]|lia].
  - eapply Hmono; [by eapply inner_drains|lia].
  - destruct (round_left (InPop pc)) as [|m] eqn:Em; [by destruct pc|]. rewrite <- Epc in Em.
    destruct (round_ends m s p w Hi Em) as (s1 & p1 & E1 & Hpc1 & Hi1 & Ho1 & Hl1). assert (m <= 6)%nat by (rewrite Epc in Em; destruct pc; simpl in Em; lia).
    eapply Hmono; [eapply drains_after; [exact E1|exact Ho1|by eapply inner_drains]|lia].
Qed.

(** C24: whatever the interleaving of keyboard interrupts with the single memory accesses of
    the main loop and of HiPopKeyboardEvent, which runs with interrupts enabled, the events are
    printed in the order in which the interrupts queued them, none repeated and none
    overwritten, as long as there is room in the queue when an interrupt comes.  Unless it is
    halted or about to halt, the loop prints, in at most eight steps for each, all pending events but
    the last [w], where [w] events arrived between the load and the store of the count: those
    stay in the queue, unknown to the count, until further events push them out.  So no event is
    lost when no interrupt falls between these two accesses. *)
Theorem main_loop_prints s l w s' p :
  mPc s = AtTest -> queue_rep (mKbd s) p -> (length p < 128)%nat -> run_main s l w s' ->
  mOut s' ++ pending s' = mOut s ++ p ++ l /\ (w <= length (pending s'))%nat /\
  (mPc s' <> AtHalt -> mPc s' <> Halted ->
   exists n s2, (n <= 8 * length (pending s') + 2)%nat /\ main_steps n s' = Done s2 /\ mPc s2 = AtTest /\
     length (pending s2) = w /\ mOut s2 ++ pending s2 = mOut s ++ p ++ l).
Proof.
  intros Hpc Hp Hl H.
  assert (inv s p 0) as Hi.
  { split; [done|lia|]. exists (KeyevHeadidx (mKbd s)). split; [by apply ring_of_queue|]. unfold at_pc. rewrite Hpc, (qr_count _ _ Hp). split; [done|lia]. }
  destruct (run_main_spec s l w s' p H Hi) as (p' & Hi' & Ho). rewrite (inv_pending _ _ _ Hi'). split; [done|]. split; [apply Hi'|].
  intros H1 H2. destruct (loop_drains s' p' w Hi' H1 H2) as (n & s2 & q & Hn & E & Ht & Hq & Hlq & Ho2).
  exists n, s2. rewrite (inv_pending _ _ _ Hq), Ho2. done.
Qed.

(** The letter A, pressed while the processor is halted; its release arrives
    while the first event is taken off the queue, just before the count is read. *)
Definition idle_main : Main := mkMain AtTest kbd_zero [].
Definition main_of (o : outcome Main) : Main := match o with Done s => s | _ => idle_main end.
Definition halted_main : Main := main_of (main_steps 2 idle_main).
Definition pressed_main : Main := main_of (main_interrupt halted_main 0x1C).
Definition popping_main (n : nat) : Main := main_of (main_steps n pressed_main).
Definition prefixed_main (n : nat) : Main := main_of (main_interrupt (popping_main n) 0xF0).
Definition released_main (n : nat) : Main := main_of (main_interrupt (prefixed_main n) 0x1C).

Lemma run_main_steps n : forall s l w s1 s2, run_main s l w s1 -> main_steps n s1 = Done s2 -> run_main s l w s2.
Proof.
  induction n as [|n IH]; intros s l w s1 s2 R E; cbn [main_steps] in E; [by injection E as <-|].
  destruct (main_step s1) as [s3| | |] eqn:E1; cbn in E; try done. eapply IH; [by eapply run_loop|done].
Qed.
(** The execution to [released_main n], if it does not end in the window. *)
Lemma sample_run n : (n <= 6)%nat -> exists l w, run_main idle_main l w (released_main n) /\ length l = 2%nat /\ w = (if decide (n = 6)%nat then 1 else 0)%nat.
Proof.
  intros Hn. assert (run_main idle_main [] 0 halted_main) as R1 by (apply (run_main_steps 2 _ _ _ idle_main); [apply run_start|by vm_compute]).
  pose proof (run_interrupt _ _ _ _ 0x1C pressed_main R1 ltac:(vm_compute; lia) ltac:(by vm_compute)) as R2. cbv zeta in R2.
  assert (main_steps n pressed_main = Done (popping_main n)) as E3 by (do 7 (destruct n as [|n]; [by vm_compute|]); lia).
  assert (main_interrupt (popping_main n) 0xF0 = Done (prefixed_main n) /\ main_interrupt (prefixed_main n) 0x1C = Done (released_main n) /\
    length (pending (popping_main n)) = 1%nat /\ length (pending (prefixed_main n)) = 1%nat /\
    length (new_events (mKbd (popping_main n)) (mKbd (prefixed_main n))) = 0%nat /\
    length (new_events (mKbd (prefixed_main n)) (mKbd (released_main n))) = 1%nat /\
    storing (prefixed_main n) = bool_decide (n = 6)%nat)
    as (I1 & I2 & P1 & P2 & N1 & N2 & St) by (do 7 (destruct n as [|n]; [by vm_compute|]); lia).
  pose proof (run_main_steps n _ _ _ _ _ R2 E3) as R3. pose proof (run_interrupt _ _ _ _ _ _ R3 ltac:(lia) I1) as R4.
  pose proof (run_interrupt _ _ _ _ _ _ R4 ltac:(lia) I2) as R5. cbv zeta in R5.
  eexists _, _. split; [exact R5|]. rewrite !length_app, N1, N2, St. split; [by vm_compute|].
  destruct (storing (popping_main n)); case_bool_decide; by destruct (decide _).
Qed.

Lemma main_loop_prints_witness : exists l s2 n,
  run_main idle_main l 0 (released_main 5) /\ length l = 2%nat /\ (n <= 8 * length (pending (released_main 5)) + 2)%nat /\
  main_steps n (released_main 5) = Done s2 /\ mPc s2 = AtTest /\ mOut s2 ++ pending s2 = l /\ pending s2 = [].
Proof.
  destruct (sample_run 5 ltac:(lia)) as (l & w & R & Hl & Hw). cbn in Hw. subst w.
  destruct (main_loop_prints idle_main l 0 (released_main 5) [] eq_refl ltac:(split; try done; cbn; lia) ltac:(cbn; lia) R) as (_ & _ & Hd).
  destruct Hd as (n & s2 & Hn & E & Ht & Hz & Ho); [by vm_compute|by vm_compute|]. exists l, s2, n. split_and!; try done.
  by destruct (pending s2).
Defined.

(** The same release, one step later: the count is loaded before it and stored
    after it; the processor halts with the event left behind and a count of zero. *)
Example count_race : let s := main_of (main_steps 12 (released_main 6)) in
  mPc s = Halted /\ length (mOut s) = 1%nat /\ KeyevCount (mKbd s) = 0 /\ length (pending s) = 1%nat.
Proof. vm_compute. split_and!; reflexivity. Qed.

(** An interrupt between the test and the halt: the processor sleeps with an
    event pending, and no step of its own ends that. *)
Example wakeup_lost : let s1 := main_of (main_steps 1 idle_main) in let s2 := main_of (main_interrupt s1 0x1C) in let s3 := main_of (main_step s2) in
  main_interrupt s1 0x1C = Done s2 /\ main_step s2 = Done s3 /\ mPc s3 = Halted /\ KeyevCount (mKbd s3) = 1 /\ main_step s3 = Done s3.
Proof. vm_compute. split_and!; reflexivity. Qed.
