(* ===== verification/Processor.v ===== *)
(** * Processor primitives (Kernel/Source/CPU/Identify.c, MSR.c, Atomic.asm,
    Kernel/Source/KRTL/Krnlmem.asm)

    CPUID is a parameter, the model specific registers a store of the halves
    RDMSR and WRMSR transfer, and memory a store of bytes. *)
From Stdlib Require Import ZArith Lia String.
From stdpp Require Import base numbers list gmap.
From S2P Require Import Prelude Bytes Descriptors Loader Bootelvt BootelvtProps.
Open Scope Z_scope.
#[local] Arguments Z.testbit _ _ : simpl never.

(** ** Identification *)

Record CpuidRegs := mkCpuid { rEAX : Z; rEBX : Z; rECX : Z; rEDX : Z }.
Definition KR_CPUID_LEAF_HFP_MANUFACID : Z := 0.
Definition KR_CPUID_LEAF_PRC_INF_FEAT_BITS : Z := 1.
Definition KR_CPUID_LEAF_BRAND_STR_1ST : Z := 0x80000002.
Definition KR_PROCESSOR_MANUFACTURER_ID_SIZE : Z := 12.
Definition KR_PROCESSOR_BRAND_STRING_SIZE : Z := 48.
Record KrProcessorInfoAndFeatures := mkProcessor { Stepping : Z; Model : Z; Family : Z }.

(** The signature in EAX. *)
Definition signature (EAX : Z) : KrProcessorInfoAndFeatures :=
  let BaseModel := Z.land (Z.shiftr EAX 4) 0xF in
  let BaseFamily := Z.land (Z.shiftr EAX 8) 0xF in
  let ExtdModel := Z.land (Z.shiftr EAX 16) 0xF in
  let ExtdFamily := Z.land (Z.shiftr EAX 20) 0xFF in
  mkProcessor (u8 (Z.land EAX 0xF))
    (u16 (if (BaseFamily =? 6) || (BaseFamily =? 15) then Z.shiftl ExtdModel 4 + BaseModel else BaseModel))
    (u16 (if BaseFamily =? 15 then ExtdFamily + BaseFamily else BaseFamily)).

Section Identify.
Context (cpuid : Z -> CpuidRegs).
(** [None] is a null pointer. *)
Definition KrGetProcessorInfoAndFeatures (pOutStruct : option KrProcessorInfoAndFeatures) : option KrProcessorInfoAndFeatures * bool :=
  match pOutStruct with
  | None => (None, false)
  | Some _ => (Some (signature (rEAX (cpuid KR_CPUID_LEAF_PRC_INF_FEAT_BITS))), true)
  end.

Definition put_dword (m : ram) (pOut v : Z) : ram := write_at m pOut (le_bytes 4 v).
Definition KrGetProcessorManufacturerID (m : ram) (pOut : Z) : ram :=
  let r := cpuid KR_CPUID_LEAF_HFP_MANUFACID in
  let m := put_dword m pOut (rEBX r) in
  let m := put_dword m (pOut + 4) (rEDX r) in
  put_dword m (pOut + 8) (rECX r).

Fixpoint brand_loop (n : nat) (i pOut : Z) (m : ram) : ram :=
  match n with
  | O => m
  | S n' =>
      let r := cpuid (u32 (KR_CPUID_LEAF_BRAND_STR_1ST + i)) in
      let m := put_dword m pOut (rEAX r) in
      let m := put_dword m (pOut + 4) (rEBX r) in
      let m := put_dword m (pOut + 8) (rECX r) in
      let m := put_dword m (pOut + 12) (rEDX r) in
      brand_loop n' (i + 1) (pOut + 16) m
  end.
Definition KrGetProcessorBrandString (m : ram) (pOut : Z) : ram := brand_loop 3 0 pOut m.
End Identify.

(** ** Model specific registers *)

Definition msrs : Type := gmap Z (Z * Z).
Definition rdmsr (s : msrs) (RegisterID : Z) : Z * Z := default (0, 0) (s !! RegisterID).
Definition KrReadMSR (s : msrs) (RegisterID : Z) : Z :=
  let '(lodword, hidword) := rdmsr s RegisterID in Z.lor (u64 (Z.shiftl hidword 32)) lodword.
Definition KrWriteMSR (s : msrs) (RegisterID qwData : Z) : msrs :=
  <[RegisterID := (u32 qwData, u32 (Z.shiftr qwData 32))]> s.

(** ** Memory *)

Definition KrtlContiguousCopyBuffer (m : ram) (pDest pSrc N : Z) : ram := rep_movsb (Z.to_nat N) pSrc pDest m.
(** The backward loop: both pointers are past the last byte to move. *)
Fixpoint move_backward (n : nat) (RCX R8 : Z) (m : ram) : ram :=
  match n with
  | O => m
  | S n' => move_backward n' (RCX - 1) (R8 - 1) (<[R8 - 1 := default 0 (m !! (RCX - 1))]> m)
  end.
Definition KrtlContiguousMoveBuffer (m : ram) (pDest pSrc N : Z) : ram :=
  if N =? 0 then m
  else if pDest =? pSrc then m
  else if pDest <? pSrc then rep_movsb (Z.to_nat N) pSrc pDest m
  else move_backward (Z.to_nat N) (pSrc + N) (pDest + N) m.

(** ** Atomic operations *)

(** The compare and exchange loop of AtomicExchangeOr8: [mem i] is the byte at
    the i-th locked comparison, whatever the other processors do; the result is
    that index with the byte stored there, which is also returned. *)
Fixpoint or8_loop (fuel : nat) (mem : nat -> Z) (i : nat) (AL OrValue : Z) : outcome (nat * Z) :=
  match fuel with
  | O => Hang
  | S fuel' => if mem i =? AL then Done (i, Z.lor AL OrValue) else or8_loop fuel' mem (S i) (mem i) OrValue
  end.
Definition AtomicExchangeOr8 (fuel : nat) (first : Z) (mem : nat -> Z) (OrValue : Z) : outcome (nat * Z) := or8_loop fuel mem 0 first OrValue.
Definition AtomicExchangeAdd32 (Doubleword ValueToAdd : Z) : Z * Z := (u32 (Doubleword + ValueToAdd), Doubleword).
Definition AtomicOr8 (Byte OrValue : Z) : Z := Z.lor Byte OrValue.

(** ** Theorems *)

(** The fields of a signature: a type in bits 12 and 13 and reserved bits do not
    matter; family 15 adds the extended family, families 6 and 15 prefix the
    model with the extended model. *)
Theorem signature_decodes st bm bf ty em ef :
  0 <= st < 16 -> 0 <= bm < 16 -> 0 <= bf < 16 -> 0 <= ty < 16 -> 0 <= em < 16 -> 0 <= ef < 256 ->
  signature (st + 2 ^ 4 * bm + 2 ^ 8 * bf + 2 ^ 12 * ty + 2 ^ 16 * em + 2 ^ 20 * ef) =
    mkProcessor st (if (bf =? 6) || (bf =? 15) then 16 * em + bm else bm) (if bf =? 15 then ef + 15 else bf).
Proof.
  intros Hst Hbm Hbf Hty Hem Hef. set (x := st + _ + _ + _ + _ + _). unfold signature.
  change 0xF with (Z.ones 4). change 0xFF with (Z.ones 8). rewrite !Z.land_ones, !Z.shiftr_div_pow2, Z.shiftl_mul_pow2 by lia.
  assert (x mod 2 ^ 4 = st) as -> by (unfold x; zlia). assert ((x / 2 ^ 4) mod 2 ^ 4 = bm) as -> by (unfold x; zlia).
  assert ((x / 2 ^ 8) mod 2 ^ 4 = bf) as -> by (unfold x; zlia). assert ((x / 2 ^ 16) mod 2 ^ 4 = em) as -> by (unfold x; zlia).
  assert ((x / 2 ^ 20) mod 2 ^ 8 = ef) as -> by (unfold x; zlia).
  change (Z.ones 4) with 15. unfold u8, u16. f_equal; [by rewrite Z.mod_small by lia| |].
  - destruct ((bf =? 6) || (bf =? 15)); rewrite Z.mod_small by lia; lia.
  - destruct (Z.eqb_spec bf 15); rewrite Z.mod_small by lia; lia.
Qed.

(** What is written to a register is what is read from it. *)
Theorem msr_roundtrip s r v : 0 <= v < 2 ^ 64 -> KrReadMSR (KrWriteMSR s r v) r = v /\ forall r', r' <> r -> KrReadMSR (KrWriteMSR s r v) r' = KrReadMSR s r'.
Proof.
  intros Hv. unfold KrReadMSR, KrWriteMSR, rdmsr. split.
  - rewrite (lookup_insert_eq (M := gmap Z) s). cbn [default id from_option]. rewrite Z.shiftr_div_pow2 by lia. unfold u64, u32.
    assert (0 <= v / 2 ^ 32 < 2 ^ 32) as Hh by (split; [apply Z.div_pos|apply Z.div_lt_upper_bound]; lia).
    pose proof (Z.mod_pos_bound v (2 ^ 32) ltac:(lia)) as Hm. rewrite (Z.mod_small (v / 2 ^ 32)) by lia.
    rewrite (Z.mod_small (Z.shiftl _ _)) by (rewrite Z.shiftl_mul_pow2 by lia; lia). rewrite lor_shiftl_add by lia.
    pose proof (Z.div_mod v (2 ^ 32)). lia.
  - intros r' Hr. by rewrite (lookup_insert_ne (M := gmap Z) s).
Qed.

(** *** Moves *)

Lemma movsb_forward n : forall RSI RDI m i, RDI < RSI -> RDI <= i < RDI + Z.of_nat n ->
  rep_movsb n RSI RDI m !! i = Some (default 0 (m !! (i + (RSI - RDI)))).
Proof.
  induction n as [|n IH]; intros RSI RDI m i Hd Hi; [lia|]. cbn [rep_movsb]. destruct (decide (i = RDI)) as [->|Hne].
  - rewrite rep_movsb_other by lia. replace (RDI + (RSI - RDI)) with RSI by lia. apply (lookup_insert_eq (M := gmap Z) m).
  - rewrite IH by lia. replace (i + (RSI + 1 - (RDI + 1))) with (i + (RSI - RDI)) by lia. do 2 f_equal. apply lookup_insert_ne. lia.
Qed.
Lemma move_backward_spec n : forall RCX R8 m i, RCX < R8 ->
  move_backward n RCX R8 m !! i = if (R8 - Z.of_nat n <=? i) && (i <? R8) then Some (default 0 (m !! (i - (R8 - RCX)))) else m !! i.
Proof.
  induction n as [|n IH]; intros RCX R8 m i Hd.
  - cbn [move_backward]. destruct (Z.leb_spec (R8 - Z.of_nat 0) i), (Z.ltb_spec i R8); cbn [andb]; try done; lia.
  - cbn [move_backward]. rewrite IH by lia. replace (i - (R8 - 1 - (RCX - 1))) with (i - (R8 - RCX)) by lia.
    destruct (decide (i = R8 - 1)) as [->|Hne].
    + destruct (Z.ltb_spec (R8 - 1) (R8 - 1)); [lia|]. rewrite andb_false_r.
      destruct (Z.leb_spec (R8 - Z.of_nat (S n)) (R8 - 1)), (Z.ltb_spec (R8 - 1) R8); try lia. cbn [andb].
      replace (R8 - 1 - (R8 - RCX)) with (RCX - 1) by lia. apply (lookup_insert_eq (M := gmap Z) m).
    + assert (forall j, j <> R8 - 1 -> <[R8 - 1 := default 0 (m !! (RCX - 1))]> m !! j = m !! j) as Hins.
      { intros j Hj. apply (lookup_insert_ne (M := gmap Z) m). lia. }
      destruct (Z.leb_spec (R8 - 1 - Z.of_nat n) i), (Z.ltb_spec i (R8 - 1)), (Z.leb_spec (R8 - Z.of_nat (S n)) i), (Z.ltb_spec i R8); try lia; cbn [andb];
        by rewrite Hins by lia.
Qed.

(** Whatever the overlap, the destination ends up with the bytes the source had,
    and no other byte changes. *)
Theorem move_buffer_moves m pDest pSrc N : 0 <= N ->
  let m' := KrtlContiguousMoveBuffer m pDest pSrc N in
  rd m' pDest N = rd m pSrc N /\ forall i, ~ pDest <= i < pDest + N -> m' !! i = m !! i.
Proof.
  intros HN m'. assert (forall i, (pDest <= i < pDest + N -> default 0 (m' !! i) = default 0 (m !! (i + (pSrc - pDest)))) /\
    (~ pDest <= i < pDest + N -> m' !! i = m !! i)) as H.
  { intros i. unfold m', KrtlContiguousMoveBuffer. destruct (Z.eqb_spec N 0); [split; [lia|done]|].
    destruct (Z.eqb_spec pDest pSrc) as [->|]; [split; [intros _; by rewrite Z.sub_diag, Z.add_0_r|done]|].
    destruct (Z.ltb_spec pDest pSrc).
    - split; intros Hi; [by rewrite movsb_forward by lia|apply rep_movsb_other; lia].
    - rewrite move_backward_spec by lia.
      destruct (Z.leb_spec (pDest + N - Z.of_nat (Z.to_nat N)) i), (Z.ltb_spec i (pDest + N)); cbn [andb]; split; intros Hi; try lia; try done.
      by replace (i - (pDest + N - (pSrc + N))) with (i + (pSrc - pDest)) by lia. }
  split; [|intros i; apply H]. unfold rd. apply list_eq. intros k. rewrite !list_lookup_fmap.
  destruct (decide (Z.of_nat k < N)) as [Hk|Hk].
  - rewrite !(proj2 (lookup_seqZ _ _ _ _)) by (split; [reflexivity|lia]). cbn. rewrite (proj1 (H _)) by lia. do 3 f_equal. lia.
  - by rewrite !lookup_seqZ_ge by lia.
Qed.

(** The copy is a move unless the destination starts inside the source: then
    bytes are read after they were overwritten. *)
Theorem copy_buffer_copies m pDest pSrc N : 0 <= N -> pDest < pSrc \/ pSrc + N <= pDest ->
  let m' := KrtlContiguousCopyBuffer m pDest pSrc N in
  rd m' pDest N = rd m pSrc N /\ forall i, ~ pDest <= i < pDest + N -> m' !! i = m !! i.
Proof.
  intros HN Hd m'. split; [|intros i Hi; apply rep_movsb_other; lia]. destruct Hd as [Hd|Hd].
  - destruct (decide (N = 0)) as [->|]; [done|]. destruct (move_buffer_moves m pDest pSrc N HN) as [<- _].
    unfold KrtlContiguousMoveBuffer. rewrite (proj2 (Z.eqb_neq N 0)), (proj2 (Z.eqb_neq pDest pSrc)), (proj2 (Z.ltb_lt pDest pSrc)) by lia. done.
  - pose proof (rep_movsb_copies (Z.to_nat N) pSrc pDest m) as H. rewrite Z2Nat.id in H by lia. apply H. lia.
Qed.
Example copy_repeats : rd (KrtlContiguousCopyBuffer (write_at ∅ 10 [1; 2; 3; 4]) 11 10 3) 10 4 = [1; 1; 1; 1].
Proof. vm_compute. reflexivity. Qed.

(** *** Text of the processor *)

Lemma put_dword_bytes m p v : put_dword m p v = write_at m p (le_bytes 4 v).
Proof. reflexivity. Qed.
Lemma write_at_next m p a b q : q = p + Z.of_nat (length a) -> write_at (write_at m p a) q b = write_at m p (a ++ b).
Proof. intros ->. apply write_at_snoc. Qed.

Definition brand_bytes (r : CpuidRegs) : list Z := le_bytes 4 (rEAX r) ++ le_bytes 4 (rEBX r) ++ le_bytes 4 (rECX r) ++ le_bytes 4 (rEDX r).
(** Twelve and forty-eight bytes are written, the registers in the order EBX,
    EDX, ECX and EAX to EDX of the three brand leaves. *)
Theorem identification_text cpuid m pOut :
  KrGetProcessorManufacturerID cpuid m pOut =
    write_at m pOut (let r := cpuid 0 in le_bytes 4 (rEBX r) ++ le_bytes 4 (rEDX r) ++ le_bytes 4 (rECX r)) /\
  KrGetProcessorBrandString cpuid m pOut =
    write_at m pOut (brand_bytes (cpuid 0x80000002) ++ brand_bytes (cpuid 0x80000003) ++ brand_bytes (cpuid 0x80000004)).
Proof.
  split.
  - unfold KrGetProcessorManufacturerID. rewrite !put_dword_bytes. rewrite !write_at_next by (rewrite ?length_app, ?le_bytes_length; lia). by rewrite <- ?app_assoc.
  - unfold KrGetProcessorBrandString, brand_bytes. cbn [brand_loop]. rewrite !put_dword_bytes.
    rewrite !write_at_next by (rewrite ?length_app, ?le_bytes_length; lia). rewrite <- ?app_assoc. reflexivity.
Qed.

(** *** Atomic operations *)

(** The loop ends at the first comparison that sees the byte the one before it
    saw, so what is stored is the byte at that instant with the bits added, and
    no update of another processor in between is lost. *)
Theorem exchange_or_atomic first mem v n :
  mem (S n) = mem n -> exists k, (k <= S n)%nat /\ AtomicExchangeOr8 (S (S n)) first mem v = Done (k, Z.lor (mem k) v) /\
    mem k = match k with O => first | S j => mem j end.
Proof.
  intros Hn. unfold AtomicExchangeOr8.
  assert (forall d i AL, (d + i = S n)%nat -> AL = match i with O => first | S j => mem j end ->
    exists k, (k <= S n)%nat /\ or8_loop (S d) mem i AL v = Done (k, Z.lor (mem k) v) /\ mem k = match k with O => first | S j => mem j end) as H.
  { induction d as [|d IH]; intros i AL Hd HA; cbn [or8_loop].
    - assert (i = S n) as -> by lia. subst AL. rewrite Hn, Z.eqb_refl. exists (S n). by rewrite Hn.
    - destruct (Z.eqb_spec (mem i) AL) as [<-|].
      + exists i. split; [lia|done].
      + apply (IH (S i) (mem i)); [lia|done]. }
  apply (H (S n) 0%nat first); [lia|done].
Qed.
