(* ===== verification/BootChain.v ===== *)
(** * The boot chain: from the loader's entry point into KrKernelStart *)
From Stdlib Require Import ZArith Lia String Sorted Permutation.
From stdpp Require Import base numbers list gmap.
From S2P Require Import Prelude Bytes BootstrapArena MemoryMap Fonts Console ConsoleSpec ConsoleProps ConsoleThms Loader LoaderProps LoaderThms Bootelvt BootelvtProps BootelvtThms KernelStart KernelStartProps.
Open Scope Z_scope.
#[local] Arguments Z.testbit _ _ : simpl never.

(** ** Boot elevate *)

(** C4: entered with the size and the address of an information pack whose frame
    buffer lies on a large page and is at most 1 GiB, boot elevate calls the
    kernel at its virtual address with the pack's copy as the argument, the
    stack at the top of the reserved area and caching on; the processor's walk
    over the tables it built maps the lowest 2 MiB to themselves, the reserved
    area to the kernel image, the frame buffer's addresses to its bytes,
    write-combining, and nothing beyond its last page; memory outside the image
    and the stack slot is untouched. *)
Theorem bootelvt_enters_kernel BOOT_INFO_PACK_SIZE BOOT_INFO PML4 Return c RCX RSI fb size m :
  image_layout BOOT_INFO_PACK_SIZE BOOT_INFO PML4 -> 0 <= Return < 2 ^ 64 ->
  elevate_input BOOT_INFO_PACK_SIZE PML4 RCX RSI fb size m -> framebuffer_ok fb size ->
  exists r, Bootelvt BOOT_INFO_PACK_SIZE BOOT_INFO PML4 Return c RCX RSI m = Done r /\
    kernel_entered BOOT_INFO_PACK_SIZE BOOT_INFO PML4 Return RCX RSI fb (framebuffer_pages size) m r /\
    forall i, 0 <= i < size -> fst <$> boot_translate PML4 (enMem r) (FRAMEBUFFER_VIRTUAL_ADDR + i) = Some (fb + i).
Proof.
  intros IL HR EI FO. destruct (elevate_enters BOOT_INFO_PACK_SIZE BOOT_INFO PML4 Return c RCX RSI fb size m IL HR EI FO) as (r & E & K).
  exists r. split; [done|]. split; [done|]. intros i Hi. pose proof (framebuffer_pages_cover size) as Hc. pose proof (fo_size _ _ FO) as Hs.
  rewrite (ke_map _ _ _ _ _ _ _ _ _ _ K) by (unfold canonical_address, FRAMEBUFFER_VIRTUAL_ADDR; lia).
  unfold boot_map, KERNEL_RESERVED_END, KERNEL_VIRTUAL_ADDRESS, KERNEL_RESERVE_SIZE, FRAMEBUFFER_VIRTUAL_ADDR.
  repeat zcase; try lia; cbn [andb]; f_equal; lia.
Qed.

(** ** The chain *)

Section Chain.
Context {W : Type} `{FW : Firmware W}.
(** The pack and the descriptors when boot services end in [mx]. *)
Definition booted_pack (pGOP : Z) (content : string -> list Z) (emap : W * ram -> list EfiMemoryDescriptor) (tab : Z) (m mx : W * ram) : KrSystemInfoPack :=
  boot_info (Z.of_nat (length (content KERNEL_FILE_NAME))) (GopCurrent pGOP mx) (locate_table ACPI_20_TABLE_GUID (ConfigurationTable tab m))
    (mkInfo (32 * Z.of_nat (length (emap mx))) (Z.of_nat (length (emap mx))) 4096).
(** What the kernel needs holds of whatever state the loader can end in. *)
Definition start_ready (live : W * ram -> Prop) (pGOP : Z) (answers : Z -> option ModeInformation) (Max : Z) (sets hyp : bool)
    (content : string -> list Z) (emap : W * ram -> list EfiMemoryDescriptor) (tab : Z) (m : W * ram) (Frames : list Z) : Prop :=
  forall mx, live mx ->
    (usable (chosen answers Max hyp) = true -> sets = true -> ModeInfo (GopCurrent pGOP mx) = (chosen answers Max hyp).2) ->
    start_ok (booted_pack pGOP content emap tab m mx) (kr_descriptor <$> emap mx) Frames.
End Chain.

(** C1: the whole chain.  On a firmware that serves the loader, with both boot
    files on the disk, the loader jumps to boot elevate, boot elevate enters the
    kernel image at its virtual address, and the head of KrKernelStart accepts
    the pack and returns: the firmware's descriptors are sorted, the canonical
    map covers exactly their usable memory, the arena of the contract has only
    the blocks taken by the head, and the screen is black. *)
Theorem boot_chain_starts_kernel {W} `{FW : Firmware W} (live : W * ram -> Prop) pGOP answers Max sets content file_at pool needed dsz limit emap N
    tab ECX EBX fuel pB img c Return (m : W * ram) BOOT_INFO_PACK_SIZE BOOT_INFO PML4 AddrPerCpu sizeof_PerCpu Frames :
  services live pGOP answers Max sets content file_at pool needed dsz limit emap N tab ->
  fits Max content pool dsz limit emap N pB -> live m -> (Z.to_nat Max < fuel)%nat ->
  images_ok content BOOT_INFO_PACK_SIZE BOOT_INFO PML4 -> values_ok live pGOP emap tab m -> 0 <= Return < 2 ^ 64 -> 0 < sizeof_PerCpu ->
  start_ready live pGOP answers Max sets (YchbootIsHypervisorPresent ECX) content emap tab m Frames ->
  exists mj j mx r s, efi_main ECX fuel pB img tab m = Done (mj, inr j) /\ jRIP j = BOOTELVT_LOAD_ADDRESS /\ live mx /\
    Bootelvt BOOT_INFO_PACK_SIZE BOOT_INFO PML4 Return c (jRCX j) (jRSI j) mj.2 = Done r /\
    kernel_booted content PML4 (booted_pack pGOP content emap tab m mx) (kr_descriptor <$> emap mx) r /\
    start_head AddrPerCpu sizeof_PerCpu (enMem r) (enRDI r) EBX (replicate 24 0) Frames = Done s /\
    started AddrPerCpu sizeof_PerCpu EBX (booted_pack pGOP content emap tab m mx) (kr_descriptor <$> emap mx) s.
Proof.
  intros SV HF Hm Hfu HI HV HR Hsz Hst.
  destruct (loader_jumps _ _ _ _ _ _ _ _ _ _ _ _ _ _ SV ECX fuel pB img m HF Hm Hfu) as (mj & j & E & mx & Hh).
  destruct (chain_boots live pGOP content emap N tab BOOT_INFO_PACK_SIZE BOOT_INFO PML4 answers Max sets _ pool dsz limit pB m mx mj j c Return HV HF HI HR Hh)
    as (r & Er & K). fold (booted_pack pGOP content emap tab m mx) in K.
  destruct (head_starts AddrPerCpu sizeof_PerCpu EBX (booted_pack pGOP content emap tab m mx) (kr_descriptor <$> emap mx) Frames (enMem r) (enRDI r) Hsz)
    as (s & Es & Hs); [apply Hst; [apply Hh|apply Hh]|apply K|apply K|].
  exists mj, j, mx, r, s. split_and!; [done|by rewrite (ho_jump _ _ _ _ _ _ _ _ _ _ _ _ _ _ Hh)|apply Hh|done|done|done|done].
Qed.

(** ** Concrete machines *)

Definition sample_bootelvt : list Z := replicate (Z.to_nat 0xA000) 0.
Definition sample_pixels : list Z := replicate (Z.to_nat 0x1FE000) 0.
Lemma sample_bootelvt_length : Z.of_nat (length sample_bootelvt) = 0xA000.
Proof. unfold sample_bootelvt. rewrite length_replicate. apply Z2Nat.id. lia. Qed.
Lemma sample_pixels_length : Z.of_nat (length sample_pixels) = 0x1FE000.
Proof. unfold sample_pixels. rewrite length_replicate. apply Z2Nat.id. lia. Qed.
Lemma sample_layout : image_layout 0x100200 0x100208 0x103000.
Proof. by split. Qed.
Lemma sample_images : images_ok (sample_content sample_bootelvt [4; 5]) 0x100200 0x100208 0x103000.
Proof.
  destruct (sample_contents sample_bootelvt [4; 5]) as [Eb Ek]. pose proof sample_bootelvt_length as HL.
  split; rewrite ?Eb, ?Ek; unfold BOOTELVT_LOAD_ADDRESS; [exact sample_layout|lia|lia| |].
  - intros i b Hi _. unfold sample_bootelvt in Hi. by apply lookup_replicate in Hi as [-> _].
  - vm_compute. congruence.
Qed.
Lemma sample_framebuffer : framebuffer_ok 0xC0000000 0x7F8000.
Proof. split; [done|done|]. vm_compute. split; congruence. Qed.

#[local] Existing Instance sample_firmware.
Section Sample.
Let FW0 : Firmware World := sample_firmware sample_bootelvt [4; 5] true.
#[local] Existing Instance FW0.

Lemma sample_values : values_ok (FW := FW0) sample_live 40 (fun _ => sample_map) 0 (mkWorld false 0, ∅).
Proof.
  split.
  - intros x _. cbv zeta. cbn [GopCurrent FW0 sample_firmware FrameBufferBase FrameBufferSize ModeInfo]. split; [exact sample_framebuffer|].
    unfold mode_info. repeat case_match; cbn; lia.
  - by vm_compute.
  - intros x _. repeat constructor; cbn; lia.
Qed.
Lemma sample_start : start_ready (FW := FW0) sample_live 40 sample_answers 3 true true (sample_content sample_bootelvt [4; 5]) (fun _ => sample_map) 0
  (mkWorld false 0, ∅) sample_pixels.
Proof.
  intros mx _ Hmode.
  assert (chosen (FW := FW0) sample_answers 3 true = (1, mode_info 1)) as Ec by (by vm_compute). rewrite Ec in Hmode.
  specialize (Hmode eq_refl eq_refl). cbn [snd] in Hmode. pose proof sample_pixels_length as HP.
  split; cbn [booted_pack boot_info ipMagic KernelBootstrapArenaBase KernelBootstrapArenaSize GraphicsInfo FramebufferSize FramebufferWidth FramebufferHeight
    Loader.PixelsPerScanLine MemoryMapInfo].
  - reflexivity.
  - split; reflexivity.
  - reflexivity.
  - repeat constructor.
  - repeat constructor; cbn; lia.
  - vm_compute. congruence.
  - rewrite HP. by split.
  - unfold start_font. cbn [booted_pack boot_info GraphicsInfo FramebufferWidth FramebufferHeight]. rewrite Hmode. cbn [mode_info Z.eqb Pos.eqb HorizontalResolution VerticalResolution ScanLinePixels].
    change (with_scale g_KrdwtpDefaultFont_8x16 (font_scale 1920 1080)) with g_KrdwtpDefaultFont_8x16.
    split; [eexists; apply default_fonts_ok|lia|lia|reflexivity|lia|lia|]. rewrite HP. vm_compute. congruence.
Qed.
End Sample.

Definition sample_pack : KrSystemInfoPack :=
  boot_info 2 (mkGopMode 3 0xC0000000 0x7F8000 (mode_info 1)) 0x7FE0014 (mkInfo 64 2 4096).
Lemma bootelvt_enters_kernel_witness : exists r,
  Bootelvt 0x100200 0x100208 0x103000 0x100190 (mkBootCpu 0x80000011 0 0 0) 140 0x80000 (write_at ∅ 0x80000 (pack_bytes sample_pack)) = Done r /\
  kernel_entered 0x100200 0x100208 0x103000 0x100190 140 0x80000 0xC0000000 4 (write_at ∅ 0x80000 (pack_bytes sample_pack)) r /\
  forall i, 0 <= i < 0x7F8000 -> fst <$> boot_translate 0x103000 (enMem r) (FRAMEBUFFER_VIRTUAL_ADDR + i) = Some (0xC0000000 + i).
Proof.
  apply (bootelvt_enters_kernel 0x100200 0x100208 0x103000 0x100190 (mkBootCpu 0x80000011 0 0 0) 140 0x80000 0xC0000000 0x7F8000).
  - exact sample_layout.
  - lia.
  - split; [unfold BOOT_INFO_MAX_SIZE; lia|by left|by vm_compute|by vm_compute|by vm_compute|].
    intros a Ha. rewrite write_at_lookup, pack_bytes_length. unfold sizeof_KrSystemInfoPack. rewrite decide_False by lia. done.
  - exact sample_framebuffer.
Defined.

Lemma boot_chain_starts_kernel_witness : exists mj j mx r s,
  efi_main (FW := sample_firmware sample_bootelvt [4; 5] true) (Z.shiftl 1 31) 4 0x70000000 1 0 (mkWorld false 0, ∅) = Done (mj, inr j) /\
  jRIP j = BOOTELVT_LOAD_ADDRESS /\ sample_live mx /\
  Bootelvt 0x100200 0x100208 0x103000 0x100190 (mkBootCpu 0x80000011 0 0 0) (jRCX j) (jRSI j) mj.2 = Done r /\
  kernel_booted (sample_content sample_bootelvt [4; 5]) 0x103000
    (booted_pack (FW := sample_firmware sample_bootelvt [4; 5] true) 40 (sample_content sample_bootelvt [4; 5]) (fun _ => sample_map) 0 (mkWorld false 0, ∅) mx)
    (kr_descriptor <$> sample_map) r /\
  start_head 0xFFFFFFFF80300000 4096 (enMem r) (enRDI r) 0 (replicate 24 0) sample_pixels = Done s /\
  started 0xFFFFFFFF80300000 4096 0
    (booted_pack (FW := sample_firmware sample_bootelvt [4; 5] true) 40 (sample_content sample_bootelvt [4; 5]) (fun _ => sample_map) 0 (mkWorld false 0, ∅) mx)
    (kr_descriptor <$> sample_map) s.
Proof.
  pose proof sample_bootelvt_length as HL.
  apply (boot_chain_starts_kernel (FW := sample_firmware sample_bootelvt [4; 5] true) sample_live 40 sample_answers 3 true
    (sample_content sample_bootelvt [4; 5]) sample_file_at sample_pool_ok 96 48 (2 ^ 20) (fun _ => sample_map) 2).
  - apply sample_services; [lia|done|reflexivity].
  - apply sample_fits; [lia|done].
  - reflexivity.
  - lia.
  - exact sample_images.
  - exact sample_values.
  - lia.
  - lia.
  - exact sample_start.
Defined.
